(* ===== verification/_CoqProject ===== *)
-Q . S2P
Prelude.v
CMem.v
CText.v
Protocol.v
Net.v
Capi20.v
AppIndex.v
Server.v
Packet.v
Exec.v
Proxy.v
Capifwd.v
ExecSpec.v
MessageSpec.v
ProxySpec.v
Handled.v
Handlers.v
CapifwdSpec.v
Demo.v
Served.v
ServedProperties.v
ServerProperties.v
ProxyProperties.v
ServerWitness.v
Listener.v
ListenerSpec.v
ListenerProperties.v
OldApps.v
OldServer.v
OldSpec.v
OldRun.v
OldListener.v
OldProperties.v
Unused.v
CapiUtil.v
Daemon.v
DaemonSpec.v
DaemonSafe.v
DaemonRun.v
DaemonProperties.v
DaemonWitness.v
LinuxPair.v
Module.v
ModuleSpec.v
ModuleRead.v
ModuleProperties.v
ModuleWitness.v
Win32.v
WClient.v
WClientSpec.v
WClientCalls.v
WClientAnswers.v
WClientInv.v
WClientSteps.v
WClientCall.v
WClientApps.v
WClientConnect.v
WClientProperties.v
ClientServer.v
DemoWindows.v
WClientWitness.v
Capi2032.v
WServer.v
WServerSpec.v
WServerMessages.v
WServerProxy.v
WServerSafe.v
WServerHandled.v
WServerSession.v
WServerProperties.v
WindowsPair.v
WindowsRemote.v
DemoCapi2032.v
WServerWitness.v
WindowsPairProperties.v
WService.v
WServiceProperties.v
Applet.v
AppletProperties.v
