(* ===== verification/Prelude.v ===== *)
(** * capi20proxy: a verified model of a proxy for ISDN cards

    capi20proxy lets programs on one machine use the ISDN card of another.  A
    CAPI 2.0 application calls its CAPI library; the library is a client of the
    proxy and turns each call into a request on a TCP connection; the server
    answers it with a call of the CAPI library of its own machine.

    ** Parts of the program

    - linux-server/: a process that listens and forks one connection handler
      per client.  The handler receives a request, looks at its type, runs one
      of the packet handlers, which calls libcapi20 and sends the answer.
    - linux-client/module/: a kernel module that is an ISDN card to kernelcapi.
      It queues the messages of the kernel for a character device, and takes
      messages for the kernel from it.
    - linux-client/daemon/: the process between that device and the connection
      to the server.
    - win32-client/: capi2032.dll, the CAPI library of Windows programs.  A
      receiver thread stores each answer where the call that waits for it looks.
    - CPL/ of win32-client/ and win32-server/: two dialogs of the control panel for
      the settings of client and server in the registry.
    - win32-server/: a second server, for Windows, with a thread per client.  It
      runs as a service or behind a window, and takes its settings from the
      registry.
    - linux-server/src/old/: revision 1.14 of the Linux server, in one file, which no
      makefile builds any more.
    - protocol.h, four copies with the same structures, is what they share.

    ** Files of the development

    Foundations.
    - Prelude: outcomes of C code ([outcome]), the state monad [M] with its
      notation, fields of the state ([field], [fget], [fset], [zoom]), the
      relational invariant [respects] with its hint database.
    - CMem: byte arrays as the C code uses them, with an access outside the
      array as a fault; the view of a buffer as a list of 32-bit words.
    - CText: decimal numbers and addresses in text (atoi, %d, sscanf), strings in
      arrays.
    - Protocol (protocol.h): constants, layouts, the two headers and their wire
      form.
    - Net: a stream socket, and [recvn] of capifwd.c.

    Interfaces to code that is not in the repository, each a type class with its
    documented laws: Capi20 (libcapi20, [CapiHeader]), CapiUtil (the kernel's
    CAPI headers), [KernelHeader], [SkBuff] and [SkQueue] in Module (socket
    buffers), Win32 (allocation, registry, socket and thread of Windows), Capi2032
    (the CAPI library, heap, registry and stack of the Windows server), [WinService]
    in WService (sockets, threads, events and service manager of its process),
    [Unix] in Listener (descriptors and processes), [Registry] in Applet, [OldHeader] in
    OldServer (a structure protocol.h no longer has).  Demo, DemoWindows, DemoCapi2032,
    DaemonWitness, ModuleWitness and the last sections of WServiceProperties,
    ListenerProperties, AppletProperties and OldProperties instantiate all of them.

    The Linux server.
    - AppIndex (appindex.c): the registry of application ids.
    - Server (capifwd.h and the globals of capifwd.c): the state.
    - Exec (the files of capi/), Proxy (capi/proxy.c, auth/auth.c, unix.c), Capifwd
      (capifwd.c): one definition per C function, in the order of its
      statements.
    - Packet: the statements of a handler executed on out_packet as words.
    - ExecSpec, MessageSpec, ProxySpec: one run of each handler on every path.
      Handled states what each handler promises to the dispatcher; Handlers
      proves it; CapifwdSpec carries it through the dispatcher, the loop and the
      exit.
    - Served: the same behind the receive path, from a request on the wire to its
      answer.
    - ServedProperties, ServerProperties, ProxyProperties; ServerWitness.
    - Listener (main of capifwd.c up to the handling of a connection, config/cmdline.c,
      the rest of unix.c): the process that accepts connections and forks a handler for
      each, with a copy of its memory.  ListenerSpec, ListenerProperties.
    - Unused: functions that nothing calls.

    The old Linux server (old/main-rev1.14-cvs.c).
    - OldApps: the linked list of applications on the heap, and that it implements a
      list.  OldServer: the handlers and the loop of a connection.
    - OldSpec: what it is for two programs to run in step ([coupled]), and each handler
      of the old server in step with the one of the current server.  OldRun: rounds and
      connections in step; the invariant of the old server.
    - OldListener: main up to the handling of a connection, and its end.
    - OldProperties.

    The Linux client.
    - Daemon (c2pclient.c), DaemonSpec, DaemonSafe (what every function keeps),
      DaemonRun (rounds of the main loop), DaemonProperties, DaemonWitness.
    - Module (module/capi20proxy.c), ModuleSpec (invariant), ModuleRead (the
      queue), ModuleProperties (last a reader, a sender and a flush on different
      processors), ModuleWitness.

    The Windows client.
    - WClient (capi2032.cpp, capi2032.h): the exported functions, the receiver
      thread, the two linked lists, connecting and unloading.
    - WClientSpec, WClientCalls, WClientAnswers: what one exchange does, for each
      function and each answer.  WClientCall is the one interface of the
      exported functions the theorems about all of them are proved against.
    - WClientInv: the invariant.  WClientApps: the list of applications as a
      finite map.  WClientConnect: opening and unloading.
    - WClientSteps: the threads step by step.  WClient is one call from its beginning to its
      end, where the list of outstanding requests is a sequence; here callers, receiver
      thread and server take turns, the list is made of nodes on a heap, and a
      thread reads [hash_start] and [msg_id] where the code does, outside the critical
      sections.
    - WClientProperties, WClientWitness.

    LinuxPair: the Linux client against both Linux servers, from the first request of
    the daemon to what it tells the kernel module.

    ClientServer: the Windows client against the Linux server, from the call of the
    application to its return.

    The Windows server.
    - WServer (capi20server.cpp from allocSession on, capi20server.h): the thread of a
      session, with its handlers, the two checks of authentication and the waiters.
    - WServerSpec, WServerMessages, WServerProxy: one run of each handler.
      WServerSafe: what every function keeps, for any input.  WServerHandled: what
      each handler does to a sound session, and the dispatcher.  WServerSession: a
      round of the loop and the end of the session.  WServerProperties,
      WServerWitness.
    - WService (the rest of capi20server.cpp): main, the settings, the accept loop,
      the control handler and the dialog.  WServiceProperties.
    - Applet (CPL.cpp, both): the dialogs; AppletProperties.
    - WindowsPair: Windows client and Windows server as one system, and the
      specification of a remote call by the call of the library itself.
      WindowsRemote: each call.  WindowsPairProperties.

    ** State and operations

    The globals of a C file are the fields of one record ([server], [daemon],
    [kmodule], [dll], [listener], [wserver] with what a session thread has of its own,
    [service], [oserver] and [olistener]), with the socket, the library or the system beside them.
    A C function is a definition of the same name in the monad [M]: it returns a
    value, ends the process, or runs into undefined behaviour, which is a value
    [Faulted] too, so that the theorems say where it happens.  Words are integers
    between 0 and 2^32, reduced where C reduces them ([u32], [s32]); structures
    are little-endian at their offsets in a byte array.  An indeterminate
    variable of the source has no value in the model: its use is a fault, or,
    where the source copies it to the wire, the bytes an earlier packet left in
    the buffer.

    ** What the theorems show

    - Every connection ends, and gives back what it registered; what a
      connection can reach satisfies the invariant; every request gets at most
      one answer, and that is well-formed and for it ([handle_connection_ends],
      [reachable_inv], [dispatch_one_answer], [wrong_session_ignored]).
    - The listening process: its handlers have different sessions, and each, if the texts
      it writes first fit their arrays, satisfies that invariant and handles its connection
      to the end ([listener_handlers]); when they do not fit ([handler_text]); that the process
      ends, and when ([listener_ends]); the options
      ([cmdline_options]).
    - The old Linux server: its connections and those of the current one behave alike
      ([old_same_connection]) for requests that are neither HELO nor AUTH and arrive
      whole, but for those that are only a header, which the split
      into files broke ([old_serves_header_only]); its linked list implements a list,
      without a leak or a dangling pointer ([old_list_refines]); it ends
      ([old_server_ends]); [old_coalesced], [add_app_no_memory] and [old_handler_text]
      say where it goes wrong.
    - From request to answer: [register_served], [release_served],
      [getmessage_data_served], [putmessage_data_served] and, for a message that is
      malformed, [putmessage_refused_served]; [auth_served]; where a message overruns
      the packet, [getmessage_overrun].
    - The daemon: its memory stays sound, its requests are well-formed and a wait for
      an answer ends ([main_safe]); what a round of its main loop forwards, delivers and
      registers; an application that registers, sends and gets a message, each side
      under the id it knows ([application_roundtrip]); what it does at the end of the
      stream, where the main loop goes on ([eof_rounds]).
    - The Linux client and its servers: the current one does not let it in and tells it
      nothing ([linux_client_locked_out]); with revision 1.14 it gets a session and
      reports the card to the module ([linux_client_old_server]).
    - The kernel module: invariant of the cards ([module_invariant]), the queue is
      first-in first-out ([read_fifo]) and bounded, registrations and messages reach
      kernelcapi; the race on the queue ([queue_race]).
    - The Windows client: on which conditions each caller gets the answer to its own
      request however the threads interleave ([answers_matched]) and every call returns
      ([calls_return]); without them calls at the same time lose entries of the list, and
      answers that arrive together are lost ([answers_lost]); what each call sends and
      returns; the state stays sound, and a call waits for ever only when the receiver
      thread has ended ([exported_keep_state], [lost_connection_hangs]); the list of
      applications implements a map ([app_list_map]); what an unexpected answer
      or a lost connection does.
    - Windows client and Linux server: REGISTER, PUT_MESSAGE and GET_MESSAGE from end
      to end, and why the Linux server does not let this client in
      ([windows_client_locked_out]).
    - The Windows server: which requests pass its check ([windows_verified_request]);
      on which conditions a request gets at most one answer, well-formed and for it,
      without undefined behaviour ([windows_request_answered]); what is lost or refused ([windows_coalesced],
      [linux_client_ignored]); authentication ([userpass_auth]); the table of sessions
      ([sessions_table], [service_sessions]); a session that never ends
      ([session_never_ends]); settings ([service_settings]); what
      the service reports after which control codes, and that a stop is final
      ([service_control]).
    - The dialogs: what closing that of the client keeps of the settings - not the end of a
      string, and of the address what sscanf, which stores an int where a char is declared,
      does not run over ([client_applet_roundtrip]) -; that of the server writes to the client's
      ([server_applet_misses]).
    - Windows client and Windows server: a client connects ([windows_connection]), and
      its calls behave as calls of the library at the server ([windows_remote_calls],
      [windows_put_message], [windows_get_message]).

    ** Loops and fuel

    A loop that is not structural takes a number of rounds, and is [Diverged] if
    that is too few.  [recvn] and the loop of a connection are bounded by the
    bytes that still arrive; getfirst_app and release_apps by CAPI_MAXAPPL; the
    wait for an answer of the Windows client by the bytes that still arrive and
    two - a wait after the receiver thread has ended is [Hung] -; the unloading by the length of the list; read and write of the module by
    the messages that are queued or arrive, and by the bytes.  That the bound is
    enough is a theorem in each case: [handle_connection_ends], [main_safe],
    [module_invariant] and [exported_keep_state] exclude [Diverged].  The main
    loop of the daemon does not end by itself; its number of rounds is the
    quantified argument of [main], as it is of [accept_loop] of the Windows server.
    [accept_loop] of the Linux server, old and current, is bounded by the descriptors that
    are left, the options by their number, the handler of SIGCHLD and the waiting of the
    old server by the children that have ended, the walks through the old server's list by
    the number of its nodes.
    The loop of a session of the Windows server is bounded by what still arrives and by
    what other threads set.  One loop of the program really does not end: getfirst_app
    of the Windows server, which is [Diverged] for every fuel ([session_never_ends]).

    ** Not modelled

    - Of the Linux servers: session, umask, working directory, the usage text; of the old
      one the mutexes of its one thread, and [init] and [timeout], which are never read.
    - Of the Windows server: windows and console, the debug traces, and Wait and
      TimeOut, which nothing calls.
    - Message boxes, traces and the text of printk and printf arguments.
    - Memory models: a step of the concurrent models is what a thread does
      between two accesses to shared data that others can observe, and steps are
      interleaved.  Where one thread of the Windows client has read [hash_start] before it
      waits for the critical section, the copy is a variable of its own. *)
From Stdlib Require Strings.Byte.
From stdpp Require Export base tactics numbers list strings.
From coqutil Require Export Word.LittleEndianList Byte.
#[export] Set Default Goal Selector "!".
Abbreviation byte := Corelib.Init.Byte.byte (only parsing).
Abbreviation x00 := Corelib.Init.Byte.x00.
#[global] Instance byte_eq_decision : EqDecision byte := Stdlib.Strings.Byte.byte_eq_dec.

(** ** Outcomes of C code

    A C function either returns, runs into undefined behaviour, or ends the
    process.  [Diverged] is what a loop that is given too little fuel yields;
    for each loop a theorem says which fuel is enough, or that none is. *)
Inductive fault : Set :=
  | OutOfBounds          (**r access outside the object a pointer points into *)
  | NullDeref            (**r a null pointer handed to a string function *)
  | Uninitialised        (**r an indeterminate value is used *)
  | Dangling             (**r a pointer to an object whose lifetime has ended *)
  | Hung                 (**r the thread waits for what nobody will do *)
  | Unrepresentable      (**r a result its type cannot represent *)
  | Diverged.            (**r fuel exhausted *)

Inductive outcome (A : Type) : Type :=
  | Done (a : A)
  | Faulted (f : fault)
  | Exited (code : Z).
Arguments Done {A} a.
Arguments Faulted {A} f.
Arguments Exited {A} code.

#[global] Instance fault_eq_dec : EqDecision fault.
Proof. solve_decision. Defined.
#[global] Instance outcome_eq_dec `{EqDecision A} : EqDecision (outcome A).
Proof. solve_decision. Defined.

(** ** The state monad of the code: the state survives a fault or an exit *)
Definition M (S A : Type) : Type := S → outcome A * S.

#[global] Instance M_ret S : MRet (M S) := λ A a s, (Done a, s).
#[global] Instance M_bind S : MBind (M S) := λ A B k m s,
  let '(o, s') := m s in
  match o with
  | Done a => k a s'
  | Faulted f => (Faulted f, s')
  | Exited c => (Exited c, s')
  end.

Definition fail {S A} (f : fault) : M S A := λ s, (Faulted f, s).
Definition exit {S A} (code : Z) : M S A := λ s, (Exited code, s).

(** A global variable, or a component of the program state. *)
Record field (S A : Type) := mkField {
  fget : S → A;
  fset : A → S → S;
}.
Arguments mkField {S A}.
Arguments fget {S A}.
Arguments fset {S A}.

Definition gets {S A} (F : field S A) : M S A := λ s, (Done (fget F s), s).
Definition puts {S A} (F : field S A) (a : A) : M S unit := λ s, (Done tt, fset F a s).
Definition modify {S A} (F : field S A) (g : A → A) : M S unit :=
  λ s, (Done tt, fset F (g (fget F s)) s).
(** Run a pure transition of one component. *)
Definition zoom {S A B} (F : field S A) (g : A → B * A) : M S B :=
  λ s, let '(b, a) := g (fget F s) in (Done b, fset F a s).
(** Lift a computation that may be undefined ([None] is the given fault). *)
Definition try {S A} (f : fault) (o : option A) : M S A :=
  match o with Some a => mret a | None => fail f end.

Definition when {S} (b : bool) (m : M S unit) : M S unit :=
  if b then m else mret tt.

Section monad_lemmas.
Context {S : Type}.

Lemma bind_done {A B} (m : M S A) (k : A → M S B) s a s' :
  m s = (Done a, s') → (m ≫= k) s = k a s'.
Proof. intros H. unfold mbind, M_bind. by rewrite H. Qed.

Lemma bind_faulted {A B} (m : M S A) (k : A → M S B) s f s' :
  m s = (Faulted f, s') → (m ≫= k) s = (Faulted f, s').
Proof. intros H. unfold mbind, M_bind. by rewrite H. Qed.

Lemma bind_exited {A B} (m : M S A) (k : A → M S B) s c s' :
  m s = (Exited c, s') → (m ≫= k) s = (Exited c, s').
Proof. intros H. unfold mbind, M_bind. by rewrite H. Qed.

Lemma try_done {A} f (o : option A) a (s : S) : o = Some a → try f o s = (Done a, s).
Proof. by intros ->. Qed.

Lemma try_None {A} f (o : option A) (s : S) : o = None → try f o s = (Faulted f, s).
Proof. by intros ->. Qed.

Lemma bind_assoc {A B C} (m : M S A) (k : A → M S B) (l : B → M S C) s :
  ((m ≫= k) ≫= l) s = (m ≫= λ a, k a ≫= l) s.
Proof. unfold mbind, M_bind. destruct (m s) as [[] ?]; done. Qed.

Lemma bind_cong {A B} (m : M S A) (k k' : A → M S B) s :
  (∀ a s', k a s' = k' a s') → (m ≫= k) s = (m ≫= k') s.
Proof. intros Hk. unfold mbind, M_bind. destruct (m s) as [[] ?]; done. Qed.

Lemma bind_ret_r {A} (m : M S A) s : (m ≫= λ a, mret a) s = m s.
Proof. unfold mbind, M_bind. by destruct (m s) as [[] ?]. Qed.

Lemma bind_Done_inv {A B} (m : M S A) (k : A → M S B) s b s' :
  (m ≫= k) s = (Done b, s') → ∃ a s1, m s = (Done a, s1) ∧ k a s1 = (Done b, s').
Proof.
  unfold mbind, M_bind. destruct (m s) as [[a|f|c] s1] eqn:E; intros H; simplify_eq.
  eauto.
Qed.
End monad_lemmas.

(** Laws of state components; both hold by computation for record fields. *)
Class LawfulField {S A} (F : field S A) : Prop := {
  fget_fset a s : fget F (fset F a s) = a;
  fset_fget s : fset F (fget F s) s = s;
  fset_fset a b s : fset F a (fset F b s) = fset F a s;
}.
Class DisjointFields {S A B} (F : field S A) (G : field S B) : Prop := {
  fget_other b s : fget F (fset G b s) = fget F s;
  fget_other_r a s : fget G (fset F a s) = fget G s;
  fset_comm a b s : fset F a (fset G b s) = fset G b (fset F a s);
}.
Ltac solve_field := intros; constructor; by intros; repeat match goal with s : _ |- _ => destruct s end.

(** ** Computations that keep an invariant and stay inside a relation

    [respects I R m]: from a state in [I], [m] does not run out of fuel, and its
    final state is in [I] and [R]-related to the initial one, whatever the
    outcome. *)
Definition respects {S A} (I : S → Prop) (R : relation S) (m : M S A) : Prop :=
  ∀ s, I s → (m s).1 ≠ Faulted Diverged ∧ I (m s).2 ∧ R s (m s).2.
Create HintDb respects.

(** The same from a state in [P]. *)
Definition leads {S A} (I : S → Prop) (R : relation S) (P : S → Prop) (m : M S A) : Prop :=
  ∀ s, P s → (m s).1 ≠ Faulted Diverged ∧ I (m s).2 ∧ R s (m s).2.

Section respects.
Context {S : Type} (I : S → Prop) (R : relation S) `{!PreOrder R}.

Lemma respects_ret {A} (a : A) : respects I R (mret a).
Proof. intros s Hs. split_and!; simpl; done. Qed.

Lemma respects_fail {A} f : f ≠ Diverged → respects I R (fail (A:=A) f).
Proof. intros Hf s Hs. split_and!; simpl; [congruence|done..]. Qed.

Lemma respects_bind {A B} (m : M S A) (k : A → M S B) :
  respects I R m → (∀ a, respects I R (k a)) → respects I R (m ≫= k).
Proof.
  intros Hm Hk s Hs. destruct (Hm s Hs) as (H1 & H2 & H3). unfold mbind, M_bind.
  destruct (m s) as [[a|f|c] s'] eqn:E; simpl in *; [|by split_and!; congruence|by split_and!].
  destruct (Hk a s' H2) as (H4 & H5 & H6). split_and!; [done..|]. by etrans.
Qed.

Lemma leads_bind {A B} (P : S → Prop) (m : M S A) (k : A → M S B) :
  (∀ s, P s → I s) → respects P R m → (∀ a, leads I R P (k a)) → leads I R P (m ≫= k).
Proof.
  intros HI Hm Hk s Hs. destruct (Hm s Hs) as (H1 & H2 & H3). unfold mbind, M_bind.
  destruct (m s) as [[a|f|c] s'] eqn:E; simpl in *;
    [|by split_and!; [congruence|auto..]|by split_and!; auto].
  destruct (Hk a s' H2) as (H4 & H5 & H6). split_and!; [done..|]. by etrans.
Qed.

Lemma leads_weaken {A} (P : S → Prop) (m : M S A) :
  (∀ s, P s → I s) → respects I R m → leads I R P m.
Proof. intros HP Hm s Hs. by apply Hm, HP. Qed.

Lemma leads_after {A B} (P : S → Prop) (m : M S A) (k : A → M S B) :
  leads I R P m → (∀ a, respects I R (k a)) → leads I R P (m ≫= k).
Proof.
  intros Hm Hk s Hs. destruct (Hm s Hs) as (H1 & H2 & H3). unfold mbind, M_bind.
  destruct (m s) as [[a|f|c] s'] eqn:E; simpl in *; [|by split_and!; congruence|by split_and!].
  destruct (Hk a s' H2) as (H4 & H5 & H6). split_and!; [done..|]. by etrans.
Qed.

Lemma respects_gets {A} (F : field S A) : respects I R (gets F).
Proof. intros s Hs. by split_and!. Qed.

Lemma respects_try {A} f (o : option A) : f ≠ Diverged → respects I R (try f o).
Proof. intros Hf. destruct o; [apply respects_ret|by apply respects_fail]. Qed.

Lemma respects_when b m : respects I R m → respects I R (when b m).
Proof. intros Hm. destruct b; [done|apply respects_ret]. Qed.

Lemma respects_puts {A} (F : field S A) a :
  (∀ s, I s → I (fset F a s) ∧ R s (fset F a s)) → respects I R (puts F a).
Proof. intros HF s Hs. by split; [|apply HF]. Qed.

Lemma respects_modify {A} (F : field S A) g :
  (∀ a s, I s → I (fset F a s) ∧ R s (fset F a s)) → respects I R (modify F g).
Proof. intros HF s Hs. by split; [|apply HF]. Qed.

Lemma respects_if {A} (b : bool) (m1 m2 : M S A) :
  respects I R m1 → respects I R m2 → respects I R (if b then m1 else m2).
Proof. by destruct b. Qed.
End respects.

#[export] Hint Resolve respects_ret respects_bind respects_gets respects_try respects_when
  respects_if respects_fail : respects.

(** ** Evaluation of closed facts about integers and bytes *)
Ltac eval_le := apply Z.leb_le; vm_compute; reflexivity.
Ltac eval_lt := apply Z.ltb_lt; vm_compute; reflexivity.
Ltac eval_eq := vm_compute; reflexivity.
Ltac eval_range := split; [first [eval_le|eval_lt]|first [eval_lt|eval_le]].

(** ** Machine words *)
#[local] Open Scope Z_scope.

Definition u32 (z : Z) : Z := z `mod` 2 ^ 32.
Definition u16 (z : Z) : Z := z `mod` 2 ^ 16.
Definition u8 (z : Z) : Z := z `mod` 2 ^ 8.
(** Conversion of a 32-bit pattern to [int]. *)
Definition s32 (z : Z) : Z := if decide (u32 z < 2 ^ 31) then u32 z else u32 z - 2 ^ 32.

(** Clearing the low [k] of [k + n] bits. *)
Lemma land_high k n z :
  0 ≤ k → 0 ≤ n → 0 ≤ z < 2 ^ (k + n) → Z.land z (Z.shiftl (Z.ones n) k) = 2 ^ k * (z / 2 ^ k).
Proof.
  intros Hk Hn Hz. rewrite <- (Z.shiftr_div_pow2 z k), Z.mul_comm, <- (Z.shiftl_mul_pow2 _ k) by lia.
  apply Z.bits_inj'. intros i Hi. rewrite Z.land_spec. destruct (decide (i < k)).
  - rewrite !Z.shiftl_spec_low by lia. apply andb_false_r.
  - rewrite !Z.shiftl_spec_high, Z.shiftr_spec, Z.sub_add, Z.testbit_ones_nonneg by lia.
    destruct (decide (i - k < n)).
    + replace (i - k <? n) with true by lia. apply andb_true_r.
    + replace (i - k <? n) with false by lia. rewrite andb_false_r. symmetry.
      destruct (decide (z = 0)) as [->|]; [apply Z.testbit_0_l|].
      apply Z.bits_above_log2; [lia|]. apply Z.log2_lt_pow2; [lia|].
      eapply Z.lt_le_trans; [apply Hz|]. apply Z.pow_le_mono_r; lia.
Qed.

(** ** Lists *)
Lemma filter_and_Forall {A} (P Q R : A → Prop)
    `{!∀ x, Decision (P x), !∀ x, Decision (Q x), !∀ x, Decision (R x)} (l : list A) :
  Forall (λ x, P x ↔ Q x ∧ R x) l → filter P l = filter Q (filter R l).
Proof.
  induction 1 as [|x l Hx _ IH]; [done|].
  rewrite (filter_cons P), (filter_cons R).
  destruct (decide (R x)) as [HR|HR].
  - rewrite filter_cons, IH. repeat case_decide; tauto || done.
  - rewrite IH. case_decide; [tauto|done].
Qed.
