(* ===== verification/CMem.v ===== *)
(** * Byte buffers of the C code

    Packets are byte arrays ([char in_packet[10000]], ...), structures are
    overlaid on them, and fields are 32-bit little-endian words (the
    "platform independent" types of protocol.h).  An access outside the array
    is a fault.  [words] is the view of a prefix of a buffer as words, in
    which a field store is a list update. *)
From S2P Require Import Prelude.
#[local] Open Scope Z_scope.

Definition blen (b : list byte) : Z := Z.of_nat (length b).

(** [n] bytes at offset [off]. *)
Definition slice (b : list byte) (off n : Z) : option (list byte) :=
  if decide (0 ≤ off ∧ 0 ≤ n ∧ off + n ≤ blen b)
  then Some (take (Z.to_nat n) (drop (Z.to_nat off) b)) else None.

(** Overwrite the bytes at [off]. *)
Definition splice (b : list byte) (off : Z) (bs : list byte) : option (list byte) :=
  if decide (0 ≤ off ∧ off + blen bs ≤ blen b)
  then Some (take (Z.to_nat off) b ++ bs ++ drop (Z.to_nat off + length bs) b) else None.

Definition get_le (w : nat) (b : list byte) (off : Z) : option Z :=
  le_combine <$> slice b off (Z.of_nat w).
Abbreviation get_u32 := (get_le 4).
Abbreviation get_u16 := (get_le 2).
Abbreviation get_u8 := (get_le 1).

Definition put_le (w : nat) (b : list byte) (off v : Z) : option (list byte) :=
  splice b off (le_split w v).

(** The bytes before the first NUL ([strlen], [strcpy]); [None] if there is none. *)
Fixpoint cstr (b : list byte) : option (list byte) :=
  match b with
  | [] => None
  | c :: b' => if decide (c = x00) then Some [] else cons c <$> cstr b'
  end.

(** A string constant of the source, without its NUL. *)
Definition bytes_of_string (s : string) : list byte := String.list_byte_of_string s.

(** ** Monadic accesses to a buffer of the program state *)
Section accesses.
Context {S : Type} (F : field S (list byte)).

Definition load_bytes (off n : Z) : M S (list byte) :=
  b ← gets F; try OutOfBounds (slice b off n).
Definition load (w : nat) (off : Z) : M S Z :=
  b ← gets F; try OutOfBounds (get_le w b off).
Definition store_bytes (off : Z) (bs : list byte) : M S unit :=
  b ← gets F; b' ← try OutOfBounds (splice b off bs); puts F b'.
Definition store (w : nat) (off v : Z) : M S unit := store_bytes off (le_split w v).
(** The C string that starts at [off]. *)
Definition load_cstr (off : Z) : M S (list byte) :=
  b ← gets F;
  t ← try OutOfBounds (slice b off (blen b - off));
  try OutOfBounds (cstr t).
(** [strcpy(p, s)] writes the NUL as well. *)
Definition store_cstr (off : Z) (s : list byte) : M S unit := store_bytes off (s ++ [x00]).
End accesses.
Abbreviation load32 F := (load F 4).
Abbreviation load16 F := (load F 2).
Abbreviation load8 F := (load F 1).
Abbreviation store32 F := (store F 4).
Abbreviation store16 F := (store F 2).

(** ** Lemmas *)
Lemma blen_app b1 b2 : blen (b1 ++ b2) = blen b1 + blen b2.
Proof. unfold blen. rewrite length_app. lia. Qed.

Lemma slice_length b off n bs : slice b off n = Some bs → blen bs = n.
Proof.
  unfold slice, blen. case_decide; intros; simplify_eq.
  rewrite length_take, length_drop. lia.
Qed.

Lemma splice_length b off bs b' : splice b off bs = Some b' → length b' = length b.
Proof.
  unfold splice, blen. case_decide; intros; simplify_eq.
  rewrite !length_app, length_take, length_drop. lia.
Qed.

Lemma slice_at b pre mid post off n :
  b = pre ++ mid ++ post → off = blen pre → n = blen mid → slice b off n = Some mid.
Proof.
  intros -> -> ->. unfold slice, blen. rewrite decide_True by (rewrite !length_app; lia).
  by rewrite !Nat2Z.id, drop_app_length, take_app_length.
Qed.

Lemma splice_at b pre old post off bs :
  b = pre ++ old ++ post → off = blen pre → length bs = length old →
  splice b off bs = Some (pre ++ bs ++ post).
Proof.
  intros -> -> Hl. unfold splice, blen. rewrite decide_True by (rewrite !length_app; lia).
  rewrite Nat2Z.id, take_app_length, Hl.
  by rewrite drop_app_add', drop_app_length by done.
Qed.

(** Writing a buffer front to back. *)
Lemma splice_append pre rest off bs :
  off = blen pre → (length bs ≤ length rest)%nat →
  splice (pre ++ rest) off bs = Some ((pre ++ bs) ++ drop (length bs) rest).
Proof.
  intros Ho Hl. rewrite <- (assoc_L (++)).
  rewrite (splice_at _ pre (take (length bs) rest) (drop (length bs) rest)); [done|by rewrite take_drop|done|].
  rewrite length_take. lia.
Qed.

Lemma slice_Some b off n :
  0 ≤ off → 0 ≤ n → off + n ≤ blen b →
  slice b off n = Some (take (Z.to_nat n) (drop (Z.to_nat off) b)).
Proof. intros. unfold slice. by rewrite decide_True by lia. Qed.

Lemma slice_None b off n : ¬ (0 ≤ off ∧ 0 ≤ n ∧ off + n ≤ blen b) → slice b off n = None.
Proof. intros. unfold slice. by rewrite decide_False by lia. Qed.

Lemma splice_None b off bs : blen b < off + blen bs → splice b off bs = None.
Proof. intros. unfold splice. by rewrite decide_False by lia. Qed.

Lemma splice_Some b off bs :
  0 ≤ off → off + blen bs ≤ blen b →
  splice b off bs = Some (take (Z.to_nat off) b ++ bs ++ drop (Z.to_nat off + length bs) b).
Proof. intros. unfold splice. by rewrite decide_True by lia. Qed.

Lemma splice_app b off bs1 bs2 b1 :
  splice b off bs1 = Some b1 →
  splice b1 (off + blen bs1) bs2 = splice b off (bs1 ++ bs2).
Proof.
  intros H. pose proof (splice_length _ _ _ _ H) as Hl. revert H. unfold splice at 1.
  case_decide as Hd; [|done]. intros [= <-].
  set (pre := take (Z.to_nat off) b) in *. set (post := drop (Z.to_nat off + length bs1) b) in *.
  assert (Hpre : blen pre = off) by (unfold pre, blen; rewrite length_take; unfold blen in Hd; lia).
  assert (Hpost : blen post = blen b - off - blen bs1)
    by (unfold post, blen; rewrite length_drop; unfold blen in Hd; lia).
  assert (Hb : blen (pre ++ bs1 ++ post) = blen b) by (unfold blen; by rewrite Hl).
  destruct (decide (off + blen bs1 + blen bs2 ≤ blen b)) as [Hfit|Hfit].
  2: { rewrite !splice_None; [done|..]; rewrite ?blen_app; lia. }
  rewrite (splice_Some b) by (rewrite ?blen_app; lia).
  rewrite (splice_at _ (pre ++ bs1) (take (length bs2) post) (drop (length bs2) post)).
  - unfold pre, post. rewrite drop_drop, length_app, <- !(assoc_L (++)).
    do 4 f_equal. f_equal. lia.
  - by rewrite take_drop, <- (assoc_L (++)).
  - rewrite blen_app. lia.
  - rewrite length_take. unfold blen in *. lia.
Qed.

Lemma splice_nil b off : 0 ≤ off ≤ blen b → splice b off [] = Some b.
Proof.
  intros. rewrite splice_Some by (unfold blen in *; simpl; lia). f_equal.
  rewrite Nat.add_0_r. simpl. apply take_drop.
Qed.

Lemma le_combine_split_w w v : le_combine (le_split w v) = v `mod` 2 ^ (8 * Z.of_nat w).
Proof. rewrite le_combine_split. f_equal. f_equal. lia. Qed.

Lemma get_le_bound w b off v : get_le w b off = Some v → 0 ≤ v < 2 ^ (8 * Z.of_nat w).
Proof.
  unfold get_le. destruct (slice b off _) as [bs|] eqn:E; intros; simplify_eq/=.
  apply slice_length in E. unfold blen in E.
  pose proof (le_combine_bound bs) as H. by rewrite E in H.
Qed.

Lemma get_le_at w pre v post off :
  off = blen pre → get_le w (pre ++ le_split w v ++ post) off = Some (v `mod` 2 ^ (8 * Z.of_nat w)).
Proof.
  intros ->. unfold get_le. erewrite slice_at; [|done|done|by unfold blen; rewrite length_le_split].
  cbn [fmap option_fmap option_map]. by rewrite le_combine_split_w.
Qed.

Lemma blen_nonneg b : 0 ≤ blen b.
Proof. unfold blen. lia. Qed.

(** Accesses behind a prefix. *)
Lemma slice_app_r a b k n : 0 ≤ k → slice (a ++ b) (blen a + k) n = slice b k n.
Proof.
  intros Hk. pose proof (blen_nonneg a). unfold slice. rewrite blen_app. do 2 case_decide; try lia; [|done].
  f_equal. rewrite drop_app_ge by (unfold blen in *; lia). do 2 f_equal. unfold blen. lia.
Qed.

Lemma get_le_app_r w a b k : 0 ≤ k → get_le w (a ++ b) (blen a + k) = get_le w b k.
Proof. intros. unfold get_le. by rewrite slice_app_r. Qed.

Lemma slice_app_l a b k n bs : slice a k n = Some bs → slice (a ++ b) k n = Some bs.
Proof.
  unfold slice. rewrite blen_app. pose proof (blen_nonneg b).
  intros Hs. case_decide; simplify_eq. rewrite decide_True by lia.
  f_equal. unfold blen in *.
  rewrite drop_app_le, take_app_le by (rewrite ?length_drop; lia). done.
Qed.

Lemma get_le_app_l w a b k v : get_le w a k = Some v → get_le w (a ++ b) k = Some v.
Proof.
  unfold get_le. intros (bs & Hbs & ->)%fmap_Some. apply fmap_Some.
  exists bs. split; [by apply slice_app_l|done].
Qed.

Lemma splice_app_l a b k bs a' : splice a k bs = Some a' → splice (a ++ b) k bs = Some (a' ++ b).
Proof.
  unfold splice. rewrite blen_app. pose proof (blen_nonneg b). case_decide; [|done]. intros [= <-].
  rewrite decide_True by lia. f_equal. unfold blen in *.
  rewrite take_app_le, drop_app_le by lia. by rewrite <- !(assoc_L (++)).
Qed.

Lemma splice_app_r a b k bs :
  0 ≤ k → splice (a ++ b) (blen a + k) bs = app a <$> splice b k bs.
Proof.
  intros Hk. pose proof (blen_nonneg a). unfold splice. rewrite blen_app. do 2 case_decide; try lia; [|done].
  simpl. f_equal. unfold blen in *.
  rewrite take_app_ge, drop_app_ge, <- (assoc_L (++)) by lia. do 3 f_equal; [lia|]. f_equal. lia.
Qed.

(** Which accesses are inside the array. *)
Lemma get_le_is_Some w b off :
  0 ≤ off → off + Z.of_nat w ≤ blen b → ∃ v, get_le w b off = Some v.
Proof. intros. unfold get_le. rewrite slice_Some by lia. simpl. eauto. Qed.

Lemma get_le_Some_inv w b off v :
  get_le w b off = Some v → 0 ≤ off ∧ off + Z.of_nat w ≤ blen b.
Proof. unfold get_le, slice. case_decide; [|done]. intros _. lia. Qed.

(** A store leaves the bytes before it. *)
Lemma slice_splice_before b off bs b' k n :
  splice b off bs = Some b' → k + n ≤ off → slice b' k n = slice b k n.
Proof.
  intros Hs Hk. pose proof (splice_length _ _ _ _ Hs) as Hl.
  unfold splice in Hs. case_decide; [|done]. simplify_eq.
  unfold slice, blen in *. rewrite Hl. case_decide; [|done]. f_equal.
  rewrite drop_app_le by (rewrite length_take; lia).
  rewrite take_app_le by (rewrite length_drop, length_take; lia).
  rewrite skipn_firstn_comm, take_take. f_equal. lia.
Qed.

Lemma get_le_splice_before w b off bs b' k :
  splice b off bs = Some b' → k + Z.of_nat w ≤ off → get_le w b' k = get_le w b k.
Proof. intros. unfold get_le. by erewrite slice_splice_before. Qed.

(** What a store wrote, and what it left behind itself. *)
Lemma slice_splice_at b off bs b' :
  splice b off bs = Some b' → slice b' off (blen bs) = Some bs.
Proof.
  intros Hs. unfold splice in Hs. case_decide as Hd; [|done]. simplify_eq.
  eapply slice_at; [done| |done]. unfold blen in *. rewrite length_take. lia.
Qed.

Lemma get_le_splice_at w b off v b' :
  splice b off (le_split w v) = Some b' →
  get_le w b' off = Some (v `mod` 2 ^ (8 * Z.of_nat w)).
Proof.
  intros Hs%slice_splice_at. unfold get_le, blen in *. rewrite length_le_split in Hs.
  rewrite Hs. cbn [fmap option_fmap option_map]. by rewrite le_combine_split_w.
Qed.

Lemma slice_splice_after b off bs b' k n :
  splice b off bs = Some b' → off + blen bs ≤ k → slice b' k n = slice b k n.
Proof.
  intros Hs Hk. pose proof (splice_length _ _ _ _ Hs) as Hl.
  unfold splice in Hs. case_decide; [|done]. simplify_eq.
  unfold slice, blen in *. rewrite Hl. case_decide; [|done]. f_equal. f_equal.
  rewrite (assoc_L (++)), drop_app_ge by (rewrite length_app, length_take; lia).
  rewrite drop_drop. f_equal. rewrite length_app, length_take. lia.
Qed.

Lemma get_le_splice_after w b off bs b' k :
  splice b off bs = Some b' → off + blen bs ≤ k → get_le w b' k = get_le w b k.
Proof. intros. unfold get_le. by erewrite slice_splice_after. Qed.

(** ** The word view of a buffer prefix *)
Definition words (ws : list Z) : list byte := mjoin (le_split 4 <$> ws).

Lemma words_cons w ws : words (w :: ws) = le_split 4 w ++ words ws.
Proof. done. Qed.

Lemma words_app ws1 ws2 : words (ws1 ++ ws2) = words ws1 ++ words ws2.
Proof. unfold words. by rewrite fmap_app, join_app. Qed.

Lemma length_words ws : length (words ws) = (4 * length ws)%nat.
Proof.
  induction ws as [|w ws IH]; [done|].
  rewrite words_cons, length_app, length_le_split, IH. simpl. lia.
Qed.

Lemma blen_words ws : blen (words ws) = 4 * Z.of_nat (length ws).
Proof. unfold blen. rewrite length_words. lia. Qed.

Lemma words_split_at ws i w :
  ws !! i = Some w →
  words ws = words (take i ws) ++ le_split 4 w ++ words (drop (S i) ws).
Proof.
  intros H. rewrite <- (take_drop_middle ws i w H) at 1.
  by rewrite words_app, words_cons.
Qed.

Lemma slice_words ws rest i w off n :
  ws !! i = Some w → off = 4 * Z.of_nat i → n = 4 →
  slice (words ws ++ rest) off n = Some (le_split 4 w).
Proof.
  intros Hi -> ->. pose proof (lookup_lt_Some _ _ _ Hi).
  eapply (slice_at _ (words (take i ws)) _ (words (drop (S i) ws) ++ rest)).
  - rewrite (words_split_at _ _ _ Hi). by rewrite <- !(assoc_L (++)).
  - rewrite blen_words, length_take. lia.
  - unfold blen. by rewrite length_le_split.
Qed.

Lemma get_u32_words ws rest i w off :
  ws !! i = Some w → off = 4 * Z.of_nat i →
  get_u32 (words ws ++ rest) off = Some (u32 w).
Proof.
  intros Hi ->. unfold get_le. erewrite slice_words; [|done..]. simpl.
  by rewrite le_combine_split_w.
Qed.

Lemma splice_words ws rest i off v :
  (i < length ws)%nat → off = 4 * Z.of_nat i →
  splice (words ws ++ rest) off (le_split 4 v) = Some (words (<[i:=v]> ws) ++ rest).
Proof.
  intros Hi ->. destruct (lookup_lt_is_Some_2 ws i Hi) as [w Hw].
  rewrite (splice_at _ (words (take i ws)) (le_split 4 w) (words (drop (S i) ws) ++ rest)).
  - f_equal. rewrite insert_take_drop by done.
    by rewrite words_app, words_cons, <- !(assoc_L (++)).
  - rewrite (words_split_at _ _ _ Hw). by rewrite <- !(assoc_L (++)).
  - rewrite blen_words, length_take. lia.
  - by rewrite !length_le_split.
Qed.

(** Bytes after the words. *)
Lemma splice_after_words ws rest old post off bs :
  rest = old ++ post → length bs = length old → off = blen (words ws) →
  splice (words ws ++ rest) off bs = Some (words ws ++ bs ++ post).
Proof. intros -> Hl ->. by eapply splice_at. Qed.

(** Every buffer is a word prefix and a rest. *)
Lemma words_view (k : nat) (b : list byte) :
  (4 * k ≤ length b)%nat → ∃ ws, length ws = k ∧ b = words ws ++ drop (4 * k) b.
Proof.
  revert b. induction k as [|k IH]; intros b Hb.
  { exists []. done. }
  destruct (IH (drop 4 b)) as (ws & Hk & Hd); [rewrite length_drop; lia|].
  exists (le_combine (take 4 b) :: ws). split; [simpl; lia|].
  rewrite words_cons, split_le_combine' by (rewrite length_take; lia).
  rewrite <- (take_drop 4 b) at 1. rewrite Hd at 1.
  rewrite drop_drop, <- (assoc_L (++)). do 3 f_equal. lia.
Qed.

Lemma words_inj ws1 ws2 :
  Forall (λ w, 0 ≤ w < 2 ^ 32) ws1 → Forall (λ w, 0 ≤ w < 2 ^ 32) ws2 →
  length ws1 = length ws2 → words ws1 = words ws2 → ws1 = ws2.
Proof.
  intros H1. revert ws2. induction H1 as [|w ws Hw _ IH]; intros [|w2 ws2] H2 Hl Heq;
    [done..|].
  inversion_clear H2. injection Hl as Hl. rewrite !words_cons in Heq.
  apply app_inj_1 in Heq as [Hh Ht]; [|by rewrite !length_le_split].
  f_equal; [|auto].
  apply (f_equal le_combine) in Hh. rewrite !le_combine_split_w in Hh.
  rewrite !Z.mod_small in Hh by (simpl; lia). done.
Qed.

Lemma u32_small z : 0 ≤ z < 2 ^ 32 → u32 z = z.
Proof. apply Z.mod_small. Qed.
Lemma u32_range z : 0 ≤ u32 z < 2 ^ 32.
Proof. by apply Z.mod_pos_bound. Qed.
Lemma u32_idemp z : u32 (u32 z) = u32 z.
Proof. apply u32_small, u32_range. Qed.

(** ** Accesses to a buffer in word view *)
Section word_accesses.
Context {S : Type} (F : field S (list byte)) `{!LawfulField F}.

Lemma store_words_run i off v ws rest s :
  off = 4 * Z.of_nat i → (i < length ws)%nat →
  store F 4 off v (fset F (words ws ++ rest) s) =
    (Done tt, fset F (words (<[i:=v]> ws) ++ rest) s).
Proof.
  intros Ho Hi. unfold store, store_bytes. erewrite bind_done by done. cbv beta.
  rewrite fget_fset, (splice_words ws rest i) by done. erewrite bind_done by done.
  unfold puts. by rewrite fset_fset.
Qed.

Lemma load_words_run i off w ws rest s :
  off = 4 * Z.of_nat i → ws !! i = Some w →
  load F 4 off (fset F (words ws ++ rest) s) =
    (Done (u32 w), fset F (words ws ++ rest) s).
Proof.
  intros Ho Hi. unfold load, gets, mbind, M_bind.
  by rewrite fget_fset, (get_u32_words ws rest i w).
Qed.

Lemma store_bytes_run off bs b s :
  splice (fget F s) off bs = Some b → store_bytes F off bs s = (Done tt, fset F b s).
Proof. intros Hb. unfold store_bytes, gets, puts, mbind, M_bind. by rewrite Hb. Qed.

Lemma load_bytes_run off n bs s :
  slice (fget F s) off n = Some bs → load_bytes F off n s = (Done bs, s).
Proof. intros Hb. unfold load_bytes, gets, mbind, M_bind. by rewrite Hb. Qed.

Lemma load_run w off v s :
  get_le w (fget F s) off = Some v → load F w off s = (Done v, s).
Proof. intros Hb. unfold load, gets, mbind, M_bind. by rewrite Hb. Qed.

Lemma load_bytes_fault off n s :
  slice (fget F s) off n = None → load_bytes F off n s = (Faulted OutOfBounds, s).
Proof. intros Hb. unfold load_bytes, gets, mbind, M_bind. by rewrite Hb. Qed.

Lemma store_bytes_fault off bs s :
  splice (fget F s) off bs = None → store_bytes F off bs s = (Faulted OutOfBounds, s).
Proof. intros Hb. unfold store_bytes, gets, mbind, M_bind. by rewrite Hb. Qed.

Lemma respects_load_bytes I R `{!PreOrder R} off n : respects I R (load_bytes F off n).
Proof. unfold load_bytes. auto with respects. Qed.

Lemma respects_load I R `{!PreOrder R} w off : respects I R (load F w off).
Proof. unfold load. auto with respects. Qed.

Lemma respects_store_bytes I R `{!PreOrder R} off bs :
  (∀ b s, I s → length b = length (fget F s) → I (fset F b s) ∧ R s (fset F b s)) →
  respects I R (store_bytes F off bs).
Proof.
  intros HF s Hs. unfold store_bytes, gets, puts, mbind, M_bind.
  destruct (splice (fget F s) off bs) as [b|] eqn:E; simpl; [|by split].
  split; [done|]. apply HF; [done|]. by eapply splice_length.
Qed.

Lemma respects_store I R `{!PreOrder R} w off v :
  (∀ b s, I s → length b = length (fget F s) → I (fset F b s) ∧ R s (fset F b s)) →
  respects I R (store F w off v).
Proof. apply respects_store_bytes. done. Qed.
End word_accesses.
#[export] Hint Resolve respects_load_bytes respects_load respects_store_bytes respects_store
  : respects.

(** ** Single bytes: an array of [char] *)
Lemma get_u8_lookup b off c :
  0 ≤ off → b !! Z.to_nat off = Some c → get_u8 b off = Some (byte.unsigned c).
Proof.
  intros Hoff Hc. pose proof (lookup_lt_Some _ _ _ Hc). unfold get_le.
  rewrite slice_Some by (unfold blen; lia). simpl.
  rewrite (drop_S _ _ _ Hc). simpl. f_equal. apply le_combine_1.
Qed.

Lemma get_u8_None b off : ¬ (0 ≤ off < blen b) → get_u8 b off = None.
Proof. intros. unfold get_le. by rewrite slice_None by lia. Qed.

Lemma splice_byte b off c :
  0 ≤ off < blen b → splice b off [c] = Some (<[Z.to_nat off := c]> b).
Proof.
  intros. rewrite splice_Some by (unfold blen in *; simpl; lia). f_equal.
  rewrite insert_take_drop by (unfold blen in *; lia). simpl. do 3 f_equal. lia.
Qed.

Lemma byte_unsigned_zero c : byte.unsigned c = 0 ↔ c = x00.
Proof.
  split; [|by intros ->]. intros H. by apply byte.unsigned_inj.
Qed.

(** Evaluate word loads and stores at a literal offset. *)
Ltac word_index off := let i := eval vm_compute in (Z.to_nat (off / 4)) in i.
Ltac get_word :=
  match goal with
  | |- context [get_le 4 (words ?ws ++ ?rest) ?off] =>
      let i := word_index off in
      rewrite (get_u32_words ws rest i _ off eq_refl eq_refl); cbn [mbind option_bind]
  end.
