(* ===== verification/CText.v ===== *)
(** * Numbers and addresses in text

    What the C library makes of decimal numbers: atoi, the conversion %d of sprintf
    and sscanf, and the dotted form of an address.  Printing is stdpp's [pretty];
    reading what has been printed gives the number back. *)
From Stdlib Require Import Ascii.
From stdpp Require Import sets pretty.
From S2P Require Import Prelude CMem.
#[local] Open Scope Z_scope.

Definition is_space (c : ascii) : bool :=
  let n := Z.of_N (N_of_ascii c) in (n =? 32) || ((9 <=? n) && (n <=? 13)).
Definition digit (c : ascii) : option Z :=
  let n := Z.of_N (N_of_ascii c) in if (48 <=? n) && (n <=? 57) then Some (n - 48) else None.

(** The number at the start of [s] behind [acc], and what follows it. *)
Fixpoint scan_digits (acc : Z) (s : string) : Z * string :=
  match s with
  | EmptyString => (acc, s)
  | String c s' => match digit c with Some d => scan_digits (acc * 10 + d) s' | None => (acc, s) end
  end.
Definition digits (acc : Z) (s : string) : Z := (scan_digits acc s).1.

Fixpoint atoi_Z (s : string) : Z :=
  match s with
  | EmptyString => 0
  | String c s' =>
      if is_space c then atoi_Z s'
      else if Ascii.eqb c "-"%char then - digits 0 s'
      else if Ascii.eqb c "+"%char then digits 0 s'
      else digits 0 s
  end.
(** A number as int; a conversion that int cannot represent is undefined. *)
Definition as_int (v : Z) : option Z := if decide (- 2 ^ 31 ≤ v < 2 ^ 31) then Some v else None.
Definition atoi (s : string) : option Z := as_int (atoi_Z s).

(** %d of sscanf: the number and the rest, if there is a number. *)
Definition scan_unsigned (s : string) : option (Z * string) :=
  match s with
  | String c _ => match digit c with Some _ => Some (scan_digits 0 s) | None => None end
  | EmptyString => None
  end.
Fixpoint scan_int (s : string) : option (Z * string) :=
  match s with
  | EmptyString => None
  | String c s' =>
      if is_space c then scan_int s'
      else if Ascii.eqb c "-"%char then '(v, r) ← scan_unsigned s'; Some (- v, r)
      else if Ascii.eqb c "+"%char then scan_unsigned s'
      else scan_unsigned s
  end.
(** sscanf with [n] conversions %d and dots between them: the numbers it stores. *)
Fixpoint scan_dotted (n : nat) (s : string) : list Z :=
  match n with
  | O => []
  | S n =>
      match scan_int s with
      | None => []
      | Some (v, r) =>
          v :: match r with String c r => if Ascii.eqb c "."%char then scan_dotted n r else [] | EmptyString => [] end
      end
  end.

(** %d.%d.%d.%d *)
Definition dotted (a b c d : Z) : string :=
  pretty a +:+ "." +:+ pretty b +:+ "." +:+ pretty c +:+ "." +:+ pretty d.

(** The bytes of the address in the order of memory, which is that of the network. *)
Definition inet_ntoa (s_addr : Z) : string :=
  let part i := Z.land (Z.shiftr s_addr (8 * i)) 255 in dotted (part 0) (part 1) (part 2) (part 3).

(** ** Text without NUL *)
Definition text (s : string) : Prop := x00 ∉ bytes_of_string s.

Lemma bytes_of_string_cons c s : bytes_of_string (String c s) = byte_of_ascii c :: bytes_of_string s.
Proof. done. Qed.
Lemma bytes_of_string_app s1 s2 : bytes_of_string (s1 +:+ s2) = bytes_of_string s1 ++ bytes_of_string s2.
Proof.
  induction s1 as [|c s1 IH]; [done|]. change (String c s1 +:+ s2) with (String c (s1 +:+ s2)).
  by rewrite !bytes_of_string_cons, IH.
Qed.
Lemma blen_bytes_of_string s : blen (bytes_of_string s) = Z.of_nat (String.length s).
Proof.
  unfold blen. f_equal. induction s as [|c s IH]; [done|]. rewrite bytes_of_string_cons. cbn [length String.length].
  by rewrite IH.
Qed.
Lemma text_app s1 s2 : text s1 → text s2 → text (s1 +:+ s2).
Proof. unfold text. rewrite bytes_of_string_app. set_solver. Qed.
Lemma string_length_app s1 s2 : String.length (s1 +:+ s2) = (String.length s1 + String.length s2)%nat.
Proof.
  induction s1 as [|c s1 IH]; [done|]. change (S (String.length (s1 +:+ s2)) = S (String.length s1 + String.length s2)).
  by rewrite IH.
Qed.
Ltac eval_text := apply (bool_decide_unpack _); vm_compute; exact I.

Lemma string_app_nil s : s +:+ "" = s.
Proof. induction s as [|c s IH]; [done|]. change (String c (s +:+ "") = String c s). by rewrite IH. Qed.

(** ** Printed numbers *)
Lemma pretty_digit (x : N) : (x < 10)%N →
  digit (pretty_N_char x) = Some (Z.of_N x) ∧ byte_of_ascii (pretty_N_char x) ≠ x00.
Proof.
  intros Hx.
  assert (Hall : Forall (λ k, digit (pretty_N_char (N.of_nat k)) = Some (Z.of_nat k) ∧
    byte_of_ascii (pretty_N_char (N.of_nat k)) ≠ x00) (seq 0 10)).
  { apply (bool_decide_unpack _). vm_compute. exact I. }
  rewrite Forall_forall in Hall. specialize (Hall (N.to_nat x)). rewrite N2Nat.id, N_nat_Z in Hall.
  apply Hall, elem_of_seq. lia.
Qed.

Lemma pretty_go_ind (P : N → string → string → Prop) :
  (∀ s, P 0%N s s) →
  (∀ x s r, (0 < x)%N → P (x / 10)%N (String (pretty_N_char (x mod 10)) s) r → P x s r) →
  ∀ x s, P x s (pretty_N_go x s).
Proof.
  intros H0 Hs x. induction (N.lt_wf_0 x) as [x _ IH]. intros s. destruct (decide (0 < x)%N) as [Hx|Hx].
  - rewrite pretty_N_go_step by done. apply Hs; [done|]. apply IH. by apply N.div_lt.
  - replace x with 0%N by lia. rewrite pretty_N_go_0. apply H0.
Qed.

Lemma pretty_go_text x s : text s → text (pretty_N_go x s).
Proof.
  apply (pretty_go_ind (λ _ s r, text s → text r)); [done|]. intros y s' r Hy IH Hs. apply IH. unfold text.
  rewrite bytes_of_string_cons. apply not_elem_of_cons. split; [|done].
  apply not_eq_sym, pretty_digit. by apply N.mod_lt.
Qed.

(** Reading a printed number goes on with what is behind it. *)
Lemma scan_pretty_go x s : scan_digits 0 (pretty_N_go x s) = scan_digits (Z.of_N x) s.
Proof.
  apply (pretty_go_ind (λ x s r, scan_digits 0 r = scan_digits (Z.of_N x) s)); [done|]. intros y s' r Hy ->.
  cbn [scan_digits]. destruct (pretty_digit (y mod 10)) as [-> _]; [by apply N.mod_lt|]. f_equal.
  pose proof (N.div_mod y 10 ltac:(done)) as Hdm. generalize dependent (y / 10)%N. generalize dependent (y mod 10)%N. lia.
Qed.

Lemma pretty_go_length k x s : (x < 10 ^ N.of_nat k)%N → (String.length (pretty_N_go x s) ≤ k + String.length s)%nat.
Proof.
  revert x s. induction k as [|k IH]; intros x s Hx.
  - replace x with 0%N by (cbn in Hx; lia). by rewrite pretty_N_go_0.
  - destruct (decide (0 < x)%N) as [Hp|Hp].
    + rewrite pretty_N_go_step by done. etrans; [apply IH|cbn [String.length]; lia].
      apply N.Div0.div_lt_upper_bound. rewrite <- N.pow_succ_r', <- Nnat.Nat2N.inj_succ. done.
    + replace x with 0%N by lia. rewrite pretty_N_go_0. lia.
Qed.

Lemma pretty_go_app x s t : pretty_N_go x (s +:+ t) = pretty_N_go x s +:+ t.
Proof.
  apply (pretty_go_ind (λ x s r, pretty_N_go x (s +:+ t) = r +:+ t)); [intros s'; by rewrite pretty_N_go_0|].
  intros y s' r Hy IH. by rewrite pretty_N_go_step.
Qed.

(** The first character of what is printed is a digit. *)
Lemma pretty_go_head x s : (0 < x)%N → ∃ c r d, pretty_N_go x s = String c r ∧ digit c = Some d.
Proof.
  enough (Hgen : (0 < x → ∃ c r d, pretty_N_go x s = String c r ∧ digit c = Some d)%N ∧
    (x = 0%N → pretty_N_go x s = s)) by apply Hgen.
  apply (pretty_go_ind (λ x s r, ((0 < x)%N → ∃ c r' d, r = String c r' ∧ digit c = Some d) ∧ (x = 0%N → r = s))).
  - intros s'. split; [lia|done].
  - intros y s' r Hy [IH1 IH2]. split; [intros _|lia]. destruct (decide (0 < y / 10)%N) as [Hd|Hd]; [by apply IH1|].
    rewrite IH2 by (by apply N.le_0_r, N.nlt_ge). destruct (pretty_digit (y mod 10)) as [Hdig _]; [by apply N.mod_lt|]. by eexists _, _, _.
Qed.

Lemma pretty_Z_nonneg z : 0 ≤ z → pretty z = if decide (z = 0) then "0"%string else pretty_N_go (Z.to_N z) "".
Proof. intros Hz. by destruct z. Qed.

Lemma pretty_Z_text (z : Z) : text (pretty z).
Proof.
  assert (Hpos : ∀ p, text (pretty (Zpos p))) by (intros p; apply pretty_go_text, not_elem_of_nil).
  destruct z as [|p|p]; [eval_text|apply Hpos|]. change (text ("-" +:+ pretty (Zpos p))).
  apply text_app; [eval_text|apply Hpos].
Qed.

Lemma digit_plain c d : digit c = Some d → is_space c = false ∧ Ascii.eqb c "-"%char = false ∧ Ascii.eqb c "+"%char = false.
Proof.
  intros Hd. split_and!.
  - unfold digit in Hd. unfold is_space.
    destruct ((48 <=? Z.of_N (N_of_ascii c)) && (Z.of_N (N_of_ascii c) <=? 57)) eqn:E; [|done]. lia.
  - apply Ascii.eqb_neq. by intros ->.
  - apply Ascii.eqb_neq. by intros ->.
Qed.

Definition no_digit (s : string) : Prop := match s with String c _ => digit c = None | EmptyString => True end.
Lemma scan_stops z s : no_digit s → scan_digits z s = (z, s).
Proof. destruct s as [|c s]; [done|]. cbn. by intros ->. Qed.

(** What was printed is read back, up to the character that ends it. *)
Lemma scan_pretty z s : 0 ≤ z → no_digit s →
  ∃ c r d, pretty z +:+ s = String c r ∧ digit c = Some d ∧ scan_digits 0 (pretty z +:+ s) = (z, s).
Proof.
  intros Hz Hs. rewrite pretty_Z_nonneg by done. case_decide as H0.
  - subst z. exists "0"%char, s, 0. split_and!; [done|done|]. change (scan_digits 0 s = (0, s)). by apply scan_stops.
  - rewrite <- pretty_go_app. change ("" +:+ s) with s.
    destruct (pretty_go_head (Z.to_N z) s) as (c & r & d & Hc & Hd); [lia|]. exists c, r, d. split_and!; [done|done|].
    rewrite scan_pretty_go, Z2N.id by done. by apply scan_stops.
Qed.

Lemma scan_int_pretty z s : 0 ≤ z → no_digit s → scan_int (pretty z +:+ s) = Some (z, s).
Proof.
  intros Hz Hs. destruct (scan_pretty z s Hz Hs) as (c & r & d & Hc & Hd & Hscan). rewrite Hc in *. cbn [scan_int].
  destruct (digit_plain c d Hd) as (-> & -> & ->). unfold scan_unsigned. by rewrite Hd, Hscan.
Qed.

Lemma atoi_pretty z : 0 ≤ z < 2 ^ 31 → atoi (pretty z) = Some z.
Proof.
  intros Hz.
  destruct (scan_pretty z "" ltac:(lia) I) as (c & r & d & Hc & Hd & Hscan). rewrite string_app_nil in *.
  unfold atoi. rewrite Hc in *. cbn [atoi_Z]. destruct (digit_plain c d Hd) as (-> & -> & ->).
  unfold digits. rewrite Hscan. cbn [fst]. unfold as_int. by rewrite decide_True by lia.
Qed.

Lemma pretty_length k z : (0 < k)%nat → 0 ≤ z < 10 ^ Z.of_nat k → (String.length (pretty z) ≤ k)%nat.
Proof.
  intros Hk Hz. rewrite pretty_Z_nonneg by lia. case_decide; [cbn; lia|].
  etrans; [apply (pretty_go_length k)|cbn; lia]. apply N2Z.inj_lt. rewrite N2Z.inj_pow, nat_N_Z, Z2N.id by lia. apply Hz.
Qed.

(** ** Addresses *)
Lemma octet_length n : 0 ≤ n < 256 → (1 ≤ String.length (pretty n) ≤ 3)%nat.
Proof.
  intros Hn. split; [|apply pretty_length; lia].
  destruct (scan_pretty n "." ltac:(lia) eq_refl) as (c & r & d & Hc & Hd & _).
  destruct (pretty n) as [|c' s]; [|cbn; lia]. by injection Hc as <- <-.
Qed.

Lemma octet_range z : 0 ≤ Z.land z 255 < 256.
Proof. change 255 with (Z.ones 8). rewrite Z.land_ones by lia. by apply Z.mod_pos_bound. Qed.

Definition octet (z : Z) : Prop := 0 ≤ z < 256.
Lemma dotted_length a b c d : octet a → octet b → octet c → octet d → (7 ≤ String.length (dotted a b c d) ≤ 15)%nat.
Proof.
  intros Ha%octet_length Hb%octet_length Hc%octet_length Hd%octet_length.
  unfold dotted. rewrite !string_length_app. change (String.length ".") with 1%nat. lia.
Qed.
Lemma dotted_text a b c d : text (dotted a b c d).
Proof. unfold dotted. repeat (apply text_app; [first [apply pretty_Z_text|eval_text]|]). apply pretty_Z_text. Qed.

Lemma inet_ntoa_length a : (7 ≤ String.length (inet_ntoa a) ≤ 15)%nat.
Proof. apply dotted_length; apply octet_range. Qed.
Lemma inet_ntoa_text a : text (inet_ntoa a).
Proof. apply dotted_text. Qed.

(** An address that was printed is read back. *)
Lemma scan_dotted_dotted a b c d : octet a → octet b → octet c → octet d → scan_dotted 4 (dotted a b c d) = [a; b; c; d].
Proof.
  unfold octet. intros Ha Hb Hc Hd. unfold dotted.
  assert (Hdot : ∀ z n s, 0 ≤ z → scan_dotted (S n) (pretty z +:+ "." +:+ s) = z :: scan_dotted n s).
  { intros z n s Hz. cbn [scan_dotted]. by rewrite scan_int_pretty. }
  rewrite !Hdot by lia. do 3 f_equal. cbn [scan_dotted].
  rewrite <- (string_app_nil (pretty d)). rewrite scan_int_pretty by (done || lia). done.
Qed.

(** ** Writing and reading a string *)
Section strings.
Context {S : Type} (F : field S (list byte)) `{!LawfulField F}.

Lemma cstr_of t rest : x00 ∉ t → cstr (t ++ x00 :: rest) = Some t.
Proof.
  induction t as [|c t IH]; [done|]. intros [Hc Ht]%not_elem_of_cons. cbn [app cstr].
  rewrite decide_False by congruence. by rewrite IH.
Qed.

Lemma cstr_none t : x00 ∉ t → cstr t = None.
Proof.
  induction t as [|c t IH]; [done|]. intros [Hc Ht]%not_elem_of_cons. cbn [cstr].
  rewrite decide_False by congruence. by rewrite IH.
Qed.

Lemma store_cstr_run t s : blen t < blen (fget F s) →
  store_cstr F 0 t s = (Done tt, fset F (t ++ x00 :: drop (length t + 1) (fget F s)) s).
Proof.
  intros Hl. unfold store_cstr. rewrite (store_bytes_run F 0 (t ++ [x00]) (t ++ x00 :: drop (length t + 1) (fget F s))); [done|].
  rewrite splice_Some by (rewrite ?blen_app; unfold blen in *; cbn [length]; lia).
  cbn [Z.to_nat take app]. rewrite length_app. cbn [length]. by rewrite <- (assoc_L (++)).
Qed.

Lemma store_cstr_overrun t s : blen (fget F s) ≤ blen t → store_cstr F 0 t s = (Faulted OutOfBounds, s).
Proof.
  intros Hl. unfold store_cstr, store_bytes. erewrite bind_done by done. cbv beta. rewrite splice_None; [done|].
  rewrite blen_app. unfold blen in *. cbn [length]. lia.
Qed.

Lemma load_cstr_run t rest s : fget F s = t ++ x00 :: rest → x00 ∉ t → load_cstr F 0 s = (Done t, s).
Proof.
  intros Hf Ht. unfold load_cstr. erewrite bind_done by done. cbv beta. rewrite Hf.
  rewrite (slice_at _ [] (t ++ x00 :: rest) []); [|by rewrite app_nil_r|done|by rewrite Z.sub_0_r].
  unfold try. erewrite bind_done by done. cbv beta. by rewrite cstr_of.
Qed.
End strings.
