(* ===== verification/Protocol.v ===== *)
(** * The proxy protocol (linux-server/src/protocol.h)

    Constants, structure layouts and the wire form of the two headers.  All
    integer fields are 32-bit little-endian words; [sizeof] of the empty
    structures is 0 (GNU C). *)
From S2P Require Import Prelude CMem.
#[local] Open Scope Z_scope.

Definition OS_TYPE_WINDOWS := 1.
Definition OS_TYPE_LINUX := 2.
Definition OS_TYPE_GENERIC := 0.

(** Proxy error codes. *)
Definition PERROR_NONE := 0x00.
Definition PERROR_AUTH_REQUIRED := 0x01.
Definition PERROR_WRONG_SESSION := 0x02.
Definition PERROR_ACCESS_DENIED := 0x03.
Definition PERROR_UNKNOWN_APP := 0x04.
Definition PERROR_UNKNOWN_CTRL := 0x05.
Definition PERROR_PARSE_ERROR := 0x06.
Definition PERROR_AUTH_TYPE_NOT_SUPPORTED := 0x07.
Definition PERROR_INCOMPATIBLE_VERSION := 0x08.
Definition PERROR_NO_RESSOURCES := 0x80.
Definition PERROR_CRITICAL_INTERNAL_ERROR := 0x81.
Definition PERROR_SOCKET_ERROR := 0x82.
Definition PERROR_CRITICAL_SOCKET_ERROR := 0x83.
Definition PERROR_CAPI_ERROR := 0xff.

Definition AUTH_NO_AUTH := 0x0000.
Definition AUTH_BY_IP := 0x0001.
Definition AUTH_USERPASS := 0x0002.

(** Message types. *)
Definition TYPE_CAPI_REGISTER := 1.
Definition TYPE_CAPI_RELEASE := 2.
Definition TYPE_CAPI_PUTMESSAGE := 3.
Definition TYPE_CAPI_GETMESSAGE := 4.
Definition TYPE_CAPI_WAITFORSIGNAL := 5.
Definition TYPE_CAPI_MANUFACTURER := 6.
Definition TYPE_CAPI_VERSION := 7.
Definition TYPE_CAPI_SERIAL := 8.
Definition TYPE_CAPI_PROFILE := 9.
Definition TYPE_CAPI_INSTALLED := 10.
Definition TYPE_PROXY_HELO := 99.
Definition TYPE_PROXY_AUTH := 98.
Definition TYPE_PROXY_KEEPALIVE := 97.
Definition TYPE_PROXY_SHUTDOWN := 96.
Definition TYPE_PROXY_FEATURE := 95.

Record version_t := mkVersion { major : Z; minor : Z }.

(** ** [struct REQUEST_HEADER] *)
Record REQUEST_HEADER := mkRequest {
  rh_message_len : Z;
  rh_header_len : Z;
  rh_body_len : Z;
  rh_data_len : Z;
  rh_message_id : Z;
  rh_message_type : Z;
  rh_app_id : Z;
  rh_controller_id : Z;
  rh_session_id : Z;
}.

(** ** [struct ANSWER_HEADER] *)
Record ANSWER_HEADER := mkAnswer {
  ah_message_len : Z;
  ah_header_len : Z;
  ah_body_len : Z;
  ah_data_len : Z;
  ah_message_id : Z;
  ah_message_type : Z;
  ah_app_id : Z;
  ah_session_id : Z;
  ah_proxy_error : Z;
  ah_capi_error : Z;
}.

(** Sizes of the structures. *)
Definition sizeof_REQUEST_HEADER := 36.
Definition sizeof_ANSWER_HEADER := 40.
Definition sizeof_REQUEST_PROXY_HELO := 76.
Definition sizeof_REQUEST_PROXY_AUTH := 4.
Definition sizeof_REQUEST_CAPI_REGISTER := 16.
Definition sizeof_empty_struct := 0.
Definition sizeof_ANSWER_PROXY_HELO := 84.
Definition sizeof_ANSWER_PROXY_SHUTDOWN := 128.
Definition sizeof_ANSWER_CAPI_MANUFACTURER := 64.
Definition sizeof_ANSWER_CAPI_VERSION := 16.
Definition sizeof_ANSWER_CAPI_SERIAL := 8.
Definition sizeof_ANSWER_CAPI_PROFILE := 64.

(** Field offsets of the two headers. *)
Module RH.
Definition message_len := 0.
Definition header_len := 4.
Definition body_len := 8.
Definition data_len := 12.
Definition message_id := 16.
Definition message_type := 20.
Definition app_id := 24.
Definition controller_id := 28.
Definition session_id := 32.
End RH.

Module AH.
Definition message_len := 0.
Definition header_len := 4.
Definition body_len := 8.
Definition data_len := 12.
Definition message_id := 16.
Definition message_type := 20.
Definition app_id := 24.
Definition session_id := 28.
Definition proxy_error := 32.
Definition capi_error := 36.
End AH.

(** Field offsets of the bodies. *)
Module HELO. (**r REQUEST_PROXY_HELO and ANSWER_PROXY_HELO *)
Definition name := 0.
Definition os := 64.
Definition version_major := 68.
Definition version_minor := 72.
Definition auth_type := 76.
Definition timeout := 80.
End HELO.

Module REGISTER. (**r REQUEST_CAPI_REGISTER *)
Definition messageBufferSize := 0.
Definition maxLogicalConnection := 4.
Definition maxBDataBlocks := 8.
Definition maxBDataLen := 12.
End REGISTER.

Module VERSION. (**r ANSWER_CAPI_VERSION *)
Definition manufacturer_major := 0.
Definition manufacturer_minor := 4.
Definition driver_major := 8.
Definition driver_minor := 12.
End VERSION.

(** ** Wire form *)
Definition request_words (r : REQUEST_HEADER) : list Z :=
  [rh_message_len r; rh_header_len r; rh_body_len r; rh_data_len r; rh_message_id r;
   rh_message_type r; rh_app_id r; rh_controller_id r; rh_session_id r].
Definition encode_request (r : REQUEST_HEADER) : list byte := words (request_words r).

Definition answer_words (h : ANSWER_HEADER) : list Z :=
  [ah_message_len h; ah_header_len h; ah_body_len h; ah_data_len h; ah_message_id h;
   ah_message_type h; ah_app_id h; ah_session_id h; ah_proxy_error h; ah_capi_error h].
Definition encode_answer (h : ANSWER_HEADER) : list byte := words (answer_words h).

Definition decode_request (b : list byte) : option REQUEST_HEADER :=
  message_len ← get_u32 b RH.message_len;
  header_len ← get_u32 b RH.header_len;
  body_len ← get_u32 b RH.body_len;
  data_len ← get_u32 b RH.data_len;
  message_id ← get_u32 b RH.message_id;
  message_type ← get_u32 b RH.message_type;
  app_id ← get_u32 b RH.app_id;
  controller_id ← get_u32 b RH.controller_id;
  session_id ← get_u32 b RH.session_id;
  Some (mkRequest message_len header_len body_len data_len message_id message_type
          app_id controller_id session_id).

Definition decode_answer (b : list byte) : option ANSWER_HEADER :=
  message_len ← get_u32 b AH.message_len;
  header_len ← get_u32 b AH.header_len;
  body_len ← get_u32 b AH.body_len;
  data_len ← get_u32 b AH.data_len;
  message_id ← get_u32 b AH.message_id;
  message_type ← get_u32 b AH.message_type;
  app_id ← get_u32 b AH.app_id;
  session_id ← get_u32 b AH.session_id;
  proxy_error ← get_u32 b AH.proxy_error;
  capi_error ← get_u32 b AH.capi_error;
  Some (mkAnswer message_len header_len body_len data_len message_id message_type
          app_id session_id proxy_error capi_error).

(** Every field fits its 32-bit word. *)
Definition wf_words (ws : list Z) : Prop := Forall (λ w, 0 ≤ w < 2 ^ 32) ws.
#[global] Instance wf_words_dec ws : Decision (wf_words ws).
Proof. unfold wf_words. apply _. Defined.
Definition wf_request (r : REQUEST_HEADER) : Prop := wf_words (request_words r).
Definition wf_answer (h : ANSWER_HEADER) : Prop := wf_words (answer_words h).

(** A message as it stands on the wire: the lengths in the header are the
    lengths of the parts. *)
Record frame := mkFrame { fr_header : ANSWER_HEADER; fr_payload : list byte }.
Definition encode_frame (f : frame) : list byte :=
  encode_answer (fr_header f) ++ fr_payload f.
Definition wf_frame (f : frame) : Prop :=
  ah_header_len (fr_header f) = sizeof_ANSWER_HEADER ∧
  ah_body_len (fr_header f) + ah_data_len (fr_header f) = blen (fr_payload f) ∧
  ah_message_len (fr_header f) = blen (encode_frame f).

(** ** Lemmas *)
Lemma length_encode_request r : length (encode_request r) = 36%nat.
Proof. done. Qed.
Lemma length_encode_answer h : length (encode_answer h) = 40%nat.
Proof. done. Qed.
Lemma blen_encode_answer h : blen (encode_answer h) = sizeof_ANSWER_HEADER.
Proof. done. Qed.
Lemma blen_encode_request r : blen (encode_request r) = sizeof_REQUEST_HEADER.
Proof. done. Qed.

Lemma decode_request_words ws rest :
  length ws = 9%nat →
  ∃ r, decode_request (words ws ++ rest) = Some r ∧ request_words r = u32 <$> ws.
Proof.
  intros Hl. unfold decode_request.
  do 9 (destruct ws as [|? ws]; [done|]). destruct ws; [|done]. clear Hl.
  repeat get_word.
  eexists. split; [done|]. done.
Qed.

Lemma decode_answer_words ws rest :
  length ws = 10%nat →
  ∃ h, decode_answer (words ws ++ rest) = Some h ∧ answer_words h = u32 <$> ws.
Proof.
  intros Hl. unfold decode_answer.
  do 10 (destruct ws as [|? ws]; [done|]). destruct ws; [|done]. clear Hl.
  repeat get_word. eexists. split; [done|]. done.
Qed.

Lemma u32_wf_words ws : wf_words ws → u32 <$> ws = ws.
Proof.
  induction 1 as [|w ws Hw _ IH]; [done|].
  rewrite fmap_cons, IH. by rewrite u32_small.
Qed.

Lemma wf_words_u32 ws : wf_words (u32 <$> ws).
Proof. apply Forall_fmap, Forall_true. intros w. apply u32_range. Qed.

Lemma words_u32 ws : words (u32 <$> ws) = words ws.
Proof.
  induction ws as [|w ws IH]; [done|].
  rewrite fmap_cons, !words_cons, IH. f_equal.
  unfold u32. symmetry. apply (le_split_mod w 4).
Qed.

#[global] Instance request_words_inj : Inj (=) (=) request_words.
Proof. intros [] [] H. by injection H as -> -> -> -> -> -> -> -> ->. Qed.
#[global] Instance answer_words_inj : Inj (=) (=) answer_words.
Proof. intros [] [] H. by injection H as -> -> -> -> -> -> -> -> -> ->. Qed.

(** A buffer that is long enough holds some header. *)
Lemma decode_request_total b :
  36 ≤ blen b → ∃ r, decode_request b = Some r ∧ wf_request r ∧
                     b = encode_request r ++ drop 36 b.
Proof.
  intros Hb. destruct (words_view 9 b) as (ws & Hl & Hws); [unfold blen in Hb; lia|].
  destruct (decode_request_words ws (drop (4 * 9) b) Hl) as (r & Hd & Hr).
  exists r. rewrite <- Hws in Hd. split; [done|]. unfold wf_request, encode_request.
  rewrite Hr, words_u32. split; [apply wf_words_u32|done].
Qed.

Lemma decode_answer_total b :
  40 ≤ blen b → ∃ h, decode_answer b = Some h ∧ wf_answer h ∧
                     b = encode_answer h ++ drop 40 b.
Proof.
  intros Hb. destruct (words_view 10 b) as (ws & Hl & Hws); [unfold blen in Hb; lia|].
  destruct (decode_answer_words ws (drop (4 * 10) b) Hl) as (h & Hd & Hh).
  exists h. rewrite <- Hws in Hd. split; [done|]. unfold wf_answer, encode_answer.
  rewrite Hh, words_u32. split; [apply wf_words_u32|done].
Qed.

Lemma decode_request_encode r rest :
  decode_request (encode_request r ++ rest) = Some r ↔ wf_request r.
Proof.
  destruct (decode_request_words (request_words r) rest eq_refl) as (r' & Hd & Hr').
  unfold encode_request. rewrite Hd. split.
  - intros [= ->]. unfold wf_request. rewrite Hr'. apply wf_words_u32.
  - intros Hwf. f_equal. apply (inj request_words). by rewrite Hr', u32_wf_words.
Qed.

Lemma decode_answer_encode h rest :
  decode_answer (encode_answer h ++ rest) = Some h ↔ wf_answer h.
Proof.
  destruct (decode_answer_words (answer_words h) rest eq_refl) as (h' & Hd & Hh').
  unfold encode_answer. rewrite Hd. split.
  - intros [= ->]. unfold wf_answer. rewrite Hh'. apply wf_words_u32.
  - intros Hwf. f_equal. apply (inj answer_words). by rewrite Hh', u32_wf_words.
Qed.

(** The fields of a decoded request, as loads. *)
Lemma decode_request_fields b r :
  decode_request b = Some r →
  get_u32 b RH.message_len = Some (rh_message_len r) ∧
  get_u32 b RH.header_len = Some (rh_header_len r) ∧
  get_u32 b RH.body_len = Some (rh_body_len r) ∧
  get_u32 b RH.data_len = Some (rh_data_len r) ∧
  get_u32 b RH.message_id = Some (rh_message_id r) ∧
  get_u32 b RH.message_type = Some (rh_message_type r) ∧
  get_u32 b RH.app_id = Some (rh_app_id r) ∧
  get_u32 b RH.controller_id = Some (rh_controller_id r) ∧
  get_u32 b RH.session_id = Some (rh_session_id r).
Proof.
  unfold decode_request. intros Hd.
  repeat match type of Hd with
  | (get_le 4 b ?f ≫= _) = _ =>
      destruct (get_le 4 b f) as [?|] eqn:?; cbn [mbind option_bind] in Hd; [|done]
  end.
  by injection Hd as <-.
Qed.

Lemma decode_request_wf b r : decode_request b = Some r → wf_request r.
Proof.
  intros (?&?&?&?&?&?&?&?&?)%decode_request_fields.
  repeat constructor; by eapply (get_le_bound 4).
Qed.
