(* ===== verification/Net.v ===== *)
(** * The stream socket, and [recvn] (linux-server/src/capifwd.c)

    A connected socket as the code sees it: the segments still to arrive, how
    the stream ends, what was sent, and what the next [send] calls return. *)
From S2P Require Import Prelude CMem.
#[local] Open Scope Z_scope.

Record net := mkNet {
  rx : list (list byte);      (**r arriving segments *)
  rx_error : bool;            (**r the stream ends with an error, not with EOF *)
  tx : list (list byte);      (**r bytes accepted by the successive [send] calls *)
  tx_script : list Z;         (**r results of the next [send]s; then they are complete *)
}.

(** The bytes still to arrive. *)
Definition rx_bytes (w : net) : list byte := mjoin (rx w).

(** [recv] hands over what the first non-empty segment holds, at most [left] bytes. *)
Fixpoint recv_segs (segs : list (list byte)) (left : Z) : option (list byte * list (list byte)) :=
  match segs with
  | [] => None
  | [] :: segs' => recv_segs segs' left
  | seg :: segs' =>
      Some (take (Z.to_nat left) seg,
            match drop (Z.to_nat left) seg with [] => segs' | rest => rest :: segs' end)
  end.

(** Result of [recv], the bytes received, the socket afterwards. *)
Definition recv (left : Z) (w : net) : Z * list byte * net :=
  match recv_segs (rx w) left with
  | Some (bs, segs) => (blen bs, bs, mkNet segs (rx_error w) (tx w) (tx_script w))
  | None => (if rx_error w then -1 else 0, [], mkNet [] (rx_error w) (tx w) (tx_script w))
  end.

(** [send] returns the number of bytes it took, or a negative number. *)
Definition send (bs : list byte) (w : net) : Z * net :=
  let '(n, script) := match tx_script w with
                      | [] => (blen bs, [])
                      | n :: script => (Z.min n (blen bs), script)
                      end in
  (n, mkNet (rx w) (rx_error w)
        (if decide (0 ≤ n) then tx w ++ [take (Z.to_nat n) bs] else tx w) script).

Section recvn.
Context {S : Type} (SOCK : field S net) (BUF : field S (list byte)).

Definition recv_into (off left : Z) : M S Z :=
  '(n, bs) ← zoom SOCK (recv left);
  store_bytes BUF off bs;;
  mret n.

(** [while (left) { n = recv(fd, buf, left, 0); if (n <= 0) return n; buf += n; left -= n; }] *)
Fixpoint recvn_loop (fuel : nat) (off left size : Z) : M S Z :=
  if decide (left = 0) then mret size else
  match fuel with
  | O => fail Diverged
  | Datatypes.S fuel' =>
      n ← recv_into off left;
      if decide (n ≤ 0) then mret n else recvn_loop fuel' (off + n) (left - n) size
  end.

(** Each round but the last uses up a segment. *)
Definition recvn (off size : Z) : M S Z := λ s,
  recvn_loop (Datatypes.S (length (rx (fget SOCK s)))) off size size s.
End recvn.

(** ** Lemmas *)
Lemma recv_segs_None segs left : recv_segs segs left = None ↔ mjoin segs = [].
Proof.
  induction segs as [|[|b seg] segs IH]; simpl; [done|done|].
  split; [done|]. intros H. done.
Qed.

Lemma recv_segs_Some segs left bs segs' :
  0 < left → recv_segs segs left = Some (bs, segs') →
  bs ≠ [] ∧ blen bs ≤ left ∧ mjoin segs = bs ++ mjoin segs' ∧
  (blen bs < left → (length segs' < length segs)%nat) ∧ (length segs' ≤ length segs)%nat.
Proof.
  intros Hleft. induction segs as [|[|b seg] segs IH]; intros H; [done| |].
  - simpl in H. destruct (IH H) as (?&?&?&?&?). split_and!; [done..| |]; simpl; lia.
  - cbn [recv_segs] in H.
    pose proof (take_drop (Z.to_nat left) (b :: seg)) as Htd.
    destruct (Z.to_nat left) as [|n] eqn:En; [lia|].
    destruct (drop (S n) (b :: seg)) as [|c rest] eqn:Ed; simplify_eq.
    + rewrite app_nil_r in Htd. rewrite Htd. split_and!; [done| | |simpl; lia|simpl; lia].
      * rewrite <- Htd. unfold blen. rewrite length_take. lia.
      * simpl. done.
    + split_and!; [done| | | |simpl; lia].
      * unfold blen. rewrite length_take. lia.
      * cbn [mjoin list_join]. by rewrite <- Htd at 1; rewrite <- (assoc_L (++)).
      * intros Hlt. apply (f_equal length) in Ed. unfold blen in Hlt.
        rewrite length_take in Hlt. rewrite length_drop in Ed. simpl in *. lia.
Qed.

(** Two sockets are the same to the code when the same bytes arrive, in
    whatever segments. *)
#[global] Instance net_equiv : Equiv net := λ w1 w2,
  rx_bytes w1 = rx_bytes w2 ∧ rx_error w1 = rx_error w2 ∧
  tx w1 = tx w2 ∧ tx_script w1 = tx_script w2.
#[global] Instance net_equivalence : Equivalence (≡@{net}).
Proof.
  split.
  - done.
  - intros ?? (?&?&?&?). by split_and!.
  - intros ??? (?&?&?&?) (?&?&?&?). split_and!; by etrans.
Qed.

Definition advance (n : nat) (w : net) : net :=
  mkNet [drop n (rx_bytes w)] (rx_error w) (tx w) (tx_script w).

Lemma rx_bytes_advance n w : rx_bytes (advance n w) = drop n (rx_bytes w).
Proof. unfold rx_bytes. simpl. by rewrite app_nil_r. Qed.

#[global] Instance advance_proper n : Proper ((≡) ==> (≡)) (advance n).
Proof.
  intros w1 w2 (H1&H2&H3&H4). split_and!; [|done..].
  by rewrite !rx_bytes_advance, H1.
Qed.

#[global] Instance rx_bytes_proper : Proper ((≡) ==> (=)) rx_bytes.
Proof. by intros ?? [? _]. Qed.
#[global] Instance tx_proper : Proper ((≡) ==> (=)) tx.
Proof. by intros ?? (_&_&?&_). Qed.

Lemma advance_advance m n w w1 w2 :
  w1 ≡ advance m w → w2 ≡ advance n w1 → w2 ≡ advance (m + n) w.
Proof.
  intros H1 H2. rewrite H2, H1. split_and!; [|done..].
  by rewrite !rx_bytes_advance, drop_drop.
Qed.

Section recvn_spec.
Context {S : Type} (SOCK : field S net) (BUF : field S (list byte)).
Context `{!LawfulField SOCK, !LawfulField BUF, !DisjointFields SOCK BUF}.

(** What one [recv] into the buffer does. *)
Lemma recv_into_eof off left s :
  rx_bytes (fget SOCK s) = [] → 0 ≤ off ≤ blen (fget BUF s) →
  ∃ w', w' ≡ fget SOCK s ∧ recv_into SOCK BUF off left s =
    (Done (if rx_error (fget SOCK s) then -1 else 0), fset SOCK w' s).
Proof.
  intros Hrx Hoff. destruct (fget SOCK s) as [segs e t sc] eqn:Hs.
  change (mjoin segs = []) in Hrx.
  exists (mkNet [] e t sc). split; [by split_and!|].
  unfold recv_into, zoom, mbind, M_bind, recv. rewrite Hs. simpl.
  rewrite (proj2 (recv_segs_None _ left) Hrx).
  unfold store_bytes, gets, mbind, M_bind. rewrite fget_other_r, splice_nil by done.
  cbn. unfold puts. f_equal. rewrite <- (fget_other_r (F:=SOCK) (G:=BUF) (mkNet [] e t sc) s).
  by rewrite fset_fget.
Qed.

Lemma recv_into_data off left s :
  rx_bytes (fget SOCK s) ≠ [] → 0 < left →
  ∃ bs w', bs ≠ [] ∧ blen bs ≤ left ∧
    rx_bytes (fget SOCK s) = bs ++ rx_bytes w' ∧
    w' ≡ advance (length bs) (fget SOCK s) ∧
    (length (rx w') ≤ length (rx (fget SOCK s)))%nat ∧
    (blen bs < left → (length (rx w') < length (rx (fget SOCK s)))%nat) ∧
    recv_into SOCK BUF off left s =
      match splice (fget BUF s) off bs with
      | Some b' => (Done (blen bs), fset BUF b' (fset SOCK w' s))
      | None => (Faulted OutOfBounds, fset SOCK w' s)
      end.
Proof.
  intros Hrx Hleft. destruct (fget SOCK s) as [segs e t sc] eqn:Hs.
  destruct (recv_segs segs left) as [[bs segs']|] eqn:Hr.
  2: { by apply recv_segs_None in Hr. }
  destruct (recv_segs_Some _ _ _ _ Hleft Hr) as (?&?&Hj&?&?).
  exists bs, (mkNet segs' e t sc). do 3 (split; [done|]). split.
  { split_and!; [|done..]. rewrite rx_bytes_advance. unfold rx_bytes. simpl.
    by rewrite Hj, drop_app_length. }
  do 2 (split; [done|]). unfold recv_into, zoom, mbind, M_bind, recv. rewrite Hs. simpl. rewrite Hr.
    unfold store_bytes, gets, mbind, M_bind. rewrite fget_other_r.
    by destruct (splice _ off bs).
Qed.

Lemma recvn_loop_zero fuel off size s :
  recvn_loop SOCK BUF fuel off 0 size s = (Done size, s).
Proof. by destruct fuel. Qed.

Lemma recvn_loop_step fuel off left size s :
  left ≠ 0 → recvn_loop SOCK BUF (Datatypes.S fuel) off left size s =
    (n ← recv_into SOCK BUF off left;
     if decide (n ≤ 0) then mret n
     else recvn_loop SOCK BUF fuel (off + n) (left - n) size) s.
Proof. intros. simpl. by rewrite decide_False. Qed.
Definition eof_result (w : net) : Z := if rx_error w then -1 else 0.

(** The outcome of [recvn]: a function of the bytes that arrive, whatever the
    segments. *)
Definition recvn_returns (off left size : Z) (s : S) (r : outcome Z * S) : Prop :=
  let w := fget SOCK s in
  let bs := take (Z.to_nat left) (rx_bytes w) in
  match splice (fget BUF s) off bs with
  | Some b' => ∃ w', w' ≡ advance (length bs) w ∧
      r = (Done (if decide (left ≤ blen (rx_bytes w)) then size else eof_result w),
           fset BUF b' (fset SOCK w' s))
  | None => ∃ s', r = (Faulted OutOfBounds, s')
  end.

Lemma recvn_returns_zero off size s :
  0 ≤ off ≤ blen (fget BUF s) → recvn_returns off 0 size s (Done size, s).
Proof.
  intros Hoff. unfold recvn_returns. simpl. rewrite splice_nil by done.
  exists (fget SOCK s). split; [split_and!; by rewrite ?rx_bytes_advance|].
  rewrite decide_True by (unfold blen; lia).
  by rewrite fset_fget, fset_fget.
Qed.

Lemma recvn_returns_eof off left size s w' :
  0 ≤ off ≤ blen (fget BUF s) → 0 < left → rx_bytes (fget SOCK s) = [] →
  w' ≡ fget SOCK s →
  recvn_returns off left size s (Done (eof_result (fget SOCK s)), fset SOCK w' s).
Proof.
  intros Hoff Hleft Hrx Hw'. unfold recvn_returns. rewrite Hrx, take_nil.
  rewrite splice_nil by done. exists w'. split.
  - rewrite Hw'. split_and!; by rewrite ?rx_bytes_advance, ?Hrx.
  - rewrite decide_False by (unfold blen; simpl; lia).
    by rewrite <- (fget_other_r (F:=SOCK) (G:=BUF) w' s), fset_fget.
Qed.

(** One [recv] and the rest make the whole. *)
Lemma recvn_returns_step off left size s bs w' b' r :
  0 ≤ off → blen bs ≤ left → rx_bytes (fget SOCK s) = bs ++ rx_bytes w' →
  w' ≡ advance (length bs) (fget SOCK s) → splice (fget BUF s) off bs = Some b' →
  recvn_returns (off + blen bs) (left - blen bs) size (fset BUF b' (fset SOCK w' s)) r →
  recvn_returns off left size s r.
Proof.
  intros Hoff Hle Hj Hw' Hb'. unfold recvn_returns.
  rewrite (fget_other (F:=SOCK) (G:=BUF)), !fget_fset, Hj.
  rewrite take_app, (take_ge bs) by (unfold blen in *; lia).
  replace (Z.to_nat left - length bs)%nat with (Z.to_nat (left - blen bs))
    by (unfold blen in *; lia).
  rewrite (splice_app _ _ _ _ _ Hb'). destruct (splice (fget BUF s) off (bs ++ _)) as [b2|]; [|done].
  intros (w2 & Hw2 & ->). exists w2. split.
  - rewrite length_app. by eapply advance_advance.
  - destruct Hw' as (_&He&_&_). unfold eof_result. rewrite He, blen_app.
    rewrite <- (fset_comm (F:=SOCK) (G:=BUF)), fset_fset, fset_comm, fset_fset. f_equal.
    repeat case_decide; done || lia.
Qed.

Lemma recvn_loop_returns fuel : ∀ off left size s,
  (length (rx (fget SOCK s)) < fuel)%nat →
  0 ≤ off ≤ blen (fget BUF s) → 0 ≤ left →
  recvn_returns off left size s (recvn_loop SOCK BUF fuel off left size s).
Proof.
  induction fuel as [|fuel IH]; intros off left size s Hf Hoff Hleft; [lia|].
  destruct (decide (left = 0)) as [->|Hne].
  { rewrite recvn_loop_zero. by apply recvn_returns_zero. }
  rewrite recvn_loop_step by done.
  destruct (decide (rx_bytes (fget SOCK s) = [])) as [Hrx|Hrx].
  { destruct (recv_into_eof off left s Hrx Hoff) as (w' & Hw' & E).
    rewrite (bind_done _ _ _ _ _ E), decide_True by (by destruct (rx_error _)).
    by apply recvn_returns_eof; [|lia|..]. }
  destruct (recv_into_data off left s Hrx) as (bs & w' & Hbs & Hle & Hj & Hw' & Hl & Hl' & E);
    [lia|].
  destruct (splice (fget BUF s) off bs) as [b'|] eqn:Hb'.
  - assert (0 < blen bs) by (unfold blen; destruct bs; simpl in *; [done|lia]).
    rewrite (bind_done _ _ _ _ _ E), decide_False by lia.
    eapply recvn_returns_step; [lia|done..|].
    destruct (decide (left - blen bs = 0)) as [->|Hne'].
    + rewrite recvn_loop_zero. apply recvn_returns_zero.
      rewrite fget_fset. apply splice_length in Hb' as Hlen. unfold blen in *.
      rewrite Hlen. revert Hb'. unfold splice, blen. case_decide; [lia|done].
    + apply IH; rewrite ?(fget_other (F:=SOCK) (G:=BUF)), ?fget_fset; [lia| |lia].
      apply splice_length in Hb' as Hlen. unfold blen in *.
      rewrite Hlen. revert Hb'. unfold splice, blen. case_decide; [lia|done].
  - rewrite (bind_faulted _ _ _ _ _ E). unfold recvn_returns. rewrite Hj.
    rewrite take_app, (take_ge bs) by (unfold blen in *; lia).
    assert (blen (fget BUF s) < off + blen bs).
    { revert Hb'. unfold splice. case_decide; [done|lia]. }
    rewrite splice_None by (rewrite blen_app; unfold blen in *; lia).
    by eexists.
Qed.
End recvn_spec.

Section recvn_theorem.
Context {S : Type} (SOCK : field S net) (BUF : field S (list byte)).
Context `{!LawfulField SOCK, !LawfulField BUF, !DisjointFields SOCK BUF}.

Lemma recvn_spec off size s :
  0 ≤ off ≤ blen (fget BUF s) → 0 ≤ size →
  recvn_returns SOCK BUF off size size s (recvn SOCK BUF off size s).
Proof.
  intros. unfold recvn. apply (recvn_loop_returns SOCK BUF); [apply Nat.lt_succ_diag_r|done..].
Qed.

(** [recvn] gives the same result on equivalent sockets. *)
Lemma recvn_equiv off size s w1 w2 :
  w1 ≡ w2 → 0 ≤ off ≤ blen (fget BUF s) → 0 ≤ size →
  let r1 := recvn SOCK BUF off size (fset SOCK w1 s) in
  let r2 := recvn SOCK BUF off size (fset SOCK w2 s) in
  r1.1 = r2.1 ∧
  ∀ n, r1.1 = Done n → fget BUF r1.2 = fget BUF r2.2 ∧ fget SOCK r1.2 ≡ fget SOCK r2.2.
Proof.
  intros Hw Hoff Hsz r1 r2.
  assert (Hoff' : ∀ w, 0 ≤ off ≤ blen (fget BUF (fset SOCK w s)))
    by (intros; by rewrite (fget_other_r (F:=SOCK) (G:=BUF))).
  pose proof (recvn_spec off size (fset SOCK w1 s) (Hoff' w1) Hsz) as H1.
  pose proof (recvn_spec off size (fset SOCK w2 s) (Hoff' w2) Hsz) as H2.
  fold r1 in H1. fold r2 in H2. clearbody r1 r2. revert H1 H2.
  unfold recvn_returns. rewrite !(fget_other_r (F:=SOCK) (G:=BUF)), !fget_fset.
  unfold eof_result. pose proof Hw as (Hrx&He&_&_). rewrite Hrx, He.
  destruct (splice _ _ _) as [b'|].
  - intros (w1' & Hw1 & ->) (w2' & Hw2 & ->). simpl. split; [done|]. intros _ _.
    rewrite !(fget_other (F:=SOCK) (G:=BUF)), !fget_fset. split; [done|].
    by rewrite Hw1, Hw2, Hw.
  - intros (s1 & ->) (s2 & ->). done.
Qed.
End recvn_theorem.
