(* ===== verification/Capi20.v ===== *)
(** * Interfaces to code outside the repository

    libcapi20 (the capi20 calls) and <linux/capi.h> are not part of the
    repository.  They are parameters: [Capi20] gives the calls the server
    makes, as functions of the state of the library; [CapiHeader] the constant
    the server and the clients take from the header.  [Capi20Laws] states the
    documented behaviour the application bookkeeping relies on. *)
From stdpp Require Import gmap.
From S2P Require Import Prelude CMem.
#[local] Open Scope Z_scope.

Class CapiHeader := {
  CAPI_MAXAPPL : Z;
  CAPI_MAXAPPL_range : 0 < CAPI_MAXAPPL < 2 ^ 16;
}.

Class Capi20 (CS : Type) := {
  (** Return code, the id stored through the last argument (if one is stored). *)
  capi20_register : Z → Z → Z → CS → Z * option Z * CS;
  capi20_release : Z → CS → Z * CS;
  (** The message is given as the memory it lies in: base address, contents,
      offset of the message. *)
  capi20_put_message : Z → Z → list byte → Z → CS → Z * CS;
  (** Return code and address of the message. *)
  capi20_get_message : Z → CS → Z * Z * CS;
  capi20_waitformessage : Z → CS → Z * CS;
  capi20_isinstalled : CS → Z;
  (** The bytes written to the caller's buffer. *)
  capi20_get_manufacturer : Z → CS → list byte;
  capi20_get_version : Z → CS → list byte;
  capi20_get_serial_number : Z → CS → list byte;
  capi20_get_profile : Z → CS → Z * list byte;
  (** Memory of the library: [n] bytes at an address, [None] if not mapped. *)
  capi20_memory : CS → Z → Z → option (list byte);
  capi20_memory_length c addr n bs : capi20_memory c addr n = Some bs → blen bs = n;
}.

(** [owned c] are the application ids the process has registered. *)
Class Capi20Laws (CS : Type) `{Capi20 CS, CapiHeader} := {
  owned : CS → gset Z;
  register_ok a b l c o c' :
    capi20_register a b l c = (0, o, c') →
    ∃ id, o = Some id ∧ 1 ≤ id ≤ CAPI_MAXAPPL ∧ (id ∉ owned c) ∧ owned c' = ({[id]} ∪ owned c);
  register_error a b l c rc o c' :
    capi20_register a b l c = (rc, o, c') → rc ≠ 0 → owned c' = owned c;
  release_owned id c rc c' :
    capi20_release id c = (rc, c') → (rc = 0 ↔ (id ∈ owned c));
  release_ok id c c' :
    capi20_release id c = (0, c') → owned c' = (owned c ∖ {[id]});
  release_error id c rc c' :
    capi20_release id c = (rc, c') → rc ≠ 0 → owned c' = owned c;
  put_message_owned id base mem off c rc c' :
    capi20_put_message id base mem off c = (rc, c') → owned c' = owned c;
  get_message_owned id c rc p c' :
    capi20_get_message id c = (rc, p, c') → owned c' = owned c;
  manufacturer_length ctrl c : blen (capi20_get_manufacturer ctrl c) ≤ 64;
  version_length ctrl c : blen (capi20_get_version ctrl c) = 16;
  serial_length ctrl c : blen (capi20_get_serial_number ctrl c) ≤ 8;
  profile_length ctrl c : blen (capi20_get_profile ctrl c).2 ≤ 64;
  waitformessage_owned id c rc c' :
    capi20_waitformessage id c = (rc, c') → owned c' = owned c;
  (** Return codes are 16-bit info values. *)
  register_code a b l c : 0 ≤ (capi20_register a b l c).1.1 < 2 ^ 16;
  release_code id c : 0 ≤ (capi20_release id c).1 < 2 ^ 16;
  put_message_code id base mem off c : 0 ≤ (capi20_put_message id base mem off c).1 < 2 ^ 16;
  get_message_code id c : 0 ≤ (capi20_get_message id c).1.1 < 2 ^ 16;
  waitformessage_code id c : 0 ≤ (capi20_waitformessage id c).1 < 2 ^ 16;
  isinstalled_code c : 0 ≤ capi20_isinstalled c < 2 ^ 16;
  profile_code ctrl c : 0 ≤ (capi20_get_profile ctrl c).1 < 2 ^ 16;
}.
