(* ===== verification/AppIndex.v ===== *)
(** * Application registry (linux-server/src/appindex.c)

    [registered_apps] is a byte per application id; the handlers mark the ids
    registered through this connection so that they can be released when the
    connection goes down. *)
From stdpp Require Import gmap.
From S2P Require Import Prelude CMem Capi20.
#[local] Open Scope Z_scope.

Section appindex.
Context `{CapiHeader} {S CS : Type} `{Capi20 CS}.
Context (LIST : field S (list byte)) (CAPI : field S CS).

Definition add_app (ApplID : Z) : M S unit := store_bytes LIST ApplID (le_split 1 1).
Definition del_app (ApplID : Z) : M S unit := store_bytes LIST ApplID (le_split 1 0).

(** [for (i = 1; i <= CAPI_MAXAPPL; i++)]; [n] rounds are left. *)
Fixpoint getfirst_loop (n : nat) (i : Z) : M S Z :=
  match n with
  | O => mret 0
  | Datatypes.S n' =>
      c ← load8 LIST i;
      if decide (c ≠ 0) then store_bytes LIST i (le_split 1 0);; mret i
      else getfirst_loop n' (i + 1)
  end.
Definition getfirst_app : M S Z := getfirst_loop (Z.to_nat CAPI_MAXAPPL) 1.

(** [while ((app = getfirst_app(_list))) capi20_release(app);] *)
Fixpoint release_loop (fuel : nat) : M S unit :=
  app ← getfirst_app;
  if decide (app = 0) then mret tt else
  match fuel with
  | O => fail Diverged
  | Datatypes.S fuel' => zoom CAPI (capi20_release app);; release_loop fuel'
  end.
(** Each round clears one of the [CAPI_MAXAPPL] marks. *)
Definition release_all : M S unit := release_loop (Z.to_nat CAPI_MAXAPPL).
End appindex.

(** ** The registry as an increasing list of ids *)
Definition marked (l : list byte) (i : Z) : Prop := default x00 (l !! Z.to_nat i) ≠ x00.
#[global] Instance marked_dec l i : Decision (marked l i).
Proof. unfold marked. apply _. Defined.

Definition marks_from (l : list byte) (n : nat) (i : Z) : list Z :=
  filter (marked l) (seqZ i (Z.of_nat n)).
Definition apps `{CapiHeader} (l : list byte) : list Z :=
  marks_from l (Z.to_nat CAPI_MAXAPPL) 1.

Definition mark (i : Z) (c : byte) (l : list byte) : list byte := <[Z.to_nat i := c]> l.

Lemma marked_mark l i j c :
  0 ≤ i < blen l → 0 ≤ j →
  marked (mark i c l) j ↔ (if decide (i = j) then c ≠ x00 else marked l j).
Proof.
  intros Hi Hj. unfold marked, mark, blen in *. case_decide as Hij.
  - subst j. by rewrite list_lookup_insert_eq by lia.
  - by rewrite list_lookup_insert_ne by lia.
Qed.

Section appindex_lemmas.
Context `{CapiHeader} {S CS : Type} `{Capi20 CS}.
Context (LIST : field S (list byte)) (CAPI : field S CS).
Context `{!LawfulField LIST, !LawfulField CAPI, !DisjointFields LIST CAPI}.

Lemma store_mark i w c s :
  0 ≤ i < blen (fget LIST s) → le_split 1 w = [c] →
  store_bytes LIST i (le_split 1 w) s = (Done tt, fset LIST (mark i c (fget LIST s)) s).
Proof.
  intros Hi Hc. unfold store_bytes, gets, mbind, M_bind. rewrite Hc, splice_byte by done.
  done.
Qed.

Lemma add_app_spec i s :
  0 ≤ i < blen (fget LIST s) →
  add_app LIST i s = (Done tt, fset LIST (mark i Init.Byte.x01 (fget LIST s)) s).
Proof. intros. by apply store_mark. Qed.

Lemma del_app_spec i s :
  0 ≤ i < blen (fget LIST s) →
  del_app LIST i s = (Done tt, fset LIST (mark i x00 (fget LIST s)) s).
Proof. intros. by apply store_mark. Qed.

Lemma load8_spec i s c :
  0 ≤ i → fget LIST s !! Z.to_nat i = Some c → load8 LIST i s = (Done (byte.unsigned c), s).
Proof.
  intros Hi Hc. unfold load, gets, mbind, M_bind. by rewrite (get_u8_lookup _ _ _ Hi Hc).
Qed.

Lemma getfirst_loop_spec n : ∀ i s,
  0 ≤ i → i + Z.of_nat n ≤ blen (fget LIST s) →
  getfirst_loop LIST n i s =
    match marks_from (fget LIST s) n i with
    | [] => (Done 0, s)
    | a :: _ => (Done a, fset LIST (mark a x00 (fget LIST s)) s)
    end.
Proof.
  induction n as [|n IH]; intros i s Hi Hn; [done|].
  unfold marks_from. rewrite seqZ_cons by lia. cbn [getfirst_loop].
  destruct (lookup_lt_is_Some_2 (fget LIST s) (Z.to_nat i)) as [c Hc];
    [unfold blen in Hn; lia|].
  rewrite (bind_done _ _ _ _ _ (load8_spec i s c Hi Hc)), filter_cons.
  destruct (decide (c = x00)) as [->|Hne].
  - rewrite decide_False by (by intros Hc0). rewrite decide_False by (unfold marked; rewrite Hc; by intros Hc0).
    rewrite IH by lia. unfold marks_from. by replace (Z.pred (Z.of_nat (Datatypes.S n))) with (Z.of_nat n) by lia.
  - rewrite decide_True by (by rewrite byte_unsigned_zero). rewrite decide_True by (unfold marked; by rewrite Hc).
    rewrite (bind_done _ _ _ _ _ (store_mark i 0 x00 s ltac:(lia) eq_refl)). done.
Qed.

Lemma getfirst_app_spec s :
  CAPI_MAXAPPL < blen (fget LIST s) →
  getfirst_app LIST s =
    match apps (fget LIST s) with
    | [] => (Done 0, s)
    | a :: _ => (Done a, fset LIST (mark a x00 (fget LIST s)) s)
    end.
Proof. intros. pose proof CAPI_MAXAPPL_range. apply getfirst_loop_spec; lia. Qed.
End appindex_lemmas.

(** ** The registry as a set of ids *)
Definition apps_set `{CapiHeader} (l : list byte) : gset Z := list_to_set (apps l).

Section apps_set.
Context `{CapiHeader}.

Lemma elem_of_marks_from l n i j :
  j ∈ marks_from l n i ↔ marked l j ∧ i ≤ j < i + Z.of_nat n.
Proof. unfold marks_from. by rewrite list_elem_of_filter, elem_of_seqZ. Qed.

Lemma elem_of_apps l j : j ∈ apps l ↔ marked l j ∧ 1 ≤ j ≤ CAPI_MAXAPPL.
Proof.
  pose proof CAPI_MAXAPPL_range. unfold apps. rewrite elem_of_marks_from.
  split; (intros [? ?]; split; [done|lia]).
Qed.

Lemma elem_of_apps_set l j : j ∈ apps_set l ↔ marked l j ∧ 1 ≤ j ≤ CAPI_MAXAPPL.
Proof. unfold apps_set. by rewrite elem_of_list_to_set, elem_of_apps. Qed.

Lemma NoDup_apps l : NoDup (apps l).
Proof. apply NoDup_filter, NoDup_seqZ. Qed.

Lemma length_apps l : (length (apps l) ≤ Z.to_nat CAPI_MAXAPPL)%nat.
Proof.
  unfold apps, marks_from. etrans; [apply length_filter|].
  rewrite length_seqZ. lia.
Qed.

Lemma apps_set_mark l i c :
  c ≠ x00 → 1 ≤ i ≤ CAPI_MAXAPPL → i < blen l →
  apps_set (mark i c l) = {[i]} ∪ apps_set l.
Proof.
  intros Hc Hi Hl. apply set_eq. intros j.
  rewrite elem_of_union, elem_of_singleton, !elem_of_apps_set.
  destruct (decide (1 ≤ j)); [|naive_solver lia].
  rewrite marked_mark by lia. case_decide; naive_solver lia.
Qed.

Lemma apps_set_unmark l i :
  0 ≤ i < blen l → apps_set (mark i x00 l) = apps_set l ∖ {[i]}.
Proof.
  intros Hl. apply set_eq. intros j.
  rewrite elem_of_difference, elem_of_singleton, !elem_of_apps_set.
  destruct (decide (1 ≤ j)); [|naive_solver lia].
  rewrite marked_mark by lia. case_decide; naive_solver.
Qed.

(** Clearing the first mark leaves the others. *)
Lemma apps_unmark_first l a rest :
  CAPI_MAXAPPL < blen l → apps l = a :: rest → apps (mark a x00 l) = rest.
Proof.
  intros Hl Ha. assert (Hin : a ∈ apps l) by (rewrite Ha; left).
  apply elem_of_apps in Hin as [_ Hr]. pose proof (NoDup_apps l) as Hnd.
  rewrite Ha in Hnd. apply NoDup_cons in Hnd as [Hna _].
  assert (Hf : apps (mark a x00 l) = filter (λ j, a ≠ j) (apps l)).
  { unfold apps, marks_from. apply filter_and_Forall, Forall_forall. intros j Hj%elem_of_seqZ.
    rewrite marked_mark by lia. case_decide; naive_solver. }
  rewrite Hf, Ha, filter_cons, decide_False by naive_solver.
  assert (Hall : Forall (λ j, a ≠ j) rest) by (apply Forall_forall; congruence).
  clear -Hall. induction Hall as [|j rest Hj _ IH]; [done|].
  by rewrite filter_cons, decide_True, IH.
Qed.
End apps_set.

Definition release_ids `{Capi20 CS} (ids : list Z) (c : CS) : CS :=
  foldl (λ c id, (capi20_release id c).2) c ids.

Section release_lemmas.
Context `{CapiHeader} {S CS : Type} `{Capi20 CS}.
Context (LIST : field S (list byte)) (CAPI : field S CS).
Context `{!LawfulField LIST, !LawfulField CAPI, !DisjointFields LIST CAPI}.

Lemma release_loop_spec fuel : ∀ s,
  CAPI_MAXAPPL < blen (fget LIST s) → (length (apps (fget LIST s)) ≤ fuel)%nat →
  ∃ l', blen l' = blen (fget LIST s) ∧ apps l' = [] ∧
    release_loop LIST CAPI fuel s =
      (Done tt, fset LIST l' (fset CAPI (release_ids (apps (fget LIST s)) (fget CAPI s)) s)).
Proof.
  induction fuel as [|fuel IH]; intros s Hl Hf;
    pose proof (getfirst_app_spec LIST s Hl) as Hg;
    destruct (apps (fget LIST s)) as [|a rest] eqn:Ha; simpl in Hf; try lia.
  1,2: exists (fget LIST s); split_and!; [done..|]; simpl;
       rewrite (bind_done _ _ _ _ _ Hg), decide_True by done;
       rewrite !fset_fget; done.
  assert (Hin : a ∈ apps (fget LIST s)) by (rewrite Ha; left).
  apply elem_of_apps in Hin as [_ Hr].
  set (s1 := fset LIST (mark a x00 (fget LIST s)) s) in *.
  set (s2 := fset CAPI (capi20_release a (fget CAPI s)).2 s1).
  assert (HL : fget LIST s2 = mark a x00 (fget LIST s)).
  { unfold s2, s1. by rewrite (fget_other (F:=LIST) (G:=CAPI)), fget_fset. }
  assert (HC : fget CAPI s2 = (capi20_release a (fget CAPI s)).2).
  { unfold s2. by rewrite fget_fset. }
  assert (Hap : apps (fget LIST s2) = rest) by (rewrite HL; by apply apps_unmark_first).
  assert (Hbl : blen (fget LIST s2) = blen (fget LIST s)).
  { rewrite HL. unfold blen, mark. by rewrite length_insert. }
  destruct (IH s2) as (l' & Hl' & Hn & Hrun); [lia|rewrite Hap; lia|].
  exists l'. split_and!; [lia|done|].
  cbn [release_loop]. rewrite (bind_done _ _ _ _ _ Hg), decide_False by lia.
  assert (Hz : zoom CAPI (capi20_release a) s1 = (Done (capi20_release a (fget CAPI s)).1, s2)).
  { unfold zoom, s2, s1. rewrite (fget_other_r (F:=LIST) (G:=CAPI)).
    by destruct (capi20_release a (fget CAPI s)). }
  rewrite (bind_done _ _ _ _ _ Hz), Hrun, Hap, HC. f_equal.
  unfold s2, s1. rewrite fset_fset.
  by rewrite !(fset_comm (F:=LIST) (G:=CAPI) l'), fset_fset.
Qed.

Lemma release_all_spec s :
  CAPI_MAXAPPL < blen (fget LIST s) →
  ∃ l', blen l' = blen (fget LIST s) ∧ apps l' = [] ∧
    release_all LIST CAPI s =
      (Done tt, fset LIST l' (fset CAPI (release_ids (apps (fget LIST s)) (fget CAPI s)) s)).
Proof. intros. apply release_loop_spec; [done|]. apply length_apps. Qed.

End release_lemmas.

Section owned.
Context `{CapiHeader} {CS : Type} `{Capi20 CS} `{!Capi20Laws CS}.

Lemma owned_release_ids ids c :
  NoDup ids → (∀ id, id ∈ ids → id ∈ owned c) →
  owned (release_ids ids c) = owned c ∖ list_to_set ids.
Proof.
  intros Hnd. revert c. induction Hnd as [|id ids Hni _ IH]; intros c Hin.
  { simpl. set_solver. }
  change (release_ids (id :: ids) c) with (release_ids ids (capi20_release id c).2).
  destruct (capi20_release id c) as [rc c'] eqn:E. simpl.
  assert (rc = 0) as -> by (apply (release_owned _ _ _ _ E), Hin; left).
  apply release_ok in E as Hown. rewrite IH.
  - rewrite Hown. set_solver.
  - intros j Hj. rewrite Hown. apply elem_of_difference. split; [apply Hin; by right|].
    set_solver.
Qed.
End owned.
