(* ===== verification/Server.v ===== *)
(** * State of capifwd (globals of linux-server/src/capifwd.h and capifwd.c)

    A connection handler is a process: its memory is [process]; the socket,
    libcapi20, the system log and the children it forks are outside of it and
    shared with the children. *)
From S2P Require Import Prelude CMem Protocol Net Capi20 AppIndex.
#[local] Open Scope Z_scope.

Definition PACKET_SIZE := 10000.
Definition MY_MAJOR := 1.
Definition MY_MINOR := 2.
Definition STD_AUTH_REQUIRED := 1.
Definition STD_PORT := 6674.

(** [struct _client_info] *)
Record client_info_t := mkClientInfo {
  ci_os : Z;
  ci_version : version_t;
  ci_name : list byte;              (**r [char name[64]] *)
  ci_messageBufferLen : Z;
}.

Record process := mkProcess {
  p_sessionID : Z;
  p_local_version : version_t;
  p_client_info : client_info_t;
  p_in_packet_address : Z;          (**r where the next array lies in memory *)
  p_in_packet : list byte;          (**r [char in_packet[_PACKET_SIZE]] *)
  p_out_packet : list byte;         (**r [char out_packet[_PACKET_SIZE]] *)
  p_registered_apps : list byte;    (**r the bytes addressable from [registered_apps] on *)
  p_sock_open : bool;               (**r the process has not closed [sock] *)
}.

Inductive log_entry :=
  | Syslog (msg : string)
  | SyslogErrno (msg : string).     (**r a message with the text for [errno] *)

(** A child forked by exec_capi_waitforsignal, with its copy of the memory and
    its local [struct listener_data]. *)
Record child := mkChild {
  ch_memory : process;
  ch_app_id : Z;
  ch_message_id : Z;
}.

Record server (CS : Type) := mkServer {
  sv_process : process;
  sv_sock : net;
  sv_capi : CS;
  sv_sockname : option Z;           (**r [sin_addr.s_addr] of getsockname, or failure *)
  sv_forks : list bool;             (**r do the next [fork]s succeed; then they do *)
  sv_children : list child;
  sv_log : list log_entry;
}.
Arguments mkServer {CS}.
Arguments sv_process {CS}.
Arguments sv_sock {CS}.
Arguments sv_capi {CS}.
Arguments sv_sockname {CS}.
Arguments sv_forks {CS}.
Arguments sv_children {CS}.
Arguments sv_log {CS}.

(** ** The variables *)
Section fields.
Context {CS : Type}.

Definition set_process (p : process) (s : server CS) : server CS :=
  mkServer p (sv_sock s) (sv_capi s) (sv_sockname s) (sv_forks s) (sv_children s) (sv_log s).
Definition sock : field (server CS) net := mkField sv_sock (λ v s,
  mkServer (sv_process s) v (sv_capi s) (sv_sockname s) (sv_forks s) (sv_children s) (sv_log s)).
Definition capi : field (server CS) CS := mkField sv_capi (λ v s,
  mkServer (sv_process s) (sv_sock s) v (sv_sockname s) (sv_forks s) (sv_children s) (sv_log s)).
Definition forks : field (server CS) (list bool) := mkField sv_forks (λ v s,
  mkServer (sv_process s) (sv_sock s) (sv_capi s) (sv_sockname s) v (sv_children s) (sv_log s)).
Definition children : field (server CS) (list child) := mkField sv_children (λ v s,
  mkServer (sv_process s) (sv_sock s) (sv_capi s) (sv_sockname s) (sv_forks s) v (sv_log s)).
Definition log : field (server CS) (list log_entry) := mkField sv_log (λ v s,
  mkServer (sv_process s) (sv_sock s) (sv_capi s) (sv_sockname s) (sv_forks s) (sv_children s) v).

Definition sessionID : field (server CS) Z :=
  mkField (λ s, p_sessionID (sv_process s)) (λ v s, let p := sv_process s in
    set_process (mkProcess v (p_local_version p) (p_client_info p)
      (p_in_packet_address p) (p_in_packet p) (p_out_packet p) (p_registered_apps p) (p_sock_open p)) s).
Definition local_version : field (server CS) version_t :=
  mkField (λ s, p_local_version (sv_process s)) (λ v s, let p := sv_process s in
    set_process (mkProcess (p_sessionID p) v (p_client_info p)
      (p_in_packet_address p) (p_in_packet p) (p_out_packet p) (p_registered_apps p) (p_sock_open p)) s).
Definition client_info : field (server CS) client_info_t :=
  mkField (λ s, p_client_info (sv_process s)) (λ v s, let p := sv_process s in
    set_process (mkProcess (p_sessionID p) (p_local_version p) v
      (p_in_packet_address p) (p_in_packet p) (p_out_packet p) (p_registered_apps p) (p_sock_open p)) s).
Definition in_packet : field (server CS) (list byte) :=
  mkField (λ s, p_in_packet (sv_process s)) (λ v s, let p := sv_process s in
    set_process (mkProcess (p_sessionID p) (p_local_version p) (p_client_info p)
      (p_in_packet_address p) v (p_out_packet p) (p_registered_apps p) (p_sock_open p)) s).
Definition in_packet_address : field (server CS) Z :=
  mkField (λ s, p_in_packet_address (sv_process s)) (λ v s, let p := sv_process s in
    set_process (mkProcess (p_sessionID p) (p_local_version p) (p_client_info p)
      v (p_in_packet p) (p_out_packet p) (p_registered_apps p) (p_sock_open p)) s).
Definition out_packet : field (server CS) (list byte) :=
  mkField (λ s, p_out_packet (sv_process s)) (λ v s, let p := sv_process s in
    set_process (mkProcess (p_sessionID p) (p_local_version p) (p_client_info p)
      (p_in_packet_address p) (p_in_packet p) v (p_registered_apps p) (p_sock_open p)) s).
Definition registered_apps : field (server CS) (list byte) :=
  mkField (λ s, p_registered_apps (sv_process s)) (λ v s, let p := sv_process s in
    set_process (mkProcess (p_sessionID p) (p_local_version p) (p_client_info p)
      (p_in_packet_address p) (p_in_packet p) (p_out_packet p) v (p_sock_open p)) s).

Definition sock_open : field (server CS) bool :=
  mkField (λ s, p_sock_open (sv_process s)) (λ v s, let p := sv_process s in
    set_process (mkProcess (p_sessionID p) (p_local_version p) (p_client_info p)
      (p_in_packet_address p) (p_in_packet p) (p_out_packet p) (p_registered_apps p) v) s).

Definition set_ci_os (v : Z) (c : client_info_t) : client_info_t :=
  mkClientInfo v (ci_version c) (ci_name c) (ci_messageBufferLen c).
Definition set_ci_version (v : version_t) (c : client_info_t) : client_info_t :=
  mkClientInfo (ci_os c) v (ci_name c) (ci_messageBufferLen c).
Definition client_info_name : field (server CS) (list byte) :=
  mkField (λ s, ci_name (fget client_info s)) (λ v s, let c := fget client_info s in
    fset client_info (mkClientInfo (ci_os c) (ci_version c) v (ci_messageBufferLen c)) s).
Definition set_ci_messageBufferLen (v : Z) (c : client_info_t) : client_info_t :=
  mkClientInfo (ci_os c) (ci_version c) (ci_name c) v.

Definition syslog (e : log_entry) : M (server CS) unit := modify log (λ l, l ++ [e]).

#[export] Instance in_packet_lawful : LawfulField in_packet.
Proof. by constructor; [|intros [[]]|]. Qed.
#[export] Instance sock_lawful : LawfulField sock.
Proof. by constructor; [|intros []|]. Qed.
#[export] Instance registered_apps_lawful : LawfulField registered_apps.
Proof. by constructor; [|intros [[]]|]. Qed.
#[export] Instance capi_lawful : LawfulField capi.
Proof. by constructor; [|intros []|]. Qed.
#[export] Instance sock_in_packet_disjoint : DisjointFields sock in_packet.
Proof. done. Qed.
#[export] Instance registered_apps_capi_disjoint : DisjointFields registered_apps capi.
Proof. done. Qed.

(** ** The parts of the handlers that recur *)
(** [head->message_len = head->header_len + head->body_len + head->data_len;] *)
Definition set_message_len : M (server CS) unit :=
  header_len ← load32 out_packet AH.header_len;
  body_len ← load32 out_packet AH.body_len;
  data_len ← load32 out_packet AH.data_len;
  store32 out_packet AH.message_len (header_len + body_len + data_len).

(** [numbytes = send(sock, out_packet, head->message_len, 0);] *)
Definition send_out_packet : M (server CS) Z :=
  message_len ← load32 out_packet AH.message_len;
  bs ← load_bytes out_packet 0 message_len;
  zoom sock (send bs).

(** [request->f], and [head->f = v] for [head] at the start of out_packet. *)
Definition request (f : Z) : M (server CS) Z := load32 in_packet f.
Definition set_head (f v : Z) : M (server CS) unit := store32 out_packet f v.
End fields.
