(* ===== verification/Packet.v ===== *)
(** * Running handler code on a packet

    [packet ws rest s] is the state [s] whose out_packet starts with the header
    words [ws].  The lemmas execute the statements of a handler on that form:
    [hstep] is one statement, [reply] the answer a handler ends with. *)
From S2P Require Import Prelude CMem Protocol Net Capi20 AppIndex Server.
#[local] Open Scope Z_scope.

Section packet.
Context {CS : Type}.
Implicit Types s : server CS.

Definition packet (ws : list Z) (rest : list byte) s : server CS :=
  fset out_packet (words ws ++ rest) s.

(** The answer on the wire, and what is left in out_packet. *)
Definition reply (h : ANSWER_HEADER) (payload : list byte) s : outcome Z * server CS :=
  zoom sock (send (encode_answer h ++ payload))
    (fset out_packet
       (encode_answer h ++ payload ++ drop (40 + length payload) (fget out_packet s)) s).

(** The buffers have the sizes of their declarations.  [registered_apps] is one byte longer
    than the [char[CAPI_MAXAPPL]] of appindex.c: the largest application id, which the
    code stores there, lies just behind the array that is declared. *)
Record wf_server `{CapiHeader} s : Prop := mkWf {
  wf_in : blen (fget in_packet s) = PACKET_SIZE;
  wf_out : blen (fget out_packet s) = PACKET_SIZE;
  wf_session : 0 ≤ fget sessionID s < 2 ^ 32;
  wf_apps : CAPI_MAXAPPL < blen (fget registered_apps s);
  wf_name : blen (fget client_info_name s) = 64;
}.

(** A header word of out_packet, as an earlier answer left it. *)
Definition out_head s (f : Z) : Z := default 0 (get_u32 (fget out_packet s) f).
Definition out_words s : list Z :=
  [out_head s AH.message_len; out_head s AH.header_len; out_head s AH.body_len;
   out_head s AH.data_len; out_head s AH.message_id; out_head s AH.message_type;
   out_head s AH.app_id; out_head s AH.session_id; out_head s AH.proxy_error;
   out_head s AH.capi_error].

Lemma packet_intro s :
  40 ≤ blen (fget out_packet s) →
  s = packet (out_words s) (drop 40 (fget out_packet s)) s.
Proof.
  intros Hl. destruct (decode_answer_total _ Hl) as (h & Hd & Hwf & Hb).
  assert (Hw : out_words s = answer_words h).
  { unfold out_words, out_head. rewrite Hb. unfold encode_answer, AH.message_len, AH.header_len,
      AH.body_len, AH.data_len, AH.message_id, AH.message_type, AH.app_id, AH.session_id,
      AH.proxy_error, AH.capi_error. repeat get_word. simpl.
    by rewrite <- (u32_wf_words _ Hwf) at 1. }
  rewrite Hw. unfold packet. fold (encode_answer h). rewrite <- Hb.
  by destruct s as [[] ? ? ? ? ? ?].
Qed.

Lemma packet_packet ws rest ws' rest' s :
  packet ws rest (packet ws' rest' s) = packet ws rest s.
Proof. done. Qed.

Lemma packet_set_head i f v ws rest s :
  f = 4 * Z.of_nat i → (i < length ws)%nat →
  set_head f v (packet ws rest s) = (Done tt, packet (<[i:=v]> ws) rest s).
Proof.
  intros Hf Hi. unfold set_head, store, store_bytes, gets, mbind, M_bind. simpl.
  by rewrite (splice_words ws rest i) by done.
Qed.

Lemma packet_load_head i f w ws rest s :
  f = 4 * Z.of_nat i → ws !! i = Some w →
  load32 out_packet f (packet ws rest s) = (Done (u32 w), packet ws rest s).
Proof.
  intros Hf Hi. unfold load, gets, mbind, M_bind. simpl.
  by rewrite (get_u32_words ws rest i w) by done.
Qed.

Lemma packet_store_payload off old post bs ws rest s :
  rest = old ++ post → length bs = length old → off = blen (words ws) →
  store_bytes out_packet off bs (packet ws rest s) = (Done tt, packet ws (bs ++ post) s).
Proof.
  intros. unfold store_bytes, gets, mbind, M_bind. simpl.
  by erewrite splice_after_words by done.
Qed.

Lemma packet_load_in w f v ws rest s :
  get_le w (fget in_packet s) f = Some v →
  load in_packet w f (packet ws rest s) = (Done v, packet ws rest s).
Proof. intros Hv. unfold load, gets, mbind, M_bind. simpl in *. by rewrite Hv. Qed.

Lemma packet_load_in_fault w f ws rest s :
  get_le w (fget in_packet s) f = None →
  load in_packet w f (packet ws rest s) = (Faulted OutOfBounds, packet ws rest s).
Proof. intros Hv. unfold load, gets, mbind, M_bind. simpl in *. by rewrite Hv. Qed.

Lemma packet_add_app `{CapiHeader} id ws rest s :
  0 ≤ id < blen (fget registered_apps s) →
  add_app registered_apps id (packet ws rest s) =
    (Done tt, packet ws rest
       (fset registered_apps (mark id Init.Byte.x01 (fget registered_apps s)) s)).
Proof. intros Hid. by rewrite add_app_spec. Qed.

Lemma packet_del_app `{CapiHeader} id ws rest s :
  0 ≤ id < blen (fget registered_apps s) →
  del_app registered_apps id (packet ws rest s) =
    (Done tt, packet ws rest
       (fset registered_apps (mark id x00 (fget registered_apps s)) s)).
Proof. intros Hid. by rewrite del_app_spec. Qed.

Lemma packet_modify_client_info g ws rest s :
  modify client_info g (packet ws rest s) =
    (Done tt, packet ws rest (fset client_info (g (fget client_info s)) s)).
Proof. done. Qed.

Lemma packet_store_word i f v ws rest s :
  f = 4 * Z.of_nat i → (i < length ws)%nat →
  store32 out_packet f v (packet ws rest s) = (Done tt, packet (<[i:=v]> ws) rest s).
Proof. apply packet_set_head. Qed.

Lemma packet_app ws1 ws2 rest s :
  packet (ws1 ++ ws2) rest s = packet ws1 (words ws2 ++ rest) s.
Proof. unfold packet. by rewrite words_app, <- (assoc_L (++)). Qed.

Lemma packet_session ws rest s :
  gets sessionID (packet ws rest s) = (Done (fget sessionID s), packet ws rest s).
Proof. done. Qed.

Lemma packet_zoom_capi {A} (g : CS → A * CS) a c ws rest s :
  g (fget capi s) = (a, c) →
  zoom capi g (packet ws rest s) = (Done a, packet ws rest (fset capi c s)).
Proof. intros Hg. unfold zoom. simpl in *. by rewrite Hg. Qed.

Lemma packet_message_len m h b d ws rest s :
  set_message_len (packet (m :: h :: b :: d :: ws) rest s) =
    (Done tt, packet (u32 h + u32 b + u32 d :: h :: b :: d :: ws) rest s).
Proof.
  unfold set_message_len.
  erewrite bind_done; [|by apply (packet_load_head 1)].
  erewrite bind_done; [|by apply (packet_load_head 2)].
  erewrite bind_done; [|by apply (packet_load_head 3)].
  apply (packet_set_head 0); simpl; [done|lia].
Qed.

(** The final [send] takes the header and [message_len - 40] payload bytes. *)
Lemma packet_send h payload post s :
  0 ≤ ah_message_len h < 2 ^ 32 → ah_message_len h = 40 + blen payload →
  send_out_packet (packet (answer_words h) (payload ++ post) s) =
    zoom sock (send (encode_answer h ++ payload)) (packet (answer_words h) (payload ++ post) s).
Proof.
  intros Hr Hm. unfold send_out_packet.
  erewrite bind_done; [|by apply (packet_load_head 0)]. rewrite u32_small by done.
  unfold load_bytes, gets, mbind, M_bind. simpl fget.
  rewrite (slice_at _ [] (encode_answer h ++ payload) post).
  - done.
  - unfold encode_answer. by rewrite app_nil_l, <- (assoc_L (++)).
  - done.
  - rewrite blen_app, blen_encode_answer. done.
Qed.

(** The final statement of a handler. *)
Lemma packet_reply ws rest h payload s :
  ws = answer_words h → rest = payload ++ drop (40 + length payload) (fget out_packet s) →
  ah_message_len h = 40 + blen payload → 40 + blen payload < 2 ^ 32 →
  send_out_packet (packet ws rest s) = reply h payload s.
Proof.
  intros -> -> Hm Hr. rewrite packet_send; [done| |done]. unfold blen in *. lia.
Qed.

(** The library writes [bs] to the body: what follows is left from before. *)
Definition payload_area s : list byte := drop 40 (fget out_packet s).
Definition body (n : nat) (bs : list byte) s : list byte :=
  take n (bs ++ drop (length bs) (payload_area s)).

Lemma packet_store_body bs ws rest s :
  length ws = 10%nat → (length bs ≤ length rest)%nat →
  store_bytes out_packet sizeof_ANSWER_HEADER bs (packet ws rest s) =
    (Done tt, packet ws (bs ++ drop (length bs) rest) s).
Proof.
  intros Hws Hbs. apply (packet_store_payload _ (take (length bs) rest)).
  - by rewrite take_drop.
  - rewrite length_take. lia.
  - by rewrite blen_words, Hws.
Qed.

Lemma length_payload_area `{CapiHeader} s :
  wf_server s → length (payload_area s) = Z.to_nat 9960.
Proof.
  intros Hwf. pose proof (wf_out s Hwf) as Ho. unfold payload_area, blen, PACKET_SIZE in *.
  rewrite length_drop. lia.
Qed.

Lemma length_body `{CapiHeader} n bs s :
  wf_server s → (n ≤ Z.to_nat 9960)%nat → length (body n bs s) = n.
Proof.
  intros Hwf Hn. unfold body. rewrite length_take, length_app, length_drop.
  rewrite length_payload_area by done. lia.
Qed.

Lemma body_split `{CapiHeader} n bs s :
  wf_server s → (length bs ≤ n ≤ Z.to_nat 9960)%nat →
  bs ++ drop (length bs) (payload_area s) =
    body n bs s ++ drop (40 + length (body n bs s)) (fget out_packet s).
Proof.
  intros Hwf Hn. rewrite length_body by (done || lia).
  unfold body. rewrite <- (take_drop n (bs ++ _)) at 1. f_equal.
  rewrite drop_app_ge by lia. unfold payload_area. rewrite !drop_drop. f_equal. lia.
Qed.

Lemma packet_reply_body `{CapiHeader} ws n bs h s :
  wf_server s → ws = answer_words h → (length bs ≤ n ≤ Z.to_nat 9960)%nat →
  ah_message_len h = 40 + Z.of_nat n →
  send_out_packet (packet ws (bs ++ drop (length bs) (payload_area s)) s) =
    reply h (body n bs s) s.
Proof.
  intros Hwf Hws Hn Hm. pose proof (length_body n bs s Hwf ltac:(lia)) as Hl.
  apply packet_reply; [done|by apply body_split|..]; unfold blen; rewrite Hl; lia.
Qed.
(** Loads and stores in the payload of out_packet. *)
Lemma packet_load_payload w k v ws rest s :
  length ws = 10%nat → 0 ≤ k → get_le w rest k = Some v →
  load out_packet w (40 + k) (packet ws rest s) = (Done v, packet ws rest s).
Proof.
  intros Hws Hk Hv. unfold load, gets, mbind, M_bind. simpl fget.
  assert (blen (words ws) = 40) as <- by (rewrite blen_words, Hws; done).
  by rewrite get_le_app_r, Hv.
Qed.

Lemma packet_store_payload_at k bs rest' ws rest s :
  length ws = 10%nat → 0 ≤ k → splice rest k bs = Some rest' →
  store_bytes out_packet (40 + k) bs (packet ws rest s) = (Done tt, packet ws rest' s).
Proof.
  intros Hws Hk Hr. unfold store_bytes, gets, mbind, M_bind. simpl fget.
  assert (blen (words ws) = 40) as <- by (rewrite blen_words, Hws; done).
  by rewrite splice_app_r, Hr.
Qed.

Lemma packet_store_payload_fault k bs ws rest s :
  length ws = 10%nat → 0 ≤ k → splice rest k bs = None →
  store_bytes out_packet (40 + k) bs (packet ws rest s) = (Faulted OutOfBounds, packet ws rest s).
Proof.
  intros Hws Hk Hr. unfold store_bytes, gets, mbind, M_bind. simpl fget.
  assert (blen (words ws) = 40) as <- by (rewrite blen_words, Hws; done).
  by rewrite splice_app_r, Hr.
Qed.

Lemma packet_syslog e ws rest s :
  syslog e (packet ws rest s) = (Done tt, packet ws rest (fset log (fget log s ++ [e]) s)).
Proof. done. Qed.

Lemma packet_store_in w f v b ws rest s :
  splice (fget in_packet s) f (le_split w v) = Some b →
  store in_packet w f v (packet ws rest s) = (Done tt, packet ws rest (fset in_packet b s)).
Proof. intros Hb. unfold store, store_bytes, gets, mbind, M_bind. simpl in *. by rewrite Hb. Qed.

(** A reply always returns; what it changes. *)
Lemma reply_returns h payload s : ∃ n, reply h payload s = (Done n, (reply h payload s).2).
Proof. unfold reply, zoom. destruct (send _ _) as [n w]. by exists n. Qed.
End packet.

#[global] Opaque packet.
#[global] Typeclasses Opaque packet.

(** One statement of a handler: the next computation of the goal
    [(m ≫= k) (packet ...) = _] is executed. *)
Ltac head_index f := let i := eval vm_compute in (Z.to_nat (f / 4)) in i.
Ltac hside := fail.
Ltac hstep :=
  lazymatch goal with
  | |- (set_head ?f ?v ≫= _) (packet ?ws ?rest ?s) = _ =>
      let i := head_index f in
      let ws' := eval cbn in (<[i:=v]> ws) in
      rewrite (bind_done _ _ _ _ _
        (packet_set_head i f v ws rest s eq_refl ltac:(simpl; lia)
         : _ = (_, packet ws' rest s)))
  | |- (load out_packet _ (_ + ?k) ≫= _) _ = _ =>
      erewrite bind_done; [|apply (packet_load_payload _ k); [done|done|eassumption]]
  | |- (load (out_packet) 4 ?f ≫= _) (packet ?ws ?rest ?s) = _ =>
      let i := head_index f in
      rewrite (bind_done _ _ _ _ _ (packet_load_head i f _ ws rest s eq_refl eq_refl))
  | |- (store out_packet 4 ?f ?v ≫= _) (packet ?ws ?rest ?s) = _ =>
      let i := head_index f in
      let ws' := eval cbn in (<[i:=v]> ws) in
      rewrite (bind_done _ _ _ _ _
        (packet_store_word i f v ws rest s eq_refl ltac:(simpl; lia)
         : _ = (_, packet ws' rest s)))
  | |- (set_message_len ≫= _) _ = _ =>
      rewrite (bind_done _ _ _ _ _ (packet_message_len _ _ _ _ _ _ _))
  | |- (gets sessionID ≫= _) _ = _ => rewrite (bind_done _ _ _ _ _ (packet_session _ _ _))
  | |- (request _ ≫= _) _ = _ =>
      erewrite bind_done; [|apply packet_load_in; eassumption]
  | |- (load in_packet _ _ ≫= _) _ = _ =>
      erewrite bind_done; [|apply packet_load_in; eassumption]
  | |- (modify client_info _ ≫= _) _ = _ =>
      rewrite (bind_done _ _ _ _ _ (packet_modify_client_info _ _ _ _))
  | |- (store_bytes out_packet sizeof_ANSWER_HEADER _ ≫= _) _ = _ =>
      erewrite bind_done; [|apply packet_store_body; [done|try solve [hside]]]
  | |- (try _ _ ≫= _) _ = _ => erewrite bind_done; [|apply try_done; eassumption]
  | |- (zoom capi _ ≫= _) _ = _ =>
      erewrite bind_done; [|apply packet_zoom_capi; first [eassumption|reflexivity]]
  | |- (add_app registered_apps _ ≫= _) _ = _ =>
      erewrite bind_done; [|apply packet_add_app; eassumption]
  | |- (del_app registered_apps _ ≫= _) _ = _ =>
      erewrite bind_done; [|apply packet_del_app; eassumption]
  | |- (syslog _ ≫= _) _ = _ => rewrite (bind_done _ _ _ _ _ (packet_syslog _ _ _ _))
  | |- (store in_packet _ _ _ ≫= _) _ = _ =>
      erewrite bind_done; [|apply packet_store_in; eassumption]
  | |- (gets ?F ≫= _) (packet ?ws ?rest ?s) = _ =>
      rewrite (bind_done _ _ _ _ _ (eq_refl : gets F (packet ws rest s) = (Done (fget F s), _)))
  | |- (when true ?m ≫= ?k) ?st = ?r => change ((m ≫= k) st = r)
  | |- (when false _ ≫= ?k) ?st = ?r => change (k tt st = r)
  | |- (mret ?a ≫= ?k) ?st = ?r => change (k a st = r)
  | |- ((_ ≫= _) ≫= _) _ = _ => rewrite bind_assoc
  end; cbv beta.

(** Put the state of a handler into [packet] form; name the request's fields. *)
Ltac hstart Hwf Hr :=
  let Hs := fresh "Hs" in
  match type of Hr with decode_request (fget _ ?s) = Some _ =>
    assert (40 ≤ blen (fget out_packet s)) as Hs by (rewrite (wf_out _ Hwf); done);
    apply packet_intro in Hs; rewrite Hs at 1; clear Hs; unfold out_words; fold (payload_area s);
    destruct (decode_request_fields _ _ Hr) as (?&?&?&?&?&?&?&?&?)
  end.
