(* ===== verification/Exec.v ===== *)
(** * Packet handlers for the CAPI calls (linux-server/src/capi) *)
From S2P Require Import Prelude CMem Protocol Net Capi20 AppIndex Server.
#[local] Open Scope Z_scope.

Section exec.
Context `{CapiHeader} {CS : Type} `{Capi20 CS}.
Abbreviation M := (M (server CS)).

(** ** capi/isinstalled.c *)
Definition exec_capi_isinstalled : M Z :=
  return_type ← zoom capi (λ c, (capi20_isinstalled c, c));
  set_head AH.header_len sizeof_ANSWER_HEADER;;
  set_head AH.body_len 0;;
  set_head AH.data_len 0;;
  set_message_len;;
  message_id ← request RH.message_id;
  set_head AH.message_id message_id;;
  set_head AH.message_type TYPE_CAPI_INSTALLED;;
  app_id ← request RH.app_id;
  set_head AH.app_id app_id;;
  session ← gets sessionID;
  set_head AH.session_id session;;
  set_head AH.capi_error return_type;;
  set_head AH.proxy_error 0;;
  send_out_packet.

(** ** capi/manufacturer.c *)
Definition exec_capi_manufacturer : M Z :=
  controller ← request RH.controller_id;
  manufacturer ← zoom capi (λ c, (capi20_get_manufacturer controller c, c));
  store_bytes out_packet sizeof_ANSWER_HEADER manufacturer;;
  set_head AH.header_len sizeof_ANSWER_HEADER;;
  set_head AH.body_len sizeof_ANSWER_CAPI_MANUFACTURER;;
  set_head AH.data_len 0;;
  set_message_len;;
  message_id ← request RH.message_id;
  set_head AH.message_id message_id;;
  set_head AH.message_type TYPE_CAPI_MANUFACTURER;;
  app_id ← request RH.app_id;
  set_head AH.app_id app_id;;
  session ← gets sessionID;
  set_head AH.session_id session;;
  set_head AH.proxy_error 0;;
  set_head AH.capi_error 0x0000;;
  send_out_packet.

(** ** capi/profile.c *)
Definition exec_capi_profile : M Z :=
  controller ← request RH.controller_id;
  '(rc, profile) ← zoom capi (λ c, (capi20_get_profile controller c, c));
  store_bytes out_packet sizeof_ANSWER_HEADER profile;;
  set_head AH.capi_error rc;;
  set_head AH.header_len sizeof_ANSWER_HEADER;;
  set_head AH.body_len sizeof_ANSWER_CAPI_PROFILE;;
  set_head AH.data_len 0;;
  set_message_len;;
  message_id ← request RH.message_id;
  set_head AH.message_id message_id;;
  set_head AH.message_type TYPE_CAPI_PROFILE;;
  app_id ← request RH.app_id;
  set_head AH.app_id app_id;;
  session ← gets sessionID;
  set_head AH.session_id session;;
  set_head AH.proxy_error 0;;
  send_out_packet.

(** ** capi/serial.c *)
Definition exec_capi_serial : M Z :=
  controller ← request RH.controller_id;
  serial ← zoom capi (λ c, (capi20_get_serial_number controller c, c));
  store_bytes out_packet sizeof_ANSWER_HEADER serial;;
  set_head AH.header_len sizeof_ANSWER_HEADER;;
  set_head AH.body_len sizeof_ANSWER_CAPI_SERIAL;;
  set_head AH.data_len 0;;
  set_message_len;;
  message_id ← request RH.message_id;
  set_head AH.message_id message_id;;
  set_head AH.message_type TYPE_CAPI_SERIAL;;
  app_id ← request RH.app_id;
  set_head AH.app_id app_id;;
  session ← gets sessionID;
  set_head AH.session_id session;;
  set_head AH.proxy_error 0;;
  set_head AH.capi_error 0x0000;;
  send_out_packet.

(** ** capi/version.c

    [unsigned long buffer[4]] is not initialised: reading a word the library
    has not written is undefined. *)
Definition exec_capi_version : M Z :=
  controller ← request RH.controller_id;
  buffer ← zoom capi (λ c, (capi20_get_version controller c, c));
  set_head AH.header_len sizeof_ANSWER_HEADER;;
  set_head AH.body_len sizeof_ANSWER_CAPI_VERSION;;
  set_head AH.data_len 0;;
  set_message_len;;
  message_id ← request RH.message_id;
  set_head AH.message_id message_id;;
  set_head AH.message_type TYPE_CAPI_VERSION;;
  app_id ← request RH.app_id;
  set_head AH.app_id app_id;;
  session ← gets sessionID;
  set_head AH.session_id session;;
  set_head AH.proxy_error 0;;
  set_head AH.capi_error 0x0000;;
  b0 ← try Uninitialised (get_u32 buffer 0);
  store32 out_packet (sizeof_ANSWER_HEADER + VERSION.driver_major) b0;;
  b1 ← try Uninitialised (get_u32 buffer 4);
  store32 out_packet (sizeof_ANSWER_HEADER + VERSION.driver_minor) b1;;
  b2 ← try Uninitialised (get_u32 buffer 8);
  store32 out_packet (sizeof_ANSWER_HEADER + VERSION.manufacturer_major) b2;;
  b3 ← try Uninitialised (get_u32 buffer 12);
  store32 out_packet (sizeof_ANSWER_HEADER + VERSION.manufacturer_minor) b3;;
  send_out_packet.

(** ** capi/register.c

    The id is stored by the library through [&(head->app_id)]. *)
Definition exec_capi_register : M Z :=
  values ← request RH.header_len;
  maxLogicalConnection ← load32 in_packet (values + REGISTER.maxLogicalConnection);
  maxBDataBlocks ← load32 in_packet (values + REGISTER.maxBDataBlocks);
  maxBDataLen ← load32 in_packet (values + REGISTER.maxBDataLen);
  '(return_type, stored) ←
    zoom capi (capi20_register maxLogicalConnection maxBDataBlocks maxBDataLen);
  (match stored with Some id => set_head AH.app_id id | None => mret tt end);;
  when (return_type =? 0x0000)
    (app_id ← load32 out_packet AH.app_id; add_app registered_apps app_id);;
  messageBufferSize ← load32 in_packet (values + REGISTER.messageBufferSize);
  modify client_info (set_ci_messageBufferLen (s32 messageBufferSize));;
  set_head AH.header_len sizeof_ANSWER_HEADER;;
  set_head AH.body_len sizeof_empty_struct;;
  set_head AH.data_len 0;;
  set_message_len;;
  message_id ← request RH.message_id;
  set_head AH.message_id message_id;;
  set_head AH.message_type TYPE_CAPI_REGISTER;;
  session ← gets sessionID;
  set_head AH.session_id session;;
  set_head AH.capi_error return_type;;
  set_head AH.proxy_error 0;;
  send_out_packet.

(** ** capi/release.c *)
Definition exec_capi_release : M Z :=
  app_id ← request RH.app_id;
  return_type ← zoom capi (capi20_release app_id);
  when (return_type =? 0x0000)
    (app_id ← request RH.app_id; del_app registered_apps app_id);;
  set_head AH.header_len sizeof_ANSWER_HEADER;;
  set_head AH.body_len 0;;
  set_head AH.data_len 0;;
  set_message_len;;
  message_id ← request RH.message_id;
  set_head AH.message_id message_id;;
  set_head AH.message_type TYPE_CAPI_RELEASE;;
  app_id ← request RH.app_id;
  set_head AH.app_id app_id;;
  session ← gets sessionID;
  set_head AH.session_id session;;
  set_head AH.capi_error return_type;;
  set_head AH.proxy_error 0;;
  send_out_packet.

(** ** capi/getmessage.c *)
(** [memcpy] out of the library's memory. *)
Definition read_capi (address n : Z) : M (list byte) :=
  c ← gets capi; try OutOfBounds (capi20_memory c address n).

(** [data]: the payload of out_packet. *)
Definition GETMESSAGE_data := sizeof_ANSWER_HEADER + sizeof_empty_struct.

(** The part of exec_capi_getmessage under [if (head->capi_error == 0x0000)]. *)
Definition getmessage_copy (message : Z) : M unit :=
  l ← read_capi message 2;
  let len1 := le_combine l in
  m ← read_capi message len1;
  store_bytes out_packet GETMESSAGE_data m;;
  set_head AH.data_len len1;;
  cmd1 ← load8 out_packet (GETMESSAGE_data + 4);
  cmd2 ← load8 out_packet (GETMESSAGE_data + 5);
  when ((cmd1 =? 0x86) && (cmd2 =? 0x82)) (
    if len1 <? 18 then set_head AH.proxy_error PERROR_PARSE_ERROR
    else
      len2 ← load16 out_packet (GETMESSAGE_data + 16);
      pointer ← load32 out_packet (GETMESSAGE_data + 12);
      d ← read_capi pointer len2;
      store_bytes out_packet (GETMESSAGE_data + len1) d;;
      data_len ← load32 out_packet AH.data_len;
      set_head AH.data_len (data_len + len2)).

Definition exec_capi_getmessage : M Z :=
  app_id ← request RH.app_id;
  '(rc, message) ← zoom capi (capi20_get_message app_id);
  set_head AH.capi_error rc;;
  set_head AH.header_len sizeof_ANSWER_HEADER;;
  set_head AH.body_len sizeof_empty_struct;;
  message_id ← request RH.message_id;
  set_head AH.message_id message_id;;
  set_head AH.data_len 0;;
  set_head AH.message_type TYPE_CAPI_GETMESSAGE;;
  app_id ← request RH.app_id;
  set_head AH.app_id app_id;;
  session ← gets sessionID;
  set_head AH.session_id session;;
  set_head AH.proxy_error 0;;
  capi_error ← load32 out_packet AH.capi_error;
  when (capi_error =? 0x0000) (getmessage_copy message);;
  set_message_len;;
  send_out_packet.

(** ** capi/putmessage.c *)
(** [head->capi_error = capi20_put_message(request->app_id, msg);] *)
Definition put_message (msg : Z) : M unit :=
  app_id ← request RH.app_id;
  address ← gets in_packet_address;
  mem ← gets in_packet;
  rc ← zoom capi (capi20_put_message app_id address mem msg);
  set_head AH.capi_error rc.

Definition parse_error (msg : string) : M unit :=
  set_head AH.proxy_error PERROR_PARSE_ERROR;; syslog (Syslog msg).

(** The validation of the CAPI message, and the call. *)
Definition putmessage_checked (msg : Z) : M unit :=
  data_len ← request RH.data_len;
  if data_len <? 8 then parse_error "Error parsing CAPI message (1)" else
  len1 ← load16 in_packet msg;
  if data_len <? len1 then parse_error "Error parsing CAPI message (2)" else
  cmd1 ← load8 in_packet (msg + 4);
  cmd2 ← load8 in_packet (msg + 5);
  if (cmd1 =? 0x86) && (cmd2 =? 0x80) then
    if len1 <? 18 then parse_error "Error parsing CAPI message (3)" else
    len2 ← load16 in_packet (msg + 16);
    if data_len <? len1 + len2 then parse_error "Error parsing CAPI message (4)" else
    address ← gets in_packet_address;
    store32 in_packet (msg + 12) (address + msg + len1);;
    put_message msg
  else put_message msg.

Definition exec_capi_putmessage : M Z :=
  header_len ← request RH.header_len;
  body_len ← request RH.body_len;
  let msg := header_len + body_len in
  set_head AH.header_len sizeof_ANSWER_HEADER;;
  set_head AH.body_len sizeof_empty_struct;;
  set_head AH.data_len 0;;
  set_message_len;;
  message_id ← request RH.message_id;
  set_head AH.message_id message_id;;
  set_head AH.message_type TYPE_CAPI_PUTMESSAGE;;
  app_id ← request RH.app_id;
  set_head AH.app_id app_id;;
  session ← gets sessionID;
  set_head AH.session_id session;;
  set_head AH.proxy_error 0;;
  putmessage_checked msg;;
  send_out_packet.

(** ** capi/waitforsignal.c

    [fork] returns in the child, in the parent, or fails. *)
Inductive fork_result := ForkChild | ForkFailed | ForkParent.

(** The code after [pid = fork()]; [data] is the local [struct listener_data]. *)
Definition waitforsignal_after (pid : fork_result) (data_app_id data_message_id : Z) : M Z :=
  let compose :=
    set_head AH.header_len sizeof_ANSWER_HEADER;;
    set_head AH.body_len sizeof_empty_struct;;
    set_head AH.data_len 0;;
    set_message_len;;
    set_head AH.message_id data_message_id;;
    set_head AH.message_type TYPE_CAPI_WAITFORSIGNAL;;
    set_head AH.app_id data_app_id;;
    session ← gets sessionID;
    set_head AH.session_id session;;
    numbytes ← send_out_packet;
    match pid with ForkChild => exit 0 | _ => mret numbytes end in
  match pid with
  | ForkChild =>
      rc ← zoom capi (capi20_waitformessage data_app_id);
      set_head AH.capi_error rc;;
      set_head AH.proxy_error PERROR_NONE;;
      compose
  | ForkFailed =>
      syslog (SyslogErrno "forking failed: ");;
      set_head AH.capi_error 0x1108;;
      set_head AH.proxy_error PERROR_NO_RESSOURCES;;
      compose
  | ForkParent => mret 1
  end.

(** Fork as the parent sees it; the child starts with a copy of the memory. *)
Definition fork (data_app_id data_message_id : Z) : M fork_result := λ s,
  match sv_forks s with
  | false :: script => (Done ForkFailed, fset forks script s)
  | script =>
      (Done ForkParent,
       fset children (sv_children s ++ [mkChild (sv_process s) data_app_id data_message_id])
         (fset forks (tail script) s))
  end.

Definition exec_capi_waitforsignal : M Z :=
  data_app_id ← request RH.app_id;
  data_message_id ← request RH.message_id;
  pid ← fork data_app_id data_message_id;
  waitforsignal_after pid data_app_id data_message_id.

(** A run of a child: its own memory, the shared socket and library. *)
Definition run_child (ch : child) (s : server CS) : server CS :=
  let s' := (waitforsignal_after ForkChild (ch_app_id ch) (ch_message_id ch)
               (set_process (ch_memory ch) s)).2 in
  set_process (sv_process s) s'.
End exec.
