(* ===== verification/Proxy.v ===== *)
(** * Packet handlers of the proxy protocol (linux-server/src/capi/proxy.c),
    authentication (linux-server/src/auth/auth.c) and the exit paths that send
    (linux-server/src/unix.c) *)
From S2P Require Import Prelude CMem Protocol Net Capi20 AppIndex Server.
#[local] Open Scope Z_scope.

Section proxy.
Context {CS : Type}.
Abbreviation M := (M (server CS)).

(** ** exec_proxy_helo *)
Definition helo_server_name : list byte := bytes_of_string "CAPI 2.0 Proxy Linux SERVER alpha".

Definition exec_proxy_helo : M Z :=
  helo_msg ← request RH.header_len;
  os ← load32 in_packet (helo_msg + HELO.os);
  modify client_info (set_ci_os (s32 os));;
  major ← load32 in_packet (helo_msg + HELO.version_major);
  minor ← load32 in_packet (helo_msg + HELO.version_minor);
  modify client_info (set_ci_version (mkVersion major minor));;
  name ← load_cstr in_packet (helo_msg + HELO.name);
  store_cstr client_info_name 0 name;;
  set_head AH.message_len (sizeof_ANSWER_HEADER + sizeof_ANSWER_PROXY_HELO);;
  set_head AH.header_len sizeof_ANSWER_HEADER;;
  set_head AH.body_len sizeof_ANSWER_PROXY_HELO;;
  set_head AH.data_len 0;;
  message_id ← request RH.message_id;
  set_head AH.message_id message_id;;
  set_head AH.message_type TYPE_PROXY_HELO;;
  set_head AH.app_id 0;;
  session ← gets sessionID;
  set_head AH.session_id session;;
  set_head AH.proxy_error
    (if decide (STD_AUTH_REQUIRED ≠ 0) then PERROR_AUTH_REQUIRED else PERROR_NONE);;
  set_head AH.capi_error 0;;
  store_cstr out_packet (sizeof_ANSWER_HEADER + HELO.name) helo_server_name;;
  store32 out_packet (sizeof_ANSWER_HEADER + HELO.os) OS_TYPE_LINUX;;
  version ← gets local_version;
  store32 out_packet (sizeof_ANSWER_HEADER + HELO.version_major) (Protocol.major version);;
  store32 out_packet (sizeof_ANSWER_HEADER + HELO.version_minor) (Protocol.minor version);;
  store32 out_packet (sizeof_ANSWER_HEADER + HELO.auth_type) AUTH_NO_AUTH;;
  send_out_packet.

(** ** up_auth, ip_auth *)
(** [struct AUTH_USERPASS_DATA]: two length words, then the two strings. *)
Definition sizeof_AUTH_USERPASS_DATA := 8.

Definition up_auth (indata : list byte) : M Z :=
  uname_len ← try OutOfBounds (get_u32 indata 0);
  passwd_len ← try OutOfBounds (get_u32 indata 4);
  uname ← try OutOfBounds (slice indata sizeof_AUTH_USERPASS_DATA uname_len);
  passwd ← try OutOfBounds (slice indata (sizeof_AUTH_USERPASS_DATA + uname_len) passwd_len);
  mret (-1).

Definition ntohl (z : Z) : Z := le_combine (rev (le_split 4 z)).

Definition ip_auth : M Z := λ s,
  match sv_sockname s with
  | None => (syslog (SyslogErrno "");; mret (-1)) s
  | Some s_addr =>
      if (Z.land (ntohl s_addr) 0xFFFF0000 =? 0xC0A80000)
         || (Z.land (ntohl s_addr) 0xFF000000 =? 0x0A000000)
      then (Done 0, s) else (Done (-1), s)
  end.

(** ** exec_proxy_auth *)
Definition exec_proxy_auth : M Z :=
  header_len ← request RH.header_len;
  auth_type ← load32 in_packet header_len;
  (if negb (Z.land auth_type AUTH_USERPASS =? 0) then
     body_len ← request RH.body_len;
     data_len ← request RH.data_len;
     authdata ← load_bytes in_packet (header_len + body_len) data_len;
     r ← up_auth authdata;
     set_head AH.proxy_error
       (if negb (r =? -1) then PERROR_NONE else PERROR_ACCESS_DENIED)
   else if negb (Z.land auth_type AUTH_BY_IP =? 0) then
     r ← ip_auth;
     set_head AH.proxy_error
       (if negb (r =? -1) then PERROR_NONE else PERROR_ACCESS_DENIED)
   else set_head AH.proxy_error PERROR_AUTH_TYPE_NOT_SUPPORTED);;
  set_head AH.header_len sizeof_ANSWER_HEADER;;
  set_head AH.body_len sizeof_empty_struct;;
  set_head AH.data_len 0;;
  set_message_len;;
  message_id ← request RH.message_id;
  set_head AH.message_id message_id;;
  set_head AH.message_type TYPE_PROXY_AUTH;;
  set_head AH.app_id 0;;
  proxy_error ← load32 out_packet AH.proxy_error;
  session ← gets sessionID;
  set_head AH.session_id
    (if negb (STD_AUTH_REQUIRED =? 0) && negb (proxy_error =? PERROR_NONE)
     then 0 else session);;
  set_head AH.capi_error 0x0000;;
  store32 in_packet RH.data_len 0;;
  send_out_packet.

(** ** exec_proxy_shutdown *)
Definition exec_proxy_shutdown (excuse : list byte) : M Z :=
  set_head AH.message_len (sizeof_ANSWER_HEADER + sizeof_ANSWER_PROXY_SHUTDOWN);;
  set_head AH.header_len sizeof_ANSWER_HEADER;;
  set_head AH.body_len sizeof_ANSWER_PROXY_SHUTDOWN;;
  set_head AH.data_len 0;;
  set_head AH.message_id 0;;
  set_head AH.message_type TYPE_PROXY_SHUTDOWN;;
  set_head AH.app_id 0;;
  session ← gets sessionID;
  set_head AH.session_id session;;
  set_head AH.proxy_error 0;;
  set_head AH.capi_error 0;;
  store_cstr out_packet sizeof_ANSWER_HEADER excuse;;
  send_out_packet.

(** ** unix.c: xquit, and the signal handler of a connection *)
Definition xquit (ret : Z) (excuse : list byte) : M Z :=
  exec_proxy_shutdown excuse;;
  puts sock_open false;;
  exit 0.

Inductive signal := SIGINT | SIGTERM | SIGHUP | SIGUSR1 | SIGOTHER.

Definition sigchild (sig : signal) : M unit :=
  match sig with
  | SIGINT | SIGTERM =>
      puts sock_open false;;
      syslog (Syslog "got signal and exiting");;
      exit 0
  | SIGHUP | SIGUSR1 | SIGOTHER => syslog (Syslog "ignoring received signal")
  end.
End proxy.
