(* ===== verification/Capifwd.v ===== *)
(** * The connection handler (linux-server/src/capifwd.c) *)
From S2P Require Import Prelude CMem Protocol Net Capi20 AppIndex Server Exec Proxy.
#[local] Open Scope Z_scope.

Section capifwd.
Context `{CapiHeader} {CS : Type} `{Capi20 CS}.
Abbreviation M := (M (server CS)).

(** [if (request->session_id != sessionID) break; sentbytes = handler(in_packet);] *)
Definition session_guard (handler : M Z) : M Z :=
  session_id ← request RH.session_id;
  session ← gets sessionID;
  if negb (session_id =? session) then mret 1 else handler.

(** The switch over [request->message_type]; the result is [sentbytes]. *)
Definition dispatch : M Z :=
  message_type ← request RH.message_type;
  if message_type =? TYPE_PROXY_HELO then exec_proxy_helo
  else if message_type =? TYPE_PROXY_AUTH then exec_proxy_auth
  else if message_type =? TYPE_PROXY_KEEPALIVE then mret 1
  else if message_type =? TYPE_CAPI_REGISTER then session_guard exec_capi_register
  else if message_type =? TYPE_CAPI_RELEASE then session_guard exec_capi_release
  else if message_type =? TYPE_CAPI_INSTALLED then session_guard exec_capi_isinstalled
  else if message_type =? TYPE_CAPI_VERSION then session_guard exec_capi_version
  else if message_type =? TYPE_CAPI_SERIAL then session_guard exec_capi_serial
  else if message_type =? TYPE_CAPI_MANUFACTURER then session_guard exec_capi_manufacturer
  else if message_type =? TYPE_CAPI_PROFILE then session_guard exec_capi_profile
  else if message_type =? TYPE_CAPI_WAITFORSIGNAL then session_guard exec_capi_waitforsignal
  else if message_type =? TYPE_CAPI_GETMESSAGE then session_guard exec_capi_getmessage
  else if message_type =? TYPE_CAPI_PUTMESSAGE then session_guard exec_capi_putmessage
  else syslog (Syslog "invalid message dispatched.");; mret 1.

(** [if (numbytes <= 0) { close(sock); release_all(registered_apps); ...; exit(0); }] *)
Definition check_received (numbytes : Z) : M unit :=
  when (numbytes <=? 0) (
    puts sock_open false;;
    release_all registered_apps capi;;
    when (numbytes <? 0) (syslog (SyslogErrno ""));;
    exit 0).

(** One round of the handling loop. *)
Definition handle_message : M unit :=
  numbytes ← recvn sock in_packet 0 sizeof_REQUEST_HEADER;
  check_received numbytes;;
  message_len ← request RH.message_len;
  numbytes ← recvn sock in_packet sizeof_REQUEST_HEADER
               (u32 (message_len - sizeof_REQUEST_HEADER));
  check_received numbytes;;
  sentbytes ← dispatch;
  when (sentbytes <? 1) (syslog (SyslogErrno "answer was not sent: ")).

(** [while (1)]: each round takes at least the header from the stream. *)
Fixpoint handling_loop (fuel : nat) : M unit :=
  match fuel with
  | O => fail Diverged
  | S fuel' => handle_message;; handling_loop fuel'
  end.
Definition handle_connection : M unit := λ s,
  handling_loop (S (length (rx_bytes (sv_sock s)))) s.

(** [memset(registered_apps, 0, CAPI_MAXAPPL+1);] *)
Definition memset_registered_apps : M unit :=
  store_bytes registered_apps 0 (replicate (Z.to_nat (CAPI_MAXAPPL + 1)) x00).
End capifwd.
