(* ===== verification/ExecSpec.v ===== *)
(** * The CAPI handlers without a message: one run of each on every path *)
From S2P Require Import Prelude CMem Protocol Net Capi20 AppIndex Server Packet Exec.
#[local] Open Scope Z_scope.

Section exec_spec.
Context `{CapiHeader} {CS : Type} `{Capi20 CS}.
Implicit Types s : server CS.

Lemma exec_capi_isinstalled_run r s :
  wf_server s → decode_request (fget in_packet s) = Some r →
  exec_capi_isinstalled s =
    reply (mkAnswer 40 40 0 0 (rh_message_id r) TYPE_CAPI_INSTALLED (rh_app_id r)
             (fget sessionID s) 0 (capi20_isinstalled (fget capi s))) [] s.
Proof.
  intros Hwf Hr. hstart Hwf Hr. unfold exec_capi_isinstalled. repeat hstep.
  rewrite fset_fget. by apply packet_reply.
Qed.

(** The three queries whose answer the library writes into the body. *)
Context `{!Capi20Laws CS}.

Lemma exec_capi_manufacturer_run r s :
  wf_server s → decode_request (fget in_packet s) = Some r →
  exec_capi_manufacturer s =
    reply (mkAnswer 104 40 64 0 (rh_message_id r) TYPE_CAPI_MANUFACTURER (rh_app_id r)
             (fget sessionID s) 0 0)
      (body 64 (capi20_get_manufacturer (rh_controller_id r) (fget capi s)) s) s.
Proof.
  intros Hwf Hr. hstart Hwf Hr. unfold exec_capi_manufacturer.
  pose proof (manufacturer_length (rh_controller_id r) (fget capi s)) as Hm. unfold blen in Hm.
  repeat hstep; [|rewrite length_payload_area by done; lia].
  rewrite fset_fget. apply packet_reply_body; [done..|lia|done].
Qed.

Lemma exec_capi_serial_run r s :
  wf_server s → decode_request (fget in_packet s) = Some r →
  exec_capi_serial s =
    reply (mkAnswer 48 40 8 0 (rh_message_id r) TYPE_CAPI_SERIAL (rh_app_id r)
             (fget sessionID s) 0 0)
      (body 8 (capi20_get_serial_number (rh_controller_id r) (fget capi s)) s) s.
Proof.
  intros Hwf Hr. hstart Hwf Hr. unfold exec_capi_serial.
  pose proof (serial_length (rh_controller_id r) (fget capi s)) as Hm. unfold blen in Hm.
  repeat hstep; [|rewrite length_payload_area by done; lia].
  rewrite fset_fget. apply packet_reply_body; [done..|lia|done].
Qed.

Lemma exec_capi_profile_run r s rc profile :
  wf_server s → decode_request (fget in_packet s) = Some r →
  capi20_get_profile (rh_controller_id r) (fget capi s) = (rc, profile) →
  exec_capi_profile s =
    reply (mkAnswer 104 40 64 0 (rh_message_id r) TYPE_CAPI_PROFILE (rh_app_id r)
             (fget sessionID s) 0 rc) (body 64 profile s) s.
Proof.
  intros Hwf Hr Hp. hstart Hwf Hr. unfold exec_capi_profile.
  pose proof (profile_length (rh_controller_id r) (fget capi s)) as Hm.
  rewrite Hp in Hm. unfold blen in Hm. simpl in Hm.
  hstep. hstep. rewrite Hp.
  repeat hstep; [|rewrite length_payload_area by done; lia].
  rewrite fset_fget. apply packet_reply_body; [done..|lia|done].
Qed.

(** The library's two version pairs change places: its first pair is the
    driver, which the protocol sends second. *)
Lemma exec_capi_version_run r s :
  wf_server s → decode_request (fget in_packet s) = Some r →
  let version := capi20_get_version (rh_controller_id r) (fget capi s) in
  exec_capi_version s =
    reply (mkAnswer 56 40 16 0 (rh_message_id r) TYPE_CAPI_VERSION (rh_app_id r)
             (fget sessionID s) 0 0) (drop 8 version ++ take 8 version) s.
Proof.
  intros Hwf Hr version. hstart Hwf Hr.
  pose proof (version_length (rh_controller_id r) (fget capi s)) as Hm. fold version in Hm.
  destruct (words_view 4 version) as (vs & Hvs & Hv); [unfold blen in Hm; lia|].
  rewrite (drop_ge version) in Hv by (unfold blen in Hm; lia).
  destruct (words_view 4 (payload_area s)) as (ps & Hps & Hp).
  { rewrite length_payload_area by done. lia. }
  do 4 (destruct vs as [|? vs]; [done|]). destruct vs; [|done].
  do 4 (destruct ps as [|? ps]; [done|]). destruct ps; [|done].
  assert (Hv' : version = words [z; z0; z1; z2] ++ []) by (rewrite Hv, app_nil_r; done).
  pose proof (get_u32_words [z; z0; z1; z2] [] 0 _ 0 eq_refl eq_refl) as G0.
  pose proof (get_u32_words [z; z0; z1; z2] [] 1 _ 4 eq_refl eq_refl) as G1.
  pose proof (get_u32_words [z; z0; z1; z2] [] 2 _ 8 eq_refl eq_refl) as G2.
  pose proof (get_u32_words [z; z0; z1; z2] [] 3 _ 12 eq_refl eq_refl) as G3.
  rewrite <- Hv' in G0, G1, G2, G3. rewrite Hp, <- packet_app. cbn [app].
  unfold exec_capi_version. fold version. 
  repeat hstep.
  rewrite fset_fget.
  match goal with |- send_out_packet (packet (?a :: ?b :: ?c :: ?d :: ?e :: ?f :: ?g :: ?h :: ?j :: ?k :: ?l) _ _) = _ =>
    change (a :: b :: c :: d :: e :: f :: g :: h :: j :: k :: l)
      with ([a; b; c; d; e; f; g; h; j; k] ++ l) end.
  rewrite packet_app, (words_u32 [z1; z2; z; z0] : words [u32 z1; u32 z2; u32 z; u32 z0] = _).
  assert (Hw : drop 8 version ++ take 8 version = words [z1; z2; z; z0]).
  { by rewrite Hv', app_nil_r. }
  rewrite Hw. apply packet_reply; [done| |done|done].
  f_equal. unfold payload_area. by rewrite drop_drop.
Qed.

Lemma exec_capi_register_run r s a b l m rc o c' :
  wf_server s → decode_request (fget in_packet s) = Some r →
  get_u32 (fget in_packet s) (rh_header_len r + REGISTER.messageBufferSize) = Some m →
  get_u32 (fget in_packet s) (rh_header_len r + REGISTER.maxLogicalConnection) = Some a →
  get_u32 (fget in_packet s) (rh_header_len r + REGISTER.maxBDataBlocks) = Some b →
  get_u32 (fget in_packet s) (rh_header_len r + REGISTER.maxBDataLen) = Some l →
  capi20_register a b l (fget capi s) = (rc, o, c') →
  let app := default (out_head s AH.app_id) o in
  (rc = 0 → 0 ≤ u32 app < blen (fget registered_apps s)) →
  exec_capi_register s =
    reply (mkAnswer 40 40 0 0 (rh_message_id r) TYPE_CAPI_REGISTER app (fget sessionID s) 0 rc) []
      (fset client_info (set_ci_messageBufferLen (s32 m) (fget client_info s))
        (fset registered_apps
           (if rc =? 0 then mark (u32 app) Init.Byte.x01 (fget registered_apps s)
            else fget registered_apps s)
           (fset capi c' s))).
Proof.
  intros Hwf Hr Hm Ha Hb Hl Hreg app Happ. hstart Hwf Hr. unfold exec_capi_register.
  repeat hstep.
  cbv beta iota.
  rewrite (bind_done _ _ _ tt (packet (<[6%nat:=app]> (out_words s)) (payload_area s) (fset capi c' s))).
  2:{ destruct o; simpl; [|done]. by apply (packet_set_head 6); [|simpl; lia]. }
  cbv [out_words]. cbn [insert list_insert].
  destruct (Z.eqb_spec rc 0) as [->|Hne].
  - specialize (Happ eq_refl). repeat hstep. by apply packet_reply.
  - repeat hstep. by apply packet_reply.
Qed.

(** The id in the request is looked up, released and unmarked. *)
Lemma exec_capi_release_run r s rc c' :
  wf_server s → decode_request (fget in_packet s) = Some r →
  capi20_release (rh_app_id r) (fget capi s) = (rc, c') →
  (rc = 0 → rh_app_id r < blen (fget registered_apps s)) →
  exec_capi_release s =
    reply (mkAnswer 40 40 0 0 (rh_message_id r) TYPE_CAPI_RELEASE (rh_app_id r)
             (fget sessionID s) 0 rc) []
      (fset registered_apps
         (if rc =? 0 then mark (rh_app_id r) x00 (fget registered_apps s)
          else fget registered_apps s)
         (fset capi c' s)).
Proof.
  intros Hwf Hr Hrel Happ. hstart Hwf Hr. unfold exec_capi_release.
  assert (Hid : 0 ≤ rh_app_id r) by (eapply get_le_bound; eassumption).
  repeat hstep. destruct (Z.eqb_spec rc 0) as [->|Hne].
  - assert (0 ≤ rh_app_id r < blen (fget registered_apps s)) by auto.
    repeat hstep. by apply packet_reply.
  - change (fget registered_apps s) with (fget registered_apps (fset capi c' s)).
    rewrite fset_fget. repeat hstep. by apply packet_reply.
Qed.

(** The child forked by WAITFORSIGNAL. *)
Lemma waitforsignal_child_run app mid s rc c' :
  wf_server s → capi20_waitformessage app (fget capi s) = (rc, c') →
  waitforsignal_after ForkChild app mid s =
    (Exited 0, (reply (mkAnswer 40 40 0 0 mid TYPE_CAPI_WAITFORSIGNAL app
                         (fget sessionID s) 0 rc) [] (fset capi c' s)).2).
Proof.
  intros Hwf Hw. unfold waitforsignal_after.
  rewrite (packet_intro s) at 1 by (rewrite (wf_out _ Hwf); done).
  unfold out_words; fold (payload_area s). repeat hstep.
  destruct (reply_returns (mkAnswer 40 40 0 0 mid TYPE_CAPI_WAITFORSIGNAL app
              (fget sessionID s) 0 rc) [] (fset capi c' s)) as [n Hn].
  erewrite bind_done; [done|]. rewrite <- Hn. by apply packet_reply.
Qed.

(** The parent returns 1 without an answer: the answer is the child's. *)
Lemma exec_capi_waitforsignal_forked r s :
  wf_server s → decode_request (fget in_packet s) = Some r →
  head (fget forks s) ≠ Some false →
  exec_capi_waitforsignal s =
    (Done 1, fset children (fget children s ++
                [mkChild (sv_process s) (rh_app_id r) (rh_message_id r)])
              (fset forks (tail (fget forks s)) s)).
Proof.
  intros Hwf Hr Hf. destruct (decode_request_fields _ _ Hr) as (?&?&?&?&Hm&?&Ha&?&?).
  unfold exec_capi_waitforsignal, request, load, gets, try, fork, mbind, M_bind, mret, M_ret.
  rewrite Ha, Hm. simpl in *. by destruct (sv_forks s) as [|[] ?].
Qed.

Lemma waitforsignal_failed_run app mid s :
  wf_server s →
  waitforsignal_after ForkFailed app mid s =
    reply (mkAnswer 40 40 0 0 mid TYPE_CAPI_WAITFORSIGNAL app
             (fget sessionID s) PERROR_NO_RESSOURCES 0x1108) []
      (fset log (fget log s ++ [SyslogErrno "forking failed: "]) s).
Proof.
  intros Hwf. unfold waitforsignal_after.
  rewrite (packet_intro s) at 1 by (rewrite (wf_out _ Hwf); done).
  unfold out_words. repeat hstep. rewrite bind_ret_r. by apply packet_reply.
Qed.

Lemma wf_server_forks script s : wf_server s → wf_server (fset forks script s).
Proof. by intros []. Qed.

Lemma exec_capi_waitforsignal_failed r s script :
  wf_server s → decode_request (fget in_packet s) = Some r →
  fget forks s = false :: script →
  exec_capi_waitforsignal s =
    reply (mkAnswer 40 40 0 0 (rh_message_id r) TYPE_CAPI_WAITFORSIGNAL (rh_app_id r)
             (fget sessionID s) PERROR_NO_RESSOURCES 0x1108) []
      (fset log (fget log s ++ [SyslogErrno "forking failed: "]) (fset forks script s)).
Proof.
  intros Hwf Hr Hf.
  assert (exec_capi_waitforsignal s =
    waitforsignal_after ForkFailed (rh_app_id r) (rh_message_id r) (fset forks script s)) as ->.
  { destruct (decode_request_fields _ _ Hr) as (?&?&?&?&Hm&?&Ha&?&?).
    unfold exec_capi_waitforsignal, request, load, gets, try, fork, mbind, M_bind, mret, M_ret.
    rewrite Ha, Hm. simpl in *. by rewrite Hf. }
  by rewrite waitforsignal_failed_run by by apply wf_server_forks.
Qed.
End exec_spec.
