(* ===== verification/MessageSpec.v ===== *)
(** * GETMESSAGE and PUTMESSAGE: one run of each on every path *)
From S2P Require Import Prelude CMem Protocol Net Capi20 AppIndex Server Packet Exec.
#[local] Open Scope Z_scope.

Section message_spec.
Context `{CapiHeader} {CS : Type} `{Capi20 CS}.
Implicit Types s : server CS.

(** ** GETMESSAGE *)
(** The library returned an error: no data. *)
Lemma exec_capi_getmessage_error r s rc p c' :
  wf_server s → decode_request (fget in_packet s) = Some r →
  capi20_get_message (rh_app_id r) (fget capi s) = (rc, p, c') → u32 rc ≠ 0 →
  exec_capi_getmessage s =
    reply (mkAnswer 40 40 0 0 (rh_message_id r) TYPE_CAPI_GETMESSAGE (rh_app_id r)
             (fget sessionID s) 0 rc) [] (fset capi c' s).
Proof.
  intros Hwf Hr Hg Hrc. hstart Hwf Hr. unfold exec_capi_getmessage. repeat hstep.
  cbv beta iota. repeat hstep. apply Z.eqb_neq in Hrc. rewrite Hrc. repeat hstep.
  by apply packet_reply.
Qed.

(** The message as it stands in the library's memory, and in out_packet. *)
Definition library_message c p : option (list byte) :=
  l ← capi20_memory c p 2; capi20_memory c p (le_combine l).
Definition message_area m s : list byte := m ++ drop (length m) (payload_area s).
Definition is_DATA_B3_IND m s : Prop :=
  get_u8 (message_area m s) 4 = Some 0x86 ∧ get_u8 (message_area m s) 5 = Some 0x82.

Lemma message_area_byte m s k :
  wf_server s → blen m ≤ 9960 → 0 ≤ k < 9960 → ∃ v, get_u8 (message_area m s) k = Some v.
Proof.
  intros Hwf Hm Hk. pose proof (length_payload_area s Hwf) as Hp. unfold blen in Hm.
  assert (k < blen (message_area m s)).
  { unfold message_area, blen. rewrite length_app, length_drop. lia. }
  destruct (lookup_lt_is_Some_2 (message_area m s) (Z.to_nat k)) as [c Hc].
  { unfold blen in *. lia. }
  eexists. apply get_u8_lookup; [lia|exact Hc].
Qed.

(** The handler up to the test for DATA_B3_IND. *)
Definition getmessage_rest (len1 cmd1 cmd2 : Z) : M (server CS) Z :=
  when ((cmd1 =? 0x86) && (cmd2 =? 0x82)) (
    if len1 <? 18 then set_head AH.proxy_error PERROR_PARSE_ERROR
    else
      len2 ← load16 out_packet (GETMESSAGE_data + 16);
      pointer ← load32 out_packet (GETMESSAGE_data + 12);
      d ← read_capi pointer len2;
      store_bytes out_packet (GETMESSAGE_data + len1) d;;
      data_len ← load32 out_packet AH.data_len;
      set_head AH.data_len (data_len + len2));;
  set_message_len;; send_out_packet.

Lemma packet_read_capi a n bs ws rest s :
  capi20_memory (fget capi s) a n = Some bs →
  read_capi a n (packet ws rest s) = (Done bs, packet ws rest s).
Proof.
  intros Hbs. unfold read_capi, gets, mbind, M_bind.
  change (fget capi (packet ws rest s)) with (fget capi s). by rewrite Hbs.
Qed.

Lemma packet_read_capi_fault a n ws rest s :
  capi20_memory (fget capi s) a n = None →
  read_capi a n (packet ws rest s) = (Faulted OutOfBounds, packet ws rest s).
Proof.
  intros Hbs. unfold read_capi, gets, mbind, M_bind.
  change (fget capi (packet ws rest s)) with (fget capi s). by rewrite Hbs.
Qed.

Lemma exec_capi_getmessage_copied r s p c' m cmd1 cmd2 :
  wf_server s → decode_request (fget in_packet s) = Some r →
  capi20_get_message (rh_app_id r) (fget capi s) = (0, p, c') →
  library_message c' p = Some m → blen m ≤ 9960 →
  get_u8 (message_area m s) 4 = Some cmd1 → get_u8 (message_area m s) 5 = Some cmd2 →
  exec_capi_getmessage s =
    getmessage_rest (blen m) cmd1 cmd2
      (packet [out_head s AH.message_len; 40; 0; blen m; rh_message_id r;
               TYPE_CAPI_GETMESSAGE; rh_app_id r; fget sessionID s; 0; 0]
         (message_area m s) (fset capi c' s)).
Proof.
  intros Hwf Hr Hg Hm Hl Hc1 Hc2. hstart Hwf Hr. unfold exec_capi_getmessage. repeat hstep.
  cbv beta iota. repeat hstep. change (u32 0 =? 0) with true. repeat hstep.
  apply bind_Some in Hm as (l & Hl2 & Hm). unfold getmessage_copy. rewrite bind_assoc.
  erewrite bind_done; [|apply packet_read_capi; eassumption]. cbv beta.
  rewrite bind_assoc. erewrite bind_done; [|apply packet_read_capi; eassumption]. cbv beta.
  rewrite (capi20_memory_length _ _ _ _ Hm).
  assert (length m ≤ length (payload_area s))%nat.
  { rewrite length_payload_area by done. unfold blen in *. lia. }
  rewrite bind_assoc. erewrite bind_done; [|by apply (packet_store_body m)]. cbv beta.
  fold (message_area m s). repeat hstep. done.
Qed.

(** [getmessage_rest] on its three paths. *)
Lemma getmessage_rest_plain len1 cmd1 cmd2 ws rest s :
  ¬ (cmd1 = 0x86 ∧ cmd2 = 0x82) →
  getmessage_rest len1 cmd1 cmd2 (packet ws rest s) =
    (set_message_len;; send_out_packet) (packet ws rest s).
Proof.
  intros Hc. unfold getmessage_rest.
  replace ((cmd1 =? 0x86) && (cmd2 =? 0x82)) with false; [done|]. lia.
Qed.

Lemma getmessage_rest_short len1 m h b d i t a se pe ce rest s :
  len1 < 18 →
  getmessage_rest len1 0x86 0x82 (packet [m; h; b; d; i; t; a; se; pe; ce] rest s) =
    (set_message_len;; send_out_packet)
      (packet [m; h; b; d; i; t; a; se; PERROR_PARSE_ERROR; ce] rest s).
Proof.
  intros Hl. unfold getmessage_rest. apply Z.ltb_lt in Hl. rewrite Hl.
  change ((0x86 =? 0x86) && (0x82 =? 0x82)) with true. by repeat hstep.
Qed.

Lemma getmessage_rest_data len1 len2 p bs rest' m h b d i t a se pe ce rest s :
  18 ≤ len1 → get_u16 rest 16 = Some len2 → get_u32 rest 12 = Some p →
  capi20_memory (fget capi s) p len2 = Some bs → splice rest len1 bs = Some rest' →
  getmessage_rest len1 0x86 0x82 (packet [m; h; b; d; i; t; a; se; pe; ce] rest s) =
    (set_message_len;; send_out_packet)
      (packet [m; h; b; u32 d + len2; i; t; a; se; pe; ce] rest' s).
Proof.
  intros Hl H2 Hp Hbs Hs. unfold getmessage_rest. apply Z.ltb_ge in Hl. rewrite Hl.
  apply Z.ltb_ge in Hl. change ((0x86 =? 0x86) && (0x82 =? 0x82)) with true. repeat hstep.
  erewrite bind_done; [|by apply packet_read_capi]. cbv beta. repeat hstep.
  erewrite bind_done; [|apply (packet_store_payload_at len1); [done|lia|done]]. cbv beta.
  by repeat hstep.
Qed.

(** Answer to GETMESSAGE: [m] and [d] are the message and its data. *)
Definition getmessage_header r s (len perror : Z) : ANSWER_HEADER :=
  mkAnswer (40 + len) 40 0 len (rh_message_id r) TYPE_CAPI_GETMESSAGE (rh_app_id r)
    (fget sessionID s) perror 0.

Lemma drop_payload_area n s : drop n (payload_area s) = drop (40 + n) (fget out_packet s).
Proof. unfold payload_area. by rewrite drop_drop. Qed.

Lemma exec_capi_getmessage_plain r s p c' m :
  wf_server s → decode_request (fget in_packet s) = Some r →
  capi20_get_message (rh_app_id r) (fget capi s) = (0, p, c') →
  library_message c' p = Some m → blen m ≤ 9960 → ¬ is_DATA_B3_IND m s →
  exec_capi_getmessage s = reply (getmessage_header r s (blen m) 0) m (fset capi c' s).
Proof.
  intros Hwf Hr Hg Hm Hl Hd.
  destruct (message_area_byte m s 4) as [c1 Hc1]; [done..|].
  destruct (message_area_byte m s 5) as [c2 Hc2]; [done..|].
  erewrite exec_capi_getmessage_copied by done.
  rewrite getmessage_rest_plain by (intros [-> ->]; by apply Hd).
  pose proof (blen_nonneg m).
  erewrite bind_done; [|apply packet_message_len]. cbv beta.
  rewrite (u32_small (blen m)) by lia.
  apply packet_reply; [done| |done|lia]. apply (f_equal (app m)), (drop_payload_area _ s).
Qed.

Lemma exec_capi_getmessage_short r s p c' m :
  wf_server s → decode_request (fget in_packet s) = Some r →
  capi20_get_message (rh_app_id r) (fget capi s) = (0, p, c') →
  library_message c' p = Some m → blen m < 18 → is_DATA_B3_IND m s →
  exec_capi_getmessage s =
    reply (getmessage_header r s (blen m) PERROR_PARSE_ERROR) m (fset capi c' s).
Proof.
  intros Hwf Hr Hg Hm Hl [Hc1 Hc2].
  erewrite exec_capi_getmessage_copied by (done || lia).
  rewrite getmessage_rest_short by done.
  pose proof (blen_nonneg m).
  erewrite bind_done; [|apply packet_message_len]. cbv beta.
  rewrite (u32_small (blen m)) by lia.
  apply packet_reply; [done| |done|lia]. apply (f_equal (app m)), (drop_payload_area _ s).
Qed.

Lemma exec_capi_getmessage_data r s p c' m len2 q d :
  wf_server s → decode_request (fget in_packet s) = Some r →
  capi20_get_message (rh_app_id r) (fget capi s) = (0, p, c') →
  library_message c' p = Some m → 18 ≤ blen m → is_DATA_B3_IND m s →
  get_u16 m 16 = Some len2 → get_u32 m 12 = Some q →
  capi20_memory c' q len2 = Some d → blen m + len2 ≤ 9960 →
  exec_capi_getmessage s =
    reply (getmessage_header r s (blen m + len2) 0) (m ++ d) (fset capi c' s).
Proof.
  intros Hwf Hr Hg Hm Hl [Hc1 Hc2] H2 Hq Hd Hlen.
  pose proof (get_le_bound _ _ _ _ H2). pose proof (capi20_memory_length _ _ _ _ Hd) as Hdl.
  erewrite exec_capi_getmessage_copied by (done || lia).
  pose proof (length_payload_area s Hwf) as Hpl.
  erewrite (getmessage_rest_data _ len2 q d).
  - erewrite bind_done; [|apply packet_message_len]. cbv beta.
    pose proof (blen_nonneg m). rewrite (u32_small (blen m)), (u32_small (blen m + len2)) by lia.
    apply (packet_reply _ _ _ (m ++ d)); [done|done|..]; rewrite blen_app, Hdl; [done|lia].
  - done.
  - by apply get_le_app_l.
  - by apply get_le_app_l.
  - done.
  - unfold message_area. rewrite <- (take_drop (length d) (drop (length m) _)).
    rewrite (splice_at _ m (take (length d) (drop (length m) (payload_area s)))
               (drop (length d) (drop (length m) (payload_area s)))); [|done..|].
    + rewrite drop_drop, <- (assoc_L (++)). do 3 f_equal.
      rewrite length_app. apply (drop_payload_area _ s).
    + rewrite length_take, length_drop, Hpl. unfold blen in *. lia.
Qed.

(** The message, or the message with its data, is longer than what is left of
    out_packet: the copy overruns it. *)
Lemma exec_capi_getmessage_overflow r s p c' m :
  wf_server s → decode_request (fget in_packet s) = Some r →
  capi20_get_message (rh_app_id r) (fget capi s) = (0, p, c') →
  library_message c' p = Some m → 9960 < blen m →
  ∃ s', exec_capi_getmessage s = (Faulted OutOfBounds, s').
Proof.
  intros Hwf Hr Hg Hm Hl.
  eexists. hstart Hwf Hr. unfold exec_capi_getmessage. repeat hstep.
  cbv beta iota. repeat hstep. change (u32 0 =? 0) with true. repeat hstep.
  apply bind_Some in Hm as (l & Hl2 & Hm). unfold getmessage_copy. rewrite bind_assoc.
  erewrite bind_done; [|apply packet_read_capi; eassumption]. cbv beta.
  rewrite bind_assoc. erewrite bind_done; [|apply packet_read_capi; eassumption]. cbv beta.
  rewrite bind_assoc. apply bind_faulted.
  apply (packet_store_payload_fault 0); [done..|]. apply splice_None.
  pose proof (length_payload_area s Hwf). unfold blen in *. lia.
Qed.

Lemma exec_capi_getmessage_data_overflow r s p c' m len2 q d :
  wf_server s → decode_request (fget in_packet s) = Some r →
  capi20_get_message (rh_app_id r) (fget capi s) = (0, p, c') →
  library_message c' p = Some m → 18 ≤ blen m ≤ 9960 → is_DATA_B3_IND m s →
  get_u16 m 16 = Some len2 → get_u32 m 12 = Some q →
  capi20_memory c' q len2 = Some d → 9960 < blen m + len2 →
  ∃ s', exec_capi_getmessage s = (Faulted OutOfBounds, s').
Proof.
  intros Hwf Hr Hg Hm Hl [Hc1 Hc2] H2 Hq Hd Hlen. eexists.
  pose proof (capi20_memory_length _ _ _ _ Hd) as Hdl.
  erewrite exec_capi_getmessage_copied by (done || lia).
  unfold getmessage_rest. change ((0x86 =? 0x86) && (0x82 =? 0x82)) with true.
  destruct (Z.ltb_spec (blen m) 18); [lia|].
  apply get_le_app_l with (b := drop (length m) (payload_area s)) in H2, Hq.
  fold (message_area m s) in H2, Hq. repeat hstep.
  erewrite bind_done; [|by apply packet_read_capi]. cbv beta. repeat hstep.
  apply bind_faulted, (packet_store_payload_fault (blen m)); [done|lia|]. apply splice_None.
  pose proof (length_payload_area s Hwf). unfold message_area. rewrite blen_app.
  unfold blen in *. rewrite length_drop. lia.
Qed.

(** The pointers the library hands out are not mapped. *)
Lemma exec_capi_getmessage_unmapped r s p c' :
  wf_server s → decode_request (fget in_packet s) = Some r →
  capi20_get_message (rh_app_id r) (fget capi s) = (0, p, c') →
  library_message c' p = None → ∃ s', exec_capi_getmessage s = (Faulted OutOfBounds, s').
Proof.
  intros Hwf Hr Hg Hm. eexists. hstart Hwf Hr. unfold exec_capi_getmessage. repeat hstep.
  cbv beta iota. repeat hstep. change (u32 0 =? 0) with true. repeat hstep.
  unfold getmessage_copy. rewrite bind_assoc. unfold library_message in Hm.
  destruct (capi20_memory c' p 2) as [l|] eqn:Hl.
  - erewrite bind_done; [|apply packet_read_capi; eassumption]. cbv beta. rewrite bind_assoc.
    by apply bind_faulted, packet_read_capi_fault.
  - by apply bind_faulted, packet_read_capi_fault.
Qed.

Lemma exec_capi_getmessage_data_unmapped r s p c' m len2 q :
  wf_server s → decode_request (fget in_packet s) = Some r →
  capi20_get_message (rh_app_id r) (fget capi s) = (0, p, c') →
  library_message c' p = Some m → 18 ≤ blen m ≤ 9960 → is_DATA_B3_IND m s →
  get_u16 m 16 = Some len2 → get_u32 m 12 = Some q →
  capi20_memory c' q len2 = None →
  ∃ s', exec_capi_getmessage s = (Faulted OutOfBounds, s').
Proof.
  intros Hwf Hr Hg Hm Hl [Hc1 Hc2] H2 Hq Hd. eexists.
  erewrite exec_capi_getmessage_copied by (done || lia).
  unfold getmessage_rest. change ((0x86 =? 0x86) && (0x82 =? 0x82)) with true.
  destruct (Z.ltb_spec (blen m) 18); [lia|].
  apply get_le_app_l with (b := drop (length m) (payload_area s)) in H2, Hq.
  fold (message_area m s) in H2, Hq. repeat hstep.
  by apply bind_faulted, packet_read_capi_fault.
Qed.

(** ** PUTMESSAGE *)
Definition put_offset r : Z := rh_header_len r + rh_body_len r.
Definition put_header r s (perror cerror : Z) : ANSWER_HEADER :=
  mkAnswer 40 40 0 0 (rh_message_id r) TYPE_CAPI_PUTMESSAGE (rh_app_id r)
    (fget sessionID s) perror cerror.

Lemma exec_capi_putmessage_start r s :
  wf_server s → decode_request (fget in_packet s) = Some r →
  exec_capi_putmessage s =
    (putmessage_checked (put_offset r);; send_out_packet)
      (packet (answer_words (put_header r s 0 (out_head s AH.capi_error)))
         (payload_area s) s).
Proof.
  intros Hwf Hr. hstart Hwf Hr. unfold exec_capi_putmessage. by repeat hstep.
Qed.

Lemma parse_error_run r s txt (k : unit → M (server CS) Z) ce :
  (parse_error txt ≫= k)
    (packet (answer_words (put_header r s 0 ce)) (payload_area s) s) =
  k tt (packet (answer_words (put_header r s PERROR_PARSE_ERROR ce))
         (payload_area s) (fset log (fget log s ++ [Syslog txt]) s)).
Proof. unfold parse_error. cbn [answer_words]. by repeat hstep. Qed.

(** The four ways a message is refused: the answer carries
    PERROR_PARSE_ERROR and whatever capi_error the last answer had. *)
Definition put_refused r s txt : outcome Z * server CS :=
  reply (put_header r s PERROR_PARSE_ERROR (out_head s AH.capi_error)) []
    (fset log (fget log s ++ [Syslog txt]) s).

Lemma put_refused_run r s txt :
  wf_server s →
  (parse_error txt;; send_out_packet)
    (packet (answer_words (put_header r s 0 (out_head s AH.capi_error))) (payload_area s) s)
  = put_refused r s txt.
Proof. intros Hwf. rewrite parse_error_run. by apply packet_reply. Qed.

(** The call, with the id read from the packet as it is now, and the answer
    with its return code. *)
Definition put_called r s b : outcome Z * server CS :=
  let '(rc, c') := capi20_put_message (default 0 (get_u32 b RH.app_id))
                     (fget in_packet_address s) b (put_offset r) (fget capi s) in
  reply (put_header r s 0 rc) [] (fset capi c' (fset in_packet b s)).

Lemma put_called_run r s b :
  wf_server s → 28 ≤ blen b →
  (put_message (put_offset r);; send_out_packet)
    (packet (answer_words (put_header r s 0 (out_head s AH.capi_error))) (payload_area s)
       (fset in_packet b s))
  = put_called r s b.
Proof.
  intros Hwf Hb. unfold put_message, put_called. cbn [answer_words put_header].
  assert (∃ app, get_u32 b RH.app_id = Some app) as [app Happ].
  { apply get_le_is_Some; [done|]. unfold RH.app_id. lia. }
  rewrite Happ. cbn [default]. destruct (capi20_put_message _ _ _ _ _) as [rc c'] eqn:Hput.
  repeat hstep. by apply packet_reply.
Qed.

(** Which case a request is, from its bytes. *)
Inductive put_case := PutRefused (why : string) | PutCall | PutPatch (len1 : Z).
Definition put_classify r (b : list byte) : option put_case :=
  let msg := put_offset r in
  if rh_data_len r <? 8 then Some (PutRefused "Error parsing CAPI message (1)") else
  len1 ← get_u16 b msg;
  if rh_data_len r <? len1 then Some (PutRefused "Error parsing CAPI message (2)") else
  cmd1 ← get_u8 b (msg + 4);
  cmd2 ← get_u8 b (msg + 5);
  if (cmd1 =? 0x86) && (cmd2 =? 0x80) then
    if len1 <? 18 then Some (PutRefused "Error parsing CAPI message (3)") else
    len2 ← get_u16 b (msg + 16);
    if rh_data_len r <? len1 + len2 then Some (PutRefused "Error parsing CAPI message (4)")
    else Some (PutPatch len1)
  else Some PutCall.

(** The pointer in a DATA_B3_REQ is made to point behind the message. *)
Definition put_patch r s len1 : option (list byte) :=
  splice (fget in_packet s) (put_offset r + 12)
    (le_split 4 (fget in_packet_address s + put_offset r + len1)).

Definition put_result r s : option (outcome Z * server CS) :=
  k ← put_classify r (fget in_packet s);
  match k with
  | PutRefused why => Some (put_refused r s why)
  | PutCall => Some (put_called r s (fget in_packet s))
  | PutPatch len1 => put_called r s <$> put_patch r s len1
  end.

Lemma exec_capi_putmessage_run r s res :
  wf_server s → decode_request (fget in_packet s) = Some r →
  put_result r s = Some res →
  exec_capi_putmessage s = res.
Proof.
  intros Hwf Hr Hk. rewrite (exec_capi_putmessage_start r) by done.
  destruct (decode_request_fields _ _ Hr) as (?&?&?&?&?&?&Ha&?&?).
  unfold put_result, put_classify in Hk. unfold putmessage_checked.
  repeat hstep. destruct (rh_data_len r <? 8).
  { injection Hk as <-. by apply put_refused_run. }
  destruct (get_u16 _ (put_offset r)) as [len1|] eqn:Hl1; [|done]. cbn in Hk. repeat hstep.
  destruct (rh_data_len r <? len1).
  { injection Hk as <-. by apply put_refused_run. }
  destruct (get_u8 _ (put_offset r + 4)) as [cmd1|] eqn:Hc1; [|done].
  destruct (get_u8 _ (put_offset r + 5)) as [cmd2|] eqn:Hc2; [|done]. cbn in Hk.
  repeat hstep. destruct ((cmd1 =? 0x86) && (cmd2 =? 0x80)).
  2:{ injection Hk as <-. change (p_in_packet (sv_process s)) with (fget in_packet s).
      rewrite <- put_called_run; [|done|by rewrite (wf_in s Hwf)].
      by rewrite (fset_fget (F:=in_packet)). }
  destruct (len1 <? 18).
  { injection Hk as <-. by apply put_refused_run. }
  destruct (get_u16 _ (put_offset r + 16)) as [len2|] eqn:Hl2; [|done]. cbn in Hk.
  repeat hstep. destruct (rh_data_len r <? len1 + len2).
  { injection Hk as <-. by apply put_refused_run. }
  apply fmap_Some in Hk as (b & Hb & ->). unfold put_patch in Hb.
  repeat hstep. apply put_called_run; [done|]. unfold blen.
  rewrite (splice_length _ _ _ _ Hb). pose proof (wf_in s Hwf) as Hi.
  unfold blen, PACKET_SIZE in Hi. simpl in *. lia.
Qed.

(** The header's lengths lead outside of in_packet. *)
Lemma exec_capi_putmessage_fault r s :
  wf_server s → decode_request (fget in_packet s) = Some r →
  put_result r s = None → ∃ s', exec_capi_putmessage s = (Faulted OutOfBounds, s').
Proof.
  intros Hwf Hr Hk. rewrite (exec_capi_putmessage_start r) by done.
  destruct (decode_request_fields _ _ Hr) as (?&?&?&?&?&?&Ha&?&?).
  unfold put_result, put_classify in Hk. unfold putmessage_checked. eexists.
  repeat hstep. destruct (rh_data_len r <? 8); [done|].
  destruct (get_u16 _ (put_offset r)) as [len1|] eqn:Hl1.
  2:{ repeat hstep. by apply bind_faulted, packet_load_in_fault. }
  cbn in Hk. repeat hstep.
  destruct (rh_data_len r <? len1); [done|].
  destruct (get_u8 _ (put_offset r + 4)) as [cmd1|] eqn:Hc1.
  2:{ repeat hstep. by apply bind_faulted, packet_load_in_fault. }
  destruct (get_u8 _ (put_offset r + 5)) as [cmd2|] eqn:Hc2.
  2:{ repeat hstep. by apply bind_faulted, packet_load_in_fault. }
  cbn in Hk. repeat hstep. destruct ((cmd1 =? 0x86) && (cmd2 =? 0x80)); [|done].
  destruct (len1 <? 18); [done|].
  destruct (get_u16 _ (put_offset r + 16)) as [len2|] eqn:Hl2.
  2:{ repeat hstep. by apply bind_faulted, packet_load_in_fault. }
  cbn in Hk. repeat hstep. destruct (rh_data_len r <? len1 + len2); [done|].
  exfalso. unfold put_patch in Hk. apply fmap_None in Hk.
  apply get_le_Some_inv in Hl2, Hl1. rewrite splice_Some in Hk; [done|lia|].
  change (blen (le_split 4 _)) with 4. simpl in *. lia.
Qed.
End message_spec.
