(* ===== verification/ProxySpec.v ===== *)
(** * The proxy handlers: one run of each on every path *)
From S2P Require Import Prelude CMem Protocol Net Capi20 AppIndex Server Packet Proxy.
#[local] Open Scope Z_scope.

Section proxy_spec.
Context `{CapiHeader} {CS : Type}.
Implicit Types s : server CS.

Lemma packet_load_cstr off t name ws rest s :
  slice (fget in_packet s) off (blen (fget in_packet s) - off) = Some t → cstr t = Some name →
  load_cstr in_packet off (packet ws rest s) = (Done name, packet ws rest s).
Proof.
  intros Ht Hc. unfold load_cstr, gets, mbind, M_bind, try, mret, M_ret.
  change (fget in_packet (packet ws rest s)) with (fget in_packet s). by rewrite Ht, Hc.
Qed.

Lemma packet_store_name name b ws rest s :
  splice (fget client_info_name s) 0 (name ++ [x00]) = Some b →
  store_cstr client_info_name 0 name (packet ws rest s) =
    (Done tt, packet ws rest (fset client_info_name b s)).
Proof.
  intros Hb. unfold store_cstr, store_bytes, gets, mbind, M_bind, try, mret, M_ret.
  change (fget client_info_name (packet ws rest s)) with (fget client_info_name s).
  by rewrite Hb.
Qed.

Lemma packet_store_payload_word k pre i ws2 post v ws s :
  length ws = 10%nat → k = blen pre + 4 * Z.of_nat i → (i < length ws2)%nat →
  store32 out_packet (40 + k) v (packet ws (pre ++ words ws2 ++ post) s) =
    (Done tt, packet ws (pre ++ words (<[i:=v]> ws2) ++ post) s).
Proof.
  intros Hws -> Hi. unfold store. pose proof (blen_nonneg pre).
  apply packet_store_payload_at; [done|lia|].
  by rewrite splice_app_r, (splice_words ws2 post i) by (done || lia).
Qed.

(** ** HELO *)
(** What the client says of itself. *)
Definition helo_client r (b : list byte) : option (Z * version_t * list byte) :=
  os ← get_u32 b (rh_header_len r + HELO.os);
  major ← get_u32 b (rh_header_len r + HELO.version_major);
  minor ← get_u32 b (rh_header_len r + HELO.version_minor);
  t ← slice b (rh_header_len r + HELO.name) (blen b - (rh_header_len r + HELO.name));
  name ← cstr t;
  Some (os, mkVersion major minor, name).

Definition helo_remember (os : Z) (v : version_t) (name : list byte) s : server CS :=
  let c := fget client_info s in
  fset client_info (mkClientInfo (s32 os) v
    (name ++ x00 :: drop (S (length name)) (ci_name c)) (ci_messageBufferLen c)) s.

(** The answer, from a server of another name and with another error: the old server
    differs in no more. *)
Definition helo_answering (server_name : list byte) (perror : Z) : M (server CS) Z :=
  helo_msg ← request RH.header_len;
  os ← load32 in_packet (helo_msg + HELO.os);
  modify client_info (set_ci_os (s32 os));;
  major ← load32 in_packet (helo_msg + HELO.version_major);
  minor ← load32 in_packet (helo_msg + HELO.version_minor);
  modify client_info (set_ci_version (mkVersion major minor));;
  name ← load_cstr in_packet (helo_msg + HELO.name);
  store_cstr client_info_name 0 name;;
  set_head AH.message_len (sizeof_ANSWER_HEADER + sizeof_ANSWER_PROXY_HELO);;
  set_head AH.header_len sizeof_ANSWER_HEADER;;
  set_head AH.body_len sizeof_ANSWER_PROXY_HELO;;
  set_head AH.data_len 0;;
  message_id ← request RH.message_id;
  set_head AH.message_id message_id;;
  set_head AH.message_type TYPE_PROXY_HELO;;
  set_head AH.app_id 0;;
  session ← gets sessionID;
  set_head AH.session_id session;;
  set_head AH.proxy_error perror;;
  set_head AH.capi_error 0;;
  store_cstr out_packet (sizeof_ANSWER_HEADER + HELO.name) server_name;;
  store32 out_packet (sizeof_ANSWER_HEADER + HELO.os) OS_TYPE_LINUX;;
  version ← gets local_version;
  store32 out_packet (sizeof_ANSWER_HEADER + HELO.version_major) (Protocol.major version);;
  store32 out_packet (sizeof_ANSWER_HEADER + HELO.version_minor) (Protocol.minor version);;
  store32 out_packet (sizeof_ANSWER_HEADER + HELO.auth_type) AUTH_NO_AUTH;;
  send_out_packet.

(** Its body: what lies behind the NUL of the name, and the timeout, are left from
    earlier answers. *)
Definition helo_body_of (server_name : list byte) (v : version_t) (area : list byte) : list byte :=
  (server_name ++ [x00]) ++ take (63 - length server_name) (drop (S (length server_name)) area) ++
  words [OS_TYPE_LINUX; major v; minor v; AUTH_NO_AUTH] ++ take 4 (drop 80 area).
Definition helo_body (v : version_t) (area : list byte) : list byte :=
  (helo_server_name ++ [x00]) ++ take 30 (drop 34 area) ++
  words [OS_TYPE_LINUX; major v; minor v; AUTH_NO_AUTH] ++ take 4 (drop 80 area).

Lemma length_helo_body_of name v area :
  (length name ≤ 63)%nat → (84 ≤ length area)%nat → length (helo_body_of name v area) = 84%nat.
Proof.
  intros Hn Ha. unfold helo_body_of. rewrite !length_app, length_words, !length_take, !length_drop.
  cbn [length]. lia.
Qed.

Lemma length_helo_body v area : (84 ≤ length area)%nat → length (helo_body v area) = 84%nat.
Proof. apply (length_helo_body_of helo_server_name). vm_compute. lia. Qed.

Definition helo_header_of (perror : Z) r s : ANSWER_HEADER :=
  mkAnswer 124 40 84 0 (rh_message_id r) TYPE_PROXY_HELO 0 (fget sessionID s) perror 0.
Definition helo_header r s : ANSWER_HEADER :=
  mkAnswer 124 40 84 0 (rh_message_id r) TYPE_PROXY_HELO 0 (fget sessionID s)
    PERROR_AUTH_REQUIRED 0.

Lemma helo_answering_run server_name perror r s os v name :
  (length server_name ≤ 63)%nat →
  wf_server s → decode_request (fget in_packet s) = Some r →
  helo_client r (fget in_packet s) = Some (os, v, name) → blen name < 64 →
  helo_answering server_name perror s =
    reply (helo_header_of perror r s) (helo_body_of server_name (fget local_version s) (payload_area s))
      (helo_remember os v name s).
Proof.
  intros Hsn Hwf Hr Hc Hn. hstart Hwf Hr. unfold helo_answering, helo_client in *.
  apply bind_Some in Hc as (os' & Hos & Hc).
  apply bind_Some in Hc as (ma & Hma & Hc).
  apply bind_Some in Hc as (mi & Hmi & Hc).
  apply bind_Some in Hc as (t & Ht & Hc).
  apply bind_Some in Hc as (nm & Hnm & [= -> <- ->]).
  assert (Hsp : splice (fget client_info_name s) 0 (name ++ [x00]) =
                Some (name ++ x00 :: drop (S (length name)) (ci_name (fget client_info s)))).
  { pose proof (wf_name s Hwf) as Hname.
    rewrite splice_Some by (rewrite ?blen_app; change (blen [x00]) with 1; lia).
    rewrite <- (assoc_L (++)). simpl. do 4 f_equal. rewrite length_app. simpl. lia. }
  repeat hstep.
  erewrite bind_done; [|by eapply packet_load_cstr]. cbv beta.
  erewrite bind_done; [|apply packet_store_name; exact Hsp]. cbv beta.
  repeat hstep.
  destruct (words_view 4 (drop 64 (payload_area s))) as (ws2 & Hl2 & Hw2).
  { rewrite length_drop, length_payload_area by done. lia. }
  do 4 (destruct ws2 as [|? ws2]; [done|]). destruct ws2; [|done].
  set (pre := (server_name ++ [x00]) ++ take (63 - length server_name) (drop (S (length server_name)) (payload_area s))).
  assert (Hpre : blen pre = 64).
  { unfold pre, blen. rewrite !length_app, length_take, length_drop, length_payload_area by done.
    cbn [length]. lia. }
  assert (Hfirst : splice (payload_area s) 0 (server_name ++ [x00]) =
                   Some (pre ++ words [z; z0; z1; z2] ++ drop 80 (payload_area s))).
  { set (n := S (length server_name)) in *. rewrite <- (take_drop n (payload_area s)) at 1.
    rewrite (splice_at _ [] (take n (payload_area s)) (drop n (payload_area s))); [|done..|].
    - unfold pre. rewrite <- (take_drop (63 - length server_name) (drop n (payload_area s))) at 1.
      rewrite app_nil_l, drop_drop, <- (assoc_L (++) (server_name ++ [x00])).
      replace (n + (63 - length server_name))%nat with 64%nat by lia. rewrite Hw2. by rewrite drop_drop.
    - rewrite length_take, length_payload_area, length_app by done. cbn [length]. lia. }
  erewrite bind_done; [|apply (packet_store_payload_at 0); [done|done|exact Hfirst]]. cbv beta.
  erewrite bind_done; [|apply (packet_store_payload_word 64 pre 0); [done|lia|simpl; lia]]. 
  cbv beta. repeat hstep.
  erewrite bind_done; [|apply (packet_store_payload_word 68 pre 1); [done|lia|simpl; lia]]. 
  cbv beta.
  erewrite bind_done; [|apply (packet_store_payload_word 72 pre 2); [done|lia|simpl; lia]]. 
  cbv beta.
  erewrite bind_done; [|apply (packet_store_payload_word 76 pre 3); [done|lia|simpl; lia]]. 
  cbv beta. 
  apply packet_reply; [done|..].
  - cbn [insert list_insert].
    assert (Hb : helo_body_of server_name (fget local_version s) (payload_area s) ++
                 drop (40 + 84) (fget out_packet s) =
                 pre ++ words [OS_TYPE_LINUX; major (fget local_version s);
                               minor (fget local_version s); AUTH_NO_AUTH] ++
                 drop 80 (payload_area s)).
    { unfold helo_body_of, pre. rewrite <- !(assoc_L (++)). do 4 f_equal.
      rewrite <- (take_drop 4 (drop 80 (payload_area s))) at 2. f_equal.
      unfold payload_area. by rewrite !drop_drop. }
    rewrite <- Hb at 1. rewrite length_helo_body_of; [done|done|].
    rewrite length_payload_area by done. lia.
  - unfold blen. rewrite length_helo_body_of; [done|done|].
    rewrite length_payload_area by done. lia.
  - unfold blen. rewrite length_helo_body_of; [done|done|].
    rewrite length_payload_area by done. lia.
Qed.

Lemma exec_proxy_helo_run r s os v name :
  wf_server s → decode_request (fget in_packet s) = Some r →
  helo_client r (fget in_packet s) = Some (os, v, name) → blen name < 64 →
  exec_proxy_helo s =
    reply (helo_header r s) (helo_body (fget local_version s) (payload_area s))
      (helo_remember os v name s).
Proof. apply (helo_answering_run helo_server_name PERROR_AUTH_REQUIRED). vm_compute. lia. Qed.


Lemma packet_load_cstr_fault off ws rest s :
  slice (fget in_packet s) off (blen (fget in_packet s) - off) ≫= cstr = None →
  load_cstr in_packet off (packet ws rest s) = (Faulted OutOfBounds, packet ws rest s).
Proof.
  intros Ht. unfold load_cstr, gets, mbind, M_bind, try, mret, M_ret.
  change (fget in_packet (packet ws rest s)) with (fget in_packet s).
  destruct (slice _ _ _) as [t|]; [|done]. simpl in Ht. by rewrite Ht.
Qed.

Lemma packet_store_name_fault name ws rest s :
  splice (fget client_info_name s) 0 (name ++ [x00]) = None →
  store_cstr client_info_name 0 name (packet ws rest s) =
    (Faulted OutOfBounds, packet ws rest s).
Proof.
  intros Hb. unfold store_cstr, store_bytes, gets, mbind, M_bind, try, mret, M_ret.
  change (fget client_info_name (packet ws rest s)) with (fget client_info_name s).
  by rewrite Hb.
Qed.

(** A name of 64 bytes or more overruns [client_info.name]. *)
Lemma exec_proxy_helo_overflow r s os v name :
  wf_server s → decode_request (fget in_packet s) = Some r →
  helo_client r (fget in_packet s) = Some (os, v, name) → 64 ≤ blen name →
  ∃ s', exec_proxy_helo s = (Faulted OutOfBounds, s').
Proof.
  intros Hwf Hr Hc Hn. eexists. hstart Hwf Hr. unfold exec_proxy_helo, helo_client in *.
  apply bind_Some in Hc as (os' & Hos & Hc).
  apply bind_Some in Hc as (ma & Hma & Hc).
  apply bind_Some in Hc as (mi & Hmi & Hc).
  apply bind_Some in Hc as (t & Ht & Hc).
  apply bind_Some in Hc as (nm & Hnm & [= -> <- ->]).
  repeat hstep.
  erewrite bind_done; [|by eapply packet_load_cstr]. cbv beta.
  apply bind_faulted, packet_store_name_fault, splice_None.
  change (blen (ci_name (fget client_info s)) < 0 + blen (name ++ [x00])).
  pose proof (wf_name s Hwf) as Hname. rewrite blen_app. simpl in Hname |- *.
  rewrite Hname. change (blen [x00]) with 1. lia.
Qed.

Lemma exec_proxy_helo_fault r s :
  wf_server s → decode_request (fget in_packet s) = Some r →
  helo_client r (fget in_packet s) = None →
  ∃ s', exec_proxy_helo s = (Faulted OutOfBounds, s').
Proof.
  intros Hwf Hr Hc. unfold helo_client in Hc.
  destruct (get_u32 _ (rh_header_len r + HELO.os)) as [os|] eqn:Hos.
  2:{ eexists. hstart Hwf Hr. unfold exec_proxy_helo. repeat hstep.
      by apply bind_faulted, packet_load_in_fault. }
  destruct (get_u32 _ (rh_header_len r + HELO.version_major)) as [ma|] eqn:Hma.
  2:{ eexists. hstart Hwf Hr. unfold exec_proxy_helo. repeat hstep.
      by apply bind_faulted, packet_load_in_fault. }
  destruct (get_u32 _ (rh_header_len r + HELO.version_minor)) as [mi|] eqn:Hmi.
  2:{ eexists. hstart Hwf Hr. unfold exec_proxy_helo. repeat hstep.
      by apply bind_faulted, packet_load_in_fault. }
  eexists. hstart Hwf Hr. unfold exec_proxy_helo. repeat hstep.
  apply bind_faulted, packet_load_cstr_fault.
  change (slice (fget in_packet s) (rh_header_len r + HELO.name)
            (blen (fget in_packet s) - (rh_header_len r + HELO.name)) ≫= cstr = None).
  cbn [mbind option_bind] in Hc. destruct (slice _ _ _) as [t|]; [|done]. simpl in *.
  by destruct (cstr t).
Qed.

(** ** AUTH *)
(** The checks of [ip_auth] and [up_auth] as predicates. *)
Definition private_address (a : Z) : bool :=
  (Z.land (ntohl a) 0xFFFF0000 =? 0xC0A80000) || (Z.land (ntohl a) 0xFF000000 =? 0x0A000000).

(** User name and password lie inside the data. *)
Definition userpass_data (b : list byte) : option (list byte * list byte) :=
  n ← get_u32 b 0;
  p ← get_u32 b 4;
  uname ← slice b sizeof_AUTH_USERPASS_DATA n;
  passwd ← slice b (sizeof_AUTH_USERPASS_DATA + n) p;
  Some (uname, passwd).

Lemma up_auth_run b s :
  up_auth b s = (match userpass_data b with
                 | Some _ => Done (-1) | None => Faulted OutOfBounds end, s).
Proof.
  unfold up_auth, userpass_data, try.
  destruct (get_u32 b 0) as [n|]; [|done].
  unfold mbind, M_bind, mret, M_ret. simpl.
  destruct (get_u32 b 4) as [p|]; [|done]. simpl.
  destruct (slice b _ n) as [u|]; [|done]. simpl.
  by destruct (slice b _ p) as [w|].
Qed.

Definition ip_auth_log s : server CS :=
  match sv_sockname s with
  | None => fset log (fget log s ++ [SyslogErrno ""]) s
  | Some _ => s
  end.
Definition ip_auth_verdict s : Z :=
  match sv_sockname s with
  | Some a => if private_address a then PERROR_NONE else PERROR_ACCESS_DENIED
  | None => PERROR_ACCESS_DENIED
  end.

(** The proxy error of the answer, and the state the check leaves. *)
Definition auth_verdict r s : option (Z * server CS) :=
  t ← get_u32 (fget in_packet s) (rh_header_len r);
  if negb (Z.land t AUTH_USERPASS =? 0) then
    d ← slice (fget in_packet s) (rh_header_len r + rh_body_len r) (rh_data_len r);
    up ← userpass_data d;
    Some (PERROR_ACCESS_DENIED, s)
  else if negb (Z.land t AUTH_BY_IP =? 0) then Some (ip_auth_verdict s, ip_auth_log s)
  else Some (PERROR_AUTH_TYPE_NOT_SUPPORTED, s).

Lemma packet_ip_auth ws rest s :
  ip_auth (packet ws rest s) =
    (Done (if ip_auth_verdict s =? PERROR_NONE then 0 else -1), packet ws rest (ip_auth_log s)).
Proof.
  unfold ip_auth, ip_auth_verdict, ip_auth_log. simpl fget.
  change (sv_sockname (packet ws rest s)) with (sv_sockname s).
  destruct (sv_sockname s) as [a|]; [|done].
  fold (private_address a). by destruct (private_address a).
Qed.

Definition auth_header r s (perror : Z) : ANSWER_HEADER :=
  mkAnswer 40 40 0 0 (rh_message_id r) TYPE_PROXY_AUTH 0
    (if decide (perror = PERROR_NONE) then fget sessionID s else 0) perror 0.

Lemma packet_load_in_bytes off n bs ws rest s :
  slice (fget in_packet s) off n = Some bs →
  load_bytes in_packet off n (packet ws rest s) = (Done bs, packet ws rest s).
Proof.
  intros Hb. unfold load_bytes, gets, mbind, M_bind, try, mret, M_ret.
  change (fget in_packet (packet ws rest s)) with (fget in_packet s). by rewrite Hb.
Qed.

(** The rest of the handler, once the verdict is in the header. *)
Definition auth_rest : M (server CS) Z :=
  set_head AH.header_len sizeof_ANSWER_HEADER;;
  set_head AH.body_len sizeof_empty_struct;;
  set_head AH.data_len 0;;
  set_message_len;;
  message_id ← request RH.message_id;
  set_head AH.message_id message_id;;
  set_head AH.message_type TYPE_PROXY_AUTH;;
  set_head AH.app_id 0;;
  proxy_error ← load32 out_packet AH.proxy_error;
  session ← gets sessionID;
  set_head AH.session_id
    (if negb (STD_AUTH_REQUIRED =? 0) && negb (proxy_error =? PERROR_NONE)
     then 0 else session);;
  set_head AH.capi_error 0x0000;;
  store32 in_packet RH.data_len 0;;
  send_out_packet.

(** [request->data_len = 0;] *)
Definition clear_data_len s : server CS :=
  fset in_packet (default (fget in_packet s)
    (splice (fget in_packet s) RH.data_len (le_split 4 0))) s.

Lemma auth_rest_run r m h b d i t a se pe ce s :
  wf_server s → decode_request (fget in_packet s) = Some r → 0 ≤ pe < 256 →
  auth_rest (packet [m; h; b; d; i; t; a; se; pe; ce] (payload_area s) s) =
    reply (auth_header r s pe) [] (clear_data_len s).
Proof.
  intros Hwf Hr Hpe. destruct (decode_request_fields _ _ Hr) as (?&?&?&?&?&?&?&?&?).
  unfold auth_rest. repeat hstep. unfold clear_data_len.
  assert (∃ x, splice (fget in_packet s) RH.data_len (le_split 4 0) = Some x) as [x Hx].
  { rewrite splice_Some; [eauto|done|]. rewrite (wf_in _ Hwf). done. }
  repeat hstep. rewrite Hx. unfold auth_header.
  rewrite (u32_small pe) by lia.
  case_decide as Hp.
  - subst pe. by apply packet_reply.
  - apply Z.eqb_neq in Hp. rewrite Hp. by apply packet_reply.
Qed.

Lemma wf_ip_auth_log s : wf_server s → wf_server (ip_auth_log s).
Proof. intros []. unfold ip_auth_log. simpl. by destruct (sv_sockname s). Qed.

Lemma ip_auth_log_area s :
  payload_area (ip_auth_log s) = payload_area s ∧
  fget in_packet (ip_auth_log s) = fget in_packet s ∧
  fget sessionID (ip_auth_log s) = fget sessionID s.
Proof. unfold ip_auth_log. simpl. by destruct (sv_sockname s). Qed.

Lemma exec_proxy_auth_run r s pe s' :
  wf_server s → decode_request (fget in_packet s) = Some r →
  auth_verdict r s = Some (pe, s') →
  exec_proxy_auth s = reply (auth_header r s pe) [] (clear_data_len s').
Proof.
  intros Hwf Hr Hv. hstart Hwf Hr. unfold exec_proxy_auth. fold auth_rest.
  unfold auth_verdict in Hv. apply bind_Some in Hv as (t & Ht & Hv). repeat hstep.
  destruct (negb (Z.land t AUTH_USERPASS =? 0)).
  { apply bind_Some in Hv as (d & Hd & Hv). apply bind_Some in Hv as (up & Hup & [= <- <-]).
    repeat hstep. erewrite bind_done; [|by apply packet_load_in_bytes]. cbv beta.
    rewrite bind_assoc. erewrite bind_done; [|by rewrite up_auth_run, Hup]. cbv beta.
    repeat hstep. by apply auth_rest_run. }
  destruct (negb (Z.land t AUTH_BY_IP =? 0)).
  - injection Hv as <- <-. repeat hstep.
    erewrite bind_done; [|apply packet_ip_auth]. cbv beta. repeat hstep.
    destruct (ip_auth_log_area s) as (Ha & Hi & Hs). rewrite <- Ha.
    replace (if negb _ then _ else _) with (ip_auth_verdict s).
    + erewrite auth_rest_run; [|by apply wf_ip_auth_log|by rewrite Hi|].
      * unfold auth_header. by rewrite Hs.
      * unfold ip_auth_verdict. by destruct (sv_sockname s); [case_match|].
    + unfold ip_auth_verdict. by destruct (sv_sockname s); [case_match|].
  - injection Hv as <- <-. repeat hstep. by apply auth_rest_run.
Qed.

Lemma packet_load_in_bytes_fault off n ws rest s :
  slice (fget in_packet s) off n = None →
  load_bytes in_packet off n (packet ws rest s) = (Faulted OutOfBounds, packet ws rest s).
Proof.
  intros Hb. unfold load_bytes, gets, mbind, M_bind, try, mret, M_ret.
  change (fget in_packet (packet ws rest s)) with (fget in_packet s). by rewrite Hb.
Qed.

Lemma exec_proxy_auth_fault r s :
  wf_server s → decode_request (fget in_packet s) = Some r →
  auth_verdict r s = None → ∃ s', exec_proxy_auth s = (Faulted OutOfBounds, s').
Proof.
  intros Hwf Hr Hv. eexists. hstart Hwf Hr. unfold exec_proxy_auth.
  unfold auth_verdict in Hv. repeat hstep.
  destruct (get_u32 _ (rh_header_len r)) as [t|] eqn:Ht.
  2:{ by apply bind_faulted, packet_load_in_fault. }
  cbn [mbind option_bind] in Hv. repeat hstep.
  destruct (negb (Z.land t AUTH_USERPASS =? 0)).
  2:{ by destruct (negb (Z.land t AUTH_BY_IP =? 0)). }
  repeat hstep. destruct (slice _ _ _) as [d|] eqn:Hd.
  2:{ by apply bind_faulted, packet_load_in_bytes_fault. }
  erewrite bind_done; [|by apply packet_load_in_bytes]. cbv beta.
  rewrite bind_assoc. apply bind_faulted. rewrite up_auth_run.
  simpl in Hv. by destruct (userpass_data d).
Qed.

(** ** SHUTDOWN *)
Lemma exec_proxy_shutdown_run excuse s :
  wf_server s → blen excuse < 128 →
  exec_proxy_shutdown excuse s =
    reply (mkAnswer 168 40 128 0 0 TYPE_PROXY_SHUTDOWN 0 (fget sessionID s) 0 0)
      (body 128 (excuse ++ [x00]) s) s.
Proof.
  intros Hwf He. assert (length (excuse ++ [x00]) ≤ 128)%nat.
  { rewrite length_app. unfold blen in He. simpl. lia. }
  unfold exec_proxy_shutdown, store_cstr.
  rewrite (packet_intro s) at 1 by (rewrite (wf_out _ Hwf); done). unfold out_words.
  fold (payload_area s). repeat hstep.
  - apply packet_reply_body; [done..|lia|done].
  - rewrite length_payload_area by done. lia.
Qed.
End proxy_spec.
