(* ===== verification/Handled.v ===== *)
(** * What every packet handler promises to the dispatcher

    [handled r s out]: a handler that was given the request [r] in the state [s]
    sends one well-formed answer to [r], or is silent, or runs into undefined
    behaviour; the invariant of the connection survives. *)
From stdpp Require Import gmap.
From S2P Require Import Prelude CMem Protocol Net Capi20 AppIndex Server Packet Exec.
#[local] Open Scope Z_scope.

Section handled.
Context `{CapiHeader} {CS : Type} `{Capi20 CS} `{!Capi20Laws CS}.
Implicit Types s : server CS.

(** The registry holds exactly the ids the library has registered. *)
Definition registry_ok s : Prop :=
  owned (fget capi s) = apps_set (fget registered_apps s).
Definition wf_memory (p : process) : Prop := ∀ s : server CS, wf_server (set_process p s).
Definition children_ok s : Prop :=
  Forall (λ ch, wf_memory (ch_memory ch)) (fget children s).

Record inv s : Prop := mkInv {
  inv_wf : wf_server s;
  inv_registry : registry_ok s;
  inv_children : children_ok s;
}.

(** Nothing received, nothing sent, the same session. *)
Definition quiet s s' : Prop :=
  fget sock s' = fget sock s ∧ fget sessionID s' = fget sessionID s.

Lemma quiet_refl s : quiet s s.
Proof. done. Qed.

Definition answers r (h : ANSWER_HEADER) : Prop :=
  ah_message_id h = rh_message_id r ∧ ah_message_type h = rh_message_type r.

Inductive handled r s : outcome Z * server CS → Prop :=
  | handled_reply h payload s1 :
      wf_frame (mkFrame h payload) → answers r h → 40 + blen payload ≤ PACKET_SIZE →
      inv s1 → quiet s s1 →
      handled r s (reply h payload s1)
  | handled_silent n s1 : inv s1 → quiet s s1 → handled r s (Done n, s1)
  | handled_fault f s1 : f ≠ Diverged → handled r s (Faulted f, s1).

Lemma wf_memory_process s : wf_server s → wf_memory (sv_process s).
Proof. intros [] s'. by constructor. Qed.

(** ** State changes that keep the invariant *)
Lemma inv_capi c s : inv s → owned c = owned (fget capi s) → inv (fset capi c s).
Proof.
  intros [Hwf Hreg Hch] Hc. split; [|unfold registry_ok in *; simpl in *; congruence|done].
  by destruct Hwf.
Qed.

Lemma inv_capi_same s : inv s → inv (fset capi (fget capi s) s).
Proof. intros. by apply inv_capi. Qed.

Lemma inv_client_info c s :
  inv s → blen (ci_name c) = 64 → inv (fset client_info c s).
Proof. intros [Hwf Hreg Hch] Hc. split; [|done|done]. by destruct Hwf. Qed.

Lemma inv_log l s : inv s → inv (fset log l s).
Proof. intros [Hwf Hreg Hch]. split; [|done|done]. by destruct Hwf. Qed.

Lemma inv_forks l s : inv s → inv (fset forks l s).
Proof. intros [Hwf Hreg Hch]. split; [|done|done]. by destruct Hwf. Qed.

Lemma inv_sock w s : inv s → inv (fset sock w s).
Proof. intros [Hwf Hreg Hch]. split; [|done|done]. by destruct Hwf. Qed.

Lemma inv_sock_open b s : inv s → inv (fset sock_open b s).
Proof. intros [Hwf Hreg Hch]. split; [|done|done]. by destruct Hwf. Qed.

Lemma inv_in_packet b s :
  inv s → blen b = PACKET_SIZE → inv (fset in_packet b s).
Proof. intros [Hwf Hreg Hch] Hb. split; [|done|done]. by destruct Hwf. Qed.

Lemma inv_out_packet b s :
  inv s → blen b = PACKET_SIZE → inv (fset out_packet b s).
Proof. intros [Hwf Hreg Hch] Hb. split; [|done|done]. by destruct Hwf. Qed.

Lemma inv_fork app mid s :
  inv s →
  inv (fset children (fget children s ++ [mkChild (sv_process s) app mid]) s).
Proof.
  intros [Hwf Hreg Hch]. split; [by destruct Hwf|done|].
  unfold children_ok in *. simpl in *. apply Forall_app. split; [done|].
  apply Forall_singleton. simpl. by apply wf_memory_process.
Qed.

Lemma inv_register id c s :
  inv s → 1 ≤ id ≤ CAPI_MAXAPPL → owned c = {[id]} ∪ owned (fget capi s) →
  inv (fset registered_apps (mark id Init.Byte.x01 (fget registered_apps s)) (fset capi c s)).
Proof.
  intros [[] Hreg Hch] Hid Hc. split; [constructor; try done| |done].
  - simpl in *. unfold mark, blen in *. by rewrite length_insert.
  - unfold registry_ok in *. simpl in *. rewrite Hc, Hreg, apps_set_mark by (done || lia). done.
Qed.

Lemma inv_release id c s :
  inv s → 0 ≤ id < blen (fget registered_apps s) →
  owned c = owned (fget capi s) ∖ {[id]} →
  inv (fset registered_apps (mark id x00 (fget registered_apps s)) (fset capi c s)).
Proof.
  intros [[] Hreg Hch] Hid Hc. split; [constructor; try done| |done].
  - simpl in *. unfold mark, blen in *. by rewrite length_insert.
  - unfold registry_ok in *. simpl in *. rewrite Hc, Hreg, apps_set_unmark by done. done.
Qed.

(** ** Replies *)
Lemma reply_state h payload s :
  (reply h payload s).2 =
    fset sock (send (encode_answer h ++ payload) (fget sock s)).2
      (fset out_packet
         (encode_answer h ++ payload ++ drop (40 + length payload) (fget out_packet s)) s).
Proof.
  unfold reply, zoom. simpl. by destruct (send _ _).
Qed.

Lemma inv_reply h payload s :
  inv s → 40 + blen payload ≤ PACKET_SIZE → inv (reply h payload s).2.
Proof.
  intros Hinv Hp. rewrite reply_state. apply inv_sock, inv_out_packet; [done|].
  pose proof (wf_out s (inv_wf s Hinv)) as Ho. rewrite !blen_app, blen_encode_answer.
  unfold blen, PACKET_SIZE, sizeof_ANSWER_HEADER in *. rewrite length_drop. lia.
Qed.

(** A frame is sent whole, in part, or not at all. *)
Lemma send_result bs w :
  rx (send bs w).2 = rx w ∧ rx_error (send bs w).2 = rx_error w ∧
  (tx (send bs w).2 = tx w ∨ ∃ n, tx (send bs w).2 = tx w ++ [take n bs]).
Proof.
  unfold send. destruct (tx_script w) as [|n script]; simpl; case_decide; eauto 6.
Qed.

Lemma send_complete bs w :
  tx_script w = [] → send bs w = (blen bs, mkNet (rx w) (rx_error w) (tx w ++ [bs]) []).
Proof.
  intros Hw. unfold send. rewrite Hw, decide_True by (unfold blen; lia).
  by rewrite take_ge by (unfold blen; lia).
Qed.

Lemma reply_complete h payload s :
  tx_script (fget sock s) = [] →
  reply h payload s = (Done (40 + blen payload), (reply h payload s).2).
Proof.
  intros Hs. unfold reply, zoom.
  change (fget sock (fset out_packet ?b s)) with (fget sock s).
  rewrite (send_complete _ (fget sock s)) by done.
  by rewrite blen_app, blen_encode_answer.
Qed.

(** ** Consequences of [handled] *)
Lemma handled_inv r s n s' : handled r s (Done n, s') → inv s'.
Proof.
  inversion 1 as [h payload s1 _ _ Hp Hi _ E| |]; subst; [|done].
  replace s' with (reply h payload s1).2 by (by rewrite E). by apply inv_reply.
Qed.

Lemma handled_rx r s n s' :
  handled r s (Done n, s') →
  rx (fget sock s') = rx (fget sock s) ∧ fget sessionID s' = fget sessionID s.
Proof.
  inversion 1 as [h payload s1 _ _ Hp Hi [Hq Hq'] E|? ? ? [Hq Hq']|]; subst.
  - replace s' with (reply h payload s1).2 by (by rewrite E). rewrite reply_state.
    rewrite (fget_fset (F:=sock)), (proj1 (send_result _ _)), Hq. done.
  - by rewrite Hq.
Qed.

Lemma handled_no_divergence r s out : handled r s out → out.1 ≠ Faulted Diverged.
Proof.
  inversion 1; subst; [|done|simpl; congruence].
  destruct (reply_returns h payload s1) as [n ->]. done.
Qed.

Lemma handled_no_exit r s out c : handled r s out → out.1 ≠ Exited c.
Proof.
  inversion 1; subst; [|done|done].
  destruct (reply_returns h payload s1) as [n ->]. done.
Qed.

(** At most one answer is sent: to this request, and a prefix of a frame. *)
Definition one_answer r s s' : Prop :=
  tx (fget sock s') = tx (fget sock s) ∨
  ∃ f n, wf_frame f ∧ answers r (fr_header f) ∧
         tx (fget sock s') = tx (fget sock s) ++ [take n (encode_frame f)].

Lemma handled_tx r s n s' : handled r s (Done n, s') → one_answer r s s'.
Proof.
  inversion 1 as [h payload s1 Hf Ha Hp Hi [Hq Hq'] E|? ? ? [Hq Hq']|]; subst.
  - replace s' with (reply h payload s1).2 by (by rewrite E). rewrite reply_state.
    unfold one_answer. rewrite (fget_fset (F:=sock)), <- Hq.
    destruct (send_result (encode_answer h ++ payload) (fget sock s1)) as (_ & _ & [->|[k ->]]).
    + by left.
    + right. by exists (mkFrame h payload), k.
  - left. by rewrite Hq.
Qed.
End handled.
