(* ===== verification/Handlers.v ===== *)
(** * Every handler keeps the promise of [handled]

    Each lemma splits on what the handler reads: on the paths where every
    access is inside its array it is one of the runs, on the others it faults. *)
From stdpp Require Import gmap.
From S2P Require Import Prelude CMem Protocol Net Capi20 AppIndex Server Packet Exec Proxy ExecSpec MessageSpec ProxySpec Handled.
#[local] Open Scope Z_scope.

Section handlers.
Context `{CapiHeader} {CS : Type} `{Capi20 CS} `{!Capi20Laws CS}.
Implicit Types s : server CS.

Lemma wf_frame_intro m h b d i t a se pe ce payload :
  h = 40 → m = 40 + blen payload → b + d = blen payload →
  wf_frame (mkFrame (mkAnswer m h b d i t a se pe ce) payload).
Proof.
  intros -> -> Hbd. split_and!; [done|done|]. unfold encode_frame. simpl fr_header.
  simpl fr_payload. by rewrite blen_app, blen_encode_answer.
Qed.

Lemma handled_reply_eq r s out h payload s1 :
  out = reply h payload s1 → answers r h → inv s1 → quiet s s1 →
  40 + blen payload ≤ PACKET_SIZE → wf_frame (mkFrame h payload) → handled r s out.
Proof. intros -> ?????. by constructor. Qed.

Lemma handled_oob r s out : (∃ s1, out = (Faulted OutOfBounds, s1)) → handled r s out.
Proof. intros [s1 ->]. by constructor. Qed.

Lemma blen_body n bs s :
  wf_server s → (n ≤ Z.to_nat 9960)%nat → blen (body n bs s) = Z.of_nat n.
Proof. intros. unfold blen. by rewrite length_body. Qed.

Ltac frame_ok :=
  apply wf_frame_intro; rewrite ?blen_body by (done || lia); done.

Lemma isinstalled_handled r s :
  inv s → decode_request (fget in_packet s) = Some r →
  rh_message_type r = TYPE_CAPI_INSTALLED → handled r s (exec_capi_isinstalled s).
Proof.
  intros Hi Hr Ht. pose proof (inv_wf s Hi).
  eapply handled_reply_eq; [by apply exec_capi_isinstalled_run|done|done|done|done|frame_ok].
Qed.

Lemma manufacturer_handled r s :
  inv s → decode_request (fget in_packet s) = Some r →
  rh_message_type r = TYPE_CAPI_MANUFACTURER → handled r s (exec_capi_manufacturer s).
Proof.
  intros Hi Hr Ht. pose proof (inv_wf s Hi).
  eapply handled_reply_eq; [by apply exec_capi_manufacturer_run|done|done|done| |frame_ok].
  by rewrite blen_body by (done || lia).
Qed.

Lemma serial_handled r s :
  inv s → decode_request (fget in_packet s) = Some r →
  rh_message_type r = TYPE_CAPI_SERIAL → handled r s (exec_capi_serial s).
Proof.
  intros Hi Hr Ht. pose proof (inv_wf s Hi).
  eapply handled_reply_eq; [by apply exec_capi_serial_run|done|done|done| |frame_ok].
  by rewrite blen_body by (done || lia).
Qed.

Lemma profile_handled r s :
  inv s → decode_request (fget in_packet s) = Some r →
  rh_message_type r = TYPE_CAPI_PROFILE → handled r s (exec_capi_profile s).
Proof.
  intros Hi Hr Ht. pose proof (inv_wf s Hi).
  destruct (capi20_get_profile (rh_controller_id r) (fget capi s)) eqn:Hp.
  eapply handled_reply_eq; [by eapply exec_capi_profile_run|done|done|done| |frame_ok].
  by rewrite blen_body by (done || lia).
Qed.

Lemma version_handled r s :
  inv s → decode_request (fget in_packet s) = Some r →
  rh_message_type r = TYPE_CAPI_VERSION → handled r s (exec_capi_version s).
Proof.
  intros Hi Hr Ht. pose proof (inv_wf s Hi).
  pose proof (version_length (rh_controller_id r) (fget capi s)) as Hv.
  eapply handled_reply_eq; [by apply exec_capi_version_run|done|done|done|..];
    [|apply wf_frame_intro; [done|..]];
    unfold blen in *; rewrite length_app, length_take, length_drop; unfold PACKET_SIZE; lia.
Qed.

Lemma register_handled r s :
  inv s → decode_request (fget in_packet s) = Some r →
  rh_message_type r = TYPE_CAPI_REGISTER → handled r s (exec_capi_register s).
Proof.
  intros Hi Hr Ht. pose proof (inv_wf s Hi) as Hwf.
  destruct (get_u32 (fget in_packet s) (rh_header_len r + REGISTER.maxLogicalConnection))
    as [a|] eqn:Ha.
  2:{ apply handled_oob. eexists. hstart Hwf Hr. unfold exec_capi_register. repeat hstep.
      by apply bind_faulted, packet_load_in_fault. }
  destruct (get_u32 (fget in_packet s) (rh_header_len r + REGISTER.maxBDataBlocks))
    as [b|] eqn:Hb.
  2:{ apply handled_oob. eexists. hstart Hwf Hr. unfold exec_capi_register. repeat hstep.
      by apply bind_faulted, packet_load_in_fault. }
  destruct (get_u32 (fget in_packet s) (rh_header_len r + REGISTER.maxBDataLen))
    as [l|] eqn:Hl.
  2:{ apply handled_oob. eexists. hstart Hwf Hr. unfold exec_capi_register. repeat hstep.
      by apply bind_faulted, packet_load_in_fault. }
  assert (∃ m, get_u32 (fget in_packet s) (rh_header_len r + REGISTER.messageBufferSize) = Some m)
    as [m Hm].
  { destruct (decode_request_fields _ _ Hr) as (_&Hh&_).
    apply get_le_bound in Hh. apply get_le_Some_inv in Ha as [_ Ha].
    unfold REGISTER.messageBufferSize, REGISTER.maxLogicalConnection in *.
    apply get_le_is_Some; lia. }
  destruct (capi20_register a b l (fget capi s)) as [[rc o] c'] eqn:Hreg.
  destruct (decide (rc = 0)) as [->|Hrc].
  - destruct (register_ok _ _ _ _ _ _ Hreg) as (id & -> & Hid & Hnew & Ho).
    pose proof (wf_apps s Hwf). pose proof CAPI_MAXAPPL_range.
    eapply handled_reply_eq; [eapply exec_capi_register_run; [done..|]| | | | |frame_ok]; try done.
    + change (default _ (Some id)) with id. rewrite u32_small by lia. lia.
    + apply inv_client_info; [|by apply (wf_name s Hwf)].
      change (default _ (Some id)) with id. rewrite u32_small by lia. by apply inv_register.
  - pose proof (register_error _ _ _ _ _ _ _ Hreg Hrc) as Ho.
    eapply handled_reply_eq; [eapply exec_capi_register_run; done| | | | |frame_ok]; try done.
    apply inv_client_info; [|by apply (wf_name s Hwf)].
    apply Z.eqb_neq in Hrc. rewrite Hrc.
    change (fget registered_apps s) with (fget registered_apps (fset capi c' s)).
    rewrite fset_fget. by apply inv_capi.
Qed.

Lemma release_handled r s :
  inv s → decode_request (fget in_packet s) = Some r →
  rh_message_type r = TYPE_CAPI_RELEASE → handled r s (exec_capi_release s).
Proof.
  intros Hi Hr Ht. pose proof (inv_wf s Hi) as Hwf.
  destruct (capi20_release (rh_app_id r) (fget capi s)) as [rc c'] eqn:Hrel.
  pose proof (wf_apps s Hwf). pose proof CAPI_MAXAPPL_range.
  destruct (decide (rc = 0)) as [->|Hrc].
  - assert (1 ≤ rh_app_id r ≤ CAPI_MAXAPPL).
    { pose proof (proj1 (release_owned _ _ _ _ Hrel) eq_refl) as Hin.
      rewrite (inv_registry s Hi) in Hin. apply elem_of_apps_set in Hin. tauto. }
    eapply handled_reply_eq; [eapply exec_capi_release_run; [done..|lia]| | | | |frame_ok];
      try done.
    apply inv_release; [done|lia|]. by eapply release_ok.
  - eapply handled_reply_eq; [eapply exec_capi_release_run; done| | | | |frame_ok]; try done.
    apply Z.eqb_neq in Hrc as Hrc'. rewrite Hrc'.
    change (fget registered_apps s) with (fget registered_apps (fset capi c' s)).
    rewrite fset_fget. apply inv_capi; [done|]. by eapply release_error.
Qed.

Lemma waitforsignal_handled r s :
  inv s → decode_request (fget in_packet s) = Some r →
  rh_message_type r = TYPE_CAPI_WAITFORSIGNAL → handled r s (exec_capi_waitforsignal s).
Proof.
  intros Hi Hr Ht. pose proof (inv_wf s Hi) as Hwf.
  destruct (decide (head (fget forks s) = Some false)) as [Hf|Hf].
  - destruct (fget forks s) as [|[] script] eqn:Hs; try done.
    eapply handled_reply_eq; [by eapply exec_capi_waitforsignal_failed|done| |done|done|frame_ok].
    by apply inv_log, inv_forks.
  - rewrite (exec_capi_waitforsignal_forked r) by done. constructor; [|done].
    apply (inv_fork _ _ (fset forks (tail (fget forks s)) s)). by apply inv_forks.
Qed.

(** ** The messages *)
Lemma getmessage_handled r s :
  inv s → decode_request (fget in_packet s) = Some r →
  rh_message_type r = TYPE_CAPI_GETMESSAGE → handled r s (exec_capi_getmessage s).
Proof.
  intros Hi Hr Ht. pose proof (inv_wf s Hi) as Hwf.
  destruct (capi20_get_message (rh_app_id r) (fget capi s)) as [[rc p] c'] eqn:Hg.
  assert (Hi' : inv (fset capi c' s)) by (apply inv_capi; [done|by eapply get_message_owned]).
  pose proof (get_message_code (rh_app_id r) (fget capi s)) as Hcode.
  rewrite Hg in Hcode. cbn [fst] in Hcode.
  destruct (decide (rc = 0)) as [->|Hrc].
  2:{ eapply handled_reply_eq;
        [eapply exec_capi_getmessage_error; try done|done|done|done|done|frame_ok].
      by rewrite u32_small by lia. }
  destruct (library_message c' p) as [m|] eqn:Hm.
  2:{ by eapply handled_oob, exec_capi_getmessage_unmapped. }
  destruct (decide (9960 < blen m)); [by eapply handled_oob, exec_capi_getmessage_overflow|].
  pose proof (blen_nonneg m).
  assert (Hpm : 40 + blen m ≤ PACKET_SIZE) by (unfold PACKET_SIZE; lia).
  destruct (decide (is_DATA_B3_IND m s)) as [Hd|Hd].
  2:{ eapply handled_reply_eq; [eapply exec_capi_getmessage_plain; done || lia|
        done|done|done|done|by apply wf_frame_intro]. }
  destruct (decide (blen m < 18)) as [Hl|Hl].
  { eapply handled_reply_eq; [eapply exec_capi_getmessage_short; done || lia|
        done|done|done|done|by apply wf_frame_intro]. }
  destruct (get_le_is_Some 2 m 16) as [len2 H2]; [done|lia|].
  destruct (get_le_is_Some 4 m 12) as [q Hq]; [done|lia|].
  destruct (capi20_memory c' q len2) as [d|] eqn:Hmem.
  2:{ eapply handled_oob, exec_capi_getmessage_data_unmapped; done || lia. }
  destruct (decide (9960 < blen m + len2)).
  { eapply handled_oob, exec_capi_getmessage_data_overflow; done || lia. }
  pose proof (capi20_memory_length _ _ _ _ Hmem).
  eapply handled_reply_eq; [eapply exec_capi_getmessage_data; done || lia|done|done|done|..].
  - rewrite blen_app. unfold PACKET_SIZE in *. lia.
  - apply wf_frame_intro; rewrite ?blen_app; lia.
Qed.

Lemma putmessage_handled r s :
  inv s → decode_request (fget in_packet s) = Some r →
  rh_message_type r = TYPE_CAPI_PUTMESSAGE → handled r s (exec_capi_putmessage s).
Proof.
  intros Hi Hr Ht. pose proof (inv_wf s Hi) as Hwf.
  destruct (put_result r s) as [res|] eqn:Hres.
  - rewrite (exec_capi_putmessage_run r s res) by done.
    unfold put_result in Hres. apply bind_Some in Hres as (k & Hk & Hres).
    assert (Hcall : ∀ b, blen b = PACKET_SIZE → handled r s (put_called r s b)).
    { intros b Hb. unfold put_called. destruct (capi20_put_message _ _ _ _ _) as [rc c'] eqn:Hp.
      constructor; [frame_ok|done|done| |done].
      apply (inv_capi c' (fset in_packet b s)); [by apply inv_in_packet|].
      by eapply put_message_owned. }
    destruct k as [why| |len1].
    + injection Hres as <-. constructor; [frame_ok|done|done|by apply inv_log|done].
    + injection Hres as <-. by apply Hcall, wf_in.
    + apply fmap_Some in Hres as (b & Hb & ->). apply Hcall.
      unfold blen. rewrite (splice_length _ _ _ _ Hb). by apply (wf_in s).
  - by eapply handled_oob, exec_capi_putmessage_fault.
Qed.

(** ** The proxy protocol *)
Lemma helo_handled r s :
  inv s → decode_request (fget in_packet s) = Some r →
  rh_message_type r = TYPE_PROXY_HELO → handled r s (exec_proxy_helo s).
Proof.
  intros Hi Hr Ht. pose proof (inv_wf s Hi) as Hwf.
  destruct (helo_client r (fget in_packet s)) as [[[os v] name]|] eqn:Hc.
  2:{ by eapply handled_oob, exec_proxy_helo_fault. }
  destruct (decide (64 ≤ blen name)); [by eapply handled_oob, exec_proxy_helo_overflow|].
  assert (Hb : blen (helo_body (fget local_version s) (payload_area s)) = 84).
  { unfold blen. rewrite length_helo_body; [done|]. rewrite length_payload_area by done. lia. }
  eapply handled_reply_eq; [eapply exec_proxy_helo_run; done || lia|done| |done|..].
  - apply inv_client_info; [done|]. pose proof (wf_name s Hwf) as Hn. simpl in *.
    unfold blen in *. rewrite length_app. cbn [length]. rewrite length_drop. lia.
  - by rewrite Hb.
  - apply wf_frame_intro; [done|by rewrite Hb..].
Qed.

Lemma auth_handled r s :
  inv s → decode_request (fget in_packet s) = Some r →
  rh_message_type r = TYPE_PROXY_AUTH → handled r s (exec_proxy_auth s).
Proof.
  intros Hi Hr Ht. pose proof (inv_wf s Hi) as Hwf.
  destruct (auth_verdict r s) as [[pe s']|] eqn:Hv.
  2:{ by eapply handled_oob, exec_proxy_auth_fault. }
  assert (Hs : s' = s ∨ s' = ip_auth_log s).
  { unfold auth_verdict in Hv. apply bind_Some in Hv as (t & _ & Hv).
    destruct (negb _); [|destruct (negb _); simplify_eq; auto].
    apply bind_Some in Hv as (d & _ & Hv). apply bind_Some in Hv as (u & _ & Hv).
    simplify_eq. auto. }
  assert (Hi' : inv s' ∧ quiet s s').
  { destruct Hs as [->| ->]; [done|]. unfold ip_auth_log.
    destruct (sv_sockname s); [done|]. split; [by apply inv_log|done]. }
  eapply handled_reply_eq; [by eapply exec_proxy_auth_run|done| |apply Hi'|done|frame_ok].
  apply inv_in_packet; [apply Hi'|]. pose proof (wf_in s' (inv_wf s' (proj1 Hi'))) as Hl.
  destruct (splice _ _ _) as [x|] eqn:Hx; [|done]. simpl.
  unfold blen. by rewrite (splice_length _ _ _ _ Hx).
Qed.
End handlers.
