(* ===== verification/CapifwdSpec.v ===== *)
(** * The connection: dispatcher, handling loop, registry *)
From stdpp Require Import gmap.
From S2P Require Import Prelude CMem Protocol Net Capi20 AppIndex Server Packet Exec Proxy Capifwd ExecSpec Handled Handlers.
#[local] Open Scope Z_scope.

Section capifwd_spec.
Context `{CapiHeader} {CS : Type} `{Capi20 CS} `{!Capi20Laws CS}.
Implicit Types s : server CS.

(** ** Dispatch *)
Lemma session_guard_handled r s m :
  inv s → decode_request (fget in_packet s) = Some r → handled r s (m s) →
  handled r s (session_guard m s).
Proof.
  intros Hi Hr Hm. destruct (decode_request_fields _ _ Hr) as (?&?&?&?&?&?&?&?&Hs).
  unfold session_guard.
  erewrite bind_done by (unfold request, load, gets, mbind, M_bind; simpl in *; by rewrite Hs).
  erewrite bind_done by done. case_match; [by constructor|done].
Qed.

(** The calls, and their handlers; the session id is checked first. *)
Definition capi_handlers : list (Z * M (server CS) Z) :=
  [(TYPE_CAPI_REGISTER, exec_capi_register); (TYPE_CAPI_RELEASE, exec_capi_release);
   (TYPE_CAPI_INSTALLED, exec_capi_isinstalled); (TYPE_CAPI_VERSION, exec_capi_version);
   (TYPE_CAPI_SERIAL, exec_capi_serial); (TYPE_CAPI_MANUFACTURER, exec_capi_manufacturer);
   (TYPE_CAPI_PROFILE, exec_capi_profile); (TYPE_CAPI_WAITFORSIGNAL, exec_capi_waitforsignal);
   (TYPE_CAPI_GETMESSAGE, exec_capi_getmessage); (TYPE_CAPI_PUTMESSAGE, exec_capi_putmessage)].

Lemma request_field s off v :
  get_u32 (fget in_packet s) off = Some v → request off s = (Done v, s).
Proof. intros Hv. unfold request, load, gets, mbind, M_bind. by rewrite Hv. Qed.

Lemma session_guard_run r s m :
  decode_request (fget in_packet s) = Some r →
  session_guard m s = if rh_session_id r =? fget sessionID s then m s else (Done 1, s).
Proof.
  intros Hr. destruct (decode_request_fields _ _ Hr) as (_&_&_&_&_&_&_&_&Hs).
  unfold session_guard. erewrite bind_done by (by apply request_field). cbv beta.
  erewrite bind_done by done. by destruct (_ =? _).
Qed.

Lemma dispatch_capi r s h :
  decode_request (fget in_packet s) = Some r → (rh_message_type r, h) ∈ capi_handlers →
  dispatch s = if rh_session_id r =? fget sessionID s then h s else (Done 1, s).
Proof.
  intros Hr Hin. rewrite <- session_guard_run by done.
  destruct (decode_request_fields _ _ Hr) as (_&_&_&_&_&Ht&_&_&_).
  unfold dispatch. erewrite bind_done by (by apply request_field). cbv beta.
  unfold capi_handlers in Hin. rewrite !elem_of_cons, elem_of_nil in Hin.
  destruct_or! Hin; injection Hin as -> ->; done.
Qed.

Lemma dispatch_helo r s :
  decode_request (fget in_packet s) = Some r → rh_message_type r = TYPE_PROXY_HELO →
  dispatch s = exec_proxy_helo s.
Proof.
  intros Hr Hty. destruct (decode_request_fields _ _ Hr) as (_&_&_&_&_&Ht&_&_&_).
  unfold dispatch. erewrite bind_done by (by apply request_field). by rewrite Hty.
Qed.

Lemma dispatch_auth r s :
  decode_request (fget in_packet s) = Some r → rh_message_type r = TYPE_PROXY_AUTH →
  dispatch s = exec_proxy_auth s.
Proof.
  intros Hr Hty. destruct (decode_request_fields _ _ Hr) as (_&_&_&_&_&Ht&_&_&_).
  unfold dispatch. erewrite bind_done by (by apply request_field). by rewrite Hty.
Qed.

Lemma dispatch_handled r s :
  inv s → decode_request (fget in_packet s) = Some r → handled r s (dispatch s).
Proof.
  intros Hi Hr. destruct (decode_request_fields _ _ Hr) as (?&?&?&?&?&Ht&?&?&?).
  unfold dispatch.
  erewrite bind_done by (unfold request, load, gets, mbind, M_bind; simpl in *; by rewrite Ht).
  cbv beta.
  repeat match goal with
  | |- handled _ _ ((if ?x =? ?y then _ else _) _) => destruct (Z.eqb_spec x y)
  end.
  - by apply helo_handled.
  - by apply auth_handled.
  - by constructor.
  - apply session_guard_handled; [done..|]. by apply register_handled.
  - apply session_guard_handled; [done..|]. by apply release_handled.
  - apply session_guard_handled; [done..|]. by apply isinstalled_handled.
  - apply session_guard_handled; [done..|]. by apply version_handled.
  - apply session_guard_handled; [done..|]. by apply serial_handled.
  - apply session_guard_handled; [done..|]. by apply manufacturer_handled.
  - apply session_guard_handled; [done..|]. by apply profile_handled.
  - apply session_guard_handled; [done..|]. by apply waitforsignal_handled.
  - apply session_guard_handled; [done..|]. by apply getmessage_handled.
  - apply session_guard_handled; [done..|]. by apply putmessage_handled.
  - apply (handled_silent _ _ 1 (fset log (fget log s ++ [Syslog "invalid message dispatched."]) s));
      [by apply inv_log|done].
Qed.

(** ** The end of a connection *)
Lemma check_received_alive n s : 0 < n → check_received n s = (Done tt, s).
Proof. intros Hn. unfold check_received. by replace (n <=? 0) with false by lia. Qed.

(** What the process leaves behind: closed socket, nothing registered. *)
Definition released s s' : Prop :=
  fget sock_open s' = false ∧ owned (fget capi s') = ∅ ∧ fget sock s' = fget sock s.

Lemma check_received_exit n s :
  inv s → n ≤ 0 → ∃ s', check_received n s = (Exited 0, s') ∧ released s s'.
Proof.
  intros Hi Hn. unfold check_received. replace (n <=? 0) with true by lia.
  change (when true ?m) with m. pose proof (inv_wf s Hi) as Hwf.
  erewrite bind_done by done. cbv beta.
  set (s1 := fset sock_open false s).
  destruct (release_all_spec registered_apps capi s1) as (l' & Hl' & Ha & Hrel);
    [by apply (wf_apps s)|].
  erewrite bind_done by exact Hrel. cbv beta.
  set (s2 := fset registered_apps l' _).
  assert (Ho : owned (fget capi s2) = ∅).
  { change (fget capi s2) with (release_ids (apps (fget registered_apps s)) (fget capi s)).
    pose proof (inv_registry s Hi) as Hreg. unfold registry_ok in Hreg.
    rewrite owned_release_ids.
    - rewrite Hreg. unfold apps_set. set_solver.
    - apply NoDup_apps.
    - intros id Hid. rewrite Hreg. unfold apps_set. by apply elem_of_list_to_set. }
  unfold when. case_match.
  - erewrite bind_done by done. eexists. split; [done|]. by split_and!.
  - erewrite bind_done by done. eexists. split; [done|]. by split_and!.
Qed.

(** ** Receiving *)
(** Same session, and nothing sent. *)
Definition same_tx s s' : Prop :=
  tx (fget sock s') = tx (fget sock s) ∧ fget sessionID s' = fget sessionID s.

Lemma server_recvn off size s :
  inv s → 0 ≤ off ≤ PACKET_SIZE → 0 ≤ size →
  match recvn sock in_packet off size s with
  | (Done n, s') => inv s' ∧ same_tx s s' ∧
      (n ≤ 0 ∨ n = size ∧ size ≤ blen (rx_bytes (fget sock s)) ∧
       rx_bytes (fget sock s') = drop (Z.to_nat size) (rx_bytes (fget sock s)))
  | (Faulted f, _) => f ≠ Diverged
  | (Exited _, _) => False
  end.
Proof.
  intros Hi Ho Hs. pose proof (wf_in s (inv_wf s Hi)) as Hl.
  pose proof (recvn_spec sock in_packet off size s ltac:(by rewrite Hl) Hs) as Hr.
  unfold recvn_returns in Hr.
  set (bs := take (Z.to_nat size) (rx_bytes (fget sock s))) in *.
  destruct (splice (fget in_packet s) off bs) as [b|] eqn:Hb; [|destruct Hr as [s' ->]; done].
  destruct Hr as (w' & Hw & ->). split_and!.
  - apply inv_in_packet; [by apply inv_sock|].
    unfold blen. by rewrite (splice_length _ _ _ _ Hb).
  - split; [|done]. simpl. by rewrite Hw.
  - case_decide as Hd; [right|left].
    + split_and!; [done|done|]. change (rx_bytes w' = drop (Z.to_nat size) (rx_bytes (fget sock s))).
      rewrite Hw, rx_bytes_advance. f_equal. unfold bs, blen in *. rewrite length_take. lia.
    + unfold eof_result. by case_match.
Qed.

Definition tx_answers s s' : Prop :=
  fget sessionID s' = fget sessionID s ∧
  (tx (fget sock s') = tx (fget sock s) ∨
   ∃ f n, wf_frame f ∧ tx (fget sock s') = tx (fget sock s) ++ [take n (encode_frame f)]).

Lemma when_log_inv b e s :
  inv s → ∃ s', when b (syslog e) s = (Done tt, s') ∧ inv s' ∧ fget sock s' = fget sock s ∧
    fget sessionID s' = fget sessionID s.
Proof.
  intros Hi. destruct b; simpl; eexists; (split; [done|]); split_and!; try done.
  by apply (inv_log (fget log s ++ [e])).
Qed.

(** One round: the invariant is kept, input is used up and at most one answer
    sent; or the process ends with nothing registered. *)
Lemma handle_message_post s :
  inv s →
  match handle_message s with
  | (Done _, s') => inv s' ∧ tx_answers s s' ∧
      (length (rx_bytes (fget sock s')) < length (rx_bytes (fget sock s)))%nat
  | (Exited c, s') => c = 0 ∧ tx (fget sock s') = tx (fget sock s) ∧
      fget sock_open s' = false ∧ owned (fget capi s') = ∅
  | (Faulted f, _) => f ≠ Diverged
  end.
Proof.
  intros Hi. unfold handle_message.
  pose proof (server_recvn 0 sizeof_REQUEST_HEADER s Hi ltac:(done) ltac:(done)) as H1.
  destruct (recvn sock in_packet 0 sizeof_REQUEST_HEADER s) as [[n|f|c] s1] eqn:E1;
    [|by erewrite bind_faulted by exact E1|done].
  erewrite bind_done by exact E1. cbv beta. destruct H1 as (Hi1 & [Ht1 Hs1] & Hn1).
  destruct (decide (n ≤ 0)) as [Hn|Hn].
  { destruct (check_received_exit n s1 Hi1 Hn) as (s2 & E2 & Ho & Hown & Hsock).
    erewrite bind_exited by exact E2. split_and!; [done| |done|done]. by rewrite Hsock. }
  destruct Hn1 as [?|(-> & Hlen & Hrx1)]; [done|].
  erewrite bind_done by (apply check_received_alive; done). cbv beta.
  destruct (decode_request_total (fget in_packet s1)) as (r & Hr & _ & _).
  { by rewrite (wf_in s1 (inv_wf s1 Hi1)). }
  destruct (decode_request_fields _ _ Hr) as (Hml&_).
  erewrite bind_done by (unfold request, load, gets, mbind, M_bind; simpl in *; by rewrite Hml).
  cbv beta.
  set (size := u32 (rh_message_len r - sizeof_REQUEST_HEADER)).
  pose proof (server_recvn sizeof_REQUEST_HEADER size s1 Hi1 ltac:(done)
                (proj1 (u32_range _))) as H2.
  destruct (recvn sock in_packet sizeof_REQUEST_HEADER size s1) as [[n|f|c] s2] eqn:E2;
    [|by erewrite bind_faulted by exact E2|done].
  erewrite bind_done by exact E2. cbv beta. destruct H2 as (Hi2 & [Ht2 Hs2] & Hn2).
  destruct (decide (n ≤ 0)) as [Hn'|Hn'].
  { destruct (check_received_exit n s2 Hi2 Hn') as (s3 & E3 & Ho & Hown & Hsock).
    erewrite bind_exited by exact E3. split_and!; [done| |done|done].
    by rewrite Hsock, Ht2. }
  destruct Hn2 as [?|(-> & Hlen2 & Hrx2)]; [done|].
  erewrite bind_done by (apply check_received_alive; lia). cbv beta.
  destruct (decode_request_total (fget in_packet s2)) as (r2 & Hr2 & _ & _).
  { by rewrite (wf_in s2 (inv_wf s2 Hi2)). }
  pose proof (dispatch_handled r2 s2 Hi2 Hr2) as Hd.
  destruct (dispatch s2) as [[n|f|c] s3] eqn:E3.
  - erewrite bind_done by exact E3. cbv beta.
    destruct (when_log_inv (n <? 1) (SyslogErrno "answer was not sent: ") s3
                (handled_inv _ _ _ _ Hd)) as (s4 & E4 & Hi4 & Hk4 & Hs4).
    rewrite E4. destruct (handled_rx _ _ _ _ Hd) as [Hrx Hses].
    split_and!; [done|split; [congruence|]|].
    + rewrite Hk4, <- Ht1, <- Ht2.
      destruct (handled_tx _ _ _ _ Hd) as [?|(f & k & ? & ? & ?)]; eauto.
    + rewrite Hk4. unfold rx_bytes at 1. rewrite Hrx. fold (rx_bytes (fget sock s2)).
      rewrite Hrx2, Hrx1, !length_drop. unfold sizeof_REQUEST_HEADER, blen in *. lia.
  - erewrite bind_faulted by exact E3. pose proof (handled_no_divergence _ _ _ Hd) as Hf.
    simpl in Hf. congruence.
  - exfalso. by apply (handled_no_exit _ _ _ c Hd).
Qed.

(** ** The handling loop *)
Definition frame_prefix (b : list byte) : Prop :=
  ∃ f n, wf_frame f ∧ b = take n (encode_frame f).
Definition tx_grows s s' : Prop :=
  ∃ l, tx (fget sock s') = tx (fget sock s) ++ l ∧ Forall frame_prefix l.

#[export] Instance tx_grows_preorder : PreOrder tx_grows.
Proof.
  split.
  - intros s. exists []. by rewrite app_nil_r.
  - intros s1 s2 s3 (l1 & E1 & F1) (l2 & E2 & F2). exists (l1 ++ l2).
    rewrite E2, E1, (assoc_L (++)). split; [done|]. by apply Forall_app.
Qed.

Lemma tx_answers_grows s s' : tx_answers s s' → tx_grows s s'.
Proof.
  intros [_ [E|(f & n & Hf & E)]]; [exists []; by rewrite app_nil_r|].
  exists [take n (encode_frame f)]. split; [done|]. apply Forall_singleton. by exists f, n.
Qed.

Lemma tx_same_grows s s' : tx (fget sock s') = tx (fget sock s) → tx_grows s s'.
Proof. intros E. exists []. by rewrite app_nil_r. Qed.

Lemma handling_loop_post fuel : ∀ s,
  inv s → (length (rx_bytes (fget sock s)) < fuel)%nat →
  match handling_loop fuel s with
  | (Done _, _) => False
  | (Exited c, s') => c = 0 ∧ fget sock_open s' = false ∧ owned (fget capi s') = ∅ ∧
      tx_grows s s'
  | (Faulted f, _) => f ≠ Diverged
  end.
Proof.
  induction fuel as [|fuel IH]; intros s Hi Hl; [lia|]. simpl handling_loop.
  pose proof (handle_message_post s Hi) as Hp.
  destruct (handle_message s) as [[[]|f|c] s1] eqn:E.
  - destruct Hp as (Hi1 & Ht & Hlt). erewrite bind_done by exact E. cbv beta.
    specialize (IH s1 Hi1 ltac:(lia)).
    destruct (handling_loop fuel s1) as [[[]|f|c] s2]; [done|done|].
    destruct IH as (-> & ? & ? & ?). split_and!; [done..|].
    etrans; [by apply tx_answers_grows|done].
  - by erewrite bind_faulted by exact E.
  - erewrite bind_exited by exact E. destruct Hp as (-> & Ht & ? & ?).
    split_and!; [done..|]. by apply tx_same_grows.
Qed.

(** ** Interleaving with the children *)
Inductive step : relation (server CS) :=
  | step_message s s' : handle_message s = (Done tt, s') → step s s'
  | step_child s pre ch post :
      fget children s = pre ++ ch :: post →
      step s (run_child ch (fset children (pre ++ post) s))
  | step_signal sig s s' : sigchild sig s = (Done tt, s') → step s s'.

Lemma run_child_post ch s :
  inv s → wf_memory (CS:=CS) (ch_memory ch) →
  inv (run_child ch s) ∧ tx_grows s (run_child ch s) ∧
  fget sessionID (run_child ch s) = fget sessionID s.
Proof. 
  intros Hi Hch. unfold run_child. set (s1 := set_process (ch_memory ch) s).
  destruct (capi20_waitformessage (ch_app_id ch) (fget capi s1)) as [rc c'] eqn:Hw.
  rewrite (waitforsignal_child_run _ _ s1 rc c' (Hch s) Hw). cbn [snd].
  set (h := mkAnswer _ _ _ _ _ _ _ _ _ _).
  assert (Hown : owned c' = owned (fget capi s)) by (by eapply waitformessage_owned in Hw).
  rewrite reply_state. destruct Hi as [Hwf Hreg Hc]. split_and!.
  - split; [by destruct Hwf| |done]. unfold registry_ok in *. simpl in *. congruence.
  - unfold tx_grows. change (fget sock (set_process (sv_process s) ?x)) with (fget sock x).
    rewrite (fget_fset (F:=sock)).
    change (fget sock (fset capi c' s1)) with (fget sock s).
    destruct (send_result (encode_answer h ++ []) (fget sock s)) as (_ & _ & [->|[n ->]]).
    + exists []. by rewrite app_nil_r.
    + exists [take n (encode_answer h ++ [])]. split; [done|]. apply Forall_singleton.
      exists (mkFrame h []), n. split; [|done]. by apply wf_frame_intro.
  - done.
Qed.

(** What holds in every reachable state. *)
Lemma step_post s s' :
  step s s' → inv s → inv s' ∧ tx_grows s s' ∧ fget sessionID s' = fget sessionID s.
Proof.
  intros Hstep Hi. destruct Hstep as [s s' E|s pre ch post E|sig s s' E].
  - pose proof (handle_message_post s Hi) as Hp. rewrite E in Hp.
    destruct Hp as (Hi' & Ht & _). split_and!; [done|by apply tx_answers_grows|apply Ht].
  - destruct Hi as [Hwf Hreg Hc]. unfold children_ok in Hc. rewrite E in Hc.
    apply Forall_app in Hc as [Hpre Hc]. apply Forall_cons in Hc as [Hch Hpost].
    apply (run_child_post ch (fset children (pre ++ post) s)); [|done].
    split; [by destruct Hwf|done|]. by apply Forall_app.
  - destruct sig; simpl in E; try done; injection E as <-;
      (split_and!; [by apply inv_log|by apply tx_same_grows|done]).
Qed.

(** ** One request in the stream *)
(** [recvn] of bytes that have all arrived. *)
Lemma server_recvn_bytes off bs rest b s :
  blen (fget in_packet s) = PACKET_SIZE → 0 ≤ off ≤ PACKET_SIZE →
  rx_bytes (fget sock s) = bs ++ rest → splice (fget in_packet s) off bs = Some b →
  ∃ w', w' ≡ advance (length bs) (fget sock s) ∧
    recvn sock in_packet off (blen bs) s =
      (Done (blen bs), fset in_packet b (fset sock w' s)).
Proof.
  intros Hl Ho Hrx Hb.
  pose proof (recvn_spec sock in_packet off (blen bs) s ltac:(by rewrite Hl)
                (blen_nonneg bs)) as Hr.
  unfold recvn_returns in Hr.
  rewrite Hrx, take_app_le, take_ge, Hb in Hr by (unfold blen; lia).
  destruct Hr as (w' & Hw & ->). exists w'. split; [done|].
  by rewrite decide_True by (rewrite blen_app; pose proof (blen_nonneg rest); lia).
Qed.

(** ... and overrun in_packet. *)
Lemma server_recvn_overrun off size s :
  blen (fget in_packet s) = PACKET_SIZE → 0 ≤ off ≤ PACKET_SIZE →
  PACKET_SIZE < off + size → PACKET_SIZE < off + blen (rx_bytes (fget sock s)) →
  ∃ s', recvn sock in_packet off size s = (Faulted OutOfBounds, s').
Proof.
  intros Hl Ho Hs Hrx.
  pose proof (recvn_spec sock in_packet off size s ltac:(by rewrite Hl) ltac:(lia)) as Hr.
  unfold recvn_returns in Hr. rewrite splice_None in Hr; [done|].
  rewrite Hl. unfold blen in *. rewrite length_take. lia.
Qed.

Definition after_header r (w : net) s : server CS :=
  fset in_packet (encode_request r ++ drop 36 (fget in_packet s)) (fset sock w s).

Lemma handle_message_header r rest s :
  wf_server s → wf_request r →
  rx_bytes (fget sock s) = encode_request r ++ rest →
  ∃ w, w ≡ advance 36 (fget sock s) ∧
    handle_message s =
      (numbytes ← recvn sock in_packet sizeof_REQUEST_HEADER
                   (u32 (rh_message_len r - sizeof_REQUEST_HEADER));
       check_received numbytes;;
       sentbytes ← dispatch;
       when (sentbytes <? 1) (syslog (SyslogErrno "answer was not sent: ")))
        (after_header r w s).
Proof.
  intros Hwf Hr Hrx. pose proof (wf_in s Hwf) as Hl.
  assert (Hb : splice (fget in_packet s) 0 (encode_request r) =
               Some (encode_request r ++ drop 36 (fget in_packet s))).
  { rewrite (splice_at _ [] (take 36 (fget in_packet s)) (drop 36 (fget in_packet s)));
      [done|by rewrite take_drop|done|].
    rewrite length_take, length_encode_request. unfold blen, PACKET_SIZE in Hl. lia. }
  destruct (server_recvn_bytes 0 (encode_request r) rest _ s Hl ltac:(done) Hrx Hb)
    as (w & Hw & E).
  rewrite length_encode_request in Hw. exists w. split; [done|].
  unfold handle_message. rewrite blen_encode_request in E.
  erewrite bind_done by exact E. cbv beta.
  erewrite bind_done by (apply check_received_alive; done). cbv beta.
  destruct (decode_request_fields _ _ (proj2 (decode_request_encode r
    (drop 36 (fget in_packet s))) Hr)) as (Hm&_).
  erewrite bind_done; [done|]. unfold request, load.
  erewrite bind_done by done. change (fget in_packet (fset in_packet ?b ?x)) with b.
  by rewrite Hm.
Qed.

(** The whole request is in in_packet when it is dispatched. *)
Lemma handle_message_request r data rest s :
  wf_server s → wf_request r →
  rx_bytes (fget sock s) = encode_request r ++ data ++ rest →
  rh_message_len r = sizeof_REQUEST_HEADER + blen data →
  0 < blen data → sizeof_REQUEST_HEADER + blen data ≤ PACKET_SIZE →
  ∃ w, w ≡ advance (36 + length data) (fget sock s) ∧
    handle_message s =
      (sentbytes ← dispatch;
       when (sentbytes <? 1) (syslog (SyslogErrno "answer was not sent: ")))
        (fset in_packet (encode_request r ++ data ++
           drop (36 + length data) (fget in_packet s)) (fset sock w s)).
Proof.
  intros Hwf Hr Hrx Hm Hd Hsize.
  destruct (handle_message_header r (data ++ rest) s Hwf Hr Hrx) as (w & Hw & ->).
  pose proof (wf_in s Hwf) as Hl.
  unfold sizeof_REQUEST_HEADER, PACKET_SIZE in *.
  replace (u32 (rh_message_len r - 36)) with (blen data) by (rewrite u32_small; lia).
  assert (Hrx' : rx_bytes (fget sock (after_header r w s)) = data ++ rest).
  { change (rx_bytes w = data ++ rest).
    rewrite Hw, rx_bytes_advance, Hrx, drop_app_ge by (by rewrite length_encode_request).
    by rewrite length_encode_request. }
  destruct (server_recvn_bytes 36 data rest
    (encode_request r ++ data ++ drop (36 + length data) (fget in_packet s))
    (after_header r w s)) as (w' & Hw' & E); [| |exact Hrx'| |].
  - change (blen (encode_request r ++ drop 36 (fget in_packet s)) = 10000).
    rewrite blen_app, blen_encode_request. unfold blen, sizeof_REQUEST_HEADER in *.
    rewrite length_drop. lia.
  - done.
  - change (fget in_packet (after_header r w s)) with
      (encode_request r ++ drop 36 (fget in_packet s)).
    rewrite (splice_at _ (encode_request r) (take (length data) (drop 36 (fget in_packet s)))
               (drop (length data) (drop 36 (fget in_packet s)))).
    + by rewrite drop_drop.
    + by rewrite take_drop.
    + by rewrite blen_encode_request.
    + rewrite length_take, length_drop. unfold blen in *. lia.
  - exists w'. split.
    { change (fget sock (after_header r w s)) with w in Hw'.
      eapply advance_advance; [exact Hw|exact Hw']. }
    erewrite bind_done by exact E. cbv beta.
    erewrite bind_done by (by apply check_received_alive). done.
Qed.
End capifwd_spec.
