(* ===== verification/Demo.v ===== *)
(** * A small CAPI library

    An instance of the interfaces of [Capi20] on which the theorems are
    evaluated: ids are given out from 1 upwards, messages put are kept, one
    message is waiting, and it lies at a fixed address. *)
From stdpp Require Import gmap.
From S2P Require Import Prelude CMem Protocol Net Capi20 AppIndex Server.
#[local] Open Scope Z_scope.

#[global, refine] Instance demo_header : CapiHeader := {| CAPI_MAXAPPL := 240 |}.
Proof. done. Defined.

Record demo := mkDemo {
  demo_ids : list Z;               (**r registered *)
  demo_put : list (Z * list byte); (**r messages received, with their data *)
  demo_memory : list byte;         (**r memory of the library, from [demo_base] on *)
  demo_waiting : bool;             (**r is there a message for the application *)
}.

Definition demo_base := 0x8000.
Definition demo_free (ids : list Z) : option Z := head (filter (λ i, i ∉ ids) (seqZ 1 240)).

Definition demo_register (a b l : Z) (c : demo) : Z * option Z * demo :=
  match demo_free (demo_ids c) with
  | Some id => (0, Some id, mkDemo (id :: demo_ids c) (demo_put c) (demo_memory c) (demo_waiting c))
  | None => (0x1001, None, c)
  end.

Definition demo_release (id : Z) (c : demo) : Z * demo :=
  if decide (id ∈ demo_ids c)
  then (0, mkDemo (filter (λ i, i ≠ id) (demo_ids c)) (demo_put c) (demo_memory c) (demo_waiting c))
  else (0x1101, c).

(** The message and, for a DATA_B3_REQ, the data its pointer leads to. *)
Definition demo_read (base : Z) (mem : list byte) (off : Z) : option (list byte) :=
  len ← get_u16 mem off;
  m ← slice mem off len;
  cmd1 ← get_u8 m 4;
  cmd2 ← get_u8 m 5;
  if (cmd1 =? 0x86) && (cmd2 =? 0x80) then
    p ← get_u32 m 12;
    n ← get_u16 m 16;
    d ← slice mem (p - base) n;
    Some (m ++ d)
  else Some m.

Definition demo_put_message (id base : Z) (mem : list byte) (off : Z) (c : demo) : Z * demo :=
  if decide (id ∈ demo_ids c) then
    match demo_read base mem off with
    | Some bs => (0, mkDemo (demo_ids c) (demo_put c ++ [(id, bs)]) (demo_memory c) (demo_waiting c))
    | None => (0x1102, c)
    end
  else (0x1101, c).

Definition demo_get_message (id : Z) (c : demo) : Z * Z * demo :=
  if demo_waiting c
  then (0, demo_base, mkDemo (demo_ids c) (demo_put c) (demo_memory c) false)
  else (0x1104, 0, c).

Definition demo_version : list byte := words [2; 0; 3; 11].

#[global, refine] Instance demo_capi20 : Capi20 demo := {|
  capi20_register := demo_register;
  capi20_release := demo_release;
  capi20_put_message := demo_put_message;
  capi20_get_message := demo_get_message;
  capi20_waitformessage := (λ id c, (0, c));
  capi20_isinstalled := λ c, 0;
  capi20_get_manufacturer := λ ctrl c, (bytes_of_string "AVM GmbH" ++ [x00])%list;
  capi20_get_version := λ ctrl c, demo_version;
  capi20_get_serial_number := λ ctrl c, (bytes_of_string "1000001" ++ [x00])%list;
  capi20_get_profile := (λ ctrl c, (0, words [1]));
  capi20_memory := λ c a n, slice (demo_memory c) (a - demo_base) n;
|}.
Proof. intros c a n bs Hs. by eapply slice_length. Defined.

Lemma demo_free_spec ids id : demo_free ids = Some id → id ∉ ids ∧ 1 ≤ id ≤ 240.
Proof.
  unfold demo_free. intros Hh. apply head_Some_elem_of in Hh.
  apply list_elem_of_filter in Hh as [Hn Hs]. apply elem_of_seqZ in Hs. split; [done|lia].
Qed.

Definition demo_owned (c : demo) : gset Z := list_to_set (demo_ids c).

Lemma demo_owned_release id c rc c' :
  demo_release id c = (rc, c') →
  (rc = 0 ↔ id ∈ demo_owned c) ∧
  (if decide (rc = 0) then demo_owned c' = demo_owned c ∖ {[id]} else demo_owned c' = demo_owned c).
Proof.
  unfold demo_release, demo_owned. intros E. rewrite elem_of_list_to_set.
  case_decide; simplify_eq; simpl; (split; [done|]); [|done].
  apply set_eq. intros j. rewrite elem_of_difference, !elem_of_list_to_set, list_elem_of_filter.
  rewrite elem_of_singleton. tauto.
Qed.

#[global] Program Instance demo_laws : Capi20Laws demo := {| owned := demo_owned |}.
Next Obligation.
  intros a b l c o c'. simpl. unfold demo_register.
  destruct (demo_free (demo_ids c)) as [id|] eqn:E; [|done]. intros [= <- <-].
  apply demo_free_spec in E as [Hn Hr]. exists id. split_and!; try done; try lia.
  unfold demo_owned. by rewrite elem_of_list_to_set.
Qed.
Next Obligation.
  intros a b l c rc o c'. simpl. unfold demo_register.
  by destruct (demo_free (demo_ids c)); intros [= <- <- <-].
Qed.
Next Obligation. intros id c rc c' E. by apply (demo_owned_release id c rc c'). Qed.
Next Obligation. intros id c c' E. by apply demo_owned_release in E as [_ E]. Qed.
Next Obligation.
  intros id c rc c' E Hrc. apply demo_owned_release in E as [_ E].
  by rewrite decide_False in E.
Qed.
Next Obligation.
  intros id base mem off c rc c'. simpl. unfold demo_put_message.
  repeat case_match; intros [= <- <-]; done.
Qed.
Next Obligation.
  intros id c rc p c'. simpl. unfold demo_get_message. case_match; by intros [= <- <- <-].
Qed.
Next Obligation. intros. vm_compute. done. Qed.
Next Obligation. done. Qed.
Next Obligation. intros. vm_compute. done. Qed.
Next Obligation. intros. vm_compute. done. Qed.
Next Obligation. intros id c rc c' E. by simplify_eq/=. Qed.
Next Obligation. intros a b l c. simpl. unfold demo_register. by case_match. Qed.
Next Obligation. intros id c. simpl. unfold demo_release. by case_match. Qed.
Next Obligation. intros. simpl. unfold demo_put_message. by repeat case_match. Qed.
Next Obligation. intros id c. simpl. unfold demo_get_message. by case_match. Qed.
Next Obligation. done. Qed.
Next Obligation. done. Qed.
Next Obligation. done. Qed.

(** ** A connection handler of session 3 *)
Definition demo_process (ids : list Z) : process := {|
  p_sessionID := 3;
  p_local_version := mkVersion MY_MAJOR MY_MINOR;
  p_client_info := mkClientInfo 0 (mkVersion 0 0) (replicate 64 x00) 0;
  p_in_packet_address := 0x1000;
  p_in_packet := replicate (Z.to_nat PACKET_SIZE) x00;
  p_out_packet := replicate (Z.to_nat PACKET_SIZE) x00;
  p_registered_apps := foldr (λ i l, mark i Init.Byte.x01 l) (replicate 241 x00) ids;
  p_sock_open := true;
|}.

(** [segs] is to arrive, the library has registered [ids], holds [mem] in its
    memory and a message iff [waiting]. *)
Definition demo_start (segs : list (list byte)) (ids : list Z) (mem : list byte) (waiting : bool)
    : server demo := {|
  sv_process := demo_process ids;
  sv_sock := mkNet segs false [] [];
  sv_capi := mkDemo ids [] mem waiting;
  sv_sockname := Some 0x0100A8C0;   (**r 192.168.0.1 *)
  sv_forks := [];
  sv_children := [];
  sv_log := [];
|}.

Definition demo_request (len message_id type app : Z) : REQUEST_HEADER :=
  mkRequest len 36 0 (len - 36) message_id type app 1 3.

(** in_packet starts with [b]. *)
Definition demo_in (b : list byte) (s : server demo) : server demo :=
  fset in_packet (b ++ drop (length b) (fget in_packet s)) s.

(** ** Requests and the states in which they arrive *)
Definition register_request : REQUEST_HEADER := mkRequest 52 36 16 0 7 TYPE_CAPI_REGISTER 0 0 3.
Definition register_data : list byte := words [1000; 2; 7; 128].
Definition register_state : server demo :=
  demo_start [encode_request register_request; register_data] [1] [] false.

Definition register_in : server demo :=
  demo_in (encode_request register_request ++ register_data) register_state.

Definition release_request := demo_request 37 8 TYPE_CAPI_RELEASE 2.
Definition release_state := demo_start [encode_request release_request; [x00]] [2; 1] [] false.

Definition query_request := demo_request 37 9 TYPE_CAPI_MANUFACTURER 0.
Definition query_state := demo_start [encode_request query_request ++ [x00]] [] [] false.

Definition version_request := demo_request 37 10 TYPE_CAPI_VERSION 0.
Definition version_state := demo_start [encode_request version_request ++ [x00]] [] [] false.

(** A DATA_B3 message ([sub] is 0x80 for the request, 0x82 for the indication)
    with its data behind it. *)
Definition data_b3 (sub pointer : Z) : list byte :=
  le_split 2 22 ++ le_split 2 1 ++ [byte.of_Z 0x86; byte.of_Z sub] ++ le_split 2 5 ++
  le_split 4 1 ++ le_split 4 pointer ++ le_split 2 3 ++ le_split 2 0 ++ le_split 2 0.
Definition data_bytes : list byte := map byte.of_Z [11; 22; 33].

Definition getmessage_request := demo_request 37 11 TYPE_CAPI_GETMESSAGE 1.
Definition getmessage_state :=
  demo_start [encode_request getmessage_request ++ [x00]] [1]
    (data_b3 0x82 (demo_base + 22) ++ data_bytes) true.
(** A message of 9970 bytes. *)
Definition long_message : list byte := le_split 2 9970 ++ replicate (Z.to_nat 9968) x00.
Definition overrun_state :=
  demo_in (encode_request getmessage_request) (demo_start [] [1] long_message true).

Definition refused_request := mkRequest 44 36 0 4 12 TYPE_CAPI_PUTMESSAGE 1 0 3.
Definition refused_state :=
  demo_start [encode_request refused_request ++ replicate 8 x00] [1] [] false.

Definition put_request := mkRequest 61 36 0 25 13 TYPE_CAPI_PUTMESSAGE 1 0 3.
Definition put_data := data_b3 0x80 0x12345678 ++ data_bytes.
Definition put_state := demo_start [encode_request put_request; put_data] [1] [] false.

Definition foreign_request := mkRequest 37 36 0 1 14 TYPE_CAPI_RELEASE 1 0 9.
Definition foreign_state := demo_start [encode_request foreign_request ++ [x00]] [1] [] false.

Definition bare_request := demo_request 36 15 TYPE_CAPI_VERSION 0.
Definition bare_state := demo_start [encode_request bare_request] [1] [] false.

Definition oversize_request := demo_request 20000 16 TYPE_CAPI_PUTMESSAGE 1.
Definition oversize_rest : list byte := replicate (Z.to_nat 9965) x00.
Definition oversize_state :=
  demo_start [encode_request oversize_request ++ oversize_rest] [1] [] false.

Definition auth_request := mkRequest 40 36 4 0 17 TYPE_PROXY_AUTH 0 0 0.
Definition auth_data := words [AUTH_BY_IP].
Definition auth_state := demo_start [encode_request auth_request ++ auth_data] [] [] false.

Definition helo_request := mkRequest 112 36 76 0 18 TYPE_PROXY_HELO 0 0 0.
Definition helo_data := bytes_of_string "c2pclient" ++ replicate 55 x00 ++ words [2; 1; 2].
Definition helo_state := demo_start [encode_request helo_request ++ helo_data] [] [] false.

Definition wait_request := demo_request 37 19 TYPE_CAPI_WAITFORSIGNAL 1.
Definition wait_state := demo_start [encode_request wait_request ++ [x00]] [1] [] false.
