(* ===== verification/Served.v ===== *)
(** * Requests on the wire and their answers

    What a client that sends one complete request sees: the handler runs of
    the *Spec files behind the receive path of the connection. *)
From stdpp Require Import gmap.
From S2P Require Import Prelude CMem Protocol Net Capi20 AppIndex Server Packet Exec Proxy Capifwd ExecSpec MessageSpec ProxySpec Handled Handlers CapifwdSpec.
#[local] Open Scope Z_scope.

(** The next bytes of the stream are the request [r] with the payload [data]. *)
Record arrives {CS} (r : REQUEST_HEADER) (data rest : list byte) (s : server CS) : Prop := {
  arr_wf : wf_request r;
  arr_rx : rx_bytes (fget sock s) = encode_request r ++ data ++ rest;
  arr_len : rh_message_len r = sizeof_REQUEST_HEADER + blen data;
  arr_payload : 0 < blen data;
  arr_fits : sizeof_REQUEST_HEADER + blen data ≤ PACKET_SIZE;
}.

Section served.
Context `{CapiHeader} {CS : Type} `{Capi20 CS}.
Implicit Types s : server CS.

(** The state in which the request is dispatched. *)
Definition received r data (w : net) s : server CS :=
  fset in_packet (encode_request r ++ data ++ drop (36 + length data) (fget in_packet s))
    (fset sock w s).

Lemma received_packet r data w s :
  wf_server s → 36 + Z.of_nat (length data) ≤ PACKET_SIZE →
  wf_server (received r data w s).
Proof.
  intros [Hi ? ? ? ?] Hd. constructor; try done.
  change (fget in_packet (received r data w s)) with
    (encode_request r ++ data ++ drop (36 + length data) (fget in_packet s)).
  rewrite !blen_app, blen_encode_request. unfold blen, PACKET_SIZE, sizeof_REQUEST_HEADER in *.
  rewrite length_drop. lia.
Qed.

Lemma received_request r data w s :
  wf_request r → decode_request (fget in_packet (received r data w s)) = Some r.
Proof. intros Hr. by apply decode_request_encode. Qed.

(** A field of the payload. *)
Lemma received_payload n r data w s off v :
  0 ≤ off → get_le n data off = Some v →
  get_le n (fget in_packet (received r data w s)) (36 + off) = Some v.
Proof.
  intros Ho Hv. change (fget in_packet (received r data w s)) with
    (encode_request r ++ data ++ drop (36 + length data) (fget in_packet s)).
  rewrite <- (blen_encode_request r : _ = 36), get_le_app_r by done. by apply get_le_app_l.
Qed.

(** The answer has gone out; nothing else happened to the socket. *)
Definition answered h payload (s s' : server CS) rest : Prop :=
  tx (fget sock s') = tx (fget sock s) ++ [encode_answer h ++ payload] ∧
  rx_bytes (fget sock s') = rest.

Lemma handle_message_reply_net r data rest s h payload (s1 : net → server CS) :
  wf_server s → arrives r data rest s → tx_script (fget sock s) = [] →
  (∀ w, dispatch (received r data w s) = reply h payload (s1 w)) →
  (∀ w, fget sock (s1 w) = w) →
  ∃ w s', tx_script w = [] ∧ handle_message s = (Done tt, s') ∧ answered h payload s s' rest ∧
    s' = (reply h payload (s1 w)).2.
Proof.
  intros Hwf [Hr Hrx Hm Hd Hs] Hscript Hreply Hsock.
  destruct (handle_message_request r data rest s Hwf Hr Hrx Hm Hd Hs) as (w & Hw & E).
  fold (received r data w s) in E. exists w, (reply h payload (s1 w)).2.
  assert (Hws : tx_script w = []) by (destruct Hw as (_ & _ & _ & ->); done).
  assert (Hsend : reply h payload (s1 w) =
    (Done (40 + blen payload), (reply h payload (s1 w)).2)).
  { apply reply_complete. by rewrite Hsock. }
  pose proof (blen_nonneg payload). split_and!; [done| | |done].
  - rewrite E. erewrite bind_done by (rewrite Hreply; exact Hsend). cbv beta.
    by replace (40 + blen payload <? 1) with false by lia.
  - pose proof (tx_proper _ _ Hw) as Htx. pose proof (rx_bytes_proper _ _ Hw) as Hrxw.
    rewrite rx_bytes_advance, Hrx, (assoc_L (++)), drop_app_length' in Hrxw
      by (by rewrite length_app, length_encode_request).
    unfold answered. rewrite reply_state, (fget_fset (F:=sock)), Hsock, send_complete by done.
    cbn [snd tx]. split; [by rewrite Htx|exact Hrxw].
Qed.

Lemma handle_message_reply r data rest s h payload (s1 : net → server CS) :
  wf_server s → arrives r data rest s → tx_script (fget sock s) = [] →
  (∀ w, dispatch (received r data w s) = reply h payload (s1 w)) →
  (∀ w, fget sock (s1 w) = w) →
  ∃ w s', handle_message s = (Done tt, s') ∧ answered h payload s s' rest ∧
    s' = (reply h payload (s1 w)).2.
Proof.
  intros. edestruct handle_message_reply_net as (w & s' & _ & H'); [done..|]. by exists w, s'.
Qed.

(** A CAPI call in the right session that its handler answers. *)
Lemma served_call r data rest s h payload (s1 : net → server CS) handler :
  wf_server s → arrives r data rest s → tx_script (fget sock s) = [] →
  (rh_message_type r, handler) ∈ capi_handlers → rh_session_id r = fget sessionID s →
  (∀ w, wf_server (received r data w s) →
     decode_request (fget in_packet (received r data w s)) = Some r →
     handler (received r data w s) = reply h payload (s1 w)) →
  (∀ w, fget sock (s1 w) = w) →
  ∃ w s', handle_message s = (Done tt, s') ∧ answered h payload s s' rest ∧
    s' = (reply h payload (s1 w)).2.
Proof.
  intros Hwf Harr Hscript Hh Hs Hrun Hsock.
  apply (handle_message_reply r data rest); [done..| |done].
  intros w. pose proof (received_request r data w s (arr_wf _ _ _ _ Harr)) as Hr.
  erewrite dispatch_capi; [|exact Hr|exact Hh].
  change (fget sessionID (received r data w s)) with (fget sessionID s).
  rewrite Hs, Z.eqb_refl. apply Hrun; [|done].
  apply received_packet; [done|apply Harr].
Qed.
End served.

(** * Requests on the wire: the runs that several theorems share

    A DATA_B3_REQ behind a body of any size, REGISTER, GETMESSAGE without a
    message, HELO, and an AUTH of a type the server does not know. *)
Section served_calls.
Context `{CapiHeader} {CS : Type} `{Capi20 CS} `{!Capi20Laws CS}.
Implicit Types s : server CS.

(** The payload in in_packet. *)
Lemma received_slice r data w s k n :
  0 ≤ k → 0 ≤ n → k + n ≤ blen data →
  slice (fget in_packet (received r data w s)) (36 + k) n = slice data k n.
Proof.
  intros Hk Hn Hle. change (fget in_packet (received r data w s)) with
    (encode_request r ++ data ++ drop (36 + length data) (fget in_packet s)).
  rewrite <- (blen_encode_request r : _ = 36), slice_app_r by done.
  rewrite (slice_Some data) by lia. apply slice_app_l. by apply slice_Some.
Qed.

(** A well-formed DATA_B3_REQ behind a body of [k] bytes. *)
Record put_data_request (r : REQUEST_HEADER) (data : list byte) (k len1 len2 : Z) (d : list byte) : Prop := {
  pd_body : 0 ≤ k;
  pd_offset : put_offset r = 36 + k;
  pd_length : get_u16 data k = Some len1;
  pd_fixed : 18 ≤ len1;
  pd_cmd : get_u8 data (k + 4) = Some 0x86;
  pd_sub : get_u8 data (k + 5) = Some 0x80;
  pd_data_length : get_u16 data (k + 16) = Some len2;
  pd_inside : len1 + len2 ≤ rh_data_len r;
  pd_data : slice data (k + len1) len2 = Some d;
}.

(** The library is called with the message whose pointer leads behind it. *)
Lemma put_result_data r data w s k len1 len2 d mem :
  put_data_request r data k len1 len2 d → decode_request (fget in_packet (received r data w s)) = Some r →
  splice (fget in_packet (received r data w s)) (36 + k + 12)
    (le_split 4 (fget in_packet_address s + (36 + k) + len1)) = Some mem →
  put_result r (received r data w s) =
    let '(rc, c') := capi20_put_message (rh_app_id r) (fget in_packet_address s) mem (36 + k) (fget capi s) in
    Some (reply (put_header r s 0 rc) [] (fset capi c' (fset in_packet mem (received r data w s)))).
Proof.
  intros [Hk Hoff Hl1 H18 Hc1 Hc2 Hl2 Hlen Hd] Hr Hmem.
  pose proof (get_le_bound 2 _ _ _ Hl2).
  assert (Hfield : ∀ w' off v, 0 ≤ off → get_le w' data (k + off) = Some v →
    get_le w' (fget in_packet (received r data w s)) (36 + k + off) = Some v).
  { intros w' off v Ho Hv. rewrite <- (Z.add_assoc 36). apply received_payload; [lia|done]. }
  unfold put_result, put_classify, put_patch. rewrite Hoff.
  replace (rh_data_len r <? 8) with false by lia.
  rewrite <- (Z.add_0_r (36 + k)) at 1. rewrite (Hfield 2%nat 0 len1) by (rewrite ?Z.add_0_r; done).
  cbn [mbind option_bind]. replace (rh_data_len r <? len1) with false by lia.
  rewrite (Hfield 1%nat 4 _ ltac:(done) Hc1), (Hfield 1%nat 5 _ ltac:(done) Hc2).
  cbn [mbind option_bind]. change ((0x86 =? 0x86) && (0x80 =? 0x80)) with true. cbv iota.
  replace (len1 <? 18) with false by lia.
  rewrite (Hfield 2%nat 16 _ ltac:(done) Hl2).
  cbn [mbind option_bind]. replace (rh_data_len r <? len1 + len2) with false by lia.
  change (fget in_packet_address (received r data w s)) with (fget in_packet_address s).
  cbn [mbind option_bind]. rewrite Hmem. cbn [fmap option_fmap option_map]. unfold put_called. rewrite Hoff.
  assert (get_u32 mem RH.app_id = Some (rh_app_id r)) as ->.
  { destruct (decode_request_fields _ _ Hr) as (_&_&_&_&_&_&Ha&_).
    rewrite <- Ha. apply (get_le_splice_before 4 _ _ _ _ _ Hmem). unfold RH.app_id. lia. }
  cbn [default]. change (fget capi (received r data w s)) with (fget capi s).
  change (fget in_packet_address (received r data w s)) with (fget in_packet_address s).
  by destruct (capi20_put_message _ _ _ _ _).
Qed.

Lemma serve_put_data r data rest s k len1 len2 d :
  inv s → arrives r data rest s → tx_script (fget sock s) = [] →
  rh_message_type r = TYPE_CAPI_PUTMESSAGE → rh_session_id r = fget sessionID s →
  put_data_request r data k len1 len2 d →
  ∃ s' mem rc, handle_message s = (Done tt, s') ∧
    answered (mkAnswer 40 40 0 0 (rh_message_id r) TYPE_CAPI_PUTMESSAGE (rh_app_id r)
                (fget sessionID s) 0 rc) [] s s' rest ∧
    capi20_put_message (rh_app_id r) (fget in_packet_address s) mem (36 + k) (fget capi s)
      = (rc, fget capi s') ∧
    slice mem (36 + k) 12 = slice data k 12 ∧
    get_u32 mem (36 + k + 12) = Some (u32 (fget in_packet_address s + (36 + k) + len1)) ∧
    slice mem (36 + k + 16) (len1 - 16) = slice data (k + 16) (len1 - 16) ∧
    slice mem (36 + k + len1) len2 = Some d.
Proof.
  intros Hi Harr Hscript Ht Hs Hp. pose proof (inv_wf s Hi) as Hwf.
  pose proof (pd_body _ _ _ _ _ _ Hp) as Hk. pose proof (pd_fixed _ _ _ _ _ _ Hp) as H18.
  pose proof (get_le_bound 2 _ _ _ (pd_data_length _ _ _ _ _ _ Hp)) as Hl2.
  assert (Hdl : k + len1 + len2 ≤ blen data).
  { pose proof (pd_data _ _ _ _ _ _ Hp) as Hd. unfold slice in Hd. case_decide; [lia|done]. }
  set (b := fget in_packet (received r data (fget sock s) s)).
  assert (Hb : blen b = PACKET_SIZE).
  { apply (wf_in (received r data (fget sock s) s)). apply received_packet; [done|apply Harr]. }
  pose proof (arr_fits _ _ _ _ Harr) as Hfit. unfold sizeof_REQUEST_HEADER in *.
  destruct (splice b (36 + k + 12) (le_split 4 (fget in_packet_address s + (36 + k) + len1)))
    as [mem|] eqn:Hmem.
  2:{ rewrite splice_Some in Hmem; [done|lia|]. rewrite Hb. change (blen (le_split 4 _)) with 4. lia. }
  destruct (capi20_put_message (rh_app_id r) (fget in_packet_address s) mem (36 + k) (fget capi s))
    as [rc c'] eqn:Hput.
  edestruct (served_call r data rest s (put_header r s 0 rc) []) as (w & s' & E & Hans & ->);
    [done|done|done|rewrite Ht; unfold capi_handlers; by repeat constructor|done| | |].
  - intros w Hwf' Hr. etrans; [|reflexivity]. apply (exec_capi_putmessage_run r); [done|done|].
    rewrite (put_result_data r data w s k len1 len2 d mem) by done. by rewrite Hput.
  - done.
  - eexists _, mem, rc. split; [exact E|]. split; [exact Hans|]. rewrite reply_state. split; [done|].
    assert (Hsub : ∀ j n, 0 ≤ j → 0 ≤ n → k + j + n ≤ blen data → slice b (36 + k + j) n = slice data (k + j) n).
    { intros. rewrite <- (Z.add_assoc 36). apply received_slice; lia. }
    split_and!.
    + rewrite (slice_splice_before _ _ _ _ _ _ Hmem) by lia.
      rewrite <- (Z.add_0_r (36 + k)), Hsub, Z.add_0_r by lia. done.
    + by apply (get_le_splice_at 4 b).
    + rewrite (slice_splice_after _ _ _ _ _ _ Hmem) by (change (blen (le_split 4 _)) with 4; lia).
      apply Hsub; lia.
    + rewrite (slice_splice_after _ _ _ _ _ _ Hmem) by (change (blen (le_split 4 _)) with 4; lia).
      rewrite Hsub by lia. by apply (pd_data _ _ _ _ _ _ Hp).
Qed.

(** ** REGISTER *)
Lemma register_received r data w s m a b l id c' :
  inv s → wf_server (received r data w s) →
  decode_request (fget in_packet (received r data w s)) = Some r →
  rh_header_len r = sizeof_REQUEST_HEADER →
  get_u32 data REGISTER.messageBufferSize = Some m →
  get_u32 data REGISTER.maxLogicalConnection = Some a →
  get_u32 data REGISTER.maxBDataBlocks = Some b →
  get_u32 data REGISTER.maxBDataLen = Some l →
  capi20_register a b l (fget capi s) = (0, Some id, c') → 1 ≤ id ≤ CAPI_MAXAPPL →
  exec_capi_register (received r data w s) =
    reply (mkAnswer 40 40 0 0 (rh_message_id r) TYPE_CAPI_REGISTER id (fget sessionID s) 0 0) []
      (fset client_info (set_ci_messageBufferLen (s32 m) (fget client_info s))
        (fset registered_apps (mark id Init.Byte.x01 (fget registered_apps s))
           (fset capi c' (received r data w s)))).
Proof.
  intros Hi Hwf' Hr Hh Hm Ha Hb Hl Hreg Hid. pose proof (wf_apps s (inv_wf s Hi)) as Hn.
  pose proof CAPI_MAXAPPL_range.
  etrans; [eapply exec_capi_register_run with (o := Some id);
    [done|done|rewrite Hh; by apply received_payload..|done|]|].
  - change (default _ (Some id)) with id. intros _. rewrite u32_small by lia.
    change (0 ≤ id < blen (fget registered_apps s)). lia.
  - change (default _ (Some id)) with id. change (0 =? 0) with true. cbv iota.
    by rewrite u32_small by lia.
Qed.

Lemma serve_register r data rest s m a b l id c' :
  inv s → arrives r data rest s → tx_script (fget sock s) = [] →
  rh_message_type r = TYPE_CAPI_REGISTER → rh_session_id r = fget sessionID s →
  rh_header_len r = sizeof_REQUEST_HEADER →
  get_u32 data REGISTER.messageBufferSize = Some m →
  get_u32 data REGISTER.maxLogicalConnection = Some a →
  get_u32 data REGISTER.maxBDataBlocks = Some b →
  get_u32 data REGISTER.maxBDataLen = Some l →
  capi20_register a b l (fget capi s) = (0, Some id, c') →
  ∃ s', handle_message s = (Done tt, s') ∧
    answered (mkAnswer 40 40 0 0 (rh_message_id r) TYPE_CAPI_REGISTER id
                (fget sessionID s) 0 0) [] s s' rest ∧
    fget capi s' = c' ∧
    apps_set (fget registered_apps s') = {[id]} ∪ apps_set (fget registered_apps s).
Proof.
  intros Hi Harr Hscript Ht Hs Hh Hm Ha Hb Hl Hreg. pose proof (inv_wf s Hi) as Hwf.
  destruct (register_ok _ _ _ _ _ _ Hreg) as (i & [= <-] & Hid & _).
  pose proof (wf_apps s Hwf) as Hn. pose proof CAPI_MAXAPPL_range.
  edestruct (served_call r data rest s (mkAnswer 40 40 0 0 (rh_message_id r) TYPE_CAPI_REGISTER
    id (fget sessionID s) 0 0) []) as (w & s' & E & Hans & ->);
    [done|done|done|rewrite Ht; unfold capi_handlers; by constructor|done| | |].
  - intros w Hwf' Hr. by eapply register_received.
  - done.
  - eexists. split; [exact E|]. split; [exact Hans|]. rewrite reply_state. split; [done|].
    apply apps_set_mark; [done|done|]. lia.
Qed.

(** ** GETMESSAGE with a DATA_B3_IND, and when the library has no message *)
Lemma serve_getmessage_data r data rest s p c' m len2 q d :
  inv s → arrives r data rest s → tx_script (fget sock s) = [] →
  rh_message_type r = TYPE_CAPI_GETMESSAGE → rh_session_id r = fget sessionID s →
  capi20_get_message (rh_app_id r) (fget capi s) = (0, p, c') →
  library_message c' p = Some m → 18 ≤ blen m →
  get_u8 m 4 = Some 0x86 → get_u8 m 5 = Some 0x82 →
  get_u16 m 16 = Some len2 → get_u32 m 12 = Some q →
  capi20_memory c' q len2 = Some d → 40 + blen m + len2 ≤ PACKET_SIZE →
  ∃ s', handle_message s = (Done tt, s') ∧
    answered (mkAnswer (40 + (blen m + len2)) 40 0 (blen m + len2) (rh_message_id r)
                TYPE_CAPI_GETMESSAGE (rh_app_id r) (fget sessionID s) 0 0)
      (m ++ d) s s' rest ∧ fget capi s' = c'.
Proof.
  intros Hi Harr Hscript Ht Hs Hg Hm Hl Hc1 Hc2 H2 Hq Hd Hlen. pose proof (inv_wf s Hi) as Hwf.
  edestruct (served_call r data rest s (mkAnswer (40 + (blen m + len2)) 40 0 (blen m + len2)
    (rh_message_id r) TYPE_CAPI_GETMESSAGE (rh_app_id r) (fget sessionID s) 0 0))
    as (w & s' & E & Hans & ->);
    [done|done|done|rewrite Ht; unfold capi_handlers; by repeat constructor|done| | |].
  - intros w Hwf' Hr. unfold PACKET_SIZE in Hlen.
    etrans; [eapply exec_capi_getmessage_data;
      [done|done|exact Hg|exact Hm|done| |exact H2|exact Hq|exact Hd|lia]|reflexivity].
    split; by apply get_le_app_l.
  - done.
  - eexists. split; [exact E|]. split; [exact Hans|]. by rewrite reply_state.
Qed.

Lemma serve_getmessage_error r data rest s rc p c' :
  inv s → arrives r data rest s → tx_script (fget sock s) = [] →
  rh_message_type r = TYPE_CAPI_GETMESSAGE → rh_session_id r = fget sessionID s →
  capi20_get_message (rh_app_id r) (fget capi s) = (rc, p, c') → u32 rc ≠ 0 →
  ∃ s', handle_message s = (Done tt, s') ∧
    answered (mkAnswer 40 40 0 0 (rh_message_id r) TYPE_CAPI_GETMESSAGE (rh_app_id r)
                (fget sessionID s) 0 rc) [] s s' rest ∧ fget capi s' = c'.
Proof.
  intros Hi Harr Hscript Ht Hs Hg Hrc. pose proof (inv_wf s Hi) as Hwf.
  edestruct (served_call r data rest s (mkAnswer 40 40 0 0 (rh_message_id r) TYPE_CAPI_GETMESSAGE
    (rh_app_id r) (fget sessionID s) 0 rc) []) as (w & s' & E & Hans & ->);
    [done|done|done|rewrite Ht; unfold capi_handlers; by repeat constructor|done| | |].
  - intros w Hwf' Hr. etrans; [by eapply exec_capi_getmessage_error|reflexivity].
  - done.
  - eexists. split; [exact E|]. split; [exact Hans|]. by rewrite reply_state.
Qed.

(** ** HELO and AUTH *)
(** The process can handle the next request. *)
Definition goes_on (s s' : server CS) : Prop :=
  inv s' ∧ tx_script (fget sock s') = [] ∧ fget sessionID s' = fget sessionID s.

Lemma reply_goes_on s h payload sw w s' :
  inv s → handle_message s = (Done tt, s') → s' = (reply h payload sw).2 →
  tx_script w = [] → fget sock sw = w → fget sessionID sw = fget sessionID s → goes_on s s'.
Proof.
  intros Hi Hh Hs' Hw Hsock Hse. pose proof (handle_message_post s Hi) as Hp.
  rewrite Hh in Hp. destruct Hp as (Hi' & _ & _). split; [done|].
  rewrite Hs', reply_state, (fget_fset (F:=sock)), Hsock, send_complete by done. split; [done|exact Hse].
Qed.

Lemma serve_helo r data rest s os v name :
  inv s → arrives r data rest s → tx_script (fget sock s) = [] →
  rh_message_type r = TYPE_PROXY_HELO →
  helo_client r (encode_request r ++ data ++ drop (36 + length data) (fget in_packet s)) =
    Some (os, v, name) → blen name < 64 →
  ∃ s', handle_message s = (Done tt, s') ∧ goes_on s s' ∧
    answered (helo_header r s) (helo_body (fget local_version s) (payload_area s)) s s' rest ∧
    fget client_info s' = fget client_info (helo_remember os v name s).
Proof.
  intros Hi Harr Hscript Ht Hc Hn. pose proof (inv_wf s Hi) as Hwf.
  edestruct (handle_message_reply_net r data rest s (helo_header r s)
    (helo_body (fget local_version s) (payload_area s))
    (λ w, helo_remember os v name (received r data w s))) as (w & s' & Hw & E & Hans & Hs');
    [done|done|done|..].
  - intros w. pose proof (received_request r data w s (arr_wf _ _ _ _ Harr)) as Hr.
    rewrite (dispatch_helo r) by done.
    rewrite (exec_proxy_helo_run r _ os v name); [reflexivity| |done|exact Hc|done].
    apply received_packet; [done|apply Harr].
  - done.
  - exists s'. split_and!; [done|by eapply reply_goes_on|done|]. by rewrite Hs', reply_state.
Qed.

(** The type in the request is none of those the server checks. *)
Lemma serve_auth_unsupported r data rest s t :
  inv s → arrives r data rest s → tx_script (fget sock s) = [] →
  rh_message_type r = TYPE_PROXY_AUTH → rh_header_len r = sizeof_REQUEST_HEADER →
  get_u32 data 0 = Some t → Z.land t AUTH_USERPASS = 0 → Z.land t AUTH_BY_IP = 0 →
  ∃ s', handle_message s = (Done tt, s') ∧ goes_on s s' ∧
    answered (auth_header r s PERROR_AUTH_TYPE_NOT_SUPPORTED) [] s s' rest.
Proof.
  intros Hi Harr Hscript Ht Hh Hty Hup Hip. pose proof (inv_wf s Hi) as Hwf.
  edestruct (handle_message_reply_net r data rest s (auth_header r s PERROR_AUTH_TYPE_NOT_SUPPORTED) []
    (λ w, clear_data_len (received r data w s))) as (w & s' & Hw & E & Hans & Hs'); [done|done|done|..].
  - intros w. pose proof (received_request r data w s (arr_wf _ _ _ _ Harr)) as Hr.
    rewrite (dispatch_auth r) by done.
    rewrite (exec_proxy_auth_run r _ PERROR_AUTH_TYPE_NOT_SUPPORTED (received r data w s));
      [done|by apply received_packet; [|apply Harr]|done|].
    unfold auth_verdict. rewrite Hh.
    rewrite (received_payload 4 r data w s 0 t ltac:(done) Hty : get_u32 _ sizeof_REQUEST_HEADER = _).
    cbn [mbind option_bind]. by rewrite Hup, Hip.
  - done.
  - exists s'. split_and!; [done|by eapply reply_goes_on|done].
Qed.
End served_calls.
