(* ===== verification/ServedProperties.v ===== *)
(** * The server: properties *)
From stdpp Require Import gmap.
From S2P Require Import Prelude CMem Protocol Net Capi20 AppIndex Server Packet Exec Proxy Capifwd ExecSpec MessageSpec ProxySpec Handled Handlers CapifwdSpec Served.
#[local] Open Scope Z_scope.

Section served_properties.
Context `{CapiHeader} {CS : Type} `{Capi20 CS} `{!Capi20Laws CS}.
Implicit Types s : server CS.

(** The queries: code, size of the body, bytes of the library. *)
Definition query (t ctrl : Z) (c : CS) : option (Z * nat * list byte) :=
  if t =? TYPE_CAPI_INSTALLED then Some (capi20_isinstalled c, 0%nat, [])
  else if t =? TYPE_CAPI_MANUFACTURER then Some (0, 64%nat, capi20_get_manufacturer ctrl c)
  else if t =? TYPE_CAPI_SERIAL then Some (0, 8%nat, capi20_get_serial_number ctrl c)
  else if t =? TYPE_CAPI_PROFILE then
    Some ((capi20_get_profile ctrl c).1, 64%nat, (capi20_get_profile ctrl c).2)
  else None.

(** A malformed CAPI message: shorter than its header, than its own length
    field, or - for a DATA_B3_REQ - than its fixed part or than message and
    data together. *)
Definition malformed_message (data_len : Z) (m : list byte) : Prop :=
  data_len < 8 ∨ ∃ len1, get_u16 m 0 = Some len1 ∧
    (data_len < len1 ∨
     get_u8 m 4 = Some 0x86 ∧ get_u8 m 5 = Some 0x80 ∧
     (len1 < 18 ∨ ∃ len2, get_u16 m 16 = Some len2 ∧ data_len < len1 + len2)).

Lemma put_classify_malformed r data w s :
  put_offset r = sizeof_REQUEST_HEADER → 6 ≤ blen data →
  malformed_message (rh_data_len r) data →
  ∃ why, put_classify r (fget in_packet (received r data w s)) = Some (PutRefused why).
Proof.
  intros Ho Hb Hm. unfold put_classify. rewrite Ho.
  unfold sizeof_REQUEST_HEADER.
  destruct (Z.ltb_spec (rh_data_len r) 8); [eauto|].
  destruct Hm as [?|(len1 & Hl1 & Hm)]; [lia|].
  rewrite (received_payload 2 r data w s 0 len1 ltac:(done) Hl1 : get_u16 _ 36 = _). cbn [mbind option_bind].
  destruct (Z.ltb_spec (rh_data_len r) len1); [eauto|].
  destruct Hm as [?|(Hc1 & Hc2 & Hm)]; [lia|].
  erewrite (received_payload 1 r data w s 4), (received_payload 1 r data w s 5) by done.
  cbn [mbind option_bind]. change ((0x86 =? 0x86) && (0x80 =? 0x80)) with true. cbv iota.
  destruct (Z.ltb_spec len1 18); [eauto|].
  destruct Hm as [?|(len2 & Hl2 & Hm)]; [lia|].
  erewrite (received_payload 2 r data w s 16) by done. cbn [mbind option_bind].
  destruct (Z.ltb_spec (rh_data_len r) (len1 + len2)); [eauto|lia].
Qed.

(** C38: A REGISTER request with the right session id, all of whose body has
    arrived, registers an application: the client gets the library's id, and
    exactly that id is added to the registry of the connection. *)
Theorem register_served r data rest s m a b l id c' :
  inv s → arrives r data rest s → tx_script (fget sock s) = [] →
  rh_message_type r = TYPE_CAPI_REGISTER → rh_session_id r = fget sessionID s →
  rh_header_len r = sizeof_REQUEST_HEADER →
  get_u32 data REGISTER.messageBufferSize = Some m →
  get_u32 data REGISTER.maxLogicalConnection = Some a →
  get_u32 data REGISTER.maxBDataBlocks = Some b →
  get_u32 data REGISTER.maxBDataLen = Some l →
  capi20_register a b l (fget capi s) = (0, Some id, c') →
  ∃ s', handle_message s = (Done tt, s') ∧
    answered (mkAnswer 40 40 0 0 (rh_message_id r) TYPE_CAPI_REGISTER id
                (fget sessionID s) 0 0) [] s s' rest ∧
    fget capi s' = c' ∧
    apps_set (fget registered_apps s') = {[id]} ∪ apps_set (fget registered_apps s).
Proof. apply serve_register. Qed.

(** A RELEASE request is passed to the library; its return
    code is the answer, and the id leaves the registry when it was released
    and only then. *)
Theorem release_served r data rest s rc c' :
  inv s → arrives r data rest s → tx_script (fget sock s) = [] →
  rh_message_type r = TYPE_CAPI_RELEASE → rh_session_id r = fget sessionID s →
  capi20_release (rh_app_id r) (fget capi s) = (rc, c') →
  ∃ s', handle_message s = (Done tt, s') ∧
    answered (mkAnswer 40 40 0 0 (rh_message_id r) TYPE_CAPI_RELEASE (rh_app_id r)
                (fget sessionID s) 0 rc) [] s s' rest ∧
    fget capi s' = c' ∧
    apps_set (fget registered_apps s') =
      if decide (rc = 0) then apps_set (fget registered_apps s) ∖ {[rh_app_id r]}
      else apps_set (fget registered_apps s).
Proof.
  intros Hi Harr Hscript Ht Hs Hrel. pose proof (inv_wf s Hi) as Hwf.
  pose proof (wf_apps s Hwf) as Hn.
  assert (Hin : rc = 0 → 1 ≤ rh_app_id r ≤ CAPI_MAXAPPL).
  { intros Hrc. apply (release_owned _ _ _ _ Hrel) in Hrc.
    rewrite (inv_registry s Hi) in Hrc. apply elem_of_apps_set in Hrc. tauto. }
  edestruct (served_call r data rest s (mkAnswer 40 40 0 0 (rh_message_id r)
    TYPE_CAPI_RELEASE (rh_app_id r) (fget sessionID s) 0 rc) []) as (w & s' & E & Hans & ->);
    [done|done|done|rewrite Ht; unfold capi_handlers; by repeat constructor|done| | |].
  - intros w Hwf' Hr.
    etrans; [eapply exec_capi_release_run; [done|done|exact Hrel|]|reflexivity].
    change (rc = 0 → rh_app_id r < blen (fget registered_apps s)). lia.
  - done.
  - eexists. split; [exact E|]. split; [exact Hans|]. rewrite reply_state. split; [done|].
    destruct (Z.eqb_spec rc 0) as [->|Hrc].
    + rewrite decide_True by done. apply apps_set_unmark.
      change (fget registered_apps (received r data w s)) with (fget registered_apps s). lia.
    + by rewrite decide_False by done.
Qed.

(** INSTALLED, MANUFACTURER, SERIAL and PROFILE are answered
    with the library's reply about the controller in the request, in a body
    of the structure's size; nothing else changes. *)
Theorem query_served r data rest s code n bs :
  inv s → arrives r data rest s → tx_script (fget sock s) = [] →
  rh_session_id r = fget sessionID s →
  query (rh_message_type r) (rh_controller_id r) (fget capi s) = Some (code, n, bs) →
  ∃ s', handle_message s = (Done tt, s') ∧
    answered (mkAnswer (40 + Z.of_nat n) 40 (Z.of_nat n) 0 (rh_message_id r)
                (rh_message_type r) (rh_app_id r) (fget sessionID s) 0 code)
      (body n bs s) s s' rest ∧
    fget capi s' = fget capi s ∧ fget registered_apps s' = fget registered_apps s.
Proof.
  intros Hi Harr Hscript Hs Hq. pose proof (inv_wf s Hi) as Hwf. unfold query in Hq.
  assert (Hserve : ∀ handler, (rh_message_type r, handler) ∈ capi_handlers →
    (∀ w, wf_server (received r data w s) →
       decode_request (fget in_packet (received r data w s)) = Some r →
       handler (received r data w s) =
         reply (mkAnswer (40 + Z.of_nat n) 40 (Z.of_nat n) 0 (rh_message_id r)
                  (rh_message_type r) (rh_app_id r) (fget sessionID s) 0 code)
           (body n bs s) (received r data w s)) →
    ∃ s', handle_message s = (Done tt, s') ∧
      answered (mkAnswer (40 + Z.of_nat n) 40 (Z.of_nat n) 0 (rh_message_id r)
                  (rh_message_type r) (rh_app_id r) (fget sessionID s) 0 code)
        (body n bs s) s s' rest ∧
      fget capi s' = fget capi s ∧ fget registered_apps s' = fget registered_apps s).
  { intros handler Hh Hrun.
    edestruct (served_call r data rest s) as (w & s' & E & Hans & ->);
      [done|done|done|exact Hh|done|exact Hrun|done|].
    eexists. split; [exact E|]. split; [exact Hans|]. by rewrite reply_state. }
  destruct (Z.eqb_spec (rh_message_type r) TYPE_CAPI_INSTALLED) as [Ht|_].
  { injection Hq as <- <- <-. rewrite Ht in *.
    apply (Hserve exec_capi_isinstalled); [unfold capi_handlers; by repeat constructor|].
    intros. etrans; [by apply exec_capi_isinstalled_run|reflexivity]. }
  destruct (Z.eqb_spec (rh_message_type r) TYPE_CAPI_MANUFACTURER) as [Ht|_].
  { injection Hq as <- <- <-. rewrite Ht in *.
    apply (Hserve exec_capi_manufacturer); [unfold capi_handlers; by repeat constructor|].
    intros. etrans; [by apply exec_capi_manufacturer_run|reflexivity]. }
  destruct (Z.eqb_spec (rh_message_type r) TYPE_CAPI_SERIAL) as [Ht|_].
  { injection Hq as <- <- <-. rewrite Ht in *.
    apply (Hserve exec_capi_serial); [unfold capi_handlers; by repeat constructor|].
    intros. etrans; [by apply exec_capi_serial_run|reflexivity]. }
  destruct (Z.eqb_spec (rh_message_type r) TYPE_CAPI_PROFILE) as [Ht|_]; [|done].
  injection Hq as <- <- <-. rewrite Ht in *.
  apply (Hserve exec_capi_profile); [unfold capi_handlers; by repeat constructor|].
  intros. etrans; [apply exec_capi_profile_run; [done..|apply surjective_pairing]|reflexivity].
Qed.

(** VERSION is answered with the library's two version
    pairs in exchanged order: its first pair is the driver's, which the body
    of the answer has second. *)
Theorem version_served r data rest s version :
  inv s → arrives r data rest s → tx_script (fget sock s) = [] →
  rh_message_type r = TYPE_CAPI_VERSION → rh_session_id r = fget sessionID s →
  capi20_get_version (rh_controller_id r) (fget capi s) = version →
  ∃ s', handle_message s = (Done tt, s') ∧
    answered (mkAnswer 56 40 16 0 (rh_message_id r) TYPE_CAPI_VERSION (rh_app_id r)
                (fget sessionID s) 0 0) (drop 8 version ++ take 8 version) s s' rest.
Proof.
  intros Hi Harr Hscript Ht Hs <-. pose proof (inv_wf s Hi) as Hwf.
  edestruct (served_call r data rest s) as (w & s' & E & Hans & _);
    [done|done|done|rewrite Ht; unfold capi_handlers; by repeat constructor|done| | |eauto].
  - intros w Hwf' Hr. etrans; [by apply exec_capi_version_run|reflexivity].
  - done.
Qed.

(** C36: a waiting DATA_B3_IND is answered with the
    message followed by the data its pointer leads to, and the lengths in the
    answer's header are theirs. *)
Theorem getmessage_data_served r data rest s p c' m len2 q d :
  inv s → arrives r data rest s → tx_script (fget sock s) = [] →
  rh_message_type r = TYPE_CAPI_GETMESSAGE → rh_session_id r = fget sessionID s →
  capi20_get_message (rh_app_id r) (fget capi s) = (0, p, c') →
  library_message c' p = Some m → 18 ≤ blen m →
  get_u8 m 4 = Some 0x86 → get_u8 m 5 = Some 0x82 →
  get_u16 m 16 = Some len2 → get_u32 m 12 = Some q →
  capi20_memory c' q len2 = Some d → 40 + blen m + len2 ≤ PACKET_SIZE →
  ∃ s', handle_message s = (Done tt, s') ∧
    answered (mkAnswer (40 + (blen m + len2)) 40 0 (blen m + len2) (rh_message_id r)
                TYPE_CAPI_GETMESSAGE (rh_app_id r) (fget sessionID s) 0 0)
      (m ++ d) s s' rest ∧ fget capi s' = c'.
Proof. apply serve_getmessage_data. Qed.

(** Nothing keeps a message with its data inside
    out_packet: when they do not fit behind the header, the copy overruns it. *)
Theorem getmessage_overrun r s p c' m :
  wf_server s → decode_request (fget in_packet s) = Some r →
  capi20_get_message (rh_app_id r) (fget capi s) = (0, p, c') →
  library_message c' p = Some m →
  PACKET_SIZE < 40 + blen m ∨
    (18 ≤ blen m ∧ get_u8 m 4 = Some 0x86 ∧ get_u8 m 5 = Some 0x82 ∧
     ∃ q d len2, get_u16 m 16 = Some len2 ∧ get_u32 m 12 = Some q ∧
       capi20_memory c' q len2 = Some d ∧ PACKET_SIZE < 40 + blen m + len2) →
  (exec_capi_getmessage s).1 = Faulted OutOfBounds.
Proof.
  intros Hwf Hr Hg Hm Hlong. unfold PACKET_SIZE in Hlong.
  destruct (decide (9960 < blen m)) as [Hlt|Hge].
  - by destruct (exec_capi_getmessage_overflow r s p c' m) as [s' ->].
  - destruct Hlong as [?|(Hl & Hc1 & Hc2 & q & d & len2 & H2 & Hq & Hd & Hlen)]; [lia|].
    destruct (exec_capi_getmessage_data_overflow r s p c' m len2 q d) as [s' ->]; try done; try lia.
    split; by apply get_le_app_l.
Qed.

(** A malformed CAPI message never reaches the
    library: the answer has PERROR_PARSE_ERROR, and its capi_error is the word
    that an earlier answer left in out_packet. *)
Theorem putmessage_refused_served r data rest s :
  inv s → arrives r data rest s → tx_script (fget sock s) = [] →
  rh_message_type r = TYPE_CAPI_PUTMESSAGE → rh_session_id r = fget sessionID s →
  rh_header_len r + rh_body_len r = sizeof_REQUEST_HEADER → 6 ≤ blen data →
  malformed_message (rh_data_len r) data →
  ∃ s', handle_message s = (Done tt, s') ∧
    answered (mkAnswer 40 40 0 0 (rh_message_id r) TYPE_CAPI_PUTMESSAGE (rh_app_id r)
                (fget sessionID s) PERROR_PARSE_ERROR (out_head s AH.capi_error)) [] s s' rest ∧
    fget capi s' = fget capi s ∧ fget registered_apps s' = fget registered_apps s.
Proof.
  intros Hi Harr Hscript Ht Hs Ho Hb Hm. pose proof (inv_wf s Hi) as Hwf.
  destruct (put_classify_malformed r data (fget sock s) s Ho Hb Hm) as [why Hwhy].
  edestruct (served_call r data rest s (mkAnswer 40 40 0 0 (rh_message_id r)
    TYPE_CAPI_PUTMESSAGE (rh_app_id r) (fget sessionID s) PERROR_PARSE_ERROR
    (out_head s AH.capi_error))) as (w & s' & E & Hans & ->);
    [done|done|done|rewrite Ht; unfold capi_handlers; by repeat constructor|done| | |].
  - intros w Hwf' Hr. etrans; [|reflexivity].
    apply (exec_capi_putmessage_run r); [done|done|]. unfold put_result.
    change (fget in_packet (received r data w s)) with
      (fget in_packet (received r data (fget sock s) s)).
    rewrite Hwhy. reflexivity.
  - done.
  - eexists. split; [exact E|]. split; [exact Hans|]. by rewrite reply_state.
Qed.
End served_properties.
