(* ===== verification/ServerProperties.v ===== *)
(** * Messages to the library, the connection, and its end: properties *)
From stdpp Require Import gmap.
From S2P Require Import Prelude CMem Protocol Net Capi20 AppIndex Server Packet Exec Proxy Capifwd ExecSpec MessageSpec ProxySpec Handled Handlers CapifwdSpec Served.
#[local] Open Scope Z_scope.

Section server_properties.
Context `{CapiHeader} {CS : Type} `{Capi20 CS} `{!Capi20Laws CS}.
Implicit Types s : server CS.

(** C37: a well-formed DATA_B3_REQ is handed to the
    library at its place in in_packet, with the pointer in it replaced by the
    address of the data that follow the message, and the library's return
    code is the answer. *)
Theorem putmessage_data_served r data rest s len1 len2 d :
  inv s → arrives r data rest s → tx_script (fget sock s) = [] →
  rh_message_type r = TYPE_CAPI_PUTMESSAGE → rh_session_id r = fget sessionID s →
  rh_header_len r = sizeof_REQUEST_HEADER → rh_body_len r = 0 →
  get_u16 data 0 = Some len1 → 18 ≤ len1 →
  get_u8 data 4 = Some 0x86 → get_u8 data 5 = Some 0x80 →
  get_u16 data 16 = Some len2 → len1 + len2 ≤ rh_data_len r →
  slice data len1 len2 = Some d →
  ∃ s' mem rc, handle_message s = (Done tt, s') ∧
    answered (mkAnswer 40 40 0 0 (rh_message_id r) TYPE_CAPI_PUTMESSAGE (rh_app_id r)
                (fget sessionID s) 0 rc) [] s s' rest ∧
    capi20_put_message (rh_app_id r) (fget in_packet_address s) mem 36 (fget capi s)
      = (rc, fget capi s') ∧
    slice mem 36 12 = slice data 0 12 ∧
    get_u32 mem (36 + 12) = Some (u32 (fget in_packet_address s + (36 + len1))) ∧
    slice mem (36 + 16) (len1 - 16) = slice data 16 (len1 - 16) ∧
    slice mem (36 + len1) len2 = Some d.
Proof.
  intros Hi Harr Hscript Ht Hs Hh Hb0 Hl1 H18 Hc1 Hc2 Hl2 Hlen Hd.
  destruct (serve_put_data r data rest s 0 len1 len2 d) as (s' & mem & rc & H1 & H2 & H3 & H4 & H5 & H6 & H7);
    [done..| |].
  - split; try done. unfold put_offset. rewrite Hh, Hb0. done.
  - exists s', mem, rc. split_and!; try done. change (36 + 12) with (36 + 0 + 12). rewrite H5.
    do 2 f_equal. lia.
Qed.

(** C1: a connection handler terminates on every input:
    unless it runs into undefined behaviour, it ends with status 0 when the
    stream ends, with its socket closed and none of its ids left registered at
    the library, and everything it sent was a well-formed answer, or - where
    the socket took less - the beginning of one. *)
Theorem handle_connection_ends s :
  inv s →
  (∃ f s', handle_connection s = (Faulted f, s') ∧ f ≠ Diverged) ∨
  (∃ s', handle_connection s = (Exited 0, s') ∧ fget sock_open s' = false ∧
     owned (fget capi s') = ∅ ∧
     ∃ sent, tx (fget sock s') = tx (fget sock s) ++ sent ∧ Forall frame_prefix sent).
Proof.
  intros Hi. pose proof (handling_loop_post _ s Hi (Nat.lt_succ_diag_r _)) as Hp.
  unfold handle_connection. change (sv_sock s) with (fget sock s).
  destruct (handling_loop _ s) as [[[]|f|c] s']; [done|left; eauto|right].
  destruct Hp as (-> & ? & ? & ?). eauto 6.
Qed.

(** C2: in whatever order the connection handler, the children
    it forked and the ignored signals take their steps, the registry agrees with
    the library, the session id stays, and only beginnings of well-formed
    answers are sent. *)
Theorem reachable_inv s s' :
  rtc step s s' → inv s →
  owned (fget capi s') = apps_set (fget registered_apps s') ∧
  fget sessionID s' = fget sessionID s ∧
  ∃ sent, tx (fget sock s') = tx (fget sock s) ++ sent ∧ Forall frame_prefix sent.
Proof.
  intros Hr Hi. cut (inv s' ∧ fget sessionID s' = fget sessionID s ∧ tx_grows s s').
  { intros (Hi' & ? & ?). split_and!; [by apply inv_registry|done|done]. }
  induction Hr as [s|s s1 s' Hstep _ IH]; [done|].
  destruct (step_post s s1 Hstep Hi) as (Hi1 & Ht & Hs).
  destruct (IH Hi1) as (Hi' & Hs' & Ht'). split_and!; [done|congruence|by etrans].
Qed.

(** C18: whatever the request, the dispatcher sends at most
    one message, and that is a well-formed answer that carries the request's
    message id and type. *)
Theorem dispatch_one_answer r s n s' :
  inv s → decode_request (fget in_packet s) = Some r → dispatch s = (Done n, s') →
  tx (fget sock s') = tx (fget sock s) ∨
  ∃ f k, wf_frame f ∧ ah_message_id (fr_header f) = rh_message_id r ∧
    ah_message_type (fr_header f) = rh_message_type r ∧
    tx (fget sock s') = tx (fget sock s) ++ [take k (encode_frame f)].
Proof.
  intros Hi Hr E. pose proof (dispatch_handled r s Hi Hr) as Hd. rewrite E in Hd.
  destruct (handled_tx _ _ _ _ Hd) as [?|(f & k & Hf & [Hm Ht] & Htx)]; eauto 8.
Qed.

(** C35: a CAPI request with a session id other than the
    connection's is dropped without an answer and without touching the library
    or the registry. *)
Theorem wrong_session_ignored r data rest s h :
  inv s → arrives r data rest s →
  (rh_message_type r, h) ∈ capi_handlers → rh_session_id r ≠ fget sessionID s →
  ∃ s', handle_message s = (Done tt, s') ∧
    tx (fget sock s') = tx (fget sock s) ∧ rx_bytes (fget sock s') = rest ∧
    fget capi s' = fget capi s ∧ fget registered_apps s' = fget registered_apps s ∧
    fget log s' = fget log s.
Proof.
  intros Hi [Hr Hrx Hm Hd Hfit] Hh Hs.
  destruct (handle_message_request r data rest s (inv_wf s Hi) Hr Hrx Hm Hd Hfit) as (w & Hw & ->).
  fold (received r data w s).
  erewrite bind_done.
  2:{ erewrite dispatch_capi; [|by apply received_request|exact Hh].
      apply Z.eqb_neq in Hs. change (fget sessionID (received r data w s)) with (fget sessionID s).
      by rewrite Hs. }
  eexists. split; [done|]. pose proof (tx_proper _ _ Hw) as Htx.
  pose proof (rx_bytes_proper _ _ Hw) as Hrxw.
  rewrite rx_bytes_advance, Hrx, (assoc_L (++)), drop_app_length' in Hrxw
    by (by rewrite length_app, length_encode_request).
  by split_and!.
Qed.

(** A request that consists of its header only - as the
    requests without a body do - is never dispatched: [recvn] of no bytes
    returns 0, which is taken for the end of the stream, and the handler
    releases everything and exits. *)
Theorem header_only_closes r rest s :
  inv s → wf_request r → rh_message_len r = sizeof_REQUEST_HEADER →
  rx_bytes (fget sock s) = encode_request r ++ rest →
  ∃ s', handle_message s = (Exited 0, s') ∧ tx (fget sock s') = tx (fget sock s) ∧
    owned (fget capi s') = ∅ ∧ fget sock_open s' = false.
Proof.
  intros Hi Hr Hm Hrx.
  destruct (handle_message_header r rest s (inv_wf s Hi) Hr Hrx) as (w & Hw & ->).
  rewrite Hm.
  assert (Hi' : inv (after_header r w s)).
  { apply inv_in_packet; [by apply inv_sock|].
    pose proof (wf_in s (inv_wf s Hi)) as Hl. rewrite blen_app, blen_encode_request.
    unfold blen, sizeof_REQUEST_HEADER, PACKET_SIZE in *. rewrite length_drop. lia. }
  destruct (check_received_exit 0 (after_header r w s) Hi' ltac:(done)) as (s' & E & Ho & Hown & Hs').
  erewrite bind_done by done. cbv beta. erewrite bind_exited by exact E.
  exists s'. split_and!; [done| |done|done]. rewrite Hs'. by apply (tx_proper _ _ Hw).
Qed.

(** Message_len is not checked against the size of
    in_packet: a longer message - or one shorter than the header, whose
    remaining length wraps around - overruns the array as soon as enough bytes
    have arrived. *)
Theorem oversize_overruns r rest s :
  inv s → wf_request r →
  rh_message_len r < sizeof_REQUEST_HEADER ∨ PACKET_SIZE < rh_message_len r →
  rx_bytes (fget sock s) = encode_request r ++ rest →
  PACKET_SIZE < sizeof_REQUEST_HEADER + blen rest →
  (handle_message s).1 = Faulted OutOfBounds.
Proof.
  intros Hi Hr Hm Hrx Hlen.
  destruct (handle_message_header r rest s (inv_wf s Hi) Hr Hrx) as (w & Hw & ->).
  destruct (server_recvn_overrun sizeof_REQUEST_HEADER
    (u32 (rh_message_len r - sizeof_REQUEST_HEADER)) (after_header r w s)) as (s' & E).
  - pose proof (wf_in s (inv_wf s Hi)) as Hl.
    change (blen (encode_request r ++ drop 36 (fget in_packet s)) = PACKET_SIZE).
    rewrite blen_app, blen_encode_request.
    unfold blen, sizeof_REQUEST_HEADER, PACKET_SIZE in *. rewrite length_drop. lia.
  - done.
  - unfold wf_request, wf_words in Hr. apply Forall_cons in Hr as [Hml _].
    unfold u32, sizeof_REQUEST_HEADER, PACKET_SIZE in *. destruct Hm as [Hm|Hm].
    + rewrite <- (Z_mod_plus_full _ 1), Z.mod_small by lia. lia.
    + rewrite Z.mod_small by lia. lia.
  - change (fget sock (after_header r w s)) with w.
    rewrite (rx_bytes_proper _ _ Hw), rx_bytes_advance, Hrx, drop_app_length'
      by (by rewrite length_encode_request). done.
  - by erewrite bind_faulted by exact E.
Qed.
End server_properties.
