(* ===== verification/ProxyProperties.v ===== *)
(** * HELO, AUTH, WAITFORSIGNAL and the start of the server: properties *)
From stdpp Require Import gmap.
From S2P Require Import Prelude CMem Protocol Net Capi20 AppIndex Server Packet Exec Proxy Capifwd ExecSpec MessageSpec ProxySpec Handled Handlers CapifwdSpec Served.
#[local] Open Scope Z_scope.

Lemma lor_shiftl_8 x y : 0 ≤ x < 256 → Z.lor x (Z.shiftl y 8) = x + 256 * y.
Proof.
  intros Hx. assert (Hl : Z.land x (Z.shiftl y 8) = 0).
  { apply Z.bits_inj'. intros n Hn. rewrite Z.land_spec, Z.bits_0, Z.shiftl_spec by done.
    destruct (Z.ltb_spec n 8).
    - rewrite (Z.testbit_neg_r y) by lia. apply andb_false_r.
    - rewrite <- (Z.mod_small x (2 ^ 8)), Z.mod_pow2_bits_high by lia. done. }
  rewrite <- Z.lxor_lor, <- Z.add_nocarry_lxor by done. rewrite Z.shiftl_mul_pow2 by lia. lia.
Qed.

Lemma le_combine_cons b l : le_combine (b :: l) = byte.unsigned b + 256 * le_combine l.
Proof. apply lor_shiftl_8. pose proof (byte.unsigned_range b). lia. Qed.

(** The address with the octets a.b.c.d, as [s_addr] holds it. *)
Definition in_addr (a b c d : Z) : Z := a + 2 ^ 8 * b + 2 ^ 16 * c + 2 ^ 24 * d.
Definition octet (x : Z) : Prop := 0 ≤ x < 256.

Lemma le_split_add n x y : octet x → le_split (S n) (x + 256 * y) = byte.of_Z x :: le_split n y.
Proof.
  unfold octet. intros Hx.
  change (le_split (S n) ?w) with (byte.of_Z w :: le_split n (Z.shiftr w 8)). f_equal.
  - apply byte.unsigned_inj. rewrite !byte.unsigned_of_Z. unfold byte.wrap.
    replace (x + 256 * y) with (x + y * 2 ^ 8) by lia. by rewrite Z_mod_plus_full.
  - f_equal. rewrite Z.shiftr_div_pow2 by lia. symmetry. apply Z.div_unique with x; lia.
Qed.

Lemma ntohl_in_addr a b c d :
  octet a → octet b → octet c → octet d →
  ntohl (in_addr a b c d) = in_addr d c b a.
Proof.
  intros Ha Hb Hc Hd. unfold ntohl, in_addr.
  replace (a + 2 ^ 8 * b + 2 ^ 16 * c + 2 ^ 24 * d)
    with (a + 256 * (b + 256 * (c + 256 * (d + 256 * 0)))) by lia.
  rewrite !le_split_add by done. change (le_split 0 0) with (@nil byte). cbn [rev app]. unfold octet in *.
  rewrite !le_combine_cons, !byte.unsigned_of_Z. unfold byte.wrap.
  rewrite !Z.mod_small by lia. change (le_combine []) with 0. lia.
Qed.

Lemma land_high_mask n k x :
  0 ≤ n → 0 ≤ k → 0 ≤ x < 2 ^ (n + k) →
  Z.land x (Z.shiftl (Z.ones k) n) = Z.shiftl (Z.shiftr x n) n.
Proof.
  intros Hn Hk Hx. rewrite <- Z.ldiff_ones_r by done. apply Z.bits_inj'. intros i Hi.
  rewrite Z.land_spec, Z.ldiff_spec, Z.shiftl_spec by done.
  destruct (Z.ltb_spec i n).
  - rewrite (Z.testbit_neg_r (Z.ones k)), Z.ones_spec_low by lia. by rewrite !andb_false_r.
  - rewrite (Z.ones_spec_high n) by lia. simpl negb. rewrite andb_true_r.
    destruct (Z.ltb_spec (i - n) k).
    + rewrite Z.ones_spec_low by lia. apply andb_true_r.
    + rewrite <- (Z.mod_small x (2 ^ (n + k))), Z.mod_pow2_bits_high by lia. done.
Qed.

(** The two masks of [ip_auth] look at the first octets. *)
Lemma private_address_octets a b c d :
  octet a → octet b → octet c → octet d →
  private_address (in_addr a b c d) = true ↔ (a = 192 ∧ b = 168) ∨ a = 10.
Proof.
  intros Ha Hb Hc Hd. unfold private_address. rewrite ntohl_in_addr by done.
  unfold octet, in_addr in *.
  change 0xFFFF0000 with (Z.shiftl (Z.ones 16) 16).
  change 0xFF000000 with (Z.shiftl (Z.ones 8) 24).
  rewrite !land_high_mask by lia.
  rewrite !Z.shiftr_div_pow2, !Z.shiftl_mul_pow2 by lia.
  rewrite orb_true_iff, !Z.eqb_eq.
  replace ((d + 2 ^ 8 * c + 2 ^ 16 * b + 2 ^ 24 * a) / 2 ^ 16) with (b + 256 * a)
    by (apply Z.div_unique with (d + 256 * c); lia).
  replace ((d + 2 ^ 8 * c + 2 ^ 16 * b + 2 ^ 24 * a) / 2 ^ 24) with a
    by (apply Z.div_unique with (d + 256 * c + 65536 * b); lia).
  lia.
Qed.

Lemma land_bit t k : 0 ≤ k → negb (Z.land t (2 ^ k) =? 0) = Z.testbit t k.
Proof.
  intros Hk. destruct (Z.testbit t k) eqn:Hb.
  - destruct (Z.eqb_spec (Z.land t (2 ^ k)) 0) as [E|]; [|done].
    apply (f_equal (λ x, Z.testbit x k)) in E.
    by rewrite Z.land_spec, Z.pow2_bits_true, Hb, Z.bits_0 in E.
  - assert (Z.land t (2 ^ k) = 0) as ->; [|done].
    apply Z.bits_inj'. intros n Hn. rewrite Z.land_spec, Z.bits_0.
    destruct (decide (n = k)) as [->|Hne]; [by rewrite Hb|].
    rewrite Z.pow2_bits_false by done. apply andb_false_r.
Qed.

Section proxy_properties.
Context `{CapiHeader} {CS : Type} `{Capi20 CS} `{!Capi20Laws CS}.
Implicit Types s : server CS.

(** [ip_auth] accepts exactly when the address that
    getsockname reports is 192.168.x.y or 10.x.y.z; when getsockname fails it
    refuses and logs the error. *)
Theorem ip_auth_octets s a b c d :
  octet a → octet b → octet c → octet d →
  (sv_sockname s = Some (in_addr a b c d) →
     ip_auth s = (Done (if decide ((a = 192 ∧ b = 168) ∨ a = 10) then 0 else -1), s)) ∧
  (sv_sockname s = None →
     ip_auth s = (Done (-1), fset log (fget log s ++ [SyslogErrno ""]) s)).
Proof.
  intros Ha Hb Hc Hd. split; intros Hs; unfold ip_auth; rewrite Hs; [|done].
  fold (private_address (in_addr a b c d)).
  pose proof (private_address_octets a b c d Ha Hb Hc Hd) as Hp.
  destruct (private_address (in_addr a b c d)).
  - rewrite decide_True by tauto. done.
  - rewrite decide_False; [done|]. intros Hx. by apply Hp in Hx.
Qed.

(** AUTH is answered with the session id if the check of the
    requested type succeeds and with session id 0 and the reason otherwise:
    only authentication by address can succeed, a user name and password are
    always refused.  Nothing is remembered: the session id and the registry
    are as before. *)
Theorem auth_served r data rest s t :
  inv s → arrives r data rest s → tx_script (fget sock s) = [] →
  rh_message_type r = TYPE_PROXY_AUTH → rh_header_len r = sizeof_REQUEST_HEADER →
  get_u32 data 0 = Some t →
  (Z.testbit t 1 = true →
     ∃ d up, slice data (rh_body_len r) (rh_data_len r) = Some d ∧ userpass_data d = Some up) →
  let verdict :=
    if Z.testbit t 1 then PERROR_ACCESS_DENIED
    else if Z.testbit t 0 then ip_auth_verdict s else PERROR_AUTH_TYPE_NOT_SUPPORTED in
  ∃ s', handle_message s = (Done tt, s') ∧
    answered (mkAnswer 40 40 0 0 (rh_message_id r) TYPE_PROXY_AUTH 0
                (if decide (verdict = PERROR_NONE) then fget sessionID s else 0) verdict 0)
      [] s s' rest ∧
    fget sessionID s' = fget sessionID s ∧ fget registered_apps s' = fget registered_apps s.
Proof.
  intros Hi Harr Hscript Ht Hh Hty Hup verdict. pose proof (inv_wf s Hi) as Hwf.
  set (after := λ w, if Z.testbit t 1 then received r data w s
                     else if Z.testbit t 0 then ip_auth_log (received r data w s)
                     else received r data w s).
  assert (Hv : ∀ w, auth_verdict r (received r data w s) = Some (verdict, after w)).
  { intros w. unfold auth_verdict. rewrite Hh.
    rewrite (received_payload 4 r data w s 0 t ltac:(done) Hty : get_u32 _ sizeof_REQUEST_HEADER = _).
    cbn [mbind option_bind]. change AUTH_USERPASS with (2 ^ 1). change AUTH_BY_IP with (2 ^ 0).
    rewrite (land_bit t 1), (land_bit t 0) by done.
    unfold verdict, after. destruct (Z.testbit t 1); [|by destruct (Z.testbit t 0)].
    destruct (Hup eq_refl) as (d & up & Hd & Hu).
    assert (slice (fget in_packet (received r data w s)) (sizeof_REQUEST_HEADER + rh_body_len r)
              (rh_data_len r) = Some d) as ->; [|cbn [mbind option_bind]; by rewrite Hu].
    change (fget in_packet (received r data w s)) with
      (encode_request r ++ data ++ drop (36 + length data) (fget in_packet s)).
    rewrite <- (blen_encode_request r). rewrite slice_app_r; [by apply slice_app_l|].
    unfold slice in Hd. case_decide; [lia|done]. }
  assert (Haft : ∀ w, fget sock (after w) = w ∧ fget sessionID (after w) = fget sessionID s ∧
                      fget registered_apps (after w) = fget registered_apps s).
  { intros w. unfold after, ip_auth_log. destruct (Z.testbit t 1), (Z.testbit t 0); try done.
    by destruct (sv_sockname (received r data w s)). }
  edestruct (handle_message_reply r data rest s (auth_header r s verdict) []
    (λ w, clear_data_len (after w))) as (w & s' & E & Hans & ->); [done|done|done|..].
  - intros w. pose proof (received_request r data w s (arr_wf _ _ _ _ Harr)) as Hr.
    rewrite (dispatch_auth r) by done.
    rewrite (exec_proxy_auth_run r _ verdict (after w));
      [|by apply received_packet; [|apply Harr]|done|apply Hv].
    reflexivity.
  - intros w. apply (Haft w).
  - eexists. split; [exact E|]. split; [exact Hans|]. rewrite reply_state.
    destruct (Haft w) as (_ & Hs1 & Hs2). by split.
Qed.

(** HELO is answered with the server's name, system and
    version, with "authentication required" - and with the session id that
    opens all CAPI calls, before any authentication.  The body ends with what
    earlier answers left in out_packet. *)
Theorem helo_served r data rest s os v name :
  inv s → arrives r data rest s → tx_script (fget sock s) = [] →
  rh_message_type r = TYPE_PROXY_HELO →
  helo_client r (encode_request r ++ data ++ drop (36 + length data) (fget in_packet s)) =
    Some (os, v, name) → blen name < 64 →
  ∃ s', handle_message s = (Done tt, s') ∧
    answered (mkAnswer 124 40 84 0 (rh_message_id r) TYPE_PROXY_HELO 0 (fget sessionID s)
                PERROR_AUTH_REQUIRED 0)
      ((bytes_of_string "CAPI 2.0 Proxy Linux SERVER alpha" ++ [x00]) ++
       take 30 (drop 74 (fget out_packet s)) ++
       words [OS_TYPE_LINUX; major (fget local_version s); minor (fget local_version s);
              AUTH_NO_AUTH] ++ take 4 (drop 120 (fget out_packet s))) s s' rest ∧
    take (length name) (ci_name (fget client_info s')) = name.
Proof.
  intros Hi Harr Hscript Ht Hc Hn.
  destruct (serve_helo r data rest s os v name) as (s' & E & _ & Hans & Hci); [done..|].
  exists s'. split; [done|]. split.
  - assert (Hbody : helo_body (fget local_version s) (payload_area s) =
      (helo_server_name ++ [x00]) ++ take 30 (drop 74 (fget out_packet s)) ++
      words [OS_TYPE_LINUX; major (fget local_version s); minor (fget local_version s);
             AUTH_NO_AUTH] ++ take 4 (drop 120 (fget out_packet s))).
    { unfold helo_body, payload_area. by rewrite !drop_drop. }
    rewrite Hbody in Hans at 1. exact Hans.
  - rewrite Hci. change (take (length name) (name ++ x00 ::
      drop (S (length name)) (ci_name (fget client_info s))) = name).
    apply take_app_length.
Qed.

(** WAITFORSIGNAL sends nothing itself: it leaves the
    wait to a child.  Whenever that child runs, the client gets one answer, with
    the library's return code, under the message id and application id of the
    request, and the connection's own memory is untouched. *)
Theorem waitforsignal_served r data rest s :
  inv s → arrives r data rest s →
  rh_message_type r = TYPE_CAPI_WAITFORSIGNAL → rh_session_id r = fget sessionID s →
  head (fget forks s) ≠ Some false →
  ∃ s1 ch, handle_message s = (Done tt, s1) ∧
    tx (fget sock s1) = tx (fget sock s) ∧ fget children s1 = fget children s ++ [ch] ∧
    ∀ s2 rc c', tx_script (fget sock s2) = [] →
      capi20_waitformessage (rh_app_id r) (fget capi s2) = (rc, c') →
      tx (fget sock (run_child ch s2)) = tx (fget sock s2) ++
        [encode_answer (mkAnswer 40 40 0 0 (rh_message_id r) TYPE_CAPI_WAITFORSIGNAL
           (rh_app_id r) (fget sessionID s) 0 rc)] ∧
      fget capi (run_child ch s2) = c' ∧ sv_process (run_child ch s2) = sv_process s2.
Proof.
  intros Hi [Hr Hrx Hm Hd Hfit] Ht Hs Hf.
  destruct (handle_message_request r data rest s (inv_wf s Hi) Hr Hrx Hm Hd Hfit) as (w & Hw & ->).
  fold (received r data w s).
  assert (Hwf' : wf_server (received r data w s)) by (by apply received_packet; [apply Hi|]).
  exists (fset children (fget children s ++
            [mkChild (sv_process (received r data w s)) (rh_app_id r) (rh_message_id r)])
          (fset forks (tail (fget forks s)) (received r data w s))).
  eexists. split_and!; [|by apply (tx_proper _ _ Hw)|done|].
  - assert (Hdis : dispatch (received r data w s) = exec_capi_waitforsignal (received r data w s)).
    { erewrite dispatch_capi;
        [|by apply received_request|rewrite Ht; unfold capi_handlers; by repeat constructor].
      change (fget sessionID (received r data w s)) with (fget sessionID s).
      by rewrite Hs, Z.eqb_refl. }
    rewrite (exec_capi_waitforsignal_forked r) in Hdis;
      [|done|by apply received_request|exact Hf].
    erewrite bind_done by exact Hdis. done.
  - intros s2 rc c' Hscript Hwait. unfold run_child. cbn [ch_memory ch_app_id ch_message_id].
    rewrite (waitforsignal_child_run _ _ _ rc c'); [|by apply wf_memory_process|exact Hwait].
    cbn [snd]. rewrite reply_state.
    change (fget sock (set_process (sv_process s2) ?x)) with (fget sock x).
    rewrite (fget_fset (F:=sock)).
    change (fget sock (fset capi c' ?x)) with (fget sock s2).
    rewrite send_complete by done. split_and!; [|done|by destruct s2]. cbn [snd tx].
    by rewrite app_nil_r.
Qed.

Lemma registry_cleared l : CAPI_MAXAPPL < blen l →
  ∃ l', splice l 0 (replicate (Z.to_nat (CAPI_MAXAPPL + 1)) x00) = Some l' ∧ blen l' = blen l ∧ apps_set l' = ∅.
Proof.
  intros Hl. pose proof CAPI_MAXAPPL_range.
  rewrite splice_Some by (unfold blen in *; rewrite ?length_replicate; lia). eexists. split; [done|]. split.
  - unfold blen in *. erewrite splice_length by (apply splice_Some; unfold blen; rewrite ?length_replicate; lia). done.
  - apply set_eq. intros j. rewrite elem_of_apps_set. split; [|set_solver].
    intros [Hm Hj]. exfalso. apply Hm. change (take (Z.to_nat 0) l) with (@nil byte). simpl app.
    rewrite lookup_app_l by (rewrite length_replicate; lia).
    by rewrite lookup_replicate_2 by lia.
Qed.

(** Clearing CAPI_MAXAPPL + 1 bytes needs that many: on the
    array as it is declared, with CAPI_MAXAPPL bytes, the write overruns it;
    where one more byte follows, the registry starts empty. *)
Theorem memset_registry s :
  (blen (fget registered_apps s) = CAPI_MAXAPPL →
   (memset_registered_apps s).1 = Faulted OutOfBounds) ∧
  (CAPI_MAXAPPL < blen (fget registered_apps s) →
   ∃ l, memset_registered_apps s = (Done tt, fset registered_apps l s) ∧
        blen l = blen (fget registered_apps s) ∧ apps_set l = ∅).
Proof.
  pose proof CAPI_MAXAPPL_range. unfold memset_registered_apps. split; intros Hl.
  - unfold store_bytes. erewrite bind_done by done. cbv beta. rewrite splice_None; [done|].
    unfold blen in *. rewrite length_replicate. lia.
  - destruct (registry_cleared _ Hl) as (l & Hs & Hb & Ha). exists l. split; [|by split]. by apply store_bytes_run.
Qed.
End proxy_properties.
