(* ===== verification/ServerWitness.v ===== *)
(** * The server's theorems on concrete requests *)
From stdpp Require Import gmap.
From S2P Require Import Prelude CMem Protocol Net Capi20 AppIndex Server Packet Exec Proxy Capifwd ExecSpec MessageSpec ProxySpec Handled Handlers CapifwdSpec Demo Served ServedProperties ServerProperties ProxyProperties.
#[local] Open Scope Z_scope.

Lemma demo_inv segs ids mem waiting :
  blen (p_registered_apps (demo_process ids)) = 241 →
  bool_decide (demo_owned (mkDemo ids [] [] false) =
    apps_set (p_registered_apps (demo_process ids))) = true →
  inv (demo_start segs ids mem waiting).
Proof.
  intros Hl Ho. split.
  - split.
    + by vm_compute.
    + by vm_compute.
    + done.
    + change (240 < blen (p_registered_apps (demo_process ids))). by rewrite Hl.
    + by vm_compute.
  - unfold registry_ok. by apply bool_decide_eq_true in Ho.
  - by constructor.
Qed.

Ltac demo_inv := apply demo_inv; vm_compute; reflexivity.
Ltac eval_wf := apply (bool_decide_unpack _); vm_compute; exact I.
Ltac demo_arrives :=
  constructor; [unfold wf_request; eval_wf|eval_eq|eval_eq|eval_lt|eval_le].

Lemma demo_in_inv b s : inv s → blen b ≤ PACKET_SIZE → inv (demo_in b s).
Proof.
  intros Hi Hb. apply inv_in_packet; [done|]. pose proof (wf_in s (inv_wf s Hi)) as Hl.
  rewrite blen_app. unfold blen in *. rewrite length_drop. lia.
Qed.

Lemma register_served_witness :
  ∃ s', handle_message register_state = (Done tt, s') ∧
    answered (mkAnswer 40 40 0 0 7 TYPE_CAPI_REGISTER 2 3 0 0) [] register_state s' [] ∧
    fget capi s' = mkDemo [2; 1] [] [] false ∧
    apps_set (fget registered_apps s') = {[2]} ∪ apps_set (fget registered_apps register_state).
Proof.
  apply (register_served register_request register_data [] register_state 1000 2 7 128 2
           (mkDemo [2; 1] [] [] false)).
  - demo_inv.
  - demo_arrives.
  - reflexivity.
  - reflexivity.
  - reflexivity.
  - reflexivity.
  - reflexivity.
  - reflexivity.
  - reflexivity.
  - reflexivity.
  - vm_compute. reflexivity.
Defined.

Lemma release_served_witness :
  ∃ s', handle_message release_state = (Done tt, s') ∧
    answered (mkAnswer 40 40 0 0 8 TYPE_CAPI_RELEASE 2 3 0 0) [] release_state s' [] ∧
    fget capi s' = mkDemo [1] [] [] false ∧
    apps_set (fget registered_apps s') =
      if decide (0 = 0) then apps_set (fget registered_apps release_state) ∖ {[2]}
      else apps_set (fget registered_apps release_state).
Proof.
  apply (release_served release_request [x00] [] release_state 0 (mkDemo [1] [] [] false)).
  - demo_inv.
  - demo_arrives.
  - reflexivity.
  - reflexivity.
  - reflexivity.
  - eval_eq.
Defined.

Lemma query_served_witness :
  ∃ s', handle_message query_state = (Done tt, s') ∧
    answered (mkAnswer 104 40 64 0 9 TYPE_CAPI_MANUFACTURER 0 3 0 0)
      (body 64 (bytes_of_string "AVM GmbH" ++ [x00]) query_state) query_state s' [] ∧
    fget capi s' = fget capi query_state ∧
    fget registered_apps s' = fget registered_apps query_state.
Proof.
  apply (query_served query_request [x00] [] query_state 0 64 (bytes_of_string "AVM GmbH" ++ [x00])).
  - demo_inv.
  - demo_arrives.
  - reflexivity.
  - reflexivity.
  - reflexivity.
Defined.

Lemma version_served_witness :
  ∃ s', handle_message version_state = (Done tt, s') ∧
    answered (mkAnswer 56 40 16 0 10 TYPE_CAPI_VERSION 0 3 0 0)
      (words [3; 11; 2; 0]) version_state s' [].
Proof.
  apply (version_served version_request [x00] [] version_state demo_version).
  - demo_inv.
  - demo_arrives.
  - reflexivity.
  - reflexivity.
  - reflexivity.
  - reflexivity.
Defined.

Lemma getmessage_data_served_witness :
  ∃ s', handle_message getmessage_state = (Done tt, s') ∧
    answered (mkAnswer 65 40 0 25 11 TYPE_CAPI_GETMESSAGE 1 3 0 0)
      (data_b3 0x82 (demo_base + 22) ++ data_bytes) getmessage_state s' [] ∧
    fget capi s' = mkDemo [1] [] (data_b3 0x82 (demo_base + 22) ++ data_bytes) false.
Proof.
  apply (getmessage_data_served getmessage_request [x00] [] getmessage_state demo_base
    (mkDemo [1] [] (data_b3 0x82 (demo_base + 22) ++ data_bytes) false)
    (data_b3 0x82 (demo_base + 22)) 3 (demo_base + 22) data_bytes).
  - demo_inv.
  - demo_arrives.
  - reflexivity.
  - reflexivity.
  - reflexivity.
  - reflexivity.
  - eval_eq.
  - eval_le.
  - eval_eq.
  - eval_eq.
  - eval_eq.
  - eval_eq.
  - eval_eq.
  - eval_le.
Defined.

Lemma getmessage_overrun_witness :
  (exec_capi_getmessage overrun_state).1 = Faulted OutOfBounds.
Proof.
  apply (getmessage_overrun getmessage_request overrun_state demo_base
    (mkDemo [1] [] long_message false) long_message).
  - apply inv_wf, demo_in_inv; [demo_inv|eval_le].
  - eval_eq.
  - reflexivity.
  - eval_eq.
  - left. eval_lt.
Defined.

Lemma putmessage_refused_served_witness :
  ∃ s', handle_message refused_state = (Done tt, s') ∧
    answered (mkAnswer 40 40 0 0 12 TYPE_CAPI_PUTMESSAGE 1 3 PERROR_PARSE_ERROR
                (out_head refused_state AH.capi_error)) [] refused_state s' [] ∧
    fget capi s' = fget capi refused_state ∧
    fget registered_apps s' = fget registered_apps refused_state.
Proof.
  apply (putmessage_refused_served refused_request (replicate 8 x00) [] refused_state).
  - demo_inv.
  - demo_arrives.
  - reflexivity.
  - reflexivity.
  - reflexivity.
  - reflexivity.
  - eval_le.
  - left. eval_lt.
Defined.

Lemma putmessage_data_served_witness :
  ∃ s' mem rc, handle_message put_state = (Done tt, s') ∧
    answered (mkAnswer 40 40 0 0 13 TYPE_CAPI_PUTMESSAGE 1 3 0 rc) [] put_state s' [] ∧
    capi20_put_message 1 0x1000 mem 36 (fget capi put_state) = (rc, fget capi s') ∧
    slice mem 36 12 = slice put_data 0 12 ∧
    get_u32 mem (36 + 12) = Some (u32 (0x1000 + (36 + 22))) ∧
    slice mem (36 + 16) (22 - 16) = slice put_data 16 (22 - 16) ∧
    slice mem (36 + 22) 3 = Some data_bytes.
Proof.
  apply (putmessage_data_served put_request put_data [] put_state 22 3 data_bytes).
  - demo_inv.
  - demo_arrives.
  - reflexivity.
  - reflexivity.
  - reflexivity.
  - reflexivity.
  - reflexivity.
  - eval_eq.
  - eval_le.
  - eval_eq.
  - eval_eq.
  - eval_eq.
  - eval_le.
  - eval_eq.
Defined.

Lemma handle_connection_ends_witness :
  (∃ f s', handle_connection register_state = (Faulted f, s') ∧ f ≠ Diverged) ∨
  (∃ s', handle_connection register_state = (Exited 0, s') ∧ fget sock_open s' = false ∧
     owned (fget capi s') = ∅ ∧
     ∃ sent, tx (fget sock s') = tx (fget sock register_state) ++ sent ∧
             Forall frame_prefix sent).
Proof. apply (handle_connection_ends register_state). demo_inv. Defined.

Lemma reachable_inv_witness :
  let s' := (handle_message register_state).2 in
  owned (fget capi s') = apps_set (fget registered_apps s') ∧
  fget sessionID s' = fget sessionID register_state ∧
  ∃ sent, tx (fget sock s') = tx (fget sock register_state) ++ sent ∧ Forall frame_prefix sent.
Proof.
  apply (reachable_inv register_state).
  - apply rtc_once, step_message. eval_eq.
  - demo_inv.
Defined.

Lemma dispatch_one_answer_witness :
  let s' := (dispatch register_in).2 in
  tx (fget sock s') = tx (fget sock register_in) ∨
  ∃ f k, wf_frame f ∧ ah_message_id (fr_header f) = 7 ∧
    ah_message_type (fr_header f) = TYPE_CAPI_REGISTER ∧
    tx (fget sock s') = tx (fget sock register_in) ++ [take k (encode_frame f)].
Proof.
  apply (dispatch_one_answer register_request register_in 40).
  - apply demo_in_inv; [demo_inv|eval_le].
  - eval_eq.
  - eval_eq.
Defined.

Lemma wrong_session_ignored_witness :
  ∃ s', handle_message foreign_state = (Done tt, s') ∧
    tx (fget sock s') = tx (fget sock foreign_state) ∧ rx_bytes (fget sock s') = [] ∧
    fget capi s' = fget capi foreign_state ∧
    fget registered_apps s' = fget registered_apps foreign_state ∧
    fget log s' = fget log foreign_state.
Proof.
  apply (wrong_session_ignored foreign_request [x00] [] foreign_state exec_capi_release).
  - demo_inv.
  - demo_arrives.
  - unfold capi_handlers. by repeat constructor.
  - discriminate.
Defined.

Lemma header_only_closes_witness :
  ∃ s', handle_message bare_state = (Exited 0, s') ∧
    tx (fget sock s') = tx (fget sock bare_state) ∧ owned (fget capi s') = ∅ ∧
    fget sock_open s' = false.
Proof.
  apply (header_only_closes bare_request [] bare_state).
  - demo_inv.
  - unfold wf_request. eval_wf.
  - reflexivity.
  - eval_eq.
Defined.

Lemma oversize_overruns_witness : (handle_message oversize_state).1 = Faulted OutOfBounds.
Proof.
  apply (oversize_overruns oversize_request oversize_rest oversize_state).
  - demo_inv.
  - unfold wf_request. eval_wf.
  - right. eval_lt.
  - eval_eq.
  - eval_lt.
Defined.

Lemma ip_auth_octets_witness :
  (sv_sockname auth_state = Some (in_addr 192 168 0 1) →
     ip_auth auth_state =
       (Done (if decide ((192 = 192 ∧ 168 = 168) ∨ 192 = 10) then 0 else -1), auth_state)) ∧
  (sv_sockname auth_state = None →
     ip_auth auth_state =
       (Done (-1), fset log (fget log auth_state ++ [SyslogErrno ""]) auth_state)).
Proof. apply (ip_auth_octets auth_state 192 168 0 1); split; (eval_le || eval_lt). Defined.

Lemma auth_served_witness :
  ∃ s', handle_message auth_state = (Done tt, s') ∧
    answered (mkAnswer 40 40 0 0 17 TYPE_PROXY_AUTH 0
                (if decide (ip_auth_verdict auth_state = PERROR_NONE) then 3 else 0)
                (ip_auth_verdict auth_state) 0) [] auth_state s' [] ∧
    fget sessionID s' = 3 ∧ fget registered_apps s' = fget registered_apps auth_state.
Proof.
  apply (auth_served auth_request auth_data [] auth_state AUTH_BY_IP).
  - demo_inv.
  - demo_arrives.
  - reflexivity.
  - reflexivity.
  - reflexivity.
  - eval_eq.
  - discriminate.
Defined.

Lemma helo_served_witness :
  ∃ s', handle_message helo_state = (Done tt, s') ∧
    answered (mkAnswer 124 40 84 0 18 TYPE_PROXY_HELO 0 3 PERROR_AUTH_REQUIRED 0)
      ((bytes_of_string "CAPI 2.0 Proxy Linux SERVER alpha" ++ [x00]) ++
       take 30 (drop 74 (fget out_packet helo_state)) ++
       words [OS_TYPE_LINUX; 1; 2; AUTH_NO_AUTH] ++ take 4 (drop 120 (fget out_packet helo_state)))
      helo_state s' [] ∧
    take 9 (ci_name (fget client_info s')) = bytes_of_string "c2pclient".
Proof.
  apply (helo_served helo_request helo_data [] helo_state 2 (mkVersion 1 2)
           (bytes_of_string "c2pclient")).
  - demo_inv.
  - demo_arrives.
  - reflexivity.
  - reflexivity.
  - eval_eq.
  - eval_lt.
Defined.

Lemma waitforsignal_served_witness :
  ∃ s1 ch, handle_message wait_state = (Done tt, s1) ∧
    tx (fget sock s1) = tx (fget sock wait_state) ∧
    fget children s1 = fget children wait_state ++ [ch] ∧
    ∀ s2 rc c', tx_script (fget sock s2) = [] →
      capi20_waitformessage 1 (fget capi s2) = (rc, c') →
      tx (fget sock (run_child ch s2)) = tx (fget sock s2) ++
        [encode_answer (mkAnswer 40 40 0 0 19 TYPE_CAPI_WAITFORSIGNAL 1 3 0 rc)] ∧
      fget capi (run_child ch s2) = c' ∧ sv_process (run_child ch s2) = sv_process s2.
Proof.
  apply (waitforsignal_served wait_request [x00] [] wait_state).
  - demo_inv.
  - demo_arrives.
  - reflexivity.
  - reflexivity.
  - discriminate.
Defined.
