(* ===== verification/Listener.v ===== *)
(** * The listening process of the Linux server (capifwd.c, unix.c, config/cmdline.c)

    [main] up to the handling of a connection: the options, becoming a daemon, the
    listening socket, accept and fork.  What fork copies is [memory], with the
    globals of a handler ([process] of Server.v) as one of its parts; a handler that is
    forked is recorded with its copy.  The calls of Unix are the class [Unix]. *)
From stdpp Require Import gmap pretty.
From S2P Require Import Prelude CMem CText Protocol Net Capi20 AppIndex Server Proxy Capifwd.
#[local] Open Scope Z_scope.

(** ** Unix, as this process sees it *)
Class Unix (OS : Type) := {
  (** Descriptors; [None] is -1. *)
  sys_socket : OS → option Z * OS;
  (** Descriptor, address and port. *)
  sys_bind : Z → Z → Z → OS → bool * OS;
  sys_listen : Z → Z → OS → bool * OS;
  (** The descriptor of the connection and the [s_addr] of the client. *)
  sys_accept : Z → OS → option (Z * Z) * OS;
  sys_close : Z → OS → OS;
  (** The id of the child. *)
  sys_fork : OS → option Z * OS;
  (** [waitpid(-1, NULL, WNOHANG)] *)
  sys_waitpid : OS → Z * OS;
  (** The old block and the size; the new block, which is indeterminate. *)
  sys_realloc : option Z → Z → OS → option Z * OS;
}.

(** Descriptors are limited in number ([RLIMIT_NOFILE]), and accept yields a new
    one; fork leaves those of the parent as they are, and so does waitpid. *)
Class UnixLaws (OS : Type) `{Unix OS} := {
  open_fds : OS → gset Z;
  fds_limit : nat;
  sys_accept_fd sc o c a o' :
    sys_accept sc o = (Some (c, a), o') →
    (c ∉ open_fds o) ∧ open_fds o' = {[c]} ∪ open_fds o ∧ (size (open_fds o') ≤ fds_limit)%nat;
  sys_fork_fds o : open_fds (sys_fork o).2 = open_fds o;
  sys_waitpid_fds o : open_fds (sys_waitpid o).2 = open_fds o;
  (** Children that have ended and are not waited for. *)
  zombies : OS → nat;
  sys_waitpid_zombies o : 0 < (sys_waitpid o).1 → zombies o = S (zombies (sys_waitpid o).2);
}.

(** ** The state *)
(** Which functions handle the signals. *)
Inductive disposition := SigDefault | SigParent | SigChild.

Record memory := mkMemory {
  m_process : process;              (**r what a connection handler uses *)
  m_port : Z;
  m_debug : Z;
  m_configfile : option Z;
  m_auth_types : Z;
  m_sc : Z;
  m_sock : Z;
  m_remote_addr : Z;                (**r [remote_addr.sin_addr.s_addr] *)
  m_argv0 : list byte;              (**r the bytes addressable from [argv[0]] on *)
  m_msg : list byte;                (**r [char msg[50]] *)
  m_signals : disposition;
  m_pid : Z;                        (**r [getpid()] *)
}.

Record listener (OS : Type) := mkListener {
  l_memory : memory;
  l_os : OS;
  l_children : list memory;         (**r the handlers, as they were forked *)
  l_log : list log_entry;
}.
Arguments mkListener {OS}.
Arguments l_memory {OS}.
Arguments l_os {OS}.
Arguments l_children {OS}.
Arguments l_log {OS}.

Section fields.
Context {OS : Type}.
Abbreviation st := (listener OS).

Definition memo : field st memory := mkField l_memory (λ v s, mkListener v (l_os s) (l_children s) (l_log s)).
Definition system : field st OS := mkField l_os (λ v s, mkListener (l_memory s) v (l_children s) (l_log s)).
Definition handlers : field st (list memory) := mkField l_children (λ v s,
  mkListener (l_memory s) (l_os s) v (l_log s)).
Definition log : field st (list log_entry) := mkField l_log (λ v s,
  mkListener (l_memory s) (l_os s) (l_children s) v).

Definition memory_field {A} (get : memory → A) (set : A → memory → memory) : field st A :=
  mkField (λ s, get (l_memory s)) (λ v s, fset memo (set v (l_memory s)) s).

Definition set_process (v : process) (m : memory) : memory :=
  mkMemory v (m_port m) (m_debug m) (m_configfile m) (m_auth_types m) (m_sc m) (m_sock m) (m_remote_addr m)
    (m_argv0 m) (m_msg m) (m_signals m) (m_pid m).
Definition port : field st Z := memory_field m_port (λ v m,
  mkMemory (m_process m) v (m_debug m) (m_configfile m) (m_auth_types m) (m_sc m) (m_sock m) (m_remote_addr m)
    (m_argv0 m) (m_msg m) (m_signals m) (m_pid m)).
Definition debug : field st Z := memory_field m_debug (λ v m,
  mkMemory (m_process m) (m_port m) v (m_configfile m) (m_auth_types m) (m_sc m) (m_sock m) (m_remote_addr m)
    (m_argv0 m) (m_msg m) (m_signals m) (m_pid m)).
Definition configfile : field st (option Z) := memory_field m_configfile (λ v m,
  mkMemory (m_process m) (m_port m) (m_debug m) v (m_auth_types m) (m_sc m) (m_sock m) (m_remote_addr m)
    (m_argv0 m) (m_msg m) (m_signals m) (m_pid m)).
Definition auth_types : field st Z := memory_field m_auth_types (λ v m,
  mkMemory (m_process m) (m_port m) (m_debug m) (m_configfile m) v (m_sc m) (m_sock m) (m_remote_addr m)
    (m_argv0 m) (m_msg m) (m_signals m) (m_pid m)).
Definition sc : field st Z := memory_field m_sc (λ v m,
  mkMemory (m_process m) (m_port m) (m_debug m) (m_configfile m) (m_auth_types m) v (m_sock m) (m_remote_addr m)
    (m_argv0 m) (m_msg m) (m_signals m) (m_pid m)).
Definition sock : field st Z := memory_field m_sock (λ v m,
  mkMemory (m_process m) (m_port m) (m_debug m) (m_configfile m) (m_auth_types m) (m_sc m) v (m_remote_addr m)
    (m_argv0 m) (m_msg m) (m_signals m) (m_pid m)).
Definition remote_addr : field st Z := memory_field m_remote_addr (λ v m,
  mkMemory (m_process m) (m_port m) (m_debug m) (m_configfile m) (m_auth_types m) (m_sc m) (m_sock m) v
    (m_argv0 m) (m_msg m) (m_signals m) (m_pid m)).
Definition argv0 : field st (list byte) := memory_field m_argv0 (λ v m,
  mkMemory (m_process m) (m_port m) (m_debug m) (m_configfile m) (m_auth_types m) (m_sc m) (m_sock m) (m_remote_addr m)
    v (m_msg m) (m_signals m) (m_pid m)).
Definition msg : field st (list byte) := memory_field m_msg (λ v m,
  mkMemory (m_process m) (m_port m) (m_debug m) (m_configfile m) (m_auth_types m) (m_sc m) (m_sock m) (m_remote_addr m)
    (m_argv0 m) v (m_signals m) (m_pid m)).
Definition signals : field st disposition := memory_field m_signals (λ v m,
  mkMemory (m_process m) (m_port m) (m_debug m) (m_configfile m) (m_auth_types m) (m_sc m) (m_sock m) (m_remote_addr m)
    (m_argv0 m) (m_msg m) v (m_pid m)).
Definition set_pid (v : Z) (m : memory) : memory :=
  mkMemory (m_process m) (m_port m) (m_debug m) (m_configfile m) (m_auth_types m) (m_sc m) (m_sock m) (m_remote_addr m)
    (m_argv0 m) (m_msg m) (m_signals m) v.
Definition pid : field st Z := memory_field m_pid set_pid.

(** The globals a handler uses too. *)
Definition process_field {A} (get : process → A) (set : A → process → process) : field st A :=
  memory_field (λ m, get (m_process m)) (λ v m, set_process (set v (m_process m)) m).
Definition local_version : field st version_t := process_field p_local_version (λ v p,
  mkProcess (p_sessionID p) v (p_client_info p) (p_in_packet_address p) (p_in_packet p) (p_out_packet p)
    (p_registered_apps p) (p_sock_open p)).
Definition registered_apps : field st (list byte) := process_field p_registered_apps (λ v p,
  mkProcess (p_sessionID p) (p_local_version p) (p_client_info p) (p_in_packet_address p) (p_in_packet p) (p_out_packet p)
    v (p_sock_open p)).
Definition sessionID : field st Z := process_field p_sessionID (λ v p,
  mkProcess v (p_local_version p) (p_client_info p) (p_in_packet_address p) (p_in_packet p) (p_out_packet p)
    (p_registered_apps p) (p_sock_open p)).
Definition sock_open : field st bool := process_field p_sock_open (λ v p,
  mkProcess (p_sessionID p) (p_local_version p) (p_client_info p) (p_in_packet_address p) (p_in_packet p) (p_out_packet p)
    (p_registered_apps p) v).

Definition syslog (e : log_entry) : M st unit := modify log (λ l, l ++ [e]).
End fields.

Section capifwd.
Context `{CapiHeader} {OS : Type} `{Unix OS}.
Abbreviation L := (M (listener OS)).

(** ** config/cmdline.c *)
(** [argv[i]]; [argv[argc]] is a null pointer. *)
Definition arg (argv : list string) (i : nat) : L string := try NullDeref (argv !! i).

(** The second part of the loop's body; the result is the new [i]. *)
Definition eval_option (argv : list string) (i : nat) : L nat :=
  a ← arg argv i;
  if String.eqb "-f" a || String.eqb "--file" a then
    let i := S i in
    a ← arg argv i;
    old ← gets configfile;
    block ← zoom system (sys_realloc old (Z.of_nat (String.length a)));
    puts configfile block;;
    mret i
  else if String.eqb "-p" a || String.eqb "--port" a then
    let i := S i in
    a ← arg argv i;
    d ← try Unrepresentable (atoi a);
    (if d =? 0 then mret tt else puts port d);;
    mret i
  else
    a1 ← arg argv 1;
    if String.eqb "-v" a || String.eqb "-h" a1 || String.eqb "--version" a1 || String.eqb "--help" a
    then exit 0
    else mret i.

(** [for (i = 1; i < argc; i++)] *)
Fixpoint eval_loop (fuel : nat) (argv : list string) (i : nat) : L unit :=
  if decide (i < length argv)%nat then
    match fuel with
    | O => fail Diverged
    | S fuel' =>
        a ← arg argv i;
        i ← (if String.eqb "-d" a || String.eqb "--debug" a then puts debug 1;; mret (S i) else mret i);
        i ← eval_option argv i;
        eval_loop fuel' argv (S i)
    end
  else mret tt.
Definition eval_cmdline (argv : list string) : L Z :=
  (if decide (length argv = 1%nat) then mret tt else eval_loop (length argv) argv 1);;
  mret 0.

(** ** unix.c *)
Definition close (fd : Z) : L unit := modify system (sys_close fd).

Definition quit (ret : Z) : L Z :=
  fd ← gets sc;
  close fd;;
  exit ret.

(** The handler of signals of the listening process. *)
Definition sigparent (sig : signal) : L unit :=
  match sig with
  | SIGINT | SIGTERM =>
      fd ← gets sc;
      close fd;;
      syslog (Syslog "got signal and exiting");;
      exit 0
  | SIGHUP | SIGUSR1 | SIGOTHER => syslog (Syslog "ignoring received signal")
  end.

(** The handler of SIGCHLD. *)
Fixpoint sigchld_loop (fuel : nat) (child : Z) : L unit :=
  if decide (0 < child) then
    match fuel with
    | O => fail Diverged
    | S fuel' => child ← zoom system sys_waitpid; sigchld_loop fuel' child
    end
  else mret tt.
Definition sigchld (fuel : nat) : L unit := child ← zoom system sys_waitpid; sigchld_loop fuel child.

(** The parent exits, the child goes on. *)
Definition fork_and_exit : L unit :=
  child ← zoom system sys_fork;
  match child with
  | Some child => puts pid child
  | None => exit 1
  end.

(** Working directory and umask are left out; stdin, stdout and stderr are the
    descriptors 0, 1 and 2. *)
Definition become_daemon : L Z :=
  fork_and_exit;;
  fork_and_exit;;
  close 0;; close 1;; close 2;;
  puts signals SigParent;;
  syslog (Syslog "capifwd server started.");;
  mret 0.

(** ** capifwd.c: main *)
(** [syslog(LOG_WARNING, sys_errlist[errno]); close(sc); exit(1);] *)
Definition fatal {A} : L A :=
  syslog (SyslogErrno "");;
  fd ← gets sc;
  close fd;;
  exit 1.

(** The loop up to the forked handler, and the fork itself.  The parent goes on with
    the next round; without fork, in debug mode, the process itself becomes the
    handler, which is the result [tt]. *)
Fixpoint accept_loop (fuel : nat) : L unit :=
  match fuel with
  | O => fail Diverged
  | S fuel' =>
      fd ← gets sc;
      connection ← zoom system (sys_accept fd);
      match connection with
      | None => fatal
      | Some (connection, s_addr) =>
          puts sock connection;;
          puts sock_open true;;
          puts remote_addr s_addr;;
          modify sessionID (λ id, u32 (id + 1));;
          d ← gets debug;
          if d =? 0 then
            child ← zoom system sys_fork;
            match child with
            | None =>
                syslog (Syslog "Exiting due to fork error");;
                fd ← gets sc; close fd;;
                fd ← gets sock; close fd;;
                exit 1
            | Some child =>
                m ← gets memo;
                modify handlers (λ hs, hs ++ [set_pid child m]);;
                accept_loop fuel'
            end
          else mret tt
      end
  end.

(** [sprintf(msg, ...)], with the NUL. *)
Definition sprintf_msg (text : string) : L unit := store_cstr msg 0 (bytes_of_string text).

(** A forked handler, or in debug mode the process itself, until it handles
    requests. *)
Definition become_handler : L unit :=
  a ← gets remote_addr;
  sprintf_msg ("capifwd_handle (" +:+ inet_ntoa a +:+ ")");;
  name ← load_cstr msg 0;
  store_cstr argv0 0 name;;
  id ← gets pid;
  sprintf_msg ("Client from " +:+ inet_ntoa a +:+ ": spawned new handler " +:+ pretty id +:+ ".");;
  text ← load_cstr msg 0;
  syslog (Syslog (String.string_of_list_byte text));;
  puts signals SigChild.

Definition main (argv : list string) (fuel : nat) : L unit :=
  puts auth_types AUTH_BY_IP;;
  puts local_version (mkVersion MY_MAJOR MY_MINOR);;
  puts port STD_PORT;;
  eval_cmdline argv;;
  d ← gets debug;
  (if d =? 0 then become_daemon;; mret tt else mret tt);;
  store_bytes registered_apps 0 (replicate (Z.to_nat (CAPI_MAXAPPL + 1)) x00);;
  fd ← zoom system sys_socket;
  match fd with
  | None => syslog (SyslogErrno "");; exit 1
  | Some fd =>
      puts sc fd;;
      p ← gets port;
      bound ← zoom system (sys_bind fd 0 (u16 p));
      if negb bound then fatal else
      listening ← zoom system (sys_listen fd 3);
      if negb listening then fatal else
      store_cstr argv0 0 (bytes_of_string "capifwd_wait");;
      puts sessionID 2;;
      accept_loop fuel
  end.

(** ** The handler *)
(** A forked handler on its copy of the memory; log and system are shared. *)
Definition forked (m : memory) (l : listener OS) : listener OS := mkListener m (l_os l) [] (l_log l).

(** The state in which the handling of requests starts, on the connection [w] and
    with the library not yet used. *)
Definition connection {CS} (l : listener OS) (w : net) (c : CS) (sockname : option Z) (forks : list bool) : server CS :=
  mkServer (m_process (l_memory l)) w c sockname forks [] (l_log l).

(** The process [l] after accept and fork: it gives itself a name, then it handles the
    connection. *)
Definition run_handler {CS} `{!Capi20 CS} (l : listener OS) (w : net) (c : CS) (sockname : option Z) (forks : list bool) :
    outcome unit * server CS :=
  match become_handler l with
  | (Done _, l) => handle_connection (connection l w c sockname forks)
  | (Faulted f, l) => (Faulted f, connection l w c sockname forks)
  | (Exited n, l) => (Exited n, connection l w c sockname forks)
  end.
End capifwd.
