(* ===== verification/ListenerSpec.v ===== *)
(** * The listening process: one run of its parts

    The options; the accept loop; what the functions before it keep. *)
From stdpp Require Import gmap pretty.
From S2P Require Import Prelude CMem CText Protocol Net Capi20 AppIndex Server Packet Proxy Handled Listener.
#[local] Open Scope Z_scope.

Section listener.
Context `{CapiHeader} {OS : Type} `{HU : !Unix OS, !UnixLaws OS}.
Implicit Types l : listener OS.
Abbreviation L := (M (listener OS)).

#[export] Instance msg_lawful : LawfulField (msg (OS:=OS)).
Proof. by constructor; [|intros [[]]|]. Qed.
#[export] Instance argv0_lawful : LawfulField (argv0 (OS:=OS)).
Proof. by constructor; [|intros [[]]|]. Qed.

(** ** Options as a list *)
Definition is_debug (a : string) : bool := String.eqb "-d" a || String.eqb "--debug" a.
Definition is_file (a : string) : bool := String.eqb "-f" a || String.eqb "--file" a.
Definition is_port (a : string) : bool := String.eqb "-p" a || String.eqb "--port" a.
(** Two of the four spellings are looked for in [first], [argv[1]]. *)
Definition is_help (first a : string) : bool :=
  String.eqb "-v" a || String.eqb "-h" first || String.eqb "--version" first || String.eqb "--help" a.

Definition set_configfile (a : string) : L unit :=
  old ← gets configfile;
  block ← zoom system (sys_realloc old (Z.of_nat (String.length a)));
  puts configfile block.
Definition set_port (a : string) : L unit :=
  d ← try Unrepresentable (atoi a);
  if d =? 0 then mret tt else puts port d.

(** The option [a], its argument, if it takes one, at the head of [rest], and then
    what [k] does with the options behind it. *)
Definition option_then (first : string) (k : list string → L unit) (a : string) (rest : list string) : L unit :=
  if is_file a then match rest with [] => fail NullDeref | x :: rest => set_configfile x;; k rest end
  else if is_port a then match rest with [] => fail NullDeref | x :: rest => set_port x;; k rest end
  else if is_help first a then exit 0
  else k rest.

(** A debug option is not looked at further, but the one behind it is, without a
    check that there is one. *)
Fixpoint read_options (first : string) (args : list string) : L unit :=
  match args with
  | [] => mret tt
  | a :: args =>
      if is_debug a then
        puts debug 1;;
        match args with
        | [] => fail NullDeref
        | b :: args => option_then first (read_options first) b args
        end
      else option_then first (read_options first) a args
  end.

Lemma arg_Some argv i a l : argv !! i = Some a → arg argv i l = (Done a, l).
Proof. intros Ha. unfold arg. by rewrite Ha. Qed.
Lemma arg_None argv i l : argv !! i = None → arg argv i l = (Faulted NullDeref, l).
Proof. intros Ha. unfold arg. by rewrite Ha. Qed.

Lemma eval_option_run first argv i a rest (k : nat → L unit) (r : list string → L unit) :
  argv !! 1%nat = Some first → drop i argv = a :: rest →
  (∀ j rest' l, drop (S j) argv = rest' → (i ≤ j)%nat → (j < length argv)%nat → k j l = r rest' l) →
  ∀ l, (eval_option argv i ≫= k) l = option_then first r a rest l.
Proof.
  intros Hfirst Hdrop Hk l.
  assert (Ha : argv !! i = Some a) by (by rewrite <- (Nat.add_0_r i), <- lookup_drop, Hdrop).
  assert (Hrest : drop (S i) argv = rest) by (by rewrite <- Nat.add_1_r, <- drop_drop, Hdrop).
  assert (Hnext : argv !! S i = head rest).
  { rewrite <- Nat.add_1_r, <- lookup_drop, Hdrop. by destruct rest. }
  assert (Hi : (i < length argv)%nat) by (by eapply lookup_lt_Some).
  unfold eval_option, option_then. rewrite bind_assoc, (bind_done _ _ _ _ _ (arg_Some _ _ _ _ Ha)).
  change (String.eqb "-f" a || String.eqb "--file" a) with (is_file a).
  change (String.eqb "-p" a || String.eqb "--port" a) with (is_port a).
  destruct (is_file a); [|destruct (is_port a)].
  - destruct rest as [|x rest].
    + rewrite bind_assoc. by rewrite (bind_faulted _ _ _ _ _ (arg_None _ _ _ Hnext)).
    + rewrite bind_assoc, (bind_done _ _ _ _ _ (arg_Some _ _ _ _ Hnext)). unfold set_configfile.
      rewrite !bind_assoc. apply bind_cong. intros old l1. rewrite !bind_assoc. apply bind_cong. intros block l2.
      rewrite !bind_assoc. apply bind_cong. intros _ l3. apply Hk; [|lia|by eapply lookup_lt_Some].
      by rewrite <- Nat.add_1_r, <- drop_drop, Hrest.
  - destruct rest as [|x rest].
    + rewrite bind_assoc. by rewrite (bind_faulted _ _ _ _ _ (arg_None _ _ _ Hnext)).
    + rewrite bind_assoc, (bind_done _ _ _ _ _ (arg_Some _ _ _ _ Hnext)). unfold set_port.
      rewrite !bind_assoc. apply bind_cong. intros d l1. rewrite !bind_assoc.
      destruct (d =? 0); (apply bind_cong; intros _ l2);
      (apply Hk; [by rewrite <- Nat.add_1_r, <- drop_drop, Hrest|lia|by eapply lookup_lt_Some]).
  - rewrite bind_assoc, (bind_done _ _ _ _ _ (arg_Some _ _ _ _ Hfirst)).
    change (String.eqb "-v" a || String.eqb "-h" first || String.eqb "--version" first || String.eqb "--help" a)
      with (is_help first a).
    destruct (is_help first a); [done|]. by apply Hk.
Qed.

Lemma eval_loop_run first argv fuel i :
  argv !! 1%nat = Some first → (length argv ≤ fuel + i)%nat →
  ∀ l, eval_loop fuel argv i l = read_options first (drop i argv) l.
Proof.
  intros Hfirst. revert i. induction fuel as [|fuel IH]; intros i Hl l.
  { rewrite drop_ge by lia. cbn [eval_loop]. by rewrite decide_False by lia. }
  cbn [eval_loop]. case_decide as Hi; [|by rewrite drop_ge by lia].
  destruct (drop i argv) as [|a rest] eqn:Hdrop.
  { apply (f_equal length) in Hdrop. rewrite length_drop in Hdrop. cbn in Hdrop. lia. }
  assert (Ha : argv !! i = Some a) by (by rewrite <- (Nat.add_0_r i), <- lookup_drop, Hdrop).
  assert (Hrest : drop (S i) argv = rest) by (by rewrite <- Nat.add_1_r, <- drop_drop, Hdrop).
  rewrite (bind_done _ _ _ _ _ (arg_Some _ _ _ _ Ha)). cbn [read_options].
  change (String.eqb "-d" a || String.eqb "--debug" a) with (is_debug a). destruct (is_debug a).
  - rewrite bind_assoc. apply bind_cong. intros _ l1. erewrite bind_done by done. cbv beta.
    destruct rest as [|b rest].
    + assert (Hn : argv !! S i = None) by (by rewrite <- (Nat.add_0_r (S i)), <- lookup_drop, Hrest).
      unfold eval_option. rewrite bind_assoc. by rewrite (bind_faulted _ _ _ _ _ (arg_None _ _ _ Hn)).
    + apply eval_option_run; [done..|]. intros j rest' l2 <- Hj Hlt. apply IH. lia.
  - erewrite bind_done by done. cbv beta.
    apply eval_option_run; [done..|]. intros j rest' l2 <- Hj Hlt. apply IH. lia.
Qed.
End listener.

(** ** What comes before the accept loop *)
Section calm.
Context {OS : Type}.
Implicit Types l : listener OS.

(** What the handlers get, and which there are, stays as it is, and argv[0] where it is. *)
Definition inherited (m : memory) : process * list byte * Z := (m_process m, m_msg m, blen (m_argv0 m)).
Definition untouched l l' : Prop :=
  inherited (l_memory l') = inherited (l_memory l) ∧ l_children l' = l_children l.
#[export] Instance untouched_preorder : PreOrder untouched.
Proof. split; [by split|]. intros l1 l2 l3 [H1 H2] [H3 H4]. split; congruence. Qed.
Abbreviation calm := (respects (λ _, True) untouched).

Lemma calm_puts {A} (F : field (listener OS) A) a : (∀ l, untouched l (fset F a l)) → calm (puts F a).
Proof. intros HF. apply respects_puts. by intros l _. Qed.
Lemma calm_modify {A} (F : field (listener OS) A) g : (∀ a l, untouched l (fset F a l)) → calm (modify F g).
Proof. intros HF. apply respects_modify. by intros a l _. Qed.
Lemma calm_system {A} (f : OS → A * OS) : calm (zoom system f).
Proof. intros l _. unfold zoom. by destruct (f _) as [a o]. Qed.
Lemma calm_syslog e : calm (syslog e).
Proof. by apply calm_modify. Qed.
Lemma calm_close `{!Unix OS} fd : calm (close fd).
Proof. by apply calm_modify. Qed.
Lemma calm_exit {A} c : calm (exit (A:=A) c).
Proof. by intros l _. Qed.
End calm.
Ltac calm_steps := repeat match goal with
  | |- respects _ _ (_ ≫= _) => apply respects_bind; [apply _| |intros ?]
  | |- respects _ _ (if _ then _ else _) => apply respects_if
  | |- respects _ _ (puts _ _) => by apply calm_puts
  | |- respects _ _ (gets _) => apply respects_gets, _
  | |- respects _ _ (mret _) => apply respects_ret, _
  | |- respects _ _ (exit _) => apply calm_exit
  | |- respects _ _ (syslog _) => apply calm_syslog
  | |- respects _ _ (close _) => apply calm_close
  | |- respects _ _ (zoom system _) => apply calm_system
  | |- respects _ _ (try _ _) => by apply respects_try; [apply _|]
  end.

Section before.
Context `{CapiHeader} {OS : Type} `{HU : !Unix OS, !UnixLaws OS}.
Implicit Types l : listener OS.
Abbreviation calm := (respects (λ _, True) (untouched (OS:=OS))).

Lemma calm_set_configfile a : calm (set_configfile a).
Proof. unfold set_configfile. calm_steps. Qed.
Lemma calm_set_port a : calm (set_port a).
Proof. unfold set_port. calm_steps. Qed.

Lemma calm_option first k a rest : (∀ r, suffix r rest → calm (k r)) → calm (option_then first k a rest).
Proof.
  intros Hk. unfold option_then. apply respects_if; [|apply respects_if; [|apply respects_if]].
  - destruct rest as [|x rest]; [apply respects_fail; [apply _|done]|]. apply respects_bind; [apply _|apply calm_set_configfile|].
    intros _. apply Hk. by apply suffix_cons_r.
  - destruct rest as [|x rest]; [apply respects_fail; [apply _|done]|]. apply respects_bind; [apply _|apply calm_set_port|].
    intros _. apply Hk. by apply suffix_cons_r.
  - apply calm_exit.
  - by apply Hk.
Qed.

Lemma calm_read_options first args : calm (read_options first args).
Proof.
  induction args as [args IH] using (induction_ltof1 _ (@length string)). unfold ltof in IH.
  destruct args as [|a args]; cbn [read_options]; [apply respects_ret, _|].
  assert (Hrec : ∀ r, suffix r args → calm (read_options first r)).
  { intros r Hr%suffix_length. apply IH. cbn. lia. }
  apply respects_if; [|by apply calm_option].
  apply respects_bind; [apply _|by apply calm_puts|]. intros _. destruct args as [|b args]; [apply respects_fail; [apply _|done]|].
  apply calm_option. intros r Hr. apply Hrec. by apply suffix_cons_r.
Qed.

Lemma calm_eval_cmdline argv : calm (eval_cmdline argv).
Proof.
  unfold eval_cmdline. apply respects_bind; [apply _| |by intros _; apply respects_ret, _].
  case_decide as Hl; [apply respects_ret, _|]. intros l _.
  destruct argv as [|prog [|first args]]; [by cbn|done|].
  rewrite (eval_loop_run first); [|done|lia]. by apply calm_read_options.
Qed.

Lemma calm_become_daemon : calm become_daemon.
Proof.
  assert (calm fork_and_exit).
  { unfold fork_and_exit. apply respects_bind; [apply _|apply calm_system|]. intros [c|]; calm_steps. }
  unfold become_daemon. calm_steps; assumption.
Qed.

(** ** The accept loop *)
(** The memory of the [k]-th handler from now on. *)
Definition session_memory (id : Z) (p : process) : process :=
  mkProcess id (p_local_version p) (p_client_info p) (p_in_packet_address p) (p_in_packet p) (p_out_packet p)
    (p_registered_apps p) true.
Definition handler_memory l (k : nat) (p : process) : Prop :=
  p = session_memory (u32 (p_sessionID (m_process (l_memory l)) + 1 + Z.of_nat k)) (m_process (l_memory l)).

(** After accept, in the state [l]. *)
Definition accepted (connection s_addr : Z) o l : listener OS :=
  let l := fset remote_addr s_addr (fset sock_open true (fset sock connection (fset system o l))) in
  fset sessionID (u32 (fget sessionID l + 1)) l.

Lemma accept_loop_accepted fuel connection s_addr o l :
  sys_accept (m_sc (l_memory l)) (l_os l) = (Some (connection, s_addr), o) →
  accept_loop (S fuel) l =
    (if m_debug (l_memory l) =? 0 then
      child ← zoom system sys_fork;
      match child with
      | None =>
          syslog (Syslog "Exiting due to fork error");;
          fd ← gets sc; close fd;; fd ← gets sock; close fd;; exit 1
      | Some child =>
          m ← gets memo;
          modify handlers (λ hs, hs ++ [set_pid child m]);;
          accept_loop fuel
      end
    else mret tt) (accepted connection s_addr o l).
Proof.
  intros Ha. cbn [accept_loop]. erewrite bind_done by done. cbv beta.
  rewrite (bind_done _ _ l (Some (connection, s_addr)) (fset system o l)).
  2:{ unfold zoom. change (fget sc l) with (m_sc (l_memory l)). change (fget system l) with (l_os l). by rewrite Ha. }
  do 4 (erewrite bind_done by done; cbv beta). erewrite bind_done by done. done.
Qed.

Lemma accept_loop_refused fuel o l :
  sys_accept (m_sc (l_memory l)) (l_os l) = (None, o) →
  ∃ l', accept_loop (S fuel) l = (Exited 1, l') ∧ untouched l l'.
Proof.
  intros Ha. cbn [accept_loop]. erewrite bind_done by done. cbv beta.
  rewrite (bind_done _ _ l None (fset system o l)).
  2:{ unfold zoom. change (fget sc l) with (m_sc (l_memory l)). change (fget system l) with (l_os l). by rewrite Ha. }
  eexists. split; [reflexivity|]. done.
Qed.

(** The parent keeps the descriptor of each connection, so that their number bounds
    the rounds. *)
Lemma accept_loop_run fuel l :
  m_debug (l_memory l) = 0 → (fds_limit - size (open_fds (l_os l)) < fuel)%nat →
  ∃ l' ms, accept_loop fuel l = (Exited 1, l') ∧ l_children l' = l_children l ++ ms ∧
    (length ms ≤ fds_limit - size (open_fds (l_os l)))%nat ∧
    ∀ k m, ms !! k = Some m → handler_memory l k (m_process m) ∧
      m_msg m = m_msg (l_memory l) ∧ m_argv0 m = m_argv0 (l_memory l).
Proof.
  revert l. induction fuel as [|fuel IH]; intros l Hd Hf; [lia|].
  destruct (sys_accept (m_sc (l_memory l)) (l_os l)) as [[[c a]|] o] eqn:Ha.
  2:{ destruct (accept_loop_refused fuel o l Ha) as (l' & -> & _ & Hc). exists l', []. rewrite app_nil_r.
      split_and!; [done|done|cbn; lia|]. intros k m Hk. by rewrite lookup_nil in Hk. }
  rewrite (accept_loop_accepted _ c a o) by done. rewrite Hd. cbn [Z.eqb].
  destruct (sys_accept_fd _ _ _ _ _ Ha) as (Hnew & Ho & Hsize).
  rewrite Ho, size_union, size_singleton in Hsize by set_solver.
  pose proof (sys_fork_fds o) as Hfd. destruct (sys_fork o) as [[child|] o1] eqn:Hfork; cbn [snd] in Hfd.
  2:{ rewrite (bind_done _ _ _ None (fset system o1 (accepted c a o l))).
      2:{ unfold zoom. change (fget system (accepted c a o l)) with o. by rewrite Hfork. }
      eexists _, []. split; [reflexivity|]. rewrite app_nil_r. split_and!; [done|cbn; lia|]. intros k m Hk. by rewrite lookup_nil in Hk. }
  rewrite (bind_done _ _ _ (Some child) (fset system o1 (accepted c a o l))).
  2:{ unfold zoom. change (fget system (accepted c a o l)) with o. by rewrite Hfork. }
  erewrite bind_done by done. cbv beta. erewrite bind_done by done. cbv beta.
  set (l1 := fset system o1 (accepted c a o l)). set (m0 := set_pid child (fget memo l1)).
  match goal with |- context [accept_loop fuel ?x] => set (l2 := x) end.
  assert (Hos : open_fds (l_os l2) = {[c]} ∪ open_fds (l_os l)) by (change (l_os l2) with o1; congruence).
  destruct (IH l2) as (l' & ms & Hrun & Hc & Hms & Hmem).
  { exact Hd. }
  { rewrite Hos, size_union, size_singleton by set_solver. lia. }
  exists l', (m0 :: ms). rewrite Hrun, Hc. split_and!; [done| | |].
  - change (l_children l2) with (l_children l ++ [m0]). by rewrite <- (assoc_L (++)).
  - rewrite Hos, size_union, size_singleton in Hms by set_solver. cbn [length]. lia.
  - intros [|k] m Hk.
    + injection Hk as <-. unfold handler_memory. rewrite Z.add_0_r. done.
    + destruct (Hmem k m Hk) as [Hp Hrest]. split; [|exact Hrest]. unfold handler_memory in *. rewrite Hp. unfold session_memory. f_equal.
      change (p_sessionID (m_process (l_memory l2))) with (u32 (p_sessionID (m_process (l_memory l)) + 1)).
      unfold u32. rewrite <- Z.add_assoc, Zplus_mod_idemp_l. f_equal. lia.
Qed.
End before.
