(* ===== verification/ListenerProperties.v ===== *)
(** * The listening process: properties *)
From stdpp Require Import gmap pretty.
From S2P Require Import Prelude CMem CText Protocol Net Capi20 AppIndex Server Packet Proxy Capifwd Handled CapifwdSpec ProxyProperties Listener ListenerSpec.
#[local] Open Scope Z_scope.

Section options.
Context `{CapiHeader} {OS : Type} `{HU : !Unix OS, !UnixLaws OS}.
Implicit Types l : listener OS.

(** The loop over argv reads the options one after another, and ends: it does what
    reading them from a list does, whatever they are.  In particular -d takes the
    option behind it into the round without a check: as the last one it makes strcmp read
    the null pointer at the end of argv; and -h is only seen in the first place. *)
Theorem cmdline_options prog first rest l :
  eval_cmdline (prog :: first :: rest) l = (read_options first (first :: rest);; mret 0) l ∧
  (eval_cmdline [prog; "-d"%string] l).1 = Faulted NullDeref ∧
  (eval_cmdline (prog :: "-h"%string :: rest) l).1 = Exited 0 ∧
  ∀ v, atoi first = Some v → v ≠ 0 →
    eval_cmdline [prog; "-p"%string; first; "-h"%string] l = (Done 0, fset port v l).
Proof.
  assert (Heq : ∀ first rest, eval_cmdline (prog :: first :: rest) l = (read_options first (first :: rest);; mret 0) l).
  { intros f r. unfold eval_cmdline. rewrite decide_False by done. unfold mbind, M_bind.
    rewrite (eval_loop_run f) by (done || lia). done. }
  split_and!; [apply Heq| | |].
  - rewrite Heq. done.
  - rewrite Heq. done.
  - intros v Hv Hv0. rewrite Heq. cbn [read_options]. change (is_debug "-p") with false. cbv iota.
    unfold option_then. change (is_file "-p") with false. change (is_port "-p") with true. cbv iota.
    rewrite bind_assoc. rewrite (bind_done _ _ l tt (fset port v l)); [done|].
    unfold set_port. rewrite Hv. erewrite bind_done by done. cbv beta. by destruct (Z.eqb_spec v 0).
Qed.
End options.

Section listener.
Context `{CapiHeader} {CS OS : Type} `{!Capi20 CS, !Capi20Laws CS, HU : !Unix OS, !UnixLaws OS}.
Implicit Types (l : listener OS) (p : process).

Abbreviation calm := (respects (λ _, True) (untouched (OS:=OS))).

(** ** The state a handler starts with *)
Record fresh p : Prop := mkFresh {
  fresh_in : blen (p_in_packet p) = PACKET_SIZE;
  fresh_out : blen (p_out_packet p) = PACKET_SIZE;
  fresh_sessionID : 0 ≤ p_sessionID p < 2 ^ 32;
  fresh_apps : CAPI_MAXAPPL < blen (p_registered_apps p);
  fresh_name : blen (ci_name (p_client_info p)) = 64;
}.

(** What main leaves to the handlers. *)
Definition prepared (p : process) : Prop := fresh p ∧ apps_set (p_registered_apps p) = ∅.

(** The sizes of [msg] and of the memory at argv[0]. *)
Definition room (n : Z * Z) (m : memory) : Prop := blen (m_msg m) = n.1 ∧ blen (m_argv0 m) = n.2.

Lemma prepared_inv p (w : net) (c : CS) sockname forks log :
  prepared p → owned c = ∅ → inv (mkServer p w c sockname forks [] log).
Proof.
  intros [Hp Ha] Hc. split; [by destruct Hp| |by constructor].
  unfold registry_ok. cbn. congruence.
Qed.

Lemma memset_prepared l :
  fresh (m_process (l_memory l)) →
  ∃ a, store_bytes registered_apps 0 (replicate (Z.to_nat (CAPI_MAXAPPL + 1)) x00) l = (Done tt, fset registered_apps a l) ∧
    prepared (m_process (l_memory (fset registered_apps a l))).
Proof.
  intros Hp. destruct (registry_cleared (p_registered_apps (m_process (l_memory l)))) as (a & Hs & Hb & Ha).
  { by apply fresh_apps. }
  exists a. split; [by apply store_bytes_run|]. split; [|done]. destruct Hp. split; try done. cbn. by rewrite Hb.
Qed.

(** The handlers of [main], in the order of their connections. *)
Definition handlers_ok (n : Z * Z) (ms : list memory) : Prop :=
  ∀ k m, ms !! k = Some m → prepared (m_process m) ∧ room n m ∧ p_sessionID (m_process m) = u32 (3 + Z.of_nat k).

Lemma prepared_session id p : prepared p → prepared (session_memory (u32 id) p).
Proof. intros [[] Ha]. split; [|done]. split; try done. apply u32_range. Qed.

(** How main ends, and what it leaves. *)
Definition main_post (n : Z * Z) (out : outcome unit * listener OS) : Prop :=
  let '(o, l') := out in
  o ≠ Faulted Diverged ∧ handlers_ok n (l_children l') ∧ (length (l_children l') ≤ fds_limit)%nat ∧
  (o = Done tt → m_debug (l_memory l') ≠ 0 ∧ (prepared (m_process (l_memory l')) ∧ room n (l_memory l')) ∧ l_children l' = []).

Lemma no_handlers n : handlers_ok n [].
Proof. intros k m Hk. by rewrite lookup_nil in Hk. Qed.

Lemma after_calm {A} (m : M (listener OS) A) (k : A → M (listener OS) unit) n l :
  calm m → l_children l = [] →
  (∀ a l1, untouched l l1 → main_post n (k a l1)) → main_post n ((m ≫= k) l).
Proof.
  intros Hm Hc Hk. destruct (Hm l I) as (Hd & _ & Hp & Hch). unfold mbind, M_bind.
  assert (Hnone : ∀ l1, l_children l1 = [] → handlers_ok n (l_children l1) ∧ (length (l_children l1) ≤ fds_limit)%nat).
  { intros l1 ->. split; [apply no_handlers|cbn; lia]. }
  destruct (m l) as [[a|f|c] l1]; cbn [fst snd] in *; [by apply Hk| |];
    (destruct (Hnone l1); [congruence|]); split_and!; try done; congruence.
Qed.

Lemma accept_post fuel n l :
  (fds_limit < fuel)%nat → l_children l = [] → prepared (m_process (l_memory l)) → room n (l_memory l) →
  p_sessionID (m_process (l_memory l)) = 2 → main_post n (accept_loop fuel l).
Proof.
  intros Hf Hc Hp Hroom Hid. destruct (decide (m_debug (l_memory l) = 0)) as [Hd|Hd].
  - destruct (accept_loop_run fuel l Hd) as (l' & ms & -> & Hc' & Hlen & Hms); [lia|].
    rewrite Hc in Hc'. cbn [app] in Hc'. split; [done|]. rewrite Hc'. split_and!; [|lia|done].
    intros k m Hk. destruct (Hms k m Hk) as (Hmem & Hmsg & Hargv). rewrite Hmem. split; [by apply prepared_session|].
    split; [unfold room; by rewrite Hmsg, Hargv|]. cbn [p_sessionID session_memory]. rewrite Hid. done.
  - destruct fuel as [|fuel]; [lia|].
    destruct (sys_accept (m_sc (l_memory l)) (l_os l)) as [[[c a]|] o] eqn:Ha.
    + rewrite (accept_loop_accepted _ c a o) by done. rewrite (proj2 (Z.eqb_neq _ _) Hd).
      change (l_children (accepted c a o l)) with (l_children l).
      split; [done|]. change (l_children (accepted c a o l)) with (l_children l). rewrite Hc.
      split_and!; [apply no_handlers|cbn; lia|]. intros _. split_and!; [done| |exact Hroom|done].
      exact (prepared_session (p_sessionID (m_process (l_memory l)) + 1) _ Hp).
    + destruct (accept_loop_refused fuel o l Ha) as (l' & -> & _ & Hc'). split; [done|]. rewrite Hc', Hc.
      split_and!; [apply no_handlers|cbn; lia|done].
Qed.

Lemma calm_argv0 off t : calm (store_cstr argv0 off t).
Proof.
  intros l _. unfold store_cstr, store_bytes. erewrite bind_done by done. cbv beta.
  destruct (splice (fget argv0 l) off (t ++ [x00])) as [b|] eqn:Hs; [|done]. cbn. split; [done|]. split; [done|].
  split; [|done]. apply (f_equal2 pair); [done|]. apply splice_length in Hs. unfold blen.
  change (Z.of_nat (length b) = Z.of_nat (length (m_argv0 (l_memory l)))). by rewrite Hs.
Qed.

(** A step of main that leaves the handlers and what they get as they are. *)
Ltac past a := apply after_calm; [calm_steps|congruence|unfold untouched, inherited; intros a ? [? ?]].

Lemma opening_runs fuel n l :
  (fds_limit < fuel)%nat → l_children l = [] → prepared (m_process (l_memory l)) → room n (l_memory l) →
  main_post n ((fd ← zoom system sys_socket;
    match fd with
    | None => syslog (SyslogErrno "");; exit 1
    | Some fd =>
        puts sc fd;;
        p ← gets port;
        bound ← zoom system (sys_bind fd 0 (u16 p));
        if negb bound then fatal else
        listening ← zoom system (sys_listen fd 3);
        if negb listening then fatal else
        store_cstr argv0 0 (bytes_of_string "capifwd_wait");;
        puts sessionID 2;;
        accept_loop fuel
    end) l).
Proof.
  intros Hf Hc Hprep [Hmsg Hargv].
  assert (Hfatal : ∀ l, l_children l = [] → main_post n (fatal l)).
  { intros l' Hl. assert (Hch : l_children (fatal (A:=unit) l').2 = []) by exact Hl.
    change (main_post n (Exited 1, (fatal (A:=unit) l').2)). split; [done|]. rewrite Hch.
    split_and!; [apply no_handlers|cbn; lia|done]. }
  past r. destruct r as [fd|].
  2:{ match goal with Hch : l_children ?l1 = l_children l |- _ =>
        split; [done|]; change (l_children _) with (l_children l1); rewrite Hch, Hc end.
      split_and!; [apply no_handlers|cbn; lia|done]. }
  past u. past p. past bound. destruct bound; cbn [negb]; [|apply Hfatal; congruence].
  past listening. destruct listening; cbn [negb]; [|apply Hfatal; congruence].
  apply after_calm; [by apply calm_argv0|congruence|unfold untouched, inherited; intros _ l' [Hp' Hc']].
  erewrite bind_done by done. cbv beta. apply accept_post; [done| | |split; cbn; congruence|done].
  - change (l_children l' = []). congruence.
  - assert (Hprep' : prepared (m_process (l_memory l'))) by congruence.
    destruct Hprep' as [[] Ha]. split; [|done]. by split.
Qed.

Lemma main_runs argv fuel n l :
  (fds_limit < fuel)%nat → fresh (m_process (l_memory l)) → room n (l_memory l) → l_children l = [] →
  main_post n (main argv fuel l).
Proof.
  intros Hf Hp [Hmsg Hargv] Hc. unfold main. past u. erewrite bind_done by done. cbv beta.
  match goal with |- main_post n (_ ?x) => set (l2 := x) end.
  assert (Hp2 : fresh (m_process (l_memory l2))).
  { assert (Hp1 : fresh (m_process (l_memory l1))) by congruence. by destruct Hp1. }
  assert (Hroom2 : blen (m_msg (l_memory l2)) = n.1 ∧ blen (m_argv0 (l_memory l2)) = n.2) by (split; cbn; congruence).
  destruct Hroom2 as [Hmsg2 Hargv2].
  assert (Hc2 : l_children l2 = []) by (change (l_children l1 = []); congruence). clearbody l2.
  clear - Hf Hp2 Hc2 Hmsg2 Hargv2 UnixLaws0.
  past u. apply after_calm; [apply calm_eval_cmdline|congruence|unfold untouched, inherited; intros ? ? [? ?]]. past d.
  apply after_calm; [|congruence|unfold untouched, inherited; intros _ l6 [Hp6 Hc6]].
  { calm_steps. apply calm_become_daemon. }
  destruct (memset_prepared l6) as (a' & Hm & Hprep); [congruence|]. rewrite (bind_done _ _ _ _ _ Hm).
  apply opening_runs; [done| |done|split; cbn; congruence]. change (l_children l6 = []). congruence.
Qed.

(** C32: the listening process ends.  Once it accepts connections and forks, it ends
    with status 1: it keeps the descriptor of each connection it has given to a
    handler, until accept fails because there are no more, after at most as many
    connections as descriptors were left.  main goes on only in debug mode, where
    the process becomes the handler itself. *)
Theorem listener_ends fuel l :
  (fds_limit < fuel)%nat →
  (m_debug (l_memory l) = 0 → ∃ l', accept_loop fuel l = (Exited 1, l') ∧
     (length (l_children l') ≤ length (l_children l) + (fds_limit - size (open_fds (l_os l))))%nat) ∧
  ∀ argv, fresh (m_process (l_memory l)) → l_children l = [] →
    (main argv fuel l).1 ≠ Faulted Diverged ∧
    ((main argv fuel l).1 = Done tt → m_debug (l_memory (main argv fuel l).2) ≠ 0).
Proof.
  intros Hf. split.
  - intros Hd. destruct (accept_loop_run fuel l Hd) as (l' & ms & Hrun & Hc & Hlen & _); [lia|].
    exists l'. split; [done|]. rewrite Hc, length_app. lia.
  - intros argv Hp Hc. pose proof (main_runs argv fuel (_, _) l Hf Hp (conj eq_refl eq_refl) Hc) as Hpost. unfold main_post in Hpost.
    destruct (main argv fuel l) as [o l']. destruct Hpost as (Hd & _ & _ & Hdone). split; [done|].
    intros Ho. by apply Hdone.
Qed.

(** ** The name of a handler *)
Definition name_length l : nat := String.length (inet_ntoa (m_remote_addr (l_memory l))).
Definition pid_length l : nat := String.length (pretty (m_pid (l_memory l))).

(** The text a handler writes to the log when it starts fits the 50 bytes of its
    array only if address and process id have 14 characters together: an address
    like 192.168.100.10 is already too long.  Then the handler overruns the array before it
    has served a request.  It overruns the memory of argv[0] when the name of the program,
    with what is behind it, is shorter than its new name. *)
Theorem handler_text l :
  blen (m_msg (l_memory l)) = 50 →
  (blen (m_argv0 (l_memory l)) < 18 + Z.of_nat (name_length l) →
   (become_handler l).1 = Faulted OutOfBounds) ∧
  (18 + Z.of_nat (name_length l) ≤ blen (m_argv0 (l_memory l)) →
   (14 < name_length l + pid_length l)%nat → (become_handler l).1 = Faulted OutOfBounds) ∧
  (18 + Z.of_nat (name_length l) ≤ blen (m_argv0 (l_memory l)) →
   (name_length l + pid_length l ≤ 14)%nat →
   ∃ l' e, become_handler l = (Done tt, l') ∧ m_process (l_memory l') = m_process (l_memory l) ∧
     m_signals (l_memory l') = SigChild ∧ l_log l' = l_log l ++ [e]).
Proof.
  intros Hmsg. set (ip := inet_ntoa (m_remote_addr (l_memory l))). set (id := pretty (m_pid (l_memory l))).
  set (t1 := bytes_of_string ("capifwd_handle (" +:+ ip +:+ ")")).
  set (t2 := bytes_of_string ("Client from " +:+ ip +:+ ": spawned new handler " +:+ id +:+ ".")).
  assert (Hl1 : blen t1 = 17 + Z.of_nat (name_length l)).
  { unfold t1. rewrite blen_bytes_of_string, !string_length_app. unfold name_length. fold ip. cbn [String.length]. lia. }
  assert (Hl2 : blen t2 = 35 + Z.of_nat (name_length l + pid_length l)).
  { unfold t2. rewrite blen_bytes_of_string, !string_length_app. unfold name_length, pid_length. fold ip id. cbn [String.length]. lia. }
  pose proof (inet_ntoa_length (m_remote_addr (l_memory l))) as Hip. fold (name_length l) in Hip.
  assert (Ht1 : x00 ∉ t1) by (repeat (apply text_app; [first [apply inet_ntoa_text|eval_text]|]); eval_text).
  assert (Ht2 : x00 ∉ t2).
  { repeat (apply text_app; [first [apply inet_ntoa_text|apply pretty_Z_text|eval_text]|]). eval_text. }
  unfold become_handler. erewrite bind_done by done. cbv beta.
  set (l1 := fset msg (t1 ++ x00 :: drop (length t1 + 1) (m_msg (l_memory l))) l).
  rewrite (bind_done _ _ l tt l1) by (apply (store_cstr_run msg); change (fget msg l) with (m_msg (l_memory l)); lia).
  erewrite bind_done by by eapply load_cstr_run. cbv beta.
  change (m_argv0 (l_memory l)) with (fget argv0 l1).
  destruct (Z.lt_ge_cases (blen t1) (blen (fget argv0 l1))) as [Hfit|Hover].
  2:{ split_and!; [intros _|lia|lia]. by rewrite (bind_faulted _ _ _ _ _ (store_cstr_overrun argv0 _ _ Hover)). }
  split; [lia|]. rewrite (bind_done _ _ _ _ _ (store_cstr_run argv0 _ _ Hfit)). set (l2 := fset argv0 _ l1).
  erewrite bind_done by done. cbv beta. change (fget pid l2) with (m_pid (l_memory l)). fold id. fold t2.
  assert (Hmsg2 : blen (fget msg l2) = 50).
  { change (fget msg l2) with (t1 ++ x00 :: drop (length t1 + 1) (m_msg (l_memory l))).
    rewrite blen_app. unfold blen in *. cbn [length]. rewrite length_drop. lia. }
  split; intros _ Hn.
  - unfold sprintf_msg. fold t2. by rewrite (bind_faulted _ _ _ _ _ (store_cstr_overrun msg t2 l2 ltac:(lia))).
  - unfold sprintf_msg. fold t2. rewrite (bind_done _ _ _ _ _ (store_cstr_run msg t2 l2 ltac:(lia))).
    erewrite bind_done by by eapply load_cstr_run. cbv beta. eexists _, _. split; [reflexivity|]. done.
Qed.
(** ** A handler *)
(** A connection is handled to its end, and what it registered is given back; unless
    a request runs into undefined behaviour. *)
Definition ends_clean (out : outcome unit * server CS) : Prop :=
  (∃ f s', out = (Faulted f, s') ∧ f ≠ Diverged) ∨
  (∃ s', out = (Exited 0, s') ∧ owned (fget capi s') = ∅).

Lemma inv_ends (s : server CS) : inv s → ends_clean (handle_connection s).
Proof.
  intros Hi. pose proof (handling_loop_post _ s Hi (Nat.lt_succ_diag_r _)) as Hpost. unfold ends_clean, handle_connection.
  change (sv_sock s) with (fget Server.sock s). destruct (handling_loop _ s) as [[[]|f|n] s']; [done|left; eauto|right].
  destruct Hpost as (-> & _ & Ho & _). eauto.
Qed.

(** The texts it writes fit the [msg] bytes of its array and the [argv0] bytes at argv[0]. *)
Definition texts_fit (room : Z * Z) l : Prop :=
  18 + Z.of_nat (name_length l) ≤ room.2 ∧ 36 + Z.of_nat (name_length l + pid_length l) ≤ room.1.

(** What the handler process [l] does on the connection [w]. *)
Definition handler_outcome (n : Z * Z) l w (c : CS) sockname forks : Prop :=
  let out := run_handler l w c sockname forks in
  (texts_fit n l → (∃ l', become_handler l = (Done tt, l') ∧ out = handle_connection (connection l' w c sockname forks) ∧
     inv (connection l' w c sockname forks)) ∧ ends_clean out) ∧
  (¬ texts_fit n l → out.1 = Faulted OutOfBounds ∧ fget Server.sock out.2 = w ∧ fget capi out.2 = c).

Lemma handler_runs n l w (c : CS) sockname forks :
  n.1 = 50 → room n (l_memory l) → prepared (m_process (l_memory l)) → owned c = ∅ →
  handler_outcome n l w c sockname forks.
Proof.
  intros Hn [Hmsg Hargv] Hp Ho. rewrite Hn in Hmsg. destruct (handler_text l Hmsg) as (H1 & H2 & H3).
  rewrite Hargv in H1, H2, H3. unfold handler_outcome, texts_fit, run_handler. rewrite Hn. split.
  - intros [Ha Hb]. destruct H3 as (l' & e & E & Hp' & _); [done|lia|]. rewrite E.
    assert (Hi : inv (connection l' w c sockname forks)) by (apply prepared_inv; [by rewrite Hp'|done]).
    split; [by exists l'|by apply inv_ends].
  - intros Hfit.
    assert (Hf : (become_handler l).1 = Faulted OutOfBounds).
    { destruct (Z.lt_ge_cases n.2 (18 + Z.of_nat (name_length l))) as [|Ha]; [by apply H1|]. apply H2; [done|].
      apply not_le. intros Hb. apply Hfit. lia. }
    destruct (become_handler l) as [o l']. cbn [fst] in Hf. by rewrite Hf.
Qed.

(** C31: the sessions of the handlers a listening process forks are 3, 4, 5 and so on:
    they differ, and each can be told from the one before.  A handler, and in debug
    mode the process itself, first writes its name and a line of the log: when they do
    not fit argv[0] and the 50 bytes of [msg] - which takes an address and a process
    id of 14 characters together at most -, it has overrun one of them before it serves
    anything.  When they fit, it starts in a state that satisfies the invariant, with
    an empty registry, and handles its connection, whatever arrives there: it exits with status 0
    and everything is released, unless a request runs into undefined behaviour. *)
Theorem listener_handlers argv fuel l :
  (fds_limit < fuel)%nat → Z.of_nat fds_limit < 2 ^ 32 - 3 → fresh (m_process (l_memory l)) → l_children l = [] →
  blen (m_msg (l_memory l)) = 50 →
  let '(o, l') := main argv fuel l in
  let n := (50, blen (m_argv0 (l_memory l))) in
  p_sessionID ∘ m_process <$> l_children l' = seqZ 3 (Z.of_nat (length (l_children l'))) ∧
  ∀ w (c : CS) sockname forks, owned c = ∅ →
    (∀ m, m ∈ l_children l' → handler_outcome n (forked m l') w c sockname forks) ∧
    (o = Done tt → handler_outcome n l' w c sockname forks).
Proof.
  intros Hf Hlim Hp Hc Hmsg. pose proof (main_runs argv fuel (50, _) l Hf Hp (conj Hmsg eq_refl) Hc) as Hpost.
  unfold main_post in Hpost. destruct (main argv fuel l) as [o l']. destruct Hpost as (_ & Hms & Hlen & Hdone). split.
  - apply list_eq. intros k. rewrite list_lookup_fmap. destruct (l_children l' !! k) as [m|] eqn:Hk.
    + pose proof (lookup_lt_Some _ _ _ Hk). cbn. destruct (Hms k m Hk) as (_ & _ & ->). rewrite lookup_seqZ_lt by lia.
      by rewrite u32_small by lia.
    + apply lookup_ge_None in Hk. cbn. symmetry. apply lookup_ge_None. rewrite length_seqZ. lia.
  - intros w c sockname forks Ho. split.
    + intros m [k Hk]%list_elem_of_lookup. destruct (Hms k m Hk) as (Hm & Hr & _). by apply handler_runs.
    + intros Hd. destruct (Hdone Hd) as (_ & [Hm Hr] & _). by apply handler_runs.
Qed.

(** ** Children that have ended *)
Lemma waitpid_run l : ∃ r o,
  zoom system sys_waitpid l = (Done r, fset system o l) ∧ (0 < r → zombies (l_os l) = S (zombies o)).
Proof.
  pose proof (sys_waitpid_zombies (l_os l)) as Hz. unfold zoom. change (fget system l) with (l_os l).
  destruct (sys_waitpid (l_os l)) as [r o]. by exists r, o.
Qed.

Lemma sigchld_loop_returns n r l :
  (0 < r → n = S (zombies (l_os l))) → ∃ l', sigchld_loop n r l = (Done tt, l').
Proof.
  revert r l. induction n as [|n IH]; intros r l Hn; cbn [sigchld_loop]; (case_decide as Hr; [|by exists l]).
  { by specialize (Hn Hr). }
  specialize (Hn Hr). injection Hn as ->. destruct (waitpid_run l) as (r' & o & Hw & Hz).
  rewrite (bind_done _ _ _ _ _ Hw). by apply IH.
Qed.

(** The handler of SIGCHLD waits for all of them, and returns. *)
Lemma sigchld_returns l : ∃ l', sigchld (zombies (l_os l)) l = (Done tt, l').
Proof.
  destruct (waitpid_run l) as (r & o & Hw & Hz). unfold sigchld. rewrite (bind_done _ _ _ _ _ Hw).
  by apply sigchld_loop_returns.
Qed.

(** ** Signals of the listening process *)
(** SIGINT and SIGTERM close the socket and end it; other signals are only logged. *)
Lemma sigparent_run sig l : ∃ l',
  (sigparent sig l = (Exited 0, l') ∧ (sig = SIGINT ∨ sig = SIGTERM) ∧ l_os l' = sys_close (m_sc (l_memory l)) (l_os l) ∨
   sigparent sig l = (Done tt, l') ∧ sig ≠ SIGINT ∧ sig ≠ SIGTERM ∧ l_os l' = l_os l) ∧ untouched l l'.
Proof. destruct sig; eexists; (split; [first [left; by eauto|right; by eauto]|done]). Qed.

Lemma quit_run ret l : ∃ l', quit ret l = (Exited ret, l') ∧ l_os l' = sys_close (m_sc (l_memory l)) (l_os l) ∧ untouched l l'.
Proof. eexists. split; [reflexivity|]. done. Qed.

End listener.

(** * The listening process on a concrete system

    A system with eight descriptors, in which each address of a list connects once. *)
From S2P Require Import Demo.

Record unix := mkUnix {
  ux_fds : gset Z;
  ux_clients : list Z;
  ux_pid : Z;                 (**r of the next child *)
  ux_ended : nat;
}.

Definition unix_limit : nat := 8.
Definition free_fd (fds : gset Z) : option Z := head (filter (λ fd, fd ∉ fds) (seqZ 0 (Z.of_nat unix_limit))).
Definition take_fd (o : unix) : option Z * unix :=
  match free_fd (ux_fds o) with
  | Some fd =>
      if decide (S (size (ux_fds o)) ≤ unix_limit)%nat
      then (Some fd, mkUnix ({[fd]} ∪ ux_fds o) (ux_clients o) (ux_pid o) (ux_ended o)) else (None, o)
  | None => (None, o)
  end.
Definition next_client (o : unix) : option (Z * Z) * unix :=
  match ux_clients o with
  | [] => (None, o)
  | a :: l =>
      let '(fd, o) := take_fd (mkUnix (ux_fds o) l (ux_pid o) (ux_ended o)) in ((λ fd, (fd, a)) <$> fd, o)
  end.

#[global] Instance demo_unix : Unix unix := {|
  sys_socket := take_fd;
  sys_bind := λ fd a p o, (true, o);
  sys_listen := λ fd n o, (true, o);
  sys_accept := λ fd o, next_client o;
  sys_close := λ fd o, mkUnix (ux_fds o ∖ {[fd]}) (ux_clients o) (ux_pid o) (ux_ended o);
  sys_fork := λ o, (Some (ux_pid o), mkUnix (ux_fds o) (ux_clients o) (ux_pid o + 1) (ux_ended o));
  sys_waitpid := λ o, match ux_ended o with
                      | O => (0, o)
                      | S n => (1, mkUnix (ux_fds o) (ux_clients o) (ux_pid o) n)
                      end;
  sys_realloc := λ old n o, (Some 0x5000, o);
|}.

Lemma free_fd_fresh fds fd : free_fd fds = Some fd → fd ∉ fds.
Proof. intros Hh%head_Some_elem_of. by apply list_elem_of_filter in Hh as [? _]. Qed.

#[global, refine] Instance demo_unix_laws : UnixLaws unix := {|
  open_fds := ux_fds;
  fds_limit := unix_limit;
  zombies := ux_ended;
|}.
Proof.
  - intros sc o c a o'. cbn. unfold next_client, take_fd. destruct (ux_clients o); [done|]. cbn.
    destruct (free_fd (ux_fds o)) as [fd|] eqn:Hfd; [|done]. apply free_fd_fresh in Hfd. case_decide; [|done].
    cbn. intros [= <- <- <-]. cbn. split_and!; [done|done|]. rewrite size_union, size_singleton by set_solver. lia.
  - done.
  - intros o. cbn. by destruct (ux_ended o).
  - intros o. cbn. by destruct (ux_ended o).
Defined.

(** The first process, with room for 64 bytes from [argv[0]] on. *)
Definition first_memory (a p : Z) : memory := {|
  m_process := demo_process [];
  m_port := 0; m_debug := 0; m_configfile := None; m_auth_types := 0; m_sc := 0; m_sock := 0;
  m_remote_addr := a;
  m_argv0 := replicate 64 x00;
  m_msg := replicate 50 x00;
  m_signals := SigDefault;
  m_pid := p;
|}.
Definition first_process (clients : list Z) : listener unix :=
  mkListener (first_memory 0 500) (mkUnix {[0; 1; 2]} clients 501 0) [] [].

(** 10.0.0.2, 192.168.0.7 and 192.168.100.10. *)
Definition client_a := 0x0200000A.
Definition client_b := 0x0700A8C0.
Definition client_c := 0x0A64A8C0.

Lemma demo_fresh : fresh (demo_process []).
Proof. split; [eval_eq|eval_eq|split; [eval_le|eval_lt]|eval_lt|eval_eq]. Qed.

Lemma cmdline_options_witness :
  eval_cmdline ["capifwd"; "-p"; "7000"; "-h"]%string (first_process []) = (Done 0, fset port 7000 (first_process [])).
Proof.
  destruct (cmdline_options "capifwd" "7000" [] (first_process [])) as (_ & _ & _ & H).
  apply (H 7000).
  - reflexivity.
  - discriminate.
Defined.

Lemma listener_ends_witness :
  ∃ l', accept_loop 9 (first_process [client_a; client_b]) = (Exited 1, l') ∧ (length (l_children l') ≤ 5)%nat.
Proof.
  destruct (listener_ends 9 (first_process [client_a; client_b])) as [H _].
  - apply Nat.leb_le. reflexivity.
  - destruct (H eq_refl) as (l' & Hrun & Hlen). exists l'. split; [exact Hrun|exact Hlen].
Defined.

Lemma listener_handlers_witness :
  p_sessionID ∘ m_process <$> l_children (main ["/usr/sbin/capifwd"]%string 9 (first_process [client_a; client_b])).2 = [3; 4].
Proof.
  pose proof (listener_handlers (CS:=demo) ["/usr/sbin/capifwd"]%string 9 (first_process [client_a; client_b])
    ltac:(apply Nat.leb_le; reflexivity) ltac:(eval_lt) demo_fresh eq_refl eq_refl) as H.
  assert (E : length (l_children (main ["/usr/sbin/capifwd"]%string 9 (first_process [client_a; client_b])).2) = 2%nat)
    by (vm_compute; reflexivity).
  destruct (main ["/usr/sbin/capifwd"]%string 9 (first_process [client_a; client_b])) as [o l'].
  change (length (l_children l') = 2%nat) in E. destruct H as [H _]. change (p_sessionID ∘ m_process <$> l_children l' = [3; 4]).
  rewrite H, E. reflexivity.
Defined.

Lemma handler_text_witness :
  (become_handler (mkListener (first_memory client_c 123) (mkUnix {[0; 1; 2]} [] 501 0) [] [])).1 = Faulted OutOfBounds ∧
  ∃ l', become_handler (mkListener (first_memory client_a 12345) (mkUnix {[0; 1; 2]} [] 501 0) [] []) = (Done tt, l').
Proof.
  split.
  - apply (handler_text (mkListener (first_memory client_c 123) (mkUnix {[0; 1; 2]} [] 501 0) [] [])).
    + reflexivity.
    + vm_compute. discriminate.
    + apply Nat.ltb_lt. vm_compute. reflexivity.
  - destruct (handler_text (mkListener (first_memory client_a 12345) (mkUnix {[0; 1; 2]} [] 501 0) [] [])) as (_ & _ & H).
    + reflexivity.
    + destruct H as (l' & e & Hrun & _).
      * vm_compute. discriminate.
      * apply Nat.leb_le. vm_compute. reflexivity.
      * exists l'. exact Hrun.
Defined.
