(* ===== verification/OldApps.v ===== *)
(** * The application list of the old server (linux-server/src/old/main-rev1.14-cvs.c)

    Before it became a byte array (AppIndex.v) the list of registered applications
    was a linked list on the heap.  [am_nodes] is the part of the heap that holds
    its nodes, by address; a member that has not been written since malloc has no
    value.  A pointer is an address or null. *)
From stdpp Require Import gmap.
From S2P Require Import Prelude.
#[local] Open Scope Z_scope.

Abbreviation ptr := (option positive).

(** [struct appl_list] *)
Record appl_list := mkAppl {
  al_next : option ptr;
  al_ApplID : option Z;
}.

Record app_memory := mkApps {
  am_nodes : gmap positive appl_list;
  am_registered_apps : ptr;
  am_mallocs : list bool;           (**r do the next [malloc]s succeed; then they do *)
}.

Definition nodes : field app_memory (gmap positive appl_list) :=
  mkField am_nodes (λ v m, mkApps v (am_registered_apps m) (am_mallocs m)).
Definition registered_apps : field app_memory ptr :=
  mkField am_registered_apps (λ v m, mkApps (am_nodes m) v (am_mallocs m)).
Definition mallocs : field app_memory (list bool) :=
  mkField am_mallocs (λ v m, mkApps (am_nodes m) (am_registered_apps m) v).

(** ** malloc, free, and the members of a node *)
Definition new_address (m : app_memory) : positive := fresh (dom (am_nodes m) : gset positive).
Definition malloc : M app_memory ptr := λ m,
  match am_mallocs m with
  | false :: script => (Done None, fset mallocs script m)
  | script =>
      let a := new_address m in
      (Done (Some a), fset mallocs (tail script) (fset nodes (<[a := mkAppl None None]> (am_nodes m)) m))
  end.

(** [*p] *)
Definition node (p : ptr) : M app_memory (positive * appl_list) :=
  a ← try NullDeref p;
  h ← gets nodes;
  n ← try Dangling (h !! a);
  mret (a, n).
Definition free (p : ptr) : M app_memory unit :=
  match p with
  | None => mret tt
  | Some _ => '(a, _) ← node p; modify nodes (delete a)
  end.
Definition next (p : ptr) : M app_memory ptr := '(_, n) ← node p; try Uninitialised (al_next n).
Definition get_ApplID (p : ptr) : M app_memory Z := '(_, n) ← node p; try Uninitialised (al_ApplID n).
Definition set_next (p v : ptr) : M app_memory unit :=
  '(a, n) ← node p; modify nodes <[a := mkAppl (Some v) (al_ApplID n)]>.
Definition set_ApplID (p : ptr) (v : Z) : M app_memory unit :=
  '(a, n) ← node p; modify nodes <[a := mkAppl (al_next n) (Some v)]>.

(** A walk through the list visits each node once. *)
Definition list_fuel (m : app_memory) : nat := size (am_nodes m).

(** ** add_app *)
(** [while (list->next) list = list->next;] *)
Fixpoint last_loop (fuel : nat) (list : ptr) : M app_memory ptr :=
  n ← next list;
  match n with
  | None => mret list
  | Some _ => match fuel with O => fail Diverged | S fuel' => last_loop fuel' n end
  end.

Definition add_app (ApplID : Z) : M app_memory unit := λ m, (
  list ← gets registered_apps;
  match list with
  | Some _ =>
      list ← last_loop (list_fuel m) list;
      p ← malloc;
      set_next list p;;
      list ← next list;
      set_ApplID list ApplID;;
      set_next list None
  | None =>
      p ← malloc;
      puts registered_apps p;;
      list ← gets registered_apps;
      set_ApplID list ApplID;;
      list ← gets registered_apps;
      set_next list None
  end) m.

(** ** del_app *)
Fixpoint del_loop (fuel : nat) (ApplID : Z) (prev list : ptr) : M app_memory unit :=
  match list with
  | None => mret tt
  | Some _ =>
      id ← get_ApplID list;
      if id =? ApplID then
        n ← next list;
        (match prev with Some _ => set_next prev n | None => puts registered_apps n end);;
        free list
      else
        n ← next list;
        match fuel with O => fail Diverged | S fuel' => del_loop fuel' ApplID list n end
  end.

Definition del_app (ApplID : Z) : M app_memory unit := λ m, (
  list ← gets registered_apps;
  match list with
  | Some _ => del_loop (list_fuel m) ApplID None list
  | None => mret tt
  end) m.

(** ** getfirst_app *)
Definition getfirst_app : M app_memory Z :=
  list ← gets registered_apps;
  match list with
  | None => mret 0
  | Some _ =>
      ret ← get_ApplID list;
      n ← next list;
      puts registered_apps n;;
      free list;;
      mret ret
  end.

(** ** The list as a list of ids

    [chain h p l]: from [p] on the heap holds the nodes [l], by address and id. *)
Fixpoint chain (h : gmap positive appl_list) (p : ptr) (l : list (positive * Z)) : Prop :=
  match l with
  | [] => p = None
  | (a, id) :: l' => p = Some a ∧ ∃ n, h !! a = Some (mkAppl (Some n) (Some id)) ∧ chain h n l'
  end.

(** The heap holds the list and nothing else. *)
Record list_at (m : app_memory) (l : list (positive * Z)) : Prop := mkListAt {
  list_chain : chain (am_nodes m) (am_registered_apps m) l;
  list_addresses : NoDup l.*1;
  list_heap : dom (am_nodes m) = list_to_set l.*1;
}.

Definition ids_at (m : app_memory) (ids : list Z) : Prop := ∃ l, list_at m l ∧ ids = l.*2.

Lemma list_fuel_length m l : list_at m l → list_fuel m = length l.
Proof.
  intros [_ Hnd Hd]. unfold list_fuel. rewrite <- size_dom, Hd, size_list_to_set by done.
  apply length_fmap.
Qed.

Lemma chain_frame h h' p l :
  chain h p l → (∀ a, a ∈ l.*1 → h' !! a = h !! a) → chain h' p l.
Proof.
  revert p. induction l as [|[a id] l IH]; intros p; [done|]. cbn.
  intros (-> & n & Ha & Hc) Hh. split; [done|]. exists n.
  rewrite Hh by left. split; [done|]. apply IH; [done|]. intros b Hb. apply Hh. by right.
Qed.

(** Two parts of a list, the second entered at [q]. *)
Fixpoint segment (h : gmap positive appl_list) (p : ptr) (l : list (positive * Z)) (q : ptr) : Prop :=
  match l with
  | [] => p = q
  | (a, id) :: l' => p = Some a ∧ ∃ n, h !! a = Some (mkAppl (Some n) (Some id)) ∧ segment h n l' q
  end.

Lemma chain_app h p l1 l2 :
  chain h p (l1 ++ l2) ↔ ∃ q, segment h p l1 q ∧ chain h q l2.
Proof.
  revert p. induction l1 as [|[a id] l1 IH]; intros p; cbn.
  - split; [by eauto|]. by intros (q & -> & ?).
  - split.
    + intros (-> & n & Ha & (q & Hs & Hc)%IH). exists q. split; [|done]. eauto.
    + intros (q & (-> & n & Ha & Hs) & Hc). split; [done|]. exists n. split; [done|]. apply IH. eauto.
Qed.

Lemma segment_frame h h' p l q :
  segment h p l q → (∀ a, a ∈ l.*1 → h' !! a = h !! a) → segment h' p l q.
Proof.
  revert p. induction l as [|[a id] l IH]; intros p; [done|]. cbn.
  intros (-> & n & Ha & Hc) Hh. split; [done|]. exists n.
  rewrite Hh by left. split; [done|]. apply IH; [done|]. intros b Hb. apply Hh. by right.
Qed.

(** The last node of a segment is redirected. *)
Lemma segment_snoc h p l a id q :
  segment h p (l ++ [(a, id)]) q ↔
  segment h p l (Some a) ∧ h !! a = Some (mkAppl (Some q) (Some id)).
Proof.
  revert p. induction l as [|[b i] l IH]; intros p; cbn.
  - split; [by intros (-> & n & Ha & ->)|]. intros [-> Ha]. split; [done|]. by exists q.
  - split.
    + intros (-> & n & Hb & [Hs Ha]%IH). split; [|done]. split; [done|]. by exists n.
    + intros [(-> & n & Hb & Hs) Ha]. split; [done|]. exists n. split; [done|]. by apply IH.
Qed.

(** *** Members of a node that is there *)
Lemma node_run m a n : am_nodes m !! a = Some n → node (Some a) m = (Done (a, n), m).
Proof. intros Ha. unfold node, mbind, M_bind. simpl. by rewrite Ha. Qed.

Lemma next_run m a n i : am_nodes m !! a = Some (mkAppl (Some n) i) → next (Some a) m = (Done n, m).
Proof. intros Ha. unfold next. by erewrite bind_done by (by apply node_run). Qed.

Lemma get_ApplID_run m a n i : am_nodes m !! a = Some (mkAppl n (Some i)) → get_ApplID (Some a) m = (Done i, m).
Proof. intros Ha. unfold get_ApplID. by erewrite bind_done by (by apply node_run). Qed.

Lemma set_next_run m a n i v :
  am_nodes m !! a = Some (mkAppl n i) →
  set_next (Some a) v m = (Done tt, fset nodes (<[a := mkAppl (Some v) i]> (am_nodes m)) m).
Proof. intros Ha. unfold set_next. by erewrite bind_done by (by apply node_run). Qed.

Lemma set_ApplID_run m a n i v :
  am_nodes m !! a = Some (mkAppl n i) →
  set_ApplID (Some a) v m = (Done tt, fset nodes (<[a := mkAppl n (Some v)]> (am_nodes m)) m).
Proof. intros Ha. unfold set_ApplID. by erewrite bind_done by (by apply node_run). Qed.

Lemma free_run m a n :
  am_nodes m !! a = Some n → free (Some a) m = (Done tt, fset nodes (delete a (am_nodes m)) m).
Proof. intros Ha. unfold free. by erewrite bind_done by (by apply node_run). Qed.

Lemma old_malloc_run m :
  am_mallocs m = [] →
  malloc m = (Done (Some (new_address m)),
    mkApps (<[new_address m := mkAppl None None]> (am_nodes m)) (am_registered_apps m) []).
Proof. intros Hm. unfold malloc. by rewrite Hm. Qed.

Lemma new_address_fresh m : am_nodes m !! new_address m = None.
Proof. apply (not_elem_of_dom (D:=gset positive)). unfold new_address. apply is_fresh. Qed.

(** *** add_app *)
Lemma last_loop_run m a id l : ∀ fuel p,
  segment (am_nodes m) p l (Some a) → am_nodes m !! a = Some (mkAppl (Some None) (Some id)) →
  (length l ≤ fuel)%nat → last_loop fuel p m = (Done (Some a), m).
Proof.
  induction l as [|[b i] l IH]; intros fuel p.
  - intros -> Ha _. destruct fuel; cbn [last_loop]; by erewrite bind_done by (by eapply next_run).
  - intros (-> & n & Hb & Hs) Ha Hl. destruct fuel as [|fuel]; [cbn in Hl; lia|]. cbn [last_loop].
    erewrite bind_done by (by eapply next_run). cbv beta.
    destruct n as [c|]; [|by destruct l as [|[]]; cbn in Hs; naive_solver].
    apply IH; [done|done|]. cbn in Hl. lia.
Qed.

Lemma chain_snoc h p l a id :
  chain h p (l ++ [(a, id)]) ↔ segment h p l (Some a) ∧ h !! a = Some (mkAppl (Some None) (Some id)).
Proof.
  rewrite chain_app. cbn. split.
  - by intros (q & Hs & -> & n & Ha & ->).
  - intros [Hs Ha]. exists (Some a). split; [done|]. split; [done|]. by exists None.
Qed.

Lemma new_address_notin m l : list_at m l → new_address m ∉ l.*1.
Proof.
  intros [_ _ Hd]. rewrite <- (elem_of_list_to_set (C:=gset positive)), <- Hd.
  apply not_elem_of_dom, new_address_fresh.
Qed.

(** The new node, behind the one that was the last. *)
Lemma snoc_node_at m m' l0 b i a id :
  list_at m (l0 ++ [(b, i)]) → a ∉ (l0 ++ [(b, i)]).*1 →
  am_registered_apps m' = am_registered_apps m →
  am_nodes m' !! a = Some (mkAppl (Some None) (Some id)) →
  am_nodes m' !! b = Some (mkAppl (Some (Some a)) (Some i)) →
  (∀ c, c ≠ a → c ≠ b → am_nodes m' !! c = am_nodes m !! c) →
  dom (am_nodes m') = {[a]} ∪ dom (am_nodes m) →
  list_at m' ((l0 ++ [(b, i)]) ++ [(a, id)]).
Proof.
  intros [Hc Hnd Hd] Hnew Hreg Ha Hb Hother Hdom. apply chain_snoc in Hc as [Hs _].
  rewrite fmap_app in Hnew, Hnd. split.
  - rewrite Hreg. apply chain_snoc. split; [|done]. apply segment_snoc. split; [|done].
    eapply segment_frame; [exact Hs|]. intros e He.
    apply NoDup_app in Hnd as (_ & Hn & _). apply Hother; [set_solver|].
    intros ->. apply (Hn b He). left.
  - rewrite !fmap_app. apply NoDup_app. split; [done|]. split; [|apply NoDup_singleton].
    intros e He Hea. cbn in Hea. apply list_elem_of_singleton in Hea as ->. by apply Hnew.
  - rewrite Hdom, Hd, !fmap_app, !list_to_set_app_L. cbn. set_solver.
Qed.

Lemma add_first_spec m id :
  list_at m [] → am_mallocs m = [] →
  ∃ m', add_app id m = (Done tt, m') ∧ list_at m' [(new_address m, id)] ∧ am_mallocs m' = [].
Proof.
  intros [Hc Hnd Hd] Hm. cbn in Hc.
  unfold add_app. erewrite bind_done by done. cbv beta.
  change (fget registered_apps m) with (am_registered_apps m). rewrite Hc.
  erewrite bind_done by (by apply old_malloc_run). cbv beta.
  set (a := new_address m) in *. erewrite bind_done by done. cbv beta. erewrite bind_done by done. cbv beta.
  cbn [fget fset registered_apps am_registered_apps].
  erewrite bind_done by (eapply set_ApplID_run; apply lookup_insert_eq). cbv beta.
  erewrite bind_done by done. cbv beta. cbn [fget fset registered_apps nodes am_registered_apps am_nodes].
  erewrite set_next_run by (apply lookup_insert_eq). eexists. split; [done|]. split; [|done].
  split; cbn.
  - split; [done|]. exists None. split; [|done]. by rewrite lookup_insert_eq.
  - apply NoDup_singleton.
  - rewrite !dom_insert_L, Hd. set_solver.
Qed.

Lemma old_add_app_spec m l id :
  list_at m l → am_mallocs m = [] →
  ∃ m', add_app id m = (Done tt, m') ∧ list_at m' (l ++ [(new_address m, id)]) ∧ am_mallocs m' = [].
Proof.
  intros Hl Hm. destruct l as [|[b i] l0 _] using rev_ind; [by apply add_first_spec|].
  pose proof (new_address_notin m _ Hl) as Hnew. pose proof (list_fuel_length m _ Hl) as Hfuel.
  destruct (proj1 (chain_snoc _ _ _ _ _) (list_chain _ _ Hl)) as [Hs Hb].
  assert (Hab : new_address m ≠ b) by (intros E; rewrite fmap_app, E in Hnew; set_solver).
  unfold add_app. erewrite bind_done by done. cbv beta.
  change (fget registered_apps m) with (am_registered_apps m).
  destruct (am_registered_apps m) as [c|] eqn:Hreg; [|destruct l0 as [|[]]; cbn in Hs; naive_solver].
  erewrite bind_done by (eapply last_loop_run; [exact Hs|done|]; rewrite Hfuel, length_app; lia). cbv beta.
  erewrite bind_done by (by apply old_malloc_run). cbv beta. set (a := new_address m) in *.
  erewrite bind_done by (eapply set_next_run; simpl; by rewrite lookup_insert_ne). cbv beta.
  cbn [fget fset registered_apps nodes am_registered_apps am_nodes].
  erewrite bind_done by (eapply next_run; apply lookup_insert_eq). cbv beta.
  erewrite bind_done by (eapply set_ApplID_run; simpl; rewrite lookup_insert_ne by done; apply lookup_insert_eq).
  cbv beta. cbn [fget fset registered_apps nodes am_registered_apps am_nodes].
  erewrite set_next_run by (apply lookup_insert_eq). eexists. split; [done|]. split; [|done].
  eapply snoc_node_at; cbn; [exact Hl|exact Hnew|congruence|by rewrite lookup_insert_eq| | |].
  - rewrite !lookup_insert_ne by done. by rewrite lookup_insert_eq.
  - intros e Hea Heb. by rewrite !lookup_insert_ne.
  - apply elem_of_dom_2 in Hb. rewrite !dom_insert_L. set_solver.
Qed.

(** *** del_app *)
Fixpoint remove_first (id : Z) (l : list (positive * Z)) : list (positive * Z) :=
  match l with
  | [] => []
  | (a, i) :: l' => if i =? id then l' else (a, i) :: remove_first id l'
  end.

(** [prev] is the node before. *)
Definition last_address (l : list (positive * Z)) : ptr := fst <$> last l.

Lemma list_at_cons m l1 a i l2 :
  list_at m (l1 ++ (a, i) :: l2) →
  ∃ n, segment (am_nodes m) (am_registered_apps m) l1 (Some a) ∧
    am_nodes m !! a = Some (mkAppl (Some n) (Some i)) ∧ chain (am_nodes m) n l2 ∧
    a ∉ l1.*1 ∧ a ∉ l2.*1.
Proof.
  intros [Hc Hnd _]. apply chain_app in Hc as (q & Hs & -> & n & Ha & Hc).
  exists n. split_and!; [done..| |]; rewrite fmap_app in Hnd; apply NoDup_app in Hnd as (_ & Hn & Hnd).
  - intros Hin. apply (Hn a Hin). left.
  - by apply NoDup_cons in Hnd as [? _].
Qed.

(** A node without its predecessor's pointer to it can go. *)
Lemma unlinked_at m m' l1 a i l2 :
  list_at m (l1 ++ (a, i) :: l2) →
  chain (am_nodes m') (am_registered_apps m') (l1 ++ l2) →
  dom (am_nodes m') = dom (am_nodes m) ∖ {[a]} → list_at m' (l1 ++ l2).
Proof.
  intros Hl Hc Hd. destruct (list_at_cons _ _ _ _ _ Hl) as (_ & _ & _ & _ & Ha1 & Ha2).
  destruct Hl as [_ Hnd Hd']. rewrite fmap_app in Hnd. apply NoDup_app in Hnd as (H1 & Hn & H2).
  apply NoDup_cons in H2 as [_ H2]. split; [done| |].
  - rewrite fmap_app. apply NoDup_app. split_and!; [done| |done].
    intros b Hb Hb2. apply (Hn b Hb). by right.
  - rewrite Hd, Hd', !fmap_app, !list_to_set_app_L. cbn.
    apply set_eq. intros b. rewrite elem_of_difference, !elem_of_union, !elem_of_list_to_set, !elem_of_singleton.
    split; [naive_solver|]. intros [Hb|Hb]; (split; [auto|]); by intros ->.
Qed.

Lemma unlink_first m a i n l2 :
  list_at m ((a, i) :: l2) → am_nodes m !! a = Some (mkAppl (Some n) (Some i)) →
  list_at (fset nodes (delete a (am_nodes m)) (fset registered_apps n m)) l2.
Proof.
  intros Hl Ha. destruct (list_at_cons m [] a i l2 Hl) as (n' & _ & Ha' & Hc & _ & Hn).
  assert (n' = n) as -> by congruence. apply (unlinked_at m _ [] a i l2 Hl); cbn.
  - eapply chain_frame; [done|]. intros b Hb. apply lookup_delete_ne. by intros ->.
  - apply dom_delete_L.
Qed.

Lemma unlink_next m l0 b j a i n l2 :
  list_at m ((l0 ++ [(b, j)]) ++ (a, i) :: l2) →
  am_nodes m !! a = Some (mkAppl (Some n) (Some i)) →
  list_at (fset nodes (delete a (<[b := mkAppl (Some n) (Some j)]> (am_nodes m))) m) ((l0 ++ [(b, j)]) ++ l2).
Proof.
  intros Hl Ha. destruct (list_at_cons m _ a i l2 Hl) as (n' & Hs & Ha' & Hc & Hn1 & Hn2).
  assert (n' = n) as -> by congruence. apply segment_snoc in Hs as [Hs Hb].
  rewrite fmap_app in Hn1. assert (a ≠ b) by (intros ->; set_solver).
  pose proof (list_addresses _ _ Hl) as Hnd. rewrite !fmap_app in Hnd.
  apply NoDup_app in Hnd as (Hnd & Hd2 & _). apply NoDup_app in Hnd as (_ & Hd1 & _).
  apply (unlinked_at m _ _ a i l2 Hl); cbn.
  - apply chain_app. exists n. split; [apply segment_snoc; split|].
    + eapply segment_frame; [exact Hs|]. intros e He.
      assert (e ≠ b) by (intros ->; apply (Hd1 b He); left).
      assert (e ≠ a) by (intros ->; set_solver). by rewrite lookup_delete_ne, lookup_insert_ne.
    + by rewrite lookup_delete_ne, lookup_insert_eq.
    + eapply chain_frame; [done|]. intros e He.
      assert (e ≠ b) by (intros ->; apply (Hd2 b); [set_solver|by right]).
      assert (e ≠ a) by (by intros ->). by rewrite lookup_delete_ne, lookup_insert_ne.
  - rewrite dom_delete_L, dom_insert_L. apply elem_of_dom_2 in Hb. set_solver.
Qed.

Lemma del_loop_spec id m l2 : ∀ fuel l1 q,
  list_at m (l1 ++ l2) → chain (am_nodes m) q l2 → (length l2 ≤ fuel)%nat →
  ∃ m', del_loop fuel id (last_address l1) q m = (Done tt, m') ∧
    list_at m' (l1 ++ remove_first id l2) ∧ am_mallocs m' = am_mallocs m.
Proof.
  induction l2 as [|[a i] l2 IH]; intros fuel l1 q Hl Hq Hf.
  { cbn in Hq. subst q. exists m. split; [by destruct fuel|done]. }
  destruct Hq as (-> & n & Ha & Hc).
  assert (Hid : get_ApplID (Some a) m = (Done i, m)) by (by eapply get_ApplID_run).
  assert (Hnext : next (Some a) m = (Done n, m)) by (by eapply next_run).
  destruct fuel as [|fuel]; [cbn in Hf; lia|]. cbn [del_loop remove_first].
  erewrite bind_done by exact Hid. cbv beta. destruct (i =? id) eqn:E.
  - erewrite bind_done by exact Hnext. cbv beta. destruct l1 as [|[b j] l0 _] using rev_ind.
    + erewrite bind_done by done. cbv beta. erewrite free_run by (by simpl).
      eexists. split; [done|]. split; [exact (unlink_first m a i n l2 Hl Ha)|done].
    + unfold last_address. rewrite last_snoc. cbn [fmap option_fmap option_map fst].
      destruct (list_at_cons m _ a i l2 Hl) as (n' & Hs & _ & _ & Hn1 & _).
      apply segment_snoc in Hs as [Hs Hb]. rewrite fmap_app in Hn1.
      assert (b ≠ a) by (intros ->; set_solver).
      erewrite bind_done by (by eapply set_next_run). cbv beta.
      erewrite free_run by (simpl; by rewrite lookup_insert_ne).
      eexists. split; [done|]. split; [exact (unlink_next m l0 b j a i n l2 Hl Ha)|done].
  - erewrite bind_done by exact Hnext. cbv beta.
    replace (Some a) with (last_address (l1 ++ [(a, i)])) by (unfold last_address; by rewrite last_snoc).
    destruct (IH fuel (l1 ++ [(a, i)]) n) as (m' & E' & Hm' & Hs').
    + by rewrite <- (assoc_L (++)).
    + done.
    + cbn in Hf. lia.
    + exists m'. split; [done|]. by rewrite <- (assoc_L (++)) in Hm'.
Qed.

Lemma old_del_app_spec m l id :
  list_at m l →
  ∃ m', del_app id m = (Done tt, m') ∧ list_at m' (remove_first id l) ∧ am_mallocs m' = am_mallocs m.
Proof.
  intros Hl. unfold del_app. erewrite bind_done by done. cbv beta.
  change (fget registered_apps m) with (am_registered_apps m).
  destruct (am_registered_apps m) as [p|] eqn:Hp.
  - rewrite (list_fuel_length m l Hl).
    apply (del_loop_spec id m l (length l) [] (Some p)); [done| |done]. rewrite <- Hp. apply Hl.
  - destruct Hl as [Hc Hnd Hd]. rewrite Hp in Hc. destruct l as [|[]]; [|by destruct Hc]. by exists m.
Qed.

(** *** getfirst_app *)
Lemma old_getfirst_app_spec m l :
  list_at m l →
  match l with
  | [] => getfirst_app m = (Done 0, m)
  | (_, id) :: l' => ∃ m', getfirst_app m = (Done id, m') ∧ list_at m' l' ∧ am_mallocs m' = am_mallocs m
  end.
Proof.
  intros Hl. unfold getfirst_app. erewrite bind_done by done. cbv beta.
  change (fget registered_apps m) with (am_registered_apps m).
  destruct l as [|[a id] l']; pose proof (list_chain _ _ Hl) as Hc; cbn in Hc.
  - by rewrite Hc.
  - destruct Hc as (Hp & n & Ha & Hc). rewrite Hp.
    erewrite bind_done by (by eapply get_ApplID_run). cbv beta.
    erewrite bind_done by (by eapply next_run). cbv beta. erewrite bind_done by done. cbv beta.
    erewrite bind_done by (eapply free_run; by simpl). cbv beta.
    eexists. split; [done|]. split; [exact (unlink_first m a id n l' Hl Ha)|done].
Qed.

(** *** The operations on lists of ids *)
Fixpoint remove_id (id : Z) (ids : list Z) : list Z :=
  match ids with
  | [] => []
  | i :: ids' => if i =? id then ids' else i :: remove_id id ids'
  end.

Lemma remove_first_ids id l : (remove_first id l).*2 = remove_id id l.*2.
Proof. induction l as [|[a i] l IH]; cbn; [done|]. destruct (i =? id); cbn; by rewrite ?IH. Qed.

Lemma add_app_ids m ids id :
  ids_at m ids → am_mallocs m = [] →
  ∃ m', add_app id m = (Done tt, m') ∧ ids_at m' (ids ++ [id]) ∧ am_mallocs m' = [].
Proof.
  intros (l & Hl & ->) Hm. destruct (old_add_app_spec m l id Hl Hm) as (m' & E & Hl' & Hm').
  exists m'. split_and!; [done| |done]. eexists. split; [done|]. by rewrite fmap_app.
Qed.

Lemma del_app_ids m ids id :
  ids_at m ids →
  ∃ m', del_app id m = (Done tt, m') ∧ ids_at m' (remove_id id ids) ∧ am_mallocs m' = am_mallocs m.
Proof.
  intros (l & Hl & ->). destruct (old_del_app_spec m l id Hl) as (m' & E & Hl' & Hm').
  exists m'. split_and!; [done| |done]. eexists. split; [done|]. by rewrite remove_first_ids.
Qed.

Lemma getfirst_app_ids m ids :
  ids_at m ids →
  ∃ m', getfirst_app m = (Done (default 0 (head ids)), m') ∧ ids_at m' (tail ids) ∧
    am_mallocs m' = am_mallocs m.
Proof.
  intros (l & Hl & ->). pose proof (old_getfirst_app_spec m l Hl) as Hg. destruct l as [|[a i] l'].
  - exists m. split_and!; [done| |done]. by exists [].
  - destruct Hg as (m' & E & Hl' & Hm'). exists m'. split_and!; [done| |done]. by exists l'.
Qed.

(** Without memory the first access to the new node is one through a null pointer. *)
Lemma add_app_no_memory m l script id :
  list_at m l → am_mallocs m = false :: script → (add_app id m).1 = Faulted NullDeref.
Proof.
  intros Hl Hm. pose proof (list_fuel_length m l Hl) as Hfuel. destruct Hl as [Hc _ _].
  assert (Hmalloc : malloc m = (Done None, fset mallocs script m)) by (unfold malloc; by rewrite Hm).
  unfold add_app. erewrite bind_done by done. cbv beta.
  change (fget registered_apps m) with (am_registered_apps m).
  destruct l as [|[b i] l0 _] using rev_ind.
  - cbn in Hc. rewrite Hc. by erewrite bind_done by exact Hmalloc.
  - apply chain_snoc in Hc as [Hs Hb].
    destruct (am_registered_apps m) as [c|] eqn:Hreg; [|destruct l0 as [|[]]; cbn in Hs; naive_solver].
    erewrite bind_done by (eapply last_loop_run; [exact Hs|done|]; rewrite Hfuel, length_app; lia). cbv beta.
    erewrite bind_done by exact Hmalloc. cbv beta.
    erewrite bind_done by (by eapply set_next_run). cbv beta.
    by erewrite bind_done by (eapply next_run; apply lookup_insert_eq).
Qed.

Lemma ids_at_empty script : ids_at (mkApps ∅ None script) [].
Proof. exists []. split; [|done]. by split; [|apply NoDup_nil|]. Qed.

Lemma remove_id_elem id ids j : NoDup ids → j ∈ remove_id id ids ↔ j ∈ ids ∧ j ≠ id.
Proof.
  induction 1 as [|i ids Hi Hnd IH]; cbn; [set_solver|].
  destruct (Z.eqb_spec i id) as [->|Hne].
  - rewrite elem_of_cons. split; [intros Hj; split; [auto|congruence]|naive_solver].
  - rewrite !elem_of_cons, IH. naive_solver.
Qed.

Lemma remove_id_NoDup id ids : NoDup ids → NoDup (remove_id id ids).
Proof.
  induction 1 as [|i ids Hi Hnd IH]; cbn; [apply NoDup_nil_2|].
  destruct (i =? id); [done|]. apply NoDup_cons. split; [|done]. rewrite remove_id_elem by done. by intros [? _].
Qed.
