(* ===== verification/OldServer.v ===== *)
(** * The old Linux server: a connection (linux-server/src/old/main-rev1.14-cvs.c)

    Revision 1.14 of the server is one file.  Its handlers are the forerunners of
    the files of capi/; the list of applications is that of OldApps.v; a request is
    what one [recv] yields.  No makefile builds it.  It includes "protocol.h": the
    structures are those of the protocol.h beside it, but for the answer to AUTH,
    which had members then that the header no longer has ([OldHeader]).

    The mutexes are taken and given back by the one thread there is; [init] and
    [timeout] are written but never read; both are left out. *)
From stdpp Require Import gmap.
From S2P Require Import Prelude CMem Protocol Net Capi20 Server Exec Proxy OldApps.
#[local] Open Scope Z_scope.

(** [struct ANSWER_PROXY_AUTH] of the header of that revision: its size, and offset
    and size of its members. *)
Class OldHeader := {
  sizeof_ANSWER_PROXY_AUTH : Z;
  AUTH_auth_type : Z;
  AUTH_auth_len : Z;
  sizeof_auth_type : nat;
  sizeof_auth_len : nat;
  AUTH_layout :
    0 ≤ AUTH_auth_type ∧ AUTH_auth_type + Z.of_nat sizeof_auth_type ≤ sizeof_ANSWER_PROXY_AUTH ∧
    0 ≤ AUTH_auth_len ∧ AUTH_auth_len + Z.of_nat sizeof_auth_len ≤ sizeof_ANSWER_PROXY_AUTH;
  AUTH_size : sizeof_ANSWER_PROXY_AUTH ≤ 128;
}.

Definition MY_MINOR := 1.

(** ** State: the memory of the process, and what is outside of it *)
Record oprocess := mkOProcess {
  op_sessionID : Z;
  op_local_version : version_t;
  op_client_info : client_info_t;
  op_in_packet_address : Z;
  op_in_packet : list byte;         (**r [char in_packet[_PACKET_SIZE]] of main *)
  op_out_packet : list byte;        (**r [char out_packet[_PACKET_SIZE]] *)
  op_apps : app_memory;             (**r [registered_apps] and the heap *)
  op_sock_open : bool;
}.

Record ochild := mkOChild {
  oc_memory : oprocess;
  oc_app_id : Z;
  oc_message_id : Z;
}.

Record oserver (CS : Type) := mkOServer {
  os_process : oprocess;
  os_sock : net;
  os_capi : CS;
  os_forks : list bool;
  os_children : list ochild;
  os_log : list log_entry;
}.
Arguments mkOServer {CS}.
Arguments os_process {CS}.
Arguments os_sock {CS}.
Arguments os_capi {CS}.
Arguments os_forks {CS}.
Arguments os_children {CS}.
Arguments os_log {CS}.

Section fields.
Context {CS : Type}.
Abbreviation st := (oserver CS).

Definition set_process (p : oprocess) (s : st) : st :=
  mkOServer p (os_sock s) (os_capi s) (os_forks s) (os_children s) (os_log s).
Definition sock : field st net := mkField os_sock (λ v s,
  mkOServer (os_process s) v (os_capi s) (os_forks s) (os_children s) (os_log s)).
Definition capi : field st CS := mkField os_capi (λ v s,
  mkOServer (os_process s) (os_sock s) v (os_forks s) (os_children s) (os_log s)).
Definition forks : field st (list bool) := mkField os_forks (λ v s,
  mkOServer (os_process s) (os_sock s) (os_capi s) v (os_children s) (os_log s)).
Definition children : field st (list ochild) := mkField os_children (λ v s,
  mkOServer (os_process s) (os_sock s) (os_capi s) (os_forks s) v (os_log s)).
Definition log : field st (list log_entry) := mkField os_log (λ v s,
  mkOServer (os_process s) (os_sock s) (os_capi s) (os_forks s) (os_children s) v).

Definition process_field {A} (get : oprocess → A) (set : A → oprocess → oprocess) : field st A :=
  mkField (λ s, get (os_process s)) (λ v s, set_process (set v (os_process s)) s).

Definition sessionID : field st Z := process_field op_sessionID (λ v p,
  mkOProcess v (op_local_version p) (op_client_info p) (op_in_packet_address p) (op_in_packet p)
    (op_out_packet p) (op_apps p) (op_sock_open p)).
Definition local_version : field st version_t := process_field op_local_version (λ v p,
  mkOProcess (op_sessionID p) v (op_client_info p) (op_in_packet_address p) (op_in_packet p)
    (op_out_packet p) (op_apps p) (op_sock_open p)).
Definition client_info : field st client_info_t := process_field op_client_info (λ v p,
  mkOProcess (op_sessionID p) (op_local_version p) v (op_in_packet_address p) (op_in_packet p)
    (op_out_packet p) (op_apps p) (op_sock_open p)).
Definition in_packet_address : field st Z := process_field op_in_packet_address (λ v p,
  mkOProcess (op_sessionID p) (op_local_version p) (op_client_info p) v (op_in_packet p)
    (op_out_packet p) (op_apps p) (op_sock_open p)).
Definition in_packet : field st (list byte) := process_field op_in_packet (λ v p,
  mkOProcess (op_sessionID p) (op_local_version p) (op_client_info p) (op_in_packet_address p) v
    (op_out_packet p) (op_apps p) (op_sock_open p)).
Definition out_packet : field st (list byte) := process_field op_out_packet (λ v p,
  mkOProcess (op_sessionID p) (op_local_version p) (op_client_info p) (op_in_packet_address p) (op_in_packet p)
    v (op_apps p) (op_sock_open p)).
Definition apps : field st app_memory := process_field op_apps (λ v p,
  mkOProcess (op_sessionID p) (op_local_version p) (op_client_info p) (op_in_packet_address p) (op_in_packet p)
    (op_out_packet p) v (op_sock_open p)).
Definition sock_open : field st bool := process_field op_sock_open (λ v p,
  mkOProcess (op_sessionID p) (op_local_version p) (op_client_info p) (op_in_packet_address p) (op_in_packet p)
    (op_out_packet p) (op_apps p) v).
Definition client_info_name : field st (list byte) :=
  mkField (λ s, ci_name (fget client_info s)) (λ v s, let c := fget client_info s in
    fset client_info (mkClientInfo (ci_os c) (ci_version c) v (ci_messageBufferLen c)) s).

#[export] Instance sock_lawful : LawfulField sock.
Proof. by constructor; [|intros []|]. Qed.
#[export] Instance capi_lawful : LawfulField capi.
Proof. by constructor; [|intros []|]. Qed.
#[export] Instance in_packet_lawful : LawfulField in_packet.
Proof. by constructor; [|intros [[]]|]. Qed.
#[export] Instance out_packet_lawful : LawfulField out_packet.
Proof. by constructor; [|intros [[]]|]. Qed.
#[export] Instance sock_in_packet_disjoint : DisjointFields sock in_packet.
Proof. done. Qed.

Definition syslog (e : log_entry) : M st unit := modify log (λ l, l ++ [e]).

(** A function of the list of applications. *)
Definition on_apps {A} (m : M app_memory A) : M st A := λ s,
  let '(o, a) := m (fget apps s) in (o, fset apps a s).

Definition request (f : Z) : M st Z := load32 in_packet f.
Definition set_head (f v : Z) : M st unit := store32 out_packet f v.

(** [head->message_len = head->header_len + head->body_len + head->data_len;] *)
Definition set_message_len : M st unit :=
  header_len ← load32 out_packet AH.header_len;
  body_len ← load32 out_packet AH.body_len;
  data_len ← load32 out_packet AH.data_len;
  store32 out_packet AH.message_len (header_len + body_len + data_len).

(** [numbytes = send(sock, out_packet, head->message_len, 0);] *)
Definition send_out_packet : M st Z :=
  message_len ← load32 out_packet AH.message_len;
  bs ← load_bytes out_packet 0 message_len;
  zoom sock (send bs).
End fields.

Section old.
Context `{OldHeader} {CS : Type} `{Capi20 CS}.
Abbreviation M := (M (oserver CS)).

(** ** The list of applications *)
Definition add_app (ApplID : Z) : M unit := on_apps (OldApps.add_app ApplID).
Definition del_app (ApplID : Z) : M unit := on_apps (OldApps.del_app ApplID).

(** [while ((app = getfirst_app(_list))) capi20_release(app);] *)
Fixpoint release_loop (fuel : nat) : M unit :=
  app ← on_apps OldApps.getfirst_app;
  if decide (app = 0) then mret tt else
  match fuel with
  | O => fail Diverged
  | S fuel' => zoom capi (capi20_release app);; release_loop fuel'
  end.
(** Each round frees a node. *)
Definition release_all : M unit := λ s, release_loop (list_fuel (fget apps s)) s.

(** ** Session *)
Definition verify_session_id (id : Z) : M Z :=
  session ← gets sessionID;
  mret (if id =? session then 0 else 1).

(** ** exec_proxy_helo *)
Definition helo_server_name : list byte := bytes_of_string "CAPI 2.0 Proxy Linux SERVER pre-alpha".

Definition exec_proxy_helo : M Z :=
  helo_msg ← request RH.header_len;
  os ← load32 in_packet (helo_msg + HELO.os);
  modify client_info (set_ci_os (s32 os));;
  major ← load32 in_packet (helo_msg + HELO.version_major);
  minor ← load32 in_packet (helo_msg + HELO.version_minor);
  modify client_info (set_ci_version (mkVersion major minor));;
  name ← load_cstr in_packet (helo_msg + HELO.name);
  store_cstr client_info_name 0 name;;
  set_head AH.message_len (sizeof_ANSWER_HEADER + sizeof_ANSWER_PROXY_HELO);;
  set_head AH.header_len sizeof_ANSWER_HEADER;;
  set_head AH.body_len sizeof_ANSWER_PROXY_HELO;;
  set_head AH.data_len 0;;
  message_id ← request RH.message_id;
  set_head AH.message_id message_id;;
  set_head AH.message_type TYPE_PROXY_HELO;;
  set_head AH.app_id 0;;
  session ← gets sessionID;
  set_head AH.session_id session;;
  set_head AH.proxy_error 0;;
  set_head AH.capi_error 0;;
  store_cstr out_packet (sizeof_ANSWER_HEADER + HELO.name) helo_server_name;;
  store32 out_packet (sizeof_ANSWER_HEADER + HELO.os) OS_TYPE_LINUX;;
  version ← gets local_version;
  store32 out_packet (sizeof_ANSWER_HEADER + HELO.version_major) (Protocol.major version);;
  store32 out_packet (sizeof_ANSWER_HEADER + HELO.version_minor) (Protocol.minor version);;
  store32 out_packet (sizeof_ANSWER_HEADER + HELO.auth_type) AUTH_NO_AUTH;;
  send_out_packet.

(** ** exec_proxy_auth *)
(** [body->f = 0;] for the members of the answer's body. *)
Definition clear_member (off : Z) (size : nat) : M unit :=
  store_bytes out_packet (sizeof_ANSWER_HEADER + off) (replicate size x00).

Definition exec_proxy_auth : M Z :=
  set_head AH.header_len sizeof_ANSWER_HEADER;;
  set_head AH.body_len sizeof_ANSWER_PROXY_AUTH;;
  set_head AH.data_len 0;;
  set_message_len;;
  message_id ← request RH.message_id;
  set_head AH.message_id message_id;;
  set_head AH.message_type TYPE_PROXY_AUTH;;
  set_head AH.app_id 0;;
  session ← gets sessionID;
  set_head AH.session_id session;;
  set_head AH.capi_error 0x0000;;
  set_head AH.proxy_error PERROR_AUTH_TYPE_NOT_SUPPORTED;;
  clear_member AUTH_auth_type sizeof_auth_type;;
  clear_member AUTH_auth_len sizeof_auth_len;;
  send_out_packet.

(** ** exec_proxy_shutdown *)
Definition exec_proxy_shutdown (excuse : list byte) : M Z :=
  set_head AH.message_len (sizeof_ANSWER_HEADER + sizeof_ANSWER_PROXY_SHUTDOWN);;
  set_head AH.header_len sizeof_ANSWER_HEADER;;
  set_head AH.body_len sizeof_ANSWER_PROXY_SHUTDOWN;;
  set_head AH.data_len 0;;
  set_head AH.message_id 0;;
  set_head AH.message_type TYPE_PROXY_SHUTDOWN;;
  set_head AH.app_id 0;;
  session ← gets sessionID;
  set_head AH.session_id session;;
  set_head AH.proxy_error 0;;
  set_head AH.capi_error 0;;
  store_cstr out_packet sizeof_ANSWER_HEADER excuse;;
  send_out_packet.

(** It exits with 0, whatever [ret]. *)
Definition xquit (ret : Z) (excuse : list byte) : M Z :=
  exec_proxy_shutdown excuse;;
  puts sock_open false;;
  exit 0.

(** ** exec_capi_register *)
Definition exec_capi_register : M Z :=
  values ← request RH.header_len;
  maxLogicalConnection ← load32 in_packet (values + REGISTER.maxLogicalConnection);
  maxBDataBlocks ← load32 in_packet (values + REGISTER.maxBDataBlocks);
  maxBDataLen ← load32 in_packet (values + REGISTER.maxBDataLen);
  '(return_type, stored) ←
    zoom capi (capi20_register maxLogicalConnection maxBDataBlocks maxBDataLen);
  (match stored with Some id => set_head AH.app_id id | None => mret tt end);;
  when (return_type =? 0x0000)
    (app_id ← load32 out_packet AH.app_id; add_app app_id);;
  messageBufferSize ← load32 in_packet (values + REGISTER.messageBufferSize);
  modify client_info (set_ci_messageBufferLen (s32 messageBufferSize));;
  set_head AH.header_len sizeof_ANSWER_HEADER;;
  set_head AH.body_len sizeof_empty_struct;;
  set_head AH.data_len 0;;
  set_message_len;;
  message_id ← request RH.message_id;
  set_head AH.message_id message_id;;
  set_head AH.message_type TYPE_CAPI_REGISTER;;
  session ← gets sessionID;
  set_head AH.session_id session;;
  set_head AH.capi_error return_type;;
  set_head AH.proxy_error 0;;
  send_out_packet.

(** ** exec_capi_release *)
Definition exec_capi_release : M Z :=
  app_id ← request RH.app_id;
  return_type ← zoom capi (capi20_release app_id);
  when (return_type =? 0x0000) (app_id ← request RH.app_id; del_app app_id);;
  set_head AH.header_len sizeof_ANSWER_HEADER;;
  set_head AH.body_len 0;;
  set_head AH.data_len 0;;
  set_message_len;;
  message_id ← request RH.message_id;
  set_head AH.message_id message_id;;
  set_head AH.message_type TYPE_CAPI_RELEASE;;
  app_id ← request RH.app_id;
  set_head AH.app_id app_id;;
  session ← gets sessionID;
  set_head AH.session_id session;;
  set_head AH.capi_error return_type;;
  set_head AH.proxy_error 0;;
  send_out_packet.

(** ** exec_capi_getmessage *)
Definition read_capi (address n : Z) : M (list byte) :=
  c ← gets capi; try OutOfBounds (capi20_memory c address n).

(** The part under [if (head->capi_error == 0x0000)]. *)
Definition getmessage_copy (message : Z) : M unit :=
  l ← read_capi message 2;
  let len1 := le_combine l in
  m ← read_capi message len1;
  store_bytes out_packet GETMESSAGE_data m;;
  set_head AH.data_len len1;;
  cmd1 ← load8 out_packet (GETMESSAGE_data + 4);
  cmd2 ← load8 out_packet (GETMESSAGE_data + 5);
  when ((cmd1 =? 0x86) && (cmd2 =? 0x82)) (
    if len1 <? 18 then set_head AH.proxy_error PERROR_PARSE_ERROR
    else
      len2 ← load16 out_packet (GETMESSAGE_data + 16);
      pointer ← load32 out_packet (GETMESSAGE_data + 12);
      d ← read_capi pointer len2;
      store_bytes out_packet (GETMESSAGE_data + len1) d;;
      data_len ← load32 out_packet AH.data_len;
      set_head AH.data_len (data_len + len2)).

Definition exec_capi_getmessage : M Z :=
  app_id ← request RH.app_id;
  '(rc, message) ← zoom capi (capi20_get_message app_id);
  set_head AH.capi_error rc;;
  set_head AH.header_len sizeof_ANSWER_HEADER;;
  set_head AH.body_len sizeof_empty_struct;;
  message_id ← request RH.message_id;
  set_head AH.message_id message_id;;
  set_head AH.data_len 0;;
  set_head AH.message_type TYPE_CAPI_GETMESSAGE;;
  app_id ← request RH.app_id;
  set_head AH.app_id app_id;;
  session ← gets sessionID;
  set_head AH.session_id session;;
  set_head AH.proxy_error 0;;
  capi_error ← load32 out_packet AH.capi_error;
  when (capi_error =? 0x0000) (getmessage_copy message);;
  set_message_len;;
  send_out_packet.

(** ** exec_capi_putmessage *)
(** [head->capi_error = capi20_put_message(request->app_id, msg);] *)
Definition put_message (msg : Z) : M unit :=
  app_id ← request RH.app_id;
  address ← gets in_packet_address;
  mem ← gets in_packet;
  rc ← zoom capi (capi20_put_message app_id address mem msg);
  set_head AH.capi_error rc.

Definition parse_error (msg : string) : M unit :=
  set_head AH.proxy_error PERROR_PARSE_ERROR;; syslog (Syslog msg).

(** The validation of the CAPI message, and the call. *)
Definition putmessage_checked (msg : Z) : M unit :=
  data_len ← request RH.data_len;
  if data_len <? 8 then parse_error "Error parsing CAPI message (1)" else
  len1 ← load16 in_packet msg;
  if data_len <? len1 then parse_error "Error parsing CAPI message (2)" else
  cmd1 ← load8 in_packet (msg + 4);
  cmd2 ← load8 in_packet (msg + 5);
  if (cmd1 =? 0x86) && (cmd2 =? 0x80) then
    if len1 <? 18 then parse_error "Error parsing CAPI message (3)" else
    len2 ← load16 in_packet (msg + 16);
    if data_len <? len1 + len2 then parse_error "Error parsing CAPI message (4)" else
    address ← gets in_packet_address;
    store32 in_packet (msg + 12) (address + msg + len1);;
    put_message msg
  else put_message msg.

Definition exec_capi_putmessage : M Z :=
  header_len ← request RH.header_len;
  body_len ← request RH.body_len;
  let msg := header_len + body_len in
  set_head AH.header_len sizeof_ANSWER_HEADER;;
  set_head AH.body_len sizeof_empty_struct;;
  set_head AH.data_len 0;;
  set_message_len;;
  message_id ← request RH.message_id;
  set_head AH.message_id message_id;;
  set_head AH.message_type TYPE_CAPI_PUTMESSAGE;;
  app_id ← request RH.app_id;
  set_head AH.app_id app_id;;
  session ← gets sessionID;
  set_head AH.session_id session;;
  set_head AH.proxy_error 0;;
  putmessage_checked msg;;
  send_out_packet.

(** ** exec_capi_waitforsignal *)
(** The code after [pid = fork()]; [data] is the local [struct listener_data]. *)
Definition waitforsignal_after (pid : fork_result) (data_app_id data_message_id : Z) : M Z :=
  let compose :=
    set_head AH.header_len sizeof_ANSWER_HEADER;;
    set_head AH.body_len sizeof_empty_struct;;
    set_head AH.data_len 0;;
    set_message_len;;
    set_head AH.message_id data_message_id;;
    set_head AH.message_type TYPE_CAPI_WAITFORSIGNAL;;
    set_head AH.app_id data_app_id;;
    session ← gets sessionID;
    set_head AH.session_id session;;
    numbytes ← send_out_packet;
    match pid with ForkChild => exit 0 | _ => mret numbytes end in
  match pid with
  | ForkChild =>
      rc ← zoom capi (capi20_waitformessage data_app_id);
      set_head AH.capi_error rc;;
      set_head AH.proxy_error PERROR_NONE;;
      compose
  | ForkFailed =>
      syslog (SyslogErrno "forking failed: ");;
      set_head AH.capi_error 0x1108;;
      set_head AH.proxy_error PERROR_NO_RESSOURCES;;
      compose
  | ForkParent => mret 1
  end.

(** Fork as the parent sees it. *)
Definition fork (data_app_id data_message_id : Z) : M fork_result := λ s,
  match os_forks s with
  | false :: script => (Done ForkFailed, fset forks script s)
  | script =>
      (Done ForkParent,
       fset children (os_children s ++ [mkOChild (os_process s) data_app_id data_message_id])
         (fset forks (tail script) s))
  end.

Definition exec_capi_waitforsignal : M Z :=
  data_app_id ← request RH.app_id;
  data_message_id ← request RH.message_id;
  pid ← fork data_app_id data_message_id;
  waitforsignal_after pid data_app_id data_message_id.

(** A run of a child: its own memory, the shared socket and library. *)
Definition run_child (ch : ochild) (s : oserver CS) : oserver CS :=
  let s' := (waitforsignal_after ForkChild (oc_app_id ch) (oc_message_id ch)
               (set_process (oc_memory ch) s)).2 in
  set_process (os_process s) s'.

(** ** exec_capi_isinstalled *)
Definition exec_capi_isinstalled : M Z :=
  return_type ← zoom capi (λ c, (capi20_isinstalled c, c));
  set_head AH.header_len sizeof_ANSWER_HEADER;;
  set_head AH.body_len 0;;
  set_head AH.data_len 0;;
  set_message_len;;
  message_id ← request RH.message_id;
  set_head AH.message_id message_id;;
  set_head AH.message_type TYPE_CAPI_INSTALLED;;
  app_id ← request RH.app_id;
  set_head AH.app_id app_id;;
  session ← gets sessionID;
  set_head AH.session_id session;;
  set_head AH.capi_error return_type;;
  set_head AH.proxy_error 0;;
  send_out_packet.

(** ** exec_capi_profile *)
Definition exec_capi_profile : M Z :=
  controller ← request RH.controller_id;
  '(rc, profile) ← zoom capi (λ c, (capi20_get_profile controller c, c));
  store_bytes out_packet sizeof_ANSWER_HEADER profile;;
  set_head AH.capi_error rc;;
  set_head AH.header_len sizeof_ANSWER_HEADER;;
  set_head AH.body_len sizeof_ANSWER_CAPI_PROFILE;;
  set_head AH.data_len 0;;
  set_message_len;;
  message_id ← request RH.message_id;
  set_head AH.message_id message_id;;
  set_head AH.message_type TYPE_CAPI_PROFILE;;
  app_id ← request RH.app_id;
  set_head AH.app_id app_id;;
  session ← gets sessionID;
  set_head AH.session_id session;;
  set_head AH.proxy_error 0;;
  send_out_packet.

(** ** exec_capi_serial *)
Definition exec_capi_serial : M Z :=
  controller ← request RH.controller_id;
  serial ← zoom capi (λ c, (capi20_get_serial_number controller c, c));
  store_bytes out_packet sizeof_ANSWER_HEADER serial;;
  set_head AH.header_len sizeof_ANSWER_HEADER;;
  set_head AH.body_len sizeof_ANSWER_CAPI_SERIAL;;
  set_head AH.data_len 0;;
  set_message_len;;
  message_id ← request RH.message_id;
  set_head AH.message_id message_id;;
  set_head AH.message_type TYPE_CAPI_SERIAL;;
  app_id ← request RH.app_id;
  set_head AH.app_id app_id;;
  session ← gets sessionID;
  set_head AH.session_id session;;
  set_head AH.proxy_error 0;;
  set_head AH.capi_error 0x0000;;
  send_out_packet.

(** ** exec_capi_version: [unsigned long buffer[4]] is not initialised *)
Definition exec_capi_version : M Z :=
  controller ← request RH.controller_id;
  buffer ← zoom capi (λ c, (capi20_get_version controller c, c));
  set_head AH.header_len sizeof_ANSWER_HEADER;;
  set_head AH.body_len sizeof_ANSWER_CAPI_VERSION;;
  set_head AH.data_len 0;;
  set_message_len;;
  message_id ← request RH.message_id;
  set_head AH.message_id message_id;;
  set_head AH.message_type TYPE_CAPI_VERSION;;
  app_id ← request RH.app_id;
  set_head AH.app_id app_id;;
  session ← gets sessionID;
  set_head AH.session_id session;;
  set_head AH.proxy_error 0;;
  set_head AH.capi_error 0x0000;;
  b0 ← try Uninitialised (get_u32 buffer 0);
  store32 out_packet (sizeof_ANSWER_HEADER + VERSION.driver_major) b0;;
  b1 ← try Uninitialised (get_u32 buffer 4);
  store32 out_packet (sizeof_ANSWER_HEADER + VERSION.driver_minor) b1;;
  b2 ← try Uninitialised (get_u32 buffer 8);
  store32 out_packet (sizeof_ANSWER_HEADER + VERSION.manufacturer_major) b2;;
  b3 ← try Uninitialised (get_u32 buffer 12);
  store32 out_packet (sizeof_ANSWER_HEADER + VERSION.manufacturer_minor) b3;;
  send_out_packet.

(** ** exec_capi_manufacturer *)
Definition exec_capi_manufacturer : M Z :=
  controller ← request RH.controller_id;
  manufacturer ← zoom capi (λ c, (capi20_get_manufacturer controller c, c));
  store_bytes out_packet sizeof_ANSWER_HEADER manufacturer;;
  set_head AH.header_len sizeof_ANSWER_HEADER;;
  set_head AH.body_len sizeof_ANSWER_CAPI_MANUFACTURER;;
  set_head AH.data_len 0;;
  set_message_len;;
  message_id ← request RH.message_id;
  set_head AH.message_id message_id;;
  set_head AH.message_type TYPE_CAPI_MANUFACTURER;;
  app_id ← request RH.app_id;
  set_head AH.app_id app_id;;
  session ← gets sessionID;
  set_head AH.session_id session;;
  set_head AH.proxy_error 0;;
  set_head AH.capi_error 0x0000;;
  send_out_packet.

(** ** The handler of signals of a connection *)
Definition sighandler2 (sig : signal) : M unit :=
  match sig with
  | SIGINT | SIGTERM =>
      puts sock_open false;;
      syslog (Syslog "got signal and exiting");;
      exit 0
  | SIGHUP | SIGUSR1 | SIGOTHER => syslog (Syslog "ignoring received signal")
  end.

(** ** main: the handling of a connection *)
(** [if (verify_session_id(request->session_id) != 0) break; sentbytes = handler(in_packet);] *)
Definition session_guard (handler : M Z) : M Z :=
  session_id ← request RH.session_id;
  r ← verify_session_id session_id;
  if negb (r =? 0) then mret 1 else handler.

(** The switch over [request->message_type]; the result is [sentbytes]. *)
Definition dispatch : M Z :=
  message_type ← request RH.message_type;
  if message_type =? TYPE_PROXY_HELO then exec_proxy_helo
  else if message_type =? TYPE_PROXY_AUTH then exec_proxy_auth
  else if message_type =? TYPE_PROXY_KEEPALIVE then mret 1
  else if message_type =? TYPE_CAPI_REGISTER then session_guard exec_capi_register
  else if message_type =? TYPE_CAPI_RELEASE then session_guard exec_capi_release
  else if message_type =? TYPE_CAPI_INSTALLED then session_guard exec_capi_isinstalled
  else if message_type =? TYPE_CAPI_VERSION then session_guard exec_capi_version
  else if message_type =? TYPE_CAPI_SERIAL then session_guard exec_capi_serial
  else if message_type =? TYPE_CAPI_MANUFACTURER then session_guard exec_capi_manufacturer
  else if message_type =? TYPE_CAPI_PROFILE then session_guard exec_capi_profile
  else if message_type =? TYPE_CAPI_WAITFORSIGNAL then session_guard exec_capi_waitforsignal
  else if message_type =? TYPE_CAPI_GETMESSAGE then session_guard exec_capi_getmessage
  else if message_type =? TYPE_CAPI_PUTMESSAGE then session_guard exec_capi_putmessage
  else syslog (Syslog "invalid message dispatched.");; mret 1.

(** [if ((numbytes = recv(...)) < 1) { ... }] *)
Definition check_received (numbytes : Z) : M unit :=
  when (numbytes <? 1) (
    puts sock_open false;;
    release_all;;
    if numbytes =? 0 then syslog (Syslog "quitting normally");; exit 0
    else syslog (Syslog "network error, quitting abnormally");; exit 1).

(** [if (numbytes > 0) { ... }] *)
Definition handle_received (numbytes : Z) : M unit :=
  when (0 <? numbytes) (
    sentbytes ← dispatch;
    when (sentbytes <? 1) (syslog (SyslogErrno "answer was not sent: "))).

(** One round of the handling loop.  The children that have ended are waited for
    first, which changes nothing here. *)
Definition handle_message : M unit :=
  numbytes ← recv_into sock in_packet 0 PACKET_SIZE;
  check_received numbytes;;
  handle_received numbytes.

(** [while (1)]: each round takes at least a byte from the stream. *)
Fixpoint handling_loop (fuel : nat) : M unit :=
  match fuel with
  | O => fail Diverged
  | S fuel' => handle_message;; handling_loop fuel'
  end.
Definition handle_connection : M unit := λ s,
  handling_loop (S (length (rx_bytes (os_sock s)))) s.
End old.
