(* ===== verification/OldSpec.v ===== *)
(** * The old server and the current one in step

    [same_server]: a connection of the old server (OldServer.v) and one of the
    current server (Server.v) hold the same, the list of applications of the one and
    the byte array of the other being the same set of ids.  The handlers of the CAPI
    calls are [coupled]: they keep that, and send the same answers. *)
From stdpp Require Import gmap.
From S2P Require Import Prelude CMem Protocol Net Capi20 OldApps OldServer AppIndex Server Packet Exec Proxy Capifwd ExecSpec Handled Handlers CapifwdSpec.
#[local] Open Scope Z_scope.

(** * Two programs in step

    [coupled R m1 m2]: from states related by [R] the computations [m1] and [m2],
    which may have different states, have the same outcome - value, fault or exit -
    and, unless that is a fault, end in states related by [R].  The lemmas take the
    statements one by one; those about a variable ask for the variables to be
    [Twins]: in related states they have the same value, and storing the same value
    in both keeps the states related.  The tactic [couple] runs through a function. *)
Definition coupled {S1 S2 A} (R : S1 → S2 → Prop) (m1 : M S1 A) (m2 : M S2 A) : Prop :=
  ∀ s1 s2, R s1 s2 →
    (m1 s1).1 = (m2 s2).1 ∧ ((∀ f, (m1 s1).1 ≠ Faulted f) → R (m1 s1).2 (m2 s2).2).
Create HintDb coupled.

Class Twins {S1 S2 A} (R : S1 → S2 → Prop) (F1 : field S1 A) (F2 : field S2 A) : Prop := {
  twins_get s1 s2 : R s1 s2 → fget F1 s1 = fget F2 s2;
  twins_set a s1 s2 : R s1 s2 → R (fset F1 a s1) (fset F2 a s2);
}.

Section coupled.
Context {S1 S2 : Type} (R : S1 → S2 → Prop).

Lemma coupled_ret {A} (a : A) : coupled R (mret a) (mret a).
Proof. by intros s1 s2 Hs. Qed.

Lemma coupled_fail {A} f : coupled R (fail (A:=A) f) (fail f).
Proof. by intros s1 s2 Hs. Qed.

Lemma coupled_exit {A} c : coupled R (exit (A:=A) c) (exit c).
Proof. by intros s1 s2 Hs. Qed.

(** From two states at which the first statements are coupled, related or not. *)
Lemma coupled_bind_at {A B} (m1 : M S1 A) (m2 : M S2 A) (k1 : A → M S1 B) (k2 : A → M S2 B) s1 s2 :
  (m1 s1).1 = (m2 s2).1 ∧ ((∀ f, (m1 s1).1 ≠ Faulted f) → R (m1 s1).2 (m2 s2).2) →
  (∀ a, coupled R (k1 a) (k2 a)) →
  ((m1 ≫= k1) s1).1 = ((m2 ≫= k2) s2).1 ∧
  ((∀ f, ((m1 ≫= k1) s1).1 ≠ Faulted f) → R ((m1 ≫= k1) s1).2 ((m2 ≫= k2) s2).2).
Proof.
  intros [Ho Hs] Hk. unfold mbind, M_bind.
  destruct (m1 s1) as [o1 t1], (m2 s2) as [o2 t2]. simpl in *. subst o2.
  destruct o1; [by apply Hk, Hs|by split; [|intros Hf; destruct (Hf f)]|split; [done|by intros _; apply Hs]].
Qed.

Lemma coupled_bind {A B} (m1 : M S1 A) (m2 : M S2 A) (k1 : A → M S1 B) (k2 : A → M S2 B) :
  coupled R m1 m2 → (∀ a, coupled R (k1 a) (k2 a)) → coupled R (m1 ≫= k1) (m2 ≫= k2).
Proof. intros Hm Hk s1 s2 Hs. apply coupled_bind_at; [by apply Hm|done]. Qed.

Lemma coupled_if {A} (b : bool) (m1 m1' : M S1 A) (m2 m2' : M S2 A) :
  coupled R m1 m2 → coupled R m1' m2' →
  coupled R (if b then m1 else m1') (if b then m2 else m2').
Proof. by destruct b. Qed.

Lemma coupled_when b (m1 : M S1 unit) (m2 : M S2 unit) :
  coupled R m1 m2 → coupled R (when b m1) (when b m2).
Proof. intros Hm. destruct b; [done|apply coupled_ret]. Qed.

Lemma coupled_try {A} f (o : option A) : coupled R (try f o) (try f o).
Proof. destruct o; [apply coupled_ret|apply coupled_fail]. Qed.

Section variable.
Context {A : Type} (F1 : field S1 A) (F2 : field S2 A) `{!Twins R F1 F2}.

Lemma coupled_gets : coupled R (gets F1) (gets F2).
Proof. intros s1 s2 Hs. split; [|done]. simpl. by rewrite (twins_get s1 s2 Hs). Qed.

Lemma coupled_puts a : coupled R (puts F1 a) (puts F2 a).
Proof. intros s1 s2 Hs. split; [done|]. intros _. by apply twins_set. Qed.

Lemma coupled_modify g : coupled R (modify F1 g) (modify F2 g).
Proof.
  intros s1 s2 Hs. split; [done|]. intros _. simpl. rewrite (twins_get s1 s2 Hs). by apply twins_set.
Qed.

Lemma coupled_zoom {B} (g : A → B * A) : coupled R (zoom F1 g) (zoom F2 g).
Proof.
  intros s1 s2 Hs. unfold zoom. rewrite (twins_get s1 s2 Hs). destruct (g _) as [b a].
  split; [done|]. intros _. by apply twins_set.
Qed.
End variable.

Hint Resolve coupled_ret coupled_fail coupled_exit coupled_bind coupled_if coupled_when
  coupled_try coupled_gets coupled_puts coupled_modify coupled_zoom : coupled.

Section buffer.
Context (F1 : field S1 (list byte)) (F2 : field S2 (list byte)) `{!Twins R F1 F2}.

Lemma coupled_load_bytes off n : coupled R (load_bytes F1 off n) (load_bytes F2 off n).
Proof. unfold load_bytes. auto with coupled. Qed.

Lemma coupled_load w off : coupled R (load F1 w off) (load F2 w off).
Proof. unfold load. auto with coupled. Qed.

Lemma coupled_store_bytes off bs : coupled R (store_bytes F1 off bs) (store_bytes F2 off bs).
Proof. unfold store_bytes. auto with coupled. Qed.

Lemma coupled_store w off v : coupled R (store F1 w off v) (store F2 w off v).
Proof. by apply coupled_store_bytes. Qed.

Lemma coupled_load_cstr off : coupled R (load_cstr F1 off) (load_cstr F2 off).
Proof. unfold load_cstr. auto with coupled. Qed.

Lemma coupled_store_cstr off bs : coupled R (store_cstr F1 off bs) (store_cstr F2 off bs).
Proof. by apply coupled_store_bytes. Qed.
End buffer.
End coupled.

#[export] Hint Resolve coupled_ret coupled_fail coupled_exit coupled_bind coupled_if coupled_when
  coupled_try coupled_gets coupled_puts coupled_modify coupled_zoom coupled_load_bytes
  coupled_load coupled_store_bytes coupled_store coupled_load_cstr coupled_store_cstr : coupled.

(** Statement by statement; the database has the lemmas about the functions and about
    components that are not twins. *)
Ltac couple_variable :=
  first [apply coupled_load|apply coupled_store|apply coupled_load_bytes|apply coupled_store_bytes
    |apply coupled_load_cstr|apply coupled_store_cstr|apply coupled_gets|apply coupled_puts
    |apply coupled_modify|apply coupled_zoom]; apply _.
Ltac couple_step :=
  match goal with
  | |- coupled _ (_ ≫= _) (_ ≫= _) => apply coupled_bind; [|intros ?]
  | |- coupled _ (let '(_, _) := ?p in _) _ => destruct p
  | |- coupled _ (if _ then _ else _) _ => apply coupled_if
  | |- coupled _ (when _ _) _ => apply coupled_when
  | |- _ => solve [auto with coupled | couple_variable]
  end.
Ltac couple := repeat couple_step.

(** What the handlers of the CAPI calls use of the memory of a process. *)
Record same_memory (p1 : oprocess) (p2 : process) : Prop := {
  same_sessionID : op_sessionID p1 = p_sessionID p2;
  same_client_info : op_client_info p1 = p_client_info p2;
  same_in_packet_address : op_in_packet_address p1 = p_in_packet_address p2;
  same_in_packet : op_in_packet p1 = p_in_packet p2;
  same_out_packet : op_out_packet p1 = p_out_packet p2;
  same_sock_open : op_sock_open p1 = p_sock_open p2;
}.

Record same_child (ch1 : ochild) (ch2 : child) : Prop := {
  same_ch_memory : same_memory (oc_memory ch1) (ch_memory ch2);
  same_ch_app_id : oc_app_id ch1 = ch_app_id ch2;
  same_ch_message_id : oc_message_id ch1 = ch_message_id ch2;
}.

Section same.
Context `{CapiHeader} {CS : Type} `{Capi20 CS} `{!Capi20Laws CS} `{OldHeader}.

(** The ids of the list, in the order of their registration; memory suffices. *)
Record listed (m : app_memory) (ids : list Z) : Prop := {
  listed_ids : ids_at m ids;
  listed_NoDup : NoDup ids;
  listed_mallocs : am_mallocs m = [];
}.

(** Both registries are what the library has registered. *)
Record same_apps (m : app_memory) (marks : list byte) (c : CS) : Prop := {
  same_listed : ∃ ids, listed m ids ∧ owned c = list_to_set ids;
  same_marks : owned c = apps_set marks;
  same_length : CAPI_MAXAPPL < blen marks;
}.

(** What is to arrive at the old server: the segments, and whether an error follows. *)
Context (arriving : list (list byte) * bool).
Record same_server (s1 : oserver CS) (s2 : server CS) : Prop := {
  same_process : same_memory (os_process s1) (sv_process s2);
  same_rx : (rx (os_sock s1), rx_error (os_sock s1)) = arriving;
  same_sock : os_sock s1 ≡ sv_sock s2;
  same_capi : os_capi s1 = sv_capi s2;
  same_forks : os_forks s1 = sv_forks s2;
  same_children : Forall2 same_child (os_children s1) (sv_children s2);
  same_log : os_log s1 = sv_log s2;
  same_registry : same_apps (op_apps (os_process s1)) (p_registered_apps (sv_process s2)) (os_capi s1);
}.
Abbreviation R := same_server.

(** ** The variables *)
Ltac solve_twins := constructor; [by intros s1 s2 [[] ? ? ? ? ? ? ?]|intros a s1 s2 [[] ? ? ? ? ? ? ?]; by split].
#[export] Instance sessionID_twins : Twins R OldServer.sessionID Server.sessionID.
Proof. solve_twins. Qed.
#[export] Instance client_info_twins : Twins R OldServer.client_info Server.client_info.
Proof. solve_twins. Qed.
#[export] Instance in_packet_address_twins : Twins R OldServer.in_packet_address Server.in_packet_address.
Proof. solve_twins. Qed.
#[export] Instance in_packet_twins : Twins R OldServer.in_packet Server.in_packet.
Proof. solve_twins. Qed.
#[export] Instance out_packet_twins : Twins R OldServer.out_packet Server.out_packet.
Proof. solve_twins. Qed.
#[export] Instance sock_open_twins : Twins R OldServer.sock_open Server.sock_open.
Proof. solve_twins. Qed.
#[export] Instance forks_twins : Twins R OldServer.forks Server.forks.
Proof. solve_twins. Qed.
#[export] Instance log_twins : Twins R OldServer.log Server.log.
Proof. solve_twins. Qed.

(** The library, when its calls leave the registered ids alone. *)
Lemma coupled_capi {B} (g : CS → B * CS) :
  (∀ c, owned (g c).2 = owned c) → coupled R (zoom OldServer.capi g) (zoom Server.capi g).
Proof.
  intros Hg s1 s2 [? ? ? Hc ? ? ? [Hl Hm Hn]]. unfold zoom. cbn. rewrite Hc in *.
  specialize (Hg (sv_capi s2)). destruct (g _) as [b c]. split; [done|]. intros _. simpl in Hg.
  split; try done. split; cbn; [|congruence|done]. destruct Hl as (ids & ? & ?). exists ids. split; [done|congruence].
Qed.

Lemma coupled_capi_read {B} (g : CS → B) :
  coupled R (zoom OldServer.capi (λ c, (g c, c))) (zoom Server.capi (λ c, (g c, c))).
Proof. by apply coupled_capi. Qed.

Lemma coupled_gets_capi : coupled R (gets OldServer.capi) (gets Server.capi).
Proof. intros s1 s2 Hs. split; [|done]. cbn. by rewrite (same_capi _ _ Hs). Qed.

(** The socket. *)
Lemma send_equiv bs w1 w2 : w1 ≡ w2 → (send bs w1).1 = (send bs w2).1 ∧ (send bs w1).2 ≡ (send bs w2).2.
Proof.
  intros (Hr & He & Ht & Hs). unfold send. rewrite Ht, Hs. destruct (tx_script w2); (split; [done|]);
  by split_and!.
Qed.

Lemma send_rx bs w : (rx (send bs w).2, rx_error (send bs w).2) = (rx w, rx_error w).
Proof. unfold send. by destruct (tx_script w). Qed.

Lemma coupled_send bs : coupled R (zoom OldServer.sock (send bs)) (zoom Server.sock (send bs)).
Proof.
  intros s1 s2 [? Hrx Hsock ? ? ? ? ?]. unfold zoom. cbn. pose proof (send_rx bs (os_sock s1)) as Hsend.
  destruct (send_equiv bs _ _ Hsock) as [Hn Hw]. destruct (send bs (os_sock s1)) as [n w1], (send bs (sv_sock s2)) as [n2 w2].
  simpl in *. subst n. split; [done|]. intros _. split; cbn; congruence || done.
Qed.

(** ** The statements that recur *)
Hint Resolve coupled_capi_read coupled_gets_capi coupled_send : coupled.

Lemma coupled_syslog e : coupled R (OldServer.syslog e) (Server.syslog e).
Proof. unfold OldServer.syslog, Server.syslog. auto with coupled typeclass_instances. Qed.

Lemma coupled_request f : coupled R (OldServer.request f) (Server.request f).
Proof. apply coupled_load. apply _. Qed.

Lemma coupled_set_head f v : coupled R (OldServer.set_head f v) (Server.set_head f v).
Proof. apply coupled_store. apply _. Qed.
Hint Resolve coupled_syslog coupled_request coupled_set_head : coupled.


Lemma coupled_set_message_len : coupled R OldServer.set_message_len Server.set_message_len.
Proof. unfold OldServer.set_message_len, set_message_len. couple. Qed.

Lemma coupled_send_out_packet : coupled R OldServer.send_out_packet Server.send_out_packet.
Proof. unfold OldServer.send_out_packet, send_out_packet. couple. Qed.
Hint Resolve coupled_set_message_len coupled_send_out_packet : coupled.

(** ** The handlers *)
Lemma coupled_isinstalled : coupled R OldServer.exec_capi_isinstalled Exec.exec_capi_isinstalled.
Proof. unfold OldServer.exec_capi_isinstalled, exec_capi_isinstalled. couple. Qed.

Lemma coupled_profile : coupled R OldServer.exec_capi_profile Exec.exec_capi_profile.
Proof. unfold OldServer.exec_capi_profile, exec_capi_profile. couple. Qed.

Lemma coupled_serial : coupled R OldServer.exec_capi_serial Exec.exec_capi_serial.
Proof. unfold OldServer.exec_capi_serial, exec_capi_serial. couple. Qed.

Lemma coupled_version : coupled R OldServer.exec_capi_version Exec.exec_capi_version.
Proof. unfold OldServer.exec_capi_version, exec_capi_version. couple. Qed.

Lemma coupled_manufacturer : coupled R OldServer.exec_capi_manufacturer Exec.exec_capi_manufacturer.
Proof. unfold OldServer.exec_capi_manufacturer, exec_capi_manufacturer. couple. Qed.

Lemma coupled_get_message id : coupled R (zoom OldServer.capi (capi20_get_message id)) (zoom Server.capi (capi20_get_message id)).
Proof.
  apply coupled_capi. intros c. destruct (capi20_get_message id c) as [[rc p] c'] eqn:E.
  by apply get_message_owned in E.
Qed.

Lemma coupled_put id base mem off :
  coupled R (zoom OldServer.capi (capi20_put_message id base mem off)) (zoom Server.capi (capi20_put_message id base mem off)).
Proof.
  apply coupled_capi. intros c. destruct (capi20_put_message id base mem off c) as [rc c'] eqn:E.
  by apply put_message_owned in E.
Qed.

Lemma coupled_waitformessage id :
  coupled R (zoom OldServer.capi (capi20_waitformessage id)) (zoom Server.capi (capi20_waitformessage id)).
Proof.
  apply coupled_capi. intros c. destruct (capi20_waitformessage id c) as [rc c'] eqn:E.
  by apply waitformessage_owned in E.
Qed.
Hint Resolve coupled_get_message coupled_put coupled_waitformessage : coupled.

Lemma coupled_read_capi a n : coupled R (OldServer.read_capi a n) (Exec.read_capi a n).
Proof. unfold OldServer.read_capi, read_capi. couple. Qed.
Hint Resolve coupled_read_capi : coupled.

Lemma coupled_getmessage_copy p : coupled R (OldServer.getmessage_copy p) (Exec.getmessage_copy p).
Proof. unfold OldServer.getmessage_copy, getmessage_copy. couple. Qed.
Hint Resolve coupled_getmessage_copy : coupled.

Lemma coupled_getmessage : coupled R OldServer.exec_capi_getmessage Exec.exec_capi_getmessage.
Proof. unfold OldServer.exec_capi_getmessage, exec_capi_getmessage. couple. Qed.

Lemma coupled_put_message msg : coupled R (OldServer.put_message msg) (Exec.put_message msg).
Proof. unfold OldServer.put_message, put_message. couple. Qed.

Lemma coupled_parse_error msg : coupled R (OldServer.parse_error msg) (Exec.parse_error msg).
Proof. unfold OldServer.parse_error, parse_error. couple. Qed.
Hint Resolve coupled_put_message coupled_parse_error : coupled.

Lemma coupled_putmessage_checked msg : coupled R (OldServer.putmessage_checked msg) (Exec.putmessage_checked msg).
Proof. unfold OldServer.putmessage_checked, putmessage_checked. couple. Qed.
Hint Resolve coupled_putmessage_checked : coupled.

Lemma coupled_putmessage : coupled R OldServer.exec_capi_putmessage Exec.exec_capi_putmessage.
Proof. unfold OldServer.exec_capi_putmessage, exec_capi_putmessage. couple. Qed.

(** *** WAIT_FOR_SIGNAL *)
Lemma coupled_fork app mid : coupled R (OldServer.fork app mid) (Exec.fork app mid).
Proof.
  intros s1 s2 [Hm Hrx Hw Hc Hf Hch Hl Hr]. unfold OldServer.fork, fork. rewrite Hf.
  assert (Hch' : Forall2 same_child (os_children s1 ++ [mkOChild (os_process s1) app mid])
                   (sv_children s2 ++ [mkChild (sv_process s2) app mid])).
  { apply Forall2_app; [done|]. apply Forall2_cons. split; [by split|done]. }
  destruct (sv_forks s2) as [|[] script]; (split; [done|]); intros _; by split.
Qed.
Hint Resolve coupled_fork : coupled.

Lemma coupled_waitforsignal_after pid app mid :
  coupled R (OldServer.waitforsignal_after pid app mid) (Exec.waitforsignal_after pid app mid).
Proof. unfold OldServer.waitforsignal_after, waitforsignal_after. destruct pid; couple. Qed.
Hint Resolve coupled_waitforsignal_after : coupled.

Lemma coupled_waitforsignal : coupled R OldServer.exec_capi_waitforsignal Exec.exec_capi_waitforsignal.
Proof. unfold OldServer.exec_capi_waitforsignal, exec_capi_waitforsignal. couple. Qed.

(** *** REGISTER *)
Lemma on_apps_run {A} (m : M app_memory A) (s : oserver CS) a m' :
  m (op_apps (os_process s)) = (Done a, m') → on_apps m s = (Done a, fset OldServer.apps m' s).
Proof. intros E. unfold on_apps. cbn. by rewrite E. Qed.

(** The library has registered [id], and both lists are told. *)
Lemma coupled_add_app id c s1 s2 :
  same_server s1 s2 → 1 ≤ id ≤ CAPI_MAXAPPL → id ∉ owned (sv_capi s2) →
  owned c = {[id]} ∪ owned (sv_capi s2) →
  ∃ m', OldServer.add_app id (fset OldServer.capi c s1) =
      (Done tt, fset OldServer.apps m' (fset OldServer.capi c s1)) ∧
    AppIndex.add_app Server.registered_apps id (fset Server.capi c s2) =
      (Done tt, fset Server.registered_apps (mark id Init.Byte.x01 (fget Server.registered_apps s2))
                  (fset Server.capi c s2)) ∧
    same_apps m' (mark id Init.Byte.x01 (fget Server.registered_apps s2)) c.
Proof.
  intros Hs Hid Hnew Hc. pose proof (same_capi _ _ Hs) as Hcapi.
  destruct (same_registry _ _ Hs) as [(ids & [Hids Hnd Hmalloc] & Ho) Hm Hl].
  destruct (add_app_ids _ ids id Hids Hmalloc) as (m' & E & Hids' & Hmalloc').
  exists m'. split; [by apply on_apps_run|]. split.
  - apply (AppIndex.add_app_spec Server.registered_apps id (fset Server.capi c s2)).
    change (fget Server.registered_apps (fset Server.capi c s2)) with (p_registered_apps (sv_process s2)). lia.
  - rewrite Hcapi in *. assert (Hni : id ∉ ids) by (intros Hin; apply Hnew; rewrite Ho; set_solver).
    change (fget Server.registered_apps s2) with (p_registered_apps (sv_process s2)). split.
    + exists (ids ++ [id]). split; [split|]; [done| |done|].
      * apply NoDup_app. split_and!; [done|set_solver|apply NoDup_singleton].
      * rewrite Hc, Ho, list_to_set_app_L. cbn. set_solver.
    + rewrite Hc, Hm, apps_set_mark by (done || lia). done.
    + unfold mark, blen in *. by rewrite length_insert.
Qed.

(** The statements of REGISTER between the call of the library and the rest. *)
Definition old_registered (return_type : Z) (stored : option Z) : M (oserver CS) unit :=
  (match stored with Some id => OldServer.set_head AH.app_id id | None => mret tt end);;
  when (return_type =? 0x0000)
    (app_id ← load32 OldServer.out_packet AH.app_id; OldServer.add_app app_id).
Definition new_registered (return_type : Z) (stored : option Z) : M (server CS) unit :=
  (match stored with Some id => Server.set_head AH.app_id id | None => mret tt end);;
  when (return_type =? 0x0000)
    (app_id ← load32 Server.out_packet AH.app_id; AppIndex.add_app Server.registered_apps app_id).

Lemma same_after_call c s1 s2 :
  same_server s1 s2 → owned c = owned (sv_capi s2) →
  same_server (fset OldServer.capi c s1) (fset Server.capi c s2).
Proof.
  intros [? ? ? Hc ? ? ? [(ids & ? & ?) Hm Hn]] Ho. split; try done. rewrite Hc in *.
  split; cbn; [exists ids; split; [done|congruence]|congruence|done].
Qed.

Lemma coupled_registered x y l s1 s2 rc stored c :
  same_server s1 s2 → capi20_register x y l (sv_capi s2) = (rc, stored, c) →
  let o1 := old_registered rc stored (fset OldServer.capi c s1) in
  let o2 := new_registered rc stored (fset Server.capi c s2) in
  o1.1 = o2.1 ∧ ((∀ f, o1.1 ≠ Faulted f) → same_server o1.2 o2.2).
Proof.
  intros Hs Hreg. unfold old_registered, new_registered. destruct (Z.eqb_spec rc 0) as [->|Hrc].
  2: { apply (coupled_bind R).
    - destruct stored; [apply coupled_set_head|apply coupled_ret].
    - intros _. apply coupled_ret.
    - apply same_after_call; [done|]. by apply register_error in Hreg. }
  apply register_ok in Hreg as (id & -> & Hid & Hnew & Ho).
  pose proof CAPI_MAXAPPL_range as Hmax. pose proof (twins_get (F1:=OldServer.out_packet) _ _ Hs) as Hout.
  destruct (splice (fget Server.out_packet s2) AH.app_id (le_split 4 id)) as [b|] eqn:Eb.
  2: { unfold OldServer.set_head, set_head, store.
    rewrite !(bind_faulted _ _ _ OutOfBounds _) by (apply store_bytes_fault; cbn in *; congruence).
    split; [done|]. intros Hf. by destruct (Hf OutOfBounds). }
  assert (Hb : get_u32 b AH.app_id = Some id).
  { apply get_le_splice_at in Eb. by rewrite Z.mod_small in Eb by lia. }
  assert (Hs' : same_server (fset OldServer.out_packet b s1) (fset Server.out_packet b s2))
    by (by apply twins_set).
  destruct (coupled_add_app id c _ _ Hs' Hid Hnew Ho) as (m' & E1 & E2 & Happs).
  unfold OldServer.set_head, set_head, store.
  rewrite (bind_done _ _ _ tt (fset OldServer.capi c (fset OldServer.out_packet b s1)))
    by (rewrite (store_bytes_run _ _ _ b) by (cbn in *; congruence); done).
  rewrite (bind_done _ _ _ tt (fset Server.capi c (fset Server.out_packet b s2)))
    by (rewrite (store_bytes_run _ _ _ b) by (cbn in *; congruence); done).
  cbv beta. change (when true ?m) with m.
  rewrite (bind_done (load32 OldServer.out_packet _) _ _ id _) by (by apply load_run).
  rewrite (bind_done (load32 Server.out_packet _) _ _ id _) by (by apply load_run). rewrite E1, E2.
  split; [done|]. intros _. destruct Hs' as [[] ? ? ? ? ? ? ?]. by split.
Qed.

Lemma coupled_register_then {B} x y l (k1 : Z → M (oserver CS) B) (k2 : Z → M (server CS) B) :
  (∀ rc, coupled R (k1 rc) (k2 rc)) →
  coupled R
    ('(rc, stored) ← zoom OldServer.capi (capi20_register x y l);
     (match stored with Some id => OldServer.set_head AH.app_id id | None => mret tt end);;
     when (rc =? 0x0000) (app_id ← load32 OldServer.out_packet AH.app_id; OldServer.add_app app_id);;
     k1 rc)
    ('(rc, stored) ← zoom Server.capi (capi20_register x y l);
     (match stored with Some id => Server.set_head AH.app_id id | None => mret tt end);;
     when (rc =? 0x0000) (app_id ← load32 Server.out_packet AH.app_id; AppIndex.add_app Server.registered_apps app_id);;
     k2 rc).
Proof.
  intros Hk s1 s2 Hs. destruct (capi20_register x y l (sv_capi s2)) as [[rc stored] c] eqn:Hreg.
  rewrite (bind_done _ _ s1 (rc, stored) (fset OldServer.capi c s1))
    by (unfold zoom; cbn; rewrite (same_capi _ _ Hs), Hreg; done).
  rewrite (bind_done _ _ s2 (rc, stored) (fset Server.capi c s2)) by (unfold zoom; cbn; rewrite Hreg; done).
  cbv beta iota. rewrite <- !bind_assoc.
  apply (coupled_bind_at R); [by apply (coupled_registered x y l)|]. intros _. apply Hk.
Qed.

Lemma coupled_register : coupled R OldServer.exec_capi_register Exec.exec_capi_register.
Proof.
  unfold OldServer.exec_capi_register, exec_capi_register. do 4 (couple_step; [couple|]).
  apply coupled_register_then. intros rc. couple.
Qed.

(** *** RELEASE *)
Lemma coupled_released id s1 s2 rc c :
  same_server s1 s2 → capi20_release id (sv_capi s2) = (rc, c) →
  get_u32 (fget Server.in_packet s2) RH.app_id = Some id →
  let o1 := when (rc =? 0x0000) (app_id ← OldServer.request RH.app_id; OldServer.del_app app_id)
              (fset OldServer.capi c s1) in
  let o2 := when (rc =? 0x0000) (app_id ← Server.request RH.app_id; AppIndex.del_app Server.registered_apps app_id)
              (fset Server.capi c s2) in
  o1.1 = o2.1 ∧ ((∀ f, o1.1 ≠ Faulted f) → same_server o1.2 o2.2).
Proof.
  intros Hs Hrel Hid. destruct (Z.eqb_spec rc 0) as [->|Hrc].
  2: { split; [done|]. intros _. apply same_after_call; [done|]. by apply release_error in Hrel. }
  assert (Hin : id ∈ owned (sv_capi s2)) by (by apply (release_owned _ _ _ _ Hrel)).
  apply release_ok in Hrel as Ho. destruct (same_registry _ _ Hs) as [(ids & [Hids Hnd Hmal] & Hown) Hm Hl].
  rewrite (same_capi _ _ Hs) in *.
  assert (Hr : 0 ≤ id < blen (p_registered_apps (sv_process s2))).
  { rewrite Hm in Hin. apply elem_of_apps_set in Hin as [_ Hin]. lia. }
  destruct (del_app_ids _ ids id Hids) as (m' & E & Hids' & Hmal').
  change (when true ?m) with m. cbv zeta.
  rewrite (bind_done (OldServer.request _) _ _ id _)
    by (apply load_run; cbn; by rewrite (same_in_packet _ _ (same_process _ _ Hs))).
  rewrite (bind_done (Server.request _) _ _ id _) by (by apply load_run).
  unfold OldServer.del_app. rewrite (on_apps_run _ (fset OldServer.capi c s1) _ _ E).
  rewrite (AppIndex.del_app_spec Server.registered_apps id (fset Server.capi c s2)) by done.
  split; [done|]. intros _. destruct Hs as [[] ? ? ? ? ? ? ?]. split; try done. split; cbn.
  - exists (remove_id id ids). split; [split; [done|by apply remove_id_NoDup|congruence]|].
    rewrite Ho, Hown. apply set_eq. intros j. rewrite elem_of_difference, !elem_of_list_to_set, elem_of_singleton.
    by rewrite remove_id_elem.
  - by rewrite Ho, Hm, apps_set_unmark.
  - unfold mark, blen in *. by rewrite length_insert.
Qed.

Lemma coupled_release : coupled R OldServer.exec_capi_release Exec.exec_capi_release.
Proof.
  unfold OldServer.exec_capi_release, exec_capi_release. intros s1 s2 Hs.
  pose proof (twins_get (F1:=OldServer.in_packet) _ _ Hs) as Hin.
  destruct (get_u32 (fget Server.in_packet s2) RH.app_id) as [id|] eqn:Hid.
  2: { rewrite !(bind_faulted _ _ _ OutOfBounds _)
         by (unfold OldServer.request, request, load, gets, mbind, M_bind; by rewrite ?Hin, Hid).
       split; [done|]. intros Hf. by destruct (Hf OutOfBounds). }
  rewrite (bind_done (OldServer.request _) _ _ id s1) by (by apply load_run; rewrite Hin).
  rewrite (bind_done (Server.request _) _ _ id s2) by (by apply load_run).
  destruct (capi20_release id (sv_capi s2)) as [rc c] eqn:Hrel.
  rewrite (bind_done _ _ s1 rc (fset OldServer.capi c s1))
    by (unfold zoom; cbn; rewrite (same_capi _ _ Hs), Hrel; done).
  rewrite (bind_done _ _ s2 rc (fset Server.capi c s2)) by (unfold zoom; cbn; rewrite Hrel; done).
  apply (coupled_bind_at R); [by apply (coupled_released id)|]. intros _. couple.
Qed.

(** ** The dispatcher *)
Lemma coupled_session_guard m1 m2 :
  coupled R m1 m2 → coupled R (OldServer.session_guard m1) (Capifwd.session_guard m2).
Proof.
  intros Hm. unfold OldServer.session_guard, session_guard. couple_step; [couple|].
  intros s1 s2 Hs.
  rewrite (bind_done (OldServer.verify_session_id _) _ s1 (if a =? fget OldServer.sessionID s1 then 0 else 1) s1)
    by done.
  rewrite (bind_done (gets _) _ s2 (fget Server.sessionID s2) s2) by done.
  rewrite (twins_get (F1:=OldServer.sessionID) _ _ Hs). by destruct (a =? _); [apply Hm|].
Qed.

(** All types but HELO and AUTH. *)
Lemma coupled_dispatch s1 s2 ty :
  same_server s1 s2 → get_u32 (fget Server.in_packet s2) RH.message_type = Some ty →
  ty ≠ TYPE_PROXY_HELO → ty ≠ TYPE_PROXY_AUTH →
  (OldServer.dispatch s1).1 = (Capifwd.dispatch s2).1 ∧
  ((∀ f, (OldServer.dispatch s1).1 ≠ Faulted f) → same_server (OldServer.dispatch s1).2 (Capifwd.dispatch s2).2).
Proof.
  intros Hs Hty Hh Ha. unfold OldServer.dispatch, dispatch.
  rewrite (bind_done (OldServer.request _) _ s1 ty s1)
    by (apply load_run; by rewrite (twins_get (F1:=OldServer.in_packet) _ _ Hs)).
  rewrite (bind_done (Server.request _) _ s2 ty s2) by (by apply load_run).
  rewrite !(proj2 (Z.eqb_neq ty _)) by done.
  match goal with |- (?m1 s1).1 = (?m2 s2).1 ∧ _ => enough (coupled R m1 m2) by auto end.
  repeat match goal with |- coupled _ (if _ then _ else _) _ => apply coupled_if end.
  - apply coupled_ret.
  - apply coupled_session_guard, coupled_register.
  - apply coupled_session_guard, coupled_release.
  - apply coupled_session_guard, coupled_isinstalled.
  - apply coupled_session_guard, coupled_version.
  - apply coupled_session_guard, coupled_serial.
  - apply coupled_session_guard, coupled_manufacturer.
  - apply coupled_session_guard, coupled_profile.
  - apply coupled_session_guard, coupled_waitforsignal.
  - apply coupled_session_guard, coupled_getmessage.
  - apply coupled_session_guard, coupled_putmessage.
  - couple.
Qed.

(** What both do with the result. *)
Lemma coupled_answered n :
  coupled R (when (n <? 1) (OldServer.syslog (SyslogErrno "answer was not sent: ")))
    (when (n <? 1) (Server.syslog (SyslogErrno "answer was not sent: "))).
Proof. couple. Qed.
End same.
