(* ===== verification/OldRun.v ===== *)
(** * The old server and the current one in step: rounds and connections

    A request that one [recv] yields is dispatched by the old server in the state in
    which the current one dispatches it ([received]).  From there OldSpec.v carries
    on. *)
From stdpp Require Import gmap.
From S2P Require Import Prelude CMem Protocol Net Capi20 OldApps OldServer AppIndex Server Packet Exec Proxy Capifwd ExecSpec Handled Handlers CapifwdSpec Served OldSpec.
#[local] Open Scope Z_scope.

(** A request that fits in_packet; the data may be empty. *)
Record fits (r : REQUEST_HEADER) (data : list byte) : Prop := {
  fits_wf : wf_request r;
  fits_len : rh_message_len r = sizeof_REQUEST_HEADER + blen data;
  fits_size : sizeof_REQUEST_HEADER + blen data ≤ PACKET_SIZE;
}.

(** Neither HELO nor AUTH, which the two servers answer differently. *)
Definition neither_helo_nor_auth (r : REQUEST_HEADER) : Prop :=
  rh_message_type r ≠ TYPE_PROXY_HELO ∧ rh_message_type r ≠ TYPE_PROXY_AUTH.

Section run.
Context `{CapiHeader} {CS : Type} `{Capi20 CS} `{!Capi20Laws CS} `{OldHeader}.

(** ** Receiving *)
Lemma old_recv seg segs (s1 : oserver CS) b :
  rx (os_sock s1) = seg :: segs → seg ≠ [] → blen seg ≤ PACKET_SIZE →
  splice (fget OldServer.in_packet s1) 0 seg = Some b →
  recv_into OldServer.sock OldServer.in_packet 0 PACKET_SIZE s1 =
    (Done (blen seg), fset OldServer.in_packet b (fset OldServer.sock
       (mkNet segs (rx_error (os_sock s1)) (tx (os_sock s1)) (tx_script (os_sock s1))) s1)).
Proof.
  intros Hrx Hne Hl Hb. unfold recv_into.
  assert (Hr : recv PACKET_SIZE (os_sock s1) = (blen seg, seg,
    mkNet segs (rx_error (os_sock s1)) (tx (os_sock s1)) (tx_script (os_sock s1)))).
  { unfold recv. rewrite Hrx. destruct seg as [|c seg]; [done|]. cbn [recv_segs].
    unfold blen in Hl. rewrite take_ge, drop_ge by lia. done. }
  rewrite (bind_done _ _ s1 (blen seg, seg) (fset OldServer.sock
     (mkNet segs (rx_error (os_sock s1)) (tx (os_sock s1)) (tx_script (os_sock s1))) s1)).
  2: { unfold zoom. change (fget OldServer.sock s1) with (os_sock s1). by rewrite Hr. }
  cbv beta iota. by erewrite bind_done by (apply (store_bytes_run OldServer.in_packet); exact Hb).
Qed.

Lemma old_receives r data segs err s1 s2 w :
  wf_server s2 → same_server ((encode_request r ++ data) :: segs, err) s1 s2 →
  wf_request r → sizeof_REQUEST_HEADER + blen data ≤ PACKET_SIZE → w ≡ advance (36 + length data) (sv_sock s2) →
  ∃ s1', OldServer.handle_message s1 =
      (sentbytes ← OldServer.dispatch;
       when (sentbytes <? 1) (OldServer.syslog (SyslogErrno "answer was not sent: "))) s1' ∧
    same_server (segs, err) s1' (received r data w s2) ∧
    fget OldServer.local_version s1' = fget OldServer.local_version s1.
Proof.
  intros Hwf Hs Hr Hsize Hw. set (seg := encode_request r ++ data) in *.
  pose proof (wf_in s2 Hwf) as Hl. pose proof (same_rx _ _ _ Hs) as [= Hrx Herr].
  pose proof (twins_get (F1:=OldServer.in_packet) _ _ Hs) as Hin.
  assert (Hseg : blen seg = 36 + blen data) by (unfold seg; by rewrite blen_app, blen_encode_request).
  assert (Hb : splice (fget OldServer.in_packet s1) 0 seg =
    Some (encode_request r ++ data ++ drop (36 + length data) (fget Server.in_packet s2))).
  { rewrite Hin, (splice_at _ [] (take (36 + length data) (fget Server.in_packet s2))
      (drop (36 + length data) (fget Server.in_packet s2))).
    - unfold seg. by rewrite app_nil_l, <- (assoc_L (++)).
    - by rewrite app_nil_l, take_drop.
    - done.
    - unfold blen, sizeof_REQUEST_HEADER in *. rewrite length_take. lia. }
  unfold OldServer.handle_message. erewrite bind_done.
  2: { apply (old_recv seg segs); [done| |unfold sizeof_REQUEST_HEADER in *; lia|exact Hb].
       intros ->. unfold blen in Hseg. simpl in Hseg. lia. }
  cbv beta. rewrite Hseg. pose proof (blen_nonneg data).
  unfold OldServer.check_received, handle_received.
  replace (36 + blen data <? 1) with false by lia. replace (0 <? 36 + blen data) with true by lia.
  erewrite (bind_done (when false _)) by done. cbv beta. change (when true ?m) with m.
  eexists. split; [reflexivity|]. split; [|done]. destruct Hs as [[] _ Hsock ? ? ? ? ?]. split; try done; [by cbn; rewrite Herr|].
  cbn. rewrite Hw. destruct Hsock as (Hrb & He & Ht & Hsc). split_and!; try done.
  rewrite rx_bytes_advance, <- Hrb. unfold rx_bytes at 2. rewrite Hrx. cbn.
  rewrite drop_app_length'; [done|]. unfold seg. rewrite length_app. exact (f_equal (λ n, n + length data)%nat (eq_sym (length_encode_request r))).
Qed.

(** ** A round *)
Definition coupled_at arriving (o1 : outcome unit * oserver CS) (o2 : outcome unit * server CS) : Prop :=
  o1.1 = o2.1 ∧ ((∀ f, o1.1 ≠ Faulted f) → same_server arriving o1.2 o2.2).

Lemma old_round r data segs err s1 s2 w :
  wf_server s2 → same_server ((encode_request r ++ data) :: segs, err) s1 s2 →
  fits r data → neither_helo_nor_auth r → w ≡ advance (36 + length data) (sv_sock s2) →
  coupled_at (segs, err) (OldServer.handle_message s1)
    ((sentbytes ← dispatch; when (sentbytes <? 1) (Server.syslog (SyslogErrno "answer was not sent: ")))
       (received r data w s2)).
Proof.
  intros Hwf Hs Hf [Hh Ha] Hw. destruct (old_receives r data segs err s1 s2 w Hwf Hs (fits_wf _ _ Hf) (fits_size _ _ Hf) Hw) as (s1' & -> & Hs' & _).
  pose proof (received_request r data w s2 (fits_wf _ _ Hf)) as Hr.
  destruct (decode_request_fields _ _ Hr) as (_&_&_&_&_&Ht&_&_&_).
  apply (coupled_bind_at (same_server (segs, err))).
  - by apply (coupled_dispatch (segs, err) s1' _ (rh_message_type r)).
  - intros n. apply coupled_answered.
Qed.

Lemma old_round_same r data segs err s1 s2 :
  wf_server s2 → same_server ((encode_request r ++ data) :: segs, err) s1 s2 →
  fits r data → 0 < blen data → neither_helo_nor_auth r →
  coupled_at (segs, err) (OldServer.handle_message s1) (Capifwd.handle_message s2).
Proof.
  intros Hwf Hs Hf Hd Hn.
  assert (Hrx : rx_bytes (fget Server.sock s2) = encode_request r ++ data ++ mjoin segs).
  { change (fget Server.sock s2) with (sv_sock s2). destruct (same_sock _ _ _ Hs) as (<- & _).
    pose proof (same_rx _ _ _ Hs) as [= Hsegs _]. unfold rx_bytes. rewrite Hsegs. cbn. by rewrite <- (assoc_L (++)). }
  destruct (handle_message_request r data _ s2 Hwf (fits_wf _ _ Hf) Hrx (fits_len _ _ Hf) Hd (fits_size _ _ Hf))
    as (w & Hw & ->).
  by apply old_round.
Qed.

(** ** The end of the stream *)
Lemma old_release_loop ids : ∀ fuel (s1 : oserver CS),
  listed (op_apps (os_process s1)) ids → Forall (λ id, id ≠ 0) ids → (length ids ≤ fuel)%nat →
  ∃ m', OldServer.release_loop fuel s1 =
      (Done tt, fset OldServer.apps m' (fset OldServer.capi (release_ids ids (os_capi s1)) s1)) ∧ listed m' [].
Proof.
  induction ids as [|id ids IH]; intros fuel s1 [Hids Hnd Hm] Hpos Hf;
    destruct (getfirst_app_ids _ _ Hids) as (m' & E & Hids' & Hm').
  - exists m'. split; [|by split; [|apply NoDup_nil_2|congruence]].
    destruct fuel; cbn [OldServer.release_loop]; rewrite (bind_done _ _ _ _ _ (on_apps_run _ _ _ _ E));
      cbn; by destruct s1 as [[]].
  - apply NoDup_cons in Hnd as [_ Hnd]. apply Forall_cons in Hpos as [Hid Hpos].
    destruct fuel as [|fuel]; [cbn in Hf; lia|].
    set (c := (capi20_release id (os_capi s1)).2).
    set (s1' := fset OldServer.capi c (fset OldServer.apps m' s1)).
    destruct (IH fuel s1') as (m'' & E' & Hm''); [change (listed m' ids); split; [done|done|congruence]|done|cbn in Hf; lia|].
    exists m''. split; [|done]. cbn [OldServer.release_loop].
    rewrite (bind_done _ _ _ _ _ (on_apps_run _ _ _ _ E)). cbn [default head]. rewrite decide_False by done.
    rewrite (bind_done _ _ _ (capi20_release id (os_capi s1)).1 s1'), E'; [by destruct s1 as [[]]|].
    unfold zoom. cbn. fold c. unfold s1'. by destruct (capi20_release id (os_capi s1)).
Qed.

(** Nothing is registered, nothing is left on the heap, the connection is closed. *)
Record over (s1 s1' : oserver CS) : Prop := {
  over_owned : owned (os_capi s1') = ∅;
  over_apps : am_registered_apps (op_apps (os_process s1')) = None ∧ am_nodes (op_apps (os_process s1')) = ∅;
  over_closed : op_sock_open (os_process s1') = false;
  over_tx : tx (os_sock s1') = tx (os_sock s1);
}.

Lemma ids_at_nil m : ids_at m [] → am_registered_apps m = None ∧ am_nodes m = ∅.
Proof.
  intros (l & [Hc _ Hd] & Hl). destruct l as [|[]]; [|done]. split; [done|].
  apply dom_empty_inv_L. by rewrite Hd.
Qed.

Lemma old_check_received marks s1 n :
  same_apps (op_apps (os_process s1)) marks (os_capi s1) → n < 1 →
  ∃ s1', OldServer.check_received n s1 = (Exited (if n =? 0 then 0 else 1), s1') ∧ over s1 s1'.
Proof.
  intros Hs Hn. unfold OldServer.check_received. replace (n <? 1) with true by lia.
  change (when true ?m) with m. erewrite bind_done by done. cbv beta.
  destruct Hs as [(ids & Hids & Ho) Hm Hl]. pose proof (listed_NoDup _ _ Hids) as Hnd.
  destruct (old_release_loop ids (list_fuel (op_apps (os_process s1))) (fset OldServer.sock_open false s1))
    as (m' & E & Hm').
  - done.
  - apply Forall_forall. intros id Hid. assert (Hin : id ∈ owned (os_capi s1)) by (rewrite Ho; set_solver).
    rewrite Hm in Hin. apply elem_of_apps_set in Hin. lia.
  - destruct Hids as [(l & Hat & ->) _ _]. by rewrite (list_fuel_length _ _ Hat), length_fmap.
  - rewrite (bind_done OldServer.release_all _ _ _ _ E).
    assert (Hown : owned (release_ids ids (os_capi s1)) = ∅).
    { rewrite owned_release_ids by (try done; intros id Hid; rewrite Ho; set_solver). rewrite Ho. set_solver. }
    pose proof (ids_at_nil _ (listed_ids _ _ Hm')) as Hnil.
    destruct (n =? 0); (erewrite bind_done by done; eexists; split; [done|]; by split).
Qed.

(** At the end of the stream. *)
Lemma old_eof marks s1 :
  same_apps (op_apps (os_process s1)) marks (os_capi s1) → rx_bytes (os_sock s1) = [] →
  ∃ s1', OldServer.handle_message s1 = (Exited (if rx_error (os_sock s1) then 1 else 0), s1') ∧ over s1 s1'.
Proof.
  intros Happs Hrx. destruct (recv_into_eof OldServer.sock OldServer.in_packet 0 PACKET_SIZE s1 Hrx) as (w' & Hw & E).
  { pose proof (blen_nonneg (fget OldServer.in_packet s1)). lia. }
  unfold OldServer.handle_message. erewrite bind_done by exact E. cbv beta.
  destruct (old_check_received marks (fset OldServer.sock w' s1) (if rx_error (os_sock s1) then -1 else 0))
    as (s1' & E' & [Ho Ha Hc Ht]); [done|by destruct (rx_error _)|].
  exists s1'. split.
  - change (fget OldServer.sock s1) with (os_sock s1). erewrite bind_exited by exact E'. by destruct (rx_error _).
  - split; try done. rewrite Ht. by apply (tx_proper w' (os_sock s1)).
Qed.

Lemma new_eof s2 :
  inv s2 → rx_bytes (fget Server.sock s2) = [] →
  ∃ s2', Capifwd.handle_message s2 = (Exited 0, s2') ∧ tx (fget Server.sock s2') = tx (fget Server.sock s2) ∧
    owned (fget Server.capi s2') = ∅ ∧ fget Server.sock_open s2' = false.
Proof.
  intros Hi Hrx. pose proof (handle_message_post s2 Hi) as Hp. unfold handle_message in *.
  pose proof (recvn_spec Server.sock Server.in_packet 0 sizeof_REQUEST_HEADER s2) as Hr.
  unfold recvn_returns in Hr. rewrite Hrx, take_nil in Hr.
  rewrite splice_nil in Hr by (pose proof (blen_nonneg (fget Server.in_packet s2)); lia).
  destruct Hr as (w & Hw & E); [pose proof (blen_nonneg (fget Server.in_packet s2)); lia|done|].
  rewrite decide_False in E by (by unfold sizeof_REQUEST_HEADER, blen; simpl; lia).
  set (s2' := fset Server.in_packet _ _) in E.
  destruct (check_received_exit (eof_result (fget Server.sock s2)) s2') as (s' & E' & Hrel).
  - unfold s2'. apply inv_in_packet; [by apply inv_sock|]. apply (wf_in s2), Hi.
  - unfold eof_result. by destruct (rx_error _).
  - revert Hp. erewrite bind_done by exact E. cbv beta. erewrite bind_exited by exact E'.
    intros (_ & Ht & Hc & Ho). by exists s'.
Qed.

(** ** Connections *)
Definition request_segment (q : REQUEST_HEADER * list byte) : list byte := encode_request q.1 ++ q.2.

(** Requests both servers take for the same: with a body or data, so that the current
    one does not take them for the end of the stream. *)
Definition understood (q : REQUEST_HEADER * list byte) : Prop :=
  fits q.1 q.2 ∧ 0 < blen q.2 ∧ neither_helo_nor_auth q.1.

(** Both run into the same fault, or both end, having sent the same, with nothing
    registered and nothing on the heap. *)
Definition same_end (err : bool) (o1 : outcome unit * oserver CS) (o2 : outcome unit * server CS) : Prop :=
  (∃ f, o1.1 = Faulted f ∧ o2.1 = Faulted f) ∨
  o1.1 = Exited (if err then 1 else 0) ∧ o2.1 = Exited 0 ∧
  tx (os_sock o1.2) = tx (sv_sock o2.2) ∧
  owned (os_capi o1.2) = ∅ ∧ owned (sv_capi o2.2) = ∅ ∧
  am_nodes (op_apps (os_process o1.2)) = ∅.

Lemma same_end_empty err s1 s2 n1 n2 :
  inv s2 → same_server ([], err) s1 s2 →
  same_end err (OldServer.handling_loop (S n1) s1) (Capifwd.handling_loop (S n2) s2).
Proof.
  intros Hi Hs. pose proof (same_rx _ _ _ Hs) as [= Hrx Herr].
  assert (Hrx1 : rx_bytes (os_sock s1) = []) by (unfold rx_bytes; by rewrite Hrx).
  pose proof (same_sock _ _ _ Hs) as Hsock.
  destruct (old_eof _ s1 (same_registry _ _ _ Hs) Hrx1) as (s1' & E1 & [Ho1 [_ Ha] Hc1 Ht1]).
  destruct (new_eof s2 Hi) as (s2' & E2 & Ht2 & Ho2 & _).
  { change (rx_bytes (sv_sock s2) = []). by rewrite <- Hsock. }
  cbn [OldServer.handling_loop handling_loop].
  rewrite (bind_exited _ _ _ _ _ E1), (bind_exited _ _ _ _ _ E2), Herr.
  right. split_and!; try done. cbn [snd]. rewrite Ht1. change (sv_sock s2') with (fget Server.sock s2').
  rewrite Ht2. by apply tx_proper.
Qed.

(** The arrival of a request does not end the current server. *)
Lemma new_round_stays r data rest s2 c :
  inv s2 → fits r data → 0 < blen data → rx_bytes (fget Server.sock s2) = encode_request r ++ data ++ rest →
  (Capifwd.handle_message s2).1 ≠ Exited c.
Proof.
  intros Hi Hf Hd Hrx.
  destruct (handle_message_request r data rest s2 (inv_wf _ Hi) (fits_wf _ _ Hf) Hrx (fits_len _ _ Hf) Hd
    (fits_size _ _ Hf)) as (w & _ & ->). fold (received r data w s2).
  assert (Hi' : inv (received r data w s2)).
  { apply inv_in_packet; [by apply inv_sock|].
    apply (wf_in _ (received_packet r data w s2 (inv_wf _ Hi) (fits_size _ _ Hf))). }
  pose proof (dispatch_handled r _ Hi' (received_request r data w s2 (fits_wf _ _ Hf))) as Hh.
  destruct (dispatch (received r data w s2)) as [[n|f|c'] s'] eqn:E.
  - erewrite bind_done by exact E. by destruct (n <? 1).
  - by erewrite bind_faulted by exact E.
  - by destruct (handled_no_exit _ _ _ c' Hh).
Qed.

Lemma loops_same reqs err : ∀ n1 n2 s1 s2,
  inv s2 → same_server (request_segment <$> reqs, err) s1 s2 → Forall understood reqs →
  (length reqs < n1)%nat → (length reqs < n2)%nat →
  same_end err (OldServer.handling_loop n1 s1) (Capifwd.handling_loop n2 s2).
Proof.
  induction reqs as [|[r data] reqs IH]; intros [|n1] [|n2] s1 s2 Hi Hs Hq Hn1 Hn2; try (cbn in *; lia).
  { by apply same_end_empty. }
  apply Forall_cons in Hq as [(Hf & Hd & Hn) Hq].
  destruct (old_round_same r data _ err s1 s2 (inv_wf _ Hi) Hs Hf Hd Hn) as [Ho Hs'].
  pose proof (handle_message_post s2 Hi) as Hp. cbn [OldServer.handling_loop handling_loop].
  destruct (OldServer.handle_message s1) as [o1 s1'] eqn:E1, (handle_message s2) as [o2 s2'] eqn:E2.
  cbn [fst snd] in Ho, Hs'. subst o2. destruct o1 as [[]|f|c].
  - rewrite (bind_done _ _ _ _ _ E1), (bind_done _ _ _ _ _ E2). destruct Hp as (Hi' & _).
    apply IH; [done|by apply Hs'|done|cbn in *; lia..].
  - rewrite (bind_faulted _ _ _ _ _ E1), (bind_faulted _ _ _ _ _ E2). left. by exists f.
  - exfalso. pose proof (same_rx _ _ _ Hs) as [= Hrx _]. cbn [fst snd] in *.
    apply (new_round_stays r data (mjoin (request_segment <$> reqs)) s2 c Hi Hf Hd); [|by rewrite E2].
    change (fget Server.sock s2) with (sv_sock s2). destruct (same_sock _ _ _ Hs) as (<- & _).
    unfold rx_bytes. rewrite Hrx. cbn. by rewrite <- (assoc_L (++)).
Qed.
End run.

(** * The invariant of the old server

    A connection of the old server is sound when it is the same as a sound one of the
    current server: what is known of the current handlers holds of the old ones.
    HELO and AUTH, which are not the same, keep it too; so does whatever arrives. *)
(** ** Computations that do not end the process *)
Definition returns {S A} (m : M S A) : Prop := ∀ s c, (m s).1 ≠ Exited c.
Create HintDb returns.

Section returns.
Context {S : Type}.

Lemma returns_ret {A} (a : A) : returns (S:=S) (mret a).
Proof. done. Qed.
Lemma returns_bind {A B} (m : M S A) (k : A → M S B) :
  returns m → (∀ a, returns (k a)) → returns (m ≫= k).
Proof.
  intros Hm Hk s c. unfold mbind, M_bind. specialize (Hm s).
  destruct (m s) as [[a|f|c'] s'] eqn:E; [apply Hk|done|by destruct (Hm c')].
Qed.
Lemma returns_try {A} f (o : option A) : returns (S:=S) (try f o).
Proof. by destruct o. Qed.
Lemma returns_when b (m : M S unit) : returns m → returns (when b m).
Proof. by destruct b. Qed.
Lemma returns_gets {A} (F : field S A) : returns (gets F).
Proof. done. Qed.
Lemma returns_puts {A} (F : field S A) a : returns (puts F a).
Proof. done. Qed.
Lemma returns_modify {A} (F : field S A) g : returns (modify F g).
Proof. done. Qed.
Lemma returns_zoom {A B} (F : field S A) (g : A → B * A) : returns (zoom F g).
Proof. intros s c. unfold zoom. by destruct (g _). Qed.
Hint Resolve returns_ret returns_bind returns_try returns_when returns_gets returns_puts
  returns_modify returns_zoom : returns.

Context (F : field S (list byte)).
Lemma returns_load w off : returns (load F w off).
Proof. unfold load. auto with returns. Qed.
Lemma returns_load_bytes off n : returns (load_bytes F off n).
Proof. unfold load_bytes. auto with returns. Qed.
Lemma returns_store_bytes off bs : returns (store_bytes F off bs).
Proof. unfold store_bytes. auto with returns. Qed.
Lemma returns_store w off v : returns (store F w off v).
Proof. apply returns_store_bytes. Qed.
Lemma returns_load_cstr off : returns (load_cstr F off).
Proof. unfold load_cstr. auto with returns. Qed.
Lemma returns_store_cstr off bs : returns (store_cstr F off bs).
Proof. apply returns_store_bytes. Qed.
End returns.
#[export] Hint Resolve returns_ret returns_bind returns_try returns_when returns_gets returns_puts
  returns_modify returns_zoom returns_load returns_load_bytes returns_store_bytes returns_store
  returns_load_cstr returns_store_cstr : returns.

Section invariant.
Context `{CapiHeader} {CS : Type} `{Capi20 CS} `{!Capi20Laws CS} `{OldHeader}.

(** [arriving] as in [same_server]. *)
Definition old_inv (arriving : list (list byte) * bool) (s1 : oserver CS) : Prop :=
  ∃ s2, inv s2 ∧ same_server arriving s1 s2.

Context (arriving : list (list byte) * bool).
Abbreviation I := (old_inv arriving).
(** Nothing is asked of the relation between the states. *)
Definition any : relation (oserver CS) := λ _ _, True.

#[local] Instance any_preorder : PreOrder any.
Proof. by split. Qed.

Lemma old_inv_out_packet b s1 :
  I s1 → length b = length (fget OldServer.out_packet s1) → I (fset OldServer.out_packet b s1).
Proof.
  intros (s2 & Hi & Hs) Hb. exists (fset Server.out_packet b s2). split; [|by apply twins_set].
  rewrite (twins_get _ _ Hs) in Hb. apply inv_out_packet; [done|].
  unfold blen. rewrite Hb. apply (wf_out _ (inv_wf _ Hi)).
Qed.

Lemma old_inv_client_info c s1 :
  I s1 → blen (ci_name c) = blen (ci_name (fget OldServer.client_info s1)) →
  I (fset OldServer.client_info c s1).
Proof.
  intros (s2 & Hi & Hs) Hb. exists (fset Server.client_info c s2). split; [|by apply twins_set].
  rewrite (twins_get _ _ Hs) in Hb. apply inv_client_info; [done|].
  rewrite Hb. apply (wf_name _ (inv_wf _ Hi)).
Qed.

Lemma old_inv_in_packet b s1 :
  I s1 → blen b = PACKET_SIZE → I (fset OldServer.in_packet b s1).
Proof.
  intros (s2 & Hi & Hs) Hb. exists (fset Server.in_packet b s2). split; [by apply inv_in_packet|by apply twins_set].
Qed.

Lemma old_inv_log l s1 : I s1 → I (fset OldServer.log l s1).
Proof.
  intros (s2 & Hi & Hs). exists (fset Server.log l s2). split; [by apply inv_log|by apply twins_set].
Qed.

Lemma old_inv_send bs s1 : I s1 → I (zoom OldServer.sock (send bs) s1).2.
Proof.
  intros (s2 & Hi & Hs). exists (zoom Server.sock (send bs) s2).2. split.
  - unfold zoom. destruct (send _ _). by apply inv_sock.
  - apply (coupled_send arriving bs s1 s2 Hs). intros f. unfold zoom. by destruct (send _ _).
Qed.

(** ** HELO and AUTH *)
Lemma keeps_set_head f v : respects I any (OldServer.set_head f v).
Proof. apply respects_store_bytes; [apply _|]. intros b s Hs Hb. split; [by apply old_inv_out_packet|done]. Qed.

Lemma keeps_store_out off bs : respects I any (store_bytes OldServer.out_packet off bs).
Proof. apply respects_store_bytes; [apply _|]. intros b s Hs Hb. split; [by apply old_inv_out_packet|done]. Qed.

Lemma keeps_old_store w off v : respects I any (store OldServer.out_packet w off v).
Proof. apply keeps_store_out. Qed.

Lemma keeps_request f : respects I any (OldServer.request f).
Proof. apply respects_load. apply _. Qed.
Hint Resolve any_preorder keeps_set_head keeps_store_out keeps_old_store keeps_request : respects.

Lemma keeps_client_info g :
  (∀ c, ci_name (g c) = ci_name c) → respects I any (modify OldServer.client_info g).
Proof. intros Hg s Hs. split_and!; [done| |done]. apply old_inv_client_info; [done|]. by rewrite Hg. Qed.

Lemma keeps_client_name off bs : respects I any (store_bytes OldServer.client_info_name off bs).
Proof.
  apply respects_store_bytes; [apply _|]. intros b s Hs Hb. split; [|done]. apply old_inv_client_info; [done|].
  unfold blen. cbn in *. by rewrite Hb.
Qed.

Lemma keeps_send bs : respects I any (zoom OldServer.sock (send bs)).
Proof. intros s Hs. split_and!; [unfold zoom; by destruct (send _ _)|by apply old_inv_send|done]. Qed.
Hint Resolve keeps_client_info keeps_client_name keeps_send : respects.

Lemma keeps_send_out_packet : respects I any OldServer.send_out_packet.
Proof. unfold OldServer.send_out_packet. auto 10 with respects. Qed.
Lemma keeps_set_message_len : respects I any OldServer.set_message_len.
Proof. unfold OldServer.set_message_len. auto 10 with respects. Qed.
Hint Resolve keeps_send_out_packet keeps_set_message_len : respects.

Lemma keeps_helo : respects I any OldServer.exec_proxy_helo.
Proof. unfold OldServer.exec_proxy_helo, load_cstr, store_cstr, store. auto 60 with respects. Qed.

Lemma keeps_auth : respects I any OldServer.exec_proxy_auth.
Proof. unfold OldServer.exec_proxy_auth, clear_member. auto 60 with respects. Qed.

(** ** The dispatcher *)
Lemma returns_helo : returns (S:=oserver CS) OldServer.exec_proxy_helo.
Proof.
  unfold OldServer.exec_proxy_helo, OldServer.send_out_packet, OldServer.request, OldServer.set_head.
  auto 60 with returns.
Qed.

Lemma returns_auth : returns (S:=oserver CS) OldServer.exec_proxy_auth.
Proof.
  unfold OldServer.exec_proxy_auth, OldServer.send_out_packet, OldServer.set_message_len, clear_member,
    OldServer.request, OldServer.set_head.
  auto 60 with returns.
Qed.

(** What a computation of the old server leaves: no end, no endless loop, the invariant. *)
Definition sound {A} (o : outcome A * oserver CS) : Prop :=
  match o.1 with Done _ => I o.2 | Faulted f => f ≠ Diverged | Exited _ => False end.

Lemma sound_respects {A} (m : M (oserver CS) A) s1 :
  respects I any m → returns m → I s1 → sound (m s1).
Proof.
  intros Hm Hr Hs. destruct (Hm s1 Hs) as (Hd & Hi & _). specialize (Hr s1). unfold sound.
  destruct (m s1) as [[a|f|c] s'] eqn:E; [done| |by destruct (Hr c)].
  simpl in Hd. congruence.
Qed.

Lemma sound_bind {A B} (m : M (oserver CS) A) (k : A → M (oserver CS) B) s1 :
  sound (m s1) → (∀ a s, I s → sound (k a s)) → sound ((m ≫= k) s1).
Proof.
  intros Hm Hk. unfold mbind, M_bind. unfold sound in Hm at 1. destruct (m s1) as [[a|f|c] s']; [by apply Hk|done|done].
Qed.

Lemma sound_dispatch s1 : I s1 → sound (OldServer.dispatch s1).
Proof.
  intros Hs. destruct Hs as (s2 & Hi & Hs).
  destruct (decode_request_total (fget Server.in_packet s2)) as (r & Hr & _ & _).
  { by rewrite (wf_in s2 (inv_wf s2 Hi)). }
  destruct (decode_request_fields _ _ Hr) as (_&_&_&_&_&Ht&_&_&_).
  assert (Hty : OldServer.request RH.message_type s1 = (Done (rh_message_type r), s1))
    by (apply load_run; by rewrite (twins_get (F1:=OldServer.in_packet) _ _ Hs)).
  destruct (decide (rh_message_type r = TYPE_PROXY_HELO)) as [Eh|Hh].
  { unfold OldServer.dispatch. rewrite (bind_done _ _ _ _ _ Hty), Eh.
    apply sound_respects; [apply keeps_helo|apply returns_helo|by exists s2]. }
  destruct (decide (rh_message_type r = TYPE_PROXY_AUTH)) as [Ea|Ha].
  { unfold OldServer.dispatch. rewrite (bind_done _ _ _ _ _ Hty), Ea.
    apply sound_respects; [apply keeps_auth|apply returns_auth|by exists s2]. }
  destruct (coupled_dispatch arriving s1 s2 _ Hs Ht Hh Ha) as [Ho Hs'].
  pose proof (dispatch_handled r s2 Hi Hr) as Hd. unfold sound. rewrite Ho.
  destruct (dispatch s2) as [[n|f|c] s2'] eqn:E; cbn [fst snd] in *.
  - exists s2'. split; [by apply (handled_inv _ _ _ _ Hd)|]. apply Hs'. intros f. by rewrite Ho.
  - intros ->. by apply (handled_no_divergence _ _ _ Hd).
  - by apply (handled_no_exit _ _ _ c Hd).
Qed.

Lemma sound_received n s1 : I s1 → sound (OldServer.handle_received n s1).
Proof.
  intros Hs. unfold OldServer.handle_received. destruct (0 <? n); [|done].
  apply sound_bind; [by apply sound_dispatch|]. intros k s Hs'. destruct (k <? 1); [|done].
  by apply old_inv_log.
Qed.
End invariant.

(** ** A round, and the loop *)
Section loop.
Context `{CapiHeader} {CS : Type} `{Capi20 CS} `{!Capi20Laws CS} `{OldHeader}.

(** A part of what arrives is received and handled; at the end the process ends. *)
Definition left (arriving : list (list byte) * bool) : nat := length (mjoin arriving.1).

Lemma old_round_post arriving (s1 : oserver CS) :
  old_inv arriving s1 →
  match OldServer.handle_message s1 with
  | (Done _, s1') => ∃ segs, old_inv (segs, arriving.2) s1' ∧ (left (segs, arriving.2) < left arriving)%nat
  | (Faulted f, _) => f ≠ Diverged
  | (Exited c, s1') => c = (if arriving.2 then 1 else 0) ∧ over s1 s1'
  end.
Proof.
  intros (s2 & Hi & Hs). destruct arriving as [segs err]. pose proof (same_rx _ _ _ Hs) as [= Hrx Herr].
  assert (Hleft : left (segs, err) = length (rx_bytes (os_sock s1))) by (unfold left, rx_bytes; by rewrite Hrx).
  destruct (decide (rx_bytes (os_sock s1) = [])) as [Hnil|Hne].
  { destruct (old_eof _ s1 (same_registry _ _ _ Hs) Hnil) as (s1' & E & Hover). rewrite E.
    cbn [snd]. by rewrite Herr. }
  destruct (recv_into_data OldServer.sock OldServer.in_packet 0 PACKET_SIZE s1 Hne)
    as (bs & w & Hbs & Hle & Hj & Hw & _ & _ & E); [done|].
  assert (Hin : blen (fget OldServer.in_packet s1) = PACKET_SIZE).
  { rewrite (twins_get _ _ Hs). apply (wf_in _ (inv_wf _ Hi)). }
  rewrite splice_Some in E by lia. set (b := _ ++ _) in E.
  assert (Hb : blen b = PACKET_SIZE).
  { rewrite <- Hin. unfold blen. f_equal. eapply (splice_length _ 0 bs). by rewrite splice_Some by lia. }
  set (s1' := fset OldServer.in_packet b (fset OldServer.sock w s1)) in E.
  assert (Hs' : old_inv (rx w, err) s1').
  { apply old_inv_in_packet; [|done]. exists (fset Server.sock w s2). split; [by apply inv_sock|].
    destruct Hs as [? ? Hsock ? ? ? ? ?]. split; try done. cbn. f_equal.
    destruct Hw as (_ & -> & _). by rewrite <- Herr. }
  assert (Hn : 0 < blen bs) by (unfold blen; destruct bs; [done|simpl; lia]).
  unfold OldServer.handle_message. rewrite (bind_done _ _ _ _ _ E).
  unfold OldServer.check_received. replace (blen bs <? 1) with false by lia.
  rewrite (bind_done (when false _) _ s1' tt s1') by done.
  pose proof (sound_received _ (blen bs) s1' Hs') as Hr. unfold sound in Hr.
  destruct (OldServer.handle_received _ s1') as [[[]|f|c] s1'']; [|done|done].
  exists (rx w). split; [done|]. rewrite Hleft. unfold left. cbn [fst].
  change (fget OldServer.sock s1) with (os_sock s1) in Hj. rewrite Hj, length_app.
  change (mjoin (rx w)) with (rx_bytes w). unfold blen in Hn. lia.
Qed.

Lemma old_loop_post fuel : ∀ arriving (s1 : oserver CS),
  old_inv arriving s1 → (left arriving < fuel)%nat →
  match OldServer.handling_loop fuel s1 with
  | (Done _, _) => False
  | (Faulted f, _) => f ≠ Diverged
  | (Exited c, s1') => c = (if arriving.2 then 1 else 0) ∧ ∃ s, over s s1'
  end.
Proof.
  induction fuel as [|fuel IH]; intros arriving s1 Hs Hf; [lia|]. cbn [OldServer.handling_loop].
  pose proof (old_round_post arriving s1 Hs) as Hp.
  destruct (OldServer.handle_message s1) as [[[]|f|c] s1'] eqn:E.
  - rewrite (bind_done _ _ _ _ _ E). destruct Hp as (segs & Hs' & Hlt).
    specialize (IH (segs, arriving.2) s1' Hs' ltac:(lia)). cbn [snd] in IH. done.
  - by rewrite (bind_faulted _ _ _ _ _ E).
  - rewrite (bind_exited _ _ _ _ _ E). destruct Hp as [-> Ho]. split; [done|]. by exists s1.
Qed.
End loop.
