(* ===== verification/OldListener.v ===== *)
(** * The old Linux server: the listening process (linux-server/src/old/main-rev1.14-cvs.c)

    [main] up to the handling of a connection.  There are no options and the port is
    fixed; the children that have ended are waited for in the accept loop, not by a
    signal handler.  The calls of Unix are those of Listener.v. *)
From stdpp Require Import gmap pretty.
From S2P Require Import Prelude CMem CText Protocol Net Capi20 OldApps AppIndex Server Packet Proxy Capifwd Handled CapifwdSpec ProxyProperties Listener OldServer OldSpec OldRun.
#[local] Open Scope Z_scope.

Definition __PORT := 6674.

(** ** State; what fork copies is [omemory] *)
Record omemory := mkOMemory {
  om_process : oprocess;            (**r what a connection handler uses *)
  om_auth_types : Z;
  om_sc : Z;
  om_sock : Z;
  om_remote_addr : Z;               (**r [remote_addr.sin_addr.s_addr] *)
  om_argv0 : list byte;             (**r the bytes addressable from [argv[0]] on *)
  om_msg : list byte;               (**r [char msg[50]] *)
  om_signals : disposition;         (**r [SigParent]: sighandler1, [SigChild]: sighandler2 *)
}.

Record olistener (OS : Type) := mkOListener {
  ol_memory : omemory;
  ol_os : OS;
  ol_children : list omemory;       (**r the handlers, as they were forked *)
  ol_log : list log_entry;
}.
Arguments mkOListener {OS}.
Arguments ol_memory {OS}.
Arguments ol_os {OS}.
Arguments ol_children {OS}.
Arguments ol_log {OS}.

Section fields.
Context {OS : Type}.
Abbreviation st := (olistener OS).

Definition memo : field st omemory := mkField ol_memory (λ v s, mkOListener v (ol_os s) (ol_children s) (ol_log s)).
Definition system : field st OS := mkField ol_os (λ v s, mkOListener (ol_memory s) v (ol_children s) (ol_log s)).
Definition handlers : field st (list omemory) := mkField ol_children (λ v s,
  mkOListener (ol_memory s) (ol_os s) v (ol_log s)).
Definition log : field st (list log_entry) := mkField ol_log (λ v s,
  mkOListener (ol_memory s) (ol_os s) (ol_children s) v).

Definition memory_field {A} (get : omemory → A) (set : A → omemory → omemory) : field st A :=
  mkField (λ s, get (ol_memory s)) (λ v s, fset memo (set v (ol_memory s)) s).

Definition process : field st oprocess := memory_field om_process (λ v m,
  mkOMemory v (om_auth_types m) (om_sc m) (om_sock m) (om_remote_addr m) (om_argv0 m) (om_msg m) (om_signals m)).
Definition auth_types : field st Z := memory_field om_auth_types (λ v m,
  mkOMemory (om_process m) v (om_sc m) (om_sock m) (om_remote_addr m) (om_argv0 m) (om_msg m) (om_signals m)).
Definition sc : field st Z := memory_field om_sc (λ v m,
  mkOMemory (om_process m) (om_auth_types m) v (om_sock m) (om_remote_addr m) (om_argv0 m) (om_msg m) (om_signals m)).
Definition sock : field st Z := memory_field om_sock (λ v m,
  mkOMemory (om_process m) (om_auth_types m) (om_sc m) v (om_remote_addr m) (om_argv0 m) (om_msg m) (om_signals m)).
Definition remote_addr : field st Z := memory_field om_remote_addr (λ v m,
  mkOMemory (om_process m) (om_auth_types m) (om_sc m) (om_sock m) v (om_argv0 m) (om_msg m) (om_signals m)).
Definition argv0 : field st (list byte) := memory_field om_argv0 (λ v m,
  mkOMemory (om_process m) (om_auth_types m) (om_sc m) (om_sock m) (om_remote_addr m) v (om_msg m) (om_signals m)).
Definition msg : field st (list byte) := memory_field om_msg (λ v m,
  mkOMemory (om_process m) (om_auth_types m) (om_sc m) (om_sock m) (om_remote_addr m) (om_argv0 m) v (om_signals m)).
Definition signals : field st disposition := memory_field om_signals (λ v m,
  mkOMemory (om_process m) (om_auth_types m) (om_sc m) (om_sock m) (om_remote_addr m) (om_argv0 m) (om_msg m) v).

(** The globals of the handler that main sets. *)
Definition set_sessionID (v : Z) (p : oprocess) : oprocess :=
  mkOProcess v (op_local_version p) (op_client_info p) (op_in_packet_address p) (op_in_packet p) (op_out_packet p)
    (op_apps p) (op_sock_open p).
Definition set_local_version (v : version_t) (p : oprocess) : oprocess :=
  mkOProcess (op_sessionID p) v (op_client_info p) (op_in_packet_address p) (op_in_packet p) (op_out_packet p)
    (op_apps p) (op_sock_open p).
Definition set_sock_open (v : bool) (p : oprocess) : oprocess :=
  mkOProcess (op_sessionID p) (op_local_version p) (op_client_info p) (op_in_packet_address p) (op_in_packet p)
    (op_out_packet p) (op_apps p) v.

Definition syslog (e : log_entry) : M st unit := modify log (λ l, l ++ [e]).
End fields.

Section main.
Context {OS : Type} `{Unix OS}.
Abbreviation L := (M (olistener OS)).

Definition close (fd : Z) : L unit := modify system (sys_close fd).

Definition quit (ret : Z) : L Z :=
  fd ← gets sc;
  close fd;;
  exit ret.

(** The handler of signals of the listening process. *)
Definition sighandler1 (sig : signal) : L unit :=
  match sig with
  | SIGINT | SIGTERM =>
      fd ← gets sc;
      close fd;;
      syslog (Syslog "got signal and exiting");;
      exit 0
  | SIGHUP | SIGUSR1 | SIGOTHER => syslog (Syslog "ignoring received signal")
  end.

(** The parent exits, the child goes on. *)
Definition fork_and_exit : L unit :=
  child ← zoom system sys_fork;
  match child with
  | Some _ => mret tt
  | None => exit 1
  end.

(** [while (waitpid(-1, NULL, WNOHANG) > 0);] *)
Fixpoint wait_children (fuel : nat) : L unit :=
  child ← zoom system sys_waitpid;
  if decide (0 < child) then
    match fuel with O => fail Diverged | S fuel' => wait_children fuel' end
  else mret tt.

(** [syslog(LOG_WARNING, ...); close(sc); exit(1);] *)
Definition fatal (text : string) : L unit :=
  syslog (Syslog text);;
  fd ← gets sc;
  close fd;;
  exit 1.

(** [sock = accept(sc, (struct sockaddr* )&remote_addr, &remote_size);] *)
Definition accept_connection : L (option (Z * Z)) :=
  fd ← gets sc;
  connection ← zoom system (sys_accept fd);
  (match connection with
   | Some (connection, s_addr) =>
       puts sock connection;; modify process (set_sock_open true);; puts remote_addr s_addr
   | None => puts sock (-1)
   end);;
  mret connection.

(** The accept loop of the parent.  [waits] is how often waitpid is tried in a round at
    most, after the first. *)
Fixpoint accept_loop (waits : OS → nat) (fuel : nat) : L unit :=
  match fuel with
  | O => fail Diverged
  | S fuel' =>
      connection ← accept_connection;
      o ← gets system;
      wait_children (waits o);;
      match connection with
      | None => fatal "network error, exiting."
      | Some _ =>
          modify process (λ p, set_sessionID (u32 (op_sessionID p + 1)) p);;
          child ← zoom system sys_fork;
          match child with
          | None =>
              syslog (Syslog "forking failed, capi20proxy goes down!");;
              fd ← gets sc; close fd;;
              fd ← gets sock; close fd;;
              exit 1
          | Some _ =>
              m ← gets memo;
              modify handlers (λ hs, hs ++ [m]);;
              accept_loop waits fuel'
          end
      end
  end.

(** [sprintf(msg, ...)], with the NUL. *)
Definition sprintf_msg (text : string) : L unit := store_cstr msg 0 (bytes_of_string text).

(** A forked handler until it handles requests. *)
Definition become_handler : L unit :=
  a ← gets remote_addr;
  sprintf_msg ("CAPI20proxy: handle " +:+ inet_ntoa a);;
  name ← load_cstr msg 0;
  store_cstr argv0 0 name;;
  sprintf_msg ("incoming connection from: " +:+ inet_ntoa a);;
  text ← load_cstr msg 0;
  syslog (Syslog (String.string_of_list_byte text));;
  puts signals SigChild.

(** Working directory, umask and timeout are left out; stdin, stdout and stderr are the
    descriptors 0, 1 and 2. *)
Definition main (waits : OS → nat) (fuel : nat) : L unit :=
  puts auth_types AUTH_NO_AUTH;;
  modify process (set_local_version (mkVersion MY_MAJOR OldServer.MY_MINOR));;
  fork_and_exit;;
  fork_and_exit;;
  close 0;; close 1;; close 2;;
  puts signals SigParent;;
  syslog (Syslog "capi20proxy server started.");;
  fd ← zoom system sys_socket;
  match fd with
  | None => syslog (Syslog "error during socket creation: capi20proxy exits.");; exit 1
  | Some fd =>
      puts sc fd;;
      bound ← zoom system (sys_bind fd 0 __PORT);
      if negb bound then fatal "error during socket binding: capi20proxy exits" else
      listening ← zoom system (sys_listen fd 3);
      if negb listening then fatal "error during socket listening: capi20proxy exits" else
      store_cstr argv0 0 (bytes_of_string "CAPI20proxy: listen");;
      modify process (set_sessionID 0);;
      accept_loop waits fuel
  end.

(** ** The handler *)
(** The state in which the handling of requests starts, on the connection [w] and with
    the library not yet used. *)
Definition connection {CS} (m : omemory) (l : olistener OS) (w : net) (c : CS) (forks : list bool) : oserver CS :=
  mkOServer (om_process m) w c forks [] (ol_log l).

(** A forked handler on its copy of the memory: it gives itself a name, then it handles
    the connection. *)
Definition forked (m : omemory) (l : olistener OS) : olistener OS := mkOListener m (ol_os l) [] (ol_log l).
Definition run_handler `{CapiHeader} {CS} `{!Capi20 CS, !OldHeader} (m : omemory) (l : olistener OS) (w : net) (c : CS) (forks : list bool) :
    outcome unit * oserver CS :=
  match become_handler (forked m l) with
  | (Done _, l) => OldServer.handle_connection (connection (ol_memory l) l w c forks)
  | (Faulted f, l) => (Faulted f, connection (ol_memory l) l w c forks)
  | (Exited n, l) => (Exited n, connection (ol_memory l) l w c forks)
  end.
End main.

(** * The old Linux server: its listening process, properties *)
Section listener.
Context {OS : Type} `{HU : !Unix OS, !UnixLaws OS}.
Implicit Types l : olistener OS.

#[export] Instance old_msg_lawful : LawfulField (msg (OS:=OS)).
Proof. by constructor; [|intros [[]]|]. Qed.
#[export] Instance old_argv0_lawful : LawfulField (argv0 (OS:=OS)).
Proof. by constructor; [|intros [[]]|]. Qed.

(** ** The accept loop *)
Lemma wait_children_run n : ∀ l, (zombies (ol_os l) ≤ n)%nat →
  ∃ o, wait_children n l = (Done tt, fset system o l) ∧ open_fds o = open_fds (ol_os l).
Proof.
  induction n as [|n IH]; intros l Hn; pose proof (sys_waitpid_zombies (ol_os l)) as Hz;
    pose proof (sys_waitpid_fds (ol_os l)) as Hfd; destruct (sys_waitpid (ol_os l)) as [r o] eqn:E;
    cbn [fst snd] in *; cbn [wait_children].
  all: rewrite (bind_done _ _ l r (fset system o l))
    by (unfold zoom; change (fget system l) with (ol_os l); by rewrite E).
  all: case_decide as Hr; [specialize (Hz Hr)|by exists o].
  - lia.
  - destruct (IH (fset system o l)) as (o' & E' & Hfd'); [cbn; lia|]. exists o'.
    rewrite E'. split; [done|]. rewrite Hfd'. exact Hfd.
Qed.

(** What a handler is forked with: its session and an open socket. *)
Definition session_process (id : Z) (p : oprocess) : oprocess := set_sessionID id (set_sock_open true p).

Definition accepted (connection s_addr : Z) o l : olistener OS :=
  fset remote_addr s_addr (fset process (set_sock_open true (fget process l)) (fset sock connection (fset system o l))).

Lemma accept_connection_run l :
  ∃ o, (∃ c a, sys_accept (om_sc (ol_memory l)) (ol_os l) = (Some (c, a), o) ∧
          accept_connection l = (Done (Some (c, a)), accepted c a o l)) ∨
       accept_connection l = (Done None, fset sock (-1) (fset system o l)).
Proof.
  destruct (sys_accept (om_sc (ol_memory l)) (ol_os l)) as [[[c a]|] o] eqn:E; exists o; [left; exists c, a; split; [done|]|right];
    unfold accept_connection; (erewrite bind_done by done); cbv beta.
  - rewrite (bind_done _ _ l (Some (c, a)) (fset system o l)); [done|].
    unfold zoom. change (fget sc l) with (om_sc (ol_memory l)). change (fget system l) with (ol_os l). by rewrite E.
  - rewrite (bind_done _ _ l None (fset system o l)); [done|].
    unfold zoom. change (fget sc l) with (om_sc (ol_memory l)). change (fget system l) with (ol_os l). by rewrite E.
Qed.

Lemma ids_from (id k : Z) : u32 (u32 (id + 1) + 1 + k) = u32 (id + 1 + (k + 1)).
Proof. unfold u32. rewrite <- Z.add_assoc, Zplus_mod_idemp_l. f_equal. lia. Qed.

(** The parent keeps the descriptor of each connection, so that their number bounds
    the rounds; the [k]-th handler gets the [k]-th next session. *)
Lemma old_accept_loop_run fuel : ∀ l,
  (fds_limit - size (open_fds (ol_os l)) < fuel)%nat →
  ∃ l' ms, accept_loop zombies fuel l = (Exited 1, l') ∧ ol_children l' = ol_children l ++ ms ∧
    (length ms ≤ fds_limit - size (open_fds (ol_os l)))%nat ∧
    ∀ k m, ms !! k = Some m →
      om_process m = session_process (u32 (op_sessionID (om_process (ol_memory l)) + 1 + Z.of_nat k)) (om_process (ol_memory l)).
Proof.
  assert (Hnone : ∀ l l', ol_children l' = ol_children l → ∃ ms, ol_children l' = ol_children l ++ ms ∧
    (length ms ≤ fds_limit - size (open_fds (ol_os l)))%nat ∧ ∀ k m, ms !! k = Some m →
      om_process m = session_process (u32 (op_sessionID (om_process (ol_memory l)) + 1 + Z.of_nat k)) (om_process (ol_memory l))).
  { intros l l' Hc. exists []. rewrite app_nil_r. split_and!; [done|cbn; lia|]. intros k m Hk. by rewrite lookup_nil in Hk. }
  induction fuel as [|fuel IH]; intros l Hf; [lia|]. cbn [accept_loop].
  destruct (accept_connection_run l) as (o & [(c & a & Ha & E)|E]); rewrite (bind_done _ _ _ _ _ E);
    (erewrite bind_done by done); cbv beta.
  2: { destruct (wait_children_run (zombies o) (fset sock (-1) (fset system o l)) (le_n _)) as (o1 & Ew & _).
    rewrite (bind_done _ _ _ _ _ Ew). eexists. destruct (Hnone l) with (l' := l) as (ms & ? & ? & ?); [done|].
    exists ms. split; [reflexivity|]. done. }
  destruct (sys_accept_fd _ _ _ _ _ Ha) as (Hnew & Ho & Hsize).
  rewrite Ho, size_union, size_singleton in Hsize by set_solver.
  destruct (wait_children_run (zombies o) (accepted c a o l) (le_n _)) as (o1 & Ew & Hfd1).
  change (ol_os (accepted c a o l)) with o in Hfd1. change (fget system (accepted c a o l)) with o.
  rewrite (bind_done _ _ _ _ _ Ew). erewrite bind_done by done. cbv beta.
  set (l1 := fset process _ _). pose proof (sys_fork_fds o1) as Hfd. destruct (sys_fork o1) as [[child|] o2] eqn:Hfork; cbn [snd] in Hfd.
  2: { rewrite (bind_done _ _ l1 None (fset system o2 l1))
         by (unfold zoom; change (fget system l1) with o1; by rewrite Hfork).
       eexists. destruct (Hnone l l) as (ms & ? & ? & ?); [done|]. exists ms. split; [reflexivity|]. done. }
  rewrite (bind_done _ _ l1 (Some child) (fset system o2 l1))
    by (unfold zoom; change (fget system l1) with o1; by rewrite Hfork).
  erewrite bind_done by done. cbv beta. erewrite bind_done by done. cbv beta.
  match goal with |- context [accept_loop zombies fuel ?x] => set (l2 := x) end.
  assert (Hos : open_fds (ol_os l2) = {[c]} ∪ open_fds (ol_os l)) by (change (ol_os l2) with o2; congruence).
  destruct (IH l2) as (l' & ms & Hrun & Hc & Hms & Hmem).
  { rewrite Hos, size_union, size_singleton by set_solver. lia. }
  exists l', (ol_memory l1 :: ms). rewrite Hrun, Hc. split_and!; [done| | |].
  - change (ol_children l2) with (ol_children l ++ [ol_memory l1]). by rewrite <- (assoc_L (++)).
  - rewrite Hos, size_union, size_singleton in Hms by set_solver. cbn [length]. lia.
  - intros [|k] m Hk.
    + injection Hk as <-. by rewrite Z.add_0_r.
    + rewrite (Hmem k m Hk). unfold session_process.
      change (op_sessionID (om_process (ol_memory l2))) with (u32 (op_sessionID (om_process (ol_memory l)) + 1)).
      rewrite ids_from. replace (Z.of_nat k + 1) with (Z.of_nat (S k)) by lia. done.
Qed.

(** ** What comes before *)
(** What main leaves to the handlers, and which there are. *)
Definition old_untouched l l' : Prop :=
  om_process (ol_memory l') = om_process (ol_memory l) ∧ ol_children l' = ol_children l.
#[export] Instance old_untouched_preorder : PreOrder old_untouched.
Proof. split; [by split|]. intros l1 l2 l3 [H1 H2] [H3 H4]. split; congruence. Qed.

(** A handler starts with empty buffers and an empty list. *)
Record old_fresh (p : oprocess) : Prop := {
  old_fresh_in : blen (op_in_packet p) = PACKET_SIZE;
  old_fresh_out : blen (op_out_packet p) = PACKET_SIZE;
  old_fresh_name : blen (ci_name (op_client_info p)) = 64;
  old_fresh_apps : ids_at (op_apps p) [];
  old_fresh_mallocs : am_mallocs (op_apps p) = [];
}.

Definition old_handlers_ok (ms : list omemory) : Prop :=
  ∀ k m, ms !! k = Some m → old_fresh (om_process m) ∧ op_sessionID (om_process m) = u32 (1 + Z.of_nat k).

Definition old_main_post (out : outcome unit * olistener OS) : Prop :=
  let '(o, l') := out in
  o ≠ Faulted Diverged ∧ o ≠ Done tt ∧ old_handlers_ok (ol_children l') ∧ (length (ol_children l') ≤ fds_limit)%nat.

Lemma no_old_handlers : old_handlers_ok [].
Proof. intros k m Hk. by rewrite lookup_nil in Hk. Qed.

Lemma old_stops o l : o ≠ Faulted Diverged → o ≠ Done tt → ol_children l = [] → old_main_post (o, l).
Proof. intros H1 H2 Hc. split_and!; [done|done| |]; rewrite Hc; [apply no_old_handlers|cbn; lia]. Qed.

(** A statement that only changes what handlers do not use. *)
Definition aside {A} (m : M (olistener OS) A) : Prop := ∀ l,
  match m l with
  | (Done _, l') => old_untouched l l'
  | (Faulted f, l') => f ≠ Diverged ∧ ol_children l' = ol_children l
  | (Exited _, l') => ol_children l' = ol_children l
  end.

Lemma aside_then {A} (m : M (olistener OS) A) (k : A → M (olistener OS) unit) l :
  aside m → ol_children l = [] → old_fresh (om_process (ol_memory l)) →
  (∀ a l1, ol_children l1 = [] → old_fresh (om_process (ol_memory l1)) → old_main_post (k a l1)) →
  old_main_post ((m ≫= k) l).
Proof.
  intros Hm Hc Hp Hk. specialize (Hm l). unfold mbind, M_bind. destruct (m l) as [[a|f|c] l1].
  - destruct Hm as [Hp' Hc']. apply Hk; congruence.
  - destruct Hm as [Hf Hc']. apply old_stops; congruence.
  - apply old_stops; congruence.
Qed.

Lemma aside_system {A} (f : OS → A * OS) : aside (zoom system f).
Proof. intros l. unfold zoom. by destruct (f _). Qed.
Lemma aside_fork_and_exit : aside fork_and_exit.
Proof.
  intros l. unfold fork_and_exit, zoom, mbind, M_bind. by destruct (sys_fork _) as [[]].
Qed.
Lemma aside_argv0 t : aside (store_cstr argv0 0 t).
Proof. intros l. unfold store_cstr, store_bytes, gets, mbind, M_bind. by destruct (splice _ _ _). Qed.
Lemma aside_modify {A} (F : field (olistener OS) A) g : (∀ a l, old_untouched l (fset F a l)) → aside (modify F g).
Proof. intros HF l. apply HF. Qed.
Lemma aside_puts {A} (F : field (olistener OS) A) a : (∀ l, old_untouched l (fset F a l)) → aside (puts F a).
Proof. intros HF l. apply HF. Qed.

Lemma old_fatal_post text l : ol_children l = [] → old_main_post (fatal text l).
Proof. intros Hc. by apply old_stops. Qed.

Lemma old_fresh_session id p : old_fresh p → old_fresh (session_process id p).
Proof. by intros []. Qed.

Lemma old_fresh_id id p : old_fresh p → old_fresh (set_sessionID id p).
Proof. by intros []. Qed.
Lemma old_fresh_version v p : old_fresh p → old_fresh (set_local_version v p).
Proof. by intros []. Qed.

Lemma old_accept_post fuel l :
  (fds_limit < fuel)%nat → ol_children l = [] → old_fresh (om_process (ol_memory l)) →
  op_sessionID (om_process (ol_memory l)) = 0 → old_main_post (accept_loop zombies fuel l).
Proof.
  intros Hf Hc Hp Hid. destruct (old_accept_loop_run fuel l) as (l' & ms & -> & Hc' & Hlen & Hms); [lia|].
  rewrite Hc in Hc'. cbn [app] in Hc'. split; [done|]. split; [done|]. rewrite Hc'. split; [|lia].
  intros k m Hk. rewrite (Hms k m Hk). split; [by apply old_fresh_session|]. cbn. by rewrite Hid.
Qed.

Ltac aside r := apply aside_then;
  [first [apply aside_system|apply aside_fork_and_exit|apply aside_argv0|by apply aside_puts|by apply aside_modify]
  |done|done|intros r ? ? ?].

Lemma old_main_runs fuel l :
  (fds_limit < fuel)%nat → ol_children l = [] → old_fresh (om_process (ol_memory l)) →
  old_main_post (main zombies fuel l).
Proof.
  intros Hf Hc Hp. unfold main. aside u. erewrite bind_done by done. cbv beta.
  match goal with |- old_main_post (_ ?x) => set (l2 := x) end.
  assert (Hp2 : old_fresh (om_process (ol_memory l2))) by (by apply old_fresh_version).
  assert (Hc2 : ol_children l2 = []) by done. clearbody l2.
  do 7 (let u := fresh in aside u). aside fd. destruct fd as [fd|]; [|by apply old_stops].
  aside u1. aside bound. destruct bound; cbn [negb]; [|by apply old_fatal_post].
  aside listening. destruct listening; cbn [negb]; [|by apply old_fatal_post].
  aside u2. erewrite bind_done by done. cbv beta. apply old_accept_post; [done|done|by apply old_fresh_id|done].
Qed.

(** ** The name of a handler *)
Definition old_name_length l : nat := String.length (inet_ntoa (om_remote_addr (ol_memory l))).

(** Both texts fit the 50 bytes of the array, whatever the address; only the memory
    of argv[0] can be too small. *)
Lemma old_handler_text l :
  blen (om_msg (ol_memory l)) = 50 →
  (20 + Z.of_nat (old_name_length l) < blen (om_argv0 (ol_memory l)) →
   ∃ l' e, become_handler l = (Done tt, l') ∧ om_process (ol_memory l') = om_process (ol_memory l) ∧
     om_signals (ol_memory l') = SigChild ∧ ol_log l' = ol_log l ++ [e]) ∧
  (blen (om_argv0 (ol_memory l)) ≤ 20 + Z.of_nat (old_name_length l) →
   (become_handler l).1 = Faulted OutOfBounds).
Proof.
  intros Hmsg. set (ip := inet_ntoa (om_remote_addr (ol_memory l))).
  set (t1 := bytes_of_string ("CAPI20proxy: handle " +:+ ip)).
  set (t2 := bytes_of_string ("incoming connection from: " +:+ ip)).
  pose proof (inet_ntoa_length (om_remote_addr (ol_memory l))) as Hip. fold (old_name_length l) in Hip.
  assert (Hl1 : blen t1 = 20 + Z.of_nat (old_name_length l)).
  { unfold t1. rewrite blen_bytes_of_string, string_length_app. unfold old_name_length. fold ip. cbn [String.length]. lia. }
  assert (Hl2 : blen t2 = 26 + Z.of_nat (old_name_length l)).
  { unfold t2. rewrite blen_bytes_of_string, string_length_app. unfold old_name_length. fold ip. cbn [String.length]. lia. }
  assert (Ht1 : x00 ∉ t1) by (apply text_app; [vm_compute; set_solver|apply inet_ntoa_text]).
  assert (Ht2 : x00 ∉ t2) by (apply text_app; [vm_compute; set_solver|apply inet_ntoa_text]).
  unfold become_handler. erewrite bind_done by done. cbv beta.
  set (l1 := fset msg (t1 ++ x00 :: drop (length t1 + 1) (om_msg (ol_memory l))) l).
  rewrite (bind_done _ _ l tt l1) by (apply (store_cstr_run msg); change (fget msg l) with (om_msg (ol_memory l)); lia).
  erewrite bind_done by by eapply load_cstr_run. cbv beta.
  change (om_argv0 (ol_memory l)) with (fget argv0 l1). rewrite <- Hl1. split; intros Hfit.
  2: { by rewrite (bind_faulted _ _ _ _ _ (store_cstr_overrun argv0 _ _ Hfit)). }
  rewrite (bind_done _ _ _ _ _ (store_cstr_run argv0 _ _ Hfit)). set (l2 := fset argv0 _ l1).
  assert (Hmsg2 : blen (fget msg l2) = 50).
  { change (fget msg l2) with (t1 ++ x00 :: drop (length t1 + 1) (om_msg (ol_memory l))).
    rewrite blen_app. unfold blen in *. cbn [length]. rewrite length_drop. lia. }
  unfold sprintf_msg. fold ip. fold t2. rewrite (bind_done _ _ _ _ _ (store_cstr_run msg t2 l2 ltac:(lia))).
  erewrite bind_done by by eapply load_cstr_run. cbv beta. eexists _, _. split; [reflexivity|]. done.
Qed.
End listener.

Section handlers.
Context `{CapiHeader} {CS OS : Type} `{!Capi20 CS, !Capi20Laws CS, !OldHeader, HU : !Unix OS, !UnixLaws OS}.
Implicit Types l : olistener OS.

(** The same handler of the current server. *)
Definition current (p : oprocess) : Server.process :=
  mkProcess (op_sessionID p) (op_local_version p) (op_client_info p) (op_in_packet_address p) (op_in_packet p)
    (op_out_packet p) (replicate (Z.to_nat (CAPI_MAXAPPL + 1)) x00) (op_sock_open p).

Lemma old_fresh_inv p (w : net) (c : CS) forks log :
  old_fresh p → 0 ≤ op_sessionID p < 2 ^ 32 → owned c = ∅ →
  old_inv (rx w, rx_error w) (mkOServer p w c forks [] log).
Proof.
  intros [] Hid Hc. pose proof CAPI_MAXAPPL_range.
  assert (Hmarks : blen (replicate (Z.to_nat (CAPI_MAXAPPL + 1)) x00) = CAPI_MAXAPPL + 1)
    by (unfold blen; rewrite length_replicate; lia).
  destruct (registry_cleared (replicate (Z.to_nat (CAPI_MAXAPPL + 1)) x00)) as (b & Hb & Hlen & Happs); [lia|].
  rewrite (splice_at _ [] (replicate (Z.to_nat (CAPI_MAXAPPL + 1)) x00) []) in Hb
    by (by rewrite ?app_nil_r). injection Hb as <-. rewrite app_nil_r in *.
  exists (mkServer (current p) w c None forks [] log). split.
  - split; [|unfold registry_ok; cbn; congruence|by constructor]. split; try done. cbn. lia.
  - split; try done. split; [exists []; split; [|done]|cbn; congruence|cbn; lia]. split; [done|apply NoDup_nil_2|done].
Qed.

(** A connection of the old server is handled to its end, and gives everything back;
    unless a request runs into undefined behaviour. *)
Definition old_ends_clean (err : bool) (out : outcome unit * oserver CS) : Prop :=
  (∃ f s', out = (Faulted f, s') ∧ f ≠ Diverged) ∨
  (∃ s', out = (Exited (if err then 1 else 0), s') ∧
     owned (os_capi s') = ∅ ∧ am_nodes (op_apps (os_process s')) = ∅ ∧ op_sock_open (os_process s') = false).

Lemma old_inv_ends s :
  old_inv (rx (os_sock s), rx_error (os_sock s)) s → old_ends_clean (rx_error (os_sock s)) (OldServer.handle_connection s).
Proof.
  intros Hs. pose proof (old_loop_post _ _ s Hs (Nat.lt_succ_diag_r _)) as Hp. unfold old_ends_clean, OldServer.handle_connection.
  change (length (rx_bytes (os_sock s))) with (left (rx (os_sock s), rx_error (os_sock s))).
  destruct (OldServer.handling_loop _ s) as [[[]|f|c] s']; [done|left; eauto|right].
  destruct Hp as (-> & s0 & [? [? ?] ? ?]). eauto 6.
Qed.

(** C15: The old server, whatever connects to it and whatever arrives: its
    listening process ends, after at most as many connections as descriptors were
    left; the sessions of its handlers are 1, 2, 3 and so on; and each handler handles
    its connection to the end, releases at the library what was registered through it,
    frees the list and closes the socket, with status 0 at the end of the stream
    and 1 after an error, unless a request runs into undefined behaviour.  Before, it
    writes its name, which fits the array [msg] but may overrun the memory at argv[0]. *)
Theorem old_server_ends fuel l :
  (fds_limit < fuel)%nat → Z.of_nat fds_limit < 2 ^ 32 - 1 →
  ol_children l = [] → old_fresh (om_process (ol_memory l)) →
  let '(o, l') := main zombies fuel l in
  o ≠ Faulted Diverged ∧ o ≠ Done tt ∧ (length (ol_children l') ≤ fds_limit)%nat ∧
  op_sessionID ∘ om_process <$> ol_children l' = seqZ 1 (Z.of_nat (length (ol_children l'))) ∧
  ∀ m w (c : CS) forks, m ∈ ol_children l' → owned c = ∅ →
    old_ends_clean (rx_error w) (OldServer.handle_connection (connection m l' w c forks)) ∧
    (blen (om_msg m) = 50 →
      if decide (20 + Z.of_nat (old_name_length (forked m l')) < blen (om_argv0 m))
      then old_ends_clean (rx_error w) (run_handler m l' w c forks)
      else (run_handler m l' w c forks).1 = Faulted OutOfBounds).
Proof.
  intros Hf Hlim Hc Hp. pose proof (old_main_runs fuel l Hf Hc Hp) as Hpost.
  destruct (main zombies fuel l) as [o l']. destruct Hpost as (Hd & Hdone & Hms & Hlen). split_and!; [done..| |].
  - apply list_eq. intros k. rewrite list_lookup_fmap. destruct (ol_children l' !! k) as [m|] eqn:Hk.
    + pose proof (lookup_lt_Some _ _ _ Hk). cbn. destruct (Hms k m Hk) as [_ ->]. rewrite lookup_seqZ_lt by lia.
      by rewrite u32_small by lia.
    + apply lookup_ge_None in Hk. cbn. symmetry. apply lookup_ge_None. rewrite length_seqZ. lia.
  - intros m w c forks [k Hk]%list_elem_of_lookup Ho. destruct (Hms k m Hk) as [Hm Hid].
    assert (Hr : 0 ≤ op_sessionID (om_process m) < 2 ^ 32) by (rewrite Hid; apply u32_range).
    assert (Hends : ∀ p log, p = om_process m →
      old_ends_clean (rx_error w) (OldServer.handle_connection (mkOServer p w c forks [] log))).
    { intros p log ->. change (rx_error w) with (rx_error (os_sock (mkOServer (om_process m) w c forks [] log))).
      by apply old_inv_ends, old_fresh_inv. }
    split; [by apply Hends|]. intros Hmsg. destruct (old_handler_text (forked m l') Hmsg) as [H1 H2]. unfold run_handler.
    case_decide as Hfit.
    + destruct (H1 Hfit) as (l'' & e & E & Hp'' & _). rewrite E. by apply Hends.
    + cbn in Hfit. specialize (H2 ltac:(cbn; lia)). destruct (become_handler (forked m l')) as [x y]. cbn in H2. by subst x.
Qed.
End handlers.
