(* ===== verification/OldProperties.v ===== *)
(** * The old server: properties *)
From stdpp Require Import gmap.
From S2P Require Import Prelude CMem Protocol Net Capi20 OldApps OldServer AppIndex Server Packet Exec Proxy Capifwd ExecSpec Handled Handlers CapifwdSpec Served ServerProperties OldSpec OldRun.
#[local] Open Scope Z_scope.

(** ** The linked list *)
Inductive list_op := Add (id : Z) | Del (id : Z) | GetFirst.

Definition exec_op (op : list_op) : M app_memory (option Z) :=
  match op with
  | Add id => OldApps.add_app id;; mret None
  | Del id => OldApps.del_app id;; mret None
  | GetFirst => id ← OldApps.getfirst_app; mret (Some id)
  end.
Fixpoint exec_ops (ops : list list_op) : M app_memory (list (option Z)) :=
  match ops with
  | [] => mret []
  | op :: ops => r ← exec_op op; rs ← exec_ops ops; mret (r :: rs)
  end.

(** The same on a list: new ids go to the end, the first occurrence is removed, 0 is
    what the empty list yields. *)
Definition list_op_spec (op : list_op) (ids : list Z) : option Z * list Z :=
  match op with
  | Add id => (None, ids ++ [id])
  | Del id => (None, remove_id id ids)
  | GetFirst => (Some (default 0 (head ids)), tail ids)
  end.
Fixpoint list_ops_spec (ops : list list_op) (ids : list Z) : list (option Z) * list Z :=
  match ops with
  | [] => ([], ids)
  | op :: ops => let '(r, ids) := list_op_spec op ids in let '(rs, ids) := list_ops_spec ops ids in (r :: rs, ids)
  end.

Lemma exec_op_run op m ids :
  ids_at m ids → am_mallocs m = [] →
  ∃ m', exec_op op m = (Done (list_op_spec op ids).1, m') ∧ ids_at m' (list_op_spec op ids).2 ∧ am_mallocs m' = [].
Proof.
  intros Hm Hs. destruct op as [id|id|]; cbn [exec_op list_op_spec fst snd].
  - destruct (add_app_ids m ids id Hm Hs) as (m' & E & ? & ?). exists m'. by rewrite (bind_done _ _ _ _ _ E).
  - destruct (del_app_ids m ids id Hm) as (m' & E & ? & ?). exists m'. rewrite (bind_done _ _ _ _ _ E).
    split_and!; [done|done|congruence].
  - destruct (getfirst_app_ids m ids Hm) as (m' & E & ? & ?). exists m'. rewrite (bind_done _ _ _ _ _ E).
    split_and!; [done|done|congruence].
Qed.

(** C16: The linked list on the heap implements a list: whatever the
    sequence of insertions, deletions and removals from its head, while malloc
    succeeds they read no member that has not been written, follow no null pointer and
    none to a node that is freed, yield what the same operations on a list yield, and
    leave on the heap the nodes of the resulting list and no others. *)
Theorem old_list_refines ops m ids :
  ids_at m ids → am_mallocs m = [] →
  ∃ m', exec_ops ops m = (Done (list_ops_spec ops ids).1, m') ∧ ids_at m' (list_ops_spec ops ids).2 ∧
    size (am_nodes m') = length (list_ops_spec ops ids).2.
Proof.
  intros Hm Hs. assert (Hsize : ∀ m ids, ids_at m ids → size (am_nodes m) = length ids).
  { intros m0 ids0 (l & Hl & ->). rewrite length_fmap. apply (list_fuel_length _ _ Hl). }
  revert m ids Hm Hs. induction ops as [|op ops IH]; intros m ids Hm Hs; cbn [exec_ops list_ops_spec].
  { exists m. split_and!; [done|done|by apply Hsize]. }
  destruct (exec_op_run op m ids Hm Hs) as (m1 & E & Hm1 & Hs1). rewrite (bind_done _ _ _ _ _ E).
  destruct (list_op_spec op ids) as [r ids1]. cbn [fst snd] in *.
  destruct (IH m1 ids1 Hm1 Hs1) as (m2 & E2 & Hm2 & Hsz). rewrite (bind_done _ _ _ _ _ E2).
  destruct (list_ops_spec ops ids1) as [rs ids2]. by exists m2.
Qed.

(** ** Old and current server *)
Section old.
Context `{CapiHeader} {CS : Type} `{Capi20 CS} `{!Capi20Laws CS} `{OldHeader}.

Lemma connection_fuel reqs w :
  rx w = request_segment <$> reqs → (length reqs < S (length (rx_bytes w)))%nat.
Proof.
  intros Hrx. apply le_n_S. unfold rx_bytes. rewrite Hrx. clear. induction reqs as [|q reqs IH]; [done|].
  rewrite fmap_cons. change (mjoin (request_segment q :: ?l)) with (request_segment q ++ mjoin l).
  assert (36 ≤ length (request_segment q))%nat
    by (unfold request_segment; rewrite length_app, length_encode_request; lia).
  rewrite length_app. cbn [length]. lia.
Qed.

(** C6: The division of the server into files, and of its list into a byte
    array, changed nothing for a client: a connection of the old server and one of
    the current server that start in the same state and receive the same sequence of
    requests - any but HELO and AUTH, each of which arrives in one piece and is more than a
    header - run into the same fault or send exactly the same bytes; and both
    end with nothing registered, the old one with its list freed. *)
Theorem old_same_connection reqs err s1 s2 :
  inv s2 → same_server (request_segment <$> reqs, err) s1 s2 → Forall understood reqs →
  let o1 := OldServer.handle_connection s1 in
  let o2 := Capifwd.handle_connection s2 in
  (∃ f, o1.1 = Faulted f ∧ o2.1 = Faulted f) ∨
  (o1.1 = Exited (if err then 1 else 0) ∧ o2.1 = Exited 0 ∧
   tx (fget OldServer.sock o1.2) = tx (fget Server.sock o2.2) ∧
   owned (fget OldServer.capi o1.2) = ∅ ∧ owned (fget Server.capi o2.2) = ∅ ∧
   am_nodes (fget OldServer.apps o1.2) = ∅).
Proof.
  intros Hi Hs Hq. pose proof (same_rx _ _ _ Hs) as [= Hrx _].
  apply (loops_same reqs err); [done..|by apply connection_fuel|].
  destruct (same_sock _ _ _ Hs) as (<- & _). by apply connection_fuel.
Qed.

(** C17: A request that consists of its header only - which is how the Linux
    client sends most calls - ends the connection to the current server, which takes
    it for the end of the stream.  The old server does with it what the packet
    handler for its type does: the same result, or fault, and the same answer. *)
Theorem old_serves_header_only r segs err s1 s2 h :
  inv s2 → same_server (encode_request r :: segs, err) s1 s2 →
  wf_request r → rh_message_len r = sizeof_REQUEST_HEADER →
  (rh_message_type r, h) ∈ capi_handlers → rh_session_id r = fget Server.sessionID s2 →
  (∃ s2', Capifwd.handle_message s2 = (Exited 0, s2') ∧ tx (fget Server.sock s2') = tx (fget Server.sock s2)) ∧
  let o := h (received r [] (advance 36 (fget Server.sock s2)) s2) in
    match o.1 with
    | Done n => ∃ s1', OldServer.handle_message s1 = (Done tt, s1') ∧
        same_server (segs, err) s1' (when (n <? 1) (Server.syslog (SyslogErrno "answer was not sent: ")) o.2).2
    | Faulted f => (OldServer.handle_message s1).1 = Faulted f
    | Exited c => False
    end.
Proof.
  intros Hi Hs Hr Hm Hh Hsess. assert (Hf : fits r []) by (split; [done|by rewrite Hm|done]).
  pose proof (same_rx _ _ _ Hs) as [= Hrx Herr].
  assert (Hrx2 : rx_bytes (fget Server.sock s2) = encode_request r ++ mjoin segs).
  { change (fget Server.sock s2) with (sv_sock s2). destruct (same_sock _ _ _ Hs) as (<- & _).
    unfold rx_bytes. by rewrite Hrx. }
  split.
  { destruct (header_only_closes r _ s2 Hi Hr Hm Hrx2) as (s2' & E & Ht & _). by exists s2'. }
  set (w := advance 36 (fget Server.sock s2)). set (s := received r [] w s2).
  assert (Hr' : decode_request (fget Server.in_packet s) = Some r) by (by apply received_request).
  assert (Hd : dispatch s = h s).
  { rewrite (dispatch_capi r s h Hr' Hh). change (fget Server.sessionID s) with (fget Server.sessionID s2).
    by rewrite Hsess, Z.eqb_refl. }
  assert (Hn : neither_helo_nor_auth r).
  { unfold capi_handlers in Hh. rewrite !elem_of_cons, elem_of_nil in Hh.
    split; destruct_or! Hh; injection Hh as Ht _; by rewrite Ht. }
  assert (Hs0 : same_server ((encode_request r ++ []) :: segs, err) s1 s2) by (by rewrite app_nil_r).
  destruct (old_round r [] segs err s1 s2 w (inv_wf _ Hi) Hs0 Hf Hn) as [Ho Hsame]; [by apply advance_proper|].
  assert (His : inv s).
  { apply inv_in_packet; [by apply inv_sock|]. apply (wf_in _ (received_packet r [] w s2 (inv_wf _ Hi) (fits_size _ _ Hf))). }
  pose proof (dispatch_handled r s His Hr') as Hhandled. rewrite Hd in Hhandled. cbv zeta. fold s in Ho, Hsame.
  destruct (h s) as [[n|f|c] s2'] eqn:Eh; cbn [fst snd].
  - rewrite (bind_done _ _ _ _ _ Hd) in Ho, Hsame.
    destruct (OldServer.handle_message s1) as [o1 s1'] eqn:E. cbn [fst snd] in *.
    assert (o1 = Done tt) as -> by (rewrite Ho; by destruct (n <? 1)).
    exists s1'. split; [done|]. by apply Hsame.
  - by rewrite (bind_faulted _ _ _ _ _ Hd) in Ho.
  - by apply (handled_no_exit _ _ _ c Hhandled).
Qed.

(** Two requests that one [recv] yields are one to the old server: the
    second is lost. *)
Lemma old_coalesced r data second segs err s1 s2 :
  wf_server s2 → same_server ((encode_request r ++ data ++ second) :: segs, err) s1 s2 →
  wf_request r → sizeof_REQUEST_HEADER + blen (data ++ second) ≤ PACKET_SIZE →
  ∃ s1', OldServer.handle_message s1 =
      (sentbytes ← OldServer.dispatch;
       when (sentbytes <? 1) (OldServer.syslog (SyslogErrno "answer was not sent: "))) s1' ∧
    rx (os_sock s1') = segs ∧ decode_request (fget OldServer.in_packet s1') = Some r.
Proof.
  intros Hwf Hs Hr Hsize.
  destruct (old_receives r (data ++ second) segs err s1 s2 _ Hwf Hs Hr Hsize (reflexivity _)) as (s1' & E & Hs' & _).
  exists s1'. split; [done|]. pose proof (same_rx _ _ _ Hs') as [= Hrx _]. split; [done|].
  rewrite (twins_get (F1:=OldServer.in_packet) _ _ Hs'). by apply received_request.
Qed.
End old.

(** * The theorems about the old server on concrete requests *)
From S2P Require Import Demo ServerWitness Listener ListenerProperties OldListener.

(** Two words, as the Windows server's header has them. *)
#[global, refine] Instance demo_old_header : OldHeader := {|
  sizeof_ANSWER_PROXY_AUTH := 8;
  AUTH_auth_type := 0;
  AUTH_auth_len := 4;
  sizeof_auth_type := 4%nat;
  sizeof_auth_len := 4%nat;
|}.
Proof.
  - done.
  - done.
Defined.

Definition no_apps : app_memory := mkApps ∅ None [].
Definition old_demo_process (id : Z) : oprocess := {|
  op_sessionID := id;
  op_local_version := mkVersion MY_MAJOR OldServer.MY_MINOR;
  op_client_info := mkClientInfo 0 (mkVersion 0 0) (replicate 64 x00) 0;
  op_in_packet_address := 0x1000;
  op_in_packet := replicate (Z.to_nat PACKET_SIZE) x00;
  op_out_packet := replicate (Z.to_nat PACKET_SIZE) x00;
  op_apps := no_apps;
  op_sock_open := true;
|}.
Definition old_demo_start (segs : list (list byte)) : oserver demo :=
  mkOServer (old_demo_process 3) (mkNet segs false [] []) (mkDemo [] [] [] false) [] [] [].

Lemma old_demo_same segs : same_server (segs, false) (old_demo_start segs) (demo_start segs [] [] false).
Proof.
  split; try done. split; [exists []; split; [|done]|done|eval_lt].
  split; [exact (ids_at_empty [])|apply NoDup_nil_2|done].
Qed.

(** Two applications are entered, the first is taken out, and the list is emptied. *)
Definition some_ops : list list_op := [Add 3; Add 1; Add 7; Del 1; GetFirst; GetFirst; GetFirst].
Lemma old_list_refines_witness :
  ∃ m', exec_ops some_ops no_apps = (Done [None; None; None; None; Some 3; Some 7; Some 0], m') ∧
    ids_at m' [] ∧ size (am_nodes m') = 0%nat.
Proof. apply (old_list_refines some_ops no_apps []); [exact (ids_at_empty [])|reflexivity]. Defined.

(** An application registers, is given the id 1, and releases it. *)
Definition some_requests : list (REQUEST_HEADER * list byte) :=
  [(register_request, register_data); (demo_request 37 8 TYPE_CAPI_RELEASE 1, [x00]); (query_request, [x00])].

Ltac eval_understood :=
  split; [split; [unfold wf_request; eval_wf|eval_eq|eval_le]|split; [eval_lt|split; discriminate]].

Lemma old_same_connection_witness :
  tx (fget OldServer.sock (OldServer.handle_connection (old_demo_start (request_segment <$> some_requests))).2) =
  tx (fget Server.sock (Capifwd.handle_connection (demo_start (request_segment <$> some_requests) [] [] false)).2).
Proof.
  destruct (old_same_connection some_requests false (old_demo_start (request_segment <$> some_requests))
    (demo_start (request_segment <$> some_requests) [] [] false)) as [(f & _ & Hf)|(_ & _ & Htx & _)].
  - demo_inv.
  - apply old_demo_same.
  - unfold some_requests. repeat (apply Forall_cons; split; [eval_understood|]). by apply Forall_nil.
  - exfalso. revert Hf. vm_compute. discriminate.
  - exact Htx.
Defined.

Lemma old_serves_header_only_witness :
  (Capifwd.handle_message (demo_start [encode_request bare_request] [] [] false)).1 = Exited 0 ∧
  ∃ s1', OldServer.handle_message (old_demo_start [encode_request bare_request]) = (Done tt, s1').
Proof.
  destruct (old_serves_header_only bare_request [] false (old_demo_start [encode_request bare_request])
    (demo_start [encode_request bare_request] [] [] false) exec_capi_version) as [(s2' & E & _) Hold].
  - demo_inv.
  - apply old_demo_same.
  - unfold wf_request. eval_wf.
  - reflexivity.
  - right. right. right. left.
  - reflexivity.
  - split; [by rewrite E|].
    set (o := exec_capi_version _) in Hold. assert (Ho : ∃ n, o.1 = Done n) by (eexists; vm_compute; reflexivity).
    destruct Ho as [n Ho]. cbv zeta in Hold. fold o in Hold. rewrite Ho in Hold. destruct Hold as (s1' & E1 & _). by exists s1'.
Defined.

Definition old_first_memory : omemory := {|
  om_process := old_demo_process 0;
  om_auth_types := 0; om_sc := 0; om_sock := 0; om_remote_addr := 0;
  om_argv0 := replicate 64 x00;
  om_msg := replicate 50 x00;
  om_signals := SigDefault;
|}.
Definition old_first_process (clients : list Z) : olistener unix :=
  mkOListener old_first_memory (mkUnix {[0; 1; 2]} clients 501 0) [] [].

Lemma old_server_ends_witness :
  op_sessionID ∘ om_process <$> ol_children (OldListener.main ux_ended 9 (old_first_process [client_a; client_b])).2 = [1; 2].
Proof.
  pose proof (old_server_ends (CS:=demo) 9 (old_first_process [client_a; client_b])
    ltac:(apply Nat.leb_le; reflexivity) ltac:(eval_lt) eq_refl) as H.
  assert (Hf : old_fresh (om_process (ol_memory (old_first_process [client_a; client_b])))).
  { split; [eval_eq|eval_eq|eval_eq|exact (ids_at_empty [])|reflexivity]. }
  specialize (H Hf).
  assert (E : length (ol_children (OldListener.main ux_ended 9 (old_first_process [client_a; client_b])).2) = 2%nat)
    by (vm_compute; reflexivity).
  change (OldListener.main zombies) with (OldListener.main ux_ended) in H.
  destruct (OldListener.main ux_ended 9 (old_first_process [client_a; client_b])) as [o l'].
  change (length (ol_children l') = 2%nat) in E. destruct H as (_ & _ & _ & H & _).
  change (op_sessionID ∘ om_process <$> ol_children l' = [1; 2]). rewrite H, E. reflexivity.
Defined.
