(* ===== verification/Unused.v ===== *)
(** * Functions that nothing calls

    SET_CTRL (linux-server/src/capi/etc.c, and the same in main-rev1.14-cvs.c), and
    become_daemon of the daemon (linux-client/daemon/src/unix.c), whose main stays in
    the foreground.  The calls of Unix are those of Listener.v. *)
From stdpp Require Import gmap.
From S2P Require Import Prelude CMem Protocol Net Server Listener.
#[local] Open Scope Z_scope.

(** ** etc.c *)
Definition CAPI_NCCI := 8.
Definition SET_CTRL {S} (MSG : field S (list byte)) (_msg _ctrl : Z) : M S unit :=
  ncci ← load32 MSG (_msg + CAPI_NCCI);
  store32 MSG (_msg + CAPI_NCCI) (Z.land ncci 0xFFFFFF80);;
  ncci ← load32 MSG (_msg + CAPI_NCCI);
  store32 MSG (_msg + CAPI_NCCI) (ncci + u8 _ctrl).

(** ** unix.c of the daemon *)
Record process_system (OS : Type) := mkProcessSystem {
  ps_os : OS;
  ps_log : list log_entry;
}.
Arguments mkProcessSystem {OS}.
Arguments ps_os {OS}.
Arguments ps_log {OS}.

Section daemon.
Context {OS : Type} `{Unix OS}.
Abbreviation D := (M (process_system OS)).
Definition system : field (process_system OS) OS := mkField ps_os (λ v s, mkProcessSystem v (ps_log s)).
Definition log : field (process_system OS) (list log_entry) := mkField ps_log (λ v s, mkProcessSystem (ps_os s) v).

Definition close (fd : Z) : D unit := modify system (sys_close fd).

(** [switch(fork())]: the parent exits, the child goes on. *)
Definition fork_and_exit : D unit :=
  child ← zoom system sys_fork;
  match child with
  | Some _ => mret tt
  | None => exit 1
  end.

(** Session, working directory and umask are left out; stdin, stdout and stderr are the
    descriptors 0, 1 and 2. *)
Definition become_daemon : D Z :=
  fork_and_exit;;
  fork_and_exit;;
  close 0;; close 1;; close 2;;
  modify log (λ l, l ++ [Syslog "c2pclient started."]);;
  mret 0.

(** It comes back in a grandchild with the three descriptors closed, or ends with status
    1 when one of the two forks fails. *)
Lemma become_daemon_run s :
  let '(c1, o1) := sys_fork (ps_os s) in
  let '(c2, o2) := sys_fork o1 in
  match c1, c2 with
  | Some _, Some _ => become_daemon s =
      (Done 0, mkProcessSystem (sys_close 2 (sys_close 1 (sys_close 0 o2)))
         (ps_log s ++ [Syslog "c2pclient started."]))
  | _, _ => (become_daemon s).1 = Exited 1
  end.
Proof.
  destruct (sys_fork (ps_os s)) as [c1 o1] eqn:E1. destruct (sys_fork o1) as [c2 o2] eqn:E2.
  unfold become_daemon, fork_and_exit, zoom, mbind, M_bind. change (fget system s) with (ps_os s).
  rewrite E1. destruct c1; [|done]. cbn. rewrite E2. by destruct c2.
Qed.
End daemon.

(** ** What SET_CTRL does

    Below 128 the controller replaces the low seven bits of the NCCI, which are those of
    the controller; from 128 on the addition carries into the identifier of the
    connection if the bit that marks an external device was set. *)
Section ctrl.
Context {S : Type} (MSG : field S (list byte)) `{!LawfulField MSG}.

Lemma SET_CTRL_run s pre ncci post ctrl :
  fget MSG s = pre ++ le_split 4 ncci ++ post → 0 ≤ ncci < 2 ^ 32 → 0 ≤ ctrl < 256 →
  SET_CTRL MSG (blen pre - CAPI_NCCI) ctrl s =
    (Done tt, fset MSG (pre ++ le_split 4 (128 * (ncci / 128) + ctrl) ++ post) s).
Proof.
  intros Hb Hn Hc. set (high := 128 * (ncci / 128)). assert (Hhigh : 0 ≤ high < 2 ^ 32) by (subst high; pose proof (Z.mul_div_le ncci 128); pose proof (Z.div_pos ncci 128); lia).
  assert (Hland : Z.land ncci 0xFFFFFF80 = high) by (by apply (land_high 7 25)).
  assert (Hstore : ∀ v v' s, fget MSG s = pre ++ le_split 4 v ++ post →
    store MSG 4 (blen pre) v' s = (Done tt, fset MSG (pre ++ le_split 4 v' ++ post) s)).
  { intros v v' s' Hs. apply (store_bytes_run MSG). rewrite Hs. eapply splice_at; [done|done|].
    by rewrite !length_le_split. }
  assert (Hload : ∀ v s, fget MSG s = pre ++ le_split 4 v ++ post → 0 ≤ v < 2 ^ 32 →
    load MSG 4 (blen pre) s = (Done v, s)).
  { intros v s' Hs Hv. apply (load_run MSG). rewrite Hs, get_le_at by done. f_equal. by apply Z.mod_small. }
  unfold SET_CTRL. rewrite Z.sub_add.
  rewrite (bind_done _ _ _ _ _ (Hload ncci s Hb Hn)), Hland, (bind_done _ _ _ _ _ (Hstore _ high s Hb)).
  rewrite (bind_done _ _ _ _ _ (Hload high _ (fget_fset _ _) Hhigh)), (Hstore high _ _ (fget_fset _ _)), fset_fset.
  unfold u8. by rewrite Z.mod_small.
Qed.
End ctrl.
