(* ===== verification/CapiUtil.v ===== *)
(** * Interfaces to the kernel's CAPI headers

    <linux/capi.h> and capiutil.h of the kernel are not part of the repository:
    the client takes the accessors of CAPI messages and the sizes of a few
    structures from them.  [CapiUtilLaws] states what the CAPI 2.0 message
    layout documents about the accessors. *)
From S2P Require Import Prelude CMem.
#[local] Open Scope Z_scope.

Class CapiUtil := {
  CAPI_MANUFACTURER_LEN : Z;
  CAPI_SERIAL_LEN : Z;
  sizeof_capi_version : Z;
  sizeof_capi_profile : Z;
  (** Accessors: [None] when the field is outside the buffer. *)
  CAPIMSG_LEN : list byte → option Z;
  CAPIMSG_APPID : list byte → option Z;
  CAPIMSG_COMMAND : list byte → option Z;
  CAPIMSG_SUBCOMMAND : list byte → option Z;
  CAPIMSG_NCCI : list byte → option Z;
  CAPIMSG_U32 : list byte → Z → option Z;
  CAPIMSG_SETLEN : list byte → Z → option (list byte);
  CAPIMSG_SETAPPID : list byte → Z → option (list byte);
  CAPIMSG_SETCOMMAND : list byte → Z → option (list byte);
  CAPIMSG_SETSUBCOMMAND : list byte → Z → option (list byte);
  CAPIMSG_SETCONTROL : list byte → Z → option (list byte);
  capimsg_setu32 : list byte → Z → Z → option (list byte);
}.

Class CapiUtilLaws `{CapiUtil} := {
  manufacturer_len_value : CAPI_MANUFACTURER_LEN = 64;
  serial_len_value : CAPI_SERIAL_LEN = 8;
  version_size_value : sizeof_capi_version = 16;
  profile_size_value : sizeof_capi_profile = 64;
  capimsg_len b : CAPIMSG_LEN b = get_u16 b 0;
  capimsg_appid b : CAPIMSG_APPID b = get_u16 b 2;
  capimsg_command b : CAPIMSG_COMMAND b = get_u8 b 4;
  capimsg_subcommand b : CAPIMSG_SUBCOMMAND b = get_u8 b 5;
  capimsg_ncci b : CAPIMSG_NCCI b = get_u32 b 8;
  capimsg_u32 b off : CAPIMSG_U32 b off = get_u32 b off;
  capimsg_setlen b v : CAPIMSG_SETLEN b v = put_le 2 b 0 v;
  capimsg_setappid b v : CAPIMSG_SETAPPID b v = put_le 2 b 2 v;
  capimsg_setcommand b v : CAPIMSG_SETCOMMAND b v = put_le 1 b 4 v;
  capimsg_setsubcommand b v : CAPIMSG_SETSUBCOMMAND b v = put_le 1 b 5 v;
  capimsg_setcontrol b v : CAPIMSG_SETCONTROL b v = put_le 4 b 8 v;
  capimsg_setu32_law b off v : capimsg_setu32 b off v = put_le 4 b off v;
}.

(** The layout of CAPI 2.0, as an instance. *)
Definition capi20_layout : CapiUtil := {|
  CAPI_MANUFACTURER_LEN := 64;
  CAPI_SERIAL_LEN := 8;
  sizeof_capi_version := 16;
  sizeof_capi_profile := 64;
  CAPIMSG_LEN b := get_u16 b 0;
  CAPIMSG_APPID b := get_u16 b 2;
  CAPIMSG_COMMAND b := get_u8 b 4;
  CAPIMSG_SUBCOMMAND b := get_u8 b 5;
  CAPIMSG_NCCI b := get_u32 b 8;
  CAPIMSG_U32 b off := get_u32 b off;
  CAPIMSG_SETLEN b v := put_le 2 b 0 v;
  CAPIMSG_SETAPPID b v := put_le 2 b 2 v;
  CAPIMSG_SETCOMMAND b v := put_le 1 b 4 v;
  CAPIMSG_SETSUBCOMMAND b v := put_le 1 b 5 v;
  CAPIMSG_SETCONTROL b v := put_le 4 b 8 v;
  capimsg_setu32 b off v := put_le 4 b off v;
|}.

Lemma capi20_layout_laws : @CapiUtilLaws capi20_layout.
Proof. by constructor. Qed.
