(* ===== verification/Daemon.v ===== *)
(** * The client daemon (linux-client/daemon/src/c2pclient.c)

    The daemon stands between the character device of the kernel module and the
    connection to the server.  Its globals are the fields of [daemon]; the
    device is the sequence of messages it hands out and what is written to it.
    The arguments of printf are not kept, only the format. *)
From S2P Require Import Prelude CMem Protocol Net Capi20 CapiUtil.
#[local] Open Scope Z_scope.

(** ** capi20proxy.h *)
Definition TYPE_PROXY := 0x00.
Definition TYPE_MESSAGE := 0x01.
Definition TYPE_REGISTER_APP := 0x02.
Definition TYPE_RELEASE_APP := 0x03.
Definition TYPE_SHUTDOWN := 0x04.

Definition CAPIMSG_L3C `{CapiUtil} (m : list byte) : option Z := CAPIMSG_U32 m 6.
Definition CAPIMSG_DBC `{CapiUtil} (m : list byte) : option Z := CAPIMSG_U32 m 10.
Definition CAPIMSG_DBL `{CapiUtil} (m : list byte) : option Z := CAPIMSG_U32 m 14.

(** ** State *)
(** [struct _c2p_init_data] *)
Record c2p_init_data := mkInitData {
  id_length : Z;
  id_manufacturer : list byte;
  id_version : list byte;
  id_serial : list byte;
  id_profile : list byte;
}.

Inductive ioctl_call :=
  | IOCTL_SET_DATA (data : c2p_init_data)
  | IOCTL_ERROR_REGFAIL (appl : Z)
  | IOCTL_APPL_REGISTERED (appl : Z).

(** /dev/capiproxy, opened non-blocking. *)
Record device := mkDevice {
  nd_in : list (option (list byte));   (**r what the next reads find; then nothing *)
  nd_out : list (list byte);           (**r messages written *)
  nd_write_script : list Z;            (**r results of the next writes; then they are complete *)
  nd_ioctls : list ioctl_call;
}.

(** How [socket] and [connect] end. *)
Inductive dial_result := SocketFailed | ConnectFailed | Connected.

Record daemon := mkDaemon {
  dm_sendbuffer : list byte;           (**r [char sendbuffer[10000]] *)
  dm_recvbuffer : list byte;           (**r [char recvbuffer[10000]] *)
  dm_c2p_shutdown : bool;
  dm_sc : net;
  dm_dial : dial_result;
  dm_msgid : Z;
  dm_session_id : Z;
  dm_node : device;
  dm_applmap_rtl : list Z;             (**r [__u16 applmap_rtl[CAPI_MAXAPPL+1]] *)
  dm_applmap_ltr : list Z;
  dm_reports : list string;            (**r printf and perror *)
}.

Definition sendbuffer : field daemon (list byte) := mkField dm_sendbuffer (λ v d,
  mkDaemon v (dm_recvbuffer d) (dm_c2p_shutdown d) (dm_sc d) (dm_dial d) (dm_msgid d)
    (dm_session_id d) (dm_node d) (dm_applmap_rtl d) (dm_applmap_ltr d) (dm_reports d)).
Definition recvbuffer : field daemon (list byte) := mkField dm_recvbuffer (λ v d,
  mkDaemon (dm_sendbuffer d) v (dm_c2p_shutdown d) (dm_sc d) (dm_dial d) (dm_msgid d)
    (dm_session_id d) (dm_node d) (dm_applmap_rtl d) (dm_applmap_ltr d) (dm_reports d)).
Definition c2p_shutdown : field daemon bool := mkField dm_c2p_shutdown (λ v d,
  mkDaemon (dm_sendbuffer d) (dm_recvbuffer d) v (dm_sc d) (dm_dial d) (dm_msgid d)
    (dm_session_id d) (dm_node d) (dm_applmap_rtl d) (dm_applmap_ltr d) (dm_reports d)).
Definition sc : field daemon net := mkField dm_sc (λ v d,
  mkDaemon (dm_sendbuffer d) (dm_recvbuffer d) (dm_c2p_shutdown d) v (dm_dial d) (dm_msgid d)
    (dm_session_id d) (dm_node d) (dm_applmap_rtl d) (dm_applmap_ltr d) (dm_reports d)).
Definition msgid : field daemon Z := mkField dm_msgid (λ v d,
  mkDaemon (dm_sendbuffer d) (dm_recvbuffer d) (dm_c2p_shutdown d) (dm_sc d) (dm_dial d) v
    (dm_session_id d) (dm_node d) (dm_applmap_rtl d) (dm_applmap_ltr d) (dm_reports d)).
Definition session_id : field daemon Z := mkField dm_session_id (λ v d,
  mkDaemon (dm_sendbuffer d) (dm_recvbuffer d) (dm_c2p_shutdown d) (dm_sc d) (dm_dial d)
    (dm_msgid d) v (dm_node d) (dm_applmap_rtl d) (dm_applmap_ltr d) (dm_reports d)).
Definition node : field daemon device := mkField dm_node (λ v d,
  mkDaemon (dm_sendbuffer d) (dm_recvbuffer d) (dm_c2p_shutdown d) (dm_sc d) (dm_dial d)
    (dm_msgid d) (dm_session_id d) v (dm_applmap_rtl d) (dm_applmap_ltr d) (dm_reports d)).
Definition applmap_rtl : field daemon (list Z) := mkField dm_applmap_rtl (λ v d,
  mkDaemon (dm_sendbuffer d) (dm_recvbuffer d) (dm_c2p_shutdown d) (dm_sc d) (dm_dial d)
    (dm_msgid d) (dm_session_id d) (dm_node d) v (dm_applmap_ltr d) (dm_reports d)).
Definition applmap_ltr : field daemon (list Z) := mkField dm_applmap_ltr (λ v d,
  mkDaemon (dm_sendbuffer d) (dm_recvbuffer d) (dm_c2p_shutdown d) (dm_sc d) (dm_dial d)
    (dm_msgid d) (dm_session_id d) (dm_node d) (dm_applmap_rtl d) v (dm_reports d)).
Definition reports : field daemon (list string) := mkField dm_reports (λ v d,
  mkDaemon (dm_sendbuffer d) (dm_recvbuffer d) (dm_c2p_shutdown d) (dm_sc d) (dm_dial d)
    (dm_msgid d) (dm_session_id d) (dm_node d) (dm_applmap_rtl d) (dm_applmap_ltr d) v).

#[export] Instance sendbuffer_lawful : LawfulField sendbuffer.
Proof. by constructor; [|intros []|]. Qed.
#[export] Instance recvbuffer_lawful : LawfulField recvbuffer.
Proof. by constructor; [|intros []|]. Qed.
#[export] Instance sc_lawful : LawfulField sc.
Proof. by constructor; [|intros []|]. Qed.
#[export] Instance sc_recvbuffer_disjoint : DisjointFields sc recvbuffer.
Proof. done. Qed.

Abbreviation D := (M daemon).

Definition report (s : string) : D unit := modify reports (λ l, l ++ [s]).

(** [applmap[i]], and a store to it. *)
Definition map_get (F : field daemon (list Z)) (i : Z) : D Z :=
  l ← gets F; try OutOfBounds (if decide (0 ≤ i) then l !! Z.to_nat i else None).
Definition map_set (F : field daemon (list Z)) (i v : Z) : D unit :=
  l ← gets F;
  if decide (0 ≤ i < Z.of_nat (length l)) then puts F (<[Z.to_nat i := u16 v]> l)
  else fail OutOfBounds.

(** An accessor of CAPI messages applied to one of the buffers. *)
Definition msg_get (F : field daemon (list byte)) (get : list byte → option Z) : D Z :=
  b ← gets F; try OutOfBounds (get b).
Definition msg_set (F : field daemon (list byte)) (set : list byte → option (list byte)) : D unit :=
  b ← gets F; b' ← try OutOfBounds (set b); puts F b'.

(** ** Socket and device *)
(** [recv(sc, recvbuffer, 10000, 0)]; without waiting, an empty segment is
    "nothing there yet". *)
Definition recv_packet : D Z := recv_into sc recvbuffer 0 10000.
Definition recv_nonblock : D Z := λ d,
  match rx (fget sc d) with
  | [] :: segs => (Done (-1), fset sc (mkNet segs (rx_error (fget sc d)) (tx (fget sc d))
                                         (tx_script (fget sc d))) d)
  | _ => recv_packet d
  end.

Definition read_node : D Z := λ d,
  let n := fget node d in
  let rest := fset node (mkDevice (tail (nd_in n)) (nd_out n) (nd_write_script n) (nd_ioctls n)) in
  match nd_in n with
  | Some m :: _ =>
      let bs := take (Z.to_nat 10000) m in
      (store_bytes recvbuffer 0 bs;; mret (blen bs)) (rest d)
  | _ => (Done (-1), rest d)
  end.

Definition write_node (bs : list byte) : D Z := λ d,
  let n := fget node d in
  let '(r, script) := match nd_write_script n with
                      | [] => (blen bs, [])
                      | r :: script => (r, script)
                      end in
  (Done r, fset node (mkDevice (nd_in n) (if decide (0 < r) then nd_out n ++ [take (Z.to_nat r) bs] else nd_out n)
                        script (nd_ioctls n)) d).

Definition ioctl (c : ioctl_call) : D unit :=
  modify node (λ n, mkDevice (nd_in n) (nd_out n) (nd_write_script n) (nd_ioctls n ++ [c])).

(** ** Requests *)
(** The assignments to [rheader] that each request starts with. *)
Definition set_rheader (body_len data_len message_type app_id controller_id session : Z) : D unit :=
  store32 sendbuffer RH.header_len sizeof_REQUEST_HEADER;;
  store32 sendbuffer RH.body_len body_len;;
  store32 sendbuffer RH.data_len data_len;;
  h ← load32 sendbuffer RH.header_len;
  b ← load32 sendbuffer RH.body_len;
  d ← load32 sendbuffer RH.data_len;
  store32 sendbuffer RH.message_len (h + b + d);;
  modify msgid (λ n, u32 (n + 1));;
  id ← gets msgid;
  store32 sendbuffer RH.message_id id;;
  store32 sendbuffer RH.message_type message_type;;
  store32 sendbuffer RH.app_id app_id;;
  store32 sendbuffer RH.controller_id controller_id;;
  store32 sendbuffer RH.session_id session.

(** [send(sc, sendbuffer, rheader->message_len, 0)]; [k] goes on when it took a byte. *)
Definition transmit {A} (failed : A) (k : D A) : D A :=
  len ← load32 sendbuffer RH.message_len;
  bs ← load_bytes sendbuffer 0 len;
  ret ← zoom sc (send bs);
  if ret <? 1 then report "sending message";; mret failed else k.

Definition remote_waitforsignal (appl : Z) : D Z :=
  session ← gets session_id;
  set_rheader sizeof_empty_struct 0 TYPE_CAPI_WAITFORSIGNAL appl 1 session;;
  transmit 0 (mret 1).

Definition remote_get_message (appl : Z) : D Z :=
  session ← gets session_id;
  set_rheader sizeof_empty_struct 0 TYPE_CAPI_GETMESSAGE appl 1 session;;
  transmit 0 (mret 1).

Section daemon.
Context `{CapiHeader} `{CapiUtil}.

Definition map_appid (map : field daemon (list Z)) (buf : field daemon (list byte)) : D unit :=
  a ← msg_get buf CAPIMSG_APPID;
  b ← map_get map a;
  msg_set buf (λ m, CAPIMSG_SETAPPID m b).

Definition send_to_module (len : Z) : D Z :=
  h ← load32 recvbuffer AH.header_len;
  b ← load32 recvbuffer AH.body_len;
  let data_offset := u16 (h + b) in
  data_len ← load32 recvbuffer AH.data_len;
  bs ← load_bytes recvbuffer data_offset data_len;
  store_bytes sendbuffer 0 bs;;
  map_appid applmap_rtl sendbuffer;;
  appl ← msg_get sendbuffer CAPIMSG_APPID;
  report "message to appl %d";;
  data_len ← load32 recvbuffer AH.data_len;
  bs ← load_bytes sendbuffer 0 data_len;
  r ← write_node bs;
  if r <? 1 then report "sending message to module";; mret 0 else mret 1.

Definition handle_serverpacket (len : Z) : D Z :=
  message_type ← load32 recvbuffer AH.message_type;
  if message_type =? TYPE_CAPI_WAITFORSIGNAL then
    app_id ← load32 recvbuffer AH.app_id;
    remote_get_message (u16 app_id)
  else if message_type =? TYPE_CAPI_GETMESSAGE then
    send_to_module len;;
    app_id ← load32 recvbuffer AH.app_id;
    remote_waitforsignal (u16 app_id)
  else report "wrong message type from server: %d";; mret 0.

(** [do { ... } while (aheader->message_type != type);] *)
Fixpoint wait_loop (fuel : nat) (type : Z) : D unit :=
  match fuel with
  | O => fail Diverged
  | S fuel' =>
      len ← recv_packet;
      if len <? 1 then report "receiving message" else
      message_type ← load32 recvbuffer AH.message_type;
      when (negb (message_type =? type)) (handle_serverpacket len;; mret tt);;
      message_type ← load32 recvbuffer AH.message_type;
      if negb (message_type =? type) then wait_loop fuel' type else mret tt
  end.
(** Each round but the last takes a byte from the stream. *)
Definition wait_for_answer (type : Z) : D unit := λ d,
  wait_loop (S (length (rx_bytes (dm_sc d)))) type d.

(** The test of [aheader->proxy_error] and the body it guards. *)
Definition if_no_proxy_error {A} (failed : A) (k : D A) : D A :=
  proxy_error ← load32 recvbuffer AH.proxy_error;
  if negb (proxy_error =? PERROR_NONE) then report "server error";; mret failed else k.

(** ** Queries: [None] is the return value 0 *)
Definition remote_get_manufacturer : D (option (list byte)) :=
  session ← gets session_id;
  set_rheader 0 0 TYPE_CAPI_MANUFACTURER 0 1 session;;
  transmit None (
    wait_for_answer TYPE_CAPI_MANUFACTURER;;
    h ← load32 recvbuffer AH.header_len;
    if_no_proxy_error None (
      manu ← load_bytes recvbuffer h CAPI_MANUFACTURER_LEN;
      report "manufacturer is %s";; mret (Some manu))).

Definition remote_get_version : D (option (list byte)) :=
  session ← gets session_id;
  set_rheader 0 0 TYPE_CAPI_VERSION 0 1 session;;
  transmit None (
    wait_for_answer TYPE_CAPI_VERSION;;
    h ← load32 recvbuffer AH.header_len;
    if_no_proxy_error None (
      version ← load_bytes recvbuffer h sizeof_capi_version;
      mret (Some version))).

Definition remote_get_serial : D (option (list byte)) :=
  session ← gets session_id;
  set_rheader 0 0 TYPE_CAPI_SERIAL 0 1 session;;
  transmit None (
    wait_for_answer TYPE_CAPI_SERIAL;;
    h ← load32 recvbuffer AH.header_len;
    if_no_proxy_error None (
      serial ← load_bytes recvbuffer h CAPI_SERIAL_LEN;
      report "serial is %s";; mret (Some serial))).

Definition remote_get_profile : D (option (list byte)) :=
  session ← gets session_id;
  set_rheader 0 0 TYPE_CAPI_PROFILE 0 1 session;;
  transmit None (
    wait_for_answer TYPE_CAPI_PROFILE;;
    h ← load32 recvbuffer AH.header_len;
    if_no_proxy_error None (
      profile ← load_bytes recvbuffer h sizeof_capi_profile;
      mret (Some profile))).

(** ** Applications *)
(** [*appl], or [None] when the function returns 0. *)
Definition remote_register_appl (maxLogicalConnection maxBDataBlocks maxBDataLen : Z)
    : D (option Z) :=
  session ← gets session_id;
  set_rheader sizeof_REQUEST_CAPI_REGISTER 0 TYPE_CAPI_REGISTER 0 1 session;;
  store32 sendbuffer (sizeof_REQUEST_HEADER + REGISTER.messageBufferSize)
    (1024 * maxLogicalConnection);;
  store32 sendbuffer (sizeof_REQUEST_HEADER + REGISTER.maxLogicalConnection)
    maxLogicalConnection;;
  store32 sendbuffer (sizeof_REQUEST_HEADER + REGISTER.maxBDataBlocks) maxBDataBlocks;;
  store32 sendbuffer (sizeof_REQUEST_HEADER + REGISTER.maxBDataLen) maxBDataLen;;
  transmit None (
    wait_for_answer TYPE_CAPI_REGISTER;;
    if_no_proxy_error None (
      app_id ← load32 recvbuffer AH.app_id;
      remote_waitforsignal (u16 app_id);;
      mret (Some (u16 app_id)))).

Definition remote_release_appl (appl : Z) : D Z :=
  session ← gets session_id;
  set_rheader sizeof_empty_struct 0 TYPE_CAPI_RELEASE appl 1 session;;
  transmit 0 (
    wait_for_answer TYPE_CAPI_RELEASE;;
    if_no_proxy_error 0 (mret 1)).

Definition local_register_appl (local_appid : Z) : D Z :=
  l3c ← msg_get recvbuffer CAPIMSG_L3C;
  dbc ← msg_get recvbuffer CAPIMSG_DBC;
  dbl ← msg_get recvbuffer CAPIMSG_DBL;
  r ← remote_register_appl l3c dbc dbl;
  match r with
  | None => mret 0
  | Some remote_appid =>
      report "local appl %d is remote appl %d";;
      map_set applmap_rtl remote_appid local_appid;;
      map_set applmap_ltr local_appid remote_appid;;
      mret 1
  end.

Definition local_release_appl (appl : Z) : D Z := remote_release_appl appl.

(** ** Messages from the applications *)
(** Controller 1 in the low seven bits. *)
Definition set_controller (ncci : Z) : Z := u32 (Z.land ncci 0xFFFFFF80 + 1).

Definition send_to_server (len : Z) : D Z :=
  map_appid applmap_ltr recvbuffer;;
  ncci ← msg_get recvbuffer CAPIMSG_NCCI;
  msg_set recvbuffer (λ m, CAPIMSG_SETCONTROL m (set_controller ncci));;
  app_id ← msg_get recvbuffer CAPIMSG_APPID;
  session ← gets session_id;
  set_rheader sizeof_empty_struct len TYPE_CAPI_PUTMESSAGE app_id 1 session;;
  h ← load32 sendbuffer RH.header_len;
  b ← load32 sendbuffer RH.body_len;
  let data_offset := u16 (h + b) in
  bs ← load_bytes recvbuffer 0 len;
  store_bytes sendbuffer data_offset bs;;
  transmit 0 (
    wait_for_answer TYPE_CAPI_PUTMESSAGE;;
    if_no_proxy_error 0 (mret 1)).

(** ** Start *)
Definition init_module : D Z :=
  let failed := (report "error initializing";; mret 0) in
  manufacturer ← remote_get_manufacturer;
  match manufacturer with None => failed | Some manufacturer =>
  version ← remote_get_version;
  match version with None => failed | Some version =>
  serial ← remote_get_serial;
  match serial with None => failed | Some serial =>
  profile ← remote_get_profile;
  match profile with None => failed | Some profile =>
    ioctl (IOCTL_SET_DATA (mkInitData
      (CAPI_MANUFACTURER_LEN + sizeof_capi_version + CAPI_SERIAL_LEN + sizeof_capi_profile)
      manufacturer version serial profile));;
    mret 1
  end end end end.

Definition client_name : list byte := bytes_of_string "Freddy".

Definition init_socket : D Z := λ d,
  match dm_dial d with
  | SocketFailed => (report "creating socket";; mret 0) d
  | ConnectFailed => (report "connecting to server";; mret 0) d
  | Connected =>
      (set_rheader sizeof_REQUEST_PROXY_HELO 0 TYPE_PROXY_HELO 0 0 0;;
       store_cstr sendbuffer (sizeof_REQUEST_HEADER + HELO.name) client_name;;
       store32 sendbuffer (sizeof_REQUEST_HEADER + HELO.os) OS_TYPE_LINUX;;
       store32 sendbuffer (sizeof_REQUEST_HEADER + HELO.version_major) 1;;
       store32 sendbuffer (sizeof_REQUEST_HEADER + HELO.version_minor) 1;;
       transmit 0 (
         ret ← recv_packet;
         if ret <? 1 then report "receiving message";; mret 0 else
         if_no_proxy_error 0 (
           session ← load32 recvbuffer AH.session_id;
           puts session_id session;;
           report "session id is %x";; mret 1))) d
  end.

(** ** main *)
(** A message of the type TYPE_PROXY comes from the module itself. *)
Definition handle_module_request (appl : Z) : D unit :=
  sub ← msg_get recvbuffer CAPIMSG_SUBCOMMAND;
  if sub =? TYPE_REGISTER_APP then
    ret ← local_register_appl appl;
    if negb (ret =? 0) then ioctl (IOCTL_APPL_REGISTERED appl)
    else ioctl (IOCTL_ERROR_REGFAIL appl)
  else if sub =? TYPE_RELEASE_APP then local_release_appl appl;; mret tt
  else if sub =? TYPE_SHUTDOWN then puts c2p_shutdown true
  else mret tt.

(** The body of [while (!c2p_shutdown)]. *)
Definition main_round : D unit :=
  len ← recv_nonblock;
  when (negb (len <? 0)) (handle_serverpacket len;; mret tt);;
  len ← read_node;
  if len <=? 0 then mret tt else
  appl ← msg_get recvbuffer CAPIMSG_APPID;
  cmd ← msg_get recvbuffer CAPIMSG_COMMAND;
  if cmd =? TYPE_PROXY then handle_module_request appl
  else report "message from appl %d";; send_to_server len;; mret tt.

(** The first [n] rounds. *)
Fixpoint main_rounds (n : nat) : D unit :=
  match n with
  | O => mret tt
  | S n' =>
      stop ← gets c2p_shutdown;
      if (stop : bool) then mret tt else main_round;; main_rounds n'
  end.

Definition main (n : nat) : D unit :=
  init_socket;; init_module;; main_rounds n.

Definition sighandler (sigint : bool) : D unit :=
  when sigint (report "received SIGINT, quitting";; puts c2p_shutdown true).
End daemon.
