(* ===== verification/DaemonSpec.v ===== *)
(** * The client daemon: runs of its functions *)
From S2P Require Import Prelude CMem Protocol Net Capi20 CapiUtil Daemon.
#[local] Open Scope Z_scope.

(** The buffers have the size of their declarations, the maps an entry per id. *)
Record wf_daemon `{CapiHeader} (d : daemon) : Prop := {
  wf_send : blen (fget sendbuffer d) = 10000;
  wf_recv : blen (fget recvbuffer d) = 10000;
  wf_rtl : Z.of_nat (length (fget applmap_rtl d)) = CAPI_MAXAPPL + 1;
  wf_ltr : Z.of_nat (length (fget applmap_ltr d)) = CAPI_MAXAPPL + 1;
}.

(** ** Composing and sending a request *)
(** The header of the next request. *)
Definition next_request (body data type app ctrl sess : Z) (d : daemon) : REQUEST_HEADER :=
  mkRequest (36 + u32 body + u32 data) 36 body data (u32 (fget msgid d + 1)) type app ctrl sess.

Definition header_set (r : REQUEST_HEADER) (d : daemon) : daemon :=
  fset sendbuffer (encode_request r ++ drop 36 (fget sendbuffer d))
    (fset msgid (u32 (fget msgid d + 1)) d).

Lemma set_rheader_run body data type app ctrl sess d :
  36 ≤ blen (fget sendbuffer d) →
  set_rheader body data type app ctrl sess d =
    (Done tt, header_set (next_request body data type app ctrl sess d) d).
Proof.
  intros Hl. destruct (words_view 9 (fget sendbuffer d)) as (ws & Hws & Hv).
  { unfold blen in Hl. lia. }
  change (4 * 9)%nat with 36%nat in Hv.
  do 9 (destruct ws as [|? ws]; [done|]). destruct ws; [|done].
  rewrite <- (fset_fget (F:=sendbuffer) d) at 1. rewrite Hv. unfold set_rheader.
  erewrite bind_done by (apply (store_words_run _ 1); [done|simpl; lia]). cbn [insert list_insert].
  erewrite bind_done by (apply (store_words_run _ 2); [done|simpl; lia]). cbn [insert list_insert].
  erewrite bind_done by (apply (store_words_run _ 3); [done|simpl; lia]). cbn [insert list_insert].
  erewrite bind_done by (by apply (load_words_run _ 1)).
  erewrite bind_done by (by apply (load_words_run _ 2)).
  erewrite bind_done by (by apply (load_words_run _ 3)).
  erewrite bind_done by (apply (store_words_run _ 0); [done|simpl; lia]). cbn [insert list_insert].
  set (d1 := fset msgid (u32 (fget msgid d + 1)) d).
  erewrite (bind_done _ _ _ _ (fset sendbuffer _ d1)) by done.
  erewrite bind_done by done.
  erewrite bind_done by (apply (store_words_run _ 4); [done|simpl; lia]). cbn [insert list_insert].
  erewrite bind_done by (apply (store_words_run _ 5); [done|simpl; lia]). cbn [insert list_insert].
  erewrite bind_done by (apply (store_words_run _ 6); [done|simpl; lia]). cbn [insert list_insert].
  erewrite bind_done by (apply (store_words_run _ 7); [done|simpl; lia]). cbn [insert list_insert].
  erewrite (store_words_run _ 8) by (done || (simpl; lia)). done.
Qed.

(** What a [send] of [bs] leaves, when the socket takes everything. *)
Definition sent (bs : list byte) (d : daemon) : daemon :=
  fset sc (mkNet (rx (fget sc d)) (rx_error (fget sc d)) (tx (fget sc d) ++ [bs]) []) d.

Lemma transmit_run {A} (failed : A) k r payload d :
  0 ≤ rh_message_len r < 2 ^ 32 → rh_message_len r = 36 + blen payload →
  (∃ post, fget sendbuffer d = encode_request r ++ payload ++ post) →
  tx_script (fget sc d) = [] →
  transmit failed k d = k (sent (encode_request r ++ payload) d).
Proof.
  intros Hr Hm [post Hb] Hs. unfold transmit.
  assert (Hl : load32 sendbuffer RH.message_len d = (Done (rh_message_len r), d)).
  { apply load_run. rewrite Hb. unfold encode_request, request_words.
    rewrite (get_u32_words _ _ 0 (rh_message_len r)) by done. by rewrite u32_small. }
  erewrite bind_done by exact Hl. cbv beta.
  assert (Hbs : load_bytes sendbuffer 0 (rh_message_len r) d =
                (Done (encode_request r ++ payload), d)).
  { apply load_bytes_run. eapply slice_at with (pre := []) (post := post); [|done|].
    - by rewrite Hb, (assoc_L (++)).
    - by rewrite blen_app, blen_encode_request. }
  erewrite bind_done by exact Hbs. cbv beta.
  assert (Hsend : zoom sc (send (encode_request r ++ payload)) d =
    (Done (rh_message_len r), sent (encode_request r ++ payload) d)).
  { unfold zoom, send. rewrite Hs. rewrite decide_True by (unfold blen; lia).
    rewrite take_ge by (unfold blen; lia).
    by rewrite blen_app, blen_encode_request, Hm. }
  erewrite bind_done by exact Hsend. cbv beta. pose proof (blen_nonneg payload).
  by replace (rh_message_len r <? 1) with false by lia.
Qed.

(** A request without a body. *)
Definition bare_sent type app ctrl sess d : daemon :=
  let r := next_request 0 0 type app ctrl sess d in sent (encode_request r) (header_set r d).

Lemma bare_request_run {A} (failed : A) k type app ctrl sess d :
  36 ≤ blen (fget sendbuffer d) → tx_script (fget sc d) = [] →
  (set_rheader 0 0 type app ctrl sess;; transmit failed k) d =
    k (bare_sent type app ctrl sess d).
Proof.
  intros Hl Hs. erewrite bind_done by by apply set_rheader_run. cbv beta.
  set (r := next_request 0 0 type app ctrl sess d).
  rewrite (transmit_run _ _ r []); [by rewrite app_nil_r|done|done| |done].
  by exists (drop 36 (fget sendbuffer d)).
Qed.

(** ** Receiving *)
(** The packet [bs] has been received; [segs] are still to come. *)
Definition took (bs : list byte) (segs : list (list byte)) (d : daemon) : daemon :=
  fset recvbuffer (bs ++ drop (length bs) (fget recvbuffer d))
    (fset sc (mkNet segs (rx_error (fget sc d)) (tx (fget sc d)) (tx_script (fget sc d))) d).

Lemma recv_packet_run bs segs d :
  blen (fget recvbuffer d) = 10000 → rx (fget sc d) = bs :: segs → 0 < blen bs ≤ 10000 →
  recv_packet d = (Done (blen bs), took bs segs d).
Proof.
  intros Hl Hrx Hb. unfold recv_packet, recv_into.
  assert (Hr : zoom sc (recv 10000) d = (Done (blen bs, bs),
    fset sc (mkNet segs (rx_error (fget sc d)) (tx (fget sc d)) (tx_script (fget sc d))) d)).
  { unfold zoom, recv. rewrite Hrx. destruct bs as [|c bs]; [unfold blen in Hb; simpl in Hb; lia|].
    cbn [recv_segs]. rewrite take_ge, drop_ge by (unfold blen in Hb; lia). done. }
  erewrite bind_done by exact Hr. cbv beta iota.
  erewrite bind_done; [done|]. apply store_bytes_run.
  change (fget recvbuffer (fset sc ?w d)) with (fget recvbuffer d).
  rewrite splice_Some by lia. done.
Qed.

Lemma recv_packet_eof d :
  blen (fget recvbuffer d) = 10000 → rx_bytes (fget sc d) = [] → rx_error (fget sc d) = false →
  ∃ w, w ≡ fget sc d ∧ recv_packet d = (Done 0, fset sc w d).
Proof.
  intros Hl Hrx He.
  destruct (recv_into_eof sc recvbuffer 0 10000 d Hrx) as (w & Hw & E); [by rewrite Hl|].
  exists w. by rewrite He in E.
Qed.

Lemma took_header bs segs d h :
  decode_answer bs = Some h → decode_answer (fget recvbuffer (took bs segs d)) = Some h.
Proof.
  intros Hd. change (fget recvbuffer (took bs segs d)) with
    (bs ++ drop (length bs) (fget recvbuffer d)).
  unfold decode_answer in *.
  repeat match goal with
  | H : (get_le 4 bs ?o ≫= _) = Some _ |- _ =>
      let v := fresh "v" in let Hv := fresh "Hv" in
      apply bind_Some in H as (v & Hv & H); rewrite (get_le_app_l _ _ _ _ _ Hv); cbn [mbind option_bind]
  end.
  done.
Qed.

(** The fields of a decoded answer, as loads. *)
Lemma decode_answer_fields b h :
  decode_answer b = Some h →
  get_u32 b AH.header_len = Some (ah_header_len h) ∧
  get_u32 b AH.body_len = Some (ah_body_len h) ∧
  get_u32 b AH.data_len = Some (ah_data_len h) ∧
  get_u32 b AH.message_type = Some (ah_message_type h) ∧
  get_u32 b AH.app_id = Some (ah_app_id h) ∧
  get_u32 b AH.session_id = Some (ah_session_id h) ∧
  get_u32 b AH.proxy_error = Some (ah_proxy_error h).
Proof.
  unfold decode_answer. intros Hd.
  repeat (apply bind_Some in Hd as (? & ? & Hd)). injection Hd as <-. by split_and!.
Qed.

Section daemon_spec.
Context `{HC : CapiHeader} `{HU : CapiUtil} `{HL : !CapiUtilLaws}.

Lemma wait_for_answer_run type bs segs d h :
  blen (fget recvbuffer d) = 10000 → rx (fget sc d) = bs :: segs → 0 < blen bs ≤ 10000 →
  decode_answer bs = Some h → ah_message_type h = type →
  wait_for_answer type d = (Done tt, took bs segs d).
Proof.
  intros Hl Hrx Hb Hd Ht. unfold wait_for_answer. cbn [wait_loop].
  erewrite bind_done by by apply recv_packet_run. cbv beta.
  replace (blen bs <? 1) with false by lia.
  destruct (decode_answer_fields _ _ (took_header bs segs d h Hd)) as (_&_&_&Hm&_).
  assert (Hload : load32 recvbuffer AH.message_type (took bs segs d) =
                  (Done (ah_message_type h), took bs segs d)) by by apply load_run.
  erewrite bind_done by exact Hload. cbv beta. rewrite Ht, Z.eqb_refl. cbn [negb].
  erewrite bind_done by done. cbv beta.
  erewrite bind_done by exact Hload. cbv beta. by rewrite Ht, Z.eqb_refl.
Qed.

Lemma if_no_proxy_error_run {A} (failed : A) k d h :
  decode_answer (fget recvbuffer d) = Some h →
  if_no_proxy_error failed k d =
    if decide (ah_proxy_error h = PERROR_NONE) then k d
    else (report "server error";; mret failed) d.
Proof.
  intros Hd. destruct (decode_answer_fields _ _ Hd) as (_&_&_&_&_&_&Hp).
  unfold if_no_proxy_error. erewrite bind_done by by apply load_run. cbv beta.
  case_decide as Hx.
  - by rewrite Hx.
  - apply Z.eqb_neq in Hx. by rewrite Hx.
Qed.

(** ** Messages to the server *)
Lemma msg_get_run F get v d : get (fget F d) = Some v → msg_get F get d = (Done v, d).
Proof. intros Hv. unfold msg_get. erewrite bind_done by done. by apply try_done. Qed.

Lemma msg_set_run F set b d :
  set (fget F d) = Some b → msg_set F set d = (Done tt, fset F b d).
Proof.
  intros Hb. unfold msg_set. erewrite bind_done by done.
  by erewrite bind_done by by apply try_done.
Qed.

Lemma map_get_run F i v d :
  0 ≤ i → fget F d !! Z.to_nat i = Some v → map_get F i d = (Done v, d).
Proof.
  intros Hi Hv. unfold map_get. erewrite bind_done by done. apply try_done.
  by rewrite decide_True.
Qed.

Lemma map_appid_run map buf a b buf' d :
  get_u16 (fget buf d) 2 = Some a → fget map d !! Z.to_nat a = Some b →
  put_le 2 (fget buf d) 2 b = Some buf' →
  map_appid map buf d = (Done tt, fset buf buf' d).
Proof.
  intros Ha Hb Hp. pose proof (get_le_bound _ _ _ _ Ha). unfold map_appid.
  erewrite bind_done by (apply msg_get_run; by rewrite capimsg_appid). cbv beta.
  erewrite bind_done by (apply map_get_run; [lia|exact Hb]). cbv beta.
  apply msg_set_run. by rewrite capimsg_setappid.
Qed.

(** The state when the request has gone out. *)
Definition put_sent (m' : list byte) (appid len : Z) (d : daemon) : daemon :=
  let d1 := fset recvbuffer m' d in
  let r := next_request 0 len TYPE_CAPI_PUTMESSAGE appid 1 (fget session_id d) d1 in
  let payload := take (Z.to_nat len) m' in
  sent (encode_request r ++ payload)
    (fset sendbuffer (encode_request r ++ payload ++
       drop (36 + length payload) (fget sendbuffer d)) (fset msgid (u32 (fget msgid d + 1)) d1)).

Lemma send_to_server_sent len a b ncci m1 m2 d :
  wf_daemon d → tx_script (fget sc d) = [] → 0 ≤ len ≤ 9964 →
  get_u16 (fget recvbuffer d) 2 = Some a → fget applmap_ltr d !! Z.to_nat a = Some b →
  put_le 2 (fget recvbuffer d) 2 b = Some m1 → get_u32 m1 8 = Some ncci →
  put_le 4 m1 8 (set_controller ncci) = Some m2 → 0 ≤ b < 2 ^ 16 →
  send_to_server len d =
    (wait_for_answer TYPE_CAPI_PUTMESSAGE;; if_no_proxy_error 0 (mret 1)) (put_sent m2 b len d).
Proof.
  intros Hwf Hs Hlen Ha Hb H1 Hn H2 Hbr. unfold send_to_server.
  erewrite bind_done by by eapply map_appid_run. cbv beta.
  erewrite bind_done by (apply msg_get_run; rewrite capimsg_ncci; exact Hn). cbv beta.
  erewrite bind_done by (apply msg_set_run; rewrite capimsg_setcontrol; exact H2). cbv beta.
  change (fset recvbuffer m2 (fset recvbuffer m1 d)) with (fset recvbuffer m2 d).
  assert (Hap : get_u16 m2 2 = Some b).
  { rewrite (get_le_splice_before 2 _ _ _ _ 2 H2) by done.
    rewrite (get_le_splice_at 2 _ _ _ _ H1). f_equal. apply Z.mod_small. done. }
  erewrite bind_done by (apply msg_get_run; rewrite capimsg_appid; exact Hap). cbv beta.
  erewrite bind_done by done. cbv beta.
  pose proof (wf_send d Hwf) as Hsl. pose proof (wf_recv d Hwf) as Hrl.
  assert (Hm2 : blen m2 = 10000).
  { unfold blen in *. by rewrite (splice_length _ _ _ _ H2), (splice_length _ _ _ _ H1). }
  set (d1 := fset recvbuffer m2 d).
  set (r := next_request 0 len TYPE_CAPI_PUTMESSAGE b 1 (fget session_id d) d1).
  erewrite bind_done by (apply set_rheader_run; change (36 ≤ blen (fget sendbuffer d)); lia).
  cbv beta. change (next_request sizeof_empty_struct len _ _ _ _ d1) with r.
  set (d2 := header_set r d1).
  set (payload := take (Z.to_nat len) m2).
  assert (Hpl : length payload = Z.to_nat len).
  { unfold payload. rewrite length_take. unfold blen in Hm2. lia. }
  assert (Hw : fget sendbuffer d2 = words (request_words r) ++ drop 36 (fget sendbuffer d)) by done.
  erewrite bind_done.
  2:{ apply load_run. rewrite Hw. by apply (get_u32_words _ _ 1). }
  cbv beta. erewrite bind_done.
  2:{ apply load_run. rewrite Hw. by apply (get_u32_words _ _ 2). }
  cbv beta zeta. change (u16 (u32 (rh_header_len r) + u32 (rh_body_len r))) with 36.
  erewrite bind_done.
  2:{ apply load_bytes_run. change (fget recvbuffer d2) with m2.
      apply slice_Some; [done|lia|lia]. }
  cbv beta. change (take (Z.to_nat len) (drop (Z.to_nat 0) m2)) with payload.
  erewrite bind_done.
  2:{ apply store_bytes_run. rewrite Hw.
      apply (splice_after_words _ _ (take (length payload) (drop 36 (fget sendbuffer d)))
               (drop (length payload) (drop 36 (fget sendbuffer d)))).
      - by rewrite take_drop.
      - rewrite length_take, length_drop. unfold blen in Hsl. lia.
      - done. }
  cbv beta. rewrite drop_drop.
  rewrite (transmit_run _ _ r payload).
  - done.
  - cbn [rh_message_len r next_request]. unfold r, next_request. cbn [rh_message_len].
    rewrite (u32_small len) by lia. change (u32 0) with 0. lia.
  - unfold r, next_request. cbn [rh_message_len]. rewrite (u32_small len) by lia.
    change (u32 0) with 0. unfold blen. lia.
  - by eexists.
  - done.
Qed.

(** ** Messages to the module *)
Lemma send_to_module_run len h bs m a b d :
  wf_daemon d → decode_answer (fget recvbuffer d) = Some h →
  ah_header_len h + ah_body_len h < 2 ^ 16 →
  slice (fget recvbuffer d) (ah_header_len h + ah_body_len h) (ah_data_len h) = Some bs →
  get_u16 bs 2 = Some a → fget applmap_rtl d !! Z.to_nat a = Some b → 0 ≤ b < 2 ^ 16 →
  put_le 2 bs 2 b = Some m → nd_write_script (fget node d) = [] →
  send_to_module len d =
    (Done 1, fset reports (fget reports d ++ ["message to appl %d"%string])
      (fset sendbuffer (m ++ drop (length bs) (fget sendbuffer d))
        (fset node (mkDevice (nd_in (fget node d)) (nd_out (fget node d) ++ [m]) []
                      (nd_ioctls (fget node d))) d))).
Proof.
  intros Hwf Hh Hoff Hbs Ha Hb Hbr Hm Hscript.
  destruct (decode_answer_fields _ _ Hh) as (Hhl&Hbl&Hdl&_&_&_&_).
  pose proof (get_le_bound _ _ _ _ Hhl). pose proof (get_le_bound _ _ _ _ Hbl).
  pose proof (wf_send d Hwf) as Hsl. pose proof (wf_recv d Hwf) as Hrl.
  pose proof (slice_length _ _ _ _ Hbs) as Hlen. pose proof (get_le_Some_inv _ _ _ _ Ha) as [_ H4].
  assert (blen bs ≤ 10000).
  { unfold slice in Hbs. case_decide; [|done]. lia. }
  unfold send_to_module.
  erewrite bind_done by by apply load_run. cbv beta.
  erewrite bind_done by by apply load_run. cbv beta zeta.
  erewrite bind_done by by apply load_run. cbv beta.
  unfold u16 at 1. rewrite Z.mod_small by lia.
  erewrite bind_done by by apply load_bytes_run. cbv beta.
  set (post := drop (length bs) (fget sendbuffer d)).
  set (d1 := fset sendbuffer (bs ++ post) d).
  erewrite (bind_done _ _ _ tt d1).
  2:{ apply store_bytes_run. rewrite splice_Some by lia. done. }
  cbv beta.
  erewrite (bind_done _ _ _ tt (fset sendbuffer (m ++ post) d)).
  2:{ etrans; [eapply (map_appid_run _ _ a b)|reflexivity].
      - by apply get_le_app_l.
      - exact Hb.
      - unfold put_le in *. change (fget sendbuffer d1) with (bs ++ post).
        unfold splice in *. case_decide as Hd; [|done]. injection Hm as <-.
        rewrite decide_True by (rewrite blen_app; pose proof (blen_nonneg post); lia).
        f_equal. unfold blen in *. change (Z.to_nat 2) with 2%nat in *.
        rewrite take_app_le by lia. rewrite drop_app_le by (rewrite length_le_split; lia).
        by rewrite <- !(assoc_L (++)). }
  cbv beta.
  assert (Hml : blen m = blen bs).
  { unfold blen. by rewrite (splice_length _ _ _ _ Hm). }
  erewrite bind_done.
  2:{ apply msg_get_run. rewrite capimsg_appid. apply get_le_app_l.
      by rewrite (get_le_splice_at 2 _ _ _ _ Hm). }
  cbv beta. erewrite bind_done by done. cbv beta.
  set (d2 := fset reports _ _).
  erewrite bind_done by by apply load_run. cbv beta.
  erewrite bind_done.
  2:{ apply load_bytes_run. change (fget sendbuffer d2) with (m ++ post).
      apply (slice_at _ [] m post); [done|done|lia]. }
  cbv beta. erewrite bind_done.
  2:{ unfold write_node. change (fget node d2) with (fget node d). rewrite Hscript.
      rewrite decide_True, take_ge by (unfold blen in *; lia). done. }
  cbv beta. replace (blen m <? 1) with false by lia. done.
Qed.

(** ** Registering *)
(** The body of a REGISTER request. *)
Definition register_body (l3c dbc dbl : Z) : list byte := words [1024 * l3c; l3c; dbc; dbl].

Definition register_sent (l3c dbc dbl : Z) (d : daemon) : daemon :=
  let r := next_request 16 0 TYPE_CAPI_REGISTER 0 1 (fget session_id d) d in
  sent (encode_request r ++ register_body l3c dbc dbl)
    (fset sendbuffer (encode_request r ++ register_body l3c dbc dbl ++ drop 52 (fget sendbuffer d))
      (fset msgid (u32 (fget msgid d + 1)) d)).

Lemma remote_register_appl_run l3c dbc dbl d bs segs h :
  wf_daemon d → tx_script (fget sc d) = [] →
  rx (fget sc d) = bs :: segs → 0 < blen bs ≤ 10000 →
  decode_answer bs = Some h → ah_message_type h = TYPE_CAPI_REGISTER →
  remote_register_appl l3c dbc dbl d =
    if decide (ah_proxy_error h = PERROR_NONE) then
      (Done (Some (u16 (ah_app_id h))),
       bare_sent TYPE_CAPI_WAITFORSIGNAL (u16 (ah_app_id h)) 1 (fget session_id d)
         (took bs segs (register_sent l3c dbc dbl d)))
    else (report "server error";; mret None) (took bs segs (register_sent l3c dbc dbl d)).
Proof.
  intros Hwf Hs Hrx Hb Hd Ht. pose proof (wf_send d Hwf) as Hsl.
  unfold remote_register_appl. erewrite bind_done by done. cbv beta.
  set (r := next_request 16 0 TYPE_CAPI_REGISTER 0 1 (fget session_id d) d).
  erewrite bind_done by (apply set_rheader_run; lia). cbv beta.
  change (next_request sizeof_REQUEST_CAPI_REGISTER 0 _ _ _ _ d) with r.
  destruct (words_view 4 (drop 36 (fget sendbuffer d))) as (ws & Hws & Hv).
  { rewrite length_drop. unfold blen in Hsl. lia. }
  change (4 * 4)%nat with 16%nat in Hv. rewrite drop_drop in Hv.
  do 4 (destruct ws as [|? ws]; [done|]). destruct ws; [|done].
  set (d1 := fset msgid (u32 (fget msgid d + 1)) d).
  assert (E0 : header_set r d = fset sendbuffer (words (request_words r ++ [z; z0; z1; z2]) ++
    drop 52 (fget sendbuffer d)) d1).
  { unfold header_set. rewrite Hv. rewrite words_app, <- (assoc_L (++)). done. }
  rewrite E0. unfold request_words. cbn [app].
  erewrite bind_done by (apply (store_words_run _ 9); [done|simpl; lia]). cbn [insert list_insert].
  erewrite bind_done by (apply (store_words_run _ 10); [done|simpl; lia]). cbn [insert list_insert].
  erewrite bind_done by (apply (store_words_run _ 11); [done|simpl; lia]). cbn [insert list_insert].
  erewrite bind_done by (apply (store_words_run _ 12); [done|simpl; lia]). cbn [insert list_insert].
  set (d2 := fset sendbuffer _ d1).
  assert (E2 : d2 = fset sendbuffer (encode_request r ++ register_body l3c dbc dbl ++
                       drop 52 (fget sendbuffer d)) d1).
  { unfold d2, encode_request, register_body. rewrite (assoc_L (++)), <- words_app. done. }
  rewrite (transmit_run _ _ r (register_body l3c dbc dbl)); [|done|done| |done].
  2:{ rewrite E2. by eexists. }
  rewrite E2. fold (register_sent l3c dbc dbl d). set (d3 := register_sent l3c dbc dbl d).
  erewrite bind_done by (by apply (wait_for_answer_run _ bs segs d3 h); [apply (wf_recv d)|..]).
  cbv beta. pose proof (took_header bs segs d3 h Hd) as Hh.
  erewrite if_no_proxy_error_run by exact Hh. case_decide; [|done].
  destruct (decode_answer_fields _ _ Hh) as (_&_&_&_&Ha&_&_).
  erewrite bind_done by by apply load_run. cbv beta.
  unfold remote_waitforsignal. rewrite bind_assoc. erewrite bind_done by done. cbv beta.
  erewrite bind_done; [|etrans; [apply (bare_request_run 0 (mret 1)); [|done]|reflexivity]]; [done|].
  change (36 ≤ blen (fget sendbuffer d3)). unfold d3, register_sent.
  change (fget sendbuffer (sent ?b ?x)) with (fget sendbuffer x).
  rewrite (fget_fset (F:=sendbuffer)), blen_app, blen_encode_request.
  pose proof (blen_nonneg (register_body l3c dbc dbl ++ drop 52 (fget sendbuffer d))).
  unfold sizeof_REQUEST_HEADER. lia.
Qed.


(** ** The message that the daemon forwards *)
(** [m] with the application id [b] and the controller 1. *)
Definition outgoing (b ncci : Z) (m : list byte) : list byte :=
  take 2 m ++ le_split 2 b ++ take 4 (drop 4 m) ++ le_split 4 (set_controller ncci) ++ drop 12 m.
(** [m] with the application id [b]. *)
Definition incoming (b : Z) (m : list byte) : list byte :=
  take 2 m ++ le_split 2 b ++ drop 4 m.

Lemma put_appid b m rest :
  4 ≤ blen m → put_le 2 (m ++ rest) 2 b = Some (incoming b m ++ rest).
Proof.
  intros Hm. unfold put_le, incoming.
  rewrite (splice_at _ (take 2 m) (take 2 (drop 2 m)) (drop 4 m ++ rest)).
  - by rewrite <- !(assoc_L (++)).
  - rewrite <- (take_drop 2 m) at 1. rewrite <- (take_drop 2 (drop 2 m)) at 1.
    by rewrite drop_drop, <- !(assoc_L (++)).
  - unfold blen in *. rewrite length_take. lia.
  - rewrite length_le_split, length_take, length_drop. unfold blen in Hm. lia.
Qed.

Lemma length_incoming b m : 4 ≤ blen m → length (incoming b m) = length m.
Proof.
  intros Hm. unfold incoming, blen in *.
  rewrite !length_app, length_le_split, length_take, length_drop. lia.
Qed.

Lemma incoming_incoming a b m :
  4 ≤ blen m → get_u16 m 2 = Some a → incoming a (incoming b m) = m.
Proof.
  intros Hm Ha. unfold incoming. unfold blen in Hm.
  rewrite take_app_le, take_take by (rewrite length_take; lia). change (2 `min` 2)%nat with 2%nat.
  assert (Hd : drop 4 (take 2 m ++ le_split 2 b ++ drop 4 m) = drop 4 m).
  { rewrite (assoc_L (++)). apply drop_app_length'.
    rewrite length_app, length_take, length_le_split. lia. }
  rewrite Hd.
  unfold get_le in Ha. rewrite slice_Some in Ha by (unfold blen; lia).
  injection Ha as <-.
  change (Z.to_nat (Z.of_nat 2)) with 2%nat. change (Z.to_nat 2) with 2%nat.
  rewrite split_le_combine' by (rewrite length_take, length_drop; lia).
  rewrite <- (take_drop 2 m) at 4. rewrite <- (take_drop 2 (drop 2 m)) at 2. by rewrite drop_drop.
Qed.

Lemma put_controller b ncci m rest :
  12 ≤ blen m →
  put_le 4 (incoming b m ++ rest) 8 (set_controller ncci) = Some (outgoing b ncci m ++ rest).
Proof.
  intros Hm. unfold put_le, incoming, outgoing. unfold blen in Hm.
  rewrite (splice_at _ (take 2 m ++ le_split 2 b ++ take 4 (drop 4 m)) (take 4 (drop 8 m))
             (drop 12 m ++ rest)).
  - by rewrite <- !(assoc_L (++)).
  - rewrite <- !(assoc_L (++)). do 2 f_equal.
    rewrite <- (take_drop 4 (drop 4 m)) at 1. rewrite <- (take_drop 4 (drop 4 (drop 4 m))) at 1.
    by rewrite !drop_drop, <- !(assoc_L (++)).
  - unfold blen. rewrite !length_app, length_le_split, !length_take, length_drop. lia.
  - rewrite length_le_split, length_take, length_drop. lia.
Qed.

Lemma length_outgoing b ncci m : 12 ≤ blen m → length (outgoing b ncci m) = length m.
Proof.
  intros Hm. unfold outgoing, blen in *.
  rewrite !length_app, !length_le_split, !length_take, !length_drop. lia.
Qed.

Lemma incoming_ncci b m : 12 ≤ blen m → get_u32 (incoming b m) 8 = get_u32 m 8.
Proof.
  intros Hm. pose proof (put_appid b m [] ltac:(lia)) as Hp. rewrite !app_nil_r in Hp.
  apply (get_le_splice_after 4 _ _ _ _ 8 Hp). by unfold blen; rewrite length_le_split.
Qed.
End daemon_spec.
