(* ===== verification/DaemonSafe.v ===== *)
(** * The client daemon: what every function keeps

    [safe m]: from a well-formed state [m] ends in a well-formed state, however
    it ends and without running out of fuel; the stream was only consumed, and
    what was handed to [send] are requests whose header describes them. *)
From S2P Require Import Prelude CMem Protocol Net Capi20 CapiUtil Daemon DaemonSpec.
#[local] Open Scope Z_scope.

(** A request as it stands on the wire. *)
Definition request_frame (bs : list byte) : Prop :=
  ∃ r, decode_request bs = Some r ∧ rh_header_len r = sizeof_REQUEST_HEADER ∧
       rh_message_len r = rh_header_len r + rh_body_len r + rh_data_len r ∧
       rh_message_len r = blen bs.
(** [send] may take a part of it. *)
Definition sent_request (bs : list byte) : Prop := ∃ rest, request_frame (bs ++ rest).

Record dm_step (d d' : daemon) : Prop := {
  step_rx : (length (rx_bytes (fget sc d')) ≤ length (rx_bytes (fget sc d)))%nat;
  step_tx : ∃ ms, tx (fget sc d') = tx (fget sc d) ++ ms ∧ Forall sent_request ms;
}.

#[export] Instance dm_step_preorder : PreOrder dm_step.
Proof.
  split.
  - intros d. constructor; [done|]. exists []. by rewrite app_nil_r.
  - intros d1 d2 d3 [R1 (m1 & E1 & F1)] [R2 (m2 & E2 & F2)]. constructor; [lia|].
    exists (m1 ++ m2). rewrite E2, E1, (assoc_L (++)). split; [done|by apply Forall_app_2].
Qed.

Lemma dm_step_quiet d d' : fget sc d' = fget sc d → dm_step d d'.
Proof. intros E. constructor; rewrite E; [done|]. exists []. by rewrite app_nil_r. Qed.

Ltac solve_quiet := intros [? ? ? ?]; split; [done|by apply dm_step_quiet].

Abbreviation safe m := (respects wf_daemon dm_step m).

Section daemon_safe.
Context `{HC : CapiHeader}.

(** ** Steps that do not touch the socket *)
Lemma safe_sendbuffer b d :
  wf_daemon d → length b = length (fget sendbuffer d) →
  wf_daemon (fset sendbuffer b d) ∧ dm_step d (fset sendbuffer b d).
Proof.
  intros [Hs ? ? ?] Hb. split; [|by apply dm_step_quiet].
  constructor; try done. unfold blen in *. change (Z.of_nat (length b) = 10000). by rewrite Hb.
Qed.
Lemma safe_recvbuffer b d :
  wf_daemon d → length b = length (fget recvbuffer d) →
  wf_daemon (fset recvbuffer b d) ∧ dm_step d (fset recvbuffer b d).
Proof.
  intros [? Hs ? ?] Hb. split; [|by apply dm_step_quiet].
  constructor; try done. unfold blen in *. change (Z.of_nat (length b) = 10000). by rewrite Hb.
Qed.
Lemma safe_rtl l d :
  wf_daemon d → length l = length (fget applmap_rtl d) →
  wf_daemon (fset applmap_rtl l d) ∧ dm_step d (fset applmap_rtl l d).
Proof.
  intros [? ? Hs ?] Hl. split; [|by apply dm_step_quiet].
  constructor; try done. change (Z.of_nat (length l) = CAPI_MAXAPPL + 1). by rewrite Hl.
Qed.
Lemma safe_ltr l d :
  wf_daemon d → length l = length (fget applmap_ltr d) →
  wf_daemon (fset applmap_ltr l d) ∧ dm_step d (fset applmap_ltr l d).
Proof.
  intros [? ? ? Hs] Hl. split; [|by apply dm_step_quiet].
  constructor; try done. change (Z.of_nat (length l) = CAPI_MAXAPPL + 1). by rewrite Hl.
Qed.
Lemma safe_node v d : wf_daemon d → wf_daemon (fset node v d) ∧ dm_step d (fset node v d).
Proof. solve_quiet. Qed.
Lemma safe_msgid v d : wf_daemon d → wf_daemon (fset msgid v d) ∧ dm_step d (fset msgid v d).
Proof. solve_quiet. Qed.
Lemma safe_session v d :
  wf_daemon d → wf_daemon (fset session_id v d) ∧ dm_step d (fset session_id v d).
Proof. solve_quiet. Qed.
Lemma safe_shutdown v d :
  wf_daemon d → wf_daemon (fset c2p_shutdown v d) ∧ dm_step d (fset c2p_shutdown v d).
Proof. solve_quiet. Qed.
Lemma safe_reports v d :
  wf_daemon d → wf_daemon (fset reports v d) ∧ dm_step d (fset reports v d).
Proof. solve_quiet. Qed.
#[local] Hint Resolve dm_step_preorder safe_sendbuffer safe_recvbuffer safe_rtl safe_ltr safe_node
  safe_msgid safe_session safe_shutdown safe_reports respects_puts respects_modify : respects.

Lemma safe_report s : safe (report s).
Proof. unfold report. auto with respects. Qed.

Lemma safe_ioctl c : safe (ioctl c).
Proof. unfold ioctl. auto with respects. Qed.

Lemma safe_map_get F i : safe (map_get F i).
Proof. unfold map_get. auto with respects. Qed.

Lemma safe_map_set (F : field daemon (list Z)) i v :
  (∀ l d, wf_daemon d → length l = length (fget F d) →
    wf_daemon (fset F l d) ∧ dm_step d (fset F l d)) → safe (map_set F i v).
Proof.
  intros HF d Hd. unfold map_set, gets, mbind, M_bind. case_decide; [|by split].
  split; [done|]. apply HF; [done|]. apply length_insert.
Qed.

Lemma safe_msg_get F get : safe (msg_get F get).
Proof. unfold msg_get. auto with respects. Qed.

Lemma safe_msg_set (F : field daemon (list byte)) set :
  (∀ b d, wf_daemon d → length b = length (fget F d) →
    wf_daemon (fset F b d) ∧ dm_step d (fset F b d)) →
  (∀ b b', set b = Some b' → length b' = length b) → safe (msg_set F set).
Proof.
  intros HF Hset d Hd. unfold msg_set, gets, puts, mbind, M_bind.
  destruct (set (fget F d)) as [b|] eqn:E; simpl; [|by split].
  split; [done|]. by apply HF; [|apply Hset].
Qed.

(** ** The socket and the device *)
Lemma safe_sc w d :
  wf_daemon d → (length (rx_bytes w) ≤ length (rx_bytes (fget sc d)))%nat →
  tx w = tx (fget sc d) → wf_daemon (fset sc w d) ∧ dm_step d (fset sc w d).
Proof.
  intros [? ? ? ?] Hl Ht. split; [done|]. constructor; [done|]. exists []. by rewrite app_nil_r.
Qed.

(** A [recv] that returns a length has used up that many bytes. *)
Lemma recv_packet_outcome d :
  wf_daemon d →
  ((recv_packet d).1 ≠ Faulted Diverged ∧ wf_daemon (recv_packet d).2 ∧ dm_step d (recv_packet d).2) ∧
  ∀ n, (recv_packet d).1 = Done n → 0 < n →
    (length (rx_bytes (fget sc (recv_packet d).2)) < length (rx_bytes (fget sc d)))%nat.
Proof.
  intros Hd. unfold recv_packet. destruct (decide (rx_bytes (fget sc d) = [])) as [Hrx|Hrx].
  - destruct (recv_into_eof sc recvbuffer 0 10000 d Hrx) as (w & Hw & E).
    { pose proof (blen_nonneg (fget recvbuffer d)). lia. }
    rewrite E. split; [split; [done|]|].
    + apply safe_sc; [done|by rewrite (rx_bytes_proper _ _ Hw)|apply (tx_proper _ _ Hw)].
    + simpl. intros n [= <-]. by destruct (rx_error _).
  - destruct (recv_into_data sc recvbuffer 0 10000 d Hrx) as (bs & w & Hbs & _ & Hj & Hw & _ & _ & E);
      [done|]. rewrite E.
    assert (Hlt : (length (rx_bytes w) < length (rx_bytes (fget sc d)))%nat).
    { rewrite Hj, length_app. destruct bs; [done|simpl; lia]. }
    destruct (safe_sc w d Hd) as [Hw1 Hs1]; [lia|apply (tx_proper _ _ Hw)|].
    destruct (splice _ 0 bs) as [b|] eqn:Hb; cbn [fst snd]; [|by split].
    destruct (safe_recvbuffer b _ Hw1) as [Hw2 Hs2]; [by eapply splice_length|].
    split; [|done]. split_and!; [done..|by etrans].
Qed.

Lemma safe_recv_packet : safe recv_packet.
Proof. intros d Hd. by apply recv_packet_outcome. Qed.

Lemma safe_recv_nonblock : safe recv_nonblock.
Proof.
  intros d Hd. unfold recv_nonblock. destruct (rx (fget sc d)) as [|[|c bs] segs] eqn:E;
    [by apply safe_recv_packet| |by apply safe_recv_packet].
  split; [done|]. apply safe_sc; [done| |done]. unfold rx_bytes. by rewrite E.
Qed.

Lemma safe_read_node : safe read_node.
Proof.
  intros d Hd. unfold read_node. destruct (nd_in (fget node d)) as [|[m|] ms];
    [by split; [|apply safe_node]| |by split; [|apply safe_node]].
  assert (H : safe (store_bytes recvbuffer 0 (take (Z.to_nat 10000) m);;
                mret (blen (take (Z.to_nat 10000) m)))) by auto with respects.
  set (d1 := fset node _ d). destruct (H d1) as (H1 & H2 & H3); [by apply safe_node|].
  split_and!; [done..|]. etrans; [|exact H3]. by apply safe_node.
Qed.

Lemma safe_write_node bs : safe (write_node bs).
Proof.
  intros d Hd. unfold write_node.
  destruct (nd_write_script _); (split; [done|]); by apply safe_node.
Qed.

(** ** Requests

    Between setting the header and sending, the header [r] stands in sendbuffer. *)
Definition framed (r : REQUEST_HEADER) (d : daemon) : Prop :=
  wf_daemon d ∧ decode_request (fget sendbuffer d) = Some r ∧
  rh_header_len r = sizeof_REQUEST_HEADER ∧
  rh_message_len r = rh_header_len r + rh_body_len r + rh_data_len r.
Abbreviation from P m := (leads wf_daemon dm_step P m).

Lemma framed_bind {A B} r (m : D A) (k : A → D B) :
  respects (framed r) dm_step m → (∀ a, from (framed r) (k a)) → from (framed r) (m ≫= k).
Proof. intros Hm Hk. apply leads_bind; [apply _|by intros d [? _]|done..]. Qed.

Lemma decode_request_splice b off bs b' :
  splice b off bs = Some b' → 36 ≤ off → decode_request b' = decode_request b.
Proof.
  intros Hs Ho. unfold decode_request.
  repeat match goal with
  | |- context [get_le 4 b' ?k] => rewrite (get_le_splice_before 4 b off bs b' k Hs)
      by (unfold RH.message_len, RH.header_len, RH.body_len, RH.data_len, RH.message_id,
            RH.message_type, RH.app_id, RH.controller_id, RH.session_id; lia)
  end.
  done.
Qed.

Lemma framed_store_bytes r off bs :
  36 ≤ off → respects (framed r) dm_step (store_bytes sendbuffer off bs).
Proof.
  intros Ho d (Hw & Hr & Hh & Hm). unfold store_bytes, gets, puts, mbind, M_bind.
  destruct (splice (fget sendbuffer d) off bs) as [b|] eqn:E; simpl; [|by split_and!].
  destruct (safe_sendbuffer b d Hw) as [Hw' Hs]; [by eapply splice_length|].
  split; [done|]. split; [|done]. split; [done|].
  split; [|done]. etrans; [exact (decode_request_splice _ _ _ _ E Ho)|exact Hr].
Qed.

Lemma framed_store r w off v :
  36 ≤ off → respects (framed r) dm_step (store sendbuffer w off v).
Proof. apply framed_store_bytes. Qed.

Lemma framed_load_lengths {B} r (k : Z → Z → D B) :
  from (framed r) (k sizeof_REQUEST_HEADER (rh_body_len r)) →
  from (framed r) (h ← load32 sendbuffer RH.header_len;
                   b ← load32 sendbuffer RH.body_len; k h b).
Proof.
  intros Hk d Hd. pose proof Hd as (_ & Hr & Hh & _).
  destruct (decode_request_fields _ _ Hr) as (_ & H1 & H2 & _).
  rewrite Hh in H1.
  erewrite bind_done by by apply load_run. cbv beta.
  erewrite bind_done by by apply load_run. by apply Hk.
Qed.

Lemma decode_request_prefix bs rest r :
  decode_request (bs ++ rest) = Some r → 36 ≤ blen bs → decode_request bs = Some r.
Proof.
  intros Hd Hb. destruct (decode_request_total bs Hb) as (r' & Hd' & Hwf & E).
  rewrite E, <- (assoc_L (++)) in Hd.
  rewrite (proj2 (decode_request_encode r' _) Hwf) in Hd. congruence.
Qed.

Lemma framed_transmit {A} r (failed : A) k :
  0 ≤ rh_body_len r + rh_data_len r → safe k → from (framed r) (transmit failed k).
Proof.
  intros Hl Hk d (Hw & Hr & Hh & Hm). unfold transmit.
  destruct (decode_request_fields _ _ Hr) as (Hml & _).
  erewrite bind_done by by apply load_run. cbv beta.
  destruct (slice (fget sendbuffer d) 0 (rh_message_len r)) as [bs|] eqn:Hbs.
  2:{ erewrite bind_faulted by by apply load_bytes_fault. by split_and!. }
  erewrite bind_done by by apply load_bytes_run. cbv beta.
  pose proof (slice_length _ _ _ _ Hbs) as Hbl.
  assert (Hfr : request_frame bs).
  { exists r. split_and!; [|done..]. unfold sizeof_REQUEST_HEADER in *.
    unfold slice in Hbs. case_decide; [|done]. injection Hbs as <-.
    apply (decode_request_prefix _ (drop (Z.to_nat (rh_message_len r)) (fget sendbuffer d)));
      [|lia].
    change (drop (Z.to_nat 0) (fget sendbuffer d)) with (fget sendbuffer d).
    by rewrite take_drop. }
  assert (Hsend : ∃ n w, zoom sc (send bs) d = (Done n, fset sc w d) ∧
    rx w = rx (fget sc d) ∧ ∃ ms, tx w = tx (fget sc d) ++ ms ∧ Forall sent_request ms).
  { unfold zoom, send. destruct (match tx_script _ with [] => _ | n :: sc => _ end) as [n script].
    eexists _, _. split; [done|]. split; [done|]. simpl. case_decide.
    - exists [take (Z.to_nat n) bs]. split; [done|]. constructor; [|done].
      exists (drop (Z.to_nat n) bs). by rewrite take_drop.
    - exists []. by rewrite app_nil_r. }
  destruct Hsend as (n & w & E & Hrx & Htx).
  assert (Hstep : wf_daemon (fset sc w d) ∧ dm_step d (fset sc w d)).
  { split; [by destruct Hw|]. constructor; [|done].
    change (length (mjoin (rx w)) ≤ length (mjoin (rx (fget sc d))))%nat. by rewrite Hrx. }
  erewrite bind_done by exact E. cbv beta. destruct Hstep as [Hw1 Hs1].
  assert (H : safe (if n <? 1 then report "sending message";; mret failed else k)).
  { pose proof safe_report. auto with respects. }
  destruct (H _ Hw1) as (? & ? & ?). split_and!; [done..|by etrans].
Qed.

Lemma safe_request {A} body data type app ctrl sess (k : D A) :
  0 ≤ body → 0 ≤ data → body + data < 2 ^ 31 →
  (∀ r, rh_body_len r = body → rh_data_len r = data → from (framed r) k) →
  safe (set_rheader body data type app ctrl sess;; k).
Proof.
  intros Hb Hd Hbd Hk d Hw. pose proof (wf_send d Hw) as Hl.
  erewrite bind_done by (apply set_rheader_run; lia). cbv beta.
  set (n := next_request body data type app ctrl sess d).
  destruct (decode_request_words (request_words n) (drop 36 (fget sendbuffer d)) eq_refl)
    as (r & Hr & Hws).
  destruct r as [ml hl bl dl mid ty ap ct se]. injection Hws as Eml Ehl Ebl Edl _ _ _ _ _.
  assert (Hq : wf_daemon (header_set n d) ∧ dm_step d (header_set n d)).
  { unfold header_set. destruct (safe_msgid (u32 (fget msgid d + 1)) d Hw) as [Hw1 Hs1].
    destruct (safe_sendbuffer (encode_request n ++ drop 36 (fget sendbuffer d)) _ Hw1) as [Hw2 Hs2].
    - rewrite length_app, length_encode_request, length_drop.
      change (fget sendbuffer (fset msgid _ d)) with (fget sendbuffer d).
      unfold blen in Hl. lia.
    - split; [done|by etrans]. }
  destruct Hq as [Hw1 Hs1].
  rewrite (u32_small body) in Ebl by lia. rewrite (u32_small data) in Edl by lia.
  destruct (Hk (mkRequest ml hl bl dl mid ty ap ct se)) with (s := header_set n d) as (? & ? & ?).
  - done.
  - done.
  - split; [done|]. split; [exact Hr|]. split; [by rewrite Ehl|]. simpl.
    rewrite Eml, Ehl, Ebl, Edl. change (u32 36) with 36.
    rewrite (u32_small body), (u32_small data), u32_small by lia. done.
  - split_and!; [done..|by etrans].
Qed.

(** A request without a body. *)
Lemma safe_bare {A} type app ctrl sess (failed : A) k :
  safe k → safe (set_rheader 0 0 type app ctrl sess;; transmit failed k).
Proof.
  intros Hk. apply safe_request; [done..|]. intros r Hb Hd. apply framed_transmit; [lia|done].
Qed.
#[local] Hint Resolve safe_report safe_ioctl safe_map_get safe_map_set safe_msg_get
  safe_recv_packet safe_recv_nonblock safe_read_node safe_write_node safe_bare : respects.

Lemma safe_remote_waitforsignal appl : safe (remote_waitforsignal appl).
Proof. unfold remote_waitforsignal. auto with respects. Qed.

Lemma safe_remote_get_message appl : safe (remote_get_message appl).
Proof. unfold remote_get_message. auto with respects. Qed.
#[local] Hint Resolve safe_remote_waitforsignal safe_remote_get_message : respects.

Context `{HU : CapiUtil} `{HL : !CapiUtilLaws}.

Lemma safe_map_appid map buf :
  (∀ b d, wf_daemon d → length b = length (fget buf d) →
    wf_daemon (fset buf b d) ∧ dm_step d (fset buf b d)) → safe (map_appid map buf).
Proof.
  intros HF. unfold map_appid.
  assert (∀ v, safe (msg_set buf (λ m, CAPIMSG_SETAPPID m v))).
  { intros v. apply safe_msg_set; [done|]. intros b b'. rewrite capimsg_setappid.
    apply splice_length. }
  auto with respects.
Qed.
#[local] Hint Resolve safe_map_appid : respects.

Lemma safe_send_to_module len : safe (send_to_module len).
Proof. unfold send_to_module. auto 30 with respects. Qed.
#[local] Hint Resolve safe_send_to_module : respects.

Lemma safe_handle_serverpacket len : safe (handle_serverpacket len).
Proof. unfold handle_serverpacket. auto 10 with respects. Qed.
#[local] Hint Resolve safe_handle_serverpacket : respects.

(** ** Waiting for an answer *)
Definition within (n : nat) (d : daemon) : Prop :=
  wf_daemon d ∧ (length (rx_bytes (fget sc d)) < n)%nat.

Lemma safe_within {A} n (m : D A) : safe m → respects (within n) dm_step m.
Proof.
  intros Hm d [Hd Hn]. destruct (Hm d Hd) as (H1 & H2 & H3).
  pose proof (step_rx _ _ H3). split; [done|]. split; [|done]. split; [done|lia].
Qed.

Lemma wait_loop_safe type fuel : respects (within fuel) dm_step (wait_loop fuel type).
Proof.
  induction fuel as [|fuel IH]; intros d [Hd Hf]; [lia|]. cbn [wait_loop].
  destruct (recv_packet_outcome d Hd) as ((H1 & H2 & H3) & Hlt).
  destruct (recv_packet d) as [[n|f|c] d1] eqn:E; cbn [fst snd] in *.
  2:{ rewrite (bind_faulted _ _ _ _ _ E). pose proof (step_rx _ _ H3).
      split; [cbn [fst]; congruence|]. split; [|exact H3]. split; [exact H2|cbn [snd]; lia]. }
  2:{ rewrite (bind_exited _ _ _ _ _ E). pose proof (step_rx _ _ H3).
      split; [cbn [fst]; congruence|]. split; [|exact H3]. split; [exact H2|cbn [snd]; lia]. }
  rewrite (bind_done _ _ _ _ _ E). pose proof (step_rx _ _ H3) as Hle.
  assert (Hn : 0 < n → within fuel d1).
  { intros Hpos. specialize (Hlt n eq_refl Hpos). split; [done|lia]. }
  destruct (n <? 1) eqn:Hn1.
  { destruct (safe_within (S fuel) _ (safe_report "receiving message") d1) as (?&?&?);
      [by split; [|lia]|]. split_and!; [done..|by etrans]. }
  assert (Hround : respects (within fuel) dm_step (
    message_type ← load32 recvbuffer AH.message_type;
    when (negb (message_type =? type)) (handle_serverpacket n;; mret tt);;
    message_type ← load32 recvbuffer AH.message_type;
    if negb (message_type =? type) then wait_loop fuel type else mret tt)).
  { pose proof (safe_within fuel _ (safe_handle_serverpacket n)). auto 10 with respects. }
  destruct (Hround d1) as (? & (? & ?) & ?); [apply Hn; lia|].
  split_and!; [done|split; [done|lia]|by etrans].
Qed.

Lemma safe_wait_for_answer type : safe (wait_for_answer type).
Proof.
  intros d Hd. unfold wait_for_answer. 
  destruct (wait_loop_safe type (S (length (rx_bytes (dm_sc d)))) d) as (? & (? & _) & ?).
  - split; [done|]. apply Nat.lt_succ_diag_r.
  - by split_and!.
Qed.

Lemma safe_if_no_proxy_error {A} (failed : A) k : safe k → safe (if_no_proxy_error failed k).
Proof. intros Hk. unfold if_no_proxy_error. auto 10 with respects. Qed.
#[local] Hint Resolve safe_wait_for_answer safe_if_no_proxy_error : respects.

(** ** The requests of the daemon *)
Lemma safe_remote_get_manufacturer : safe remote_get_manufacturer.
Proof. unfold remote_get_manufacturer. auto 30 with respects. Qed.
Lemma safe_remote_get_version : safe remote_get_version.
Proof. unfold remote_get_version. auto 30 with respects. Qed.
Lemma safe_remote_get_serial : safe remote_get_serial.
Proof. unfold remote_get_serial. auto 30 with respects. Qed.
Lemma safe_remote_get_profile : safe remote_get_profile.
Proof. unfold remote_get_profile. auto 30 with respects. Qed.
Lemma safe_remote_release_appl appl : safe (remote_release_appl appl).
Proof. unfold remote_release_appl. auto 30 with respects. Qed.

Lemma safe_remote_register_appl l3c dbc dbl : safe (remote_register_appl l3c dbc dbl).
Proof.
  unfold remote_register_appl. apply respects_bind; [apply _|auto with respects|]. intros session.
  apply safe_request; [done..|]. intros r Hb Hd.
  do 4 (apply framed_bind; [by apply framed_store|intros _]).
  apply framed_transmit; [rewrite Hb, Hd; done|]. auto 30 with respects.
Qed.

Lemma safe_send_to_server len : 0 ≤ len < 2 ^ 30 → safe (send_to_server len).
Proof.
  intros Hlen. unfold send_to_server.
  apply respects_bind; [apply _|auto with respects|]. intros _.
  apply respects_bind; [apply _|auto with respects|]. intros ncci.
  apply respects_bind; [apply _| |intros _].
  { apply safe_msg_set; [auto with respects|]. intros b b'. rewrite capimsg_setcontrol.
    apply splice_length. }
  apply respects_bind; [apply _|auto with respects|]. intros app_id.
  apply respects_bind; [apply _|auto with respects|]. intros session.
  apply safe_request; [done|lia|unfold sizeof_empty_struct; lia|]. intros r Hb Hd.
  apply framed_load_lengths. rewrite Hb. cbv zeta.
  apply framed_bind; [|intros bs].
  { intros d Hw. unfold load_bytes, gets, try, mbind, M_bind. by destruct (slice _ 0 len). }
  apply framed_bind; [by apply framed_store_bytes|intros _].
  apply framed_transmit; [rewrite Hb, Hd; unfold sizeof_empty_struct; lia|].
  auto 30 with respects.
Qed.

Lemma safe_init_socket : safe init_socket.
Proof.
  intros d Hd. unfold init_socket.
  destruct (dm_dial d).
  - assert (H : safe (report "creating socket";; mret 0)) by auto with respects. by apply H.
  - assert (H : safe (report "connecting to server";; mret 0)) by auto with respects. by apply H.
  - revert d Hd. apply safe_request; [done..|]. intros r Hb Hl.
    do 4 (apply framed_bind; [by apply framed_store_bytes|intros _]).
    apply framed_transmit; [rewrite Hb, Hl; done|].
    apply respects_bind; [apply _|auto with respects|]. auto 30 with respects.
Qed.
#[local] Hint Resolve safe_remote_get_manufacturer safe_remote_get_version safe_remote_get_serial
  safe_remote_get_profile safe_remote_release_appl safe_remote_register_appl safe_init_socket
  : respects.

Lemma safe_init_module : safe init_module.
Proof.
  unfold init_module.
  do 4 (apply respects_bind; [apply _|auto with respects|]; intros [?|]; [|auto with respects]).
  auto with respects.
Qed.

(** ** The main loop *)
Lemma safe_local_register_appl appl : safe (local_register_appl appl).
Proof.
  unfold local_register_appl.
  do 3 (apply respects_bind; [apply _|auto with respects|intros ?]).
  apply respects_bind; [apply _|auto with respects|]. intros [?|]; auto 10 with respects.
Qed.
#[local] Hint Resolve safe_init_module safe_local_register_appl : respects.

Lemma safe_handle_module_request appl : safe (handle_module_request appl).
Proof. unfold handle_module_request, local_release_appl. auto 20 with respects. Qed.

Lemma read_node_result d n d' : read_node d = (Done n, d') → n ≤ 10000.
Proof.
  unfold read_node. destruct (nd_in (fget node d)) as [|[m|] ms]; try by intros [= <-].
  intros (? & ? & _ & Hn)%bind_Done_inv. injection Hn as <- _.
  unfold blen. rewrite length_take. lia.
Qed.

Lemma safe_main_round : safe main_round.
Proof.
  pose proof safe_handle_module_request. unfold main_round.
  do 2 (apply respects_bind; [apply _|auto with respects|intros ?]).
  intros d Hd. destruct (safe_read_node d Hd) as (H1 & H2 & H3).
  destruct (read_node d) as [[n|f|c] d1] eqn:E; cbn [fst snd] in *.
  2:{ rewrite (bind_faulted _ _ _ _ _ E). by split; [cbn [fst]; congruence|]. }
  2:{ by rewrite (bind_exited _ _ _ _ _ E). }
  rewrite (bind_done _ _ _ _ _ E). pose proof (read_node_result _ _ _ E).
  match goal with |- (?k d1).1 ≠ _ ∧ _ =>
    assert (Hk : safe k); [|destruct (Hk d1 H2) as (?&?&?); split_and!; [done..|by etrans]] end.
  destruct (n <=? 0) eqn:Hn; [auto with respects|].
  pose proof (safe_send_to_server n ltac:(lia)). auto 10 with respects.
Qed.

Lemma safe_main_rounds n : safe (main_rounds n).
Proof.
  pose proof safe_main_round. induction n; cbn [main_rounds]; auto 10 with respects.
Qed.

Lemma safe_main n : safe (main n).
Proof. pose proof safe_main_rounds. unfold main. auto 10 with respects. Qed.
End daemon_safe.
