(* ===== verification/DaemonRun.v ===== *)
(** * The client daemon: rounds of its main loop *)
From S2P Require Import Prelude CMem Protocol Net Capi20 CapiUtil Daemon DaemonSpec.
#[local] Open Scope Z_scope.

(** The socket when only [segs] are still to come. *)
Definition polled (segs : list (list byte)) (d : daemon) : daemon :=
  fset sc (mkNet segs (rx_error (fget sc d)) (tx (fget sc d)) (tx_script (fget sc d))) d.
(** The device when its next result is taken. *)
Definition device_read (d : daemon) : daemon :=
  fset node (mkDevice (tail (nd_in (fget node d))) (nd_out (fget node d))
               (nd_write_script (fget node d)) (nd_ioctls (fget node d))) d.
(** [m] has been read from the device into recvbuffer. *)
Definition fetched (m : list byte) (d : daemon) : daemon :=
  fset recvbuffer (m ++ drop (length m) (fget recvbuffer d)) (device_read d).
(** What the daemon told the module. *)
Definition told (c : ioctl_call) (d : daemon) : daemon :=
  fset node (mkDevice (nd_in (fget node d)) (nd_out (fget node d)) (nd_write_script (fget node d))
               (nd_ioctls (fget node d) ++ [c])) d.
Definition reported (s : string) (d : daemon) : daemon :=
  fset reports (fget reports d ++ [s]) d.

(** What [read] on the device finds. *)
Definition device_empty (d : daemon) : Prop := nd_in (fget node d) = [] ∨ head (nd_in (fget node d)) = Some None.

Lemma read_node_none d : device_empty d → read_node d = (Done (-1), device_read d).
Proof.
  unfold device_empty, read_node, device_read.
  destruct (nd_in (fget node d)) as [|[m|] ms]; [done|by intros [|]|done].
Qed.

Lemma read_node_some m ms d :
  nd_in (fget node d) = Some m :: ms → blen m ≤ 10000 → blen (fget recvbuffer d) = 10000 →
  read_node d = (Done (blen m), fetched m d).
Proof.
  intros Hn Hm Hl. unfold read_node, fetched, device_read. rewrite Hn.
  rewrite (take_ge m) by (unfold blen in Hm; lia).
  erewrite bind_done; [reflexivity|]. apply store_bytes_run.
  change (fget recvbuffer (fset node ?w d)) with (fget recvbuffer d).
  rewrite splice_Some by lia. done.
Qed.

Lemma recv_nonblock_none segs d :
  rx (fget sc d) = [] :: segs → recv_nonblock d = (Done (-1), polled segs d).
Proof. intros Hrx. unfold recv_nonblock. by rewrite Hrx. Qed.

Lemma recv_nonblock_some bs segs d :
  blen (fget recvbuffer d) = 10000 → rx (fget sc d) = bs :: segs → 0 < blen bs ≤ 10000 →
  recv_nonblock d = (Done (blen bs), took bs segs d).
Proof.
  intros Hl Hrx Hb. unfold recv_nonblock. rewrite Hrx.
  destruct bs; [unfold blen in Hb; simpl in Hb; lia|]. by apply recv_packet_run.
Qed.

Section daemon_run.
Context `{HC : CapiHeader}.

Lemma took_wf bs segs d : wf_daemon d → blen bs ≤ 10000 → wf_daemon (took bs segs d).
Proof.
  intros [? Hr ? ?] Hb. constructor; try done.
  change (blen (bs ++ drop (length bs) (fget recvbuffer d)) = 10000).
  unfold blen in *. rewrite length_app, length_drop. lia.
Qed.

Lemma fetched_wf m segs d : wf_daemon d → blen m ≤ 10000 → wf_daemon (fetched m (polled segs d)).
Proof.
  intros [? Hr ? ?] Hm. constructor; try done.
  change (blen (m ++ drop (length m) (fget recvbuffer d)) = 10000).
  unfold blen in *. rewrite length_app, length_drop. lia.
Qed.

Context `{HU : CapiUtil} `{HL : !CapiUtilLaws}.

(** A round with a packet from the server and nothing from the module. *)
Lemma main_round_packet bs segs d n d' :
  wf_daemon d → rx (fget sc d) = bs :: segs → 0 < blen bs ≤ 10000 →
  handle_serverpacket (blen bs) (took bs segs d) = (Done n, d') → device_empty d' →
  main_round d = (Done tt, device_read d').
Proof.
  intros Hwf Hrx Hb Hh He. unfold main_round.
  erewrite bind_done by (apply (recv_nonblock_some bs segs); [by apply wf_recv|done|done]).
  cbv beta. replace (blen bs <? 0) with false by lia. cbn [negb when].
  erewrite bind_done by by erewrite bind_done by exact Hh. cbv beta.
  erewrite bind_done by by apply read_node_none. done.
Qed.

(** A signal of an application. *)
Lemma handle_signal_run len h d :
  wf_daemon d → decode_answer (fget recvbuffer d) = Some h →
  ah_message_type h = TYPE_CAPI_WAITFORSIGNAL → tx_script (fget sc d) = [] →
  handle_serverpacket len d =
    (Done 1, bare_sent TYPE_CAPI_GETMESSAGE (u16 (ah_app_id h)) 1 (fget session_id d) d).
Proof.
  intros Hwf Hh Ht Hs. destruct (decode_answer_fields _ _ Hh) as (_&_&_&Hty&Hap&_&_).
  pose proof (wf_send d Hwf). unfold handle_serverpacket.
  erewrite bind_done by by apply load_run. cbv beta. rewrite Ht, Z.eqb_refl.
  erewrite bind_done by by apply load_run. cbv beta. unfold remote_get_message.
  erewrite bind_done by done. cbv beta.
  etrans; [apply (bare_request_run 0 (mret 1)); [lia|done]|done].
Qed.

(** A round with a message from the module and nothing from the server. *)
Lemma main_round_message m ms segs d a cmd :
  wf_daemon d → rx (fget sc d) = [] :: segs → nd_in (fget node d) = Some m :: ms →
  0 < blen m ≤ 10000 → get_u16 m 2 = Some a → get_u8 m 4 = Some cmd →
  main_round d =
    (if cmd =? TYPE_PROXY then handle_module_request a
     else report "message from appl %d";; send_to_server (blen m);; mret tt)
    (fetched m (polled segs d)).
Proof.
  intros Hwf Hrx Hn Hm Ha Hc. unfold main_round.
  erewrite bind_done by by apply recv_nonblock_none. cbv beta.
  change (negb (-1 <? 0)) with false. cbn [when].
  erewrite bind_done by done. cbv beta.
  erewrite bind_done by (apply (read_node_some m ms); [exact Hn|lia|apply (wf_recv d Hwf)]).
  cbv beta. replace (blen m <=? 0) with false by lia.
  erewrite bind_done.
  2:{ apply msg_get_run. rewrite capimsg_appid. by apply get_le_app_l. }
  cbv beta. erewrite bind_done; [done|].
  apply msg_get_run. rewrite capimsg_command. by apply get_le_app_l.
Qed.

(** The three requests of the module. *)
Lemma handle_module_request_sub a sub d :
  get_u8 (fget recvbuffer d) 5 = Some sub →
  handle_module_request a d =
    (if sub =? TYPE_REGISTER_APP then
       ret ← local_register_appl a;
       if negb (ret =? 0) then ioctl (IOCTL_APPL_REGISTERED a) else ioctl (IOCTL_ERROR_REGFAIL a)
     else if sub =? TYPE_RELEASE_APP then local_release_appl a;; mret tt
     else if sub =? TYPE_SHUTDOWN then puts c2p_shutdown true
     else mret tt) d.
Proof.
  intros Hs. unfold handle_module_request.
  erewrite bind_done; [done|]. apply msg_get_run. by rewrite capimsg_subcommand.
Qed.

Lemma map_set_run F i v d :
  0 ≤ i < Z.of_nat (length (fget F d)) →
  map_set F i v d = (Done tt, fset F (<[Z.to_nat i := u16 v]> (fget F d)) d).
Proof.
  intros Hi. unfold map_set. erewrite bind_done by done. cbv beta. by rewrite decide_True.
Qed.

Lemma local_register_appl_run a l3c dbc dbl bs segs h d :
  wf_daemon d → tx_script (fget sc d) = [] →
  get_u32 (fget recvbuffer d) 6 = Some l3c → get_u32 (fget recvbuffer d) 10 = Some dbc →
  get_u32 (fget recvbuffer d) 14 = Some dbl →
  rx (fget sc d) = bs :: segs → 0 < blen bs ≤ 10000 →
  decode_answer bs = Some h → ah_message_type h = TYPE_CAPI_REGISTER →
  0 ≤ a ≤ CAPI_MAXAPPL → u16 (ah_app_id h) ≤ CAPI_MAXAPPL →
  let b := u16 (ah_app_id h) in
  let d1 := took bs segs (register_sent l3c dbc dbl d) in
  local_register_appl a d =
    if decide (ah_proxy_error h = PERROR_NONE) then
      let d2 := reported "local appl %d is remote appl %d"
                  (bare_sent TYPE_CAPI_WAITFORSIGNAL b 1 (fget session_id d) d1) in
      (Done 1, fset applmap_ltr (<[Z.to_nat a := u16 b]> (fget applmap_ltr d))
                 (fset applmap_rtl (<[Z.to_nat b := u16 a]> (fget applmap_rtl d)) d2))
    else (Done 0, reported "server error" d1).
Proof.
  intros Hwf Hs H1 H2 H3 Hrx Hb Hd Ht Ha Hbr b d1. unfold local_register_appl.
  pose proof (wf_rtl d Hwf) as Hrl. pose proof (wf_ltr d Hwf) as Hll.
  assert (Hb0 : 0 ≤ b) by by apply Z.mod_pos_bound.
  erewrite bind_done by (apply msg_get_run; unfold CAPIMSG_L3C; by rewrite capimsg_u32). cbv beta.
  erewrite bind_done by (apply msg_get_run; unfold CAPIMSG_DBC; by rewrite capimsg_u32). cbv beta.
  erewrite bind_done by (apply msg_get_run; unfold CAPIMSG_DBL; by rewrite capimsg_u32). cbv beta.
  pose proof (remote_register_appl_run l3c dbc dbl d bs segs h Hwf Hs Hrx Hb Hd Ht) as E.
  case_decide as Hp.
  2:{ erewrite bind_done by (rewrite E; reflexivity). done. }
  erewrite bind_done by exact E. cbv beta iota. fold b. fold d1.
  set (d2 := reported _ _).
  erewrite (bind_done (report _) _ _ tt d2) by done. cbv beta.
  erewrite bind_done by (apply map_set_run; change (fget applmap_rtl d2) with (fget applmap_rtl d);
    lia). cbv beta.
  set (d3 := fset applmap_rtl _ d2).
  erewrite bind_done by (apply map_set_run; change (fget applmap_ltr d3) with (fget applmap_ltr d);
    lia). reflexivity.
Qed.

(** A message and its answer. *)
Lemma send_to_server_run m rest a b ncci bs segs h d :
  wf_daemon d → tx_script (fget sc d) = [] → fget recvbuffer d = m ++ rest →
  12 ≤ blen m ≤ 9964 → get_u16 m 2 = Some a → get_u32 m 8 = Some ncci →
  fget applmap_ltr d !! Z.to_nat a = Some b → 0 ≤ b < 2 ^ 16 →
  rx (fget sc d) = bs :: segs → 0 < blen bs ≤ 10000 →
  decode_answer bs = Some h → ah_message_type h = TYPE_CAPI_PUTMESSAGE →
  let d1 := took bs segs (put_sent (outgoing b ncci m ++ rest) b (blen m) d) in
  send_to_server (blen m) d =
    if decide (ah_proxy_error h = PERROR_NONE) then (Done 1, d1)
    else (Done 0, reported "server error" d1).
Proof.
  intros Hwf Hs Hrecv Hm Ha Hncci Hb Hbr Hrx Hbs Hd Ht d1.
  assert (Hl : blen (outgoing b ncci m ++ rest) = 10000).
  { pose proof (wf_recv d Hwf) as Hl. rewrite Hrecv in Hl. unfold blen in *.
    rewrite length_app, length_outgoing in *; [done|]. unfold blen. lia. }
  rewrite (send_to_server_sent (blen m) a b ncci (incoming b m ++ rest) (outgoing b ncci m ++ rest) d);
    [|done|done|lia| |done|rewrite Hrecv; apply put_appid; lia| |apply put_controller; lia|done].
  2:{ rewrite Hrecv. by apply get_le_app_l. }
  2:{ apply get_le_app_l. by rewrite incoming_ncci by lia. }
  erewrite bind_done by (apply (wait_for_answer_run _ bs segs _ h); [exact Hl|exact Hrx|done..]).
  cbv beta. erewrite if_no_proxy_error_run by by apply took_header. by case_decide.
Qed.

(** The request that carries [o]. *)
Definition put_request (o : list byte) (b : Z) (d : daemon) : list byte :=
  encode_request (mkRequest (36 + blen o) 36 0 (blen o) (u32 (fget msgid d + 1))
                    TYPE_CAPI_PUTMESSAGE b 1 (fget session_id d)) ++ o.

Lemma put_sent_tx o rest b d :
  blen o ≤ 9964 →
  tx (fget sc (put_sent (o ++ rest) b (blen o) d)) = tx (fget sc d) ++ [put_request o b d].
Proof.
  intros Ho. pose proof (blen_nonneg o).
  change (tx (fget sc d) ++ [encode_request (next_request 0 (blen o) TYPE_CAPI_PUTMESSAGE b 1
    (fget session_id d) (fset recvbuffer (o ++ rest) d)) ++ take (Z.to_nat (blen o)) (o ++ rest)] =
    tx (fget sc d) ++ [put_request o b d]).
  rewrite take_app_length' by (unfold blen; lia). unfold put_request, next_request.
  rewrite (u32_small (blen o)) by lia. done.
Qed.

Lemma remote_release_appl_run a bs segs h d :
  wf_daemon d → tx_script (fget sc d) = [] → rx (fget sc d) = bs :: segs → 0 < blen bs ≤ 10000 →
  decode_answer bs = Some h → ah_message_type h = TYPE_CAPI_RELEASE →
  let d1 := took bs segs (bare_sent TYPE_CAPI_RELEASE a 1 (fget session_id d) d) in
  remote_release_appl a d =
    if decide (ah_proxy_error h = PERROR_NONE) then (Done 1, d1)
    else (Done 0, reported "server error" d1).
Proof.
  intros Hwf Hs Hrx Hbs Hd Ht d1. unfold remote_release_appl. pose proof (wf_send d Hwf).
  erewrite bind_done by done. cbv beta.
  etrans; [apply bare_request_run; [lia|done]|].
  erewrite bind_done by (by apply (wait_for_answer_run _ bs segs _ h); [apply (wf_recv d)|..]).
  cbv beta. erewrite if_no_proxy_error_run by by apply took_header. by case_decide.
Qed.

(** ** Connecting *)
(** The HELO request; the end of the name field is what sendbuffer held. *)
Definition helo_request (d : daemon) : list byte :=
  encode_request (mkRequest 112 36 76 0 (u32 (fget msgid d + 1)) TYPE_PROXY_HELO 0 0 0) ++
  (client_name ++ [x00]) ++ take 57 (drop 43 (fget sendbuffer d)) ++
  words [OS_TYPE_LINUX; 1; 1].
Definition helo_sent (d : daemon) : daemon :=
  sent (helo_request d)
    (fset sendbuffer (helo_request d ++ drop 112 (fget sendbuffer d))
       (fset msgid (u32 (fget msgid d + 1)) d)).

Lemma words3_store i v pre w0 w1 w2 post off d :
  off = blen pre + 4 * Z.of_nat i → (i < 3)%nat →
  store32 sendbuffer off v (fset sendbuffer (pre ++ words [w0; w1; w2] ++ post) d) =
    (Done tt, fset sendbuffer (pre ++ words (<[i:=v]> [w0; w1; w2]) ++ post) d).
Proof.
  intros -> Hi. apply (store_bytes_run sendbuffer _ _ _ (fset sendbuffer _ d)).
  change (fget sendbuffer (fset sendbuffer ?b d)) with b.
  rewrite splice_app_r by lia. by rewrite (splice_words _ post i) by done.
Qed.

Lemma helo_stored {A} (k : D A) d :
  wf_daemon d →
  (set_rheader sizeof_REQUEST_PROXY_HELO 0 TYPE_PROXY_HELO 0 0 0;;
   store_cstr sendbuffer (sizeof_REQUEST_HEADER + HELO.name) client_name;;
   store32 sendbuffer (sizeof_REQUEST_HEADER + HELO.os) OS_TYPE_LINUX;;
   store32 sendbuffer (sizeof_REQUEST_HEADER + HELO.version_major) 1;;
   store32 sendbuffer (sizeof_REQUEST_HEADER + HELO.version_minor) 1;; k) d =
  k (fset sendbuffer (helo_request d ++ drop 112 (fget sendbuffer d))
      (fset msgid (u32 (fget msgid d + 1)) d)).
Proof.
  intros Hwf. pose proof (wf_send d Hwf) as Hsl.
  set (r := mkRequest 112 36 76 0 (u32 (fget msgid d + 1)) TYPE_PROXY_HELO 0 0 0).
  erewrite bind_done by (apply set_rheader_run; lia). cbv beta.
  change (next_request sizeof_REQUEST_PROXY_HELO 0 _ _ _ _ d) with r.
  set (d0 := fset msgid (u32 (fget msgid d + 1)) d).
  set (sb := fget sendbuffer d) in *.
  assert (E0 : header_set r d = fset sendbuffer (encode_request r ++ drop 36 sb) d0) by done.
  rewrite E0. destruct (words_view 3 (drop 100 sb)) as (ws & Hws & Hv).
  { rewrite length_drop. unfold blen in Hsl. lia. }
  change (4 * 3)%nat with 12%nat in Hv. rewrite drop_drop in Hv. change (100 + 12)%nat with 112%nat in Hv.
  do 3 (destruct ws as [|? ws]; [done|]). destruct ws; [|done].
  set (mid := take 57 (drop 43 sb)).
  set (name := client_name ++ [x00]).
  assert (E1 : store_cstr sendbuffer (sizeof_REQUEST_HEADER + HELO.name) client_name
    (fset sendbuffer (encode_request r ++ drop 36 sb) d0) =
    (Done tt, fset sendbuffer ((encode_request r ++ name ++ mid) ++ words [z; z0; z1] ++ drop 112 sb) d0)).
  { etrans; [apply store_bytes_run|reflexivity].
    change (fget sendbuffer (fset sendbuffer ?b d0)) with b.
    rewrite (splice_at _ (encode_request r) (take 7 (drop 36 sb)) (drop 7 (drop 36 sb))).
    - rewrite drop_drop, <- Hv. change (36 + 7)%nat with 43%nat.
      unfold mid. rewrite <- (take_drop 57 (drop 43 sb)) at 1.
      by rewrite drop_drop, <- !(assoc_L (++)).
    - by rewrite take_drop.
    - done.
    - rewrite length_take, length_drop. unfold blen in Hsl. change (length (client_name ++ [x00])) with 7%nat. lia. }
  erewrite bind_done by exact E1. cbv beta.
  assert (Hpre : blen (encode_request r ++ name ++ mid) = 100).
  { unfold blen in *. rewrite !length_app, length_encode_request. unfold mid.
    rewrite length_take, length_drop. change (length name) with 7%nat. lia. }
  erewrite bind_done by (apply (words3_store 0); [by rewrite Hpre|lia]). cbn [insert list_insert].
  erewrite bind_done by (apply (words3_store 1); [by rewrite Hpre|lia]). cbn [insert list_insert].
  erewrite bind_done by (apply (words3_store 2); [by rewrite Hpre|lia]). cbn [insert list_insert].
  assert (Hreq : (encode_request r ++ name ++ mid) ++ words [OS_TYPE_LINUX; 1; 1] = helo_request d).
  { unfold helo_request. by rewrite <- !(assoc_L (++)). }
  assert (Hbuf : fset sendbuffer ((encode_request r ++ name ++ mid) ++ words [OS_TYPE_LINUX; 1; 1] ++
      drop 112 sb) d0 = fset sendbuffer (helo_request d ++ drop 112 sb) d0).
  { by rewrite (assoc_L (++) _ (words _)), Hreq. }
  by rewrite Hbuf.
Qed.

Lemma init_socket_run bs segs h d :
  wf_daemon d → dm_dial d = Connected → tx_script (fget sc d) = [] →
  rx (fget sc d) = bs :: segs → 0 < blen bs ≤ 10000 → decode_answer bs = Some h →
  let d1 := took bs segs (helo_sent d) in
  init_socket d =
    if decide (ah_proxy_error h = PERROR_NONE)
    then (Done 1, reported "session id is %x" (fset session_id (ah_session_id h) d1))
    else (Done 0, reported "server error" d1).
Proof.
  intros Hwf Hdial Hs Hrx Hb Hd d1. unfold init_socket. rewrite Hdial, helo_stored by done.
  set (d2 := fset sendbuffer _ _). pose proof (wf_send d Hwf) as Hsl.
  set (r := mkRequest 112 36 76 0 (u32 (fget msgid d + 1)) TYPE_PROXY_HELO 0 0 0).
  set (body := (client_name ++ [x00]) ++ take 57 (drop 43 (fget sendbuffer d)) ++
               words [OS_TYPE_LINUX; 1; 1]).
  rewrite (transmit_run _ _ r body); [|done| | |done].
  2:{ unfold body, blen in *. rewrite !length_app, length_words, length_take, length_drop.
      change (length client_name) with 6%nat. cbn [length r rh_message_len]. unfold r. cbn [rh_message_len]. lia. }
  2:{ exists (drop 112 (fget sendbuffer d)). by rewrite (assoc_L (++)). }
  change (sent (encode_request r ++ body) d2) with (helo_sent d).
  erewrite bind_done by (apply (recv_packet_run bs segs); [apply (wf_recv d Hwf)|done..]).
  cbv beta. replace (blen bs <? 1) with false by lia.
  pose proof (took_header bs segs (helo_sent d) h Hd) as Hh.
  erewrite if_no_proxy_error_run by exact Hh. case_decide; [|done].
  destruct (decode_answer_fields _ _ Hh) as (_&_&_&_&_&Hse&_).
  by erewrite bind_done by by apply load_run.
Qed.

(** A round when the server has closed the connection: the stale packet is
    handled again. *)
Lemma main_round_eof h d :
  wf_daemon d → tx_script (fget sc d) = [] → rx (fget sc d) = [] → rx_error (fget sc d) = false →
  nd_in (fget node d) = [] → decode_answer (fget recvbuffer d) = Some h →
  ah_message_type h = TYPE_CAPI_WAITFORSIGNAL →
  main_round d = (Done tt, bare_sent TYPE_CAPI_GETMESSAGE (u16 (ah_app_id h)) 1 (fget session_id d) d).
Proof.
  intros Hwf Hs Hrx He Hn Hh Ht. unfold main_round.
  assert (Hr : recv_nonblock d = (Done 0, d)).
  { unfold recv_nonblock, recv_packet, recv_into, zoom, recv, mbind, M_bind. rewrite Hrx. cbn [recv_segs].
    rewrite He. unfold store_bytes, gets, mbind, M_bind.
    rewrite splice_nil by (pose proof (blen_nonneg (fget recvbuffer (fset sc (mkNet [] false
      (tx (fget sc d)) (tx_script (fget sc d))) d))); lia).
    cbn. destruct d as [? ? ? [] ? ? ? ? ? ? ?]; simpl in *. by subst. }
  erewrite bind_done by exact Hr. cbv beta. change (negb (0 <? 0)) with true. cbn [when].
  erewrite bind_done by (erewrite bind_done by (by apply (handle_signal_run _ h)); reflexivity). cbv beta.
  erewrite bind_done by (apply read_node_none; by left). cbv beta.
  set (d1 := bare_sent _ _ _ _ _). change (-1 <=? 0) with true. cbv iota. unfold mret, M_ret. f_equal.
  unfold device_read. assert (Hd1 : nd_in (fget node d1) = []) by exact Hn.
  destruct d1 as [? ? ? ? ? ? ? [] ? ? ?]; simpl in *. by subst.
Qed.

(** ** Queries *)
(** The question is asked and [bs] is the answer. *)
Definition asked (type : Z) (bs : list byte) (segs : list (list byte)) (d : daemon) : daemon :=
  took bs segs (bare_sent type 0 1 (fget session_id d) d).
Definition query_wire (type id sess : Z) : list byte := encode_request (mkRequest 36 36 0 0 id type 0 1 sess).

Lemma asked_wf type bs segs d : wf_daemon d → blen bs ≤ 10000 → wf_daemon (asked type bs segs d).
Proof.
  intros [Hl ? ? ?] Hb. apply took_wf; [|done]. constructor; try done. unfold blen in *.
  change (Z.of_nat (length (encode_request (next_request 0 0 type 0 1 (fget session_id d) d) ++
    drop 36 (fget sendbuffer d))) = 10000).
  rewrite length_app, length_encode_request, length_drop. lia.
Qed.

Definition query {A} (type : Z) (k : Z → D (option A)) : D (option A) :=
  session ← gets session_id;
  set_rheader 0 0 type 0 1 session;;
  transmit None (
    wait_for_answer type;;
    h ← load32 recvbuffer AH.header_len;
    if_no_proxy_error None (k h)).

Lemma query_run {A} type (k : Z → D (option A)) bs segs h d :
  wf_daemon d → tx_script (fget sc d) = [] → rx (fget sc d) = bs :: segs → 0 < blen bs ≤ 10000 →
  decode_answer bs = Some h → ah_message_type h = type → ah_proxy_error h = PERROR_NONE →
  query type k d = k (ah_header_len h) (asked type bs segs d).
Proof.
  intros Hwf Hs Hrx Hbs Hd Ht Hp. pose proof (wf_send d Hwf). unfold query.
  erewrite bind_done by done. cbv beta.
  etrans; [apply bare_request_run; [lia|done]|].
  erewrite bind_done by (by apply (wait_for_answer_run _ bs segs _ h); [apply (wf_recv d)|..]).
  cbv beta. pose proof (took_header bs segs (bare_sent type 0 1 (fget session_id d) d) h Hd) as Hh.
  destruct (decode_answer_fields _ _ Hh) as (Hhl & _). erewrite bind_done by by apply load_run. cbv beta.
  erewrite if_no_proxy_error_run by exact Hh. by rewrite decide_True.
Qed.

(** The body of the answer. *)
Lemma asked_body n v type bs segs d off :
  slice bs off n = Some v → load_bytes recvbuffer off n (asked type bs segs d) = (Done v, asked type bs segs d).
Proof. intros Hv. apply load_bytes_run. by apply slice_app_l. Qed.

(** The server has closed the connection: the packet that is still in recvbuffer is
    taken for the answer. *)
Lemma query_lost {A} type (k : Z → D (option A)) h d :
  wf_daemon d → tx_script (fget sc d) = [] → rx (fget sc d) = [] → rx_error (fget sc d) = false →
  decode_answer (fget recvbuffer d) = Some h → ah_proxy_error h ≠ PERROR_NONE →
  ∃ d', query type k d = (Done None, d') ∧
    tx (fget sc d') = tx (fget sc d) ++ [query_wire type (u32 (fget msgid d + 1)) (fget session_id d)] ∧
    fget node d' = fget node d ∧ fget session_id d' = fget session_id d.
Proof.
  intros Hwf Hs Hrx He Hh Hp. pose proof (wf_send d Hwf). unfold query.
  erewrite bind_done by done. cbv beta.
  set (d1 := bare_sent type 0 1 (fget session_id d) d).
  destruct (recv_packet_eof d1) as (w & Hw & E); [apply (wf_recv d Hwf)| |done|].
  { change (mjoin (rx (fget sc d)) = []). by rewrite Hrx. }
  set (d2 := reported "receiving message" (fset sc w d1)).
  assert (Hlost : wait_for_answer type d1 = (Done tt, d2)).
  { unfold wait_for_answer. cbn [wait_loop]. by erewrite bind_done by exact E. }
  destruct (decode_answer_fields _ _ Hh) as (Hhl & _).
  exists (reported "server error" d2). split_and!; [|by apply (tx_proper w (fget sc d1))|done|done].
  etrans; [apply bare_request_run; [lia|done]|]. fold d1. erewrite bind_done by exact Hlost. cbv beta.
  erewrite bind_done by (by apply load_run). cbv beta.
  erewrite if_no_proxy_error_run by (exact Hh). by rewrite decide_False.
Qed.

(** An answer to a query of [type] whose body starts with the [n] bytes [v]. *)
Definition gives (type n : Z) (v bs : list byte) : Prop :=
  0 < blen bs ≤ 10000 ∧ ∃ h, decode_answer bs = Some h ∧ ah_message_type h = type ∧
    ah_proxy_error h = PERROR_NONE ∧ slice bs (ah_header_len h) n = Some v.

(** The daemon that has asked and been answered; what it prints does not matter. *)
Record informed (type : Z) (segs : list (list byte)) (d d' : daemon) : Prop := {
  if_wf : wf_daemon d';
  if_script : tx_script (fget sc d') = [];
  if_rx : rx (fget sc d') = segs;
  if_tx : tx (fget sc d') = tx (fget sc d) ++ [query_wire type (u32 (fget msgid d + 1)) (fget session_id d)];
  if_session : fget session_id d' = fget session_id d;
  if_msgid : fget msgid d' = u32 (fget msgid d + 1);
  if_node : fget node d' = fget node d;
}.

Lemma asked_informed type bs segs d l :
  wf_daemon d → blen bs ≤ 10000 → informed type segs d (fset reports l (asked type bs segs d)).
Proof. intros Hwf Hb. destruct (asked_wf type bs segs d Hwf Hb). by split. Qed.

Lemma query_gives {A} type n v bs segs (k : Z → D (option A)) (g : list byte → A) d :
  wf_daemon d → tx_script (fget sc d) = [] → rx (fget sc d) = bs :: segs → gives type n v bs →
  (∀ off d, load_bytes recvbuffer off n d = (Done v, d) →
    ∃ l, k off d = (Done (Some (g v)), fset reports l d)) →
  ∃ d', query type k d = (Done (Some (g v)), d') ∧ informed type segs d d'.
Proof.
  intros Hwf Hs Hrx (Hb & h & Hd & Ht & Hp & Hv) Hk.
  rewrite (query_run type k bs segs h d) by done.
  destruct (Hk _ _ (asked_body _ _ type _ segs d _ Hv)) as (l & ->).
  eexists. split; [reflexivity|]. apply asked_informed; [done|lia].
Qed.

Ltac query_of type :=
  intros Hwf Hs Hrx Hg; eapply (query_gives type _ _ _ _ _ (@id (list byte)) _ Hwf Hs Hrx Hg); intros off d0 Hl; erewrite bind_done by exact Hl;
  first [by exists (fget reports d0 ++ ["manufacturer is %s"%string])
        |by exists (fget reports d0 ++ ["serial is %s"%string])
        |exists (fget reports d0); by destruct d0].

Lemma remote_get_manufacturer_run v bs segs d :
  wf_daemon d → tx_script (fget sc d) = [] → rx (fget sc d) = bs :: segs →
  gives TYPE_CAPI_MANUFACTURER CAPI_MANUFACTURER_LEN v bs →
  ∃ d', remote_get_manufacturer d = (Done (Some v), d') ∧ informed TYPE_CAPI_MANUFACTURER segs d d'.
Proof. query_of TYPE_CAPI_MANUFACTURER. Qed.

Lemma remote_get_version_run v bs segs d :
  wf_daemon d → tx_script (fget sc d) = [] → rx (fget sc d) = bs :: segs →
  gives TYPE_CAPI_VERSION sizeof_capi_version v bs →
  ∃ d', remote_get_version d = (Done (Some v), d') ∧ informed TYPE_CAPI_VERSION segs d d'.
Proof. query_of TYPE_CAPI_VERSION. Qed.

Lemma remote_get_serial_run v bs segs d :
  wf_daemon d → tx_script (fget sc d) = [] → rx (fget sc d) = bs :: segs →
  gives TYPE_CAPI_SERIAL CAPI_SERIAL_LEN v bs →
  ∃ d', remote_get_serial d = (Done (Some v), d') ∧ informed TYPE_CAPI_SERIAL segs d d'.
Proof. query_of TYPE_CAPI_SERIAL. Qed.

Lemma remote_get_profile_run v bs segs d :
  wf_daemon d → tx_script (fget sc d) = [] → rx (fget sc d) = bs :: segs →
  gives TYPE_CAPI_PROFILE sizeof_capi_profile v bs →
  ∃ d', remote_get_profile d = (Done (Some v), d') ∧ informed TYPE_CAPI_PROFILE segs d d'.
Proof. query_of TYPE_CAPI_PROFILE. Qed.

(** The four queries with which the daemon starts. *)
Definition query_types : list Z :=
  [TYPE_CAPI_MANUFACTURER; TYPE_CAPI_VERSION; TYPE_CAPI_SERIAL; TYPE_CAPI_PROFILE].
Definition query_wires (id sess : Z) : list (list byte) :=
  imap (λ i type, query_wire type (u32 (id + 1 + Z.of_nat i)) sess) query_types.
Definition module_data (m v s p : list byte) : c2p_init_data :=
  mkInitData (CAPI_MANUFACTURER_LEN + sizeof_capi_version + CAPI_SERIAL_LEN + sizeof_capi_profile) m v s p.

Lemma init_module_run m v s p a1 a2 a3 a4 segs d :
  wf_daemon d → tx_script (fget sc d) = [] → rx (fget sc d) = a1 :: a2 :: a3 :: a4 :: segs →
  gives TYPE_CAPI_MANUFACTURER CAPI_MANUFACTURER_LEN m a1 → gives TYPE_CAPI_VERSION sizeof_capi_version v a2 →
  gives TYPE_CAPI_SERIAL CAPI_SERIAL_LEN s a3 → gives TYPE_CAPI_PROFILE sizeof_capi_profile p a4 →
  ∃ d', init_module d = (Done 1, d') ∧ rx (fget sc d') = segs ∧
    tx (fget sc d') = tx (fget sc d) ++ query_wires (fget msgid d) (fget session_id d) ∧
    nd_ioctls (fget node d') = nd_ioctls (fget node d) ++ [IOCTL_SET_DATA (module_data m v s p)] ∧
    fget session_id d' = fget session_id d.
Proof.
  intros Hwf Hs Hrx H1 H2 H3 H4. unfold init_module.
  destruct (remote_get_manufacturer_run m a1 (a2 :: a3 :: a4 :: segs) d) as (d1 & E1 & []); [done..|].
  destruct (remote_get_version_run v a2 (a3 :: a4 :: segs) d1) as (d2 & E2 & []); [done..|].
  destruct (remote_get_serial_run s a3 (a4 :: segs) d2) as (d3 & E3 & []); [done..|].
  destruct (remote_get_profile_run p a4 segs d3) as (d4 & E4 & []); [done..|].
  rewrite (bind_done _ _ _ _ _ E1), (bind_done _ _ _ _ _ E2), (bind_done _ _ _ _ _ E3), (bind_done _ _ _ _ _ E4).
  eexists. split; [reflexivity|]. split; [done|]. split; [|split; [|change (fget session_id d4 = fget session_id d); congruence]].
  - change (tx (fget sc d4) = tx (fget sc d) ++ query_wires (fget msgid d) (fget session_id d)).
    assert (Hid : ∀ z i, u32 (u32 z + i) = u32 (z + i)) by (intros; unfold u32; apply Zplus_mod_idemp_l).
    repeat match goal with E : tx _ = _ |- _ => rewrite E; clear E end.
    repeat match goal with E : fget msgid _ = _ |- _ => rewrite E; clear E end.
    repeat match goal with E : fget session_id _ = _ |- _ => rewrite E; clear E end.
    rewrite !Hid, <- !(assoc_L (++)). cbn [app]. unfold query_wires, query_types.
    cbn [imap]. unfold compose. do 2 f_equal; [do 2 f_equal; lia|].
    repeat (apply (f_equal2 cons); [do 2 f_equal; lia|]). done.
  - change (nd_ioctls (fget node d4) ++ [IOCTL_SET_DATA (module_data m v s p)] = nd_ioctls (fget node d) ++ [IOCTL_SET_DATA (module_data m v s p)]).
    congruence.
Qed.
End daemon_run.
