(* ===== verification/DaemonProperties.v ===== *)
(** * The client daemon: properties *)
From S2P Require Import Prelude CMem Protocol Net Capi20 CapiUtil Daemon DaemonSpec DaemonSafe DaemonRun.
#[local] Open Scope Z_scope.

Section daemon_properties.
Context `{HC : CapiHeader} `{HU : CapiUtil} `{HL : !CapiUtilLaws}.

(** C12: Whatever the server and the module send, and however many rounds the main
    loop of the daemon makes: its buffers and maps keep their sizes, and everything it
    hands to [send] is (the start of) a request whose header states its lengths correctly.
    Each wait for an answer ends: every turn of that loop but the last takes
    bytes from the stream, so that its fuel, the bytes that are still to come, is not used up.  The
    main loop itself polls without waiting, also on a connection that has come to its end
    ([eof_rounds]). *)
Theorem main_safe n d :
  wf_daemon d →
  (main n d).1 ≠ Faulted Diverged ∧ wf_daemon (main n d).2 ∧
  ∃ ms, tx (fget sc (main n d).2) = tx (fget sc d) ++ ms ∧ Forall sent_request ms.
Proof.
  intros Hd. destruct (safe_main n d Hd) as (H1 & H2 & [_ H3]). by split_and!.
Qed.

(** ** What a round leaves *)
(** A round that has left [segs] of the stream and [ms] of the device, whatever it has sent and told. *)
Record went_on (segs : list (list byte)) (ms : list (option (list byte))) (d d' : daemon) : Prop := mkWentOn {
  wo_wf : wf_daemon d';
  wo_script : tx_script (fget sc d') = [];
  wo_rx : rx (fget sc d') = segs;
  wo_in : nd_in (fget node d') = ms;
  wo_writes : nd_write_script (fget node d') = nd_write_script (fget node d);
  wo_session : fget session_id d' = fget session_id d;
  wo_shutdown : fget c2p_shutdown d' = fget c2p_shutdown d;
}.

Lemma round_wf d d' : wf_daemon d → main_round d = (Done tt, d') → wf_daemon d'.
Proof. intros Hwf E. destruct (safe_main_round d Hwf) as (_ & H & _). by rewrite E in H. Qed.

Lemma forward_round m ms a b ncci cmd bs segs h d :
  wf_daemon d → tx_script (fget sc d) = [] →
  rx (fget sc d) = [] :: bs :: segs → nd_in (fget node d) = Some m :: ms →
  12 ≤ blen m ≤ 9964 → get_u16 m 2 = Some a → get_u8 m 4 = Some cmd → cmd ≠ TYPE_PROXY →
  get_u32 m 8 = Some ncci →
  fget applmap_ltr d !! Z.to_nat a = Some b → 0 ≤ b < 2 ^ 16 →
  0 < blen bs ≤ 10000 → decode_answer bs = Some h → ah_message_type h = TYPE_CAPI_PUTMESSAGE →
  ∃ d', main_round d = (Done tt, d') ∧ went_on segs ms d d' ∧
    tx (fget sc d') = tx (fget sc d) ++ [put_request (outgoing b ncci m) b d] ∧
    nd_out (fget node d') = nd_out (fget node d) ∧ fget msgid d' = u32 (fget msgid d + 1) ∧
    fget applmap_ltr d' = fget applmap_ltr d ∧ fget applmap_rtl d' = fget applmap_rtl d.
Proof.
  intros Hwf Hs Hrx Hn Hm Ha Hc Hcmd Hncci Hb Hbr Hbs Hd Ht.
  enough (∃ d', main_round d = (Done tt, d') ∧ (wf_daemon d' → went_on segs ms d d') ∧
    tx (fget sc d') = tx (fget sc d) ++ [put_request (outgoing b ncci m) b d] ∧
    nd_out (fget node d') = nd_out (fget node d) ∧ fget msgid d' = u32 (fget msgid d + 1) ∧
    fget applmap_ltr d' = fget applmap_ltr d ∧ fget applmap_rtl d' = fget applmap_rtl d) as (d' & E & Hw & H).
  { exists d'. split; [done|]. split; [by eapply Hw, round_wf|done]. }
  rewrite (main_round_message m ms (bs :: segs) d a cmd) by (done || lia).
  replace (cmd =? TYPE_PROXY) with false by lia.
  set (d1 := reported "message from appl %d" (fetched m (polled (bs :: segs) d))).
  erewrite (bind_done (report _) _ _ tt d1) by done. cbv beta.
  set (rest := drop (length m) (fget recvbuffer d)).
  assert (Hwf1 : wf_daemon d1) by (destruct (fetched_wf m (bs :: segs) d Hwf ltac:(lia)); by constructor).
  pose proof (send_to_server_run m rest a b ncci bs segs h d1 Hwf1 Hs eq_refl Hm Ha Hncci Hb Hbr
                eq_refl Hbs Hd Ht) as E.
  assert (Ho : blen (outgoing b ncci m) = blen m).
  { unfold blen. by rewrite length_outgoing by lia. }
  pose proof (put_sent_tx (outgoing b ncci m) rest b d1 ltac:(lia)) as Htx. rewrite Ho in Htx.
  case_decide; erewrite bind_done by exact E; (eexists; split; [reflexivity|]; split; [|by split; [exact Htx|]]);
    (intros Hwf'; split; try done; change (tail (nd_in (fget node d)) = ms); by rewrite Hn).
Qed.

Lemma deliver_round bs segs h m a b d :
  wf_daemon d → tx_script (fget sc d) = [] → nd_write_script (fget node d) = [] →
  device_empty d → rx (fget sc d) = bs :: segs → 0 < blen bs ≤ 10000 →
  decode_answer bs = Some h → ah_message_type h = TYPE_CAPI_GETMESSAGE →
  ah_header_len h + ah_body_len h < 2 ^ 16 →
  slice bs (ah_header_len h + ah_body_len h) (ah_data_len h) = Some m → 4 ≤ blen m →
  get_u16 m 2 = Some a → fget applmap_rtl d !! Z.to_nat a = Some b → 0 ≤ b < 2 ^ 16 →
  ∃ d', main_round d = (Done tt, d') ∧ went_on segs (tail (nd_in (fget node d))) d d' ∧
    nd_out (fget node d') = nd_out (fget node d) ++ [incoming b m] ∧
    tx (fget sc d') = tx (fget sc d) ++
      [encode_request (mkRequest 36 36 0 0 (u32 (fget msgid d + 1)) TYPE_CAPI_WAITFORSIGNAL
                         (u16 (ah_app_id h)) 1 (fget session_id d))].
Proof.
  intros Hwf Hs Hws He Hrx Hbs Hd Ht Hoff Hm H4 Ha Hb Hbr.
  pose proof (took_header bs segs d h Hd) as Hh. pose proof (took_wf bs segs d Hwf ltac:(lia)) as Hwf1.
  destruct (decode_answer_fields _ _ Hh) as (_&_&_&Hty&Hap&_&_).
  set (d1 := took bs segs d) in *.
  assert (Hp : put_le 2 m 2 b = Some (incoming b m)).
  { pose proof (put_appid b m [] H4) as Hp. by rewrite !app_nil_r in Hp. }
  pose proof (send_to_module_run (blen bs) h m (incoming b m) a b d1 Hwf1 Hh Hoff
    (slice_app_l _ _ _ _ _ Hm) Ha Hb Hbr Hp Hws) as E.
  match type of E with _ = (_, ?x) => set (d2 := x) in E end.
  assert (Hl2 : blen (fget sendbuffer d2) = 10000).
  { destruct (safe_send_to_module (blen bs) d1 Hwf1) as (_ & [Hl2 ? ? ?] & _). by rewrite E in Hl2. }
  assert (Hround : main_round d = (Done tt, device_read (bare_sent TYPE_CAPI_WAITFORSIGNAL (u16 (ah_app_id h)) 1
    (fget session_id d) d2))).
  { apply (main_round_packet bs segs d 1 (bare_sent TYPE_CAPI_WAITFORSIGNAL (u16 (ah_app_id h)) 1
    (fget session_id d) d2)).
  - done.
  - done.
  - done.
  - fold d1. unfold handle_serverpacket. erewrite bind_done by by apply load_run. cbv beta.
    rewrite Ht. change (TYPE_CAPI_GETMESSAGE =? TYPE_CAPI_WAITFORSIGNAL) with false.
    cbv iota. rewrite Z.eqb_refl. erewrite bind_done by exact E. cbv beta.
    erewrite bind_done by by apply load_run. cbv beta. unfold remote_waitforsignal.
    erewrite bind_done by done. cbv beta.
    etrans; [apply (bare_request_run 0 (mret 1)); [lia|done]|done].
  - done. }
  exists (device_read (bare_sent TYPE_CAPI_WAITFORSIGNAL (u16 (ah_app_id h)) 1 (fget session_id d) d2)).
  split; [exact Hround|]. pose proof (round_wf _ _ Hwf Hround). split; [by split|done].
Qed.

(** A REGISTER message of the module. *)
Record register_request (m : list byte) (a l3c dbc dbl : Z) : Prop := {
  rr_appid : get_u16 m 2 = Some a;
  rr_command : get_u8 m 4 = Some TYPE_PROXY;
  rr_subcommand : get_u8 m 5 = Some TYPE_REGISTER_APP;
  rr_l3c : get_u32 m 6 = Some l3c;
  rr_dbc : get_u32 m 10 = Some dbc;
  rr_dbl : get_u32 m 14 = Some dbl;
}.

Lemma register_round m ms a l3c dbc dbl bs segs h d :
  wf_daemon d → tx_script (fget sc d) = [] →
  rx (fget sc d) = [] :: bs :: segs → nd_in (fget node d) = Some m :: ms →
  0 < blen m ≤ 10000 → register_request m a l3c dbc dbl → a ≤ CAPI_MAXAPPL →
  0 < blen bs ≤ 10000 → decode_answer bs = Some h → ah_message_type h = TYPE_CAPI_REGISTER →
  0 ≤ ah_app_id h ≤ CAPI_MAXAPPL →
  let register := encode_request (mkRequest 52 36 16 0 (u32 (fget msgid d + 1)) TYPE_CAPI_REGISTER
                                    0 1 (fget session_id d)) ++ register_body l3c dbc dbl in
  let wait := encode_request (mkRequest 36 36 0 0 (u32 (u32 (fget msgid d + 1) + 1))
                TYPE_CAPI_WAITFORSIGNAL (ah_app_id h) 1 (fget session_id d)) in
  ∃ d', main_round d = (Done tt, d') ∧ went_on segs ms d d' ∧ nd_out (fget node d') = nd_out (fget node d) ∧
    if decide (ah_proxy_error h = PERROR_NONE) then
      fget msgid d' = u32 (u32 (fget msgid d + 1) + 1) ∧ fget applmap_rtl d' = <[Z.to_nat (ah_app_id h) := a]> (fget applmap_rtl d) ∧
      fget applmap_ltr d' = <[Z.to_nat a := ah_app_id h]> (fget applmap_ltr d) ∧
      nd_ioctls (fget node d') = nd_ioctls (fget node d) ++ [IOCTL_APPL_REGISTERED a] ∧
      tx (fget sc d') = tx (fget sc d) ++ [register; wait]
    else
      fget applmap_rtl d' = fget applmap_rtl d ∧ fget applmap_ltr d' = fget applmap_ltr d ∧
      nd_ioctls (fget node d') = nd_ioctls (fget node d) ++ [IOCTL_ERROR_REGFAIL a] ∧
      tx (fget sc d') = tx (fget sc d) ++ [register].
Proof.
  intros Hwf Hs Hrx Hn Hm [Ha Hc Hsub H1 H2 H3] Ham Hbs Hd Ht Hap register wait.
  pose proof CAPI_MAXAPPL_range as Hmax.
  enough (∃ d', main_round d = (Done tt, d') ∧ (wf_daemon d' → went_on segs ms d d') ∧ nd_out (fget node d') = nd_out (fget node d) ∧
    if decide (ah_proxy_error h = PERROR_NONE) then
      fget msgid d' = u32 (u32 (fget msgid d + 1) + 1) ∧ fget applmap_rtl d' = <[Z.to_nat (ah_app_id h) := a]> (fget applmap_rtl d) ∧
      fget applmap_ltr d' = <[Z.to_nat a := ah_app_id h]> (fget applmap_ltr d) ∧
      nd_ioctls (fget node d') = nd_ioctls (fget node d) ++ [IOCTL_APPL_REGISTERED a] ∧
      tx (fget sc d') = tx (fget sc d) ++ [register; wait]
    else
      fget applmap_rtl d' = fget applmap_rtl d ∧ fget applmap_ltr d' = fget applmap_ltr d ∧
      nd_ioctls (fget node d') = nd_ioctls (fget node d) ++ [IOCTL_ERROR_REGFAIL a] ∧
      tx (fget sc d') = tx (fget sc d) ++ [register]) as (d' & E & Hw & H).
  { exists d'. split; [done|]. split; [by eapply Hw, round_wf|done]. }
  rewrite (main_round_message m ms (bs :: segs) d a TYPE_PROXY) by (done || lia).
  change (TYPE_PROXY =? TYPE_PROXY) with true. cbv iota.
  set (d1 := fetched m (polled (bs :: segs) d)).
  rewrite (handle_module_request_sub _ TYPE_REGISTER_APP) by by apply get_le_app_l.
  rewrite Z.eqb_refl. pose proof (get_le_bound _ _ _ _ Ha).
  assert (Hu : u16 (ah_app_id h) = ah_app_id h) by (apply Z.mod_small; lia).
  assert (Hua : u16 a = a) by (by apply Z.mod_small).
  pose proof (local_register_appl_run a l3c dbc dbl bs segs h d1 (fetched_wf m (bs :: segs) d Hwf ltac:(lia))
    Hs (get_le_app_l _ _ _ _ _ H1) (get_le_app_l _ _ _ _ _ H2) (get_le_app_l _ _ _ _ _ H3)
    eq_refl Hbs Hd Ht ltac:(lia) ltac:(lia)) as E.
  cbv zeta in E. rewrite !Hu, Hua in E.
  case_decide; erewrite bind_done by exact E; cbv beta; (eexists; split; [reflexivity|]; split;
    [intros Hwf'; split; try done; change (tail (nd_in (fget node d)) = ms); by rewrite Hn|]; split; [done|]).
  - do 4 (split; [done|]).
    transitivity ((tx (fget sc d) ++ [register]) ++ [wait]); [done|]. by rewrite <- (assoc_L (++)).
  - done.
Qed.

(** C26: A message from an application goes to the
    server as one PUTMESSAGE request in the daemon's session: the application id
    is the one the server knows it by, the controller is 1, every other byte is
    the application's.  The daemon then waits for the answer. *)
Theorem main_round_forwards m ms a b ncci cmd bs segs h d :
  wf_daemon d → tx_script (fget sc d) = [] →
  rx (fget sc d) = [] :: bs :: segs → nd_in (fget node d) = Some m :: ms →
  12 ≤ blen m ≤ 9964 → get_u16 m 2 = Some a → get_u8 m 4 = Some cmd → cmd ≠ TYPE_PROXY →
  get_u32 m 8 = Some ncci →
  fget applmap_ltr d !! Z.to_nat a = Some b → 0 ≤ b < 2 ^ 16 →
  0 < blen bs ≤ 10000 → decode_answer bs = Some h → ah_message_type h = TYPE_CAPI_PUTMESSAGE →
  ∃ d', main_round d = (Done tt, d') ∧
    tx (fget sc d') = tx (fget sc d) ++
      [put_request (outgoing b ncci m) b d] ∧
    rx (fget sc d') = segs ∧ nd_in (fget node d') = ms.
Proof.
  intros. destruct (forward_round m ms a b ncci cmd bs segs h d) as (d' & E & [] & Htx & _); [done..|]. by exists d'.
Qed.

(** C27: A GETMESSAGE answer of the server goes to
    the module: the message behind the header, with the application id the module
    knows, the other bytes unchanged.  The daemon then asks for the next signal
    of that application. *)
Theorem main_round_delivers bs segs h m a b d :
  wf_daemon d → tx_script (fget sc d) = [] → nd_write_script (fget node d) = [] →
  device_empty d → rx (fget sc d) = bs :: segs → 0 < blen bs ≤ 10000 →
  decode_answer bs = Some h → ah_message_type h = TYPE_CAPI_GETMESSAGE →
  ah_header_len h + ah_body_len h < 2 ^ 16 →
  slice bs (ah_header_len h + ah_body_len h) (ah_data_len h) = Some m → 4 ≤ blen m →
  get_u16 m 2 = Some a → fget applmap_rtl d !! Z.to_nat a = Some b → 0 ≤ b < 2 ^ 16 →
  ∃ d', main_round d = (Done tt, d') ∧
    nd_out (fget node d') = nd_out (fget node d) ++ [incoming b m] ∧
    tx (fget sc d') = tx (fget sc d) ++
      [encode_request (mkRequest 36 36 0 0 (u32 (fget msgid d + 1)) TYPE_CAPI_WAITFORSIGNAL
                         (u16 (ah_app_id h)) 1 (fget session_id d))] ∧
    rx (fget sc d') = segs.
Proof.
  intros. destruct (deliver_round bs segs h m a b d) as (d' & E & [] & Ho & Htx); [done..|]. exists d'. by split_and!.
Qed.

(** A WAITFORSIGNAL answer makes the daemon fetch
    one message of that application.  Whatever follows the answer in what [recv]
    returned - another answer, say - is dropped. *)
Theorem main_round_signal bs segs h d :
  wf_daemon d → tx_script (fget sc d) = [] → device_empty d →
  rx (fget sc d) = bs :: segs → 0 < blen bs ≤ 10000 →
  decode_answer bs = Some h → ah_message_type h = TYPE_CAPI_WAITFORSIGNAL →
  ∃ d', main_round d = (Done tt, d') ∧
    tx (fget sc d') = tx (fget sc d) ++
      [encode_request (mkRequest 36 36 0 0 (u32 (fget msgid d + 1)) TYPE_CAPI_GETMESSAGE
                         (u16 (ah_app_id h)) 1 (fget session_id d))] ∧
    rx (fget sc d') = segs ∧ nd_out (fget node d') = nd_out (fget node d).
Proof.
  intros Hwf Hs He Hrx Hbs Hd Ht. pose proof (took_wf bs segs d Hwf ltac:(lia)) as Hwf1.
  rewrite (main_round_packet bs segs d 1 (bare_sent TYPE_CAPI_GETMESSAGE (u16 (ah_app_id h)) 1
    (fget session_id d) (took bs segs d))).
  - eexists. split; [reflexivity|]. done.
  - done.
  - done.
  - done.
  - etrans; [apply (handle_signal_run _ h); [done|by apply took_header|done..]|done].
  - done.
Qed.

(** C28: A REGISTER message of the module becomes a
    REGISTER request with its three parameters.  When the server grants it, the
    two maps relate the local and the remote id, the module is told, and the
    daemon asks for the first signal of the application; when it does not, the
    module is told of the failure and the maps are as before. *)
Theorem main_round_registers m ms a l3c dbc dbl bs segs h d :
  wf_daemon d → tx_script (fget sc d) = [] →
  rx (fget sc d) = [] :: bs :: segs → nd_in (fget node d) = Some m :: ms →
  0 < blen m ≤ 10000 → register_request m a l3c dbc dbl → a ≤ CAPI_MAXAPPL →
  0 < blen bs ≤ 10000 → decode_answer bs = Some h → ah_message_type h = TYPE_CAPI_REGISTER →
  0 ≤ ah_app_id h ≤ CAPI_MAXAPPL →
  let register := encode_request (mkRequest 52 36 16 0 (u32 (fget msgid d + 1)) TYPE_CAPI_REGISTER
                                    0 1 (fget session_id d)) ++ register_body l3c dbc dbl in
  let wait := encode_request (mkRequest 36 36 0 0 (u32 (u32 (fget msgid d + 1) + 1))
                TYPE_CAPI_WAITFORSIGNAL (ah_app_id h) 1 (fget session_id d)) in
  ∃ d', main_round d = (Done tt, d') ∧ rx (fget sc d') = segs ∧
    if decide (ah_proxy_error h = PERROR_NONE) then
      fget applmap_rtl d' = <[Z.to_nat (ah_app_id h) := a]> (fget applmap_rtl d) ∧
      fget applmap_ltr d' = <[Z.to_nat a := ah_app_id h]> (fget applmap_ltr d) ∧
      nd_ioctls (fget node d') = nd_ioctls (fget node d) ++ [IOCTL_APPL_REGISTERED a] ∧
      tx (fget sc d') = tx (fget sc d) ++ [register; wait]
    else
      fget applmap_rtl d' = fget applmap_rtl d ∧ fget applmap_ltr d' = fget applmap_ltr d ∧
      nd_ioctls (fget node d') = nd_ioctls (fget node d) ++ [IOCTL_ERROR_REGFAIL a] ∧
      tx (fget sc d') = tx (fget sc d) ++ [register].
Proof.
  intros. destruct (register_round m ms a l3c dbc dbl bs segs h d) as (d' & E & [] & _ & Hg); [done..|].
  exists d'. split; [done|]. split; [done|]. case_decide; [by destruct Hg as [_ Hg]|done].
Qed.

(** A RELEASE message of the module becomes
    a RELEASE request with the module's own application id: the id under which
    the server knows the application is not looked up, and both maps keep their
    entries. *)
Theorem main_round_releases_local m ms a bs segs h d :
  wf_daemon d → tx_script (fget sc d) = [] →
  rx (fget sc d) = [] :: bs :: segs → nd_in (fget node d) = Some m :: ms →
  0 < blen m ≤ 10000 → get_u16 m 2 = Some a → get_u8 m 4 = Some TYPE_PROXY →
  get_u8 m 5 = Some TYPE_RELEASE_APP →
  0 < blen bs ≤ 10000 → decode_answer bs = Some h → ah_message_type h = TYPE_CAPI_RELEASE →
  ∃ d', main_round d = (Done tt, d') ∧
    tx (fget sc d') = tx (fget sc d) ++
      [encode_request (mkRequest 36 36 0 0 (u32 (fget msgid d + 1)) TYPE_CAPI_RELEASE a 1
                         (fget session_id d))] ∧
    fget applmap_rtl d' = fget applmap_rtl d ∧ fget applmap_ltr d' = fget applmap_ltr d ∧
    rx (fget sc d') = segs.
Proof.
  intros Hwf Hs Hrx Hn Hm Ha Hc Hsub Hbs Hd Ht.
  rewrite (main_round_message m ms (bs :: segs) d a TYPE_PROXY) by (done || lia).
  change (TYPE_PROXY =? TYPE_PROXY) with true. cbv iota.
  set (d1 := fetched m (polled (bs :: segs) d)).
  rewrite (handle_module_request_sub _ TYPE_RELEASE_APP) by by apply get_le_app_l.
  change (TYPE_RELEASE_APP =? TYPE_REGISTER_APP) with false. rewrite Z.eqb_refl. cbv iota.
  pose proof (fetched_wf m (bs :: segs) d Hwf ltac:(lia)) as Hwf1. fold d1 in Hwf1.
  pose proof (remote_release_appl_run a bs segs h d1 Hwf1 Hs eq_refl Hbs Hd Ht) as E.
  unfold local_release_appl.
  case_decide; erewrite bind_done by exact E; (eexists; split; [reflexivity|]); done.
Qed.

(** The daemon introduces itself with a HELO
    request and takes the session id from the answer - unless the answer carries
    a proxy error, "authentication required" included: then the session id stays
    what it was. *)
Theorem init_socket_session bs segs h d :
  wf_daemon d → dm_dial d = Connected → tx_script (fget sc d) = [] →
  rx (fget sc d) = bs :: segs → 0 < blen bs ≤ 10000 → decode_answer bs = Some h →
  ∃ d', init_socket d = (Done (if decide (ah_proxy_error h = PERROR_NONE) then 1 else 0), d') ∧
    tx (fget sc d') = tx (fget sc d) ++ [helo_request d] ∧
    fget session_id d' =
      (if decide (ah_proxy_error h = PERROR_NONE) then ah_session_id h else fget session_id d).
Proof.
  intros Hwf Hdial Hs Hrx Hb Hd. rewrite (init_socket_run bs segs h) by done. cbv zeta.
  case_decide; (eexists; split; [reflexivity|done]).
Qed.

(** When the server closes the connection, the daemon does
    not notice: every round finds the length 0, takes the packet that is still in
    recvbuffer for a new one, and, where that is a WAITFORSIGNAL answer, sends
    one more GETMESSAGE request. *)
Theorem eof_rounds n h d :
  wf_daemon d → fget c2p_shutdown d = false → tx_script (fget sc d) = [] →
  rx (fget sc d) = [] → rx_error (fget sc d) = false →
  nd_in (fget node d) = [] →
  decode_answer (fget recvbuffer d) = Some h → ah_message_type h = TYPE_CAPI_WAITFORSIGNAL →
  ∃ d', main_rounds n d = (Done tt, d') ∧
    tx (fget sc d') = tx (fget sc d) ++
      ((λ i, encode_request (mkRequest 36 36 0 0 (u32 (fget msgid d + Z.of_nat i))
               TYPE_CAPI_GETMESSAGE (u16 (ah_app_id h)) 1 (fget session_id d))) <$> seq 1 n).
Proof.
  revert d. induction n as [|n IH]; intros d Hwf Hc Hs Hrx He Hn Hh Ht.
  { exists d. by rewrite app_nil_r. }
  cbn [main_rounds]. erewrite bind_done by done. cbv beta. rewrite Hc.
  erewrite bind_done by (by apply (main_round_eof h)). cbv beta.
  set (d1 := bare_sent _ _ _ _ _).
  assert (Hwf1 : wf_daemon d1).
  { destruct Hwf as [Hl ? ? ?]. constructor; try done. unfold blen in *.
    change (Z.of_nat (length (encode_request (next_request 0 0 TYPE_CAPI_GETMESSAGE
      (u16 (ah_app_id h)) 1 (fget session_id d) d) ++ drop 36 (fget sendbuffer d))) = 10000).
    rewrite length_app, length_encode_request, length_drop. lia. }
  destruct (IH d1) as (d' & E & Htx); [done..|].
  exists d'. split; [exact E|]. rewrite Htx, <- cons_seq, fmap_cons, <- (fmap_S_seq 1 n), <- list_fmap_compose.
  change (tx (fget sc d1)) with (tx (fget sc d) ++
    [encode_request (next_request 0 0 TYPE_CAPI_GETMESSAGE (u16 (ah_app_id h)) 1 (fget session_id d) d)]).
  rewrite <- (assoc_L (++)). cbn [app]. f_equal. apply (f_equal2 cons); [done|]. apply list_fmap_ext. intros i j _. unfold compose.
  replace (u32 (fget msgid d1 + Z.of_nat j)) with (u32 (fget msgid d + Z.of_nat (S j))); [done|].
  change (fget msgid d1) with (u32 (fget msgid d + 1)). unfold u32.
  rewrite Zplus_mod_idemp_l. f_equal. lia.
Qed.

(** The controller of a forwarded message is 1:
    the low seven bits are replaced, the others (the external flag, PLCI and NCCI)
    are kept, and nothing overflows. *)
Theorem set_controller_bits ncci :
  0 ≤ ncci < 2 ^ 32 →
  Z.land (set_controller ncci) 127 = 1 ∧
  (∀ i, 7 ≤ i → Z.testbit (set_controller ncci) i = Z.testbit ncci i) ∧
  0 ≤ set_controller ncci < 2 ^ 32.
Proof.
  intros Hn. unfold set_controller.
  rewrite (land_high 7 25) by lia. change (2 ^ 7) with 128.
  pose proof (Z.div_mod ncci 128 ltac:(lia)). pose proof (Z.mod_pos_bound ncci 128 ltac:(lia)).
  rewrite u32_small by lia. split_and!; [| |lia..].
  - change 127 with (Z.ones 7). rewrite Z.land_ones by lia. change (2 ^ 7) with 128.
    rewrite Z.add_comm, Z.mul_comm, Z_mod_plus_full. done.
  - intros i Hi. replace i with (i - 7 + 7) by lia. rewrite <- !Z.shiftr_spec by lia.
    f_equal. rewrite !Z.shiftr_div_pow2 by lia. change (2 ^ 7) with 128.
    rewrite Z.mul_comm, Z.div_add_l by lia. by rewrite Z.add_0_r.
Qed.

(** Neither the lengths of a packet nor the
    application id in it are checked: a data part that ends behind recvbuffer is
    read there, and an id without an entry in the map indexes behind it. Nothing
    reaches the module then. *)
Theorem send_to_module_unchecked len h d :
  wf_daemon d → decode_answer (fget recvbuffer d) = Some h →
  ah_header_len h + ah_body_len h < 2 ^ 16 →
  (10000 < ah_header_len h + ah_body_len h + ah_data_len h ∨
   ∃ m a, slice (fget recvbuffer d) (ah_header_len h + ah_body_len h) (ah_data_len h) = Some m ∧
          get_u16 m 2 = Some a ∧ CAPI_MAXAPPL < a) →
  (send_to_module len d).1 = Faulted OutOfBounds ∧ fget node (send_to_module len d).2 = fget node d.
Proof.
  intros Hwf Hh Hoff Hbad. destruct (decode_answer_fields _ _ Hh) as (Hhl&Hbl&Hdl&_&_&_&_).
  pose proof (get_le_bound _ _ _ _ Hhl). pose proof (get_le_bound _ _ _ _ Hbl).
  pose proof (wf_recv d Hwf) as Hrl. pose proof (wf_send d Hwf) as Hsl.
  unfold send_to_module. do 3 erewrite bind_done by by apply load_run. cbv beta zeta.
  replace (u16 (ah_header_len h + ah_body_len h)) with (ah_header_len h + ah_body_len h)
    by (symmetry; apply Z.mod_small; lia).
  destruct Hbad as [Hbad|(m & a & Hm & Ha & Hbad)].
  { by erewrite bind_faulted by (apply load_bytes_fault, slice_None; lia). }
  erewrite bind_done by by apply load_bytes_run. cbv beta.
  assert (Hml : blen m ≤ 10000).
  { pose proof (slice_length _ _ _ _ Hm). unfold slice in Hm. case_decide; [lia|done]. }
  erewrite bind_done by (apply store_bytes_run, splice_Some; [done|lia]). cbv beta.
  set (d1 := fset sendbuffer _ d).
  assert (E : map_appid applmap_rtl sendbuffer d1 = (Faulted OutOfBounds, d1)).
  { unfold map_appid. erewrite bind_done.
    2:{ apply msg_get_run. rewrite capimsg_appid. exact (get_le_app_l _ _ _ _ _ Ha). }
    cbv beta. apply bind_faulted. unfold map_get. erewrite bind_done by done. cbv beta.
    apply try_None. case_decide; [|done]. apply lookup_ge_None_2.
    change (fget applmap_rtl d1) with (fget applmap_rtl d). pose proof (wf_rtl d Hwf). lia. }
  by erewrite bind_faulted by exact E.
Qed.

(** An answer of the server in one packet. *)
Definition answered (type : Z) (h : ANSWER_HEADER) (bs : list byte) : Prop :=
  0 < blen bs ≤ 10000 ∧ decode_answer bs = Some h ∧ ah_message_type h = type.

Lemma u32_next x i : u32 (u32 (x + i) + 1) = u32 (x + (i + 1)).
Proof. unfold u32. rewrite Zplus_mod_idemp_l. f_equal. lia. Qed.

(** C29: An application registers, sends a message and gets one: whatever the maps held before, once
    the server has registered the local application [a] as its application [b] the server gets the
    message of the application with [b] for its id, and the message it sends to [b] arrives at the
    module under [a], the id the module knows, with every other byte as the server sent it.
    The requests of the three rounds are those of the one session, in this order and with
    consecutive message ids. *)
Theorem application_roundtrip m1 m2 m3 ms a l3c dbc dbl ncci cmd r1 r2 r3 h1 h2 h3 segs d :
  wf_daemon d → fget c2p_shutdown d = false → tx_script (fget sc d) = [] → nd_write_script (fget node d) = [] →
  rx (fget sc d) = [] :: r1 :: [] :: r2 :: r3 :: segs → nd_in (fget node d) = Some m1 :: Some m2 :: None :: ms →
  0 < blen m1 ≤ 10000 → register_request m1 a l3c dbc dbl → a ≤ CAPI_MAXAPPL →
  answered TYPE_CAPI_REGISTER h1 r1 → ah_proxy_error h1 = PERROR_NONE → 0 ≤ ah_app_id h1 ≤ CAPI_MAXAPPL →
  12 ≤ blen m2 ≤ 9964 → get_u16 m2 2 = Some a → get_u8 m2 4 = Some cmd → cmd ≠ TYPE_PROXY → get_u32 m2 8 = Some ncci →
  answered TYPE_CAPI_PUTMESSAGE h2 r2 →
  answered TYPE_CAPI_GETMESSAGE h3 r3 → ah_header_len h3 + ah_body_len h3 < 2 ^ 16 →
  slice r3 (ah_header_len h3 + ah_body_len h3) (ah_data_len h3) = Some m3 → 4 ≤ blen m3 → get_u16 m3 2 = Some (ah_app_id h1) →
  let b := ah_app_id h1 in let sess := fget session_id d in let id i := u32 (fget msgid d + i) in
  ∃ d' m, main_rounds 3 d = (Done tt, d') ∧
    nd_out (fget node d') = nd_out (fget node d) ++ [m] ∧ get_u16 m 2 = Some a ∧ incoming b m = m3 ∧
    tx (fget sc d') = tx (fget sc d) ++
      [encode_request (mkRequest 52 36 16 0 (id 1) TYPE_CAPI_REGISTER 0 1 sess) ++ register_body l3c dbc dbl;
       encode_request (mkRequest 36 36 0 0 (id 2) TYPE_CAPI_WAITFORSIGNAL b 1 sess);
       encode_request (mkRequest (36 + blen m2) 36 0 (blen m2) (id 3) TYPE_CAPI_PUTMESSAGE b 1 sess) ++ outgoing b ncci m2;
       encode_request (mkRequest 36 36 0 0 (id 4) TYPE_CAPI_WAITFORSIGNAL (u16 (ah_app_id h3)) 1 sess)].
Proof.
  intros Hwf Hrun Hs Hws Hrx Hn Hm1 Hreg Ham (Hb1 & Hd1 & Ht1) Hp1 Hap Hm2 Ha2 Hc2 Hcmd Hncci (Hb2 & Hd2 & Ht2)
    (Hb3 & Hd3 & Ht3) Hoff Hm3 H4 Ha3 b sess id.
  pose proof CAPI_MAXAPPL_range as Hmax. pose proof (get_le_bound _ _ _ _ (rr_appid _ _ _ _ _ Hreg)) as Har.
  change (2 ^ (8 * Z.of_nat 2)) with 65536 in Har.
  destruct (register_round m1 (Some m2 :: None :: ms) a l3c dbc dbl r1 ([] :: r2 :: r3 :: segs) h1 d)
    as (d1 & E1 & [] & Ho1 & Hg); [done..|]. rewrite decide_True in Hg by done. destruct Hg as (Hi1 & Hr1 & Hl1 & _ & Htx1).
  destruct (forward_round m2 (None :: ms) a b ncci cmd r2 (r3 :: segs) h2 d1)
    as (d2 & E2 & [] & Htx2 & Ho2 & Hi2 & Hl2 & Hr2); try done; [|unfold b; lia|].
  { rewrite Hl1, list_lookup_insert_eq; [done|]. pose proof (wf_ltr d Hwf). lia. }
  destruct (deliver_round r3 segs h3 m3 b a d2) as (d3 & E3 & [] & Ho3 & Htx3); try done; [congruence|by right; rewrite wo_in1| |].
  { rewrite Hr2, Hr1, list_lookup_insert_eq; [done|]. pose proof (wf_rtl d Hwf). unfold b. lia. }
  exists d3, (incoming a m3). split; [|split; [|split; [|split]]].
  - cbn [main_rounds]. do 3 (erewrite bind_done by done; cbv beta; replace (fget c2p_shutdown _) with false by congruence;
      erewrite bind_done by done; cbv beta). done.
  - by rewrite Ho3, Ho2, Ho1.
  - pose proof (put_appid a m3 [] H4) as Hp. rewrite !app_nil_r in Hp. rewrite (get_le_splice_at 2 _ _ _ _ Hp). f_equal.
    apply Z.mod_small. lia.
  - by apply incoming_incoming.
  - rewrite Htx3, Htx2, Htx1, <- !(assoc_L (++)). cbn [app]. f_equal.
    unfold put_request. rewrite Hi2, Hi1, wo_session1, wo_session0, !u32_next.
    assert (Hlo : blen (outgoing b ncci m2) = blen m2) by (unfold blen; by rewrite length_outgoing by lia).
    by rewrite Hlo.
Qed.
End daemon_properties.
