(* ===== verification/DaemonWitness.v ===== *)
(** * The daemon's theorems on concrete packets *)
From S2P Require Import Prelude CMem Protocol Net Capi20 CapiUtil Demo Daemon DaemonSpec DaemonSafe DaemonRun DaemonProperties.
#[local] Open Scope Z_scope.

#[local] Existing Instance capi20_layout.
#[local] Existing Instance capi20_layout_laws.

(** A daemon in session 3 whose application 5 is the server's 2. *)
Definition demo_map (i v : nat) : list Z := <[i := Z.of_nat v]> (replicate 241 0).
Definition demo_daemon (recv : list byte) (segs : list (list byte))
    (msgs : list (option (list byte))) : daemon :=
  mkDaemon (replicate 10000 x00) (recv ++ replicate (10000 - length recv) x00) false
    (mkNet segs false [] []) Connected 0 3 (mkDevice msgs [] [] []) (demo_map 2 5) (demo_map 5 2) [].

Ltac demo_wf := constructor; vm_compute; reflexivity.
Ltac eval_ne := apply Z.eqb_neq; vm_compute; reflexivity.

(** A message with an application id, a command and an NCCI. *)
Definition demo_message (appid cmd sub ncci : Z) : list byte :=
  le_split 2 20 ++ le_split 2 appid ++ le_split 1 cmd ++ le_split 1 sub ++ le_split 2 1 ++
  le_split 4 ncci ++ replicate 8 x00.
Definition demo_answer (type app err data : Z) : ANSWER_HEADER :=
  mkAnswer (40 + data) 40 0 data 1 type app 3 err 0.

Lemma main_safe_witness :
  let d := demo_daemon [] [] [Some (demo_message 5 0x86 0x80 0x10102)] in
  wf_daemon d ∧ (main 3 d).1 ≠ Faulted Diverged ∧ wf_daemon (main 3 d).2 ∧
  ∃ ms, tx (fget sc (main 3 d).2) = tx (fget sc d) ++ ms ∧ Forall sent_request ms.
Proof.
  intros d. assert (Hd : wf_daemon d) by demo_wf.
  split; [exact Hd|]. exact (main_safe 3 d Hd).
Defined.

Lemma main_round_forwards_witness :
  let m := demo_message 5 0x86 0x80 0x10102 in
  let d := demo_daemon [] [[]; encode_answer (demo_answer TYPE_CAPI_PUTMESSAGE 2 0 0)] [Some m] in
  ∃ d', main_round d = (Done tt, d') ∧
    tx (fget sc d') = tx (fget sc d) ++ [put_request (outgoing 2 0x10102 m) 2 d] ∧
    rx (fget sc d') = [] ∧ nd_in (fget node d') = [].
Proof.
  intros m d. apply (main_round_forwards m [] 5 2 0x10102 0x86
    (encode_answer (demo_answer TYPE_CAPI_PUTMESSAGE 2 0 0)) [] (demo_answer TYPE_CAPI_PUTMESSAGE 2 0 0));
    first [demo_wf|eval_eq|eval_range|eval_ne].
Defined.

Lemma main_round_delivers_witness :
  let m := demo_message 2 0x86 0x82 0x10101 in
  let h := demo_answer TYPE_CAPI_GETMESSAGE 2 0 20 in
  let d := demo_daemon [] [encode_answer h ++ m] [] in
  ∃ d', main_round d = (Done tt, d') ∧
    nd_out (fget node d') = nd_out (fget node d) ++ [incoming 5 m] ∧
    tx (fget sc d') = tx (fget sc d) ++
      [encode_request (mkRequest 36 36 0 0 (u32 (fget msgid d + 1)) TYPE_CAPI_WAITFORSIGNAL
                         (u16 (ah_app_id h)) 1 (fget session_id d))] ∧
    rx (fget sc d') = [].
Proof.
  intros m h d. apply (main_round_delivers (encode_answer h ++ m) [] h m 2 5);
    first [demo_wf|left; reflexivity|eval_eq|eval_range|eval_lt|eval_le].
Defined.

Lemma main_round_signal_witness :
  let h := demo_answer TYPE_CAPI_WAITFORSIGNAL 2 0 0 in
  let d := demo_daemon [] [encode_answer h ++ encode_answer h] [] in
  ∃ d', main_round d = (Done tt, d') ∧
    tx (fget sc d') = tx (fget sc d) ++
      [encode_request (mkRequest 36 36 0 0 (u32 (fget msgid d + 1)) TYPE_CAPI_GETMESSAGE
                         (u16 (ah_app_id h)) 1 (fget session_id d))] ∧
    rx (fget sc d') = [] ∧ nd_out (fget node d') = nd_out (fget node d).
Proof.
  intros h d. apply (main_round_signal (encode_answer h ++ encode_answer h) [] h);
    first [demo_wf|left; reflexivity|eval_eq|eval_range].
Defined.

Definition demo_register_message : list byte :=
  le_split 2 18 ++ le_split 2 7 ++ le_split 1 0 ++ le_split 1 2 ++ words [2; 7; 128].

Lemma main_round_registers_witness :
  let h := demo_answer TYPE_CAPI_REGISTER 3 0 0 in
  let d := demo_daemon [] [[]; encode_answer h] [Some demo_register_message] in
  ∃ d', main_round d = (Done tt, d') ∧ rx (fget sc d') = [] ∧
    fget applmap_rtl d' = <[3%nat := 7]> (fget applmap_rtl d) ∧
    fget applmap_ltr d' = <[7%nat := 3]> (fget applmap_ltr d) ∧
    nd_ioctls (fget node d') = nd_ioctls (fget node d) ++ [IOCTL_APPL_REGISTERED 7] ∧
    tx (fget sc d') = tx (fget sc d) ++
      [encode_request (mkRequest 52 36 16 0 1 TYPE_CAPI_REGISTER 0 1 3) ++ register_body 2 7 128;
       encode_request (mkRequest 36 36 0 0 2 TYPE_CAPI_WAITFORSIGNAL 3 1 3)].
Proof.
  intros h d. apply (main_round_registers demo_register_message [] 7 2 7 128 (encode_answer h) [] h d);
    first [demo_wf|constructor; eval_eq|eval_eq|eval_range|eval_le].
Defined.

Lemma main_round_releases_local_witness :
  let m := demo_message 5 0 3 0 in
  let h := demo_answer TYPE_CAPI_RELEASE 5 0 0 in
  let d := demo_daemon [] [[]; encode_answer h] [Some m] in
  ∃ d', main_round d = (Done tt, d') ∧
    tx (fget sc d') = tx (fget sc d) ++
      [encode_request (mkRequest 36 36 0 0 (u32 (fget msgid d + 1)) TYPE_CAPI_RELEASE 5 1
                         (fget session_id d))] ∧
    fget applmap_rtl d' = fget applmap_rtl d ∧ fget applmap_ltr d' = fget applmap_ltr d ∧
    rx (fget sc d') = [].
Proof.
  intros m h d. apply (main_round_releases_local m [] 5 (encode_answer h) [] h);
    first [demo_wf|eval_eq|eval_range].
Defined.

Lemma init_socket_session_witness :
  let h := demo_answer TYPE_PROXY_HELO 0 PERROR_AUTH_REQUIRED 0 in
  let d := demo_daemon [] [encode_answer h] [] in
  ∃ d', init_socket d = (Done (if decide (ah_proxy_error h = PERROR_NONE) then 1 else 0), d') ∧
    tx (fget sc d') = tx (fget sc d) ++ [helo_request d] ∧
    fget session_id d' =
      (if decide (ah_proxy_error h = PERROR_NONE) then ah_session_id h else fget session_id d).
Proof.
  intros h d. apply (init_socket_session (encode_answer h) [] h);
    first [demo_wf|eval_eq|eval_range].
Defined.

Lemma eof_rounds_witness :
  let h := demo_answer TYPE_CAPI_WAITFORSIGNAL 2 0 0 in
  let d := demo_daemon (encode_answer h) [] [] in
  ∃ d', main_rounds 3 d = (Done tt, d') ∧
    tx (fget sc d') = tx (fget sc d) ++
      ((λ i, encode_request (mkRequest 36 36 0 0 (u32 (fget msgid d + Z.of_nat i))
               TYPE_CAPI_GETMESSAGE (u16 (ah_app_id h)) 1 (fget session_id d))) <$> seq 1 3).
Proof. intros h d. apply (eof_rounds 3 h); first [demo_wf|eval_eq]. Defined.

Lemma set_controller_bits_witness :
  Z.land (set_controller 0x10102) 127 = 1 ∧
  (∀ i, 7 ≤ i → Z.testbit (set_controller 0x10102) i = Z.testbit 0x10102 i) ∧
  0 ≤ set_controller 0x10102 < 2 ^ 32.
Proof. apply set_controller_bits. eval_range. Defined.

Lemma send_to_module_unchecked_witness :
  let h := demo_answer TYPE_CAPI_GETMESSAGE 2 0 9990 in
  let d := demo_daemon (encode_answer h) [] [] in
  (send_to_module 40 d).1 = Faulted OutOfBounds ∧ fget node (send_to_module 40 d).2 = fget node d.
Proof.
  intros h d. apply (send_to_module_unchecked 40 h); [demo_wf|eval_eq|eval_lt|].
  left. eval_lt.
Defined.

(** Application 7 becomes 3 at the server, sends a message and gets one. *)
Lemma application_roundtrip_witness :
  let m2 := demo_message 7 0x86 0x80 0x10102 in
  let m3 := demo_message 3 0x86 0x82 0x10101 in
  let h1 := demo_answer TYPE_CAPI_REGISTER 3 0 0 in
  let h2 := demo_answer TYPE_CAPI_PUTMESSAGE 3 0 0 in
  let h3 := demo_answer TYPE_CAPI_GETMESSAGE 3 0 20 in
  let d := demo_daemon [] [[]; encode_answer h1; []; encode_answer h2; encode_answer h3 ++ m3]
             [Some demo_register_message; Some m2; None] in
  ∃ d' m, main_rounds 3 d = (Done tt, d') ∧
    nd_out (fget node d') = nd_out (fget node d) ++ [m] ∧ get_u16 m 2 = Some 7 ∧ incoming 3 m = m3.
Proof.
  intros m2 m3 h1 h2 h3 d.
  destruct (application_roundtrip demo_register_message m2 m3 [] 7 2 7 128 0x10102 0x86
    (encode_answer h1) (encode_answer h2) (encode_answer h3 ++ m3) h1 h2 h3 [] d) as (d' & m & H1 & H2 & H3 & H4 & _);
    [first [demo_wf|repeat split; first [eval_eq|eval_range|eval_lt|eval_le]|eval_eq|eval_range|eval_lt|eval_le|eval_ne]..|].
  exists d', m. exact (conj H1 (conj H2 (conj H3 H4))).
Defined.
