(* ===== verification/LinuxPair.v ===== *)
(** * The Linux client and the two Linux servers together

    What the daemon of Daemon.v puts on the wire when it starts is what a connection
    handler takes from its socket, and the other way round: with the current server,
    which does not let it in, and with revision 1.14. *)
From stdpp Require Import gmap.
From S2P Require Import Prelude CMem Protocol Net Capi20 OldApps OldServer AppIndex Server Packet Exec Proxy Capifwd ExecSpec ProxySpec Handled Handlers CapifwdSpec Served ServerProperties OldSpec OldRun.
From S2P Require Import CapiUtil Daemon DaemonSpec DaemonRun.
#[local] Open Scope Z_scope.

(** ** What the client sends first *)
Definition helo_header_sent (id : Z) : REQUEST_HEADER := mkRequest 112 36 76 0 id TYPE_PROXY_HELO 0 0 0.
Definition helo_payload (d : daemon) : list byte :=
  (client_name ++ [x00]) ++ take 57 (drop 43 (fget sendbuffer d)) ++ words [OS_TYPE_LINUX; 1; 1].
Definition next_id (d : daemon) : Z := u32 (fget msgid d + 1).

Lemma helo_request_split d : helo_request d = encode_request (helo_header_sent (next_id d)) ++ helo_payload d.
Proof. done. Qed.

Ltac words_ok := repeat (apply Forall_cons; split; [first [assumption|lia|by split]|]); by apply Forall_nil.

Section pair.
Context `{CapiHeader} {CS : Type} `{Capi20 CS} `{!Capi20Laws CS} `{OldHeader} `{HU : CapiUtil} `{HL : !CapiUtilLaws}.
Implicit Types d : daemon.

Lemma blen_helo_payload d : wf_daemon d → blen (helo_payload d) = 76.
Proof.
  intros Hwf. pose proof (wf_send d Hwf) as Hl. unfold helo_payload, blen in *.
  rewrite !length_app, length_words, length_take, length_drop. change (length client_name) with 6%nat.
  cbn [length]. lia.
Qed.

Lemma wf_helo_sent d : wf_daemon d → wf_daemon (helo_sent d).
Proof.
  intros Hwf. pose proof (blen_helo_payload d Hwf) as Hpay. destruct Hwf as [Hl ? ? ?]. constructor; try done.
  change (blen (helo_request d ++ drop 112 (fget sendbuffer d)) = 10000).
  rewrite helo_request_split, !blen_app, Hpay, blen_encode_request. unfold blen, sizeof_REQUEST_HEADER in *.
  rewrite length_drop. lia.
Qed.
Lemma wf_reported text d : wf_daemon d → wf_daemon (reported text d).
Proof. by intros []. Qed.
Lemma wf_session_id id d : wf_daemon d → wf_daemon (fset session_id id d).
Proof. by intros []. Qed.

Lemma next_id_range d : 0 ≤ next_id d < 2 ^ 32.
Proof. apply u32_range. Qed.

Lemma helo_sent_wf id : 0 ≤ id < 2 ^ 32 → wf_request (helo_header_sent id).
Proof. intros Hid. unfold wf_request, request_words, helo_header_sent. cbn. words_ok. Qed.

Lemma query_wf type id sess :
  0 ≤ type < 2 ^ 32 → 0 ≤ id < 2 ^ 32 → 0 ≤ sess < 2 ^ 32 → wf_request (mkRequest 36 36 0 0 id type 0 1 sess).
Proof. intros. unfold wf_request, request_words. cbn. words_ok. Qed.

(** What a server reads in the HELO. *)
Lemma helo_client_linux d id rest :
  wf_daemon d →
  helo_client (helo_header_sent id) (encode_request (helo_header_sent id) ++ helo_payload d ++ rest) =
    Some (OS_TYPE_LINUX, mkVersion 1 1, client_name).
Proof.
  intros Hwf. set (r := helo_header_sent id). set (pre := (client_name ++ [x00]) ++ take 57 (drop 43 (fget sendbuffer d))).
  set (ws := words [OS_TYPE_LINUX; 1; 1]).
  assert (Hpay : helo_payload d = pre ++ ws) by (unfold helo_payload, pre; by rewrite <- (assoc_L (++))).
  assert (Hpre : blen pre = 64).
  { pose proof (blen_helo_payload d Hwf) as Hb. rewrite Hpay, blen_app in Hb. change (blen ws) with 12 in Hb. lia. }
  assert (Hfield : ∀ off v, get_u32 ws (off - 64) = Some v → 64 ≤ off →
    get_u32 (encode_request r ++ helo_payload d ++ rest) (36 + off) = Some v).
  { intros off v Hv Ho. rewrite <- (blen_encode_request r : _ = 36), get_le_app_r, Hpay, <- (assoc_L (++)) by lia.
    replace off with (blen pre + (off - 64)) by lia. rewrite get_le_app_r by lia. by apply get_le_app_l. }
  unfold helo_client. change (rh_header_len r) with 36.
  rewrite (Hfield HELO.os OS_TYPE_LINUX) by done. cbn [mbind option_bind].
  rewrite (Hfield HELO.version_major 1) by done. cbn [mbind option_bind].
  rewrite (Hfield HELO.version_minor 1) by done. cbn [mbind option_bind].
  change (36 + HELO.name) with 36.
  rewrite (slice_at _ (encode_request r) (helo_payload d ++ rest) []);
    [|by rewrite app_nil_r|by rewrite blen_encode_request|rewrite blen_app, blen_encode_request; unfold sizeof_REQUEST_HEADER; lia].
  cbn [mbind option_bind]. unfold helo_payload. by rewrite <- !(assoc_L (++)).
Qed.

(** ** The current server *)
(** Its answer to HELO. *)
Definition helo_answer d (s : server CS) : list byte :=
  encode_answer (helo_header (helo_header_sent (next_id d)) s) ++ helo_body (fget Server.local_version s) (payload_area s).

(** C4: The Linux client is locked out of the current server.  The answer to HELO
    asks for authentication, which the client does not know; it takes no session id, goes
    on all the same and asks for the manufacturer of the card.  That request is only a
    header: the server takes it for the end of the stream and exits.  The client finds the
    answer to HELO still in its buffer, takes it for that to its query, and gives up
    without having told the module anything. *)
Theorem linux_client_locked_out (s : server CS) d :
  inv s → wf_daemon d → dm_dial d = Connected → 0 ≤ fget session_id d < 2 ^ 32 →
  tx_script (fget Server.sock s) = [] → tx_script (fget sc d) = [] →
  let sent := [helo_request d; query_wire TYPE_CAPI_MANUFACTURER (u32 (fget msgid d + 2)) (fget session_id d)] in
  let received := [helo_answer d s] in
  rx_bytes (fget Server.sock s) = mjoin sent → rx (fget sc d) = received → rx_error (fget sc d) = false →
  (∃ s', (handle_message;; handle_message) s = (Exited 0, s') ∧ owned (fget Server.capi s') = ∅ ∧
     tx (fget Server.sock s') = tx (fget Server.sock s) ++ received) ∧
  (∃ d', (init_socket;; init_module) d = (Done 0, d') ∧ fget node d' = fget node d ∧
     fget session_id d' = fget session_id d ∧ tx (fget sc d') = tx (fget sc d) ++ sent).
Proof.
  intros Hi Hwf Hdial Hse Hss Hds sent received Hsrx Hdrx Herr. pose proof (inv_wf s Hi) as Hws.
  set (r := helo_header_sent (next_id d)). set (q := mkRequest 36 36 0 0 (u32 (fget msgid d + 2)) TYPE_CAPI_MANUFACTURER 0 1 (fget session_id d)).
  assert (Hrx : rx_bytes (fget Server.sock s) = encode_request r ++ helo_payload d ++ encode_request q).
  { rewrite Hsrx. unfold sent. cbn [mjoin list_join]. rewrite app_nil_r, helo_request_split. by rewrite <- (assoc_L (++)). }
  pose proof (blen_helo_payload d Hwf) as Hpay.
  split.
  - edestruct (serve_helo r (helo_payload d) (encode_request q) s) as (s1 & E1 & (Hi1 & Hs1 & _) & [Htx1 Hrx1] & _);
      [done| |done|done|by apply helo_client_linux|done|].
    { split; [apply helo_sent_wf, next_id_range|done|by rewrite Hpay|by rewrite Hpay|by rewrite Hpay]. }
    destruct (header_only_closes q [] s1 Hi1) as (s2 & E2 & Htx2 & Ho & _);
      [apply query_wf; [done|apply u32_range|done]|done|by rewrite app_nil_r|].
    exists s2. split_and!; [by rewrite (bind_done _ _ _ _ _ E1)|done|by rewrite Htx2, Htx1].
  - set (h := helo_header r s).
    assert (Hb : blen (helo_answer d s) = 124).
    { unfold helo_answer. rewrite blen_app, blen_encode_answer. unfold blen.
      rewrite length_helo_body by (rewrite length_payload_area by done; lia). done. }
    assert (Hh : decode_answer (helo_answer d s) = Some h).
    { apply decode_answer_encode. pose proof (wf_session s Hws). unfold h, helo_header, wf_answer, answer_words. cbn.
      pose proof (next_id_range d). words_ok. }
    pose proof (init_socket_run (helo_answer d s) [] h d Hwf Hdial Hds Hdrx ltac:(lia) Hh) as E1. cbv zeta in E1.
    rewrite decide_False in E1 by done. rewrite (bind_done _ _ _ _ _ E1).
    set (d1 := reported _ _) in *.
    destruct (query_lost TYPE_CAPI_MANUFACTURER (λ h, manu ← load_bytes recvbuffer h CAPI_MANUFACTURER_LEN;
      report "manufacturer is %s";; mret (Some manu)) h d1) as (d2 & E2 & Htx2 & Hn2 & Hs2); [|done..|by apply took_header|done|].
    { apply wf_reported, took_wf; [by apply wf_helo_sent|lia]. }
    unfold init_module. change remote_get_manufacturer with (query TYPE_CAPI_MANUFACTURER (λ h, manu ← load_bytes recvbuffer h CAPI_MANUFACTURER_LEN;
      report "manufacturer is %s";; mret (Some manu))). rewrite (bind_done _ _ _ _ _ E2).
    eexists. split; [reflexivity|]. split; [exact Hn2|]. split; [exact Hs2|].
    change (tx (fget sc d2) = tx (fget sc d) ++ sent). rewrite Htx2.
    change (tx (fget sc d1)) with (tx (fget sc d) ++ [helo_request d]).
    change (fget msgid d1) with (u32 (fget msgid d + 1)). change (fget session_id d1) with (fget session_id d).
    rewrite <- (assoc_L (++)). unfold sent. cbn [app]. do 4 f_equal. unfold u32. rewrite Zplus_mod_idemp_l. f_equal. lia.
Qed.

(** ** Revision 1.14 of the server *)
(** Its HELO is the one of the current server under another name and without the demand
    for authentication; for it the versions have to agree, too. *)
Section helo.
Context (arriving : list (list byte) * bool).
Definition same_version (s1 : oserver CS) (s2 : server CS) : Prop :=
  same_server arriving s1 s2 ∧ fget OldServer.local_version s1 = fget Server.local_version s2.

Ltac version_twins := constructor;
  [intros s1 s2 [? ?]; by apply twins_get|intros a s1 s2 [? ?]; split; [by apply twins_set|done]].
#[local] Instance version_in_packet : Twins same_version OldServer.in_packet Server.in_packet.
Proof. version_twins. Qed.
#[local] Instance version_out_packet : Twins same_version OldServer.out_packet Server.out_packet.
Proof. version_twins. Qed.
#[local] Instance version_sessionID : Twins same_version OldServer.sessionID Server.sessionID.
Proof. version_twins. Qed.
#[local] Instance version_client_info : Twins same_version OldServer.client_info Server.client_info.
Proof. version_twins. Qed.
#[local] Instance version_client_name : Twins same_version OldServer.client_info_name Server.client_info_name.
Proof.
  constructor.
  - intros s1 s2 Hs. exact (f_equal ci_name (twins_get (F1:=OldServer.client_info) s1 s2 Hs)).
  - intros a s1 s2 Hs. pose proof (twins_get (F1:=OldServer.client_info) s1 s2 Hs) as Hc.
    pose proof (twins_set (F1:=OldServer.client_info) (mkClientInfo (ci_os (fget Server.client_info s2))
      (ci_version (fget Server.client_info s2)) a (ci_messageBufferLen (fget Server.client_info s2))) s1 s2 Hs) as Hset.
    unfold OldServer.client_info_name, client_info_name. cbn [fset]. cbv zeta. by rewrite Hc.
Qed.
#[local] Instance version_local_version : Twins same_version OldServer.local_version Server.local_version.
Proof.
  constructor; [by intros s1 s2 [? ?]|]. intros a s1 s2 [[[] ? ? ? ? ? ? ?] ?]. split; [|done]. by split.
Qed.

Lemma version_send bs : coupled same_version (zoom OldServer.sock (send bs)) (zoom Server.sock (send bs)).
Proof.
  intros s1 s2 [Hs Hv]. destruct (coupled_send arriving bs s1 s2 Hs) as [Ho Hs']. split; [exact Ho|].
  intros Hf. split; [by apply Hs'|]. unfold zoom. destruct (send _ _), (send _ _). exact Hv.
Qed.

Lemma coupled_helo :
  coupled same_version OldServer.exec_proxy_helo (helo_answering OldServer.helo_server_name 0).
Proof.
  unfold OldServer.exec_proxy_helo, helo_answering, OldServer.request, request, OldServer.set_head, set_head,
    OldServer.send_out_packet, send_out_packet. couple. apply version_send.
Qed.
End helo.

(** The old server, in step with a state of the current one that sends whole packets. *)
Record paired (segs : list (list byte)) (err : bool) (s1 : oserver CS) (s2 : server CS) : Prop := {
  pr_inv : inv s2;
  pr_same : same_server (segs, err) s1 s2;
  pr_script : tx_script (sv_sock s2) = [];
}.

(** A round that sends [bs] and changes neither session nor library. *)
Definition replies (bs : list byte) (segs : list (list byte)) (err : bool) (s1 : oserver CS) (s2 : server CS) : Prop :=
  ∃ s1' s2', OldServer.handle_message s1 = (Done tt, s1') ∧ paired segs err s1' s2' ∧
    tx (os_sock s1') = tx (os_sock s1) ++ [bs] ∧
    fget Server.sessionID s2' = fget Server.sessionID s2 ∧ fget Server.capi s2' = fget Server.capi s2.

(** A request, when the dispatcher does what a reply of the current server does. *)
Lemma old_replied r data segs err (s1 : oserver CS) s2 h payload (sw : net → server CS) :
  paired ((encode_request r ++ data) :: segs) err s1 s2 → fits r data → 40 + blen payload ≤ PACKET_SIZE →
  (∀ w t1, inv (received r data w s2) → same_server (segs, err) t1 (received r data w s2) →
     fget OldServer.local_version t1 = fget OldServer.local_version s1 →
     ((OldServer.dispatch t1).1 = (reply h payload (sw w)).1 ∧
      ((∀ f, (OldServer.dispatch t1).1 ≠ Faulted f) →
        same_server (segs, err) (OldServer.dispatch t1).2 (reply h payload (sw w)).2)) ∧
     inv (sw w) ∧ fget Server.sock (sw w) = w ∧ fget Server.sessionID (sw w) = fget Server.sessionID s2 ∧
     fget Server.capi (sw w) = fget Server.capi s2) →
  replies (encode_answer h ++ payload) segs err s1 s2.
Proof.
  intros [Hi Hs Hscript] Hf Hpay Hd. pose proof (inv_wf _ Hi) as Hwf.
  set (w := advance (36 + length data) (sv_sock s2)).
  assert (Hw : tx w = tx (sv_sock s2) ∧ tx_script w = []) by (by split).
  destruct (old_receives r data segs err s1 s2 w Hwf Hs (fits_wf _ _ Hf) (fits_size _ _ Hf) (reflexivity _))
    as (t1 & E & Ht1 & Hv).
  assert (Hir : inv (received r data w s2)).
  { apply inv_in_packet; [by apply inv_sock|].
    apply (wf_in _ (received_packet r data w s2 Hwf (fits_size _ _ Hf))). }
  destruct (Hd w t1 Hir Ht1 Hv) as ([Ho Hsame] & Hsw & Hsock & Hsess & Hcapi).
  assert (Hrep : reply h payload (sw w) = (Done (40 + blen payload), (reply h payload (sw w)).2))
    by (apply reply_complete; rewrite Hsock; apply Hw).
  rewrite Hrep in Ho. destruct (OldServer.dispatch t1) as [o1 s1'] eqn:E1. cbn [fst snd] in *. subst o1.
  specialize (Hsame ltac:(done)). exists s1', (reply h payload (sw w)).2. pose proof (blen_nonneg payload).
  assert (Hsk : sv_sock (reply h payload (sw w)).2 = mkNet (rx w) (rx_error w) (tx w ++ [encode_answer h ++ payload]) []).
  { change (sv_sock ?x) with (fget Server.sock x). rewrite reply_state, (fget_fset (F:=Server.sock)), Hsock, send_complete; [done|apply Hw]. }
  split; [|split; [split|split; [|by rewrite reply_state]]].
  - rewrite E, (bind_done _ _ _ _ _ E1). by replace (40 + blen payload <? 1) with false by lia.
  - by apply inv_reply.
  - exact Hsame.
  - by rewrite Hsk.
  - rewrite (tx_proper _ _ (same_sock _ _ _ Hsame)), (tx_proper _ _ (same_sock _ _ _ Hs)), Hsk.
    cbn [tx]. by rewrite (proj1 Hw).
Qed.

(** A query, which is a header only. *)
Lemma old_query type id h payload handler segs err (s1 : oserver CS) s2 :
  let r := mkRequest 36 36 0 0 id type 0 1 (fget Server.sessionID s2) in
  paired (encode_request r :: segs) err s1 s2 →
  (type, handler) ∈ capi_handlers → 0 ≤ type < 2 ^ 32 → 0 ≤ id < 2 ^ 32 → neither_helo_nor_auth r →
  40 + blen payload ≤ PACKET_SIZE →
  (∀ w, wf_server (received r [] w s2) → decode_request (fget Server.in_packet (received r [] w s2)) = Some r →
     handler (received r [] w s2) = reply h payload (received r [] w s2)) →
  replies (encode_answer h ++ payload) segs err s1 s2.
Proof.
  intros r Hp Hh Hty Hid [Hn1 Hn2] Hpay Hrun. pose proof (wf_session s2 (inv_wf _ (pr_inv _ _ _ _ Hp))) as Hsess.
  apply (old_replied r [] segs err s1 s2 h payload (λ w, received r [] w s2)); [by rewrite app_nil_r| |done|].
  { by split; [apply query_wf| |]. }
  intros w t1 Hir Ht1 _. pose proof (received_request r [] w s2 (query_wf _ _ _ Hty Hid Hsess)) as Hr.
  destruct (decode_request_fields _ _ Hr) as (_&_&_&_&_&Ht&_&_&_).
  split; [|done]. rewrite <- Hrun by (done || apply Hir).
  replace (handler (received r [] w s2)) with (dispatch (received r [] w s2)); [by eapply coupled_dispatch|].
  rewrite (dispatch_capi r _ handler Hr Hh). change (fget Server.sessionID (received r [] w s2)) with (fget Server.sessionID s2).
  by rewrite Z.eqb_refl.
Qed.

(** HELO. *)
Lemma old_helo d segs err (s1 : oserver CS) s2 :
  wf_daemon d → paired (helo_request d :: segs) err s1 s2 →
  fget OldServer.local_version s1 = fget Server.local_version s2 →
  ∃ body, blen body = 84 ∧
    replies (encode_answer (helo_header_of 0 (helo_header_sent (next_id d)) s2) ++ body) segs err s1 s2.
Proof.
  intros Hwf Hp Hv. set (r := helo_header_sent (next_id d)). pose proof (blen_helo_payload d Hwf) as Hpay.
  pose proof (inv_wf _ (pr_inv _ _ _ _ Hp)) as Hws.
  set (body := helo_body_of OldServer.helo_server_name (fget Server.local_version s2) (payload_area s2)).
  assert (Hbody : blen body = 84).
  { unfold blen, body. rewrite length_helo_body_of; [done|vm_compute; lia|]. rewrite length_payload_area by done. lia. }
  assert (Hr : wf_request r) by apply helo_sent_wf, next_id_range.
  exists body. split; [done|].
  apply (old_replied r (helo_payload d) segs err s1 s2 _ _
    (λ w, helo_remember OS_TYPE_LINUX (mkVersion 1 1) client_name (received r (helo_payload d) w s2))); [done| | |].
  { split; [done|by rewrite Hpay|by rewrite Hpay]. }
  { by rewrite Hbody. }
  intros w t1 Hir Ht1 Hlv. pose proof (received_request r (helo_payload d) w s2 Hr) as Hreq.
  destruct (decode_request_fields _ _ Hreq) as (_&_&_&_&_&Ht&_&_&_).
  split; [|split_and!; [|done..]].
  - assert (Hdisp : OldServer.dispatch t1 = OldServer.exec_proxy_helo t1).
    { unfold OldServer.dispatch. rewrite (bind_done (OldServer.request _) _ t1 TYPE_PROXY_HELO t1); [done|].
      apply load_run. by rewrite (twins_get (F1:=OldServer.in_packet) _ _ Ht1). }
    rewrite Hdisp.
    pose proof (helo_answering_run OldServer.helo_server_name 0 r (received r (helo_payload d) w s2) OS_TYPE_LINUX
      (mkVersion 1 1) client_name ltac:(vm_compute; lia) (inv_wf _ Hir) Hreq (helo_client_linux d _ _ Hwf) ltac:(done)) as Hrun.
    destruct (coupled_helo (segs, err) t1 (received r (helo_payload d) w s2)) as [Ho Hs].
    { split; [done|]. rewrite Hlv. exact Hv. }
    rewrite Hrun in Ho, Hs. split; [exact Ho|]. intros Hf. apply (Hs Hf).
  - apply inv_client_info; [done|]. pose proof (wf_name s2 Hws) as Hn.
    change (blen (client_name ++ x00 :: drop (S (length client_name)) (ci_name (fget Server.client_info s2))) = 64).
    unfold blen in *. rewrite length_app. cbn [length]. rewrite length_drop.
    change (ci_name (fget Server.client_info s2)) with (fget Server.client_info_name s2).
    change (length client_name) with 6%nat. change (ci_name ?x) with (ci_name x) in Hn. lia.
Qed.

(** ** Starting with the old server *)
Fixpoint old_rounds (n : nat) : M (oserver CS) unit :=
  match n with
  | O => mret tt
  | S n => OldServer.handle_message;; old_rounds n
  end.

(** The answer to a query is what the client takes it for. *)
Lemma answer_gives type id sess app rc (n : nat) v body :
  0 ≤ type < 2 ^ 32 → 0 ≤ id < 2 ^ 32 → 0 ≤ sess < 2 ^ 32 → 0 ≤ rc < 2 ^ 32 →
  length body = n → Z.of_nat n ≤ 9960 → app = 0 → v = body →
  gives type (Z.of_nat n) v (encode_answer (mkAnswer (40 + Z.of_nat n) 40 (Z.of_nat n) 0 id type app sess 0 rc) ++ body).
Proof.
  intros Hty Hid Hse Hrc Hl Hn -> ->. set (h := mkAnswer _ _ _ _ _ _ _ _ _ _).
  assert (Hb : blen body = Z.of_nat n) by (unfold blen; by rewrite Hl).
  pose proof (blen_encode_answer h) as Hh. unfold sizeof_ANSWER_HEADER in Hh.
  split; [rewrite blen_app, Hb, Hh; lia|]. exists h. split_and!; [|done..|].
  - apply decode_answer_encode. unfold wf_answer, answer_words, h. cbn. words_ok.
  - apply (slice_at _ (encode_answer h) body []); [by rewrite app_nil_r|by rewrite Hh|done].
Qed.

(** The four queries. *)
Definition query_at (type id : Z) (s2 : server CS) : list byte := query_wire type id (fget Server.sessionID s2).

Ltac type_range := split; [by apply Z.leb_le|by apply Z.ltb_lt].

Lemma body_prefix n bs (s2 : server CS) :
  (length bs ≤ n)%nat → bs `prefix_of` body n bs s2.
Proof.
  intros Hn. unfold body. rewrite take_app_ge by done. by eexists.
Qed.

(** The parts of a query that do not depend on its type. *)
Lemma old_asked type id rc (n : nat) v handler segs err (s1 : oserver CS) s2 :
  paired (query_at type id s2 :: segs) err s1 s2 → 0 ≤ id < 2 ^ 32 → 0 ≤ type < 2 ^ 32 → 0 ≤ rc < 2 ^ 32 →
  type ≠ TYPE_PROXY_HELO → type ≠ TYPE_PROXY_AUTH → (type, handler) ∈ capi_handlers →
  length v = n → Z.of_nat n ≤ 9960 →
  (∀ w, let s := received (mkRequest 36 36 0 0 id type 0 1 (fget Server.sessionID s2)) [] w s2 in
     wf_server s → decode_request (fget Server.in_packet s) = Some (mkRequest 36 36 0 0 id type 0 1 (fget Server.sessionID s2)) →
     handler s = reply (mkAnswer (40 + Z.of_nat n) 40 (Z.of_nat n) 0 id type 0 (fget Server.sessionID s2) 0 rc) v s) →
  ∃ bs, replies bs segs err s1 s2 ∧ gives type (Z.of_nat n) v bs.
Proof.
  intros Hp Hid Hty Hrc Hh Ha Hin Hv Hn Hrun. pose proof (wf_session s2 (inv_wf _ (pr_inv _ _ _ _ Hp))) as Hsess.
  eexists. split.
  - apply (old_query type id (mkAnswer (40 + Z.of_nat n) 40 (Z.of_nat n) 0 id type 0 (fget Server.sessionID s2) 0 rc)
      v handler segs err s1 s2); [done..| |exact Hrun].
    unfold blen, PACKET_SIZE. rewrite Hv. lia.
  - by apply answer_gives.
Qed.

Section queries.
Context (id : Z) (Hid : 0 ≤ id < 2 ^ 32) (segs : list (list byte)) (err : bool) (s1 : oserver CS) (s2 : server CS).

Lemma old_manufacturer :
  paired (query_at TYPE_CAPI_MANUFACTURER id s2 :: segs) err s1 s2 →
  ∃ m bs, replies bs segs err s1 s2 ∧ gives TYPE_CAPI_MANUFACTURER 64 m bs ∧
    capi20_get_manufacturer 1 (fget Server.capi s2) `prefix_of` m.
Proof using Hid Capi20Laws0 HL.
  intros Hp. pose proof (inv_wf _ (pr_inv _ _ _ _ Hp)) as Hwf.
  pose proof (manufacturer_length 1 (fget Server.capi s2)) as Hl. unfold blen in Hl.
  set (m := body 64 (capi20_get_manufacturer 1 (fget Server.capi s2)) s2). exists m.
  destruct (old_asked TYPE_CAPI_MANUFACTURER id 0 64 m exec_capi_manufacturer segs err s1 s2) as (bs & Hr & Hg);
    [done|done|type_range|done|done|done|unfold capi_handlers; set_solver| |done| |].
  - apply length_body; [done|lia].
  - intros w s Hws Hr. by rewrite (exec_capi_manufacturer_run _ s Hws Hr).
  - exists bs. split_and!; [done|done|]. apply body_prefix. lia.
Qed.

Lemma old_version :
  paired (query_at TYPE_CAPI_VERSION id s2 :: segs) err s1 s2 →
  let v := capi20_get_version 1 (fget Server.capi s2) in
  ∃ bs, replies bs segs err s1 s2 ∧ gives TYPE_CAPI_VERSION 16 (drop 8 v ++ take 8 v) bs.
Proof using Hid Capi20Laws0 HL.
  intros Hp v. pose proof (version_length 1 (fget Server.capi s2)) as Hl. fold v in Hl. unfold blen in Hl.
  apply (old_asked TYPE_CAPI_VERSION id 0 16 _ exec_capi_version segs err s1 s2);
    [done|done|type_range|done|done|done|unfold capi_handlers; set_solver| |done|].
  - rewrite length_app, length_drop, length_take. lia.
  - intros w s Hws Hr. by rewrite (exec_capi_version_run _ s Hws Hr).
Qed.

Lemma old_serial :
  paired (query_at TYPE_CAPI_SERIAL id s2 :: segs) err s1 s2 →
  ∃ sn bs, replies bs segs err s1 s2 ∧ gives TYPE_CAPI_SERIAL 8 sn bs ∧
    capi20_get_serial_number 1 (fget Server.capi s2) `prefix_of` sn.
Proof using Hid Capi20Laws0 HL.
  intros Hp. pose proof (inv_wf _ (pr_inv _ _ _ _ Hp)) as Hwf.
  pose proof (serial_length 1 (fget Server.capi s2)) as Hl. unfold blen in Hl.
  set (m := body 8 (capi20_get_serial_number 1 (fget Server.capi s2)) s2). exists m.
  destruct (old_asked TYPE_CAPI_SERIAL id 0 8 m exec_capi_serial segs err s1 s2) as (bs & Hr & Hg);
    [done|done|type_range|done|done|done|unfold capi_handlers; set_solver| |done| |].
  - apply length_body; [done|lia].
  - intros w s Hws Hr. by rewrite (exec_capi_serial_run _ s Hws Hr).
  - exists bs. split_and!; [done|done|]. apply body_prefix. lia.
Qed.

Lemma old_profile :
  paired (query_at TYPE_CAPI_PROFILE id s2 :: segs) err s1 s2 →
  ∃ p bs, replies bs segs err s1 s2 ∧ gives TYPE_CAPI_PROFILE 64 p bs ∧
    (capi20_get_profile 1 (fget Server.capi s2)).2 `prefix_of` p.
Proof using Hid Capi20Laws0 HL.
  intros Hp. pose proof (inv_wf _ (pr_inv _ _ _ _ Hp)) as Hwf.
  pose proof (profile_length 1 (fget Server.capi s2)) as Hl. unfold blen in Hl.
  pose proof (profile_code 1 (fget Server.capi s2)) as Hrc.
  destruct (capi20_get_profile 1 (fget Server.capi s2)) as [rc profile] eqn:E. cbn [fst snd] in *.
  set (m := body 64 profile s2). exists m.
  destruct (old_asked TYPE_CAPI_PROFILE id rc 64 m exec_capi_profile segs err s1 s2) as (bs & Hr & Hg);
    [done|done|type_range|lia|done|done|unfold capi_handlers; set_solver| |done| |].
  - apply length_body; [done|lia].
  - intros w s Hws Hr. by rewrite (exec_capi_profile_run _ s rc profile Hws Hr E).
  - exists bs. split_and!; [done|done|]. apply body_prefix. lia.
Qed.
End queries.

(** The state of the client before it starts, with what will arrive. *)
Definition to_receive (segs : list (list byte)) d : daemon :=
  fset sc (mkNet segs false (tx (fget sc d)) []) d.

Lemma old_inv_version arriving (s1 : oserver CS) :
  old_inv arriving s1 →
  ∃ s2, inv s2 ∧ same_server arriving s1 s2 ∧ fget OldServer.local_version s1 = fget Server.local_version s2.
Proof.
  intros (s2 & [Hwf Hreg Hch] & Hs). exists (fset Server.local_version (fget OldServer.local_version s1) s2).
  split; [|split; [|done]].
  - split; [by destruct Hwf|done|done].
  - destruct Hs as [[] ? ? ? ? ? ? ?]. by split.
Qed.

(** What the client does with the five answers. *)
Lemma client_starts d b0 body0 h m v sn p a1 a2 a3 a4 :
  wf_daemon d → dm_dial d = Connected → b0 = encode_answer h ++ body0 → blen body0 = 84 → wf_answer h →
  ah_proxy_error h = PERROR_NONE →
  gives TYPE_CAPI_MANUFACTURER 64 m a1 → gives TYPE_CAPI_VERSION 16 v a2 →
  gives TYPE_CAPI_SERIAL 8 sn a3 → gives TYPE_CAPI_PROFILE 64 p a4 →
  ∃ d', (init_socket;; init_module) (to_receive [b0; a1; a2; a3; a4] d) = (Done 1, d') ∧
    tx (fget sc d') = tx (fget sc d) ++ helo_request d :: query_wires (next_id d) (ah_session_id h) ∧
    fget session_id d' = ah_session_id h ∧
    nd_ioctls (fget node d') = nd_ioctls (fget node d) ++ [IOCTL_SET_DATA (module_data m v sn p)].
Proof.
  intros Hwf Hdial Hb0 Hbody Hh Hpe G1 G2 G3 G4.
  set (d0 := to_receive _ d). assert (Hwf0 : wf_daemon d0) by (by destruct Hwf).
  assert (Hb : blen b0 = 124) by (rewrite Hb0, blen_app, blen_encode_answer, Hbody; done).
  assert (Hdec : decode_answer b0 = Some h) by (rewrite Hb0; by apply decode_answer_encode).
  pose proof (init_socket_run b0 [a1; a2; a3; a4] h d0 Hwf0 Hdial eq_refl eq_refl ltac:(lia) Hdec) as E. cbv zeta in E.
  rewrite decide_True in E by done. rewrite (bind_done _ _ _ _ _ E).
  set (d1 := reported _ _).
  destruct (init_module_run m v sn p a1 a2 a3 a4 [] d1) as (d' & E' & _ & Htx & Hio & Hse);
    [|done|done|by rewrite manufacturer_len_value|by rewrite version_size_value|by rewrite serial_len_value|
     by rewrite profile_size_value|].
  { apply wf_reported, wf_session_id, took_wf; [by apply wf_helo_sent|lia]. }
  exists d'. split_and!; [done| |done|done]. rewrite Htx.
  change (tx (fget sc d1)) with (tx (fget sc d) ++ [helo_request d]). by rewrite <- (assoc_L (++)).
Qed.

(** What the server does with the five requests. *)
Lemma old_answers d err (s1 : oserver CS) s2 :
  let c := fget Server.capi s2 in
  let v := capi20_get_version 1 c in
  wf_daemon d → paired (helo_request d :: query_wires (next_id d) (fget Server.sessionID s2)) err s1 s2 →
  fget OldServer.local_version s1 = fget Server.local_version s2 →
  ∃ body0 m sn p a1 a2 a3 a4 s1',
    let b0 := encode_answer (helo_header_of 0 (helo_header_sent (next_id d)) s2) ++ body0 in
    old_rounds 5 s1 = (Done tt, s1') ∧ tx (os_sock s1') = tx (os_sock s1) ++ [b0; a1; a2; a3; a4] ∧
    blen body0 = 84 ∧
    gives TYPE_CAPI_MANUFACTURER 64 m a1 ∧ gives TYPE_CAPI_VERSION 16 (drop 8 v ++ take 8 v) a2 ∧
    gives TYPE_CAPI_SERIAL 8 sn a3 ∧ gives TYPE_CAPI_PROFILE 64 p a4 ∧
    capi20_get_manufacturer 1 c `prefix_of` m ∧ capi20_get_serial_number 1 c `prefix_of` sn ∧
    (capi20_get_profile 1 c).2 `prefix_of` p.
Proof.
  intros c v Hwf Hp Hv.
  assert (Hid : ∀ i, 0 ≤ u32 (next_id d + 1 + Z.of_nat i) < 2 ^ 32) by (intros; apply u32_range).
  destruct (old_helo d _ err s1 s2 Hwf Hp Hv) as (body0 & Hb0 & t1 & u1 & E0 & Hp1 & Htx0 & Hs1 & Hc1).
  unfold query_wires, query_types in Hp1. cbn [imap] in Hp1. rewrite <- Hs1 in Hp1.
  destruct (old_manufacturer _ (Hid 0%nat) _ err t1 u1 Hp1) as (m & a1 & (t2 & u2 & E1 & Hp2 & Htx1 & Hs2 & Hc2) & G1 & Hm).
  rewrite <- Hs2 in Hp2.
  destruct (old_version _ (Hid 1%nat) _ err t2 u2 Hp2) as (a2 & (t3 & u3 & E2 & Hp3 & Htx2 & Hs3 & Hc3) & G2).
  rewrite <- Hs3 in Hp3.
  destruct (old_serial _ (Hid 2%nat) _ err t3 u3 Hp3) as (sn & a3 & (t4 & u4 & E3 & Hp4 & Htx3 & Hs4 & Hc4) & G3 & Hsn).
  rewrite <- Hs4 in Hp4.
  destruct (old_profile _ (Hid 3%nat) _ err t4 u4 Hp4) as (p & a4 & (t5 & u5 & E4 & Hp5 & Htx4 & _) & G4 & Hpr).
  rewrite ?Hc4, ?Hc3, ?Hc2, ?Hc1 in *. exists body0, m, sn, p, a1, a2, a3, a4, t5. cbv zeta. split_and!; try done.
  - cbn [old_rounds]. by rewrite (bind_done _ _ _ _ _ E0), (bind_done _ _ _ _ _ E1), (bind_done _ _ _ _ _ E2),
      (bind_done _ _ _ _ _ E3), (bind_done _ _ _ _ _ E4).
  - rewrite Htx4, Htx3, Htx2, Htx1, Htx0. by rewrite <- !(assoc_L (++)).
Qed.

(** C3: The Linux client and revision 1.14 of the server: the client takes the session
    id from the answer to its HELO, each of its four queries, which are headers only, is
    answered, and it tells the module manufacturer, serial number and profile of
    controller 1 as the library of the server gives them - but the halves of the version
    exchanged, since the answer has the manufacturer's first. *)
Theorem linux_client_old_server err (s1 : oserver CS) d :
  let c := fget OldServer.capi s1 in
  let version := capi20_get_version 1 c in
  let sent := helo_request d :: query_wires (next_id d) (fget OldServer.sessionID s1) in
  old_inv (sent, err) s1 → tx_script (os_sock s1) = [] → wf_daemon d → dm_dial d = Connected →
  ∃ received s1', old_rounds 5 s1 = (Done tt, s1') ∧ tx (os_sock s1') = tx (os_sock s1) ++ received ∧
  ∃ d' m sn p, (init_socket;; init_module) (to_receive received d) = (Done 1, d') ∧
    tx (fget sc d') = tx (fget sc d) ++ sent ∧
    fget session_id d' = fget OldServer.sessionID s1 ∧
    nd_ioctls (fget node d') =
      nd_ioctls (fget node d) ++ [IOCTL_SET_DATA (module_data m (drop 8 version ++ take 8 version) sn p)] ∧
    capi20_get_manufacturer 1 c `prefix_of` m ∧ capi20_get_serial_number 1 c `prefix_of` sn ∧
    (capi20_get_profile 1 c).2 `prefix_of` p.
Proof.
  intros c version sent Hi Hscript Hwf Hdial. destruct (old_inv_version _ s1 Hi) as (s2 & Hi2 & Hs & Hv).
  assert (Hsess : fget OldServer.sessionID s1 = fget Server.sessionID s2) by (apply (same_sessionID _ _ (same_process _ _ _ Hs))).
  assert (Hc : c = fget Server.capi s2) by (apply (same_capi _ _ _ Hs)).
  assert (Hp : paired sent err s1 s2).
  { split; [done|done|]. destruct (same_sock _ _ _ Hs) as (_ & _ & _ & <-). done. }
  unfold sent in Hp. rewrite Hsess in Hp.
  destruct (old_answers d err s1 s2 Hwf Hp Hv) as (body0 & m & sn & p & a1 & a2 & a3 & a4 & s1' & E & Htx & Hb & G1 & G2 & G3 & G4 & Hpre).
  eexists _, s1'. split; [exact E|]. split; [exact Htx|].
  set (h := helo_header_of 0 (helo_header_sent (next_id d)) s2).
  set (v := drop 8 (capi20_get_version 1 (fget Server.capi s2)) ++ take 8 (capi20_get_version 1 (fget Server.capi s2))) in *.
  destruct (client_starts d (encode_answer h ++ body0) body0 h m v sn p a1 a2 a3 a4 Hwf Hdial eq_refl Hb)
    as (d' & E' & Htx' & Hse' & Hio); [|done..|].
  { pose proof (wf_session s2 (inv_wf _ Hi2)). pose proof (next_id_range d).
    unfold h, helo_header_of, wf_answer, answer_words. cbn. words_ok. }
  exists d', m, sn, p. change (ah_session_id h) with (fget Server.sessionID s2) in *.
  unfold sent, version. rewrite Hsess, Hc. split_and!; done || apply Hpre.
Qed.
End pair.

(** * Client and servers on concrete states *)
From S2P Require Import Demo ServerWitness OldProperties DaemonWitness.
#[local] Existing Instance capi20_layout.
#[local] Existing Instance capi20_layout_laws.

Definition idle_daemon : daemon := demo_daemon [] [] [].
Definition first_requests : list (list byte) :=
  [DaemonRun.helo_request idle_daemon; query_wire TYPE_CAPI_MANUFACTURER 2 3].
Definition first_server : server demo := demo_start first_requests [] [] false.
Definition told_daemon : daemon := demo_daemon [] [helo_answer idle_daemon first_server] [].

Lemma linux_client_locked_out_witness :
  (∃ s', (handle_message;; handle_message) first_server = (Exited 0, s')) ∧
  ∃ d', (init_socket;; init_module) told_daemon = (Done 0, d').
Proof.
  destruct (linux_client_locked_out first_server told_daemon) as [(s' & E & _) (d' & E' & _)].
  - demo_inv.
  - demo_wf.
  - reflexivity.
  - eval_range.
  - reflexivity.
  - reflexivity.
  - unfold rx_bytes. reflexivity.
  - reflexivity.
  - reflexivity.
  - split; [by exists s'|by exists d'].
Defined.

(** The old server of the witnesses of OldProperties.v has session 3. *)
Definition start_requests : list (list byte) := DaemonRun.helo_request idle_daemon :: query_wires (next_id idle_daemon) 3.

Lemma linux_client_old_server_witness :
  ∃ received s1' d', old_rounds 5 (old_demo_start start_requests) = (Done tt, s1') ∧
    (init_socket;; init_module) (to_receive received idle_daemon) = (Done 1, d') ∧ fget session_id d' = 3.
Proof.
  destruct (linux_client_old_server false (old_demo_start start_requests) idle_daemon)
    as (received & s1' & E & _ & d' & m & sn & p & E' & _ & Hs & _).
  - exists (demo_start start_requests [] [] false). split; [demo_inv|apply old_demo_same].
  - reflexivity.
  - demo_wf.
  - reflexivity.
  - exists received, s1', d'. split; [exact E|]. split; [exact E'|exact Hs].
Defined.
