(* ===== verification/Module.v ===== *)
(** * The kernel module of the client (linux-client/module/capi20proxy.c)

    The module keeps up to four virtual cards, one per open file of
    /dev/capiproxy.  kernelcapi calls it with messages and registrations, the
    daemon reads, writes and controls it.  Socket buffers and their queues, and
    the constants of the kernel's headers, are interfaces; the calls into
    kernelcapi are recorded.  Locks are not state; printk is left out. *)
From Stdlib Require Strings.HexString.
From S2P Require Import Prelude CMem Capi20 CapiUtil.
From S2P Require Daemon.
#[local] Open Scope Z_scope.

(** ** Interfaces to the kernel *)
(** <linux/skbuff.h>: one buffer. *)
Class SkBuff (skb : Type) := {
  alloc_skb : Z → skb;                  (**r a buffer of that size *)
  skb_len : skb → Z;                    (**r the field [len] *)
  set_skb_len : Z → skb → skb;
  skb_data : skb → list byte;           (**r the bytes from [data] to the end of the buffer *)
  set_skb_data : list byte → skb → skb;
  skb_put : Z → skb → skb;              (**r extends the used part; [len] grows *)
}.
Class SkBuffLaws skb `{SkBuff skb} := {
  alloc_skb_size n : 0 ≤ n → blen (skb_data (alloc_skb n)) = n;
  skb_len_set n s : skb_len (set_skb_len n s) = n;
  skb_len_set_data b s : skb_len (set_skb_data b s) = skb_len s;
  skb_data_set b s : skb_data (set_skb_data b s) = b;
  skb_data_set_len n s : skb_data (set_skb_len n s) = skb_data s;
  skb_put_len n s : skb_len (skb_put n s) = skb_len s + n;
  skb_put_data n s : skb_data (skb_put n s) = skb_data s;
}.

(** <linux/skbuff.h>: a queue. *)
Class SkQueue (skb Q : Type) := {
  skb_queue_head_init : Q;
  qlen : Q → Z;
  skb_queue_tail : Q → skb → Q;
  skb_queue_head : Q → skb → Q;
  skb_dequeue : Q → option skb * Q;     (**r NULL when it is empty *)
  queue_list : Q → list skb;            (**r abstraction: the buffers, first one first *)
}.
Class SkQueueLaws skb Q `{SkQueue skb Q} := {
  queue_init : queue_list skb_queue_head_init = [];
  queue_qlen q : qlen q = Z.of_nat (length (queue_list q));
  queue_tail q s : queue_list (skb_queue_tail q s) = queue_list q ++ [s];
  queue_head q s : queue_list (skb_queue_head q s) = s :: queue_list q;
  queue_dequeue q : fst (skb_dequeue q) = head (queue_list q) ∧
                    queue_list (snd (skb_dequeue q)) = tail (queue_list q);
}.

(** Constants of <linux/capi.h>, capicmd.h and errno.h. *)
Class KernelHeader := {
  CAPI_MAXDATAWINDOW : Z;
  CAPI_DISCONNECT_B3_RESP : Z;
  CAPI_CONNECT_B3_CONF : Z;
  CAPI_CONNECT_B3_IND : Z;
  EAGAIN : Z;
  EINTR : Z;
  EMSGSIZE : Z;
  EIO : Z;
}.

(** ** capi20proxy.h *)
Definition CAPIPROXY_MAXCONTR : nat := 4.
Definition CAPIPROXY_VERSIONLEN : nat := 8.
Definition APPL_FREE := 0x00.
Definition APPL_CONFIRMED := 0x01.
Definition APPL_WAITING := 0x02.
Definition APPL_REVOKED := 0x03.
Definition CARD_FREE := 0x00.
Definition CARD_RUNNING := 0x01.
Definition CARD_REMOVING := 0x02.
Definition CARD_NOT_READY := 0x03.
Definition ENOTREG := 1.
Definition IOCTL_SET_DATA := 0x01.
Definition IOCTL_ERROR_REGFAIL := 0x02.
Definition IOCTL_APPL_REGISTERED := 0x03.
Definition MAX_SK_PENDING := 32.

Definition DRIVERNAME : list byte := bytes_of_string "capi20proxy".
Definition CARDNAME : list byte := bytes_of_string "CAPI Virtual Card".
Definition capiproxy_version : list byte := bytes_of_string "0.6.1".

Section module.
Context `{CapiHeader} `{CapiUtil} `{KernelHeader} {skb Q : Type} `{SkBuff skb} `{SkQueue skb Q}.

Definition CAPIMSG_SETL3C (m : list byte) (v : Z) := capimsg_setu32 m 6 v.
Definition CAPIMSG_SETDBC (m : list byte) (v : Z) := capimsg_setu32 m 10 v.
Definition CAPIMSG_SETDBL (m : list byte) (v : Z) := capimsg_setu32 m 14 v.

(** ** State *)
(** The part of [struct capi_ctr] that the module fills in. *)
Record capi_ctr := mkCtr {
  cnr : Z;
  ctr_manu : list byte;
  ctr_version : list byte;
  ctr_serial : list byte;
  ctr_profile : list byte;
}.

(** [struct capi_register_params] *)
Record register_params := mkParams { level3cnt : Z; datablkcnt : Z; datablklen : Z }.

Record capi20proxy_card := mkCard {
  cd_status : Z;
  cd_ctrl : option capi_ctr;
  outgoing_queue : Q;
  cardname : list byte;               (**r [char cardname[32]] *)
  card_version : list byte;           (**r [char version[8]] *)
  infobuf : list byte;                (**r [char infobuf[128]] *)
  in_sk : Z;
  out_sk : Z;
  sk_pending : Z;
  applications : list Z;              (**r [__u8 applications[CAPI_MAXAPPL]] *)
}.

(** Calls into kernelcapi; the first argument is the card. *)
Inductive kernel_call :=
  | free_ncci (i : nat) (appl ncci : Z)
  | new_ncci (i : nat) (appl ncci window : Z)
  | appl_registered (i : nat) (appl : Z)
  | appl_released (i : nat) (appl : Z)
  | handle_capimsg (i : nat) (appl : Z) (s : skb)
  | suspend_output (i : nat)
  | reseted (i : nat)
  | ready (i : nat)
  | attach_ctr (i : nat)
  | detach_ctr (i : nat)
  | attach_capi_driver
  | detach_capi_driver
  | register_chrdev
  | unregister_chrdev
  | wake_up (i : nat)                 (**r the readers of the card *)
  | queue_task.                       (**r [handle_send_msg] is to run *)

(** What happens while a reader sleeps: messages that kernelcapi sends, and
    whether a signal is pending afterwards. *)
Record wakeup := mkWakeup { arrived : list skb; signalled : bool }.

Record kmodule := mkModule {
  km_cards : list capi20proxy_card;
  km_di : bool;                       (**r [di] is not NULL *)
  km_calls : list kernel_call;
  km_allocs : list bool;              (**r does the next [alloc_skb] succeed; then all do *)
  km_copies : list Z;                 (**r results of the next [copy_to_user]; then 0 *)
  km_attached : list (option Z);      (**r number of the next controller, or NULL; then NULL *)
  km_sleeps : list wakeup;            (**r how the next sleeps end *)
}.

Definition cards : field kmodule (list capi20proxy_card) := mkField km_cards (λ v s,
  mkModule v (km_di s) (km_calls s) (km_allocs s) (km_copies s) (km_attached s) (km_sleeps s)).
Definition di : field kmodule bool := mkField km_di (λ v s,
  mkModule (km_cards s) v (km_calls s) (km_allocs s) (km_copies s) (km_attached s) (km_sleeps s)).
Definition calls : field kmodule (list kernel_call) := mkField km_calls (λ v s,
  mkModule (km_cards s) (km_di s) v (km_allocs s) (km_copies s) (km_attached s) (km_sleeps s)).
Definition allocs : field kmodule (list bool) := mkField km_allocs (λ v s,
  mkModule (km_cards s) (km_di s) (km_calls s) v (km_copies s) (km_attached s) (km_sleeps s)).
Definition copies : field kmodule (list Z) := mkField km_copies (λ v s,
  mkModule (km_cards s) (km_di s) (km_calls s) (km_allocs s) v (km_attached s) (km_sleeps s)).
Definition attached : field kmodule (list (option Z)) := mkField km_attached (λ v s,
  mkModule (km_cards s) (km_di s) (km_calls s) (km_allocs s) (km_copies s) v (km_sleeps s)).
Definition sleeps : field kmodule (list wakeup) := mkField km_sleeps (λ v s,
  mkModule (km_cards s) (km_di s) (km_calls s) (km_allocs s) (km_copies s) (km_attached s) v).

Abbreviation K := (M kmodule).

(** The card behind a pointer, and assignments to its fields. *)
Definition get_card (i : nat) : K capi20proxy_card :=
  cs ← gets cards; try OutOfBounds (cs !! i).
Definition set_card (i : nat) (g : capi20proxy_card → capi20proxy_card) : K unit :=
  modify cards (alter g i).
Definition set_status (v : Z) (c : capi20proxy_card) : capi20proxy_card :=
  mkCard v (cd_ctrl c) (outgoing_queue c) (cardname c) (card_version c) (infobuf c) (in_sk c)
    (out_sk c) (sk_pending c) (applications c).
Definition set_ctrl (v : option capi_ctr) (c : capi20proxy_card) : capi20proxy_card :=
  mkCard (cd_status c) v (outgoing_queue c) (cardname c) (card_version c) (infobuf c) (in_sk c)
    (out_sk c) (sk_pending c) (applications c).
Definition set_queue (v : Q) (c : capi20proxy_card) : capi20proxy_card :=
  mkCard (cd_status c) (cd_ctrl c) v (cardname c) (card_version c) (infobuf c) (in_sk c)
    (out_sk c) (sk_pending c) (applications c).
Definition set_names (v w : list byte) (c : capi20proxy_card) : capi20proxy_card :=
  mkCard (cd_status c) (cd_ctrl c) (outgoing_queue c) v w (infobuf c) (in_sk c)
    (out_sk c) (sk_pending c) (applications c).
Definition set_infobuf (v : list byte) (c : capi20proxy_card) : capi20proxy_card :=
  mkCard (cd_status c) (cd_ctrl c) (outgoing_queue c) (cardname c) (card_version c) v (in_sk c)
    (out_sk c) (sk_pending c) (applications c).
Definition set_counts (i o p : Z) (c : capi20proxy_card) : capi20proxy_card :=
  mkCard (cd_status c) (cd_ctrl c) (outgoing_queue c) (cardname c) (card_version c) (infobuf c)
    i o p (applications c).
Definition set_applications (v : list Z) (c : capi20proxy_card) : capi20proxy_card :=
  mkCard (cd_status c) (cd_ctrl c) (outgoing_queue c) (cardname c) (card_version c) (infobuf c)
    (in_sk c) (out_sk c) (sk_pending c) v.

Definition call (c : kernel_call) : K unit := modify calls (λ l, l ++ [c]).
Definition kfree_skb (s : option skb) : K unit :=
  match s with Some _ => mret tt | None => fail NullDeref end.
(** The next result of a kernel function that may fail. *)
Definition next {A} (F : field kmodule (list A)) (d : A) : K A :=
  l ← gets F; puts F (tail l);; mret (default d (head l)).
Definition try_alloc_skb (n : Z) : K (option skb) :=
  ok ← next allocs true; mret (if (ok : bool) then Some (alloc_skb n) else None).

(** ** Applications of a card *)
(** [APPL(card,a)], and an assignment to it. *)
Definition get_APPL (i : nat) (a : Z) : K Z :=
  c ← get_card i;
  try OutOfBounds (if decide (1 ≤ a) then applications c !! Z.to_nat (a - 1) else None).
Definition set_APPL (i : nat) (a v : Z) : K unit :=
  get_APPL i a;;
  set_card i (λ c, set_applications (<[Z.to_nat (a - 1) := v]> (applications c)) c).

Definition APPL_IS_FREE (i : nat) (a : Z) : K bool := v ← get_APPL i a; mret (v =? APPL_FREE).
Definition APPL_MARK_FREE (i : nat) (a : Z) : K unit := set_APPL i a APPL_FREE.
Definition APPL_MARK_WAITING (i : nat) (a : Z) : K unit := set_APPL i a APPL_WAITING.
Definition APPL_MARK_CONFIRMED (i : nat) (a : Z) : K unit := set_APPL i a APPL_CONFIRMED.
Definition APPL_MARK_REVOKED (i : nat) (a : Z) : K unit := set_APPL i a APPL_REVOKED.
Definition VALID_APPLID (i : nat) (a : Z) : K bool :=
  if negb (a =? 0) && (a <=? CAPI_MAXAPPL) then v ← get_APPL i a; mret (negb (v =? 0))
  else mret false.

(** ** The queue to the daemon *)
(** [while(card->outgoing_queue.qlen) kfree_skb(skb_dequeue(...));] *)
Fixpoint flush_loop (fuel : nat) (i : nat) : K unit :=
  c ← get_card i;
  if qlen (outgoing_queue c) =? 0 then mret tt else
  match fuel with
  | O => fail Diverged
  | S fuel' =>
      let '(s, q) := skb_dequeue (outgoing_queue c) in
      set_card i (set_queue q);;
      kfree_skb s;;
      flush_loop fuel' i
  end.
(** Each round takes a buffer out of the queue. *)
Definition capiproxy_flush_queue (i : nat) : K unit :=
  c ← get_card i;
  flush_loop (Z.to_nat (qlen (outgoing_queue c))) i;;
  set_card i (λ c, set_counts (in_sk c) (out_sk c) 0 c).

Definition capiproxy_send_message (i : nat) (s : skb) : K unit :=
  c ← get_card i;
  if cd_status c =? CARD_FREE then kfree_skb (Some s) else
  applid ← try OutOfBounds (CAPIMSG_APPID (skb_data s));
  command ← try OutOfBounds (CAPIMSG_COMMAND (skb_data s));
  when (command =? CAPI_DISCONNECT_B3_RESP)
    (ncci ← try OutOfBounds (CAPIMSG_NCCI (skb_data s)); call (free_ncci i applid ncci));;
  if MAX_SK_PENDING <? sk_pending c then kfree_skb (Some s) else
  set_card i (λ c, set_queue (skb_queue_tail (outgoing_queue c) s) c);;
  set_card i (λ c, set_counts (in_sk c) (out_sk c) (sk_pending c + 1) c);;
  call queue_task.

(** A message of the module itself: the fields that all of them set. *)
Definition fill (f : list byte → option (list byte)) (s : skb) : K skb :=
  b ← try OutOfBounds (f (skb_data s)); mret (set_skb_data b s).
Definition control_skb (len appl command subcommand : Z) (s : skb) : K skb :=
  s ← fill (λ m, CAPIMSG_SETLEN m len) (set_skb_len len s);
  s ← fill (λ m, CAPIMSG_SETAPPID m appl) s;
  s ← fill (λ m, CAPIMSG_SETCOMMAND m command) s;
  fill (λ m, CAPIMSG_SETSUBCOMMAND m subcommand) s.

Definition capiproxy_remove_ctr (i : nat) : K unit :=
  let len := 2 * 2 + 1 * 2 in
  s ← try_alloc_skb (len + 1);
  match s with None => mret tt | Some s =>
    s ← control_skb len 0 Daemon.TYPE_PROXY Daemon.TYPE_SHUTDOWN s;
    call (suspend_output i);;
    capiproxy_flush_queue i;;
    set_card i (set_status CARD_REMOVING);;
    capiproxy_send_message i s
  end.

Definition capiproxy_reset_ctr (i : nat) : K unit :=
  capiproxy_flush_queue i;; call (reseted i).

Definition capiproxy_register_internal (i : nat) (appl : Z) (rp : register_params) : K unit :=
  let len := 2 * 2 + 1 * 2 + 4 * 3 in
  s ← try_alloc_skb (len + 1);
  match s with None => mret tt | Some s =>
    s ← control_skb len appl Daemon.TYPE_PROXY Daemon.TYPE_REGISTER_APP s;
    s ← fill (λ m, CAPIMSG_SETL3C m (level3cnt rp)) s;
    s ← fill (λ m, CAPIMSG_SETDBC m (datablkcnt rp)) s;
    s ← fill (λ m, CAPIMSG_SETDBL m (datablklen rp)) s;
    capiproxy_send_message i s
  end.

Definition capiproxy_register_appl (i : nat) (appl : Z) (rp : register_params) : K unit :=
  c ← get_card i;
  if cd_status c =? CARD_FREE then call (appl_released i appl) else
  free ← APPL_IS_FREE i appl;
  if negb free then mret tt else
  let arp := mkParams (level3cnt rp)
    (if CAPI_MAXDATAWINDOW <? datablkcnt rp then CAPI_MAXDATAWINDOW else datablkcnt rp)
    (if 1024 <? datablklen rp then 1024 else datablklen rp) in
  capiproxy_register_internal i appl arp;;
  APPL_MARK_WAITING i appl.

Definition capiproxy_release_internal (i : nat) (appl : Z) : K unit :=
  let len := 2 * 2 + 1 * 2 in
  s ← try_alloc_skb (len + 1);
  match s with None => mret tt | Some s =>
    s ← control_skb len appl Daemon.TYPE_PROXY Daemon.TYPE_RELEASE_APP s;
    capiproxy_send_message i s
  end.

Definition capiproxy_release_appl (i : nat) (appl : Z) : K unit :=
  valid ← VALID_APPLID i appl;
  invalid ← (if negb (valid : bool) then mret true else APPL_IS_FREE i appl);
  if (invalid : bool) then call (appl_released i appl) else
  capiproxy_release_internal i appl;;
  APPL_MARK_FREE i appl;;
  call (appl_released i appl).

Definition capiproxy_load_firmware (i : nat) (data : list byte) : K Z := mret 0.

(** ** /proc *)
(** [sprintf] of [s] into a character array. *)
Definition sprintf (buf s : list byte) : option (list byte) := splice buf 0 (s ++ [x00]).
Definition cd_name (c : capi20proxy_card) : K (list byte) := try OutOfBounds (cstr (cardname c)).
Definition cd_version (c : capi20proxy_card) : K (list byte) :=
  try OutOfBounds (cstr (card_version c)).
(** The string, or [d] when its first character is the NUL. *)
Definition or_else (s d : list byte) : list byte := match s with [] => d | _ => s end.

(** [addr] is the address of the card. *)
Definition capiproxy_procinfo (i : nat) (addr : Z) : K (list byte) :=
  c ← get_card i;
  name ← cd_name c;
  version ← cd_version c;
  let dash := bytes_of_string "-" in
  let space := bytes_of_string " " in
  let text := or_else name dash ++ space ++ or_else version dash ++ space ++
              bytes_of_string (HexString.of_Z addr) in
  buf ← try OutOfBounds (sprintf (infobuf c) text);
  set_card i (set_infobuf buf);;
  mret text.

(** [sprintf(.., "%-16s %s\n", name, value)] *)
Definition proc_row (name value : list byte) : list byte :=
  name ++ replicate (16 - length name) (byte.of_Z 32) ++ bytes_of_string " " ++ value ++
  [byte.of_Z 10].

(** The text, whether the end of it is reached, and the result. *)
Definition capiproxy_read_proc (i : nat) (off count : Z) : K (list byte * bool * Z) :=
  c ← get_card i;
  name ← cd_name c;
  version ← cd_version c;
  let page :=
    proc_row (bytes_of_string "name") name ++
    proc_row (bytes_of_string "io") (bytes_of_string "0x0") ++
    proc_row (bytes_of_string "irq") (bytes_of_string "-") ++
    proc_row (bytes_of_string "type") (bytes_of_string "Virtual Card :-)") ++
    (match version with [] => [] | _ => proc_row (bytes_of_string "ver_driver") version end) ++
    proc_row (bytes_of_string "cardname") name in
  let len := blen page in
  let eof := len <=? off + count in
  mret (page, eof, if len <? off then 0 else if count <? len - off then count else len - off).

(** ** Control by the daemon *)
(** [copy_from_user] of [n] bytes; [user] is the memory of the process. *)
Definition copy_from_user (user : Z → byte) (from n : Z) : list byte := user <$> seqZ from n.
(** The controller behind [card->ctrl]. *)
Definition deref_ctrl (c : capi20proxy_card) : K capi_ctr := try NullDeref (cd_ctrl c).

(** [ioctl_param] is the address of the data, or the application. *)
Definition capiproxy_ioctl (i : nat) (user : Z → byte) (ioctl_num ioctl_param : Z) : K Z :=
  c ← get_card i;
  ctrl ← deref_ctrl c;                          (**r [printk(.., ctrl->cnr)] *)
  if ioctl_num =? IOCTL_SET_DATA then
    let len := le_combine (copy_from_user user ioctl_param 4) in
    if len <? CAPI_MANUFACTURER_LEN + sizeof_capi_version + CAPI_SERIAL_LEN + sizeof_capi_profile
    then mret (- EMSGSIZE) else
    let temp := ioctl_param + 4 in
    let manu := copy_from_user user temp CAPI_MANUFACTURER_LEN in
    let temp := temp + CAPI_MANUFACTURER_LEN in
    let version := copy_from_user user temp sizeof_capi_version in
    let temp := temp + sizeof_capi_version in
    let serial := copy_from_user user temp CAPI_SERIAL_LEN in
    let temp := temp + CAPI_SERIAL_LEN in
    let profile := copy_from_user user temp sizeof_capi_profile in
    set_card i (set_ctrl (Some (mkCtr (cnr ctrl) manu version serial profile)));;
    call (ready i);;
    set_card i (set_status CARD_RUNNING);;
    mret 0
  else if ioctl_num =? IOCTL_ERROR_REGFAIL then
    APPL_MARK_REVOKED i (u16 ioctl_param);;
    call (appl_released i (u16 ioctl_param));;
    mret 0
  else if ioctl_num =? IOCTL_APPL_REGISTERED then
    call (appl_registered i (u16 ioctl_param));;
    APPL_MARK_CONFIRMED i (u16 ioctl_param);;
    mret 0
  else mret (- EIO).

(** [for (i = 0; ...) if(card->sk_pending) wake_up_interruptible(...)] *)
Definition handle_send_msg : K unit :=
  foldr (λ i rest,
    c ← get_card i;
    when (negb (cd_status c =? CARD_FREE) && negb (sk_pending c =? 0)) (call (wake_up i));;
    rest) (mret tt) (seq 0 CAPIPROXY_MAXCONTR).

(** ** Messages to the daemon *)
Fixpoint send_all (i : nat) (ms : list skb) : K unit :=
  match ms with [] => mret tt | m :: ms => capiproxy_send_message i m;; send_all i ms end.

(** One [interruptible_sleep_on]: what arrives meanwhile, and is a signal
    pending afterwards?  [None]: nothing ever wakes the reader. *)
Definition sleep_on (i : nat) : K (option bool) :=
  w ← gets sleeps;
  match w with
  | [] => mret None
  | w :: rest =>
      puts sleeps rest;;
      send_all i (arrived w);;
      mret (Some (signalled w))
  end.

(** [for (;;) { sleep; if (sk_pending) break; if (signal_pending) break; }]
    [false]: the reader is still asleep. *)
Fixpoint wait_pending (fuel : nat) (i : nat) : K bool :=
  match fuel with
  | O => fail Diverged
  | S fuel' =>
      w ← sleep_on i;
      match w with
      | None => mret false
      | Some signal =>
          c ← get_card i;
          if negb (sk_pending c =? 0) then mret true
          else if (signal : bool) then mret true else wait_pending fuel' i
      end
  end.

(** The part of [capiproxy_read] from [skb_dequeue] on: the result and the
    bytes copied to the caller.  [again] is the recursive call after a message
    that is too short. *)
Definition take_message (again : K (option (Z * list byte))) (i : nat) (length : Z)
    : K (option (Z * list byte)) :=
  c ← get_card i;
  let '(s, q) := skb_dequeue (outgoing_queue c) in
  set_card i (set_queue q);;
  s ← try NullDeref s;
  if length <? skb_len s then
    set_card i (λ c, set_queue (skb_queue_head (outgoing_queue c) s) c);;
    mret (Some (- EMSGSIZE, []))
  else if skb_len s <? 6 then
    set_card i (λ c, set_counts (in_sk c) (out_sk c) (sk_pending c - 1) c);;
    again
  else
    bs ← try OutOfBounds (slice (skb_data s) 0 (skb_len s));
    retval ← next copies 0;
    if negb (retval =? 0) then
      set_card i (λ c, set_queue (skb_queue_head (outgoing_queue c) s) c);;
      mret (Some (retval, []))
    else
      kfree_skb (Some s);;
      set_card i (λ c, set_counts (in_sk c) (out_sk c + 1) (sk_pending c - 1) c);;
      mret (Some (skb_len s, bs)).

(** [None]: the reader is still asleep. *)
Fixpoint read_loop (fuel : nat) (i : nat) (nonblock : bool) (length : Z)
    : K (option (Z * list byte)) :=
  match fuel with
  | O => fail Diverged
  | S fuel' =>
      let again := read_loop fuel' i nonblock length in
      c ← get_card i;
      if negb (sk_pending c =? 0) then take_message again i length else
      if (nonblock : bool) then mret (Some (- EAGAIN, [])) else
      sl ← gets sleeps;
      awake ← wait_pending (S (Datatypes.length sl)) i;
      if negb (awake : bool) then mret None else
      c ← get_card i;
      if sk_pending c =? 0 then mret (Some (- EINTR, [])) else take_message again i length
  end.

(** Each call but the last takes a message that is queued or still arrives. *)
Definition queued (i : nat) (s : kmodule) : nat :=
  match km_cards s !! i with Some c => length (queue_list (outgoing_queue c)) | None => 0 end.
Definition messages_ahead (i : nat) (s : kmodule) : nat :=
  queued i s + sum_list ((λ w, length (arrived w)) <$> km_sleeps s).
Definition capiproxy_read (i : nat) (nonblock : bool) (length : Z) : K (option (Z * list byte)) :=
  λ s, read_loop (S (messages_ahead i s)) i nonblock length s.

(** ** Messages from the daemon *)
Definition capiproxy_write (i : nat) (buffer : list byte) : K Z :=
  let length := blen buffer in
  c ← get_card i;
  if negb (cd_status c =? CARD_RUNNING) then deref_ctrl c;; mret (-1) else
  s ← try_alloc_skb (length + 1);
  match s with None => deref_ctrl c;; mret (-1) | Some s =>
    let s := skb_put length (set_skb_len length s) in
    s ← fill (λ m, splice m 0 buffer) s;
    appl ← try OutOfBounds (CAPIMSG_APPID (skb_data s));
    ncci ← try OutOfBounds (CAPIMSG_NCCI (skb_data s));
    ctrl ← deref_ctrl c;
    let ncci := u32 (Z.land ncci 0xFFFFFF80 + cnr ctrl) in
    command ← try OutOfBounds (CAPIMSG_COMMAND (skb_data s));
    when ((command =? CAPI_CONNECT_B3_CONF) || (command =? CAPI_CONNECT_B3_IND))
      (call (new_ncci i appl ncci CAPI_MAXDATAWINDOW));;
    set_card i (λ c, set_counts (in_sk c + 1) (out_sk c) (sk_pending c) c);;
    call (handle_capimsg i appl s);;
    mret length
  end.

(** ** Opening and closing *)
Definition capiproxy_find_free_id : K Z :=
  cs ← gets cards;
  mret (match list_find (λ c, cd_status c = CARD_FREE) cs with
        | Some (i, _) => Z.of_nat i
        | None => -1
        end).

Definition capiproxy_init_appls (i : nat) : K unit :=
  set_card i (set_applications (replicate (Z.to_nat CAPI_MAXAPPL) APPL_FREE)).

(** The first statement reads [card->ctrl] through the uninitialised [card]:
    [stale] tells whether that pointer happens to be readable; the value is not
    used.  [Some i] is the result 0 with the card [i] in [private_data]. *)
Definition capiproxy_open (stale : bool) : K (option nat) :=
  if negb stale then fail Uninitialised else
  id ← capiproxy_find_free_id;
  if id =? -1 then mret None else
  let i := Z.to_nat id in
  capiproxy_init_appls i;;
  capiproxy_flush_queue i;;
  set_card i (set_status CARD_NOT_READY);;
  set_card i (set_queue skb_queue_head_init);;
  c ← get_card i;
  name ← try OutOfBounds (sprintf (cardname c) CARDNAME);
  version ← try OutOfBounds (sprintf (card_version c) capiproxy_version);
  set_card i (set_names name version);;
  n ← next attached None;
  call (attach_ctr i);;
  set_card i (set_ctrl ((λ n, mkCtr n [] [] [] []) <$> n));;
  mret (Some i).

Definition capiproxy_release (i : nat) : K Z :=
  c ← get_card i;
  deref_ctrl c;;                                (**r [printk(.., ctrl->cnr)] *)
  call (suspend_output i);;
  capiproxy_flush_queue i;;
  call (detach_ctr i);;
  set_card i (set_status CARD_FREE);;
  set_card i (set_ctrl None);;
  mret 0.

(** ** Loading and unloading *)
Definition empty_card : capi20proxy_card :=
  mkCard CARD_FREE None skb_queue_head_init (replicate 32 x00) (replicate CAPIPROXY_VERSIONLEN x00)
    (replicate 128 x00) 0 0 0 (replicate (Z.to_nat CAPI_MAXAPPL) APPL_FREE).
Definition capiproxy_init_cards : K unit := puts cards (replicate CAPIPROXY_MAXCONTR empty_card).

(** [ok]: does [attach_capi_driver] return an interface? *)
Definition capiproxy_init (ok : bool) : K Z :=
  capiproxy_init_cards;;
  call register_chrdev;;
  call attach_capi_driver;;
  puts di ok;;
  mret (if ok then 0 else -1).

Definition capiproxy_exit : K unit :=
  foldr (λ i rest,
    c ← get_card i;
    when (negb (cd_status c =? CARD_FREE))
      (match cd_ctrl c with None => mret tt | Some _ => capiproxy_remove_ctr i end);;
    rest) (mret tt) (seq 0 CAPIPROXY_MAXCONTR);;
  handle_send_msg;;
  call unregister_chrdev;;
  call detach_capi_driver.

(** ** What the kernel and kernelcapi call: [capiproxy_fops], [capiproxy_driver] *)
Inductive handler :=
  | call_read (i : nat) (nonblock : bool) (length : Z)
  | call_write (i : nat) (buffer : list byte)
  | call_ioctl (i : nat) (user : Z → byte) (num param : Z)
  | call_open (stale : bool)
  | call_release (i : nat)
  | call_load_firmware (i : nat) (data : list byte)
  | call_reset_ctr (i : nat)
  | call_remove_ctr (i : nat)
  | call_register_appl (i : nat) (appl : Z) (rp : register_params)
  | call_release_appl (i : nat) (appl : Z)
  | call_send_message (i : nat) (s : skb)
  | call_procinfo (i : nat) (addr : Z)
  | call_read_proc (i : nat) (off count : Z)
  | call_send_notify                  (**r the task [tq_send_notify] *)
  | call_exit.

Definition run_handler (h : handler) : K unit :=
  match h with
  | call_read i nonblock length => capiproxy_read i nonblock length;; mret tt
  | call_write i buffer => capiproxy_write i buffer;; mret tt
  | call_ioctl i user num param => capiproxy_ioctl i user num param;; mret tt
  | call_open stale => capiproxy_open stale;; mret tt
  | call_release i => capiproxy_release i;; mret tt
  | call_load_firmware i data => capiproxy_load_firmware i data;; mret tt
  | call_reset_ctr i => capiproxy_reset_ctr i
  | call_remove_ctr i => capiproxy_remove_ctr i
  | call_register_appl i appl rp => capiproxy_register_appl i appl rp
  | call_release_appl i appl => capiproxy_release_appl i appl
  | call_send_message i s => capiproxy_send_message i s
  | call_procinfo i addr => capiproxy_procinfo i addr;; mret tt
  | call_read_proc i off count => capiproxy_read_proc i off count;; mret tt
  | call_send_notify => handle_send_msg
  | call_exit => capiproxy_exit
  end.

(** Handlers that run one after the other. *)
Fixpoint run_handlers (hs : list handler) : K unit :=
  match hs with [] => mret tt | h :: hs => run_handler h;; run_handlers hs end.
End module.
