(* ===== verification/ModuleSpec.v ===== *)
(** * The kernel module: invariant and runs *)
From S2P Require Import Prelude CMem Capi20 CapiUtil Module.
From S2P Require Daemon.
#[local] Open Scope Z_scope.

Section module_spec.
Context `{HC : CapiHeader} `{HU : CapiUtil} `{HL : !CapiUtilLaws} `{HK : KernelHeader}.
Context {skb Q : Type} `{HS : SkBuff skb} `{HSL : !SkBuffLaws skb} `{HQ : SkQueue skb Q} `{HQL : !SkQueueLaws skb Q}.
Abbreviation card := (capi20proxy_card (Q:=Q)).
Abbreviation state := (kmodule (skb:=skb) (Q:=Q)).
Abbreviation K := (M state).

(** ** The invariant *)
(** [sk_pending] counts the queue, which never holds more than 33 messages. *)
Record card_ok (c : card) : Prop := {
  ok_pending : sk_pending c = Z.of_nat (length (queue_list (outgoing_queue c)));
  ok_bound : sk_pending c ≤ MAX_SK_PENDING + 1;
  ok_status : 0 ≤ cd_status c ≤ 3;
  ok_ctrl : cd_status c = CARD_RUNNING → is_Some (cd_ctrl c);
  ok_appls : Z.of_nat (length (applications c)) = CAPI_MAXAPPL;
  ok_states : Forall (λ v, 0 ≤ v ≤ 3) (applications c);
}.
Definition module_ok (s : state) : Prop :=
  length (fget cards s) = CAPIPROXY_MAXCONTR ∧ Forall card_ok (fget cards s).

(** What a function may do besides: kernelcapi is called. *)
Definition module_step (s s' : state) : Prop := ∃ l, fget calls s' = fget calls s ++ l.
#[export] Instance module_step_preorder : PreOrder module_step.
Proof.
  split.
  - intros s. exists []. by rewrite app_nil_r.
  - intros s1 s2 s3 [l1 E1] [l2 E2]. exists (l1 ++ l2). by rewrite E2, E1, (assoc_L (++)).
Qed.

Lemma module_step_calls s s' : fget calls s' = fget calls s → module_step s s'.
Proof. intros E. exists []. by rewrite app_nil_r. Qed.

Abbreviation okay m := (respects module_ok module_step m).
(** The card [i] is known to be [c]. *)
Definition known (i : nat) (c : card) (s : state) : Prop :=
  module_ok s ∧ fget cards s !! i = Some c.
Abbreviation okay_at i c m := (leads module_ok module_step (known i c) m).

Lemma get_card_run i c (s : state) : fget cards s !! i = Some c → get_card i s = (Done c, s).
Proof. intros Hc. unfold get_card, gets, mbind, M_bind. by rewrite Hc. Qed.

Lemma okay_get_card {A} i (k : card → K A) :
  (∀ c, card_ok c → okay_at i c (k c)) → okay (get_card i ≫= k).
Proof.
  intros Hk s Hs. destruct (fget cards s !! i) as [c|] eqn:Hc.
  - rewrite (bind_done _ _ _ _ _ (get_card_run i c s Hc)). apply Hk; [|done].
    destruct Hs as [_ Hs]. by eapply Forall_lookup_1.
  - unfold get_card, gets, mbind, M_bind. rewrite Hc. simpl. by split_and!.
Qed.

Lemma okay_at_get_card {A} i c (k : card → K A) : okay_at i c (k c) → okay_at i c (get_card i ≫= k).
Proof.
  intros Hk s [Hs Hc]. rewrite (bind_done _ _ _ _ _ (get_card_run i c s Hc)). by apply Hk.
Qed.

Lemma okay_at_weaken {A} i c (m : K A) : okay m → okay_at i c m.
Proof. apply leads_weaken. by intros s [? _]. Qed.

Lemma module_ok_alter i (g : card → card) s :
  module_ok s → (∀ c, fget cards s !! i = Some c → card_ok (g c)) →
  module_ok (fset cards (alter g i (fget cards s)) s).
Proof.
  intros [Hl Hs] Hg. split; [by rewrite <- Hl; apply length_alter|].
  apply Forall_lookup. intros j c Hj. change (alter g i (fget cards s) !! j = Some c) in Hj.
  destruct (decide (i = j)) as [<-|Hne].
  - rewrite list_lookup_alter_eq in Hj. apply fmap_Some in Hj as (c0 & H0 & ->). by apply Hg.
  - rewrite list_lookup_alter_ne in Hj by done. by eapply Forall_lookup_1.
Qed.

(** An assignment, or two of them under the lock. *)
Lemma okay_at_set_card {A} i c g (k : unit → K A) :
  card_ok (g c) → okay_at i (g c) (k tt) → okay_at i c (set_card i g ≫= k).
Proof.
  intros Hg Hk s [Hs Hc]. unfold set_card. erewrite bind_done by done. cbv beta.
  set (s1 := fset cards _ s).
  destruct (Hk s1) as (H1 & H2 & H3).
  - split; [apply module_ok_alter; [done|]; intros c' ?; by simplify_eq|].
    change (alter g i (fget cards s) !! i = Some (g c)). by rewrite list_lookup_alter_eq, Hc.
  - split_and!; [done..|]. etrans; [|exact H3]. by apply module_step_calls.
Qed.

Lemma okay_at_set_card2 {A} i c g g' (k : unit → K A) :
  card_ok (g' (g c)) → okay_at i (g' (g c)) (k tt) →
  okay_at i c (set_card i g ≫= λ _, set_card i g' ≫= k).
Proof.
  intros Hg Hk s Hs.
  assert (E : (set_card i g ≫= λ _, set_card i g' ≫= k) s = (set_card i (g' ∘ g) ≫= k) s).
  { unfold set_card. do 3 erewrite bind_done by done. cbv beta.
    change (fget cards (fset cards ?l s)) with l. by rewrite list_alter_alter_eq. }
  rewrite E. by apply (okay_at_set_card i c (g' ∘ g)).
Qed.

Lemma okay_set_card i g : (∀ c, card_ok c → card_ok (g c)) → okay (set_card i g).
Proof.
  intros Hg s Hs. split; [done|]. split; [|by apply module_step_calls].
  apply module_ok_alter; [done|]. intros c Hc. apply Hg. destruct Hs as [_ Hs].
  by eapply Forall_lookup_1.
Qed.

Lemma okay_at_bind {A B} i c (m : K A) (k : A → K B) :
  respects (known i c) module_step m → (∀ a, okay_at i c (k a)) → okay_at i c (m ≫= k).
Proof. intros Hm Hk. apply leads_bind; [apply _| |done..]. by intros s [? _]. Qed.

(** Calls, allocations and the like leave the cards alone. *)
Lemma same_cards_respects {A} P (m : K A) :
  (∀ s, (m s).1 ≠ Faulted Diverged ∧ fget cards (m s).2 = fget cards s ∧ module_step s (m s).2) →
  (∀ s s', fget cards s' = fget cards s → P s → P s') → respects P module_step m.
Proof. intros Hm HP s Hs. destruct (Hm s) as (H1 & H2 & H3). split_and!; [done|by eapply HP|done]. Qed.

Definition quiet {A} (m : K A) : Prop :=
  ∀ s, (m s).1 ≠ Faulted Diverged ∧ fget cards (m s).2 = fget cards s ∧ module_step s (m s).2.

Lemma quiet_okay {A} (m : K A) : quiet m → okay m.
Proof. intros Hm. apply same_cards_respects; [done|]. intros s s' E. unfold module_ok. by rewrite E. Qed.
Lemma quiet_known {A} i c (m : K A) : quiet m → respects (known i c) module_step m.
Proof.
  intros Hm. apply same_cards_respects; [done|]. intros s s' E. unfold known, module_ok. by rewrite E.
Qed.

Lemma quiet_call c : quiet (call c).
Proof. intros s. split_and!; [done..|]. by exists [c]. Qed.
Lemma quiet_ret {A} (a : A) : quiet (mret a).
Proof. intros s. split; [done|]. split; [done|by apply module_step_calls]. Qed.
Lemma quiet_try {A} f (o : option A) : f ≠ Diverged → quiet (try f o).
Proof.
  intros Hf s. destruct o; (split; [simpl; congruence|]); (split; [done|by apply module_step_calls]).
Qed.
Lemma quiet_bind {A B} (m : K A) (k : A → K B) : quiet m → (∀ a, quiet (k a)) → quiet (m ≫= k).
Proof.
  intros Hm Hk s. destruct (Hm s) as (H1 & H2 & H3). unfold mbind, M_bind.
  destruct (m s) as [[a|f|c] s'] eqn:E; cbn [fst snd] in *;
    [|by split_and!; congruence|by split_and!].
  destruct (Hk a s') as (H4 & H5 & H6). split_and!; [done|congruence|by etrans].
Qed.
Lemma quiet_when b m : quiet m → quiet (when b m).
Proof. intros. destruct b; [done|apply quiet_ret]. Qed.
Lemma quiet_gets {A} (F : field state A) : quiet (gets F).
Proof. intros s. split; [done|]. split; [done|by apply module_step_calls]. Qed.
Lemma quiet_next_allocs d : quiet (next allocs d).
Proof. intros s. split; [done|]. split; [done|by apply module_step_calls]. Qed.
Lemma quiet_next_copies d : quiet (next copies d).
Proof. intros s. split; [done|]. split; [done|by apply module_step_calls]. Qed.
Lemma quiet_next_attached d : quiet (next attached d).
Proof. intros s. split; [done|]. split; [done|by apply module_step_calls]. Qed.
Lemma quiet_kfree s : quiet (kfree_skb s).
Proof. intros k. destruct s; (split; [done|]); (split; [done|by apply module_step_calls]). Qed.

(** ** The queue *)
Lemma card_in i c (s : state) : module_ok s → fget cards s !! i = Some c → card_ok c.
Proof. intros [_ Hs] Hc. by eapply Forall_lookup_1. Qed.

Lemma flush_loop_run fuel i : ∀ (s : state) c,
  fget cards s !! i = Some c → length (queue_list (outgoing_queue c)) = fuel →
  ∃ q, queue_list q = [] ∧
    flush_loop fuel i s = (Done tt, fset cards (alter (set_queue q) i (fget cards s)) s).
Proof.
  induction fuel as [|fuel IH]; intros s c Hc Hl; cbn [flush_loop];
    rewrite (bind_done _ _ _ _ _ (get_card_run i c s Hc)), queue_qlen, Hl.
  - exists (outgoing_queue c). split; [by apply nil_length_inv|].
    assert (Ha : alter (set_queue (outgoing_queue c)) i (fget cards s) = fget cards s).
    { apply list_eq. intros j. rewrite list_lookup_alter. case_decide as Hj; [|done]. subst j.
      rewrite Hc. simpl. by destruct c. }
    rewrite Ha. by destruct s.
  - change (Z.of_nat (S fuel) =? 0) with false. cbv iota.
    destruct (skb_dequeue (outgoing_queue c)) as [b q] eqn:E.
    destruct (queue_dequeue (outgoing_queue c)) as [H1 H2]. rewrite E in H1, H2. cbn [fst snd] in *.
    destruct (queue_list (outgoing_queue c)) as [|m l] eqn:El; [done|]. subst b.
    unfold set_card at 1. erewrite bind_done by done. cbv beta. set (s1 := fset cards _ s).
    erewrite bind_done by done. cbv beta.
    destruct (IH s1 (set_queue q c)) as (q' & Hq' & E').
    + change (alter (set_queue q) i (fget cards s) !! i = Some (set_queue q c)).
      by rewrite list_lookup_alter_eq, Hc.
    + cbn [outgoing_queue set_queue]. rewrite H2. simpl in *. lia.
    + exists q'. split; [done|]. rewrite E'. unfold s1.
      change (fget cards (fset cards ?l s)) with l. by rewrite list_alter_alter_eq.
Qed.

(** An emptied queue. *)
Definition emptied (q : Q) (c : card) : card :=
  set_counts (in_sk c) (out_sk c) 0 (set_queue q c).

Lemma flush_run i c (s : state) :
  fget cards s !! i = Some c →
  ∃ q, queue_list q = [] ∧
    capiproxy_flush_queue i s = (Done tt, fset cards (alter (emptied q) i (fget cards s)) s).
Proof.
  intros Hc. unfold capiproxy_flush_queue.
  rewrite (bind_done _ _ _ _ _ (get_card_run i c s Hc)), queue_qlen, Nat2Z.id.
  destruct (flush_loop_run _ i s c Hc eq_refl) as (q & Hq & E). exists q. split; [done|].
  erewrite bind_done by exact E. unfold set_card, modify.
  change (fget cards (fset cards ?l s)) with l. by rewrite list_alter_alter_eq.
Qed.

Lemma emptied_ok q c : queue_list q = [] → card_ok c → card_ok (emptied q c).
Proof.
  intros Hq [? ? ? ? ? ?]. constructor; try done; simpl.
  - by rewrite Hq.
Qed.

Lemma okay_flush i : okay (capiproxy_flush_queue i).
Proof.
  intros s Hs. destruct (fget cards s !! i) as [c|] eqn:Hc.
  - destruct (flush_run i c s Hc) as (q & Hq & E). rewrite E. split; [done|].
    split; [|by apply module_step_calls].
    apply module_ok_alter; [done|]. intros c' Hc'. apply emptied_ok; [done|]. by eapply card_in.
  - unfold capiproxy_flush_queue, get_card, gets, mbind, M_bind. rewrite Hc. by split_and!.
Qed.

(** ** Handlers *)
Lemma okay_bind {A B} (m : K A) (k : A → K B) : okay m → (∀ a, okay (k a)) → okay (m ≫= k).
Proof. apply respects_bind. apply _. Qed.

Lemma card_ok_sent c s :
  card_ok c → sk_pending c ≤ MAX_SK_PENDING →
  card_ok (set_counts (in_sk c) (out_sk c) (sk_pending c + 1)
             (set_queue (skb_queue_tail (outgoing_queue c) s) c)).
Proof.
  intros [Hp ? ? ? ? ?] Hb. constructor; try done; simpl; [|lia].
  rewrite queue_tail, length_app, Hp. simpl. lia.
Qed.

Lemma okay_send_message i s : okay (capiproxy_send_message i s).
Proof.
  unfold capiproxy_send_message. apply okay_get_card. intros c Hc.
  destruct (cd_status c =? CARD_FREE).
  { apply okay_at_weaken, quiet_okay, quiet_kfree. }
  apply okay_at_bind; [by apply quiet_known, quiet_try|intros applid].
  apply okay_at_bind; [by apply quiet_known, quiet_try|intros command].
  apply okay_at_bind; [|intros _].
  { apply quiet_known, quiet_when, quiet_bind; [by apply quiet_try|intros; apply quiet_call]. }
  destruct (MAX_SK_PENDING <? sk_pending c) eqn:Hm.
  { apply okay_at_weaken, quiet_okay, quiet_kfree. }
  apply okay_at_set_card2; [exact (card_ok_sent c s Hc ltac:(lia))|].
  apply okay_at_weaken, quiet_okay, quiet_call.
Qed.

Lemma quiet_fill f s : quiet (fill f s).
Proof. apply quiet_bind; [by apply quiet_try|intros; apply quiet_ret]. Qed.

Lemma quiet_alloc n : quiet (try_alloc_skb n).
Proof. apply quiet_bind; [apply quiet_next_allocs|intros; apply quiet_ret]. Qed.

Lemma quiet_control len appl cmd sub s : quiet (control_skb len appl cmd sub s).
Proof. unfold control_skb. do 3 (apply quiet_bind; [apply quiet_fill|intros ?]). apply quiet_fill. Qed.

Lemma okay_set_APPL i a v : 0 ≤ v ≤ 3 → okay (set_APPL i a v).
Proof.
  intros Hv. unfold set_APPL, get_APPL. apply okay_bind.
  - apply okay_get_card. intros c _. by apply okay_at_weaken, quiet_okay, quiet_try.
  - intros _. apply okay_set_card. intros c [? ? ? ? ? ?]. constructor; try done; simpl.
    + by rewrite length_insert.
    + by apply Forall_insert.
Qed.

Lemma okay_get_APPL i a : okay (get_APPL i a).
Proof.
  unfold get_APPL. apply okay_get_card. intros c _. by apply okay_at_weaken, quiet_okay, quiet_try.
Qed.

Lemma okay_APPL_IS_FREE i a : okay (APPL_IS_FREE i a).
Proof.
  apply okay_bind; [apply okay_get_APPL|]. intros. apply quiet_okay, quiet_ret.
Qed.

Lemma okay_VALID_APPLID i a : okay (VALID_APPLID i a).
Proof.
  unfold VALID_APPLID. destruct (_ && _); [|apply quiet_okay, quiet_ret].
  apply okay_bind; [apply okay_get_APPL|]. intros. apply quiet_okay, quiet_ret.
Qed.

Lemma okay_release_internal i a : okay (capiproxy_release_internal i a).
Proof.
  apply okay_bind; [apply quiet_okay, quiet_alloc|]. intros [s|]; [|apply quiet_okay, quiet_ret].
  apply okay_bind; [apply quiet_okay, quiet_control|]. intros. apply okay_send_message.
Qed.

Lemma okay_register_internal i a rp : okay (capiproxy_register_internal i a rp).
Proof.
  apply okay_bind; [apply quiet_okay, quiet_alloc|]. intros [s|]; [|apply quiet_okay, quiet_ret].
  apply okay_bind; [apply quiet_okay, quiet_control|]. intros ?.
  do 3 (apply okay_bind; [apply quiet_okay, quiet_fill|intros ?]). apply okay_send_message.
Qed.

Lemma okay_remove_ctr i : okay (capiproxy_remove_ctr i).
Proof.
  apply okay_bind; [apply quiet_okay, quiet_alloc|]. intros [s|]; [|apply quiet_okay, quiet_ret].
  apply okay_bind; [apply quiet_okay, quiet_control|]. intros ?.
  apply okay_bind; [apply quiet_okay, quiet_call|intros _].
  apply okay_bind; [apply okay_flush|intros _].
  apply okay_bind; [|intros _; apply okay_send_message].
  apply okay_set_card. intros c [? ? ? ? ? ?]. by constructor.
Qed.

Lemma okay_reset_ctr i : okay (capiproxy_reset_ctr i).
Proof. apply okay_bind; [apply okay_flush|intros _]. apply quiet_okay, quiet_call. Qed.

Lemma okay_register_appl i a rp : okay (capiproxy_register_appl i a rp).
Proof.
  unfold capiproxy_register_appl. apply okay_get_card. intros c _. apply okay_at_weaken.
  destruct (_ =? _); [apply quiet_okay, quiet_call|].
  apply okay_bind; [apply okay_APPL_IS_FREE|]. intros []; cbn [negb]; [|apply quiet_okay, quiet_ret].
  apply okay_bind; [apply okay_register_internal|intros _]. by apply okay_set_APPL.
Qed.

Lemma okay_release_appl i a : okay (capiproxy_release_appl i a).
Proof.
  unfold capiproxy_release_appl. apply okay_bind; [apply okay_VALID_APPLID|]. intros valid.
  apply okay_bind; [destruct valid; [apply okay_APPL_IS_FREE|apply quiet_okay, quiet_ret]|].
  intros []; [apply quiet_okay, quiet_call|].
  apply okay_bind; [apply okay_release_internal|intros _].
  apply okay_bind; [by apply okay_set_APPL|intros _]. apply quiet_okay, quiet_call.
Qed.

Lemma okay_ioctl i user num param : okay (capiproxy_ioctl i user num param).
Proof.
  unfold capiproxy_ioctl. apply okay_get_card. intros c [? ? ? ? ? ?].
  apply okay_at_bind; [by apply quiet_known, quiet_try|intros ctrl].
  destruct (num =? IOCTL_SET_DATA).
  { cbv zeta. destruct (_ <? _); [apply okay_at_weaken, quiet_okay, quiet_ret|].
    apply okay_at_set_card; [by constructor|].
    apply okay_at_bind; [apply quiet_known, quiet_call|intros _].
    apply okay_at_set_card; [by constructor|]. apply okay_at_weaken, quiet_okay, quiet_ret. }
  apply okay_at_weaken. destruct (num =? IOCTL_ERROR_REGFAIL).
  { apply okay_bind; [by apply okay_set_APPL|intros _].
    apply okay_bind; [apply quiet_okay, quiet_call|intros _]. apply quiet_okay, quiet_ret. }
  destruct (num =? IOCTL_APPL_REGISTERED); [|apply quiet_okay, quiet_ret].
  apply okay_bind; [apply quiet_okay, quiet_call|intros _].
  apply okay_bind; [by apply okay_set_APPL|intros _]. apply quiet_okay, quiet_ret.
Qed.

Lemma okay_write i buffer : okay (capiproxy_write i buffer).
Proof.
  unfold capiproxy_write. apply okay_get_card. intros c Hc. apply okay_at_weaken.
  assert (Hd : quiet (deref_ctrl c)) by by apply quiet_try.
  assert (Hret : ∀ z : Z, okay (deref_ctrl c ≫= λ _, mret z)).
  { intros z. apply okay_bind; [by apply quiet_okay|intros _]. apply quiet_okay, quiet_ret. }
  destruct (negb _); [apply Hret|].
  apply okay_bind; [apply quiet_okay, quiet_alloc|]. intros [s|]; [|apply Hret]. cbv zeta.
  apply okay_bind; [apply quiet_okay, quiet_fill|intros s'].
  do 2 (apply okay_bind; [by apply quiet_okay, quiet_try|intros ?]).
  apply okay_bind; [by apply quiet_okay|intros ?].
  apply okay_bind; [by apply quiet_okay, quiet_try|intros ?].
  apply okay_bind; [apply quiet_okay, quiet_when, quiet_call|intros _].
  apply okay_bind; [|intros _].
  { apply okay_set_card. intros c' [? ? ? ? ? ?]. by constructor. }
  apply okay_bind; [apply quiet_okay, quiet_call|intros _]. apply quiet_okay, quiet_ret.
Qed.

Lemma okay_init_appls i : okay (capiproxy_init_appls i).
Proof.
  apply okay_set_card. intros c [? ? ? ? ? ?]. constructor; try done; simpl.
  - rewrite length_replicate. pose proof CAPI_MAXAPPL_range. lia.
  - by apply Forall_replicate.
Qed.

(** Replacing the queue of a card whose queue is empty. *)
Lemma okay_requeue {A} i q (k : unit → K A) :
  queue_list q = [] → (∀ c, cd_status c = CARD_NOT_READY → okay_at i c (k tt)) →
  okay (capiproxy_flush_queue i ≫= λ _, set_card i (set_status CARD_NOT_READY) ≫= λ _,
        set_card i (set_queue q) ≫= k).
Proof.
  intros Hq Hk s Hs. destruct (fget cards s !! i) as [c|] eqn:Hc.
  2:{ unfold capiproxy_flush_queue, get_card, gets, mbind, M_bind. rewrite Hc.
      split_and!; [done|apply Hs..|]. by apply module_step_calls. }
  destruct (flush_run i c s Hc) as (q' & Hq' & E). erewrite bind_done by exact E. cbv beta.
  pose proof (emptied_ok q' c Hq' (card_in i c s Hs Hc)) as Hc'.
  assert (H : okay_at i (emptied q' c) (set_card i (set_status CARD_NOT_READY) ≫= λ _,
                set_card i (set_queue q) ≫= k)).
  { destruct Hc' as [? ? ? ? ? ?]. apply okay_at_set_card2; [|by apply Hk].
    constructor; try done. simpl. by rewrite Hq. }
  set (s1 := fset cards _ s). destruct (H s1) as (H1 & H2 & H3).
  - split; [apply module_ok_alter; [done|]; intros c0 ?; by simplify_eq|].
    change (alter (emptied q') i (fget cards s) !! i = Some (emptied q' c)).
    by rewrite list_lookup_alter_eq, Hc.
  - split_and!; [done|apply H2..|]. etrans; [|exact H3]. by apply module_step_calls.
Qed.

Lemma okay_find_free_id : okay capiproxy_find_free_id.
Proof. apply okay_bind; [apply quiet_okay, quiet_gets|]. intros. apply quiet_okay, quiet_ret. Qed.

Lemma okay_open stale : okay (capiproxy_open stale).
Proof.
  unfold capiproxy_open. destruct (negb stale).
  { apply respects_fail; [apply _|done]. }
  apply okay_bind; [apply okay_find_free_id|]. intros id. destruct (id =? -1); [apply quiet_okay, quiet_ret|].
  cbv zeta. apply okay_bind; [apply okay_init_appls|intros _].
  apply okay_requeue; [apply queue_init|]. intros c0 Hst.
  apply okay_at_get_card. intros s Hs. pose proof (card_in _ _ _ (proj1 Hs) (proj2 Hs)) as [? ? ? ? ? ?].
  revert s Hs. change (okay_at (Z.to_nat id) c0 (
    name ← try OutOfBounds (sprintf (cardname c0) CARDNAME);
    version ← try OutOfBounds (sprintf (card_version c0) capiproxy_version);
    set_card (Z.to_nat id) (set_names name version);;
    n ← next attached None;
    call (attach_ctr (Z.to_nat id));;
    set_card (Z.to_nat id) (set_ctrl ((λ n, mkCtr n [] [] [] []) <$> n));;
    mret (Some (Z.to_nat id)))).
  do 2 (apply okay_at_bind; [by apply quiet_known, quiet_try|intros ?]).
  apply okay_at_set_card; [by constructor|].
  apply okay_at_bind; [apply quiet_known, quiet_next_attached|intros n].
  apply okay_at_bind; [apply quiet_known, quiet_call|intros _].
  apply okay_at_set_card; [|apply okay_at_weaken, quiet_okay, quiet_ret].
  constructor; try done. simpl. by rewrite Hst.
Qed.

Lemma okay_release i : okay (capiproxy_release i).
Proof.
  unfold capiproxy_release. apply okay_get_card. intros c _. apply okay_at_weaken.
  apply okay_bind; [by apply quiet_okay, quiet_try|intros _].
  apply okay_bind; [apply quiet_okay, quiet_call|intros _].
  apply okay_bind; [apply okay_flush|intros _].
  apply okay_bind; [apply quiet_okay, quiet_call|intros _].
  assert (H : okay (set_card i (set_status CARD_FREE) ≫= λ _, set_card i (set_ctrl None) ≫= λ _, mret 0)).
  { intros s Hs.
    assert (E : (set_card i (set_status CARD_FREE) ≫= λ _, set_card i (set_ctrl None) ≫= λ _, mret 0) s =
      (set_card i (set_ctrl None ∘ set_status CARD_FREE) ≫= λ _, mret 0) s).
    { unfold set_card. do 3 erewrite bind_done by done. cbv beta.
      change (fget cards (fset cards ?l s)) with l. by rewrite list_alter_alter_eq. }
    rewrite E. revert s Hs E. intros s Hs _.
    apply okay_bind; [|intros; apply quiet_okay, quiet_ret|done].
    apply okay_set_card. intros c' [? ? ? ? ? ?]. by constructor. }
  exact H.
Qed.

Lemma okay_procinfo i addr : okay (capiproxy_procinfo i addr).
Proof.
  unfold capiproxy_procinfo. apply okay_get_card. intros c _. apply okay_at_weaken.
  do 2 (apply okay_bind; [by apply quiet_okay, quiet_try|intros ?]). cbv zeta.
  apply okay_bind; [by apply quiet_okay, quiet_try|intros ?].
  apply okay_bind; [|intros _; apply quiet_okay, quiet_ret].
  apply okay_set_card. intros c' [? ? ? ? ? ?]. by constructor.
Qed.

Lemma okay_handle_send_msg : okay handle_send_msg.
Proof.
  unfold handle_send_msg. induction (seq 0 CAPIPROXY_MAXCONTR) as [|i l IH]; [apply quiet_okay, quiet_ret|].
  simpl. apply okay_get_card. intros c _. apply okay_at_weaken.
  apply okay_bind; [apply quiet_okay, quiet_when, quiet_call|done].
Qed.

Lemma okay_exit : okay capiproxy_exit.
Proof.
  unfold capiproxy_exit. apply okay_bind.
  - induction (seq 0 CAPIPROXY_MAXCONTR) as [|i l IH]; [apply quiet_okay, quiet_ret|].
    simpl. apply okay_get_card. intros c _. apply okay_at_weaken.
    apply okay_bind; [|done]. apply respects_when; [apply _|].
    destruct (cd_ctrl c); [apply okay_remove_ctr|apply quiet_okay, quiet_ret].
  - intros _. apply okay_bind; [apply okay_handle_send_msg|intros _].
    apply okay_bind; [apply quiet_okay, quiet_call|intros _]. apply quiet_okay, quiet_call.
Qed.

(** Loading the module establishes the invariant. *)
Lemma empty_card_ok : card_ok empty_card.
Proof.
  constructor; simpl; try done.
  - by rewrite queue_init.
  - rewrite length_replicate. pose proof CAPI_MAXAPPL_range. lia.
  - by apply Forall_replicate.
Qed.

Lemma init_ok ok (s : state) :
  ∃ s', capiproxy_init ok s = (Done (if ok then 0 else -1), s') ∧ module_ok s' ∧
        fget cards s' = replicate CAPIPROXY_MAXCONTR empty_card.
Proof.
  eexists. split; [reflexivity|]. split; [|done]. split; [done|].
  apply (Forall_replicate _ 4), empty_card_ok.
Qed.
End module_spec.
