(* ===== verification/ModuleRead.v ===== *)
(** * The kernel module: reading the queue *)
From S2P Require Import Prelude CMem Capi20 CapiUtil Module ModuleSpec.
#[local] Open Scope Z_scope.

Section module_read.
Context `{HC : CapiHeader} `{HU : CapiUtil} `{HL : !CapiUtilLaws} `{HK : KernelHeader}.
Context {skb Q : Type} `{HS : SkBuff skb} `{HSL : !SkBuffLaws skb} `{HQ : SkQueue skb Q} `{HQL : !SkQueueLaws skb Q}.
Abbreviation card := (capi20proxy_card (Q:=Q)).
Abbreviation state := (kmodule (skb:=skb) (Q:=Q)).
Abbreviation K := (M state).

(** ** Taking a message *)
(** The cards when card [i] has become [c]. *)
Definition with_card (i : nat) (c : card) (s : state) : state :=
  fset cards (<[i := c]> (fget cards s)) s.

Lemma set_card_run i g c (s : state) :
  fget cards s !! i = Some c → set_card i g s = (Done tt, with_card i (g c) s).
Proof.
  intros Hc. unfold set_card, modify, with_card. do 2 f_equal. apply list_eq. intros j.
  destruct (decide (i = j)) as [<-|Hne].
  - by rewrite list_lookup_alter_eq, Hc, list_lookup_insert_eq by (by eapply lookup_lt_Some).
  - by rewrite list_lookup_alter_ne, list_lookup_insert_ne.
Qed.

Lemma with_card_known i c c0 (s : state) :
  fget cards s !! i = Some c0 → fget cards (with_card i c s) !! i = Some c.
Proof.
  intros Hc. change (<[i:=c]> (fget cards s) !! i = Some c).
  apply list_lookup_insert_eq. by eapply lookup_lt_Some.
Qed.

Lemma with_card_twice i c c' (s : state) : with_card i c (with_card i c' s) = with_card i c s.
Proof.
  unfold with_card. change (fget cards (fset cards ?l s)) with l. by rewrite list_insert_insert_eq.
Qed.

(** The head of the queue [m], the rest [l]. *)
Lemma take_message_run again i length c m l (s : state) :
  fget cards s !! i = Some c → queue_list (outgoing_queue c) = m :: l →
  let put_back q := set_queue (skb_queue_head q m) c in
  ∃ q, queue_list q = l ∧
    take_message again i length s =
    if length <? skb_len m then (Done (Some (- EMSGSIZE, [])), with_card i (put_back q) s)
    else if skb_len m <? 6 then
      again (with_card i (set_counts (in_sk c) (out_sk c) (sk_pending c - 1) (set_queue q c)) s)
    else match slice (skb_data m) 0 (skb_len m) with
         | None => (Faulted OutOfBounds, with_card i (set_queue q c) s)
         | Some bs =>
             let retval := default 0 (head (km_copies s)) in
             let s1 := fset copies (tail (km_copies s)) s in
             if retval =? 0 then
               (Done (Some (skb_len m, bs)),
                with_card i (set_counts (in_sk c) (out_sk c + 1) (sk_pending c - 1) (set_queue q c)) s1)
             else (Done (Some (retval, [])), with_card i (put_back q) s1)
         end.
Proof.
  intros Hc Hq put_back. unfold take_message.
  rewrite (bind_done _ _ _ _ _ (get_card_run i c s Hc)).
  destruct (queue_dequeue (outgoing_queue c)) as [H1 H2].
  destruct (skb_dequeue (outgoing_queue c)) as [b q]. cbn [fst snd] in *.
  rewrite Hq in H1, H2. subst b. exists q. split; [done|].
  erewrite bind_done by by apply set_card_run. cbv beta. set (s0 := with_card i (set_queue q c) s).
  pose proof (with_card_known i (set_queue q c) c s Hc) as Hc0. fold s0 in Hc0.
  erewrite bind_done by done. cbv beta.
  destruct (length <? skb_len m).
  { erewrite bind_done by by apply set_card_run. unfold s0. by rewrite with_card_twice. }
  destruct (skb_len m <? 6).
  { erewrite bind_done by by apply set_card_run. unfold s0. by rewrite with_card_twice. }
  destruct (slice (skb_data m) 0 (skb_len m)) as [bs|]; [|by erewrite bind_faulted].
  erewrite bind_done by done. cbv beta. set (s1 := fset copies _ s).
  erewrite (bind_done (next copies 0) _ _ (default 0 (head (km_copies s)))
              (with_card i (set_queue q c) s1)) by done. cbv beta.
  pose proof (with_card_known i (set_queue q c) c s1 Hc) as Hc1.
  destruct (_ =? 0); cbn [negb].
  - erewrite bind_done by done. cbv beta.
    erewrite bind_done by by apply set_card_run. by rewrite with_card_twice.
  - erewrite bind_done by by apply set_card_run. by rewrite with_card_twice.
Qed.

(** ** Reading never fails for want of a message *)
Definition fine {A} (o : outcome A) : Prop := o ≠ Faulted Diverged ∧ o ≠ Faulted NullDeref.

(** What a computation on card [i] does to the messages ahead: [n] at most arrive. *)
Definition adds {A} (i n : nat) (m : K A) : Prop := ∀ s, module_ok s →
  fine (m s).1 ∧ module_ok (m s).2 ∧ module_step s (m s).2 ∧
  km_sleeps (m s).2 = km_sleeps s ∧ (queued i (m s).2 ≤ n + queued i s)%nat.

Lemma adds_bind {A B} i n n' (m : K A) (k : A → K B) :
  adds i n m → (∀ a, adds i n' (k a)) → adds i (n + n') (m ≫= k).
Proof.
  intros Hm Hk s Hs. destruct (Hm s Hs) as ([H1 H1'] & H2 & H3 & H4 & H5). unfold mbind, M_bind.
  destruct (m s) as [[a|f|c] s'] eqn:E; cbn [fst snd] in *.
  - destruct (Hk a s' H2) as (H6 & H7 & H8 & H9 & H10).
    split_and!; [done|done|by etrans|congruence|lia].
  - split_and!; [split; congruence|done..|lia].
  - split_and!; [done..|lia].
Qed.

Lemma adds_quiet {A} i (m : K A) :
  quiet m → (∀ s, (m s).1 ≠ Faulted NullDeref) → (∀ s, km_sleeps (m s).2 = km_sleeps s) → adds i 0 m.
Proof.
  intros Hq Hn Hsl s Hs. destruct (Hq s) as (H1 & H2 & H3).
  destruct (quiet_okay m Hq s Hs) as (_ & H4 & _). split_and!; try done.
  unfold queued. change (km_cards (m s).2) with (fget cards (m s).2). by rewrite H2.
Qed.

Lemma adds_ret {A} i (a : A) : adds i 0 (mret a).
Proof. by apply adds_quiet; [apply quiet_ret|..]. Qed.
Lemma adds_call i c : adds i 0 (call c).
Proof. by apply adds_quiet; [apply quiet_call|..]. Qed.
Lemma adds_try {A} i (o : option A) : adds i 0 (try OutOfBounds o).
Proof. by apply adds_quiet; [by apply quiet_try|intros s; by destruct o..]. Qed.
Lemma adds_weaken {A} i n n' (m : K A) : adds i n m → (n ≤ n')%nat → adds i n' m.
Proof. intros Hm Hn s Hs. destruct (Hm s Hs) as (?&?&?&?&?). split_and!; [done..|lia]. Qed.

(** What sending to kernelcapi calls, and the card with one message more. *)
Definition sent_calls (i : nat) (m : skb) : option (list (kernel_call (skb:=skb))) :=
  applid ← CAPIMSG_APPID (skb_data m);
  command ← CAPIMSG_COMMAND (skb_data m);
  if command =? CAPI_DISCONNECT_B3_RESP
  then (λ ncci, [free_ncci i applid ncci]) <$> CAPIMSG_NCCI (skb_data m) else Some [].
Definition sent_card (m : skb) (c : card) : card :=
  set_counts (in_sk c) (out_sk c) (sk_pending c + 1) (set_queue (skb_queue_tail (outgoing_queue c) m) c).
Definition called (cs : list (kernel_call (skb:=skb))) (s : state) : state :=
  fset calls (fget calls s ++ cs) s.

Lemma called_nil s : called [] s = s.
Proof. unfold called. rewrite app_nil_r. by destruct s. Qed.

Lemma send_message_run i m c (s : state) :
  fget cards s !! i = Some c →
  capiproxy_send_message i m s =
    if cd_status c =? CARD_FREE then (Done tt, s) else
    match sent_calls i m with
    | None => (Faulted OutOfBounds, s)
    | Some cs =>
        if MAX_SK_PENDING <? sk_pending c then (Done tt, called cs s)
        else (Done tt, called (cs ++ [queue_task]) (with_card i (sent_card m c) s))
    end.
Proof.
  intros Hc. unfold capiproxy_send_message, sent_calls.
  rewrite (bind_done _ _ _ _ _ (get_card_run i c s Hc)).
  destruct (cd_status c =? CARD_FREE); [done|].
  destruct (CAPIMSG_APPID (skb_data m)) as [a|]; [|done]. cbn [mbind option_bind].
  erewrite bind_done by done. cbv beta.
  destruct (CAPIMSG_COMMAND (skb_data m)) as [cmd|]; [|done].
  erewrite bind_done by done. cbv beta.
  change (Some cmd ≫= ?f) with (f cmd). cbv beta.
  assert (E : ∀ cs : list kernel_call, (if MAX_SK_PENDING <? sk_pending c then kfree_skb (Some m)
    else set_card i (λ c, set_queue (skb_queue_tail (outgoing_queue c) m) c) ≫= λ _,
         set_card i (λ c, set_counts (in_sk c) (out_sk c) (sk_pending c + 1) c) ≫= λ _,
         call queue_task) (called cs s) =
    (if MAX_SK_PENDING <? sk_pending c then (Done tt, called cs s)
     else (Done tt, called (cs ++ [queue_task]) (with_card i (sent_card m c) s)))).
  { intros cs. destruct (MAX_SK_PENDING <? sk_pending c); [done|].
    erewrite bind_done by (by apply (set_card_run i _ c)). cbv beta.
    erewrite bind_done by (apply set_card_run; by eapply with_card_known). cbv beta.
    rewrite with_card_twice. unfold called, call, modify. simpl.
    by rewrite <- (assoc_L (++)). }
  destruct (cmd =? CAPI_DISCONNECT_B3_RESP); cbn [when].
  - destruct (CAPIMSG_NCCI (skb_data m)) as [ncci|]; cbn [fmap option_fmap option_map]; [|done].
    erewrite bind_done by done. cbv beta. apply E.
  - erewrite bind_done by done. cbv beta. rewrite <- (called_nil s) at 1. apply E.
Qed.

Lemma queued_at i c (s : state) :
  fget cards s !! i = Some c → queued i s = length (queue_list (outgoing_queue c)).
Proof. intros Hc. unfold queued. change (km_cards s) with (fget cards s). by rewrite Hc. Qed.

Lemma adds_send_message i m : adds i 1 (capiproxy_send_message i m).
Proof.
  intros s Hs. destruct (okay_send_message i m s Hs) as (H1 & H2 & H3).
  destruct (fget cards s !! i) as [c|] eqn:Hc.
  - rewrite (send_message_run i m c s Hc) in *.
    destruct (cd_status c =? CARD_FREE); [split_and!; try done; cbn [snd]; lia|].
    destruct (sent_calls i m) as [cs|]; [|split_and!; try done; cbn [snd]; lia].
    destruct (MAX_SK_PENDING <? sk_pending c).
    + split_and!; try done. cbn [snd]. change (queued i (called cs s)) with (queued i s). lia.
    + split_and!; try done. cbn [snd]. rewrite (queued_at i c s Hc).
      rewrite (queued_at i (sent_card m c)) by (by eapply (with_card_known i _ c)).
      simpl. rewrite queue_tail, length_app. simpl. lia.
  - unfold capiproxy_send_message, get_card, gets, mbind, M_bind in *. rewrite Hc in *.
    split_and!; try done. simpl. lia.
Qed.

(** A sleep uses up the messages it brings. *)
Lemma adds_arrivals i ms :
  adds i (length ms) (send_all i ms).
Proof.
  induction ms as [|m ms IH]; [apply adds_ret|]. simpl.
  apply (adds_bind i 1 (length ms)); [apply adds_send_message|done].
Qed.

Lemma sleep_on_none i s : km_sleeps s = [] → sleep_on i s = (Done None, s).
Proof.
  intros Hw. unfold sleep_on. erewrite bind_done by done. cbv beta.
  change (fget sleeps s) with (km_sleeps s). by rewrite Hw.
Qed.

Lemma sleep_on_some i w ws s :
  module_ok s → km_sleeps s = w :: ws →
  let r := sleep_on i s in
  fine r.1 ∧ module_ok r.2 ∧ module_step s r.2 ∧ km_sleeps r.2 = ws ∧
  (queued i r.2 ≤ length (arrived w) + queued i s)%nat ∧
  ∀ x, r.1 = Done x → x = Some (signalled w).
Proof.
  intros Hs Hw. cbv zeta. unfold sleep_on. erewrite bind_done by done. cbv beta.
  change (fget sleeps s) with (km_sleeps s). rewrite Hw.
  set (s1 := fset sleeps ws s). erewrite (bind_done _ _ _ tt s1) by done. cbv beta.
  destruct (adds_arrivals i (arrived w) s1) as ([H1 H1'] & H2 & H3 & H4 & H5); [done|].
  unfold mbind, M_bind. destruct (send_all i (arrived w) s1) as [[[]|f|c] s2]; cbn [fst snd mret M_ret] in *.
  - split_and!; try done. by intros x [= <-].
  - split_and!; [split; congruence|done..].
  - by split_and!.
Qed.

Definition ahead (i : nat) (s s' : state) : Prop :=
  module_step s s' ∧ (messages_ahead i s' ≤ messages_ahead i s)%nat.

Lemma wait_pending_outcome i : ∀ fuel (s : state),
  module_ok s → (length (km_sleeps s) < fuel)%nat →
  let r := wait_pending fuel i s in fine r.1 ∧ module_ok r.2 ∧ ahead i s r.2.
Proof.
  induction fuel as [|fuel IH]; intros s Hs Hf; [lia|]. cbv zeta. cbn [wait_pending].
  destruct (km_sleeps s) as [|w ws] eqn:Hw.
  { erewrite bind_done by by apply sleep_on_none. by split_and!. }
  destruct (sleep_on_some i w ws s Hs Hw) as ([H1 H1'] & H2 & H3 & H4 & H5 & H6).
  destruct (sleep_on i s) as [[x|f|c] s1] eqn:E; cbn [fst snd] in *.
  2:{ erewrite bind_faulted by exact E. split; [split; cbn [fst]; congruence|].
      split; [done|]. split; [done|]. unfold messages_ahead. cbn [snd]. rewrite H4, Hw, fmap_cons. change (sum_list (?a :: ?b)) with (a + sum_list b)%nat. lia. }
  2:{ erewrite bind_exited by exact E. split; [done|]. split; [done|]. split; [done|].
      unfold messages_ahead. cbn [snd]. rewrite H4, Hw, fmap_cons. change (sum_list (?a :: ?b)) with (a + sum_list b)%nat. lia. }
  erewrite bind_done by exact E. rewrite (H6 x eq_refl).
  assert (Ha : ahead i s s1).
  { split; [done|]. unfold messages_ahead. rewrite H4, Hw, fmap_cons. change (sum_list (?a :: ?b)) with (a + sum_list b)%nat. lia. }
  destruct (fget cards s1 !! i) as [c|] eqn:Hc.
  2:{ unfold get_card, gets, mbind, M_bind. rewrite Hc. by split_and!. }
  rewrite (bind_done _ _ _ _ _ (get_card_run i c s1 Hc)).
  destruct (negb (sk_pending c =? 0)); [by split_and!|].
  destruct (signalled w); [by split_and!|].
  simpl in Hf. destruct (IH s1 H2) as (I1 & I2 & I3 & I4); [rewrite H4; lia|].
  split; [done|]. split; [done|]. destruct Ha. split; [by etrans|lia].
Qed.

Lemma module_ok_with i c (s : state) : module_ok s → card_ok c → module_ok (with_card i c s).
Proof.
  intros [Hl Hs] Hc. split; [by rewrite <- Hl; apply length_insert|]. by apply Forall_insert.
Qed.

Lemma put_back_ok c m l q :
  card_ok c → queue_list (outgoing_queue c) = m :: l → queue_list q = l →
  card_ok (set_queue (skb_queue_head q m) c).
Proof.
  intros [Hp ? ? ? ? ?] Hm Hq. constructor; try done. simpl. by rewrite Hp, Hm, queue_head, Hq.
Qed.

Lemma popped_ok c m l q o :
  card_ok c → queue_list (outgoing_queue c) = m :: l → queue_list q = l →
  card_ok (set_counts (in_sk c) o (sk_pending c - 1) (set_queue q c)).
Proof.
  intros [Hp ? ? ? ? ?] Hm Hq. rewrite Hm in Hp. cbn [length] in Hp.
  constructor; try done; simpl; [rewrite Hq|]; lia.
Qed.

(** A reader that returns has kept the invariant; it can only fail on a buffer
    whose [len] is wrong. *)
Definition reads {A} (s : state) (r : outcome A * state) : Prop :=
  fine r.1 ∧ module_step s r.2 ∧ (r.1 = Faulted OutOfBounds ∨ module_ok r.2).

Lemma reads_step {A} s s' (r : outcome A * state) : module_step s s' → reads s' r → reads s r.
Proof. intros Hs (H1 & H2 & H3). split; [done|]. split; [by etrans|done]. Qed.

Lemma take_message_outcome again i n c (s : state) :
  module_ok s → fget cards s !! i = Some c → sk_pending c ≠ 0 →
  (∀ s', module_ok s' → module_step s s' → (messages_ahead i s' < messages_ahead i s)%nat →
     reads s' (again s')) →
  reads s (take_message again i n s).
Proof.
  intros Hs Hc Hp Hagain. pose proof (card_in _ _ _ Hs Hc) as Hok.
  destruct (queue_list (outgoing_queue c)) as [|m l] eqn:Hq.
  { destruct Hok as [Hpend _ _ _ _ _]. rewrite Hq in Hpend. done. }
  destruct (take_message_run again i n c m l s Hc Hq) as (q & Hql & ->).
  pose proof (put_back_ok c m l q Hok Hq Hql) as Hback.
  pose proof (λ o, popped_ok c m l q o Hok Hq Hql) as Hpop.
  assert (Hret : ∀ (x : option (Z * list byte)) c' s', module_ok s' → fget calls s' = fget calls s →
    card_ok c' → reads s (Done x, with_card i c' s')).
  { intros x c' s' Hs' E Hc'. split; [done|]. split; [by apply module_step_calls|].
    right. by apply module_ok_with. }
  destruct (n <? skb_len m); [by apply Hret|].
  destruct (skb_len m <? 6).
  - set (s' := with_card i _ s).
    assert (Hst : module_step s s') by by apply module_step_calls.
    apply (reads_step _ s'); [done|]. apply Hagain; [by apply module_ok_with|done|].
    unfold messages_ahead. change (km_sleeps s') with (km_sleeps s).
    rewrite (queued_at i c s Hc), Hq.
    rewrite (queued_at i (set_counts (in_sk c) (out_sk c) (sk_pending c - 1) (set_queue q c)))
      by (by eapply with_card_known).
    simpl. rewrite Hql. lia.
  - destruct (slice (skb_data m) 0 (skb_len m)) as [bs|].
    + cbv zeta. destruct (_ =? 0); by apply Hret.
    + split; [done|]. split; [by apply module_step_calls|by left].
Qed.

Lemma read_loop_outcome i nonblock n : ∀ fuel (s : state),
  module_ok s → (messages_ahead i s < fuel)%nat → reads s (read_loop fuel i nonblock n s).
Proof.
  induction fuel as [|fuel IH]; intros s Hs Hf; [lia|]. cbn [read_loop].
  set (again := read_loop fuel i nonblock n).
  assert (Hdone : ∀ (x : option (Z * list byte)) s', module_ok s' → module_step s s' →
    reads s (Done x, s')) by (intros; split; [done|split; [done|by right]]).
  assert (Htake : ∀ s1 c, module_ok s1 → ahead i s s1 → fget cards s1 !! i = Some c →
    sk_pending c ≠ 0 → reads s (take_message again i n s1)).
  { intros s1 c Hs1 [Hst Ha] Hc Hp. apply (reads_step _ s1); [done|].
    apply (take_message_outcome _ _ _ c); [done..|]. intros s2 Hs2 _ Ha2. apply IH; [done|lia]. }
  assert (Hcard : ∀ (s1 : state) (k : card → K (option (Z * list byte))), module_step s s1 →
    module_ok s1 → (∀ c, fget cards s1 !! i = Some c → reads s (k c s1)) → reads s ((get_card i ≫= k) s1)).
  { intros s1 k Hst Hs1 Hk. destruct (fget cards s1 !! i) as [c|] eqn:Hc.
    - rewrite (bind_done _ _ _ _ _ (get_card_run i c s1 Hc)). by apply Hk.
    - unfold get_card, gets, mbind, M_bind. rewrite Hc. split; [done|]. split; [done|by right]. }
  apply Hcard; [by apply module_step_calls|done|]. intros c Hc.
  destruct (sk_pending c =? 0) eqn:Hp; cbn [negb].
  2:{ apply (Htake s c); [done| |done|lia]. by split; [apply module_step_calls|]. }
  destruct nonblock; [by apply Hdone; [|apply module_step_calls]|].
  erewrite bind_done by done. cbv beta.
  destruct (wait_pending_outcome i (S (length (fget sleeps s))) s Hs (Nat.lt_succ_diag_r _))
    as ([H1 H1'] & H2 & H3).
  destruct (wait_pending _ i s) as [[[]|f|x] s1] eqn:E; cbn [fst snd] in *.
  - erewrite bind_done by exact E. cbn [negb]. apply Hcard; [apply H3|done|]. intros c1 Hc1.
    destruct (sk_pending c1 =? 0) eqn:Hp1; [by apply Hdone; [|apply H3]|].
    apply (Htake s1 c1); [done..|lia].
  - erewrite bind_done by exact E. cbn [negb]. by apply Hdone; [|apply H3].
  - erewrite bind_faulted by exact E. split; [split; cbn [fst]; congruence|]. split; [apply H3|by right].
  - erewrite bind_exited by exact E. split; [done|]. split; [apply H3|by right].
Qed.

Lemma read_outcome i nonblock n (s : state) :
  module_ok s → reads s (capiproxy_read i nonblock n s).
Proof. intros Hs. apply read_loop_outcome; [done|apply Nat.lt_succ_diag_r]. Qed.
End module_read.
