(* ===== verification/ModuleProperties.v ===== *)
(** * The kernel module: properties *)
From stdpp Require Import relations.
From S2P Require Import Prelude CMem Protocol Capi20 CapiUtil Module ModuleSpec ModuleRead.
From S2P Require Daemon DaemonProperties.
#[local] Open Scope Z_scope.

Section module_properties.
Context `{HC : CapiHeader} `{HU : CapiUtil} `{HL : !CapiUtilLaws} `{HK : KernelHeader}.
Context {skb Q : Type} `{HS : SkBuff skb} `{HSL : !SkBuffLaws skb} `{HQ : SkQueue skb Q} `{HQL : !SkQueueLaws skb Q}.
Abbreviation card := (capi20proxy_card (Q:=Q)).
Abbreviation state := (kmodule (skb:=skb) (Q:=Q)).
Abbreviation K := (M state).

Lemma okay_read_proc i off count : respects module_ok module_step (capiproxy_read_proc (skb:=skb) i off count).
Proof.
  unfold capiproxy_read_proc. apply okay_get_card. intros c _. apply okay_at_weaken.
  do 2 (apply okay_bind; [by apply quiet_okay, quiet_try|intros ?]). apply quiet_okay, quiet_ret.
Qed.

(** However a handler ends, it has not run on, and where it did not run into an
    access outside a buffer the invariant holds. *)
Definition kept {A} (s : state) (r : outcome A * state) : Prop :=
  r.1 ≠ Faulted Diverged ∧ module_step s r.2 ∧ (r.1 = Faulted OutOfBounds ∨ module_ok r.2).

Lemma okay_kept {A} (m : K A) s : respects module_ok module_step m → module_ok s → kept s (m s).
Proof. intros Hm Hs. destruct (Hm s Hs) as (H1 & H2 & H3). split; [done|]. split; [done|by right]. Qed.

Lemma reads_kept {A} s (r : outcome A * state) : reads s r → kept s r.
Proof. intros ([H1 _] & H2 & H3). by split. Qed.

Lemma kept_bind {A B} (m : K A) (k : A → K B) s :
  kept s (m s) → (∀ a s', module_ok s' → kept s' (k a s')) → kept s ((m ≫= k) s).
Proof.
  intros (H1 & H2 & H3) Hk. unfold mbind, M_bind.
  destruct (m s) as [[a|f|c] s'] eqn:E; cbn [fst snd] in *.
  - destruct H3 as [|H3]; [done|]. destruct (Hk a s' H3) as (H4 & H5 & H6).
    split; [done|]. split; [by etrans|done].
  - split; [cbn [fst]; congruence|]. split; [done|]. destruct H3; [left; cbn [fst]; congruence|by right].
  - split; [done|]. split; [done|by right; destruct H3].
Qed.

Lemma run_handler_kept h (s : state) : module_ok s → kept s (run_handler h s).
Proof.
  intros Hs.
  assert (Hret : ∀ {A} (m : K A), kept s (m s) → kept s ((m;; mret tt) s)).
  { intros A m Hm. apply kept_bind; [done|]. intros a s' Hs'. by apply okay_kept; [apply quiet_okay, quiet_ret|]. }
  destruct h; cbn [run_handler].
  - by apply Hret, reads_kept, read_outcome.
  - by apply Hret, okay_kept; [apply okay_write|].
  - by apply Hret, okay_kept; [apply okay_ioctl|].
  - by apply Hret, okay_kept; [apply okay_open|].
  - by apply Hret, okay_kept; [apply okay_release|].
  - by apply Hret, okay_kept; [apply quiet_okay, quiet_ret|].
  - by apply okay_kept; [apply okay_reset_ctr|].
  - by apply okay_kept; [apply okay_remove_ctr|].
  - by apply okay_kept; [apply okay_register_appl|].
  - by apply okay_kept; [apply okay_release_appl|].
  - by apply okay_kept; [apply okay_send_message|].
  - by apply Hret, okay_kept; [apply okay_procinfo|].
  - by apply Hret, okay_kept; [apply okay_read_proc|].
  - by apply okay_kept; [apply okay_handle_send_msg|].
  - by apply okay_kept; [apply okay_exit|].
Qed.

(** C11: After the module is loaded, whatever kernelcapi
    and the daemon call in whatever order: no loop of the module - flushing,
    sleeping, the recursion of read - runs on; [sk_pending] stays the length of the
    queue and at most 33, a running card has a controller, and every application
    is in one of the four states. *)
Theorem module_invariant ok hs (s : state) r s' :
  (capiproxy_init ok;; run_handlers hs) s = (r, s') →
  r ≠ Faulted Diverged ∧ (r = Faulted OutOfBounds ∨ module_ok s').
Proof.
  intros E. destruct (init_ok ok s) as (s1 & E1 & Hs1 & _).
  erewrite bind_done in E by exact E1. cbv beta in E.
  assert (Hk : kept s1 (run_handlers hs s1)).
  { clear E E1. revert s1 Hs1. induction hs as [|h hs IH]; intros s1 Hs1; cbn [run_handlers].
    - by apply okay_kept; [apply quiet_okay, quiet_ret|].
    - apply kept_bind; [by apply run_handler_kept|]. intros _ s2 Hs2. by apply IH. }
  destruct Hk as (H1 & _ & H3). rewrite E in H1, H3. done.
Qed.

(** A read never takes a message from an empty queue: the
    NULL that [skb_dequeue] would return is not dereferenced. *)
Theorem read_safe i nonblock n (s : state) :
  module_ok s → (capiproxy_read i nonblock n s).1 ≠ Faulted NullDeref.
Proof. intros Hs. by destruct (read_outcome i nonblock n s Hs) as ([_ H] & _). Qed.

(** ** The queue as the daemon sees it *)
(** What a read finds in the queue [l], and what it leaves there. *)
Fixpoint fifo_read (n : Z) (l : list skb) : (Z * list byte) * list skb :=
  match l with
  | [] => ((- EAGAIN, []), [])
  | m :: l' =>
      if n <? skb_len m then ((- EMSGSIZE, []), m :: l')
      else if skb_len m <? 6 then fifo_read n l'
      else ((skb_len m, take (Z.to_nat (skb_len m)) (skb_data m)), l')
  end.

(** C19: The daemon reads the messages in the order in which they
    were sent: the first one that is long enough is copied whole and leaves the
    queue with the short ones before it; one that does not fit the daemon's buffer
    stays, and nothing behind it can be read.  In which state the application of a
    message is makes no difference: the check of it that readme.txt describes, which
    drops the messages of an application that has been refused and keeps back those of one that
    waits, is commented out. *)
Theorem read_fifo i n c (s : state) :
  module_ok s → fget cards s !! i = Some c → km_copies s = [] →
  Forall (λ m, 0 ≤ skb_len m ≤ blen (skb_data m)) (queue_list (outgoing_queue c)) →
  ∃ s' c', capiproxy_read i true n s = (Done (Some (fifo_read n (queue_list (outgoing_queue c))).1), s') ∧
    fget cards s' !! i = Some c' ∧
    queue_list (outgoing_queue c') = (fifo_read n (queue_list (outgoing_queue c))).2.
Proof.
  intros Hs Hc Hcp Hv. unfold capiproxy_read.
  assert (Hf : (length (queue_list (outgoing_queue c)) < S (messages_ahead i s))%nat).
  { unfold messages_ahead. rewrite (queued_at i c s Hc). lia. }
  revert Hf. generalize (S (messages_ahead i s)). intros fuel. revert s c Hs Hc Hcp Hv.
  induction fuel as [|fuel IH]; intros s c Hs Hc Hcp Hv Hf; [lia|]. cbn [read_loop].
  rewrite (bind_done _ _ _ _ _ (get_card_run i c s Hc)).
  pose proof (card_in _ _ _ Hs Hc) as Hok. pose proof (ok_pending c Hok) as Hp.
  destruct (queue_list (outgoing_queue c)) as [|m l] eqn:Hq.
  { rewrite Hp. exists s, c. by split_and!. }
  rewrite Hp. replace (Z.of_nat (length (m :: l)) =? 0) with false by (simpl; lia). cbn [negb].
  destruct (take_message_run (read_loop fuel i true n) i n c m l s Hc Hq) as (q & Hql & ->).
  apply Forall_cons in Hv as [Hm Hv]. cbn [fifo_read].
  destruct (n <? skb_len m).
  { eexists _, _. split; [reflexivity|]. split; [by eapply with_card_known|]. simpl. by rewrite queue_head, Hql. }
  destruct (skb_len m <? 6).
  - destruct (IH (with_card i (set_counts (in_sk c) (out_sk c) (sk_pending c - 1) (set_queue q c)) s)
      (set_counts (in_sk c) (out_sk c) (sk_pending c - 1) (set_queue q c))) as (s' & c' & E & Hc' & Hq').
    + apply module_ok_with; [done|]. by eapply popped_ok.
    + by eapply with_card_known.
    + done.
    + simpl. by rewrite Hql.
    + simpl in *. rewrite Hql. lia.
    + simpl in E, Hq'. rewrite Hql in E, Hq'. by exists s', c'.
  - rewrite slice_Some by lia. rewrite Hcp. cbn [head default from_option tail].
    change (0 =? 0) with true. cbv zeta. cbv iota.
    eexists _, _. split; [reflexivity|]. split; [by eapply with_card_known|]. done.
Qed.

(** ** The messages of the module itself *)
(** Six bytes: length, application, command and subcommand. *)
Definition control_message (len appl command subcommand : Z) : list byte :=
  le_split 2 len ++ le_split 2 appl ++ le_split 1 command ++ le_split 1 subcommand.

Lemma fill_run f m b b' (s : state) :
  skb_data m = b → f b = Some b' → fill f m s = (Done (set_skb_data b' m), s).
Proof. intros <- E. unfold fill. by rewrite E. Qed.

Lemma control_skb_run len appl command subcommand m (s : state) :
  6 ≤ blen (skb_data m) →
  ∃ m', control_skb len appl command subcommand m s = (Done m', s) ∧ skb_len m' = len ∧
        skb_data m' = control_message len appl command subcommand ++ drop 6 (skb_data m).
Proof.
  intros Hl. unfold blen in Hl. unfold control_skb.
  erewrite bind_done.
  2:{ eapply fill_run; [apply skb_data_set_len|]. rewrite capimsg_setlen. apply (splice_append [] (skb_data m)); [done|].
      rewrite length_le_split. lia. }
  cbv beta. erewrite bind_done.
  2:{ eapply fill_run; [apply skb_data_set|]. rewrite capimsg_setappid. apply splice_append; [done|].
      rewrite !length_le_split, length_drop. lia. }
  cbv beta. erewrite bind_done.
  2:{ eapply fill_run; [apply skb_data_set|]. rewrite capimsg_setcommand. apply splice_append; [done|].
      rewrite !length_le_split, !length_drop. lia. }
  cbv beta. eexists. split.
  { eapply fill_run; [apply skb_data_set|]. rewrite capimsg_setsubcommand. apply splice_append; [done|].
    rewrite !length_le_split, !length_drop. lia. }
  split; [by rewrite !skb_len_set_data, skb_len_set|].
  rewrite skb_data_set, !length_le_split, !drop_drop. unfold control_message.
  cbn [app]. by rewrite <- !(assoc_L (++)).
Qed.

Lemma try_alloc_run n (s : state) :
  km_allocs s = [] → ∃ s', try_alloc_skb n s = (Done (Some (alloc_skb n)), s') ∧
    fget cards s' = fget cards s ∧ fget calls s' = fget calls s.
Proof. intros Ha. eexists. unfold try_alloc_skb, next, gets, puts, mbind, M_bind. simpl. rewrite Ha. done. Qed.

Lemma sent_calls_quiet i m :
  256 ≤ CAPI_DISCONNECT_B3_RESP → 6 ≤ blen (skb_data m) → sent_calls i m = Some [].
Proof.
  intros Hc Hl. unfold sent_calls. rewrite capimsg_appid, capimsg_command.
  destruct (get_le_is_Some 2 (skb_data m) 2) as (a & ->); [lia|lia|]. cbn [mbind option_bind].
  destruct (get_le_is_Some 1 (skb_data m) 4) as (c & Hcmd); [lia|lia|]. rewrite Hcmd.
  cbn [mbind option_bind]. pose proof (get_le_bound _ _ _ _ Hcmd).
  by replace (c =? CAPI_DISCONNECT_B3_RESP) with false by lia.
Qed.

(** A REGISTER message. *)
Definition register_message (appl : Z) (rp : register_params) : list byte :=
  control_message 18 appl Daemon.TYPE_PROXY Daemon.TYPE_REGISTER_APP ++
  words [level3cnt rp; datablkcnt rp; datablklen rp].

Lemma register_internal_run i c appl rp (s : state) :
  256 ≤ CAPI_DISCONNECT_B3_RESP →
  fget cards s !! i = Some c → cd_status c ≠ CARD_FREE → sk_pending c ≤ MAX_SK_PENDING →
  km_allocs s = [] →
  ∃ m s', capiproxy_register_internal i appl rp s = (Done tt, s') ∧
    skb_len m = 18 ∧ take 18 (skb_data m) = register_message appl rp ∧
    fget cards s' = <[i := sent_card m c]> (fget cards s) ∧ fget calls s' = fget calls s ++ [queue_task].
Proof.
  intros Hc Hi Hst Hp Ha. unfold capiproxy_register_internal.
  change (2 * 2 + 1 * 2 + 4 * 3) with 18. cbv zeta.
  destruct (try_alloc_run (18 + 1) s Ha) as (s1 & E1 & Hcards & Hcalls).
  erewrite bind_done by exact E1. cbv beta iota.
  pose proof (alloc_skb_size 19 ltac:(done)) as Hsz.
  destruct (control_skb_run 18 appl Daemon.TYPE_PROXY Daemon.TYPE_REGISTER_APP (alloc_skb 19) s1)
    as (m & E2 & Hlen & Hdata); [lia|].
  erewrite bind_done by exact E2. cbv beta. unfold blen in Hsz.
  assert (Hcl : length (control_message 18 appl Daemon.TYPE_PROXY Daemon.TYPE_REGISTER_APP) = 6%nat).
  { unfold control_message. by rewrite !length_app, !length_le_split. }
  unfold CAPIMSG_SETL3C, CAPIMSG_SETDBC, CAPIMSG_SETDBL.
  erewrite bind_done.
  2:{ eapply fill_run; [exact Hdata|]. rewrite capimsg_setu32_law. apply splice_append; [by unfold blen; rewrite Hcl|].
      rewrite length_le_split, length_drop. lia. }
  cbv beta. erewrite bind_done.
  2:{ eapply fill_run; [apply skb_data_set|]. rewrite capimsg_setu32_law. apply splice_append.
      - unfold blen. by rewrite length_app, Hcl, length_le_split.
      - rewrite !length_le_split, !length_drop. lia. }
  cbv beta. erewrite bind_done.
  2:{ eapply fill_run; [apply skb_data_set|]. rewrite capimsg_setu32_law. apply splice_append.
      - unfold blen. by rewrite !length_app, Hcl, !length_le_split.
      - rewrite !length_le_split, !length_drop. lia. }
  cbv beta. set (m' := set_skb_data _ _).
  assert (Hd' : skb_data m' = register_message appl rp ++ drop 18 (skb_data (alloc_skb 19))).
  { unfold m'. rewrite skb_data_set, !length_le_split, !drop_drop. unfold register_message.
    rewrite !words_cons. change (words []) with ([] : list byte). rewrite app_nil_r.
    by rewrite <- !(assoc_L (++)). }
  assert (Hrl : length (register_message appl rp) = 18%nat).
  { unfold register_message. by rewrite length_app, Hcl, length_words. }
  rewrite (send_message_run i m' c) by by rewrite Hcards.
  replace (cd_status c =? CARD_FREE) with false by lia.
  rewrite sent_calls_quiet; [|done|].
  2:{ rewrite Hd', blen_app. unfold blen. rewrite Hrl. lia. }
  replace (MAX_SK_PENDING <? sk_pending c) with false by lia.
  exists m'. eexists. split; [reflexivity|]. split_and!.
  - unfold m'. by rewrite !skb_len_set_data, Hlen.
  - rewrite Hd', take_app_le by lia. apply take_ge. lia.
  - change (<[i:=sent_card m' c]> (fget cards s1) = <[i:=sent_card m' c]> (fget cards s)). by rewrite Hcards.
  - change (fget calls s1 ++ [] ++ [queue_task] = fget calls s ++ [queue_task]). by rewrite Hcalls.
Qed.

Lemma register_message_request appl rp :
  0 ≤ appl < 2 ^ 16 → wf_words [level3cnt rp; datablkcnt rp; datablklen rp] →
  DaemonProperties.register_request (register_message appl rp) appl
    (level3cnt rp) (datablkcnt rp) (datablklen rp).
Proof.
  intros Ha Hw. inversion_clear Hw as [|? ? H1 Hw']. inversion_clear Hw' as [|? ? H2 Hw''].
  inversion_clear Hw'' as [|? ? H3 _]. unfold register_message, control_message.
  rewrite !words_cons. change (words []) with ([] : list byte).
  set (a := le_split 2 18). set (b := le_split 2 appl). set (c := le_split 1 Daemon.TYPE_PROXY).
  set (e := le_split 1 Daemon.TYPE_REGISTER_APP).
  set (f := le_split 4 (level3cnt rp)). set (g := le_split 4 (datablkcnt rp)).
  set (h := le_split 4 (datablklen rp)). rewrite <- !(assoc_L (++)).
  constructor.
  - unfold b. rewrite (get_le_at 2 a) by done. f_equal. by apply Z.mod_small.
  - rewrite (assoc_L (++) a). unfold c. by rewrite (get_le_at 1 (a ++ b)).
  - rewrite (assoc_L (++) a), (assoc_L (++) (a ++ b)). unfold e.
    by rewrite (get_le_at 1 ((a ++ b) ++ c)).
  - rewrite (assoc_L (++) a), (assoc_L (++) (a ++ b)), (assoc_L (++) ((a ++ b) ++ c)).
    unfold f. rewrite (get_le_at 4 (((a ++ b) ++ c) ++ e)) by done. f_equal. by apply Z.mod_small.
  - rewrite (assoc_L (++) a), (assoc_L (++) (a ++ b)), (assoc_L (++) ((a ++ b) ++ c)),
      (assoc_L (++) (((a ++ b) ++ c) ++ e)).
    unfold g. rewrite (get_le_at 4 ((((a ++ b) ++ c) ++ e) ++ f)) by done. f_equal. by apply Z.mod_small.
  - rewrite (assoc_L (++) a), (assoc_L (++) (a ++ b)), (assoc_L (++) ((a ++ b) ++ c)),
      (assoc_L (++) (((a ++ b) ++ c) ++ e)), (assoc_L (++) ((((a ++ b) ++ c) ++ e) ++ f)).
    unfold h. rewrite (get_le_at 4 (((((a ++ b) ++ c) ++ e) ++ f) ++ g)) by done.
    f_equal. by apply Z.mod_small.
Qed.

Lemma get_APPL_run i a v c (s : state) :
  fget cards s !! i = Some c → 1 ≤ a → applications c !! Z.to_nat (a - 1) = Some v →
  get_APPL i a s = (Done v, s).
Proof.
  intros Hc Ha Hv. unfold get_APPL. rewrite (bind_done _ _ _ _ _ (get_card_run i c s Hc)).
  rewrite decide_True by done. by rewrite Hv.
Qed.

(** The card with the state [v] of application [a]. *)
Definition appl_set (a v : Z) (c : card) : card :=
  set_applications (<[Z.to_nat (a - 1) := v]> (applications c)) c.

Lemma set_APPL_run i a u v c (s : state) :
  fget cards s !! i = Some c → 1 ≤ a → applications c !! Z.to_nat (a - 1) = Some u →
  set_APPL i a v s = (Done tt, with_card i (appl_set a v c) s).
Proof.
  intros Hc Ha Hv. unfold set_APPL. erewrite bind_done by by eapply get_APPL_run. cbv beta.
  by apply (set_card_run i _ c).
Qed.

(** Registering a free application queues one
    message for the daemon, and the application waits for its answer.  The message
    is the REGISTER message that the daemon expects, with the application, the
    number of connections, and the two sizes cut to what the module supports. *)
Theorem register_appl_message i c appl rp (s : state) :
  256 ≤ CAPI_DISCONNECT_B3_RESP → 0 ≤ CAPI_MAXDATAWINDOW < 2 ^ 32 →
  fget cards s !! i = Some c → cd_status c ≠ CARD_FREE → sk_pending c ≤ MAX_SK_PENDING →
  km_allocs s = [] → 1 ≤ appl < 2 ^ 16 →
  applications c !! Z.to_nat (appl - 1) = Some APPL_FREE →
  wf_words [level3cnt rp; datablkcnt rp; datablklen rp] →
  ∃ s' c' m, capiproxy_register_appl i appl rp s = (Done tt, s') ∧
    fget cards s' !! i = Some c' ∧
    queue_list (outgoing_queue c') = queue_list (outgoing_queue c) ++ [m] ∧ skb_len m = 18 ∧
    DaemonProperties.register_request (take 18 (skb_data m)) appl (level3cnt rp)
      (Z.min CAPI_MAXDATAWINDOW (datablkcnt rp)) (Z.min 1024 (datablklen rp)) ∧
    applications c' !! Z.to_nat (appl - 1) = Some APPL_WAITING ∧
    fget calls s' = fget calls s ++ [queue_task].
Proof.
  intros Hconst Hwin Hc Hst Hp Hal Ha Hfree Hw. unfold capiproxy_register_appl.
  rewrite (bind_done _ _ _ _ _ (get_card_run i c s Hc)).
  replace (cd_status c =? CARD_FREE) with false by lia.
  erewrite (bind_done (APPL_IS_FREE i appl) _ s true s).
  2:{ unfold APPL_IS_FREE. erewrite bind_done by (eapply get_APPL_run; [done|lia|done]). done. }
  cbn [negb]. cbv zeta. set (arp := mkParams _ _ _).
  destruct (register_internal_run i c appl arp s Hconst Hc Hst Hp Hal)
    as (m & s1 & E & Hlen & Hdata & Hcards & Hcalls).
  erewrite bind_done by exact E. cbv beta.
  assert (Hc1 : fget cards s1 !! i = Some (sent_card m c)).
  { rewrite Hcards. apply list_lookup_insert_eq. by eapply lookup_lt_Some. }
  exists (with_card i (appl_set appl APPL_WAITING (sent_card m c)) s1).
  exists (appl_set appl APPL_WAITING (sent_card m c)), m. split_and!.
  - unfold APPL_MARK_WAITING. apply (set_APPL_run i appl APPL_FREE); [done|lia|done].
  - by eapply with_card_known.
  - simpl. apply queue_tail.
  - done.
  - rewrite Hdata. inversion_clear Hw as [|? ? H1 Hw']. inversion_clear Hw' as [|? ? H2 Hw''].
    inversion_clear Hw'' as [|? ? H3 _].
    assert (E1 : Z.min CAPI_MAXDATAWINDOW (datablkcnt rp) = datablkcnt arp).
    { unfold arp. simpl. destruct (_ <? _) eqn:?; lia. }
    assert (E2 : Z.min 1024 (datablklen rp) = datablklen arp).
    { unfold arp. cbn [datablklen]. destruct (1024 <? datablklen rp) eqn:Hx; lia. }
    rewrite E1, E2. apply (register_message_request appl arp); [lia|].
    constructor; [exact H1|]. constructor; [rewrite <- E1; lia|]. constructor; [rewrite <- E2; lia|done].
  - simpl. apply list_lookup_insert_eq. by eapply lookup_lt_Some.
  - done.
Qed.

(** A message that kernelcapi sends to a card in
    use goes to the end of the queue, as long as not more than 32 messages are
    waiting - so that 33 fit -; otherwise it is freed and nobody is told.  The NCCI
    of a DISCONNECT_B3_RESP is not given back: the eight-bit command is compared with
    the sixteen-bit constant of the message. *)
Theorem send_message_bounded i c m (s : state) :
  256 ≤ CAPI_DISCONNECT_B3_RESP →
  module_ok s → fget cards s !! i = Some c → cd_status c ≠ CARD_FREE → 6 ≤ blen (skb_data m) →
  let waiting := length (queue_list (outgoing_queue c)) in
  ∃ s' c', capiproxy_send_message i m s = (Done tt, s') ∧ fget cards s' !! i = Some c' ∧
    queue_list (outgoing_queue c') =
      (if decide (waiting ≤ 32)%nat then queue_list (outgoing_queue c) ++ [m]
       else queue_list (outgoing_queue c)) ∧
    fget calls s' = fget calls s ++ (if decide (waiting ≤ 32)%nat then [queue_task] else []).
Proof.
  intros Hconst Hs Hc Hst Hl waiting. rewrite (send_message_run i m c s Hc).
  replace (cd_status c =? CARD_FREE) with false by lia. rewrite sent_calls_quiet by done.
  pose proof (ok_pending c (card_in _ _ _ Hs Hc)) as Hp.
  change MAX_SK_PENDING with 32. case_decide as Hd.
  - replace (32 <? sk_pending c) with false by lia. do 2 eexists. split; [reflexivity|].
    split; [by eapply (with_card_known i (sent_card m c))|]. split; [apply queue_tail|done].
  - replace (32 <? sk_pending c) with true by lia. do 2 eexists. split; [reflexivity|]. by split.
Qed.

(** What the daemon writes to a running card is handed
    to kernelcapi with its application id - as a buffer whose [len] is twice the
    length of the message, with the controller as the daemon wrote it, and without
    a report of the NCCI of a new connection. *)
Theorem write_delivers i c ctrl buffer appl (s : state) :
  256 ≤ CAPI_CONNECT_B3_CONF → 256 ≤ CAPI_CONNECT_B3_IND →
  fget cards s !! i = Some c → cd_status c = CARD_RUNNING → cd_ctrl c = Some ctrl →
  km_allocs s = [] → 12 ≤ blen buffer → get_u16 buffer 2 = Some appl →
  ∃ s' m, capiproxy_write i buffer s = (Done (blen buffer), s') ∧
    fget calls s' = fget calls s ++ [handle_capimsg i appl m] ∧
    skb_len m = 2 * blen buffer ∧ take (length buffer) (skb_data m) = buffer.
Proof.
  intros Hc1 Hc2 Hc Hst Hct Hal Hl Ha. unfold capiproxy_write.
  rewrite (bind_done _ _ _ _ _ (get_card_run i c s Hc)). rewrite Hst. cbn [negb Z.eqb].
  change (CARD_RUNNING =? CARD_RUNNING) with true. cbn [negb].
  destruct (try_alloc_run (blen buffer + 1) s Hal) as (s1 & E1 & Hcards & Hcalls).
  erewrite bind_done by exact E1. cbv beta iota zeta.
  set (m0 := skb_put _ _).
  assert (Hd0 : skb_data m0 = skb_data (alloc_skb (blen buffer + 1))).
  { unfold m0. by rewrite skb_put_data, skb_data_set_len. }
  pose proof (alloc_skb_size (blen buffer + 1) ltac:(lia)) as Hsz.
  set (rest := drop (length buffer) (skb_data (alloc_skb (blen buffer + 1)))).
  erewrite bind_done.
  2:{ eapply fill_run; [exact Hd0|].
      apply (splice_append [] (skb_data (alloc_skb (blen buffer + 1)))); [done|unfold blen in *; lia]. }
  cbv beta. set (m := set_skb_data _ m0).
  assert (Hm : skb_data m = buffer ++ rest) by by unfold m; rewrite skb_data_set.
  rewrite Hm, capimsg_appid, capimsg_ncci, capimsg_command.
  rewrite (get_le_app_l 2 buffer rest 2 appl Ha).
  destruct (get_le_is_Some 4 buffer 8) as (n & Hn); [lia|lia|].
  destruct (get_le_is_Some 1 buffer 4) as (cmd & Hcmd); [lia|lia|].
  rewrite (get_le_app_l 4 _ rest _ _ Hn), (get_le_app_l 1 _ rest _ _ Hcmd).
  pose proof (get_le_bound _ _ _ _ Hcmd).
  do 2 (erewrite bind_done by done; cbv beta).
  unfold deref_ctrl. rewrite Hct. do 2 (erewrite bind_done by done; cbv beta).
  replace (cmd =? CAPI_CONNECT_B3_CONF) with false by lia.
  replace (cmd =? CAPI_CONNECT_B3_IND) with false by lia. cbn [orb when].
  erewrite bind_done by done. cbv beta.
  erewrite bind_done by (apply (set_card_run i _ c); by rewrite Hcards). cbv beta.
  erewrite bind_done by done. cbv beta. eexists _, m. split; [reflexivity|]. split_and!.
  - change (fget calls s1 ++ [handle_capimsg i appl m] = fget calls s ++ [handle_capimsg i appl m]).
    by rewrite Hcalls.
  - unfold m, m0. rewrite skb_len_set_data, skb_put_len, skb_len_set. lia.
  - rewrite Hm. by apply take_app_length.
Qed.

(** The daemon's verdict on an application is
    passed on to kernelcapi and remembered - whatever was known of the application
    before.  An application whose registration failed cannot register again: the
    module ignores the attempt, and kernelcapi hears nothing. *)
Theorem ioctl_registration i c ctrl user (confirmed : bool) a u (s : state) :
  fget cards s !! i = Some c → cd_ctrl c = Some ctrl → cd_status c ≠ CARD_FREE →
  1 ≤ a < 2 ^ 16 → applications c !! Z.to_nat (a - 1) = Some u →
  let num := if confirmed then IOCTL_APPL_REGISTERED else IOCTL_ERROR_REGFAIL in
  ∃ s' c', capiproxy_ioctl i user num a s = (Done 0, s') ∧ fget cards s' !! i = Some c' ∧
    applications c' = <[Z.to_nat (a - 1) := if confirmed then APPL_CONFIRMED else APPL_REVOKED]>
                        (applications c) ∧
    fget calls s' = fget calls s ++
      [if confirmed then appl_registered i a else appl_released i a] ∧
    ∀ rp, capiproxy_register_appl i a rp s' = (Done tt, s').
Proof.
  intros Hc Hct Hst Ha Hu num. unfold capiproxy_ioctl.
  rewrite (bind_done _ _ _ _ _ (get_card_run i c s Hc)). unfold deref_ctrl. rewrite Hct.
  erewrite bind_done by done. cbv beta.
  assert (Hau : u16 a = a) by (apply Z.mod_small; lia).
  assert (Hlt : (Z.to_nat (a - 1) < length (applications c))%nat) by by eapply lookup_lt_Some.
  assert (Hbusy : ∀ v s', v ≠ APPL_FREE → fget cards s' !! i = Some (appl_set a v c) →
    ∀ rp, capiproxy_register_appl i a rp s' = (Done tt, s')).
  { intros v s' Hv Hc' rp. unfold capiproxy_register_appl.
    rewrite (bind_done _ _ _ _ _ (get_card_run i _ s' Hc')). cbn [cd_status appl_set set_applications].
    replace (cd_status c =? CARD_FREE) with false by lia.
    erewrite (bind_done (APPL_IS_FREE i a) _ s' false s'); [done|].
    unfold APPL_IS_FREE. erewrite bind_done.
    2:{ eapply (get_APPL_run i a v); [done|lia|]. simpl. by apply list_lookup_insert_eq. }
    replace (v =? APPL_FREE) with false by lia. done. }
  destruct confirmed; subst num.
  - change (IOCTL_APPL_REGISTERED =? IOCTL_SET_DATA) with false.
    change (IOCTL_APPL_REGISTERED =? IOCTL_ERROR_REGFAIL) with false. rewrite Z.eqb_refl. cbv iota.
    erewrite bind_done by done. cbv beta. unfold APPL_MARK_CONFIRMED. rewrite Hau.
    erewrite bind_done by (apply (set_APPL_run i a u _ c); [done|lia|done]).
    do 2 eexists. split; [reflexivity|]. split; [by eapply with_card_known|]. split; [done|].
    split; [done|]. apply (Hbusy APPL_CONFIRMED); [done|]. by eapply (with_card_known i _ c).
  - change (IOCTL_ERROR_REGFAIL =? IOCTL_SET_DATA) with false. rewrite Z.eqb_refl. cbv iota.
    unfold APPL_MARK_REVOKED. rewrite Hau.
    erewrite bind_done by (apply (set_APPL_run i a u _ c); [done|lia|done]). cbv beta.
    erewrite bind_done by done. do 2 eexists. split; [reflexivity|].
    split; [by eapply with_card_known|]. split; [done|]. split; [done|].
    apply (Hbusy APPL_REVOKED); [done|]. by eapply (with_card_known i _ c).
Qed.
End module_properties.

(** * The kernel module: a reader, a sender and a flush at the same time

    [capiproxy_read], [capiproxy_send_message] and [capiproxy_flush_queue] of one
    card can run on different processors.  Each access to the queue, which has a lock
    of its own, and each change of [sk_pending] is a step of its own.  A sender holds
    [ctrl_lock] from before it queues its message until it has counted it: the two
    other changes of [sk_pending], which take this lock, wait for it, [skb_dequeue] does
    not; the test of [sk_pending] at the beginning of a read or a send is outside the lock. *)
Section race.
Context {skb : Type}.

Inductive reader := R_idle | R_checked | R_holding (m : skb) | R_crashed.
Inductive sender := S_idle | S_checked (m : skb) | S_queued.
Inductive flusher := F_idle | F_flushing | F_drained.

Record shared := mkShared {
  sh_queue : list skb;
  sh_pending : Z;
  sh_reader : reader;
  sh_sender : sender;
  sh_flusher : flusher;
}.

(** Somebody holds [ctrl_lock] over more than one step. *)
Definition ctrl_locked (w : sender) : bool := match w with S_queued => true | _ => false end.

(** [may_flush]: can [capiproxy_flush_queue] run? *)
Inductive step (may_flush : bool) : shared → shared → Prop :=
  | read_check q p w f : p ≠ 0 →
      step may_flush (mkShared q p R_idle w f) (mkShared q p R_checked w f)
  | read_dequeue m q p w f :
      step may_flush (mkShared (m :: q) p R_checked w f) (mkShared q p (R_holding m) w f)
  | read_null p w f :                     (**r [skb->len] of the NULL *)
      step may_flush (mkShared [] p R_checked w f) (mkShared [] p R_crashed w f)
  | read_put_back m q p w f :
      step may_flush (mkShared q p (R_holding m) w f) (mkShared (m :: q) p R_idle w f)
  | read_done m q p w f : ctrl_locked w = false →
      step may_flush (mkShared q p (R_holding m) w f) (mkShared q (p - 1) R_idle w f)
  | send_check m q p r f : p ≤ MAX_SK_PENDING →
      step may_flush (mkShared q p r S_idle f) (mkShared q p r (S_checked m) f)
  | send_queue m q p r f :
      step may_flush (mkShared q p r (S_checked m) f) (mkShared (q ++ [m]) p r S_queued f)
  | send_count q p r f :
      step may_flush (mkShared q p r S_queued f) (mkShared q (p + 1) r S_idle f)
  | flush_start q p r w : may_flush = true →
      step may_flush (mkShared q p r w F_idle) (mkShared q p r w F_flushing)
  | flush_dequeue m q p r w :
      step may_flush (mkShared (m :: q) p r w F_flushing) (mkShared q p r w F_flushing)
  | flush_end p r w :
      step may_flush (mkShared [] p r w F_flushing) (mkShared [] p r w F_drained)
  | flush_reset q p r w : ctrl_locked w = false →
      step may_flush (mkShared q p r w F_drained) (mkShared q 0 r w F_idle).

(** Nobody is active; the counter is right. *)
Definition at_rest (q : list skb) : shared := mkShared q (Z.of_nat (length q)) R_idle S_idle F_idle.

(** Messages that are queued and not yet counted. *)
Definition uncounted (w : sender) : Z := if ctrl_locked w then 1 else 0.

(** The counter is right up to the message that the reader holds and the one that the
    sender is about to count. *)
Definition counted (s : shared) : Prop :=
  sh_flusher s = F_idle ∧
  let n := Z.of_nat (length (sh_queue s)) - uncounted (sh_sender s) in
  match sh_reader s with
  | R_idle => sh_pending s = n ∧ 0 ≤ n
  | R_checked => sh_pending s = n ∧ 0 < n
  | R_holding _ => sh_pending s = n + 1 ∧ 0 ≤ n
  | R_crashed => False
  end ∧
  match sh_sender s with
  | S_idle => sh_pending s ≤ MAX_SK_PENDING + 1
  | S_checked _ | S_queued => sh_pending s ≤ MAX_SK_PENDING
  end.

Lemma counted_step s s' : counted s → step false s s' → counted s'.
Proof.
  intros (Hf & Hr & Hs) Hstep. destruct Hstep; unfold counted, uncounted in *; cbn in *; try done;
    rewrite ?length_app; cbn [length]; repeat match goal with w : sender |- _ => destruct w | r : reader |- _ => destruct r end;
    cbn [ctrl_locked] in *; split_and!; first [done|lia].
Qed.
(** C34: As long as nothing is flushed, a reader and a sender
    that run at the same time keep [sk_pending] right - up to the message that the
    reader holds and the one the sender is about to count -, at most 33 messages wait, and the reader always finds the message
    it was promised.  A flush breaks this: it can empty the queue behind the reader's
    test, which then dereferences NULL; it can leave a message in the queue with
    the counter 0; and it can leave the counter at -1. *)
Theorem queue_race :
  (∀ q s, Z.of_nat (length q) ≤ MAX_SK_PENDING + 1 → rtc (step false) (at_rest q) s → counted s) ∧
  (∀ m, (∃ s, rtc (step true) (at_rest [m]) s ∧ sh_reader s = R_crashed) ∧
        rtc (step true) (at_rest [m]) (mkShared [m] 0 R_idle S_idle F_idle) ∧
        rtc (step true) (at_rest [m]) (mkShared [] (-1) R_idle S_idle F_idle)).
Proof.
  split.
  - intros q s Hq Hs. assert (H : counted (at_rest q)) by (unfold counted, uncounted; cbn; split_and!; first [done|lia]). revert H.
    induction Hs as [s|s1 s2 s3 Hstep _ IH]; [done|]. intros H. apply IH. by eapply counted_step.
  - intros m. split_and!.
    + eexists. split.
      * eapply rtc_l; [by apply read_check|]. eapply rtc_l; [by apply flush_start|].
        eapply rtc_l; [apply flush_dequeue|]. apply rtc_once, read_null.
      * done.
    + eapply rtc_l; [by apply flush_start|]. eapply rtc_l; [apply flush_dequeue|].
      eapply rtc_l; [apply flush_end|]. eapply rtc_l; [by apply (send_check _ m)|].
      eapply rtc_l; [apply send_queue|]. eapply rtc_l; [apply send_count|]. by apply rtc_once, flush_reset.
    + eapply rtc_l; [by apply read_check|]. eapply rtc_l; [apply read_dequeue|].
      eapply rtc_l; [by apply flush_start|]. eapply rtc_l; [apply flush_end|].
      eapply rtc_l; [by apply flush_reset|]. apply rtc_once.
      by apply (read_done true m [] 0 S_idle F_idle).
Qed.
End race.
