(* ===== verification/ModuleWitness.v ===== *)
(** * The kernel module's theorems on a concrete kernel

    Socket buffers as a length and bytes, queues as lists. *)
From S2P Require Import Prelude CMem Protocol Capi20 CapiUtil Demo Module ModuleSpec ModuleRead ModuleProperties.
From S2P Require Daemon DaemonProperties.
#[local] Open Scope Z_scope.

#[local] Existing Instance capi20_layout.
#[local] Existing Instance capi20_layout_laws.

Record demo_skb := mkSkb { ds_len : Z; ds_data : list byte }.

#[global] Instance demo_skbuff : SkBuff demo_skb := {|
  alloc_skb n := mkSkb 0 (replicate (Z.to_nat n) x00);
  skb_len := ds_len;
  set_skb_len n s := mkSkb n (ds_data s);
  skb_data := ds_data;
  set_skb_data b s := mkSkb (ds_len s) b;
  skb_put n s := mkSkb (ds_len s + n) (ds_data s);
|}.
#[global] Instance demo_skbuff_laws : SkBuffLaws demo_skb.
Proof.
  constructor; try done. intros n Hn. unfold blen. simpl. rewrite length_replicate. lia.
Qed.

#[global] Instance demo_queue : SkQueue demo_skb (list demo_skb) := {|
  skb_queue_head_init := [];
  qlen q := Z.of_nat (length q);
  skb_queue_tail q s := q ++ [s];
  skb_queue_head q s := s :: q;
  skb_dequeue q := (head q, tail q);
  queue_list q := q;
|}.
#[global] Instance demo_queue_laws : SkQueueLaws demo_skb (list demo_skb).
Proof. by constructor. Qed.

#[global] Instance demo_kernel : KernelHeader := {|
  CAPI_MAXDATAWINDOW := 8;
  CAPI_DISCONNECT_B3_RESP := 0x8483;
  CAPI_CONNECT_B3_CONF := 0x8281;
  CAPI_CONNECT_B3_IND := 0x8282;
  EAGAIN := 11;
  EINTR := 4;
  EMSGSIZE := 90;
  EIO := 5;
|}.

(** Card 0 is running, with a queue and one application in a state. *)
Definition demo_card (q : list demo_skb) (a v : nat) : capi20proxy_card (Q:=list demo_skb) :=
  mkCard CARD_RUNNING (Some (mkCtr 1 [] [] [] [])) q (replicate 32 x00) (replicate 8 x00)
    (replicate 128 x00) 0 0 (Z.of_nat (length q)) (<[(a - 1)%nat := Z.of_nat v]> (replicate 240 0)).
Definition demo_module (q : list demo_skb) (a v : nat) : kmodule (skb:=demo_skb) (Q:=list demo_skb) :=
  mkModule (demo_card q a v :: replicate 3 empty_card) true [] [] [] [] [].

Definition demo_msg (n : Z) (bs : list byte) : demo_skb := mkSkb n bs.
Definition demo_bytes : list byte := words [20; 0x0502; 0x10101; 0; 0].

Lemma demo_card_ok q a v : (length q ≤ 33)%nat → (v ≤ 3)%nat → card_ok (demo_card q a v).
Proof.
  intros Hq Hv. constructor; try done.
  - simpl. unfold MAX_SK_PENDING. lia.
  - simpl. by rewrite length_insert.
  - apply Forall_insert; [apply (Forall_replicate _ 240)|]; simpl; lia.
Qed.

Lemma demo_module_ok q a v : (length q ≤ 33)%nat → (v ≤ 3)%nat → module_ok (demo_module q a v).
Proof.
  intros Hq Hv. split; [done|]. constructor; [by apply demo_card_ok|].
  apply (Forall_replicate _ 3), empty_card_ok.
Qed.
Ltac demo_module_ok := apply demo_module_ok; apply Nat.leb_le; vm_compute; reflexivity.

Lemma module_invariant_witness :
  let m := mkSkb 20 demo_bytes in
  ∃ s', (capiproxy_init true;;
         run_handlers [call_open true; call_send_message 0 m; call_read 0 true 100])
          (demo_module [] 1 0) = (Done tt, s') ∧
    Done tt ≠ Faulted Diverged ∧ (Done tt = Faulted OutOfBounds ∨ module_ok s').
Proof.
  intros m. eexists. assert (E : (capiproxy_init true;;
    run_handlers [call_open true; call_send_message 0 m; call_read 0 true 100])
      (demo_module [] 1 0) = (Done tt, _)) by (vm_compute; reflexivity).
  split; [exact E|]. exact (module_invariant _ _ _ _ _ E).
Defined.

Lemma read_safe_witness :
  let s := demo_module [mkSkb 20 demo_bytes] 1 0 in
  (capiproxy_read 0 true 100 s).1 ≠ Faulted NullDeref.
Proof. intros s. apply read_safe. demo_module_ok. Defined.

Lemma read_fifo_witness :
  let q := [mkSkb 3 demo_bytes; mkSkb 20 demo_bytes; mkSkb 20 demo_bytes] in
  let s := demo_module q 1 0 in
  fifo_read 100 q = ((20, demo_bytes), [mkSkb 20 demo_bytes]) ∧
  ∃ s' c', capiproxy_read 0 true 100 s = (Done (Some (fifo_read 100 q).1), s') ∧
    fget cards s' !! 0%nat = Some c' ∧ queue_list (outgoing_queue c') = (fifo_read 100 q).2.
Proof.
  intros q s. split; [vm_compute; reflexivity|].
  assert (Hq : queue_list (outgoing_queue (demo_card q 1 0)) = q) by reflexivity.
  rewrite <- Hq. apply (read_fifo 0 100 (demo_card q 1 0) s); [demo_module_ok|reflexivity|reflexivity|].
  repeat constructor; try eval_le; vm_compute; congruence.
Defined.

Lemma register_appl_message_witness :
  let s := demo_module [] 7 0 in
  ∃ s' c' m, capiproxy_register_appl 0 7 (mkParams 2 20 2048) s = (Done tt, s') ∧
    fget cards s' !! 0%nat = Some c' ∧
    queue_list (outgoing_queue c') = queue_list (outgoing_queue (demo_card [] 7 0)) ++ [m] ∧
    skb_len m = 18 ∧
    DaemonProperties.register_request (take 18 (skb_data m)) 7 2 (Z.min CAPI_MAXDATAWINDOW 20)
      (Z.min 1024 2048) ∧
    applications c' !! Z.to_nat (7 - 1) = Some APPL_WAITING ∧ fget calls s' = fget calls s ++ [queue_task].
Proof.
  intros s. apply (register_appl_message 0 (demo_card [] 7 0) 7 (mkParams 2 20 2048) s);
    [eval_le|eval_range|eval_eq|vm_compute; congruence|eval_le|eval_eq|eval_range|eval_eq|].
  repeat constructor; first [eval_le|eval_lt].
Defined.

Lemma send_message_bounded_witness :
  let m := mkSkb 20 demo_bytes in
  let q := replicate 33 m in
  let s := demo_module q 1 0 in
  let waiting := length (queue_list (outgoing_queue (demo_card q 1 0))) in
  waiting = 33%nat ∧
  ∃ s' c', capiproxy_send_message 0 m s = (Done tt, s') ∧ fget cards s' !! 0%nat = Some c' ∧
    queue_list (outgoing_queue c') =
      (if decide (waiting ≤ 32)%nat then queue_list (outgoing_queue (demo_card q 1 0)) ++ [m]
       else queue_list (outgoing_queue (demo_card q 1 0))) ∧
    fget calls s' = fget calls s ++ (if decide (waiting ≤ 32)%nat then [queue_task] else []).
Proof.
  intros m q s waiting. split; [reflexivity|]. apply (send_message_bounded 0 (demo_card q 1 0) m s);
    [eval_le|demo_module_ok|reflexivity|vm_compute; congruence|eval_le].
Defined.

Lemma write_delivers_witness :
  let s := demo_module [] 1 0 in
  ∃ s' m, capiproxy_write 0 demo_bytes s = (Done (blen demo_bytes), s') ∧
    fget calls s' = fget calls s ++ [handle_capimsg 0 0 m] ∧
    skb_len m = 2 * blen demo_bytes ∧ take (length demo_bytes) (skb_data m) = demo_bytes.
Proof.
  intros s. apply (write_delivers 0 (demo_card [] 1 0) (mkCtr 1 [] [] [] []) demo_bytes 0 s);
    first [eval_le|reflexivity|eval_eq].
Defined.

Lemma ioctl_registration_witness :
  let s := demo_module [] 7 2 in
  ∃ s' c', capiproxy_ioctl 0 (λ _, x00) IOCTL_ERROR_REGFAIL 7 s = (Done 0, s') ∧
    fget cards s' !! 0%nat = Some c' ∧
    applications c' = <[Z.to_nat (7 - 1) := APPL_REVOKED]> (applications (demo_card [] 7 2)) ∧
    fget calls s' = fget calls s ++ [appl_released 0 7] ∧
    ∀ rp, capiproxy_register_appl 0 7 rp s' = (Done tt, s').
Proof.
  intros s. apply (ioctl_registration 0 (demo_card [] 7 2) (mkCtr 1 [] [] [] []) (λ _, x00) false 7 2 s);
    first [reflexivity|eval_range|eval_eq|vm_compute; congruence].
Defined.
