(* ===== verification/Win32.v ===== *)
(** * Interfaces to the Windows API

    Windows is not part of the repository: the calls of the DLL that allocate,
    read the registry, open the connection and start its thread are the
    operations of [Win32], functions of the state of the system.  The stream
    itself is the [net] of Net.v.  [Win32Laws] states what is documented of
    memory blocks and registry values. *)
From stdpp Require Import gmap.
From S2P Require Import Prelude CMem.
#[local] Open Scope Z_scope.

Class Win32 (OS : Type) := {
  (** Does the allocation of [n] bytes succeed?  The block is filled with zeros
      ([HEAP_ZERO_MEMORY]). *)
  HeapAlloc : Z → OS → bool * OS;
  (** The address of a block of [n] zeros. *)
  GlobalAlloc : Z → OS → option Z * OS;
  GlobalFree : Z → OS → OS;
  WSAStartup : OS → bool * OS;
  RegOpenKeyEx : string → OS → bool;
  (** The value, when there is one of at most [len] bytes. *)
  RegQueryValueEx : string → Z → OS → option (list byte);
  inet_addr : list byte → Z;
  win_socket : OS → bool * OS;
  (** Address, port. *)
  win_connect : Z → Z → OS → bool * OS;
  CreateThread : OS → bool * OS;
}.

Class Win32Laws (OS : Type) `{Win32 OS} := {
  (** The addresses of the blocks that are allocated. *)
  allocated : OS → gset Z;
  GlobalAlloc_ok n o a o' :
    GlobalAlloc n o = (Some a, o') →
    0 < a < 2 ^ 32 ∧ a + n ≤ 2 ^ 32 ∧ (a ∉ allocated o) ∧ allocated o' = {[a]} ∪ allocated o;
  GlobalAlloc_fail n o o' : GlobalAlloc n o = (None, o') → allocated o' = allocated o;
  GlobalFree_ok a o : allocated (GlobalFree a o) = (allocated o ∖ {[a]});
  HeapAlloc_allocated n o : allocated (HeapAlloc n o).2 = allocated o;
  WSAStartup_allocated o : allocated (WSAStartup o).2 = allocated o;
  win_socket_allocated o : allocated (win_socket o).2 = allocated o;
  win_connect_allocated a p o : allocated (win_connect a p o).2 = allocated o;
  CreateThread_allocated o : allocated (CreateThread o).2 = allocated o;
  RegQueryValueEx_length v len o bs :
    RegQueryValueEx v len o = Some bs → blen bs ≤ len;
}.
