(* ===== verification/WClient.v ===== *)
(** * The Windows client, capi2032.dll (win32-client/capi2032.cpp, capi2032.h)

    The DLL exports the CAPI functions; each sends one request and waits until
    the receiver thread has stored the address of the answer in the caller's
    variable.  The globals are the fields of [dll].  The variables [answer] of
    the calls that wait are [slots], by address: a call that has returned has no
    slot, and a store through its address is a fault.  This file is one call from its
    beginning to its end, with the receiver thread running while the call sleeps; the threads of several
    calls, and what the critical sections do and do not protect, are in WClientSteps.

    In C++ an empty structure has size 1. *)
From stdpp Require Import gmap.
From S2P Require Import Prelude CMem Protocol Net Win32.
#[local] Open Scope Z_scope.

Definition AUTH_DESIRED := 0.
Definition __PORT := 6674.
Definition _MSG_BUFFER := 10000.
Definition VERSION_MAJOR := 1.
Definition VERSION_MINOR := 3.
Definition _WAITFORMESSAGE_TIMEOUT := 0.
Definition sizeof_cpp_empty := 1.
(** What the CAPI functions return when the proxy fails. *)
Definition CAPI_OS_ERROR := 0x1108.

(** ** State *)

(** What [char* answer] points to. *)
Inductive answer_ptr :=
  | Null
  | ILLEGAL_ANSWER
  | Message (b : list byte).

(** [struct evlhash]; [data] is the address of an [answer]. *)
Record evlhash := mkEvl { ev_msgId : Z; ev_data : Z }.

(** [struct appl_list]; [data] is the address of a block of GlobalAlloc. *)
Record appl_list := mkAppl { ap_ApplID : Z; ap_data : option Z }.

Record dll (OS : Type) := mkDll {
  w_os : OS;
  w_socke : net;
  w_open : bool;                       (**r [socke] is a connected socket *)
  w_status : Z;
  w_msg_id : Z;
  w_myname : list byte;                (**r [char* __myname[64]]: 256 bytes *)
  w_max_timeout : Z;
  w_session_id : Z;
  w_port : Z;
  w_toaddr : Z;
  w_hash : list evlhash;               (**r the list at [hash_start] *)
  w_slots : gmap Z answer_ptr;
  w_apps : list appl_list;             (**r the list at [registered_apps] *)
  w_blocks : gmap Z (list byte);       (**r blocks of GlobalAlloc *)
  w_receiver : bool;                   (**r the receiver thread runs *)
  w_msg : list byte;                   (**r the buffer of the running function *)
}.
Arguments mkDll {OS}.
Arguments w_os {OS}. Arguments w_socke {OS}. Arguments w_open {OS}. Arguments w_status {OS}.
Arguments w_msg_id {OS}. Arguments w_myname {OS}. Arguments w_max_timeout {OS}.
Arguments w_session_id {OS}. Arguments w_port {OS}. Arguments w_toaddr {OS}.
Arguments w_hash {OS}. Arguments w_slots {OS}. Arguments w_apps {OS}.
Arguments w_blocks {OS}. Arguments w_receiver {OS}. Arguments w_msg {OS}.

Section fields.
Context {OS : Type}.
Definition system : field (dll OS) OS := mkField w_os (λ v d,
  mkDll v (w_socke d) (w_open d) (w_status d) (w_msg_id d) (w_myname d) (w_max_timeout d) (w_session_id d)
    (w_port d) (w_toaddr d) (w_hash d) (w_slots d) (w_apps d) (w_blocks d) (w_receiver d) (w_msg d)).
Definition socke : field (dll OS) net := mkField w_socke (λ v d,
  mkDll (w_os d) v (w_open d) (w_status d) (w_msg_id d) (w_myname d) (w_max_timeout d) (w_session_id d)
    (w_port d) (w_toaddr d) (w_hash d) (w_slots d) (w_apps d) (w_blocks d) (w_receiver d) (w_msg d)).
Definition connected : field (dll OS) bool := mkField w_open (λ v d,
  mkDll (w_os d) (w_socke d) v (w_status d) (w_msg_id d) (w_myname d) (w_max_timeout d) (w_session_id d)
    (w_port d) (w_toaddr d) (w_hash d) (w_slots d) (w_apps d) (w_blocks d) (w_receiver d) (w_msg d)).
Definition status : field (dll OS) Z := mkField w_status (λ v d,
  mkDll (w_os d) (w_socke d) (w_open d) v (w_msg_id d) (w_myname d) (w_max_timeout d) (w_session_id d)
    (w_port d) (w_toaddr d) (w_hash d) (w_slots d) (w_apps d) (w_blocks d) (w_receiver d) (w_msg d)).
Definition msg_id : field (dll OS) Z := mkField w_msg_id (λ v d,
  mkDll (w_os d) (w_socke d) (w_open d) (w_status d) v (w_myname d) (w_max_timeout d) (w_session_id d)
    (w_port d) (w_toaddr d) (w_hash d) (w_slots d) (w_apps d) (w_blocks d) (w_receiver d) (w_msg d)).
Definition __myname : field (dll OS) (list byte) := mkField w_myname (λ v d,
  mkDll (w_os d) (w_socke d) (w_open d) (w_status d) (w_msg_id d) v (w_max_timeout d) (w_session_id d)
    (w_port d) (w_toaddr d) (w_hash d) (w_slots d) (w_apps d) (w_blocks d) (w_receiver d) (w_msg d)).
Definition max_timeout : field (dll OS) Z := mkField w_max_timeout (λ v d,
  mkDll (w_os d) (w_socke d) (w_open d) (w_status d) (w_msg_id d) (w_myname d) v (w_session_id d)
    (w_port d) (w_toaddr d) (w_hash d) (w_slots d) (w_apps d) (w_blocks d) (w_receiver d) (w_msg d)).
Definition session_id : field (dll OS) Z := mkField w_session_id (λ v d,
  mkDll (w_os d) (w_socke d) (w_open d) (w_status d) (w_msg_id d) (w_myname d) (w_max_timeout d) v
    (w_port d) (w_toaddr d) (w_hash d) (w_slots d) (w_apps d) (w_blocks d) (w_receiver d) (w_msg d)).
Definition _port : field (dll OS) Z := mkField w_port (λ v d,
  mkDll (w_os d) (w_socke d) (w_open d) (w_status d) (w_msg_id d) (w_myname d) (w_max_timeout d) (w_session_id d)
    v (w_toaddr d) (w_hash d) (w_slots d) (w_apps d) (w_blocks d) (w_receiver d) (w_msg d)).
Definition toaddr : field (dll OS) Z := mkField w_toaddr (λ v d,
  mkDll (w_os d) (w_socke d) (w_open d) (w_status d) (w_msg_id d) (w_myname d) (w_max_timeout d) (w_session_id d)
    (w_port d) v (w_hash d) (w_slots d) (w_apps d) (w_blocks d) (w_receiver d) (w_msg d)).
Definition hash_start : field (dll OS) (list evlhash) := mkField w_hash (λ v d,
  mkDll (w_os d) (w_socke d) (w_open d) (w_status d) (w_msg_id d) (w_myname d) (w_max_timeout d) (w_session_id d)
    (w_port d) (w_toaddr d) v (w_slots d) (w_apps d) (w_blocks d) (w_receiver d) (w_msg d)).
Definition slots : field (dll OS) (gmap Z answer_ptr) := mkField w_slots (λ v d,
  mkDll (w_os d) (w_socke d) (w_open d) (w_status d) (w_msg_id d) (w_myname d) (w_max_timeout d) (w_session_id d)
    (w_port d) (w_toaddr d) (w_hash d) v (w_apps d) (w_blocks d) (w_receiver d) (w_msg d)).
Definition registered_apps : field (dll OS) (list appl_list) := mkField w_apps (λ v d,
  mkDll (w_os d) (w_socke d) (w_open d) (w_status d) (w_msg_id d) (w_myname d) (w_max_timeout d) (w_session_id d)
    (w_port d) (w_toaddr d) (w_hash d) (w_slots d) v (w_blocks d) (w_receiver d) (w_msg d)).
Definition blocks : field (dll OS) (gmap Z (list byte)) := mkField w_blocks (λ v d,
  mkDll (w_os d) (w_socke d) (w_open d) (w_status d) (w_msg_id d) (w_myname d) (w_max_timeout d) (w_session_id d)
    (w_port d) (w_toaddr d) (w_hash d) (w_slots d) (w_apps d) v (w_receiver d) (w_msg d)).
Definition receiver : field (dll OS) bool := mkField w_receiver (λ v d,
  mkDll (w_os d) (w_socke d) (w_open d) (w_status d) (w_msg_id d) (w_myname d) (w_max_timeout d) (w_session_id d)
    (w_port d) (w_toaddr d) (w_hash d) (w_slots d) (w_apps d) (w_blocks d) v (w_msg d)).
Definition msg : field (dll OS) (list byte) := mkField w_msg (λ v d,
  mkDll (w_os d) (w_socke d) (w_open d) (w_status d) (w_msg_id d) (w_myname d) (w_max_timeout d) (w_session_id d)
    (w_port d) (w_toaddr d) (w_hash d) (w_slots d) (w_apps d) (w_blocks d) (w_receiver d) v).

#[export] Instance system_lawful : LawfulField system.
Proof. by constructor; [|intros []|]. Qed.
#[export] Instance socke_lawful : LawfulField socke.
Proof. by constructor; [|intros []|]. Qed.
#[export] Instance connected_lawful : LawfulField connected.
Proof. by constructor; [|intros []|]. Qed.
#[export] Instance status_lawful : LawfulField status.
Proof. by constructor; [|intros []|]. Qed.
#[export] Instance msg_id_lawful : LawfulField msg_id.
Proof. by constructor; [|intros []|]. Qed.
#[export] Instance __myname_lawful : LawfulField __myname.
Proof. by constructor; [|intros []|]. Qed.
#[export] Instance max_timeout_lawful : LawfulField max_timeout.
Proof. by constructor; [|intros []|]. Qed.
#[export] Instance session_id_lawful : LawfulField session_id.
Proof. by constructor; [|intros []|]. Qed.
#[export] Instance _port_lawful : LawfulField _port.
Proof. by constructor; [|intros []|]. Qed.
#[export] Instance toaddr_lawful : LawfulField toaddr.
Proof. by constructor; [|intros []|]. Qed.
#[export] Instance hash_start_lawful : LawfulField hash_start.
Proof. by constructor; [|intros []|]. Qed.
#[export] Instance slots_lawful : LawfulField slots.
Proof. by constructor; [|intros []|]. Qed.
#[export] Instance registered_apps_lawful : LawfulField registered_apps.
Proof. by constructor; [|intros []|]. Qed.
#[export] Instance blocks_lawful : LawfulField blocks.
Proof. by constructor; [|intros []|]. Qed.
#[export] Instance receiver_lawful : LawfulField receiver.
Proof. by constructor; [|intros []|]. Qed.
#[export] Instance msg_lawful : LawfulField msg.
Proof. by constructor; [|intros []|]. Qed.
End fields.

(** ** sizeof of the bodies (capi2032.h) *)
Definition rbodysize (type : Z) : Z :=
  if decide (type = TYPE_CAPI_REGISTER) then sizeof_REQUEST_CAPI_REGISTER
  else if decide (type = TYPE_CAPI_RELEASE) then sizeof_cpp_empty
  else if decide (type = TYPE_CAPI_PUTMESSAGE) then sizeof_cpp_empty
  else if decide (type = TYPE_CAPI_GETMESSAGE) then sizeof_cpp_empty
  else if decide (type = TYPE_CAPI_WAITFORSIGNAL) then sizeof_cpp_empty
  else if decide (type = TYPE_CAPI_MANUFACTURER) then sizeof_cpp_empty
  else if decide (type = TYPE_CAPI_VERSION) then sizeof_cpp_empty
  else if decide (type = TYPE_CAPI_SERIAL) then sizeof_cpp_empty
  else if decide (type = TYPE_CAPI_PROFILE) then sizeof_cpp_empty
  else if decide (type = TYPE_CAPI_INSTALLED) then sizeof_cpp_empty
  else if decide (type = TYPE_PROXY_HELO) then sizeof_REQUEST_PROXY_HELO
  else if decide (type = TYPE_PROXY_AUTH) then sizeof_REQUEST_PROXY_AUTH
  else if decide (type = TYPE_PROXY_KEEPALIVE) then sizeof_cpp_empty
  else if decide (type = TYPE_PROXY_SHUTDOWN) then 0
  else -1.

Definition abodysize (type : Z) : Z :=
  if decide (type = TYPE_CAPI_REGISTER) then sizeof_cpp_empty
  else if decide (type = TYPE_CAPI_RELEASE) then sizeof_cpp_empty
  else if decide (type = TYPE_CAPI_PUTMESSAGE) then sizeof_cpp_empty
  else if decide (type = TYPE_CAPI_GETMESSAGE) then sizeof_cpp_empty
  else if decide (type = TYPE_CAPI_WAITFORSIGNAL) then sizeof_cpp_empty
  else if decide (type = TYPE_CAPI_MANUFACTURER) then sizeof_ANSWER_CAPI_MANUFACTURER
  else if decide (type = TYPE_CAPI_VERSION) then sizeof_ANSWER_CAPI_VERSION
  else if decide (type = TYPE_CAPI_SERIAL) then sizeof_ANSWER_CAPI_SERIAL
  else if decide (type = TYPE_CAPI_PROFILE) then sizeof_ANSWER_CAPI_PROFILE
  else if decide (type = TYPE_CAPI_INSTALLED) then sizeof_cpp_empty
  else if decide (type = TYPE_PROXY_HELO) then sizeof_ANSWER_PROXY_HELO
  else if decide (type = TYPE_PROXY_AUTH) then sizeof_cpp_empty
  else if decide (type = TYPE_PROXY_KEEPALIVE) then sizeof_cpp_empty
  else if decide (type = TYPE_PROXY_SHUTDOWN) then sizeof_ANSWER_PROXY_SHUTDOWN
  else -1.

(** [SET_CTRL] *)
Definition SET_CTRL (m : list byte) (ctrl : Z) : option (list byte) :=
  ncci ← get_u32 m 8;
  put_le 4 m 8 (u32 (Z.land ncci 0xFFFFFF80 + u8 ctrl)).

Section dll.
Context {OS : Type} `{!Win32 OS}.
Abbreviation W := (M (dll OS)).

(** ** Memory *)
(** [msg = malloc(n)]; false when there is no memory. *)
Definition malloc (n : Z) : W bool :=
  ok ← zoom system (HeapAlloc n);
  when ok (puts msg (replicate (Z.to_nat n) x00));;
  mret ok.

(** [malloc] of a list node. *)
Definition malloc_node (n : Z) : W bool := zoom system (HeapAlloc n).
Definition sizeof_evlhash := 12.
Definition sizeof_appl_list := 12.

(** [GlobalAlloc(GPTR, n)] *)
Definition global_alloc (n : Z) : W (option Z) :=
  a ← zoom system (GlobalAlloc n);
  match a with
  | Some a => modify blocks (λ m, <[a := replicate (Z.to_nat n) x00]> m);; mret (Some a)
  | None => mret None
  end.

Definition global_free (a : Z) : W unit :=
  bs ← gets blocks;
  match bs !! a with
  | Some _ => modify system (GlobalFree a);; modify blocks (delete a)
  | None => fail Dangling
  end.

(** ** Socket *)
Definition wsend (bs : list byte) : W Z :=
  o ← gets connected; if o : bool then zoom socke (send bs) else mret (-1).

(** [recv(socke, msg, _MSG_BUFFER, 0)] *)
Definition wrecv : W Z :=
  o ← gets connected;
  if o : bool then
    '(n, bs) ← zoom socke (recv _MSG_BUFFER);
    store_bytes msg 0 bs;;
    mret n
  else mret (-1).

Definition closesocket : W unit := puts connected false.

Definition next_msg_id : W Z :=
  modify msg_id (λ i, u32 (i + 1));; gets msg_id.

(** ** Authentication *)
(** [auth_user] and [auth_pass] of the registry, copied behind the body. *)
Definition auth_user_pass : W Z :=
  o ← gets system;
  if RegOpenKeyEx "Software\The Red Guy\capi20proxy" o then
    match RegQueryValueEx "auth_user" 256 o with
    | None => mret 0
    | Some user =>
        match RegQueryValueEx "auth_pass" 256 o with
        | None => mret 0
        | Some pass =>
            u ← try Uninitialised (cstr user);
            store_cstr msg (sizeof_REQUEST_HEADER + sizeof_REQUEST_PROXY_AUTH) u;;
            p ← try Uninitialised (cstr pass);
            store_cstr msg (sizeof_REQUEST_HEADER + sizeof_REQUEST_PROXY_AUTH + blen u + 1) p;;
            mret (blen u + blen p + 2)
        end
    end
  else fail Uninitialised.   (**r RegCloseKey(key) *)

(** The checks of an answer that came in one piece of [len] bytes; true when
    the message passes. *)
Definition answer_checks (len type : Z) : W bool :=
  header_len ← load32 msg AH.header_len;
  body_len ← load32 msg AH.body_len;
  data_len ← load32 msg AH.data_len;
  message_len ← load32 msg AH.message_len;
  if decide (u32 (header_len + body_len + data_len) ≠ len ∨ message_len ≠ len) then mret false else
  proxy_error ← load32 msg AH.proxy_error;
  if decide (proxy_error > 0x01) then mret false else
  message_type ← load32 msg AH.message_type;
  mret (bool_decide (message_type = type)).

Definition do_auth (authtypes : Z) : W unit :=
  ok ← malloc _MSG_BUFFER;
  if negb ok then mret tt else
  let type := if Z.land authtypes AUTH_BY_IP =? 0 then AUTH_NO_AUTH else AUTH_BY_IP in
  '(type, data_len) ←
    (if (type =? 0) && negb (Z.land authtypes AUTH_USERPASS =? 0)
     then n ← auth_user_pass; mret (type, n)
     else mret (type, 0));
  store32 msg RH.header_len sizeof_REQUEST_HEADER;;
  store32 msg RH.body_len sizeof_REQUEST_PROXY_AUTH;;
  store32 msg RH.data_len data_len;;
  store32 msg RH.message_type TYPE_PROXY_AUTH;;
  id ← next_msg_id;
  store32 msg RH.message_id id;;
  store32 msg sizeof_REQUEST_HEADER type;;
  store32 msg RH.message_len (sizeof_REQUEST_HEADER + sizeof_REQUEST_PROXY_HELO);;
  bs ← load_bytes msg 0 (sizeof_REQUEST_HEADER + sizeof_REQUEST_PROXY_HELO);
  err ← wsend bs;
  if decide (err ≠ sizeof_REQUEST_HEADER + sizeof_REQUEST_PROXY_HELO) then closesocket else
  err ← wrecv;
  if decide (err = -1 ∨ err < sizeof_ANSWER_HEADER) then closesocket else
  ok ← answer_checks err TYPE_PROXY_AUTH;
  when (negb ok) closesocket.

(** ** Opening the connection *)
Definition helo_message : W unit :=
  store32 msg RH.header_len sizeof_REQUEST_HEADER;;
  store32 msg RH.body_len sizeof_REQUEST_PROXY_HELO;;
  store32 msg RH.data_len 0;;
  store32 msg RH.message_type TYPE_PROXY_HELO;;
  id ← next_msg_id;
  store32 msg RH.message_id id;;
  name ← load_bytes __myname 0 64;
  store_bytes msg (sizeof_REQUEST_HEADER + HELO.name) name;;
  store32 msg (sizeof_REQUEST_HEADER + HELO.os) OS_TYPE_WINDOWS;;
  store32 msg (sizeof_REQUEST_HEADER + HELO.version_major) VERSION_MAJOR;;
  store32 msg (sizeof_REQUEST_HEADER + HELO.version_minor) VERSION_MINOR;;
  store32 msg RH.message_len (sizeof_REQUEST_HEADER + sizeof_REQUEST_PROXY_HELO).

(** The three checks of the answer, with their error codes. *)
Definition helo_checks (len : Z) : W Z :=
  header_len ← load32 msg AH.header_len;
  body_len ← load32 msg AH.body_len;
  data_len ← load32 msg AH.data_len;
  message_len ← load32 msg AH.message_len;
  if decide (u32 (header_len + body_len + data_len) ≠ len ∨ message_len ≠ len) then mret 6 else
  proxy_error ← load32 msg AH.proxy_error;
  if decide (proxy_error > 0x01) then mret 7 else
  message_type ← load32 msg AH.message_type;
  if decide (message_type ≠ TYPE_PROXY_HELO) then mret 8 else mret 0.

(** The answer has passed the checks. *)
Definition helo_accepted : W Z :=
  header_len ← load32 msg AH.header_len;
  t ← load32 msg (header_len + HELO.timeout);
  puts max_timeout (s32 t);;
  session ← load32 msg AH.session_id;
  puts session_id session;;
  proxy_error ← load32 msg AH.proxy_error;
  when (bool_decide (proxy_error = PERROR_AUTH_REQUIRED) || negb (AUTH_DESIRED =? 0))
    (auth_type ← load32 msg (header_len + HELO.auth_type); do_auth auth_type);;
  puts status 1;;
  mret 0.

Definition initConnection : W Z :=
  ok ← zoom system win_socket;
  if negb ok then mret 1 else
  addr ← gets toaddr;
  p ← gets _port;
  ok ← zoom system (win_connect addr (u16 p));
  if negb ok then closesocket;; mret 2 else
  puts connected true;;
  ok ← malloc _MSG_BUFFER;
  if negb ok then closesocket;; mret 3 else
  helo_message;;
  bs ← load_bytes msg 0 (sizeof_REQUEST_HEADER + sizeof_REQUEST_PROXY_HELO);
  err ← wsend bs;
  if decide (err ≠ sizeof_REQUEST_HEADER + sizeof_REQUEST_PROXY_HELO)
  then closesocket;; mret 4 else
  err ← wrecv;
  if decide (err = -1 ∨ err < sizeof_ANSWER_HEADER) then closesocket;; mret 5 else
  code ← helo_checks err;
  if decide (code ≠ 0) then closesocket;; mret code else helo_accepted.

(** ** The list of outstanding requests *)
(** [send] takes the length from the message. *)
Definition sendRequest : W Z :=
  message_len ← load32 msg RH.message_len;
  bs ← load_bytes msg 0 message_len;
  wsend bs.

Definition addToHash (id data : Z) : W Z :=
  ok ← malloc_node sizeof_evlhash;
  if negb ok then mret 1 else
  modify hash_start (λ q, q ++ [mkEvl id data]);;
  mret 0.

Fixpoint hash_remove (id : Z) (queue : list evlhash) : list evlhash :=
  match queue with
  | [] => []
  | e :: queue => if decide (ev_msgId e = id) then queue else e :: hash_remove id queue
  end.
Definition removeFromHash (id : Z) : W Z :=
  modify hash_start (hash_remove id);; mret 0.

Fixpoint hash_find (id : Z) (queue : list evlhash) : option Z :=
  match queue with
  | [] => None
  | e :: queue => if decide (ev_msgId e = id) then Some (ev_data e) else hash_find id queue
  end.
Definition getDataPtrFromMsgId (id : Z) : W (option Z) :=
  q ← gets hash_start; mret (hash_find id q).

(** ** The list of applications *)
Definition add_app (id : Z) : W unit :=
  ok ← malloc_node sizeof_appl_list;
  if negb ok then fail NullDeref else
  modify registered_apps (λ l, l ++ [mkAppl id None]).

(** The list without the first entry of [id], and that entry's data. *)
Fixpoint unlink_app (id : Z) (list_ : list appl_list) : option (option Z * list appl_list) :=
  match list_ with
  | [] => None
  | e :: list_ =>
      if decide (ap_ApplID e = id) then Some (ap_data e, list_)
      else '(d, l) ← unlink_app id list_; Some (d, e :: l)
  end.

Definition free_data (data : option Z) : W unit :=
  match data with Some a => global_free a | None => mret tt end.

Definition del_app (id : Z) : W unit :=
  l ← gets registered_apps;
  match unlink_app id l with
  | Some (data, l') => puts registered_apps l';; free_data data
  | None => mret tt
  end.

(** Unlinks the first entry and returns its id; 0 for the empty list. *)
Definition getfirst_app : W Z :=
  l ← gets registered_apps;
  match l with
  | [] => mret 0
  | e :: l' => puts registered_apps l';; free_data (ap_data e);; mret (ap_ApplID e)
  end.

Fixpoint find_app (id : Z) (list_ : list appl_list) : option (option Z) :=
  match list_ with
  | [] => None
  | e :: list_ => if decide (ap_ApplID e = id) then Some (ap_data e) else find_app id list_
  end.
Definition getdata_app (id : Z) : W (option Z) :=
  l ← gets registered_apps; mret (mjoin (find_app id l)).

Fixpoint update_app (id : Z) (data : option Z) (list_ : list appl_list) : list appl_list :=
  match list_ with
  | [] => []
  | e :: list_ =>
      if decide (ap_ApplID e = id) then mkAppl id data :: list_ else e :: update_app id data list_
  end.

(** The block is freed when the application is not in the list. *)
Definition setdata_app (id data : Z) : W unit :=
  l ← gets registered_apps;
  match find_app id l with
  | Some old => free_data old;; modify registered_apps (update_app id (Some data))
  | None => global_free data
  end.

(** ** Waiting for an answer, and the receiver thread *)
(** [*data = p]; the variable must still exist. *)
Definition store_slot (data : Z) (p : answer_ptr) : W unit :=
  l ← gets slots;
  match l !! data with
  | Some _ => modify slots <[data := p]>
  | None => fail Dangling
  end.

Definition load_slot (data : Z) : W answer_ptr :=
  l ← gets slots; try Dangling (l !! data).

Definition verifyMessage (b : list byte) (type : Z) : W bool :=
  header_len ← try OutOfBounds (get_u32 b AH.header_len);
  if decide (header_len < sizeof_ANSWER_HEADER) then mret false else
  body_len ← try OutOfBounds (get_u32 b AH.body_len);
  if decide (u32 (body_len + 1) < u32 (abodysize type)) then mret false else
  message_len ← try OutOfBounds (get_u32 b AH.message_len);
  if decide (message_len > _MSG_BUFFER) then mret false else
  data_len ← try OutOfBounds (get_u32 b AH.data_len);
  if decide (u32 (header_len + body_len + data_len) ≠ message_len) then mret false else
  proxy_error ← try OutOfBounds (get_u32 b AH.proxy_error);
  if decide (proxy_error ≠ PERROR_NONE) then mret false else
  capi_error ← try OutOfBounds (get_u32 b AH.capi_error);
  if decide (capi_error ≠ 0) then mret true else
  message_type ← try OutOfBounds (get_u32 b AH.message_type);
  mret (bool_decide (message_type = type)).

Definition dispatchMessage (b : list byte) : W unit :=
  id ← try OutOfBounds (get_u32 b AH.message_id);
  data ← getDataPtrFromMsgId id;
  removeFromHash id;;
  match data with
  | Some a => store_slot a (Message b)
  | None => fail NullDeref
  end.

(** One round of [messageDispatcher]; false when the thread ends. *)
Definition messageDispatcher_round : W bool :=
  ok ← malloc _MSG_BUFFER;
  if negb ok then puts receiver false;; mret false else
  err ← wrecv;
  if decide (err = -1 ∨ err < sizeof_ANSWER_HEADER) then
    if decide (err = 0 ∨ err = -1) then puts receiver false;; mret false else mret true
  else
    b ← gets msg; dispatchMessage b;; mret true.

(** The first part of [sendAndReceive]: false when the request was not sent. *)
Definition post (id answer : Z) : W bool :=
  modify slots <[answer := Null]>;;
  addToHash id answer;;
  err ← sendRequest;
  if decide (err = 0 ∨ err = -1) then store_slot answer ILLEGAL_ANSWER;; mret false
  else mret true.

(** [while( *answer==NULL) Sleep(1);]: while this thread sleeps the receiver
    thread runs a round.  Without a receiver thread the loop does not end. *)
Fixpoint wait_answer (fuel : nat) (answer : Z) : W unit :=
  p ← load_slot answer;
  match p with
  | Null =>
      match fuel with
      | O => fail Diverged
      | Datatypes.S fuel =>
          r ← gets receiver;
          if r : bool then messageDispatcher_round;; wait_answer fuel answer else fail Hung
      end
  | _ => mret tt
  end.

(** Each round of the receiver thread takes bytes or ends it. *)
Definition wait_loop (answer : Z) : W unit := λ s,
  wait_answer (2 + length (rx_bytes (fget socke s))) answer s.

Definition sendAndReceive (id answer : Z) : W unit :=
  sent ← post id answer;
  when sent (wait_loop answer).

(** The answer, when there is one and it passes [verifyMessage].  The variable
    [answer] of the calling function lives until it returns. *)
Definition transact (id answer type : Z) : W (option (list byte)) :=
  sendAndReceive id answer;;
  p ← load_slot answer;
  modify slots (delete answer);;
  match p with
  | Message b => ok ← verifyMessage b type; mret (if ok : bool then Some b else None)
  | Null | ILLEGAL_ANSWER => mret None
  end.

(** ** The exported functions *)
Definition answer_field (b : list byte) (off : Z) : W Z := try OutOfBounds (get_u32 b off).

(** The header of a request whose body has [body_len] bytes. *)
Definition request_header (type body_len : Z) : W Z :=
  id ← next_msg_id;
  store32 msg RH.header_len sizeof_REQUEST_HEADER;;
  store32 msg RH.body_len body_len;;
  store32 msg RH.data_len 0;;
  store32 msg RH.message_type type;;
  store32 msg RH.message_id id;;
  mret id.

(** The end of the functions that return the CAPI error. *)
Definition answer_result (b : list byte) : W Z :=
  capi_error ← answer_field b AH.capi_error;
  proxy_error ← answer_field b AH.proxy_error;
  mret (if decide (proxy_error ≠ PERROR_NONE) then CAPI_OS_ERROR else capi_error).

(** What follows [sendAndReceive]: [k] when there is an answer that passes,
    [failed] otherwise. *)
Definition with_answer {A} (id answer type : Z) (failed : A) (k : list byte → W A) : W A :=
  a ← transact id answer type;
  match a with
  | Some b => k b
  | None => mret failed
  end.

(** Each function takes the address of its variable [answer] first.  What it
    stores through its pointer arguments is part of the result. *)
Definition register_answered (b : list byte) : W (Z * option Z) :=
  appl ← answer_field b AH.app_id;
  rc ← answer_result b;
  when (bool_decide (rc = 0)) (add_app appl);;
  mret (rc, Some appl).

Definition CAPI_REGISTER (answer messageBufferSize maxLogicalConnection maxBDataBlocks maxBDataLen : Z)
    : W (Z * option Z) :=
  ok ← malloc _MSG_BUFFER;
  if negb ok then mret (CAPI_OS_ERROR, None) else
  id ← request_header TYPE_CAPI_REGISTER sizeof_REQUEST_CAPI_REGISTER;
  session ← gets session_id;
  store32 msg RH.session_id session;;
  store32 msg (sizeof_REQUEST_HEADER + REGISTER.messageBufferSize) messageBufferSize;;
  store32 msg (sizeof_REQUEST_HEADER + REGISTER.maxLogicalConnection) maxLogicalConnection;;
  store32 msg (sizeof_REQUEST_HEADER + REGISTER.maxBDataBlocks) maxBDataBlocks;;
  store32 msg (sizeof_REQUEST_HEADER + REGISTER.maxBDataLen) maxBDataLen;;
  store32 msg RH.message_len (sizeof_REQUEST_HEADER + sizeof_REQUEST_CAPI_REGISTER);;
  with_answer id answer TYPE_CAPI_REGISTER (CAPI_OS_ERROR, None) register_answered.

Definition release_answered (ApplID : Z) (b : list byte) : W Z :=
  rc ← answer_result b;
  when (bool_decide (rc = 0)) (del_app ApplID);;
  mret rc.

Definition CAPI_RELEASE (answer ApplID : Z) : W Z :=
  ok ← malloc _MSG_BUFFER;
  if negb ok then mret CAPI_OS_ERROR else
  id ← request_header TYPE_CAPI_RELEASE sizeof_cpp_empty;
  store32 msg RH.app_id ApplID;;
  session ← gets session_id;
  store32 msg RH.session_id session;;
  store32 msg RH.message_len (sizeof_REQUEST_HEADER + sizeof_cpp_empty);;
  with_answer id answer TYPE_CAPI_RELEASE CAPI_OS_ERROR (release_answered ApplID).

(** [mem] reads the memory of the process: [n] bytes at an address.

    The data of a DATA_B3_REQ is added behind the message; its length, or 0. *)
Definition append_data (mem : Z → Z → option (list byte)) (pCAPIMessage len1 cmd1 cmd2 : Z) : W Z :=
  if (cmd1 =? 0x86) && (cmd2 =? 0x80) then
    len2 ← try OutOfBounds (mem (pCAPIMessage + 16) 2 ≫= λ m, get_u16 m 0);
    pointer ← try OutOfBounds (mem (pCAPIMessage + 12) 4 ≫= λ m, get_u32 m 0);
    data2 ← try OutOfBounds (mem pointer len2);
    store_bytes msg (sizeof_REQUEST_HEADER + sizeof_cpp_empty + len1) data2;;
    data_len ← load32 msg RH.data_len;
    store32 msg RH.data_len (data_len + len2);;
    mret len2
  else mret 0.

Definition CAPI_PUT_MESSAGE (mem : Z → Z → option (list byte)) (answer ApplID pCAPIMessage : Z) : W Z :=
  ok ← malloc _MSG_BUFFER;
  if negb ok then mret CAPI_OS_ERROR else
  id ← request_header TYPE_CAPI_PUTMESSAGE sizeof_cpp_empty;
  store32 msg RH.app_id ApplID;;
  session ← gets session_id;
  store32 msg RH.session_id session;;
  len1 ← try OutOfBounds (mem pCAPIMessage 2 ≫= λ m, get_u16 m 0);
  data1 ← try OutOfBounds (mem pCAPIMessage len1);
  store_bytes msg (sizeof_REQUEST_HEADER + sizeof_cpp_empty) data1;;
  data_len ← load32 msg RH.data_len;
  store32 msg RH.data_len (data_len + len1);;
  cmd1 ← try OutOfBounds (mem (pCAPIMessage + 4) 1 ≫= λ m, get_u8 m 0);
  cmd2 ← try OutOfBounds (mem (pCAPIMessage + 5) 1 ≫= λ m, get_u8 m 0);
  len2 ← append_data mem pCAPIMessage len1 cmd1 cmd2;
  store32 msg RH.message_len (sizeof_REQUEST_HEADER + sizeof_cpp_empty + len1 + len2);;
  with_answer id answer TYPE_CAPI_PUTMESSAGE CAPI_OS_ERROR answer_result.

(** The message in the block at [buffer] is made ready for the application: the
    data pointer of a DATA_B3_IND leads behind the message.  False when the
    message is too short. *)
Definition received_message (buffer : Z) : W bool :=
  l ← gets blocks;
  data ← try Dangling (l !! buffer);
  len1 ← try OutOfBounds (get_u16 data 0);
  if decide (blen data < len1) then mret false else
  cmd1 ← try OutOfBounds (get_u8 data 4);
  cmd2 ← try OutOfBounds (get_u8 data 5);
  if (cmd1 =? 0x86) && (cmd2 =? 0x82) then
    if decide (len1 < 18) then mret false else
    len2 ← try OutOfBounds (get_u16 data 16);
    data ← try OutOfBounds (put_le 4 data 12 (u32 (buffer + len1)));
    modify blocks <[buffer := data]>;;
    mret true
  else mret true.

Definition getmessage_answered (ApplID : Z) (b : list byte) : W (Z * option Z) :=
  data_len ← answer_field b AH.data_len;
  if decide (data_len < 8) then mret (CAPI_OS_ERROR, None) else
  buffer ← global_alloc data_len;
  match buffer with
  | None => mret (CAPI_OS_ERROR, None)
  | Some buffer =>
      header_len ← answer_field b AH.header_len;
      body_len ← answer_field b AH.body_len;
      adata ← try OutOfBounds (slice b (u32 (header_len + body_len)) data_len);
      modify blocks <[buffer := adata]>;;
      ok ← received_message buffer;
      if negb ok then mret (CAPI_OS_ERROR, None) else
      setdata_app ApplID buffer;;
      rc ← answer_result b;
      mret (rc, Some buffer)
  end.

Definition CAPI_GET_MESSAGE (answer ApplID : Z) : W (Z * option Z) :=
  ok ← malloc _MSG_BUFFER;
  if negb ok then mret (CAPI_OS_ERROR, None) else
  id ← request_header TYPE_CAPI_GETMESSAGE sizeof_cpp_empty;
  store32 msg RH.app_id ApplID;;
  session ← gets session_id;
  store32 msg RH.session_id session;;
  store32 msg RH.message_len (sizeof_REQUEST_HEADER + sizeof_cpp_empty);;
  with_answer id answer TYPE_CAPI_GETMESSAGE (CAPI_OS_ERROR, None) (getmessage_answered ApplID).

Definition CAPI_WAIT_FOR_SIGNAL (answer ApplID : Z) : W Z :=
  ok ← malloc _MSG_BUFFER;
  if negb ok then mret CAPI_OS_ERROR else
  id ← request_header TYPE_CAPI_WAITFORSIGNAL sizeof_cpp_empty;
  store32 msg RH.app_id ApplID;;
  session ← gets session_id;
  store32 msg RH.session_id session;;
  store32 msg RH.message_len (sizeof_REQUEST_HEADER + sizeof_cpp_empty);;
  with_answer id answer TYPE_CAPI_WAITFORSIGNAL CAPI_OS_ERROR answer_result.

(** [n] bytes at [off] of the body of an answer. *)
Definition answer_body (b : list byte) (off n : Z) : W (list byte) :=
  header_len ← answer_field b AH.header_len;
  try OutOfBounds (slice b (header_len + off) n).
Definition answer_body32 (b : list byte) (off : Z) : W Z :=
  header_len ← answer_field b AH.header_len;
  try OutOfBounds (get_u32 b (header_len + off)).

Definition CAPI_GET_MANUFACTURER (answer : Z) : W (option (list byte)) :=
  ok ← malloc _MSG_BUFFER;
  if negb ok then mret None else
  id ← request_header TYPE_CAPI_MANUFACTURER sizeof_cpp_empty;
  store32 msg RH.app_id 0;;
  session ← gets session_id;
  store32 msg RH.session_id session;;
  store32 msg RH.message_len (sizeof_REQUEST_HEADER + sizeof_cpp_empty);;
  with_answer id answer TYPE_CAPI_MANUFACTURER None
    (λ b, manufacturer ← answer_body b 0 64; mret (Some manufacturer)).

(** The version of the driver, the version of the manufacturer. *)
Definition version_answered (b : list byte) : W (Z * option (version_t * version_t)) :=
  capi_major ← answer_body32 b VERSION.driver_major;
  capi_minor ← answer_body32 b VERSION.driver_minor;
  manufacturer_major ← answer_body32 b VERSION.manufacturer_major;
  manufacturer_minor ← answer_body32 b VERSION.manufacturer_minor;
  rc ← answer_result b;
  mret (rc, Some (mkVersion capi_major capi_minor,
                  mkVersion manufacturer_major manufacturer_minor)).

Definition CAPI_GET_VERSION (answer : Z) : W (Z * option (version_t * version_t)) :=
  ok ← malloc _MSG_BUFFER;
  if negb ok then mret (CAPI_OS_ERROR, None) else
  id ← request_header TYPE_CAPI_VERSION sizeof_cpp_empty;
  store32 msg RH.app_id 0;;
  session ← gets session_id;
  store32 msg RH.session_id session;;
  store32 msg RH.message_len (sizeof_REQUEST_HEADER + sizeof_cpp_empty);;
  with_answer id answer TYPE_CAPI_VERSION (CAPI_OS_ERROR, None) version_answered.

Definition CAPI_GET_SERIAL_NUMBER (answer : Z) : W (Z * option (list byte)) :=
  ok ← malloc _MSG_BUFFER;
  if negb ok then mret (CAPI_OS_ERROR, None) else
  id ← request_header TYPE_CAPI_SERIAL sizeof_cpp_empty;
  store32 msg RH.app_id 0;;
  session ← gets session_id;
  store32 msg RH.session_id session;;
  store32 msg RH.message_len (sizeof_REQUEST_HEADER + sizeof_cpp_empty);;
  with_answer id answer TYPE_CAPI_SERIAL (CAPI_OS_ERROR, None)
    (λ b, serial ← answer_body b 0 8; rc ← answer_result b; mret (rc, Some serial)).

Definition CAPI_GET_PROFILE (answer CtrlNr : Z) : W (Z * option (list byte)) :=
  ok ← malloc _MSG_BUFFER;
  if negb ok then mret (CAPI_OS_ERROR, None) else
  id ← request_header TYPE_CAPI_PROFILE sizeof_cpp_empty;
  store32 msg RH.app_id 0;;
  store32 msg RH.controller_id CtrlNr;;
  session ← gets session_id;
  store32 msg RH.session_id session;;
  store32 msg RH.message_len (sizeof_REQUEST_HEADER + sizeof_cpp_empty);;
  with_answer id answer TYPE_CAPI_PROFILE (CAPI_OS_ERROR, None)
    (λ b, profile ← answer_body b 0 64; rc ← answer_result b; mret (rc, Some profile)).

Definition CAPI_INSTALLED (answer : Z) : W Z :=
  ok ← malloc _MSG_BUFFER;
  if negb ok then mret CAPI_OS_ERROR else
  id ← request_header TYPE_CAPI_INSTALLED sizeof_cpp_empty;
  store32 msg RH.app_id 0;;
  session ← gets session_id;
  store32 msg RH.session_id session;;
  store32 msg RH.message_len (sizeof_REQUEST_HEADER + sizeof_cpp_empty);;
  with_answer id answer TYPE_CAPI_INSTALLED CAPI_OS_ERROR answer_result.

(** ** Loading and unloading *)
(** A registry value read into the [len] bytes of a variable. *)
Definition query_value (name : string) (len : Z) : W (option (list byte)) :=
  o ← gets system; mret (RegQueryValueEx name len o).

(** DLL_PROCESS_ATTACH; false when the DLL cannot be loaded. *)
Definition DllMain_attach : W bool :=
  ok ← zoom system WSAStartup;
  if negb ok then mret false else
  o ← gets system;
  if negb (RegOpenKeyEx "Software\The Red Guy\capi20proxy" o) then mret false else
  server ← query_value "server" 256;
  match server with
  | None => mret false
  | Some ipstr =>
      ip ← try Uninitialised (cstr ipstr);
      puts toaddr (inet_addr ip);;
      name ← query_value "name" 64;
      match name with
      | None => mret false
      | Some name =>
          store_bytes __myname 0 name;;
          p ← query_value "port" 4;
          match p with
          | Some p => modify _port (λ old, le_combine (p ++ drop (length p) (le_split 4 old)))
          | None => puts _port __PORT
          end;;
          err ← initConnection;
          if decide (err ≠ 0) then mret false else
          ok ← zoom system CreateThread;
          if negb ok then mret false else
          puts receiver true;; mret true
      end
  end.

(** [while(hash_start!=NULL) { *hash_start->data = ILLEGAL_ANSWER; ... }] *)
Fixpoint cancel_waiting (queue : list evlhash) : W unit :=
  match queue with
  | [] => mret tt
  | e :: queue =>
      store_slot (ev_data e) ILLEGAL_ANSWER;;
      puts hash_start queue;;
      cancel_waiting queue
  end.

(** [while(getfirst_app(&registered_apps));] *)
Fixpoint getfirst_loop (fuel : nat) : W unit :=
  id ← getfirst_app;
  if decide (id = 0) then mret tt else
  match fuel with
  | O => fail Diverged
  | Datatypes.S fuel => getfirst_loop fuel
  end.

(** Each round unlinks an entry. *)
Definition release_list : W unit := λ s, getfirst_loop (length (fget registered_apps s)) s.

(** DLL_PROCESS_DETACH.  [shutdown] and [closesocket] make the receive of the
    receiver thread fail, which ends it. *)
Definition DllMain_detach : W unit :=
  closesocket;;
  puts receiver false;;
  q ← gets hash_start;
  cancel_waiting q;;
  release_list.
End dll.
