(* ===== verification/WClientSpec.v ===== *)
(** * The Windows client: what one exchange with the server does *)
From stdpp Require Import gmap.
From S2P Require Import Prelude CMem Protocol Net Win32 WClient.
#[local] Open Scope Z_scope.

Definition zeros (n : Z) : list byte := replicate (Z.to_nat n) x00.

Lemma blen_zeros n : 0 ≤ n → blen (zeros n) = n.
Proof. intros. unfold blen, zeros. rewrite length_replicate. lia. Qed.

Lemma zeros_words k n :
  4 * Z.of_nat k ≤ n → zeros n = words (replicate k 0) ++ zeros (n - 4 * Z.of_nat k).
Proof.
  intros Hn. unfold zeros.
  replace (words (replicate k 0)) with (replicate (4 * k) x00).
  - rewrite <- replicate_add. f_equal. lia.
  - clear. induction k as [|k IH]; [done|]. rewrite replicate_S, words_cons, <- IH.
    by replace (4 * S k)%nat with (4 + 4 * k)%nat by lia.
Qed.

(** The content of the buffer that received the segment [seg]. *)
Definition received_in (seg : list byte) : list byte := seg ++ zeros (_MSG_BUFFER - blen seg).

Lemma blen_received_in seg : blen seg ≤ _MSG_BUFFER → blen (received_in seg) = _MSG_BUFFER.
Proof. intros. unfold received_in. rewrite blen_app, blen_zeros; lia. Qed.

(** ** The fields of an answer *)
Lemma decode_answer_loads b h :
  decode_answer b = Some h →
  get_u32 b AH.message_len = Some (ah_message_len h) ∧
  get_u32 b AH.header_len = Some (ah_header_len h) ∧
  get_u32 b AH.body_len = Some (ah_body_len h) ∧
  get_u32 b AH.data_len = Some (ah_data_len h) ∧
  get_u32 b AH.message_id = Some (ah_message_id h) ∧
  get_u32 b AH.message_type = Some (ah_message_type h) ∧
  get_u32 b AH.app_id = Some (ah_app_id h) ∧
  get_u32 b AH.session_id = Some (ah_session_id h) ∧
  get_u32 b AH.proxy_error = Some (ah_proxy_error h) ∧
  get_u32 b AH.capi_error = Some (ah_capi_error h).
Proof.
  unfold decode_answer. intros Hd.
  repeat match type of Hd with
  | (get_le 4 b ?f ≫= _) = _ =>
      destruct (get_le 4 b f) as [?|] eqn:?; cbn [mbind option_bind] in Hd; [|done]
  end.
  by injection Hd as <-.
Qed.

Lemma decode_answer_app_l b rest h : decode_answer b = Some h → decode_answer (b ++ rest) = Some h.
Proof.
  intros Hd. pose proof (decode_answer_loads _ _ Hd) as (?&?&?&?&?&?&?&?&?&?).
  unfold decode_answer.
  repeat (erewrite get_le_app_l by eassumption; cbn [mbind option_bind]).
  by destruct h.
Qed.

(** ** The messages [verifyMessage] lets pass *)
Definition accepts (h : ANSWER_HEADER) (type : Z) : Prop :=
  sizeof_ANSWER_HEADER ≤ ah_header_len h ∧
  u32 (abodysize type) ≤ u32 (ah_body_len h + 1) ∧
  ah_message_len h ≤ _MSG_BUFFER ∧
  u32 (ah_header_len h + ah_body_len h + ah_data_len h) = ah_message_len h ∧
  ah_proxy_error h = PERROR_NONE ∧
  (ah_capi_error h ≠ 0 ∨ ah_message_type h = type).
#[export] Instance accepts_dec h type : Decision (accepts h type).
Proof. unfold accepts. apply _. Defined.

Section spec.
Context {OS : Type} `{!Win32 OS}.
Implicit Types d : dll OS.

Lemma try_Some_bind {A B} f (a : A) (k : A → M (dll OS) B) d :
  (try f (Some a) ≫= k) d = k a d.
Proof. done. Qed.

Lemma verifyMessage_run b h type d :
  decode_answer b = Some h → verifyMessage b type d = (Done (bool_decide (accepts h type)), d).
Proof.
  intros (Hml&Hhl&Hbl&Hdl&_&Hmt&_&_&Hpe&Hce)%decode_answer_loads.
  unfold verifyMessage. unfold accepts.
  rewrite Hhl, try_Some_bind; cbv beta. case_decide; [by rewrite bool_decide_eq_false_2 by lia|].
  rewrite Hbl, try_Some_bind; cbv beta. case_decide; [by rewrite bool_decide_eq_false_2 by lia|].
  rewrite Hml, try_Some_bind; cbv beta. case_decide; [by rewrite bool_decide_eq_false_2 by lia|].
  rewrite Hdl, try_Some_bind; cbv beta. case_decide; [by rewrite bool_decide_eq_false_2 by lia|].
  rewrite Hpe, try_Some_bind; cbv beta. case_decide; [by rewrite bool_decide_eq_false_2 by lia|].
  rewrite Hce, try_Some_bind; cbv beta. case_decide; [by rewrite bool_decide_eq_true_2 by lia|].
  rewrite Hmt, try_Some_bind; cbv beta. unfold mret, M_ret. do 2 f_equal.
  apply bool_decide_ext. lia.
Qed.

Lemma answer_result_run b h d :
  decode_answer b = Some h → ah_proxy_error h = PERROR_NONE →
  answer_result b d = (Done (ah_capi_error h), d).
Proof.
  intros (_&_&_&_&_&_&_&_&Hpe&Hce)%decode_answer_loads Hn.
  unfold answer_result, answer_field. rewrite Hce, try_Some_bind, Hpe, try_Some_bind; cbv beta.
  by rewrite decide_False by (intros Hx; by apply Hx).
Qed.

(** ** Building a request *)
Definition heap (n : Z) (o : OS) : OS := (HeapAlloc n o).2.
Definition next_id d : Z := u32 (w_msg_id d + 1).

(** The request [h] with the bytes [pay] behind the header stands in the buffer. *)
Definition prepared (h : REQUEST_HEADER) (pay : list byte) d : dll OS :=
  fset msg (encode_request h ++ pay ++ zeros (_MSG_BUFFER - sizeof_REQUEST_HEADER - blen pay))
    (fset msg_id (rh_message_id h) (fset system (heap _MSG_BUFFER (w_os d)) d)).

(** There is memory for every request. *)
Definition plenty : Prop := ∀ n (o : OS), (HeapAlloc n o).1 = true.

Lemma malloc_run n d :
  plenty → malloc n d = (Done true, fset msg (zeros n) (fset system (heap n (w_os d)) d)).
Proof.
  intros Hp. specialize (Hp n (w_os d)). unfold malloc, zoom, heap, mbind, M_bind. cbn [fget system].
  destruct (HeapAlloc n (w_os d)) as [b o] eqn:E. simpl in Hp. by subst b.
Qed.

Lemma malloc_node_run n d :
  plenty → malloc_node n d = (Done true, fset system (heap n (w_os d)) d).
Proof.
  intros Hp. specialize (Hp n (w_os d)). unfold malloc_node, zoom, heap. cbn [fget system].
  destruct (HeapAlloc n (w_os d)) as [b o] eqn:E. simpl in Hp. by subst b.
Qed.

(** A field store into the request. *)
Lemma store_field_run i off v ws rest d :
  off = 4 * Z.of_nat i → (i < length ws)%nat →
  store32 msg off v (fset msg (words ws ++ rest) d) =
    (Done tt, fset msg (words (<[i:=v]> ws) ++ rest) d).
Proof. apply (store_words_run msg). Qed.
End spec.

(** One store of a request whose buffer is in word view. *)
Ltac wstore :=
  match goal with
  | |- context [(store msg 4 ?off ?v ≫= ?k) (fset msg (words ?ws ++ ?rest) ?d)] =>
      let i := word_index off in
      erewrite (bind_done (store msg 4 off v) k) by
        (apply (store_field_run i); [reflexivity|apply Nat.ltb_lt; reflexivity]);
      cbv beta; cbn [list_insert]
  end.
Ltac wget := erewrite bind_done by reflexivity; cbv beta.

Lemma zeros_cons n : 0 < n → zeros n = [x00] ++ zeros (n - 1).
Proof. intros. unfold zeros. by replace (Z.to_nat n) with (S (Z.to_nat (n - 1))) by lia. Qed.

(** ** The list of outstanding requests *)
Lemma hash_find_app id q e :
  hash_find id q = None →
  hash_find id (q ++ [e]) = if decide (ev_msgId e = id) then Some (ev_data e) else None.
Proof. intros Hq. induction q as [|e' q IH]; simpl in *; [done|]. destruct (decide (ev_msgId e' = id)); [done|auto]. Qed.

Lemma hash_remove_app id q e :
  hash_find id q = None → ev_msgId e = id → hash_remove id (q ++ [e]) = q.
Proof.
  intros Hq He. induction q as [|e' q IH]; simpl in *.
  - by rewrite decide_True.
  - case_decide; [done|]. by rewrite IH.
Qed.

Lemma splice_front b bs : blen bs ≤ blen b → splice b 0 bs = Some (bs ++ drop (length bs) b).
Proof. intros Hl. by rewrite splice_Some by lia. Qed.

Lemma received_in_splice seg :
  blen seg ≤ _MSG_BUFFER → splice (zeros _MSG_BUFFER) 0 seg = Some (received_in seg).
Proof.
  intros Hseg. rewrite splice_front by (rewrite ?blen_zeros by done; lia).
  unfold received_in. do 2 f_equal.
  unfold zeros. rewrite drop_replicate.
  f_equal. unfold blen. lia.
Qed.

Section exchange.
Context {OS : Type} `{!Win32 OS} (Hplenty : plenty (OS:=OS)).
Implicit Types d : dll OS.

(** The state in which the fields of a request are filled in. *)
Definition started d : dll OS := fset msg_id (next_id d) (fset system (heap _MSG_BUFFER (w_os d)) d).

Lemma next_msg_id_run d : next_msg_id d = (Done (next_id d), fset msg_id (next_id d) d).
Proof. done. Qed.

Lemma start_run {A} (k : nat) type body_len (X : M (dll OS) A) (K : Z → M (dll OS) A) d :
  (k ≤ 100)%nat →
  (ok ← malloc _MSG_BUFFER;
   if negb ok then X else id ← request_header type body_len; K id) d =
  K (next_id d)
    (fset msg (words ([0; 36; body_len; 0; next_id d; type; 0; 0; 0] ++ replicate k 0) ++
               zeros (_MSG_BUFFER - 4 * Z.of_nat (9 + k))) (started d)).
Proof using Hplenty.
  intros Hk. erewrite bind_done by by apply malloc_run. cbv beta. cbn [negb].
  unfold request_header. rewrite bind_assoc. erewrite bind_done by apply next_msg_id_run.
  cbv beta. change (next_id (fset msg _ _)) with (next_id d).
  change (fset msg_id _ _) with (fset msg (zeros _MSG_BUFFER) (started d)).
  rewrite (zeros_words (9 + k) _MSG_BUFFER) by (unfold _MSG_BUFFER; lia).
  change (replicate (9 + k) 0) with ([0; 0; 0; 0; 0; 0; 0; 0; 0] ++ replicate k 0).
  cbn [app].
  do 5 (rewrite bind_assoc; wstore). done.
Qed.

(** ** One exchange *)
(** [send] of the request in the buffer. *)
Lemma sendRequest_wire h pay rest d :
  w_msg d = encode_request h ++ pay ++ rest →
  rh_message_len h = sizeof_REQUEST_HEADER + blen pay → blen pay ≤ _MSG_BUFFER - sizeof_REQUEST_HEADER →
  sendRequest d = wsend (encode_request h ++ pay) d.
Proof.
  intros Hmsg Hlen Hpay. pose proof (blen_nonneg pay). unfold sendRequest.
  erewrite bind_done.
  2:{ apply load_run. change (fget msg d) with (w_msg d). rewrite Hmsg.
      unfold encode_request. by apply (get_u32_words _ _ 0). }
  cbv beta. rewrite u32_small by (unfold sizeof_REQUEST_HEADER, _MSG_BUFFER in *; lia).
  erewrite bind_done; [done|].
  apply (load_bytes_run msg 0 _ (encode_request h ++ pay)).
  change (fget msg d) with (w_msg d). rewrite Hmsg.
  apply (slice_at _ [] _ rest); [by rewrite <- (assoc_L (++))|done|].
  by rewrite blen_app, blen_encode_request.
Qed.

(** Result of [send], the socket afterwards. *)
Definition wire_result (bs : list byte) d : Z * net :=
  if w_open d then send bs (w_socke d) else (-1, w_socke d).

Lemma wsend_run bs d : wsend bs d = (Done (wire_result bs d).1, fset socke (wire_result bs d).2 d).
Proof.
  unfold wsend, wire_result, gets, zoom, mbind, M_bind. change (fget connected d) with (w_open d).
  change (fget socke d) with (w_socke d). destruct (w_open d).
  { cbn. by destruct (send bs (w_socke d)). }
  by destruct d.
Qed.

Lemma wire_result_rx bs d : rx (wire_result bs d).2 = rx (w_socke d).
Proof.
  unfold wire_result, send. destruct (w_open d); [|done].
  by destruct (match tx_script _ with [] => _ | _ => _ end).
Qed.

(** Without errors everything is sent. *)
Lemma wire_result_complete bs d :
  w_open d = true → tx_script (w_socke d) = [] →
  wire_result bs d =
    (blen bs, mkNet (rx (w_socke d)) (rx_error (w_socke d)) (tx (w_socke d) ++ [bs]) []).
Proof.
  intros Hopen Hscript. unfold wire_result, send. rewrite Hopen, Hscript.
  rewrite decide_True by apply blen_nonneg. by rewrite take_ge by (unfold blen; lia).
Qed.

Lemma wrecv_run seg segs b d :
  w_open d = true → rx (w_socke d) = seg :: segs → 0 < blen seg ≤ _MSG_BUFFER →
  splice (w_msg d) 0 seg = Some b →
  wrecv d = (Done (blen seg),
    fset msg b (fset socke (mkNet segs (rx_error (w_socke d)) (tx (w_socke d)) (tx_script (w_socke d))) d)).
Proof.
  intros Hopen Hrx Hseg Hb.
  assert (Hr : recv _MSG_BUFFER (w_socke d) = (blen seg, seg,
     mkNet segs (rx_error (w_socke d)) (tx (w_socke d)) (tx_script (w_socke d)))).
  { unfold recv. rewrite Hrx. destruct seg as [|c seg]; [unfold blen in *; simpl in *; lia|].
    cbn [recv_segs]. rewrite take_ge, drop_ge by (unfold blen, _MSG_BUFFER in *; lia). done. }
  unfold wrecv. erewrite bind_done by reflexivity. cbv beta.
  change (fget connected _) with (w_open d). rewrite Hopen.
  erewrite bind_done.
  2:{ unfold zoom. change (fget socke _) with (w_socke d). rewrite Hr. reflexivity. }
  cbv beta iota. erewrite bind_done; [reflexivity|]. by apply store_bytes_run.
Qed.
(** The receiver thread takes the segment [seg]. *)
Definition taken (seg : list byte) (segs : list (list byte)) d : dll OS :=
  fset msg (received_in seg)
    (fset socke (mkNet segs (rx_error (w_socke d)) (tx (w_socke d)) (tx_script (w_socke d)))
      (fset system (heap _MSG_BUFFER (w_os d)) d)).

Lemma dispatcher_round_run seg segs d :
  w_open d = true → rx (w_socke d) = seg :: segs →
  sizeof_ANSWER_HEADER ≤ blen seg ≤ _MSG_BUFFER →
  messageDispatcher_round d = (dispatchMessage (received_in seg);; mret true) (taken seg segs d).
Proof using Hplenty.
  intros Hopen Hrx Hseg. unfold messageDispatcher_round.
  erewrite bind_done by by apply malloc_run. cbv beta. cbn [negb].
  rewrite (bind_done wrecv _ _ (blen seg) (taken seg segs d)).
  2:{ etrans; [eapply (wrecv_run seg segs)|reflexivity]; [done|done|unfold sizeof_ANSWER_HEADER in *; lia|].
      apply received_in_splice, Hseg. }
  cbv beta. rewrite decide_False by (unfold sizeof_ANSWER_HEADER in *; lia).
  erewrite bind_done by reflexivity. done.
Qed.

(** The answer to a request that waits. *)
Definition handed_over (id a : Z) (b : list byte) d : dll OS :=
  fset slots (<[a := Message b]> (w_slots d)) (fset hash_start (hash_remove id (w_hash d)) d).

Lemma dispatchMessage_run b id a p d :
  get_u32 b AH.message_id = Some id → hash_find id (w_hash d) = Some a → w_slots d !! a = Some p →
  dispatchMessage b d = (Done tt, handed_over id a b d).
Proof.
  intros Hid Ha Hp. unfold dispatchMessage. rewrite Hid, try_Some_bind. cbv beta.
  unfold getDataPtrFromMsgId. rewrite bind_assoc. erewrite bind_done by reflexivity. cbv beta.
  change (fget hash_start d) with (w_hash d). rewrite Ha.
  erewrite bind_done by reflexivity. cbv beta.
  erewrite bind_done by reflexivity. cbv beta iota.
  unfold store_slot. erewrite bind_done by reflexivity. cbv beta.
  change (fget slots _) with (w_slots d). rewrite Hp. done.
Qed.

Lemma load_slot_run a p d : w_slots d !! a = Some p → load_slot a d = (Done p, d).
Proof. intros Hp. unfold load_slot. erewrite bind_done by reflexivity. cbv beta.
  change (fget slots d) with (w_slots d). by rewrite Hp. Qed.

Lemma wait_answer_done n a p d :
  w_slots d !! a = Some p → p ≠ Null → wait_answer n a d = (Done tt, d).
Proof.
  intros Hp Hn. destruct n; cbn [wait_answer]; erewrite bind_done by (by apply load_slot_run);
    cbv beta; by destruct p.
Qed.

Lemma wait_answer_step n a d :
  w_slots d !! a = Some Null → w_receiver d = true →
  wait_answer (S n) a d = (messageDispatcher_round;; wait_answer n a) d.
Proof.
  intros Hp Hr. cbn [wait_answer]. erewrite bind_done by (by apply load_slot_run). cbv beta iota.
  erewrite bind_done by reflexivity. cbv beta. change (fget receiver d) with (w_receiver d). by rewrite Hr.
Qed.

(** The connection is up, the receiver runs, nothing waits under the next id,
    and the next segment to arrive is [seg]. *)
Record ready (answer : Z) (seg : list byte) (segs : list (list byte)) d : Prop := {
  ready_open : w_open d = true;
  ready_receiver : w_receiver d = true;
  ready_script : tx_script (w_socke d) = [];
  ready_rx : rx (w_socke d) = seg :: segs;
  ready_seg : sizeof_ANSWER_HEADER ≤ blen seg ≤ _MSG_BUFFER;
  ready_hash : hash_find (next_id d) (w_hash d) = None;
  ready_slot : w_slots d !! answer = None;
}.

(** The state after the exchange. *)
Definition exchanged (wire seg : list byte) (segs : list (list byte)) d : dll OS :=
  fset msg (received_in seg)
    (fset socke (mkNet segs (rx_error (w_socke d)) (tx (w_socke d) ++ [wire]) [])
      (fset msg_id (next_id d)
        (fset system (heap _MSG_BUFFER (heap sizeof_evlhash (heap _MSG_BUFFER (w_os d)))) d))).

(** The state in which the request has been sent. *)
Definition posted (answer : Z) (h : REQUEST_HEADER) (pay : list byte) d : dll OS :=
  fset slots (<[answer := Null]> (w_slots d))
    (fset hash_start (w_hash d ++ [mkEvl (rh_message_id h) answer])
      (fset socke (mkNet (rx (w_socke d)) (rx_error (w_socke d))
                     (tx (w_socke d) ++ [encode_request h ++ pay]) [])
        (fset system (heap sizeof_evlhash (heap _MSG_BUFFER (w_os d))) (prepared h pay d)))).

(** The state after [post] with [w] as socket and [p] in the variable. *)
Definition posted_with (answer : Z) (p : answer_ptr) (w : net) (h : REQUEST_HEADER) (pay : list byte) d : dll OS :=
  fset slots (<[answer := p]> (w_slots d))
    (fset hash_start (w_hash d ++ [mkEvl (rh_message_id h) answer])
      (fset socke w
        (fset system (heap sizeof_evlhash (heap _MSG_BUFFER (w_os d))) (prepared h pay d)))).

Lemma post_wire answer h pay d :
  rh_message_len h = sizeof_REQUEST_HEADER + blen pay → blen pay ≤ _MSG_BUFFER - sizeof_REQUEST_HEADER →
  post (rh_message_id h) answer (prepared h pay d) =
    let '(n, w) := wire_result (encode_request h ++ pay) d in
    if decide (n = 0 ∨ n = -1) then (Done false, posted_with answer ILLEGAL_ANSWER w h pay d)
    else (Done true, posted_with answer Null w h pay d).
Proof using Hplenty.
  intros Hlen Hpay. unfold post.
  erewrite bind_done by reflexivity. cbv beta.
  unfold addToHash. rewrite bind_assoc. erewrite bind_done by by apply malloc_node_run.
  cbv beta. cbn [negb]. rewrite bind_assoc. erewrite bind_done by reflexivity. cbv beta.
  erewrite bind_done by reflexivity. cbv beta.
  match goal with |- context [(sendRequest ≫= _) ?d1] => set (dr := d1) end.
  rewrite (bind_done _ _ _ (wire_result (encode_request h ++ pay) d).1
             (fset socke (wire_result (encode_request h ++ pay) d).2 dr)).
  2:{ etrans; [by eapply (sendRequest_wire h pay)|]. by rewrite wsend_run. }
  cbv beta. destruct (wire_result _ d) as [n w]. cbn [fst snd]. case_decide; [|done].
  unfold store_slot. rewrite bind_assoc. erewrite bind_done by reflexivity. cbv beta.
  change (fget slots _) with (<[answer := Null]> (w_slots d)). rewrite lookup_insert_eq.
  erewrite bind_done by reflexivity. cbv beta. unfold mret, M_ret. f_equal.
  change (fget slots _) with (<[answer := Null]> (w_slots d)). by rewrite insert_insert_eq.
Qed.

Lemma post_run answer h pay d :
  w_open d = true → tx_script (w_socke d) = [] →
  rh_message_len h = sizeof_REQUEST_HEADER + blen pay → blen pay ≤ _MSG_BUFFER - sizeof_REQUEST_HEADER →
  post (rh_message_id h) answer (prepared h pay d) = (Done true, posted answer h pay d).
Proof using Hplenty.
  intros Hopen Hscript Hlen Hpay. pose proof (blen_nonneg pay).
  rewrite post_wire, wire_result_complete by done.
  rewrite blen_app, blen_encode_request, decide_False; [done|]. unfold sizeof_REQUEST_HEADER. lia.
Qed.

(** The whole exchange: the answer is handed to the function if it passes the checks. *)
Lemma transact_run answer type h pay seg segs ah d :
  ready answer seg segs d → rh_message_id h = next_id d →
  rh_message_len h = sizeof_REQUEST_HEADER + blen pay → blen pay ≤ _MSG_BUFFER - sizeof_REQUEST_HEADER →
  decode_answer seg = Some ah → ah_message_id ah = next_id d →
  transact (next_id d) answer type (prepared h pay d) =
    (Done (if bool_decide (accepts ah type) then Some (received_in seg) else None),
     exchanged (encode_request h ++ pay) seg segs d).
Proof using Hplenty.
  intros [Hopen Hrec Hscript Hrx Hseg Hhash Hslot] Hid Hlen Hpay Hah Hmid.
  assert (Hb : decode_answer (received_in seg) = Some ah) by by apply decode_answer_app_l.
  unfold transact, sendAndReceive. rewrite bind_assoc, <- Hid.
  erewrite bind_done by by apply post_run. cbv beta. cbn [when]. unfold wait_loop.
  erewrite bind_done.
  2:{ cbn [Nat.add].
      rewrite wait_answer_step; [|apply lookup_insert_eq|exact Hrec].
      rewrite (bind_done _ _ _ true (handed_over (rh_message_id h) answer (received_in seg)
                 (taken seg segs (posted answer h pay d)))).
      2:{ rewrite (dispatcher_round_run seg segs); [|done..].
          erewrite bind_done; [done|]. apply (dispatchMessage_run _ _ _ Null).
          - rewrite Hid, <- Hmid. by apply decode_answer_loads.
          - change (w_hash _) with (w_hash d ++ [mkEvl (rh_message_id h) answer]).
            rewrite hash_find_app by by rewrite Hid. by rewrite decide_True.
          - apply lookup_insert_eq. }
      apply (wait_answer_done _ _ (Message (received_in seg))); [apply lookup_insert_eq|done]. }
  cbv beta. erewrite bind_done by (apply load_slot_run, lookup_insert_eq). cbv beta.
  erewrite bind_done by reflexivity. cbv beta iota.
  erewrite bind_done by by apply verifyMessage_run. cbv beta.
  unfold mret, M_ret. f_equal. unfold handed_over.
  change (w_hash (taken _ _ _)) with (w_hash d ++ [mkEvl (rh_message_id h) answer]).
  change (w_slots (taken _ _ _)) with (<[answer := Null]> (w_slots d)).
  rewrite hash_remove_app by by rewrite ?Hid.
  change (fget slots (fset slots ?x _)) with x.
  rewrite insert_insert_eq, delete_insert_id by done.
  unfold exchanged. rewrite <- Hid. by destruct d.
Qed.
End exchange.
