(* ===== verification/WClientCalls.v ===== *)
(** * The Windows client: the exported functions *)
From stdpp Require Import gmap.
From S2P Require Import Prelude CMem Protocol Net Win32 WClient WClientSpec.
#[local] Open Scope Z_scope.

Section calls.
Context {OS : Type} `{!Win32 OS} (Hplenty : plenty (OS:=OS)).
Implicit Types d : dll OS.

(** A request without arguments but those of the header. *)
Definition empty_request type appl ctrl d : REQUEST_HEADER :=
  mkRequest 37 36 1 0 (next_id d) type appl ctrl (w_session_id d).
Definition empty_wire type appl ctrl d : list byte := encode_request (empty_request type appl ctrl d) ++ [x00].

Lemma prepared_empty type appl ctrl d :
  prepared (empty_request type appl ctrl d) [x00] d =
    fset msg (words [37; 36; 1; 0; next_id d; type; appl; ctrl; w_session_id d] ++
              zeros (_MSG_BUFFER - 36)) (started d).
Proof.
  unfold prepared, encode_request. rewrite (zeros_cons (_MSG_BUFFER - 36)) by done. done.
Qed.

(** ** What each function does before it waits *)
Ltac wsession :=
  match goal with
  | |- context [(gets session_id ≫= ?k) ?d] =>
      erewrite (bind_done (gets session_id) k d) by reflexivity; cbv beta
  end.
Ltac wprepare :=
  rewrite (start_run Hplenty 0) by lia; cbn [app replicate];
  rewrite prepared_empty; repeat first [wstore|wsession]; done.

Lemma CAPI_RELEASE_prepare answer appl d :
  CAPI_RELEASE answer appl d =
  with_answer (next_id d) answer TYPE_CAPI_RELEASE CAPI_OS_ERROR (release_answered appl)
    (prepared (empty_request TYPE_CAPI_RELEASE appl 0 d) [x00] d).
Proof using Hplenty.
  unfold CAPI_RELEASE. wprepare.
Qed.

Lemma CAPI_GET_MESSAGE_prepare answer appl d :
  CAPI_GET_MESSAGE answer appl d =
  with_answer (next_id d) answer TYPE_CAPI_GETMESSAGE (CAPI_OS_ERROR, None) (getmessage_answered appl)
    (prepared (empty_request TYPE_CAPI_GETMESSAGE appl 0 d) [x00] d).
Proof using Hplenty.
  unfold CAPI_GET_MESSAGE. wprepare.
Qed.

Lemma CAPI_WAIT_FOR_SIGNAL_prepare answer appl d :
  CAPI_WAIT_FOR_SIGNAL answer appl d =
  with_answer (next_id d) answer TYPE_CAPI_WAITFORSIGNAL CAPI_OS_ERROR answer_result
    (prepared (empty_request TYPE_CAPI_WAITFORSIGNAL appl 0 d) [x00] d).
Proof using Hplenty.
  unfold CAPI_WAIT_FOR_SIGNAL. wprepare.
Qed.

Lemma CAPI_GET_MANUFACTURER_prepare answer d :
  CAPI_GET_MANUFACTURER answer d =
  with_answer (next_id d) answer TYPE_CAPI_MANUFACTURER None
    (λ b, manufacturer ← answer_body b 0 64; mret (Some manufacturer))
    (prepared (empty_request TYPE_CAPI_MANUFACTURER 0 0 d) [x00] d).
Proof using Hplenty.
  unfold CAPI_GET_MANUFACTURER. wprepare.
Qed.

Lemma CAPI_GET_VERSION_prepare answer d :
  CAPI_GET_VERSION answer d =
  with_answer (next_id d) answer TYPE_CAPI_VERSION (CAPI_OS_ERROR, None) version_answered
    (prepared (empty_request TYPE_CAPI_VERSION 0 0 d) [x00] d).
Proof using Hplenty.
  unfold CAPI_GET_VERSION. wprepare.
Qed.

Lemma CAPI_GET_SERIAL_NUMBER_prepare answer d :
  CAPI_GET_SERIAL_NUMBER answer d =
  with_answer (next_id d) answer TYPE_CAPI_SERIAL (CAPI_OS_ERROR, None)
    (λ b, serial ← answer_body b 0 8; rc ← answer_result b; mret (rc, Some serial))
    (prepared (empty_request TYPE_CAPI_SERIAL 0 0 d) [x00] d).
Proof using Hplenty.
  unfold CAPI_GET_SERIAL_NUMBER. wprepare.
Qed.

Lemma CAPI_GET_PROFILE_prepare answer ctrl d :
  CAPI_GET_PROFILE answer ctrl d =
  with_answer (next_id d) answer TYPE_CAPI_PROFILE (CAPI_OS_ERROR, None)
    (λ b, profile ← answer_body b 0 64; rc ← answer_result b; mret (rc, Some profile))
    (prepared (empty_request TYPE_CAPI_PROFILE 0 ctrl d) [x00] d).
Proof using Hplenty.
  unfold CAPI_GET_PROFILE. wprepare.
Qed.

Lemma CAPI_INSTALLED_prepare answer d :
  CAPI_INSTALLED answer d =
  with_answer (next_id d) answer TYPE_CAPI_INSTALLED CAPI_OS_ERROR answer_result
    (prepared (empty_request TYPE_CAPI_INSTALLED 0 0 d) [x00] d).
Proof using Hplenty.
  unfold CAPI_INSTALLED. wprepare.
Qed.

Definition register_request a1 a2 a3 a4 d : REQUEST_HEADER * list byte :=
  (mkRequest 52 36 16 0 (next_id d) TYPE_CAPI_REGISTER 0 0 (w_session_id d), words [a1; a2; a3; a4]).

Lemma CAPI_REGISTER_prepare answer a1 a2 a3 a4 d :
  CAPI_REGISTER answer a1 a2 a3 a4 d =
  with_answer (next_id d) answer TYPE_CAPI_REGISTER (CAPI_OS_ERROR, None) register_answered
    (let '(h, pay) := register_request a1 a2 a3 a4 d in prepared h pay d).
Proof using Hplenty.
  unfold CAPI_REGISTER. rewrite (start_run Hplenty 4) by lia. cbn [app replicate].
  repeat first [wstore|wsession]. done.
Qed.

(** ** CAPI_PUT_MESSAGE *)
Lemma blen_cons c bs : blen (c :: bs) = 1 + blen bs.
Proof. unfold blen. simpl. lia. Qed.

(** [bs] stands at address [p] of the memory of the process. *)
Definition holds (mem : Z → Z → option (list byte)) (p : Z) (bs : list byte) : Prop :=
  ∀ off n, 0 ≤ off → 0 ≤ n → off + n ≤ blen bs → mem (p + off) n = slice bs off n.

(** The application's message [m] at [p]; [data] is what the pointer of a
    DATA_B3_REQ leads to. *)
Definition is_data_b3_req (m : list byte) : Prop := get_u8 m 4 = Some 0x86 ∧ get_u8 m 5 = Some 0x80.
#[global] Instance is_data_b3_req_dec m : Decision (is_data_b3_req m).
Proof. unfold is_data_b3_req. apply _. Defined.

Record app_message (mem : Z → Z → option (list byte)) (p : Z) (m data : list byte) : Prop := {
  am_length : get_u16 m 0 = Some (blen m);
  am_header : 6 ≤ blen m;
  am_holds : holds mem p m;
  am_data : if decide (is_data_b3_req m)
            then get_u16 m 16 = Some (blen data) ∧ ∃ pointer, get_u32 m 12 = Some pointer ∧ holds mem pointer data
            else data = [];
}.

Lemma holds_field mem p bs w off v a n :
  holds mem p bs → get_le w bs off = Some v → a = p + off → n = Z.of_nat w →
  (mem a n ≫= λ m, get_le w m 0) = Some v.
Proof.
  intros Hm Hv -> ->. pose proof (get_le_Some_inv _ _ _ _ Hv). rewrite Hm by lia.
  unfold get_le in Hv. destruct (slice bs off (Z.of_nat w)) as [x|] eqn:E; [|done].
  pose proof (slice_length _ _ _ _ E). cbn [mbind option_bind]. unfold get_le.
  rewrite (slice_at x [] x [] 0); [done|by rewrite app_nil_r|done|done].
Qed.

Lemma holds_all mem p bs : holds mem p bs → mem p (blen bs) = Some bs.
Proof.
  intros Hm. pose proof (blen_nonneg bs). rewrite <- (Z.add_0_r p), Hm by lia.
  apply (slice_at _ [] _ []); [by rewrite app_nil_r|done|done].
Qed.

(** Bytes written behind what the buffer already holds. *)
Lemma append_bytes_run ws pre n off bs d :
  off = blen (words ws ++ pre) → blen bs ≤ n →
  store_bytes msg off bs (fset msg (words ws ++ pre ++ zeros n) d) =
    (Done tt, fset msg (words ws ++ (pre ++ bs) ++ zeros (n - blen bs)) d).
Proof.
  intros Hoff Hbs. etrans; [apply store_bytes_run|reflexivity].
  change (fget msg (fset msg ?b d)) with b.
  rewrite (assoc_L (++)), splice_append; [|done|unfold zeros, blen in *; rewrite length_replicate; lia].
  rewrite <- !(assoc_L (++)). unfold zeros. rewrite drop_replicate. do 5 f_equal. unfold blen. lia.
Qed.

Lemma append_bytes_fault ws pre n off bs d :
  off = blen (words ws ++ pre) → 0 ≤ n < blen bs →
  store_bytes msg off bs (fset msg (words ws ++ pre ++ zeros n) d) =
    (Faulted OutOfBounds, fset msg (words ws ++ pre ++ zeros n) d).
Proof.
  intros Hoff Hbs. apply store_bytes_fault, splice_None.
  change (fget msg (fset msg ?b d)) with b.
  rewrite (assoc_L (++)), (blen_app _ (zeros n)), blen_zeros by lia. lia.
Qed.

Definition put_request appl (m data : list byte) d : REQUEST_HEADER :=
  mkRequest (37 + blen m + blen data) 36 1 (blen m + blen data) (next_id d)
    TYPE_CAPI_PUTMESSAGE appl 0 (w_session_id d).

Definition put_words appl len1 d : list Z :=
  [0; 36; 1; len1; next_id d; TYPE_CAPI_PUTMESSAGE; appl; 0; w_session_id d].

(** The state with the message behind the header. *)
Definition put_state appl (m : list byte) (n : Z) d : dll OS :=
  fset msg (words (put_words appl n d) ++ (x00 :: m) ++ zeros (9963 - blen m)) (started d).

Lemma put_message_start mem answer appl p m data cmd1 cmd2 d :
  app_message mem p m data → get_u8 m 4 = Some cmd1 → get_u8 m 5 = Some cmd2 →
  CAPI_PUT_MESSAGE mem answer appl p d =
  (store_bytes msg 37 m;;
   data_len ← load32 msg RH.data_len;
   store32 msg RH.data_len (data_len + blen m);;
   len2 ← append_data mem p (blen m) cmd1 cmd2;
   store32 msg RH.message_len (37 + blen m + len2);;
   with_answer (next_id d) answer TYPE_CAPI_PUTMESSAGE CAPI_OS_ERROR answer_result)
  (fset msg (words (put_words appl 0 d) ++ [x00] ++ zeros 9963) (started d)).
Proof using Hplenty.
  intros [Hlen Hmin Hmem _] H1 H2. unfold CAPI_PUT_MESSAGE.
  rewrite (start_run Hplenty 0) by lia. cbn [app replicate].
  wstore. wsession. wstore.
  rewrite (holds_field mem p m 2 0 (blen m) p 2 Hmem Hlen) by lia.
  rewrite try_Some_bind. cbv beta. rewrite (holds_all _ _ _ Hmem), try_Some_bind. cbv beta.
  rewrite (holds_field mem p m 1 4 cmd1 (p + 4) 1 Hmem H1) by lia.
  rewrite (holds_field mem p m 1 5 cmd2 (p + 5) 1 Hmem H2) by lia.
  change (zeros (_MSG_BUFFER - 4 * Z.of_nat (9 + 0))) with (zeros 9964).
  rewrite (zeros_cons 9964) by done. done.
Qed.

Lemma put_data_len appl m n k d :
  store32 msg RH.data_len k (put_state appl m n d) = (Done tt, put_state appl m k d).
Proof. apply (store_field_run 3); [done|]. by apply Nat.ltb_lt. Qed.

Lemma append_data_none mem p n cmd1 cmd2 d :
  (cmd1 =? 0x86) && (cmd2 =? 0x80) = false → append_data mem p n cmd1 cmd2 d = (Done 0, d).
Proof. intros Hc. unfold append_data. by rewrite Hc. Qed.

Definition with_data appl (m data : list byte) d : dll OS :=
  fset msg (words (put_words appl (blen m + blen data) d) ++ (x00 :: m ++ data) ++
            zeros (9963 - blen m - blen data)) (started d).

Lemma append_data_run mem appl p m data pointer d :
  holds mem p m → get_u16 m 16 = Some (blen data) → get_u32 m 12 = Some pointer →
  holds mem pointer data → 37 + blen m + blen data ≤ _MSG_BUFFER →
  append_data mem p (blen m) 0x86 0x80 (put_state appl m (blen m) d) =
    (Done (blen data), with_data appl m data d).
Proof.
  intros Hm Hlen Hptr Hdata Hfit. pose proof (blen_nonneg m). pose proof (blen_nonneg data).
  unfold append_data. change ((0x86 =? 0x86) && (0x80 =? 0x80)) with true. cbv iota.
  rewrite (holds_field mem p m 2 16 (blen data) (p + 16) 2 Hm Hlen) by lia.
  rewrite (holds_field mem p m 4 12 pointer (p + 12) 4 Hm Hptr) by lia.
  rewrite try_Some_bind. cbv beta. rewrite try_Some_bind. cbv beta.
  rewrite (holds_all _ _ _ Hdata), try_Some_bind. cbv beta.
  erewrite bind_done.
  2:{ apply append_bytes_run; [|unfold _MSG_BUFFER in *; lia].
      rewrite blen_app, blen_words, blen_cons. change (length _) with 9%nat.
      unfold sizeof_REQUEST_HEADER, sizeof_cpp_empty. lia. }
  cbv beta. erewrite bind_done by by apply (load_words_run msg 3). cbv beta.
  rewrite u32_small by (unfold _MSG_BUFFER in *; lia).
  erewrite bind_done by (apply (store_field_run 3); [done|by apply Nat.ltb_lt]). done.
Qed.

Lemma append_data_fault mem appl p m data pointer d :
  holds mem p m → get_u16 m 16 = Some (blen data) → get_u32 m 12 = Some pointer →
  holds mem pointer data → 37 + blen m ≤ _MSG_BUFFER < 37 + blen m + blen data →
  append_data mem p (blen m) 0x86 0x80 (put_state appl m (blen m) d) =
    (Faulted OutOfBounds, put_state appl m (blen m) d).
Proof.
  intros Hm Hlen Hptr Hdata Hfit. pose proof (blen_nonneg m). pose proof (blen_nonneg data).
  unfold append_data. change ((0x86 =? 0x86) && (0x80 =? 0x80)) with true. cbv iota.
  rewrite (holds_field mem p m 2 16 (blen data) (p + 16) 2 Hm Hlen) by lia.
  rewrite (holds_field mem p m 4 12 pointer (p + 12) 4 Hm Hptr) by lia.
  rewrite try_Some_bind. cbv beta. rewrite try_Some_bind. cbv beta.
  rewrite (holds_all _ _ _ Hdata), try_Some_bind. cbv beta.
  erewrite bind_faulted; [done|].
  apply append_bytes_fault; [|unfold _MSG_BUFFER in *; lia].
  rewrite blen_app, blen_words, blen_cons. change (length _) with 9%nat.
  unfold sizeof_REQUEST_HEADER, sizeof_cpp_empty. lia.
Qed.

(** The message is copied behind the header. *)
Lemma put_message_copied mem answer appl p m data cmd1 cmd2 d :
  app_message mem p m data → get_u8 m 4 = Some cmd1 → get_u8 m 5 = Some cmd2 →
  37 + blen m ≤ _MSG_BUFFER →
  CAPI_PUT_MESSAGE mem answer appl p d =
  (len2 ← append_data mem p (blen m) cmd1 cmd2;
   store32 msg RH.message_len (37 + blen m + len2);;
   with_answer (next_id d) answer TYPE_CAPI_PUTMESSAGE CAPI_OS_ERROR answer_result)
  (put_state appl m (blen m) d).
Proof using Hplenty.
  intros Hm H1 H2 Hfit. rewrite (put_message_start _ _ _ _ _ _ _ _ _ Hm H1 H2).
  erewrite bind_done by (apply append_bytes_run; [done|unfold _MSG_BUFFER in *; lia]).
  cbv beta. erewrite bind_done by by apply (load_words_run msg 3). cbv beta.
  change (u32 0 + blen m) with (blen m).
  erewrite bind_done by (apply (store_field_run 3); [done|by apply Nat.ltb_lt]). done.
Qed.

(** What the header and the copies make of the buffer. *)
Lemma CAPI_PUT_MESSAGE_prepare mem answer appl p m data d :
  app_message mem p m data → 37 + blen m + blen data ≤ _MSG_BUFFER →
  CAPI_PUT_MESSAGE mem answer appl p d =
  with_answer (next_id d) answer TYPE_CAPI_PUTMESSAGE CAPI_OS_ERROR answer_result
    (prepared (put_request appl m data d) (x00 :: m ++ data) d).
Proof using Hplenty.
  intros Hm Hfit. pose proof (blen_nonneg data). pose proof Hm as [Hlen Hmin Hmem Hdata].
  destruct (get_le_is_Some 1 m 4) as [cmd1 H1]; [lia..|].
  destruct (get_le_is_Some 1 m 5) as [cmd2 H2]; [lia..|].
  rewrite (put_message_copied _ _ _ _ _ _ _ _ _ Hm H1 H2) by lia.
  rewrite (bind_done _ _ _ (blen data) (with_data appl m data d)).
  2:{ case_decide as Hd.
      - destruct Hd as [Hd1 Hd2], Hdata as (Hl & ptr & Hp & Hdata). simplify_eq.
        by eapply append_data_run.
      - subst data. rewrite append_data_none.
        + unfold with_data, put_state. by rewrite app_nil_r, Z.add_0_r, Z.sub_0_r.
        + apply not_true_is_false. intros [->%Z.eqb_eq ->%Z.eqb_eq]%andb_true_iff. by apply Hd. }
  cbv beta. erewrite bind_done by (apply (store_field_run 0); [done|by apply Nat.ltb_lt]).
  cbv beta. f_equal. unfold prepared, put_request, encode_request.
  rewrite blen_cons, blen_app. unfold _MSG_BUFFER, sizeof_REQUEST_HEADER.
  replace (10000 - 36 - (1 + (blen m + blen data))) with (9963 - blen m - blen data) by lia. done.
Qed.

(** A message that does not fit is copied past the end of the buffer. *)
Lemma CAPI_PUT_MESSAGE_fault mem answer appl p m data d :
  app_message mem p m data → _MSG_BUFFER < 37 + blen m + blen data →
  ∃ d', CAPI_PUT_MESSAGE mem answer appl p d = (Faulted OutOfBounds, d') ∧ w_socke d' = w_socke d.
Proof using Hplenty.
  intros Hm Hfit. pose proof (blen_nonneg data). pose proof Hm as [Hlen Hmin Hmem Hdata].
  destruct (get_le_is_Some 1 m 4) as [cmd1 H1]; [lia..|].
  destruct (get_le_is_Some 1 m 5) as [cmd2 H2]; [lia..|].
  destruct (decide (37 + blen m ≤ _MSG_BUFFER)) as [Hle|Hgt].
  - rewrite (put_message_copied _ _ _ _ _ _ _ _ _ Hm H1 H2 Hle).
    case_decide as Hd; [|subst data; change (blen []) with 0 in *; lia].
    destruct Hd as [Hd1 Hd2], Hdata as (Hl & ptr & Hp & Hdata). simplify_eq.
    eexists. split; [eapply bind_faulted, append_data_fault; [done..|lia]|done].
  - rewrite (put_message_start _ _ _ _ _ _ _ _ _ Hm H1 H2). eexists.
    split; [apply bind_faulted, append_bytes_fault; [done|unfold _MSG_BUFFER in *; lia]|done].
Qed.

(** ** The exchange of a function *)
Lemma with_answer_run {A} answer type (failed : A) k h pay seg segs ah d :
  ready answer seg segs d → rh_message_id h = next_id d →
  rh_message_len h = sizeof_REQUEST_HEADER + blen pay → blen pay ≤ _MSG_BUFFER - sizeof_REQUEST_HEADER →
  decode_answer seg = Some ah → ah_message_id ah = next_id d →
  with_answer (next_id d) answer type failed k (prepared h pay d) =
    (if bool_decide (accepts ah type) then k (received_in seg) else mret failed)
      (exchanged (encode_request h ++ pay) seg segs d).
Proof using Hplenty.
  intros. unfold with_answer. erewrite bind_done by by eapply transact_run. cbv beta.
  by case_bool_decide.
Qed.
End calls.
