(* ===== verification/WClientAnswers.v ===== *)
(** * The Windows client: the functions on what the server answers *)
From stdpp Require Import gmap.
From S2P Require Import Prelude CMem Protocol Net Win32 WClient WClientSpec WClientCalls.
#[local] Open Scope Z_scope.

(** An answer whose lengths are those of its parts. *)
Definition answer_message (ah : ANSWER_HEADER) (body data : list byte) : list byte :=
  encode_answer ah ++ body ++ data.
Record wf_message (ah : ANSWER_HEADER) (body data : list byte) : Prop := {
  wr_words : wf_answer ah;
  wr_header : ah_header_len ah = sizeof_ANSWER_HEADER;
  wr_body : ah_body_len ah = blen body;
  wr_data : ah_data_len ah = blen data;
  wr_message : ah_message_len ah = blen (answer_message ah body data);
  wr_fits : blen (answer_message ah body data) ≤ _MSG_BUFFER;
}.

Lemma blen_answer_message ah body data : blen (answer_message ah body data) = sizeof_ANSWER_HEADER + blen body + blen data.
Proof. unfold answer_message. rewrite !blen_app, blen_encode_answer. lia. Qed.

(** What of an answer with true lengths the checks look at. *)
Lemma accepts_message ah body data type :
  wf_message ah body data → 0 ≤ abodysize type →
  accepts ah type ↔ abodysize type ≤ blen body + 1 ∧ ah_proxy_error ah = PERROR_NONE ∧
                    (ah_capi_error ah ≠ 0 ∨ ah_message_type ah = type).
Proof.
  intros [_ Hh Hb Hd Hm Hf] Ht. rewrite blen_answer_message in Hm, Hf. unfold accepts.
  pose proof (blen_nonneg body). pose proof (blen_nonneg data).
  assert (abodysize type ≤ 128) by (unfold abodysize; repeat case_decide; vm_compute; discriminate).
  unfold _MSG_BUFFER, sizeof_ANSWER_HEADER in *.
  rewrite Hh, Hb, Hd, Hm, !u32_small by lia. lia.
Qed.

(** The message the application gets when its block lies at [buffer]. *)
Definition is_data_b3_ind (m : list byte) : Prop := get_u8 m 4 = Some 0x86 ∧ get_u8 m 5 = Some 0x82.
#[global] Instance is_data_b3_ind_dec m : Decision (is_data_b3_ind m).
Proof. unfold is_data_b3_ind. apply _. Defined.

Definition message_for (buffer : Z) (data : list byte) : option (list byte) :=
  len1 ← get_u16 data 0;
  if decide (blen data < len1) then None else
  if decide (is_data_b3_ind data) then
    if decide (len1 < 18) then None else put_le 4 data 12 (u32 (buffer + len1))
  else Some data.

(** A whole DATA_B3_IND with its data. *)
Lemma message_for_data a m m' data :
  get_u16 m 0 = Some (blen m) → is_data_b3_ind m → 18 ≤ blen m →
  put_le 4 m 12 (u32 (a + blen m)) = Some m' → message_for a (m ++ data) = Some (m' ++ data).
Proof.
  intros Hl [H1 H2] H18 Hm. pose proof (blen_nonneg data). unfold message_for.
  rewrite (get_le_app_l 2 _ _ _ _ Hl). cbn [mbind option_bind]. rewrite blen_app.
  rewrite decide_False by lia. rewrite decide_True by (split; by apply get_le_app_l).
  rewrite decide_False by lia. by apply splice_app_l.
Qed.

Section answers.
Context {OS : Type} `{!Win32 OS} (Hplenty : plenty (OS:=OS)).
Implicit Types d : dll OS.

(** The block at [a] holds [bs]. *)
Definition block_set (a : Z) (bs : list byte) d : dll OS := fset blocks (<[a := bs]> (w_blocks d)) d.

Lemma received_message_run a data d :
  8 ≤ blen data → w_blocks d !! a = Some data →
  received_message a d =
    match message_for a data with
    | Some m => (Done true, block_set a m d)
    | None => (Done false, d)
    end.
Proof.
  intros Hl Ha. unfold received_message, message_for.
  erewrite bind_done by reflexivity. cbv beta. change (fget blocks d) with (w_blocks d).
  rewrite Ha, try_Some_bind. cbv beta.
  destruct (get_le_is_Some 2 data 0) as [len1 Hlen1]; [lia..|].
  destruct (get_le_is_Some 1 data 4) as [cmd1 H1]; [lia..|].
  destruct (get_le_is_Some 1 data 5) as [cmd2 H2]; [lia..|].
  rewrite Hlen1, try_Some_bind. cbv beta. cbn [mbind option_bind]. case_decide; [done|].
  rewrite H1, try_Some_bind. cbv beta. rewrite H2, try_Some_bind. cbv beta.
  destruct (decide (is_data_b3_ind data)) as [Hd|Hd].
  - destruct Hd as [Hd1 Hd2]. simplify_eq.
    change ((0x86 =? 0x86) && (0x82 =? 0x82)) with true. cbv iota.
    case_decide; [done|].
    destruct (get_le_is_Some 2 data 16) as [len2 Hlen2]; [lia..|].
    rewrite Hlen2, try_Some_bind. cbv beta. unfold put_le.
    rewrite splice_Some by (unfold blen in *; rewrite ?length_le_split; lia). done.
  - replace ((cmd1 =? 0x86) && (cmd2 =? 0x82)) with false.
    2:{ symmetry. apply not_true_is_false. intros [->%Z.eqb_eq ->%Z.eqb_eq]%andb_true_iff. by apply Hd. }
    unfold block_set. rewrite insert_id by done. by destruct d.
Qed.

(** [GlobalFree] of a block that is allocated, or of no block. *)
Definition freed (data : option Z) d : dll OS :=
  match data with
  | Some a => fset blocks (delete a (w_blocks d)) (fset system (GlobalFree a (w_os d)) d)
  | None => d
  end.
Definition live (data : option Z) d : Prop :=
  match data with Some a => is_Some (w_blocks d !! a) | None => True end.

Lemma free_data_run data d : live data d → free_data data d = (Done tt, freed data d).
Proof.
  destruct data as [a|]; [|done]. intros [bs Ha]. unfold free_data, global_free.
  erewrite bind_done by reflexivity. cbv beta. change (fget blocks d) with (w_blocks d). by rewrite Ha.
Qed.

(** The application's entry gets the block [a]; its previous block is freed. *)
Definition data_set (appl a : Z) (old : option Z) d : dll OS :=
  fset registered_apps (update_app appl (Some a) (w_apps d)) (freed old d).

Lemma setdata_app_run appl a old d :
  find_app appl (w_apps d) = Some old → live old d →
  setdata_app appl a d = (Done tt, data_set appl a old d).
Proof.
  intros Hf Hl. unfold setdata_app. erewrite bind_done by reflexivity. cbv beta.
  change (fget registered_apps d) with (w_apps d). rewrite Hf.
  erewrite bind_done by by apply free_data_run. cbv beta.
  unfold modify. f_equal. unfold data_set. f_equal. by destruct old.
Qed.

Lemma setdata_app_unknown appl a d :
  find_app appl (w_apps d) = None → is_Some (w_blocks d !! a) →
  setdata_app appl a d = (Done tt, freed (Some a) d).
Proof.
  intros Hf Hl. unfold setdata_app. erewrite bind_done by reflexivity. cbv beta.
  change (fget registered_apps d) with (w_apps d). rewrite Hf. by apply (free_data_run (Some a)).
Qed.

(** ** Fields and parts of an answer *)
Lemma message_decode ah body data : wf_message ah body data → decode_answer (answer_message ah body data) = Some ah.
Proof. intros [Hwf _ _ _ _ _]. by apply decode_answer_encode. Qed.

Lemma received_decode ah body data :
  wf_message ah body data → decode_answer (received_in (answer_message ah body data)) = Some ah.
Proof. intros. by apply decode_answer_app_l, message_decode. Qed.

Lemma message_length ah body data :
  wf_message ah body data → sizeof_ANSWER_HEADER ≤ blen (answer_message ah body data) ≤ _MSG_BUFFER.
Proof.
  intros [_ _ _ _ _ Hf]. pose proof (blen_nonneg body). pose proof (blen_nonneg data).
  split; [|done]. rewrite blen_answer_message. lia.
Qed.

Lemma received_data ah body data :
  wf_message ah body data →
  slice (received_in (answer_message ah body data)) (u32 (ah_header_len ah + ah_body_len ah)) (ah_data_len ah) =
    Some data.
Proof.
  intros [_ Hh Hb Hd Hm Hf]. rewrite blen_answer_message in Hf. unfold _MSG_BUFFER in Hf.
  pose proof (blen_nonneg body). pose proof (blen_nonneg data).
  rewrite Hh, Hb, Hd, u32_small by (unfold sizeof_ANSWER_HEADER in *; lia).
  unfold received_in, answer_message.
  eapply (slice_at _ (encode_answer ah ++ body) data); [by rewrite <- !(assoc_L (++))|by rewrite blen_app|done].
Qed.

Lemma received_body ah body data off n :
  wf_message ah body data → 0 ≤ off → 0 ≤ n → off + n ≤ blen body →
  slice (received_in (answer_message ah body data)) (ah_header_len ah + off) n = slice body off n.
Proof.
  intros [_ Hh Hb Hd Hm Hf] Ho Hn Hle. rewrite Hh. unfold received_in, answer_message.
  rewrite <- !(assoc_L (++)), <- (blen_encode_answer ah), slice_app_r by done.
  destruct (slice body off n) as [bs|] eqn:E; [by apply slice_app_l|].
  by rewrite slice_Some in E.
Qed.

Lemma answer_field_run b off v d : get_u32 b off = Some v → answer_field b off d = (Done v, d).
Proof. intros Hv. unfold answer_field. by rewrite Hv. Qed.

(** ** CAPI_GET_MESSAGE *)
Lemma getmessage_short appl ah body data d :
  wf_message ah body data → blen data < 8 →
  getmessage_answered appl (received_in (answer_message ah body data)) d = (Done (CAPI_OS_ERROR, None), d).
Proof.
  intros Hw Hs. destruct (decode_answer_loads _ _ (received_decode _ _ _ Hw)) as (_&_&_&Hdl&_).
  unfold getmessage_answered. erewrite bind_done by by apply answer_field_run. cbv beta.
  rewrite decide_True by (by rewrite (wr_data _ _ _ Hw)). done.
Qed.

Lemma global_alloc_run n a o' d :
  GlobalAlloc n (w_os d) = (Some a, o') →
  global_alloc n d = (Done (Some a), block_set a (zeros n) (fset system o' d)).
Proof.
  intros Ha. unfold global_alloc, zoom, mbind, M_bind. change (fget system d) with (w_os d).
  by rewrite Ha.
Qed.

Lemma getmessage_run appl ah body data a o' d :
  wf_message ah body data → ah_proxy_error ah = PERROR_NONE → 8 ≤ blen data →
  GlobalAlloc (blen data) (w_os d) = (Some a, o') →
  getmessage_answered appl (received_in (answer_message ah body data)) d =
    match message_for a data with
    | None => (Done (CAPI_OS_ERROR, None), block_set a data (fset system o' d))
    | Some m => (setdata_app appl a;; mret (ah_capi_error ah, Some a)) (block_set a m (fset system o' d))
    end.
Proof.
  intros Hw Hpe Hs Ha. pose proof (received_decode _ _ _ Hw) as Hdec.
  destruct (decode_answer_loads _ _ Hdec) as (_&Hhl&Hbl&Hdl&_).
  unfold getmessage_answered. erewrite bind_done by by apply answer_field_run. cbv beta.
  rewrite (wr_data _ _ _ Hw), decide_False by lia.
  erewrite bind_done by by apply global_alloc_run. cbv beta iota.
  do 2 (erewrite bind_done by by apply answer_field_run; cbv beta).
  rewrite <- (wr_data _ _ _ Hw), (received_data _ _ _ Hw), try_Some_bind. cbv beta.
  erewrite bind_done by reflexivity. cbv beta.
  set (d1 := block_set a data (fset system o' d)).
  replace (fset blocks _ _) with d1.
  2:{ unfold d1, block_set. cbn [fget blocks].
      change (w_blocks (fset blocks ?x _)) with x. by rewrite insert_insert_eq. }
  assert (Hd1 : w_blocks d1 !! a = Some data) by apply lookup_insert_eq.
  pose proof (received_message_run a data d1 Hs Hd1) as Hrun.
  destruct (message_for a data) as [m|].
  - erewrite bind_done by exact Hrun. cbv beta. cbn [negb].
    replace (block_set a m d1) with (block_set a m (fset system o' d)).
    2:{ unfold d1, block_set. change (w_blocks (fset blocks ?x _)) with x. by rewrite insert_insert_eq. }
    unfold mbind, M_bind. destruct (setdata_app appl a _) as [[[]|f|c] d2]; [|done..].
    by rewrite (answer_result_run _ ah).
  - by erewrite bind_done by exact Hrun.
Qed.

(** ** CAPI_REGISTER and CAPI_RELEASE *)
(** The id is entered into the list when CAPI reports success. *)
Definition app_added (rc appl : Z) d : dll OS :=
  if decide (rc = 0)
  then fset registered_apps (w_apps d ++ [mkAppl appl None]) (fset system (heap sizeof_appl_list (w_os d)) d)
  else d.

Lemma register_answered_run b ah d :
  decode_answer b = Some ah → ah_proxy_error ah = PERROR_NONE →
  register_answered b d =
    (Done (ah_capi_error ah, Some (ah_app_id ah)), app_added (ah_capi_error ah) (ah_app_id ah) d).
Proof using Hplenty.
  intros Hdec Hpe. destruct (decode_answer_loads _ _ Hdec) as (_&_&_&_&_&_&Happ&_).
  unfold register_answered. erewrite bind_done by by apply answer_field_run. cbv beta.
  erewrite bind_done by by apply answer_result_run. cbv beta.
  unfold app_added. case_bool_decide as Hc; case_decide; try done.
  cbn [when]. unfold add_app. rewrite bind_assoc.
  erewrite bind_done by by apply malloc_node_run. cbv beta. cbn [negb]. done.
Qed.

Definition app_deleted (rc appl : Z) d : dll OS :=
  match unlink_app appl (w_apps d) with
  | Some (data, l) => if decide (rc = 0) then freed data (fset registered_apps l d) else d
  | None => d
  end.

Lemma release_answered_run appl b ah d :
  decode_answer b = Some ah → ah_proxy_error ah = PERROR_NONE →
  (∀ data l, unlink_app appl (w_apps d) = Some (data, l) → live data d) →
  release_answered appl b d = (Done (ah_capi_error ah), app_deleted (ah_capi_error ah) appl d).
Proof.
  intros Hdec Hpe Hlive. unfold release_answered.
  erewrite bind_done by by apply answer_result_run. cbv beta. unfold app_deleted.
  destruct (decide (ah_capi_error ah = 0)) as [Hc|Hc].
  - rewrite bool_decide_eq_true_2 by done. cbn [when]. unfold del_app.
    rewrite bind_assoc. erewrite bind_done by reflexivity. cbv beta.
    change (fget registered_apps d) with (w_apps d).
    destruct (unlink_app appl (w_apps d)) as [[data l]|] eqn:E; [|done].
    rewrite bind_assoc. erewrite bind_done by reflexivity. cbv beta.
    erewrite bind_done; [done|]. apply free_data_run. by apply (Hlive data l).
  - rewrite bool_decide_eq_false_2 by done. by destruct (unlink_app _ _) as [[data l]|].
Qed.

(** ** The functions that copy the body *)
Lemma answer_body_run ah body data n bs d :
  wf_message ah body data → slice body 0 n = Some bs →
  answer_body (received_in (answer_message ah body data)) 0 n d = (Done bs, d).
Proof.
  intros Hw Hs. destruct (decode_answer_loads _ _ (received_decode _ _ _ Hw)) as (_&Hhl&_).
  unfold answer_body. erewrite bind_done by by apply answer_field_run. cbv beta.
  unfold slice in Hs at 1. case_decide; [|done].
  rewrite (received_body _ _ _ _ _ Hw) by lia. rewrite slice_Some by lia. by rewrite Hs.
Qed.

Lemma answer_body32_run ah body data off v d :
  wf_message ah body data → get_u32 body off = Some v →
  answer_body32 (received_in (answer_message ah body data)) off d = (Done v, d).
Proof.
  intros Hw Hv. destruct (decode_answer_loads _ _ (received_decode _ _ _ Hw)) as (_&Hhl&_).
  unfold answer_body32. erewrite bind_done by by apply answer_field_run. cbv beta.
  pose proof (get_le_Some_inv _ _ _ _ Hv). unfold get_le in *.
  rewrite (received_body _ _ _ _ _ Hw) by lia. by rewrite Hv.
Qed.
End answers.
