(* ===== verification/WClientInv.v ===== *)
(** * The Windows client: the invariant of its state *)
From stdpp Require Import gmap.
From S2P Require Import Prelude CMem Protocol Net Win32 WClient WClientSpec WClientCalls WClientAnswers.
#[local] Open Scope Z_scope.

(** Blocks the entries of the list own. *)
Definition owned_blocks (l : list appl_list) : list Z := omap ap_data l.

Definition word (z : Z) : Prop := 0 ≤ z < 2 ^ 32.

Section invariant.
Context {OS : Type} `{HW : !Win32 OS} `{HL : !Win32Laws OS}.
Implicit Types d : dll OS.

(** Every global has a value of its type; the blocks are those the system has
    allocated; every application owns a block of its own. *)
Record dll_ok d : Prop := {
  ok_dom : dom (w_blocks d) = allocated (w_os d);
  ok_owned : ∀ a, a ∈ owned_blocks (w_apps d) → is_Some (w_blocks d !! a);
  ok_owner : NoDup (owned_blocks (w_apps d));
  ok_address : ∀ a, is_Some (w_blocks d !! a) → 0 < a < 2 ^ 32;
  ok_apps : Forall (λ e, word (ap_ApplID e)) (w_apps d);
  ok_msg_id : word (w_msg_id d);
  ok_session : word (w_session_id d);
  ok_timeout : - 2 ^ 31 ≤ w_max_timeout d < 2 ^ 31;
  ok_name : blen (w_myname d) = 256;
}.

Definition sent_more : relation (dll OS) := λ d d', tx (w_socke d) `prefix_of` tx (w_socke d').
#[export] Instance sent_more_preorder : PreOrder sent_more.
Proof. unfold sent_more. split; [by intros d|]. intros d1 d2 d3 H1 H2. by etrans. Qed.

Abbreviation keeps := (respects dll_ok sent_more).

(** ** Steps that leave what the invariant speaks of *)
Lemma keeps_const {A} (m : M (dll OS) A) :
  (∀ d, (m d).1 ≠ Faulted Diverged ∧
        w_blocks (m d).2 = w_blocks d ∧ w_os (m d).2 = w_os d ∧ w_apps (m d).2 = w_apps d ∧
        w_msg_id (m d).2 = w_msg_id d ∧ w_session_id (m d).2 = w_session_id d ∧
        w_max_timeout (m d).2 = w_max_timeout d ∧ w_myname (m d).2 = w_myname d ∧
        tx (w_socke d) `prefix_of` tx (w_socke (m d).2)) → keeps m.
Proof.
  intros Hm d []. destruct (Hm d) as (H1&H2&H3&H4&H5&H6&H7&H8&H9).
  split_and!; [done| |done]. constructor; rewrite ?H2, ?H3, ?H4, ?H5, ?H6, ?H7, ?H8; done.
Qed.

Lemma keeps_puts_msg b : keeps (puts msg b).
Proof. by apply keeps_const. Qed.

Lemma keeps_store w off v : keeps (store msg w off v).
Proof. apply respects_store; [apply _|]. intros b d [] _. split; [constructor; assumption|change (sent_more d d); reflexivity]. Qed.
Lemma keeps_store_bytes off bs : keeps (store_bytes msg off bs).
Proof. apply respects_store_bytes; [apply _|]. intros b d [] _. split; [constructor; assumption|change (sent_more d d); reflexivity]. Qed.

(** A call of the system that does not touch the blocks. *)
Lemma keeps_system (f : OS → bool * OS) :
  (∀ o, allocated (f o).2 = allocated o) → keeps (zoom system f).
Proof.
  intros Hf d []. unfold zoom. change (fget system d) with (w_os d). specialize (Hf (w_os d)).
  destruct (f (w_os d)) as [b o]. simpl in *. split_and!; [done| |change (sent_more d d); reflexivity].
  constructor; try assumption. simpl. congruence.
Qed.

Lemma keeps_malloc_node n : keeps (malloc_node n).
Proof. apply keeps_system, HeapAlloc_allocated. Qed.

Lemma keeps_malloc n : keeps (malloc n).
Proof.
  unfold malloc. apply respects_bind; [apply _|apply keeps_malloc_node|]. intros b.
  apply respects_bind; [apply _|apply respects_when, keeps_puts_msg; apply _|]. intros _.
  apply respects_ret, _.
Qed.

Lemma keeps_puts_bool (F : field (dll OS) bool) b :
  F = connected ∨ F = receiver → keeps (puts F b).
Proof. intros [-> | ->]; by apply keeps_const. Qed.

Lemma keeps_slots (g : gmap Z answer_ptr → gmap Z answer_ptr) : keeps (modify slots g).
Proof. by apply keeps_const. Qed.
Lemma keeps_hash (g : list evlhash → list evlhash) : keeps (modify hash_start g).
Proof. by apply keeps_const. Qed.

Lemma keeps_next_msg_id : keeps next_msg_id.
Proof.
  intros d []. split_and!; [done| |change (sent_more d d); reflexivity].
  constructor; try assumption. apply u32_range.
Qed.

Lemma keeps_wsend bs : keeps (wsend bs).
Proof.
  apply keeps_const. intros d. unfold wsend, gets, zoom, send, mbind, M_bind.
  change (fget connected d) with (w_open d). destruct (w_open d); [|by split_and!].
  destruct (match tx_script _ with [] => _ | _ => _ end) as [n script]. simpl.
  split_and!; [done..|]. case_decide; [by apply prefix_app_r|done].
Qed.

Lemma recv_tx n w : tx (recv n w).2 = tx w.
Proof. unfold recv. by destruct (recv_segs (rx w) n) as [[]|]. Qed.

Lemma keeps_wrecv : keeps wrecv.
Proof.
  unfold wrecv. apply respects_bind; [apply _|apply respects_gets, _|]. intros [].
  2:{ apply respects_ret, _. }
  apply respects_bind; [apply _| |].
  - apply keeps_const. intros d. unfold zoom. change (fget socke d) with (w_socke d).
    pose proof (recv_tx _MSG_BUFFER (w_socke d)) as Ht.
    destruct (recv _MSG_BUFFER (w_socke d)) as [[n bs] w]. simpl in *. by rewrite Ht.
  - intros [n bs]. apply respects_bind; [apply _|apply keeps_store_bytes|].
    intros _. apply respects_ret, _.
Qed.

#[local] Hint Extern 2 (respects _ _ (match ?x with _ => _ end)) => destruct x : respects.
#[local] Hint Extern 1 (_ ≠ Diverged) => discriminate : respects.
#[local] Hint Resolve sent_more_preorder keeps_store keeps_store_bytes keeps_malloc keeps_malloc_node keeps_slots keeps_hash
  keeps_next_msg_id keeps_wsend keeps_wrecv keeps_puts_msg : respects.

Lemma keeps_closesocket : keeps closesocket.
Proof. apply keeps_puts_bool. by left. Qed.
Lemma keeps_stop b : keeps (puts receiver b).
Proof. apply keeps_puts_bool. by right. Qed.
#[local] Hint Resolve keeps_closesocket keeps_stop : respects.

Lemma keeps_store_slot a p : keeps (store_slot a p).
Proof. unfold store_slot. apply respects_bind; [apply _|apply respects_gets, _|].
  intros l. destruct (l !! a); [apply keeps_slots|apply respects_fail; [apply _|done]]. Qed.
Lemma keeps_load_slot a : keeps (load_slot a).
Proof. unfold load_slot. auto with respects. Qed.
#[local] Hint Resolve keeps_store_slot keeps_load_slot : respects.

Lemma keeps_sendRequest : keeps sendRequest.
Proof. unfold sendRequest. auto with respects. Qed.
Lemma keeps_addToHash i a : keeps (addToHash i a).
Proof. unfold addToHash. apply respects_bind; [apply _|auto with respects|]. intros []; simpl; auto with respects. Qed.
Lemma keeps_removeFromHash i : keeps (removeFromHash i).
Proof. unfold removeFromHash. auto with respects. Qed.
#[local] Hint Resolve keeps_sendRequest keeps_addToHash keeps_removeFromHash : respects.

Lemma keeps_dispatchMessage b : keeps (dispatchMessage b).
Proof.
  unfold dispatchMessage, getDataPtrFromMsgId. 
  apply respects_bind; [apply _|auto with respects|]. intros i.
  apply respects_bind; [apply _|auto with respects|]. intros o.
  apply respects_bind; [apply _|auto with respects|]. intros _.
  destruct o; [apply keeps_store_slot|apply respects_fail; [apply _|done]].
Qed.
#[local] Hint Resolve keeps_dispatchMessage : respects.

Lemma keeps_verifyMessage b type : keeps (verifyMessage b type).
Proof. unfold verifyMessage. auto 40 with respects. Qed.
#[local] Hint Resolve keeps_verifyMessage : respects.

(** ** The receiver thread *)
Lemma keeps_round : keeps messageDispatcher_round.
Proof.
  unfold messageDispatcher_round. apply respects_bind; [apply _|auto with respects|].
  intros [|]; cbn [negb]; auto 20 with respects.
Qed.
#[local] Hint Resolve keeps_round : respects.

Lemma dispatchMessage_frame b d :
  w_socke (dispatchMessage b d).2 = w_socke d ∧ w_receiver (dispatchMessage b d).2 = w_receiver d.
Proof.
  unfold dispatchMessage, getDataPtrFromMsgId, removeFromHash, store_slot, gets, modify, mbind, M_bind.
  destruct (get_u32 b AH.message_id) as [i|]; [|done]. simpl.
  destruct (hash_find i (w_hash d)) as [a|]; [|done]. simpl.
  by destruct (w_slots d !! a).
Qed.

Lemma malloc_frame n d :
  ∃ b o m, malloc n d = (Done b, fset msg m (fset system o d)).
Proof.
  unfold malloc, zoom, mbind, M_bind. change (fget system d) with (w_os d).
  destruct (HeapAlloc n (w_os d)) as [[] o]; simpl; [by eauto|].
  exists false, o, (w_msg d). by destruct d.
Qed.

(** Bytes are taken, or the end of the stream is reported. *)
Lemma wrecv_progress d n d' :
  wrecv d = (Done n, d') →
  w_receiver d' = w_receiver d ∧
  (n = 0 ∨ n = -1 ∨ (length (rx_bytes (w_socke d')) < length (rx_bytes (w_socke d)))%nat).
Proof.
  unfold wrecv, gets, mbind, M_bind, zoom. change (fget connected d) with (w_open d).
  destruct (w_open d); [|intros [= <- <-]; auto].
  change (fget socke d) with (w_socke d). unfold recv.
  destruct (recv_segs (rx (w_socke d)) _MSG_BUFFER) as [[bs segs]|] eqn:E.
  - apply recv_segs_Some in E as (Hne & _ & Hj & _); [|done].
    unfold store_bytes, gets, mbind, M_bind. simpl.
    destruct (splice _ 0 bs) as [b|]; [|done]. intros [= <- <-]. split; [done|]. right. right.
    unfold rx_bytes. simpl. rewrite Hj, length_app. destruct bs; [done|simpl; lia].
  - unfold store_bytes, gets, mbind, M_bind. simpl.
    destruct (splice _ 0 []) as [b|]; [|done]. intros [= <- <-]. split; [done|].
    destruct (rx_error _); auto.
Qed.

Lemma round_progress b d d' :
  messageDispatcher_round d = (Done b, d') →
  w_receiver d' = false ∨
  (w_receiver d' = w_receiver d ∧ (length (rx_bytes (w_socke d')) < length (rx_bytes (w_socke d)))%nat).
Proof.
  unfold messageDispatcher_round. destruct (malloc_frame _MSG_BUFFER d) as (ok & o & m & Hm).
  erewrite bind_done by exact Hm. cbv beta. destruct ok; cbn [negb].
  2:{ intros [= <- <-]. by left. }
  intros (n & d1 & H1 & H2)%bind_Done_inv. apply wrecv_progress in H1 as [Hr Hp].
  change (w_receiver (fset msg _ _)) with (w_receiver d) in Hr.
  change (w_socke (fset msg _ _)) with (w_socke d) in Hp.
  case_decide as Hn; [case_decide as Hz|].
  - injection H2 as <- <-. by left.
  - injection H2 as <- <-. right. destruct Hp as [?|[?|?]]; [lia|lia|done].
  - apply bind_Done_inv in H2 as (bb & d2 & [= <- <-] & H3).
    apply bind_Done_inv in H3 as (u & d3 & H3 & [= <- <-]).
    pose proof (dispatchMessage_frame (w_msg d1) d1) as [Hs Hrr].
    change (fget msg d1) with (w_msg d1) in H3. rewrite H3 in Hs, Hrr.
    simpl in Hs, Hrr. rewrite Hs, Hrr. right. unfold sizeof_ANSWER_HEADER in Hn.
    destruct Hp as [?|[?|?]]; [lia|lia|done].
Qed.

(** Rounds of the receiver thread that are left. *)
Definition rounds_left d : nat := if w_receiver d then S (length (rx_bytes (w_socke d))) else 0.

Lemma keeps_wait_answer fuel a d :
  dll_ok d → (rounds_left d < fuel)%nat →
  (wait_answer fuel a d).1 ≠ Faulted Diverged ∧ dll_ok (wait_answer fuel a d).2 ∧
  sent_more d (wait_answer fuel a d).2.
Proof.
  revert d. induction fuel as [|fuel IH]; intros d Hd Hf; [lia|]. cbn [wait_answer].
  unfold load_slot at 1 2 3, gets, try, mbind, M_bind, fail, mret, M_ret.
  change (fget slots d) with (w_slots d). 
  destruct (w_slots d !! a) as [[| |b]|]; try (by split_and!).
  change (fget receiver d) with (w_receiver d). unfold rounds_left in Hf.
  destruct (w_receiver d) eqn:Hr; [|by split_and!].
  destruct (keeps_round d Hd) as (H1 & H2 & H3).
  destruct (messageDispatcher_round d) as [[b|f|c] d'] eqn:E; simpl in *; [|by split_and!; congruence..].
  assert (Hf' : (rounds_left d' < fuel)%nat).
  { unfold rounds_left. destruct (round_progress _ _ _ E) as [-> | [-> ?]]; [lia|]. rewrite Hr. lia. }
  destruct (IH d' H2 Hf') as (H4 & H5 & H6). split_and!; [done..|]. by etrans.
Qed.

Lemma keeps_wait_loop a : keeps (wait_loop a).
Proof.
  intros d Hd. unfold wait_loop. apply keeps_wait_answer; [done|].
  unfold rounds_left. change (fget socke d) with (w_socke d). destruct (w_receiver d); lia.
Qed.
#[local] Hint Resolve keeps_wait_loop : respects.

Lemma keeps_post i a : keeps (post i a).
Proof.
  unfold post. apply respects_bind; [apply _|auto with respects|]. intros _.
  auto 20 with respects.
Qed.
#[local] Hint Resolve keeps_post : respects.

Lemma keeps_transact i a type : keeps (transact i a type).
Proof. unfold transact, sendAndReceive. auto 40 with respects. Qed.

Lemma keeps_with_answer {A} i a type (failed : A) k :
  (∀ b, keeps (k b)) → keeps (with_answer i a type failed k).
Proof.
  intros Hk. unfold with_answer. apply respects_bind; [apply _|apply keeps_transact|].
  intros [b|]; [apply Hk|apply respects_ret, _].
Qed.
#[local] Hint Resolve keeps_with_answer : respects.

Lemma keeps_request_header type n : keeps (request_header type n).
Proof. unfold request_header. auto 40 with respects. Qed.
Lemma keeps_answer_field b off : keeps (answer_field b off).
Proof. unfold answer_field. auto with respects. Qed.
#[local] Hint Resolve keeps_request_header keeps_answer_field : respects.
Lemma keeps_answer_result b : keeps (answer_result b).
Proof. unfold answer_result. auto 20 with respects. Qed.
Lemma keeps_answer_body b off n : keeps (answer_body b off n).
Proof. unfold answer_body. auto 20 with respects. Qed.
Lemma keeps_answer_body32 b off : keeps (answer_body32 b off).
Proof. unfold answer_body32. auto 20 with respects. Qed.
#[local] Hint Resolve keeps_answer_result keeps_answer_body keeps_answer_body32 : respects.

(** ** The list of applications *)
(** An id read from an answer. *)
Lemma keeps_add_app i : word i → keeps (add_app i).
Proof.
  intros Hi. unfold add_app. apply respects_bind; [apply _|auto with respects|].
  intros [|]; cbn [negb]; [|auto with respects]. intros d [].
  split_and!; [done| |change (sent_more d d); reflexivity].
  assert (Ho : owned_blocks (w_apps d ++ [mkAppl i None]) = owned_blocks (w_apps d)).
  { unfold owned_blocks. rewrite omap_app. simpl. by rewrite app_nil_r. }
  constructor; try assumption; cbn -[owned_blocks].
  - by rewrite Ho.
  - by rewrite Ho.
  - apply Forall_app. split; [done|]. by constructor.
Qed.

Lemma owned_unlink i l data l' :
  unlink_app i l = Some (data, l') → ∃ l1 l2 e, l = l1 ++ e :: l2 ∧ l' = l1 ++ l2 ∧ ap_data e = data ∧ ap_ApplID e = i.
Proof.
  revert l'. induction l as [|e l IH]; intros l' H; [done|]. simpl in H. case_decide.
  - simplify_eq. by exists [], l', e.
  - destruct (unlink_app i l) as [[dd ll]|] eqn:E; simpl in H; [|done]. simplify_eq.
    destruct (IH _ eq_refl) as (l1 & l2 & e' & -> & -> & Hd & He). by exists (e :: l1), l2, e'.
Qed.

(** The entry taken from the list, and its block with it. *)
Lemma unlinked_ok d l1 e l2 :
  dll_ok d → w_apps d = l1 ++ e :: l2 →
  live (ap_data e) d ∧ dll_ok (freed (ap_data e) (fset registered_apps (l1 ++ l2) d)).
Proof.
  intros [Hdom Howned Howner Haddr Happs ? ? ? ?] Hl. rewrite Hl in Howned, Howner, Happs.
  apply Forall_app in Happs as [Ha1 [_ Ha2]%Forall_cons].
  unfold owned_blocks in Howned, Howner. rewrite omap_app in Howned, Howner.
  cbn [omap list_omap] in Howned, Howner. destruct (ap_data e) as [a|]; cbn [freed live].
  - assert (Hnot : a ∉ omap ap_data (l1 ++ l2)).
    { rewrite omap_app, elem_of_app. apply NoDup_app in Howner as (_ & Hd & [Hn _]%NoDup_cons).
      intros [?|?]; [|done]. apply (Hd a); [done|]. by left. }
    split; [apply Howned; set_solver|].
    constructor; try done; cbn -[omap].
    + rewrite dom_delete_L, GlobalFree_ok. by rewrite Hdom.
    + intros b Hb. rewrite lookup_delete_ne by (intros <-; done).
      apply Howned. unfold owned_blocks in Hb. rewrite omap_app in Hb. set_solver.
    + unfold owned_blocks. rewrite omap_app.
      eapply sublist_NoDup; [exact Howner|]. apply sublist_app; [done|by apply sublist_cons].
    + intros b [x Hx]. apply lookup_delete_Some in Hx as [_ Hx]. eauto.
    + by apply Forall_app.
  - split; [done|]. constructor; try done; cbn -[omap].
    + intros b Hb. apply Howned. unfold owned_blocks in Hb. by rewrite omap_app in Hb.
    + unfold owned_blocks. by rewrite omap_app.
    + by apply Forall_app.
Qed.

Lemma freed_tx data d : w_socke (freed data d) = w_socke d.
Proof. by destruct data. Qed.

Lemma keeps_del_app i : keeps (del_app i).
Proof.
  intros d Hd. unfold del_app. erewrite !bind_done by reflexivity. cbv beta.
  change (fget registered_apps d) with (w_apps d).
  destruct (unlink_app i (w_apps d)) as [[data l]|] eqn:E; [|by split_and!].
  destruct (owned_unlink _ _ _ _ E) as (l1 & l2 & e & Hl & -> & <- & _).
  destruct (unlinked_ok d l1 e l2 Hd Hl) as [Hlive Hok].
  erewrite !bind_done by reflexivity. cbv beta.
  rewrite free_data_run by done. split_and!; [done|done|]. unfold sent_more. simpl. by rewrite freed_tx.
Qed.
#[local] Hint Resolve keeps_del_app : respects.

Lemma keeps_getfirst_app : keeps getfirst_app.
Proof.
  intros d Hd. unfold getfirst_app. erewrite !bind_done by reflexivity. cbv beta.
  change (fget registered_apps d) with (w_apps d).
  destruct (w_apps d) as [|e l] eqn:E; [by split_and!|].
  destruct (unlinked_ok d [] e l Hd E) as [Hlive Hok].
  erewrite !bind_done by reflexivity. cbv beta.
  erewrite !bind_done by by apply free_data_run. 
  split_and!; [done|done|]. unfold sent_more. simpl. by rewrite freed_tx.
Qed.
#[local] Hint Resolve keeps_getfirst_app : respects.

(** ** A block on its way to its application *)
Record in_hand (a : Z) d : Prop := {
  ih_ok : dll_ok d;
  ih_live : is_Some (w_blocks d !! a);
  ih_free : a ∉ owned_blocks (w_apps d);
}.

Lemma find_app_split i l data :
  find_app i l = Some data → ∃ l1 l2 e, l = l1 ++ e :: l2 ∧ ap_data e = data ∧ ap_ApplID e = i ∧
    ∀ v, update_app i v l = l1 ++ mkAppl i v :: l2.
Proof.
  induction l as [|e l IH]; intros H; [done|]. simpl in *. case_decide as He.
  - simplify_eq. by exists [], l, e.
  - destruct (IH H) as (l1 & l2 & e' & -> & Hd & Hi & Hu). exists (e :: l1), l2, e'.
    split_and!; [done..|]. intros v. by rewrite Hu.
Qed.

(** An application without a block takes the block in hand. *)
Lemma given_ok a i l1 l2 d :
  in_hand a d → w_apps d = l1 ++ l2 → word i →
  dll_ok (fset registered_apps (l1 ++ mkAppl i (Some a) :: l2) d).
Proof.
  intros [[Hdom Howned Howner Haddr Happs ? ? ? ?] Hlive Hfree] Hl Hi. rewrite Hl in *.
  apply Forall_app in Happs as [Ha1 Ha2]. unfold owned_blocks in *.
  rewrite omap_app in *.
  constructor; try done; cbn -[omap]; unfold owned_blocks; rewrite ?omap_app; cbn [omap list_omap ap_data].
  - intros b Hb. apply elem_of_app in Hb as [Hb|[->|Hb]%elem_of_cons]; [|done|]; apply Howned; set_solver.
  - apply NoDup_app in Howner as (H1 & H2 & H3). apply NoDup_app. split_and!; [done| |].
    + intros x Hx [->|Hx']%elem_of_cons; [set_solver|]. by apply (H2 x).
    + constructor; [set_solver|done].
  - apply Forall_app. split; [done|]. by constructor.
Qed.

Lemma leads_setdata_app i a : leads dll_ok sent_more (in_hand a) (setdata_app i a).
Proof.
  intros d [Hok Hlive Hfree]. destruct (find_app i (w_apps d)) as [old|] eqn:E.
  - destruct (find_app_split _ _ _ E) as (l1 & l2 & e & Hl & <- & He & Hu).
    destruct (unlinked_ok d l1 e l2 Hok Hl) as [Hlo Hok'].
    rewrite (setdata_app_run i a (ap_data e)) by done. split_and!; [done| |].
    + cbn [snd]. unfold data_set. rewrite Hu.
      assert (Hi : word i) by (pose proof (ok_apps _ Hok) as Hf; rewrite Hl, Forall_app, Forall_cons, He in Hf; tauto).
      set (d1 := freed (ap_data e) (fset registered_apps (l1 ++ l2) d)) in *.
      assert (Hh : in_hand a d1).
      { unfold owned_blocks in Hfree. rewrite Hl, omap_app in Hfree. cbn [omap list_omap] in Hfree.
        split; [done| |].
        - unfold d1. destruct (ap_data e) as [o|]; [|done]. cbn.
          rewrite lookup_delete_ne; [done|]. set_solver.
        - replace (w_apps d1) with (l1 ++ l2) by (unfold d1; by destruct (ap_data e)).
          unfold owned_blocks. rewrite omap_app. destruct (ap_data e); set_solver. }
      pose proof (given_ok a i l1 l2 d1 Hh) as Hg.
      replace (fset registered_apps _ (freed _ d)) with
        (fset registered_apps (l1 ++ mkAppl i (Some a) :: l2) d1) by (unfold d1; by destruct (ap_data e)).
      apply Hg; [|done]. unfold d1. by destruct (ap_data e).
    + unfold sent_more. simpl. by rewrite freed_tx.
  - rewrite setdata_app_unknown by done. split_and!; [done| |change (sent_more d d); reflexivity].
    destruct Hok as [Hdom Howned Howner Haddr ? ? ? ? ?]. constructor; try done; cbn.
    + by rewrite dom_delete_L, GlobalFree_ok, Hdom.
    + intros b Hb. rewrite lookup_delete_ne by (intros <-; done). by apply Howned.
    + intros b [x Hx]. apply lookup_delete_Some in Hx as [_ Hx]. eauto.
Qed.

Lemma in_hand_block a bs : respects (in_hand a) sent_more (modify blocks <[a := bs]>).
Proof.
  intros d [[Hdom Howned Howner Haddr ? ? ? ? ?] Hlive Hfree].
  split_and!; [done| |change (sent_more d d); reflexivity].
  constructor; [constructor; try done| |done]; cbn.
  - rewrite dom_insert_L, <- Hdom. apply elem_of_dom in Hlive. set_solver.
  - intros b Hb. apply lookup_insert_is_Some'. right. by apply Howned.
  - intros b [->|Hb]%lookup_insert_is_Some'; by apply Haddr.
  - rewrite lookup_insert_eq. eauto.
Qed.

Lemma in_hand_received a : respects (in_hand a) sent_more (received_message a).
Proof.
  pose proof (in_hand_block a). unfold received_message. auto 40 with respects.
Qed.

Lemma global_alloc_in_hand n d :
  dll_ok d → match global_alloc n d with
             | (Done (Some a), d') => in_hand a d' ∧ w_socke d' = w_socke d
             | (Done None, d') => dll_ok d' ∧ w_socke d' = w_socke d
             | _ => False
             end.
Proof.
  intros [Hdom Howned Howner Haddr ? ? ? ? ?]. unfold global_alloc, zoom, mbind, M_bind.
  change (fget system d) with (w_os d). destruct (GlobalAlloc n (w_os d)) as [[a|] o] eqn:E; cbn.
  - apply GlobalAlloc_ok in E as (H1 & H2 & H3 & H4). split; [|done].
    assert (Hnew : w_blocks d !! a = None) by (apply not_elem_of_dom; by rewrite Hdom).
    split; [|cbn; rewrite lookup_insert_eq; eauto|].
    2:{ intros Ha. destruct (Howned a Ha) as [x Hx]. by rewrite Hnew in Hx. }
    constructor; try done; cbn.
    + by rewrite dom_insert_L, H4, Hdom.
    + intros b Hb. apply lookup_insert_is_Some'. right. by apply Howned.
    + intros b [->|Hb]%lookup_insert_is_Some'; [|by apply Haddr]. 
done.
  - split; [|done]. apply GlobalAlloc_fail in E. constructor; try done. cbn. congruence.
Qed.

Lemma in_hand_field a b off : respects (in_hand a) sent_more (answer_field b off).
Proof. unfold answer_field. auto with respects. Qed.
#[local] Hint Resolve in_hand_field in_hand_block in_hand_received : respects.

Lemma sent_more_eq d d1 : w_socke d1 = w_socke d → sent_more d d1.
Proof. unfold sent_more. by intros ->. Qed.

Lemma keeps_global_alloc {A} n (k : option Z → M (dll OS) A) :
  keeps (k None) → (∀ a, leads dll_ok sent_more (in_hand a) (k (Some a))) → keeps (global_alloc n ≫= k).
Proof.
  intros Hn Hk d Hd. pose proof (global_alloc_in_hand n d Hd) as Ha. unfold mbind, M_bind.
  destruct (global_alloc n d) as [[[a|]|f|c] d1]; [..|done|done]; destruct Ha as [Ha Hs%sent_more_eq].
  - destruct (Hk a d1 Ha) as (H1 & H2 & H3). split_and!; [done..|]. by etrans.
  - destruct (Hn d1 Ha) as (H1 & H2 & H3). split_and!; [done..|]. by etrans.
Qed.

Lemma in_hand_weaken a d : in_hand a d → dll_ok d.
Proof. by intros []. Qed.

Lemma keeps_getmessage_answered i b : keeps (getmessage_answered i b).
Proof.
  unfold getmessage_answered. apply respects_bind; [apply _|auto with respects|]. intros n.
  case_decide; [auto with respects|]. apply keeps_global_alloc; [auto with respects|]. intros a.
  do 5 (apply leads_bind; [apply _|apply in_hand_weaken|auto with respects|]; intros ?).
  match goal with |- leads _ _ _ (if negb ?b then _ else _) => destruct b end; cbn [negb].
  - apply leads_after; [apply _|apply leads_setdata_app|]. auto with respects.
  - apply leads_weaken; [apply in_hand_weaken|auto with respects].
Qed.
#[local] Hint Resolve keeps_getmessage_answered : respects.

Lemma keeps_register_answered b : keeps (register_answered b).
Proof.
  unfold register_answered, answer_field. destruct (get_u32 b AH.app_id) as [i|] eqn:E.
  - assert (Hi : word i) by by apply (get_le_bound 4) in E.
    pose proof (keeps_add_app i Hi).
    change (keeps (rc ← answer_result b; when (bool_decide (rc = 0)) (add_app i);; mret (rc, Some i))).
    auto 20 with respects.
  - intros d Hd. by split_and!.
Qed.

Lemma keeps_release_answered i b : keeps (release_answered i b).
Proof. unfold release_answered. auto 20 with respects. Qed.
Lemma keeps_version_answered b : keeps (version_answered b).
Proof. unfold version_answered. auto 20 with respects. Qed.
#[local] Hint Resolve keeps_register_answered keeps_release_answered keeps_version_answered : respects.

(** ** The exported functions *)
Lemma keeps_CAPI_REGISTER a x1 x2 x3 x4 : keeps (CAPI_REGISTER a x1 x2 x3 x4).
Proof. unfold CAPI_REGISTER. auto 40 with respects. Qed.
Lemma keeps_CAPI_RELEASE a i : keeps (CAPI_RELEASE a i).
Proof. unfold CAPI_RELEASE. auto 40 with respects. Qed.
Lemma keeps_append_data mem p n c1 c2 : keeps (append_data mem p n c1 c2).
Proof. unfold append_data. auto 40 with respects. Qed.
#[local] Hint Resolve keeps_append_data : respects.
Lemma keeps_CAPI_PUT_MESSAGE mem a i p : keeps (CAPI_PUT_MESSAGE mem a i p).
Proof. unfold CAPI_PUT_MESSAGE. auto 60 with respects. Qed.
Lemma keeps_CAPI_GET_MESSAGE a i : keeps (CAPI_GET_MESSAGE a i).
Proof. unfold CAPI_GET_MESSAGE. auto 40 with respects. Qed.
Lemma keeps_CAPI_WAIT_FOR_SIGNAL a i : keeps (CAPI_WAIT_FOR_SIGNAL a i).
Proof. unfold CAPI_WAIT_FOR_SIGNAL. auto 40 with respects. Qed.
Lemma keeps_CAPI_GET_MANUFACTURER a : keeps (CAPI_GET_MANUFACTURER a).
Proof. unfold CAPI_GET_MANUFACTURER. auto 40 with respects. Qed.
Lemma keeps_CAPI_GET_VERSION a : keeps (CAPI_GET_VERSION a).
Proof. unfold CAPI_GET_VERSION. auto 40 with respects. Qed.
Lemma keeps_CAPI_GET_SERIAL_NUMBER a : keeps (CAPI_GET_SERIAL_NUMBER a).
Proof. unfold CAPI_GET_SERIAL_NUMBER. auto 40 with respects. Qed.
Lemma keeps_CAPI_GET_PROFILE a c : keeps (CAPI_GET_PROFILE a c).
Proof. unfold CAPI_GET_PROFILE. auto 40 with respects. Qed.
Lemma keeps_CAPI_INSTALLED a : keeps (CAPI_INSTALLED a).
Proof. unfold CAPI_INSTALLED. auto 40 with respects. Qed.

(** ** Loading and unloading *)
Lemma keeps_puts_word (F : field (dll OS) Z) v :
  (F = max_timeout ∧ - 2 ^ 31 ≤ v < 2 ^ 31) ∨ (F = session_id ∧ word v) ∨
  F = status ∨ F = _port ∨ F = toaddr → keeps (puts F v).
Proof.
  intros HF d []. destruct HF as [[-> ?]|[[-> ?]|[-> |[-> | ->]]]];
    (split_and!; [done| |change (sent_more d d); reflexivity]); by constructor.
Qed.

Lemma s32_range z : - 2 ^ 31 ≤ s32 z < 2 ^ 31.
Proof. unfold s32. pose proof (u32_range z). case_decide; lia. Qed.

Lemma keeps_load_word {A} off (k : Z → M (dll OS) A) :
  (∀ v, word v → keeps (k v)) → keeps (load32 msg off ≫= k).
Proof.
  intros Hk d Hd. unfold load, gets, try, mbind, M_bind, fail, mret, M_ret. change (fget msg d) with (w_msg d).
  destruct (get_u32 (w_msg d) off) as [v|] eqn:E; [|by split_and!].
  apply (get_le_bound 4) in E. by apply Hk.
Qed.

Lemma keeps_name off bs : keeps (store_bytes __myname off bs).
Proof.
  apply respects_store_bytes; [apply _|]. intros b d [] Hl. 
  split; [|change (sent_more d d); reflexivity]. constructor; try assumption.
  cbn. unfold blen in *. by rewrite Hl.
Qed.

Lemma keeps_win_socket : keeps (zoom system win_socket).
Proof. apply keeps_system, win_socket_allocated. Qed.
Lemma keeps_win_connect a p : keeps (zoom system (win_connect a p)).
Proof. apply keeps_system, win_connect_allocated. Qed.
Lemma keeps_WSAStartup : keeps (zoom system WSAStartup).
Proof. apply keeps_system, WSAStartup_allocated. Qed.
Lemma keeps_CreateThread : keeps (zoom system CreateThread).
Proof. apply keeps_system, CreateThread_allocated. Qed.
Lemma keeps_open : keeps (puts connected true).
Proof. apply keeps_puts_bool. by left. Qed.
Lemma keeps_store_cstr off bs : keeps (store_cstr msg off bs).
Proof. apply keeps_store_bytes. Qed.
#[local] Hint Resolve keeps_name keeps_win_socket keeps_win_connect keeps_WSAStartup keeps_CreateThread
  keeps_open keeps_store_cstr : respects.

Lemma keeps_auth_user_pass : keeps auth_user_pass.
Proof. unfold auth_user_pass. auto 60 with respects. Qed.
Lemma keeps_answer_checks n type : keeps (answer_checks n type).
Proof. unfold answer_checks. auto 60 with respects. Qed.
Lemma keeps_helo_checks n : keeps (helo_checks n).
Proof. unfold helo_checks. auto 60 with respects. Qed.
Lemma keeps_helo_message : keeps helo_message.
Proof. unfold helo_message. auto 60 with respects. Qed.
#[local] Hint Resolve keeps_auth_user_pass keeps_answer_checks keeps_helo_checks keeps_helo_message
  : respects.

Lemma keeps_do_auth types : keeps (do_auth types).
Proof. unfold do_auth. auto 80 with respects. Qed.
#[local] Hint Resolve keeps_do_auth : respects.

Lemma keeps_initConnection : keeps initConnection.
Proof.
  assert (H1 : ∀ v, keeps (puts max_timeout (s32 v))).
  { intros v. apply keeps_puts_word. left. split; [done|apply s32_range]. }
  assert (H2 : keeps (puts status 1)) by (apply keeps_puts_word; auto).
  assert (H3 : ∀ v, word v → keeps (puts session_id v)) by (intros; apply keeps_puts_word; auto).
  unfold initConnection, helo_accepted.
  repeat first
    [ progress intros
    | apply keeps_load_word
    | match goal with |- keeps (if ?b then _ else _) => destruct b end
    | apply respects_bind; [apply _|by auto 30 with respects|]
    | by auto 30 with respects ].
Qed.
#[local] Hint Resolve keeps_initConnection : respects.

Lemma keeps_DllMain_attach : keeps DllMain_attach.
Proof.
  assert (H1 : ∀ v, keeps (puts toaddr v)) by (intros; apply keeps_puts_word; auto).
  assert (H2 : keeps (puts _port __PORT)) by (intros; apply keeps_puts_word; auto).
  assert (H3 : ∀ g, keeps (modify _port g)) by (intros g d Hd; by apply (keeps_puts_word _port); auto).
  unfold DllMain_attach, query_value. auto 80 with respects.
Qed.

Lemma keeps_cancel_waiting q : keeps (cancel_waiting q).
Proof.
  assert (H : ∀ l, keeps (puts hash_start l)) by (intros; by apply keeps_const).
  induction q; cbn [cancel_waiting]; auto 20 with respects.
Qed.

Lemma getfirst_app_shrinks d i d' :
  getfirst_app d = (Done i, d') → i = 0 ∨ S (length (w_apps d')) = length (w_apps d).
Proof.
  unfold getfirst_app. erewrite bind_done by reflexivity. cbv beta.
  change (fget registered_apps d) with (w_apps d). destruct (w_apps d) as [|e l]; [intros [= <- <-]; auto|].
  erewrite bind_done by reflexivity. cbv beta. intros (u & d1 & H1 & [= <- <-])%bind_Done_inv.
  right. destruct (ap_data e) as [a|]; simpl in H1; [|by injection H1 as _ <-].
  unfold global_free, gets, mbind, M_bind in H1. simpl in H1.
  destruct (w_blocks d !! a); [by injection H1 as _ <-|done].
Qed.

Lemma keeps_getfirst_loop fuel d :
  dll_ok d → (length (w_apps d) ≤ fuel)%nat →
  (getfirst_loop fuel d).1 ≠ Faulted Diverged ∧ dll_ok (getfirst_loop fuel d).2 ∧
  sent_more d (getfirst_loop fuel d).2.
Proof.
  revert d. induction fuel as [|fuel IH]; intros d Hd Hf; cbn [getfirst_loop];
    unfold mbind, M_bind; destruct (keeps_getfirst_app d Hd) as (H1 & H2 & H3);
    destruct (getfirst_app d) as [[i|f|c] d1] eqn:E; cbn in *; try (by split_and!; congruence).
  - apply getfirst_app_shrinks in E as [->|E]; [by split_and!|lia].
  - case_decide; [by split_and!|]. apply getfirst_app_shrinks in E as [?|E]; [done|].
    destruct (IH d1 H2) as (H4 & H5 & H6); [lia|]. split_and!; [done..|]. by etrans.
Qed.

Lemma keeps_DllMain_detach : keeps DllMain_detach.
Proof.
  assert (H : keeps release_list).
  { intros d Hd. unfold release_list. by apply keeps_getfirst_loop. }
  pose proof keeps_cancel_waiting. unfold DllMain_detach. auto 20 with respects.
Qed.
End invariant.
