(* ===== verification/WClientSteps.v ===== *)
(** * The Windows client: callers, the receiver thread and the server at once

    The threads of capi2032.dll step by step.  The list of outstanding requests is on
    the heap here, and a thread does in one step what no other thread can observe half
    done: one access to a variable that is not protected ([++msg_id] is a read and a
    write; [queue=hash_start] of addToHash and removeFromHash comes before
    EnterCriticalSection; [*answer] is stored and tested without a lock), one critical
    section - another section waits for it, and what is read outside, [hash_start], is
    written once in it -, one [send] or one [recv].  [recv] returns a part of the
    stream of answers, which may be several or half of one.  [perform] does a step,
    and says which are not possible; the choices of malloc, send, recv, of the server
    and of the scheduler are in the [event]s. *)
From stdpp Require Import gmap.
From S2P Require Import Prelude CMem Protocol Net Win32 WClient WClientSpec.
#[local] Open Scope Z_scope.

Abbreviation node_ptr := (option positive).

(** [struct evlhash] on the heap. *)
Record evl_node := mkNode { nd_evl : evlhash; nd_next : node_ptr }.

Record shared := mkShared {
  sh_msg_id : Z;
  sh_hash_start : node_ptr;
  sh_nodes : gmap positive evl_node;       (**r the heap: nodes by address *)
  sh_answers : gmap Z answer_ptr;          (**r the variables [answer] of the calls, by address *)
}.
Definition th_msg_id : field shared Z := mkField sh_msg_id (λ v s,
  mkShared v (sh_hash_start s) (sh_nodes s) (sh_answers s)).
Definition th_hash_start : field shared node_ptr := mkField sh_hash_start (λ v s,
  mkShared (sh_msg_id s) v (sh_nodes s) (sh_answers s)).
Definition th_nodes : field shared (gmap positive evl_node) := mkField sh_nodes (λ v s,
  mkShared (sh_msg_id s) (sh_hash_start s) v (sh_answers s)).
Definition th_answers : field shared (gmap Z answer_ptr) := mkField sh_answers (λ v s,
  mkShared (sh_msg_id s) (sh_hash_start s) (sh_nodes s) v).

(** ** The critical sections *)
(** [*p] *)
Definition deref (p : node_ptr) : M shared (positive * evl_node) :=
  a ← try NullDeref p;
  h ← gets th_nodes;
  n ← try Dangling (h !! a);
  mret (a, n).

(** [while(queue->next) queue=queue->next;]  A list that does not come to an end within
    the nodes there are is a circle. *)
Fixpoint last_node (fuel : nat) (queue : node_ptr) : M shared (positive * evl_node) :=
  '(a, n) ← deref queue;
  match nd_next n with
  | None => mret (a, n)
  | next => match fuel with O => fail Diverged | S fuel' => last_node fuel' next end
  end.

(** addToHash between EnterCriticalSection and LeaveCriticalSection; [queue] is what
    [hash_start] was before, [new] what malloc returns. *)
Definition add_section (new : node_ptr) (_msgId _data : Z) (queue : node_ptr) : M shared unit :=
  (match queue with
   | Some _ =>
       h ← gets th_nodes;
       '(a, n) ← last_node (size h) queue;
       modify th_nodes <[a := mkNode (nd_evl n) new]>
   | None => puts th_hash_start new
   end);;
  match new with
  | Some a => modify th_nodes <[a := mkNode (mkEvl _msgId _data) None]>
  | None => mret tt
  end.

Fixpoint remove_loop (fuel : nat) (_msgId : Z) (prev queue : node_ptr) : M shared unit :=
  match queue with
  | None => mret tt
  | Some _ =>
      '(a, n) ← deref queue;
      if ev_msgId (nd_evl n) =? _msgId then
        (match prev with
         | Some _ => '(b, m) ← deref prev; modify th_nodes <[b := mkNode (nd_evl m) (nd_next n)]>
         | None => puts th_hash_start (nd_next n)
         end);;
        modify th_nodes (delete a)
      else
        match fuel with O => fail Diverged | S fuel' => remove_loop fuel' _msgId queue (nd_next n) end
  end.
Definition remove_section (_msgId : Z) (queue : node_ptr) : M shared unit :=
  h ← gets th_nodes; remove_loop (S (size h)) _msgId None queue.

Fixpoint find_loop (fuel : nat) (_msgId : Z) (queue : node_ptr) : M shared (option Z) :=
  match queue with
  | None => mret None
  | Some _ =>
      '(_, n) ← deref queue;
      if ev_msgId (nd_evl n) =? _msgId then mret (Some (ev_data (nd_evl n)))
      else match fuel with O => fail Diverged | S fuel' => find_loop fuel' _msgId (nd_next n) end
  end.
(** getDataPtrFromMsgId, which reads [hash_start] inside. *)
Definition find_section (_msgId : Z) : M shared (option Z) :=
  queue ← gets th_hash_start; h ← gets th_nodes; find_loop (S (size h)) _msgId queue.

(** ** Threads *)
(** Where a thread is that makes a call, with its local variables. *)
Inductive caller :=
  | AtRead                                  (**r [UINT id=++msg_id]: reads *)
  | AtWrite (v : Z)                         (**r writes *)
  | AtClear (id : Z)                        (**r [*answer=NULL] *)
  | AtQueue (id : Z)                        (**r addToHash: [queue=hash_start] *)
  | AtAdd (id : Z) (queue : node_ptr)       (**r its critical section *)
  | AtSend (id : Z)                         (**r sendRequest *)
  | AtWait (id : Z).                        (**r [while( *answer==NULL)] *)

(** Where the receiver thread is; [msg] is the buffer. *)
Inductive receiver_at :=
  | AtRecv
  | AtLookup (msg : list byte)                                              (**r getDataPtrFromMsgId *)
  | AtCopy (msg : list byte) (id : Z) (data : option Z)                     (**r removeFromHash: [queue=hash_start] *)
  | AtRemove (msg : list byte) (id : Z) (data : option Z) (queue : node_ptr)   (**r its critical section *)
  | AtStore (msg : list byte) (data : option Z)                             (**r [*data=msg] *)
  | Ended.

Record world := mkWorld {
  w_shared : shared;
  w_callers : gmap Z caller;               (**r the calls that run, by the address of [answer] *)
  w_thread : receiver_at;
  w_requests : list Z;                     (**r the ids of requests the server has to answer *)
  w_stream : list (list byte);             (**r the answers on their way *)
  w_results : list (Z * Z * answer_ptr);   (**r the calls that have returned *)
  w_fault : option fault;                  (**r undefined behaviour has occurred *)
}.

(** What [send] does with a request. *)
Inductive sending := SentWhole | SentPart | SendFailed.

Inductive event :=
  | Start (a : Z)                                         (**r an exported function is called *)
  | Call (a : Z) (new : node_ptr) (sent : sending)        (**r a step of the call at [a] *)
  | Receive (n : nat)                                     (**r a step of the receiver thread *)
  | Stop                                                  (**r recv or malloc fail *)
  | Answer (k : nat) (seg : list byte).                   (**r the server answers its request [k] *)

(** ** Steps *)
Definition at_fault (f : fault) (w : world) : world :=
  mkWorld (w_shared w) (w_callers w) (w_thread w) (w_requests w) (w_stream w) (w_results w) (Some f).

(** The call at [a] has got to [c]. *)
Definition call_at (a : Z) (c : caller) (s : shared) (w : world) : world :=
  mkWorld s (<[a := c]> (w_callers w)) (w_thread w) (w_requests w) (w_stream w) (w_results w) (w_fault w).

(** The function returns; its variables are gone. *)
Definition returning (a id : Z) (p : answer_ptr) (w : world) : world :=
  let s := w_shared w in
  mkWorld (fset th_answers (delete a (sh_answers s)) s) (delete a (w_callers w)) (w_thread w) (w_requests w)
    (w_stream w) (w_results w ++ [(a, id, p)]) (w_fault w).

Definition requested (id : Z) (w : world) : world :=
  mkWorld (w_shared w) (w_callers w) (w_thread w) (w_requests w ++ [id]) (w_stream w) (w_results w) (w_fault w).

Definition thread_at (r : receiver_at) (s : shared) (w : world) : world :=
  mkWorld s (w_callers w) r (w_requests w) (w_stream w) (w_results w) (w_fault w).

(** What malloc may return: no node that is there. *)
Definition unused (new : node_ptr) (s : shared) : bool :=
  match new with Some a => bool_decide (sh_nodes s !! a = None) | None => true end.

Definition call_step (a : Z) (new : node_ptr) (sent : sending) (c : caller) (w : world) : option world :=
  let s := w_shared w in
  match c with
  | AtRead => Some (call_at a (AtWrite (sh_msg_id s)) s w)
  | AtWrite v => Some (call_at a (AtClear (u32 (v + 1))) (fset th_msg_id (u32 (v + 1)) s) w)
  | AtClear id => Some (call_at a (AtQueue id) (fset th_answers (<[a := Null]> (sh_answers s)) s) w)
  | AtQueue id => Some (call_at a (AtAdd id (sh_hash_start s)) s w)
  | AtAdd id queue =>
      if unused new s then
        match add_section new id a queue s with
        | (Done _, s) => Some (call_at a (AtSend id) s w)
        | (Faulted f, _) => Some (at_fault f w)
        | (Exited _, _) => None
        end
      else None
  | AtSend id =>
      match sent with
      | SentWhole => Some (requested id (call_at a (AtWait id) s w))
      | SentPart => Some (call_at a (AtWait id) s w)
      | SendFailed => Some (returning a id ILLEGAL_ANSWER w)
      end
  | AtWait id =>
      match sh_answers s !! a with
      | None | Some Null => None
      | Some p => Some (returning a id p w)
      end
  end.

(** The stream without its first [n] bytes. *)
Fixpoint stream_drop (n : nat) (st : list (list byte)) : list (list byte) :=
  match st with
  | [] => []
  | seg :: st =>
      if (n <? length seg)%nat then drop n seg :: st else stream_drop (n - length seg) st
  end.

Definition receiver_step (n : nat) (w : world) : option world :=
  let s := w_shared w in
  match w_thread w with
  | AtRecv =>
      let stream := mjoin (w_stream w) in
      if decide (0 < Z.of_nat n ≤ _MSG_BUFFER ∧ (n ≤ length stream)%nat) then
        Some (mkWorld s (w_callers w)
                (if decide (Z.of_nat n < sizeof_ANSWER_HEADER) then AtRecv else AtLookup (received_in (take n stream)))
                (w_requests w) (stream_drop n (w_stream w)) (w_results w) (w_fault w))
      else None
  | AtLookup msg =>
      id ← get_u32 msg AH.message_id;
      match find_section id s with
      | (Done data, _) => Some (thread_at (AtCopy msg id data) s w)
      | (Faulted f, _) => Some (at_fault f w)
      | (Exited _, _) => None
      end
  | AtCopy msg id data => Some (thread_at (AtRemove msg id data (sh_hash_start s)) s w)
  | AtRemove msg id data queue =>
      match remove_section id queue s with
      | (Done _, s) => Some (thread_at (AtStore msg data) s w)
      | (Faulted f, _) => Some (at_fault f w)
      | (Exited _, _) => None
      end
  | AtStore msg data =>
      match data with
      | None => Some (at_fault NullDeref w)
      | Some a =>
          match sh_answers s !! a with
          | None => Some (at_fault Dangling w)
          | Some _ => Some (thread_at AtRecv (fset th_answers (<[a := Message msg]> (sh_answers s)) s) w)
          end
      end
  | Ended => None
  end.

Definition perform (e : event) (w : world) : option world :=
  match w_fault w with
  | Some _ => None
  | None =>
      match e with
      | Start a =>
          match w_callers w !! a with
          | Some _ => None
          | None => Some (call_at a AtRead (w_shared w) w)
          end
      | Call a new sent => c ← w_callers w !! a; call_step a new sent c w
      | Receive n => receiver_step n w
      | Stop =>
          match w_thread w with
          | AtRecv => Some (thread_at Ended (w_shared w) w)
          | _ => None
          end
      | Answer k seg =>
          id ← w_requests w !! k;
          if decide (get_u32 seg AH.message_id = Some id ∧ sizeof_ANSWER_HEADER ≤ blen seg ≤ _MSG_BUFFER) then
            Some (mkWorld (w_shared w) (w_callers w) (w_thread w) (delete k (w_requests w)) (w_stream w ++ [seg])
                    (w_results w) (w_fault w))
          else None
      end
  end.

Fixpoint perform_all (es : list event) (w : world) : option world :=
  match es with
  | [] => Some w
  | e :: es => w' ← perform e w; perform_all es w'
  end.

(** Each of the events meets [P] in the state in which it occurs. *)
Fixpoint along (P : event → world → Prop) (es : list event) (w : world) : Prop :=
  match es with
  | [] => True
  | e :: es => P e w ∧ match perform e w with Some w' => along P es w' | None => True end
  end.

(** After loading. *)
Definition loaded (msg_id : Z) : world := mkWorld (mkShared msg_id None ∅ ∅) ∅ AtRecv [] [] [] None.

(** ** What the code relies on *)
(** Nobody has written [msg_id] or [hash_start] since a thread that is about to use its
    copy has read it. *)
Definition undisturbed (e : event) (w : world) : Prop :=
  match e with
  | Call a _ _ =>
      match w_callers w !! a with
      | Some (AtWrite v) => v = sh_msg_id (w_shared w)
      | Some (AtAdd _ queue) => queue = sh_hash_start (w_shared w)
      | _ => True
      end
  | Receive _ =>
      match w_thread w with
      | AtRemove _ _ _ queue => queue = sh_hash_start (w_shared w)
      | _ => True
      end
  | _ => True
  end.

(** malloc succeeds, the counter of messages does not overflow, and recv
    returns one answer. *)
Definition lucky (e : event) (w : world) : Prop :=
  match e with
  | Call a new _ =>
      match w_callers w !! a with
      | Some (AtWrite v) => v + 1 < 2 ^ 32
      | Some (AtAdd _ _) => is_Some new
      | _ => True
      end
  | Receive n =>
      match w_thread w with
      | AtRecv => Some n = (length <$> head (w_stream w))
      | _ => True
      end
  | _ => True
  end.

(** A call starts when no other runs. *)
Definition one_at_a_time (e : event) (w : world) : Prop :=
  match e with Start _ => w_callers w = ∅ | _ => True end.

(** A request that is sent is sent whole, and the receiver thread does not end. *)
Definition gets_through (e : event) : Prop :=
  match e with
  | Stop => False
  | Call _ _ sent => sent ≠ SentPart
  | Start _ | Receive _ | Answer _ _ => True
  end.
Definition no_start (e : event) : Prop := match e with Start _ => False | _ => True end.

(** ** The list on the heap

    [chain h p l]: from [p] on the heap holds the nodes [l], by address and contents. *)
Fixpoint chain (h : gmap positive evl_node) (p : node_ptr) (l : list (positive * evlhash)) : Prop :=
  match l with
  | [] => p = None
  | (a, e) :: l' => p = Some a ∧ ∃ n, h !! a = Some (mkNode e n) ∧ chain h n l'
  end.

(** The heap holds the list. *)
Record list_at (s : shared) (l : list (positive * evlhash)) : Prop := mkListAt {
  la_chain : chain (sh_nodes s) (sh_hash_start s) l;
  la_addresses : NoDup l.*1;
}.

Lemma evl_chain_frame h h' p l :
  chain h p l → (∀ a, a ∈ l.*1 → h' !! a = h !! a) → chain h' p l.
Proof.
  revert p. induction l as [|[a e] l IH]; intros p; [done|]. cbn.
  intros (-> & n & Ha & Hc) Hh. split; [done|]. exists n.
  rewrite Hh by left. split; [done|]. apply IH; [done|]. intros b Hb. apply Hh. by right.
Qed.

Lemma chain_nodes h p l a : chain h p l → a ∈ l.*1 → is_Some (h !! a).
Proof.
  revert p. induction l as [|[b e] l IH]; intros p; cbn; [by intros _ ?%elem_of_nil|].
  intros (_ & n & Hb & Hc) [->|Ha]%elem_of_cons; [by eexists|]. by eapply IH.
Qed.

Lemma chain_fuel h p l : chain h p l → NoDup l.*1 → (length l ≤ size h)%nat.
Proof.
  intros Hc Hnd. rewrite <- (length_fmap fst), <- size_dom, <- (size_list_to_set (C:=gset positive)) by done.
  apply subseteq_size. intros a Ha%elem_of_list_to_set. apply elem_of_dom. by eapply chain_nodes.
Qed.

Lemma addresses_inj (l : list (positive * evlhash)) a e f :
  NoDup l.*1 → (a, e) ∈ l → (a, f) ∈ l → e = f.
Proof.
  intros Hnd He Hf. apply (elem_of_list_to_map_1 (M:=gmap positive)) in He, Hf; [congruence|done..].
Qed.

Lemma deref_run s a n : sh_nodes s !! a = Some n → deref (Some a) s = (Done (a, n), s).
Proof. intros Ha. unfold deref, mbind, M_bind. simpl. by rewrite Ha. Qed.

(** The last node is found, and can be redirected. *)
Lemma chain_last l : ∀ fuel p s x e,
  chain (sh_nodes s) p (l ++ [(x, e)]) → (length l ≤ fuel)%nat →
  last_node fuel p s = (Done (x, mkNode e None), s).
Proof.
  induction l as [|[b i] l IH]; intros fuel p s x e; cbn.
  - intros (-> & n & Hx & ->) _. destruct fuel; cbn [last_node]; by erewrite bind_done by (by apply deref_run).
  - intros (-> & n & Hb & Hc) Hl. destruct fuel as [|fuel]; [lia|]. cbn [last_node].
    erewrite bind_done by (by apply deref_run). cbn [nd_next].
    destruct n as [c|]; [|by destruct l as [|[]]; cbn in Hc; naive_solver].
    apply IH; [done|lia].
Qed.

Lemma chain_append h h' l : ∀ p x e y f,
  chain h p (l ++ [(x, e)]) → NoDup (l ++ [(x, e)]).*1 →
  h' !! x = Some (mkNode e (Some y)) → h' !! y = Some (mkNode f None) →
  (∀ a, a ∈ l.*1 → h' !! a = h !! a) → chain h' p ((l ++ [(x, e)]) ++ [(y, f)]).
Proof.
  induction l as [|[b i] l IH]; intros p x e y f; cbn.
  - intros (-> & n & Hx & ->) _ Hx' Hy _. split; [done|]. exists (Some y). split; [done|]. split; [done|].
    by exists None.
  - intros (-> & n & Hb & Hc) [Hnb Hnd]%NoDup_cons Hx Hy Hh. split; [done|]. exists n.
    rewrite Hh by left. split; [done|]. apply (IH n x e y f); try done. intros a Ha. apply Hh. by right.
Qed.

(** With the current [hash_start] the critical section of addToHash does to the list
    what [WClient.addToHash] does. *)
Lemma add_section_run s l x id a :
  list_at s l → sh_nodes s !! x = None →
  ∃ s', add_section (Some x) id a (sh_hash_start s) s = (Done tt, s') ∧
    list_at s' (l ++ [(x, mkEvl id a)]) ∧ sh_msg_id s' = sh_msg_id s ∧ sh_answers s' = sh_answers s.
Proof.
  intros [Hc Hnd] Hx.
  assert (Hnew : x ∉ l.*1) by (intros Hin; destruct (chain_nodes _ _ _ _ Hc Hin); congruence).
  assert (Hnd' : NoDup (l ++ [(x, mkEvl id a)]).*1).
  { rewrite fmap_app. apply NoDup_app. split_and!; [done| |apply NoDup_singleton].
    intros y Hy Hin. apply list_elem_of_singleton in Hin as ->. done. }
  unfold add_section. destruct l as [|[b i] l _] using rev_ind.
  - cbn in Hc. rewrite Hc. eexists. split; [reflexivity|]. split; [split; [|done]|done]. cbn.
    split; [done|]. exists None. by rewrite lookup_insert_eq.
  - assert (Hs : is_Some (sh_hash_start s)) by (destruct l as [|[]]; cbn in Hc; destruct Hc as [-> _]; by eexists).
    destruct Hs as [c Hs]. pose proof Hc as Hc'. rewrite Hs in *. rewrite bind_assoc. erewrite bind_done by done. cbv beta. rewrite bind_assoc.
    erewrite bind_done.
    2:{ eapply (chain_last l); [exact Hc|]. pose proof (chain_fuel _ _ _ Hc Hnd) as Hf. rewrite length_app in Hf.
        cbn in *. lia. }
    cbv beta iota. eexists. split; [reflexivity|].
    rewrite fmap_app in Hnew. cbn in Hnew.
    assert (b ≠ x) by (intros ->; apply Hnew; set_solver).
    split; [split; [|done]|done]. cbn [sh_hash_start sh_nodes fset th_nodes fget].
    cbn. rewrite Hs. eapply chain_append; [exact Hc|exact Hnd|..].
    + by rewrite lookup_insert_ne, lookup_insert_eq.
    + by rewrite lookup_insert_eq.
    + intros y Hy. rewrite !lookup_insert_ne; [done| |].
      * intros <-. rewrite fmap_app in Hnd. apply NoDup_app in Hnd as (_ & Hd & _). apply (Hd b); [done|left].
      * intros <-. apply Hnew. set_solver.
Qed.

(** The list without the first entry with the id. *)
Fixpoint without (id : Z) (l : list (positive * evlhash)) : list (positive * evlhash) :=
  match l with
  | [] => []
  | (a, e) :: l => if ev_msgId e =? id then l else (a, e) :: without id l
  end.

Lemma without_hash_remove id l : (without id l).*2 = hash_remove id l.*2.
Proof.
  induction l as [|[a e] l IH]; cbn; [done|]. destruct (Z.eqb_spec (ev_msgId e) id).
  - by rewrite decide_True.
  - rewrite decide_False by done. cbn. by rewrite IH.
Qed.

Lemma without_sublist id l : without id l `sublist_of` l.
Proof.
  induction l as [|[a e] l IH]; cbn; [done|]. destruct (_ =? _); [by constructor|by constructor].
Qed.

Definition last_address (l : list (positive * evlhash)) : node_ptr := fst <$> last l.

(** A part of the list, the rest is entered at [q]. *)
Lemma chain_cut h l1 : ∀ p l2, chain h p (l1 ++ l2) → ∃ q, chain h q l2 ∧ (l1 = [] → q = p) ∧
  ∀ b, last_address l1 = Some b → ∃ e, (b, e) ∈ l1 ∧ h !! b = Some (mkNode e q).
Proof.
  induction l1 as [|[a e] l1 IH]; intros p l2; cbn.
  - intros Hc. exists p. by split_and!.
  - intros (-> & n & Ha & Hc). destruct (IH n l2 Hc) as (q & Hq & Hn & Hb). exists q. split; [done|]. split; [done|].
    unfold last_address in *. destruct l1 as [|y l1].
    + intros b [= <-]. exists e. rewrite (Hn eq_refl) in *. split; [by left|done].
    + intros b Hl. destruct (Hb b Hl) as (e' & ? & ?). exists e'. split; [by right|done].
Qed.

(** Unlinking: the node before gets the rest. *)
Lemma chain_unlink h h' l1 : ∀ p a e l2 q,
  chain h p (l1 ++ (a, e) :: l2) → NoDup (l1 ++ (a, e) :: l2).*1 → chain h q l2 →
  h !! a = Some (mkNode e q) →
  (∀ b i, last l1 = Some (b, i) → h' !! b = Some (mkNode i q)) →
  (∀ c, c ∈ (l1 ++ l2).*1 → Some c ≠ last_address l1 → h' !! c = h !! c) →
  chain h' (match l1 with [] => q | _ => p end) (l1 ++ l2).
Proof.
  induction l1 as [|[b i] l1 IH]; intros p a e l2 q; cbn.
  - intros _ _ Hq _ _ Hh. eapply evl_chain_frame; [exact Hq|]. intros c Hc. by apply Hh.
  - intros (-> & n & Hb & Hc) [Hnb Hnd]%NoDup_cons Hq Ha Hlast Hh. split; [done|].
    destruct l1 as [|y l1].
    + exists q. split; [by apply Hlast|]. eapply evl_chain_frame; [exact Hq|]. intros c Hc'. apply Hh; [by right|].
      intros [= ->]. apply Hnb. cbn. by right.
    + exists n. split.
      * rewrite Hh; [done|by left|]. intros E. apply Hnb. unfold last_address in E.
        change (last ((b, i) :: y :: l1)) with (last (y :: l1)) in E.
        destruct (last (y :: l1)) as [[c j]|] eqn:El; [|done]. injection E as ->.
        rewrite fmap_app. apply elem_of_app. left. apply (list_elem_of_fmap_2 fst _ (c, j)).
        by apply last_Some_elem_of.
      * apply (IH n a e l2 q Hc Hnd Hq Ha); [done|]. intros c Hc' Hne. apply Hh; [by right|done].
Qed.

Lemma chain_head h p a e l : chain h p ((a, e) :: l) → p = Some a.
Proof. by intros [-> _]. Qed.

Lemma remove_loop_run id l2 : ∀ l1 fuel s q,
  list_at s (l1 ++ l2) → chain (sh_nodes s) q l2 →
  (∀ b, last_address l1 = Some b → ∃ e, (b, e) ∈ l1 ∧ sh_nodes s !! b = Some (mkNode e q)) →
  (l1 = [] → q = sh_hash_start s) →
  (∀ b, b ∈ l1.*2 → ev_msgId b ≠ id) → (length l2 < fuel)%nat →
  ∃ s', remove_loop fuel id (last_address l1) q s = (Done tt, s') ∧ list_at s' (l1 ++ without id l2) ∧
    sh_msg_id s' = sh_msg_id s ∧ sh_answers s' = sh_answers s.
Proof.
  induction l2 as [|[a e] l2 IH]; intros l1 fuel s q Hl Hq Hb Hn Hid Hf; cbn [without].
  - cbn in Hq. subst q. exists s. split; [by destruct fuel|done].
  - destruct Hl as [Hc Hnd]. pose proof Hq as (-> & n & Ha & Hq2). destruct fuel as [|fuel]; [cbn in Hf; lia|]. cbn [remove_loop].
    erewrite bind_done by (by apply deref_run). cbn [nd_evl nd_next]. destruct (Z.eqb_spec (ev_msgId e) id) as [He|He].
    + assert (Hna : a ∉ (l1 ++ l2).*1).
      { rewrite fmap_app, fmap_cons in Hnd. cbn in Hnd. apply NoDup_app in Hnd as (_ & H1 & H2).
        apply NoDup_cons in H2 as [H2 _]. rewrite fmap_app. intros [?|?]%elem_of_app; [|done].
        apply (H1 a); [done|by left]. }
      assert (Hnd' : NoDup (l1 ++ l2).*1).
      { eapply sublist_NoDup; [exact Hnd|]. apply fmap_sublist, sublist_app; [done|by constructor]. }
      destruct l1 as [|y l1].
      * cbn [last_address last fmap option_fmap option_map]. erewrite bind_done by done. cbv beta.
        eexists. split; [reflexivity|]. split; [|done]. split; [|done].
        apply (evl_chain_frame (sh_nodes s)); [exact Hq2|]. intros c Hc'. cbn. apply lookup_delete_ne. by intros ->.
      * assert (Hlast : ∃ b, last_address (y :: l1) = Some b).
        { unfold last_address. destruct (last (y :: l1)) eqn:El; [by eexists|]. by apply last_None in El. }
        destruct Hlast as [b Hlb]. destruct (Hb b Hlb) as (i & Hbi & Hbs). rewrite Hlb.
        rewrite (bind_done _ _ _ tt (fset th_nodes (<[b := mkNode i n]> (sh_nodes s)) s)).
        2:{ rewrite (bind_done _ _ _ _ _ (deref_run _ _ _ Hbs)). reflexivity. }
        eexists. split; [reflexivity|]. split; [|done].
        assert (Hba : b ≠ a).
        { intros ->. apply Hna. rewrite fmap_app. apply elem_of_app. left. exact (list_elem_of_fmap_2 fst _ _ Hbi). }
        split; [|done]. cbn. eapply (chain_unlink _ _ (y :: l1)); [exact Hc|exact Hnd|exact Hq2|exact Ha| |].
        -- intros b' i' El. unfold last_address in Hlb. rewrite El in Hlb. injection Hlb as ->.
           rewrite lookup_delete_ne, lookup_insert_eq by done. f_equal. f_equal.
           apply last_Some_elem_of in El.
           rewrite fmap_app in Hnd. apply NoDup_app in Hnd as (Hnd1 & _).
           exact (addresses_inj (y :: l1) b i i' Hnd1 Hbi El).
        -- intros c Hc' Hne. rewrite lookup_delete_ne by (by intros ->). rewrite lookup_insert_ne; [done|].
           intros ->. by apply Hne.
    + replace (Some a) with (last_address (l1 ++ [(a, e)])) by (unfold last_address; by rewrite last_snoc).
      destruct (IH (l1 ++ [(a, e)]) fuel s n) as (s' & E & Hl' & ?).
      * rewrite <- (assoc_L (++)). by split.
      * exact Hq2.
      * intros b. unfold last_address. rewrite last_snoc. intros [= <-]. exists e. split; [set_solver|done].
      * intros E. by destruct l1.
      * intros b'. rewrite fmap_app. intros [?|Hb'%list_elem_of_singleton]%elem_of_app; [by apply Hid|by subst b'].
      * cbn in Hf. lia.
      * exists s'. split; [exact E|]. rewrite <- (assoc_L (++)) in Hl'. done.
Qed.

(** So does that of removeFromHash. *)
Lemma remove_section_run s l id :
  list_at s l →
  ∃ s', remove_section id (sh_hash_start s) s = (Done tt, s') ∧ list_at s' (without id l) ∧
    sh_msg_id s' = sh_msg_id s ∧ sh_answers s' = sh_answers s.
Proof.
  intros Hl. unfold remove_section. erewrite bind_done by done. cbv beta.
  apply (remove_loop_run id l []); [done|apply Hl|done|done|by intros ? ?%elem_of_nil|].
  pose proof (chain_fuel _ _ _ (la_chain _ _ Hl) (la_addresses _ _ Hl)). cbn. lia.
Qed.

Lemma find_loop_run id l : ∀ fuel s p, chain (sh_nodes s) p l → (length l < fuel)%nat →
  find_loop fuel id p s = (Done (hash_find id l.*2), s).
Proof.
  induction l as [|[a e] l IH]; intros fuel s p; cbn.
  - intros -> _. by destruct fuel.
  - intros (-> & n & Ha & Hc) Hf. destruct fuel as [|fuel]; [lia|]. cbn [find_loop].
    erewrite bind_done by (by apply deref_run). cbn [nd_evl nd_next]. destruct (Z.eqb_spec (ev_msgId e) id).
    + by rewrite decide_True.
    + rewrite decide_False by done. apply IH; [done|lia].
Qed.

Lemma find_section_run s l id : list_at s l → find_section id s = (Done (hash_find id l.*2), s).
Proof.
  intros [Hc Hnd]. unfold find_section. do 2 (erewrite bind_done by done; cbv beta). apply find_loop_run; [done|].
  pose proof (chain_fuel _ _ _ Hc Hnd). cbn. lia.
Qed.

(** ** The invariant *)
Definition seg_id (seg : list byte) : option Z := get_u32 seg AH.message_id.

(** The ids of the requests that are on their way: at the server, in the stream, with the
    receiver thread. *)
Definition in_hands (r : receiver_at) : list (option Z) :=
  match r with
  | AtLookup msg | AtStore msg _ => [seg_id msg]
  | AtCopy _ id _ | AtRemove _ id _ _ => [Some id]
  | AtRecv | Ended => []
  end.
Definition outstanding (w : world) : list (option Z) :=
  (Some <$> w_requests w) ++ (seg_id <$> w_stream w) ++ in_hands (w_thread w).

Definition id_of (c : caller) : option Z :=
  match c with
  | AtRead | AtWrite _ => None
  | AtClear id | AtQueue id | AtAdd id _ | AtSend id | AtWait id => Some id
  end.

Abbreviation answer_at w a := (sh_answers (w_shared w) !! a).

(** What holds for a call, with [q] the contents of the list. *)
Definition call_ok (w : world) (q : list evlhash) (a : Z) (c : caller) : Prop :=
  match c with
  | AtRead | AtWrite _ => True
  | AtClear id => hash_find id q = None
  | AtQueue id | AtAdd id _ => hash_find id q = None ∧ answer_at w a = Some Null
  | AtSend id => hash_find id q = Some a ∧ answer_at w a = Some Null
  | AtWait id =>
      (answer_at w a = Some Null ∧
        (hash_find id q = Some a ∨ ∃ msg, w_thread w = AtStore msg (Some a) ∧ seg_id msg = Some id)) ∨
      ∃ msg, answer_at w a = Some (Message msg) ∧ seg_id msg = Some id
  end.

Definition thread_ok (w : world) : Prop :=
  match w_thread w with
  | AtCopy msg id data | AtRemove msg id data _ =>
      seg_id msg = Some id ∧ ∃ a, data = Some a ∧ w_callers w !! a = Some (AtWait id)
  | AtStore msg data => ∃ a id, data = Some a ∧ seg_id msg = Some id ∧ w_callers w !! a = Some (AtWait id)
  | _ => True
  end.

Record winv (w : world) : Prop := {
  wi_fault : w_fault w = None;
  wi_list : ∃ l, list_at (w_shared w) l ∧ Forall (λ e, ev_msgId e ≤ sh_msg_id (w_shared w)) l.*2 ∧
    ∀ a c, w_callers w !! a = Some c → call_ok w l.*2 a c;
  wi_thread : thread_ok w;
  wi_out : NoDup (outstanding w);
  wi_owner : ∀ o, o ∈ outstanding w →
    ∃ a id, o = Some id ∧ w_callers w !! a = Some (AtWait id) ∧ answer_at w a = Some Null;
  wi_old : ∀ a c id, w_callers w !! a = Some c → id_of c = Some id → 0 ≤ id ≤ sh_msg_id (w_shared w);
  wi_inj : ∀ a1 a2 c1 c2 id, w_callers w !! a1 = Some c1 → w_callers w !! a2 = Some c2 →
    id_of c1 = Some id → id_of c2 = Some id → a1 = a2;
  wi_segments : Forall (λ seg, sizeof_ANSWER_HEADER ≤ blen seg ≤ _MSG_BUFFER) (w_stream w);
  wi_msg_id : 0 ≤ sh_msg_id (w_shared w) < 2 ^ 32;
  wi_results : ∀ a id msg, (a, id, Message msg) ∈ w_results w → seg_id msg = Some id;
}.

(** Nobody waits for the id of a call that does not wait. *)
Lemma not_outstanding w a c id :
  winv w → w_callers w !! a = Some c → id_of c = Some id → (∀ i, c ≠ AtWait i) → Some id ∉ outstanding w.
Proof.
  intros Hw Hc Hid Hn Ho. destruct (wi_owner w Hw _ Ho) as (a' & id' & [= <-] & Hc' & _).
  assert (a' = a) as -> by by eapply (wi_inj w Hw a' a _ c id). rewrite Hc in Hc'. injection Hc' as ->. by apply (Hn id).
Qed.

Lemma winv_call_at w a c' s' l l' :
  winv w → list_at (w_shared w) l → (∀ b c, w_callers w !! b = Some c → call_ok w l.*2 b c) →
  (∀ id, w_callers w !! a ≠ Some (AtWait id)) →
  list_at s' l' → Forall (λ e, ev_msgId e ≤ sh_msg_id s') l'.*2 →
  (∀ b, b ≠ a → sh_answers s' !! b = answer_at w b) →
  sh_msg_id (w_shared w) ≤ sh_msg_id s' < 2 ^ 32 →
  (∀ id x, hash_find id l.*2 = Some x → hash_find id l'.*2 = Some x) →
  (∀ id, hash_find id l.*2 = None → id_of c' ≠ Some id → hash_find id l'.*2 = None) →
  call_ok (call_at a c' s' w) l'.*2 a c' →
  (∀ id, id_of c' = Some id → 0 ≤ id ≤ sh_msg_id s' ∧
     ∀ b c, b ≠ a → w_callers w !! b = Some c → id_of c ≠ Some id) →
  winv (call_at a c' s' w).
Proof.
  intros Hw Hl Hcalls Hna Hl' Hb' Hans Hmid Hsome Hnone Hok Hids.
  assert (Hother : ∀ b id, w_callers w !! b = Some (AtWait id) → b ≠ a).
  { intros b id Hb ->. by apply (Hna id). }
  constructor; cbn.
  - apply (wi_fault w Hw).
  - exists l'. split; [done|]. split; [done|]. intros b c [[<- <-]|[Hne Hc]]%lookup_insert_Some; [done|].
    specialize (Hcalls b c Hc).
    assert (Hd : ∀ id, id_of c = Some id → id_of c' ≠ Some id).
    { intros id Hi Hi'. destruct (Hids id Hi') as [_ Hx]. by apply (Hx b c). }
    destruct c; cbn in *; rewrite ?Hans by done; try destruct Hcalls as [H1 H2]; auto.
    destruct Hcalls as [[H1 [H2|H2]]|H]; auto.
  - unfold thread_ok in *. pose proof (wi_thread w Hw) as Ht. unfold thread_ok in Ht. cbn.
    destruct (w_thread w); try done.
    + destruct Ht as (H1 & b & -> & Hb). split; [done|]. exists b. split; [done|]. rewrite lookup_insert_ne; [done|]. apply not_eq_sym. by eapply Hother.
    + destruct Ht as (H1 & b & -> & Hb). split; [done|]. exists b. split; [done|]. rewrite lookup_insert_ne; [done|]. apply not_eq_sym. by eapply Hother.
    + destruct Ht as (b & id & -> & ? & Hb). exists b, id. split_and!; [done..|]. rewrite lookup_insert_ne; [done|]. apply not_eq_sym. by eapply Hother.
  - apply (wi_out w Hw).
  - intros o Ho. destruct (wi_owner w Hw o Ho) as (b & id & -> & Hb & Hs). exists b, id.
    pose proof (Hother b id Hb). rewrite lookup_insert_ne by done. by rewrite Hans.
  - intros b c id [[<- <-]|[Hne Hc]]%lookup_insert_Some Hi; [by apply Hids|].
    pose proof (wi_old w Hw b c id Hc Hi). lia.
  - intros b1 b2 c1 c2 id [[<- <-]|[Hne1 H1]]%lookup_insert_Some [[<- <-]|[Hne2 H2]]%lookup_insert_Some Hi1 Hi2; try done.
    + destruct (Hids id Hi1) as [_ Hx]. exfalso. by apply (Hx b2 c2).
    + destruct (Hids id Hi2) as [_ Hx]. exfalso. by apply (Hx b1 c1).
    + by eapply (wi_inj w Hw b1 b2).
  - apply (wi_segments w Hw).
  - pose proof (wi_msg_id w Hw). lia.
  - apply (wi_results w Hw).
Qed.

(** A step of a call that leaves the list as it is. *)
Lemma winv_caller w a c c' s' :
  winv w → w_callers w !! a = Some c → (∀ id, c ≠ AtWait id) →
  sh_nodes s' = sh_nodes (w_shared w) → sh_hash_start s' = sh_hash_start (w_shared w) →
  sh_msg_id s' = sh_msg_id (w_shared w) → (∀ b, b ≠ a → sh_answers s' !! b = answer_at w b) →
  id_of c' = id_of c →
  (∀ q, call_ok w q a c → call_ok (call_at a c' s' w) q a c') →
  winv (call_at a c' s' w).
Proof.
  intros Hw Hc Hn H1 H2 H3 Ha Hid Hok. destruct (wi_list w Hw) as (l & Hl & Hb & Hcalls).
  eapply winv_call_at; try done.
  - intros id E. rewrite Hc in E. injection E as ->. by apply (Hn id).
  - destruct Hl. by split; rewrite ?H1, ?H2.
  - by rewrite H3.
  - rewrite H3. pose proof (wi_msg_id w Hw). lia.
  - by apply Hok, Hcalls.
  - rewrite Hid. intros id Hi. rewrite H3. split; [by eapply (wi_old w Hw)|]. intros b cb Hne Hb' Hi'.
    apply Hne. by eapply (wi_inj w Hw b a cb c id).
Qed.

(** A call returns: nobody is on the way to its variable. *)
Lemma winv_returning w a c id p :
  winv w → w_callers w !! a = Some c →
  (∀ i, c = AtWait i → answer_at w a ≠ Some Null) → (∀ msg, p = Message msg → seg_id msg = Some id) →
  winv (returning a id p w).
Proof.
  intros Hw Hc Hn Hp. destruct (wi_list w Hw) as (l & Hl & Hb & Hcalls).
  assert (Hother : ∀ b i, w_callers w !! b = Some (AtWait i) → answer_at w b = Some Null → b ≠ a).
  { intros b i Hb' Hs ->. rewrite Hc in Hb'. injection Hb' as ->. by apply (Hn i). }
  pose proof (wi_thread w Hw) as Ht. unfold thread_ok in Ht.
  assert (Hthread : ∀ b i, w_callers w !! b = Some (AtWait i) → Some i ∈ outstanding w → b ≠ a).
  { intros b i Hb' Ho. destruct (wi_owner w Hw _ Ho) as (b' & i' & [= <-] & Hb2 & Hs).
    assert (b = b') as -> by (by eapply (wi_inj w Hw b b' _ _ i)). by eapply Hother. }
  assert (Hin : ∀ o, o ∈ in_hands (w_thread w) → o ∈ outstanding w) by (intros o Ho; unfold outstanding; set_solver).
  constructor; cbn.
  - apply (wi_fault w Hw).
  - exists l. split; [by destruct Hl|]. split; [done|]. intros b cb [Hne Hb']%lookup_delete_Some.
    specialize (Hcalls b cb Hb'). destruct cb; cbn in *; by rewrite ?lookup_delete_ne by done.
  - unfold thread_ok. cbn. destruct (w_thread w) eqn:Et; try done; cbn in Hin.
    + destruct Ht as (H1 & b & -> & Hb'). split; [done|]. exists b. split; [done|]. rewrite lookup_delete_ne; [done|].
      apply not_eq_sym. eapply Hthread; [done|]. apply Hin. by left.
    + destruct Ht as (H1 & b & -> & Hb'). split; [done|]. exists b. split; [done|]. rewrite lookup_delete_ne; [done|].
      apply not_eq_sym. eapply Hthread; [done|]. apply Hin. by left.
    + destruct Ht as (b & i & -> & H1 & Hb'). exists b, i. split_and!; [done..|]. rewrite lookup_delete_ne; [done|].
      apply not_eq_sym. eapply Hthread; [done|]. apply Hin. rewrite H1. by left.
  - apply (wi_out w Hw).
  - intros o Ho. destruct (wi_owner w Hw o Ho) as (b & i & -> & Hb' & Hs). exists b, i.
    assert (a ≠ b) by (apply not_eq_sym; by eapply Hother). by rewrite !lookup_delete_ne.
  - intros b cb i [_ Hb']%lookup_delete_Some. by eapply (wi_old w Hw).
  - intros b1 b2 c1 c2 i [_ H1]%lookup_delete_Some [_ H2]%lookup_delete_Some. by eapply (wi_inj w Hw).
  - apply (wi_segments w Hw).
  - apply (wi_msg_id w Hw).
  - intros b i msg [H|H]%elem_of_app; [by eapply (wi_results w Hw)|].
    apply list_elem_of_singleton in H. injection H as -> -> <-. by apply Hp.
Qed.

Lemma winv_requested w a id :
  winv w → w_callers w !! a = Some (AtWait id) → answer_at w a = Some Null → Some id ∉ outstanding w →
  winv (requested id w).
Proof.
  intros Hw Hc Hs Hn.
  assert (Hp : outstanding (requested id w) ≡ₚ Some id :: outstanding w).
  { unfold outstanding. cbn. rewrite fmap_app. cbn. solve_Permutation. }
  destruct Hw as [Hf Hl Ht Ho Hown Hold Hinj Hseg Hmid Hres]. constructor; try done.
  - rewrite Hp. by constructor.
  - intros o. rewrite Hp. intros [->|Ho']%elem_of_cons; [by exists a, id|by apply Hown].
Qed.

(** The receiver thread goes on, with the same in its hands, or less. *)
Lemma winv_thread_at w r s' l l' :
  winv w → list_at (w_shared w) l → (∀ b c, w_callers w !! b = Some c → call_ok w l.*2 b c) →
  list_at s' l' → l'.*2 `sublist_of` l.*2 → sh_msg_id s' = sh_msg_id (w_shared w) →
  sh_answers s' = sh_answers (w_shared w) →
  (∀ b c, w_callers w !! b = Some c → call_ok w l.*2 b c → call_ok (thread_at r s' w) l'.*2 b c) →
  thread_ok (thread_at r s' w) → in_hands r = in_hands (w_thread w) → winv (thread_at r s' w).
Proof.
  intros Hw Hl Hcalls Hl' Hsub Hm Ha Hok Ht Hin. destruct (wi_list w Hw) as (l0 & Hl0 & Hb & _).
  assert (l0 = l) as ->.
  { destruct Hl as [Hc _], Hl0 as [Hc0 _]. clear -Hc Hc0. revert l0 Hc Hc0. generalize (sh_hash_start (w_shared w)).
    induction l as [|[x e] l IH]; intros p [|[y f] l0]; cbn; [done|by intros -> [? _]|by intros [-> _] ?|].
    intros (-> & n & Hx & Hc) ([= ->] & m & Hy & Hc0). rewrite Hx in Hy. injection Hy as -> ->. f_equal. by apply (IH m). }
  destruct Hw as [Hf _ _ Ho Hown Hold Hinj Hseg Hmid Hres].
  constructor; try done; cbn; rewrite ?Hm, ?Ha; try done.
  - exists l'. split; [done|]. split; [|auto]. rewrite Forall_forall in *.
    intros e He. apply Hb. by eapply elem_of_sublist.
  - unfold outstanding in *. cbn. by rewrite Hin.
  - unfold outstanding in *. cbn. rewrite Hin. exact Hown.
Qed.

Lemma call_ok_thread w r s' q a c :
  sh_answers s' = sh_answers (w_shared w) → (∀ msg b, w_thread w ≠ AtStore msg (Some b)) →
  call_ok w q a c → call_ok (thread_at r s' w) q a c.
Proof.
  intros Ha Hn. destruct c; cbn; rewrite ?Ha; try done.
  intros [[H1 [H2|(msg & H2 & _)]]|H]; [by left; split; [|left]|by destruct (Hn msg a)|by right].
Qed.

Lemma hash_find_remove id id' q : id ≠ id' → hash_find id (hash_remove id' q) = hash_find id q.
Proof.
  intros Hne. induction q as [|e q IH]; simpl; [done|].
  destruct (decide (ev_msgId e = id')) as [He|He]; simpl; destruct (decide (ev_msgId e = id)); congruence.
Qed.

Lemma hash_find_bound n id q :
  Forall (λ e, ev_msgId e ≤ n) q → n < id → hash_find id q = None.
Proof.
  induction 1 as [|e q He _ IH]; intros Hn; simpl; [done|].
  rewrite decide_False by lia. auto.
Qed.

Lemma hash_find_snoc id q e :
  hash_find id (q ++ [e]) =
    match hash_find id q with
    | Some a => Some a
    | None => if decide (ev_msgId e = id) then Some (ev_data e) else None
    end.
Proof. induction q as [|f q IH]; cbn; [done|]. by destruct (decide (ev_msgId f = id)). Qed.

(** ** Every careful step keeps it *)
Definition careful (e : event) (w : world) : Prop := undisturbed e w ∧ lucky e w.

Lemma winv_start a w : winv w → w_callers w !! a = None → winv (call_at a AtRead (w_shared w) w).
Proof.
  intros Hw Ha. destruct (wi_list w Hw) as (l & Hl & Hb & Hcalls).
  eapply winv_call_at; try done; [by intros id; rewrite Ha|]. pose proof (wi_msg_id w Hw). lia.
Qed.

(** [++msg_id] *)
Lemma winv_write a v w :
  winv w → w_callers w !! a = Some (AtWrite v) → v = sh_msg_id (w_shared w) → v + 1 < 2 ^ 32 →
  winv (call_at a (AtClear (u32 (v + 1))) (fset th_msg_id (u32 (v + 1)) (w_shared w)) w).
Proof.
  intros Hw Ha -> Hv. pose proof (wi_msg_id w Hw) as Hm. rewrite u32_small by lia.
  destruct (wi_list w Hw) as (l & Hl & Hb & Hcalls). eapply winv_call_at; try done; cbn.
  - intros id. by rewrite Ha.
  - by destruct Hl.
  - eapply Forall_impl; [exact Hb|]. cbn. lia.
  - lia.
  - eapply hash_find_bound; [exact Hb|]. lia.
  - intros id [= <-]. split; [lia|]. intros b c _ Hc Hi. pose proof (wi_old w Hw b c _ Hc Hi). lia.
Qed.

(** addToHash *)
Lemma winv_add a id x w s' :
  winv w → w_callers w !! a = Some (AtAdd id (sh_hash_start (w_shared w))) → sh_nodes (w_shared w) !! x = None →
  add_section (Some x) id a (sh_hash_start (w_shared w)) (w_shared w) = (Done tt, s') →
  winv (call_at a (AtSend id) s' w).
Proof.
  intros Hw Ha Hx Hs. destruct (wi_list w Hw) as (l & Hl & Hb & Hcalls).
  destruct (add_section_run (w_shared w) l x id a Hl Hx) as (s1 & E & Hl' & Hm & Hans). rewrite Hs in E. injection E as <-.
  destruct (Hcalls a _ Ha) as [Hn Hslot]. pose proof (wi_old w Hw a _ id Ha eq_refl) as Hid.
  eapply winv_call_at; try done; rewrite ?Hm, ?Hans, ?fmap_app; cbn; try done.
  - intros i. by rewrite Ha.
  - apply Forall_app. split; [done|]. apply Forall_singleton. cbn. lia.
  - pose proof (wi_msg_id w Hw). lia.
  - intros i y Hi. by rewrite hash_find_snoc, Hi.
  - intros i Hi Hne. rewrite hash_find_snoc, Hi, decide_False by (cbn; congruence). done.
  - rewrite hash_find_snoc, Hn, decide_True by done. by rewrite Hans.
  - intros i [= <-]. split; [done|]. intros b c Hne Hc Hi. apply Hne. by eapply (wi_inj w Hw b a c _ id).
Qed.

Lemma winv_call a new sent c w w' :
  winv w → careful (Call a new sent) w → w_callers w !! a = Some c → call_step a new sent c w = Some w' → winv w'.
Proof.
  intros Hw [Hu Hlk] Hc Hs. unfold undisturbed, lucky in Hu, Hlk. rewrite Hc in Hu, Hlk.
  destruct c as [|v|id|id|id queue|id|id]; cbn in Hs.
  - injection Hs as <-. by eapply winv_caller.
  - injection Hs as <-. by apply winv_write.
  - injection Hs as <-. eapply winv_caller; try done; cbn.
    + intros b Hb. by apply lookup_insert_ne.
    + intros q Hq. split; [done|]. apply lookup_insert_eq.
  - injection Hs as <-. by eapply winv_caller.
  - destruct Hlk as [x ->]. subst queue. cbn in Hs. case_bool_decide as Hx; [|done].
    destruct (wi_list w Hw) as (l & Hl & _).
    destruct (add_section_run (w_shared w) l x id a Hl Hx) as (s1 & E & _). rewrite E in Hs. injection Hs as <-.
    by apply (winv_add a id x).
  - assert (Hpart : winv (call_at a (AtWait id) (w_shared w) w)).
    { eapply winv_caller; try done. cbn. intros q [H1 H2]. by left; split; [|left]. }
    assert (Hout : Some id ∉ outstanding w) by (by eapply not_outstanding).
    destruct (wi_list w Hw) as (l & _ & _ & Hcalls). destruct (Hcalls a _ Hc) as [_ Hnull].
    destruct sent; injection Hs as <-.
    + apply (winv_requested _ a); [done| |done|done]. cbn. apply lookup_insert_eq.
    + done.
    + eapply winv_returning; [done|done|done|]. by intros msg.
  - destruct (answer_at w a) as [[| |msg]|] eqn:Es; try done; injection Hs as <-; (eapply winv_returning; [done|done| |]).
    + intros i _. by rewrite Es.
    + done.
    + intros i _. by rewrite Es.
    + intros m [= <-]. destruct (wi_list w Hw) as (l & _ & _ & Hcalls). pose proof (Hcalls a _ Hc) as Hok. cbn in Hok.
      destruct Hok as [[? _]|(m & Hm & Hi)]; congruence.
Qed.

Lemma stream_drop_head seg segs :
  Forall (λ seg, sizeof_ANSWER_HEADER ≤ blen seg ≤ _MSG_BUFFER) segs → stream_drop (length seg) (seg :: segs) = segs.
Proof.
  intros Hs. cbn [stream_drop]. rewrite Nat.ltb_irrefl, Nat.sub_diag. destruct Hs as [|x segs Hx Hs]; [done|]. cbn [stream_drop].
  unfold blen, sizeof_ANSWER_HEADER in Hx. by destruct x; [cbn in Hx; lia|].
Qed.

Lemma received_in_id seg id : seg_id seg = Some id → seg_id (received_in seg) = Some id.
Proof. unfold seg_id, received_in. apply get_le_app_l. Qed.

(** What recv has returned, for a [recv] that returns one answer. *)
Lemma recv_step_run w seg segs :
  winv w → w_thread w = AtRecv → w_stream w = seg :: segs →
  receiver_step (length seg) w = Some (mkWorld (w_shared w) (w_callers w) (AtLookup (received_in seg)) (w_requests w) segs
    (w_results w) (w_fault w)).
Proof.
  intros Hw Ht Hst. pose proof (wi_segments w Hw) as Hs. rewrite Hst in Hs. apply Forall_cons in Hs as [Hseg Hs].
  unfold receiver_step. rewrite Ht, Hst. change (mjoin (seg :: segs)) with (seg ++ mjoin segs).
  unfold blen in Hseg. rewrite decide_True by (rewrite length_app; unfold sizeof_ANSWER_HEADER in Hseg; lia).
  rewrite decide_False by lia. by rewrite take_app_length, stream_drop_head.
Qed.

Lemma winv_recv_step w seg segs :
  winv w → w_thread w = AtRecv → w_stream w = seg :: segs →
  winv (mkWorld (w_shared w) (w_callers w) (AtLookup (received_in seg)) (w_requests w) segs (w_results w) (w_fault w)).
Proof.
  intros Hw Ht Hst. set (w' := mkWorld _ _ _ _ _ _ _).
  destruct (wi_owner w Hw (seg_id seg)) as (a & id & Hid & _ & _).
  { unfold outstanding. rewrite Hst. set_solver. }
  assert (Hp : outstanding w' ≡ₚ outstanding w).
  { unfold outstanding. cbn. rewrite Ht, Hst, fmap_cons, (received_in_id _ _ Hid), Hid. cbn. solve_Permutation. }
  destruct Hw as [Hf (l & Hl & Hb & Hcalls) Hth Ho Hown Hold Hinj Hseg Hmid Hres]. constructor; try done.
  - exists l. split; [done|]. split; [done|]. intros b c Hc. specialize (Hcalls b c Hc). destruct c; try done; cbn in *.
    destruct Hcalls as [[H1 [H2|(msg & H2 & _)]]|H]; [by left; split; [|left]|congruence|by right].
  - by rewrite Hp.
  - intros o. rewrite Hp. apply Hown.
  - rewrite Hst in Hseg. by apply Forall_cons in Hseg as [_ ?].
Qed.

(** The answer in the hands of the receiver thread is one that is waited for. *)
Lemma in_hands_owner w o :
  winv w → o ∈ in_hands (w_thread w) →
  ∃ a id, o = Some id ∧ w_callers w !! a = Some (AtWait id) ∧ answer_at w a = Some Null.
Proof. intros Hw Ho. apply (wi_owner w Hw). unfold outstanding. set_solver. Qed.

Lemma winv_lookup w msg id data :
  winv w → w_thread w = AtLookup msg → seg_id msg = Some id →
  find_section id (w_shared w) = (Done data, w_shared w) → winv (thread_at (AtCopy msg id data) (w_shared w) w).
Proof.
  intros Hw Ht Hid Hf. destruct (wi_list w Hw) as (l & Hl & Hb & Hcalls).
  rewrite (find_section_run _ l id Hl) in Hf. injection Hf as <-.
  destruct (in_hands_owner w (Some id) Hw) as (a & i & [= <-] & Ha & Hs); [rewrite Ht, <- Hid; by left|].
  eapply winv_thread_at; try done.
  - intros b c _. apply call_ok_thread; [done|]. by rewrite Ht.
  - split; [done|]. exists a. split; [|done]. pose proof (Hcalls a _ Ha) as Hok. cbn in Hok.
    destruct Hok as [[_ [H|(m & H & _)]]|(m & H & _)]; congruence.
  - rewrite Ht. cbn. by rewrite Hid.
Qed.

Lemma winv_remove w msg id data s' :
  winv w → w_thread w = AtRemove msg id data (sh_hash_start (w_shared w)) →
  remove_section id (sh_hash_start (w_shared w)) (w_shared w) = (Done tt, s') →
  winv (thread_at (AtStore msg data) s' w).
Proof.
  intros Hw Ht Hr. destruct (wi_list w Hw) as (l & Hl & Hb & Hcalls).
  destruct (remove_section_run _ l id Hl) as (s1 & E & Hl' & Hm & Ha). rewrite Hr in E. injection E as <-.
  pose proof (wi_thread w Hw) as Hth. unfold thread_ok in Hth. rewrite Ht in Hth. destruct Hth as (Hid & a & -> & Hc).
  eapply (winv_thread_at w _ _ l); try done.
  - apply fmap_sublist, without_sublist.
  - intros b c Hcb Hok. rewrite without_hash_remove.
    destruct (decide (b = a)) as [->|Hne].
    { rewrite Hc in Hcb. injection Hcb as <-. cbn in *. rewrite Ha.
      destruct Hok as [[Hs _]|H]; [left; split; [done|right; by exists msg]|by right]. }
    assert (Hd : ∀ i, id_of c = Some i → i ≠ id).
    { intros i Hi ->. apply Hne. by eapply (wi_inj w Hw b a c _ id). }
    destruct c; cbn in *; rewrite ?Ha, ?hash_find_remove by auto; try done.
    destruct Hok as [[Hs [H|(m & H & _)]]|H]; [by left; split; [|left]|congruence|by right].
  - exists a, id. by split_and!.
  - rewrite Ht. cbn. by rewrite Hid.
Qed.

Lemma winv_stored w msg a p :
  winv w → w_thread w = AtStore msg (Some a) → answer_at w a = Some p →
  winv (thread_at AtRecv (fset th_answers (<[a := Message msg]> (sh_answers (w_shared w))) (w_shared w)) w).
Proof.
  intros Hw Ht Hp. set (w' := thread_at _ _ _).
  pose proof (wi_thread w Hw) as Hth. unfold thread_ok in Hth. rewrite Ht in Hth. destruct Hth as (a' & id & [= <-] & Hid & Ha).
  assert (Hperm : outstanding w ≡ₚ Some id :: outstanding w').
  { unfold outstanding. cbn. rewrite Ht. cbn. rewrite Hid. solve_Permutation. }
  destruct Hw as [Hf (l & Hl & Hb & Hcalls) _ Ho Hown Hold Hinj Hseg Hmid Hres].
  rewrite Hperm in Ho. apply NoDup_cons in Ho as [Hn Ho].
  constructor; try done; cbn.
  - exists l. split; [by destruct Hl|]. split; [done|]. intros b c Hc. specialize (Hcalls b c Hc).
    destruct (decide (b = a)) as [->|Hne].
    { rewrite Ha in Hc. injection Hc as <-. cbn. rewrite lookup_insert_eq. right. by exists msg. }
    destruct c; cbn in *; rewrite ?lookup_insert_ne by done; try done.
    destruct Hcalls as [[Hs [H|(m & H & _)]]|H]; [by left; split; [|left]|congruence|by right].
  - intros o Hin. destruct (Hown o) as (b & i & -> & Hb' & Hs); [rewrite Hperm; by right|]. exists b, i.
    assert (a ≠ b) by (intros <-; rewrite Ha in Hb'; injection Hb' as ->; done). by rewrite lookup_insert_ne.
Qed.

Lemma winv_receive n w w' :
  winv w → careful (Receive n) w → receiver_step n w = Some w' → winv w'.
Proof.
  intros Hw [Hu Hlk] Hs. unfold undisturbed, lucky in Hu, Hlk. destruct (w_thread w) as [|msg|msg id data|msg id data queue|msg data|] eqn:Ht.
  - destruct (w_stream w) as [|seg segs] eqn:Hst; [done|]. injection Hlk as ->.
    rewrite (recv_step_run w seg segs) in Hs by done. injection Hs as <-. by apply winv_recv_step.
  - unfold receiver_step in Hs. rewrite Ht in Hs. change (get_u32 msg AH.message_id) with (seg_id msg) in Hs.
    destruct (seg_id msg) as [id|] eqn:Hid; [|done]. cbn in Hs. destruct (wi_list w Hw) as (l & Hl & _).
    pose proof (find_section_run _ l id Hl) as E. rewrite E in Hs. injection Hs as <-. by eapply winv_lookup.
  - unfold receiver_step in Hs. rewrite Ht in Hs. injection Hs as <-. destruct (wi_list w Hw) as (l & Hl & Hb & Hcalls).
    eapply winv_thread_at; try done.
    + intros b c _. apply call_ok_thread; [done|]. by rewrite Ht.
    + pose proof (wi_thread w Hw) as Hth. unfold thread_ok in *. by rewrite Ht in Hth.
    + by rewrite Ht.
  - unfold receiver_step in Hs. rewrite Ht in Hs. subst queue. destruct (wi_list w Hw) as (l & Hl & _).
    destruct (remove_section_run _ l id Hl) as (s1 & E & _). rewrite E in Hs. injection Hs as <-. by eapply winv_remove.
  - unfold receiver_step in Hs. rewrite Ht in Hs.
    pose proof (wi_thread w Hw) as Hth. unfold thread_ok in Hth. rewrite Ht in Hth. destruct Hth as (a & id & -> & Hid & Ha).
    destruct (in_hands_owner w (Some id) Hw) as (b & i & [= <-] & Hb & Hnull); [rewrite Ht; cbn; rewrite Hid; by left|].
    assert (b = a) as -> by by eapply (wi_inj w Hw b a _ _ id).
    rewrite Hnull in Hs. injection Hs as <-. by eapply winv_stored.
  - unfold receiver_step in Hs. by rewrite Ht in Hs.
Qed.

Lemma winv_answer k seg id w :
  winv w → w_requests w !! k = Some id → seg_id seg = Some id → sizeof_ANSWER_HEADER ≤ blen seg ≤ _MSG_BUFFER →
  winv (mkWorld (w_shared w) (w_callers w) (w_thread w) (delete k (w_requests w)) (w_stream w ++ [seg]) (w_results w) (w_fault w)).
Proof.
  intros Hw Hk Hid Hseg. set (w' := mkWorld _ _ _ _ _ _ _).
  assert (Hp : outstanding w' ≡ₚ outstanding w).
  { unfold outstanding. cbn. rewrite (delete_Permutation _ _ _ Hk) at 2. rewrite fmap_app, fmap_cons. cbn. rewrite Hid. solve_Permutation. }
  destruct Hw as [Hf Hl Ht Ho Hown Hold Hinj Hs Hmid Hres]. constructor; try done.
  - by rewrite Hp.
  - intros o. rewrite Hp. apply Hown.
  - apply Forall_app. split; [done|]. by apply Forall_singleton.
Qed.

Lemma winv_stop w : winv w → w_thread w = AtRecv → winv (thread_at Ended (w_shared w) w).
Proof.
  intros Hw Ht. destruct (wi_list w Hw) as (l & Hl & Hb & Hcalls). eapply winv_thread_at; try done.
  - intros b c _. apply call_ok_thread; [done|]. by rewrite Ht.
  - by rewrite Ht.
Qed.

Lemma winv_perform e w w' : winv w → careful e w → perform e w = Some w' → winv w'.
Proof.
  intros Hw Hc. unfold perform. rewrite (wi_fault w Hw). destruct e as [a|a new sent|n| |k seg]; intros Hp.
  - destruct (w_callers w !! a) eqn:Ha; [done|]. injection Hp as <-. by apply winv_start.
  - apply bind_Some in Hp as (c & Hcl & Hs). by eapply winv_call.
  - by eapply winv_receive.
  - destruct (w_thread w) eqn:Ht; try done. injection Hp as <-. by apply winv_stop.
  - apply bind_Some in Hp as (id & Hk & Hs). case_decide as Hd; [|done]. injection Hs as <-. destruct Hd.
    rewrite <- (wi_fault w Hw). by eapply winv_answer.
Qed.

Lemma winv_loaded m : 0 ≤ m < 2 ^ 32 → winv (loaded m).
Proof.
  intros Hm. constructor; try done; cbn.
  - exists []. split; [split; [done|constructor]|]. split; [constructor|]. intros a c Ha. by rewrite lookup_empty in Ha.
  - constructor.
  - intros o Ho. by apply elem_of_nil in Ho.
  - intros a id msg Ho. by apply elem_of_nil in Ho.
Qed.

Lemma along_cons (P : event → world → Prop) e es w w' :
  along P (e :: es) w → perform e w = Some w' → P e w ∧ along P es w'.
Proof. intros [HP Ha] Hp. by rewrite Hp in Ha. Qed.

Lemma winv_all es : ∀ w w', winv w → along careful es w → perform_all es w = Some w' → winv w'.
Proof.
  induction es as [|e es IH]; intros w w' Hw; [by intros _ [= <-]|].
  intros Ha (w1 & E & Hp)%bind_Some. destruct (along_cons _ _ _ _ _ Ha E) as [Hc Ha'].
  eapply IH; [|exact Ha'|done]. by eapply winv_perform.
Qed.

(** ** One call at a time *)
Record alone (w : world) : Prop := {
  al_one : ∀ a b c d, w_callers w !! a = Some c → w_callers w !! b = Some d → a = b;
  al_write : ∀ a v, w_callers w !! a = Some (AtWrite v) → v = sh_msg_id (w_shared w);
  al_add : ∀ a id queue, w_callers w !! a = Some (AtAdd id queue) → queue = sh_hash_start (w_shared w);
  al_remove : ∀ msg id data queue, w_thread w = AtRemove msg id data queue → queue = sh_hash_start (w_shared w);
}.

Lemma alone_undisturbed e w : alone w → undisturbed e w.
Proof.
  intros [Ho Hw Ha Hr]. destruct e as [a|a new sent|n| |k seg]; cbn; try done.
  - destruct (w_callers w !! a) as [[]|] eqn:E; eauto.
  - destruct (w_thread w) eqn:E; eauto.
Qed.

(** The receiver thread has something in its hands only while the one call waits. *)
Lemma alone_waiting w a c o :
  winv w → alone w → w_callers w !! a = Some c → o ∈ in_hands (w_thread w) → ∃ id, c = AtWait id.
Proof.
  intros Hw Hal Hc Ho. destruct (in_hands_owner w o Hw Ho) as (b & id & _ & Hb & _).
  assert (b = a) as -> by by eapply (al_one w Hal). exists id. congruence.
Qed.

Lemma alone_call_at w a c' s' :
  alone w → (∀ b c, w_callers w !! b = Some c → a = b) →
  (∀ v, c' = AtWrite v → v = sh_msg_id s') → (∀ id queue, c' = AtAdd id queue → queue = sh_hash_start s') →
  (sh_hash_start s' = sh_hash_start (w_shared w) ∨ in_hands (w_thread w) = []) →
  alone (call_at a c' s' w).
Proof.
  intros [Ho Hwr Had Hrm] Hone H1 H2 Hs. constructor; cbn.
  - intros b1 b2 c1 c2 [[<- _]|[_ Hb1]]%lookup_insert_Some [[<- _]|[_ Hb2]]%lookup_insert_Some; eauto.
    by rewrite <- (Hone _ _ Hb1).
  - intros b v [[_ E]|[Hne Hb]]%lookup_insert_Some; [by apply H1|]. by destruct Hne; eapply Hone.
  - intros b id queue [[_ E]|[Hne Hb]]%lookup_insert_Some; [by eapply H2|]. by destruct Hne; eapply Hone.
  - intros msg id data queue E. destruct Hs as [-> | Hs]; [by eapply Hrm|]. by rewrite E in Hs.
Qed.

(** Steps of others that leave the list, the counter and the calls as they are. *)
Lemma alone_frame w w' :
  alone w → (∀ b c, w_callers w' !! b = Some c → w_callers w !! b = Some c) →
  sh_msg_id (w_shared w') = sh_msg_id (w_shared w) → sh_hash_start (w_shared w') = sh_hash_start (w_shared w) →
  (∀ msg id data queue, w_thread w' = AtRemove msg id data queue →
     w_thread w = AtRemove msg id data queue ∨ queue = sh_hash_start (w_shared w)) →
  alone w'.
Proof.
  intros [Ho Hwr Had Hrm] Hc Hm Hh Ht. constructor; rewrite ?Hm, ?Hh; eauto.
  intros msg id data queue E. destruct (Ht _ _ _ _ E); eauto.
Qed.

Lemma alone_call a new sent c w w' :
  winv w → alone w → w_callers w !! a = Some c → call_step a new sent c w = Some w' → w_fault w' = None → alone w'.
Proof.
  intros Hw Hal Hc Hs Hf.
  assert (Hone : ∀ b d, w_callers w !! b = Some d → a = b) by (intros b d Hb; by eapply (al_one w Hal)).
  destruct c as [|v|id|id|id queue|id|id]; cbn in Hs.
  - injection Hs as <-. apply alone_call_at; try done; [by intros v [= ->]|by left].
  - injection Hs as <-. apply alone_call_at; try done. by left.
  - injection Hs as <-. apply alone_call_at; try done. by left.
  - injection Hs as <-. apply alone_call_at; try done; [by intros i q [= -> ->]|by left].
  - destruct (unused new (w_shared w)); [|done]. destruct (add_section _ _ _ _ _) as [[[]|f|x] s']; [|by injection Hs as <-|done].
    injection Hs as <-. apply alone_call_at; try done. right.
    destruct (in_hands (w_thread w)) as [|o l] eqn:E; [done|].
    destruct (alone_waiting w a _ o Hw Hal Hc) as [i ?]; [rewrite E; by left|done].
  - assert (H1 : alone (call_at a (AtWait id) (w_shared w) w)) by (apply alone_call_at; try done; by left).
    destruct sent; injection Hs as <-; [|done|].
    + eapply alone_frame; [exact H1|done..|]. intros. by left.
    + eapply alone_frame; [exact Hal| |done|done|by left]. by cbn; intros x y [_ ?]%lookup_delete_Some.
  - destruct (answer_at w a) as [[]|]; try done; injection Hs as <-;
      (eapply alone_frame; [exact Hal| |done|done|by left]; by cbn; intros x y [_ ?]%lookup_delete_Some).
Qed.

Lemma alone_receive n w w' :
  winv w → alone w → receiver_step n w = Some w' → w_fault w' = None → alone w'.
Proof.
  intros Hw Hal Hs Hf. unfold receiver_step in Hs.
  destruct (w_thread w) as [|msg|msg id data|msg id data queue|msg data|] eqn:Ht.
  - case_decide; [|done]. injection Hs as <-. eapply alone_frame; [exact Hal|done..|]. cbn. intros. by case_decide.
  - apply bind_Some in Hs as (id & _ & Hs). destruct (find_section id (w_shared w)) as [[data|f|x] s']; [|by injection Hs as <-|done].
    injection Hs as <-. by eapply alone_frame.
  - injection Hs as <-. eapply alone_frame; [exact Hal|done..|]. cbn. intros m i d q [= -> -> -> ->]. by right.
  - destruct (remove_section _ _ _) as [[[]|f|x] s'] eqn:E; [|by injection Hs as <-|done]. injection Hs as <-.
    assert (Hwait : ∀ b c, w_callers w !! b = Some c → ∃ i, c = AtWait i).
    { intros b c Hb. eapply (alone_waiting w b c (Some id)); try done. rewrite Ht. by left. }
    constructor; cbn.
    + apply Hal.
    + intros b v Hb. by destruct (Hwait _ _ Hb).
    + intros b i q Hb. by destruct (Hwait _ _ Hb).
    + done.
  - destruct data as [a|]; [|by injection Hs as <-]. destruct (answer_at w a); [|by injection Hs as <-].
    injection Hs as <-. by eapply alone_frame.
  - done.
Qed.

Lemma alone_perform e w w' :
  winv w → alone w → one_at_a_time e w → perform e w = Some w' → w_fault w' = None → alone w'.
Proof.
  intros Hw Hal Ho. unfold perform. rewrite (wi_fault w Hw). destruct e as [a|a new sent|n| |k seg]; intros Hp Hf.
  - cbn in Ho. destruct (w_callers w !! a); [done|]. injection Hp as <-. apply alone_call_at; try done; [|by left].
    intros b c Hb. by rewrite Ho, lookup_empty in Hb.
  - apply bind_Some in Hp as (c & Hc & Hs). by eapply alone_call.
  - by eapply alone_receive.
  - destruct (w_thread w) eqn:Ht; try done. injection Hp as <-. by eapply alone_frame.
  - apply bind_Some in Hp as (id & Hk & Hs). case_decide; [|done]. injection Hs as <-.
    eapply alone_frame; [exact Hal|done..|]. intros. by left.
Qed.

Lemma alone_careful es : ∀ w, winv w → alone w →
  along (λ e w, one_at_a_time e w ∧ lucky e w) es w → along careful es w.
Proof.
  induction es as [|e es IH]; intros w Hw Hal; cbn; [done|]. intros [[Ho Hl] Ha].
  assert (Hc : careful e w) by (split; [by apply alone_undisturbed|done]).
  split; [done|]. destruct (perform e w) as [w'|] eqn:Hp; [|done]. pose proof (winv_perform e w w' Hw Hc Hp) as Hw'.
  apply IH; [done| |done].
  exact (alone_perform e w w' Hw Hal Ho Hp (wi_fault w' Hw')).
Qed.

Lemma alone_loaded m : alone (loaded m).
Proof. by constructor; cbn. Qed.

(** ** What is left to do *)
(** Who waits is answered: his request or the answer is on the way. *)
Record awaited (w : world) : Prop := {
  aw_out : ∀ a id, w_callers w !! a = Some (AtWait id) → answer_at w a = Some Null → Some id ∈ outstanding w;
  aw_thread : w_thread w ≠ Ended;
}.

Lemma awaited_frame w w' :
  awaited w → w_thread w' ≠ Ended → (∀ o, o ∈ outstanding w → o ∈ outstanding w') →
  (∀ a id, w_callers w' !! a = Some (AtWait id) → answer_at w' a = Some Null →
     w_callers w !! a = Some (AtWait id) ∧ answer_at w a = Some Null ∨ Some id ∈ outstanding w') →
  awaited w'.
Proof.
  intros [Ho Ht] Ht' Hout Hc. split; [|done]. intros a id H1 H2. destruct (Hc a id H1 H2) as [[]|]; eauto.
Qed.

Lemma awaited_call a new sent c w w' :
  winv w → awaited w → careful (Call a new sent) w → sent ≠ SentPart →
  w_callers w !! a = Some c → call_step a new sent c w = Some w' → awaited w'.
Proof.
  intros Hw Haw [Hu Hlk] Hsent Hc Hs. unfold undisturbed, lucky in Hu, Hlk. rewrite Hc in Hu, Hlk.
  assert (Hcall : ∀ c' s', (∀ id, c' ≠ AtWait id) → (∀ b, b ≠ a → sh_answers s' !! b = answer_at w b) → awaited (call_at a c' s' w)).
  { intros c' s' Hn Ha. eapply awaited_frame; [exact Haw|apply Haw|done|]. cbn.
    intros b id [[_ E]|[Hne Hb]]%lookup_insert_Some Hnull; [by destruct (Hn id)|]. rewrite Ha in Hnull by done. by left. }
  assert (Hret : ∀ id p, awaited (returning a id p w)).
  { intros id p. eapply awaited_frame; [exact Haw|apply Haw|done|]. cbn.
    intros b i [Hne Hb]%lookup_delete_Some Hnull. rewrite lookup_delete_ne in Hnull by done. by left. }
  destruct c as [|v|id|id|id queue|id|id]; cbn in Hs.
  - injection Hs as <-. by apply Hcall.
  - injection Hs as <-. by apply Hcall.
  - injection Hs as <-. apply Hcall; [done|]. intros b Hb. cbn. by rewrite lookup_insert_ne.
  - injection Hs as <-. by apply Hcall.
  - destruct Hlk as [x ->]. subst queue. cbn in Hs. case_bool_decide as Hx; [|done].
    destruct (wi_list w Hw) as (l & Hl & _).
    destruct (add_section_run (w_shared w) l x id a Hl Hx) as (s1 & E & _ & _ & Ha). rewrite E in Hs. injection Hs as <-.
    apply Hcall; [done|]. intros b _. by rewrite Ha.
  - destruct sent; [|done|]; injection Hs as <-; [|by apply Hret].
    eapply awaited_frame; [exact Haw|apply Haw| |].
    + intros o. unfold outstanding. cbn. rewrite fmap_app. set_solver.
    + intros b i. unfold outstanding. cbn. rewrite fmap_app. intros [[<- [= <-]]|[Hne Hb]]%lookup_insert_Some Hnull; [|by left].
      right. set_solver.
  - destruct (answer_at w a) as [[]|]; try done; injection Hs as <-; apply Hret.
Qed.

Lemma awaited_receive n w w' :
  winv w → awaited w → careful (Receive n) w → receiver_step n w = Some w' → awaited w'.
Proof.
  intros Hw Haw [Hu Hlk] Hs. unfold undisturbed, lucky in Hu, Hlk.
  destruct (w_thread w) as [|msg|msg id data|msg id data queue|msg data|] eqn:Ht.
  - destruct (w_stream w) as [|seg segs] eqn:Hst; [done|]. injection Hlk as ->.
    rewrite (recv_step_run w seg segs) in Hs by done. injection Hs as <-. eapply awaited_frame; [exact Haw|done| |by left].
    destruct (wi_owner w Hw (seg_id seg)) as (a & id & Hid & _ & _).
    { unfold outstanding. rewrite Hst. set_solver. }
    intros o. unfold outstanding. cbn. rewrite Ht, Hst, fmap_cons, (received_in_id _ _ Hid), Hid. set_solver.
  - unfold receiver_step in Hs. rewrite Ht in Hs. change (get_u32 msg AH.message_id) with (seg_id msg) in Hs.
    destruct (seg_id msg) as [id|] eqn:Hid; [|done]. cbn in Hs. destruct (wi_list w Hw) as (l & Hl & _).
    pose proof (find_section_run _ l id Hl) as E. rewrite E in Hs. injection Hs as <-.
    eapply awaited_frame; [exact Haw|done| |by left]. intros o. unfold outstanding. cbn. rewrite Ht. cbn. by rewrite Hid.
  - unfold receiver_step in Hs. rewrite Ht in Hs. injection Hs as <-.
    eapply awaited_frame; [exact Haw|done| |by left]. intros o. unfold outstanding. cbn. by rewrite Ht.
  - unfold receiver_step in Hs. rewrite Ht in Hs. subst queue. destruct (wi_list w Hw) as (l & Hl & _).
    destruct (remove_section_run _ l id Hl) as (s1 & E & _ & _ & Ha). rewrite E in Hs. injection Hs as <-.
    pose proof (wi_thread w Hw) as Hth. unfold thread_ok in Hth. rewrite Ht in Hth. destruct Hth as (Hid & _).
    eapply awaited_frame; [exact Haw|done| |]; cbn.
    + intros o. unfold outstanding. cbn. rewrite Ht. cbn. by rewrite Hid.
    + rewrite Ha. by left.
  - unfold receiver_step in Hs. rewrite Ht in Hs.
    pose proof (wi_thread w Hw) as Hth. unfold thread_ok in Hth. rewrite Ht in Hth. destruct Hth as (a & id & -> & Hid & Ha).
    destruct (in_hands_owner w (Some id) Hw) as (b & i & [= <-] & Hb & Hnull); [rewrite Ht; cbn; rewrite Hid; by left|].
    assert (b = a) as -> by by eapply (wi_inj w Hw b a _ _ id).
    rewrite Hnull in Hs. injection Hs as <-. split; [|done]. cbn. intros b i Hbi Hn.
    destruct (decide (b = a)) as [->|Hne]; [by rewrite lookup_insert_eq in Hn|]. rewrite lookup_insert_ne in Hn by done.
    pose proof (aw_out w Haw b i Hbi Hn) as Ho. unfold outstanding in *. cbn. rewrite Ht in Ho. cbn in Ho. rewrite Hid in Ho.
    rewrite app_nil_r. rewrite (assoc_L (++)) in Ho. apply elem_of_app in Ho as [|Hin]; [done|].
    apply list_elem_of_singleton in Hin. injection Hin as ->. destruct Hne. by eapply (wi_inj w Hw b a _ _ id).
  - by destruct (aw_thread w Haw).
Qed.

Lemma awaited_perform e w w' :
  winv w → awaited w → careful e w → gets_through e → perform e w = Some w' → awaited w'.
Proof.
  intros Hw Haw Hc Hg. unfold perform. rewrite (wi_fault w Hw). destruct e as [a|a new sent|n| |k seg]; intros Hp.
  - destruct (w_callers w !! a); [done|]. injection Hp as <-. eapply awaited_frame; [exact Haw|apply Haw|done|]. cbn.
    intros b id [[_ E]|[Hne Hb]]%lookup_insert_Some Hnull; [done|by left].
  - apply bind_Some in Hp as (c & Hcl & Hs). by eapply awaited_call.
  - by eapply awaited_receive.
  - done.
  - apply bind_Some in Hp as (id & Hk & Hs). case_decide as Hd; [|done]. injection Hs as <-.
    eapply awaited_frame; [exact Haw|apply Haw| |by left]. intros o. unfold outstanding. cbn.
    rewrite (delete_Permutation _ _ _ Hk) at 1. rewrite fmap_app. destruct Hd as [Hd _]. cbn.
    replace (seg_id seg) with (Some id). set_solver.
Qed.

Lemma awaited_loaded m : awaited (loaded m).
Proof. by split. Qed.

Lemma awaited_all es : ∀ w w', winv w → awaited w → along (λ e w, careful e w ∧ gets_through e) es w →
  perform_all es w = Some w' → winv w' ∧ awaited w'.
Proof.
  induction es as [|e es IH]; intros w w' Hw Haw; [by intros _ [= <-]|].
  intros Ha (w1 & E & Hp)%bind_Some. destruct (along_cons _ _ _ _ _ Ha E) as [[Hc Hg] Ha'].
  eapply IH; [by eapply winv_perform|by eapply awaited_perform|exact Ha'|done].
Qed.

(** *** Somebody can always go on *)
(** The sections do not exit. *)
Definition goes_on {A} (m : M shared A) : Prop := ∀ s x, (m s).1 ≠ Exited x.
Lemma goes_on_bind {A B} (m : M shared A) (k : A → M shared B) :
  goes_on m → (∀ a, goes_on (k a)) → goes_on (m ≫= k).
Proof.
  intros Hm Hk s x. unfold mbind, M_bind. specialize (Hm s). destruct (m s) as [[a|f|y] s']; cbn in *; [apply Hk|done|].
  by destruct (Hm y).
Qed.
Lemma goes_on_deref p : goes_on (deref p).
Proof.
  assert (Htry : ∀ A f (o : option A), goes_on (try f o)) by (by intros A f [] s x).
  apply goes_on_bind; [apply Htry|]. intros a. apply goes_on_bind; [done|]. intros h.
  by apply goes_on_bind; [apply Htry|].
Qed.
Lemma goes_on_last fuel queue : goes_on (last_node fuel queue).
Proof.
  revert queue. induction fuel as [|fuel IH]; intros queue; cbn; apply goes_on_bind; try apply goes_on_deref;
    intros [a n]; by destruct (nd_next n).
Qed.
Lemma add_section_exits new id a queue s x : (add_section new id a queue s).1 ≠ Exited x.
Proof.
  revert s x. apply (goes_on_bind _ (λ _, _)); [|by destruct new]. destruct queue; [|done].
  apply goes_on_bind; [done|]. intros h. apply goes_on_bind; [apply goes_on_last|]. by intros [].
Qed.
Lemma goes_on_remove fuel id prev queue : goes_on (remove_loop fuel id prev queue).
Proof.
  revert prev queue. induction fuel as [|fuel IH]; intros prev [q|]; cbn [remove_loop]; try done;
    (apply goes_on_bind; [apply goes_on_deref|]; intros [a n]; destruct (_ =? _); [|done || apply IH]);
    (apply (goes_on_bind _ (λ _, _)); [|done]; destruct prev; [|done]; apply goes_on_bind; [apply goes_on_deref|by intros []]).
Qed.
Lemma remove_section_exits id queue s x : (remove_section id queue s).1 ≠ Exited x.
Proof. revert s x. apply goes_on_bind; [done|]. intros h. apply goes_on_remove. Qed.

(** An answer of the server to the request [id]. *)
Definition some_answer (id : Z) : list byte := zeros 16 ++ le_split 4 id ++ zeros 20.

Lemma some_answer_ok id :
  0 ≤ id < 2 ^ 32 →
  get_u32 (some_answer id) AH.message_id = Some id ∧ sizeof_ANSWER_HEADER ≤ blen (some_answer id) ≤ _MSG_BUFFER.
Proof.
  intros Hid. split.
  - unfold some_answer. rewrite (get_le_at 4 (zeros 16) id (zeros 20)) by done. f_equal. by apply Z.mod_small.
  - assert (blen (some_answer id) = 40) as ->; [|by vm_compute]. unfold some_answer. rewrite !blen_app.
    unfold blen. by rewrite length_le_split.
Qed.

Lemma receiver_progress w :
  winv w → w_thread w ≠ Ended → w_stream w ≠ [] ∨ w_thread w ≠ AtRecv → ∃ n, is_Some (receiver_step n w).
Proof.
  intros Hw Hne Hs. destruct (wi_list w Hw) as (l & Hl & _).
  destruct (w_thread w) as [|msg|msg id data|msg id data queue|msg data|] eqn:Ht; try done.
  - destruct (w_stream w) as [|seg segs] eqn:Hst; [by destruct Hs|]. exists (length seg).
    by rewrite (recv_step_run w seg segs).
  - exists 0%nat. unfold receiver_step. rewrite Ht. change (get_u32 msg AH.message_id) with (seg_id msg).
    destruct (in_hands_owner w (seg_id msg) Hw) as (a & id & Hid & _); [rewrite Ht; by left|]. rewrite Hid. cbn.
    pose proof (find_section_run _ l id Hl) as E. by rewrite E.
  - exists 0%nat. unfold receiver_step. by rewrite Ht.
  - exists 0%nat. unfold receiver_step. rewrite Ht. destruct (remove_section id queue (w_shared w)) as [[[]|f|x] s'] eqn:E; [by eexists..|].
    destruct (remove_section_exits id queue (w_shared w) x). by rewrite E.
  - exists 0%nat. unfold receiver_step. rewrite Ht. destruct data as [a|]; [|by eexists]. by destruct (answer_at w a).
Qed.

Lemma call_progress w a c :
  winv w → w_callers w !! a = Some c → (∀ id, c ≠ AtWait id) → is_Some (perform (Call a (Some (fresh (dom (sh_nodes (w_shared w))))) SentWhole) w).
Proof.
  intros Hw Hc Hn. unfold perform. rewrite (wi_fault w Hw), Hc. cbn.
  destruct c as [|v|id|id|id queue|id|id]; [by eexists..| |by eexists|by destruct (Hn id)]. cbn.
  set (x := fresh _). assert (Hx : sh_nodes (w_shared w) !! x = None).
  { apply (not_elem_of_dom (D:=gset positive)). apply is_fresh. }
  rewrite bool_decide_eq_true_2 by done. destruct (add_section _ _ _ _ _) as [[[]|f|y] s'] eqn:E; [by eexists..|].
  destruct (add_section_exits (Some x) id a queue (w_shared w) y). by rewrite E.
Qed.

Lemma progress w a c :
  winv w → awaited w → w_callers w !! a = Some c →
  ∃ e, gets_through e ∧ no_start e ∧ is_Some (perform e w).
Proof.
  intros Hw Haw Hc.
  assert (Hd : (∃ id, c = AtWait id) ∨ ¬ ∃ id, c = AtWait id) by (destruct c; (by left; eexists) || (by right; intros [])).
  destruct Hd as [[id ->]|Hn].
  2:{ eexists. split; [|split; [|eapply (call_progress w a c); [done|done|]]]; [done|done|]. intros id ->. apply Hn. by exists id. }
  destruct (wi_list w Hw) as (l & _ & _ & Hcalls). pose proof (Hcalls a _ Hc) as Hok. cbn in Hok.
  destruct Hok as [[Hnull _]|(msg & Hm & _)].
  2:{ exists (Call a None SentWhole). split; [done|]. split; [done|]. unfold perform. rewrite (wi_fault w Hw), Hc. cbn.
      rewrite Hm. by eexists. }
  assert (Hr : w_stream w ≠ [] ∨ w_thread w ≠ AtRecv → ∃ e, gets_through e ∧ no_start e ∧ is_Some (perform e w)).
  { intros Hs. destruct (receiver_progress w Hw (aw_thread w Haw) Hs) as [n Hn]. exists (Receive n).
    unfold perform. by rewrite (wi_fault w Hw). }
  pose proof (aw_out w Haw a id Hc Hnull) as Ho. unfold outstanding in Ho. rewrite !elem_of_app in Ho.
  destruct Ho as [Ho|[Ho|Ho]].
  - apply list_elem_of_fmap in Ho as (i & [= <-] & [k Hk]%list_elem_of_lookup).
    pose proof (wi_old w Hw a _ id Hc eq_refl). pose proof (wi_msg_id w Hw).
    exists (Answer k (some_answer id)). split; [done|]. split; [done|]. unfold perform. rewrite (wi_fault w Hw), Hk. cbn.
    rewrite decide_True by (apply some_answer_ok; lia). by eexists.
  - apply Hr. left. by destruct (w_stream w); [apply elem_of_nil in Ho|].
  - apply Hr. right. intros E. rewrite E in Ho. by apply elem_of_nil in Ho.
Qed.

(** *** Every step is one less *)
Definition caller_rank (c : caller) : nat :=
  match c with
  | AtRead => 13 | AtWrite _ => 12 | AtClear _ => 11 | AtQueue _ => 10 | AtAdd _ _ => 9 | AtSend _ => 8 | AtWait _ => 1
  end.
Definition callers_rank (m : gmap Z caller) : nat := map_fold (λ _ c n, caller_rank c + n)%nat 0%nat m.
Definition thread_rank (r : receiver_at) : nat :=
  match r with AtLookup _ => 4 | AtCopy _ _ _ => 3 | AtRemove _ _ _ _ => 2 | AtStore _ _ => 1 | AtRecv | Ended => 0 end.
Definition rank (w : world) : nat :=
  callers_rank (w_callers w) + 6 * length (w_requests w) + 5 * length (w_stream w) + thread_rank (w_thread w).

Lemma callers_rank_delete m a c :
  m !! a = Some c → callers_rank m = (caller_rank c + callers_rank (delete a m))%nat.
Proof. intros Ha. unfold callers_rank. apply (map_fold_delete_L (λ _ c n, caller_rank c + n)%nat 0%nat a c m); [intros; lia|done]. Qed.

Lemma callers_rank_insert m a c c' :
  m !! a = Some c → (callers_rank (<[a := c']> m) + caller_rank c = callers_rank m + caller_rank c')%nat.
Proof.
  intros Ha. rewrite (callers_rank_delete m a c Ha), (callers_rank_delete (<[a := c']> m) a c'), delete_insert_eq by apply lookup_insert_eq.
  lia.
Qed.

Lemma callers_rank_bound m : (callers_rank m ≤ 13 * size m)%nat.
Proof.
  induction m as [|a c m Ha IH] using map_ind; [done|]. rewrite map_size_insert_None by done.
  rewrite (callers_rank_delete _ a c), delete_insert_id by (done || apply lookup_insert_eq). destruct c; cbn [caller_rank]; lia.
Qed.

(** At most one request of each call is on its way. *)
Lemma outstanding_bound w : winv w → (length (outstanding w) ≤ size (w_callers w))%nat.
Proof.
  intros Hw. rewrite <- length_map_to_list, <- (length_fmap (id_of ∘ snd)). apply submseteq_length, NoDup_submseteq.
  - apply (wi_out w Hw).
  - intros o Ho. destruct (wi_owner w Hw o Ho) as (a & id & -> & Ha & _).
    apply (list_elem_of_fmap_2 (id_of ∘ snd) _ (a, AtWait id)). by apply elem_of_map_to_list.
Qed.

Lemma rank_bound w : winv w → (rank w ≤ 19 * size (w_callers w))%nat.
Proof.
  intros Hw. pose proof (outstanding_bound w Hw) as Ho. pose proof (callers_rank_bound (w_callers w)). unfold outstanding in Ho.
  rewrite !length_app, !length_fmap in Ho. unfold rank.
  assert (thread_rank (w_thread w) ≤ 6 * length (in_hands (w_thread w)))%nat by (destruct (w_thread w); cbn; lia). lia.
Qed.

Lemma rank_call a new sent c w w' :
  w_callers w !! a = Some c → call_step a new sent c w = Some w' → w_fault w' = None → (S (rank w') ≤ rank w)%nat.
Proof.
  intros Hc Hs Hf.
  assert (Hcall : ∀ c' s', (caller_rank c' < caller_rank c)%nat → (S (rank (call_at a c' s' w)) ≤ rank w)%nat).
  { intros c' s' Hr. unfold rank. cbn. pose proof (callers_rank_insert (w_callers w) a c c' Hc). lia. }
  assert (Hret : ∀ id p, (S (rank (returning a id p w)) ≤ rank w)%nat).
  { intros id p. unfold rank. cbn. rewrite (callers_rank_delete (w_callers w) a c Hc). destruct c; cbn; lia. }
  destruct c as [|v|id|id|id queue|id|id]; cbn in Hs.
  1-4: by injection Hs as <-; apply Hcall; cbn; lia.
  - destruct (unused new (w_shared w)); [|done]. destruct (add_section _ _ _ _ _) as [[[]|f|x] s']; [|by injection Hs as <-|done].
    injection Hs as <-. apply Hcall. cbn. lia.
  - destruct sent; injection Hs as <-; [|apply Hcall; cbn; lia|apply Hret].
    pose proof (callers_rank_insert (w_callers w) a _ (AtWait id) Hc) as Hi. unfold rank. cbn in *. rewrite length_app. cbn. lia.
  - destruct (answer_at w a) as [[]|]; try done; injection Hs as <-; apply Hret.
Qed.

Lemma rank_perform e w w' :
  winv w → careful e w → no_start e → gets_through e → perform e w = Some w' → w_fault w' = None →
  (S (rank w') ≤ rank w)%nat.
Proof.
  intros Hw [_ Hlk]. unfold perform. rewrite (wi_fault w Hw). destruct e as [a|a new sent|n| |k seg]; intros Hn Hg Hp Hf; try done.
  - apply bind_Some in Hp as (c & Hc & Hs). by eapply rank_call.
  - cbn in Hlk. destruct (w_thread w) as [|msg|msg id data|msg id data queue|msg data|] eqn:Ht.
    + destruct (w_stream w) as [|seg segs] eqn:Hst; [done|]. injection Hlk as ->.
      rewrite (recv_step_run w seg segs) in Hp by done. injection Hp as <-. unfold rank. cbn. rewrite Ht, Hst. cbn. lia.
    + unfold receiver_step in Hp. rewrite Ht in Hp. apply bind_Some in Hp as (id & _ & Hs).
      destruct (find_section id (w_shared w)) as [[data|f|x] s']; [|by injection Hs as <-|done]. injection Hs as <-.
      unfold rank. cbn. rewrite Ht. cbn. lia.
    + unfold receiver_step in Hp. rewrite Ht in Hp. injection Hp as <-. unfold rank. cbn. rewrite Ht. cbn. lia.
    + unfold receiver_step in Hp. rewrite Ht in Hp.
      destruct (remove_section _ _ _) as [[[]|f|x] s'] eqn:E; [|by injection Hp as <-|done]. injection Hp as <-.
      unfold rank. cbn. rewrite Ht. cbn. lia.
    + unfold receiver_step in Hp. rewrite Ht in Hp. destruct data as [a|]; [|by injection Hp as <-].
      destruct (answer_at w a); injection Hp as <-; [|done]. unfold rank. cbn. rewrite Ht. cbn. lia.
    + unfold receiver_step in Hp. by rewrite Ht in Hp.
  - apply bind_Some in Hp as (id & Hk & Hs). case_decide; [|done]. injection Hs as <-. unfold rank. cbn.
    rewrite length_app, length_delete by (by eexists). apply lookup_lt_Some in Hk. cbn. lia.
Qed.

(** *** Nothing is lost *)
(** The call is where it was or further, or has returned. *)
Definition same_call (a : Z) (i : option Z) (w : world) : Prop :=
  (∃ c, w_callers w !! a = Some c ∧ (is_Some i → id_of c = i)) ∨
  ∃ id p, (a, id, p) ∈ w_results w ∧ p ≠ Null ∧ (is_Some i → i = Some id).

Lemma results_grow e w w' x : perform e w = Some w' → x ∈ w_results w → x ∈ w_results w'.
Proof.
  unfold perform. destruct (w_fault w); [done|]. intros Hp Hx. destruct e as [a|a new sent|n| |k seg].
  - destruct (w_callers w !! a); by simplify_eq.
  - apply bind_Some in Hp as (c & Hc & Hs). destruct c; cbn in Hs;
      repeat match type of Hs with context [match ?y with _ => _ end] => destruct y end;
      try done; injection Hs as <-; cbn; try done; apply elem_of_app; by left.
  - unfold receiver_step in Hp. destruct (w_thread w); try (apply bind_Some in Hp as (? & _ & Hp));
      repeat match type of Hp with context [match ?y with _ => _ end] => destruct y end; try done; by injection Hp as <-.
  - destruct (w_thread w); by simplify_eq.
  - apply bind_Some in Hp as (id & Hk & Hs). case_decide; by simplify_eq.
Qed.

Lemma callers_kept e w w' a :
  perform e w = Some w' → (∀ new sent, e ≠ Call a new sent) → is_Some (w_callers w !! a) → w_callers w' !! a = w_callers w !! a.
Proof.
  unfold perform. destruct (w_fault w); [done|]. intros Hp He Ha. destruct e as [b|b new sent|n| |k seg].
  - destruct (w_callers w !! b) eqn:Hb; [done|]. injection Hp as <-. apply lookup_insert_ne. intros ->. by destruct Ha; congruence.
  - assert (Hne : b ≠ a) by (intros ->; by eapply He). apply bind_Some in Hp as (c & Hc & Hs). destruct c; cbn in Hs;
      repeat match type of Hs with context [match ?y with _ => _ end] => destruct y end;
      try done; injection Hs as <-; cbn; rewrite ?lookup_insert_ne, ?lookup_delete_ne by done; done.
  - unfold receiver_step in Hp. destruct (w_thread w); try (apply bind_Some in Hp as (? & _ & Hp));
      repeat match type of Hp with context [match ?y with _ => _ end] => destruct y end; try done; by injection Hp as <-.
  - destruct (w_thread w); by simplify_eq.
  - apply bind_Some in Hp as (id & Hk & Hs). case_decide; by simplify_eq.
Qed.

Lemma same_call_step e w w' a i : perform e w = Some w' → same_call a i w → same_call a i w'.
Proof.
  intros Hp [(c & Hc & Hi)|(id & p & Hr & Hpn & Hid)].
  2:{ right. exists id, p. split; [by eapply results_grow|done]. }
  assert (Hdec : (∃ new sent, e = Call a new sent) ∨ ∀ new sent, e ≠ Call a new sent).
  { destruct e as [|b new sent| | |]; try (by right). destruct (decide (b = a)) as [->|]; [left; by eexists _, _|right; congruence]. }
  destruct Hdec as [(new & sent & ->)|Hne].
  2:{ left. exists c. by rewrite (callers_kept e w w' a Hp Hne) by by eexists. }
  unfold perform in Hp. destruct (w_fault w); [done|]. rewrite Hc in Hp. cbn in Hp.
  assert (Hcall : ∀ c' s', (is_Some i → id_of c' = i) → same_call a i (call_at a c' s' w)).
  { intros c' s' H. left. exists c'. split; [apply lookup_insert_eq|done]. }
  assert (Hret : ∀ id p, p ≠ Null → (is_Some i → i = Some id) → same_call a i (returning a id p w)).
  { intros id p H1 H2. right. exists id, p. split; [|done]. cbn. apply elem_of_app. right. by left. }
  destruct c as [|v|id|id|id queue|id|id]; cbn in Hp, Hi.
  - injection Hp as <-. apply Hcall. intros H. by rewrite <- Hi in H by done; destruct H.
  - injection Hp as <-. apply Hcall. intros H. pose proof (Hi H) as E. rewrite <- E in H. by destruct H.
  - injection Hp as <-. by apply Hcall.
  - injection Hp as <-. by apply Hcall.
  - destruct (unused new (w_shared w)); [|done]. destruct (add_section _ _ _ _ _) as [[[]|f|x] s'].
    + injection Hp as <-. by apply Hcall.
    + injection Hp as <-. left. by exists (AtAdd id queue).
    + done.
  - destruct sent; injection Hp as <-; [|by apply Hcall|by apply Hret; [|intros ?; symmetry; apply Hi]].
    left. exists (AtWait id). split; [apply lookup_insert_eq|done].
  - destruct (answer_at w a) as [[]|]; try done; injection Hp as <-; by apply Hret; [|intros ?; symmetry; apply Hi].
Qed.

Lemma same_call_all es a i : ∀ w w', perform_all es w = Some w' → same_call a i w → same_call a i w'.
Proof.
  induction es as [|e es IH]; intros w w'; [by intros [= <-]|].
  intros (w1 & E & Hp)%bind_Some Hs. eapply IH; [done|]. by eapply same_call_step.
Qed.

Lemma along_impl (P Q : event → world → Prop) es : (∀ e w, P e w → Q e w) → ∀ w, along P es w → along Q es w.
Proof.
  intros H. induction es as [|e es IH]; intros w; cbn; [done|]. intros [HP Ha]. split; [auto|].
  destruct (perform e w); auto.
Qed.

Lemma rank_all es : ∀ w w', winv w → along (λ e w, careful e w ∧ gets_through e ∧ no_start e) es w →
  perform_all es w = Some w' → (length es + rank w' ≤ rank w)%nat.
Proof.
  induction es as [|e es IH]; intros w w' Hw; [by intros _ [= <-]|].
  intros Ha (w1 & E & Hp)%bind_Some. destruct (along_cons _ _ _ _ _ Ha E) as [(Hc & Hg & Hn) Ha'].
  pose proof (winv_perform e w w1 Hw Hc E) as Hw1.
  pose proof (rank_perform e w w1 Hw Hc Hn Hg E (wi_fault w1 Hw1)). pose proof (IH w1 w' Hw1 Ha' Hp). cbn. lia.
Qed.

(** Nobody calls and nothing is on its way. *)
Lemma all_done w e :
  w_callers w = ∅ → w_thread w = AtRecv → w_requests w = [] → w_stream w = [] → gets_through e → no_start e → perform e w = None.
Proof.
  intros Hc Ht Hr Hs Hg Hn. unfold perform. destruct (w_fault w); [done|]. destruct e as [b|b new sent|n| |k seg]; try done.
  - by rewrite Hc, lookup_empty.
  - unfold receiver_step. rewrite Ht, Hs. rewrite decide_False; [done|]. cbn. lia.
  - by rewrite Hr.
Qed.

(** Somebody waits and nothing is on its way. *)
Lemma stuck w a id :
  w_callers w = {[a := AtWait id]} → answer_at w a = Some Null → w_thread w = AtRecv → w_requests w = [] → w_stream w = [] →
  ∀ e, gets_through e → no_start e → perform e w = None.
Proof.
  intros Hc Ha Ht Hr Hs e Hg Hn. unfold perform. destruct (w_fault w); [done|]. destruct e as [b|b new sent|n| |k seg]; try done.
  - rewrite Hc. destruct (decide (b = a)) as [->|Hne].
    + rewrite lookup_singleton_eq. cbn. by rewrite Ha.
    + by rewrite lookup_singleton_ne.
  - unfold receiver_step. rewrite Ht, Hs. rewrite decide_False; [done|]. cbn. lia.
  - by rewrite Hr.
Qed.
