(* ===== verification/WClientCall.v ===== *)
(** * The Windows client: the exported functions as one interface *)
From stdpp Require Import gmap.
From S2P Require Import Prelude CMem Protocol Net Win32 WClient WClientSpec WClientCalls WClientAnswers WClientInv.
#[local] Open Scope Z_scope.

(** A call of an exported function, without the address of its result. *)
Inductive capi_call :=
  | Register (messageBufferSize maxLogicalConnection maxBDataBlocks maxBDataLen : Z)
  | Release (appl : Z)
  | PutMessage (appl pointer : Z)
  | GetMessage (appl : Z)
  | WaitForSignal (appl : Z)
  | GetManufacturer
  | GetVersion
  | GetSerialNumber
  | GetProfile (ctrl : Z)
  | Installed.

(** What the application sees. *)
Inductive capi_result :=
  | RCode (rc : Z)
  | RId (r : Z * option Z)                   (**r code, id or address of the message *)
  | RBytes (r : Z * option (list byte))      (**r code, bytes copied to the caller's buffer *)
  | RManufacturer (r : option (list byte))
  | RVersion (r : Z * option (version_t * version_t)).

Section interface.
Context {OS : Type} `{HW : !Win32 OS}.
Implicit Types d : dll OS.
Abbreviation W := (M (dll OS)).
Variable mem : Z → Z → option (list byte).

Definition run_call (answer : Z) (c : capi_call) : W capi_result :=
  match c with
  | Register m a b l => r ← CAPI_REGISTER answer m a b l; mret (RId r)
  | Release i => r ← CAPI_RELEASE answer i; mret (RCode r)
  | PutMessage i p => r ← CAPI_PUT_MESSAGE mem answer i p; mret (RCode r)
  | GetMessage i => r ← CAPI_GET_MESSAGE answer i; mret (RId r)
  | WaitForSignal i => r ← CAPI_WAIT_FOR_SIGNAL answer i; mret (RCode r)
  | GetManufacturer => r ← CAPI_GET_MANUFACTURER answer; mret (RManufacturer r)
  | GetVersion => r ← CAPI_GET_VERSION answer; mret (RVersion r)
  | GetSerialNumber => r ← CAPI_GET_SERIAL_NUMBER answer; mret (RBytes r)
  | GetProfile c => r ← CAPI_GET_PROFILE answer c; mret (RBytes r)
  | Installed => r ← CAPI_INSTALLED answer; mret (RCode r)
  end.

Definition call_type (c : capi_call) : Z :=
  match c with
  | Register _ _ _ _ => TYPE_CAPI_REGISTER
  | Release _ => TYPE_CAPI_RELEASE
  | PutMessage _ _ => TYPE_CAPI_PUTMESSAGE
  | GetMessage _ => TYPE_CAPI_GETMESSAGE
  | WaitForSignal _ => TYPE_CAPI_WAITFORSIGNAL
  | GetManufacturer => TYPE_CAPI_MANUFACTURER
  | GetVersion => TYPE_CAPI_VERSION
  | GetSerialNumber => TYPE_CAPI_SERIAL
  | GetProfile _ => TYPE_CAPI_PROFILE
  | Installed => TYPE_CAPI_INSTALLED
  end.

(** The request of a call: header and what follows it.  [m] and [data] are the
    application's message. *)
Definition call_request (m data : list byte) (c : capi_call) d : REQUEST_HEADER * list byte :=
  match c with
  | Register m a b l => register_request m a b l d
  | Release i | GetMessage i | WaitForSignal i => (empty_request (call_type c) i 0 d, [x00])
  | PutMessage i p => (put_request i m data d, x00 :: m ++ data)
  | GetProfile ctrl => (empty_request (call_type c) 0 ctrl d, [x00])
  | _ => (empty_request (call_type c) 0 0 d, [x00])
  end.

Definition call_failed (c : capi_call) : capi_result :=
  match c with
  | Register _ _ _ _ | GetMessage _ => RId (CAPI_OS_ERROR, None)
  | GetManufacturer => RManufacturer None
  | GetVersion => RVersion (CAPI_OS_ERROR, None)
  | GetSerialNumber | GetProfile _ => RBytes (CAPI_OS_ERROR, None)
  | _ => RCode CAPI_OS_ERROR
  end.

(** What a call does with the answer it accepts. *)
Definition call_answered (c : capi_call) (b : list byte) : W capi_result :=
  match c with
  | Register _ _ _ _ => r ← register_answered b; mret (RId r)
  | Release i => r ← release_answered i b; mret (RCode r)
  | GetMessage i => r ← getmessage_answered i b; mret (RId r)
  | GetManufacturer => r ← (m ← answer_body b 0 64; mret (Some m)); mret (RManufacturer r)
  | GetVersion => r ← version_answered b; mret (RVersion r)
  | GetSerialNumber =>
      r ← (m ← answer_body b 0 8; rc ← answer_result b; mret (rc, Some m)); mret (RBytes r)
  | GetProfile _ =>
      r ← (m ← answer_body b 0 64; rc ← answer_result b; mret (rc, Some m)); mret (RBytes r)
  | _ => r ← answer_result b; mret (RCode r)
  end.

(** The message of a call of CAPI_PUT_MESSAGE fits the request. *)
Definition call_message (m data : list byte) (c : capi_call) : Prop :=
  match c with
  | PutMessage _ p => app_message mem p m data ∧ 37 + blen m + blen data ≤ _MSG_BUFFER
  | _ => True
  end.

Lemma call_request_ok m data c d :
  call_message m data c →
  let '(h, pay) := call_request m data c d in
  rh_message_id h = next_id d ∧ rh_message_len h = sizeof_REQUEST_HEADER + blen pay ∧
  blen pay ≤ _MSG_BUFFER - sizeof_REQUEST_HEADER.
Proof.
  intros Hm. destruct c; try (by split_and!); cbn.
  split; [done|]. destruct Hm as [_ Hm]. rewrite blen_cons, blen_app.
  unfold _MSG_BUFFER, sizeof_REQUEST_HEADER in *. lia.
Qed.

Context (Hplenty : plenty (OS:=OS)).

Lemma with_answer_call {A B} (f : A → B) (m : W A) id answer type (failed : A) k d d1 :
  m d = with_answer id answer type failed k d1 →
  (r ← m; mret (f r)) d = with_answer id answer type (f failed) (λ b, r ← k b; mret (f r)) d1.
Proof.
  intros Hm. unfold mbind at 1, M_bind at 1. rewrite Hm. unfold with_answer, mbind at 1 2, M_bind at 1 2.
  by destruct (transact id answer type d1) as [[[b|]|?|?] ?].
Qed.

(** Every exported function is one exchange with the server. *)
Lemma run_call_prepare answer m data c d :
  call_message m data c →
  run_call answer c d =
    (let '(h, pay) := call_request m data c d in
     with_answer (next_id d) answer (call_type c) (call_failed c) (call_answered c) (prepared h pay d)).
Proof using Hplenty.
  intros Hm. destruct c; cbn [run_call call_request call_type call_failed].
  - by apply (with_answer_call RId), CAPI_REGISTER_prepare.
  - by apply (with_answer_call RCode), CAPI_RELEASE_prepare.
  - destruct Hm. by apply (with_answer_call RCode), CAPI_PUT_MESSAGE_prepare.
  - by apply (with_answer_call RId), CAPI_GET_MESSAGE_prepare.
  - by apply (with_answer_call RCode), CAPI_WAIT_FOR_SIGNAL_prepare.
  - by apply (with_answer_call RManufacturer), CAPI_GET_MANUFACTURER_prepare.
  - by apply (with_answer_call RVersion), CAPI_GET_VERSION_prepare.
  - by apply (with_answer_call RBytes), CAPI_GET_SERIAL_NUMBER_prepare.
  - by apply (with_answer_call RBytes), CAPI_GET_PROFILE_prepare.
  - by apply (with_answer_call RCode), CAPI_INSTALLED_prepare.
Qed.

(** With the answer: what the call returns, and the state it leaves. *)
Lemma run_call_exchange answer m data c seg segs ah d :
  call_message m data c → ready answer seg segs d →
  decode_answer seg = Some ah → ah_message_id ah = next_id d →
  run_call answer c d =
    (if bool_decide (accepts ah (call_type c)) then call_answered c (received_in seg)
     else mret (call_failed c))
      (exchanged (let '(h, pay) := call_request m data c d in encode_request h ++ pay) seg segs d).
Proof using Hplenty.
  intros Hm Hr Hah Hid. rewrite (run_call_prepare _ m data) by done.
  pose proof (call_request_ok m data c d Hm) as Hok.
  destruct (call_request m data c d) as [h pay]. destruct Hok as (H1 & H2 & H3).
  by apply with_answer_run.
Qed.

(** ** Calls that get no answer *)
(** When the receiver thread can receive nothing more it ends, and a call that
    waits does not return. *)
Lemma dispatcher_round_end d :
  w_open d = true → rx_bytes (w_socke d) = [] →
  ∃ d', messageDispatcher_round d = (Done false, d') ∧ w_receiver d' = false ∧ w_slots d' = w_slots d.
Proof using Hplenty.
  intros Hopen Hrx. unfold messageDispatcher_round.
  erewrite bind_done by by apply malloc_run. cbv beta. cbn [negb].
  pose proof (proj2 (recv_segs_None (rx (w_socke d)) _MSG_BUFFER) Hrx) as Hs.
  unfold wrecv. rewrite !bind_assoc. erewrite bind_done by reflexivity. cbv beta.
  change (fget connected _) with (w_open d). rewrite Hopen.
  rewrite bind_assoc. erewrite bind_done.
  2:{ unfold zoom. change (fget socke _) with (w_socke d). unfold recv. rewrite Hs. reflexivity. }
  cbv beta iota. rewrite bind_assoc. erewrite bind_done.
  2:{ apply store_bytes_run. change (fget msg _) with (zeros _MSG_BUFFER).
      apply splice_nil. by rewrite blen_zeros. }
  cbv beta. erewrite (bind_done (mret _)) by reflexivity. cbv beta.
  destruct (rx_error (w_socke d)).
  all: rewrite decide_True by (unfold sizeof_ANSWER_HEADER; lia); rewrite decide_True by lia.
  all: eexists; split_and!; [reflexivity|done|done].
Qed.

Lemma wait_answer_hung n a d :
  w_slots d !! a = Some Null → w_receiver d = false → ∃ d', wait_answer n a d = (Faulted Hung, d') ∨
    n = O.
Proof.
  intros Hs Hr. destruct n as [|n]; [exists d; by right|]. exists d. left. cbn [wait_answer].
  erewrite bind_done by by apply load_slot_run. cbv beta iota.
  erewrite bind_done by reflexivity. cbv beta. change (fget receiver d) with (w_receiver d). by rewrite Hr.
Qed.

Lemma transact_hung answer type h pay d :
  w_open d = true → tx_script (w_socke d) = [] →
  (rx_bytes (w_socke d) = [] ∨ w_receiver d = false) →
  rh_message_id h = next_id d → rh_message_len h = sizeof_REQUEST_HEADER + blen pay →
  blen pay ≤ _MSG_BUFFER - sizeof_REQUEST_HEADER →
  ∃ d', transact (next_id d) answer type (prepared h pay d) = (Faulted Hung, d').
Proof using Hplenty.
  intros Hopen Hscript Hend Hid Hlen Hpay.
  unfold transact, sendAndReceive. rewrite bind_assoc, <- Hid.
  erewrite bind_done by by apply post_run. cbv beta. cbn [when].
  set (dp := posted answer h pay d).
  assert (Hn : w_slots dp !! answer = Some Null) by apply lookup_insert_eq.
  assert (Hrx : rx_bytes (w_socke dp) = rx_bytes (w_socke d)) by done.
  assert (Hw : ∃ d', wait_loop answer dp = (Faulted Hung, d')).
  { unfold wait_loop. cbn [Nat.add]. destruct (w_receiver d) eqn:Hr.
    - destruct Hend as [Hend|]; [|done]. rewrite wait_answer_step by done.
      destruct (dispatcher_round_end dp) as (d1 & H1 & H2 & H3); [done|by rewrite Hrx|].
      erewrite bind_done by exact H1. cbv beta.
      destruct (wait_answer_hung (S (length (rx_bytes (fget socke dp)))) answer d1) as (d' & [Hd|Hd]);
        [by rewrite H3|done|eauto|done].
    - destruct (wait_answer_hung (S (S (length (rx_bytes (fget socke dp))))) answer dp) as (d' & [Hd|Hd]);
        [done|done|eauto|done]. }
  destruct Hw as [d' Hw]. exists d'. by apply bind_faulted.
Qed.

Lemma run_call_hung answer m data c d :
  call_message m data c → w_open d = true → tx_script (w_socke d) = [] →
  (rx_bytes (w_socke d) = [] ∨ w_receiver d = false) →
  ∃ d', run_call answer c d = (Faulted Hung, d').
Proof using Hplenty.
  intros Hm Hopen Hscript Hend. rewrite (run_call_prepare _ m data) by done.
  pose proof (call_request_ok m data c d Hm) as Hok.
  destruct (call_request m data c d) as [h pay]. destruct Hok as (H1 & H2 & H3).
  destruct (transact_hung answer (call_type c) h pay d) as [d' Hd]; [done..|].
  exists d'. unfold with_answer. by apply bind_faulted.
Qed.

(** ** A request that cannot be sent *)
(** [send] fails, or the connection has been closed. *)
Definition send_fails (d : dll OS) : Prop := ∀ bs, (wire_result bs d).1 = 0 ∨ (wire_result bs d).1 = -1.

(** The call returns, but its entry stays in the list of outstanding requests. *)
Lemma transact_send_failed answer type h pay d :
  send_fails d → w_slots d !! answer = None →
  rh_message_id h = next_id d → rh_message_len h = sizeof_REQUEST_HEADER + blen pay →
  blen pay ≤ _MSG_BUFFER - sizeof_REQUEST_HEADER →
  ∃ d', transact (next_id d) answer type (prepared h pay d) = (Done None, d') ∧
    w_hash d' = w_hash d ++ [mkEvl (next_id d) answer] ∧ w_slots d' = w_slots d ∧
    w_open d' = w_open d ∧ rx (w_socke d') = rx (w_socke d).
Proof using Hplenty.
  intros Hn Hslot Hid Hlen Hpay. unfold transact, sendAndReceive. rewrite !bind_assoc, <- Hid.
  pose proof (wire_result_rx (encode_request h ++ pay) d) as Hrx.
  pose proof (Hn (encode_request h ++ pay)) as Hf.
  pose proof (post_wire Hplenty answer h pay d Hlen Hpay) as Hpost.
  destruct (wire_result _ d) as [n w]. cbn [fst snd] in *. rewrite decide_True in Hpost by done.
  erewrite bind_done by exact Hpost. cbv beta. cbn [when].
  erewrite bind_done by reflexivity. cbv beta.
  erewrite bind_done by (apply load_slot_run, lookup_insert_eq). cbv beta.
  erewrite bind_done by reflexivity. cbv beta.
  eexists. split; [reflexivity|]. split_and!; try done.
  change (delete answer (<[answer := ILLEGAL_ANSWER]> (w_slots d)) = w_slots d).
  by rewrite delete_insert_id.
Qed.

Lemma run_call_send_failed answer m data c d :
  call_message m data c → send_fails d → w_slots d !! answer = None →
  ∃ d', run_call answer c d = (Done (call_failed c), d') ∧
    w_hash d' = w_hash d ++ [mkEvl (next_id d) answer] ∧ w_slots d' = w_slots d ∧
    w_open d' = w_open d ∧ rx (w_socke d') = rx (w_socke d).
Proof using Hplenty.
  intros Hm Hn Hslot. rewrite (run_call_prepare _ m data) by done.
  pose proof (call_request_ok m data c d Hm) as Hok.
  destruct (call_request m data c d) as [h pay]. destruct Hok as (H1 & H2 & H3).
  destruct (transact_send_failed answer (call_type c) h pay d) as (d' & Hd & Hrest); [done..|].
  exists d'. split; [|done]. unfold with_answer. by erewrite bind_done by exact Hd.
Qed.

(** ** An answer nobody waits for *)
(** With no entry for its id, or one whose variable is gone, the receiver
    thread stores through a null or a dangling pointer. *)
Lemma round_unexpected seg segs id d :
  w_open d = true → rx (w_socke d) = seg :: segs → sizeof_ANSWER_HEADER ≤ blen seg ≤ _MSG_BUFFER →
  get_u32 seg AH.message_id = Some id →
  (messageDispatcher_round d).1 =
    match hash_find id (w_hash d) with
    | None => Faulted NullDeref
    | Some a => match w_slots d !! a with None => Faulted Dangling | Some _ => Done true end
    end.
Proof using Hplenty.
  intros Hopen Hrx Hseg Hid. rewrite (dispatcher_round_run Hplenty seg segs) by done.
  assert (Hid' : get_u32 (received_in seg) AH.message_id = Some id) by by apply get_le_app_l.
  unfold dispatchMessage. rewrite Hid', bind_assoc, try_Some_bind. cbv beta.
  unfold getDataPtrFromMsgId, removeFromHash. rewrite !bind_assoc.
  erewrite bind_done by reflexivity. cbv beta. erewrite bind_done by reflexivity. cbv beta.
  rewrite ?bind_assoc. erewrite bind_done by reflexivity. cbv beta.
  change (fget hash_start (taken seg segs d)) with (w_hash d).
  destruct (hash_find id (w_hash d)) as [a|]; [|done].
  cbn. unfold store_slot, gets, modify, mbind, M_bind. cbn. by destruct (w_slots d !! a).
Qed.
End interface.

Section keeps.
Context {OS : Type} `{HW : !Win32 OS} `{HL : !Win32Laws OS}.

Lemma keeps_map {A B} (m : M (dll OS) A) (f : A → B) :
  respects dll_ok sent_more m → respects dll_ok sent_more (r ← m; mret (f r)).
Proof. intros Hm. apply respects_bind; [apply _|done|]. intros. apply respects_ret, _. Qed.

Lemma keeps_run_call mem answer c : respects dll_ok sent_more (run_call mem answer c).
Proof.
  destruct c; apply keeps_map;
    auto using keeps_CAPI_REGISTER, keeps_CAPI_RELEASE, keeps_CAPI_PUT_MESSAGE, keeps_CAPI_GET_MESSAGE,
      keeps_CAPI_WAIT_FOR_SIGNAL, keeps_CAPI_GET_MANUFACTURER, keeps_CAPI_GET_VERSION,
      keeps_CAPI_GET_SERIAL_NUMBER, keeps_CAPI_GET_PROFILE, keeps_CAPI_INSTALLED.
Qed.
End keeps.

(** ** Waiting without end *)
Section hung.
Context {OS : Type} `{HW : !Win32 OS}.

(** Where [m] waits without end, [P] holds. *)
Definition hung_in (P : dll OS → Prop) {A} (m : M (dll OS) A) : Prop := ∀ d, (m d).1 = Faulted Hung → P (m d).2.
(** The receiver thread has ended. *)
Definition receiver_gone (d : dll OS) : Prop := w_receiver d = false.

Section steps.
Context (P : dll OS → Prop).

Lemma hung_never {A} (m : M (dll OS) A) : (∀ d, (m d).1 ≠ Faulted Hung) → hung_in P m.
Proof. intros Hm d Hd. by destruct (Hm d). Qed.
Lemma hung_bind {A B} (m : M (dll OS) A) (k : A → M (dll OS) B) :
  hung_in P m → (∀ a, hung_in P (k a)) → hung_in P (m ≫= k).
Proof.
  intros Hm Hk d. specialize (Hm d). unfold mbind, M_bind. destruct (m d) as [[a|f|c] d'].
  - apply Hk.
  - cbn in *. intros [= ->]. by apply Hm.
  - done.
Qed.
Lemma hung_zoom {A B} (F : field (dll OS) A) (g : A → B * A) : hung_in P (zoom F g).
Proof. apply hung_never. intros d. unfold zoom. by destruct (g (fget F d)). Qed.
Lemma hung_try {A} f (o : option A) : f ≠ Hung → hung_in P (try f o).
Proof. intros Hf. apply hung_never. intros d. destruct o; cbn; congruence. Qed.
Lemma hung_fail {A} f : f ≠ Hung → hung_in P (fail (A:=A) f).
Proof. intros Hf. apply hung_never. intros d. cbn. congruence. Qed.

End steps.

Ltac hung_step := match goal with
  | |- hung_in _ (_ ≫= _) => apply hung_bind; [|intros ?]
  | |- hung_in _ (zoom _ _) => apply hung_zoom
  | |- hung_in _ (try _ _) => by apply hung_try
  | |- hung_in _ (fail _) => by apply hung_fail
  | |- hung_in _ (gets _) => by apply hung_never
  | |- hung_in _ (puts _ _) => by apply hung_never
  | |- hung_in _ (modify _ _) => by apply hung_never
  | |- hung_in _ (mret _) => by apply hung_never
  | |- hung_in _ (match ?x with _ => _ end) => destruct x
  end.

Ltac head_of t := match t with ?f _ => head_of f | _ => t end.
Ltac hung_head := match goal with
  | |- hung_in _ ?m => let h := head_of m in match h with
      | @load => idtac | @store => idtac | @load_bytes => idtac | @load_cstr => idtac | @store_bytes => idtac | @store_cstr => idtac
      | @when => idtac | @malloc => idtac | @malloc_node => idtac | @wsend => idtac | @wrecv => idtac | @closesocket => idtac
      | @store_slot => idtac | @load_slot => idtac | @getDataPtrFromMsgId => idtac | @removeFromHash => idtac
      | @addToHash => idtac | @sendRequest => idtac | @next_msg_id => idtac | @answer_field => idtac
      | @global_free => idtac | @free_data => idtac end; unfold h
  end.
Ltac hung := intros; cbv beta; repeat first [hung_step|hung_head].

Lemma hung_round P : hung_in P messageDispatcher_round.
Proof. unfold messageDispatcher_round, dispatchMessage. hung. Qed.
Lemma hung_post P i a : hung_in P (post i a).
Proof. unfold post. hung. Qed.
Lemma hung_wait_answer fuel a : hung_in receiver_gone (wait_answer fuel a).
Proof.
  induction fuel as [|fuel IH]; cbn [wait_answer]; (apply hung_bind; [hung|intros p]).
  - hung.
  - destruct p; [|hung..]. intros d. erewrite bind_done by done. cbv beta. change (fget receiver d) with (w_receiver d).
    destruct (w_receiver d) eqn:Hr; [|done]. apply hung_bind; [apply hung_round|]. intros _. exact IH.
Qed.
Lemma hung_transact i a type : hung_in receiver_gone (transact i a type).
Proof.
  unfold transact, sendAndReceive. apply hung_bind; [apply hung_bind; [apply hung_post|]|].
  - intros []; [|hung]. intros d. unfold when, wait_loop. apply hung_wait_answer.
  - intros _. unfold verifyMessage. hung.
Qed.
Lemma hung_with_answer {A} i a type (failed : A) k :
  (∀ b, hung_in receiver_gone (k b)) → hung_in receiver_gone (with_answer i a type failed k).
Proof. intros Hk. unfold with_answer. apply hung_bind; [apply hung_transact|]. intros [b|]; [apply Hk|hung]. Qed.

Lemma hung_run_call mem answer c : hung_in receiver_gone (run_call mem answer c).
Proof.
  destruct c; cbn [run_call]; unfold CAPI_REGISTER, CAPI_RELEASE, CAPI_PUT_MESSAGE, CAPI_GET_MESSAGE,
    CAPI_WAIT_FOR_SIGNAL, CAPI_GET_MANUFACTURER, CAPI_GET_VERSION, CAPI_GET_SERIAL_NUMBER, CAPI_GET_PROFILE, CAPI_INSTALLED,
    request_header, append_data; hung; apply hung_with_answer; intros ?;
    unfold register_answered, release_answered, getmessage_answered, version_answered, answer_body, answer_body32, answer_result,
      received_message, add_app, del_app, setdata_app, global_alloc; hung.
Qed.

Lemma hung_attach : hung_in (λ _, False) DllMain_attach.
Proof.
  unfold DllMain_attach, query_value, initConnection, helo_message, helo_checks, helo_accepted, do_auth, auth_user_pass, answer_checks.
  hung.
Qed.
Lemma hung_detach : hung_in (λ _, False) DllMain_detach.
Proof.
  unfold DllMain_detach. hung.
  - induction a1 as [|e q IH]; cbn [cancel_waiting]; hung. exact IH.
  - intros d. unfold release_list. generalize (length (fget registered_apps d)). intros fuel. revert d.
    change (hung_in (λ _, False) (getfirst_loop fuel)).
    induction fuel as [|fuel IH]; cbn [getfirst_loop]; unfold getfirst_app; hung. exact IH.
Qed.
End hung.
