(* ===== verification/WClientApps.v ===== *)
(** * The Windows client: the list of applications is a finite map

    Abstract specification of appl_list: a map from application ids to the
    block of the last message.  The linked list of the DLL implements it as long
    as no id is entered twice. *)
From stdpp Require Import gmap.
From S2P Require Import Prelude CMem Protocol Net Win32 WClient WClientSpec WClientCalls WClientAnswers WClientInv.
#[local] Open Scope Z_scope.

Definition apps_map (l : list appl_list) : gmap Z (option Z) :=
  list_to_map ((λ e, (ap_ApplID e, ap_data e)) <$> l).

(** ** The functions on the list *)
Lemma find_app_map i l : find_app i l = apps_map l !! i.
Proof.
  induction l as [|e l IH]; [done|]. cbn [find_app]. unfold apps_map. rewrite fmap_cons, list_to_map_cons.
  case_decide as He.
  - by rewrite He, lookup_insert_eq.
  - by rewrite lookup_insert_ne by done.
Qed.

Lemma update_app_map i v l : apps_map (update_app i v l) = alter (λ _, v) i (apps_map l).
Proof.
  induction l as [|e l IH]; [done|]. cbn [update_app]. unfold apps_map in *.
  case_decide as He; rewrite !fmap_cons, !list_to_map_cons; cbn [ap_ApplID ap_data].
  - subst i. by rewrite alter_insert_eq.
  - by rewrite IH, alter_insert_ne by done.
Qed.

Lemma apps_map_not_in i l : i ∉ ap_ApplID <$> l → apps_map l !! i = None.
Proof.
  intros Hi. apply not_elem_of_list_to_map_1. by rewrite <- list_fmap_compose.
Qed.

Lemma unlink_app_map i l data l' :
  NoDup (ap_ApplID <$> l) → unlink_app i l = Some (data, l') →
  apps_map l' = delete i (apps_map l) ∧ apps_map l !! i = Some data.
Proof.
  revert l'. induction l as [|e l IH]; intros l' Hn H; [done|]. cbn in H, Hn.
  apply NoDup_cons in Hn as [Hni Hn]. unfold apps_map. rewrite fmap_cons, list_to_map_cons.
  case_decide as He.
  - simplify_eq. rewrite lookup_insert_eq, delete_insert_id; [done|]. by apply apps_map_not_in.
  - destruct (unlink_app i l) as [[dd ll]|]; [|done]. simplify_eq/=.
    destruct (IH ll Hn eq_refl) as [H1 H2]. rewrite lookup_insert_ne by done.
    split; [|done]. rewrite delete_insert_ne by done. by f_equal.
Qed.

Lemma unlink_app_None i l : unlink_app i l = None → i ∉ ap_ApplID <$> l.
Proof.
  induction l as [|e l IH]; cbn; intros H; [apply not_elem_of_nil|].
  case_decide; [done|]. destruct (unlink_app i l) as [[]|]; [done|]. set_solver.
Qed.

Lemma apps_map_snoc i l : i ∉ ap_ApplID <$> l → apps_map (l ++ [mkAppl i None]) = <[i := None]> (apps_map l).
Proof.
  intros Hi. unfold apps_map. rewrite fmap_app, list_to_map_app. cbn.
  rewrite <- insert_union_r; [by rewrite map_union_empty|]. by apply apps_map_not_in.
Qed.

(** ** Operations, concrete and abstract *)
Inductive app_op :=
  | AddApp (i : Z)
  | DelApp (i : Z)
  | SetData (i a : Z).

Section apps.
Context {OS : Type} `{HW : !Win32 OS} `{HL : !Win32Laws OS} (Hplenty : plenty (OS:=OS)).
Implicit Types d : dll OS.

Definition run_op (op : app_op) : M (dll OS) unit :=
  match op with
  | AddApp i => add_app i
  | DelApp i => del_app i
  | SetData i a => setdata_app i a
  end.

Definition spec_op (op : app_op) (m : gmap Z (option Z)) : gmap Z (option Z) :=
  match op with
  | AddApp i => <[i := None]> m
  | DelApp i => delete i m
  | SetData i a => alter (λ _, Some a) i m
  end.

(** Ids are entered once; a block given to an application is allocated and
    nobody's. *)
Definition op_allowed (op : app_op) d : Prop :=
  match op with
  | AddApp i => word i ∧ apps_map (w_apps d) !! i = None
  | DelApp _ => True
  | SetData _ a => is_Some (w_blocks d !! a) ∧ ∀ i, apps_map (w_apps d) !! i ≠ Some (Some a)
  end.

Record apps_ok d : Prop := {
  ao_ok : dll_ok d;
  ao_ids : NoDup (ap_ApplID <$> w_apps d);
}.

Lemma not_owned_map a l :
  NoDup (ap_ApplID <$> l) → (∀ i, apps_map l !! i ≠ Some (Some a)) → a ∉ owned_blocks l.
Proof.
  intros Hn Ha [e [He Hd]]%list_elem_of_omap.
  apply (Ha (ap_ApplID e)). rewrite <- Hd.
  apply elem_of_list_to_map_1; [by rewrite <- list_fmap_compose|].
  apply list_elem_of_fmap. by exists e.
Qed.

(** One operation. *)
Lemma run_op_map op d :
  apps_ok d → op_allowed op d →
  ∃ d', run_op op d = (Done tt, d') ∧ apps_ok d' ∧
        apps_map (w_apps d') = spec_op op (apps_map (w_apps d)).
Proof using HL Hplenty.
  intros [Hok Hids] Hop. destruct op as [i|i|i a]; cbn [run_op spec_op op_allowed] in *.
  - destruct Hop as [Hi Hnew].
    assert (Hnin : i ∉ ap_ApplID <$> w_apps d).
    { intros Hin. rewrite <- find_app_map in Hnew. revert Hin Hnew. clear.
      induction (w_apps d) as [|e l IH]; cbn; [by intros ?%elem_of_nil|].
      intros [->|Hin]%elem_of_cons; case_decide; try done; auto. }
    destruct (keeps_add_app i Hi d Hok) as (_ & Hk & _). unfold add_app in *.
    rewrite (bind_done _ _ _ _ _ (malloc_node_run sizeof_appl_list d Hplenty)) in *. cbn [negb] in *.
    eexists. split; [reflexivity|]. split; [split; [exact Hk|]|by apply apps_map_snoc].
    cbn. rewrite fmap_app. apply NoDup_app. split_and!; [done| |apply NoDup_singleton].
    intros x Hx ->%list_elem_of_singleton. done.
  - destruct (keeps_del_app i d Hok) as (_ & Hk & _). unfold del_app in *.
    erewrite !bind_done in * by reflexivity. cbv beta in *.
    change (fget registered_apps d) with (w_apps d) in *.
    destruct (unlink_app i (w_apps d)) as [[data l]|] eqn:E.
    + destruct (unlink_app_map _ _ _ _ Hids E) as [Hm _].
      destruct (owned_unlink _ _ _ _ E) as (l1 & l2 & e & Hl & Hl' & He & _).
      destruct (unlinked_ok d l1 e l2 Hok Hl) as [Hlive _]. rewrite He in Hlive.
      erewrite !bind_done in * by reflexivity. cbv beta in *.
      rewrite free_data_run in * by done. eexists. split; [reflexivity|].
      assert (Ha : w_apps (freed data (fset registered_apps l d)) = l) by by destruct data.
      split; [split; [exact Hk|]|]; rewrite Ha; [|done].
      rewrite Hl, fmap_app, fmap_cons in Hids. rewrite Hl', fmap_app.
      eapply sublist_NoDup; [exact Hids|]. apply sublist_app; [done|by apply sublist_cons].
    + eexists. split; [reflexivity|]. split; [done|]. apply unlink_app_None in E.
      by rewrite delete_id by by apply apps_map_not_in.
  - destruct Hop as [Hlive Hnot].
    assert (Hh : in_hand a d) by (split; [done|done|by apply not_owned_map]).
    destruct (leads_setdata_app i a d Hh) as (_ & Hk & _).
    destruct (find_app i (w_apps d)) as [old|] eqn:E.
    + destruct (find_app_split _ _ _ E) as (l1 & l2 & e & Hl & He & Hi & Hu).
      destruct (unlinked_ok d l1 e l2 Hok Hl) as [Hlo _]. rewrite He in Hlo.
      rewrite (setdata_app_run i a old) in * by done. eexists. split; [reflexivity|].
      change (w_apps (data_set i a old d)) with (update_app i (Some a) (w_apps d)).
      split; [split; [exact Hk|]|by rewrite update_app_map].
      change (w_apps (data_set i a old d)) with (update_app i (Some a) (w_apps d)).
      rewrite Hu, fmap_app, fmap_cons. rewrite Hl, fmap_app, fmap_cons in Hids. cbn. by rewrite <- Hi.
    + rewrite setdata_app_unknown in * by done. eexists. split; [reflexivity|].
      change (w_apps (freed (Some a) d)) with (w_apps d). split; [by split|].
      rewrite find_app_map in E. apply map_eq. intros j. destruct (decide (i = j)) as [<-|Hne].
      * by rewrite lookup_alter_eq, E.
      * by rewrite lookup_alter_ne.
Qed.

(** ** CAPI_GET_MESSAGE gives the application a new block *)
Lemma new_block d a n o' :
  dll_ok d → GlobalAlloc n (heap _MSG_BUFFER (heap sizeof_evlhash (heap _MSG_BUFFER (w_os d)))) = (Some a, o') →
  w_blocks d !! a = None.
Proof using HL.
  intros Hok (_ & _ & Ha & _)%GlobalAlloc_ok. unfold heap in Ha.
  rewrite !HeapAlloc_allocated, <- (ok_dom d Hok) in Ha. by apply not_elem_of_dom.
Qed.

Lemma known_live d appl old : dll_ok d → find_app appl (w_apps d) = Some old → live old d.
Proof using HL.
  intros Hok E. destruct old as [o|]; [|done].
  destruct (find_app_split _ _ _ E) as (l1 & l2 & e & Hl & He & _).
  apply (ok_owned d Hok). apply list_elem_of_omap. exists e. rewrite Hl, He.
  split; [|done]. apply elem_of_app. right. by left.
Qed.

Lemma getmessage_stored appl ah body data a o' m d :
  wf_message ah body data → ah_proxy_error ah = PERROR_NONE → 8 ≤ blen data →
  GlobalAlloc (blen data) (w_os d) = (Some a, o') → message_for a data = Some m →
  w_blocks d !! a = None → (∀ old, find_app appl (w_apps d) = Some old → live old d) →
  ∃ d', getmessage_answered appl (received_in (answer_message ah body data)) d =
      (Done (ah_capi_error ah, Some a), d') ∧
    match find_app appl (w_apps d) with
    | Some old =>
        find_app appl (w_apps d') = Some (Some a) ∧ w_blocks d' !! a = Some m ∧
        (∀ o, old = Some o → w_blocks d' !! o = None)
    | None => w_apps d' = w_apps d ∧ w_blocks d' !! a = None
    end.
Proof using HW.
  intros Hw Hpe Hl Ha Hm Hnew Hlive. rewrite (getmessage_run appl ah body data a o') by done. rewrite Hm.
  match goal with |- ∃ d', (?k ≫= _) ?x = _ ∧ _ => set (d1 := x) end.
  assert (Hb : w_blocks d1 = <[a := m]> (w_blocks d)) by done.
  destruct (find_app appl (w_apps d)) as [old|] eqn:E.
  - assert (Hold : live old d1 ∧ old ≠ Some a).
    { specialize (Hlive old eq_refl). destruct old as [o|]; [|done]. destruct Hlive as [bs Ho].
      assert (o ≠ a) by congruence. split; [|congruence]. change (is_Some (w_blocks d1 !! o)).
      rewrite Hb, lookup_insert_ne by done. eauto. }
    destruct Hold as [Hlive1 Hne]. eexists.
    erewrite bind_done by by apply (setdata_app_run appl a old d1). split; [reflexivity|].
    change (w_apps d1) with (w_apps d).
    split_and!.
    + rewrite find_app_map in E |- *. change (apps_map (update_app appl (Some a) (w_apps d)) !! appl = Some (Some a)).
      by rewrite update_app_map, lookup_alter_eq, E.
    + destruct old as [o|]; [|apply lookup_insert_eq].
      change (delete o (w_blocks d1) !! a = Some m). rewrite lookup_delete_ne by congruence.
      apply lookup_insert_eq.
    + intros o ->. apply lookup_delete_eq.
  - eexists. erewrite bind_done; [split; [reflexivity|]|apply (setdata_app_unknown appl a d1); [done|]].
    + split; [done|]. apply lookup_delete_eq.
    + rewrite Hb, lookup_insert_eq. done.
Qed.

(** A sequence of operations, each allowed in the state it starts from. *)
Inductive ops_run : list app_op → dll OS → dll OS → Prop :=
  | ops_nil d : ops_run [] d d
  | ops_cons op ops d d1 d2 :
      op_allowed op d → run_op op d = (Done tt, d1) → ops_run ops d1 d2 → ops_run (op :: ops) d d2.

Lemma ops_run_map ops d d' :
  apps_ok d → ops_run ops d d' →
  apps_ok d' ∧ apps_map (w_apps d') = foldl (λ m op, spec_op op m) (apps_map (w_apps d)) ops.
Proof using HL Hplenty.
  intros Hok Hr. induction Hr as [|op ops d d1 d2 Ha Hrun _ IH]; [done|].
  destruct (run_op_map op d Hok Ha) as (d1' & Hrun' & Hok' & Hm). rewrite Hrun in Hrun'.
  injection Hrun' as <-. destruct (IH Hok') as [? ->]. cbn. by rewrite Hm.
Qed.
End apps.
