(* ===== verification/WClientConnect.v ===== *)
(** * The Windows client: opening the connection *)
From stdpp Require Import gmap.
From S2P Require Import Prelude CMem Protocol Net Win32 WClient WClientSpec WClientCalls WClientAnswers WClientInv.
#[local] Open Scope Z_scope.

Section connect.
Context {OS : Type} `{!Win32 OS} (Hplenty : plenty (OS:=OS)).
Implicit Types d : dll OS.

Definition helo_request d : REQUEST_HEADER := mkRequest 112 36 76 0 (next_id d) TYPE_PROXY_HELO 0 0 0.
Definition helo_payload d : list byte :=
  take 64 (w_myname d) ++ words [OS_TYPE_WINDOWS; VERSION_MAJOR; VERSION_MINOR].
Definition helo_wire d : list byte := encode_request (helo_request d) ++ helo_payload d.

(** A word behind what the buffer already holds. *)
Lemma append_word_run ws pre n off v d :
  off = blen (words ws ++ pre) → 4 ≤ n →
  store32 msg off v (fset msg (words ws ++ pre ++ zeros n) d) =
    (Done tt, fset msg (words ws ++ (pre ++ le_split 4 v) ++ zeros (n - 4)) d).
Proof. intros Ho Hn. by apply append_bytes_run. Qed.

Lemma helo_message_run d :
  blen (w_myname d) = 256 →
  helo_message (fset msg (zeros _MSG_BUFFER) d) =
    (Done tt, fset msg (helo_wire d ++ zeros (_MSG_BUFFER - 112)) (fset msg_id (next_id d) d)).
Proof.
  intros Hname. unfold helo_message.
  rewrite (zeros_words 9 _MSG_BUFFER) by done. cbn [replicate].
  do 4 wstore. erewrite bind_done by apply next_msg_id_run. cbv beta.
  change (next_id (fset msg _ _)) with (next_id d).
  change (fset msg_id (next_id d) (fset msg ?b d)) with (fset msg b (fset msg_id (next_id d) d)).
  wstore.
  erewrite bind_done.
  2:{ apply (load_bytes_run __myname 0 64 (take 64 (w_myname d))).
      change (fget __myname _) with (w_myname d). by rewrite slice_Some by lia. }
  cbv beta.
  assert (Hl : blen (take 64 (w_myname d)) = 64).
  { unfold blen in *. rewrite length_take. lia. }
  change (_MSG_BUFFER - 4 * Z.of_nat 9) with 9964.
  erewrite bind_done by (apply (append_bytes_run _ []); [done|by rewrite Hl]). cbv beta.
  rewrite Hl, app_nil_l.
  do 3 (erewrite bind_done by (apply append_word_run; [by rewrite !blen_app, Hl|done]); cbv beta).
  etrans; [apply (store_field_run 0); [done|by apply Nat.ltb_lt]|].
  do 2 f_equal. unfold helo_wire, helo_payload, encode_request.
  rewrite <- !(assoc_L (++)). done.
Qed.

(** The state when the HELO has been sent and [seg] received. *)
Definition greeted (o : OS) (seg : list byte) segs d : dll OS :=
  fset msg (seg ++ drop (length seg) (helo_wire d ++ zeros (_MSG_BUFFER - 112)))
    (fset socke (mkNet segs (rx_error (w_socke d)) (tx (w_socke d) ++ [helo_wire d]) [])
      (fset msg_id (next_id d) (fset system (heap _MSG_BUFFER o) (fset connected true d)))).

Definition helo_code (ah : ANSWER_HEADER) (len : Z) : Z :=
  if decide (u32 (ah_header_len ah + ah_body_len ah + ah_data_len ah) ≠ len ∨ ah_message_len ah ≠ len)
  then 6 else if decide (ah_proxy_error ah > 1) then 7
  else if decide (ah_message_type ah ≠ TYPE_PROXY_HELO) then 8 else 0.

Lemma helo_checks_run ah len d :
  decode_answer (w_msg d) = Some ah → helo_checks len d = (Done (helo_code ah len), d).
Proof.
  intros (Hml&Hhl&Hbl&Hdl&_&Hmt&_&_&Hpe&_)%decode_answer_loads. unfold helo_checks, helo_code.
  do 4 (erewrite bind_done by (by apply load_run); cbv beta).
  case_decide; [done|]. erewrite bind_done by (by apply load_run); cbv beta.
  case_decide; [done|]. erewrite bind_done by (by apply load_run); cbv beta.
  by case_decide.
Qed.

Lemma blen_helo_wire d : blen (w_myname d) = 256 → blen (helo_wire d) = 112.
Proof.
  intros Hn. unfold helo_wire, helo_payload. rewrite !blen_app, blen_encode_request, blen_words.
  unfold blen in *. rewrite length_take. unfold sizeof_REQUEST_HEADER. cbn [length]. lia.
Qed.

Lemma initConnection_greeted o1 o2 seg segs ah d :
  blen (w_myname d) = 256 → win_socket (w_os d) = (true, o1) →
  win_connect (w_toaddr d) (u16 (w_port d)) o1 = (true, o2) →
  tx_script (w_socke d) = [] → rx (w_socke d) = seg :: segs →
  sizeof_ANSWER_HEADER ≤ blen seg ≤ _MSG_BUFFER → decode_answer seg = Some ah →
  initConnection d =
    (if decide (helo_code ah (blen seg) ≠ 0) then closesocket;; mret (helo_code ah (blen seg))
     else helo_accepted) (greeted o2 seg segs d).
Proof using Hplenty.
  intros Hname Hso Hco Hscript Hrx Hseg Hah. pose proof (blen_helo_wire d Hname) as Hwire.
  unfold initConnection.
  rewrite (bind_done _ _ d true (fset system o1 d)).
  2:{ unfold zoom. change (fget system d) with (w_os d). by rewrite Hso. }
  cbv beta. cbn [negb]. erewrite bind_done by reflexivity. cbv beta.
  erewrite bind_done by reflexivity. cbv beta.
  rewrite (bind_done _ _ _ true (fset system o2 d)).
  2:{ unfold zoom. change (fget system _) with o1. change (fget toaddr _) with (w_toaddr d).
      change (fget _port _) with (w_port d). by rewrite Hco. }
  cbv beta. cbn [negb]. erewrite bind_done by reflexivity. cbv beta.
  erewrite bind_done by by apply malloc_run. cbv beta. cbn [negb].
  erewrite bind_done by by apply helo_message_run. cbv beta.
  match goal with |- context [helo_wire ?x] => change (helo_wire x) with (helo_wire d) end.
  erewrite bind_done.
  2:{ apply (load_bytes_run msg 0 _ (helo_wire d)). 
      eapply (slice_at _ [] _ (zeros (_MSG_BUFFER - 112))); [done|done|by rewrite Hwire]. }
  cbv beta. 
  rewrite (bind_done _ _ _ 112 (fset msg (helo_wire d ++ zeros (_MSG_BUFFER - 112))
    (fset socke (mkNet (rx (w_socke d)) (rx_error (w_socke d)) (tx (w_socke d) ++ [helo_wire d]) [])
      (fset msg_id (next_id d) (fset system (heap _MSG_BUFFER o2) (fset connected true d)))))).
  2:{ rewrite wsend_run, wire_result_complete by done. rewrite Hwire. done. }
  cbv beta. rewrite decide_False by by intros Hx.
  erewrite bind_done.
  2:{ eapply (wrecv_run seg segs); [done|done|unfold sizeof_ANSWER_HEADER in *; lia|].
      cbn [w_msg fset msg]. apply splice_front.
      rewrite blen_app, Hwire, blen_zeros by done. unfold _MSG_BUFFER in *. lia. }
  cbv beta. rewrite decide_False by (unfold sizeof_ANSWER_HEADER in *; lia).
  erewrite bind_done.
  2:{ apply helo_checks_run. cbn. by apply decode_answer_app_l. }
  cbv beta. done.
Qed.

(** ** Authentication without a type *)
Definition auth_request d : REQUEST_HEADER := mkRequest 112 36 4 0 (next_id d) TYPE_PROXY_AUTH 0 0 0.
(** The body has the type, the length of the message is that of a HELO. *)
Definition auth_wire (type : Z) d : list byte :=
  encode_request (auth_request d) ++ le_split 4 type ++ zeros 72.

Definition answer_ok (ah : ANSWER_HEADER) (len type : Z) : bool :=
  bool_decide (u32 (ah_header_len ah + ah_body_len ah + ah_data_len ah) = len ∧ ah_message_len ah = len ∧
               ah_proxy_error ah ≤ 1 ∧ ah_message_type ah = type).

Lemma answer_checks_run ah len type d :
  decode_answer (w_msg d) = Some ah → answer_checks len type d = (Done (answer_ok ah len type), d).
Proof.
  intros (Hml&Hhl&Hbl&Hdl&_&Hmt&_&_&Hpe&_)%decode_answer_loads. unfold answer_checks, answer_ok.
  do 4 (erewrite bind_done by (by apply load_run); cbv beta).
  case_decide; [by rewrite bool_decide_eq_false_2 by lia|].
  erewrite bind_done by (by apply load_run); cbv beta.
  case_decide; [by rewrite bool_decide_eq_false_2 by lia|].
  erewrite bind_done by (by apply load_run); cbv beta.
  unfold mret, M_ret. do 2 f_equal. apply bool_decide_ext. lia.
Qed.

Definition authenticated (type : Z) (seg : list byte) segs d : dll OS :=
  fset msg (seg ++ drop (length seg) (auth_wire type d ++ zeros (_MSG_BUFFER - 112)))
    (fset socke (mkNet segs (rx_error (w_socke d)) (tx (w_socke d) ++ [auth_wire type d]) [])
      (fset msg_id (next_id d) (fset system (heap _MSG_BUFFER (w_os d)) d))).

Lemma do_auth_run types type seg segs ah d :
  (if Z.land types AUTH_BY_IP =? 0 then Z.land types AUTH_USERPASS = 0 ∧ type = AUTH_NO_AUTH
   else type = AUTH_BY_IP) →
  w_open d = true → tx_script (w_socke d) = [] → rx (w_socke d) = seg :: segs →
  sizeof_ANSWER_HEADER ≤ blen seg ≤ _MSG_BUFFER → decode_answer seg = Some ah →
  do_auth types d =
    when (negb (answer_ok ah (blen seg) TYPE_PROXY_AUTH)) closesocket (authenticated type seg segs d).
Proof using Hplenty.
  intros Htype Hopen Hscript Hrx Hseg Hah. unfold do_auth.
  erewrite bind_done by by apply malloc_run. cbv beta. cbn [negb].
  erewrite (bind_done _ _ _ (type, 0)).
  2:{ destruct (Z.land types AUTH_BY_IP =? 0); [|by subst type].
      destruct Htype as [-> ->]. done. }
  cbv beta iota. 
  rewrite (zeros_words 10 _MSG_BUFFER) by done. cbn [replicate].
  do 4 wstore. erewrite bind_done by apply next_msg_id_run. cbv beta.
  match goal with |- context [next_id (fset msg ?b ?x)] => change (next_id (fset msg b x)) with (next_id d) end.
  match goal with |- context [fset msg_id (next_id d) (fset msg ?b ?x)] =>
    change (fset msg_id (next_id d) (fset msg b x)) with (fset msg b (fset msg_id (next_id d) x)) end.
  do 3 wstore.
  match goal with |- context [fset msg ?b (fset msg_id _ _)] =>
    replace b with (auth_wire type d ++ zeros (_MSG_BUFFER - 112)) end.
  2:{ unfold auth_wire. change (_MSG_BUFFER - 4 * Z.of_nat 10) with (72 + 9888).
      change (_MSG_BUFFER - 112) with 9888. rewrite <- !(assoc_L (++)).
      replace (zeros (72 + 9888)) with (zeros 72 ++ zeros 9888); [done|].
      unfold zeros. by rewrite <- replicate_add. }
  assert (Hwire : blen (auth_wire type d) = 112) by done.
  erewrite bind_done.
  2:{ apply (load_bytes_run msg 0 _ (auth_wire type d)).
      eapply (slice_at _ [] _ (zeros (_MSG_BUFFER - 112))); done. }
  cbv beta.
  rewrite (bind_done _ _ _ 112 (fset msg (auth_wire type d ++ zeros (_MSG_BUFFER - 112))
    (fset socke (mkNet (rx (w_socke d)) (rx_error (w_socke d)) (tx (w_socke d) ++ [auth_wire type d]) [])
      (fset msg_id (next_id d) (fset system (heap _MSG_BUFFER (w_os d)) d))))).
  2:{ rewrite wsend_run, wire_result_complete by done. by rewrite Hwire. }
  cbv beta. rewrite decide_False by by intros Hx.
  erewrite bind_done.
  2:{ eapply (wrecv_run seg segs); [done|done|unfold sizeof_ANSWER_HEADER in *; lia|].
      cbn [w_msg fset msg]. apply splice_front.
      rewrite blen_app, Hwire, blen_zeros by done. unfold _MSG_BUFFER in *. lia. }
  cbv beta. rewrite decide_False by (unfold sizeof_ANSWER_HEADER in *; lia).
  erewrite bind_done.
  2:{ apply answer_checks_run. cbn. by apply decode_answer_app_l. }
  cbv beta. done.
Qed.

(** ** The answer to the HELO *)
(** The session of the answer is taken over. *)
Definition session_taken (ah : ANSWER_HEADER) (t : Z) d : dll OS :=
  fset session_id (ah_session_id ah) (fset max_timeout (s32 t) d).

Lemma helo_accepted_run ah body rest t types d :
  w_msg d = encode_answer ah ++ body ++ rest → wf_answer ah → ah_header_len ah = sizeof_ANSWER_HEADER →
  get_u32 body HELO.timeout = Some t → get_u32 body HELO.auth_type = Some types →
  helo_accepted d =
    (when (bool_decide (ah_proxy_error ah = PERROR_AUTH_REQUIRED)) (do_auth types);;
     puts status 1;; mret 0) (session_taken ah t d).
Proof.
  intros Hmsg Hwf Hhl Ht Hty.
  assert (Hdec : decode_answer (w_msg d) = Some ah) by (rewrite Hmsg; by apply decode_answer_encode).
  assert (Hfield : ∀ off v, 0 ≤ off → get_u32 body off = Some v →
    get_u32 (w_msg d) (ah_header_len ah + off) = Some v).
  { intros off v Ho Hv. rewrite Hmsg, Hhl, <- (blen_encode_answer ah), get_le_app_r by done.
    by apply get_le_app_l. }
  apply decode_answer_loads in Hdec as (_&Hh&_&_&_&_&_&Hse&Hpe&_).
  unfold helo_accepted. erewrite bind_done by (by apply load_run); cbv beta.
  erewrite bind_done by (by apply load_run, Hfield); cbv beta.
  erewrite bind_done by reflexivity. cbv beta.
  erewrite bind_done by (by apply load_run); cbv beta.
  erewrite bind_done by reflexivity. cbv beta.
  erewrite bind_done by (by apply load_run); cbv beta.
  change (negb (AUTH_DESIRED =? 0)) with false. rewrite orb_false_r.
  case_bool_decide; cbn [when]; [|done]. rewrite bind_assoc.
  by rewrite (bind_done _ _ _ types (session_taken ah t d)) by by apply load_run, Hfield.
Qed.
End connect.

(** * The Windows client: unloading *)
Section detach.
Context {OS : Type} `{HW : !Win32 OS} `{HL : !Win32Laws OS}.
Implicit Types d : dll OS.

(** The callers in [q] find that there is no answer. *)
Definition cancelled (q : list evlhash) (m : gmap Z answer_ptr) : gmap Z answer_ptr :=
  foldl (λ m e, <[ev_data e := ILLEGAL_ANSWER]> m) m q.

Lemma lookup_cancelled q m a :
  cancelled q m !! a = if decide (a ∈ ev_data <$> q) then Some ILLEGAL_ANSWER else m !! a.
Proof.
  unfold cancelled. revert m. induction q as [|e q IH]; intros m; cbn [foldl fmap list_fmap]; [done|].
  rewrite IH. destruct (decide (a ∈ ev_data <$> q)) as [Hin|Hin].
  - rewrite decide_True; [done|by right].
  - destruct (decide (a = ev_data e)) as [->|Hne].
    + rewrite lookup_insert_eq, decide_True; [done|by left].
    + rewrite lookup_insert_ne, decide_False by set_solver. done.
Qed.

Lemma cancel_waiting_run q d :
  w_hash d = q → (∀ e, e ∈ q → is_Some (w_slots d !! ev_data e)) →
  cancel_waiting q d = (Done tt, fset slots (cancelled q (w_slots d)) (fset hash_start [] d)).
Proof.
  revert d. induction q as [|e q IH]; intros d Hq Hs; cbn [cancel_waiting].
  - unfold mret, M_ret. f_equal. destruct d. cbn in *. by subst.
  - destruct (Hs e) as [p Hp]; [by left|].
    erewrite bind_done.
    2:{ unfold store_slot. erewrite bind_done by reflexivity. cbv beta.
        change (fget slots d) with (w_slots d). rewrite Hp. reflexivity. }
    cbv beta. erewrite bind_done by reflexivity. cbv beta. etrans; [apply IH; [done|]|reflexivity].
    intros e' He'. change (is_Some (<[ev_data e := ILLEGAL_ANSWER]> (w_slots d) !! ev_data e')).
    destruct (decide (ev_data e = ev_data e')) as [->|Hne]; [rewrite lookup_insert_eq; eauto|].
    rewrite lookup_insert_ne by done. apply Hs. by right.
Qed.

(** Every application is released and its block freed, if no id is 0. *)
Lemma getfirst_loop_run l : ∀ d fuel,
  w_apps d = l → fuel = length l → Forall (λ e, ap_ApplID e ≠ 0) l → NoDup (owned_blocks l) →
  (∀ a, a ∈ owned_blocks l → is_Some (w_blocks d !! a)) →
  ∃ d', getfirst_loop fuel d = (Done tt, d') ∧ w_apps d' = [] ∧ w_slots d' = w_slots d ∧
    w_hash d' = w_hash d ∧ w_receiver d' = w_receiver d ∧ w_open d' = w_open d ∧
    ∀ a, w_blocks d' !! a = if decide (a ∈ owned_blocks l) then None else w_blocks d !! a.
Proof using HW.
  induction l as [|e l IH]; intros d fuel Hl -> Hid Hn Hb; cbn [length getfirst_loop];
    unfold getfirst_app; rewrite bind_assoc; erewrite bind_done by reflexivity; cbv beta;
    change (fget registered_apps d) with (w_apps d); rewrite Hl.
  - erewrite bind_done by reflexivity. cbv beta. rewrite decide_True by done.
    exists d. split_and!; try done.
  - inversion Hid as [|?? He Hid']; subst. 
    set (d1 := freed (ap_data e) (fset registered_apps l d)).
    rewrite (bind_done _ _ _ (ap_ApplID e) d1).
    2:{ erewrite bind_done by reflexivity. cbv beta. erewrite bind_done; [reflexivity|].
        apply free_data_run. destruct (ap_data e) as [a|] eqn:Ha; [|done].
        apply (Hb a). apply list_elem_of_omap. exists e. split; [by left|done]. }
    cbv beta. rewrite decide_False by done.
    assert (Ho : owned_blocks (e :: l) = match ap_data e with Some a => a :: owned_blocks l | None => owned_blocks l end) by done.
    assert (Hb1 : ∀ a, w_blocks d1 !! a = if decide (ap_data e = Some a) then None else w_blocks d !! a).
    { intros a. unfold d1. destruct (ap_data e) as [x|]; [|by rewrite decide_False].
      change (delete x (w_blocks d) !! a = if decide (Some x = Some a) then None else w_blocks d !! a).
      destruct (decide (x = a)) as [->|].
      - by rewrite lookup_delete_eq, decide_True.
      - rewrite lookup_delete_ne, decide_False by congruence. done. }
    rewrite Ho in *.
    destruct (IH d1 (length l)) as (d' & H1 & H2 & H3 & H4 & H5 & H6 & H7); try done.
    { unfold d1. by destruct (ap_data e). }
    { destruct (ap_data e); [by apply NoDup_cons in Hn as [_ ?]|done]. }
    { intros a Ha. rewrite Hb1. rewrite decide_False.
      - apply Hb. destruct (ap_data e); [by right|done].
      - intros Hx. rewrite Hx in Hn. by apply NoDup_cons in Hn as [? _]. }
    assert (Hd1 : w_slots d1 = w_slots d ∧ w_hash d1 = w_hash d ∧ w_receiver d1 = w_receiver d ∧ w_open d1 = w_open d).
    { unfold d1. by destruct (ap_data e). }
    destruct Hd1 as (E1 & E2 & E3 & E4).
    exists d'. split_and!; try congruence. intros a. rewrite H7, Hb1.
    destruct (ap_data e) as [x|]; repeat case_decide; set_solver.
Qed.

Lemma DllMain_detach_run d :
  dll_ok d → Forall (λ e, ap_ApplID e ≠ 0) (w_apps d) →
  (∀ e, e ∈ w_hash d → is_Some (w_slots d !! ev_data e)) →
  ∃ d', DllMain_detach d = (Done tt, d') ∧ w_open d' = false ∧ w_receiver d' = false ∧
    w_hash d' = [] ∧ w_apps d' = [] ∧ w_slots d' = cancelled (w_hash d) (w_slots d) ∧
    ∀ a, w_blocks d' !! a = if decide (a ∈ owned_blocks (w_apps d)) then None else w_blocks d !! a.
Proof using HL.
  intros Hok Hid Hs. unfold DllMain_detach, closesocket. do 3 (erewrite bind_done by reflexivity; cbv beta).
  change (fget hash_start _) with (w_hash d).
  erewrite bind_done by by apply cancel_waiting_run. cbv beta. unfold release_list.
  match goal with |- context [getfirst_loop _ ?x] => set (d1 := x) end.
  destruct (getfirst_loop_run (w_apps d) d1 (length (w_apps d))) as (d' & H1 & H2 & H3 & H4 & H5 & H6 & H7);
    [done|done|done|apply (ok_owner d Hok)|apply (ok_owned d Hok)|].
  exists d'. by split_and!.
Qed.
End detach.
