(* ===== verification/WClientProperties.v ===== *)
(** * The Windows client: properties *)
From stdpp Require Import gmap.
From S2P Require Import Prelude CMem Protocol Net Win32 WClient WClientSpec WClientCalls WClientAnswers WClientInv WClientSteps WClientCall WClientApps WClientConnect.
#[local] Open Scope Z_scope.

(** ** Callers, receiver thread and server at once *)
(** C7: however the threads of the DLL and the server interleave: as long as no thread
    uses a copy of [msg_id] or [hash_start] that another has overwritten meanwhile -
    and that is so when the application makes one call at a time -, malloc succeeds, the
    counter does not overflow and recv returns one answer, the receiver thread never
    stores through a null or a dangling pointer and the list stays intact, the calls
    that wait have different message ids, a call whose variable is set, or that has
    returned with an answer, has got the one to its own request. *)
Theorem answers_matched m es w :
  0 ≤ m < 2 ^ 32 →
  along careful es (loaded m) ∨ along (λ e w, one_at_a_time e w ∧ lucky e w) es (loaded m) →
  perform_all es (loaded m) = Some w →
  w_fault w = None ∧ (∃ l, list_at (w_shared w) l) ∧
  (∀ a1 a2 id, w_callers w !! a1 = Some (AtWait id) → w_callers w !! a2 = Some (AtWait id) → a1 = a2) ∧
  (∀ a id, w_callers w !! a = Some (AtWait id) →
     sh_answers (w_shared w) !! a = Some Null ∨
     ∃ b, sh_answers (w_shared w) !! a = Some (Message b) ∧ get_u32 b AH.message_id = Some id) ∧
  (∀ a id b, (a, id, Message b) ∈ w_results w → get_u32 b AH.message_id = Some id).
Proof.
  intros Hm Hes Hp. pose proof (winv_loaded m Hm) as Hl.
  assert (Hc : along careful es (loaded m)).
  { destruct Hes as [|Hes]; [done|]. by apply (alone_careful es _ Hl (alone_loaded m)). }
  pose proof (winv_all es _ _ Hl Hc Hp) as Hw. split_and!.
  - apply (wi_fault w Hw).
  - destruct (wi_list w Hw) as (l & ? & _). by exists l.
  - intros a1 a2 id H1 H2. by eapply (wi_inj w Hw a1 a2 _ _ id).
  - intros a id Ha. destruct (wi_list w Hw) as (l & _ & _ & Hcalls).
    destruct (Hcalls a _ Ha) as [[H _]|H]; [by left|by right].
  - apply (wi_results w Hw).
Qed.

(** C9: the calls that run at some time return: when no more start, the threads take
    at most nineteen steps for each, and until all have returned one of them can go on, or the
    server can answer; each returns with the answer to its own request, or
    with an error when the request was not sent.  The conditions are those of
    [answers_matched]; no request is sent in part, and recv does not fail. *)
Theorem calls_return m es es' w w' :
  0 ≤ m < 2 ^ 32 →
  along (λ e w, careful e w ∧ gets_through e) es (loaded m) → perform_all es (loaded m) = Some w →
  along (λ e w, careful e w ∧ gets_through e ∧ no_start e) es' w → perform_all es' w = Some w' →
  (length es' ≤ 19 * size (w_callers w))%nat ∧
  ((∃ e, gets_through e ∧ no_start e ∧ is_Some (perform e w')) ∨
   w_callers w' = ∅ ∧
   ∀ a c, w_callers w !! a = Some c → ∃ id p, (a, id, p) ∈ w_results w' ∧ (is_Some (id_of c) → id_of c = Some id) ∧
     (p = ILLEGAL_ANSWER ∨ ∃ b, p = Message b ∧ get_u32 b AH.message_id = Some id)).
Proof.
  intros Hm Ha Hp Ha' Hp'. destruct (awaited_all es _ _ (winv_loaded m Hm) (awaited_loaded m) Ha Hp) as [Hw Haw].
  assert (Hc : along (λ e w, careful e w ∧ gets_through e) es' w) by (eapply along_impl; [|exact Ha']; naive_solver).
  destruct (awaited_all es' _ _ Hw Haw Hc Hp') as [Hw' Haw']. split.
  { pose proof (rank_all es' w w' Hw Ha' Hp'). pose proof (rank_bound w Hw). lia. }
  destruct (decide (w_callers w' = ∅)) as [He|(a & c & Hac)%map_choose]; [right|left; by eapply progress].
  split; [done|]. intros a c Hc'.
  destruct (same_call_all es' a (id_of c) w w' Hp') as [(c' & H & _)|(id & p & Hr & Hpn & Hid)]; [left; by exists c| |].
  { by rewrite He, lookup_empty in H. }
  exists id, p. split_and!; [done|done|]. destruct p as [| |b]; [done|by left|right]. exists b. split; [done|].
  by eapply (wi_results w' Hw').
Qed.

(** The steps of a call up to the last before its critical section; its first [send] and
    all that follows go well. *)
Definition to_section (a : Z) : list event := Start a :: replicate 4 (Call a None SentWhole).
Definition step (a : Z) : event := Call a None SentWhole.

(** Two calls read [hash_start] before either has entered its request. *)
Definition lost_entry : list event :=
  to_section 100 ++ to_section 200 ++
  [Call 100 (Some 1%positive) SentWhole; Call 200 (Some 2%positive) SentWhole; step 100; Answer 0 (some_answer 1);
   Receive 40; Receive 0; Receive 0; Receive 0; Receive 0].

(** Two calls one after the other; recv returns both answers. *)
Definition two_answers : list event :=
  to_section 100 ++ [Call 100 (Some 1%positive) SentWhole; step 100] ++
  to_section 200 ++ [Call 200 (Some 2%positive) SentWhole; step 200] ++
  [Answer 0 (some_answer 1); Answer 0 (some_answer 2); Receive 80; Receive 0; Receive 0; Receive 0; Receive 0; step 100].

(** The conditions are needed.  Two calls at the same time can lose an entry of the
    list, since addToHash reads [hash_start] before it enters its critical section: the receiver thread stores the
    answer through a null pointer.  And when recv returns two answers, the second is
    dropped, and the call that waits for it waits although nothing is on its way any more. *)
Theorem answers_lost :
  (∃ w, along (λ e w, lucky e w ∧ gets_through e) lost_entry (loaded 0) ∧ perform_all lost_entry (loaded 0) = Some w ∧
     w_fault w = Some NullDeref) ∧
  (∃ w, along (λ e w, undisturbed e w ∧ gets_through e) two_answers (loaded 0) ∧
     perform_all two_answers (loaded 0) = Some w ∧
     w_callers w !! 200 = Some (AtWait 2) ∧ ∀ e, gets_through e → no_start e → perform e w = None).
Proof.
  split.
  - eexists. split; [|split; [vm_compute; reflexivity|reflexivity]].
    vm_compute. repeat first [exact I|reflexivity|discriminate|eexists|split].
  - eexists. split; [|split; [vm_compute; reflexivity|]].
    + vm_compute. repeat first [exact I|reflexivity|discriminate|split].
    + split; [reflexivity|]. by apply (stuck _ 200 2).
Qed.

Section properties.
Context {OS : Type} `{HW : !Win32 OS}.
Implicit Types d : dll OS.

(** ** One call *)
(** C23: each of the ten exported functions sends exactly one request, header and
    body as the protocol has them, under the next message id, waits for the
    answer with that id, and returns what that answer says when it passes
    [verifyMessage] and its failure code otherwise; the list of outstanding
    requests and the variables of the other callers are as before. *)
Theorem call_exchange mem answer m data c seg segs ah d :
  plenty (OS:=OS) → call_message mem m data c → ready answer seg segs d →
  decode_answer seg = Some ah → ah_message_id ah = next_id d →
  ∃ d', run_call mem answer c d =
      (if bool_decide (accepts ah (call_type c)) then call_answered c (received_in seg)
       else mret (call_failed c)) d' ∧
    (let '(h, pay) := call_request m data c d in
     rh_message_id h = next_id d ∧ rh_session_id h = w_session_id d ∧
     rh_message_type h = call_type c ∧ rh_message_len h = sizeof_REQUEST_HEADER + blen pay ∧
     tx (w_socke d') = tx (w_socke d) ++ [encode_request h ++ pay]) ∧
    rx (w_socke d') = segs ∧ w_msg_id d' = next_id d ∧ w_hash d' = w_hash d ∧ w_slots d' = w_slots d ∧
    w_apps d' = w_apps d ∧ w_blocks d' = w_blocks d.
Proof.
  intros Hp Hm Hr Hah Hid. eexists. split.
  { rewrite (run_call_exchange mem Hp answer m data c seg segs ah d) by done. reflexivity. }
  split; [|done].
  assert (Hlen : let '(h, pay) := call_request m data c d in
    rh_message_id h = next_id d ∧ rh_session_id h = w_session_id d ∧ rh_message_type h = call_type c).
  { by destruct c. }
  pose proof (call_request_ok mem m data c d Hm) as Hok.
  destruct (call_request m data c d) as [h pay]. destruct Hlen as (H1&H2&H3), Hok as (_&H4&_).
  split_and!; done.
Qed.

(** A message of the application, and the data a DATA_B3_REQ points to, are
    copied behind the request header; they are not checked against the size of
    the buffer: 9963 bytes fit, with more the copy runs over its end. *)
Theorem put_message_call mem answer appl p m data d :
  plenty (OS:=OS) → app_message mem p m data →
  (37 + blen m + blen data ≤ _MSG_BUFFER →
   ∀ seg segs ah, ready answer seg segs d → decode_answer seg = Some ah → ah_message_id ah = next_id d →
   ∃ d', CAPI_PUT_MESSAGE mem answer appl p d =
       (Done (if decide (accepts ah TYPE_CAPI_PUTMESSAGE) then ah_capi_error ah else CAPI_OS_ERROR), d') ∧
     tx (w_socke d') = tx (w_socke d) ++
       [encode_request (mkRequest (37 + blen m + blen data) 36 1 (blen m + blen data) (next_id d)
          TYPE_CAPI_PUTMESSAGE appl 0 (w_session_id d)) ++ x00 :: m ++ data]) ∧
  (_MSG_BUFFER < 37 + blen m + blen data →
   ∃ d', CAPI_PUT_MESSAGE mem answer appl p d = (Faulted OutOfBounds, d') ∧ tx (w_socke d') = tx (w_socke d)).
Proof.
  intros Hp Hm. split.
  - intros Hfit seg segs ah Hr Hah Hid.
    rewrite (CAPI_PUT_MESSAGE_prepare Hp mem answer appl p m data d Hm Hfit).
    pose proof (call_request_ok mem m data (PutMessage appl p) d (conj Hm Hfit)) as (H1 & H2 & H3).
    rewrite (with_answer_run Hp) with (segs := segs) (seg := seg) (ah := ah) by done.
    case_bool_decide; [rewrite decide_True by done|rewrite decide_False by done]; eexists.
    + erewrite answer_result_run; [done|by apply decode_answer_app_l|]. by destruct H as (_&_&_&_&?&_).
    + done.
  - intros Hbig. destruct (CAPI_PUT_MESSAGE_fault Hp mem answer appl p m data d Hm Hbig) as (d' & Hd & Hs).
    exists d'. by rewrite Hs.
Qed.

(** A message of the server is copied to a block of its
    own, with the pointer of a DATA_B3_IND leading to the data behind the
    message, and the caller gets the address of the block.  The application's entry keeps the
    block, the previous one is freed.  An application that is not in the list
    gets the address of a block that has been freed again.  Data of less than
    eight bytes are an error of the operating system, whatever the server
    says. *)
Theorem get_message_call `{HL : !Win32Laws OS} answer appl ah body data segs d :
  plenty (OS:=OS) → dll_ok d → wf_message ah body data →
  ready answer (answer_message ah body data) segs d →
  ah_message_id ah = next_id d → accepts ah TYPE_CAPI_GETMESSAGE →
  (blen data < 8 → ∃ d', CAPI_GET_MESSAGE answer appl d = (Done (CAPI_OS_ERROR, None), d') ∧
     w_apps d' = w_apps d ∧ w_blocks d' = w_blocks d) ∧
  (8 ≤ blen data → ∀ a o' m,
     GlobalAlloc (blen data) (heap _MSG_BUFFER (heap sizeof_evlhash (heap _MSG_BUFFER (w_os d)))) = (Some a, o') →
     message_for a data = Some m →
     ∃ d', CAPI_GET_MESSAGE answer appl d = (Done (ah_capi_error ah, Some a), d') ∧
     match find_app appl (w_apps d) with
     | Some old =>
         find_app appl (w_apps d') = Some (Some a) ∧ w_blocks d' !! a = Some m ∧
         (∀ o, old = Some o → w_blocks d' !! o = None)
     | None => w_apps d' = w_apps d ∧ w_blocks d' !! a = None
     end).
Proof.
  intros Hp Hok Hw Hr Hid Hacc. pose proof (message_decode _ _ _ Hw) as Hdec.
  assert (Hpe : ah_proxy_error ah = PERROR_NONE) by (by destruct Hacc as (_&_&_&_&?&_)).
  assert (Hrun : CAPI_GET_MESSAGE answer appl d =
    getmessage_answered appl (received_in (answer_message ah body data))
      (exchanged (empty_wire TYPE_CAPI_GETMESSAGE appl 0 d) (answer_message ah body data) segs d)).
  { rewrite (CAPI_GET_MESSAGE_prepare Hp), (with_answer_run Hp) with (segs := segs) (ah := ah)
      (seg := answer_message ah body data) by done. by rewrite bool_decide_eq_true_2. }
  rewrite Hrun. split.
  - intros Hs. eexists. by rewrite (getmessage_short appl ah body data).
  - intros Hl a o' m Ha Hm. pose proof (new_block d a _ _ Hok Ha) as Hnew.
    match goal with |- ∃ d', getmessage_answered _ _ ?x = _ ∧ _ => set (d1 := x) end.
    destruct (getmessage_stored appl ah body data a o' m d1) as (d' & Hd' & Hrest);
      [done..| |by exists d'].
    intros old Hold. exact (known_live d appl old Hok Hold).
Qed.

(** What the functions without arguments report of a message of the server. *)
Definition reported (c : capi_call) (ah : ANSWER_HEADER) (body : list byte) : option capi_result :=
  match c with
  | PutMessage _ _ | WaitForSignal _ | Installed => Some (RCode (ah_capi_error ah))
  | GetManufacturer => m ← slice body 0 64; Some (RManufacturer (Some m))
  | GetSerialNumber => m ← slice body 0 8; Some (RBytes (ah_capi_error ah, Some m))
  | GetProfile _ => m ← slice body 0 64; Some (RBytes (ah_capi_error ah, Some m))
  | GetVersion =>
      a ← get_u32 body VERSION.driver_major;
      b ← get_u32 body VERSION.driver_minor;
      e ← get_u32 body VERSION.manufacturer_major;
      f ← get_u32 body VERSION.manufacturer_minor;
      Some (RVersion (ah_capi_error ah, Some (mkVersion a b, mkVersion e f)))
  | Register _ _ _ _ | Release _ | GetMessage _ => None
  end.

(** What the functions that keep no state of their own return is what the body of
    the answer says, the part the structure of the protocol has for it; the
    version of the driver is handed out as the one of CAPI. *)
Theorem query_calls mem answer m data c ah body adata segs d r :
  plenty (OS:=OS) → call_message mem m data c → wf_message ah body adata →
  ready answer (answer_message ah body adata) segs d → ah_message_id ah = next_id d →
  accepts ah (call_type c) → reported c ah body = Some r →
  ∃ d', run_call mem answer c d = (Done r, d') ∧ w_apps d' = w_apps d ∧ w_blocks d' = w_blocks d.
Proof.
  intros Hp Hm Hw Hr Hid Hacc Hrep. pose proof (message_decode _ _ _ Hw) as Hdec.
  pose proof (received_decode _ _ _ Hw) as Hrd.
  assert (Hpe : ah_proxy_error ah = PERROR_NONE) by (by destruct Hacc as (_&_&_&_&?&_)).
  rewrite (run_call_exchange mem Hp answer m data c _ segs ah d) by done.
  rewrite bool_decide_eq_true_2 by done.
  match goal with |- context [exchanged ?w ?s segs d] => set (d1 := exchanged w s segs d) end.
  exists d1. split; [|by split]. clearbody d1.
  destruct c; cbn [reported call_answered] in *; unfold version_answered; try done;
    repeat match goal with H : (_ ≫= _) = Some _ |- _ => apply bind_Some in H as (? & ? & H) end;
    injection Hrep as <-; rewrite ?bind_assoc;
    repeat (erewrite bind_done by first [by apply answer_body_run|by apply answer_body32_run
      |by apply answer_result_run|reflexivity]; cbv beta; rewrite ?bind_assoc); reflexivity.
Qed.


(** C25: the linked list of applications implements a finite map from ids to blocks:
    entering, removing and giving a block to an application always succeed, each has the effect of the map operation, and looking an
    application up finds what the map has; blocks no application owns any more
    are freed. *)
Theorem app_list_map `{HL : !Win32Laws OS} ops d d' :
  plenty (OS:=OS) → apps_ok d → ops_run ops d d' →
  apps_ok d' ∧
  apps_map (w_apps d') = foldl (λ m op, spec_op op m) (apps_map (w_apps d)) ops ∧
  (∀ i, getdata_app i d' = (Done (mjoin (apps_map (w_apps d') !! i)), d')) ∧
  (∀ op, op_allowed op d' → ∃ d'', run_op op d' = (Done tt, d'')).
Proof.
  intros Hp Hok Hr. destruct (ops_run_map Hp ops d d' Hok Hr) as [Hok' Hm]. split_and!; [done|done| |].
  - intros i. unfold getdata_app. erewrite bind_done by reflexivity. by rewrite <- find_app_map.
  - intros op Hop. destruct (run_op_map Hp op d' Hok' Hop) as (d'' & H & _). by exists d''.
Qed.

(** ** What goes wrong *)
(** There is no timeout: when the connection has come
    to its end, or the receiver thread has ended before, a call whose request
    can still be sent never returns. *)
Theorem lost_connection_hangs mem answer m data c d :
  plenty (OS:=OS) → call_message mem m data c → w_open d = true → tx_script (w_socke d) = [] →
  (rx_bytes (w_socke d) = [] ∨ w_receiver d = false) →
  ∃ d', run_call mem answer c d = (Faulted Hung, d').
Proof. intros Hp. by apply run_call_hung. Qed.

(** An answer with an id nobody asked under makes the receiver thread store
    through a null pointer.  A request that cannot be sent lets its call return
    with an error but stays in the list of outstanding requests with the address of the variable
    [answer] of the call that is gone: an answer with its id is then stored
    through a dangling pointer. *)
Theorem unexpected_answer mem answer m data c seg segs d :
  plenty (OS:=OS) → w_open d = true → sizeof_ANSWER_HEADER ≤ blen seg ≤ _MSG_BUFFER →
  hash_find (next_id d) (w_hash d) = None → get_u32 seg AH.message_id = Some (next_id d) →
  (rx (w_socke d) = seg :: segs → (messageDispatcher_round d).1 = Faulted NullDeref) ∧
  (call_message mem m data c → send_fails d → w_slots d !! answer = None →
   ∃ d', run_call mem answer c d = (Done (call_failed c), d') ∧
     w_hash d' = w_hash d ++ [mkEvl (next_id d) answer] ∧
     ∀ w, rx w = seg :: segs → (messageDispatcher_round (fset socke w d')).1 = Faulted Dangling).
Proof.
  intros Hp Hopen Hseg Hh Hid. split.
  - intros Hrx. rewrite (round_unexpected Hp seg segs (next_id d)) by done. by rewrite Hh.
  - intros Hm Hf Hs. destruct (run_call_send_failed mem Hp answer m data c d Hm Hf Hs) as (d' & Hd & Hhash & Hsl & Ho & _).
    exists d'. split_and!; [done..|]. intros w Hrx.
    rewrite (round_unexpected Hp seg segs (next_id d)); [|by rewrite <- Ho in Hopen|done..].
    change (w_hash (fset socke w d')) with (w_hash d'). change (w_slots (fset socke w d')) with (w_slots d').
    assert (hash_find (next_id d) (w_hash d') = Some answer) as ->.
    { rewrite Hhash, hash_find_app by done. by rewrite decide_True. }
    by rewrite Hsl, Hs.
Qed.

(** ** Unloading *)
(** Unloading closes the connection, lets every call that
    waits return with an error, empties both lists and frees the blocks of the
    applications - if the variables of all outstanding requests still exist and no
    application has the id 0. *)
Theorem detach_releases `{HL : !Win32Laws OS} d :
  dll_ok d → Forall (λ e, ap_ApplID e ≠ 0) (w_apps d) →
  (∀ e, e ∈ w_hash d → is_Some (w_slots d !! ev_data e)) →
  ∃ d', DllMain_detach d = (Done tt, d') ∧ w_open d' = false ∧ w_receiver d' = false ∧
    w_hash d' = [] ∧ w_apps d' = [] ∧
    (∀ e, e ∈ w_hash d → w_slots d' !! ev_data e = Some ILLEGAL_ANSWER) ∧
    (∀ a, w_blocks d' !! a = if decide (a ∈ owned_blocks (w_apps d)) then None else w_blocks d !! a) ∧
    dll_ok d'.
Proof.
  intros Hok Hid Hs. destruct (DllMain_detach_run d Hok Hid Hs) as (d' & Hd & H1 & H2 & H3 & H4 & H5 & H6).
  exists d'. split_and!; try done.
  - intros e He. rewrite H5, lookup_cancelled, decide_True; [done|]. by apply list_elem_of_fmap_2.
  - pose proof (keeps_DllMain_detach d Hok) as (_ & Hk & _). by rewrite Hd in Hk.
Qed.
End properties.
