(* ===== verification/ClientServer.v ===== *)
(** * The Windows client and the Linux server together

    What the client of WClient.v puts on the wire is what the connection handler
    of Capifwd.v takes from its socket, and the other way round. *)
From stdpp Require Import gmap.
From S2P Require Import Prelude CMem Protocol Net Capi20 AppIndex Server Packet Exec Proxy Capifwd ExecSpec MessageSpec ProxySpec Handled Handlers CapifwdSpec Served Win32 WClient WClientSpec WClientCalls WClientAnswers WClientInv WClientCall WClientApps WClientConnect.
#[local] Open Scope Z_scope.

Lemma cstr_app_l b rest s : cstr b = Some s → cstr (b ++ rest) = Some s.
Proof.
  revert s. induction b as [|c b IH]; intros s; cbn; [done|]. case_decide; [done|].
  destruct (cstr b) as [t|]; [|done]. by rewrite (IH t).
Qed.

Lemma cstr_length b s : cstr b = Some s → blen s < blen b.
Proof.
  revert s. induction b as [|c b IH]; intros s; cbn; [done|]. unfold blen in *. case_decide.
  - intros [= <-]. cbn. lia.
  - destruct (cstr b) as [t|]; [|done]. intros [= <-]. specialize (IH t eq_refl). cbn. lia.
Qed.

Definition word32 (z : Z) : Prop := 0 ≤ z < 2 ^ 32.

Lemma request_wf ml hl bl dl mid type app ctrl session :
  word32 ml → word32 hl → word32 bl → word32 dl → word32 mid → word32 type → word32 app → word32 ctrl →
  word32 session → wf_request (mkRequest ml hl bl dl mid type app ctrl session).
Proof. intros. repeat (apply Forall_cons; split; [done|]). by apply Forall_nil. Qed.
Lemma answer_wf ml hl bl dl mid type app session pe ce :
  word32 ml → word32 hl → word32 bl → word32 dl → word32 mid → word32 type → word32 app → word32 session →
  word32 pe → word32 ce → wf_answer (mkAnswer ml hl bl dl mid type app session pe ce).
Proof. intros. repeat (apply Forall_cons; split; [done|]). by apply Forall_nil. Qed.

Lemma next_id_word {OS} (d : dll OS) : word32 (next_id d).
Proof. apply Z.mod_pos_bound. lia. Qed.
Ltac wf_words :=
  first [apply request_wf|apply answer_wf];
  first [assumption|apply next_id_word|unfold word32; eval_range|idtac].

Section together.
Context `{CapiHeader} {CS : Type} `{Capi20 CS} `{!Capi20Laws CS}.
Context {OS : Type} `{HW : !Win32 OS} (Hplenty : plenty (OS:=OS)).
Implicit Types (s : server CS) (d : dll OS).

(** The client with what the server sent to it before it in the receive buffer. *)
Definition to_receive (segs : list (list byte)) d : dll OS :=
  fset socke (mkNet segs false (tx (w_socke d)) []) d.

(** A request of the client arrives. *)
Lemma arrives_request (h : REQUEST_HEADER) pay rest s :
  wf_request h → rx_bytes (fget sock s) = (encode_request h ++ pay) ++ rest →
  rh_message_len h = sizeof_REQUEST_HEADER + blen pay → 0 < blen pay →
  sizeof_REQUEST_HEADER + blen pay ≤ PACKET_SIZE → arrives h pay rest s.
Proof. intros Hwf Hrx Hl Hp Hf. by split. Qed.

(** ** The server's view of the HELO *)
Lemma helo_client_windows d name rest :
  blen (w_myname d) = 256 → cstr (take 64 (w_myname d)) = Some name →
  helo_client (helo_request d) (encode_request (helo_request d) ++ helo_payload d ++ rest) =
    Some (OS_TYPE_WINDOWS, mkVersion VERSION_MAJOR VERSION_MINOR, name).
Proof.
  intros Hn Hc. unfold helo_client. change (rh_header_len (helo_request d)) with 36.
  assert (Ht : blen (take 64 (w_myname d)) = 64) by (unfold blen in *; rewrite length_take; lia).
  set (ws := words [OS_TYPE_WINDOWS; VERSION_MAJOR; VERSION_MINOR]).
  assert (Hfield : ∀ off v, get_u32 ws (off - 64) = Some v → 64 ≤ off →
    get_u32 (encode_request (helo_request d) ++ helo_payload d ++ rest) (36 + off) = Some v).
  { intros off v Hv Ho. rewrite <- (blen_encode_request (helo_request d) : _ = 36), get_le_app_r by lia.
    unfold helo_payload. fold ws. rewrite <- (assoc_L (++)).
    replace off with (blen (take 64 (w_myname d)) + (off - 64)) by lia. rewrite get_le_app_r by lia.
    by apply get_le_app_l. }
  rewrite (Hfield HELO.os OS_TYPE_WINDOWS) by done. cbn [mbind option_bind].
  rewrite (Hfield HELO.version_major VERSION_MAJOR) by done. cbn [mbind option_bind].
  rewrite (Hfield HELO.version_minor VERSION_MINOR) by done. cbn [mbind option_bind].
  change (36 + HELO.name) with 36.
  rewrite (slice_at _ (encode_request (helo_request d)) (helo_payload d ++ rest) []);
    [|by rewrite app_nil_r|by rewrite blen_encode_request|rewrite blen_app, blen_encode_request; unfold sizeof_REQUEST_HEADER; lia].
  cbn [mbind option_bind]. unfold helo_payload. rewrite <- (assoc_L (++)).
  by rewrite (cstr_app_l _ _ name).
Qed.

(** ** What the server answers *)
Lemma helo_answer_wf d s :
  wf_server s → wf_message (helo_header (helo_request d) s) (helo_body (fget local_version s) (payload_area s)) [].
Proof.
  intros Hwf. pose proof (next_id_word d) as Hn. pose proof (wf_session s Hwf) as Hs.
  assert (Hb : blen (helo_body (fget local_version s) (payload_area s)) = 84).
  { unfold blen. rewrite length_helo_body; [done|]. rewrite length_payload_area by done. lia. }
  split.
  - unfold helo_header, helo_request. cbn [rh_message_id]. wf_words.
  - done.
  - by rewrite Hb.
  - done.
  - rewrite blen_answer_message, Hb. done.
  - rewrite blen_answer_message, Hb. done.
Qed.

Lemma helo_body_fields v area :
  (84 ≤ length area)%nat →
  get_u32 (helo_body v area) HELO.auth_type = Some AUTH_NO_AUTH ∧
  is_Some (get_u32 (helo_body v area) HELO.timeout).
Proof.
  intros Ha. split.
  - unfold helo_body. rewrite (assoc_L (++)).
    set (pre := (helo_server_name ++ [x00]) ++ take 30 (drop 34 area)).
    assert (Hp : blen pre = 64).
    { unfold pre, blen. rewrite length_app, length_take, length_drop. change (length (helo_server_name ++ [x00])) with 34%nat. lia. }
    change HELO.auth_type with (64 + 12). rewrite <- Hp, get_le_app_r by done.
    by apply get_le_app_l.
  - apply get_le_is_Some; [done|].
    unfold blen. rewrite length_helo_body by done. done.
Qed.

(** ** Opening a connection *)
(** The request for authentication that follows the HELO of [d]. *)
Definition next_auth_wire d : list byte := auth_wire AUTH_NO_AUTH (fset msg_id (next_id d) d).

(** The server answers both. *)
Lemma serve_opening s d rest name :
  inv s → tx_script (fget sock s) = [] → blen (w_myname d) = 256 →
  cstr (take 64 (w_myname d)) = Some name →
  rx_bytes (fget sock s) = helo_wire d ++ next_auth_wire d ++ rest →
  ∃ s', (handle_message;; handle_message) s = (Done tt, s') ∧ goes_on s s' ∧
    rx_bytes (fget sock s') = rest ∧
    tx (fget sock s') = tx (fget sock s) ++
      [answer_message (helo_header (helo_request d) s) (helo_body (fget local_version s) (payload_area s)) [];
       encode_answer (auth_header (auth_request (fset msg_id (next_id d) d)) s PERROR_AUTH_TYPE_NOT_SUPPORTED)].
Proof using CS Capi20Laws0.
  intros Hi Hscript Hname Hc Hrx.
  assert (Hpay : blen (helo_payload d) = 76).
  { unfold helo_payload. rewrite blen_app, blen_words. unfold blen in *. rewrite length_take. cbn [length]. lia. }
  edestruct (serve_helo (helo_request d) (helo_payload d) (next_auth_wire d ++ rest) s) as (s1 & H1 & Hgo1 & [Htx1 Hrx1] & _);
    [done| |done|done|by apply helo_client_windows| |].
  { apply arrives_request; [unfold helo_request; wf_words|exact Hrx|by rewrite Hpay|by rewrite Hpay|].
    rewrite Hpay. done. }
  { apply cstr_length in Hc. unfold blen in *. rewrite length_take in Hc. lia. }
  pose proof Hgo1 as (Hi1 & Hs1 & Hse1).
  set (d1 := fset msg_id (next_id d) d) in *.
  edestruct (serve_auth_unsupported (auth_request d1) (le_split 4 AUTH_NO_AUTH ++ zeros 72) rest s1 AUTH_NO_AUTH)
    as (s2 & H2 & Hgo2 & [Htx2 Hrx2]); [done| |done|done|done|done|done|done|].
  { apply arrives_request; [unfold auth_request; wf_words|exact Hrx1|done..]. }
  exists s2. split_and!.
  - by erewrite bind_done by exact H1.
  - destruct Hgo2 as (Hi2 & Hs2 & Hse2). split_and!; [done|done|congruence].
  - done.
  - rewrite Htx2, Htx1, app_nil_r, <- (assoc_L (++)). cbn [app]. unfold answer_message. rewrite app_nil_r.
    unfold auth_header. rewrite Hse1. done.
Qed.

(** The client closes its socket when it reads them, and reports success. *)
Lemma initConnection_refused s d name o1 o2 :
  inv s → blen (w_myname d) = 256 → cstr (take 64 (w_myname d)) = Some name →
  win_socket (w_os d) = (true, o1) → win_connect (w_toaddr d) (u16 (w_port d)) o1 = (true, o2) →
  ∃ d', initConnection
    (to_receive [answer_message (helo_header (helo_request d) s) (helo_body (fget local_version s) (payload_area s)) [];
       encode_answer (auth_header (auth_request (fset msg_id (next_id d) d)) s PERROR_AUTH_TYPE_NOT_SUPPORTED)] d)
    = (Done 0, d') ∧ w_open d' = false ∧ w_session_id d' = fget sessionID s ∧ w_slots d' = w_slots d ∧
    tx (w_socke d') = tx (w_socke d) ++ [helo_wire d; next_auth_wire d].
Proof using Hplenty.
  intros Hi Hname Hc Hso Hco. pose proof (inv_wf s Hi) as Hwf.
  pose proof (helo_answer_wf d s Hwf) as Hw.
  set (ah := helo_header (helo_request d) s) in *.
  set (bd := helo_body (fget local_version s) (payload_area s)) in *.
  set (m1 := answer_message ah bd []). set (d1 := fset msg_id (next_id d) d).
  set (ah2 := auth_header (auth_request d1) s PERROR_AUTH_TYPE_NOT_SUPPORTED).
  set (dr := to_receive [m1; encode_answer ah2] d).
  assert (Hm1 : blen m1 = 124) by (unfold m1; by rewrite <- (wr_message _ _ _ Hw)).
  rewrite (initConnection_greeted Hplenty o1 o2 m1 [encode_answer ah2] ah dr);
    [|done..|by apply message_length|by apply message_decode].
  assert (Hcode : helo_code ah (blen m1) = 0).
  { rewrite Hm1. reflexivity. }
  rewrite decide_False by (rewrite Hcode; by intros Hx).
  destruct (helo_body_fields (fget local_version s) (payload_area s)) as [Hty [t Ht]].
  { rewrite length_payload_area by done. lia. }
  set (dg := greeted o2 m1 [encode_answer ah2] dr).
  rewrite (helo_accepted_run ah bd (drop (length m1) (helo_wire dr ++ zeros (_MSG_BUFFER - 112))) t AUTH_NO_AUTH);
    [|..|exact Ht|exact Hty].
  2:{ unfold dg, greeted, m1, answer_message. cbn [w_msg fset msg]. by rewrite <- !(assoc_L (++)). }
  2-3: apply Hw.
  rewrite bool_decide_eq_true_2 by done. cbn [when].
  assert (Hah2 : wf_answer ah2).
  { unfold ah2, auth_header. rewrite decide_False by done. cbn [rh_message_id auth_request]. wf_words. }
  set (ds := session_taken ah t dg).
  assert (Ha : do_auth AUTH_NO_AUTH ds =
    when (negb (answer_ok ah2 (blen (encode_answer ah2)) TYPE_PROXY_AUTH)) closesocket
      (authenticated AUTH_NO_AUTH (encode_answer ah2) [] ds)).
  { apply (do_auth_run Hplenty); try done.
    - rewrite <- (app_nil_r (encode_answer ah2)). by apply decode_answer_encode. }
  change (answer_ok ah2 _ TYPE_PROXY_AUTH) with false in Ha.
  erewrite bind_done by exact Ha. cbv beta. erewrite bind_done by reflexivity. cbv beta.
  eexists. split; [reflexivity|]. split_and!; try done.
  change ((tx (w_socke d) ++ [helo_wire d]) ++ [next_auth_wire d] = tx (w_socke d) ++ [helo_wire d; next_auth_wire d]).
  by rewrite <- (assoc_L (++)).
Qed.

(** Without a connection every call fails. *)
Lemma closed_fails mem answer m data c d :
  call_message mem m data c → w_open d = false → w_slots d !! answer = None →
  ∃ d', run_call mem answer c d = (Done (call_failed c), d') ∧ w_open d' = false ∧ w_slots d' = w_slots d.
Proof using Hplenty.
  intros Hm Ho Hs. destruct (run_call_send_failed mem Hplenty answer m data c d) as (d' & Hd & _ & H1 & H2 & _);
    [done| |done|].
  - intros bs. unfold wire_result. rewrite Ho. by right.
  - exists d'. split_and!; [done|by rewrite H2|done].
Qed.

(** ** One call of an application, through the server, to the library *)
(** The client and the handler of its connection are between two calls, and
    agree on the session. *)
Record in_session (answer : Z) d s : Prop := {
  is_inv : inv s;
  is_script : tx_script (fget sock s) = [];
  is_session : w_session_id d = fget sessionID s;
  is_open : w_open d = true;
  is_receiver : w_receiver d = true;
  is_hash : hash_find (next_id d) (w_hash d) = None;
  is_slot : w_slots d !! answer = None;
}.

Lemma in_session_ready answer d s ah body data :
  in_session answer d s → wf_message ah body data →
  ready answer (answer_message ah body data) [] (to_receive [answer_message ah body data] d).
Proof. intros [] Hw. split; try done. by apply message_length. Qed.

(** The answer of a server that has no body. *)
Lemma plain_answer_wf mid type app session rc data :
  word32 mid → word32 type → word32 app → word32 session → 0 ≤ rc < 2 ^ 16 →
  40 + blen data ≤ _MSG_BUFFER →
  wf_message (mkAnswer (40 + blen data) 40 0 (blen data) mid type app session 0 rc) [] data.
Proof.
  intros ? ? ? ? ? Hf. pose proof (blen_nonneg data). unfold _MSG_BUFFER in Hf. split; try done.
  - wf_words; unfold word32; lia.
  - rewrite blen_answer_message. unfold sizeof_ANSWER_HEADER. change (blen []) with 0. cbn. lia.
  - rewrite blen_answer_message. unfold sizeof_ANSWER_HEADER, _MSG_BUFFER. change (blen []) with 0. lia.
Qed.

Lemma plain_answer_accepts mid type app session rc data :
  wf_message (mkAnswer (40 + blen data) 40 0 (blen data) mid type app session 0 rc) [] data →
  0 ≤ abodysize type ≤ 1 →
  accepts (mkAnswer (40 + blen data) 40 0 (blen data) mid type app session 0 rc) type.
Proof.
  intros Hw Ht. apply (accepts_message _ [] data); [done|lia|].
  change (blen []) with 0. split_and!; [lia|done|by right].
Qed.

(** The client gets such an answer to its request. *)
Lemma with_answer_served {A} answer d s type app rc data (failed : A) k h pay ah :
  in_session answer d s → rh_message_id h = next_id d →
  rh_message_len h = sizeof_REQUEST_HEADER + blen pay → blen pay ≤ _MSG_BUFFER - sizeof_REQUEST_HEADER →
  0 ≤ abodysize type ≤ 1 →
  ah = mkAnswer (40 + blen data) 40 0 (blen data) (next_id d) type app (fget sessionID s) 0 rc →
  wf_message ah [] data →
  with_answer (next_id d) answer type failed k (prepared h pay (to_receive [answer_message ah [] data] d)) =
    k (received_in (answer_message ah [] data))
      (exchanged (encode_request h ++ pay) (answer_message ah [] data) []
         (to_receive [answer_message ah [] data] d)).
Proof using Hplenty.
  intros Hss Hid Hlen Hpay Ht Hah Hw. set (dr := to_receive _ d).
  change (next_id d) with (next_id dr).
  rewrite (with_answer_run Hplenty) with (seg := answer_message ah [] data) (segs := []) (ah := ah);
    [|by apply (in_session_ready answer d s)|done..|by apply message_decode|by rewrite Hah].
  rewrite bool_decide_eq_true_2; [done|]. subst ah. by apply plain_answer_accepts.
Qed.

(** The server on a DATA_B3_REQ of the client. *)
Lemma serve_client_put mem answer appl p m data rest d s :
  in_session answer d s → word32 appl →
  app_message mem p m data → is_data_b3_req m → 18 ≤ blen m → 37 + blen m + blen data ≤ _MSG_BUFFER →
  rx_bytes (fget sock s) = (encode_request (WClientCalls.put_request appl m data d) ++ x00 :: m ++ data) ++ rest →
  ∃ s' buf rc, handle_message s = (Done tt, s') ∧
    tx (fget sock s') = tx (fget sock s) ++
      [encode_answer (mkAnswer 40 40 0 0 (next_id d) TYPE_CAPI_PUTMESSAGE appl (fget sessionID s) 0 rc)] ∧
    rx_bytes (fget sock s') = rest ∧ 0 ≤ rc < 2 ^ 16 ∧
    capi20_put_message appl (fget in_packet_address s) buf 37 (fget capi s) = (rc, fget capi s') ∧
    slice buf 37 12 = slice m 0 12 ∧
    get_u32 buf (37 + 12) = Some (u32 (fget in_packet_address s + 37 + blen m)) ∧
    slice buf (37 + 16) (blen m - 16) = slice m 16 (blen m - 16) ∧
    slice buf (37 + blen m) (blen data) = Some data.
Proof using CS Capi20Laws0.
  intros [Hi Hscript Hse _ _ _ _] Happl Hm [Hc1 Hc2] H18 Hfit Hrx.
  pose proof (inv_wf s Hi) as Hwf. pose proof (wf_session s Hwf) as Hsw.
  pose proof (blen_nonneg data). unfold _MSG_BUFFER in Hfit.
  set (r := WClientCalls.put_request appl m data d) in *. set (pay := x00 :: m ++ data) in *.
  assert (Hpay : blen pay = 1 + blen m + blen data) by (unfold pay; rewrite blen_cons, blen_app; lia).
  pose proof (am_length _ _ _ _ Hm) as Hlen. pose proof (am_data _ _ _ _ Hm) as Hdata.
  rewrite decide_True in Hdata by done. destruct Hdata as (Hl2 & _).
  assert (Hsub : ∀ k n, 0 ≤ k → 0 ≤ n → k + n ≤ blen m → slice pay (1 + k) n = slice m k n).
  { intros k n Hk Hn Hkn. unfold pay. change (x00 :: m ++ data) with ([x00] ++ m ++ data).
    change 1 with (blen [x00]). rewrite slice_app_r by done. rewrite (slice_Some m) by lia.
    apply slice_app_l, slice_Some; lia. }
  assert (Hfield : ∀ w k v, 0 ≤ k → get_le w m k = Some v → get_le w pay (1 + k) = Some v).
  { intros w k v Hk Hv. pose proof (get_le_Some_inv _ _ _ _ Hv). unfold get_le in *. by rewrite Hsub by lia. }
  destruct (serve_put_data r pay rest s 1 (blen m) (blen data) data)
    as (s' & buf & rc & Hd & [Htx Hrx'] & Hput & Hb1 & Hb2 & Hb3 & Hb4); [done| |done..| |].
  { apply arrives_request; [|done|by rewrite Hpay; cbn; unfold sizeof_REQUEST_HEADER; lia|lia|rewrite Hpay; unfold sizeof_REQUEST_HEADER, PACKET_SIZE; lia].
    unfold r, WClientCalls.put_request. wf_words; try (by rewrite Hse); unfold word32; lia. }
  { split; try done; try lia.
    - by apply (Hfield 2%nat 0).
    - by apply (Hfield 1%nat 4).
    - by apply (Hfield 1%nat 5).
    - by apply (Hfield 2%nat 16).
    - apply (slice_at _ (x00 :: m) data []); [by rewrite app_nil_r|by rewrite blen_cons|done]. }
  rewrite app_nil_r in Htx. change (rh_message_id r) with (next_id d) in Htx. change (rh_app_id r) with appl in *.
  change (36 + 1) with 37 in Hput.
  pose proof (put_message_code appl (fget in_packet_address s) buf 37 (fget capi s)) as Hrc.
  rewrite Hput in Hrc. destruct Hrc. exists s', buf, rc. split_and!; try done.
  - rewrite <- (Hsub 0 12) by lia. exact Hb1.
  - rewrite <- (Hsub 16 (blen m - 16)) by lia. exact Hb3.
Qed.

End together.

Section properties.
Context `{CapiHeader} {CS : Type} `{Capi20 CS} `{!Capi20Laws CS} {OS : Type} `{HW : !Win32 OS}.
Implicit Types (s : server CS) (d : dll OS).

(** An application that registers through the Windows
    client and the Linux server gets the id the library gave out; the server's
    registry and the client's list of applications have it, and nothing else has
    changed in them. *)
Theorem register_end_to_end answer m a b l id c' rest d s :
  plenty (OS:=OS) → in_session answer d s →
  Forall (λ z, 0 ≤ z < 2 ^ 32) [m; a; b; l] →
  rx_bytes (fget sock s) =
    (let '(h, pay) := register_request m a b l d in encode_request h ++ pay) ++ rest →
  capi20_register a b l (fget capi s) = (0, Some id, c') →
  ∃ s' answered, handle_message s = (Done tt, s') ∧
    tx (fget sock s') = tx (fget sock s) ++ [answered] ∧ rx_bytes (fget sock s') = rest ∧
    fget capi s' = c' ∧
    apps_set (fget Server.registered_apps s') = {[id]} ∪ apps_set (fget Server.registered_apps s) ∧
  ∃ d', CAPI_REGISTER answer m a b l (to_receive [answered] d) = (Done (0, Some id), d') ∧
    w_apps d' = w_apps d ++ [mkAppl id None] ∧
    tx (w_socke d') = tx (w_socke d) ++
      [let '(h, pay) := register_request m a b l d in encode_request h ++ pay].
Proof.
  intros Hp Hss Hargs Hrx Hreg. pose proof Hss as [Hi Hscript Hse Hopen Hrec Hhash Hslot].
  pose proof (inv_wf s Hi) as Hwf. pose proof (wf_session s Hwf) as Hsw. pose proof (next_id_word d) as Hnw.
  destruct (register_ok _ _ _ _ _ _ Hreg) as (i & [= <-] & Hid & _).
  pose proof CAPI_MAXAPPL_range. unfold register_request in Hrx.
  set (r := mkRequest 52 36 16 0 (next_id d) TYPE_CAPI_REGISTER 0 0 (w_session_id d)) in *.
  rewrite !Forall_cons in Hargs. destruct Hargs as (?&?&?&?&_).
  destruct (serve_register r (words [m; a; b; l]) rest s m a b l id c') as (s' & Hd & [Htx Hrx'] & Hc & Happs);
    [done| |done..| | | | |done|].
  { apply arrives_request; [|exact Hrx|done..].
    unfold r. wf_words. by rewrite Hse. }
  1-4: rewrite <- (app_nil_r (words _)).
  1: rewrite (get_u32_words _ [] 0 m) by done; by rewrite u32_small.
  1: rewrite (get_u32_words _ [] 1 a) by done; by rewrite u32_small.
  1: rewrite (get_u32_words _ [] 2 b) by done; by rewrite u32_small.
  1: rewrite (get_u32_words _ [] 3 l) by done; by rewrite u32_small.
  rewrite app_nil_r in Htx.
  set (ah := mkAnswer 40 40 0 0 (next_id d) TYPE_CAPI_REGISTER id (fget sessionID s) 0 0) in *.
  change (rh_message_id r) with (next_id d) in Htx. fold ah in Htx.
  assert (Hw : wf_message ah [] []).
  { apply (plain_answer_wf _ _ _ _ 0 []); try done. unfold word32. lia. }
  assert (Hans : answer_message ah [] [] = encode_answer ah) by (unfold answer_message; by rewrite app_nil_r).
  exists s', (encode_answer ah). split_and!; try done. rewrite <- Hans.
  set (dr := to_receive [answer_message ah [] []] d).
  eexists. split.
  { rewrite (CAPI_REGISTER_prepare Hp answer m a b l dr). unfold register_request.
    change (next_id dr) with (next_id d). unfold dr.
    rewrite (with_answer_served Hp answer d s _ id 0) by (done || by vm_compute).
    rewrite (register_answered_run Hp _ ah); [reflexivity| |done].
    by apply received_decode. }
  done.
Qed.

(** A DATA_B3_REQ of an application with its data reaches the
    library as the application wrote it, but for the data pointer, which
    leads to the copy of the data behind the message in the server's memory;
    the application gets the code the library returned. *)
Theorem put_end_to_end mem answer appl p m data rest d s :
  plenty (OS:=OS) → in_session answer d s → word32 appl →
  app_message mem p m data → is_data_b3_req m → 18 ≤ blen m → 37 + blen m + blen data ≤ _MSG_BUFFER →
  rx_bytes (fget sock s) = (encode_request (WClientCalls.put_request appl m data d) ++ x00 :: m ++ data) ++ rest →
  ∃ s' answered buf rc, handle_message s = (Done tt, s') ∧
    tx (fget sock s') = tx (fget sock s) ++ [answered] ∧ rx_bytes (fget sock s') = rest ∧
    capi20_put_message appl (fget in_packet_address s) buf 37 (fget capi s) = (rc, fget capi s') ∧
    slice buf 37 12 = slice m 0 12 ∧
    get_u32 buf (37 + 12) = Some (u32 (fget in_packet_address s + 37 + blen m)) ∧
    slice buf (37 + 16) (blen m - 16) = slice m 16 (blen m - 16) ∧
    slice buf (37 + blen m) (blen data) = Some data ∧
  ∃ d', CAPI_PUT_MESSAGE mem answer appl p (to_receive [answered] d) = (Done rc, d') ∧
    tx (w_socke d') = tx (w_socke d) ++
      [encode_request (WClientCalls.put_request appl m data d) ++ x00 :: m ++ data].
Proof.
  intros Hp Hss Happl Hm Hb3 H18 Hfit Hrx. pose proof (wf_session s (inv_wf s (is_inv _ _ _ Hss))) as Hsw.
  destruct (serve_client_put mem answer appl p m data rest d s)
    as (s' & buf & rc & Hd & Htx & Hrx' & Hrc & Hput & Hb); [done..|].
  set (ah := mkAnswer 40 40 0 0 (next_id d) TYPE_CAPI_PUTMESSAGE appl (fget sessionID s) 0 rc) in *.
  assert (Hw : wf_message ah [] []) by (apply (plain_answer_wf _ _ _ _ rc []); done || apply next_id_word).
  assert (Hans : answer_message ah [] [] = encode_answer ah) by (unfold answer_message; by rewrite app_nil_r).
  exists s', (encode_answer ah), buf, rc. destruct Hb as (?&?&?&?). split_and!; try done. rewrite <- Hans.
  pose proof (call_request_ok mem m data (PutMessage appl p) d (conj Hm Hfit)) as (Hq1 & Hq2 & Hq3).
  eexists. split.
  { rewrite (CAPI_PUT_MESSAGE_prepare Hp mem answer appl p m data) by done.
    change (next_id (to_receive _ d)) with (next_id d).
    change (WClientCalls.put_request appl m data (to_receive _ d)) with (WClientCalls.put_request appl m data d).
    rewrite (with_answer_served Hp answer d s _ appl rc) by done.
    rewrite (answer_result_run _ ah); [reflexivity|by apply received_decode|done]. }
  done.
Qed.

(** A DATA_B3_IND of the library reaches the application with
    its data behind it and its data pointer leading there; the application's
    entry holds the block it lies in. *)
Theorem get_end_to_end `{HL : !Win32Laws OS} answer appl pl c' m m' q data old a o' rest d s :
  plenty (OS:=OS) → in_session answer d s → dll_ok d → word32 appl →
  find_app appl (w_apps d) = Some old →
  rx_bytes (fget sock s) = empty_wire TYPE_CAPI_GETMESSAGE appl 0 d ++ rest →
  capi20_get_message appl (fget capi s) = (0, pl, c') →
  library_message c' pl = Some m → get_u16 m 0 = Some (blen m) → is_data_b3_ind m → 18 ≤ blen m →
  get_u16 m 16 = Some (blen data) → get_u32 m 12 = Some q →
  capi20_memory c' q (blen data) = Some data → 40 + blen m + blen data ≤ PACKET_SIZE →
  GlobalAlloc (blen (m ++ data)) (heap _MSG_BUFFER (heap sizeof_evlhash (heap _MSG_BUFFER (w_os d)))) = (Some a, o') →
  put_le 4 m 12 (u32 (a + blen m)) = Some m' →
  ∃ s' answered, handle_message s = (Done tt, s') ∧
    tx (fget sock s') = tx (fget sock s) ++ [answered] ∧ rx_bytes (fget sock s') = rest ∧
    fget capi s' = c' ∧
  ∃ d', CAPI_GET_MESSAGE answer appl (to_receive [answered] d) = (Done (0, Some a), d') ∧
    w_blocks d' !! a = Some (m' ++ data) ∧ find_app appl (w_apps d') = Some (Some a).
Proof.
  intros Hp Hss Hok Happl Hf Hrx Hg Hlm Hlen Hb3 H18 Hl2 Hq Hd Hfit Ha Hm'.
  pose proof Hss as [Hi Hscript Hse _ _ _ _].
  pose proof (wf_session s (inv_wf s Hi)) as Hsw. pose proof (blen_nonneg data). unfold PACKET_SIZE in Hfit.
  assert (Hml : blen (m ++ data) = blen m + blen data) by apply blen_app.
  set (r := empty_request TYPE_CAPI_GETMESSAGE appl 0 d).
  destruct (serve_getmessage_data r [x00] rest s pl c' m (blen data) q data)
    as (s' & Hs & [Htx Hrx'] & Hc); [done| |by apply Hb3 || done..|].
  { apply arrives_request; [|done..]. unfold r, empty_request. wf_words. by rewrite Hse. }
  rewrite <- Hml in Htx. change (rh_message_id r) with (next_id d) in Htx. change (rh_app_id r) with appl in Htx.
  set (ah := mkAnswer (40 + blen (m ++ data)) 40 0 (blen (m ++ data)) (next_id d) TYPE_CAPI_GETMESSAGE appl
               (fget sessionID s) 0 0) in *.
  assert (Hw : wf_message ah [] (m ++ data)).
  { apply plain_answer_wf; [apply next_id_word|done..|]. rewrite Hml. unfold _MSG_BUFFER. lia. }
  exists s', (answer_message ah [] (m ++ data)). split_and!; try done.
  set (dr := to_receive _ d).
  rewrite (CAPI_GET_MESSAGE_prepare Hp).
  change (next_id dr) with (next_id d).
  change (empty_request TYPE_CAPI_GETMESSAGE appl 0 dr) with r. unfold dr.
  rewrite (with_answer_served Hp answer d s _ appl 0) by done. fold dr.
  match goal with |- ∃ d', getmessage_answered _ _ ?x = _ ∧ _ => set (d1 := x) end.
  destruct (getmessage_stored appl ah [] (m ++ data) a o' (m' ++ data) d1) as (d' & Hd' & Hrest).
  - done.
  - done.
  - lia.
  - exact Ha.
  - by apply message_for_data.
  - apply (new_block d a _ o' Hok Ha).
  - intros o Ho. exact (known_live d appl o Hok Ho).
  - exists d'. change (w_apps d1) with (w_apps d) in Hrest. rewrite Hf in Hrest.
    destruct Hrest as (? & ? & _). by split_and!.
Qed.

(** When the library has no message (0x1104), or reports any other error, the
    server passes the code on without data, and the client, which asks for eight bytes of
    data first, tells the application of an error of the operating system
    instead. *)
Theorem get_error_end_to_end answer appl rc pl c' rest d s :
  plenty (OS:=OS) → in_session answer d s → word32 appl →
  rx_bytes (fget sock s) = empty_wire TYPE_CAPI_GETMESSAGE appl 0 d ++ rest →
  capi20_get_message appl (fget capi s) = (rc, pl, c') → rc ≠ 0 →
  ∃ s' ah, handle_message s = (Done tt, s') ∧
    tx (fget sock s') = tx (fget sock s) ++ [encode_answer ah] ∧ ah_capi_error ah = rc ∧
    fget capi s' = c' ∧
  ∃ d', CAPI_GET_MESSAGE answer appl (to_receive [encode_answer ah] d) = (Done (CAPI_OS_ERROR, None), d') ∧
    w_apps d' = w_apps d ∧ w_blocks d' = w_blocks d.
Proof.
  intros Hp Hss Happl Hrx Hg Hrc. pose proof Hss as [Hi Hscript Hse _ _ _ _].
  pose proof (wf_session s (inv_wf s Hi)) as Hsw.
  pose proof (get_message_code appl (fget capi s)) as Hcode. rewrite Hg in Hcode. cbn [fst] in Hcode.
  set (r := empty_request TYPE_CAPI_GETMESSAGE appl 0 d).
  destruct (serve_getmessage_error r [x00] rest s rc pl c') as (s' & Hs & [Htx Hrx'] & Hc); [done| |done..| |].
  { apply arrives_request; [|done..]. unfold r, empty_request. wf_words. by rewrite Hse. }
  { by rewrite u32_small by lia. }
  rewrite app_nil_r in Htx. change (rh_message_id r) with (next_id d) in Htx. change (rh_app_id r) with appl in Htx.
  set (ah := mkAnswer 40 40 0 0 (next_id d) TYPE_CAPI_GETMESSAGE appl (fget sessionID s) 0 rc) in *.
  assert (Hw : wf_message ah [] []) by (apply (plain_answer_wf _ _ _ _ rc []); done || apply next_id_word).
  assert (Hans : answer_message ah [] [] = encode_answer ah) by (unfold answer_message; by rewrite app_nil_r).
  exists s', ah. split_and!; try done. rewrite <- Hans.
  eexists. split.
  { rewrite (CAPI_GET_MESSAGE_prepare Hp). change (next_id (to_receive _ d)) with (next_id d).
    change (empty_request TYPE_CAPI_GETMESSAGE appl 0 (to_receive _ d)) with r.
    rewrite (with_answer_served Hp answer d s _ appl rc) by done.
    by apply getmessage_short. }
  done.
Qed.

(** C20: a Windows client cannot work with the Linux
    server.  The server's answer to HELO asks for authentication and offers no
    type of it; the client asks for the type AUTH_NO_AUTH, which the server
    refuses; the client closes its socket and goes on as if the connection had been
    made: every call then fails. *)
Theorem windows_client_locked_out s d rest name o1 o2 :
  plenty (OS:=OS) → inv s → tx_script (fget sock s) = [] →
  blen (w_myname d) = 256 → cstr (take 64 (w_myname d)) = Some name →
  win_socket (w_os d) = (true, o1) → win_connect (w_toaddr d) (u16 (w_port d)) o1 = (true, o2) →
  rx_bytes (fget sock s) = helo_wire d ++ next_auth_wire d ++ rest →
  ∃ s' m1 m2, (handle_message;; handle_message) s = (Done tt, s') ∧
    tx (fget sock s') = tx (fget sock s) ++ [m1; m2] ∧ rx_bytes (fget sock s') = rest ∧
  ∃ d', initConnection (to_receive [m1; m2] d) = (Done 0, d') ∧
    tx (w_socke d') = tx (w_socke d) ++ [helo_wire d; next_auth_wire d] ∧
    w_session_id d' = fget sessionID s ∧ w_open d' = false ∧
    ∀ mem answer m data c, call_message mem m data c → w_slots d !! answer = None →
      ∃ d'', run_call mem answer c d' = (Done (call_failed c), d'') ∧ w_open d'' = false.
Proof.
  intros Hp Hi Hscript Hname Hc Hso Hco Hrx.
  destruct (serve_opening s d rest name) as (s' & Hs & _ & Hrx' & Htx); [done..|].
  destruct (initConnection_refused Hp s d name o1 o2) as (d' & Hd & Ho & Hse & Hsl & Htx'); [done..|].
  eexists s', _, _. split; [exact Hs|]. split; [exact Htx|]. split; [done|].
  exists d'. split_and!; [exact Hd|done..|]. intros mem answer m data c Hm Hslot.
  destruct (closed_fails Hp mem answer m data c d') as (d'' & ? & ? & _); [done|done|by rewrite Hsl|eauto].
Qed.
End properties.
