(* ===== verification/DemoWindows.v ===== *)
(** * A small Windows

    An instance of [Win32] on which the theorems about the Windows client are
    evaluated: memory never runs out, the blocks lie one behind the other, the
    registry has a server, a name and a user. *)
From stdpp Require Import gmap.
From S2P Require Import Prelude CMem Protocol Net Win32 WClient WClientSpec WClientCalls WClientAnswers WClientInv WClientSteps WClientCall WClientApps WClientConnect.
#[local] Open Scope Z_scope.

(** The addresses of the blocks that are allocated. *)
Definition windows : Type := list Z.

Definition highest (o : windows) : Z := foldr Z.max 0 o.
Definition win_alloc (n : Z) (o : windows) : option Z * windows :=
  let a := highest o + 0x10000 in
  if decide (a < 2 ^ 32 ∧ a + n ≤ 2 ^ 32) then (Some a, a :: o) else (None, o).
Definition win_free (a : Z) (o : windows) : windows := filter (λ x, x ≠ a) o.
Definition win_registry (v : string) (len : Z) (o : windows) : option (list byte) :=
  let bs :=
    if String.eqb v "server" then bytes_of_string "10.0.0.1" ++ [x00]
    else if String.eqb v "name" then bytes_of_string "pc" ++ [x00]
    else bytes_of_string "guest" ++ [x00] in
  if decide (blen bs ≤ len) then Some bs else None.

#[global] Instance demo_windows : Win32 windows := {|
  HeapAlloc := λ n o, (true, o);
  GlobalAlloc := win_alloc;
  GlobalFree := win_free;
  WSAStartup := λ o, (true, o);
  RegOpenKeyEx := λ k o, true;
  RegQueryValueEx := win_registry;
  inet_addr := λ s, 0x0100000A;
  win_socket := λ o, (true, o);
  win_connect := λ a p o, (true, o);
  CreateThread := λ o, (true, o);
|}.

Lemma highest_bound (o : windows) a : a ∈ o → a ≤ highest o.
Proof. induction 1; cbn; fold (highest l); lia. Qed.
Lemma highest_nonneg o : 0 ≤ highest o.
Proof. induction o; cbn; [done|]. fold (highest o). lia. Qed.

#[global, refine] Instance demo_windows_laws : Win32Laws windows := {|
  allocated := list_to_set (C:=gset Z);
|}.
Proof.
  - intros n o a o'. cbn. unfold win_alloc. case_decide as Hd; [|done]. intros [= <- <-].
    pose proof (highest_nonneg o). split_and!; [lia|lia|lia| |done].
    intros Hin%elem_of_list_to_set%highest_bound. lia.
  - intros n o o'. cbn. unfold win_alloc. by case_decide; intros [= <-].
  - intros a o. cbn. unfold win_free. apply set_eq. intros x.
    rewrite elem_of_difference, !elem_of_list_to_set, list_elem_of_filter, elem_of_singleton. tauto.
  - done.
  - done.
  - done.
  - done.
  - done.
  - intros v len o bs. cbn. unfold win_registry. by case_decide; intros [= <-].
Defined.

Lemma demo_plenty : plenty (OS:=windows).
Proof. done. Qed.

(** ** The client, connected in session 3 *)
Definition win_name : list byte := bytes_of_string "pc" ++ replicate 254 x00.
Definition win_client (segs : list (list byte)) (apps : list appl_list) (blocks : gmap Z (list byte))
    (o : windows) : dll windows :=
  mkDll o (mkNet segs false [] []) true 1 6 win_name (-1) 3 6674 0x0100000A [] ∅ apps blocks true [].

(** One application, with a block at 0x10000. *)
Definition win_one (segs : list (list byte)) : dll windows :=
  win_client segs [mkAppl 2 (Some 0x10000)] {[ 0x10000 := [x00] ]} [0x10000].

Lemma win_one_ok segs : dll_ok (win_one segs).
Proof.
  split; try done.
  - intros a Ha%list_elem_of_singleton. subst a. cbn. by rewrite lookup_singleton_eq.
  - apply NoDup_singleton.
  - intros a. cbn. rewrite lookup_singleton_is_Some. intros <-. lia.
  - by repeat constructor.
Qed.

(** [bs] lies at [base] in the memory of the process. *)
Definition memory_at (base : Z) (bs : list byte) (a n : Z) : option (list byte) := slice bs (a - base) n.

Lemma holds_memory_at base pre bs post : holds (memory_at base (pre ++ bs ++ post)) (base + blen pre) bs.
Proof.
  intros off n Ho Hn Hle. unfold memory_at. replace (base + blen pre + off - base) with (blen pre + off) by lia.
  rewrite slice_app_r by done. destruct (slice bs off n) as [x|] eqn:E; [by apply slice_app_l|].
  by rewrite slice_Some in E.
Qed.

(** A request of the client and the server's answer to it. *)
Definition win_answer (type rc : Z) (body data : list byte) : ANSWER_HEADER :=
  mkAnswer (40 + blen body + blen data) 40 (blen body) (blen data) 7 type 2 3 0 rc.
