(* ===== verification/WClientWitness.v ===== *)
(** * The Windows client's theorems on concrete calls *)
From stdpp Require Import gmap.
From S2P Require Import Prelude CMem Protocol Net Demo Win32 WClient WClientSpec WClientCalls WClientAnswers WClientInv WClientSteps WClientCall WClientApps WClientConnect WClientProperties DemoWindows.
#[local] Open Scope Z_scope.

(** ** One call, from its start to its return *)
Definition installed_seg : list byte := encode_answer (win_answer TYPE_CAPI_INSTALLED 0 [] []).
Definition call_start : dll windows := win_client [] [] ∅ [].
Lemma run_fst {A B} (m : A * B) (a : A) : m.1 = a → m = (a, m.2).
Proof. by destruct m as [? ?]; intros [= ->]. Qed.

(** Two calls that wait at the same time; the second is answered first. *)
Definition two_calls : list event :=
  to_section 100 ++ [Call 100 (Some 1%positive) SentWhole; step 100] ++
  to_section 200 ++ [Call 200 (Some 2%positive) SentWhole; step 200].
Definition both_answered : list event :=
  [Answer 1 (some_answer 8); Answer 0 installed_seg; Receive 40; Receive 0; Receive 0; Receive 0; Receive 0;
   step 200; Receive (length installed_seg); Receive 0; Receive 0; Receive 0; Receive 0; step 100].

Definition world_after (es : list event) (w : world) : world := default w (perform_all es w).

(** [along] on a concrete run. *)
Ltac win_along := vm_compute; repeat first [exact I|reflexivity|discriminate|eexists|split].

Lemma both_results :
  w_results (world_after (two_calls ++ both_answered) (loaded 6)) =
    [(200, 8, Message (received_in (some_answer 8))); (100, 7, Message (received_in installed_seg))].
Proof. vm_compute. reflexivity. Qed.

Lemma answers_matched_witness :
  w_fault (world_after (two_calls ++ both_answered) (loaded 6)) = None ∧
  get_u32 (received_in installed_seg) AH.message_id = Some 7.
Proof.
  destruct (answers_matched 6 (two_calls ++ both_answered) (world_after (two_calls ++ both_answered) (loaded 6)))
    as (Hf & _ & _ & _ & Hres).
  - split; [discriminate|reflexivity].
  - left. win_along.
  - vm_compute. reflexivity.
  - split; [exact Hf|]. apply (Hres 100 7). rewrite both_results. right. left.
Defined.

Lemma calls_return_witness :
  let w := world_after two_calls (loaded 6) in let w' := world_after both_answered w in
  (length both_answered ≤ 38)%nat ∧ ∃ p, (100, 7, p) ∈ w_results w' ∧
    (p = ILLEGAL_ANSWER ∨ ∃ b, p = Message b ∧ get_u32 b AH.message_id = Some 7).
Proof.
  intros w w'. destruct (calls_return 6 two_calls both_answered w w') as (Hl & Hret).
  - split; [discriminate|reflexivity].
  - win_along.
  - vm_compute. reflexivity.
  - win_along.
  - vm_compute. reflexivity.
  - split; [exact Hl|]. destruct Hret as [(e & Hg & Hn & He)|(_ & Hres)].
    + exfalso. revert He. apply eq_None_not_Some. apply all_done; [reflexivity..|done|done].
    + destruct (Hres 100 (AtWait 7)) as (id & p & Hr & Hid & Hp); [vm_compute; reflexivity|].
      specialize (Hid ltac:(eexists; reflexivity)). injection Hid as <-. exists p. split; [exact Hr|exact Hp].
Defined.

(** ** One call *)
(** Answers that are all there is to receive. *)
Definition ready_for (ah : ANSWER_HEADER) (body data : list byte) : dll windows :=
  win_one [answer_message ah body data].

Ltac win_ready := split; first [reflexivity|split; eval_le].
Ltac win_message := split; first [apply (bool_decide_unpack _); vm_compute; exact I|by vm_compute].
Ltac win_accepts := apply (bool_decide_unpack _); vm_compute; exact I.

Definition not_installed : ANSWER_HEADER := win_answer TYPE_CAPI_INSTALLED 0x1009 [] [].

Lemma call_exchange_witness :
  ∃ d', run_call (memory_at 0 []) 100 Installed (ready_for not_installed [] []) = (Done (RCode 0x1009), d') ∧
    w_hash d' = [] ∧ w_slots d' = ∅.
Proof.
  destruct (call_exchange (memory_at 0 []) 100 [] [] Installed (answer_message not_installed [] []) []
    not_installed (ready_for not_installed [] [])) as (d' & Hd & _ & _ & _ & Hh & Hs & _).
  - apply demo_plenty.
  - exact I.
  - win_ready.
  - vm_compute. reflexivity.
  - vm_compute. reflexivity.
  - exists d'. split; [|split; assumption]. rewrite Hd.
    replace (bool_decide _) with true by (vm_compute; reflexivity).
    cbn [call_answered]. rewrite (bind_done _ _ d' 0x1009 d'); [reflexivity|].
    apply (answer_result_run _ not_installed); [vm_compute; reflexivity|reflexivity].
Defined.

(** A DATA_B3_REQ at 0x400000, its data behind it; one with more data than the buffer holds. *)
Definition win_request : list byte := data_b3 0x80 0x400016.
Definition win_memory : Z → Z → option (list byte) := memory_at 0x400000 (win_request ++ data_bytes).
Definition long_request : list byte := le_split 2 9970 ++ replicate (Z.to_nat 9968) x00.
Definition put_ok : ANSWER_HEADER := win_answer TYPE_CAPI_PUTMESSAGE 0 [] [].

Lemma win_app_message : app_message win_memory 0x400000 win_request data_bytes.
Proof.
  split; [vm_compute; reflexivity|eval_le| |].
  - apply (holds_memory_at 0x400000 [] win_request data_bytes).
  - rewrite decide_True by (apply (bool_decide_unpack _); vm_compute; exact I).
    split; [vm_compute; reflexivity|]. exists 0x400016. split; [vm_compute; reflexivity|].
    pose proof (holds_memory_at 0x400000 win_request data_bytes []) as Hh. by rewrite app_nil_r in Hh.
Qed.
Lemma long_app_message : app_message (memory_at 0x400000 long_request) 0x400000 long_request [].
Proof.
  split; [vm_compute; reflexivity|eval_le| |].
  - pose proof (holds_memory_at 0x400000 [] long_request []) as Hh. by rewrite app_nil_r in Hh.
  - by rewrite decide_False by (apply (bool_decide_unpack _); vm_compute; exact I).
Qed.

Lemma put_message_call_witness :
  (∃ d', CAPI_PUT_MESSAGE win_memory 100 2 0x400000 (ready_for put_ok [] []) = (Done 0, d') ∧
     tx (w_socke d') = [encode_request (mkRequest 62 36 1 25 7 TYPE_CAPI_PUTMESSAGE 2 0 3) ++
                        x00 :: win_request ++ data_bytes]) ∧
  (∃ d', CAPI_PUT_MESSAGE (memory_at 0x400000 long_request) 100 2 0x400000 (win_one []) =
           (Faulted OutOfBounds, d') ∧ tx (w_socke d') = []).
Proof.
  split.
  - destruct (put_message_call win_memory 100 2 0x400000 win_request data_bytes (ready_for put_ok [] [])
      demo_plenty win_app_message) as [Hfit _].
    destruct (Hfit ltac:(eval_le) (answer_message put_ok [] []) [] put_ok) as (d' & Hd & Htx).
    + win_ready.
    + vm_compute. reflexivity.
    + vm_compute. reflexivity.
    + exists d'. split; [|exact Htx]. rewrite Hd.
      rewrite decide_True by win_accepts. reflexivity.
  - destruct (put_message_call (memory_at 0x400000 long_request) 100 2 0x400000 long_request [] (win_one [])
      demo_plenty long_app_message) as [_ Hbig].
    apply Hbig. eval_lt.
Defined.

(** A DATA_B3_IND that arrives for application 2, which has a block already. *)
Definition indication : list byte := data_b3 0x82 0x4711 ++ data_bytes.
Definition get_ok : ANSWER_HEADER := win_answer TYPE_CAPI_GETMESSAGE 0 [] indication.

Lemma get_message_call_witness :
  ∃ d', CAPI_GET_MESSAGE 100 2 (ready_for get_ok [] indication) = (Done (0, Some 0x20000), d') ∧
    find_app 2 (w_apps d') = Some (Some 0x20000) ∧
    w_blocks d' !! 0x20000 = Some (data_b3 0x82 0x20016 ++ data_bytes) ∧
    w_blocks d' !! 0x10000 = None.
Proof.
  destruct (get_message_call 100 2 get_ok [] indication [] (ready_for get_ok [] indication))
    as [_ Hget].
  - apply demo_plenty.
  - apply win_one_ok.
  - win_message.
  - win_ready.
  - vm_compute. reflexivity.
  - win_accepts.
  - destruct (Hget ltac:(eval_le) 0x20000 [0x20000; 0x10000] (data_b3 0x82 0x20016 ++ data_bytes)) as (d' & Hd & Hrest).
    + vm_compute. reflexivity.
    + vm_compute. reflexivity.
    + exists d'. split; [exact Hd|].
      change (find_app 2 (w_apps (ready_for get_ok [] indication))) with (Some (Some 0x10000)) in Hrest.
      destruct Hrest as (H1 & H2 & H3). split; [exact H1|]. split; [exact H2|]. by apply H3.
Defined.

Definition serial : list byte := bytes_of_string "1000001" ++ [x00].
Definition serial_ok : ANSWER_HEADER := win_answer TYPE_CAPI_SERIAL 0 serial [].

Lemma query_calls_witness :
  ∃ d', run_call (memory_at 0 []) 100 GetSerialNumber (ready_for serial_ok serial []) =
      (Done (RBytes (0, Some serial)), d') ∧ w_apps d' = [mkAppl 2 (Some 0x10000)].
Proof.
  destruct (query_calls (memory_at 0 []) 100 [] [] GetSerialNumber serial_ok serial [] []
    (ready_for serial_ok serial []) (RBytes (0, Some serial))) as (d' & Hd & Ha & _).
  - apply demo_plenty.
  - exact I.
  - win_message.
  - win_ready.
  - vm_compute. reflexivity.
  - win_accepts.
  - vm_compute. reflexivity.
  - exists d'. split; [exact Hd|exact Ha].
Defined.


(** Application 5 registers and leaves; 2 leaves, with its block. *)
Definition with_app : dll windows := (run_op (AddApp 5) (win_one [])).2.
Definition without_app : dll windows := (run_op (DelApp 5) with_app).2.
Definition without_apps : dll windows := (run_op (DelApp 2) without_app).2.
Lemma run_op_done op d : (run_op op d).1 = Done tt → run_op op d = (Done tt, (run_op op d).2).
Proof. apply run_fst. Qed.

Lemma apps_run : ops_run [AddApp 5; DelApp 5; DelApp 2] (win_one []) without_apps.
Proof.
  apply (ops_cons _ _ _ with_app); [by split|apply run_op_done; vm_compute; reflexivity|].
  apply (ops_cons _ _ _ without_app); [exact I|apply run_op_done; vm_compute; reflexivity|].
  apply (ops_cons _ _ _ without_apps); [exact I|apply run_op_done; vm_compute; reflexivity|].
  apply ops_nil.
Qed.

Lemma app_list_map_witness :
  apps_map (w_apps without_apps) = ∅ ∧ getdata_app 2 without_apps = (Done None, without_apps).
Proof.
  assert (Hok : apps_ok (win_one [])) by (split; [apply win_one_ok|apply NoDup_singleton]).
  destruct (app_list_map _ _ _ demo_plenty Hok apps_run) as (_ & Hm & Hget & _).
  split; [rewrite Hm; vm_compute; reflexivity|]. rewrite Hget, Hm. vm_compute. reflexivity.
Defined.

(** ** What goes wrong *)
Lemma lost_connection_hangs_witness :
  ∃ d', run_call (memory_at 0 []) 100 (WaitForSignal 2) (win_one []) = (Faulted Hung, d').
Proof.
  apply (lost_connection_hangs (memory_at 0 []) 100 [] [] (WaitForSignal 2) (win_one [])).
  - apply demo_plenty.
  - exact I.
  - reflexivity.
  - reflexivity.
  - left. reflexivity.
Defined.

(** The next [send] fails. *)
Definition win_failing : dll windows := fset socke (mkNet [] false [] [-1]) (win_one []).

Lemma win_failing_sends : send_fails win_failing.
Proof. intros bs. right. unfold wire_result, send. cbn. pose proof (blen_nonneg bs). lia. Qed.

Lemma unexpected_answer_witness :
  (messageDispatcher_round (win_one [installed_seg])).1 = Faulted NullDeref ∧
  ∃ d', run_call (memory_at 0 []) 100 Installed win_failing = (Done (RCode CAPI_OS_ERROR), d') ∧
    (messageDispatcher_round (fset socke (mkNet [installed_seg] false [] []) d')).1 = Faulted Dangling.
Proof.
  assert (Hseg : sizeof_ANSWER_HEADER ≤ blen installed_seg ≤ _MSG_BUFFER) by (split; eval_le).
  split.
  - destruct (unexpected_answer (memory_at 0 []) 100 [] [] Installed installed_seg [] (win_one [installed_seg]))
      as [H _]; [apply demo_plenty|reflexivity|exact Hseg|reflexivity|vm_compute; reflexivity|].
    apply H. reflexivity.
  - destruct (unexpected_answer (memory_at 0 []) 100 [] [] Installed installed_seg [] win_failing)
      as [_ H]; [apply demo_plenty|reflexivity|exact Hseg|reflexivity|vm_compute; reflexivity|].
    destruct (H I win_failing_sends eq_refl) as (d' & Hd & _ & Hround).
    exists d'. split; [exact Hd|]. apply Hround. reflexivity.
Defined.

(** A call waits at 100, application 2 has a block. *)
Definition win_waiting : dll windows :=
  fset slots {[100 := Null]} (fset hash_start [mkEvl 7 100] (win_one [])).
Lemma win_waiting_ok : dll_ok win_waiting.
Proof. destruct (win_one_ok []). by split. Qed.

Lemma detach_releases_witness :
  ∃ d', DllMain_detach win_waiting = (Done tt, d') ∧ w_apps d' = [] ∧
    w_slots d' !! 100 = Some ILLEGAL_ANSWER ∧ w_blocks d' !! 0x10000 = None.
Proof.
  destruct (detach_releases win_waiting) as (d' & Hd & _ & _ & _ & Ha & Hs & Hb & _).
  - apply win_waiting_ok.
  - repeat constructor. discriminate.
  - intros e He%list_elem_of_singleton. subst e. exists Null. reflexivity.
  - exists d'. split; [exact Hd|]. split; [exact Ha|]. split.
    + apply (Hs (mkEvl 7 100)). by left.
    + rewrite Hb, decide_True; [done|]. by left.
Defined.

(** * The Windows client and the Linux server on concrete calls *)
From S2P Require Import Capi20 AppIndex Server Packet Capifwd MessageSpec Handled Served ServerWitness ClientServer.

Ltac in_session :=
  split; [demo_inv|reflexivity|reflexivity|reflexivity|reflexivity|reflexivity|reflexivity].

(** Session 3, the request of [d] on its way to the server. *)
Definition opened (request : list byte) (ids : list Z) (mem : list byte) (waiting : bool) : server demo :=
  demo_start [request] ids mem waiting.

Definition register_wire : list byte :=
  let '(h, pay) := register_request 1000 2 7 128 call_start in encode_request h ++ pay.

Lemma register_end_to_end_witness :
  ∃ s' answered, handle_message (opened register_wire [1] [] false) = (Done tt, s') ∧
    demo_ids (fget capi s') = [2; 1] ∧
  ∃ d', CAPI_REGISTER 100 1000 2 7 128 (to_receive [answered] call_start) = (Done (0, Some 2), d') ∧
    w_apps d' = [mkAppl 2 None].
Proof.
  destruct (register_end_to_end 100 1000 2 7 128 2 (mkDemo [2; 1] [] [] false) [] call_start
    (opened register_wire [1] [] false)) as (s' & answered & Hs & _ & _ & Hc & _ & d' & Hd & Ha & _).
  - apply demo_plenty.
  - in_session.
  - apply (bool_decide_unpack _). vm_compute. exact I.
  - vm_compute. reflexivity.
  - vm_compute. reflexivity.
  - exists s', answered. split; [exact Hs|]. split; [by rewrite Hc|]. exists d'. split; [exact Hd|exact Ha].
Defined.

Definition put_wire : list byte :=
  encode_request (WClientCalls.put_request 2 win_request data_bytes (win_one [])) ++ x00 :: win_request ++ data_bytes.

Lemma put_end_to_end_witness :
  ∃ s' answered rc, handle_message (opened put_wire [2] [] false) = (Done tt, s') ∧
  ∃ d', CAPI_PUT_MESSAGE win_memory 100 2 0x400000 (to_receive [answered] (win_one [])) = (Done rc, d').
Proof.
  destruct (put_end_to_end win_memory 100 2 0x400000 win_request data_bytes [] (win_one [])
    (opened put_wire [2] [] false)) as (s' & answered & buf & rc & Hs & _ & _ & _ & _ & _ & _ & _ & d' & Hd & _).
  - apply demo_plenty.
  - in_session.
  - split; [eval_le|eval_lt].
  - apply win_app_message.
  - apply (bool_decide_unpack _). vm_compute. exact I.
  - eval_le.
  - eval_le.
  - vm_compute. reflexivity.
  - exists s', answered, rc. split; [exact Hs|]. exists d'. exact Hd.
Defined.

Definition get_wire : list byte := empty_wire TYPE_CAPI_GETMESSAGE 2 0 (win_one []).
Definition waiting_message : list byte := data_b3 0x82 (demo_base + 22).

Lemma get_end_to_end_witness :
  ∃ s' answered, handle_message (opened get_wire [2] (waiting_message ++ data_bytes) true) = (Done tt, s') ∧
  ∃ d', CAPI_GET_MESSAGE 100 2 (to_receive [answered] (win_one [])) = (Done (0, Some 0x20000), d') ∧
    w_blocks d' !! 0x20000 = Some (data_b3 0x82 0x20016 ++ data_bytes).
Proof.
  destruct (get_end_to_end 100 2 demo_base (mkDemo [2] [] (waiting_message ++ data_bytes) false)
    waiting_message (data_b3 0x82 0x20016) (demo_base + 22) data_bytes (Some 0x10000) 0x20000
    [0x20000; 0x10000] [] (win_one []) (opened get_wire [2] (waiting_message ++ data_bytes) true))
    as (s' & answered & Hs & _ & _ & _ & d' & Hd & Hb & _).
  - apply demo_plenty.
  - in_session.
  - apply win_one_ok.
  - split; [eval_le|eval_lt].
  - reflexivity.
  - vm_compute. reflexivity.
  - vm_compute. reflexivity.
  - vm_compute. reflexivity.
  - vm_compute. reflexivity.
  - apply (bool_decide_unpack _). vm_compute. exact I.
  - eval_le.
  - vm_compute. reflexivity.
  - vm_compute. reflexivity.
  - vm_compute. reflexivity.
  - eval_le.
  - vm_compute. reflexivity.
  - vm_compute. reflexivity.
  - exists s', answered. split; [exact Hs|]. exists d'. split; [exact Hd|exact Hb].
Defined.

Lemma get_error_end_to_end_witness :
  ∃ s' ah, handle_message (opened get_wire [2] [] false) = (Done tt, s') ∧ ah_capi_error ah = 0x1104 ∧
  ∃ d', CAPI_GET_MESSAGE 100 2 (to_receive [encode_answer ah] (win_one [])) = (Done (CAPI_OS_ERROR, None), d').
Proof.
  destruct (get_error_end_to_end 100 2 0x1104 0 (mkDemo [2] [] [] false) [] (win_one [])
    (opened get_wire [2] [] false)) as (s' & ah & Hs & _ & Hrc & _ & d' & Hd & _).
  - apply demo_plenty.
  - in_session.
  - split; [eval_le|eval_lt].
  - vm_compute. reflexivity.
  - vm_compute. reflexivity.
  - discriminate.
  - exists s', ah. split; [exact Hs|]. split; [exact Hrc|]. exists d'. exact Hd.
Defined.

Lemma windows_client_locked_out_witness :
  ∃ m1 m2 d', initConnection (to_receive [m1; m2] call_start) = (Done 0, d') ∧
    w_open d' = false ∧
    ∃ d'', run_call (memory_at 0 []) 100 Installed d' = (Done (RCode CAPI_OS_ERROR), d'').
Proof.
  destruct (windows_client_locked_out (opened (helo_wire call_start ++ next_auth_wire call_start) [] [] false)
    call_start [] (bytes_of_string "pc") [] [])
    as (s' & m1 & m2 & _ & _ & _ & d' & Hd & _ & _ & Ho & Hcalls).
  - apply demo_plenty.
  - demo_inv.
  - reflexivity.
  - reflexivity.
  - vm_compute. reflexivity.
  - reflexivity.
  - reflexivity.
  - vm_compute. reflexivity.
  - exists m1, m2, d'. split; [exact Hd|]. split; [exact Ho|].
    destruct (Hcalls (memory_at 0 []) 100 [] [] Installed I eq_refl) as (d'' & H & _). by exists d''.
Defined.
