(* ===== verification/Capi2032.v ===== *)
(** * Interfaces of the Windows server

    capi2032.dll of the server's own machine, and the calls of Windows the server
    makes beside those of Win32.v.  [Capi2032Laws] and [WinServerLaws] state what
    is documented of them. *)
From stdpp Require Import gmap.
From S2P Require Import Prelude CMem Win32.
#[local] Open Scope Z_scope.

(** The CAPI library.  A function that stores through a pointer of the caller
    yields what it stores. *)
Class Capi2032 (CS : Type) := {
  capi32_register : Z → Z → Z → Z → CS → Z * option Z * CS;
  capi32_release : Z → CS → Z * CS;
  (** The message is given as the memory it lies in: base address, contents,
      offset of the message. *)
  capi32_put_message : Z → Z → list byte → Z → CS → Z * CS;
  (** The address of the message. *)
  capi32_get_message : Z → CS → Z * option Z * CS;
  capi32_wait_for_signal : Z → CS → Z * CS;
  capi32_get_manufacturer : CS → Z * list byte;
  (** The four words, in the order of the arguments. *)
  capi32_get_version : CS → Z * list Z;
  capi32_get_serial_number : CS → Z * list byte;
  capi32_get_profile : Z → CS → Z * list byte;
  capi32_installed : CS → Z;
  (** Memory of the library: [n] bytes at an address, [None] if not mapped. *)
  capi32_memory : CS → Z → Z → option (list byte);
  capi32_memory_length c addr n bs : capi32_memory c addr n = Some bs → blen bs = n;
}.

(** [capi32_owned c] are the applications the process has registered; there are
    at most [capi32_max] of them. *)
Class Capi2032Laws (CS : Type) `{Capi2032 CS} := {
  capi32_owned : CS → gset Z;
  capi32_max : Z;
  capi32_register_ok a b l n c o c' :
    capi32_register a b l n c = (0, o, c') →
    ∃ id, o = Some id ∧ 1 ≤ id ≤ capi32_max ∧ (id ∉ capi32_owned c) ∧
          capi32_owned c' = {[id]} ∪ capi32_owned c;
  capi32_register_error a b l n c rc o c' :
    capi32_register a b l n c = (rc, o, c') → rc ≠ 0 → capi32_owned c' = capi32_owned c;
  capi32_owned_ids c id : id ∈ capi32_owned c → 1 ≤ id ≤ capi32_max;
  capi32_release_owned id c rc c' :
    capi32_release id c = (rc, c') → (rc = 0 ↔ (id ∈ capi32_owned c));
  capi32_release_ok id c c' :
    capi32_release id c = (0, c') → capi32_owned c' = (capi32_owned c ∖ {[id]});
  capi32_release_error id c rc c' :
    capi32_release id c = (rc, c') → rc ≠ 0 → capi32_owned c' = capi32_owned c;
  capi32_put_message_owned id base mem off c rc c' :
    capi32_put_message id base mem off c = (rc, c') → capi32_owned c' = capi32_owned c;
  capi32_get_message_owned id c rc p c' :
    capi32_get_message id c = (rc, p, c') → capi32_owned c' = capi32_owned c;
  capi32_wait_for_signal_owned id c rc c' :
    capi32_wait_for_signal id c = (rc, c') → capi32_owned c' = capi32_owned c;
  (** Sizes of what is stored. *)
  capi32_manufacturer_length c : blen (capi32_get_manufacturer c).2 ≤ 64;
  capi32_version_length c : length (capi32_get_version c).2 = 4%nat;
  capi32_serial_length c : blen (capi32_get_serial_number c).2 ≤ 8;
  capi32_profile_length n c : blen (capi32_get_profile n c).2 ≤ 64;
  capi32_register_word a b l n c id : (capi32_register a b l n c).1.2 = Some id → 0 ≤ id < 2 ^ 32;
  (** Return codes are 16-bit info values. *)
  capi32_register_code a b l n c : 0 ≤ (capi32_register a b l n c).1.1 < 2 ^ 16;
  capi32_release_code id c : 0 ≤ (capi32_release id c).1 < 2 ^ 16;
  capi32_put_message_code id base mem off c : 0 ≤ (capi32_put_message id base mem off c).1 < 2 ^ 16;
  capi32_get_message_code id c : 0 ≤ (capi32_get_message id c).1.1 < 2 ^ 16;
  capi32_wait_for_signal_code id c : 0 ≤ (capi32_wait_for_signal id c).1 < 2 ^ 16;
  capi32_manufacturer_code c : 0 ≤ (capi32_get_manufacturer c).1 < 2 ^ 16;
  capi32_version_code c : 0 ≤ (capi32_get_version c).1 < 2 ^ 16;
  capi32_serial_code c : 0 ≤ (capi32_get_serial_number c).1 < 2 ^ 16;
  capi32_profile_code n c : 0 ≤ (capi32_get_profile n c).1 < 2 ^ 16;
  capi32_installed_code c : 0 ≤ capi32_installed c < 2 ^ 16;
}.

(** Windows, as the server sees it. *)
Class WinServer (OS : Type) := {
  ws_win32 :: Win32 OS;
  (** The value of a name under a key, when it has at most [len] bytes. *)
  RegValue : string → list byte → Z → OS → option (list byte);
  (** How many values a key has. *)
  RegCount : string → OS → nat;
  (** The name and the data of the [i]-th value, when the name with its NUL has at
      most [len] and the data at most [len2] bytes; otherwise what is stored in
      [len] and [len2]. *)
  RegEnumValue : string → Z → Z → Z → OS → (list byte * list byte) + (Z * Z);
  (** [sin_addr] of the socket, or failure. *)
  getsockname : OS → option Z;
}.

Class WinServerLaws (OS : Type) `{WinServer OS} := {
  RegValue_length k v len o bs : RegValue k v len o = Some bs → blen bs ≤ len;
  RegEnumValue_length k i len len2 o n d :
    RegEnumValue k i len len2 o = inl (n, d) → blen n + 1 ≤ len ∧ blen d ≤ len2;
  RegEnumValue_end k i len len2 o n d :
    RegEnumValue k i len len2 o = inl (n, d) → 0 ≤ i → i < Z.of_nat (RegCount k o);
}.
