(* ===== verification/WServer.v ===== *)
(** * The Windows server (win32-server/capi20server.cpp, capi20server.h)

    The server has a thread per client, [StartSession].  The state [wserver] is
    what one such thread works on: the globals of the file, its connection, its
    locals [request] and [client], and the threads it has started to wait for a
    signal.  The array [answer] of a handler is a local that is not initialised:
    [ws_stack n] is what the memory holds that the [n]-th call of a handler gets for
    it.  Other threads set [run] and [pause]: [ws_control] are their values in the
    next rounds of the loop, then they are 1 and 0.

    In C++ an empty structure has size 1. *)
From S2P Require Import Prelude CMem Protocol Net Win32 Capi2032.
#[local] Open Scope Z_scope.

Definition _TIMEOUT := -1.
Definition _VERSION_MAJOR := 1.
Definition _VERSION_MINOR := 3.
Definition _SERVER_VERSION : version_t := mkVersion _VERSION_MAJOR _VERSION_MINOR.
Definition _SERVER_NAME : list byte := bytes_of_string "CAPI 2.0 Proxy Win32 Server".
Definition CAPI_MAXAPPL := 128.
Definition _MAX_SESSIONS := 127.
Definition _MSG_SIZE := 10000.
Definition sizeof_cpp_empty := 1.

(** ** State *)
(** [struct client_data]; the socket is [ws_socket]. *)
Record client_data := mkClient {
  cd_auth_type : Z;
  cd_auth_data : option Z;
  cd_name : list byte;                (**r [char name[64]] *)
  cd_version : version_t;
  cd_keepalive : Z;
  cd_session : Z;
  cd_os : Z;
  cd_registered_apps : list byte;     (**r [char registered_apps[CAPI_MAXAPPL+1]] *)
}.

(** [struct waiter_data]; the socket is [ws_socket]. *)
Record waiter_data := mkWaiter { wt_ApplID : Z; wt_message_id : Z; wt_session_id : Z }.

Record wserver (CS OS : Type) := mkWServer {
  ws_os : OS;
  ws_capi : CS;
  ws_AUTH_TYPES : Z;
  ws_AUTH_REQUIRED : Z;
  ws_session : Z;
  ws_sockets : list (option Z);       (**r [None] is INVALID_SOCKET *)
  ws_control : list (Z * Z);
  ws_socket : net;
  ws_open : bool;                     (**r the socket has not been closed *)
  ws_request : list byte;             (**r [char request[_MSG_SIZE]] *)
  ws_request_address : Z;
  ws_client : client_data;
  ws_stack : nat → list byte;
  ws_calls : nat;                     (**r calls of handlers so far *)
  ws_waiters : list waiter_data;      (**r threads in [waiter] *)
  ws_log : list string;
}.
Arguments mkWServer {CS OS}.
Arguments ws_os {CS OS}. Arguments ws_capi {CS OS}. Arguments ws_AUTH_TYPES {CS OS}.
Arguments ws_AUTH_REQUIRED {CS OS}. Arguments ws_session {CS OS}. Arguments ws_sockets {CS OS}.
Arguments ws_control {CS OS}. Arguments ws_socket {CS OS}. Arguments ws_open {CS OS}.
Arguments ws_request {CS OS}. Arguments ws_request_address {CS OS}. Arguments ws_client {CS OS}.
Arguments ws_stack {CS OS}. Arguments ws_calls {CS OS}. Arguments ws_waiters {CS OS}.
Arguments ws_log {CS OS}.

Section fields.
Context {CS OS : Type}.
Abbreviation st := (wserver CS OS).
Definition system : field st OS := mkField ws_os (λ v s,
  mkWServer v (ws_capi s) (ws_AUTH_TYPES s) (ws_AUTH_REQUIRED s) (ws_session s) (ws_sockets s) (ws_control s)
    (ws_socket s) (ws_open s) (ws_request s) (ws_request_address s) (ws_client s) (ws_stack s) (ws_calls s)
    (ws_waiters s) (ws_log s)).
Definition capi : field st CS := mkField ws_capi (λ v s,
  mkWServer (ws_os s) v (ws_AUTH_TYPES s) (ws_AUTH_REQUIRED s) (ws_session s) (ws_sockets s) (ws_control s)
    (ws_socket s) (ws_open s) (ws_request s) (ws_request_address s) (ws_client s) (ws_stack s) (ws_calls s)
    (ws_waiters s) (ws_log s)).
Definition AUTH_TYPES : field st Z := mkField ws_AUTH_TYPES (λ v s,
  mkWServer (ws_os s) (ws_capi s) v (ws_AUTH_REQUIRED s) (ws_session s) (ws_sockets s) (ws_control s)
    (ws_socket s) (ws_open s) (ws_request s) (ws_request_address s) (ws_client s) (ws_stack s) (ws_calls s)
    (ws_waiters s) (ws_log s)).
Definition AUTH_REQUIRED : field st Z := mkField ws_AUTH_REQUIRED (λ v s,
  mkWServer (ws_os s) (ws_capi s) (ws_AUTH_TYPES s) v (ws_session s) (ws_sockets s) (ws_control s) (ws_socket s)
    (ws_open s) (ws_request s) (ws_request_address s) (ws_client s) (ws_stack s) (ws_calls s) (ws_waiters s)
    (ws_log s)).
Definition session : field st Z := mkField ws_session (λ v s,
  mkWServer (ws_os s) (ws_capi s) (ws_AUTH_TYPES s) (ws_AUTH_REQUIRED s) v (ws_sockets s) (ws_control s)
    (ws_socket s) (ws_open s) (ws_request s) (ws_request_address s) (ws_client s) (ws_stack s) (ws_calls s)
    (ws_waiters s) (ws_log s)).
Definition sockets : field st (list (option Z)) := mkField ws_sockets (λ v s,
  mkWServer (ws_os s) (ws_capi s) (ws_AUTH_TYPES s) (ws_AUTH_REQUIRED s) (ws_session s) v (ws_control s)
    (ws_socket s) (ws_open s) (ws_request s) (ws_request_address s) (ws_client s) (ws_stack s) (ws_calls s)
    (ws_waiters s) (ws_log s)).
Definition control : field st (list (Z * Z)) := mkField ws_control (λ v s,
  mkWServer (ws_os s) (ws_capi s) (ws_AUTH_TYPES s) (ws_AUTH_REQUIRED s) (ws_session s) (ws_sockets s) v
    (ws_socket s) (ws_open s) (ws_request s) (ws_request_address s) (ws_client s) (ws_stack s) (ws_calls s)
    (ws_waiters s) (ws_log s)).
Definition socket : field st net := mkField ws_socket (λ v s,
  mkWServer (ws_os s) (ws_capi s) (ws_AUTH_TYPES s) (ws_AUTH_REQUIRED s) (ws_session s) (ws_sockets s)
    (ws_control s) v (ws_open s) (ws_request s) (ws_request_address s) (ws_client s) (ws_stack s) (ws_calls s)
    (ws_waiters s) (ws_log s)).
Definition is_open : field st bool := mkField ws_open (λ v s,
  mkWServer (ws_os s) (ws_capi s) (ws_AUTH_TYPES s) (ws_AUTH_REQUIRED s) (ws_session s) (ws_sockets s)
    (ws_control s) (ws_socket s) v (ws_request s) (ws_request_address s) (ws_client s) (ws_stack s) (ws_calls s)
    (ws_waiters s) (ws_log s)).
Definition request : field st (list byte) := mkField ws_request (λ v s,
  mkWServer (ws_os s) (ws_capi s) (ws_AUTH_TYPES s) (ws_AUTH_REQUIRED s) (ws_session s) (ws_sockets s)
    (ws_control s) (ws_socket s) (ws_open s) v (ws_request_address s) (ws_client s) (ws_stack s) (ws_calls s)
    (ws_waiters s) (ws_log s)).
Definition request_address : field st Z := mkField ws_request_address (λ v s,
  mkWServer (ws_os s) (ws_capi s) (ws_AUTH_TYPES s) (ws_AUTH_REQUIRED s) (ws_session s) (ws_sockets s)
    (ws_control s) (ws_socket s) (ws_open s) (ws_request s) v (ws_client s) (ws_stack s) (ws_calls s)
    (ws_waiters s) (ws_log s)).
Definition client : field st client_data := mkField ws_client (λ v s,
  mkWServer (ws_os s) (ws_capi s) (ws_AUTH_TYPES s) (ws_AUTH_REQUIRED s) (ws_session s) (ws_sockets s)
    (ws_control s) (ws_socket s) (ws_open s) (ws_request s) (ws_request_address s) v (ws_stack s) (ws_calls s)
    (ws_waiters s) (ws_log s)).
Definition calls : field st nat := mkField ws_calls (λ v s,
  mkWServer (ws_os s) (ws_capi s) (ws_AUTH_TYPES s) (ws_AUTH_REQUIRED s) (ws_session s) (ws_sockets s)
    (ws_control s) (ws_socket s) (ws_open s) (ws_request s) (ws_request_address s) (ws_client s) (ws_stack s) v
    (ws_waiters s) (ws_log s)).
Definition waiters : field st (list waiter_data) := mkField ws_waiters (λ v s,
  mkWServer (ws_os s) (ws_capi s) (ws_AUTH_TYPES s) (ws_AUTH_REQUIRED s) (ws_session s) (ws_sockets s)
    (ws_control s) (ws_socket s) (ws_open s) (ws_request s) (ws_request_address s) (ws_client s) (ws_stack s)
    (ws_calls s) v (ws_log s)).
Definition log : field st (list string) := mkField ws_log (λ v s,
  mkWServer (ws_os s) (ws_capi s) (ws_AUTH_TYPES s) (ws_AUTH_REQUIRED s) (ws_session s) (ws_sockets s)
    (ws_control s) (ws_socket s) (ws_open s) (ws_request s) (ws_request_address s) (ws_client s) (ws_stack s)
    (ws_calls s) (ws_waiters s) v).

#[export] Instance system_lawful : LawfulField system.
Proof. by constructor; [|intros []|]. Qed.
#[export] Instance capi_lawful : LawfulField capi.
Proof. by constructor; [|intros []|]. Qed.
#[export] Instance AUTH_TYPES_lawful : LawfulField AUTH_TYPES.
Proof. by constructor; [|intros []|]. Qed.
#[export] Instance AUTH_REQUIRED_lawful : LawfulField AUTH_REQUIRED.
Proof. by constructor; [|intros []|]. Qed.
#[export] Instance session_lawful : LawfulField session.
Proof. by constructor; [|intros []|]. Qed.
#[export] Instance sockets_lawful : LawfulField sockets.
Proof. by constructor; [|intros []|]. Qed.
#[export] Instance control_lawful : LawfulField control.
Proof. by constructor; [|intros []|]. Qed.
#[export] Instance socket_lawful : LawfulField socket.
Proof. by constructor; [|intros []|]. Qed.
#[export] Instance is_open_lawful : LawfulField is_open.
Proof. by constructor; [|intros []|]. Qed.
#[export] Instance request_lawful : LawfulField request.
Proof. by constructor; [|intros []|]. Qed.
#[export] Instance client_lawful : LawfulField client.
Proof. by constructor; [|intros []|]. Qed.
#[export] Instance calls_lawful : LawfulField calls.
Proof. by constructor; [|intros []|]. Qed.
#[export] Instance waiters_lawful : LawfulField waiters.
Proof. by constructor; [|intros []|]. Qed.
#[export] Instance log_lawful : LawfulField log.
Proof. by constructor; [|intros []|]. Qed.
#[export] Instance socket_request_disjoint : DisjointFields socket request.
Proof. done. Qed.

Definition registered_apps : field st (list byte) :=
  mkField (λ s, cd_registered_apps (ws_client s)) (λ v s, let c := ws_client s in
    fset client (mkClient (cd_auth_type c) (cd_auth_data c) (cd_name c) (cd_version c) (cd_keepalive c)
      (cd_session c) (cd_os c) v) s).
Definition set_auth_type (v : Z) (c : client_data) : client_data :=
  mkClient v (cd_auth_data c) (cd_name c) (cd_version c) (cd_keepalive c) (cd_session c) (cd_os c)
    (cd_registered_apps c).
Definition set_auth_data (v : option Z) (c : client_data) : client_data :=
  mkClient (cd_auth_type c) v (cd_name c) (cd_version c) (cd_keepalive c) (cd_session c) (cd_os c)
    (cd_registered_apps c).
Definition set_name_version (name : list byte) (v : version_t) (c : client_data) : client_data :=
  mkClient (cd_auth_type c) (cd_auth_data c) name v (cd_keepalive c) (cd_session c) (cd_os c)
    (cd_registered_apps c).
Definition set_os (v : Z) (c : client_data) : client_data :=
  mkClient (cd_auth_type c) (cd_auth_data c) (cd_name c) (cd_version c) (cd_keepalive c) (cd_session c) v
    (cd_registered_apps c).

#[export] Instance registered_apps_lawful : LawfulField registered_apps.
Proof. by constructor; [|intros [???????????[]]|]. Qed.

Definition DebugOut (msg : string) : M st unit := modify log (λ l, l ++ [msg]).
End fields.

(** ** The buffer of an answer: the header, and the bytes behind it *)
Record answer_buffer := mkBuffer { aheader : ANSWER_HEADER; abody : list byte }.

Definition with_app_id (v : Z) (a : answer_buffer) : answer_buffer :=
  let h := aheader a in
  mkBuffer (mkAnswer (ah_message_len h) (ah_header_len h) (ah_body_len h) (ah_data_len h) (ah_message_id h)
    (ah_message_type h) v (ah_session_id h) (ah_proxy_error h) (ah_capi_error h)) (abody a).
Definition with_session_id (v : Z) (a : answer_buffer) : answer_buffer :=
  let h := aheader a in
  mkBuffer (mkAnswer (ah_message_len h) (ah_header_len h) (ah_body_len h) (ah_data_len h) (ah_message_id h)
    (ah_message_type h) (ah_app_id h) v (ah_proxy_error h) (ah_capi_error h)) (abody a).
Definition with_proxy_error (v : Z) (a : answer_buffer) : answer_buffer :=
  let h := aheader a in
  mkBuffer (mkAnswer (ah_message_len h) (ah_header_len h) (ah_body_len h) (ah_data_len h) (ah_message_id h)
    (ah_message_type h) (ah_app_id h) (ah_session_id h) v (ah_capi_error h)) (abody a).
Definition with_capi_error (v : Z) (a : answer_buffer) : answer_buffer :=
  let h := aheader a in
  mkBuffer (mkAnswer (ah_message_len h) (ah_header_len h) (ah_body_len h) (ah_data_len h) (ah_message_id h)
    (ah_message_type h) (ah_app_id h) (ah_session_id h) (ah_proxy_error h) v) (abody a).
Definition with_data_len (v : Z) (a : answer_buffer) : answer_buffer :=
  let h := aheader a in
  mkBuffer (mkAnswer (ah_message_len h) (ah_header_len h) (ah_body_len h) v (ah_message_id h)
    (ah_message_type h) (ah_app_id h) (ah_session_id h) (ah_proxy_error h) (ah_capi_error h)) (abody a).
(** The assignments all handlers begin with. *)
Definition with_header (body_len type message_id session : Z) (a : answer_buffer) : answer_buffer :=
  let h := aheader a in
  mkBuffer (mkAnswer (ah_message_len h) sizeof_ANSWER_HEADER body_len 0 message_id type (ah_app_id h) session
    (ah_proxy_error h) (ah_capi_error h)) (abody a).
(** [aheader->message_len = aheader->header_len + aheader->body_len + aheader->data_len;] *)
Definition with_message_len (a : answer_buffer) : answer_buffer :=
  let h := aheader a in
  mkBuffer (mkAnswer (u32 (ah_header_len h + ah_body_len h + ah_data_len h)) (ah_header_len h) (ah_body_len h)
    (ah_data_len h) (ah_message_id h) (ah_message_type h) (ah_app_id h) (ah_session_id h) (ah_proxy_error h)
    (ah_capi_error h)) (abody a).

(** ** sizeof of the bodies (capi20server.h) *)
Definition rbodysize (type : Z) : Z :=
  if decide (type = TYPE_CAPI_REGISTER) then sizeof_REQUEST_CAPI_REGISTER
  else if decide (type = TYPE_CAPI_RELEASE) then sizeof_cpp_empty
  else if decide (type = TYPE_CAPI_PUTMESSAGE) then sizeof_cpp_empty
  else if decide (type = TYPE_CAPI_GETMESSAGE) then sizeof_cpp_empty
  else if decide (type = TYPE_CAPI_WAITFORSIGNAL) then sizeof_cpp_empty
  else if decide (type = TYPE_CAPI_MANUFACTURER) then sizeof_cpp_empty
  else if decide (type = TYPE_CAPI_VERSION) then sizeof_cpp_empty
  else if decide (type = TYPE_CAPI_SERIAL) then sizeof_cpp_empty
  else if decide (type = TYPE_CAPI_PROFILE) then sizeof_cpp_empty
  else if decide (type = TYPE_CAPI_INSTALLED) then sizeof_cpp_empty
  else if decide (type = TYPE_PROXY_HELO) then sizeof_REQUEST_PROXY_HELO
  else if decide (type = TYPE_PROXY_AUTH) then sizeof_REQUEST_PROXY_AUTH
  else if decide (type = TYPE_PROXY_KEEPALIVE) then sizeof_cpp_empty
  else if decide (type = TYPE_PROXY_SHUTDOWN) then 0
  else -1.

Section session.
Context {CS OS : Type} `{!Capi2032 CS, !WinServer OS}.
Abbreviation st := (wserver CS OS).
Abbreviation W := (M st).

(** ** Sessions *)
Fixpoint first_free (l : list (option Z)) (i : Z) : option Z :=
  match l with
  | [] => None
  | None :: l' => Some i
  | Some _ :: l' => first_free l' (i + 1)
  end.

(** The loop runs over all [_MAX_SESSIONS] entries of the table [F]. *)
Definition allocSession {S} (F : field S (list (option Z))) (socke : Z) : M S Z :=
  l ← gets F;
  match first_free l 0 with
  | Some i => puts F (<[Z.to_nat i := Some socke]> l);; mret i
  | None => mret 0
  end.

Definition freeSession {S} (F : field S (list (option Z))) (sess : Z) : M S unit :=
  if decide (sess >= _MAX_SESSIONS) then mret tt
  else modify F (λ l, <[Z.to_nat sess := None]> l).

(** ** The list of applications *)
Definition add_app (ApplID : Z) : W unit := store_bytes registered_apps ApplID (le_split 1 1).
Definition del_app (ApplID : Z) : W unit := store_bytes registered_apps ApplID (le_split 1 0).

(** [while(i<=CAPI_MAXAPPL)]: the body does not change [i]. *)
Fixpoint getfirst_loop (fuel : nat) (i : Z) : W Z :=
  match fuel with
  | O => fail Diverged
  | S fuel' =>
      if decide (i ≤ CAPI_MAXAPPL) then
        b ← load8 registered_apps i;
        if b =? 1 then store_bytes registered_apps i (le_split 1 0);; mret i
        else getfirst_loop fuel' i
      else mret 0
  end.
Definition getfirst_app (fuel : nat) : W Z := getfirst_loop fuel 1.

(** ** Composing and sending an answer *)
(** [char answer[_MSG_SIZE];] *)
Definition new_answer : W answer_buffer := λ s,
  let b := ws_stack s (ws_calls s) in
  (h ← try OutOfBounds (decode_answer b);
   mret (mkBuffer h (drop 40 b))) (fset calls (S (ws_calls s)) s).

(** Bytes to [abody], at [off]. *)
Definition store_body (off : Z) (bs : list byte) (a : answer_buffer) : W answer_buffer :=
  b ← try OutOfBounds (splice (abody a) off bs); mret (mkBuffer (aheader a) b).

Definition wsend (bs : list byte) : W Z :=
  o ← gets is_open; if o : bool then zoom socket (send bs) else mret (-1).

(** The last statements of a handler. *)
Definition send_answer (a : answer_buffer) : W Z :=
  let a := with_message_len a in
  bs ← try OutOfBounds (slice (encode_answer (aheader a) ++ abody a) 0 (ah_message_len (aheader a)));
  wsend bs.

(** The first statements of the handlers that answer [rheader]. *)
Definition start_answer (rheader : REQUEST_HEADER) (body_len type : Z) : W answer_buffer :=
  a ← new_answer;
  c ← gets client;
  mret (with_proxy_error PERROR_NONE (with_header body_len type (rh_message_id rheader) (cd_session c) a)).

(** ** The CAPI calls

    A handler gets the header, and the places of the body and of the data in
    [request]. *)
Definition exec_capi_register (rheader : REQUEST_HEADER) (rbody rdata : Z) : W Z :=
  a ← start_answer rheader sizeof_cpp_empty TYPE_CAPI_REGISTER;
  messageBufferSize ← load32 request (rbody + REGISTER.messageBufferSize);
  maxLogicalConnection ← load32 request (rbody + REGISTER.maxLogicalConnection);
  maxBDataBlocks ← load32 request (rbody + REGISTER.maxBDataBlocks);
  maxBDataLen ← load32 request (rbody + REGISTER.maxBDataLen);
  '(rc, stored) ←
    zoom capi (capi32_register messageBufferSize maxLogicalConnection maxBDataBlocks maxBDataLen);
  let a := match stored with Some id => with_app_id id a | None => a end in
  let a := with_capi_error rc a in
  when (ah_capi_error (aheader a) =? 0x0000) (add_app (ah_app_id (aheader a)));;
  send_answer a.

Definition exec_capi_release (rheader : REQUEST_HEADER) (rbody rdata : Z) : W Z :=
  a ← start_answer rheader sizeof_cpp_empty TYPE_CAPI_RELEASE;
  rc ← zoom capi (capi32_release (rh_app_id rheader));
  when (rc =? 0x0000) (del_app (rh_app_id rheader));;
  send_answer (with_capi_error rc a).

(** [aheader->capi_error=CAPI_PUT_MESSAGE(rheader->app_id,rdata);] *)
Definition put_message (rheader : REQUEST_HEADER) (rdata : Z) (a : answer_buffer) : W answer_buffer :=
  address ← gets request_address;
  mem ← gets request;
  rc ← zoom capi (capi32_put_message (rh_app_id rheader) address mem rdata);
  mret (with_capi_error rc a).

Definition putmessage_checked (rheader : REQUEST_HEADER) (rdata : Z) (a : answer_buffer) : W answer_buffer :=
  let parse_error := with_proxy_error PERROR_PARSE_ERROR a in
  if rh_data_len rheader <? 8 then mret parse_error else
  len1 ← load16 request rdata;
  if rh_data_len rheader <? len1 then mret parse_error else
  cmd1 ← load8 request (rdata + 4);
  cmd2 ← load8 request (rdata + 5);
  if (cmd1 =? 0x86) && (cmd2 =? 0x80) then
    if len1 <? 18 then mret parse_error else
    len2 ← load16 request (rdata + 16);
    if rh_data_len rheader <? len1 + len2 then mret parse_error else
    address ← gets request_address;
    store32 request (rdata + 12) (address + rdata + len1);;
    put_message rheader rdata a
  else put_message rheader rdata a.

Definition exec_capi_putmessage (rheader : REQUEST_HEADER) (rbody rdata : Z) : W Z :=
  a ← start_answer rheader sizeof_cpp_empty TYPE_CAPI_PUTMESSAGE;
  a ← putmessage_checked rheader rdata a;
  send_answer a.

(** [memcpy] out of the library's memory. *)
Definition read_capi (address n : Z) : W (list byte) :=
  c ← gets capi; try OutOfBounds (capi32_memory c address n).

(** [adata], from [abody] on. *)
Definition GETMESSAGE_adata := sizeof_cpp_empty.

(** What is done with a message. *)
Definition getmessage_copy (message : Z) (a : answer_buffer) : W answer_buffer :=
  l ← read_capi message 2;
  let len1 := le_combine l in
  m ← read_capi message len1;
  a ← store_body GETMESSAGE_adata m a;
  let a := with_data_len len1 a in
  cmd1 ← try OutOfBounds (get_u8 (abody a) (GETMESSAGE_adata + 4));
  cmd2 ← try OutOfBounds (get_u8 (abody a) (GETMESSAGE_adata + 5));
  if (cmd1 =? 0x86) && (cmd2 =? 0x82) then
    if len1 <? 18 then mret (with_proxy_error PERROR_PARSE_ERROR a) else
    len2 ← try OutOfBounds (get_u16 (abody a) (GETMESSAGE_adata + 16));
    pointer ← try OutOfBounds (get_u32 (abody a) (GETMESSAGE_adata + 12));
    d ← read_capi pointer len2;
    a ← store_body (GETMESSAGE_adata + len1) d a;
    mret (with_data_len (ah_data_len (aheader a) + len2) a)
  else mret a.

Definition exec_capi_getmessage (rheader : REQUEST_HEADER) (rbody rdata : Z) : W Z :=
  a ← start_answer rheader sizeof_cpp_empty TYPE_CAPI_GETMESSAGE;
  '(rc, message) ← zoom capi (capi32_get_message (rh_app_id rheader));
  let a := with_capi_error rc a in
  a ← (if ah_capi_error (aheader a) =? 0x0000 then
         message ← try Uninitialised message; getmessage_copy message a
       else mret a);
  send_answer a.

(** The thread function: it sends when the library returns. *)
Definition waiter (data : waiter_data) : W Z :=
  a ← new_answer;
  let a := with_proxy_error PERROR_NONE
             (with_header sizeof_cpp_empty TYPE_CAPI_WAITFORSIGNAL (wt_message_id data) (wt_session_id data) a) in
  rc ← zoom capi (capi32_wait_for_signal (wt_ApplID data));
  send_answer (with_capi_error rc a).

Definition sizeof_waiter_data := 16.
Definition exec_capi_waitforsignal (rheader : REQUEST_HEADER) (rbody rdata : Z) : W Z :=
  ok ← zoom system (HeapAlloc sizeof_waiter_data);
  if negb ok then fail NullDeref else
  c ← gets client;
  let data := mkWaiter (rh_app_id rheader) (rh_message_id rheader) (cd_session c) in
  ok ← zoom system CreateThread;
  (if ok : bool then modify waiters (λ l, l ++ [data])
   else
     a ← start_answer rheader sizeof_cpp_empty TYPE_CAPI_WAITFORSIGNAL;
     send_answer (with_proxy_error PERROR_NO_RESSOURCES a);;
     mret tt);;
  mret 0.

(** A thread in [waiter] comes to its end. *)
Definition run_waiter (i : nat) : W unit :=
  l ← gets waiters;
  match l !! i with
  | Some data => puts waiters (delete i l);; waiter data;; mret tt
  | None => mret tt
  end.

Definition exec_capi_manufacturer (rheader : REQUEST_HEADER) (rbody rdata : Z) : W Z :=
  a ← start_answer rheader sizeof_ANSWER_CAPI_MANUFACTURER TYPE_CAPI_MANUFACTURER;
  '(rc, manufacturer) ← zoom capi (λ c, (capi32_get_manufacturer c, c));
  a ← store_body 0 manufacturer a;
  send_answer (with_capi_error rc a).

Definition exec_capi_version (rheader : REQUEST_HEADER) (rbody rdata : Z) : W Z :=
  a ← start_answer rheader sizeof_ANSWER_CAPI_VERSION TYPE_CAPI_VERSION;
  '(rc, versions) ← zoom capi (λ c, (capi32_get_version c, c));
  let a := with_capi_error rc a in
  v0 ← try Uninitialised (versions !! 0%nat);
  a ← store_body VERSION.driver_major (le_split 4 v0) a;
  v1 ← try Uninitialised (versions !! 1%nat);
  a ← store_body VERSION.driver_minor (le_split 4 v1) a;
  v2 ← try Uninitialised (versions !! 2%nat);
  a ← store_body VERSION.manufacturer_major (le_split 4 v2) a;
  v3 ← try Uninitialised (versions !! 3%nat);
  a ← store_body VERSION.manufacturer_minor (le_split 4 v3) a;
  send_answer a.

Definition exec_capi_serial (rheader : REQUEST_HEADER) (rbody rdata : Z) : W Z :=
  a ← start_answer rheader sizeof_ANSWER_CAPI_SERIAL TYPE_CAPI_SERIAL;
  '(rc, serial) ← zoom capi (λ c, (capi32_get_serial_number c, c));
  a ← store_body 0 serial a;
  send_answer (with_capi_error rc a).

Definition exec_capi_profile (rheader : REQUEST_HEADER) (rbody rdata : Z) : W Z :=
  a ← start_answer rheader sizeof_ANSWER_CAPI_PROFILE TYPE_CAPI_PROFILE;
  '(rc, profile) ← zoom capi (λ c, (capi32_get_profile (rh_controller_id rheader) c, c));
  a ← store_body 0 profile a;
  send_answer (with_capi_error rc a).

Definition exec_capi_installed (rheader : REQUEST_HEADER) (rbody rdata : Z) : W Z :=
  a ← start_answer rheader sizeof_cpp_empty TYPE_CAPI_INSTALLED;
  rc ← zoom capi (λ c, (capi32_installed c, c));
  send_answer (with_capi_error rc a).

(** ** The proxy's own requests *)
Definition exec_proxy_helo (rheader : REQUEST_HEADER) (rbody rdata : Z) : W Z :=
  a ← new_answer;
  let a := with_proxy_error PERROR_NONE
             (with_header sizeof_ANSWER_PROXY_HELO TYPE_PROXY_HELO (rh_message_id rheader) 0 a) in
  name ← load_bytes request (rbody + HELO.name) 64;
  major ← load32 request (rbody + HELO.version_major);
  minor ← load32 request (rbody + HELO.version_minor);
  modify client (set_name_version (<[63%nat := x00]> name) (mkVersion major minor));;
  let a := with_app_id 0 a in
  auth_types ← gets AUTH_TYPES;
  a ← store_body HELO.auth_type (le_split 4 auth_types) a;
  a ← store_body HELO.name (_SERVER_NAME ++ [x00]) a;
  a ← store_body HELO.os (le_split 4 OS_TYPE_WINDOWS) a;
  a ← store_body HELO.timeout (le_split 4 _TIMEOUT) a;
  a ← store_body HELO.version_major (le_split 4 (Protocol.major _SERVER_VERSION)) a;
  a ← store_body HELO.version_minor (le_split 4 (Protocol.minor _SERVER_VERSION)) a;
  c ← gets client;
  a ← (if Protocol.major (cd_version c) <? Protocol.major _SERVER_VERSION
       then mret (with_proxy_error PERROR_INCOMPATIBLE_VERSION a)
       else
         os ← load32 request (rbody + HELO.os);
         modify client (set_os (s32 os));;
         mret (with_session_id (cd_session c) a));
  send_answer a.

Definition exec_proxy_keepalive (rheader : REQUEST_HEADER) (rbody rdata : Z) : W Z := mret 0.

(** The entries of a key, until one matches: is there one?  [smask] is what has
    been written to the array of that name so far; [len] and [len2] are the sizes
    the previous call has stored. *)
Fixpoint match_hosts (fuel : nat) (key : string) (i len len2 : Z) (smask : list byte) (ip : Z) (o : OS)
    : outcome (bool * Z * Z * list byte) :=
  match fuel with
  | O => Faulted Diverged
  | S fuel' =>
      match RegEnumValue key i len len2 o with
      | inr (len, len2) => Done (false, len, len2, smask)
      | inl (snet, data) =>
          if decide (16 < blen snet + 1 ∨ 16 < blen data) then Faulted OutOfBounds else
          let smask := data ++ drop (length data) smask in
          match cstr smask with
          | None => Faulted Uninitialised
          | Some m =>
              let net := inet_addr snet in
              let mask := inet_addr m in
              if decide (Z.land net mask = Z.land ip mask) then Done (true, blen snet, blen data, smask)
              else match_hosts fuel' key (i + 1) (blen snet) (blen data) smask ip o
          end
      end
  end.

(** The log leaves out the names of the keys. *)
Definition lift {A} (o : outcome A) : W A := λ s, (o, s).

Definition HOSTS_ALLOW : string := "Software\capi20proxy\server\hosts_allow".
Definition HOSTS_DENY : string := "Software\capi20proxy\server\hosts_deny".
Definition USERS : string := "Software\capi20proxy\server\users".

Definition try_auth_byip : W Z :=
  o ← gets system;
  match getsockname o with
  | None => DebugOut "try_auth_byip: getsockname()";; mret (-1)
  | Some ip =>
      if negb (RegOpenKeyEx HOSTS_ALLOW o) then
        DebugOut "try_auth_byip: Could not open Registry Key";; mret (-1)
      else if negb (RegOpenKeyEx HOSTS_DENY o) then
        DebugOut "try_auth_byip: Could not open Registry Key";; mret (-1)
      else
        '(allowed, len, len2, smask) ← lift (match_hosts (S (RegCount HOSTS_ALLOW o)) HOSTS_ALLOW 0 16 16 [] ip o);
        '(denied, _, _, _) ← lift (match_hosts (S (RegCount HOSTS_DENY o)) HOSTS_DENY 0 len len2 smask ip o);
        mret (if (allowed : bool) && negb denied then 1 else -1)
  end.

Definition try_auth_userpass (user pass : list byte) : W Z :=
  o ← gets system;
  if negb (RegOpenKeyEx USERS o) then
    DebugOut "try_auth_userpass: Could not open Registry Key";; mret (-1)
  else
    match RegValue USERS user 256 o with
    | None => mret (-1)
    | Some test =>
        test ← try Uninitialised (cstr test);
        mret (if decide (pass = test) then 1 else -1)
    end.

(** [user] and [pass]: arrays of 256 bytes.  Nothing when the strings are too
    long. *)
Definition user_pass (rheader : REQUEST_HEADER) (rdata : Z) : W (option (list byte * list byte)) :=
  let data_len := rh_data_len rheader in
  if data_len <=? 1 then mret (Some ([], [])) else
  store_bytes request (rdata + data_len) [x00];;
  user ← load_cstr request rdata;
  if (255 <? blen user) || (255 <? s32 (data_len - blen user)) then
    DebugOut "exex_proxy_auth: user/pass too long";; mret None
  else
    pass ← load_cstr request (rdata + blen user + 1);
    if 255 <? blen pass then fail OutOfBounds else mret (Some (user, pass)).

(** The answer's error code, and the type that is entered for the client. *)
Definition entered (type r : Z) : W Z :=
  if negb (r =? -1) then modify client (set_auth_type type);; mret PERROR_NONE
  else mret PERROR_ACCESS_DENIED.

(** The [switch]; nothing when the function returns there. *)
Definition auth_switch (rheader : REQUEST_HEADER) (auth_type rdata : Z) : W (option Z) :=
  types ← gets AUTH_TYPES;
  if decide (auth_type = AUTH_BY_IP) then
    if Z.land types AUTH_BY_IP =? 0 then mret (Some PERROR_AUTH_TYPE_NOT_SUPPORTED) else
    r ← try_auth_byip; e ← entered AUTH_BY_IP r; mret (Some e)
  else if decide (auth_type = AUTH_USERPASS) then
    if Z.land types AUTH_USERPASS =? 0 then mret (Some PERROR_AUTH_TYPE_NOT_SUPPORTED) else
    up ← user_pass rheader rdata;
    match up with
    | None => mret None
    | Some (user, pass) => r ← try_auth_userpass user pass; e ← entered AUTH_USERPASS r; mret (Some e)
    end
  else if decide (auth_type = AUTH_NO_AUTH) then
    required ← gets AUTH_REQUIRED;
    mret (Some (if required =? 0 then PERROR_NONE else PERROR_ACCESS_DENIED))
  else mret (Some PERROR_AUTH_TYPE_NOT_SUPPORTED).

Definition exec_proxy_auth (rheader : REQUEST_HEADER) (rbody rdata : Z) : W Z :=
  a ← new_answer;
  c ← gets client;
  let a := with_header sizeof_cpp_empty TYPE_PROXY_AUTH (rh_message_id rheader) (cd_session c) a in
  modify client (λ c, set_auth_type AUTH_NO_AUTH (set_auth_data None c));;
  auth_type ← load32 request rbody;
  e ← auth_switch rheader auth_type rdata;
  match e with
  | None => mret (-1)
  | Some e => send_answer (with_proxy_error e a)
  end.

Definition exec_proxy_shutdown (message : list byte) : W Z :=
  a ← new_answer;
  c ← gets client;
  let a := with_proxy_error PERROR_NONE
             (with_header sizeof_ANSWER_PROXY_SHUTDOWN TYPE_PROXY_SHUTDOWN 0 (cd_session c) a) in
  a ← store_body 0 (message ++ [x00]) a;
  send_answer a.

(** ** The session *)
(** On the header at the start of [request]. *)
Definition verifyRequest (header : REQUEST_HEADER) : bool :=
  let type := rh_message_type header in
  if rh_header_len header <? sizeof_REQUEST_HEADER then false
  else if rh_body_len header <? u32 (rbodysize type) then false
  else if _MSG_SIZE <? rh_message_len header then false
  else if negb (u32 (rh_header_len header + rh_body_len header + rh_data_len header) =? rh_message_len header)
  then false
  else if negb (rh_message_type header =? type) then false
  else true.

Definition verifySessionId (header : REQUEST_HEADER) (session : Z) : bool := rh_session_id header =? session.

Definition report (handler : W Z) : W unit :=
  r ← handler;
  when (r =? -1) (DebugOut "ReceiveRequest(): sending answer failed").

Definition checked_session (sess : Z) (header : REQUEST_HEADER) (handler : W Z) : W unit :=
  session ← gets session;
  if verifySessionId header (u32 (session + sess)) then report handler
  else DebugOut "ReceiveRequest(): verifySessionId() failed".

(** The [switch] over the type of the request.  The pointers are offsets in [request]; one
    that is computed outside of the array is not reduced to 32 bits: it is an error where it
    is used, also where the address would have come back into the array. *)
Definition dispatch (sess : Z) (header : REQUEST_HEADER) : W unit :=
  let body := rh_header_len header in
  let data := rh_header_len header + rh_body_len header in
  let type := rh_message_type header in
  if decide (type = TYPE_CAPI_REGISTER) then checked_session sess header (exec_capi_register header body data)
  else if decide (type = TYPE_CAPI_RELEASE) then checked_session sess header (exec_capi_release header body data)
  else if decide (type = TYPE_CAPI_PUTMESSAGE) then
    checked_session sess header (exec_capi_putmessage header body data)
  else if decide (type = TYPE_CAPI_GETMESSAGE) then
    checked_session sess header (exec_capi_getmessage header body data)
  else if decide (type = TYPE_CAPI_WAITFORSIGNAL) then
    checked_session sess header (exec_capi_waitforsignal header body data)
  else if decide (type = TYPE_CAPI_MANUFACTURER) then
    checked_session sess header (exec_capi_manufacturer header body data)
  else if decide (type = TYPE_CAPI_VERSION) then checked_session sess header (exec_capi_version header body data)
  else if decide (type = TYPE_CAPI_SERIAL) then checked_session sess header (exec_capi_serial header body data)
  else if decide (type = TYPE_CAPI_PROFILE) then checked_session sess header (exec_capi_profile header body data)
  else if decide (type = TYPE_CAPI_INSTALLED) then
    checked_session sess header (exec_capi_installed header body data)
  else if decide (type = TYPE_PROXY_HELO) then report (exec_proxy_helo header body data)
  else if decide (type = TYPE_PROXY_KEEPALIVE) then
    checked_session sess header (exec_proxy_keepalive header body data)
  else if decide (type = TYPE_PROXY_AUTH) then checked_session sess header (exec_proxy_auth header body data)
  else DebugOut "ReceiveRequest(): Invalid Message Type".

(** What is done with what one [recv] has stored in [request]. *)
Definition handle_request (sess : Z) : W unit :=
  b ← gets request;
  header ← try OutOfBounds (decode_request b);
  if negb (verifyRequest header) then DebugOut "StartSession(): verifyRequest failed"
  else dispatch sess header.

(** [err=recv(client.socket,request,_MSG_SIZE,0);] *)
Definition receive : W Z := recv_into socket request 0 _MSG_SIZE.

(** [run] and [pause] in this round. *)
Definition next_control : W (Z * Z) :=
  l ← gets control;
  match l with
  | [] => mret (1, 0)
  | c :: l => puts control l;; mret c
  end.

(** [while(run==1)]; the result is [err].  A round takes from [control] or from the
    stream. *)
Fixpoint session_loop (fuel : nat) (sess err : Z) : W Z :=
  match fuel with
  | O => fail Diverged
  | S fuel' =>
      '(run, pause) ← next_control;
      if negb (run =? 1) then mret err
      else if pause =? 1 then session_loop fuel' sess err
      else
        err ← receive;
        if (err =? 0) || (err =? -1) then mret err
        else handle_request sess;; session_loop fuel' sess err
  end.

(** [while(app=getfirst_app(client.registered_apps)) CAPI_RELEASE(app);] *)
Fixpoint release_apps (fuel : nat) : W unit :=
  match fuel with
  | O => fail Diverged
  | S fuel' =>
      app ← getfirst_app fuel;
      if app =? 0 then mret tt else zoom capi (capi32_release app);; release_apps fuel'
  end.

(** What follows the loop. *)
Definition end_session (fuel : nat) (sess err : Z) : W Z :=
  exec_proxy_shutdown (bytes_of_string (if err =? 0 then "Connection shutting down" else "Socket Error"));;
  release_apps fuel;;
  puts is_open false;;
  freeSession sockets sess;;
  mret 0.

(** [name], [version] and [os] are not initialised. *)
Definition init_client (sess : Z) : W unit :=
  session ← gets session;
  modify client (λ c, mkClient AUTH_NO_AUTH None (cd_name c) (cd_version c) _TIMEOUT (u32 (session + sess)) (cd_os c)
    (replicate (Z.to_nat (CAPI_MAXAPPL + 1)) x00)).

Definition StartSession (fuel : nat) (sess : Z) : W Z := λ s,
  (init_client sess;;
   err ← session_loop (S (length (ws_control s) + length (rx_bytes (ws_socket s)))) sess 1;
   end_session fuel sess err) s.
End session.
