(* ===== verification/WServerSpec.v ===== *)
(** * The Windows server: one run of each handler *)
From stdpp Require Import gmap.
From S2P Require Import Prelude CMem Protocol Net Capi20 AppIndex Win32 Capi2032 WServer.
#[local] Open Scope Z_scope.

(** The lemmas on the registry of AppIndex.v, for this server's number of ids. *)
Definition windows_header : CapiHeader.
Proof. by refine {| Capi20.CAPI_MAXAPPL := CAPI_MAXAPPL |}. Defined.
Definition registered (l : list byte) : gset Z := @apps_set windows_header l.

Section wserver_spec.
Context {CS OS : Type} `{!Capi2032 CS, !Capi2032Laws CS, !WinServer OS}.
Implicit Types s : wserver CS OS.

(** Sizes of the arrays, and words that fit. *)
Record wf_wserver s : Prop := {
  wsf_stack n : blen (ws_stack s n) = _MSG_SIZE;
  wsf_request : blen (ws_request s) = _MSG_SIZE;
  wsf_session : 0 ≤ cd_session (ws_client s) < 2 ^ 32;
  wsf_apps : blen (fget registered_apps s) = CAPI_MAXAPPL + 1;
}.

(** ** The answer *)
(** What the next handler finds in its array [answer]. *)
Definition frame_bytes s : list byte := ws_stack s (ws_calls s).
Definition frame_header s : ANSWER_HEADER :=
  default (mkAnswer 0 0 0 0 0 0 0 0 0 0) (decode_answer (frame_bytes s)).
Definition frame_body s : list byte := drop 40 (frame_bytes s).
Definition called s : wserver CS OS := fset calls (S (ws_calls s)) s.

Lemma frame_view s : wf_wserver s →
  decode_answer (frame_bytes s) = Some (frame_header s) ∧ wf_answer (frame_header s) ∧
  blen (frame_body s) = 9960.
Proof.
  intros Hwf. pose proof (wsf_stack s Hwf (ws_calls s)) as Hl.
  destruct (decode_answer_total (frame_bytes s)) as (h & Hd & Hw & _).
  { unfold frame_bytes. by rewrite Hl. }
  unfold frame_header. rewrite Hd. split_and!; [done|done|].
  unfold _MSG_SIZE, blen, frame_body, frame_bytes in *. rewrite length_drop. lia.
Qed.

Lemma new_answer_run s : wf_wserver s →
  new_answer s = (Done (mkBuffer (frame_header s) (frame_body s)), called s).
Proof.
  intros (Hd & _)%frame_view. unfold new_answer. fold (frame_bytes s) (called s).
  by rewrite (bind_done _ _ _ _ _ (try_done _ _ _ _ Hd)).
Qed.

(** The buffer after the first statements. *)
Definition started (r : REQUEST_HEADER) (body_len type : Z) s : answer_buffer :=
  let g := frame_header s in
  mkBuffer (mkAnswer (ah_message_len g) sizeof_ANSWER_HEADER body_len 0 (rh_message_id r) type (ah_app_id g)
    (cd_session (ws_client s)) PERROR_NONE (ah_capi_error g)) (frame_body s).

Lemma start_answer_run r body_len type s : wf_wserver s →
  start_answer r body_len type s = (Done (started r body_len type s), called s).
Proof.
  intros Hwf. unfold start_answer. rewrite (bind_done _ _ _ _ _ (new_answer_run s Hwf)). done.
Qed.

Lemma store_body_run off bs a b s :
  splice (abody a) off bs = Some b → store_body off bs a s = (Done (mkBuffer (aheader a) b), s).
Proof. intros Hs. unfold store_body. by rewrite (bind_done _ _ _ _ _ (try_done _ _ _ _ Hs)). Qed.

(** The answer on the wire: [n] bytes behind the header. *)
Definition answer_bytes (a : answer_buffer) : list byte :=
  let h := aheader a in let n := ah_body_len h + ah_data_len h in
  encode_answer (mkAnswer (40 + n) (ah_header_len h) (ah_body_len h) (ah_data_len h) (ah_message_id h)
    (ah_message_type h) (ah_app_id h) (ah_session_id h) (ah_proxy_error h) (ah_capi_error h)) ++
  take (Z.to_nat n) (abody a).

Lemma send_answer_run a s :
  ah_header_len (aheader a) = sizeof_ANSWER_HEADER →
  0 ≤ ah_body_len (aheader a) + ah_data_len (aheader a) ≤ blen (abody a) → blen (abody a) < 2 ^ 31 →
  send_answer a s = wsend (answer_bytes a) s.
Proof.
  intros Hh Hn Hb. unfold send_answer, answer_bytes, with_message_len. cbv zeta. cbn [aheader abody ah_message_len].
  rewrite Hh. unfold sizeof_ANSWER_HEADER. rewrite u32_small by lia.
  replace (40 + ah_body_len (aheader a) + ah_data_len (aheader a))
    with (40 + (ah_body_len (aheader a) + ah_data_len (aheader a))) by lia.
  set (n := ah_body_len (aheader a) + ah_data_len (aheader a)) in *.
  erewrite bind_done; [done|]. apply try_done.
  apply (slice_at _ [] _ (drop (Z.to_nat n) (abody a))); [|done|].
  - cbn [app]. by rewrite <- (assoc_L (++)), take_drop.
  - rewrite blen_app, blen_encode_answer. unfold blen in *. rewrite length_take. unfold sizeof_ANSWER_HEADER. lia.
Qed.

(** ** Sending *)
(** The socket after a [send]. *)
Definition sent (bs : list byte) s : wserver CS OS :=
  if ws_open s then fset socket (send bs (ws_socket s)).2 s else s.

Lemma win_wsend_run bs s : ∃ n, wsend bs s = (Done n, sent bs s) ∧ (ws_open s = true → tx_script (ws_socket s) = [] → n = blen bs).
Proof.
  unfold wsend, sent. change (gets is_open ≫= ?k) with (λ s, k (ws_open s) s). cbv beta.
  destruct (ws_open s); [|by eexists].
  unfold zoom. change (fget socket s) with (ws_socket s). destruct (send bs (ws_socket s)) as [n w] eqn:E.
  exists n. split; [done|]. intros _ Hs. unfold send in E. rewrite Hs in E. by injection E as <- <-.
Qed.

(** What a handler sends and leaves, when the library is in the state [c]. *)
Definition replies (out : outcome Z * wserver CS OS) (a : answer_buffer) s' : Prop :=
  out = wsend (answer_bytes a) s' ∧ ah_header_len (aheader a) = sizeof_ANSWER_HEADER ∧
  0 ≤ ah_body_len (aheader a) + ah_data_len (aheader a) ≤ blen (abody a) ∧ blen (abody a) = 9960.

Lemma send_replies a s :
  ah_header_len (aheader a) = sizeof_ANSWER_HEADER →
  0 ≤ ah_body_len (aheader a) + ah_data_len (aheader a) ≤ 9960 → blen (abody a) = 9960 →
  replies (send_answer a s) a s.
Proof. intros Hh Hn Hb. split_and!; [|done|lia..]. apply send_answer_run; [done|lia|lia]. Qed.

Lemma blen_frame_body s : wf_wserver s → blen (frame_body s) = 9960.
Proof. by intros (_ & _ & ?)%frame_view. Qed.

Lemma replies_bind {A} (m : M (wserver CS OS) A) (k : A → M (wserver CS OS) Z) s v s1 a s' :
  m s = (Done v, s1) → replies (k v s1) a s' → replies ((m ≫= k) s) a s'.
Proof. intros Hm. by rewrite (bind_done _ _ _ _ _ Hm). Qed.

(** ** The queries *)
(** The buffer when [bs] has been written to the start of the body. *)
Definition with_body (bs : list byte) (a : answer_buffer) : answer_buffer :=
  mkBuffer (aheader a) (bs ++ drop (length bs) (abody a)).

Lemma store_body_front bs a s :
  blen bs ≤ blen (abody a) → store_body 0 bs a s = (Done (with_body bs a), s).
Proof.
  intros Hl. apply (store_body_run 0 bs a). apply (splice_append [] (abody a) 0 bs); [done|].
  unfold blen in Hl. lia.
Qed.

Lemma blen_with_body bs a : blen bs ≤ blen (abody a) → blen (abody (with_body bs a)) = blen (abody a).
Proof. intros Hl. unfold blen, with_body in *. cbn [abody]. rewrite length_app, length_drop. lia. Qed.

Ltac handler_start Hwf :=
  eapply replies_bind; [by apply start_answer_run|]; pose proof (blen_frame_body _ Hwf).

Lemma exec_capi_installed_run r body data s : wf_wserver s →
  replies (exec_capi_installed r body data s)
    (with_capi_error (capi32_installed (ws_capi s)) (started r 1 TYPE_CAPI_INSTALLED s)) (called s).
Proof. intros Hwf. handler_start Hwf. eapply replies_bind; [done|]. by apply send_replies. Qed.

(** A library function that fills a body of [n] bytes. *)
Lemma filled_body_run (n : Z) type (rc : Z) bs r s :
  wf_wserver s → 0 ≤ n ≤ 9960 → blen bs ≤ n →
  replies ((a ← store_body 0 bs (started r n type s); send_answer (with_capi_error rc a)) (called s))
    (with_capi_error rc (with_body bs (started r n type s))) (called s).
Proof.
  intros Hwf Hn Hl. pose proof (blen_frame_body s Hwf).
  eapply replies_bind; [apply store_body_front; cbn; lia|].
  apply send_replies; [done|cbn; lia|]. etrans; [apply blen_with_body; cbn; lia|done].
Qed.

Lemma win_exec_capi_manufacturer_run r body data rc bs s :
  wf_wserver s → capi32_get_manufacturer (ws_capi s) = (rc, bs) →
  replies (exec_capi_manufacturer r body data s)
    (with_capi_error rc (with_body bs (started r 64 TYPE_CAPI_MANUFACTURER s))) (called s).
Proof.
  intros Hwf Hc. handler_start Hwf.
  eapply replies_bind; [unfold zoom; change (fget capi _) with (ws_capi s); by rewrite Hc|].
  apply filled_body_run; [done..|]. pose proof (capi32_manufacturer_length (ws_capi s)) as Hl. by rewrite Hc in Hl.
Qed.

Lemma win_exec_capi_serial_run r body data rc bs s :
  wf_wserver s → capi32_get_serial_number (ws_capi s) = (rc, bs) →
  replies (exec_capi_serial r body data s)
    (with_capi_error rc (with_body bs (started r 8 TYPE_CAPI_SERIAL s))) (called s).
Proof.
  intros Hwf Hc. handler_start Hwf.
  eapply replies_bind; [unfold zoom; change (fget capi _) with (ws_capi s); by rewrite Hc|].
  apply filled_body_run; [done..|]. pose proof (capi32_serial_length (ws_capi s)) as Hl. by rewrite Hc in Hl.
Qed.

Lemma win_exec_capi_profile_run r body data rc bs s :
  wf_wserver s → capi32_get_profile (rh_controller_id r) (ws_capi s) = (rc, bs) →
  replies (exec_capi_profile r body data s)
    (with_capi_error rc (with_body bs (started r 64 TYPE_CAPI_PROFILE s))) (called s).
Proof.
  intros Hwf Hc. handler_start Hwf.
  eapply replies_bind; [unfold zoom; change (fget capi _) with (ws_capi s); by rewrite Hc|].
  apply filled_body_run; [done..|].
  pose proof (capi32_profile_length (rh_controller_id r) (ws_capi s)) as Hl. by rewrite Hc in Hl.
Qed.

(** A word of the body, behind [pre]. *)
Lemma splice_field pre ws rest i off v :
  off = blen pre + 4 * Z.of_nat i → (i < length ws)%nat →
  splice (pre ++ words ws ++ rest) off (le_split 4 v) = Some (pre ++ words (<[i := v]> ws) ++ rest).
Proof. intros -> Hi. rewrite splice_app_r by lia. by rewrite (splice_words ws rest i). Qed.

Lemma win_exec_capi_version_run r body data rc v0 v1 v2 v3 s :
  wf_wserver s → capi32_get_version (ws_capi s) = (rc, [v0; v1; v2; v3]) →
  replies (exec_capi_version r body data s)
    (with_capi_error rc (with_body (words [v2; v3; v0; v1]) (started r 16 TYPE_CAPI_VERSION s))) (called s).
Proof.
  intros Hwf Hc. handler_start Hwf.
  eapply replies_bind; [unfold zoom; change (fget capi _) with (ws_capi s); by rewrite Hc|].
  destruct (words_view 4 (frame_body s)) as (ws & Hl & Hb); [unfold blen in *; lia|].
  do 4 (destruct ws as [|? ws]; [done|]). destruct ws; [|done].
  assert (Ha : ∀ i off v ws a k s' out, abody a = [] ++ words ws ++ drop 16 (frame_body s) → off = 4 * Z.of_nat i →
    (i < length ws)%nat →
    replies (k (mkBuffer (aheader a) ([] ++ words (<[i := v]> ws) ++ drop 16 (frame_body s))) s') out s' →
    replies ((store_body off (le_split 4 v) a ≫= k) s') out s').
  { intros i off v ws a k s' out Hab Ho Hi Hk. eapply replies_bind; [|exact Hk].
    apply store_body_run. rewrite Hab. by apply splice_field. }
  eapply replies_bind; [done|]. apply (Ha 2%nat) with (ws := [z; z0; z1; z2]); [done..|by apply Nat.ltb_lt|].
  eapply replies_bind; [done|]. apply (Ha 3%nat) with (ws := [z; z0; v0; z2]); [done..|by apply Nat.ltb_lt|].
  eapply replies_bind; [done|]. apply (Ha 0%nat) with (ws := [z; z0; v0; v1]); [done..|by apply Nat.ltb_lt|].
  eapply replies_bind; [done|]. apply (Ha 1%nat) with (ws := [v2; z0; v0; v1]); [done..|by apply Nat.ltb_lt|].
  match goal with |- replies (send_answer ?x _) ?y _ => change x with y end.
  apply send_replies; [done|done|]. etrans; [apply blen_with_body; rewrite blen_words; cbn; lia|done].
Qed.

(** ** Registration *)
(** The four words of the request. *)
Definition register_args (b : list byte) (body : Z) : option (Z * Z * Z * Z) :=
  a1 ← get_u32 b body; a2 ← get_u32 b (body + 4); a3 ← get_u32 b (body + 8); a4 ← get_u32 b (body + 12);
  Some (a1, a2, a3, a4).

Definition register_answer r (rc : Z) (o : option Z) s : answer_buffer :=
  let a := started r 1 TYPE_CAPI_REGISTER s in
  with_capi_error rc (match o with Some id => with_app_id id a | None => a end).

Definition marked_app (id : Z) (c : byte) s : wserver CS OS :=
  fset registered_apps (mark id c (fget registered_apps s)) s.

Lemma add_app_run id s :
  0 ≤ id < blen (fget registered_apps s) → add_app id s = (Done tt, marked_app id Init.Byte.x01 s).
Proof. intros Hid. by apply store_mark. Qed.
Lemma del_app_run id s :
  0 ≤ id < blen (fget registered_apps s) → del_app id s = (Done tt, marked_app id x00 s).
Proof. intros Hid. by apply store_mark. Qed.

Lemma win_exec_capi_register_run r body data a1 a2 a3 a4 rc o c' s :
  wf_wserver s → register_args (ws_request s) body = Some (a1, a2, a3, a4) →
  capi32_register a1 a2 a3 a4 (ws_capi s) = (rc, o, c') →
  (rc = 0 → ∃ id, o = Some id ∧ 0 ≤ id ≤ CAPI_MAXAPPL) →
  replies (exec_capi_register r body data s) (register_answer r rc o s)
    (match o with
     | Some id => if rc =? 0 then marked_app id Init.Byte.x01 (fset capi c' (called s)) else fset capi c' (called s)
     | None => fset capi c' (called s)
     end).
Proof.
  intros Hwf Hargs Hreg Hok. unfold register_args in Hargs.
  destruct (get_u32 _ body) eqn:H1 in Hargs; [|done]. destruct (get_u32 _ (body + 4)) eqn:H2 in Hargs; [|done].
  destruct (get_u32 _ (body + 8)) eqn:H3 in Hargs; [|done]. destruct (get_u32 _ (body + 12)) eqn:H4 in Hargs; [|done].
  injection Hargs as -> -> -> ->. handler_start Hwf.
  assert (Hf : ∀ f k v a s', get_u32 (ws_request s) (body + f) = Some v → replies (k v (called s)) a s' →
    replies ((load32 request (body + f) ≫= k) (called s)) a s').
  { intros f k v a s' Hv Hk. eapply replies_bind; [by apply load_run|done]. }
  apply (Hf 0 _ a1); [by rewrite Z.add_0_r|]. apply (Hf 4 _ a2); [done|]. apply (Hf 8 _ a3); [done|].
  apply (Hf 12 _ a4); [done|]. clear Hf.
  eapply replies_bind.
  { unfold zoom. change (fget capi _) with (ws_capi s). by rewrite Hreg. }
  assert (Hsend : ∀ s', replies (send_answer (register_answer r rc o s) s') (register_answer r rc o s) s').
  { intros s'. unfold register_answer. by destruct o; apply send_replies. }
  match goal with |- replies (_ ?s1) ?a ?s2 => change (replies ((when (rc =? 0x0000) (add_app (ah_app_id (aheader a)));;
    send_answer a) s1) a s2) end.
  destruct (rc =? 0) eqn:E.
  - apply Z.eqb_eq in E. destruct (Hok E) as (id & -> & Hid).
    eapply replies_bind; [|done]. cbn [when].
    apply add_app_run. change (fget registered_apps _) with (fget registered_apps s).
    rewrite (wsf_apps s Hwf). change (ah_app_id (aheader (register_answer r rc (Some id) s))) with id. lia.
  - eapply replies_bind; [done|]. by destruct o.
Qed.

Lemma win_exec_capi_release_run r body data rc c' s :
  wf_wserver s → capi32_release (rh_app_id r) (ws_capi s) = (rc, c') →
  (rc = 0 → 0 ≤ rh_app_id r ≤ CAPI_MAXAPPL) →
  replies (exec_capi_release r body data s) (with_capi_error rc (started r 1 TYPE_CAPI_RELEASE s))
    (if rc =? 0 then marked_app (rh_app_id r) x00 (fset capi c' (called s)) else fset capi c' (called s)).
Proof.
  intros Hwf Hrel Hok. handler_start Hwf.
  eapply replies_bind; [unfold zoom; change (fget capi _) with (ws_capi s); by rewrite Hrel|].
  cbv beta. destruct (rc =? 0) eqn:E.
  - apply Z.eqb_eq in E. eapply replies_bind; [|by apply send_replies]. cbn [when]. apply del_app_run.
    change (fget registered_apps _) with (fget registered_apps s). rewrite (wsf_apps s Hwf). specialize (Hok E). lia.
  - eapply replies_bind; [done|]. by apply send_replies.
Qed.
End wserver_spec.
