(* ===== verification/WServerMessages.v ===== *)
(** * The Windows server: runs of PUTMESSAGE, GETMESSAGE and WAITFORSIGNAL *)
From stdpp Require Import gmap.
From S2P Require Import Prelude CMem Protocol Net Win32 Capi2032 WServer WServerSpec.
#[local] Open Scope Z_scope.

Section messages.
Context {CS OS : Type} `{!Capi2032 CS, !Capi2032Laws CS, !WinServer OS}.
Implicit Types s : wserver CS OS.

(** ** PUTMESSAGE *)
(** What the server does with the message at [data] in [b]: it hands [b'] to the
    library, or not. *)
Inductive put_check (r : REQUEST_HEADER) (address : Z) (b : list byte) (data : Z) : option (list byte) → Prop :=
  | put_short : rh_data_len r < 8 → put_check r address b data None
  | put_truncated len1 :
      8 ≤ rh_data_len r → get_u16 b data = Some len1 → rh_data_len r < len1 → put_check r address b data None
  | put_plain len1 cmd1 cmd2 :
      8 ≤ rh_data_len r → get_u16 b data = Some len1 → len1 ≤ rh_data_len r →
      get_u8 b (data + 4) = Some cmd1 → get_u8 b (data + 5) = Some cmd2 → ¬ (cmd1 = 0x86 ∧ cmd2 = 0x80) →
      put_check r address b data (Some b)
  | put_b3_short len1 :
      8 ≤ rh_data_len r → get_u16 b data = Some len1 → len1 ≤ rh_data_len r →
      get_u8 b (data + 4) = Some 0x86 → get_u8 b (data + 5) = Some 0x80 → len1 < 18 →
      put_check r address b data None
  | put_b3_truncated len1 len2 :
      8 ≤ rh_data_len r → get_u16 b data = Some len1 → len1 ≤ rh_data_len r →
      get_u8 b (data + 4) = Some 0x86 → get_u8 b (data + 5) = Some 0x80 → 18 ≤ len1 →
      get_u16 b (data + 16) = Some len2 → rh_data_len r < len1 + len2 → put_check r address b data None
  | put_b3 len1 len2 b' :
      8 ≤ rh_data_len r → get_u16 b data = Some len1 → len1 ≤ rh_data_len r →
      get_u8 b (data + 4) = Some 0x86 → get_u8 b (data + 5) = Some 0x80 → 18 ≤ len1 →
      get_u16 b (data + 16) = Some len2 → len1 + len2 ≤ rh_data_len r →
      put_le 4 b (data + 12) (address + data + len1) = Some b' → put_check r address b data (Some b').

(** The answer and the state for either. *)
Definition put_replies r data s (out : outcome Z * wserver CS OS) (mem : option (list byte)) : Prop :=
  let a := started r 1 TYPE_CAPI_PUTMESSAGE s in
  match mem with
  | None => replies out (with_proxy_error PERROR_PARSE_ERROR a) (called s)
  | Some b =>
      let '(rc, c') := capi32_put_message (rh_app_id r) (ws_request_address s) b data (ws_capi s) in
      replies out (with_capi_error rc a) (fset capi c' (fset request b (called s)))
  end.

Lemma put_message_run r data b a s :
  fget request s = b →
  put_message r data a s =
    (Done (with_capi_error (capi32_put_message (rh_app_id r) (ws_request_address s) b data (ws_capi s)).1 a),
     fset capi (capi32_put_message (rh_app_id r) (ws_request_address s) b data (ws_capi s)).2 s).
Proof.
  intros Hb. unfold put_message. erewrite bind_done by done. cbv beta. erewrite bind_done by done. cbv beta.
  rewrite Hb. unfold zoom, mbind, M_bind. change (fget capi s) with (ws_capi s).
  change (fget request_address s) with (ws_request_address s). by destruct (capi32_put_message _ _ _ _ _).
Qed.

Ltac field_load := erewrite bind_done by (by apply load_run); cbv beta.
Ltac test_true := rewrite (proj2 (Z.ltb_lt _ _)) by lia.
Ltac test_false := rewrite (proj2 (Z.ltb_ge _ _)) by lia.

Lemma win_exec_capi_putmessage_run r body data mem s :
  wf_wserver s → put_check r (ws_request_address s) (ws_request s) data mem →
  put_replies r data s (exec_capi_putmessage r body data s) mem.
Proof.
  intros Hwf Hput. pose proof (blen_frame_body s Hwf).
  unfold exec_capi_putmessage. rewrite (bind_done _ _ _ _ _ (start_answer_run r _ _ s Hwf)).
  assert (Hcall : ∀ s1 b, s1 = fset request b (called s) →
    put_message r data (started r 1 TYPE_CAPI_PUTMESSAGE s) s1 =
      (Done (with_capi_error (capi32_put_message (rh_app_id r) (ws_request_address s) b data (ws_capi s)).1
               (started r 1 TYPE_CAPI_PUTMESSAGE s)),
       fset capi (capi32_put_message (rh_app_id r) (ws_request_address s) b data (ws_capi s)).2 s1)).
  { intros s1 b ->. exact (put_message_run r data b _ (fset request b (called s)) eq_refl). }
  assert (Hself : called s = fset request (ws_request s) (called s)).
  { symmetry. apply (fset_fget (F:=request) (called s)). }
  unfold put_replies, putmessage_checked. cbv zeta.
  destruct Hput as [Hs|len1 H8 Hl Ht|len1 cmd1 cmd2 H8 Hl Ht Hc1 Hc2 Hn|len1 H8 Hl Ht Hc1 Hc2 Hs
    |len1 len2 H8 Hl Ht Hc1 Hc2 H18 Hl2 Hs|len1 len2 b' H8 Hl Ht Hc1 Hc2 H18 Hl2 Hs Hb'].
  - test_true. erewrite bind_done by done. by apply send_replies.
  - test_false. rewrite bind_assoc. field_load. test_true. erewrite bind_done by done. by apply send_replies.
  - test_false. rewrite bind_assoc. field_load. test_false. rewrite bind_assoc. field_load. rewrite bind_assoc. field_load.
    replace ((cmd1 =? 0x86) && (cmd2 =? 0x80)) with false by (symmetry; apply andb_false_iff; rewrite !Z.eqb_neq; lia).
    destruct (capi32_put_message _ _ _ _ _) as [rc c'] eqn:E. rewrite Hself.
    erewrite bind_done by by apply Hcall. cbv beta. rewrite E. by apply send_replies.
  - test_false. rewrite bind_assoc. field_load. test_false. rewrite bind_assoc. field_load. rewrite bind_assoc. field_load.
    cbn [Z.eqb Pos.eqb andb]. test_true. erewrite bind_done by done. by apply send_replies.
  - test_false. rewrite bind_assoc. field_load. test_false. rewrite bind_assoc. field_load. rewrite bind_assoc. field_load.
    cbn [Z.eqb Pos.eqb andb]. test_false. rewrite bind_assoc. field_load. test_true.
    erewrite bind_done by done. by apply send_replies.
  - test_false. rewrite bind_assoc. field_load. test_false. rewrite bind_assoc. field_load. rewrite bind_assoc. field_load.
    cbn [Z.eqb Pos.eqb andb]. test_false. rewrite bind_assoc. field_load. test_false.
    rewrite bind_assoc. erewrite bind_done by done. cbv beta.
    rewrite bind_assoc. erewrite bind_done by (apply store_bytes_run; exact Hb'). cbv beta.
    destruct (capi32_put_message _ _ _ _ _) as [rc c'] eqn:E.
    erewrite bind_done by by apply Hcall. cbv beta. rewrite E. by apply send_replies.
Qed.

(** ** GETMESSAGE *)
(** The message at [p], for a body that starts as [fb]: the data length, the error
    and the body of the answer. *)
Inductive get_copy (c : CS) (p : Z) (fb : list byte) : Z → Z → list byte → Prop :=
  | get_plain l m b cmd1 cmd2 :
      capi32_memory c p 2 = Some l → capi32_memory c p (le_combine l) = Some m → splice fb 1 m = Some b →
      get_u8 b 5 = Some cmd1 → get_u8 b 6 = Some cmd2 → ¬ (cmd1 = 0x86 ∧ cmd2 = 0x82) →
      get_copy c p fb (blen m) PERROR_NONE b
  | get_short l m b :
      capi32_memory c p 2 = Some l → capi32_memory c p (le_combine l) = Some m → splice fb 1 m = Some b →
      get_u8 b 5 = Some 0x86 → get_u8 b 6 = Some 0x82 → blen m < 18 →
      get_copy c p fb (blen m) PERROR_PARSE_ERROR b
  | get_data l m b len2 q d b' :
      capi32_memory c p 2 = Some l → capi32_memory c p (le_combine l) = Some m → splice fb 1 m = Some b →
      get_u8 b 5 = Some 0x86 → get_u8 b 6 = Some 0x82 → 18 ≤ blen m →
      get_u16 b 17 = Some len2 → get_u32 b 13 = Some q → capi32_memory c q len2 = Some d →
      splice b (1 + blen m) d = Some b' →
      get_copy c p fb (blen m + blen d) PERROR_NONE b'.

Definition get_answer r (rc n e : Z) (b : list byte) s : answer_buffer :=
  let a := with_capi_error rc (started r 1 TYPE_CAPI_GETMESSAGE s) in
  with_proxy_error e (with_data_len n (mkBuffer (aheader a) b)).

Lemma read_capi_run p n bs s :
  capi32_memory (ws_capi s) p n = Some bs → read_capi p n s = (Done bs, s).
Proof. intros Hm. unfold read_capi. erewrite bind_done by done. cbv beta. change (fget capi s) with (ws_capi s). by rewrite Hm. Qed.

Lemma win_exec_capi_getmessage_error r body data rc p c' s :
  wf_wserver s → capi32_get_message (rh_app_id r) (ws_capi s) = (rc, p, c') → rc ≠ 0 →
  replies (exec_capi_getmessage r body data s)
    (with_capi_error rc (started r 1 TYPE_CAPI_GETMESSAGE s)) (fset capi c' (called s)).
Proof.
  intros Hwf Hg Hrc. pose proof (blen_frame_body s Hwf).
  eapply replies_bind; [by apply start_answer_run|].
  eapply replies_bind; [unfold zoom; change (fget capi _) with (ws_capi s); by rewrite Hg|].
  cbv beta iota zeta. change (ah_capi_error (aheader (with_capi_error rc ?a))) with rc.
  rewrite (proj2 (Z.eqb_neq rc 0)) by done. eapply replies_bind; [done|]. by apply send_replies.
Qed.

Lemma get_copy_bounds c p fb n e b :
  get_copy c p fb n e b → blen b = blen fb ∧ 0 ≤ n ∧ 1 + n ≤ blen fb.
Proof.
  assert (Hb : ∀ b off bs b', splice b off bs = Some b' → blen b' = blen b ∧ 0 ≤ off ∧ off + blen bs ≤ blen b).
  { intros b0 off bs b' Hs. pose proof (splice_length _ _ _ _ Hs). unfold splice in Hs. case_decide; [|done].
    unfold blen in *. by split; [lia|]. }
  pose proof blen_nonneg.
  destruct 1 as [l m b cmd1 cmd2 _ _ Hs|l m b _ _ Hs|l m b len2 q d b' _ _ Hs _ _ _ _ _ _ Hs'];
    apply Hb in Hs as (?&?&?); [by split_and!; [..|lia]..|]. apply Hb in Hs' as (?&?&?).
  pose proof (blen_nonneg m). pose proof (blen_nonneg d). lia.
Qed.

Lemma getmessage_copy_run p a n e b s :
  get_copy (ws_capi s) p (abody a) n e b → ah_proxy_error (aheader a) = PERROR_NONE →
  getmessage_copy p a s = (Done (with_proxy_error e (with_data_len n (mkBuffer (aheader a) b))), s).
Proof.
  intros Hc He. destruct a as [h fb]. cbn [abody aheader] in *. unfold getmessage_copy.
  assert (Hsame : ∀ b n, with_proxy_error PERROR_NONE (with_data_len n (mkBuffer h b)) = with_data_len n (mkBuffer h b)).
  { intros b0 n0. unfold with_proxy_error, with_data_len. cbn. by rewrite He. }
  destruct Hc as [l m b cmd1 cmd2 Hl Hm Hs H1 H2 Hn|l m b Hl Hm Hs H1 H2 Hn|l m b len2 q d b' Hl Hm Hs H1 H2 Hn Hl2 Hq Hd Hs'];
    rewrite (bind_done _ _ _ _ _ (read_capi_run _ _ _ _ Hl)); cbv zeta;
    rewrite (bind_done _ _ _ _ _ (read_capi_run _ _ _ _ Hm)), (bind_done _ _ _ _ _ (store_body_run _ _ (mkBuffer h fb) _ s Hs));
    cbv zeta; rewrite (bind_done _ _ _ _ _ (try_done _ _ _ _ H1)), (bind_done _ _ _ _ _ (try_done _ _ _ _ H2));
    rewrite <- (capi32_memory_length _ _ _ _ Hm).
  - replace ((cmd1 =? 0x86) && (cmd2 =? 0x82)) with false by (symmetry; apply andb_false_iff; rewrite !Z.eqb_neq; lia).
    by rewrite Hsame.
  - cbn [Z.eqb Pos.eqb andb]. by test_true.
  - cbn [Z.eqb Pos.eqb andb]. test_false.
    rewrite (bind_done _ _ _ _ _ (try_done _ _ _ _ Hl2)), (bind_done _ _ _ _ _ (try_done _ _ _ _ Hq)).
    rewrite (bind_done _ _ _ _ _ (read_capi_run _ _ _ _ Hd)).
    rewrite (bind_done _ _ _ _ _ (store_body_run _ _ (with_data_len (blen m) (mkBuffer h b)) _ s Hs')).
    rewrite Hsame, <- (capi32_memory_length _ _ _ _ Hd). done.
Qed.

Lemma exec_capi_getmessage_run r body data p c' n e b s :
  wf_wserver s → capi32_get_message (rh_app_id r) (ws_capi s) = (0, Some p, c') →
  get_copy c' p (frame_body s) n e b →
  replies (exec_capi_getmessage r body data s) (get_answer r 0 n e b s) (fset capi c' (called s)).
Proof.
  intros Hwf Hg Hc. pose proof (blen_frame_body s Hwf). pose proof (get_copy_bounds _ _ _ _ _ _ Hc) as (?&?&?).
  eapply replies_bind; [by apply start_answer_run|].
  eapply replies_bind; [unfold zoom; change (fget capi _) with (ws_capi s); by rewrite Hg|].
  cbv beta iota zeta. change (ah_capi_error (aheader (with_capi_error 0 ?a))) with 0. rewrite Z.eqb_refl.
  eapply replies_bind; [|apply send_replies].
  - erewrite bind_done by done. by apply getmessage_copy_run.
  - done.
  - cbn. lia.
  - cbn. lia.
Qed.

(** A DATA_B3_IND [m] with its data. *)
Lemma get_copy_data c p m d q fb :
  capi32_memory c p 2 = slice m 0 2 → get_u16 m 0 = Some (blen m) → capi32_memory c p (blen m) = Some m →
  get_u8 m 4 = Some 0x86 → get_u8 m 5 = Some 0x82 → 18 ≤ blen m →
  get_u16 m 16 = Some (blen d) → get_u32 m 12 = Some q → capi32_memory c q (blen d) = Some d →
  1 + blen m + blen d ≤ blen fb →
  ∃ b, get_copy c p fb (blen m + blen d) PERROR_NONE b ∧
    take (Z.to_nat (1 + (blen m + blen d))) b = take 1 fb ++ m ++ d.
Proof.
  intros H2 Hlen Hm H4 H5 H18 H16 H12 Hd Hfit. pose proof (blen_nonneg m). pose proof (blen_nonneg d).
  unfold get_le in Hlen. destruct (slice m 0 (Z.of_nat 2)) as [l|] eqn:Hl; [|done]. injection Hlen as Hlen.
  assert (Hp : blen (take 1 fb) = 1) by (unfold blen in *; rewrite length_take; lia).
  assert (Hs : splice fb 1 m = Some ((take 1 fb ++ m) ++ drop (length m) (drop 1 fb))).
  { rewrite <- (take_drop 1 fb) at 1. apply splice_append; [by rewrite Hp|]. rewrite length_drop. unfold blen in *. lia. }
  assert (Hs' : splice ((take 1 fb ++ m) ++ drop (length m) (drop 1 fb)) (1 + blen m) d =
    Some (((take 1 fb ++ m) ++ d) ++ drop (length d) (drop (length m) (drop 1 fb)))).
  { apply splice_append; [rewrite blen_app; lia|]. rewrite !length_drop. unfold blen in *. lia. }
  assert (Hget : ∀ w k v, get_le w m k = Some v → 0 ≤ k →
    get_le w ((take 1 fb ++ m) ++ drop (length m) (drop 1 fb)) (1 + k) = Some v).
  { intros w k v Hv Hk. rewrite <- (assoc_L (++)), <- Hp, get_le_app_r by done. by apply get_le_app_l. }
  eexists. split.
  - eapply get_data; [rewrite H2; exact Hl|by rewrite Hlen|exact Hs|by apply (Hget 1%nat 4)|by apply (Hget 1%nat 5)|done
      |by apply (Hget 2%nat 16)|by apply (Hget 4%nat 12)|done|exact Hs'].
  - rewrite <- (assoc_L (++) (take 1 fb)). apply take_app_length'. unfold blen in *. rewrite !length_app. lia.
Qed.

(** ** WAITFORSIGNAL *)
Definition wait_for r s : waiter_data := mkWaiter (rh_app_id r) (rh_message_id r) (cd_session (ws_client s)).

Lemma exec_capi_waitforsignal_run r body data o1 o2 s :
  HeapAlloc sizeof_waiter_data (ws_os s) = (true, o1) → CreateThread o1 = (true, o2) →
  exec_capi_waitforsignal r body data s =
    (Done 0, fset waiters (ws_waiters s ++ [wait_for r s]) (fset system o2 s)).
Proof.
  intros Ha Hc. unfold exec_capi_waitforsignal.
  rewrite (bind_done _ _ s true (fset system o1 s)).
  2:{ unfold zoom. change (fget system s) with (ws_os s). by rewrite Ha. }
  cbv beta. cbn [negb]. erewrite bind_done by done. cbv beta zeta.
  rewrite (bind_done _ _ _ true (fset system o2 s)).
  2:{ unfold zoom. change (fget system (fset system o1 s)) with o1. by rewrite Hc. }
  done.
Qed.

Lemma exec_capi_waitforsignal_no_thread r body data o1 o2 s :
  wf_wserver s → HeapAlloc sizeof_waiter_data (ws_os s) = (true, o1) → CreateThread o1 = (false, o2) →
  exec_capi_waitforsignal r body data s =
    (Done 0, sent (answer_bytes (with_proxy_error PERROR_NO_RESSOURCES
                     (started r 1 TYPE_CAPI_WAITFORSIGNAL (fset system o2 s)))) (called (fset system o2 s))).
Proof.
  intros Hwf Ha Hc. set (s2 := fset system o2 s).
  assert (Hwf2 : wf_wserver s2) by (by destruct Hwf). pose proof (blen_frame_body _ Hwf2).
  unfold exec_capi_waitforsignal.
  rewrite (bind_done _ _ s true (fset system o1 s)).
  2:{ unfold zoom. change (fget system s) with (ws_os s). by rewrite Ha. }
  cbv beta. cbn [negb]. erewrite bind_done by done. cbv beta zeta.
  rewrite (bind_done _ _ _ false s2).
  2:{ unfold zoom. change (fget system (fset system o1 s)) with o1. by rewrite Hc. }
  cbv beta iota. rewrite bind_assoc. rewrite (bind_done _ _ _ _ _ (start_answer_run r _ _ s2 Hwf2)). cbv beta.
  rewrite bind_assoc.
  destruct (win_wsend_run (answer_bytes (with_proxy_error PERROR_NO_RESSOURCES (started r 1 TYPE_CAPI_WAITFORSIGNAL s2))) (called s2))
    as (n & Hn & _).
  erewrite bind_done; [|etrans; [apply send_answer_run; [done|change (0 ≤ 1 + 0 ≤ blen (frame_body s2)); lia|change (blen (frame_body s2) < 2 ^ 31); lia]|exact Hn]]. done.
Qed.

(** The answer of the thread. *)
Definition waiter_answer (w : waiter_data) (rc : Z) s : answer_buffer :=
  let g := frame_header s in
  mkBuffer (mkAnswer (ah_message_len g) sizeof_ANSWER_HEADER 1 0 (wt_message_id w) TYPE_CAPI_WAITFORSIGNAL
    (ah_app_id g) (wt_session_id w) PERROR_NONE rc) (frame_body s).

Lemma waiter_run w rc c' s :
  wf_wserver s → capi32_wait_for_signal (wt_ApplID w) (ws_capi s) = (rc, c') →
  replies (waiter w s) (waiter_answer w rc s) (fset capi c' (called s)).
Proof.
  intros Hwf Hc. pose proof (blen_frame_body s Hwf).
  eapply replies_bind; [by apply new_answer_run|].
  eapply replies_bind; [unfold zoom; change (fget capi _) with (ws_capi s); by rewrite Hc|].
  match goal with |- replies _ ?a _ => change (with_capi_error rc _) with a end. by apply send_replies.
Qed.
End messages.
