(* ===== verification/WServerProxy.v ===== *)
(** * The Windows server: runs of HELO, AUTH and SHUTDOWN, and the checks of a request *)
From stdpp Require Import gmap.
From S2P Require Import Prelude CMem Protocol Net Capi20 AppIndex Win32 Capi2032 WServer WServerSpec.
#[local] Open Scope Z_scope.

Lemma cstr_no_nul (u rest : list byte) : x00 ∉ u → cstr (u ++ x00 :: rest) = Some u.
Proof.
  induction u as [|c u IH]; intros Hu; cbn; [done|].
  rewrite decide_False by (intros ->; apply Hu; left). rewrite IH; [done|]. intros Hc. apply Hu. by right.
Qed.

(** ** What verifyRequest accepts *)
Lemma verifyRequest_spec r :
  verifyRequest r = true ↔
  sizeof_REQUEST_HEADER ≤ rh_header_len r ∧ u32 (rbodysize (rh_message_type r)) ≤ rh_body_len r ∧
  rh_message_len r ≤ _MSG_SIZE ∧ u32 (rh_header_len r + rh_body_len r + rh_data_len r) = rh_message_len r.
Proof.
  unfold verifyRequest. cbv zeta. rewrite Z.eqb_refl. cbn [negb].
  destruct (Z.ltb_spec (rh_header_len r) sizeof_REQUEST_HEADER); [by split; [|lia]|].
  destruct (Z.ltb_spec (rh_body_len r) (u32 (rbodysize (rh_message_type r)))); [by split; [|lia]|].
  destruct (Z.ltb_spec _MSG_SIZE (rh_message_len r)); [by split; [|lia]|].
  destruct (Z.eqb_spec (u32 (rh_header_len r + rh_body_len r + rh_data_len r)) (rh_message_len r));
    cbn [negb]; [by split|by split; [|lia]].
Qed.

Section proxy.
Context {CS OS : Type} `{!Capi2032 CS, !Capi2032Laws CS, !WinServer OS}.
Implicit Types s : wserver CS OS.

(** ** HELO *)
Definition helo_body (types : Z) (fb : list byte) : list byte :=
  (_SERVER_NAME ++ [x00]) ++ take 36 (drop 28 fb) ++
  words [OS_TYPE_WINDOWS; _VERSION_MAJOR; _VERSION_MINOR; types; _TIMEOUT].

Lemma blen_helo_body types fb : 84 ≤ blen fb → blen (helo_body types fb) = 84.
Proof.
  intros Hf. unfold helo_body. rewrite !blen_app, blen_words. change (blen _SERVER_NAME) with 27.
  change (blen [x00]) with 1. unfold blen in *. rewrite length_take, length_drop. cbn [length]. lia.
Qed.

Definition helo_answer r s : answer_buffer :=
  let g := frame_header s in
  mkBuffer (mkAnswer (ah_message_len g) sizeof_ANSWER_HEADER sizeof_ANSWER_PROXY_HELO 0 (rh_message_id r) TYPE_PROXY_HELO 0 0
    PERROR_NONE (ah_capi_error g)) (helo_body (ws_AUTH_TYPES s) (frame_body s) ++ drop 84 (frame_body s)).

(** Client's name, its version, its system. *)
Definition greeted (name : list byte) (v : version_t) (os : option Z) s : wserver CS OS :=
  let c := set_name_version (<[63%nat := x00]> name) v (ws_client s) in
  fset client (match os with Some os => set_os (s32 os) c | None => c end) s.

Lemma helo_stores {A} (a : answer_buffer) types (k : answer_buffer → M (wserver CS OS) A) s :
  blen (abody a) = 9960 →
  (a ← store_body HELO.auth_type (le_split 4 types) a;
   a ← store_body HELO.name (_SERVER_NAME ++ [x00]) a;
   a ← store_body HELO.os (le_split 4 OS_TYPE_WINDOWS) a;
   a ← store_body HELO.timeout (le_split 4 _TIMEOUT) a;
   a ← store_body HELO.version_major (le_split 4 (Protocol.major _SERVER_VERSION)) a;
   a ← store_body HELO.version_minor (le_split 4 (Protocol.minor _SERVER_VERSION)) a;
   k a) s =
  k (mkBuffer (aheader a) (helo_body types (abody a) ++ drop 84 (abody a))) s.
Proof.
  intros Hb. destruct a as [h fb]. cbn [aheader abody] in *.
  destruct (words_view 5 (drop 64 fb)) as (ws & Hl & Hws); [rewrite length_drop; unfold blen in Hb; lia|].
  do 5 (destruct ws as [|? ws]; [done|]). destruct ws; [|done]. rewrite drop_drop in Hws. change (64 + 4 * 5)%nat with 84%nat in Hws.
  set (pre := take 64 fb). assert (Hp : blen pre = 64) by (unfold pre, blen in *; rewrite length_take; lia).
  set (pre' := (_SERVER_NAME ++ [x00]) ++ drop 28 pre).
  assert (Hp' : blen pre' = 64).
  { unfold pre'. rewrite !blen_app. change (blen _SERVER_NAME) with 27. change (blen [x00]) with 1.
    unfold blen in *. rewrite length_drop. lia. }
  assert (Hfb : fb = pre ++ words [z; z0; z1; z2; z3] ++ drop 84 fb) by (rewrite <- Hws; unfold pre; by rewrite take_drop).
  assert (Hst : ∀ i off v p ws (a : answer_buffer) (k' : answer_buffer → M (wserver CS OS) A),
    abody a = p ++ words ws ++ drop 84 fb → off = blen p + 4 * Z.of_nat i → (i < length ws)%nat →
    (a ← store_body off (le_split 4 v) a; k' a) s =
      k' (mkBuffer (aheader a) (p ++ words (<[i := v]> ws) ++ drop 84 fb)) s).
  { intros i off v p ws a k' Ha Ho Hi. erewrite bind_done; [done|]. apply store_body_run. rewrite Ha. by apply splice_field. }
  rewrite (Hst 3%nat _ _ pre [z; z0; z1; z2; z3]) by (done || (rewrite Hp; done) || by apply Nat.ltb_lt). cbn [insert list_insert].
  erewrite bind_done.
  2:{ apply (store_body_run _ _ _ (pre' ++ words [z; z0; z1; types; z3] ++ drop 84 fb)). cbn [abody].
      apply splice_app_l. apply (splice_append [] pre); [done|]. unfold blen in Hp.
      change (length (_SERVER_NAME ++ [x00])) with 28%nat. lia. }
  cbn [aheader].
  rewrite (Hst 0%nat _ _ pre' [z; z0; z1; types; z3]) by (done || (rewrite Hp'; done) || by apply Nat.ltb_lt). cbn [insert list_insert].
  rewrite (Hst 4%nat _ _ pre' [OS_TYPE_WINDOWS; z0; z1; types; z3]) by (done || (rewrite Hp'; done) || by apply Nat.ltb_lt). cbn [insert list_insert].
  rewrite (Hst 1%nat _ _ pre' [OS_TYPE_WINDOWS; z0; z1; types; _TIMEOUT]) by (done || (rewrite Hp'; done) || by apply Nat.ltb_lt). cbn [insert list_insert].
  rewrite (Hst 2%nat _ _ pre' [OS_TYPE_WINDOWS; _VERSION_MAJOR; z1; types; _TIMEOUT]) by (done || (rewrite Hp'; done) || by apply Nat.ltb_lt). cbn [insert list_insert].
  unfold helo_body, pre', pre. cbn [aheader]. rewrite <- !(assoc_L (++)). rewrite skipn_firstn_comm. done.
Qed.

Lemma win_exec_proxy_helo_run r body data name v os s :
  wf_wserver s → slice (ws_request s) body 64 = Some name →
  get_u32 (ws_request s) (body + HELO.version_major) = Some (Protocol.major v) →
  get_u32 (ws_request s) (body + HELO.version_minor) = Some (Protocol.minor v) →
  get_u32 (ws_request s) (body + HELO.os) = Some os →
  replies (exec_proxy_helo r body data s)
    (if Protocol.major v <? _VERSION_MAJOR then with_proxy_error PERROR_INCOMPATIBLE_VERSION (helo_answer r s)
     else with_session_id (cd_session (ws_client s)) (helo_answer r s))
    (greeted name v (if Protocol.major v <? _VERSION_MAJOR then None else Some os) (called s)).
Proof.
  intros Hwf Hn Hma Hmi Hos. destruct v as [ma mi]. cbn [Protocol.major Protocol.minor] in *.
  pose proof (blen_frame_body s Hwf) as Hfb.
  assert (Hb : blen (abody (helo_answer r s)) = 9960).
  { cbn [abody helo_answer]. rewrite blen_app, blen_helo_body by lia. unfold blen in *. rewrite length_drop. lia. }
  eapply replies_bind; [by apply new_answer_run|].
  eapply replies_bind; [apply load_bytes_run; by rewrite Z.add_0_r|].
  eapply replies_bind; [by apply load_run|]. eapply replies_bind; [by apply load_run|].
  eapply replies_bind; [done|]. cbv zeta. eapply replies_bind; [done|].
  rewrite helo_stores by done.
  match goal with |- replies (_ ?s1) _ _ => change s1 with (greeted name (mkVersion ma mi) None (called s)) end.
  match goal with |- replies ((c ← gets client; a ← _; send_answer a) ?s1) ?x ?s2 =>
    change (replies ((a ← (if ma <? _VERSION_MAJOR
       then mret (with_proxy_error PERROR_INCOMPATIBLE_VERSION (helo_answer r s))
       else os ← load32 request (body + HELO.os);
         modify client (set_os (s32 os));;
         mret (with_session_id (cd_session (ws_client s)) (helo_answer r s))); send_answer a) s1) x s2) end.
  destruct (ma <? _VERSION_MAJOR).
  - eapply replies_bind; [done|]. by apply send_replies.
  - eapply replies_bind.
    { erewrite bind_done by by apply load_run. done. }
    apply send_replies; [done|done|exact Hb].
Qed.

(** ** AUTH *)
Definition auth_answer r (e : Z) s : answer_buffer :=
  with_proxy_error e (with_header 1 TYPE_PROXY_AUTH (rh_message_id r) (cd_session (ws_client s))
    (mkBuffer (frame_header s) (frame_body s))).

(** The client is not authenticated while the request is examined. *)
Definition unauthenticated s : wserver CS OS :=
  fset client (set_auth_type AUTH_NO_AUTH (set_auth_data None (ws_client s))) (called s).

Lemma win_exec_proxy_auth_run r body data type e s s1 :
  wf_wserver s → get_u32 (ws_request s) body = Some type →
  auth_switch r type data (unauthenticated s) = (Done (Some e), s1) →
  replies (exec_proxy_auth r body data s) (auth_answer r e s) s1.
Proof.
  intros Hwf Ht Hsw. pose proof (blen_frame_body s Hwf).
  eapply replies_bind; [by apply new_answer_run|]. eapply replies_bind; [done|]. cbv zeta.
  eapply replies_bind; [done|]. eapply replies_bind; [by apply load_run|].
  eapply replies_bind; [exact Hsw|]. by apply send_replies.
Qed.

(** The types without a look at the registry. *)
Lemma auth_switch_plain r type data s :
  type = AUTH_BY_IP ∧ Z.land (ws_AUTH_TYPES s) AUTH_BY_IP = 0 ∨
  type = AUTH_USERPASS ∧ Z.land (ws_AUTH_TYPES s) AUTH_USERPASS = 0 ∨
  (type ≠ AUTH_BY_IP ∧ type ≠ AUTH_USERPASS) →
  auth_switch r type data s =
    (Done (Some (if decide (type = AUTH_NO_AUTH)
                 then (if ws_AUTH_REQUIRED s =? 0 then PERROR_NONE else PERROR_ACCESS_DENIED)
                 else PERROR_AUTH_TYPE_NOT_SUPPORTED)), s).
Proof.
  intros Hc. unfold auth_switch. erewrite bind_done by done. cbv beta. change (fget AUTH_TYPES s) with (ws_AUTH_TYPES s).
  destruct Hc as [[-> Hz]|[[-> Hz]|[Hn1 Hn2]]].
  - rewrite decide_True, decide_False by done. by rewrite Hz.
  - rewrite decide_False, decide_True, decide_False by done. by rewrite Hz.
  - rewrite (decide_False (P := type = AUTH_BY_IP)), (decide_False (P := type = AUTH_USERPASS)) by done.
    case_decide; [|done]. by erewrite bind_done by done.
Qed.

(** User and password as the client puts them behind the body. *)
Definition credentials (user pass : list byte) : list byte := user ++ x00 :: pass ++ [x00].

Definition user_known (user pass : list byte) (o : OS) : Prop :=
  RegOpenKeyEx USERS o = true ∧ ∃ t, RegValue USERS user 256 o = Some t ∧ cstr t = Some pass.

(** Strings in the registry have their NUL. *)
Definition strings_end (o : OS) : Prop := ∀ u t, RegValue USERS u 256 o = Some t → is_Some (cstr t).

Lemma try_auth_userpass_run user pass s :
  strings_end (ws_os s) →
  ∃ r s', try_auth_userpass user pass s = (Done r, s') ∧ (r = 1 ∧ user_known user pass (ws_os s) ∨
      r = -1 ∧ ¬ user_known user pass (ws_os s)) ∧ ∃ l, s' = fset log l s.
Proof.
  intros Hend. unfold try_auth_userpass. erewrite bind_done by done. cbv beta.
  change (fget system s) with (ws_os s). unfold user_known.
  assert (Hself : s = fset log (ws_log s) s) by (symmetry; apply (fset_fget (F:=log) s)).
  destruct (RegOpenKeyEx USERS (ws_os s)) eqn:Ho; cbn [negb].
  2:{ eexists _, _. split; [reflexivity|]. split; [right; split; [done|]; intros [? _]; done|]. by eexists. }
  destruct (RegValue USERS user 256 (ws_os s)) as [t|] eqn:Hv.
  2:{ eexists _, _. split; [reflexivity|]. split; [right; split; [done|]; intros (_ & ? & ? & _); done|]. by eexists. }
  destruct (Hend _ _ Hv) as [t' Ht]. rewrite (bind_done _ _ _ _ _ (try_done _ _ _ _ Ht)).
  eexists _, _. split; [reflexivity|]. split; [|by eexists]. case_decide as Hd.
  - subst t'. left. split; [done|]. split; [done|]. by exists t.
  - right. split; [done|]. intros (_ & t2 & [= <-] & Ht2). congruence.
Qed.

Lemma user_pass_run r data user pass pre post s :
  ws_request s = pre ++ credentials user pass ++ post → data = blen pre →
  rh_data_len r = blen (credentials user pass) → x00 ∉ user → x00 ∉ pass → blen user ≤ 255 → blen pass ≤ 253 →
  0 < blen post →
  ∃ b, user_pass r data s = (Done (Some (user, pass)), fset request b s) ∧ blen b = blen (ws_request s).
Proof.
  intros Hb -> Hdl Hu Hp Hul Hpl Hpost. unfold user_pass. rewrite Hdl. cbv zeta.
  assert (Hc : blen (credentials user pass) = blen user + blen pass + 2).
  { unfold credentials, blen. rewrite length_app. cbn [length]. rewrite length_app. cbn [length]. lia. }
  pose proof (blen_nonneg user). pose proof (blen_nonneg pass). rewrite (proj2 (Z.leb_gt _ _)) by lia.
  destruct post as [|c post]; [done|].
  set (b := pre ++ credentials user pass ++ x00 :: post).
  assert (Hs : splice (fget request s) (blen pre + blen (credentials user pass)) [x00] = Some b).
  { change (fget request s) with (ws_request s). rewrite Hb.
    etrans; [apply (splice_at _ (pre ++ credentials user pass) [c] post _ [x00]); [by rewrite <- (assoc_L (++))|by rewrite blen_app|done]|].
    by rewrite <- (assoc_L (++)). }
  rewrite (bind_done _ _ _ _ _ (store_bytes_run request _ _ _ _ Hs)).
  assert (Hload : ∀ p q t, b = p ++ q → cstr q = Some t →
    load_cstr request (blen p) (fset request b s) = (Done t, fset request b s)).
  { intros p q t Hq Ht. unfold load_cstr. erewrite bind_done by done. cbv beta. rewrite fget_fset.
    erewrite bind_done; [|apply try_done; eapply (slice_at _ p q []); [by rewrite app_nil_r|done|rewrite Hq, blen_app; lia]].
    by rewrite Ht. }
  rewrite (bind_done _ _ _ _ _ (Hload pre _ user eq_refl ltac:(unfold credentials; rewrite <- (assoc_L (++)); by apply cstr_no_nul))).
  replace ((255 <? blen user) || (255 <? s32 (blen (credentials user pass) - blen user))) with false.
  2:{ symmetry. apply orb_false_iff. rewrite !Z.ltb_ge. split; [lia|].
      rewrite Hc. unfold s32. case_decide; rewrite u32_small in * by lia; lia. }
  erewrite bind_done.
  2:{ replace (blen pre + blen user + 1) with (blen (pre ++ user ++ [x00])) by (rewrite !blen_app; unfold blen; cbn; lia).
      apply (Hload _ (pass ++ x00 :: x00 :: post)); [|by apply cstr_no_nul].
      unfold b, credentials. by rewrite <- !(assoc_L (++)); cbn; rewrite <- !(assoc_L (++)). }
  cbv beta. rewrite (proj2 (Z.ltb_ge _ _)) by lia. exists b. split; [done|].
  rewrite Hb. unfold b, blen. rewrite !length_app. done.
Qed.

(** ** SHUTDOWN *)
Definition shutdown_answer (message : list byte) s : answer_buffer :=
  with_body (message ++ [x00]) (with_proxy_error PERROR_NONE (with_header 128 TYPE_PROXY_SHUTDOWN 0
    (cd_session (ws_client s)) (mkBuffer (frame_header s) (frame_body s)))).

Lemma win_exec_proxy_shutdown_run message s :
  wf_wserver s → blen message < 128 →
  replies (exec_proxy_shutdown message s) (shutdown_answer message s) (called s).
Proof.
  intros Hwf Hm. pose proof (blen_frame_body s Hwf).
  assert (Hl : blen (message ++ [x00]) ≤ 128) by (rewrite blen_app; unfold blen in *; cbn; lia).
  eapply replies_bind; [by apply new_answer_run|]. eapply replies_bind; [done|]. cbv zeta.
  eapply replies_bind; [apply store_body_front; cbn; lia|].
  apply send_replies; [done|done|]. etrans; [apply blen_with_body; cbn; lia|done].
Qed.

(** ** The end of a session *)
Lemma load_app_run i c s :
  0 ≤ i → fget registered_apps s !! Z.to_nat i = Some c →
  load8 registered_apps i s = (Done (byte.unsigned c), s).
Proof. intros Hi Hc. apply load_run. by apply get_u8_lookup. Qed.

(** An entry that is not 1 is looked at again and again. *)
Lemma getfirst_loop_hangs fuel i c s :
  0 ≤ i ≤ CAPI_MAXAPPL → fget registered_apps s !! Z.to_nat i = Some c → byte.unsigned c ≠ 1 →
  getfirst_loop fuel i s = (Faulted Diverged, s).
Proof.
  intros Hi Hc Hne. induction fuel as [|fuel IH]; [done|]. cbn [getfirst_loop].
  rewrite decide_True by lia. rewrite (bind_done _ _ _ _ _ (load_app_run i c s ltac:(lia) Hc)).
  by rewrite (proj2 (Z.eqb_neq _ 1)).
Qed.

Lemma getfirst_app_first fuel s :
  blen (fget registered_apps s) = CAPI_MAXAPPL + 1 → fget registered_apps s !! 1%nat = Some Init.Byte.x01 →
  getfirst_app (S fuel) s = (Done 1, marked_app 1 x00 s).
Proof.
  intros Hl Hc. unfold getfirst_app. cbn [getfirst_loop]. rewrite decide_True by done.
  rewrite (bind_done _ _ _ _ _ (load_app_run 1 _ s ltac:(lia) Hc)).
  cbv beta. change (byte.unsigned Init.Byte.x01 =? 1) with true. cbv iota.
  rewrite (bind_done _ _ _ tt (marked_app 1 x00 s)); [done|]. apply store_mark; [|done]. by rewrite Hl.
Qed.
End proxy.
