(* ===== verification/WServerSafe.v ===== *)
(** * The Windows server: what every function of a session keeps

    [wsafe m]: from a well-formed state [m] ends in one, however it ends; it does
    not run out of fuel, takes from the stream and from [ws_control] only, and
    leaves the session's id. *)
From S2P Require Import Prelude CMem Protocol Net Win32 Capi2032 WServer WServerSpec.
#[local] Open Scope Z_scope.

Section wserver_safe.
Context {CS OS : Type} `{!Capi2032 CS, !WinServer OS, !WinServerLaws OS}.
Implicit Types s : wserver CS OS.
Abbreviation st := (wserver CS OS).

(** What is still to come. *)
Definition pending s : nat := length (ws_control s) + length (rx_bytes (ws_socket s)).
Record ws_step s s' : Prop := {
  step_pending : (pending s' ≤ pending s)%nat;
  step_id : cd_session (ws_client s') = cd_session (ws_client s);
  step_base : ws_session s' = ws_session s;
  step_sockets : ws_sockets s' = ws_sockets s;
  step_open : ws_open s' = ws_open s;
}.
#[export] Instance ws_step_preorder : PreOrder ws_step.
Proof.
  split; [by intros s|]. intros s1 s2 s3 [] []. split; [lia|congruence..].
Qed.

Abbreviation wsafe := (respects wf_wserver ws_step).

(** ** Steps that leave what the invariant speaks of *)
Lemma wsafe_const {A} (m : M st A) :
  (∀ s, (m s).1 ≠ Faulted Diverged ∧ ws_stack (m s).2 = ws_stack s ∧
        length (ws_request (m s).2) = length (ws_request s) ∧
        cd_session (ws_client (m s).2) = cd_session (ws_client s) ∧
        length (cd_registered_apps (ws_client (m s).2)) = length (cd_registered_apps (ws_client s)) ∧
        (pending (m s).2 ≤ pending s)%nat ∧ ws_session (m s).2 = ws_session s ∧
        ws_sockets (m s).2 = ws_sockets s ∧ ws_open (m s).2 = ws_open s) → wsafe m.
Proof.
  intros Hm s [H1 H2 H3 H4]. destruct (Hm s) as (?&Hst&Hr&Hc&Ha&Hp&Hb&?&?). split_and!; [done| |by split].
  cbn in H4. split.
  - intros n. by rewrite Hst.
  - unfold blen in *. by rewrite Hr.
  - by rewrite Hc.
  - unfold blen in *. cbn. by rewrite Ha.
Qed.

Ltac const := apply wsafe_const; intros s; split_and!; done.

Lemma wsafe_store_request off bs : wsafe (store_bytes request off bs).
Proof.
  apply wsafe_const. intros s. unfold store_bytes, gets, puts, mbind, M_bind. change (fget request s) with (ws_request s).
  destruct (splice (ws_request s) off bs) as [b|] eqn:E; cbn; [|by split_and!]. split_and!; try done. by eapply splice_length.
Qed.
Lemma wsafe_store32 off v : wsafe (store32 request off v).
Proof. apply wsafe_store_request. Qed.
Lemma wsafe_store_apps off bs : wsafe (store_bytes registered_apps off bs).
Proof.
  apply wsafe_const. intros s. unfold store_bytes, gets, puts, mbind, M_bind.
  change (fget registered_apps s) with (cd_registered_apps (ws_client s)).
  destruct (splice (cd_registered_apps (ws_client s)) off bs) as [b|] eqn:E; cbn; [|by split_and!].
  split_and!; try done. by eapply splice_length.
Qed.
Lemma wsafe_capi {A} (f : CS → A * CS) : wsafe (zoom capi f).
Proof. apply wsafe_const. intros s. unfold zoom. by destruct (f (fget capi s)). Qed.
Lemma wsafe_system {A} (f : OS → A * OS) : wsafe (zoom system f).
Proof. apply wsafe_const. intros s. unfold zoom. by destruct (f (fget system s)). Qed.
Lemma wsafe_waiters g : wsafe (modify waiters g).
Proof. const. Qed.
Lemma wsafe_puts_waiters l : wsafe (puts waiters l).
Proof. const. Qed.
Lemma wsafe_log msg : wsafe (DebugOut msg).
Proof. const. Qed.
Lemma wsafe_client g :
  (∀ c, cd_session (g c) = cd_session c ∧ cd_registered_apps (g c) = cd_registered_apps c) → wsafe (modify client g).
Proof. intros Hg. apply wsafe_const. intros s. cbn. destruct (Hg (ws_client s)) as [-> ->]. by split_and!. Qed.
Lemma wsafe_new_answer : wsafe new_answer.
Proof.
  apply wsafe_const. intros s. unfold new_answer. by destruct (decode_answer (ws_stack s (ws_calls s))).
Qed.

Lemma rx_send bs w : rx (send bs w).2 = rx w.
Proof. unfold send. by destruct (match tx_script w with [] => _ | _ => _ end). Qed.
Lemma wsafe_wsend bs : wsafe (wsend bs).
Proof.
  apply wsafe_const. intros s. unfold wsend, gets, zoom, mbind, M_bind.
  change (fget is_open s) with (ws_open s). destruct (ws_open s) eqn:Ho; [|by split_and!].
  pose proof (rx_send bs (ws_socket s)) as Hrx. change (fget socket s) with (ws_socket s).
  destruct (send bs (ws_socket s)) as [n w]. cbn in *. split_and!; try done.
  unfold pending, rx_bytes. cbn. by rewrite Hrx.
Qed.

#[local] Hint Extern 2 (respects _ _ (match ?x with _ => _ end)) => destruct x : respects.
#[local] Hint Extern 1 (_ ≠ Diverged) => discriminate : respects.
#[local] Hint Resolve ws_step_preorder wsafe_store_request wsafe_store32 wsafe_store_apps wsafe_capi wsafe_system wsafe_waiters
  wsafe_puts_waiters wsafe_log wsafe_client wsafe_new_answer wsafe_wsend : respects.

Lemma wsafe_send_answer a : wsafe (send_answer a).
Proof. unfold send_answer. auto with respects. Qed.
Lemma wsafe_start_answer r n t : wsafe (start_answer r n t).
Proof. unfold start_answer. auto with respects. Qed.
Lemma wsafe_store_body off bs a : wsafe (store_body off bs a).
Proof. unfold store_body. auto with respects. Qed.
Lemma wsafe_read_capi a n : wsafe (read_capi a n).
Proof. unfold read_capi. auto with respects. Qed.
Lemma wsafe_load_cstr off : wsafe (load_cstr request off).
Proof. unfold load_cstr. auto with respects. Qed.
#[local] Hint Resolve wsafe_send_answer wsafe_start_answer wsafe_store_body wsafe_read_capi wsafe_load_cstr : respects.

(** A handler, statement by statement. *)
Ltac wsafe_steps :=
  cbv zeta;
  repeat first
    [ solve [auto with respects]
    | match goal with |- respects _ _ (mbind _ _) => apply respects_bind; [apply _| |intros ?] end
    | match goal with |- respects _ _ (when _ _) => apply respects_when; [apply _|] end
    | match goal with |- respects _ _ (match ?x with _ => _ end) => destruct x end
    | match goal with |- respects _ _ (if ?x then _ else _) => destruct x end ].

(** ** The handlers *)
Lemma wsafe_register r b d : wsafe (exec_capi_register r b d).
Proof. unfold exec_capi_register, add_app. wsafe_steps. Qed.
Lemma wsafe_release r b d : wsafe (exec_capi_release r b d).
Proof. unfold exec_capi_release, del_app. wsafe_steps. Qed.
Lemma wsafe_put_message r d a : wsafe (put_message r d a).
Proof. unfold put_message. wsafe_steps. Qed.
#[local] Hint Resolve wsafe_put_message : respects.
Lemma wsafe_putmessage r b d : wsafe (exec_capi_putmessage r b d).
Proof. unfold exec_capi_putmessage, putmessage_checked. wsafe_steps. Qed.
Lemma wsafe_getmessage r b d : wsafe (exec_capi_getmessage r b d).
Proof. unfold exec_capi_getmessage, getmessage_copy. wsafe_steps. Qed.
Lemma wsafe_waitforsignal r b d : wsafe (exec_capi_waitforsignal r b d).
Proof. unfold exec_capi_waitforsignal. wsafe_steps. Qed.
Lemma wsafe_manufacturer r b d : wsafe (exec_capi_manufacturer r b d).
Proof. unfold exec_capi_manufacturer. wsafe_steps. Qed.
Lemma wsafe_version r b d : wsafe (exec_capi_version r b d).
Proof. unfold exec_capi_version. wsafe_steps. Qed.
Lemma wsafe_serial r b d : wsafe (exec_capi_serial r b d).
Proof. unfold exec_capi_serial. wsafe_steps. Qed.
Lemma wsafe_profile r b d : wsafe (exec_capi_profile r b d).
Proof. unfold exec_capi_profile. wsafe_steps. Qed.
Lemma wsafe_installed r b d : wsafe (exec_capi_installed r b d).
Proof. unfold exec_capi_installed. wsafe_steps. Qed.
Lemma wsafe_helo r b d : wsafe (exec_proxy_helo r b d).
Proof.
  unfold exec_proxy_helo. assert (Hc : ∀ n v, wsafe (modify client (set_name_version n v))) by (intros; by apply wsafe_client).
  assert (Ho : ∀ o, wsafe (modify client (set_os o))) by (intros; by apply wsafe_client). wsafe_steps.
Qed.
Lemma wsafe_keepalive r b d : wsafe (exec_proxy_keepalive r b d).
Proof. unfold exec_proxy_keepalive. wsafe_steps. Qed.

(** Each round looks at one value of the key. *)
Lemma match_hosts_fuel fuel : ∀ key i len len2 m ip (o : OS),
  0 ≤ i ≤ Z.of_nat (RegCount key o) → Z.of_nat (RegCount key o) < i + Z.of_nat fuel →
  match_hosts fuel key i len len2 m ip o ≠ Faulted Diverged.
Proof.
  induction fuel as [|fuel IH]; intros key i len len2 m ip o Hi Hf; cbn [match_hosts]; [lia|].
  destruct (RegEnumValue key i len len2 o) as [[n d]|[]] eqn:E; [|done].
  case_decide; [done|]. destruct (cstr _); [|done]. case_decide; [done|].
  apply RegEnumValue_end in E; [|lia]. apply IH; lia.
Qed.

Lemma wsafe_lift {A} (o : outcome A) : o ≠ Faulted Diverged → wsafe (lift o).
Proof. intros Ho. apply wsafe_const. intros s. by split_and!. Qed.

Lemma wsafe_byip : wsafe try_auth_byip.
Proof.
  unfold try_auth_byip. apply respects_bind; [apply _|auto with respects|]. intros o.
  assert (Hm : ∀ key len len2 m ip, wsafe (lift (match_hosts (S (RegCount key o)) key 0 len len2 m ip o))).
  { intros. apply wsafe_lift, match_hosts_fuel; lia. }
  wsafe_steps; apply Hm.
Qed.
Lemma wsafe_userpass u p : wsafe (try_auth_userpass u p).
Proof. unfold try_auth_userpass. wsafe_steps. Qed.
Lemma wsafe_user_pass r d : wsafe (user_pass r d).
Proof. unfold user_pass. wsafe_steps. Qed.
Lemma wsafe_entered t r : wsafe (entered t r).
Proof.
  unfold entered. assert (Hc : wsafe (modify client (set_auth_type t))) by (by apply wsafe_client). wsafe_steps.
Qed.
#[local] Hint Resolve wsafe_byip wsafe_userpass wsafe_user_pass wsafe_entered : respects.
Lemma wsafe_auth r b d : wsafe (exec_proxy_auth r b d).
Proof.
  unfold exec_proxy_auth, auth_switch.
  assert (Hc : wsafe (modify client (λ c, set_auth_type AUTH_NO_AUTH (set_auth_data None c)))) by (by apply wsafe_client).
  wsafe_steps.
Qed.
Lemma wsafe_shutdown m : wsafe (exec_proxy_shutdown m).
Proof. unfold exec_proxy_shutdown. wsafe_steps. Qed.
#[local] Hint Resolve wsafe_register wsafe_release wsafe_putmessage wsafe_getmessage wsafe_waitforsignal wsafe_manufacturer
  wsafe_version wsafe_serial wsafe_profile wsafe_installed wsafe_helo wsafe_keepalive wsafe_auth wsafe_shutdown : respects.

(** ** The session *)
Lemma wsafe_report m : wsafe m → wsafe (report m).
Proof. intros Hm. unfold report. wsafe_steps. Qed.
Lemma wsafe_checked_session sess r m : wsafe m → wsafe (checked_session sess r m).
Proof. intros Hm. unfold checked_session. apply wsafe_report in Hm. wsafe_steps. Qed.
Lemma wsafe_dispatch sess r : wsafe (dispatch sess r).
Proof.
  unfold dispatch. cbv zeta.
  repeat (case_decide; [first [apply wsafe_checked_session|apply wsafe_report]; auto with respects|]).
  auto with respects.
Qed.
Lemma wsafe_handle_request sess : wsafe (handle_request sess).
Proof. unfold handle_request. pose proof wsafe_dispatch. wsafe_steps. Qed.
Lemma wsafe_run_waiter i : wsafe (run_waiter i).
Proof. unfold run_waiter, waiter. wsafe_steps. Qed.

(** A [recv] that returns a length has used up that many bytes. *)
Lemma receive_outcome s : wf_wserver s →
  ∃ n s', receive s = (Done n, s') ∧ wf_wserver s' ∧ ws_step s s' ∧
    (n = 0 ∨ n = -1 ∨ (pending s' < pending s)%nat).
Proof.
  intros Hwf. unfold receive, pending. destruct (decide (rx_bytes (fget socket s) = [])) as [Hrx|Hrx].
  - destruct (recv_into_eof socket request 0 _MSG_SIZE s Hrx) as (w & Hw & E).
    { change (fget request s) with (ws_request s). rewrite (wsf_request s Hwf). done. }
    eexists _, _. split; [exact E|]. split_and!.
    + by destruct Hwf.
    + split; [|done..]. unfold pending. cbn. by rewrite (rx_bytes_proper _ _ Hw).
    + destruct (rx_error _); [right; by left|by left].
  - destruct (recv_into_data socket request 0 _MSG_SIZE s Hrx) as (bs & w & Hbs & Hle & Hj & _ & _ & _ & E); [done|].
    rewrite E. change (fget request s) with (ws_request s). change (fget socket s) with (ws_socket s) in Hj.
    pose proof (wsf_request s Hwf) as Hreq. unfold _MSG_SIZE in *.
    destruct (splice (ws_request s) 0 bs) as [b|] eqn:Hb; [|by rewrite splice_Some in Hb by lia].
    eexists _, _. split; [reflexivity|]. apply splice_length in Hb.
    assert (Hlt : (length (rx_bytes w) < length (rx_bytes (ws_socket s)))%nat).
    { rewrite Hj, length_app. destruct bs; [done|cbn; lia]. }
    split_and!.
    + destruct Hwf as [? ? ? ?]. split; try done. cbn. unfold blen in *. by rewrite Hb.
    + split; [|done..]. unfold pending. cbn. lia.
    + right. right. cbn. lia.
Qed.

(** ** Every session comes to the end of its loop *)
Definition loop_safe (fuel : nat) : Prop := ∀ sess err s, wf_wserver s → (pending s < fuel)%nat →
  (session_loop fuel sess err s).1 ≠ Faulted Diverged ∧ wf_wserver (session_loop fuel sess err s).2 ∧
  ws_step s (session_loop fuel sess err s).2.

(** The rest of a round that begins in [s] and has received in [s1]. *)
Lemma round_safe fuel sess err s s1 :
  loop_safe fuel → wf_wserver s1 → ws_step s s1 → (pending s1 < fuel)%nat →
  let out := (handle_request sess;; session_loop fuel sess err) s1 in
  out.1 ≠ Faulted Diverged ∧ wf_wserver out.2 ∧ ws_step s out.2.
Proof.
  intros IH Hwf1 Hs1 Hf. destruct (wsafe_handle_request sess s1 Hwf1) as (Ha & Hb & Hstep).
  destruct (handle_request sess s1) as [[[]|f|c] s2] eqn:Eh; cbn in *.
  - rewrite (bind_done _ _ _ _ _ Eh). destruct (IH sess err s2) as (?&?&?); [done|destruct Hstep; lia|].
    split_and!; [done..|]. etrans; [exact Hs1|]. by etrans.
  - rewrite (bind_faulted _ _ _ _ _ Eh). split_and!; [cbn; congruence|done|cbn; by etrans].
  - rewrite (bind_exited _ _ _ _ _ Eh). split_and!; [cbn; congruence|done|cbn; by etrans].
Qed.

(** A round that does not pause, from [s0] on. *)
Lemma receive_round_safe fuel sess s s0 :
  loop_safe fuel → wf_wserver s0 → ws_step s s0 → (pending s0 < S fuel)%nat →
  let out := (err ← receive; if (err =? 0) || (err =? -1) then mret err else handle_request sess;; session_loop fuel sess err) s0 in
  out.1 ≠ Faulted Diverged ∧ wf_wserver out.2 ∧ ws_step s out.2.
Proof.
  intros IH Hwf0 Hs0 Hf. destruct (receive_outcome s0 Hwf0) as (n & s1 & E & Hwf1 & Hs1 & Hn).
  rewrite (bind_done _ _ _ _ _ E). destruct ((n =? 0) || (n =? -1)) eqn:Hd; [by split_and!; [..|etrans]|].
  apply orb_false_iff in Hd as [H0 H1]. apply Z.eqb_neq in H0, H1. destruct Hn as [|[|Hlt]]; [done..|].
  apply round_safe; [done..|by etrans|lia].
Qed.

Lemma session_loop_safe fuel : loop_safe fuel.
Proof.
  induction fuel as [|fuel IH]; intros sess err s Hwf Hf; [lia|]. cbn [session_loop].
  destruct (ws_control s) as [|[run pause] l] eqn:Hc.
  - assert (Hn : next_control s = (Done (1, 0), s)).
    { unfold next_control. erewrite bind_done by done. cbv beta. change (fget control s) with (ws_control s). by rewrite Hc. }
    rewrite (bind_done _ _ _ _ _ Hn). by apply receive_round_safe.
  - set (s0 := fset control l s).
    assert (Hn : next_control s = (Done (run, pause), s0)).
    { unfold next_control. erewrite bind_done by done. cbv beta. change (fget control s) with (ws_control s). by rewrite Hc. }
    rewrite (bind_done _ _ _ _ _ Hn).
    assert (Hwf0 : wf_wserver s0) by (by destruct Hwf).
    assert (Hp : pending s = S (pending s0)) by (unfold pending; by rewrite Hc).
    assert (Hs0 : ws_step s s0) by (split; [lia|done..]).
    destruct (negb (run =? 1)); [by split_and!|]. destruct (pause =? 1).
    + destruct (IH sess err s0) as (?&?&?); [done|lia|]. split_and!; [done..|by etrans].
    + apply receive_round_safe; [done..|lia].
Qed.
End wserver_safe.
