(* ===== verification/WServerHandled.v ===== *)
(** * The Windows server: what every handler promises to the session

    From a state in which the marked applications are registered with the library,
    a handler sends at most one answer, well-formed and to its request, and the
    marked applications stay registered. *)
From stdpp Require Import gmap.
From S2P Require Import Prelude CMem Protocol Net Capi20 AppIndex Win32 Capi2032 WServer WServerSpec WServerMessages WServerProxy.
#[local] Open Scope Z_scope.

Section handled.
Context {CS OS : Type} `{!Capi2032 CS, !Capi2032Laws CS, !WinServer OS}.
(** The library gives out no more ids than the list has places for. *)
Context (Hids : capi32_max (CS:=CS) ≤ CAPI_MAXAPPL).
Implicit Types s : wserver CS OS.

Record winv s : Prop := {
  winv_wf : wf_wserver s;
  winv_apps : registered (fget registered_apps s) ⊆ capi32_owned (ws_capi s);
}.

(** What a handler leaves alone. *)
Record undisturbed s s' : Prop := {
  un_rx : rx (ws_socket s') = rx (ws_socket s);
  un_rx_error : rx_error (ws_socket s') = rx_error (ws_socket s);
  un_open : ws_open s' = ws_open s;
  un_id : cd_session (ws_client s') = cd_session (ws_client s);
  un_session : ws_session s' = ws_session s;
  un_control : ws_control s' = ws_control s;
  un_script : tx_script (ws_socket s) = [] → tx_script (ws_socket s') = [];
}.
#[export] Instance undisturbed_preorder : PreOrder undisturbed.
Proof.
  split; [by intros s|]. intros s1 s2 s3 [] []. split; try congruence. auto.
Qed.

Definition answers r (h : ANSWER_HEADER) : Prop :=
  ah_message_id h = rh_message_id r ∧ ah_message_type h = rh_message_type r.

(** At most one answer: a prefix of a well-formed message, all of it when [send] is
    complete. *)
Definition one_answer r s s' : Prop :=
  tx (ws_socket s') = tx (ws_socket s) ∨
  ∃ f n, wf_frame f ∧ answers r (fr_header f) ∧ (tx_script (ws_socket s) = [] → take n (encode_frame f) = encode_frame f) ∧
         tx (ws_socket s') = tx (ws_socket s) ++ [take n (encode_frame f)].

Definition whandled r s (out : outcome Z * wserver CS OS) : Prop :=
  ∃ n s', out = (Done n, s') ∧ winv s' ∧ undisturbed s s' ∧ one_answer r s s'.

(** ** Sending *)
Definition answer_frame (a : answer_buffer) : Protocol.frame :=
  let h := aheader a in let n := ah_body_len h + ah_data_len h in
  mkFrame (mkAnswer (40 + n) (ah_header_len h) (ah_body_len h) (ah_data_len h) (ah_message_id h)
    (ah_message_type h) (ah_app_id h) (ah_session_id h) (ah_proxy_error h) (ah_capi_error h))
    (take (Z.to_nat n) (abody a)).

Lemma answer_bytes_frame a : answer_bytes a = encode_frame (answer_frame a).
Proof. done. Qed.

Lemma replies_frame out a s' : replies out a s' → wf_frame (answer_frame a).
Proof.
  intros (_ & Hh & Hn & Hb).
  assert (Ht : blen (take (Z.to_nat (ah_body_len (aheader a) + ah_data_len (aheader a))) (abody a)) =
    ah_body_len (aheader a) + ah_data_len (aheader a)) by (unfold blen in *; rewrite length_take; lia).
  unfold wf_frame, encode_frame. rewrite blen_app, blen_encode_answer.
  change (fr_payload (answer_frame a)) with (take (Z.to_nat (ah_body_len (aheader a) + ah_data_len (aheader a))) (abody a)).
  by rewrite Ht.
Qed.

Lemma send_tx bs w :
  tx (send bs w).2 = tx w ∨
  ∃ n, (tx_script w = [] → take n bs = bs) ∧ tx (send bs w).2 = tx w ++ [take n bs].
Proof.
  unfold send. destruct (tx_script w) as [|n script]; cbn; case_decide; [|by left| |by left].
  - right. exists (Z.to_nat (blen bs)). split; [|done]. intros _. apply take_ge. unfold blen. lia.
  - right. eexists. by split.
Qed.

Lemma send_other bs w :
  rx (send bs w).2 = rx w ∧ rx_error (send bs w).2 = rx_error w ∧
  (tx_script w = [] → tx_script (send bs w).2 = []).
Proof. unfold send. destruct (tx_script w) as [|n script]; by cbn. Qed.

Lemma winv_sent bs s : winv s → winv (sent bs s).
Proof. intros [[] Ha]. unfold sent. by destruct (ws_open s). Qed.

Lemma undisturbed_sent bs s : undisturbed s (sent bs s).
Proof.
  unfold sent. destruct (ws_open s) eqn:Ho; [|done].
  destruct (send_other bs (ws_socket s)) as (?&?&?). by split.
Qed.

Lemma replies_handled r s out a s1 :
  replies out a s1 → answers r (aheader a) → winv s1 → undisturbed s s1 → tx (ws_socket s1) = tx (ws_socket s) →
  whandled r s out.
Proof.
  intros Hr Ha Hi Hu Ht. pose proof (replies_frame _ _ _ Hr) as Hf. destruct Hr as (-> & _).
  destruct (win_wsend_run (answer_bytes a) s1) as (n & Hn & _). rewrite Hn.
  exists n, (sent (answer_bytes a) s1). split_and!; [done|by apply winv_sent| |].
  - etrans; [done|apply undisturbed_sent].
  - unfold sent, one_answer. destruct (ws_open s1); [|by left]. rewrite <- Ht. cbn [ws_socket fset socket].
    destruct (send_tx (answer_bytes a) (ws_socket s1)) as [->|(k & Hk & ->)]; [by left|]. right.
    exists (answer_frame a), k. split_and!; [done|done| |done]. intros H. by apply Hk, Hu.
Qed.

(** ** State changes that keep the invariant *)
Lemma winv_called s : winv s → winv (called s).
Proof. by intros [[] Ha]. Qed.
Lemma winv_capi c s : winv s → capi32_owned (ws_capi s) ⊆ capi32_owned c → winv (fset capi c s).
Proof. intros [[] Ha] Hc. split; [done|]. cbn in *. by etrans. Qed.

Lemma winv_register id c s :
  winv s → 1 ≤ id ≤ CAPI_MAXAPPL → capi32_owned c = {[id]} ∪ capi32_owned (ws_capi s) →
  winv (marked_app id Init.Byte.x01 (fset capi c s)).
Proof.
  intros [[? ? ? Hl] Ha] Hid Hc. split; [split; try done|].
  - cbn in *. unfold mark, blen in *. by rewrite length_insert.
  - cbn in *. unfold registered in *. rewrite (@apps_set_mark windows_header); [|done|done|lia]. set_solver.
Qed.

Lemma winv_release id c s :
  winv s → 0 ≤ id ≤ CAPI_MAXAPPL → capi32_owned c = capi32_owned (ws_capi s) ∖ {[id]} →
  winv (marked_app id x00 (fset capi c s)).
Proof.
  intros [[? ? ? Hl] Ha] Hid Hc. split; [split; try done|].
  - cbn in *. unfold mark, blen in *. by rewrite length_insert.
  - cbn in *. unfold registered in *. rewrite (@apps_set_unmark windows_header) by lia. set_solver.
Qed.

(** ** The handlers *)
(** The parts of the request lie in [request]. *)
Record fits (r : REQUEST_HEADER) : Prop := {
  fits_header : sizeof_REQUEST_HEADER ≤ rh_header_len r;
  fits_body : u32 (rbodysize (rh_message_type r)) ≤ rh_body_len r;
  fits_data : 0 ≤ rh_data_len r;
  fits_all : rh_header_len r + rh_body_len r + rh_data_len r ≤ _MSG_SIZE;
}.

Abbreviation body_of r := (rh_header_len r).
Abbreviation data_of r := (rh_header_len r + rh_body_len r).

Lemma called_handled r s out a :
  replies out a (called s) → answers r (aheader a) → winv s → whandled r s out.
Proof. intros Hr Ha Hi. eapply replies_handled; [done|done|by apply winv_called|done|done]. Qed.

Lemma installed_handled r b d s :
  winv s → rh_message_type r = TYPE_CAPI_INSTALLED → whandled r s (exec_capi_installed r b d s).
Proof. intros Hi Ht. eapply called_handled; [apply exec_capi_installed_run, Hi|by split|done]. Qed.
Lemma win_manufacturer_handled r b d s :
  winv s → rh_message_type r = TYPE_CAPI_MANUFACTURER → whandled r s (exec_capi_manufacturer r b d s).
Proof.
  intros Hi Ht. destruct (capi32_get_manufacturer (ws_capi s)) as [rc bs] eqn:E.
  eapply called_handled; [by eapply win_exec_capi_manufacturer_run; [apply Hi|]|by split|done].
Qed.
Lemma win_serial_handled r b d s :
  winv s → rh_message_type r = TYPE_CAPI_SERIAL → whandled r s (exec_capi_serial r b d s).
Proof.
  intros Hi Ht. destruct (capi32_get_serial_number (ws_capi s)) as [rc bs] eqn:E.
  eapply called_handled; [by eapply win_exec_capi_serial_run; [apply Hi|]|by split|done].
Qed.
Lemma win_profile_handled r b d s :
  winv s → rh_message_type r = TYPE_CAPI_PROFILE → whandled r s (exec_capi_profile r b d s).
Proof.
  intros Hi Ht. destruct (capi32_get_profile (rh_controller_id r) (ws_capi s)) as [rc bs] eqn:E.
  eapply called_handled; [by eapply win_exec_capi_profile_run; [apply Hi|]|by split|done].
Qed.
Lemma win_version_handled r b d s :
  winv s → rh_message_type r = TYPE_CAPI_VERSION → whandled r s (exec_capi_version r b d s).
Proof.
  intros Hi Ht. destruct (capi32_get_version (ws_capi s)) as [rc vs] eqn:E.
  pose proof (capi32_version_length (ws_capi s)) as Hl. rewrite E in Hl. cbn in Hl.
  do 4 (destruct vs as [|? vs]; [done|]). destruct vs; [|done].
  eapply called_handled; [by eapply win_exec_capi_version_run; [apply Hi|]|by split|done].
Qed.

Lemma register_args_ok b off :
  0 ≤ off → off + 16 ≤ blen b → ∃ a1 a2 a3 a4, register_args b off = Some (a1, a2, a3, a4).
Proof.
  intros Ho Hb. unfold register_args.
  destruct (get_le_is_Some 4 b off) as [a1 ->]; [lia..|]. destruct (get_le_is_Some 4 b (off + 4)) as [a2 ->]; [lia..|].
  destruct (get_le_is_Some 4 b (off + 8)) as [a3 ->]; [lia..|]. destruct (get_le_is_Some 4 b (off + 12)) as [a4 ->]; [lia..|].
  cbn. eauto.
Qed.

Lemma win_register_handled r s :
  winv s → fits r → rh_message_type r = TYPE_CAPI_REGISTER →
  whandled r s (exec_capi_register r (body_of r) (data_of r) s).
Proof using Hids.
  intros Hi [Hh Hb Hd Hf] Ht. pose proof (winv_wf s Hi) as Hwf. rewrite Ht in Hb. change (u32 (rbodysize _)) with 16 in Hb.
  unfold sizeof_REQUEST_HEADER in Hh.
  destruct (register_args_ok (ws_request s) (body_of r)) as (a1 & a2 & a3 & a4 & Ha);
    [lia|rewrite (wsf_request s Hwf); lia|].
  destruct (capi32_register a1 a2 a3 a4 (ws_capi s)) as [[rc o] c'] eqn:E.
  assert (Hid : rc = 0 → ∃ id, o = Some id ∧ 1 ≤ id ≤ CAPI_MAXAPPL ∧ capi32_owned c' = {[id]} ∪ capi32_owned (ws_capi s)).
  { intros ->. apply capi32_register_ok in E as (id & -> & ? & _ & ?). exists id. split_and!; [done|lia..|done]. }
  eapply replies_handled.
  - eapply win_exec_capi_register_run; [done..|]. intros H0. destruct (Hid H0) as (id & -> & ? & _). exists id. split; [done|lia].
  - unfold register_answer. by destruct o; split.
  - destruct (Z.eqb_spec rc 0) as [H0|H0].
    + destruct (Hid H0) as (id & -> & Hr & Ho). by apply winv_register; [apply winv_called| |].
    + apply capi32_register_error in E; [|done]. destruct o; by (apply winv_capi; [apply winv_called|rewrite E]).
  - by destruct o, (rc =? 0).
  - by destruct o, (rc =? 0).
Qed.

Lemma win_release_handled r b d s :
  winv s → rh_message_type r = TYPE_CAPI_RELEASE → whandled r s (exec_capi_release r b d s).
Proof using Hids.
  intros Hi Ht. destruct (capi32_release (rh_app_id r) (ws_capi s)) as [rc c'] eqn:E.
  assert (Hid : rc = 0 → 0 ≤ rh_app_id r ≤ CAPI_MAXAPPL).
  { intros H0. apply (capi32_release_owned _ _ _ _ E), capi32_owned_ids in H0. lia. }
  eapply replies_handled.
  - eapply win_exec_capi_release_run; [apply Hi|done|done].
  - by split.
  - destruct (Z.eqb_spec rc 0) as [->|H0].
    + apply winv_release; [by apply winv_called|auto|]. by eapply capi32_release_ok.
    + apply capi32_release_error in E; [|done]. apply winv_capi; [by apply winv_called|by rewrite E].
  - by destruct (rc =? 0).
  - by destruct (rc =? 0).
Qed.

(** The message of a PUTMESSAGE is where the server looks at it. *)
Lemma put_check_total r address b data :
  0 ≤ data → data + rh_data_len r ≤ blen b → 0 ≤ rh_data_len r →
  ∃ mem, put_check r address b data mem ∧ (∀ b', mem = Some b' → blen b' = blen b).
Proof.
  intros H0 Hf Hd. destruct (decide (rh_data_len r < 8)) as [|H8]; [exists None; split; [by apply put_short|done]|].
  destruct (get_le_is_Some 2 b data) as [len1 Hl]; [lia..|].
  destruct (decide (rh_data_len r < len1)); [exists None; split; [by eapply put_truncated; [lia|..]|done]|].
  destruct (get_le_is_Some 1 b (data + 4)) as [cmd1 H4]; [lia..|].
  destruct (get_le_is_Some 1 b (data + 5)) as [cmd2 H5]; [lia..|].
  destruct (decide (cmd1 = 0x86 ∧ cmd2 = 0x80)) as [[-> ->]|Hn].
  2: { exists (Some b). split; [eapply put_plain; by (lia || eauto)|congruence]. }
  destruct (decide (len1 < 18)); [exists None; split; [eapply put_b3_short; by (lia || eauto)|done]|].
  destruct (get_le_is_Some 2 b (data + 16)) as [len2 Hl2]; [lia..|].
  destruct (decide (rh_data_len r < len1 + len2)); [exists None; split; [eapply put_b3_truncated; by (lia || eauto)|done]|].
  destruct (put_le 4 b (data + 12) (address + data + len1)) as [b'|] eqn:Hp.
  2: { unfold put_le in Hp. rewrite splice_Some in Hp; [done|lia|]. unfold blen at 1. rewrite length_le_split. lia. }
  exists (Some b'). split; [eapply put_b3; by (lia || eauto)|]. intros ? [= <-].
  apply splice_length in Hp. unfold blen. by rewrite Hp.
Qed.

Lemma win_putmessage_handled r s :
  winv s → fits r → rh_message_type r = TYPE_CAPI_PUTMESSAGE →
  whandled r s (exec_capi_putmessage r (body_of r) (data_of r) s).
Proof using Hids.
  intros Hi [Hh Hb Hd Hf] Ht. pose proof (winv_wf s Hi) as Hwf. unfold sizeof_REQUEST_HEADER in Hh.
  rewrite Ht in Hb. change (u32 (rbodysize _)) with 1 in Hb.
  destruct (put_check_total r (ws_request_address s) (ws_request s) (data_of r)) as (mem & Hc & Hm);
    [lia|rewrite (wsf_request s Hwf); lia|done|].
  pose proof (win_exec_capi_putmessage_run r (body_of r) (data_of r) mem s Hwf Hc) as Hr. unfold put_replies in Hr. destruct mem as [b|].
  - destruct (capi32_put_message _ _ _ _ _) as [rc c'] eqn:E in Hr.
    eapply replies_handled; [exact Hr|by split| |done|done].
    apply winv_capi; [|by apply capi32_put_message_owned in E as ->]. specialize (Hm b eq_refl).
    destruct Hi as [[? Hrq ? ?] ?]. split; [split; try done|done]. cbn. by rewrite Hm, Hrq.
  - by eapply called_handled; [exact Hr|split|].
Qed.

(** The messages of the library have their length in front and fit an answer with
    their data. *)
Definition library_fits : Prop := ∀ app (c c' : CS) p,
  capi32_get_message app c = (0, p, c') → ∃ q m, p = Some q ∧
    capi32_memory c' q 2 = slice m 0 2 ∧ get_u16 m 0 = Some (blen m) ∧ capi32_memory c' q (blen m) = Some m ∧
    8 ≤ blen m < 9960 ∧
    (get_u8 m 4 = Some 0x86 → get_u8 m 5 = Some 0x82 → 18 ≤ blen m → ∃ d a,
       get_u16 m 16 = Some (blen d) ∧ get_u32 m 12 = Some a ∧ capi32_memory c' a (blen d) = Some d ∧
       blen m + blen d < 9960).

Lemma get_copy_total (c : CS) q m fb :
  blen fb = 9960 → capi32_memory c q 2 = slice m 0 2 → get_u16 m 0 = Some (blen m) →
  capi32_memory c q (blen m) = Some m → 8 ≤ blen m < 9960 →
  (get_u8 m 4 = Some 0x86 → get_u8 m 5 = Some 0x82 → 18 ≤ blen m → ∃ d a,
     get_u16 m 16 = Some (blen d) ∧ get_u32 m 12 = Some a ∧ capi32_memory c a (blen d) = Some d ∧
     blen m + blen d < 9960) →
  ∃ n e b, get_copy c q fb n e b.
Proof.
  intros Hfb H2 Hlen Hm Hr Hb3.
  pose proof Hlen as Hlen'. unfold get_le in Hlen'. destruct (slice m 0 (Z.of_nat 2)) as [l|] eqn:Hl; [|done].
  injection Hlen' as Hlc.
  assert (Hp : blen (take 1 fb) = 1) by (unfold blen in *; rewrite length_take; lia).
  assert (Hs : splice fb 1 m = Some ((take 1 fb ++ m) ++ drop (length m) (drop 1 fb))).
  { rewrite <- (take_drop 1 fb) at 1. apply splice_append; [by rewrite Hp|]. rewrite length_drop. unfold blen in *. lia. }
  assert (Hget : ∀ w k v, get_le w m k = Some v → 0 ≤ k →
    get_le w ((take 1 fb ++ m) ++ drop (length m) (drop 1 fb)) (1 + k) = Some v).
  { intros w k v Hv Hk. rewrite <- (assoc_L (++)), <- Hp, get_le_app_r by done. by apply get_le_app_l. }
  destruct (get_le_is_Some 1 m 4) as [cmd1 H4]; [lia..|]. destruct (get_le_is_Some 1 m 5) as [cmd2 H5]; [lia..|].
  rewrite <- Hlc in Hm.
  destruct (decide (cmd1 = 0x86 ∧ cmd2 = 0x82)) as [[-> ->]|Hn].
  2: { eexists _, _, _. eapply get_plain; [by rewrite H2|exact Hm|exact Hs|by apply (Hget 1%nat 4)|by apply (Hget 1%nat 5)|done]. }
  destruct (decide (blen m < 18)).
  { eexists _, _, _. eapply get_short; [by rewrite H2|exact Hm|exact Hs|by apply (Hget 1%nat 4)|by apply (Hget 1%nat 5)|done]. }
  destruct Hb3 as (d & a & H16 & H12 & Hd & Hfit); [done..|lia|]. rewrite Hlc in Hm.
  destruct (get_copy_data c q m d a fb) as (b & Hb & _); [done..|lia|done|done|done|lia|]. eauto.
Qed.

Lemma win_getmessage_handled r b d s :
  library_fits → winv s → rh_message_type r = TYPE_CAPI_GETMESSAGE → whandled r s (exec_capi_getmessage r b d s).
Proof.
  intros Hlib Hi Ht. pose proof (winv_wf s Hi) as Hwf.
  destruct (capi32_get_message (rh_app_id r) (ws_capi s)) as [[rc p] c'] eqn:E.
  assert (Hi' : winv (fset capi c' (called s))).
  { apply winv_capi; [by apply winv_called|]. by apply capi32_get_message_owned in E as ->. }
  destruct (decide (rc = 0)) as [->|Hrc].
  - destruct (Hlib _ _ _ _ E) as (q & m & -> & H2 & Hlen & Hm & Hr & Hb3).
    destruct (get_copy_total c' q m (frame_body s)) as (n & e & b' & Hc); [by apply blen_frame_body|done..|].
    eapply replies_handled; [by eapply exec_capi_getmessage_run|by split|done|done|done].
  - eapply replies_handled; [by eapply win_exec_capi_getmessage_error|by split|done|done|done].
Qed.

(** A handler that sends nothing. *)
Lemma silent_handled r s n s' : winv s' → undisturbed s s' → tx (ws_socket s') = tx (ws_socket s) → whandled r s (Done n, s').
Proof. intros Hi Hu Ht. exists n, s'. split_and!; [done..|by left]. Qed.

Definition heap_plenty : Prop := ∀ n (o : OS), (HeapAlloc n o).1 = true.

Lemma win_waitforsignal_handled r b d s :
  heap_plenty → winv s → rh_message_type r = TYPE_CAPI_WAITFORSIGNAL → whandled r s (exec_capi_waitforsignal r b d s).
Proof.
  intros Hheap Hi Ht. pose proof (Hheap sizeof_waiter_data (ws_os s)) as Hh.
  destruct (HeapAlloc sizeof_waiter_data (ws_os s)) as [ok o1] eqn:Ea. cbn in Hh. subst ok.
  destruct (CreateThread o1) as [[] o2] eqn:Ec.
  - rewrite (exec_capi_waitforsignal_run r b d o1 o2) by done. apply silent_handled; [|done..].
    by destruct Hi as [[] ?].
  - assert (Hi2 : winv (fset system o2 s)) by (by destruct Hi as [[] ?]).
    rewrite (exec_capi_waitforsignal_no_thread r b d o1 o2) by (done || apply Hi).
    match goal with |- whandled _ _ (Done 0, sent (answer_bytes ?a) _) =>
      assert (Hr : replies (send_answer a (called (fset system o2 s))) a (called (fset system o2 s)))
        by (apply send_replies; [done|done|by apply blen_frame_body, Hi2]);
      destruct (called_handled r (fset system o2 s) _ a Hr) as (n & s' & Hn & Hi' & Hu & Ho); [by split|done|];
      destruct Hr as (Hr & _); rewrite Hr in Hn;
      destruct (win_wsend_run (answer_bytes a) (called (fset system o2 s))) as (n' & Hn' & _); rewrite Hn' in Hn;
      injection Hn as _ <-
    end.
    exists 0. eexists. split; [done|]. split_and!; [done| |done]. by destruct Hu.
Qed.

Lemma win_helo_handled r s :
  winv s → fits r → rh_message_type r = TYPE_PROXY_HELO →
  whandled r s (exec_proxy_helo r (body_of r) (data_of r) s).
Proof.
  intros Hi [Hh Hb Hd Hf] Ht. pose proof (winv_wf s Hi) as Hwf. unfold sizeof_REQUEST_HEADER in Hh.
  rewrite Ht in Hb. change (u32 (rbodysize _)) with 76 in Hb. pose proof (wsf_request s Hwf) as Hl.
  destruct (slice (ws_request s) (body_of r) 64) as [name|] eqn:Hn; [|by rewrite slice_Some in Hn by lia].
  destruct (get_le_is_Some 4 (ws_request s) (body_of r + HELO.version_major)) as [ma Hma]; [unfold HELO.version_major; lia..|].
  destruct (get_le_is_Some 4 (ws_request s) (body_of r + HELO.version_minor)) as [mi Hmi]; [unfold HELO.version_minor; lia..|].
  destruct (get_le_is_Some 4 (ws_request s) (body_of r + HELO.os)) as [os Hos]; [unfold HELO.os; lia..|].
  eapply replies_handled.
  - by apply (win_exec_proxy_helo_run r (body_of r) (data_of r) name (mkVersion ma mi) os).
  - cbn [Protocol.major]. destruct (ma <? _VERSION_MAJOR); by split.
  - cbn [Protocol.major]. destruct Hi as [[] ?], (ma <? _VERSION_MAJOR); split; done.
  - cbn [Protocol.major]. by destruct (ma <? _VERSION_MAJOR).
  - by destruct (_ <? _VERSION_MAJOR).
Qed.

Lemma win_auth_handled r s :
  winv s → fits r → rh_message_type r = TYPE_PROXY_AUTH → ws_AUTH_TYPES s = AUTH_NO_AUTH →
  whandled r s (exec_proxy_auth r (body_of r) (data_of r) s).
Proof.
  intros Hi [Hh Hb Hd Hf] Ht Hty. pose proof (winv_wf s Hi) as Hwf. unfold sizeof_REQUEST_HEADER in Hh.
  rewrite Ht in Hb. change (u32 (rbodysize _)) with 4 in Hb. pose proof (wsf_request s Hwf) as Hl.
  destruct (get_le_is_Some 4 (ws_request s) (body_of r)) as [type Hat]; [lia..|].
  eapply replies_handled.
  - eapply win_exec_proxy_auth_run; [done|exact Hat|]. apply auth_switch_plain.
    change (ws_AUTH_TYPES (unauthenticated s)) with (ws_AUTH_TYPES s). rewrite Hty.
    destruct (decide (type = AUTH_BY_IP)); [by left|]. right. destruct (decide (type = AUTH_USERPASS)); [by left|]. by right.
  - by split.
  - by destruct Hi as [[] ?].
  - done.
  - done.
Qed.
End handled.
