(* ===== verification/WServerSession.v ===== *)
(** * The Windows server: rounds of a session, and its end *)
From stdpp Require Import gmap.
From S2P Require Import Prelude CMem Protocol Net Capi20 AppIndex Win32 Capi2032 WServer WServerSpec WServerMessages WServerProxy WServerSafe WServerHandled.
#[local] Open Scope Z_scope.

Section session.
Context {CS OS : Type} `{!Capi2032 CS, !Capi2032Laws CS, !WinServer OS}.
Implicit Types s : wserver CS OS.

(** ** Receiving *)
(** The segment [seg] is in [request], [segs] are still to come. *)
Definition received (seg : list byte) (segs : list (list byte)) s : wserver CS OS :=
  fset request (seg ++ drop (length seg) (ws_request s))
    (fset socket (mkNet segs (rx_error (ws_socket s)) (tx (ws_socket s)) (tx_script (ws_socket s))) s).

Lemma receive_run seg segs s :
  wf_wserver s → rx (ws_socket s) = seg :: segs → 0 < blen seg ≤ _MSG_SIZE →
  receive s = (Done (blen seg), received seg segs s).
Proof.
  intros Hwf Hrx Hseg. unfold receive, recv_into.
  assert (Hr : recv _MSG_SIZE (ws_socket s) = (blen seg, seg,
     mkNet segs (rx_error (ws_socket s)) (tx (ws_socket s)) (tx_script (ws_socket s)))).
  { unfold recv. rewrite Hrx. destruct seg as [|c seg]; [unfold blen in *; simpl in *; lia|].
    cbn [recv_segs]. rewrite take_ge, drop_ge by (unfold blen, _MSG_SIZE in *; lia). done. }
  erewrite bind_done.
  2:{ unfold zoom. change (fget socket _) with (ws_socket s). rewrite Hr. reflexivity. }
  cbv beta iota. erewrite bind_done; [reflexivity|]. apply store_bytes_run.
  apply (splice_append [] (ws_request s) 0 seg); [done|].
  pose proof (wsf_request s Hwf). unfold blen in *. lia.
Qed.

(** One round of the loop that does not end it. *)
Definition round (sess : Z) : M (wserver CS OS) unit := receive;; handle_request sess.

Lemma win_round_run sess seg segs s :
  wf_wserver s → rx (ws_socket s) = seg :: segs → 0 < blen seg ≤ _MSG_SIZE →
  round sess s = handle_request sess (received seg segs s).
Proof. intros. unfold round. by erewrite bind_done by by apply receive_run. Qed.

Lemma handle_request_run sess r s :
  decode_request (ws_request s) = Some r →
  handle_request sess s =
    (if negb (verifyRequest r) then DebugOut "StartSession(): verifyRequest failed" else dispatch sess r) s.
Proof.
  intros Hd. unfold handle_request. erewrite bind_done by done. cbv beta. change (fget request s) with (ws_request s).
  by rewrite (bind_done _ _ _ _ _ (try_done _ _ _ _ Hd)).
Qed.

Lemma win_received_decode r rest segs s :
  wf_request r → decode_request (ws_request (received (encode_request r ++ rest) segs s)) = Some r.
Proof. intros Hr. cbn. rewrite <- (assoc_L (++)). by apply decode_request_encode. Qed.

Lemma wf_received seg segs s : blen seg ≤ _MSG_SIZE → wf_wserver s → wf_wserver (received seg segs s).
Proof.
  intros Hl []. split; try done. cbn. rewrite blen_app. unfold blen, _MSG_SIZE in *. rewrite length_drop. lia.
Qed.

Lemma winv_received seg segs s : blen seg ≤ _MSG_SIZE → winv s → winv (received seg segs s).
Proof. intros Hl [Hwf Ha]. split; [by apply wf_received|done]. Qed.

(** ** Dispatch *)
Lemma fits_verified r :
  wf_request r → verifyRequest r = true → rh_header_len r + rh_body_len r + rh_data_len r < 2 ^ 32 → fits r.
Proof.
  intros Hw (H1 & H2 & H3 & H4)%verifyRequest_spec Hsum.
  unfold wf_request, wf_words, request_words in Hw. rewrite !Forall_cons in Hw. destruct Hw as (_&?&?&?&_).
  rewrite u32_small in H4 by lia. split; [done|done|lia|lia].
Qed.

(** The state after a message of the log. *)
Lemma logged_handled r s m s1 :
  winv s1 → undisturbed s s1 → one_answer r s s1 → DebugOut m s1 = (Done tt, fset log (ws_log s1 ++ [m]) s1) ∧
  winv (fset log (ws_log s1 ++ [m]) s1) ∧ undisturbed s (fset log (ws_log s1 ++ [m]) s1) ∧
  one_answer r s (fset log (ws_log s1 ++ [m]) s1).
Proof. intros [[] Ha] [] Ho. split_and!; done. Qed.

Definition request_done r s (out : outcome unit * wserver CS OS) : Prop :=
  ∃ s', out = (Done tt, s') ∧ winv s' ∧ undisturbed s s' ∧ one_answer r s s'.

Lemma report_done r s m : whandled r s (m s) → request_done r s (report m s).
Proof.
  intros (n & s1 & Hm & Hi & Hu & Ho). unfold report. rewrite (bind_done _ _ _ _ _ Hm).
  destruct (n =? -1); [|by exists s1]. cbn [when].
  destruct (logged_handled r s "ReceiveRequest(): sending answer failed" s1) as (-> & ?); [done..|]. by eexists.
Qed.

(** The socket when [bs] has been sent. *)
Definition delivered (bs : list byte) s : wserver CS OS :=
  fset socket (mkNet (rx (ws_socket s)) (rx_error (ws_socket s)) (tx (ws_socket s) ++ [bs]) []) s.

Lemma report_replies m s a s1 :
  replies (m s) a s1 → ws_open s1 = true → tx_script (ws_socket s1) = [] →
  report m s = (Done tt, delivered (answer_bytes a) s1).
Proof.
  intros (Hm & _) Ho Hs. destruct (win_wsend_run (answer_bytes a) s1) as (n & Hn & Hl). rewrite (Hl Ho Hs) in Hn.
  rewrite Hn in Hm. unfold report. rewrite (bind_done _ _ _ _ _ Hm). pose proof (blen_nonneg (answer_bytes a)).
  rewrite (proj2 (Z.eqb_neq _ (-1))) by lia. unfold sent, delivered. rewrite Ho. unfold send. rewrite Hs.
  rewrite decide_True by lia. by rewrite take_ge by (unfold blen; lia).
Qed.

Lemma log_done r s m : winv s → request_done r s (DebugOut m s).
Proof. intros Hi. destruct (logged_handled r s m s) as (-> & ?); [done|done|by left|]. by eexists. Qed.

Lemma checked_session_done sess r s m :
  winv s → whandled r s (m s) → request_done r s (checked_session sess r m s).
Proof.
  intros Hi Hm. unfold checked_session. erewrite bind_done by done. cbv beta.
  destruct (verifySessionId _ _); [by apply report_done|by apply log_done].
Qed.

(** The dispatch on the types that other files need. *)
Lemma dispatch_put sess r s :
  rh_message_type r = TYPE_CAPI_PUTMESSAGE →
  dispatch sess r s = checked_session sess r (exec_capi_putmessage r (rh_header_len r) (rh_header_len r + rh_body_len r)) s.
Proof. intros Ht. unfold dispatch. by rewrite Ht. Qed.
Lemma dispatch_get sess r s :
  rh_message_type r = TYPE_CAPI_GETMESSAGE →
  dispatch sess r s = checked_session sess r (exec_capi_getmessage r (rh_header_len r) (rh_header_len r + rh_body_len r)) s.
Proof. intros Ht. unfold dispatch. by rewrite Ht. Qed.
Lemma dispatch_register sess r s :
  rh_message_type r = TYPE_CAPI_REGISTER →
  dispatch sess r s = checked_session sess r (exec_capi_register r (rh_header_len r) (rh_header_len r + rh_body_len r)) s.
Proof. intros Ht. unfold dispatch. by rewrite Ht. Qed.
Lemma win_dispatch_helo sess r s :
  rh_message_type r = TYPE_PROXY_HELO →
  dispatch sess r s = report (exec_proxy_helo r (rh_header_len r) (rh_header_len r + rh_body_len r)) s.
Proof. intros Ht. unfold dispatch. by rewrite Ht. Qed.
Lemma win_dispatch_auth sess r s :
  rh_message_type r = TYPE_PROXY_AUTH →
  dispatch sess r s = checked_session sess r (exec_proxy_auth r (rh_header_len r) (rh_header_len r + rh_body_len r)) s.
Proof. intros Ht. unfold dispatch. by rewrite Ht. Qed.

Lemma checked_session_run sess r m s :
  rh_session_id r = u32 (ws_session s + sess) → checked_session sess r m s = report m s.
Proof.
  intros Hse. unfold checked_session, verifySessionId. erewrite bind_done by done. cbv beta.
  change (fget session s) with (ws_session s). by rewrite Hse, Z.eqb_refl.
Qed.

Lemma dispatch_done sess r s :
  capi32_max (CS:=CS) ≤ CAPI_MAXAPPL → library_fits → heap_plenty →
  winv s → fits r → (rh_message_type r = TYPE_PROXY_AUTH → ws_AUTH_TYPES s = AUTH_NO_AUTH) → request_done r s (dispatch sess r s).
Proof.
  intros Hids Hlib Hheap Hi Hf Hty. unfold dispatch. cbv zeta.
  case_decide; [apply checked_session_done; [done|by apply win_register_handled]|].
  case_decide; [apply checked_session_done; [done|by apply win_release_handled]|].
  case_decide; [apply checked_session_done; [done|by apply win_putmessage_handled]|].
  case_decide; [apply checked_session_done; [done|by apply win_getmessage_handled]|].
  case_decide; [apply checked_session_done; [done|by apply win_waitforsignal_handled]|].
  case_decide; [apply checked_session_done; [done|by apply win_manufacturer_handled]|].
  case_decide; [apply checked_session_done; [done|by apply win_version_handled]|].
  case_decide; [apply checked_session_done; [done|by apply win_serial_handled]|].
  case_decide; [apply checked_session_done; [done|by apply win_profile_handled]|].
  case_decide; [apply checked_session_done; [done|by apply installed_handled]|].
  case_decide; [apply report_done; by apply win_helo_handled|].
  case_decide; [apply checked_session_done; [done|by apply silent_handled]|].
  case_decide; [apply checked_session_done; [done|apply win_auth_handled; auto]|].
  by apply log_done.
Qed.

(** ** The end of a session *)
(** What [release_apps] does before it hangs. *)
Definition one_released s : wserver CS OS :=
  if decide (fget registered_apps s !! 1%nat = Some Init.Byte.x01)
  then fset capi (capi32_release 1 (ws_capi s)).2 (marked_app 1 x00 s) else s.

Lemma getfirst_app_hangs fuel s :
  blen (fget registered_apps s) = CAPI_MAXAPPL + 1 → fget registered_apps s !! 1%nat ≠ Some Init.Byte.x01 →
  getfirst_app fuel s = (Faulted Diverged, s).
Proof.
  intros Hl Hne. destruct (lookup_lt_is_Some_2 (fget registered_apps s) 1) as [c Hc].
  { unfold blen, CAPI_MAXAPPL in Hl. lia. }
  apply (getfirst_loop_hangs fuel 1 c); [done|done|]. intros Hu. apply Hne. rewrite Hc. f_equal.
  by apply byte.unsigned_inj.
Qed.

Lemma release_apps_hangs fuel s :
  blen (fget registered_apps s) = CAPI_MAXAPPL + 1 →
  release_apps (S fuel) s = (Faulted Diverged, one_released s).
Proof.
  intros Hl. unfold one_released. case_decide as Hc.
  2:{ cbn [release_apps]. by erewrite bind_faulted by by apply getfirst_app_hangs. }
  cbn [release_apps]. rewrite (bind_done _ _ _ _ _ (getfirst_app_first fuel s Hl Hc)).
  change (1 =? 0) with false. cbv iota.
  rewrite (bind_done _ _ _ (capi32_release 1 (ws_capi s)).1 (fset capi (capi32_release 1 (ws_capi s)).2 (marked_app 1 x00 s))).
  2:{ unfold zoom. change (fget capi (marked_app 1 x00 s)) with (ws_capi s). by destruct (capi32_release 1 (ws_capi s)). }
  destruct fuel as [|fuel]; [done|]. cbn [release_apps].
  erewrite bind_faulted; [reflexivity|]. apply getfirst_app_hangs; cbn.
  - cbn in Hl. unfold mark, blen in *. by rewrite length_insert.
  - cbn in Hl. unfold mark. rewrite list_lookup_insert_eq; [done|]. unfold blen, CAPI_MAXAPPL in Hl.
    change (Z.to_nat 1) with 1%nat. lia.
Qed.

Definition goodbye (err : Z) : list byte :=
  bytes_of_string (if err =? 0 then "Connection shutting down" else "Socket Error").

(** The state in which the thread runs on. *)
Definition ending (err : Z) s : wserver CS OS :=
  one_released (sent (answer_bytes (shutdown_answer (goodbye err) s)) (called s)).

Lemma end_session_hangs fuel sess err s :
  wf_wserver s → end_session (S fuel) sess err s = (Faulted Diverged, ending err s).
Proof.
  intros Hwf. unfold end_session. fold (goodbye err).
  assert (Hg : blen (goodbye err) < 128) by (unfold goodbye; by destruct (err =? 0)).
  destruct (win_exec_proxy_shutdown_run (goodbye err) s Hwf Hg) as (Hs & _).
  destruct (win_wsend_run (answer_bytes (shutdown_answer (goodbye err) s)) (called s)) as (n & Hn & _).
  rewrite Hn in Hs. rewrite (bind_done _ _ _ _ _ Hs).
  erewrite bind_faulted; [reflexivity|]. apply release_apps_hangs.
  unfold sent. destruct (ws_open (called s)); apply (wsf_apps s Hwf).
Qed.

Lemma ending_globals err s :
  ws_sockets (ending err s) = ws_sockets s ∧ ws_open (ending err s) = ws_open s.
Proof. unfold ending, one_released, sent. by destruct (ws_open (called s)); case_decide. Qed.

(** [init_client] makes the state well-formed. *)
Definition client_ready (sess : Z) s : wserver CS OS := (init_client sess s).2.

Lemma init_client_run sess s : init_client sess s = (Done tt, client_ready sess s).
Proof. done. Qed.

Lemma wf_client_ready sess s :
  (∀ n, blen (ws_stack s n) = _MSG_SIZE) → blen (ws_request s) = _MSG_SIZE → wf_wserver (client_ready sess s).
Proof. intros Hst Hr. split; [done|done|apply u32_range|done]. Qed.
End session.
