(* ===== verification/WServerProperties.v ===== *)
(** * The Windows server: properties *)
From stdpp Require Import gmap.
From S2P Require Import Prelude CMem Protocol Net Capi20 AppIndex Win32 Capi2032 WServer WServerSpec WServerMessages WServerProxy WServerSafe WServerHandled WServerSession.
From S2P Require CapiUtil Daemon DaemonSpec.
#[local] Open Scope Z_scope.

Section properties.
Context {CS OS : Type} `{!Capi2032 CS, !Capi2032Laws CS, !WinServer OS, !WinServerLaws OS}.
Implicit Types s : wserver CS OS.

Lemma load16_outside off s :
  _MSG_SIZE < off → wf_wserver s → load16 request off s = (Faulted OutOfBounds, s).
Proof.
  intros Ho Hwf. unfold load, gets, mbind, M_bind, get_le. change (fget request s) with (ws_request s).
  rewrite slice_None; [done|]. rewrite (wsf_request s Hwf). lia.
Qed.

(** C30: a request passes verifyRequest and does not overflow the sum of
    its lengths exactly when its message_len is that sum and its parts, with a body
    of the size of its type at least, lie in the 10000 bytes of the array.  The
    sum is not protected against overflow: a request of 52 bytes with a body of 20000
    bytes and 2^32-19984 bytes of data passes, and PUTMESSAGE then reads outside of the array. *)
Theorem windows_verified_request (r : REQUEST_HEADER) :
  wf_request r →
  (verifyRequest r = true ∧ rh_header_len r + rh_body_len r + rh_data_len r < 2 ^ 32 ↔
   fits r ∧ rh_message_len r = rh_header_len r + rh_body_len r + rh_data_len r) ∧
  ∀ mid app session, let r' := mkRequest 52 36 20000 (2 ^ 32 - 19984) mid TYPE_CAPI_PUTMESSAGE app 0 session in
    verifyRequest r' = true ∧
    ∀ s sess, wf_wserver s → session = u32 (ws_session s + sess) → (dispatch sess r' s).1 = Faulted OutOfBounds.
Proof.
  intros Hw. split; [split|].
  - intros [Hv Hs]. pose proof (fits_verified r Hw Hv Hs) as Hf. split; [done|].
    apply verifyRequest_spec in Hv as (_ & _ & _ & <-). apply u32_small. destruct Hf. unfold sizeof_REQUEST_HEADER in *.
    unfold wf_request, wf_words, request_words in Hw. rewrite !Forall_cons in Hw. destruct Hw as (_&?&?&?&_). lia.
  - intros [[H1 H2 H3 H4] Hm]. unfold sizeof_REQUEST_HEADER, _MSG_SIZE in *.
    unfold wf_request, wf_words, request_words in Hw. rewrite !Forall_cons in Hw. destruct Hw as (_&?&?&?&_).
    split; [|lia]. apply verifyRequest_spec. unfold sizeof_REQUEST_HEADER, _MSG_SIZE.
    rewrite (u32_small (_ + _)) by lia. lia.
  - intros mid app session. cbv zeta. split; [done|]. intros s sess Hwf Hse.
    set (r' := mkRequest _ _ _ _ _ _ _ _ _). rewrite dispatch_put by done.
    rewrite checked_session_run by done. unfold report. erewrite bind_faulted; [done|].
    unfold exec_capi_putmessage. rewrite (bind_done _ _ _ _ _ (start_answer_run _ _ _ _ Hwf)).
    erewrite bind_faulted; [done|]. unfold putmessage_checked. cbv zeta.
    change (rh_data_len r' <? 8) with false. cbv iota.
    erewrite bind_faulted; [done|]. by apply load16_outside; [|destruct Hwf].
Qed.

(** ** One round *)
(** C10: whatever bytes arrive in one piece behind a header whose lengths
    do not overflow, the round ends without undefined behaviour; it sends at most one
    answer, well-formed and to that request, and the applications marked for the
    client are applications of the library.  On these conditions: the library gives out
    no ids above 128 and its messages fit an answer, HeapAlloc does not fail, and an AUTH
    request arrives only where authentication is off, as it is by default - with it,
    [exec_proxy_auth] writes behind the data without a check. *)
Theorem windows_request_answered sess r pay segs s :
  capi32_max (CS:=CS) ≤ CAPI_MAXAPPL → library_fits → heap_plenty → winv s →
  (rh_message_type r = TYPE_PROXY_AUTH → ws_AUTH_TYPES s = AUTH_NO_AUTH) →
  wf_request r → rh_header_len r + rh_body_len r + rh_data_len r < 2 ^ 32 →
  rx (ws_socket s) = (encode_request r ++ pay) :: segs → blen (encode_request r ++ pay) ≤ _MSG_SIZE →
  ∃ s', round sess s = (Done tt, s') ∧ winv s' ∧ rx (ws_socket s') = segs ∧ one_answer r s s'.
Proof.
  intros Hids Hlib Hheap Hi Hty Hr Hsum Hrx Hl. set (seg := encode_request r ++ pay) in *.
  assert (Hpos : 0 < blen seg) by (unfold seg; rewrite blen_app, blen_encode_request; pose proof (blen_nonneg pay); unfold sizeof_REQUEST_HEADER; lia).
  rewrite (win_round_run sess seg segs) by (done || apply Hi).
  set (s1 := received seg segs s). assert (Hi1 : winv s1) by by apply winv_received.
  rewrite (handle_request_run sess r) by by apply win_received_decode.
  assert (Hd : request_done r s1 ((if negb (verifyRequest r) then DebugOut "StartSession(): verifyRequest failed"
    else dispatch sess r) s1)).
  { destruct (verifyRequest r) eqn:Hv; cbn [negb]; [|by apply log_done].
    apply dispatch_done; [done..|by apply fits_verified|done]. }
  destruct Hd as (s' & -> & Hi' & Hu & Ho). exists s'. split_and!; [done|done|by rewrite (un_rx _ _ Hu)|exact Ho].
Qed.

(** The server takes what one recv returns for one request: when the client's
    next request [m2] arrives in the same piece, the first is served as if it had come
    alone but for the bytes behind it in the array, and the second is gone. *)
Theorem windows_coalesced sess r pay m2 segs s :
  wf_wserver s → wf_request r → verifyRequest r = true →
  rx (ws_socket s) = ((encode_request r ++ pay) ++ m2) :: segs →
  blen ((encode_request r ++ pay) ++ m2) ≤ _MSG_SIZE →
  ∃ s1, round sess s = dispatch sess r s1 ∧ rx (ws_socket s1) = segs ∧
    ws_request s1 = encode_request r ++ pay ++ m2 ++ drop (length ((encode_request r ++ pay) ++ m2)) (ws_request s) ∧
    ws_client s1 = ws_client s ∧ ws_capi s1 = ws_capi s ∧ tx (ws_socket s1) = tx (ws_socket s).
Proof.
  intros Hwf Hr Hv Hrx Hl. set (seg := (encode_request r ++ pay) ++ m2) in *.
  assert (Hpos : 0 < blen seg).
  { unfold seg. rewrite !blen_app, blen_encode_request. pose proof (blen_nonneg pay). pose proof (blen_nonneg m2).
    unfold sizeof_REQUEST_HEADER. lia. }
  exists (received seg segs s). split_and!; try done.
  - rewrite (win_round_run sess seg segs) by done. rewrite (handle_request_run sess r); [by rewrite Hv|].
    unfold seg. rewrite <- (assoc_L (++)). by apply win_received_decode.
  - cbn. unfold seg. by rewrite <- !(assoc_L (++)).
Qed.

(** The requests of the Linux client without a body are dropped: to GCC the empty
    structure that is their body has size 0, and this server, compiled as C++, wants the one
    byte it has there.  The request is read, a line is logged and nothing is answered. *)
Theorem linux_client_ignored `{Capi20.CapiHeader} sess type data app ctrl id (d : Daemon.daemon) pay segs s :
  let r := DaemonSpec.next_request 0 data type app ctrl id d in
  TYPE_CAPI_RELEASE ≤ type ≤ TYPE_CAPI_INSTALLED → wf_request r → wf_wserver s →
  rx (ws_socket s) = (encode_request r ++ pay) :: segs → blen (encode_request r ++ pay) ≤ _MSG_SIZE →
  ∃ s', round sess s = (Done tt, s') ∧ rx (ws_socket s') = segs ∧
    tx (ws_socket s') = tx (ws_socket s) ∧ ws_capi s' = ws_capi s ∧ ws_client s' = ws_client s.
Proof.
  intros r Ht Hr Hwf Hrx Hl.
  assert (Hpos : 0 < blen (encode_request r ++ pay)).
  { rewrite blen_app, blen_encode_request. pose proof (blen_nonneg pay). unfold sizeof_REQUEST_HEADER. lia. }
  assert (Hv : verifyRequest r = false).
  { apply not_true_iff_false. intros (_ & Hb & _)%verifyRequest_spec.
    change (rh_body_len r) with 0 in Hb. change (rh_message_type r) with type in Hb.
    unfold TYPE_CAPI_RELEASE, TYPE_CAPI_INSTALLED in Ht.
    assert (Hc : type = 2 ∨ type = 3 ∨ type = 4 ∨ type = 5 ∨ type = 6 ∨ type = 7 ∨ type = 8 ∨ type = 9 ∨ type = 10) by lia.
    destruct Hc as [->|[->|[->|[->|[->|[->|[->|[->| ->]]]]]]]]; by apply Hb. }
  rewrite (win_round_run sess _ segs) by done. rewrite (handle_request_run sess r) by by apply win_received_decode.
  rewrite Hv. eexists. split; [reflexivity|]. done.
Qed.

(** ** The end of a session *)
(** C8: the thread of a session never ends.  Its loop does, whatever arrives: it
    runs out of what arrives or of what other threads set, or into undefined
    behaviour.  Then the client is told, application 1 is released if the client
    has registered it, and the search for the next application never ends: the client's
    other applications are not released, its socket is not closed and its place in the
    table of sessions not given back. *)
Theorem session_never_ends sess s :
  (∀ n, blen (ws_stack s n) = _MSG_SIZE) → blen (ws_request s) = _MSG_SIZE →
  let '(o, s1) := session_loop (S (pending s)) sess 1 (client_ready sess s) in
  o ≠ Faulted Diverged ∧
  (∀ fuel n, (StartSession fuel sess s).1 ≠ Done n) ∧
  ∀ err, o = Done err →
    (∀ fuel, StartSession (S fuel) sess s = (Faulted Diverged, ending err s1)) ∧
    ws_sockets (ending err s1) = ws_sockets s ∧ ws_open (ending err s1) = ws_open s.
Proof.
  intros Hst Hrq. pose proof (wf_client_ready sess s Hst Hrq) as Hwf.
  destruct (session_loop_safe (S (pending s)) sess 1 (client_ready sess s) Hwf) as (Hd & Hwf1 & Hstep).
  { change (pending (client_ready sess s)) with (pending s). lia. }
  assert (Hrun : ∀ fuel, StartSession fuel sess s =
    (err ← session_loop (S (pending s)) sess 1; end_session fuel sess err) (client_ready sess s)).
  { intros fuel. unfold StartSession. by rewrite (bind_done _ _ _ _ _ (init_client_run sess s)). }
  destruct (session_loop (S (pending s)) sess 1 (client_ready sess s)) as [o s1] eqn:E. cbn [fst snd] in *.
  assert (Hend : ∀ err, o = Done err → ∀ fuel, StartSession (S fuel) sess s = (Faulted Diverged, ending err s1)).
  { intros err -> fuel. rewrite Hrun, (bind_done _ _ _ _ _ E). by apply end_session_hangs. }
  split_and!; [done| |].
  - intros fuel n. rewrite Hrun. destruct o as [err|f|c].
    + rewrite (bind_done _ _ _ _ _ E). destruct fuel as [|fuel].
      * unfold end_session, release_apps.
        assert (Hg : blen (goodbye err) < 128) by (unfold goodbye; by destruct (err =? 0)).
        destruct (win_exec_proxy_shutdown_run (goodbye err) s1 Hwf1 Hg) as (Hs & _).
        destruct (win_wsend_run (answer_bytes (shutdown_answer (goodbye err) s1)) (called s1)) as (k & Hk & _).
        rewrite Hk in Hs. fold (goodbye err). by rewrite (bind_done _ _ _ _ _ Hs).
      * by rewrite end_session_hangs.
    + by rewrite (bind_faulted _ _ _ _ _ E).
    + by rewrite (bind_exited _ _ _ _ _ E).
  - intros err Ho. split; [by apply Hend|]. destruct Hstep as [_ _ _ Hso Hop].
    destruct (ending_globals err s1) as [-> ->]. by split.
Qed.

(** ** Sessions *)
Lemma first_free_spec l i :
  match first_free l i with
  | Some j => i ≤ j < i + Z.of_nat (length l) ∧ l !! Z.to_nat (j - i) = Some None ∧
      ∀ k, i ≤ k < j → ∃ h, l !! Z.to_nat (k - i) = Some (Some h)
  | None => ∀ k x, l !! k = Some x → is_Some x
  end.
Proof.
  revert i. induction l as [|[h|] l IH]; intros i; cbn [first_free].
  - intros k x Hk. by rewrite lookup_nil in Hk.
  - specialize (IH (i + 1)). destruct (first_free l (i + 1)) as [j|].
    + destruct IH as (Hj & Hl & Hk). cbn [length]. split_and!; [lia|lia| |].
      * replace (Z.to_nat (j - i)) with (S (Z.to_nat (j - (i + 1)))) by lia. done.
      * intros k Hki. destruct (decide (k = i)) as [->|]; [rewrite Z.sub_diag; by eexists|].
        replace (Z.to_nat (k - i)) with (S (Z.to_nat (k - (i + 1)))) by lia. apply Hk. lia.
    + intros [|k] x Hx; [by injection Hx as <-|]. by apply (IH k).
  - cbn [length]. rewrite Z.sub_diag. split_and!; [lia|lia|done|lia].
Qed.

(** A new connection gets the first free place of the table, and giving that
    back restores the table.  When no place is free the new connection is told to be session
    0, whose client it does not belong to, and the table does not know it; the check for
    this in ServiceStart expects -1. *)
Theorem sessions_table socke s :
  length (ws_sockets s) = Z.to_nat _MAX_SESSIONS →
  (∃ i s', allocSession sockets socke s = (Done i, s') ∧ 0 ≤ i < _MAX_SESSIONS ∧
     ws_sockets s !! Z.to_nat i = Some None ∧ (∀ k, 0 ≤ k < i → ∃ h, ws_sockets s !! Z.to_nat k = Some (Some h)) ∧
     ws_sockets s' = <[Z.to_nat i := Some socke]> (ws_sockets s) ∧
     freeSession sockets i s' = (Done tt, s)) ∨
  ((∀ k x, ws_sockets s !! k = Some x → is_Some x) ∧ allocSession sockets socke s = (Done 0, s)).
Proof.
  intros Hl. pose proof (first_free_spec (ws_sockets s) 0) as Hf.
  unfold allocSession. change ((gets sockets ≫= ?k) s) with (k (ws_sockets s) s). cbv beta.
  destruct (first_free (ws_sockets s) 0) as [i|]; [|by right].
  destruct Hf as (Hi & Hfree & Hbusy). rewrite Z.sub_0_r in Hfree. rewrite Hl in Hi. unfold _MAX_SESSIONS in *.
  left. exists i, (fset sockets (<[Z.to_nat i := Some socke]> (ws_sockets s)) s). split_and!; try done; try lia.
  - intros k Hk. destruct (Hbusy k Hk) as [h Hh]. exists h. by rewrite Z.sub_0_r in Hh.
  - unfold freeSession, _MAX_SESSIONS. rewrite decide_False by lia. unfold modify.
    assert (Hid : <[Z.to_nat i := None]> (<[Z.to_nat i := Some socke]> (ws_sockets s)) = ws_sockets s).
    { rewrite list_insert_insert_eq. by apply list_insert_id. }
    cbn [fget sockets ws_sockets fset]. rewrite Hid. by destruct s.
Qed.

(** ** Authentication *)
(** The client after the check of its password. *)
Definition entered_state (type v : Z) s : wserver CS OS :=
  if v =? -1 then s else fset client (set_auth_type type (ws_client s)) s.

Lemma entered_run type v s :
  entered type v s = (Done (if v =? -1 then PERROR_ACCESS_DENIED else PERROR_NONE), entered_state type v s).
Proof. unfold entered, entered_state. by destruct (v =? -1). Qed.

(** C39: with authentication by user and password switched on, a client that sends user
    and password, each up to its NUL, is told of success, and entered as authenticated,
    exactly when the registry has that password for that user; otherwise access is denied
    and it counts as not authenticated. *)
Theorem userpass_auth sess r user pass segs s :
  wf_wserver s → wf_request r → verifyRequest r = true →
  rh_message_type r = TYPE_PROXY_AUTH → rh_header_len r = 36 → rh_body_len r = 4 →
  rh_data_len r = blen (credentials user pass) → rh_session_id r = u32 (ws_session s + sess) →
  x00 ∉ user → x00 ∉ pass → blen user ≤ 255 → blen pass ≤ 253 →
  negb (Z.land (ws_AUTH_TYPES s) AUTH_USERPASS =? 0) = true → strings_end (ws_os s) →
  rx (ws_socket s) = (encode_request r ++ le_split 4 AUTH_USERPASS ++ credentials user pass) :: segs →
  ws_open s = true → tx_script (ws_socket s) = [] →
  ∃ s' e f, round sess s = (Done tt, s') ∧
    (user_known user pass (ws_os s) ∧ e = PERROR_NONE ∧ cd_auth_type (ws_client s') = AUTH_USERPASS ∨
     ¬ user_known user pass (ws_os s) ∧ e = PERROR_ACCESS_DENIED ∧ cd_auth_type (ws_client s') = AUTH_NO_AUTH) ∧
    wf_frame f ∧ ah_proxy_error (fr_header f) = e ∧ ah_message_id (fr_header f) = rh_message_id r ∧
    tx (ws_socket s') = tx (ws_socket s) ++ [encode_frame f].
Proof.
  intros Hwf Hr Hv Ht Hh Hb Hdl Hse Hu Hp Hul Hpl Hty Hend Hrx Hop Hsc.
  set (pay := le_split 4 AUTH_USERPASS ++ credentials user pass) in *. set (seg := encode_request r ++ pay) in *.
  assert (Hseg : blen seg = 42 + blen user + blen pass).
  { unfold seg, pay, credentials. rewrite !blen_app, blen_encode_request. unfold sizeof_REQUEST_HEADER, blen. cbn [length].
    rewrite length_app. cbn [length]. change (length (le_split 4 AUTH_USERPASS)) with 4%nat. lia. }
  pose proof (blen_nonneg user). pose proof (blen_nonneg pass).
  rewrite (win_round_run sess seg segs) by (done || (unfold _MSG_SIZE; lia)).
  set (s1 := received seg segs s). set (su := unauthenticated s1).
  assert (Hwf1 : wf_wserver s1) by (apply wf_received; [unfold _MSG_SIZE; lia|done]).
  rewrite (handle_request_run sess r) by by apply win_received_decode. rewrite Hv. cbn [negb].
  rewrite win_dispatch_auth, checked_session_run by done. rewrite Hh, Hb.
  destruct (user_pass_run r 40 user pass (encode_request r ++ le_split 4 AUTH_USERPASS) (drop (length seg) (ws_request s)) su)
    as (b & Hup & _); [|done..| |].
  { change (ws_request su) with (seg ++ drop (length seg) (ws_request s)). unfold seg, pay. by rewrite <- !(assoc_L (++)). }
  { pose proof (wsf_request s Hwf) as Hrq. unfold _MSG_SIZE, blen in *. rewrite length_drop. lia. }
  destruct (try_auth_userpass_run user pass (fset request b su)) as (v & s2 & Hauth & Hres & l & Hs2); [done|].
  set (s3 := entered_state AUTH_USERPASS v s2).
  assert (Hsw : auth_switch r AUTH_USERPASS 40 su = (Done (Some (if v =? -1 then PERROR_ACCESS_DENIED else PERROR_NONE)), s3)).
  { unfold auth_switch. erewrite bind_done by done. cbv beta. rewrite decide_False, decide_True by done.
    change (fget AUTH_TYPES su) with (ws_AUTH_TYPES s). apply negb_true_iff in Hty. rewrite Hty.
    rewrite (bind_done _ _ _ _ _ Hup), (bind_done _ _ _ _ _ Hauth), (bind_done _ _ _ _ _ (entered_run _ _ _)). done. }
  assert (Hrep : replies (exec_proxy_auth r 36 (36 + 4) s1) (auth_answer r (if v =? -1 then PERROR_ACCESS_DENIED else PERROR_NONE) s1) s3).
  { apply win_exec_proxy_auth_run with (type := AUTH_USERPASS); [done| |exact Hsw].
    change (ws_request s1) with (seg ++ drop (length seg) (ws_request s)). unfold seg, pay.
    rewrite <- !(assoc_L (++)). by rewrite (get_le_at 4 (encode_request r)). }
  assert (Hs3 : ws_open s3 = true ∧ ws_socket s3 = ws_socket s1).
  { unfold s3, entered_state. rewrite Hs2. by destruct (v =? -1). }
  destruct Hs3 as [Ho3 Hw3].
  erewrite report_replies; [|exact Hrep|done|by rewrite Hw3].
  eexists _, (if v =? -1 then PERROR_ACCESS_DENIED else PERROR_NONE), (answer_frame (auth_answer r _ s1)).
  split; [reflexivity|]. split_and!.
  - unfold s3, entered_state. rewrite Hs2. destruct Hres as [[-> Hk]|[-> Hk]]; [left|right]; by split_and!.
  - by eapply replies_frame.
  - done.
  - done.
  - unfold delivered. cbn [ws_socket fset socket tx]. by rewrite Hw3.
Qed.
End properties.
