(* ===== verification/WindowsPair.v ===== *)
(** * The Windows client and the Windows server together

    What a call of the client puts on the wire is what a round of the server's session
    takes from its socket, and the other way round. *)
From stdpp Require Import gmap.
From S2P Require Import Prelude CMem Protocol Net Win32 Capi2032 WServer WServerSpec WServerMessages WServerProxy WServerHandled WServerSession.
From S2P Require Import WClient WClientSpec WClientCalls WClientAnswers WClientInv WClientCall WClientApps WClientConnect.
From S2P Require ClientServer.
#[local] Open Scope Z_scope.

Abbreviation word32 := ClientServer.word32.
Ltac words_ok :=
  first [apply ClientServer.request_wf|apply ClientServer.answer_wf];
  first [assumption|apply ClientServer.next_id_word|unfold ClientServer.word32; eval_range|idtac].

(** ** Answers of the server as the client sees them *)
(** The header that is sent, and what is behind it. *)
Definition sent_header (a : answer_buffer) : ANSWER_HEADER := fr_header (answer_frame a).

Record plain_answer (a : answer_buffer) : Prop := {
  pa_header : ah_header_len (aheader a) = sizeof_ANSWER_HEADER;
  pa_body : 0 ≤ ah_body_len (aheader a);
  pa_data : 0 ≤ ah_data_len (aheader a);
  pa_fits : ah_body_len (aheader a) + ah_data_len (aheader a) ≤ blen (abody a);
  pa_buffer : blen (abody a) = 9960;
  pa_words : word32 (ah_message_id (aheader a)) ∧ word32 (ah_message_type (aheader a)) ∧ word32 (ah_app_id (aheader a)) ∧
             word32 (ah_session_id (aheader a)) ∧ word32 (ah_capi_error (aheader a)) ∧ word32 (ah_proxy_error (aheader a));
}.

Definition body_part (a : answer_buffer) : list byte := take (Z.to_nat (ah_body_len (aheader a))) (abody a).
Definition data_part (a : answer_buffer) : list byte :=
  take (Z.to_nat (ah_data_len (aheader a))) (drop (Z.to_nat (ah_body_len (aheader a))) (abody a)).

Lemma plain_answer_parts a : plain_answer a →
  answer_bytes a = answer_message (sent_header a) (body_part a) (data_part a) ∧
  wf_message (sent_header a) (body_part a) (data_part a).
Proof.
  intros [Hh Hb Hd Hf Hl (?&?&?&?&?&?)].
  set (b := ah_body_len (aheader a)) in *. set (n := ah_data_len (aheader a)) in *.
  assert (Hparts : take (Z.to_nat (b + n)) (abody a) = body_part a ++ data_part a).
  { unfold body_part, data_part. fold b n. rewrite Z2Nat.inj_add by done.
    rewrite <- (take_drop (Z.to_nat b) (abody a)) at 1. rewrite take_app_add' by (unfold blen in *; rewrite length_take; lia). done. }
  assert (Hbl : blen (body_part a) = b) by (unfold body_part, blen in *; rewrite length_take; lia).
  assert (Hdl : blen (data_part a) = n) by (unfold data_part, blen in *; rewrite length_take, length_drop; lia).
  assert (Hm : blen (answer_message (sent_header a) (body_part a) (data_part a)) = 40 + (b + n)).
  { rewrite blen_answer_message, Hbl, Hdl. unfold sizeof_ANSWER_HEADER. lia. }
  split.
  - unfold answer_bytes. fold b n. rewrite Hparts. done.
  - split; [|done|by rewrite Hbl|by rewrite Hdl|by rewrite Hm|rewrite Hm; unfold _MSG_BUFFER; lia].
    unfold sent_header, answer_frame. cbn [fr_header].
    apply ClientServer.answer_wf; try assumption; fold b n; unfold ClientServer.word32 in *; rewrite ?Hh; unfold sizeof_ANSWER_HEADER; lia.
Qed.

Section pair.
Context {CS WS OS : Type} `{!Capi2032 CS, !Capi2032Laws CS, !WinServer WS, HW : !Win32 OS, HL : !Win32Laws OS}.
Context (Hplenty : plenty (OS:=OS)).
Implicit Types (s : wserver CS WS) (d : dll OS).

(** The client with what the server sent to it in the receive buffer. *)
Definition to_receive (segs : list (list byte)) d : dll OS :=
  fset socke (mkNet segs false (tx (w_socke d)) []) d.

(** Client and session are between two calls, and agree on the session. *)
Record paired (answer sess : Z) d s : Prop := {
  pr_inv : winv s;
  pr_open : ws_open s = true;
  pr_script : tx_script (ws_socket s) = [];
  pr_id : cd_session (ws_client s) = u32 (ws_session s + sess);
  pr_session : w_session_id d = cd_session (ws_client s);
  pr_connected : w_open d = true;
  pr_receiver : w_receiver d = true;
  pr_hash : w_hash d = [];
  pr_dll : dll_ok d;
  pr_slot : w_slots d !! answer = None;
}.

(** The garbage in a started answer are words. *)
Lemma started_plain r n type s :
  wf_wserver s → 0 ≤ n ≤ 9960 → word32 type → word32 (rh_message_id r) → plain_answer (WServerSpec.started r n type s).
Proof.
  intros Hwf Hn Ht Hid. destruct (frame_view s Hwf) as (_ & Hg & Hb). pose proof (wsf_session s Hwf).
  unfold wf_answer, wf_words, answer_words in Hg. rewrite !Forall_cons in Hg. destruct Hg as (_&_&_&_&_&_&?&_&_&?&_).
  split; cbn; first [done|lia|by split_and!].
Qed.

(** ** One call *)
(** The server's round on a request of the client. *)
Lemma serve_request sess r pay segs handler a s1 s :
  winv s → wf_request r → fits r → rh_message_len r = rh_header_len r + rh_body_len r + rh_data_len r →
  rx (ws_socket s) = (encode_request r ++ pay) :: segs → blen (encode_request r ++ pay) ≤ _MSG_SIZE →
  (dispatch sess r (received (encode_request r ++ pay) segs s) = report handler (received (encode_request r ++ pay) segs s)) →
  replies (handler (received (encode_request r ++ pay) segs s)) a s1 → ws_open s1 = true → tx_script (ws_socket s1) = [] →
  round sess s = (Done tt, delivered (answer_bytes a) s1).
Proof.
  intros Hi Hr Hf Hm Hrx Hl Hd Hrep Ho Hs.
  rewrite (win_round_run sess _ segs) by (done || apply Hi || (split; [|done]; rewrite blen_app, blen_encode_request;
    pose proof (blen_nonneg pay); unfold sizeof_REQUEST_HEADER; lia)).
  rewrite (handle_request_run sess r) by by apply win_received_decode.
  assert (Hv : verifyRequest r = true).
  { apply verifyRequest_spec. destruct Hf as [H1 H2 H3 H4]. unfold sizeof_REQUEST_HEADER, _MSG_SIZE in *.
    unfold wf_request, wf_words, request_words in Hr. rewrite !Forall_cons in Hr. destruct Hr as (_&?&?&?&_).
    rewrite (u32_small (_ + _)) by lia. lia. }
  rewrite Hv. cbn [negb]. rewrite Hd. by apply (report_replies handler).
Qed.

(** The client's part: it takes the answer for its own. *)
Lemma receive_answer mem answer m data c sess a d s :
  paired answer sess d s → call_message mem m data c → plain_answer a →
  ah_message_id (aheader a) = next_id d → ah_message_type (aheader a) = call_type c →
  ah_proxy_error (aheader a) = PERROR_NONE → abodysize (call_type c) ≤ ah_body_len (aheader a) + 1 →
  run_call mem answer c (to_receive [answer_bytes a] d) =
    call_answered c (received_in (answer_message (sent_header a) (body_part a) (data_part a)))
      (exchanged (let '(h, pay) := call_request m data c d in encode_request h ++ pay) (answer_bytes a) []
         (to_receive [answer_bytes a] d)).
Proof using Hplenty.
  intros Hp Hm Ha Hid Hty Hpe Hsz. destruct (plain_answer_parts a Ha) as [Hbytes Hw].
  set (dr := to_receive [answer_bytes a] d).
  assert (Hr : ready answer (answer_bytes a) [] dr).
  { destruct Hp. split; try done; [rewrite Hbytes; by eapply message_length|]. change (w_hash dr) with (w_hash d). by rewrite pr_hash0. }
  rewrite (run_call_exchange mem Hplenty answer m data c (answer_bytes a) [] (sent_header a) dr); [|done|done| |done].
  2:{ rewrite Hbytes. by apply message_decode. }
  assert (Hc : call_request m data c dr = call_request m data c d) by by destruct c.
  rewrite Hc, bool_decide_eq_true_2; [by rewrite <- Hbytes|].
  apply (accepts_message _ (body_part a) (data_part a)); [done|by destruct c|].
  split_and!; [|done|by right].
  assert (Hbl : blen (body_part a) = ah_body_len (aheader a)).
  { destruct Ha as [_ ? ? ? ? _]. unfold body_part, blen in *. rewrite length_take. lia. }
  by rewrite Hbl.
Qed.

(** ** A call through client and server *)
(** The request reaches the session; what the session sends reaches the client. *)
Definition deliver (wire : list byte) s : wserver CS WS :=
  fset socket (mkNet [wire] (rx_error (ws_socket s)) (tx (ws_socket s)) (tx_script (ws_socket s))) s.
Definition wire_of (m data : list byte) (c : capi_call) d : list byte :=
  let '(h, pay) := call_request m data c d in encode_request h ++ pay.

Definition remote_call mem answer sess m data (c : capi_call) : M (dll OS * wserver CS WS) capi_result := λ ds,
  let '(d, s) := ds in
  match round sess (deliver (wire_of m data c d) s) with
  | (Done _, s') =>
      let '(o, d') := run_call mem answer c (to_receive (drop (length (tx (ws_socket s))) (tx (ws_socket s'))) d) in
      (o, (d', s'))
  | (Faulted f, s') => (Faulted f, (d, s'))
  | (Exited n, s') => (Exited n, (d, s'))
  end.

(** The state of the session in which the request is examined. *)
Definition examined (wire : list byte) s : wserver CS WS := received wire [] (deliver wire s).

Lemma remote_call_run mem answer sess m data c handler a s1 res d' d s :
  paired answer sess d s → call_message mem m data c →
  wf_request (call_request m data c d).1 → fits (call_request m data c d).1 →
  (let r := (call_request m data c d).1 in rh_message_len r = rh_header_len r + rh_body_len r + rh_data_len r) →
  blen (wire_of m data c d) ≤ _MSG_SIZE →
  (let s0 := examined (wire_of m data c d) s in
   dispatch sess (call_request m data c d).1 s0 = report handler s0 ∧ replies (handler s0) a s1) →
  ws_open s1 = true → ws_socket s1 = ws_socket (examined (wire_of m data c d) s) → plain_answer a →
  ah_message_id (aheader a) = next_id d → ah_message_type (aheader a) = call_type c →
  ah_proxy_error (aheader a) = PERROR_NONE → abodysize (call_type c) ≤ ah_body_len (aheader a) + 1 →
  call_answered c (received_in (answer_message (sent_header a) (body_part a) (data_part a)))
    (exchanged (wire_of m data c d) (answer_bytes a) [] (to_receive [answer_bytes a] d)) = (Done res, d') →
  remote_call mem answer sess m data c (d, s) = (Done res, (d', delivered (answer_bytes a) s1)).
Proof using Hplenty.
  intros Hp Hm Hr Hf Hlen Hl [Hd Hrep] Ho Hso Ha Hid Hty Hpe Hsz Hans. unfold remote_call.
  set (wire := wire_of m data c d) in *.
  assert (Hround : round sess (deliver wire s) = (Done tt, delivered (answer_bytes a) s1)).
  { unfold wire, wire_of in *. destruct (call_request m data c d) as [h pay]. cbn [fst] in *.
    apply (serve_request sess h pay [] handler a s1); try done.
    - by destruct Hp as [[[] ?] ? ? ? ? ? ? ? ? ?].
    - rewrite Hso. apply Hp. }
  rewrite Hround.
  assert (Hdrop : drop (length (tx (ws_socket s))) (tx (ws_socket (delivered (answer_bytes a) s1))) = [answer_bytes a]).
  { unfold delivered. cbn [ws_socket fset socket tx]. rewrite Hso. apply drop_app_length. }
  rewrite Hdrop, (receive_answer mem answer m data c sess a d s) by done. fold (wire_of m data c d). fold wire.
  by rewrite Hans.
Qed.

Lemma paired_next answer sess d s m data c a s1 d' :
  paired answer sess d s → winv s1 → ws_open s1 = true → ws_socket s1 = ws_socket (examined (wire_of m data c d) s) →
  cd_session (ws_client s1) = cd_session (ws_client s) → ws_session s1 = ws_session s → dll_ok d' →
  w_hash d' = w_hash d → w_slots d' = w_slots d → w_open d' = w_open d → w_receiver d' = w_receiver d →
  w_session_id d' = w_session_id d → paired answer sess d' (delivered (answer_bytes a) s1).
Proof.
  intros [] Hi Ho Hso Hcd Hse Hok Hh Hsl Hop Hre Hid.
  split; [by destruct Hi as [[] ?]|done|done|cbn; congruence|cbn; congruence|congruence..|done|congruence].
Qed.

(** ** The library, called where the application runs *)
Inductive local_call : capi_call → CS → capi_result → CS → Prop :=
  | local_register m a b l cs rc o cs' id :
      capi32_register m a b l cs = (rc, o, cs') → (rc = 0 → o = Some id) →
      local_call (Register m a b l) cs (RId (rc, Some id)) cs'
  | local_release i cs rc cs' : capi32_release i cs = (rc, cs') → local_call (Release i) cs (RCode rc) cs'
  | local_manufacturer cs rc bs m :
      capi32_get_manufacturer cs = (rc, bs) → bs `prefix_of` m → blen m = 64 →
      local_call GetManufacturer cs (RManufacturer (Some m)) cs
  | local_version cs rc v0 v1 v2 v3 :
      capi32_get_version cs = (rc, [v0; v1; v2; v3]) →
      local_call GetVersion cs (RVersion (rc, Some (mkVersion (u32 v0) (u32 v1), mkVersion (u32 v2) (u32 v3)))) cs
  | local_serial cs rc bs m :
      capi32_get_serial_number cs = (rc, bs) → bs `prefix_of` m → blen m = 8 →
      local_call GetSerialNumber cs (RBytes (rc, Some m)) cs
  | local_profile n cs rc bs m :
      capi32_get_profile n cs = (rc, bs) → bs `prefix_of` m → blen m = 64 →
      local_call (GetProfile n) cs (RBytes (rc, Some m)) cs
  | local_installed cs : local_call Installed cs (RCode (capi32_installed cs)) cs.

(** The calls it describes, with arguments that are words. *)
Definition plain_call (c : capi_call) : Prop :=
  match c with
  | Register m a b l => word32 m ∧ word32 a ∧ word32 b ∧ word32 l
  | Release i | GetProfile i => word32 i
  | GetManufacturer | GetVersion | GetSerialNumber | Installed => True
  | _ => False
  end.
End pair.
