(* ===== verification/WindowsRemote.v ===== *)
(** * Calls of the Windows client served by the Windows server

    A call of the client through its session returns what the library at the server
    returns, and leaves client and session ready for the next. *)
From stdpp Require Import gmap.
From S2P Require Import Prelude CMem Protocol Net Win32 Capi2032 WServer WServerSpec WServerMessages WServerProxy WServerHandled WServerSession.
From S2P Require Import WClient WClientSpec WClientCalls WClientAnswers WClientInv WClientCall WClientApps WClientConnect WindowsPair.
From S2P Require ClientServer.
#[local] Open Scope Z_scope.

Abbreviation word32 := ClientServer.word32.

(** ** Answers *)
Lemma plain_with_error rc a : word32 rc → plain_answer a → plain_answer (with_capi_error rc a).
Proof. intros Hrc [Hh Hb Hd Hf Hl (?&?&?&?&?&?)]. by split. Qed.
Lemma plain_with_app_id id a : word32 id → plain_answer a → plain_answer (with_app_id id a).
Proof. intros Hid [Hh Hb Hd Hf Hl (?&?&?&?&?&?)]. by split. Qed.
Lemma plain_with_body bs a : blen bs ≤ blen (abody a) → plain_answer a → plain_answer (with_body bs a).
Proof. intros Hbs [Hh Hb Hd Hf Hl (?&?&?&?&?&?)]. by split; rewrite ?blen_with_body. Qed.

Lemma with_body_nil a : with_body [] a = a.
Proof. by destruct a. Qed.

(** The body of an answer the library wrote [bs] to. *)
Lemma body_part_filled rc bs a :
  blen bs ≤ ah_body_len (aheader a) → bs `prefix_of` body_part (with_capi_error rc (with_body bs a)).
Proof.
  intros Hbs. unfold body_part. cbn [aheader abody with_capi_error with_body].
  exists (take (Z.to_nat (ah_body_len (aheader a)) - length bs) (drop (length bs) (abody a))).
  cbn [ah_body_len]. rewrite take_app, take_ge by (unfold blen in Hbs; lia). done.
Qed.

Lemma blen_body_part a : plain_answer a → blen (body_part a) = ah_body_len (aheader a).
Proof. intros [_ Hb Hd Hf _ _]. unfold body_part, blen in *. rewrite length_take. lia. Qed.

Section remote.
Context {CS WS OS : Type} `{!Capi2032 CS, !Capi2032Laws CS, !WinServer WS, HW : !Win32 OS, HL : !Win32Laws OS}.
Context (Hplenty : plenty (OS:=OS)) (Hids : capi32_max (CS:=CS) ≤ CAPI_MAXAPPL).
Implicit Types (s : wserver CS WS) (d : dll OS).

(** What the functions of the client do with such an answer. *)
Lemma copied_body n a d :
  plain_answer a → ah_body_len (aheader a) = n →
  answer_body (received_in (answer_message (sent_header a) (body_part a) (data_part a))) 0 n d =
    (Done (body_part a), d).
Proof.
  intros Ha Hn. destruct (plain_answer_parts a Ha) as [_ Hw]. apply (answer_body_run _ _ _ _ _ _ Hw).
  rewrite <- Hn, <- blen_body_part by done. by apply (slice_at _ [] _ []); [rewrite app_nil_r|..].
Qed.

Lemma copied_result a d :
  plain_answer a → ah_proxy_error (aheader a) = PERROR_NONE →
  answer_result (received_in (answer_message (sent_header a) (body_part a) (data_part a))) d =
    (Done (ah_capi_error (aheader a)), d).
Proof.
  intros Ha Hp. destruct (plain_answer_parts a Ha) as [_ Hw].
  by apply (answer_result_run _ (sent_header a)), Hp; apply received_decode.
Qed.

(** ** Requests *)
(** Arguments are words. *)
Definition call_words (c : capi_call) : Prop :=
  match c with
  | Register m a b l => word32 m ∧ word32 a ∧ word32 b ∧ word32 l
  | Release i | GetProfile i | PutMessage i _ | GetMessage i | WaitForSignal i => word32 i
  | _ => True
  end.

Lemma plain_words mem m data c : plain_call c → call_words c ∧ call_message mem m data c.
Proof using Type. by destruct c. Qed.

Lemma call_request_wf mem answer sess m data c d s :
  paired answer sess d s → call_words c → call_message mem m data c →
  let r := (call_request m data c d).1 in
  wf_request r ∧ fits r ∧ rh_message_len r = rh_header_len r + rh_body_len r + rh_data_len r ∧
  blen (wire_of m data c d) ≤ _MSG_SIZE ∧ rh_message_type r = call_type c ∧ rh_message_id r = next_id d ∧
  rh_session_id r = u32 (ws_session s + sess).
Proof using Type.
  intros Hp Hc Hm. pose proof (ok_session d (pr_dll _ _ _ _ Hp)) as Hse. unfold word in Hse.
  assert (Hr : rh_session_id (call_request m data c d).1 = u32 (ws_session s + sess)).
  { rewrite <- (pr_id _ _ _ _ Hp), <- (pr_session _ _ _ _ Hp). by destruct c. }
  destruct c; cbn in Hc, Hm; destruct_and?; try (split_and!; [by words_ok|by split|done|done|done|done|exact Hr]).
  pose proof (blen_nonneg m). pose proof (blen_nonneg data). unfold _MSG_BUFFER in *.
  split_and!; try done.
  - words_ok; unfold word32, ClientServer.word32; lia.
  - split; cbn [call_request fst WClientCalls.put_request rh_header_len rh_body_len rh_data_len rh_message_type];
      unfold _MSG_SIZE; [done|done|lia|lia].
  - cbn. lia.
  - unfold wire_of. cbn [call_request]. rewrite blen_app, blen_encode_request, blen_cons, blen_app.
    unfold sizeof_REQUEST_HEADER, _MSG_SIZE. lia.
Qed.

(** ** One call *)
(** The handler of the request: it answers [a] and leaves [s1]. *)
Record serves sess (r : REQUEST_HEADER) handler (a : answer_buffer) s1 s : Prop := {
  sv_dispatch : dispatch sess r s = report handler s;
  sv_replies : replies (handler s) a s1;
  sv_inv : winv s1;
  sv_same : ws_open s1 = ws_open s ∧ ws_socket s1 = ws_socket s ∧ ws_session s1 = ws_session s ∧
            cd_session (ws_client s1) = cd_session (ws_client s);
  sv_plain : plain_answer a;
  sv_id : ah_message_id (aheader a) = rh_message_id r;
  sv_type : ah_message_type (aheader a) = rh_message_type r;
  sv_proxy : ah_proxy_error (aheader a) = PERROR_NONE;
  sv_body : abodysize (rh_message_type r) ≤ ah_body_len (aheader a) + 1;
}.

(** What a call changes in the client besides its own business. *)
Definition kept d d' : Prop :=
  w_hash d' = w_hash d ∧ w_slots d' = w_slots d ∧ w_open d' = w_open d ∧ w_receiver d' = w_receiver d ∧
  w_session_id d' = w_session_id d.

(** The client with the answer [a], before the call looks at it. *)
Definition answered (m data : list byte) (c : capi_call) (a : answer_buffer) d : dll OS :=
  exchanged (wire_of m data c d) (answer_bytes a) [] (to_receive [answer_bytes a] d).
Definition answer_in (a : answer_buffer) : list byte :=
  received_in (answer_message (sent_header a) (body_part a) (data_part a)).

Lemma remote_call_served mem answer sess m data c handler a s1 res d' d s :
  paired answer sess d s → call_words c → call_message mem m data c →
  serves sess (call_request m data c d).1 handler a s1 (examined (wire_of m data c d) s) →
  call_answered c (answer_in a) (answered m data c a d) = (Done res, d') → kept d d' →
  ∃ s', remote_call mem answer sess m data c (d, s) = (Done res, (d', s')) ∧ ws_capi s' = ws_capi s1 ∧
        paired answer sess d' s'.
Proof using Hplenty HL.
  intros Hp Hc Hm [Hdi Hre Hi (Ho & Hso & Hss & Hcd) Ha Hid Hty Hpe Hbo] Hans (Hh & Hsl & Hop & Hrc & Hse).
  destruct (call_request_wf mem answer sess m data c d s Hp Hc Hm) as (Hw & Hf & Hml & Hl & Ht & Hmid & _).
  rewrite Hmid in Hid. rewrite Ht in Hty, Hbo.
  assert (Hopen : ws_open s1 = true) by (rewrite Ho; apply Hp).
  exists (delivered (answer_bytes a) s1). split_and!.
  - by apply (remote_call_run Hplenty mem answer sess m data c handler a s1).
  - done.
  - eapply (paired_next answer sess d s m data c a s1); try done.
    pose proof (receive_answer Hplenty mem answer m data c sess a d s Hp Hm Ha Hid Hty Hpe Hbo) as Hr.
    fold (answer_in a) (wire_of m data c d) in Hr. unfold answered in Hans. rewrite Hans in Hr.
    assert (Hok : dll_ok (to_receive [answer_bytes a] d)) by (by destruct (pr_dll _ _ _ _ Hp)).
    destruct (keeps_run_call mem answer c _ Hok) as (_ & Hk & _). by rewrite Hr in Hk.
Qed.

(** ** The requests of the calls, served *)
Abbreviation body_at r := (rh_header_len r).
Abbreviation data_at r := (rh_header_len r + rh_body_len r).

Lemma winv_examined wire s : blen wire ≤ _MSG_SIZE → winv s → winv (examined wire s).
Proof. intros Hl Hi. apply winv_received; [done|]. by destruct Hi as [[] ?]. Qed.

(** The examined state, as far as the handlers of the queries look at it. *)
Lemma query_at_server sess r handler n type bs rc s0 :
  winv s0 → dispatch sess r s0 = report handler s0 → type = rh_message_type r → 0 ≤ n ≤ 9960 → word32 type →
  word32 (rh_message_id r) → 0 ≤ rc < 2 ^ 16 → blen bs ≤ n → abodysize type ≤ n + 1 →
  replies (handler s0) (with_capi_error rc (with_body bs (WServerSpec.started r n type s0))) (called s0) →
  serves sess r handler (with_capi_error rc (with_body bs (WServerSpec.started r n type s0))) (called s0) s0.
Proof.
  intros Hi Hd Ht Hn Hty Hid Hrc Hbs Hab Hre. pose proof (blen_frame_body s0 (winv_wf s0 Hi)).
  split; [done|done|by apply winv_called|done| |done|done|done|by rewrite <- Ht].
  apply plain_with_error; [unfold word32, ClientServer.word32; lia|]. apply plain_with_body; [cbn; lia|].
  by apply started_plain; [apply Hi|..].
Qed.

Ltac dispatched Hse := unfold dispatch; cbn [rh_message_type];
  repeat first [rewrite decide_False by done|rewrite decide_True by done]; by apply checked_session_run.

Section calls.
Context (mem : Z → Z → option (list byte)) (answer sess : Z) (m data : list byte).
Context d s (Hp : paired answer sess d s).


(** A call that does not change the library: the handler fills a body of [n] bytes. *)
Lemma query_remote c handler n bs rc (res : list byte → capi_result) :
  plain_call c →
  let r := (call_request m data c d).1 in let s0 := examined (wire_of m data c d) s in
  dispatch sess r s0 = checked_session sess r handler s0 →
  0 ≤ n ≤ 9960 → word32 (call_type c) → 0 ≤ rc < 2 ^ 16 → blen bs ≤ n → abodysize (call_type c) ≤ n + 1 →
  (wf_wserver s0 → replies (handler s0)
     (with_capi_error rc (with_body bs (WServerSpec.started r n (call_type c) s0))) (called s0)) →
  (∀ a da, plain_answer a → ah_body_len (aheader a) = n → ah_capi_error (aheader a) = rc →
     ah_proxy_error (aheader a) = PERROR_NONE → bs `prefix_of` body_part a →
     call_answered c (answer_in a) da = (Done (res (body_part a)), da)) →
  ∃ b d' s', remote_call mem answer sess m data c (d, s) = (Done (res b), (d', s')) ∧
    bs `prefix_of` b ∧ blen b = n ∧ ws_capi s' = ws_capi s ∧ paired answer sess d' s'.
Proof using Hplenty HL Hp.
  intros Hc r s0 Hdi Hn Hty Hrc Hbs Hab Hrep Hres.
  destruct (plain_words mem m data _ Hc) as [Hcw Hcm].
  destruct (call_request_wf mem answer sess m data c d s Hp Hcw Hcm) as (Hw & Hf & Hml & Hl & Ht & Hid & Hse).
  fold r in Hw, Hf, Hml, Hl, Ht, Hid, Hse.
  assert (Hi0 : winv s0) by (apply winv_examined; [done|apply Hp]).
  set (a := with_capi_error rc (with_body bs (WServerSpec.started r n (call_type c) s0))).
  assert (Hs : serves sess r handler a (called s0) s0).
  { apply query_at_server; try done; [by rewrite Hdi; apply checked_session_run| |by apply Hrep, winv_wf].
    rewrite Hid. apply ClientServer.next_id_word. }
  assert (Hpre : bs `prefix_of` body_part a) by by apply body_part_filled.
  destruct (remote_call_served mem answer sess m data c _ a _ (res (body_part a)) (answered m data c a d)
    d s Hp Hcw Hcm Hs) as (s' & Hcall & Hcs & Hp').
  { by apply Hres; [apply Hs|..]. }
  { done. }
  exists (body_part a), (answered m data c a d), s'. split_and!; try done.
  by rewrite blen_body_part by apply Hs.
Qed.

Definition as_local (c : capi_call) : Prop :=
  ∃ res d' s', remote_call mem answer sess m data c (d, s) = (Done res, (d', s')) ∧
    local_call c (ws_capi s) res (ws_capi s') ∧ paired answer sess d' s'.

Ltac copied := cbn [call_answered]; unfold answer_in; rewrite bind_assoc;
  erewrite bind_done by (by apply copied_body); rewrite ?bind_assoc; try (erewrite bind_done by (by apply copied_result)).

Lemma manufacturer_remote : as_local GetManufacturer.
Proof using Hplenty HL Hp.
  destruct (capi32_get_manufacturer (ws_capi s)) as [rc bs] eqn:E.
  pose proof (capi32_manufacturer_length (ws_capi s)) as Hbs. pose proof (capi32_manufacturer_code (ws_capi s)) as Hrc.
  rewrite E in Hbs, Hrc. cbn [fst snd] in *.
  edestruct (query_remote GetManufacturer) with (res := λ b, RManufacturer (Some b)) as (b & d' & s' & Hr & Hpre & Hl & Hc & Hp');
    [done|done|..|by exists (RManufacturer (Some b)), d', s'; rewrite Hc; eauto using local_call]; try done.
  - intros Hwf. by apply win_exec_capi_manufacturer_run.
  - intros a da ???? _. by copied.
Qed.

Lemma serial_remote : as_local GetSerialNumber.
Proof using Hplenty HL Hp.
  destruct (capi32_get_serial_number (ws_capi s)) as [rc bs] eqn:E.
  pose proof (capi32_serial_length (ws_capi s)) as Hbs. pose proof (capi32_serial_code (ws_capi s)) as Hrc.
  rewrite E in Hbs, Hrc. cbn [fst snd] in *.
  edestruct (query_remote GetSerialNumber) with (res := λ b, RBytes (rc, Some b)) as (b & d' & s' & Hr & Hpre & Hl & Hc & Hp');
    [done|done|..|by exists (RBytes (rc, Some b)), d', s'; rewrite Hc; eauto using local_call]; try done.
  - intros Hwf. by apply win_exec_capi_serial_run.
  - intros a da ?? <- ??. by copied.
Qed.

Lemma profile_remote ctrl : word32 ctrl → as_local (GetProfile ctrl).
Proof using Hplenty HL Hp.
  intros Hctrl. destruct (capi32_get_profile ctrl (ws_capi s)) as [rc bs] eqn:E.
  pose proof (capi32_profile_length ctrl (ws_capi s)) as Hbs. pose proof (capi32_profile_code ctrl (ws_capi s)) as Hrc.
  rewrite E in Hbs, Hrc. cbn [fst snd] in *.
  edestruct (query_remote (GetProfile ctrl)) with (res := λ b, RBytes (rc, Some b)) as (b & d' & s' & Hr & Hpre & Hl & Hc & Hp');
    [done|done|..|by exists (RBytes (rc, Some b)), d', s'; rewrite Hc; eauto using local_call]; try done.
  - intros Hwf. by apply win_exec_capi_profile_run.
  - intros a da ?? <- ??. by copied.
Qed.

Lemma installed_remote : as_local Installed.
Proof using Hplenty HL Hp.
  pose proof (capi32_installed_code (ws_capi s)) as Hrc.
  edestruct (query_remote Installed) with (n := 1) (bs := @nil byte) (res := λ _ : list byte, RCode (capi32_installed (ws_capi s)))
    as (b & d' & s' & Hr & Hpre & Hl & Hc & Hp');
    [done|done|..|exists (RCode (capi32_installed (ws_capi s))), d', s'; rewrite Hc; eauto using local_call]; try done.
  - intros Hwf. rewrite with_body_nil. exact (exec_capi_installed_run _ _ _ _ Hwf).
  - intros a da ?? Hc ??. cbn [call_answered]. by erewrite bind_done by (by apply copied_result); rewrite Hc.
Qed.

(** The order in which the answer has the four words is not that of the arguments. *)
Lemma version_words a v0 v1 v2 v3 (da : dll OS) :
  plain_answer a → ah_body_len (aheader a) = 16 → ah_proxy_error (aheader a) = PERROR_NONE →
  words [v2; v3; v0; v1] `prefix_of` body_part a →
  version_answered (answer_in a) da =
    (Done (ah_capi_error (aheader a), Some (mkVersion (u32 v0) (u32 v1), mkVersion (u32 v2) (u32 v3))), da).
Proof using Type.
  intros Ha Hn Hpe [rest Hpre]. destruct (plain_answer_parts a Ha) as [_ Hw].
  assert (Hword : ∀ off v i, [v2; v3; v0; v1] !! i = Some v → off = 4 * Z.of_nat i →
    answer_body32 (answer_in a) off da = (Done (u32 v), da)).
  { intros off v i Hi Ho. apply (answer_body32_run _ _ _ _ _ _ Hw). rewrite Hpre. by apply (get_u32_words _ _ i). }
  unfold version_answered.
  rewrite (bind_done _ _ _ _ _ (Hword VERSION.driver_major v0 2%nat eq_refl eq_refl)).
  rewrite (bind_done _ _ _ _ _ (Hword VERSION.driver_minor v1 3%nat eq_refl eq_refl)).
  rewrite (bind_done _ _ _ _ _ (Hword VERSION.manufacturer_major v2 0%nat eq_refl eq_refl)).
  rewrite (bind_done _ _ _ _ _ (Hword VERSION.manufacturer_minor v3 1%nat eq_refl eq_refl)).
  by erewrite bind_done by (by apply copied_result).
Qed.

Lemma version_remote : as_local GetVersion.
Proof using Hplenty HL Hp.
  destruct (capi32_get_version (ws_capi s)) as [rc vs] eqn:E.
  pose proof (capi32_version_length (ws_capi s)) as Hl. pose proof (capi32_version_code (ws_capi s)) as Hrc.
  rewrite E in Hl, Hrc. cbn [fst snd] in *.
  destruct vs as [|v0 [|v1 [|v2 [|v3 [|? ?]]]]]; try done.
  set (res := RVersion (rc, Some (mkVersion (u32 v0) (u32 v1), mkVersion (u32 v2) (u32 v3)))).
  edestruct (query_remote GetVersion) with (n := 16) (bs := words [v2; v3; v0; v1]) (res := λ _ : list byte, res)
    as (b & d' & s' & Hr & Hpre & Hb & Hc & Hp');
    [done|done|..|exists res, d', s'; rewrite Hc; eauto using local_call]; try done.
  - intros Hwf. by apply win_exec_capi_version_run.
  - intros a da ?? Hc ??. cbn [call_answered]. by erewrite bind_done by (by apply version_words); rewrite Hc.
Qed.

(** Registration: the id in the answer is entered. *)
Lemma kept_app_added rc id d0 d1 : kept d0 d1 → kept d0 (app_added rc id d1).
Proof. unfold app_added. by case_decide. Qed.
Lemma kept_app_deleted rc id d0 d1 : kept d0 d1 → kept d0 (app_deleted rc id d1).
Proof. unfold app_deleted. destruct (unlink_app id (w_apps d1)) as [[[?|] ?]|]; [by case_decide..|done]. Qed.

Lemma register_args_sent m0 a1 a2 a3 : plain_call (Register m0 a1 a2 a3) →
  register_args (ws_request (examined (wire_of m data (Register m0 a1 a2 a3) d) s)) 36 = Some (m0, a1, a2, a3).
Proof using Type.
  intros (H0 & H1 & H2 & H3). set (r := (call_request m data (Register m0 a1 a2 a3) d).1).
  set (ws := [m0; a1; a2; a3]). set (b := ws_request _). 
  assert (Hb : ∃ rest, b = encode_request r ++ words ws ++ rest) by (eexists; symmetry; apply (assoc_L (++))).
  clearbody b r. destruct Hb as [rest ->].
  assert (Hw : ∀ k i v, 0 ≤ k → ws !! i = Some v → k = 4 * Z.of_nat i → word32 v →
    get_u32 (encode_request r ++ words ws ++ rest) (36 + k) = Some v).
  { intros k i v Hk Hi He Hv. rewrite <- (u32_small v) by done.
    change 36 with sizeof_REQUEST_HEADER. rewrite <- (blen_encode_request r), get_le_app_r by done.
    by apply (get_u32_words _ _ i). }
  unfold register_args. pose proof (Hw 0 0%nat m0) as E0. rewrite Z.add_0_r in E0. rewrite E0 by done.
  rewrite (Hw 4 1%nat a1), (Hw 8 2%nat a2), (Hw 12 3%nat a3) by done. done.
Qed.

(** The handler's part. *)
Lemma register_serves m0 a1 a2 a3 rc o c' : plain_call (Register m0 a1 a2 a3) →
  capi32_register m0 a1 a2 a3 (ws_capi s) = (rc, o, c') →
  let c := Register m0 a1 a2 a3 in let r := (call_request m data c d).1 in
  let s0 := examined (wire_of m data c d) s in
  ∃ s1, serves sess r (exec_capi_register r (body_at r) (data_at r)) (register_answer r rc o s0) s1 s0 ∧ ws_capi s1 = c'.
Proof using HL Hids Hp mem.
  intros Hc E c r s0.
  destruct (plain_words mem m data _ Hc) as [Hcw Hcm].
  destruct (call_request_wf mem answer sess m data c d s Hp Hcw Hcm) as (Hw & Hf & Hml & Hl & Ht & Hid & Hse).
  assert (Hi0 : winv s0) by (apply winv_examined; [done|apply Hp]).
  pose proof (capi32_register_code m0 a1 a2 a3 (ws_capi s)) as Hrc.
  pose proof (capi32_register_word m0 a1 a2 a3 (ws_capi s)) as Hword. rewrite E in Hrc, Hword. cbn [fst snd] in Hrc, Hword.
  assert (Hok : rc = 0 → ∃ id, o = Some id ∧ 1 ≤ id ≤ CAPI_MAXAPPL ∧ capi32_owned c' = {[id]} ∪ capi32_owned (ws_capi s)).
  { intros ->. apply capi32_register_ok in E as (id & -> & ? & _ & ?). exists id. split_and!; [done|lia..|done]. }
  eexists. split; [split|].
  - rewrite dispatch_register by done. by apply checked_session_run.
  - apply (win_exec_capi_register_run r 36 (36 + 16) m0 a1 a2 a3 rc o c' s0); [apply Hi0|by apply register_args_sent|done|].
    intros H0. destruct (Hok H0) as (id & -> & ? & _). exists id. split; [done|lia].
  - destruct (Z.eqb_spec rc 0) as [H0|H0].
    + destruct (Hok H0) as (id & -> & Hr & Ho). by apply (winv_register Hids); [apply winv_called| |].
    + apply capi32_register_error in E; [|done]. destruct o; by (apply winv_capi; [apply winv_called|rewrite E]).
  - by destruct o, (rc =? 0).
  - assert (Hst : plain_answer (WServerSpec.started r 1 TYPE_CAPI_REGISTER s0)).
    { apply started_plain; [apply Hi0|done|done|apply ClientServer.next_id_word]. }
    unfold register_answer. assert (word32 rc) by (unfold word32, ClientServer.word32; lia).
    destruct o; apply plain_with_error; try done. apply plain_with_app_id; [by apply Hword|done].
  - by destruct o.
  - by destruct o.
  - by destruct o.
  - by destruct o.
  - by destruct o, (rc =? 0).
Qed.

Lemma register_remote m0 a1 a2 a3 : plain_call (Register m0 a1 a2 a3) → as_local (Register m0 a1 a2 a3).
Proof using Hplenty HL Hids Hp.
  intros Hc. set (c := Register m0 a1 a2 a3). set (s0 := examined (wire_of m data c d) s).
  destruct (capi32_register m0 a1 a2 a3 (ws_capi s)) as [[rc o] c'] eqn:E.
  destruct (plain_words mem m data c Hc) as [Hcw Hcm].
  destruct (register_serves _ _ _ _ _ _ _ Hc E) as (s1 & Hs & Hcs). cbv zeta in Hs. fold c s0 in Hs.
  set (r := (call_request m data c d).1) in *. set (a := register_answer r rc o s0) in *.
  assert (Hce : ah_capi_error (aheader a) = rc) by by destruct o.
  destruct (remote_call_served mem answer sess m data c _ a s1 (RId (rc, Some (ah_app_id (aheader a))))
    (app_added rc (ah_app_id (aheader a)) (answered m data c a d)) d s Hp Hcw Hcm Hs) as (s' & Hcall & Hcs' & Hp').
  { unfold c at 1. cbn [call_answered]. destruct (plain_answer_parts a (sv_plain _ _ _ _ _ _ Hs)) as [_ Hw].
    unfold answer_in. erewrite bind_done; [|apply (register_answered_run Hplenty _ (sent_header a));
      [by apply received_decode|by apply Hs]].
    change (ah_capi_error (sent_header a)) with (ah_capi_error (aheader a)).
    change (ah_app_id (sent_header a)) with (ah_app_id (aheader a)). by rewrite Hce. }
  { by apply kept_app_added. }
  eexists _, _, s'. split_and!; [exact Hcall| |exact Hp']. rewrite Hcs', Hcs.
  eapply local_register; [done|]. intros ->. unfold a. by apply capi32_register_ok in E as (id & -> & _).
Qed.

Lemma release_serves i rc c' : plain_call (Release i) → capi32_release i (ws_capi s) = (rc, c') →
  let c := Release i in let r := (call_request m data c d).1 in let s0 := examined (wire_of m data c d) s in
  ∃ s1, serves sess r (exec_capi_release r (body_at r) (data_at r))
          (with_capi_error rc (WServerSpec.started r 1 TYPE_CAPI_RELEASE s0)) s1 s0 ∧ ws_capi s1 = c'.
Proof using HL Hids Hp mem.
  intros Hc E c r s0.
  destruct (plain_words mem m data _ Hc) as [Hcw Hcm].
  destruct (call_request_wf mem answer sess m data c d s Hp Hcw Hcm) as (Hw & Hf & Hml & Hl & Ht & Hid & Hse).
  assert (Hi0 : winv s0) by (apply winv_examined; [done|apply Hp]).
  pose proof (capi32_release_code i (ws_capi s)) as Hrc. rewrite E in Hrc. cbn [fst] in Hrc.
  assert (Hin : rc = 0 → 0 ≤ i ≤ CAPI_MAXAPPL).
  { intros H0. apply (capi32_release_owned _ _ _ _ E), capi32_owned_ids in H0. lia. }
  eexists. split; [split|].
  - by rewrite <- (checked_session_run sess r).
  - by apply (win_exec_capi_release_run r 36 37 rc c' s0); [apply Hi0| |].
  - change (rh_app_id r) with i. destruct (Z.eqb_spec rc 0) as [->|H0].
    + apply (winv_release Hids); [by apply winv_called|auto|]. by eapply capi32_release_ok.
    + apply capi32_release_error in E; [|done]. apply winv_capi; [by apply winv_called|by rewrite E].
  - by destruct (rc =? 0).
  - apply plain_with_error; [unfold word32, ClientServer.word32; lia|].
    apply started_plain; [apply Hi0|done|done|apply ClientServer.next_id_word].
  - done.
  - done.
  - done.
  - done.
  - by destruct (rc =? 0).
Qed.

Lemma release_remote i : plain_call (Release i) → as_local (Release i).
Proof using Hplenty HL Hids Hp.
  intros Hc. set (c := Release i). set (s0 := examined (wire_of m data c d) s).
  destruct (capi32_release i (ws_capi s)) as [rc c'] eqn:E.
  destruct (plain_words mem m data c Hc) as [Hcw Hcm].
  destruct (release_serves _ _ _ Hc E) as (s1 & Hs & Hcs). cbv zeta in Hs. fold c s0 in Hs.
  set (r := (call_request m data c d).1) in *. set (a := with_capi_error rc _) in Hs.
  set (da := answered m data c a d).
  destruct (remote_call_served mem answer sess m data c _ a s1 (RCode rc) (app_deleted rc i da) d s Hp Hcw Hcm Hs)
    as (s' & Hcall & Hcs' & Hp').
  { unfold c at 1. cbn [call_answered]. destruct (plain_answer_parts a (sv_plain _ _ _ _ _ _ Hs)) as [_ Hw'].
    unfold answer_in. erewrite bind_done; [|apply (release_answered_run i _ (sent_header a));
      [by apply received_decode|done|]]; [done|].
    intros old l Hu. change (w_apps _) with (w_apps d) in Hu. destruct (owned_unlink _ _ _ _ Hu) as (l1 & l2 & e & Hl1 & _ & <- & _).
    exact (proj1 (unlinked_ok d l1 e l2 (pr_dll _ _ _ _ Hp) Hl1)). }
  { by apply kept_app_deleted. }
  eexists _, _, s'. split_and!; [exact Hcall| |exact Hp']. rewrite Hcs', Hcs. by apply local_release.
Qed.

Lemma call_remote c : plain_call c → as_local c.
Proof using Hplenty HL Hids Hp.
  intros Hc. destruct c; try done.
  - by apply register_remote.
  - by apply release_remote.
  - apply manufacturer_remote.
  - apply version_remote.
  - apply serial_remote.
  - by apply profile_remote.
  - apply installed_remote.
Qed.
End calls.

(** ** Many calls *)
(** [answer] is the variable of the function that calls, free again when it returns. *)
Fixpoint remote_calls mem answer sess (cs : list capi_call) : M (dll OS * wserver CS WS) (list capi_result) :=
  match cs with
  | [] => mret []
  | c :: cs => r ← remote_call mem answer sess [] [] c; rs ← remote_calls mem answer sess cs; mret (r :: rs)
  end.

Inductive local_calls : list capi_call → CS → list capi_result → CS → Prop :=
  | local_calls_nil k : local_calls [] k [] k
  | local_calls_cons c cs k r k1 rs k2 :
      local_call c k r k1 → local_calls cs k1 rs k2 → local_calls (c :: cs) k (r :: rs) k2.

(** ** Opening the connection *)
Definition remote_connect (sess : Z) : M (dll OS * wserver CS WS) Z := λ ds,
  let '(d, s) := ds in
  match round sess (deliver (helo_wire d) s) with
  | (Done _, s') =>
      let '(o, d') := initConnection (to_receive (drop (length (tx (ws_socket s))) (tx (ws_socket s'))) d) in
      (o, (d', s'))
  | (Faulted f, s') => (Faulted f, (d, s'))
  | (Exited n, s') => (Exited n, (d, s'))
  end.

(** The session greets the client. *)
Definition welcome d s : answer_buffer :=
  with_session_id (cd_session (ws_client s)) (helo_answer (helo_request d) s).

Lemma welcome_plain d s : wf_wserver s → plain_answer (welcome d s).
Proof using Type.
  intros Hwf. destruct (frame_view s Hwf) as (_ & Hg & Hb). pose proof (wsf_session s Hwf).
  unfold wf_answer, wf_words, answer_words in Hg. rewrite !Forall_cons in Hg. destruct Hg as (_&_&_&_&_&_&_&_&_&?&_).
  assert (Hl : blen (abody (helo_answer (helo_request d) s)) = 9960).
  { cbn [abody helo_answer]. rewrite blen_app, blen_helo_body by lia. unfold blen in *. rewrite length_drop. lia. }
  split; try done.
  - change (84 + 0 ≤ blen (abody (helo_answer (helo_request d) s))). by rewrite Hl.
  - split_and!; try done. apply ClientServer.next_id_word.
Qed.

Lemma welcome_body d s : wf_wserver s → body_part (welcome d s) = helo_body (ws_AUTH_TYPES s) (frame_body s).
Proof using Type.
  intros (_ & _ & Hb)%frame_view. unfold body_part.
  change (Z.to_nat (ah_body_len (aheader (welcome d s)))) with 84%nat. cbn [abody welcome with_session_id helo_answer].
  apply take_app_length'. pose proof (blen_helo_body (ws_AUTH_TYPES s) (frame_body s)) as Hl. unfold blen in *. lia.
Qed.

Lemma serve_hello sess d s :
  winv s → ws_open s = true → tx_script (ws_socket s) = [] → blen (w_myname d) = 256 →
  let s0 := examined (helo_wire d) s in
  ∃ s1, round sess (deliver (helo_wire d) s) = (Done tt, delivered (answer_bytes (welcome d s0)) s1) ∧
    winv s1 ∧ ws_open s1 = true ∧ ws_socket s1 = ws_socket s0 ∧ ws_session s1 = ws_session s ∧
    cd_session (ws_client s1) = cd_session (ws_client s) ∧ cd_auth_type (ws_client s1) = cd_auth_type (ws_client s) ∧
    ws_capi s1 = ws_capi s.
Proof using Type.
  intros Hi Ho Hsc Hname s0. pose proof (blen_helo_wire d Hname) as Hl.
  assert (Hi0 : winv s0) by by apply winv_examined; [rewrite Hl|].
  set (rest := drop (length (helo_wire d)) (ws_request s)).
  assert (Hrq : ws_request s0 = encode_request (helo_request d) ++ take 64 (w_myname d) ++
    words [OS_TYPE_WINDOWS; VERSION_MAJOR; VERSION_MINOR] ++ rest).
  { change (ws_request s0) with (helo_wire d ++ rest). unfold helo_wire, helo_payload. by rewrite <- !(assoc_L (++)). }
  assert (Hn64 : blen (take 64 (w_myname d)) = 64) by (unfold blen in *; rewrite length_take; lia).
  assert (Hword : ∀ i v, [OS_TYPE_WINDOWS; VERSION_MAJOR; VERSION_MINOR] !! i = Some v → word32 v →
    get_u32 (ws_request s0) (36 + (64 + 4 * Z.of_nat i)) = Some v).
  { intros i v Hv Hw. rewrite Hrq, <- (u32_small v) by done. change 36 with sizeof_REQUEST_HEADER.
    rewrite <- (blen_encode_request (helo_request d)), get_le_app_r by lia.
    rewrite <- Hn64, get_le_app_r by lia. by apply (get_u32_words _ _ i). }
  set (v := mkVersion VERSION_MAJOR VERSION_MINOR).
  exists (WServerProxy.greeted (take 64 (w_myname d)) v (Some OS_TYPE_WINDOWS) (called s0)). split; [|by destruct Hi0 as [[] ?]; split_and!].
  apply (serve_request sess (helo_request d) (helo_payload d) []
    (exec_proxy_helo (helo_request d) 36 112) (welcome d s0)); try done.
  - by destruct Hi as [[] ?].
  - apply ClientServer.request_wf; try done. apply ClientServer.next_id_word.
  - fold (helo_wire d). by rewrite Hl.
  - apply (win_exec_proxy_helo_run (helo_request d) 36 112 (take 64 (w_myname d)) v OS_TYPE_WINDOWS s0);
      [apply Hi0| |by apply (Hword 1%nat)|by apply (Hword 2%nat)|by apply (Hword 0%nat)].
    rewrite Hrq. by eapply (slice_at _ (encode_request _)).
Qed.

(** The client takes the session's number from it. *)
Lemma hello_accepted d s o1 o2 :
  wf_wserver s → blen (w_myname d) = 256 →
  win_socket (w_os d) = (true, o1) → win_connect (w_toaddr d) (u16 (w_port d)) o1 = (true, o2) →
  ∃ d', initConnection (to_receive [answer_bytes (welcome d s)] d) = (Done 0, d') ∧
    w_open d' = true ∧ w_status d' = 1 ∧ w_session_id d' = cd_session (ws_client s) ∧
    tx (w_socke d') = tx (w_socke d) ++ [helo_wire d] ∧
    w_hash d' = w_hash d ∧ w_slots d' = w_slots d ∧ w_receiver d' = w_receiver d.
Proof using Hplenty.
  intros Hwf Hname Hso Hco. pose proof (welcome_plain d s Hwf) as Hpl. pose proof (welcome_body d s Hwf) as Hbd.
  set (a := welcome d s) in *. destruct (plain_answer_parts a Hpl) as [Hbytes Hw].
  assert (Hhb : blen (body_part a) = 84) by (by rewrite blen_body_part).
  set (ah := sent_header a) in *. set (m1 := answer_bytes a). set (dr := to_receive [m1] d).
  assert (Hm1 : blen m1 = 124).
  { unfold m1. rewrite Hbytes, blen_answer_message, Hhb. done. }
  assert (Hdec : decode_answer m1 = Some ah) by (unfold m1; rewrite Hbytes; by apply message_decode).
  rewrite (initConnection_greeted Hplenty o1 o2 m1 [] ah dr);
    [|done..|rewrite Hm1; done|done].
  assert (Hcode : helo_code ah (blen m1) = 0) by (rewrite Hm1; done).
  rewrite decide_False by (rewrite Hcode; by intros Hx).
  destruct (get_le_is_Some 4 (body_part a) HELO.timeout) as [t Ht]; [done|by rewrite Hhb|].
  destruct (get_le_is_Some 4 (body_part a) HELO.auth_type) as [types Hty]; [done|by rewrite Hhb|].
  set (dg := greeted o2 m1 [] dr).
  rewrite (helo_accepted_run ah (body_part a)
    (data_part a ++ drop (length m1) (helo_wire dr ++ zeros (_MSG_BUFFER - 112))) t types);
    [|..|exact Ht|exact Hty].
  2:{ unfold dg, greeted, m1. rewrite Hbytes. unfold answer_message. cbn [w_msg fset msg]. by rewrite <- !(assoc_L (++)). }
  2-3: apply Hw.
  rewrite bool_decide_eq_false_2 by done. cbn [when].
  eexists. split; [reflexivity|]. by split_and!.
Qed.

(** ** Messages *)
Section messages.
Context (mem : Z → Z → option (list byte)) (answer sess : Z) (m data : list byte).
Context d s (Hp : paired answer sess d s).

(** The message as the library at the server sees it. *)
Definition message_there (address : Z) (m' : list byte) : Prop :=
  if decide (is_data_b3_req m) then put_le 4 m 12 (address + 37 + blen m) = Some m' else m' = m.

Lemma field_inside pre w k v post : 0 ≤ k → get_le w m k = Some v → get_le w (pre ++ m ++ post) (blen pre + k) = Some v.
Proof using Type. intros Hk Hv. rewrite get_le_app_r by done. by apply get_le_app_l. Qed.

Lemma put_check_message appl p post address :
  let r := WClientCalls.put_request appl m data d in
  let pre := encode_request r ++ [x00] in
  app_message mem p m data → 8 ≤ blen m → (is_data_b3_req m → 18 ≤ blen m) →
  ∃ m', message_there address m' ∧ blen m' = blen m ∧
    put_check r address (pre ++ m ++ data ++ post) 37 (Some (pre ++ m' ++ data ++ post)).
Proof using Type.
  intros r pre Hm H8 H18. pose proof (blen_nonneg data). pose proof (am_length _ _ _ _ Hm) as Hlen.
  assert (Hpre : blen pre = 37) by done.
  assert (Hf : ∀ w k v, 0 ≤ k → get_le w m k = Some v → get_le w (pre ++ m ++ data ++ post) (37 + k) = Some v).
  { intros w k v. rewrite <- Hpre. apply field_inside. }
  assert (Hdl : rh_data_len r = blen m + blen data) by done.
  pose proof (Hf 2%nat 0 _ ltac:(done) Hlen) as Hl. rewrite Z.add_0_r in Hl.
  destruct (get_le_is_Some 1 m 4) as [cmd1 H4]; [lia..|]. destruct (get_le_is_Some 1 m 5) as [cmd2 H5]; [lia..|].
  pose proof (Hf 1%nat 4 _ ltac:(done) H4) as Hc1. pose proof (Hf 1%nat 5 _ ltac:(done) H5) as Hc2.
  pose proof (am_data _ _ _ _ Hm) as Hd. unfold message_there. case_decide as Hb3.
  - destruct Hb3 as [E4 E5]. rewrite E4 in H4. rewrite E5 in H5. injection H4 as <-. injection H5 as <-.
    specialize (H18 ltac:(by split)). destruct Hd as (H16 & _).
    destruct (put_le 4 m 12 (address + 37 + blen m)) as [m'|] eqn:E.
    2:{ unfold put_le in E. rewrite splice_Some in E; [done|lia|]. unfold blen at 1. rewrite length_le_split. lia. }
    exists m'. split_and!; [done|apply splice_length in E; unfold blen; by rewrite E|].
    eapply put_b3; [lia|exact Hl|lia|exact Hc1|exact Hc2|lia|by apply (Hf 2%nat 16)|lia|].
    unfold put_le in *. rewrite <- Hpre, splice_app_r by lia. by rewrite (splice_app_l _ _ _ _ _ E).
  - exists m. split_and!; [done..|]. eapply put_plain; [lia|exact Hl|lia|exact Hc1|exact Hc2|].
    intros [-> ->]. by apply Hb3.
Qed.

(** The server's part in a PUT_MESSAGE. *)
Lemma put_serves appl p :
  word32 appl → app_message mem p m data → 37 + blen m + blen data ≤ _MSG_BUFFER →
  8 ≤ blen m → (is_data_b3_req m → 18 ≤ blen m) →
  let c := PutMessage appl p in let r := (call_request m data c d).1 in
  let s0 := examined (wire_of m data c d) s in
  ∃ m' buf rc c' s1, message_there (ws_request_address s) m' ∧ blen m' = blen m ∧
    slice buf 37 (blen m + blen data) = Some (m' ++ data) ∧
    capi32_put_message appl (ws_request_address s) buf 37 (ws_capi s) = (rc, c') ∧ ws_capi s1 = c' ∧
    serves sess r (exec_capi_putmessage r (body_at r) (data_at r))
      (with_capi_error rc (WServerSpec.started r 1 TYPE_CAPI_PUTMESSAGE s0)) s1 s0.
Proof using Capi2032Laws0 Hp mem.
  intros Hw Hm Hfit H8 H18 c r s0.
  destruct (call_request_wf mem answer sess m data c d s Hp Hw (conj Hm Hfit)) as (_ & Hf & Hml & Hl & Ht & Hid & Hse).
  fold r in Hse. assert (Hi0 : winv s0) by (apply winv_examined; [done|apply Hp]).
  set (post := drop (length (wire_of m data c d)) (ws_request s)).
  assert (Hrq : ws_request s0 = (encode_request r ++ [x00]) ++ m ++ data ++ post).
  { change (ws_request s0) with ((encode_request r ++ [x00] ++ m ++ data) ++ post). by rewrite <- !(assoc_L (++)). }
  destruct (put_check_message appl p post (ws_request_address s) Hm H8 H18) as (m' & Hm' & Hlm & Hc).
  change (WClientCalls.put_request appl m data d) with r in Hc. rewrite <- Hrq in Hc.
  set (buf := (encode_request r ++ [x00]) ++ m' ++ data ++ post) in *.
  assert (Hbl : blen buf = _MSG_SIZE).
  { rewrite <- (wsf_request s0 (winv_wf s0 Hi0)), Hrq. unfold buf. rewrite !blen_app. lia. }
  pose proof (win_exec_capi_putmessage_run r 36 37 (Some buf) s0 (winv_wf s0 Hi0) Hc) as Hr. unfold put_replies in Hr.
  change (rh_app_id r) with appl in Hr. change (ws_request_address s0) with (ws_request_address s) in Hr.
  change (ws_capi s0) with (ws_capi s) in Hr.
  pose proof (capi32_put_message_code appl (ws_request_address s) buf 37 (ws_capi s)) as Hrc.
  destruct (capi32_put_message appl (ws_request_address s) buf 37 (ws_capi s)) as [rc c'] eqn:E. cbn [fst] in Hrc.
  exists m', buf, rc, c', (fset capi c' (fset request buf (called s0))). split_and!; try done.
  - unfold buf. eapply (slice_at _ (encode_request r ++ [x00]) (m' ++ data) post); [by rewrite <- (assoc_L (++) m')|done|].
    by rewrite blen_app, Hlm.
  - split; try done.
    + by rewrite dispatch_put by done; apply checked_session_run.
    + apply winv_capi; [|by apply capi32_put_message_owned in E as ->].
      destruct Hi0 as [[] ?]. split; [split; try done|done].
    + apply plain_with_error; [unfold word32, ClientServer.word32; lia|].
      apply started_plain; [apply Hi0|done|done|apply ClientServer.next_id_word].
Qed.

(** A message of the library at [p], with the data of a DATA_B3_IND. *)
Record dll_message (c : CS) (p : Z) : Prop := {
  lm_first : capi32_memory c p 2 = slice m 0 2;
  lm_length : get_u16 m 0 = Some (blen m);
  lm_memory : capi32_memory c p (blen m) = Some m;
  lm_header : 8 ≤ blen m;
  lm_data : if decide (is_data_b3_ind m)
            then 18 ≤ blen m ∧ get_u16 m 16 = Some (blen data) ∧
                 ∃ q, get_u32 m 12 = Some q ∧ capi32_memory c q (blen data) = Some data
            else data = [];
}.

(** The message when it lies at [a] in the client. *)
Definition message_here (a : Z) (m' : list byte) : Prop :=
  if decide (is_data_b3_ind m) then put_le 4 m 12 (u32 (a + blen m)) = Some m' else m' = m.

Lemma dll_message_copied c p fb :
  dll_message c p → 1 + blen m + blen data ≤ blen fb →
  ∃ b, get_copy c p fb (blen m + blen data) PERROR_NONE b ∧ blen b = blen fb ∧
    take (Z.to_nat (blen m + blen data)) (drop 1 b) = m ++ data.
Proof using Type.
  intros [H2 Hlen Hm H8 Hd] Hfit. pose proof (blen_nonneg m). pose proof (blen_nonneg data).
  assert (Hb : ∃ b, get_copy c p fb (blen m + blen data) PERROR_NONE b ∧
    take (Z.to_nat (1 + (blen m + blen data))) b = take 1 fb ++ m ++ data).
  { case_decide as Hb3.
    - destruct Hb3 as [H4 H5]. destruct Hd as (H18 & H16 & q & H12 & Hq). by eapply get_copy_data.
    - subst data. change (blen []) with 0 in *. rewrite app_nil_r, Z.add_0_r in *.
      destruct (get_le_is_Some 1 m 4) as [cmd1 H4]; [lia..|]. destruct (get_le_is_Some 1 m 5) as [cmd2 H5]; [lia..|].
      pose proof Hlen as Hl. unfold get_le in Hl. destruct (slice m 0 (Z.of_nat 2)) as [l|] eqn:E; [|done]. injection Hl as Hl.
      assert (Hp1 : blen (take 1 fb) = 1) by (unfold blen in *; rewrite length_take; lia).
      assert (Hs : splice fb 1 m = Some ((take 1 fb ++ m) ++ drop (length m) (drop 1 fb))).
      { rewrite <- (take_drop 1 fb) at 1. apply splice_append; [by rewrite Hp1|]. rewrite length_drop. unfold blen in *. lia. }
      assert (Hget : ∀ k v, get_u8 m k = Some v → 0 ≤ k →
        get_u8 ((take 1 fb ++ m) ++ drop (length m) (drop 1 fb)) (1 + k) = Some v).
      { intros k v Hv Hk. rewrite <- (assoc_L (++)), <- Hp1. by apply field_inside. }
      eexists. split.
      + eapply get_plain; [rewrite H2; exact E|by rewrite Hl|exact Hs|by apply (Hget 4)|by apply (Hget 5)|].
        intros [-> ->]. by apply Hb3.
      + apply take_app_length'. unfold blen in *. rewrite !length_app. lia. }
  destruct Hb as (b & Hc & Ht). exists b. split; [done|]. split; [by eapply get_copy_bounds|].
  assert (Hp1 : length (take 1 fb) = 1%nat) by (unfold blen in *; rewrite length_take; lia).
  apply (f_equal (drop 1)) in Ht. rewrite (drop_app_length' _ _ 1) in Ht by done. rewrite <- Ht, firstn_skipn_comm. do 2 f_equal.
  lia.
Qed.

(** The server's part in a GET_MESSAGE. *)
Lemma get_serves appl p c' :
  word32 appl → capi32_get_message appl (ws_capi s) = (0, Some p, c') → dll_message c' p →
  1 + blen m + blen data ≤ 9960 →
  let c := GetMessage appl in let r := (call_request [] [] c d).1 in let s0 := examined (wire_of [] [] c d) s in
  ∃ a, serves sess r (exec_capi_getmessage r (body_at r) (data_at r)) a (fset capi c' (called s0)) s0 ∧
    ah_capi_error (aheader a) = 0 ∧ data_part a = m ++ data.
Proof using Capi2032Laws0 Hp mem.
  intros Hw Hg Hm Hfit c r s0. pose proof (blen_nonneg m). pose proof (blen_nonneg data).
  destruct (call_request_wf mem answer sess [] [] c d s Hp Hw I) as (_ & Hf & Hml & Hl & Ht & Hid & Hse).
  fold r in Hse. assert (Hi0 : winv s0) by (apply winv_examined; [done|apply Hp]).
  pose proof (blen_frame_body s0 (winv_wf s0 Hi0)) as Hfb.
  destruct (dll_message_copied c' p (frame_body s0) Hm) as (b & Hb & Hbl & Hd); [lia|].
  exists (get_answer r 0 (blen m + blen data) PERROR_NONE b s0). split; [split; try done|split; [done|exact Hd]].
  - by rewrite dispatch_get by done; apply checked_session_run.
  - by eapply exec_capi_getmessage_run; [apply Hi0| |].
  - apply winv_capi; [by apply winv_called|]. by apply capi32_get_message_owned in Hg as ->.
  - destruct (started_plain r 1 TYPE_CAPI_GETMESSAGE s0) as [? ? ? ? ? (?&?&?&?&?&?)];
      [apply Hi0|done|done|apply ClientServer.next_id_word|].
    split; try done; cbn; [lia|lia|by rewrite Hbl].
Qed.

(** What the client makes of the message. *)
Lemma message_taken appl a o' m' old ah body (da : dll OS) :
  wf_message ah body (m ++ data) → ah_proxy_error ah = PERROR_NONE → 8 ≤ blen (m ++ data) →
  GlobalAlloc (blen (m ++ data)) (w_os da) = (Some a, o') → message_for a (m ++ data) = Some m' →
  find_app appl (w_apps da) = Some old → live old da → w_blocks da !! a = None →
  ∃ d', getmessage_answered appl (received_in (answer_message ah body (m ++ data))) da = (Done (ah_capi_error ah, Some a), d') ∧
    kept da d' ∧ find_app appl (w_apps d') = Some (Some a) ∧ w_blocks d' !! a = Some m' ∧
    (∀ o, old = Some o → w_blocks d' !! o = None).
Proof using Type.
  intros Hw Hpe H8 Ha Hm' Hf Hlive Hnew.
  destruct (getmessage_stored appl ah body (m ++ data) a o' m' da) as (d' & Hd' & Hrest); try done.
  { intros old' Ho. congruence. }
  rewrite Hf in Hrest. exists d'. split; [done|]. split; [|done].
  rewrite (getmessage_run appl ah body (m ++ data) a o') in Hd' by done. rewrite Hm' in Hd'.
  set (d1 := block_set a m' (fset system o' da)) in Hd'.
  rewrite (bind_done _ _ d1 tt (data_set appl a old d1)) in Hd'.
  - injection Hd' as <-. by destruct old.
  - apply setdata_app_run; [done|]. destruct old as [o|]; [|done]. destruct Hlive as [bs Ho].
    change (is_Some (<[a := m']> (w_blocks da) !! o)). rewrite lookup_insert_ne by congruence. eauto.
Qed.

Lemma message_for_here c p a m' : dll_message c p → message_here a m' → message_for a (m ++ data) = Some (m' ++ data).
Proof using Type.
  intros [H2 Hlen Hm H8 Hd] Hh. unfold message_here in Hh. case_decide as Hb3.
  - destruct Hd as (H18 & _). by apply message_for_data.
  - subst m'. subst data. rewrite app_nil_r. unfold message_for. rewrite Hlen. cbn [mbind option_bind].
    by rewrite decide_False, decide_False by (done || lia).
Qed.
End messages.
End remote.
