(* ===== verification/DemoCapi2032.v ===== *)
(** * A small capi2032.dll, and Windows at the server

    Instances of [Capi2032] and [WinServer] on which the theorems about the Windows
    server are evaluated: ids are given out from 1 upwards, messages put are kept;
    one message with data may be waiting, at a fixed address. *)
From stdpp Require Import gmap.
From S2P Require Import Prelude CMem Protocol Net Demo Win32 WClientSpec Capi2032 WServer WServerSpec WServerHandled DemoWindows.
#[local] Open Scope Z_scope.

Record library := mkLibrary {
  lib_ids : list Z;               (**r registered *)
  lib_put : list (Z * list byte); (**r messages received, with their data *)
  lib_waiting : bool;             (**r is there a message *)
}.

Definition lib_message : list byte := data_b3 0x82 (demo_base + 22).
Definition lib_memory (a n : Z) : option (list byte) := slice (lib_message ++ data_bytes) (a - demo_base) n.

Definition lib_free (ids : list Z) : option Z := head (filter (λ i, i ∉ ids) (seqZ 1 128)).
Definition lib_register (m a b l : Z) (c : library) : Z * option Z * library :=
  match lib_free (lib_ids c) with
  | Some id => (0, Some id, mkLibrary (id :: lib_ids c) (lib_put c) (lib_waiting c))
  | None => (0x1001, None, c)
  end.
Definition lib_release (id : Z) (c : library) : Z * library :=
  if decide (1 ≤ id ≤ 128 ∧ id ∈ lib_ids c)
  then (0, mkLibrary (filter (λ i, i ≠ id) (lib_ids c)) (lib_put c) (lib_waiting c))
  else (0x1101, c).
Definition lib_put_message (id base : Z) (mem : list byte) (off : Z) (c : library) : Z * library :=
  if decide (id ∈ lib_ids c) then
    match demo_read base mem off with
    | Some bs => (0, mkLibrary (lib_ids c) (lib_put c ++ [(id, bs)]) (lib_waiting c))
    | None => (0x1102, c)
    end
  else (0x1101, c).
Definition lib_get_message (id : Z) (c : library) : Z * option Z * library :=
  if lib_waiting c then (0, Some demo_base, mkLibrary (lib_ids c) (lib_put c) false) else (0x1104, None, c).

#[global, refine] Instance demo_capi2032 : Capi2032 library := {|
  capi32_register := lib_register;
  capi32_release := lib_release;
  capi32_put_message := lib_put_message;
  capi32_get_message := lib_get_message;
  capi32_wait_for_signal := λ id c, (0, c);
  capi32_get_manufacturer := λ c, (0, bytes_of_string "demo" ++ [x00]);
  capi32_get_version := λ c, (0, [2; 0; 3; 11]);
  capi32_get_serial_number := λ c, (0, bytes_of_string "1234567" ++ [x00]);
  capi32_get_profile := λ n c, (0, words [1; 2]);
  capi32_installed := λ c, 0;
  capi32_memory := λ c, lib_memory;
|}.
Proof. intros c a n bs. apply slice_length. Defined.

(** The ids in the range of the library. *)
Definition lib_owned (c : library) : gset Z := list_to_set (filter (λ i, 1 ≤ i ≤ 128) (lib_ids c)).
Lemma lib_owned_elem c i : i ∈ lib_owned c ↔ 1 ≤ i ≤ 128 ∧ i ∈ lib_ids c.
Proof. unfold lib_owned. by rewrite elem_of_list_to_set, list_elem_of_filter. Qed.

Lemma lib_free_elem ids id : lib_free ids = Some id → 1 ≤ id ≤ 128 ∧ id ∉ ids.
Proof.
  intros H%head_Some_elem_of. apply list_elem_of_filter in H as [? H%elem_of_seqZ]. split; [lia|done].
Qed.

#[global, refine] Instance demo_capi2032_laws : Capi2032Laws library := {|
  capi32_owned := lib_owned;
  capi32_max := 128;
|}.
Proof.
  - intros m a b l c o c'. cbn. unfold lib_register. destruct (lib_free (lib_ids c)) as [id|] eqn:E; [|done].
    intros [= <- <-]. apply lib_free_elem in E as [Hid Hn]. exists id. split_and!; [done|lia|lia| |].
    + rewrite lib_owned_elem. tauto.
    + apply set_eq. intros i. rewrite elem_of_union, elem_of_singleton, !lib_owned_elem. cbn. rewrite elem_of_cons.
      split; [tauto|]. intros [->|]; [tauto|tauto].
  - intros m a b l c rc o c'. cbn. unfold lib_register. by destruct (lib_free (lib_ids c)); intros [= <- <- <-].
  - intros c id. rewrite lib_owned_elem. lia.
  - intros id c rc c'. cbn. unfold lib_release. rewrite lib_owned_elem. by case_decide; intros [= <- <-].
  - intros id c c'. cbn. unfold lib_release. case_decide; [|done]. intros [= <-]. apply set_eq. intros i.
    rewrite elem_of_difference, elem_of_singleton, !lib_owned_elem. cbn. rewrite list_elem_of_filter. tauto.
  - intros id c rc c'. cbn. unfold lib_release. by case_decide; intros [= <- <-].
  - intros id base mem off c rc c'. cbn. unfold lib_put_message. case_decide; [|by intros [= <- <-]].
    by destruct (demo_read base mem off); intros [= <- <-].
  - intros id c rc p c'. cbn. unfold lib_get_message. by destruct (lib_waiting c); intros [= <- <- <-].
  - by intros id c rc c' [= <- <-].
  - done.
  - done.
  - done.
  - done.
  - intros m a b l c id. cbn. unfold lib_register. destruct (lib_free (lib_ids c)) as [i|] eqn:E; [|done].
    intros [= <-]. apply lib_free_elem in E as [Hi _]. cbn. lia.
  - intros m a b l c. cbn. unfold lib_register. by destruct (lib_free (lib_ids c)).
  - intros id c. cbn. unfold lib_release. by case_decide.
  - intros id base mem off c. cbn. unfold lib_put_message. case_decide; [|done]. by destruct (demo_read base mem off).
  - intros id c. cbn. unfold lib_get_message. by destruct (lib_waiting c).
  - done.
  - done.
  - done.
  - done.
  - done.
  - done.
Defined.

(** User guest has the password secret; every other value is not there. *)
Definition server_value (k : string) (v : list byte) (len : Z) (o : windows) : option (list byte) :=
  if decide (v = bytes_of_string "guest") then
    let bs := bytes_of_string "secret" ++ [x00] in if decide (blen bs ≤ len) then Some bs else None
  else None.
#[global] Instance demo_win_server : WinServer windows := {|
  ws_win32 := demo_windows;
  RegValue := server_value;
  RegCount := λ k o, 0%nat;
  RegEnumValue := λ k i len len2 o, inr (len, len2);
  getsockname := λ o, Some 0x0100000A;
|}.
#[global] Instance demo_win_server_laws : WinServerLaws windows.
Proof.
  constructor.
  - intros k v len o bs. cbn. unfold server_value. do 2 (case_decide; [|done]). by intros [= <-].
  - done.
  - done.
Defined.

Lemma lib_fits : library_fits (CS:=library).
Proof.
  intros app c c' p. cbn. unfold lib_get_message. destruct (lib_waiting c); [|done]. intros [= <- <-].
  exists demo_base, lib_message. split_and!; [done|by vm_compute|by vm_compute|by vm_compute|eval_le|eval_lt|].
  intros _ _ _. exists data_bytes, (demo_base + 22). by split_and!; vm_compute.
Qed.

(** ** The session: table of sessions empty, number 3 *)
Definition ws_zeros : list byte := zeros _MSG_SIZE.
Definition demo_client (apps : list byte) : client_data :=
  mkClient AUTH_NO_AUTH None (zeros 64) (mkVersion 1 3) 0 3 0 apps.
Definition demo_server (segs : list (list byte)) (ids : list Z) (waiting : bool) : wserver library windows :=
  mkWServer [] (mkLibrary ids [] waiting) AUTH_NO_AUTH 0 0 (replicate 127 None) [] (mkNet segs false [] []) true
    ws_zeros 0x500000 (demo_client (zeros 129)) (λ _, ws_zeros) 0 [] [].

Lemma demo_server_inv segs ids waiting : winv (demo_server segs ids waiting).
Proof.
  split; [by split|]. assert (Hr : registered (zeros 129) = ∅) by by vm_compute.
  change (fget registered_apps _) with (zeros 129). rewrite Hr. apply empty_subseteq.
Qed.
