(* ===== verification/WServerWitness.v ===== *)
(** * The Windows server's theorems on concrete requests *)
From stdpp Require Import gmap.
From S2P Require Import Prelude CMem Protocol Net Demo Win32 WClientSpec Capi2032 WServer WServerSpec WServerMessages WServerProxy WServerSafe WServerHandled WServerSession WServerProperties DemoWindows DemoCapi2032.
From S2P Require Daemon DaemonSpec DaemonWitness.
#[local] Open Scope Z_scope.

Ltac eval_dec := apply (bool_decide_unpack _); vm_compute; exact I.

(** A request of 37 bytes in session 3. *)
Definition short_request (type app : Z) : REQUEST_HEADER := mkRequest 37 36 1 0 11 type app 0 3.
Lemma short_request_wf type app : 0 ≤ type < 2 ^ 32 → 0 ≤ app < 2 ^ 32 → wf_request (short_request type app).
Proof. intros. by repeat (apply Forall_cons; split; [try done|]); apply Forall_nil. Qed.

Lemma windows_verified_request_witness :
  let r := short_request TYPE_CAPI_RELEASE 2 in verifyRequest r = true ∧ fits r.
Proof.
  intros r. assert (Hr : wf_request r) by (by apply short_request_wf).
  destruct (windows_verified_request (CS:=library) (OS:=windows) r Hr) as [Hv _].
  assert (Hf : verifyRequest r = true) by eval_eq.
  split; [exact Hf|]. apply Hv. split; [exact Hf|reflexivity].
Defined.

Lemma windows_request_answered_witness :
  ∃ s', round 3 (demo_server [encode_request (short_request TYPE_CAPI_RELEASE 2) ++ [x00]] [2] false) = (Done tt, s') ∧
    winv s'.
Proof.
  destruct (windows_request_answered 3 (short_request TYPE_CAPI_RELEASE 2) [x00] []
    (demo_server [encode_request (short_request TYPE_CAPI_RELEASE 2) ++ [x00]] [2] false)) as (s' & Hs & Hi & _).
  - eval_le.
  - apply lib_fits.
  - intros n o. reflexivity.
  - apply demo_server_inv.
  - intros _. reflexivity.
  - by apply short_request_wf.
  - eval_lt.
  - reflexivity.
  - eval_le.
  - exists s'. split; [exact Hs|exact Hi].
Defined.

Lemma windows_coalesced_witness :
  let m := encode_request (short_request TYPE_CAPI_INSTALLED 0) ++ [x00] in
  ∃ s1, round 3 (demo_server [m ++ m] [] false) = dispatch 3 (short_request TYPE_CAPI_INSTALLED 0) s1 ∧
    rx (ws_socket s1) = [].
Proof.
  intros m.
  destruct (windows_coalesced 3 (short_request TYPE_CAPI_INSTALLED 0) [x00] m [] (demo_server [m ++ m] [] false))
    as (s1 & Hs & Hrx & _).
  - apply winv_wf, demo_server_inv.
  - by apply short_request_wf.
  - eval_eq.
  - reflexivity.
  - eval_le.
  - exists s1. split; [exact Hs|exact Hrx].
Defined.

(** The Linux client's question whether CAPI is there. *)
Definition linux_daemon : Daemon.daemon := DaemonWitness.demo_daemon [] [] [].
Definition linux_request : REQUEST_HEADER := DaemonSpec.next_request 0 0 TYPE_CAPI_INSTALLED 0 0 3 linux_daemon.

Lemma linux_client_ignored_witness :
  ∃ s', round 3 (demo_server [encode_request linux_request] [] false) = (Done tt, s') ∧ tx (ws_socket s') = [].
Proof.
  destruct (linux_client_ignored 3 TYPE_CAPI_INSTALLED 0 0 0 3 linux_daemon [] []
    (demo_server [encode_request linux_request] [] false)) as (s' & Hs & _ & Htx & _).
  - split; eval_le.
  - eval_dec.
  - apply winv_wf, demo_server_inv.
  - reflexivity.
  - eval_le.
  - exists s'. split; [exact Hs|exact Htx].
Defined.

(** With application 1 registered, which the thread releases. *)
Lemma session_never_ends_witness :
  ∃ s', StartSession 5 3 (demo_server [] [1] false) = (Faulted Diverged, s') ∧
    ws_sockets s' = ws_sockets (demo_server [] [1] false) ∧ ws_open s' = true.
Proof.
  pose proof (session_never_ends 3 (demo_server [] [1] false) ltac:(intros n; reflexivity) ltac:(reflexivity)) as H.
  destruct (session_loop (S (pending (demo_server [] [1] false))) 3 1 (client_ready 3 (demo_server [] [1] false))) as [o s1] eqn:E.
  assert (o = Done 0) as ->.
  { change o with (o, s1).1. rewrite <- E. vm_compute. reflexivity. }
  destruct H as (_ & _ & H). destruct (H 0 eq_refl) as (Hrun & Hso & Hop).
  exists (ending 0 s1). split; [exact (Hrun 4%nat)|]. split; [exact Hso|exact Hop].
Defined.

Lemma sessions_table_witness :
  ∃ i s', allocSession sockets 77 (demo_server [] [] false) = (Done i, s') ∧ freeSession sockets i s' = (Done tt, demo_server [] [] false).
Proof.
  destruct (sessions_table 77 (demo_server [] [] false)) as [(i & s' & Hs & _ & _ & _ & _ & Hf)|[H _]].
  - reflexivity.
  - exists i, s'. split; [exact Hs|exact Hf].
  - destruct (H 0%nat None eq_refl) as [x Hx]. discriminate.
Defined.

(** Authentication by user and password. *)
Definition guest : list byte := bytes_of_string "guest".
Definition secret : list byte := bytes_of_string "secret".
Definition login (pass : list byte) : list byte :=
  encode_request (mkRequest (40 + blen (credentials guest pass)) 36 4 (blen (credentials guest pass)) 12 TYPE_PROXY_AUTH 0 0 3) ++
  le_split 4 AUTH_USERPASS ++ credentials guest pass.
Definition login_server (pass : list byte) : wserver library windows :=
  fset AUTH_TYPES AUTH_USERPASS (demo_server [login pass] [] false).

Lemma userpass_auth_witness :
  ∃ s', round 3 (login_server secret) = (Done tt, s') ∧ cd_auth_type (ws_client s') = AUTH_USERPASS.
Proof.
  destruct (userpass_auth 3
    (mkRequest (40 + blen (credentials guest secret)) 36 4 (blen (credentials guest secret)) 12 TYPE_PROXY_AUTH 0 0 3)
    guest secret [] (login_server secret)) as (s' & e & f & Hs & Hres & _).
  - destruct (winv_wf _ (demo_server_inv [login secret] [] false)). split; assumption.
  - eval_dec.
  - eval_eq.
  - reflexivity.
  - reflexivity.
  - reflexivity.
  - reflexivity.
  - reflexivity.
  - eval_dec.
  - eval_dec.
  - eval_le.
  - eval_le.
  - reflexivity.
  - intros u t. cbn. unfold server_value. do 2 (case_decide; [|done]). intros [= <-]. by eexists.
  - reflexivity.
  - reflexivity.
  - reflexivity.
  - exists s'. split; [exact Hs|]. destruct Hres as [(_ & _ & Ha)|[Hn _]]; [exact Ha|].
    exfalso. apply Hn. split; [reflexivity|]. exists (secret ++ [x00]). split; [eval_eq|reflexivity].
Defined.
