(* ===== verification/WindowsPairProperties.v ===== *)
(** * The Windows client and the Windows server: properties *)
From stdpp Require Import gmap.
From S2P Require Import Prelude CMem Protocol Net Win32 Capi2032 WServer WServerSpec WServerMessages WServerProxy WServerHandled WServerSession.
From S2P Require Import WClient WClientSpec WClientCalls WClientAnswers WClientInv WClientCall WClientApps WClientConnect WindowsPair WindowsRemote.
From S2P Require ClientServer.
#[local] Open Scope Z_scope.

Section properties.
Context {CS WS OS : Type} `{!Capi2032 CS, !Capi2032Laws CS, !WinServer WS, HW : !Win32 OS, HL : !Win32Laws OS}.
Implicit Types (s : wserver CS WS) (d : dll OS).

(** C5: between the Windows client and the Windows server calls of CAPI
    go through: any sequence of registrations, releases and queries returns to the
    application what the library at the server returns to the same sequence of calls, and
    leaves the library in the state they leave it in; client and session stay in step
    throughout.  The library gives out no ids above 128. *)
Theorem windows_remote_calls mem answer sess cs d s :
  plenty (OS:=OS) → capi32_max (CS:=CS) ≤ CAPI_MAXAPPL → paired answer sess d s → Forall plain_call cs →
  ∃ rs d' s', remote_calls mem answer sess cs (d, s) = (Done rs, (d', s')) ∧
    local_calls cs (ws_capi s) rs (ws_capi s') ∧ paired answer sess d' s'.
Proof.
  intros Hp Hids Hpair Hcs. revert d s Hpair. induction Hcs as [|c cs Hc _ IH]; intros d s Hpair.
  - exists [], d, s. split_and!; [done|apply local_calls_nil|done].
  - destruct (call_remote Hp Hids mem answer sess [] [] d s Hpair c Hc) as (r & d1 & s1 & Hr & Hl & Hpair1).
    destruct (IH d1 s1 Hpair1) as (rs & d' & s' & Hrs & Hls & Hpair').
    exists (r :: rs), d', s'. split_and!; [|by eapply local_calls_cons|done].
    cbn [remote_calls]. by rewrite (bind_done _ _ _ _ _ Hr), (bind_done _ _ _ _ _ Hrs).
Qed.

(** C13: when the client connects, the server greets it and the client is
    connected, whatever types of authentication the server is set to ask for: it
    does not ask, the client sends nothing but its HELO, and when the receiver thread has
    been started client and session are ready for calls. *)
Theorem windows_connection sess d s o1 o2 :
  plenty (OS:=OS) → winv s → ws_open s = true → tx_script (ws_socket s) = [] →
  cd_session (ws_client s) = u32 (ws_session s + sess) → dll_ok d →
  win_socket (w_os d) = (true, o1) → win_connect (w_toaddr d) (u16 (w_port d)) o1 = (true, o2) →
  ∃ d' s', remote_connect sess (d, s) = (Done 0, (d', s')) ∧
    w_status d' = 1 ∧ tx (w_socke d') = tx (w_socke d) ++ [helo_wire d] ∧
    cd_auth_type (ws_client s') = cd_auth_type (ws_client s) ∧ ws_capi s' = ws_capi s ∧
    ∀ answer, w_slots d !! answer = None → w_hash d = [] → paired answer sess (fset receiver true d') s'.
Proof.
  intros Hp Hi Ho Hsc Hid Hok Hso Hco. pose proof (ok_name d Hok) as Hname.
  destruct (serve_hello sess d s Hi Ho Hsc Hname) as (s1 & Hr & Hi1 & Ho1 & Hso1 & Hss1 & Hcd1 & Hat & Hca).
  set (s0 := examined (helo_wire d) s) in *.
  assert (Hwf0 : wf_wserver s0) by (apply winv_examined; [by rewrite blen_helo_wire|done]).
  destruct (hello_accepted Hp d s0 o1 o2 Hwf0 Hname Hso Hco) as (d' & Hc & Hop & Hst & Hse & Htx & Hh & Hsl & Hrc).
  assert (Hdrop : drop (length (tx (ws_socket s))) (tx (ws_socket (delivered (answer_bytes (welcome d s0)) s1))) =
    [answer_bytes (welcome d s0)]).
  { unfold delivered. cbn [ws_socket fset socket tx]. rewrite Hso1. apply drop_app_length. }
  exists d', (delivered (answer_bytes (welcome d s0)) s1). split_and!; try done.
  - unfold remote_connect. by rewrite Hr, Hdrop, Hc.
  - intros answer Hslot Hhash.
    assert (Hok' : dll_ok d').
    { destruct (keeps_initConnection (to_receive [answer_bytes (welcome d s0)] d)) as (_ & Hk & _); [by destruct Hok|].
      by rewrite Hc in Hk. }
    split; try done.
    + by destruct Hi1 as [[] ?].
    + change (cd_session (ws_client s1) = u32 (ws_session s1 + sess)). congruence.
    + change (w_session_id d' = cd_session (ws_client s1)). by rewrite Hse, Hcd1.
    + change (w_hash d' = []). congruence.
    + by destruct Hok'.
    + change (w_slots d' !! answer = None). congruence.
Qed.

(** C22: a message an application gives to CAPI_PUT_MESSAGE comes to the
    library at the server as the application wrote it, with the data of a DATA_B3_REQ
    behind it and its data pointer leading there; the application gets the code
    the library returns. *)
Theorem windows_put_message mem answer sess appl p m data d s :
  plenty (OS:=OS) → paired answer sess d s → ClientServer.word32 appl →
  app_message mem p m data → 37 + blen m + blen data ≤ _MSG_BUFFER → 8 ≤ blen m → (is_data_b3_req m → 18 ≤ blen m) →
  ∃ m' buf rc c' d' s', message_there m (ws_request_address s) m' ∧
    slice buf 37 (blen m + blen data) = Some (m' ++ data) ∧
    capi32_put_message appl (ws_request_address s) buf 37 (ws_capi s) = (rc, c') ∧
    remote_call mem answer sess m data (PutMessage appl p) (d, s) = (Done (RCode rc), (d', s')) ∧
    ws_capi s' = c' ∧ paired answer sess d' s'.
Proof.
  intros Hp Hpair Hw Hm Hfit H8 H18.
  destruct (put_serves mem answer sess m data d s Hpair appl p Hw Hm Hfit H8 H18)
    as (m' & buf & rc & c' & s1 & Hm' & Hlm & Hbuf & Hput & Hcs & Hs).
  set (a := with_capi_error rc _) in Hs.
  destruct (remote_call_served Hp mem answer sess m data (PutMessage appl p) _ a s1 (RCode rc)
    (answered m data (PutMessage appl p) a d) d s Hpair Hw (conj Hm Hfit) Hs) as (s' & Hcall & Hcs' & Hpair').
  { cbn [call_answered]. unfold answer_in. erewrite bind_done; [|apply copied_result; by apply Hs]. done. }
  { done. }
  exists m', buf, rc, c', (answered m data (PutMessage appl p) a d), s'. split_and!; try done. congruence.
Qed.

(** C21: a message of the library reaches the application in a new block of its
    own, with the data of a DATA_B3_IND behind it and its data pointer leading there;
    the block of the application's previous message is freed. *)
Theorem windows_get_message mem answer sess appl p m data c' a o' m' old d s :
  plenty (OS:=OS) → paired answer sess d s → ClientServer.word32 appl →
  capi32_get_message appl (ws_capi s) = (0, Some p, c') → dll_message m data c' p → 1 + blen m + blen data ≤ 9960 →
  find_app appl (w_apps d) = Some old →
  GlobalAlloc (blen (m ++ data)) (heap _MSG_BUFFER (heap sizeof_evlhash (heap _MSG_BUFFER (w_os d)))) = (Some a, o') →
  message_here m a m' →
  ∃ d' s', remote_call mem answer sess [] [] (GetMessage appl) (d, s) = (Done (RId (0, Some a)), (d', s')) ∧
    ws_capi s' = c' ∧ paired answer sess d' s' ∧
    w_blocks d' !! a = Some (m' ++ data) ∧ find_app appl (w_apps d') = Some (Some a) ∧
    (∀ o, old = Some o → w_blocks d' !! o = None).
Proof.
  intros Hp Hpair Hw Hg Hm Hfit Hf Ha Hm'.
  destruct (get_serves mem answer sess m data d s Hpair appl p c' Hw Hg Hm Hfit) as (an & Hs & Hce & Hda).
  set (da := answered [] [] (GetMessage appl) an d).
  destruct (plain_answer_parts an (sv_plain _ _ _ _ _ _ Hs)) as [_ Hwf]. rewrite Hda in Hwf.
  pose proof (pr_dll _ _ _ _ Hpair) as Hok.
  destruct (message_taken m data appl a o' (m' ++ data) old (sent_header an) (body_part an) da)
    as (d' & Hd' & Hk & Hf' & Hb & Hfree); try done.
  { by apply Hs. }
  { pose proof (lm_header _ _ _ _ Hm). rewrite blen_app. pose proof (blen_nonneg data). lia. }
  { by eapply message_for_here. }
  { exact (known_live d appl old Hok Hf). }
  { exact (new_block d a _ o' Hok Ha). }
  destruct (remote_call_served Hp mem answer sess [] [] (GetMessage appl) _ an _ (RId (0, Some a)) d' d s Hpair Hw I Hs)
    as (s' & Hcall & Hcs' & Hpair').
  { cbn [call_answered]. unfold answer_in. rewrite Hda. erewrite bind_done by exact Hd'.
    change (ah_capi_error (sent_header an)) with (ah_capi_error (aheader an)). by rewrite Hce. }
  { exact Hk. }
  exists d', s'. by split_and!.
Qed.
End properties.

(** * Windows client and Windows server on concrete calls *)
From S2P Require Import Demo DemoCapi2032.
From S2P Require Import DemoWindows WClientWitness.

(** The client of DemoWindows.v in session 3 of the server of DemoCapi2032.v. *)
Lemma demo_paired segs ids waiting : paired 100 3 (win_one []) (demo_server segs ids waiting).
Proof. split; try reflexivity; [apply demo_server_inv|apply win_one_ok]. Qed.

Lemma windows_remote_calls_witness :
  ∃ rs d' s', remote_calls (memory_at 0 []) 100 3 [Register 1000 2 7 128; GetProfile 1; Release 1]
      (win_one [], demo_server [] [] false) = (Done rs, (d', s')) ∧
    local_calls [Register 1000 2 7 128; GetProfile 1; Release 1] (mkLibrary [] [] false) rs (ws_capi s').
Proof.
  destruct (windows_remote_calls (memory_at 0 []) 100 3 [Register 1000 2 7 128; GetProfile 1; Release 1]
    (win_one []) (demo_server [] [] false)) as (rs & d' & s' & Hr & Hl & _).
  - apply demo_plenty.
  - eval_le.
  - apply demo_paired.
  - repeat (apply Forall_cons; split; [by split_and?|]). by apply Forall_nil.
  - exists rs, d', s'. split; [exact Hr|exact Hl].
Defined.

(** Before the connection, with authentication asked for by the server. *)
Definition unconnected : dll windows :=
  mkDll [] (mkNet [] false [] []) false 0 6 win_name (-1) 0 6674 0x0100000A [] ∅ [] ∅ false [].
Lemma unconnected_ok : dll_ok unconnected.
Proof.
  split; try done.
  - intros a Ha. by apply elem_of_nil in Ha.
  - apply NoDup_nil_2.
  - intros a [x Hx]. change ((∅ : gmap Z (list byte)) !! a = Some x) in Hx. by rewrite lookup_empty in Hx.
Qed.
Definition guarded_server : wserver library windows :=
  fset AUTH_REQUIRED AUTH_USERPASS (fset AUTH_TYPES AUTH_USERPASS (demo_server [] [] false)).

Lemma windows_connection_witness :
  ∃ d' s', remote_connect 3 (unconnected, guarded_server) = (Done 0, (d', s')) ∧
    cd_auth_type (ws_client s') = AUTH_NO_AUTH ∧ paired 100 3 (fset receiver true d') s'.
Proof.
  destruct (windows_connection 3 unconnected guarded_server [] []) as (d' & s' & Hr & _ & _ & Ha & _ & Hp).
  - apply demo_plenty.
  - by destruct (demo_server_inv [] [] false) as [[] ?].
  - reflexivity.
  - reflexivity.
  - reflexivity.
  - apply unconnected_ok.
  - reflexivity.
  - reflexivity.
  - exists d', s'. split; [exact Hr|]. split; [exact Ha|]. by apply Hp.
Defined.

Lemma windows_put_message_witness :
  ∃ rc d' s', remote_call win_memory 100 3 win_request data_bytes (PutMessage 2 0x400000)
    (win_one [], demo_server [] [2] false) = (Done (RCode rc), (d', s')) ∧ paired 100 3 d' s'.
Proof.
  destruct (windows_put_message win_memory 100 3 2 0x400000 win_request data_bytes (win_one [])
    (demo_server [] [2] false)) as (m' & buf & rc & c' & d' & s' & _ & _ & _ & Hr & _ & Hp).
  - apply demo_plenty.
  - apply demo_paired.
  - split; [eval_le|eval_lt].
  - apply win_app_message.
  - eval_le.
  - eval_le.
  - intros _. eval_le.
  - exists rc, d', s'. split; [exact Hr|exact Hp].
Defined.

Lemma windows_get_message_witness :
  ∃ d' s', remote_call (memory_at 0 []) 100 3 [] [] (GetMessage 2) (win_one [], demo_server [] [2] true) =
      (Done (RId (0, Some 0x20000)), (d', s')) ∧
    w_blocks d' !! 0x20000 = Some (data_b3 0x82 0x20016 ++ data_bytes).
Proof.
  destruct (windows_get_message (memory_at 0 []) 100 3 2 demo_base lib_message data_bytes (mkLibrary [2] [] false)
    0x20000 [0x20000; 0x10000] (data_b3 0x82 0x20016) (Some 0x10000) (win_one []) (demo_server [] [2] true))
    as (d' & s' & Hr & _ & _ & Hb & _).
  - apply demo_plenty.
  - apply demo_paired.
  - split; [eval_le|eval_lt].
  - reflexivity.
  - split; [vm_compute; reflexivity|vm_compute; reflexivity|vm_compute; reflexivity|eval_le|].
    rewrite decide_True by (apply (bool_decide_unpack _); vm_compute; exact I).
    split; [eval_le|]. split; [vm_compute; reflexivity|]. exists (demo_base + 22). split; vm_compute; reflexivity.
  - eval_le.
  - vm_compute. reflexivity.
  - vm_compute. reflexivity.
  - unfold message_here. rewrite decide_True by (apply (bool_decide_unpack _); vm_compute; exact I).
    vm_compute. reflexivity.
  - exists d', s'. split; [exact Hr|exact Hb].
Defined.
