(* ===== verification/WService.v ===== *)
(** * The Windows server's process (win32-server/capi20server.cpp)

    Options and settings, the service, the loop that accepts connections, the
    control of the service and the dialog of its icon.  The thread of ServiceStart
    is modelled; what the other threads, those of the control handler and of
    the dialog, set [run] and [pause] to while it runs are the pairs in
    [sv_control], one for a round of the loop.  Threads of sessions are started and
    recorded in [sv_threads]; each then runs [StartSession] of WServer.v. *)
From S2P Require Import Prelude CMem Protocol Net Win32 Capi2032 WServer.
#[local] Open Scope Z_scope.

Definition __PORT := 6674.
Definition __LOGFILE : list byte := bytes_of_string "capi20proxy.log".
Definition SERVICE_STOPPED := 1.
Definition SERVICE_START_PENDING := 2.
Definition SERVICE_RUNNING := 4.
Definition SERVICE_PAUSED := 7.

(** [SERVICE_STATUS], as far as it varies. *)
Record service_status := mkStatus {
  dwCurrentState : Z;
  dwWin32ExitCode : Z;
  dwServiceSpecificExitCode : Z;
  dwCheckPoint : Z;
  dwWaitHint : Z;
}.

(** Windows, as the process sees it. *)
Class WinService (OS : Type) := {
  wv_server :: WinServer OS;
  GetLastError : OS → Z;
  OpenSCManager : OS → bool * OS;
  GetModuleFileName : OS → list byte;
  CreateService : list byte → OS → bool * OS;
  OpenService : OS → bool * OS;
  DeleteService : OS → bool * OS;
  StartServiceCtrlDispatcher : OS → bool * OS;
  RegisterServiceCtrlHandler : OS → bool * OS;
  SetServiceStatus : service_status → OS → bool * OS;
  (** Sockets are handles, [None] is INVALID_SOCKET. *)
  new_socket : OS → option Z * OS;
  bind : option Z → Z → Z → OS → bool * OS;
  listen : option Z → OS → OS;
  (** Is a connection waiting; [None] for SOCKET_ERROR. *)
  select : option Z → OS → option bool * OS;
  accept : option Z → OS → option Z * OS;
  shutdown : option Z → OS → OS;
  close_socket : option Z → OS → OS;
  (** Does the thread end within the time. *)
  WaitForSingleObject : OS → bool * OS;
  TerminateThread : OS → OS;
}.

Record service (OS : Type) := mkService {
  sv_os : OS;
  sv_status : service_status;
  sv_run : Z;
  sv_pause : Z;
  sv_debug : Z;
  sv_service : Z;
  sv_session : Z;
  sv_sockets : list (option Z);
  sv_socke : option Z;
  sv_localaddr : Z;
  sv_PORT : Z;
  sv_LOGFILE : list byte;           (**r [char LOGFILE[256]] *)
  sv_AUTH_TYPES : Z;
  sv_AUTH_REQUIRED : Z;
  sv_f : option (list byte);        (**r the name [f] has been opened with *)
  sv_threads : list Z;              (**r sessions whose threads have been started *)
  sv_control : list (Z * Z);
  sv_log : list string;
}.
Arguments mkService {OS}.
Arguments sv_os {OS}. Arguments sv_status {OS}. Arguments sv_run {OS}. Arguments sv_pause {OS}.
Arguments sv_debug {OS}. Arguments sv_service {OS}. Arguments sv_session {OS}. Arguments sv_sockets {OS}.
Arguments sv_socke {OS}. Arguments sv_localaddr {OS}. Arguments sv_PORT {OS}. Arguments sv_LOGFILE {OS}.
Arguments sv_AUTH_TYPES {OS}. Arguments sv_AUTH_REQUIRED {OS}. Arguments sv_f {OS}. Arguments sv_threads {OS}.
Arguments sv_control {OS}. Arguments sv_log {OS}.

Section fields.
Context {OS : Type}.
Abbreviation st := (service OS).
Definition system : field st OS := mkField sv_os (λ v s,
  mkService v (sv_status s) (sv_run s) (sv_pause s) (sv_debug s) (sv_service s) (sv_session s)
    (sv_sockets s) (sv_socke s) (sv_localaddr s) (sv_PORT s) (sv_LOGFILE s) (sv_AUTH_TYPES s)
    (sv_AUTH_REQUIRED s) (sv_f s) (sv_threads s) (sv_control s) (sv_log s)).
Definition ServiceStatus : field st service_status := mkField sv_status (λ v s,
  mkService (sv_os s) v (sv_run s) (sv_pause s) (sv_debug s) (sv_service s) (sv_session s)
    (sv_sockets s) (sv_socke s) (sv_localaddr s) (sv_PORT s) (sv_LOGFILE s) (sv_AUTH_TYPES s)
    (sv_AUTH_REQUIRED s) (sv_f s) (sv_threads s) (sv_control s) (sv_log s)).
Definition run : field st Z := mkField sv_run (λ v s,
  mkService (sv_os s) (sv_status s) v (sv_pause s) (sv_debug s) (sv_service s) (sv_session s)
    (sv_sockets s) (sv_socke s) (sv_localaddr s) (sv_PORT s) (sv_LOGFILE s) (sv_AUTH_TYPES s)
    (sv_AUTH_REQUIRED s) (sv_f s) (sv_threads s) (sv_control s) (sv_log s)).
Definition pause : field st Z := mkField sv_pause (λ v s,
  mkService (sv_os s) (sv_status s) (sv_run s) v (sv_debug s) (sv_service s) (sv_session s)
    (sv_sockets s) (sv_socke s) (sv_localaddr s) (sv_PORT s) (sv_LOGFILE s) (sv_AUTH_TYPES s)
    (sv_AUTH_REQUIRED s) (sv_f s) (sv_threads s) (sv_control s) (sv_log s)).
Definition debug : field st Z := mkField sv_debug (λ v s,
  mkService (sv_os s) (sv_status s) (sv_run s) (sv_pause s) v (sv_service s) (sv_session s)
    (sv_sockets s) (sv_socke s) (sv_localaddr s) (sv_PORT s) (sv_LOGFILE s) (sv_AUTH_TYPES s)
    (sv_AUTH_REQUIRED s) (sv_f s) (sv_threads s) (sv_control s) (sv_log s)).
Definition service_mode : field st Z := mkField sv_service (λ v s,
  mkService (sv_os s) (sv_status s) (sv_run s) (sv_pause s) (sv_debug s) v (sv_session s)
    (sv_sockets s) (sv_socke s) (sv_localaddr s) (sv_PORT s) (sv_LOGFILE s) (sv_AUTH_TYPES s)
    (sv_AUTH_REQUIRED s) (sv_f s) (sv_threads s) (sv_control s) (sv_log s)).
Definition session : field st Z := mkField sv_session (λ v s,
  mkService (sv_os s) (sv_status s) (sv_run s) (sv_pause s) (sv_debug s) (sv_service s) v
    (sv_sockets s) (sv_socke s) (sv_localaddr s) (sv_PORT s) (sv_LOGFILE s) (sv_AUTH_TYPES s)
    (sv_AUTH_REQUIRED s) (sv_f s) (sv_threads s) (sv_control s) (sv_log s)).
Definition sockets : field st (list (option Z)) := mkField sv_sockets (λ v s,
  mkService (sv_os s) (sv_status s) (sv_run s) (sv_pause s) (sv_debug s) (sv_service s)
    (sv_session s) v (sv_socke s) (sv_localaddr s) (sv_PORT s) (sv_LOGFILE s) (sv_AUTH_TYPES s)
    (sv_AUTH_REQUIRED s) (sv_f s) (sv_threads s) (sv_control s) (sv_log s)).
Definition socke : field st (option Z) := mkField sv_socke (λ v s,
  mkService (sv_os s) (sv_status s) (sv_run s) (sv_pause s) (sv_debug s) (sv_service s)
    (sv_session s) (sv_sockets s) v (sv_localaddr s) (sv_PORT s) (sv_LOGFILE s) (sv_AUTH_TYPES s)
    (sv_AUTH_REQUIRED s) (sv_f s) (sv_threads s) (sv_control s) (sv_log s)).
Definition localaddr : field st Z := mkField sv_localaddr (λ v s,
  mkService (sv_os s) (sv_status s) (sv_run s) (sv_pause s) (sv_debug s) (sv_service s)
    (sv_session s) (sv_sockets s) (sv_socke s) v (sv_PORT s) (sv_LOGFILE s) (sv_AUTH_TYPES s)
    (sv_AUTH_REQUIRED s) (sv_f s) (sv_threads s) (sv_control s) (sv_log s)).
Definition PORT : field st Z := mkField sv_PORT (λ v s,
  mkService (sv_os s) (sv_status s) (sv_run s) (sv_pause s) (sv_debug s) (sv_service s)
    (sv_session s) (sv_sockets s) (sv_socke s) (sv_localaddr s) v (sv_LOGFILE s) (sv_AUTH_TYPES s)
    (sv_AUTH_REQUIRED s) (sv_f s) (sv_threads s) (sv_control s) (sv_log s)).
Definition LOGFILE : field st (list byte) := mkField sv_LOGFILE (λ v s,
  mkService (sv_os s) (sv_status s) (sv_run s) (sv_pause s) (sv_debug s) (sv_service s)
    (sv_session s) (sv_sockets s) (sv_socke s) (sv_localaddr s) (sv_PORT s) v (sv_AUTH_TYPES s)
    (sv_AUTH_REQUIRED s) (sv_f s) (sv_threads s) (sv_control s) (sv_log s)).
Definition AUTH_TYPES : field st Z := mkField sv_AUTH_TYPES (λ v s,
  mkService (sv_os s) (sv_status s) (sv_run s) (sv_pause s) (sv_debug s) (sv_service s)
    (sv_session s) (sv_sockets s) (sv_socke s) (sv_localaddr s) (sv_PORT s) (sv_LOGFILE s) v
    (sv_AUTH_REQUIRED s) (sv_f s) (sv_threads s) (sv_control s) (sv_log s)).
Definition AUTH_REQUIRED : field st Z := mkField sv_AUTH_REQUIRED (λ v s,
  mkService (sv_os s) (sv_status s) (sv_run s) (sv_pause s) (sv_debug s) (sv_service s)
    (sv_session s) (sv_sockets s) (sv_socke s) (sv_localaddr s) (sv_PORT s) (sv_LOGFILE s)
    (sv_AUTH_TYPES s) v (sv_f s) (sv_threads s) (sv_control s) (sv_log s)).
Definition f : field st (option (list byte)) := mkField sv_f (λ v s,
  mkService (sv_os s) (sv_status s) (sv_run s) (sv_pause s) (sv_debug s) (sv_service s)
    (sv_session s) (sv_sockets s) (sv_socke s) (sv_localaddr s) (sv_PORT s) (sv_LOGFILE s)
    (sv_AUTH_TYPES s) (sv_AUTH_REQUIRED s) v (sv_threads s) (sv_control s) (sv_log s)).
Definition threads : field st (list Z) := mkField sv_threads (λ v s,
  mkService (sv_os s) (sv_status s) (sv_run s) (sv_pause s) (sv_debug s) (sv_service s)
    (sv_session s) (sv_sockets s) (sv_socke s) (sv_localaddr s) (sv_PORT s) (sv_LOGFILE s)
    (sv_AUTH_TYPES s) (sv_AUTH_REQUIRED s) (sv_f s) v (sv_control s) (sv_log s)).
Definition control : field st (list (Z * Z)) := mkField sv_control (λ v s,
  mkService (sv_os s) (sv_status s) (sv_run s) (sv_pause s) (sv_debug s) (sv_service s)
    (sv_session s) (sv_sockets s) (sv_socke s) (sv_localaddr s) (sv_PORT s) (sv_LOGFILE s)
    (sv_AUTH_TYPES s) (sv_AUTH_REQUIRED s) (sv_f s) (sv_threads s) v (sv_log s)).
Definition log : field st (list string) := mkField sv_log (λ v s,
  mkService (sv_os s) (sv_status s) (sv_run s) (sv_pause s) (sv_debug s) (sv_service s)
    (sv_session s) (sv_sockets s) (sv_socke s) (sv_localaddr s) (sv_PORT s) (sv_LOGFILE s)
    (sv_AUTH_TYPES s) (sv_AUTH_REQUIRED s) (sv_f s) (sv_threads s) (sv_control s) v).

#[export] Instance service_system_lawful : LawfulField system.
Proof. by constructor; [|intros []|]. Qed.
#[export] Instance service_ServiceStatus_lawful : LawfulField ServiceStatus.
Proof. by constructor; [|intros []|]. Qed.
#[export] Instance service_run_lawful : LawfulField run.
Proof. by constructor; [|intros []|]. Qed.
#[export] Instance service_pause_lawful : LawfulField pause.
Proof. by constructor; [|intros []|]. Qed.
#[export] Instance service_debug_lawful : LawfulField debug.
Proof. by constructor; [|intros []|]. Qed.
#[export] Instance service_service_mode_lawful : LawfulField service_mode.
Proof. by constructor; [|intros []|]. Qed.
#[export] Instance service_session_lawful : LawfulField session.
Proof. by constructor; [|intros []|]. Qed.
#[export] Instance service_sockets_lawful : LawfulField sockets.
Proof. by constructor; [|intros []|]. Qed.
#[export] Instance service_socke_lawful : LawfulField socke.
Proof. by constructor; [|intros []|]. Qed.
#[export] Instance service_localaddr_lawful : LawfulField localaddr.
Proof. by constructor; [|intros []|]. Qed.
#[export] Instance service_PORT_lawful : LawfulField PORT.
Proof. by constructor; [|intros []|]. Qed.
#[export] Instance service_LOGFILE_lawful : LawfulField LOGFILE.
Proof. by constructor; [|intros []|]. Qed.
#[export] Instance service_AUTH_TYPES_lawful : LawfulField AUTH_TYPES.
Proof. by constructor; [|intros []|]. Qed.
#[export] Instance service_AUTH_REQUIRED_lawful : LawfulField AUTH_REQUIRED.
Proof. by constructor; [|intros []|]. Qed.
#[export] Instance service_f_lawful : LawfulField f.
Proof. by constructor; [|intros []|]. Qed.
#[export] Instance service_threads_lawful : LawfulField threads.
Proof. by constructor; [|intros []|]. Qed.
#[export] Instance service_control_lawful : LawfulField control.
Proof. by constructor; [|intros []|]. Qed.
#[export] Instance service_log_lawful : LawfulField log.
Proof. by constructor; [|intros []|]. Qed.
End fields.

Section process.
Context {OS : Type} `{!WinService OS}.
Abbreviation W := (M (service OS)).

Definition DebugOut (msg : string) : W unit := modify log (λ l, l ++ [msg]).

(** ** The socket *)
(** The argument [port] is not used. *)
Definition CreateSocket (port : Z) : W (option Z) :=
  sock ← zoom system new_socket;
  match sock with
  | None => mret None
  | Some sock =>
      addr ← gets localaddr;
      port ← gets PORT;
      ok ← zoom system (bind (Some sock) addr (u16 port));
      mret (if ok : bool then Some sock else None)
  end.

Definition ServiceInitialization : W Z :=
  modify session (λ s, u32 (s + 0x10000));;
  sock ← CreateSocket __PORT;
  puts socke sock;;
  match sock with
  | None =>
      o ← gets system;
      DebugOut "InitService(): CreateSocket";;
      mret (GetLastError o)
  | Some _ => zoom system (λ o, (tt, listen sock o));; mret 0
  end.

(** ** The loop of ServiceStart *)
(** What follows [if(pause!=1)]; false when ServiceStart returns. *)
Definition accept_round : W bool :=
  sock ← gets socke;
  waiting ← zoom system (select sock);
  match waiting with
  | None => DebugOut "ServiceMain(): select";; mret false
  | Some false => mret true
  | Some true =>
      connection ← zoom system (accept sock);
      match connection with
      | None => DebugOut "ServiceMain(): accept";; mret true
      | Some connection =>
          sess ← allocSession sockets connection;
          if sess =? -1 then DebugOut "ServiceMain(): no free session Ids";; mret true
          else
            ok ← zoom system CreateThread;
            (if ok : bool then modify threads (λ l, l ++ [sess]) else DebugOut "ServiceMain(): CreateThread");;
            mret true
      end
  end.

(** [run] and [pause] as the other threads have set them for this round. *)
Definition controlled : W unit :=
  l ← gets control;
  match l with
  | [] => mret tt
  | (r, p) :: l => puts control l;; puts run r;; puts pause p
  end.

Fixpoint accept_loop (fuel : nat) : W unit :=
  match fuel with
  | O => fail Diverged
  | S fuel' =>
      controlled;;
      r ← gets run;
      p ← gets pause;
      if negb (r =? 1) then DebugOut "Exiting ServiceMain()"
      else if p =? 1 then accept_loop fuel'
      else
        on ← accept_round;
        if on : bool then accept_loop fuel' else mret tt
  end.

Definition set_state (state : Z) (s : service_status) : service_status :=
  mkStatus state (dwWin32ExitCode s) (dwServiceSpecificExitCode s) (dwCheckPoint s) (dwWaitHint s).
Definition set_waiting (check hint : Z) (s : service_status) : service_status :=
  mkStatus (dwCurrentState s) (dwWin32ExitCode s) (dwServiceSpecificExitCode s) check hint.
Definition set_codes (code specific : Z) (s : service_status) : service_status :=
  mkStatus (dwCurrentState s) code specific (dwCheckPoint s) (dwWaitHint s).

Definition report_status : W bool :=
  st ← gets ServiceStatus; zoom system (SetServiceStatus st).

(** [specificError] is not set by anybody. *)
Definition ServiceStart (specificError : Z) (fuel : nat) : W unit :=
  service ← gets service_mode;
  let service := negb (service =? 0) in
  when service (puts ServiceStatus (mkStatus SERVICE_START_PENDING 0 0 0 0));;
  puts run 1;;
  puts pause 0;;
  handle ← (if service then zoom system RegisterServiceCtrlHandler else mret true);
  if negb handle then DebugOut "ServiceMain(): RegisterServiceCtrlHandler" else
  status ← ServiceInitialization;
  if negb (status =? 0) then
    when service
      (modify ServiceStatus (λ s, set_codes status specificError (set_waiting 0 0 (set_state SERVICE_STOPPED s)));;
       report_status;; mret tt)
  else
    told ← (if service then
              modify ServiceStatus (λ s, set_waiting 0 0 (set_state SERVICE_RUNNING s));; report_status
            else mret true);
    if negb told then DebugOut "ServiceMain(): SetServiceStatus" else
    DebugOut "Server running...";;
    accept_loop fuel.

(** ** The end of the process *)
Definition ServiceExit : W Z :=
  puts run 0;;
  puts pause 0;;
  l ← gets sockets;
  zoom system (λ o, (tt, foldl (λ o s, shutdown s o) o l));;
  sock ← gets socke;
  zoom system (λ o, (tt, shutdown sock o));;
  ended ← zoom system WaitForSingleObject;
  (if ended : bool then mret tt else
     DebugOut "ExitThread(): WaitForSingleObject";;
     zoom system (λ o, (tt, close_socket sock o));;
     zoom system (λ o, (tt, TerminateThread o)));;
  zoom system (λ o, (tt, close_socket sock o));;
  zoom system (λ o, (tt, foldl (λ o s, close_socket s o) o l));;
  mret 0.

(** ** Control of the service *)
Inductive control_code :=
  | SERVICE_CONTROL_PAUSE
  | SERVICE_CONTROL_CONTINUE
  | SERVICE_CONTROL_STOP
  | SERVICE_CONTROL_INTERROGATE
  | SERVICE_CONTROL_other.

Definition send_status : W unit :=
  ok ← report_status;
  when (negb ok) (DebugOut "ServiceCtrlHandler(): SetServiceStatus").

Definition ServiceCtrlHandler (Opcode : control_code) : W unit :=
  match Opcode with
  | SERVICE_CONTROL_PAUSE => puts pause 1;; modify ServiceStatus (set_state SERVICE_PAUSED);; send_status
  | SERVICE_CONTROL_CONTINUE => puts pause 0;; modify ServiceStatus (set_state SERVICE_RUNNING);; send_status
  | SERVICE_CONTROL_STOP =>
      ServiceExit;;
      modify ServiceStatus (λ s, mkStatus SERVICE_STOPPED 0 (dwServiceSpecificExitCode s) 0 0);;
      send_status;;
      DebugOut "ServiceCtrlHandler(): Leaving Service"
  | SERVICE_CONTROL_INTERROGATE => send_status
  | SERVICE_CONTROL_other => DebugOut "ServiceCtrlHandler(): Unrecognized Opcode";; send_status
  end.

(** ** The dialog of the icon *)
Inductive dialog_message :=
  | WM_INITDIALOG
  | COMMAND_PAUSE                 (**r [WM_COMMAND] with [IDC_PAUSE] *)
  | COMMAND_OK                    (**r [WM_COMMAND] with [IDOK] *)
  | COMMAND_other
  | WM_USER
  | WM_CLOSE
  | WM_other.

(** The calls that show, hide and end the windows are left out. *)
Definition dialogProc (msg : dialog_message) : W bool :=
  match msg with
  | WM_INITDIALOG => mret false
  | COMMAND_PAUSE => p ← gets pause; puts pause (if p =? 0 then 1 else 0);; mret true
  | COMMAND_OK => puts run 0;; mret true
  | COMMAND_other => mret false
  | WM_USER | WM_CLOSE => mret true
  | WM_other => mret false
  end.

(** ** Options *)
Definition given (option : string) (args : list string) : bool := existsb (String.eqb option) args.

(** [-i]: the path of the program with the option behind it, in 512 bytes. *)
Definition install : W Z :=
  ok ← zoom system OpenSCManager;
  when (negb ok) (DebugOut "main(): OpenSCManager");;
  o ← gets system;
  let path := GetModuleFileName o ++ bytes_of_string " -service" in
  if decide (512 < blen path + 1) then fail OutOfBounds else
  ok ← zoom system (CreateService path);
  if negb ok then DebugOut "main(): CreateService";; mret 1 else mret 0.

(** [-u] *)
Definition uninstall : W Z :=
  ok ← zoom system OpenSCManager;
  when (negb ok) (DebugOut "main(): OpenSCManager");;
  ok ← zoom system OpenService;
  when (negb ok) (DebugOut "main(): OpenService");;
  ok ← zoom system DeleteService;
  if negb ok then DebugOut "main(): DeleteService";; mret 1 else mret 0.

(** The third loop over the options: what main returns for the first of [-i], [-u],
    [-?] and [-help]. *)
Fixpoint option_command (args : list string) : W (option Z) :=
  match args with
  | [] => mret None
  | a :: args =>
      if String.eqb a "-i" then rc ← install; mret (Some rc)
      else if String.eqb a "-u" then rc ← uninstall; mret (Some rc)
      else if String.eqb a "-?" || String.eqb a "-help" then mret (Some 0)
      else option_command args
  end.

(** ** Settings *)
Definition SERVER_KEY : string := "Software\capi20proxy\server".

(** A value of the registry is written to the first bytes of a variable of 4. *)
Definition read32 (F : field (service OS) Z) (name : string) (default : Z) : W unit :=
  o ← gets system;
  match RegQueryValueEx name 4 o with
  | Some bs => modify F (λ old, le_combine (bs ++ drop (length bs) (le_split 4 old)))
  | None => puts F default
  end.

(** False when a message box is shown instead. *)
Definition read_settings : W bool :=
  o ← gets system;
  if negb (RegOpenKeyEx SERVER_KEY o) then mret false else
  match RegQueryValueEx "logfile" 256 o with
  | None => mret false
  | Some name =>
      store_bytes LOGFILE 0 name;;
      match RegQueryValueEx "bind" 256 o with
      | Some ipstr => ip ← try Uninitialised (cstr ipstr); puts localaddr (inet_addr ip)
      | None => mret tt
      end;;
      read32 PORT "port" __PORT;;
      read32 AUTH_REQUIRED "auth_required" 0;;
      read32 AUTH_TYPES "auth_types" AUTH_NO_AUTH;;
      mret true
  end.

(** What main does before it starts the server; [None] to go on. *)
Definition main_start (args : list string) : W (option Z) :=
  puts f None;;
  puts debug (if given "-debug" args then 1 else 0);;
  puts service_mode (if given "-service" args then 1 else 0);;
  puts run 1;;
  puts pause 0;;
  puts sockets (replicate (Z.to_nat _MAX_SESSIONS) None);;
  when (given "-service" args)
    (name ← gets LOGFILE; name ← try OutOfBounds (cstr name); puts f (Some name));;
  rc ← option_command args;
  match rc with
  | Some rc => mret (Some rc)
  | None =>
      ok ← zoom system WSAStartup;
      if negb ok then DebugOut "main(): WSAStartup";; mret (Some 1) else
      ok ← read_settings;
      mret (if ok : bool then None else Some 0)
  end.

(** The thread of ServiceStart runs while main waits for it, in the dispatcher or in
    the dialog. *)
Definition serve (specificError : Z) (fuel : nat) : W unit :=
  service ← gets service_mode;
  if negb (service =? 0) then
    ok ← zoom system StartServiceCtrlDispatcher;
    if ok : bool then ServiceStart specificError fuel else DebugOut "main(): StartServiceCtrlDispatcher"
  else
    ok ← zoom system CreateThread;
    if ok : bool then ServiceStart specificError fuel;; ServiceExit;; mret tt
    else DebugOut "main(): CreateThread".

Definition main (args : list string) (specificError : Z) (fuel : nat) : W Z :=
  rc ← main_start args;
  match rc with
  | Some rc => mret rc
  | None => serve specificError fuel;; DebugOut "Exiting main()";; mret 0
  end.
End process.
