(* ===== verification/WServiceProperties.v ===== *)
(** * The process of the Windows server: sessions, settings, control *)
From stdpp Require Import gmap.
From S2P Require Import Prelude CMem Protocol Net Win32 Capi2032 WServer WServerProperties WService.
#[local] Open Scope Z_scope.

(** [m] keeps [I] and moves along [R], also when it runs out of fuel: with the fuel for
    [n] rounds of a loop, that is the state after [n] rounds. *)
Definition stays {S A} (I : S → Prop) (R : relation S) (m : M S A) : Prop :=
  ∀ s, I s → I (m s).2 ∧ R s (m s).2.

Section stays.
Context {S : Type} (I : S → Prop) (R : relation S) `{!PreOrder R}.

Lemma stays_ret {A} (a : A) : stays I R (mret a).
Proof. by intros s Hs. Qed.
Lemma stays_fail {A} f : stays I R (fail (A:=A) f).
Proof. by intros s Hs. Qed.
Lemma stays_bind {A B} (m : M S A) (k : A → M S B) :
  stays I R m → (∀ a, stays I R (k a)) → stays I R (m ≫= k).
Proof.
  intros Hm Hk s Hs. destruct (Hm s Hs) as (H2 & H3). unfold mbind, M_bind.
  destruct (m s) as [[a|f|c] s'] eqn:E; simpl in *; [|by split..].
  destruct (Hk a s' H2) as (H5 & H6). split; [done|]. by etrans.
Qed.
Lemma stays_when b (m : M S unit) : stays I R m → stays I R (when b m).
Proof. intros Hm. destruct b; [done|apply stays_ret]. Qed.
Lemma stays_if {A} (b : bool) (m1 m2 : M S A) : stays I R m1 → stays I R m2 → stays I R (if b then m1 else m2).
Proof. by destruct b. Qed.
Lemma stays_try {A} f (o : option A) : stays I R (try f o).
Proof. destruct o; [apply stays_ret|apply stays_fail]. Qed.
End stays.
Create HintDb stays.
#[export] Hint Resolve stays_ret stays_fail stays_bind stays_when stays_if stays_try : stays.

Section process.
Context {OS : Type} `{!WinService OS}.
Implicit Types s : service OS.

(** ** The table of sessions and the threads that use it *)
(** The first [k] places are taken. *)
Definition table (k : nat) (l : list (option Z)) : Prop :=
  length l = Z.to_nat _MAX_SESSIONS ∧ ∀ i x, l !! i = Some x → (is_Some x ↔ (i < k)%nat).

Definition sessions_ok s : Prop := ∃ k l z,
  (k ≤ Z.to_nat _MAX_SESSIONS)%nat ∧ table k (sv_sockets s) ∧ sv_threads s = l ++ replicate z 0 ∧
  l `sublist_of` seqZ 0 (Z.of_nat k) ∧ (z ≠ 0%nat → k = Z.to_nat _MAX_SESSIONS).

(** No place is given back, no thread forgotten. *)
Definition grows : relation (service OS) := λ s s',
  (∀ i h, sv_sockets s !! i = Some (Some h) → sv_sockets s' !! i = Some (Some h)) ∧
  sv_threads s `prefix_of` sv_threads s'.
#[export] Instance grows_preorder : PreOrder grows.
Proof.
  split; [by intros s; split|]. intros s1 s2 s3 [H1 H2] [H3 H4]. split; [auto|by etrans].
Qed.

Lemma table_full l : table (Z.to_nat _MAX_SESSIONS) l → first_free l 0 = None.
Proof.
  intros [Hl Ht]. pose proof (first_free_spec l 0) as Hf. destruct (first_free l 0) as [j|]; [|done].
  destruct Hf as (Hj & Hn & _). rewrite Z.sub_0_r in Hn. apply Ht in Hn. destruct Hn as [_ Hn].
  destruct Hn as [x Hx]; [lia|done].
Qed.

Lemma table_free k l : (k < Z.to_nat _MAX_SESSIONS)%nat → table k l → first_free l 0 = Some (Z.of_nat k).
Proof.
  intros Hk [Hl Ht]. pose proof (first_free_spec l 0) as Hf. rewrite <- Hl in Hk.
  destruct (lookup_lt_is_Some_2 l k Hk) as [x Hx].
  destruct (first_free l 0) as [j|].
  - destruct Hf as (Hj & Hn & Hb). rewrite Z.sub_0_r in Hn. f_equal.
    destruct (Z.lt_trichotomy j (Z.of_nat k)) as [Hlt|[->|Hgt]]; [|done|].
    + apply Ht in Hn. destruct Hn as [_ Hn]. destruct Hn as [? ?]; [lia|done].
    + destruct (Hb (Z.of_nat k)) as [h Hh]; [lia|]. rewrite Z.sub_0_r, Nat2Z.id in Hh.
      apply Ht in Hh. destruct Hh as [Hh _]. specialize (Hh ltac:(by eexists)). lia.
  - specialize (Hf k x Hx). apply Ht in Hx. apply Hx in Hf. lia.
Qed.

Lemma table_insert k l c : (k < Z.to_nat _MAX_SESSIONS)%nat → table k l → table (S k) (<[k := Some c]> l).
Proof.
  intros Hk [Hl Ht]. split; [by rewrite length_insert|]. intros i x Hx.
  destruct (decide (i = k)) as [->|Hne].
  - rewrite list_lookup_insert_eq in Hx by lia. injection Hx as <-. split; [lia|by eexists].
  - rewrite list_lookup_insert_ne in Hx by done. rewrite (Ht i x Hx). lia.
Qed.

(** What does not touch them. *)
Lemma stays_const {A} (m : M (service OS) A) :
  (∀ s, sv_sockets (m s).2 = sv_sockets s ∧ sv_threads (m s).2 = sv_threads s) → stays sessions_ok grows m.
Proof.
  intros Hm s Hs. destruct (Hm s) as [H1 H2]. split.
  - unfold sessions_ok in *. by rewrite H1, H2.
  - split; rewrite ?H1, ?H2; done.
Qed.
Lemma stays_gets {A} (F : field (service OS) A) : stays sessions_ok grows (gets F).
Proof. by apply stays_const. Qed.
Lemma stays_system {A} (g : OS → A * OS) : stays sessions_ok grows (zoom system g).
Proof. apply stays_const. intros s. unfold zoom. by destruct (g _). Qed.
Lemma stays_DebugOut msg : stays sessions_ok grows (DebugOut msg).
Proof. by apply stays_const. Qed.
#[local] Hint Resolve grows_preorder stays_gets stays_system stays_DebugOut : stays.

(** ** A connection *)
(** The thread of session [i] has been started, or not. *)
Definition started (ok : bool) (i : Z) s : service OS :=
  if ok then fset threads (sv_threads s ++ [i]) s
  else fset log (sv_log s ++ ["ServiceMain(): CreateThread"%string]) s.

Definition take_connection (c : Z) : M (service OS) bool :=
  sess ← allocSession sockets c;
  if sess =? -1 then DebugOut "ServiceMain(): no free session Ids";; mret true
  else
    ok ← zoom system CreateThread;
    (if ok : bool then modify threads (λ l, l ++ [sess]) else DebugOut "ServiceMain(): CreateThread");;
    mret true.

Lemma take_connection_run c s :
  take_connection c s =
    match first_free (sv_sockets s) 0 with
    | Some i => (Done true, started (CreateThread (sv_os s)).1 i
        (fset system (CreateThread (sv_os s)).2 (fset sockets (<[Z.to_nat i := Some c]> (sv_sockets s)) s)))
    | None => (Done true, started (CreateThread (sv_os s)).1 0 (fset system (CreateThread (sv_os s)).2 s))
    end.
Proof.
  unfold take_connection, allocSession. rewrite bind_assoc. erewrite bind_done by done. cbv beta.
  change (fget sockets s) with (sv_sockets s). pose proof (first_free_spec (sv_sockets s) 0) as Hf.
  destruct (first_free (sv_sockets s) 0) as [i|].
  - rewrite bind_assoc. erewrite bind_done by done. cbv beta. erewrite bind_done by done. cbv beta.
    rewrite (proj2 (Z.eqb_neq i (-1))) by lia. unfold zoom, started.
    unfold mbind at 1, M_bind at 1. change (fget system _) with (sv_os s).
    by destruct (CreateThread (sv_os s)) as [[] o].
  - erewrite bind_done by done. cbv beta. change (0 =? -1) with false. cbv iota. unfold zoom, started.
    unfold mbind at 1, M_bind at 1. change (fget system _) with (sv_os s).
    by destruct (CreateThread (sv_os s)) as [[] o].
Qed.

(** The connection to come next gets place [k], the first that is free; with none free
    its thread works on place 0. *)
Lemma take_connection_place k c s :
  table k (sv_sockets s) → (k ≤ Z.to_nat _MAX_SESSIONS)%nat →
  let s' := (take_connection c s).2 in
  (sv_threads s' = sv_threads s ∨
   sv_threads s' = sv_threads s ++ [if decide (k < Z.to_nat _MAX_SESSIONS)%nat then Z.of_nat k else 0]) ∧
  sv_sockets s' = (if decide (k < Z.to_nat _MAX_SESSIONS)%nat then <[k := Some c]> (sv_sockets s) else sv_sockets s).
Proof.
  intros Ht Hk. cbv zeta. rewrite take_connection_run. case_decide as Hlt.
  - rewrite (table_free k) by done. cbn [snd]. rewrite Nat2Z.id. unfold started.
    destruct (CreateThread (sv_os s)) as [[] o]; cbn; auto.
  - assert (k = Z.to_nat _MAX_SESSIONS) as -> by lia. rewrite table_full by done. cbn [snd]. unfold started.
    destruct (CreateThread (sv_os s)) as [[] o]; cbn; auto.
Qed.

Lemma stays_take_connection c : stays sessions_ok grows (take_connection c).
Proof.
  intros s (k & l & z & Hk & Ht & Hth & Hl & Hz).
  destruct (take_connection_place k c s Ht Hk) as [Hths Hso]. set (s' := (take_connection c s).2) in *.
  case_decide as Hlt.
  - assert (z = 0%nat) as -> by (destruct z; [done|]; specialize (Hz ltac:(done)); lia).
    cbn [replicate] in Hth. rewrite app_nil_r in Hth.
    assert (Hg : seqZ 0 (Z.of_nat (S k)) = seqZ 0 (Z.of_nat k) ++ [Z.of_nat k]).
    { rewrite Nat2Z.inj_succ. unfold Z.succ. by rewrite seqZ_app by lia. }
    split; [|split].
    + exists (S k), (if decide (sv_threads s' = sv_threads s) then l else l ++ [Z.of_nat k]), 0%nat.
      cbn [replicate]. rewrite app_nil_r, Hso. split_and!; [lia|by apply table_insert| | |done].
      * rewrite <- Hth. case_decide as Hd; [done|]. destruct Hths; [done|]. done.
      * rewrite Hg. case_decide; [by apply sublist_inserts_r|]. by apply sublist_app.
    + intros i h Hi. rewrite Hso. destruct (decide (i = k)) as [->|Hne]; [|by rewrite list_lookup_insert_ne].
      exfalso. apply Ht in Hi. destruct Hi as [Hi _]. specialize (Hi ltac:(by eexists)). lia.
    + destruct Hths as [->| ->]; [done|]. by apply prefix_app_r.
  - assert (k = Z.to_nat _MAX_SESSIONS) as -> by lia. split; [|split].
    + destruct Hths as [Hths|Hths].
      * exists (Z.to_nat _MAX_SESSIONS), l, z. rewrite Hso, Hths. by split_and!.
      * exists (Z.to_nat _MAX_SESSIONS), l, (S z). rewrite Hso, Hths, Hth.
        split_and!; [done|done| |done|done]. rewrite <- (assoc_L (++)). f_equal. symmetry. apply replicate_S_end.
    + by rewrite Hso.
    + destruct Hths as [->| ->]; [done|]. by apply prefix_app_r.
Qed.
#[local] Hint Resolve stays_take_connection : stays.

Lemma stays_accept_round : stays sessions_ok grows accept_round.
Proof.
  unfold accept_round. apply stays_bind; [apply _|auto with stays|]. intros sock.
  apply stays_bind; [apply _|auto with stays|]. intros [[]|]; [|auto 20 with stays..].
  apply stays_bind; [apply _|auto with stays|]. intros [c|]; [|auto 20 with stays].
  exact (stays_take_connection c).
Qed.

Lemma stays_controlled : stays sessions_ok grows controlled.
Proof. apply stays_const. intros s. unfold controlled, gets, mbind, M_bind. cbn. by destruct (sv_control s) as [|[] ?]. Qed.

Lemma stays_accept_loop fuel : stays sessions_ok grows (accept_loop fuel).
Proof.
  induction fuel as [|fuel IH]; cbn [accept_loop]; [auto with stays|].
  apply stays_bind; [apply _|apply stays_controlled|]. intros _.
  apply stays_bind; [apply _|auto with stays|]. intros r. apply stays_bind; [apply _|auto with stays|]. intros p.
  apply stays_if; [auto with stays|]. apply stays_if; [done|].
  apply stays_bind; [apply _|apply stays_accept_round|]. intros []; auto with stays.
Qed.

(** ** The process *)
Ltac stays_steps := repeat first
  [ progress intros
  | apply stays_controlled | apply stays_accept_loop
  | match goal with |- stays _ _ (match ?x with _ => _ end) => destruct x end
  | by auto 10 with stays
  | by (apply stays_const; intros ?)
  | apply stays_when
  | apply stays_bind; [apply _| |] ].

Lemma stays_CreateSocket port : stays sessions_ok grows (CreateSocket port).
Proof. unfold CreateSocket. stays_steps. Qed.
Lemma stays_ServiceInitialization : stays sessions_ok grows ServiceInitialization.
Proof. unfold ServiceInitialization. pose proof stays_CreateSocket. stays_steps. Qed.
Lemma stays_ServiceStart specific fuel : stays sessions_ok grows (ServiceStart specific fuel).
Proof.
  unfold ServiceStart, report_status. pose proof stays_ServiceInitialization.
  apply stays_bind; [apply _|auto with stays|]. intros sv. cbv zeta.
  apply stays_bind; [apply _|by destruct (negb (sv =? 0)); apply stays_const|]. intros _. stays_steps.
Qed.
Lemma stays_ServiceExit : stays sessions_ok grows ServiceExit.
Proof. unfold ServiceExit. stays_steps. Qed.
Lemma stays_option_command args : stays sessions_ok grows (option_command args).
Proof.
  assert (H1 : stays sessions_ok grows install) by (unfold install; stays_steps).
  assert (H2 : stays sessions_ok grows uninstall) by (unfold uninstall; stays_steps).
  induction args as [|a args IH]; cbn [option_command]; stays_steps.
Qed.
Lemma stays_read_settings : stays sessions_ok grows read_settings.
Proof.
  unfold read_settings, read32.
  stays_steps.
Qed.

(** From the clearing of the table on. *)
Lemma main_sessions args specific fuel s :
  sv_threads s = [] → sessions_ok (main args specific fuel s).2.
Proof.
  intros Hth. pose proof stays_read_settings as H1. pose proof stays_ServiceExit as H2.
  assert (H3 : ∀ args, stays sessions_ok grows (option_command args)) by apply stays_option_command.
  assert (H4 : stays sessions_ok grows (ServiceStart specific fuel)) by apply stays_ServiceStart.
  unfold main, main_start, serve. rewrite bind_assoc. erewrite bind_done by done. cbv beta.
  do 5 (rewrite bind_assoc; erewrite bind_done by done; cbv beta).
  match goal with |- sessions_ok (?m ?x).2 => set (s0 := x); assert (Hs : stays sessions_ok grows m) end.
  { apply stays_bind; [apply _| |].
    - stays_steps.
    - intros [rc|]; stays_steps. }
  apply Hs. exists 0%nat, [], 0%nat. split_and!; [lia| |done|by apply sublist_nil_l|done].
  split; [done|]. change (sv_sockets s0) with (replicate (Z.to_nat _MAX_SESSIONS) (@None Z)).
  intros i x [-> _]%lookup_replicate. split; [by intros [? ?]|lia].
Qed.

(** C14: the process gives every connection a place of its own in the table of
    sessions, and a thread, up to 127 of them: the sessions of these threads differ, and
    their places are taken.  No place is given back, since no session ends
    ([session_never_ends]): with the table full, each further connection is
    accepted and kept out of the table, and the thread that is started for it works on
    the socket of session 0. *)
Theorem service_sessions args specific fuel s :
  sv_threads s = [] →
  let s' := (main args specific fuel s).2 in
  (∃ l z, sv_threads s' = l ++ replicate z 0 ∧ NoDup l ∧
     (∀ i, i ∈ sv_threads s' → 0 ≤ i < _MAX_SESSIONS ∧ ∃ h, sv_sockets s' !! Z.to_nat i = Some (Some h)) ∧
     (None ∈ sv_sockets s' → z = 0%nat)) ∧
  ∀ o1 o2 c, None ∉ sv_sockets s' → select (sv_socke s') (sv_os s') = (Some true, o1) →
    accept (sv_socke s') o1 = (Some c, o2) → (CreateThread o2).1 = true →
    ∃ s2, accept_round s' = (Done true, s2) ∧ sv_sockets s2 = sv_sockets s' ∧ sv_threads s2 = sv_threads s' ++ [0].
Proof.
  intros Hth. cbv zeta. pose proof (main_sessions args specific fuel s Hth) as Hok.
  set (s' := (main args specific fuel s).2) in *. clearbody s'.
  destruct Hok as (k & l & z & Hk & Ht & Hths & Hl & Hz). unfold table, _MAX_SESSIONS in *. split.
  - exists l, z. split_and!; [done| | |].
    + eapply sublist_NoDup; [apply NoDup_seqZ|done].
    + intros i Hi. assert (Hik : 0 ≤ i < Z.of_nat k).
      { rewrite Hths in Hi. apply elem_of_app in Hi as [Hi|[-> Hne]%elem_of_replicate].
        - eapply elem_of_sublist in Hi; [|exact Hl]. apply elem_of_seqZ in Hi. lia.
        - specialize (Hz Hne). lia. }
      split; [lia|]. destruct Ht as [Hlen Ht].
      destruct (lookup_lt_is_Some_2 (sv_sockets s') (Z.to_nat i)) as [x Hx]; [lia|].
      destruct (Ht _ _ Hx) as [_ Hs]. destruct Hs as [h ->]; [lia|]. by exists h.
    + intros [j Hj]%list_elem_of_lookup. destruct Ht as [Hlen Ht]. destruct (decide (z = 0%nat)) as [|Hne]; [done|].
      specialize (Hz Hne). pose proof (lookup_lt_Some _ _ _ Hj). apply Ht in Hj. destruct Hj as [_ Hj].
      destruct Hj as [? ?]; [lia|done].
  - intros o1 o2 c Hfull Hsel Hacc Hct.
    assert (k = Z.to_nat 127) as ->.
    { destruct (decide (k = Z.to_nat 127)) as [|Hne]; [done|]. exfalso. apply Hfull. destruct Ht as [Hlen Ht].
      destruct (lookup_lt_is_Some_2 (sv_sockets s') k) as [x Hx]; [lia|]. apply list_elem_of_lookup. exists k.
      rewrite Hx. destruct x as [h|]; [|done]. apply Ht in Hx. destruct Hx as [Hx _]. specialize (Hx ltac:(by eexists)). lia. }
    set (s1 := fset system o2 (fset system o1 s')).
    assert (Hrun : accept_round s' = take_connection c s1).
    { unfold accept_round. erewrite bind_done by done. cbv beta. change (fget socke s') with (sv_socke s').
      rewrite (bind_done _ _ s' (Some true) (fset system o1 s')).
      2:{ unfold zoom. change (fget system s') with (sv_os s'). by rewrite Hsel. }
      cbv iota. rewrite (bind_done _ _ _ (Some c) s1); [done|].
      unfold zoom. change (fget system (fset system o1 s')) with o1. by rewrite Hacc. }
    rewrite Hrun, take_connection_run. change (sv_sockets s1) with (sv_sockets s').
    rewrite table_full by done. change (sv_os s1) with o2. unfold started. rewrite Hct.
    eexists. split; [reflexivity|]. by split.
Qed.






#[global] Instance control_code_eq_dec : EqDecision control_code.
Proof. solve_decision. Defined.




(** ** Settings *)
Definition is_command (a : string) : bool :=
  String.eqb a "-i" || String.eqb a "-u" || (String.eqb a "-?" || String.eqb a "-help").

Lemma option_command_none args s : forallb (λ a, negb (is_command a)) args = true → option_command args s = (Done None, s).
Proof.
  induction args as [|a args IH]; [done|]. cbn [forallb option_command]. unfold is_command.
  destruct (String.eqb a "-i"); [done|]. destruct (String.eqb a "-u"); [done|].
  destruct (String.eqb a "-?" || String.eqb a "-help"); [done|]. exact IH.
Qed.

(** A value of four bytes, or the default. *)
Definition setting (o : option (list byte)) (default : Z) : Z :=
  match o with Some bs => le_combine bs | None => default end.

Lemma read32_run F name default s :
  (∀ bs, RegQueryValueEx name 4 (sv_os s) = Some bs → length bs = 4%nat) →
  read32 F name default s = (Done tt, fset F (setting (RegQueryValueEx name 4 (sv_os s)) default) s).
Proof.
  intros Hl. unfold read32. erewrite bind_done by done. cbv beta. change (fget system s) with (sv_os s).
  destruct (RegQueryValueEx name 4 (sv_os s)) as [bs|] eqn:E; [|done]. specialize (Hl bs eq_refl). unfold modify, setting.
  rewrite (drop_ge (le_split 4 _)); [by rewrite app_nil_r|]. by rewrite length_le_split, Hl.
Qed.

Definition log_opened (args : list string) (name : option (list byte)) : option (list byte) :=
  if given "-service" args then name else None.

(** Without one of the options that end it, main takes the values of the
    registry, or the defaults for what is not there, for the port and for the
    authentication; but a server that runs as a service has opened its log file by then:
    under the default name, whatever the value [logfile] says. *)
Theorem service_settings args name o1 s :
  forallb (λ a, negb (is_command a)) args = true → blen (sv_LOGFILE s) = 256 → is_Some (cstr (sv_LOGFILE s)) →
  WSAStartup (sv_os s) = (true, o1) → RegOpenKeyEx SERVER_KEY o1 = true →
  RegQueryValueEx "logfile" 256 o1 = Some name → blen name ≤ 256 →
  (∀ ip, RegQueryValueEx "bind" 256 o1 = Some ip → is_Some (cstr ip)) →
  (∀ v bs, v ∈ ["port"; "auth_required"; "auth_types"]%string → RegQueryValueEx v 4 o1 = Some bs → length bs = 4%nat) →
  ∃ s', main_start args s = (Done None, s') ∧
    sv_PORT s' = setting (RegQueryValueEx "port" 4 o1) __PORT ∧
    sv_AUTH_TYPES s' = setting (RegQueryValueEx "auth_types" 4 o1) AUTH_NO_AUTH ∧
    sv_AUTH_REQUIRED s' = setting (RegQueryValueEx "auth_required" 4 o1) 0 ∧
    sv_localaddr s' = default (sv_localaddr s) (inet_addr <$> (RegQueryValueEx "bind" 256 o1 ≫= cstr)) ∧
    sv_f s' = log_opened args (cstr (sv_LOGFILE s)) ∧
    sv_LOGFILE s' = name ++ drop (length name) (sv_LOGFILE s) ∧
    (negb (sv_service s' =? 0) = given "-service" args).
Proof.
  intros Hargs Hlf [lf Hcs] Hws Hkey Hlog Hn Hbind Hlen. unfold main_start, log_opened.
  do 6 (erewrite bind_done by done; cbv beta).
  match goal with |- ∃ s', (_ ≫= ?k) ?x = _ ∧ _ => set (s0 := x);
    rewrite (bind_done _ k s0 tt (fset f (if given "-service" args then Some lf else None) s0)) end.
  2:{ destruct (given "-service" args); [|done]. cbn [when]. erewrite bind_done by done. cbv beta.
      change (fget LOGFILE s0) with (sv_LOGFILE s). rewrite Hcs. done. }
  set (s1 := fset f _ s0). rewrite (bind_done _ _ _ _ _ (option_command_none args s1 Hargs)).
  rewrite (bind_done _ _ s1 true (fset system o1 s1)).
  2:{ unfold zoom. change (fget system s1) with (sv_os s). by rewrite Hws. }
  cbn [negb]. set (s2 := fset system o1 s1).
  assert (Hread : ∃ s3, read_settings s2 = (Done true, s3) ∧
    sv_PORT s3 = setting (RegQueryValueEx "port" 4 o1) __PORT ∧
    sv_AUTH_TYPES s3 = setting (RegQueryValueEx "auth_types" 4 o1) AUTH_NO_AUTH ∧
    sv_AUTH_REQUIRED s3 = setting (RegQueryValueEx "auth_required" 4 o1) 0 ∧
    sv_localaddr s3 = default (sv_localaddr s) (inet_addr <$> (RegQueryValueEx "bind" 256 o1 ≫= cstr)) ∧ sv_f s3 = sv_f s1 ∧
    sv_LOGFILE s3 = name ++ drop (length name) (sv_LOGFILE s) ∧ sv_service s3 = sv_service s1).
  { unfold read_settings. erewrite bind_done by done. cbv beta. change (fget system s2) with o1.
    rewrite Hkey, Hlog. cbn [negb].
    erewrite bind_done.
    2:{ apply store_bytes_run. change (fget LOGFILE s2) with (sv_LOGFILE s). apply (splice_append [] (sv_LOGFILE s) 0 name); [done|].
        unfold blen in *. lia. }
    cbv beta. destruct (RegQueryValueEx "bind" 256 o1) as [ipstr|] eqn:Eb.
    - destruct (Hbind _ eq_refl) as [ip Hip]. erewrite bind_done.
      2:{ erewrite bind_done by by apply try_done. done. }
      cbv beta. do 3 (erewrite bind_done by (by apply read32_run; intros bs; apply Hlen; set_solver); cbv beta).
      eexists. split; [reflexivity|]. cbn [mbind option_bind]. rewrite Hip. by split_and!.
    - erewrite bind_done by done. cbv beta. do 3 (erewrite bind_done by (by apply read32_run; intros bs; apply Hlen; set_solver); cbv beta).
      eexists. split; [reflexivity|]. by split_and!. }
  destruct Hread as (s3 & Hr & ? & ? & ? & ? & Hf & ? & Hsv). rewrite (bind_done _ _ _ _ _ Hr).
  exists s3. split_and!; try done.
  - rewrite Hf, Hcs. unfold s1. by destruct (given "-service" args).
  - rewrite Hsv. unfold s1, s0. cbn. by destruct (given "-service" args).
Qed.
End process.

(** * The process of the Windows server on concrete runs *)
From S2P Require Import WClientSpec DemoWindows DemoCapi2032.

(** A connection is always waiting; it has the handle 55. *)
#[global] Instance demo_win_service : WinService windows := {|
  wv_server := demo_win_server;
  GetLastError := λ o, 0;
  OpenSCManager := λ o, (true, o);
  GetModuleFileName := λ o, bytes_of_string "C:\capi20server.exe";
  CreateService := λ p o, (true, o);
  OpenService := λ o, (true, o);
  DeleteService := λ o, (true, o);
  StartServiceCtrlDispatcher := λ o, (true, o);
  RegisterServiceCtrlHandler := λ o, (true, o);
  SetServiceStatus := λ st o, (true, o);
  new_socket := λ o, (Some 7, o);
  bind := λ s a p o, (true, o);
  listen := λ s o, o;
  select := λ s o, (Some true, o);
  accept := λ s o, (Some 55, o);
  shutdown := λ s o, o;
  close_socket := λ s o, o;
  WaitForSingleObject := λ o, (true, o);
  TerminateThread := λ o, o;
|}.

Definition log_name : list byte := __LOGFILE ++ zeros (256 - blen __LOGFILE).
Definition demo_service (control : list (Z * Z)) : service windows :=
  mkService [] (mkStatus SERVICE_RUNNING 0 0 0 0) 1 0 0 0 0 [] None 0 __PORT log_name AUTH_NO_AUTH 0 None [] control [].

Lemma service_sessions_witness :
  ∃ l z, sv_threads (main [] 0 3 (demo_service [])).2 = l ++ replicate z 0 ∧ NoDup l.
Proof.
  destruct (service_sessions [] 0 3 (demo_service [])) as [(l & z & Hl & Hn & _) _].
  - reflexivity.
  - exists l, z. split; [exact Hl|exact Hn].
Defined.


Lemma service_settings_witness :
  ∃ s', main_start ["-service"%string] (demo_service []) = (Done None, s') ∧ sv_PORT s' = 6674 ∧
    sv_f s' = Some __LOGFILE.
Proof.
  destruct (service_settings ["-service"%string] (bytes_of_string "guest" ++ [x00]) [] (demo_service []))
    as (s' & Hs & Hp & _ & _ & _ & Hf & _).
  - reflexivity.
  - reflexivity.
  - exists __LOGFILE. vm_compute. reflexivity.
  - reflexivity.
  - reflexivity.
  - reflexivity.
  - eval_le.
  - intros ip. intros [= <-]. exists (bytes_of_string "guest"). reflexivity.
  - intros v bs Hv. assert (Hq : win_registry v 4 [] = None).
    { revert v Hv. apply Forall_forall. repeat (apply Forall_cons; split; [reflexivity|]). by apply Forall_nil. }
    intros Hb. change (win_registry v 4 [] = Some bs) in Hb. congruence.
  - exists s'. split; [exact Hs|]. split; [exact Hp|]. etransitivity; [exact Hf|]. vm_compute. reflexivity.
Defined.
