(* ===== verification/Applet.v ===== *)
(** * The control panel applets (win32-client/CPL/CPL.cpp, win32-server/CPL/CPL.cpp)

    A dialog that shows values of the registry and writes them back.  The two files
    differ in what they read: in [handler] the key, the names of two of its values and
    the default of one, and the columns of a list are parameters, which the Modules
    [ClientApplet] and [ServerApplet] set.  The registry is the class [Registry], the
    controls of the dialog are fields of the state. *)
From stdpp Require Import pretty.
From S2P Require Import Prelude CMem CText.
#[local] Open Scope Z_scope.

Inductive value_type := REG_SZ | REG_DWORD.

Class Registry (OS : Type) := {
  (** Can the key be opened; is it to be written. *)
  RegOpenKey : string → bool → OS → bool;
  (** The value, when there is one of at most so many bytes. *)
  RegQueryValue : string → string → Z → OS → option (list byte);
  RegSetValue : string → string → value_type → list byte → OS → bool * OS;
}.

(** A string is stored as it is given, or with the NUL that was not counted. *)
Definition as_stored (type : value_type) (bs stored : list byte) : Prop :=
  stored = bs ∨ type = REG_SZ ∧ stored = bs ++ [x00].

Class RegistryLaws (OS : Type) `{Registry OS} := {
  stored : string → string → OS → option (list byte);
  RegQueryValue_stored key v n o :
    RegQueryValue key v n o = match stored key v o with
                              | Some bs => if decide (blen bs ≤ n) then Some bs else None
                              | None => None
                              end;
  RegSetValue_stored key v type bs o o' :
    RegSetValue key v type bs o = (true, o') → ∃ bs', stored key v o' = Some bs' ∧ as_stored type bs bs';
  RegSetValue_failed key v type bs o o' key' v' :
    RegSetValue key v type bs o = (false, o') → stored key' v' o' = stored key' v' o;
  RegSetValue_other key v type bs o key' v' :
    (key', v') ≠ (key, v) → stored key' v' (RegSetValue key v type bs o).2 = stored key' v' o;
  RegSetValue_open key v type bs o key' w : RegOpenKey key' w (RegSetValue key v type bs o).2 = RegOpenKey key' w o;
}.

(** Resource ids (resource.h), what the control panel asks for. *)
Definition IDS_NAME := 1.
Definition IDS_DESC := 2.
Definition IDI_ICON := 1005.
Record CPLINFO := mkInfo { lData : Z; idIcon : Z; idName : Z; idInfo : Z }.

Record applet (OS : Type) := mkApplet {
  ap_os : OS;
  ap_frame : list byte;             (**r the part of the frame where [ip1] to [ip4] and nothing else are *)
  ap_ip_at : list Z;                (**r where each of them is in it *)
  ap_name_buffer : list byte;       (**r [char name[64]] *)
  ap_str_port : list byte;          (**r [char str_port[10]] *)
  ap_address : Z;                   (**r the controls IDC_IPADDRESS, IDC_NAME, IDC_PORT, IDC_USERS *)
  ap_name : list byte;
  ap_port : list byte;
  ap_columns : list string;
  ap_result : option Z;             (**r of EndDialog *)
  ap_boxes : list string;           (**r message boxes *)
  ap_info : option CPLINFO;
}.
Arguments mkApplet {OS}.
Arguments ap_os {OS}.
Arguments ap_frame {OS}.
Arguments ap_ip_at {OS}.
Arguments ap_name_buffer {OS}.
Arguments ap_str_port {OS}.
Arguments ap_address {OS}.
Arguments ap_name {OS}.
Arguments ap_port {OS}.
Arguments ap_columns {OS}.
Arguments ap_result {OS}.
Arguments ap_boxes {OS}.
Arguments ap_info {OS}.

Section fields.
Context {OS : Type}.
Abbreviation st := (applet OS).

Definition system : field st OS := mkField ap_os (λ v s,
  mkApplet v (ap_frame s) (ap_ip_at s) (ap_name_buffer s) (ap_str_port s) (ap_address s) (ap_name s) (ap_port s) (ap_columns s) (ap_result s) (ap_boxes s) (ap_info s)).
Definition frame : field st (list byte) := mkField ap_frame (λ v s,
  mkApplet (ap_os s) v (ap_ip_at s) (ap_name_buffer s) (ap_str_port s) (ap_address s) (ap_name s) (ap_port s) (ap_columns s) (ap_result s) (ap_boxes s) (ap_info s)).
Definition name_buffer : field st (list byte) := mkField ap_name_buffer (λ v s,
  mkApplet (ap_os s) (ap_frame s) (ap_ip_at s) v (ap_str_port s) (ap_address s) (ap_name s) (ap_port s) (ap_columns s) (ap_result s) (ap_boxes s) (ap_info s)).
Definition str_port : field st (list byte) := mkField ap_str_port (λ v s,
  mkApplet (ap_os s) (ap_frame s) (ap_ip_at s) (ap_name_buffer s) v (ap_address s) (ap_name s) (ap_port s) (ap_columns s) (ap_result s) (ap_boxes s) (ap_info s)).
Definition address : field st Z := mkField ap_address (λ v s,
  mkApplet (ap_os s) (ap_frame s) (ap_ip_at s) (ap_name_buffer s) (ap_str_port s) v (ap_name s) (ap_port s) (ap_columns s) (ap_result s) (ap_boxes s) (ap_info s)).
Definition name : field st (list byte) := mkField ap_name (λ v s,
  mkApplet (ap_os s) (ap_frame s) (ap_ip_at s) (ap_name_buffer s) (ap_str_port s) (ap_address s) v (ap_port s) (ap_columns s) (ap_result s) (ap_boxes s) (ap_info s)).
Definition port : field st (list byte) := mkField ap_port (λ v s,
  mkApplet (ap_os s) (ap_frame s) (ap_ip_at s) (ap_name_buffer s) (ap_str_port s) (ap_address s) (ap_name s) v (ap_columns s) (ap_result s) (ap_boxes s) (ap_info s)).
Definition columns : field st (list string) := mkField ap_columns (λ v s,
  mkApplet (ap_os s) (ap_frame s) (ap_ip_at s) (ap_name_buffer s) (ap_str_port s) (ap_address s) (ap_name s) (ap_port s) v (ap_result s) (ap_boxes s) (ap_info s)).
Definition result : field st (option Z) := mkField ap_result (λ v s,
  mkApplet (ap_os s) (ap_frame s) (ap_ip_at s) (ap_name_buffer s) (ap_str_port s) (ap_address s) (ap_name s) (ap_port s) (ap_columns s) v (ap_boxes s) (ap_info s)).
Definition boxes : field st (list string) := mkField ap_boxes (λ v s,
  mkApplet (ap_os s) (ap_frame s) (ap_ip_at s) (ap_name_buffer s) (ap_str_port s) (ap_address s) (ap_name s) (ap_port s) (ap_columns s) (ap_result s) v (ap_info s)).
Definition info : field st (option CPLINFO) := mkField ap_info (λ v s,
  mkApplet (ap_os s) (ap_frame s) (ap_ip_at s) (ap_name_buffer s) (ap_str_port s) (ap_address s) (ap_name s) (ap_port s) (ap_columns s) (ap_result s) (ap_boxes s) v).

(** The address of the [k]-th of [ip1] to [ip4]. *)
Definition ip_at (k : nat) : M st Z := λ s, try OutOfBounds (ap_ip_at s !! k) s.

Definition MessageBox (msg : string) : M st unit := modify boxes (λ l, l ++ [msg]).
Definition EndDialog (code : Z) : M st unit := puts result (Some code).
End fields.

(** ** Macros of the Windows headers *)
Definition IDOK := 1.
Definition IDCANCEL := 2.
Definition MAKEIPADDRESS (b1 b2 b3 b4 : Z) : Z :=
  Z.shiftl b1 24 + Z.shiftl b2 16 + Z.shiftl b3 8 + b4.
Definition FIRST_IPADDRESS (x : Z) : Z := Z.land (Z.shiftr x 24) 255.
Definition SECOND_IPADDRESS (x : Z) : Z := Z.land (Z.shiftr x 16) 255.
Definition THIRD_IPADDRESS (x : Z) : Z := Z.land (Z.shiftr x 8) 255.
Definition FOURTH_IPADDRESS (x : Z) : Z := Z.land x 255.

(** The messages a dialog gets, and those of the control panel. *)
Inductive dialog_message := WM_INITDIALOG | WM_CLOSE | WM_COMMAND (id : Z) | WM_OTHER.
Inductive cpl_message := CPL_INIT | CPL_GETCOUNT | CPL_INQUIRE | CPL_DBLCLK | CPL_STOP | CPL_EXIT | CPL_OTHER.

Section applet.
Context {OS : Type} `{Registry OS}.
Abbreviation A := (M (applet OS)).

(** ** What the two files have in common *)
(** [sscanf(server, ..., &ip1, ...)] stores an int of four bytes where a [char] is
    declared, one number after the other: a store may run over a variable that is
    next to the one it is for.  What the numbers are read from has been converted to text. *)
Fixpoint store_numbers (k : nat) (l : list Z) : A unit :=
  match l with
  | [] => mret tt
  | v :: l => v ← try Unrepresentable (as_int v); p ← ip_at k; store32 frame p v;; store_numbers (S k) l
  end.
(** The value of the [k]-th variable, if it has been stored. *)
Definition load_ip (stored k : nat) : A Z :=
  if decide (k < stored)%nat then p ← ip_at k; load8 frame p else fail Uninitialised.

Definition show_address (server : list byte) : A unit :=
  let numbers := scan_dotted 4 (String.string_of_list_byte server) in
  store_numbers 0 numbers;;
  ip1 ← load_ip (length numbers) 0;
  ip2 ← load_ip (length numbers) 1;
  ip3 ← load_ip (length numbers) 2;
  ip4 ← load_ip (length numbers) 3;
  puts address (MAKEIPADDRESS ip1 ip2 ip3 ip4).

(** A string that has been read, or the default. *)
Definition string_value (o : option (list byte)) (default : string) : A (list byte) :=
  match o with
  | Some bs => try Uninitialised (cstr bs)
  | None => mret (bytes_of_string default)
  end.

Definition init_dialog (KEY ADDRESS NAME DEFAULT_NAME : string) (COLUMNS : list string) : A bool :=
  o ← gets system;
  if negb (RegOpenKey KEY false o) then MessageBox "Could not open Registry Key";; mret false else
  server ← string_value (RegQueryValue KEY ADDRESS 256 o) "10.0.0.1";
  show_address server;;
  text ← string_value (RegQueryValue KEY NAME 64 o) DEFAULT_NAME;
  puts name text;;
  p ← match RegQueryValue KEY "port" 4 o with
      | Some bs => try Uninitialised (get_u32 bs 0)
      | None => mret 6674
      end;
  store_cstr str_port 0 (bytes_of_string (pretty (s32 p)));;
  text ← load_cstr str_port 0;
  puts port text;;
  modify columns (λ l, l ++ COLUMNS);;
  mret true.

Definition set_value (KEY v : string) (type : value_type) (bs : list byte) : A unit :=
  ok ← zoom system (RegSetValue KEY v type bs);
  if ok : bool then mret tt else MessageBox "Could not write Registry Value".

(** WM_GETTEXT into a buffer of the length of the text. *)
Definition get_text (control buffer : field (applet OS) (list byte)) : A (list byte) :=
  text ← gets control;
  store_cstr buffer 0 text;;
  load_cstr buffer 0.

(** case IDOK *)
Definition save (KEY : string) : A unit :=
  o ← gets system;
  if negb (RegOpenKey KEY true o) then MessageBox "Could not open Registry Key" else
  ip ← gets address;
  set_value KEY "server" REG_SZ
    (bytes_of_string (dotted (FIRST_IPADDRESS ip) (SECOND_IPADDRESS ip) (THIRD_IPADDRESS ip) (FOURTH_IPADDRESS ip)));;
  text ← get_text name name_buffer;
  set_value KEY "name" REG_SZ text;;
  text ← get_text port str_port;
  p ← try Unrepresentable (atoi (String.string_of_list_byte text));
  set_value KEY "port" REG_DWORD (le_split 4 p);;
  EndDialog IDOK.

Definition dialog_handler (init : A bool) (ok : A unit) (msg : dialog_message) : A bool :=
  match msg with
  | WM_INITDIALOG => init
  | WM_CLOSE => EndDialog IDCANCEL;; mret true
  | WM_COMMAND id =>
      (if id =? IDOK then ok else if id =? IDCANCEL then EndDialog IDCANCEL else mret tt);;
      mret true
  | WM_OTHER => mret false
  end.

(** The dialog gets messages until it is ended. *)
Fixpoint dialog_loop (handler : dialog_message → A bool) (msgs : list dialog_message) : A unit :=
  r ← gets result;
  match r, msgs with
  | None, msg :: msgs => handler msg;; dialog_loop handler msgs
  | _, _ => mret tt
  end.
Definition DialogBox (handler : dialog_message → A bool) (msgs : list dialog_message) : A unit :=
  puts result None;;
  dialog_loop handler (WM_INITDIALOG :: msgs).

(** [msgs] are the messages of a dialog that is opened. *)
Definition applet_main (handler : dialog_message → A bool) (msgs : list dialog_message) (uMsg : cpl_message) : A Z :=
  match uMsg with
  | CPL_INIT => mret 1
  | CPL_GETCOUNT => mret 1
  | CPL_INQUIRE => puts info (Some (mkInfo 0 IDI_ICON IDS_NAME IDS_DESC));; mret 0
  | CPL_DBLCLK => DialogBox handler msgs;; mret 0
  | CPL_STOP | CPL_EXIT | CPL_OTHER => mret 0
  end.
End applet.

Definition CLIENT_KEY : string := "Software\The Red Guy\capi20proxy".

Module ClientApplet.
Section client.
Context {OS : Type} `{Registry OS}.
Definition handler : dialog_message → M (applet OS) bool :=
  dialog_handler (init_dialog CLIENT_KEY "server" "name" "Freddy" []) (save CLIENT_KEY).
Definition CPlApplet (msgs : list dialog_message) (uMsg : cpl_message) : M (applet OS) Z := applet_main handler msgs uMsg.
End client.
End ClientApplet.

Module ServerApplet.
Definition SERVER_KEY : string := "Software\capi20proxy\server".
Section server.
Context {OS : Type} `{Registry OS}.
Definition handler : dialog_message → M (applet OS) bool :=
  dialog_handler (init_dialog SERVER_KEY "bind" "logfile" "capi20proxy.log" ["user"; "pass"]%string) (save CLIENT_KEY).
Definition CPlApplet (msgs : list dialog_message) (uMsg : cpl_message) : M (applet OS) Z := applet_main handler msgs uMsg.
End server.
End ServerApplet.
