(* ===== verification/AppletProperties.v ===== *)
(** * The control panel applets: properties *)
From stdpp Require Import gmap pretty sets.
From S2P Require Import Prelude CMem CText Applet.
#[local] Open Scope Z_scope.

(** ** Addresses as numbers *)
Lemma ip_parts x : 
  FIRST_IPADDRESS x = (x / 2 ^ 24) `mod` 256 ∧ SECOND_IPADDRESS x = (x / 2 ^ 16) `mod` 256 ∧
  THIRD_IPADDRESS x = (x / 2 ^ 8) `mod` 256 ∧ FOURTH_IPADDRESS x = x `mod` 256.
Proof.
  unfold FIRST_IPADDRESS, SECOND_IPADDRESS, THIRD_IPADDRESS, FOURTH_IPADDRESS. change 255 with (Z.ones 8).
  rewrite !Z.land_ones, !Z.shiftr_div_pow2 by lia. by split_and!.
Qed.

Lemma make_ip a b c d : MAKEIPADDRESS a b c d = a * 2 ^ 24 + b * 2 ^ 16 + c * 2 ^ 8 + d.
Proof. unfold MAKEIPADDRESS. by rewrite !Z.shiftl_mul_pow2 by lia. Qed.

Lemma ip_parts_make a b c d : octet a → octet b → octet c → octet d →
  let x := MAKEIPADDRESS a b c d in
  FIRST_IPADDRESS x = a ∧ SECOND_IPADDRESS x = b ∧ THIRD_IPADDRESS x = c ∧ FOURTH_IPADDRESS x = d.
Proof.
  unfold octet. intros Ha Hb Hc Hd. cbv zeta. rewrite make_ip.
  destruct (ip_parts (a * 2 ^ 24 + b * 2 ^ 16 + c * 2 ^ 8 + d)) as (-> & -> & -> & ->).
  change (2 ^ 24) with 16777216. change (2 ^ 16) with 65536. change (2 ^ 8) with 256.
  split_and!; Z.to_euclidean_division_equations; lia.
Qed.

Lemma octets_of x : octet (FIRST_IPADDRESS x) ∧ octet (SECOND_IPADDRESS x) ∧ octet (THIRD_IPADDRESS x) ∧ octet (FOURTH_IPADDRESS x).
Proof. split_and!; apply octet_range. Qed.

Section applet.
Context {OS : Type} `{!Registry OS, !RegistryLaws OS}.
Implicit Types s : applet OS.

#[export] Instance name_buffer_lawful : LawfulField (name_buffer (OS:=OS)).
Proof. by constructor; [|intros []|]. Qed.
#[export] Instance str_port_lawful : LawfulField (str_port (OS:=OS)).
Proof. by constructor; [|intros []|]. Qed.

(** ** The memory of the dialog *)
(** Four addresses, and four bytes at each that belong to none of the other variables
    of the function. *)
Definition laid_out s : Prop :=
  length (ap_ip_at s) = 4%nat ∧ NoDup (ap_ip_at s) ∧ Forall (λ p, 0 ≤ p ∧ p + 4 ≤ blen (ap_frame s)) (ap_ip_at s).
Record dialog_memory s : Prop := mkDialogMemory {
  dm_ip : laid_out s;
  dm_name : blen (ap_name_buffer s) = 64;
  dm_port : blen (ap_str_port s) = 10;
}.

(** A later store covers the [k]-th of the variables at [at_]. *)
Definition overrun (at_ : list Z) (k : nat) : Prop :=
  match at_ !! k with
  | Some p => Exists (λ q, q < p < q + 4) (drop (S k) at_)
  | None => False
  end.
#[export] Instance overrun_dec at_ k : Decision (overrun at_ k).
Proof. unfold overrun. destruct (at_ !! k); apply _. Defined.
(** What is in the variable in the end. *)
Definition left_octet (at_ : list Z) (k : nat) (v : Z) : Z := if decide (overrun at_ k) then 0 else v.

Lemma left_octet_octet at_ k v : octet v → octet (left_octet at_ k v).
Proof. unfold left_octet, octet. case_decide; lia. Qed.

(** What a store changes. *)
Lemma get_store m p v m' q :
  octet v → 0 ≤ p → 0 ≤ q < blen m → splice m p (le_split 4 v) = Some m' →
  get_u8 m' q = if decide (q = p) then Some v else if decide (p < q < p + 4) then Some 0 else get_u8 m q.
Proof.
  intros Hv Hp Hq Hs. assert (Hb : le_split 4 v = le_split 1 v ++ [x00; x00; x00]).
  { unfold octet in Hv. change (le_split 4 v) with (le_split 1 v ++ le_split 3 (Z.shiftr v 8)).
    rewrite Z.shiftr_div_pow2, Z.div_small by lia. done. }
  destruct (decide (q < p)) as [|Hge].
  { rewrite decide_False, decide_False by lia. apply (get_le_splice_before _ _ _ _ _ _ Hs). lia. }
  destruct (decide (p + 4 ≤ q)) as [|Hlt].
  { rewrite decide_False, decide_False by lia. apply (get_le_splice_after _ _ _ _ _ _ Hs).
    unfold blen. by rewrite length_le_split. }
  rewrite Hb in Hs. unfold splice in Hs. case_decide as Hd; [|done]. apply (inj Some) in Hs. subst m'.
  set (post := drop _ m). set (pre := take (Z.to_nat p) m).
  assert (Hpre : blen pre = p).
  { unfold pre, blen in *. rewrite length_app, length_le_split in Hd. rewrite length_take. cbn in Hd. lia. }
  assert (Hz : ∀ mid post', le_split 1 v ++ [x00; x00; x00] ++ post = mid ++ le_split 1 0 ++ post' → q = p + blen mid →
    get_u8 (pre ++ (le_split 1 v ++ [x00; x00; x00]) ++ post) q = Some 0).
  { intros mid post' E ->. rewrite <- (assoc_L (++)), E, (assoc_L (++)). rewrite (get_le_at 1 (pre ++ mid)); [done|].
    by rewrite blen_app, Hpre. }
  case_decide as Heq.
  - subst q. rewrite <- (assoc_L (++)), (get_le_at 1 pre v) by done. unfold octet in Hv. by rewrite Z.mod_small by lia.
  - rewrite decide_True by lia.
    destruct (decide (q = p + 1)); [by apply (Hz (le_split 1 v) ([x00; x00] ++ post))|].
    destruct (decide (q = p + 2)); [by apply (Hz (le_split 1 v ++ [x00]) ([x00] ++ post))|].
    apply (Hz (le_split 1 v ++ [x00; x00]) post); [done|]. unfold blen. rewrite length_app, length_le_split. cbn. lia.
Qed.

Lemma store_run v p k s (K : M (applet OS) unit) :
  octet v → ap_ip_at s !! k = Some p → 0 ≤ p ∧ p + 4 ≤ blen (ap_frame s) →
  ∃ m, (v ← try Unrepresentable (as_int v); p ← ip_at k; store32 frame p v;; K) s = K (fset frame m s) ∧
    splice (ap_frame s) p (le_split 4 v) = Some m ∧ blen m = blen (ap_frame s).
Proof.
  intros Hv Hp Hb. assert (Hs : is_Some (splice (ap_frame s) p (le_split 4 v))).
  { rewrite splice_Some; [by eexists|lia|]. unfold blen at 1. rewrite length_le_split. lia. }
  destruct Hs as [m Hs]. exists m. split_and!; [|done|].
  - assert (Hi : try Unrepresentable (as_int v) s = (Done v, s)).
    { unfold octet in Hv. unfold as_int. by rewrite decide_True by lia. }
    rewrite (bind_done _ _ _ _ _ Hi). rewrite (bind_done _ _ s p s) by (unfold ip_at; by rewrite Hp).
    by rewrite (bind_done _ _ _ _ _ (store_bytes_run frame _ _ _ _ Hs)).
  - unfold blen. by rewrite (splice_length _ _ _ _ Hs).
Qed.

Lemma load_ip_run k p v s :
  (k < 4)%nat → ap_ip_at s !! k = Some p → get_u8 (ap_frame s) p = Some v → load_ip 4 k s = (Done v, s).
Proof.
  intros Hk Hp Hv. unfold load_ip. rewrite decide_True by done.
  rewrite (bind_done _ _ s p s) by (unfold ip_at; by rewrite Hp). by apply load_run.
Qed.

Lemma overrun_cases p1 p2 p3 p4 :
  let over p q := q < p < q + 4 in let at_ := [p1; p2; p3; p4] in
  (overrun at_ 0 ↔ over p1 p2 ∨ over p1 p3 ∨ over p1 p4) ∧ (overrun at_ 1 ↔ over p2 p3 ∨ over p2 p4) ∧
  (overrun at_ 2 ↔ over p3 p4) ∧ ¬ overrun at_ 3.
Proof. unfold overrun. cbn. rewrite !Exists_cons, !Exists_nil. tauto. Qed.

(** Variables one after the other, at descending addresses. *)
Lemma descending_overrun x :
  let at_ := [x + 3; x + 2; x + 1; x] in overrun at_ 0 ∧ overrun at_ 1 ∧ overrun at_ 2 ∧ ¬ overrun at_ 3.
Proof.
  destruct (overrun_cases (x + 3) (x + 2) (x + 1) x) as (O1 & O2 & O3 & O4). cbv zeta.
  split_and!; [apply O1; lia|apply O2; lia|apply O3; lia|exact O4].
Qed.

(** Variables with four bytes each. *)
Lemma apart_no_overrun at_ k :
  (∀ i j x y, at_ !! i = Some x → at_ !! j = Some y → i ≠ j → x + 4 ≤ y ∨ y + 4 ≤ x) → ¬ overrun at_ k.
Proof.
  intros Hapart. unfold overrun. destruct (at_ !! k) as [p|] eqn:Hk; [|tauto].
  intros (q & [i Hi]%list_elem_of_lookup & Hq)%Exists_exists. rewrite lookup_drop in Hi.
  pose proof (Hapart k (S k + i)%nat p q Hk Hi). lia.
Qed.

(** The byte at the address of a variable after the four stores. *)
Ltac win_octet Hget :=
  rewrite Hget by lia; unfold left_octet; repeat case_decide; try done; exfalso; subst; intuition lia.

Lemma show_address_run a b c d s : octet a → octet b → octet c → octet d → laid_out s →
  ∃ m, show_address (bytes_of_string (dotted a b c d)) s =
      (Done tt, fset address (MAKEIPADDRESS (left_octet (ap_ip_at s) 0 a) (left_octet (ap_ip_at s) 1 b)
                  (left_octet (ap_ip_at s) 2 c) (left_octet (ap_ip_at s) 3 d)) (fset frame m s)) ∧
    blen m = blen (ap_frame s).
Proof.
  intros Ha Hb Hc Hd (Hl & Hnd & Hm). destruct (ap_ip_at s) as [|p1 [|p2 [|p3 [|p4 [|]]]]] eqn:Hip; try done.
  rewrite !Forall_cons in Hm. destruct Hm as (H1 & H2 & H3 & H4 & _).
  rewrite !NoDup_cons, !elem_of_cons in Hnd. destruct Hnd as (N1 & N2 & N3 & _).
  unfold show_address. unfold bytes_of_string. rewrite String.string_of_list_byte_of_string.
  rewrite scan_dotted_dotted by done. cbn [store_numbers length].
  destruct (store_run a p1 0 s (v ← try Unrepresentable (as_int b); p ← ip_at 1; store32 frame p v;;
    v ← try Unrepresentable (as_int c); p ← ip_at 2; store32 frame p v;;
    v ← try Unrepresentable (as_int d); p ← ip_at 3; store32 frame p v;; mret tt)) as (m1 & E1 & S1 & L1); [done|by rewrite Hip|done|].
  destruct (store_run b p2 1 (fset frame m1 s) (v ← try Unrepresentable (as_int c); p ← ip_at 2; store32 frame p v;;
    v ← try Unrepresentable (as_int d); p ← ip_at 3; store32 frame p v;; mret tt)) as (m2 & E2 & S2 & L2);
    [done|cbn; by rewrite Hip|cbn; by rewrite L1|].
  destruct (store_run c p3 2 (fset frame m2 (fset frame m1 s)) (v ← try Unrepresentable (as_int d); p ← ip_at 3; store32 frame p v;; mret tt))
    as (m3 & E3 & S3 & L3); [done|cbn; by rewrite Hip|cbn in *; by rewrite L2, L1|].
  destruct (store_run d p4 3 (fset frame m3 (fset frame m2 (fset frame m1 s))) (mret tt)) as (m4 & E4 & S4 & L4);
    [done|cbn; by rewrite Hip|cbn in *; by rewrite L3, L2, L1|].
  cbn in L2, L3, L4. change (ap_frame (fset frame m1 s)) with m1 in *. change (ap_frame (fset frame m2 _)) with m2 in *.
  change (ap_frame (fset frame m3 _)) with m3 in *.
  exists m4. split; [|congruence]. rewrite (bind_done _ _ s tt (fset frame m4 s)).
  2:{ etrans; [exact E1|]. etrans; [exact E2|]. etrans; [exact E3|]. etrans; [exact E4|]. done. }
  assert (Hget : ∀ q, 0 ≤ q < blen (ap_frame s) → get_u8 m4 q =
    if decide (q = p4) then Some d else if decide (p4 < q < p4 + 4) then Some 0 else
    if decide (q = p3) then Some c else if decide (p3 < q < p3 + 4) then Some 0 else
    if decide (q = p2) then Some b else if decide (p2 < q < p2 + 4) then Some 0 else
    if decide (q = p1) then Some a else if decide (p1 < q < p1 + 4) then Some 0 else get_u8 (ap_frame s) q).
  { intros q Hq. rewrite (get_store m3 p4 d m4) by (done || lia). rewrite (get_store m2 p3 c m3) by (done || lia).
    rewrite (get_store m1 p2 b m2) by (done || lia). by rewrite (get_store (ap_frame s) p1 a m1) by (done || lia). }
  destruct (overrun_cases p1 p2 p3 p4) as (O1 & O2 & O3 & O4).
  assert (Hload : ∀ k p v, (k < 4)%nat → [p1; p2; p3; p4] !! k = Some p → get_u8 m4 p = Some v →
    load_ip 4 k (fset frame m4 s) = (Done v, fset frame m4 s)).
  { intros k p v Hk Hp Hv. apply (load_ip_run k p); [done|cbn; by rewrite Hip|exact Hv]. }
  rewrite (bind_done _ _ _ _ _ (Hload 0%nat p1 (left_octet [p1; p2; p3; p4] 0 a) ltac:(lia) eq_refl ltac:(win_octet Hget))).
  rewrite (bind_done _ _ _ _ _ (Hload 1%nat p2 (left_octet [p1; p2; p3; p4] 1 b) ltac:(lia) eq_refl ltac:(win_octet Hget))).
  rewrite (bind_done _ _ _ _ _ (Hload 2%nat p3 (left_octet [p1; p2; p3; p4] 2 c) ltac:(lia) eq_refl ltac:(win_octet Hget))).
  by rewrite (bind_done _ _ _ _ _ (Hload 3%nat p4 (left_octet [p1; p2; p3; p4] 3 d) ltac:(lia) eq_refl ltac:(win_octet Hget))).
Qed.

(** ** Reading the settings *)
(** The settings under [KEY] that a dialog can show: address, name, port. *)
Record settings (KEY ADDRESS NAME : string) (a b c d : Z) (n : list byte) (p : Z) (o : OS) : Prop := mkSettings {
  st_address : stored KEY ADDRESS o = Some (bytes_of_string (dotted a b c d) ++ [x00]);
  st_name : stored KEY NAME o = Some (n ++ [x00]);
  st_port : stored KEY "port" o = Some (le_split 4 p);
}.
Definition shown (a b c d : Z) (n : list byte) (p : Z) : Prop :=
  octet a ∧ octet b ∧ octet c ∧ octet d ∧ x00 ∉ n ∧ blen n ≤ 63 ∧ 0 ≤ p < 10 ^ 9.

Lemma queried key v n bs o : stored key v o = Some bs → blen bs ≤ n → RegQueryValue key v n o = Some bs.
Proof. intros Hs Hn. rewrite RegQueryValue_stored, Hs. by rewrite decide_True. Qed.

Lemma string_value_run bs default s : x00 ∉ bs → string_value (Some (bs ++ [x00])) default s = (Done bs, s).
Proof. intros Hb. unfold string_value. by rewrite cstr_of. Qed.

Lemma string_value_lost bs default s : x00 ∉ bs → string_value (Some bs) default s = (Faulted Uninitialised, s).
Proof. intros Hb. unfold string_value. by rewrite cstr_none. Qed.

Lemma port_text_fits p : 0 ≤ p < 10 ^ 9 → blen (bytes_of_string (pretty p)) < 10.
Proof. intros Hp. rewrite blen_bytes_of_string. pose proof (pretty_length 9 p). lia. Qed.

Lemma init_dialog_run KEY ADDRESS NAME DEF COLS a b c d n p s :
  shown a b c d n p → dialog_memory s → RegOpenKey KEY false (ap_os s) = true →
  settings KEY ADDRESS NAME a b c d n p (ap_os s) →
  ∃ s', init_dialog KEY ADDRESS NAME DEF COLS s = (Done true, s') ∧ ap_os s' = ap_os s ∧
    (let at_ := ap_ip_at s in
     ap_address s' = MAKEIPADDRESS (left_octet at_ 0 a) (left_octet at_ 1 b) (left_octet at_ 2 c) (left_octet at_ 3 d)) ∧
    ap_name s' = n ∧ ap_port s' = bytes_of_string (pretty p) ∧ dialog_memory s' ∧ ap_result s' = ap_result s.
Proof.
  intros (Ha & Hb & Hc & Hd & Hn & Hnl & Hp) [Hip Hnb Hpb] Hopen [Hsa Hsn Hsp].
  pose proof (dotted_length a b c d Ha Hb Hc Hd) as Hdl.
  unfold init_dialog. erewrite bind_done by done. cbv beta. change (fget system s) with (ap_os s).
  rewrite Hopen. cbn [negb]. rewrite (queried _ _ _ _ _ Hsa) by (rewrite blen_app, blen_bytes_of_string; cbn [blen length]; unfold blen; cbn [length]; lia).
  rewrite (bind_done _ _ _ _ _ (string_value_run _ _ _ (dotted_text a b c d))).
  destruct (show_address_run a b c d s Ha Hb Hc Hd Hip) as (m & Hshow & Hm). rewrite (bind_done _ _ _ _ _ Hshow).
  set (s1 := fset address _ (fset frame m s)).
  rewrite (queried _ _ _ _ _ Hsn) by (rewrite blen_app; unfold blen in *; cbn [length]; lia).
  rewrite (bind_done _ _ _ _ _ (string_value_run _ _ s1 Hn)). erewrite bind_done by done. cbv beta.
  rewrite (queried _ _ _ _ _ Hsp) by (unfold blen; rewrite length_le_split; lia).
  pose proof (get_le_at 4 [] p [] 0 eq_refl) as Hget. rewrite app_nil_r in Hget. cbn [app] in Hget. rewrite Hget. cbn [try].
  rewrite Z.mod_small by lia. erewrite bind_done by done. cbv beta.
  assert (Hs32 : s32 p = p). { unfold s32. rewrite u32_small by lia. by rewrite decide_True by lia. }
  rewrite Hs32. set (s2 := fset name n s1). pose proof (port_text_fits p Hp) as Hfit.
  assert (Hroom : blen (bytes_of_string (pretty p)) < blen (fget str_port s2)).
  { change (fget str_port s2) with (ap_str_port s). by rewrite Hpb. }
  rewrite (bind_done _ _ _ _ _ (store_cstr_run str_port _ s2 Hroom)).
  erewrite bind_done by (eapply load_cstr_run; [done|apply pretty_Z_text]). cbv beta.
  eexists. split; [reflexivity|]. split_and!; try done. split; try done.
  { unfold laid_out in *. change (ap_ip_at _) with (ap_ip_at s). change (ap_frame _) with m. by rewrite Hm. }
  cbn [ap_str_port fset str_port port columns].
  change (blen (bytes_of_string (pretty p) ++ x00 :: drop (length (bytes_of_string (pretty p)) + 1) (ap_str_port s)) = 10).
  rewrite blen_app. unfold blen in *. cbn [length]. rewrite length_drop. lia.
Qed.

(** ** Writing them *)
Lemma set_value_run KEY v type bs s : ∃ o l,
  set_value KEY v type bs s = (Done tt, fset boxes l (fset system o s)) ∧
  (∀ key' v', (key', v') ≠ (KEY, v) → stored key' v' o = stored key' v' (ap_os s)) ∧
  (∀ key' w, RegOpenKey key' w o = RegOpenKey key' w (ap_os s)) ∧
  ((RegSetValue KEY v type bs (ap_os s)).1 = true → ∃ bs', stored KEY v o = Some bs' ∧ as_stored type bs bs').
Proof.
  pose proof (λ key' v', RegSetValue_other KEY v type bs (ap_os s) key' v') as Ho.
  pose proof (λ key' w, RegSetValue_open KEY v type bs (ap_os s) key' w) as Hw.
  unfold set_value. destruct (RegSetValue KEY v type bs (ap_os s)) as [ok o] eqn:E. cbn [fst snd] in *.
  rewrite (bind_done _ _ s ok (fset system o s)).
  2:{ unfold zoom. change (fget system s) with (ap_os s). by rewrite E. }
  exists o. destruct ok.
  - exists (ap_boxes s). split_and!; [by destruct s|done|done|]. intros _. by eapply RegSetValue_stored.
  - eexists. split; [reflexivity|]. by split_and!.
Qed.

Lemma get_text_run control buffer s `{!LawfulField buffer} :
  x00 ∉ fget control s → blen (fget control s) < blen (fget buffer s) →
  ∃ b, get_text control buffer s = (Done (fget control s), fset buffer b s) ∧ blen b = blen (fget buffer s).
Proof.
  intros Ht Hl. unfold get_text. erewrite bind_done by done. cbv beta.
  rewrite (bind_done _ _ _ _ _ (store_cstr_run buffer _ s Hl)).
  erewrite load_cstr_run; [|apply fget_fset|done]. eexists. split; [done|].
  rewrite blen_app. unfold blen in *. cbn [length]. rewrite length_drop. lia.
Qed.

Lemma save_run KEY a b c d n p s :
  shown a b c d n p → dialog_memory s → RegOpenKey KEY true (ap_os s) = true →
  (∀ v type bs o, (RegSetValue KEY v type bs o).1 = true) →
  ap_address s = MAKEIPADDRESS a b c d → ap_name s = n → ap_port s = bytes_of_string (pretty p) →
  ∃ s' sv nv, save KEY s = (Done tt, s') ∧ ap_result s' = Some IDOK ∧
    stored KEY "server" (ap_os s') = Some sv ∧ as_stored REG_SZ (bytes_of_string (dotted a b c d)) sv ∧
    stored KEY "name" (ap_os s') = Some nv ∧ as_stored REG_SZ n nv ∧
    stored KEY "port" (ap_os s') = Some (le_split 4 p) ∧
    ∀ key v, (key ≠ KEY ∨ v ∉ ["server"; "name"; "port"]%string) → stored key v (ap_os s') = stored key v (ap_os s).
Proof.
  intros (Ha & Hb & Hc & Hd & Hn & Hnl & Hp) [Hip Hnb Hpb] Hopen Hset Hadr Hname Hport.
  unfold save. erewrite bind_done by done. cbv beta. change (fget system s) with (ap_os s). rewrite Hopen. cbn [negb].
  erewrite bind_done by done. cbv beta. change (fget address s) with (ap_address s). rewrite Hadr.
  destruct (ip_parts_make a b c d Ha Hb Hc Hd) as (-> & -> & -> & ->).
  destruct (set_value_run KEY "server" REG_SZ (bytes_of_string (dotted a b c d)) s) as (o1 & l1 & H1 & Ho1 & _ & Hs1).
  destruct (Hs1 (Hset _ _ _ _)) as (sv & Hsv & Hsv'). rewrite (bind_done _ _ _ _ _ H1). set (s1 := fset boxes l1 (fset system o1 s)).
  destruct (get_text_run name name_buffer s1) as (b1 & Hg1 & _).
  { change (x00 ∉ ap_name s). by rewrite Hname. }
  { change (blen (ap_name s) < blen (ap_name_buffer s)). rewrite Hname, Hnb. lia. }
  rewrite (bind_done _ _ _ _ _ Hg1). change (fget name s1) with (ap_name s). rewrite Hname. set (s2 := fset name_buffer b1 s1).
  destruct (set_value_run KEY "name" REG_SZ n s2) as (o2 & l2 & H2 & Ho2 & _ & Hs2).
  destruct (Hs2 (Hset _ _ _ _)) as (nv & Hnv & Hnv'). rewrite (bind_done _ _ _ _ _ H2). set (s3 := fset boxes l2 (fset system o2 s2)).
  pose proof (port_text_fits p Hp) as Hfit.
  destruct (get_text_run port str_port s3) as (b2 & Hg2 & _).
  { change (x00 ∉ ap_port s). rewrite Hport. apply pretty_Z_text. }
  { change (blen (ap_port s) < blen (ap_str_port s)). by rewrite Hport, Hpb. }
  rewrite (bind_done _ _ _ _ _ Hg2). change (fget port s3) with (ap_port s). rewrite Hport. set (s4 := fset str_port b2 s3).
  unfold bytes_of_string at 1. rewrite String.string_of_list_byte_of_string, atoi_pretty by lia.
  erewrite bind_done by done. cbv beta.
  destruct (set_value_run KEY "port" REG_DWORD (le_split 4 p) s4) as (o3 & l3 & H3 & Ho3 & _ & Hs3).
  destruct (Hs3 (Hset _ _ _ _)) as (pv & Hpv & [->|[? _]]); [|done]. rewrite (bind_done _ _ _ _ _ H3).
  exists (fset result (Some IDOK) (fset boxes l3 (fset system o3 s4))), sv, nv.
  change (ap_os (fset result _ _)) with o3. split_and!; try done.
  - rewrite Ho3 by congruence. change (ap_os s4) with o2. rewrite Ho2 by congruence. exact Hsv.
  - rewrite Ho3 by congruence. exact Hnv.
  - intros key v Hkv. rewrite Ho3 by set_solver. change (ap_os s4) with o2. rewrite Ho2 by set_solver.
    change (ap_os s2) with o1. by rewrite Ho1 by set_solver.
Qed.

Lemma shown_left at_ a b c d n p :
  shown a b c d n p → shown (left_octet at_ 0 a) (left_octet at_ 1 b) (left_octet at_ 2 c) (left_octet at_ 3 d) n p.
Proof. intros (?&?&?&?&?). unfold shown. auto 12 using left_octet_octet. Qed.

(** The address that is stored when [a].[b].[c].[d] has been read. *)
Definition address_left (at_ : list Z) (a b c d : Z) : list byte :=
  bytes_of_string (dotted (left_octet at_ 0 a) (left_octet at_ 1 b) (left_octet at_ 2 c) (left_octet at_ 3 d)).

(** Opening the dialog and closing it with OK. *)
Lemma confirmed KEY ADDRESS NAME DEF COLS a b c d n p s :
  shown a b c d n p → dialog_memory s → RegOpenKey KEY false (ap_os s) = true →
  RegOpenKey CLIENT_KEY true (ap_os s) = true → (∀ v type bs o, (RegSetValue CLIENT_KEY v type bs o).1 = true) →
  settings KEY ADDRESS NAME a b c d n p (ap_os s) →
  ∃ s' sv nv, DialogBox (dialog_handler (init_dialog KEY ADDRESS NAME DEF COLS) (save CLIENT_KEY)) [WM_COMMAND IDOK] s = (Done tt, s') ∧
    stored CLIENT_KEY "server" (ap_os s') = Some sv ∧ as_stored REG_SZ (address_left (ap_ip_at s) a b c d) sv ∧
    stored CLIENT_KEY "name" (ap_os s') = Some nv ∧ as_stored REG_SZ n nv ∧
    stored CLIENT_KEY "port" (ap_os s') = Some (le_split 4 p) ∧
    ∀ key v, (key ≠ CLIENT_KEY ∨ v ∉ ["server"; "name"; "port"]%string) → stored key v (ap_os s') = stored key v (ap_os s).
Proof.
  intros Hsh Hm Hr Hw Hset Hst. unfold DialogBox. erewrite bind_done by done. cbv beta. set (s0 := fset result None s).
  destruct (init_dialog_run KEY ADDRESS NAME DEF COLS a b c d n p s0 Hsh) as (s1 & H1 & Ho1 & Ha1 & Hn1 & Hp1 & Hm1 & Hr1); [by destruct Hm|done..|].
  destruct (save_run CLIENT_KEY _ _ _ _ n p s1 (shown_left (ap_ip_at s) a b c d n p Hsh) Hm1)
    as (s2 & sv & nv & H2 & Hres & Hs2); [by rewrite Ho1|done..|].
  exists s2, sv, nv. change (ap_os s0) with (ap_os s) in Ho1. rewrite Ho1 in Hs2. split; [|exact Hs2].
  cbn [dialog_loop]. erewrite bind_done by done. cbv beta. change (fget result s0) with (@None Z). cbv iota.
  cbn [dialog_handler]. rewrite (bind_done _ _ _ _ _ H1). erewrite bind_done by done. cbv beta.
  change (fget result s1) with (ap_result s1). rewrite Hr1. change (ap_result s0) with (@None Z). cbv iota.
  change (IDOK =? IDOK) with true. cbv iota. rewrite bind_assoc, (bind_done _ _ _ _ _ H2). erewrite bind_done by done. cbv beta.
  erewrite bind_done by done. cbv beta. change (fget result s2) with (ap_result s2). by rewrite Hres.
Qed.

(** A string without its NUL cannot be read again. *)
Lemma unterminated KEY ADDRESS NAME DEF COLS a b c d n p sv nv h ok msgs s :
  shown a b c d n p → dialog_memory s → RegOpenKey KEY false (ap_os s) = true →
  h = dialog_handler (init_dialog KEY ADDRESS NAME DEF COLS) ok →
  stored KEY ADDRESS (ap_os s) = Some sv → as_stored REG_SZ (bytes_of_string (dotted a b c d)) sv →
  stored KEY NAME (ap_os s) = Some nv → as_stored REG_SZ n nv →
  sv = bytes_of_string (dotted a b c d) ∨ nv = n → (DialogBox h msgs s).1 = Faulted Uninitialised.
Proof.
  intros (Ha & Hb & Hc & Hd & Hn & Hnl & Hp) [Hip _ _] Hopen -> Hsv Hsv' Hnv Hnv' Hlost.
  pose proof (dotted_length a b c d Ha Hb Hc Hd) as Hdl. pose proof (dotted_text a b c d) as Hdt.
  unfold DialogBox. erewrite bind_done by done. cbv beta. set (s0 := fset result None s).
  cbn [dialog_loop dialog_handler]. erewrite bind_done by done. cbv beta. change (fget result s0) with (@None Z). cbv iota.
  enough (E : (init_dialog KEY ADDRESS NAME DEF COLS s0).1 = Faulted Uninitialised).
  { destruct (init_dialog KEY ADDRESS NAME DEF COLS s0) as [o s1] eqn:Hi. cbn [fst] in E. subst o.
    by rewrite (bind_faulted _ _ _ _ _ Hi). }
  unfold init_dialog. erewrite bind_done by done. cbv beta. change (fget system s0) with (ap_os s). rewrite Hopen. cbn [negb].
  assert (Hlen : ∀ bs v, as_stored REG_SZ bs v → blen v ≤ blen bs + 1).
  { intros bs v [->|[_ ->]]; rewrite ?blen_app; unfold blen; cbn [length]; lia. }
  pose proof (Hlen _ _ Hsv') as Hl1. rewrite blen_bytes_of_string in Hl1. pose proof (Hlen _ _ Hnv') as Hl2.
  rewrite (queried _ _ _ _ _ Hsv) by lia. rewrite (queried _ _ _ _ _ Hnv) by lia.
  destruct (decide (sv = bytes_of_string (dotted a b c d))) as [->|Hne].
  { by rewrite (bind_faulted _ _ _ _ _ (string_value_lost _ _ s0 Hdt)). }
  destruct Hsv' as [Hx|[_ ->]]; [done|]. destruct Hlost as [Hx| ->]; [done|].
  rewrite (bind_done _ _ _ _ _ (string_value_run _ _ s0 Hdt)).
  destruct (show_address_run a b c d s0 Ha Hb Hc Hd Hip) as (l & Hshow & _). rewrite (bind_done _ _ _ _ _ Hshow).
  by rewrite (bind_faulted _ _ _ _ _ (string_value_lost _ _ _ Hn)).
Qed.

(** ** The applet of the client *)
(** C33: opening the dialog and closing it with OK keeps name and port, and of the address
    each octet that no later store of sscanf runs over: with %d each number is stored to
    four bytes from an [unsigned char] on, and an octet that is run over becomes 0.  The
    strings stay as they are as far as the registry adds the NUL that the applet does not
    store with a string; where it does not, one of the two has lost it, and opening the dialog
    again reads a string without an end.  The compiler may lay out the four variables in
    any way - with four bytes for each of them nothing is run over, one after the other
    at descending addresses the first three octets are -, but the last store must not
    reach other variables of the function. *)
Theorem client_applet_roundtrip a b c d n p s :
  shown a b c d n p → dialog_memory s →
  RegOpenKey CLIENT_KEY false (ap_os s) = true → RegOpenKey CLIENT_KEY true (ap_os s) = true →
  (∀ v type bs o, (RegSetValue CLIENT_KEY v type bs o).1 = true) →
  settings CLIENT_KEY "server" "name" a b c d n p (ap_os s) →
  let at_ := ap_ip_at s in
  let kept k v := if decide (overrun at_ k) then 0 else v in
  ∃ s', ClientApplet.CPlApplet [WM_COMMAND IDOK] CPL_DBLCLK s = (Done 0, s') ∧
    (∀ key v, v ∉ ["server"; "name"]%string → stored key v (ap_os s') = stored key v (ap_os s)) ∧
    (settings CLIENT_KEY "server" "name" (kept 0%nat a) (kept 1%nat b) (kept 2%nat c) (kept 3%nat d) n p (ap_os s') ∨
     ∀ msgs s2, ap_os s2 = ap_os s' → dialog_memory s2 → RegOpenKey CLIENT_KEY false (ap_os s2) = true →
       (ClientApplet.CPlApplet msgs CPL_DBLCLK s2).1 = Faulted Uninitialised) ∧
    ((∀ i j x y, at_ !! i = Some x → at_ !! j = Some y → i ≠ j → x + 4 ≤ y ∨ y + 4 ≤ x) →
     ∀ k v, kept k v = v) ∧
    (∀ x v, at_ = [x + 3; x + 2; x + 1; x] → kept 0%nat v = 0 ∧ kept 1%nat v = 0 ∧ kept 2%nat v = 0 ∧ kept 3%nat v = v).
Proof.
  intros Hsh Hm Hr Hw Hset Hst at_ kept.
  destruct (confirmed _ _ _ "Freddy" [] a b c d n p s Hsh Hm Hr Hw Hset Hst) as (s' & sv & nv & Hrun & Hsv & Hsv' & Hnv & Hnv' & Hpv & Ho).
  exists s'. split_and!.
  - unfold ClientApplet.CPlApplet, applet_main, ClientApplet.handler. by rewrite (bind_done _ _ _ _ _ Hrun).
  - intros key v Hv. destruct (decide (key = CLIENT_KEY ∧ v = "port"%string)) as [[-> ->]|Hne].
    + rewrite Hpv. symmetry. apply Hst.
    + apply Ho. destruct (decide (key = CLIENT_KEY)) as [->|]; [right|by left]. set_solver.
  - assert (Hcases : (sv = address_left at_ a b c d ++ [x00] ∧ nv = n ++ [x00]) ∨ (sv = address_left at_ a b c d ∨ nv = n)).
    { destruct Hsv' as [Hx|[_ Hx]], Hnv' as [Hy|[_ Hy]]; auto. }
    destruct Hcases as [[-> ->]|Hlost]; [by left|right]. intros msgs s2 Hos Hm2 Hopen.
    unfold ClientApplet.CPlApplet, applet_main. rewrite <- Hos in Hsv, Hnv.
    pose proof (unterminated _ _ _ _ _ _ _ _ _ n p sv nv ClientApplet.handler _ msgs s2 (shown_left at_ a b c d n p Hsh)
      Hm2 Hopen eq_refl Hsv Hsv' Hnv Hnv' Hlost) as Hf.
    destruct (DialogBox ClientApplet.handler msgs s2) as [o s3] eqn:E. cbn [fst] in Hf. subst o. by rewrite (bind_faulted _ _ _ _ _ E).
  - intros Hapart k v. unfold kept. apply decide_False. by apply apart_no_overrun.
  - intros x v E. unfold kept. rewrite E. destruct (descending_overrun x) as (O1 & O2 & O3 & O4).
    cbv beta. rewrite !decide_True, decide_False by done. done.
Qed.

(** ** The applet of the server *)
(** What keeps the settings of the server. *)
Definition server_kept s s' : Prop :=
  ∀ v, stored ServerApplet.SERVER_KEY v (ap_os s') = stored ServerApplet.SERVER_KEY v (ap_os s).
#[export] Instance server_kept_preorder : PreOrder server_kept.
Proof. split; [by intros s v|]. intros s1 s2 s3 H1 H2 v. by rewrite H2. Qed.
Abbreviation keeps := (respects (λ _, True) server_kept).

Lemma keeps_same {B} (m : M (applet OS) B) :
  (∀ s, (m s).1 ≠ Faulted Diverged ∧ ap_os (m s).2 = ap_os s) → keeps m.
Proof. intros Hm s _. destruct (Hm s) as [Hd Ho]. split_and!; [done|done|]. intros v. by rewrite Ho. Qed.
Lemma keeps_puts {B} (F : field (applet OS) B) a : (∀ s, ap_os (fset F a s) = ap_os s) → keeps (puts F a).
Proof. intros HF. apply keeps_same. intros s. split; [done|apply HF]. Qed.

Lemma keeps_set_value v type bs : keeps (set_value CLIENT_KEY v type bs).
Proof.
  intros s _. destruct (set_value_run CLIENT_KEY v type bs s) as (o & l & -> & Ho & _). split_and!; [done|done|].
  intros v'. by apply Ho.
Qed.
Lemma keeps_modify {B} (F : field (applet OS) B) g : (∀ a s, ap_os (fset F a s) = ap_os s) → keeps (modify F g).
Proof. intros HF. apply keeps_same. intros s. split; [done|apply HF]. Qed.

Lemma keeps_store_array F off bs : (∀ a s, ap_os (fset F a s) = ap_os s) → keeps (store_bytes (S:=applet OS) F off bs).
Proof.
  intros HF. unfold store_bytes. apply respects_bind; [apply _|apply respects_gets, _|intros b].
  apply respects_bind; [apply _|by apply respects_try; [apply _|]|intros b']. by apply keeps_puts.
Qed.
Lemma keeps_load_cstr F off : keeps (load_cstr (S:=applet OS) F off).
Proof.
  unfold load_cstr. apply respects_bind; [apply _|apply respects_gets, _|intros b].
  apply respects_bind; [apply _|by apply respects_try; [apply _|]|intros b']. by apply respects_try; [apply _|].
Qed.

Lemma keeps_ip_at k : keeps (ip_at (OS:=OS) k).
Proof. apply keeps_same. intros s. unfold ip_at. by destruct (ap_ip_at s !! k). Qed.

Ltac keeps_steps := repeat match goal with
  | |- respects _ _ (_ ≫= _) => apply respects_bind; [apply _| |intros ?]
  | |- respects _ _ (if decide _ then _ else _) => case_decide
  | |- respects _ _ (if _ then _ else _) => apply respects_if
  | |- respects _ _ (match ?o with Some _ => _ | None => _ end) => destruct o
  | |- respects _ _ (puts _ _) => by apply keeps_puts
  | |- respects _ _ (modify _ _) => by apply keeps_modify
  | |- respects _ _ (gets _) => apply respects_gets, _
  | |- respects _ _ (mret _) => apply respects_ret, _
  | |- respects _ _ (fail _) => by apply respects_fail; [apply _|]
  | |- respects _ _ (try _ _) => by apply respects_try; [apply _|]
  | |- respects _ _ (ip_at _) => apply keeps_ip_at
  | |- respects _ _ (set_value _ _ _ _) => apply keeps_set_value
  | |- respects _ _ (store_bytes _ _ _) => by apply keeps_store_array
  | |- respects _ _ (load_cstr _ _) => apply keeps_load_cstr
  end.

Lemma keeps_store_numbers k l : keeps (store_numbers k l).
Proof. revert k. induction l as [|v l IH]; intros k; cbn [store_numbers]; unfold store; keeps_steps. apply IH. Qed.

Lemma keeps_init KEY ADDRESS NAME DEF COLS : keeps (init_dialog KEY ADDRESS NAME DEF COLS).
Proof.
  unfold init_dialog, show_address, string_value, load_ip, load, store_cstr, MessageBox. keeps_steps. apply keeps_store_numbers.
Qed.

Lemma keeps_save : keeps (save CLIENT_KEY).
Proof. unfold save, get_text, store_cstr, EndDialog, MessageBox. keeps_steps. Qed.

Lemma keeps_server_applet msgs uMsg : keeps (ServerApplet.CPlApplet msgs uMsg).
Proof.
  assert (Hh : ∀ msg, keeps (ServerApplet.handler msg)).
  { intros [| |id|]; cbn [ServerApplet.handler dialog_handler]; [apply keeps_init|unfold EndDialog; keeps_steps| |keeps_steps].
    unfold ServerApplet.handler, dialog_handler, EndDialog. keeps_steps. apply keeps_save. }
  assert (Hl : ∀ msgs, keeps (dialog_loop ServerApplet.handler msgs)).
  { intros l. induction l as [|m l IH]; cbn [dialog_loop]; keeps_steps; [apply Hh|apply IH]. }
  unfold ServerApplet.CPlApplet, applet_main, DialogBox. destruct uMsg; keeps_steps. apply Hl.
Qed.

(** Whatever is done in the dialog of the server, no setting of the server changes.  Closing it
    with OK stores what it shows, the address the server binds to, its log file and its port, as
    address of the server, name and port of the client of this machine. *)
Theorem server_applet_misses a b c d n p s :
  (∀ msgs uMsg v, stored ServerApplet.SERVER_KEY v (ap_os (ServerApplet.CPlApplet msgs uMsg s).2) =
     stored ServerApplet.SERVER_KEY v (ap_os s)) ∧
  (shown a b c d n p → dialog_memory s →
   RegOpenKey ServerApplet.SERVER_KEY false (ap_os s) = true → RegOpenKey CLIENT_KEY true (ap_os s) = true →
   (∀ v type bs o, (RegSetValue CLIENT_KEY v type bs o).1 = true) →
   settings ServerApplet.SERVER_KEY "bind" "logfile" a b c d n p (ap_os s) →
   ∃ s' sv nv, ServerApplet.CPlApplet [WM_COMMAND IDOK] CPL_DBLCLK s = (Done 0, s') ∧
     stored CLIENT_KEY "server" (ap_os s') = Some sv ∧ as_stored REG_SZ (address_left (ap_ip_at s) a b c d) sv ∧
     stored CLIENT_KEY "name" (ap_os s') = Some nv ∧ as_stored REG_SZ n nv ∧
     stored CLIENT_KEY "port" (ap_os s') = Some (le_split 4 p)).
Proof.
  split.
  - intros msgs uMsg v. by destruct (keeps_server_applet msgs uMsg s I) as (_ & _ & Hk).
  - intros Hsh Hm Hr Hw Hset Hst.
    destruct (confirmed _ _ _ "capi20proxy.log" ["user"; "pass"]%string a b c d n p s Hsh Hm Hr Hw Hset Hst)
      as (s' & sv & nv & Hrun & Hsv & Hsv' & Hnv & Hnv' & Hpv & _).
    exists s', sv, nv. split_and!; try done.
    unfold ServerApplet.CPlApplet, applet_main, ServerApplet.handler. by rewrite (bind_done _ _ _ _ _ Hrun).
Qed.
End applet.

(** * The control panel applets on a concrete registry

    A registry in which every key can be opened, and which adds the NUL of a string. *)
Definition registry : Type := gmap (string * string) (list byte).
Definition with_nul (type : value_type) (bs : list byte) : list byte :=
  match type with REG_SZ => bs ++ [x00] | REG_DWORD => bs end.

#[global] Instance demo_registry : Registry registry := {|
  RegOpenKey := λ key w o, true;
  RegQueryValue := λ key v n o, match (o : registry) !! (key, v) with
                                | Some bs => if decide (blen bs ≤ n) then Some bs else None
                                | None => None
                                end;
  RegSetValue := λ key v type bs o, (true, <[(key, v) := with_nul type bs]> (o : registry));
|}.

#[global, refine] Instance demo_registry_laws : RegistryLaws registry := {|
  stored := λ key v o, (o : registry) !! (key, v);
|}.
Proof.
  - done.
  - intros key v type bs o o' Hset. cbn in Hset. injection Hset as <-. exists (with_nul type bs).
    split; [apply lookup_insert_eq|]. destruct type; [by right|by left].
  - done.
  - intros key v type bs o key' v' Hne. apply lookup_insert_ne. congruence.
  - done.
Defined.

Definition demo_settings (key addr nm : string) (n : list byte) : registry :=
  <[(key, addr) := bytes_of_string (dotted 10 0 0 5) ++ [x00]]> (<[(key, nm) := n ++ [x00]]>
    (<[(key, "port"%string) := le_split 4 6674]> ∅)).
Definition demo_applet (o : registry) : applet registry := {|
  ap_os := o;
  ap_frame := replicate 16 x00;
  ap_ip_at := [0; 4; 8; 12];
  ap_name_buffer := replicate 64 x00;
  ap_str_port := replicate 10 x00;
  ap_address := 0; ap_name := []; ap_port := []; ap_columns := []; ap_result := None; ap_boxes := []; ap_info := None;
|}.

Lemma demo_dialog_memory o : dialog_memory (demo_applet o).
Proof.
  split; [split; [done|]|done|done]. split; [apply (bool_decide_unpack _); vm_compute; exact I|].
  repeat constructor; eval_le.
Qed.

Lemma demo_shown n : bool_decide (x00 ∉ n) = true → (blen n <=? 63) = true → shown 10 0 0 5 n 6674.
Proof.
  intros Hn%bool_decide_eq_true Hl%Z.leb_le. unfold shown, octet. split_and!; try done; lia.
Qed.

Lemma demo_settings_ok key addr nm n :
  addr ≠ nm → addr ≠ "port"%string → nm ≠ "port"%string →
  settings key addr nm 10 0 0 5 n 6674 (demo_settings key addr nm n).
Proof.
  intros H1 H2 H3. unfold demo_settings. split.
  - apply lookup_insert_eq.
  - etrans; [apply lookup_insert_ne; congruence|]. apply lookup_insert_eq.
  - do 2 (etrans; [apply lookup_insert_ne; congruence|]). apply lookup_insert_eq.
Qed.

Definition pc : list byte := bytes_of_string "pc".

Lemma client_applet_roundtrip_witness :
  ∃ s', ClientApplet.CPlApplet [WM_COMMAND IDOK] CPL_DBLCLK (demo_applet (demo_settings CLIENT_KEY "server" "name" pc)) = (Done 0, s') ∧
    stored CLIENT_KEY "port" (ap_os s') = Some (le_split 4 6674).
Proof.
  destruct (client_applet_roundtrip 10 0 0 5 pc 6674 (demo_applet (demo_settings CLIENT_KEY "server" "name" pc)))
    as (s' & Hrun & Hk & _).
  - apply demo_shown; vm_compute; reflexivity.
  - apply demo_dialog_memory.
  - reflexivity.
  - reflexivity.
  - intros. reflexivity.
  - apply demo_settings_ok; discriminate.
  - exists s'. split; [exact Hrun|]. rewrite Hk by (apply (bool_decide_unpack _); vm_compute; exact I). reflexivity.
Defined.

Lemma server_applet_misses_witness :
  ∃ s', ServerApplet.CPlApplet [WM_COMMAND IDOK] CPL_DBLCLK
      (demo_applet (demo_settings ServerApplet.SERVER_KEY "bind" "logfile" pc)) = (Done 0, s') ∧
    stored CLIENT_KEY "port" (ap_os s') = Some (le_split 4 6674).
Proof.
  destruct (server_applet_misses 10 0 0 5 pc 6674 (demo_applet (demo_settings ServerApplet.SERVER_KEY "bind" "logfile" pc)))
    as [_ H]. destruct H as (s' & sv & nv & Hrun & _ & _ & _ & _ & Hp).
  - apply demo_shown; vm_compute; reflexivity.
  - apply demo_dialog_memory.
  - reflexivity.
  - reflexivity.
  - intros. reflexivity.
  - apply demo_settings_ok; discriminate.
  - exists s'. split; [exact Hrun|exact Hp].
Defined.
